(* ===== verification/_CoqProject ===== *)
-Q . S2P
Prelude.v
Fifo.v
LfFifo.v
Termios.v
Tty.v
TtyDisc.v
TtyInput.v
TtyOutput.v
TtySession.v
Rmap.v
HidMouse.v
HidMouseCorrect.v
ShmSrv.v
ShmSrvCorrect.v
LibRtt.v
LibRttCorrect.v
Nmea.v
NmeaParse.v
V3daSched.v
V3daSchedCorrect.v
V3daFences.v
V3daWitness.v
V3daPool.v
V3daBo.v
V3daBoCore.v
V3daBoOps.v
V3daBoTable.v
V3daBoCorrect.v
V3daBoSpec.v
V3daBoWitness.v
Slices.v
Vt.v
VtCells.v
VtSafe.v
VtCorrect.v
VtText.v
VtView.v
VtSeq.v
VtTty.v
VtWitness.v
ErrState.v
ByteArray.v
Nor.v
Sectors.v
FlashRt.v
FlashRtCorrect.v
FlashSrv.v
FlashSrvCorrect.v
NorChip.v
NorChipCorrect.v
FlashWitness.v
FlashGr.v
FlashGrCorrect.v
FlashGrWitness.v
EventQueue.v
Kbd.v
KbdCorrect.v
KbdWitness.v
V3daGpu.v
V3daJobs.v
V3daGpuFrame.v
V3daChunks.v
V3daQueues.v
V3daDone.v
V3daOrder.v
V3daRun.v
V3daTick.v
V3daClose.v
V3daSubmit.v
V3daRequest.v
V3daSubmitCl.v
V3daServe.v
V3daBoot.v
V3daSystem.v
V3daJobsWitness.v
