(* ===== verification/Prelude.v ===== *)
(** * A verification of phoenix-rtos-devices

    phoenix-rtos-devices is the collection of user-space device drivers and servers of
    Phoenix-RTOS. Most of it drives registers of one device; what the programs above
    rely on are the libraries and servers with state and protocols of their own. This
    development models those as Rocq functions on explicit states and proves what makes
    them correct.

    ** Parts, and how they fit together

    - Terminals ([src/tty/libtty]). Every UART driver links libtty: the interrupt side
      pushes received bytes ([libtty_putchar]), the message loop calls [libtty_read],
      [libtty_write], [libtty_poll_status] and [libtty_ioctl]. [Fifo.v] is the byte ring
      of [fifo.h], [LfFifo.v] the lock-free ring of [libtty-lf-fifo.h], [Termios.v] the
      attributes and their defaults, [Tty.v] every operation of [libtty.c] and
      [libtty_disc.c] on [libtty_common_t]. Theorems: [Fifo.v] (the ring is a bounded
      queue, which loses its bytes by a push when full; libtty is proved against these lemmas),
      [LfFifo.v] (linearizability of the ring under interrupts), [TtyDisc.v]
      (discipline), [TtyInput.v] (editing, canonical reads), [TtyOutput.v] (writes, raw
      reads, poll), [TtySession.v] (controlling terminal, ioctls, and the invariant of
      every reachable terminal).
    - PC virtual terminals ([src/tty/pc-tty]): the VT220 emulator of the console is the
      driver below a libtty discipline. [Vt.v] models its state ([ttypc_vt_t]), the cell
      operations of [ttypc_vga.c], the functions of [ttypc_vtf.c] and the character
      dispatch [_ttypc_vt_sput] of [ttypc_vt.c]; [VtTty.v] the driver with libtty (write,
      transmit callback, answers). Theorems: [VtCells.v] (loops on cells), [VtSafe.v] and
      [VtCorrect.v] (invariant, the characters that keep it, streams), [VtText.v] (the
      screen memory implements a terminal of lines), [VtView.v] (scrolling back),
      [VtSeq.v] (whole escape sequences), [VtTty.v] (writes reach the screen);
      [VtWitness.v] is a small terminal. The console's input: [EventQueue.v] is the queue
      of raw events ([event_queue.c]) with the requests of the keyboard and mouse devices,
      and its theorems; [Kbd.v] the key map and scancode machine of [ttypc_kbd.c], which
      feeds the terminals through libtty, scrolls and switches them; [KbdCorrect.v] proves
      it, [KbdWitness.v] is a console of four terminals.
    - i.MX RT flash ([src/storage/imxrt-flash]): a server ([flashsrv.c]) with raw
      partitions over a driver ([flashdrv.c]) that keeps one sector in a write-back buffer,
      over the commands of a NOR chip ([nor.c]). [Nor.v] is the interface of the chip, its
      laws (programming clears bits, erasing sets them, reads up to a limit return the contents) and an ideal chip; [FlashRt.v] the
      driver, [FlashRtCorrect.v] its refinement of an array of bytes; [FlashSrv.v] the
      requests of the server, [FlashSrvCorrect.v] partitions and checksums. [NorChip.v] is
      [nor.c] itself and the dispatch of transfers of [fspi.c] ([flexspi_xferExec]), over the interface of the IP commands and
      the AHB window of a FlexSPI controller with a chip behind it; reads of more than 0xffff bytes go through the window,
      whose contents may be cached, and nothing is promised of them;
      [NorChipCorrect.v] derives the laws of [Nor.v] from those of data sheets, so that the
      driver's theorem holds down to the transfers on the bus. [FlashWitness.v] is a small
      chip with two partitions, and a chip on a bus that is busy after each command.
    - GR716 flash ([src/storage/gr716-flash/flashdrv.c]): [FlashGr.v], a second driver over
      the interface [Nor.v], [FlashGrCorrect.v] and [FlashGrWitness.v]. Both drivers use
      [ErrState.v] (a monad of state and errors), [ByteArray.v] (arrays of bytes as the
      abstract device, simulation of sessions), [Sectors.v] (addresses of sectors) and
      [Slices.v] (slices of lists, used for the terminal and the event queue, too).
    - SpaceWire RMAP packets ([src/spacewire/librmap]): [Rmap.v], builder and parser,
      with round trips against the target's side of the standard.
    - USB mouse ([src/tty/usbmouse/hidmouse.c]): [HidMouse.v] (descriptor parser,
      configuration walk, report translation), [HidMouseCorrect.v].
    - Shared-memory server ([src/misc/shmsrv]): [ShmSrv.v] (the message handler,
      and the stores of clients through the windows they are given), [ShmSrvCorrect.v].
    - RTT pipes ([src/librtt]): [LibRtt.v], [LibRttCorrect.v]; the queue of a pipe is
      described with the ring lemmas of [Fifo.v].
    - NMEA receiver ([src/sensors/common/gps/nmea.c]): [Nmea.v], the frame scanner over
      a stream cut into arbitrary pieces; [NmeaParse.v], the parsers of sentences, against a
      reference that cuts the text at its commas (floating point is a parameter).
    - The V3D render server ([src/gpu/rpi4-v3d-async]). Clients send requests to dispatch
      threads; an event thread completes jobs. [V3daSched.v] models fences, clients,
      syncobjs and parked waits ([v3da_sched.c], parts of [v3da_main.c]);
      [V3daSchedCorrect.v] and [V3daFences.v] prove them, [V3daWitness.v] is a run.
      [V3daPool.v] models the block pool and the placement below 1 GiB ([v3da_pool.h],
      [v3da_lowmem.h]); [V3daBo.v] the buffer objects ([v3da_bo.c]), GPU addresses, page
      table and TLB ([v3da_hw.c]), on top of both; its fences are those of
      [V3daSched.v]. [V3daBoCore.v] is the invariant of memory and page table,
      [V3daBoOps.v] and [V3daBoTable.v] prove that every operation keeps it and the
      table of BOs, [V3daBoCorrect.v] the theorems about all reachable states,
      [V3daBoSpec.v] those about single requests, [V3daBoWitness.v] a run.
      On top of both, the jobs. [V3daGpu.v] is the whole state of the server, the interrupt
      handler and the register sequences of [v3da_hw.c]; [V3daJobs.v] is [v3da_jobs.c]
      (submission, FIFOs, scheduler, kicks, completion, overflow memory of the binner,
      watchdog, flips, modes), [client_close] of [v3da_main.c] and a round of
      [v3da_event_thread]. Their proofs: [V3daGpuFrame.v] (a weakest precondition, and what
      register sequences leave alone), [V3daChunks.v] (owners of overflow chunks),
      [V3daQueues.v] (invariant of FIFOs and job links), [V3daDone.v] (jobs start, end and are
      dropped), [V3daOrder.v] (the joint invariant, and the order of fences), [V3daRun.v]
      (reset and scheduler), [V3daTick.v] (events and watchdog), [V3daClose.v] (clients go and
      come), [V3daSubmit.v] and [V3daSubmitCl.v] (submission), [V3daRequest.v] (the layout of
      a submission and its faults, independent of the code that checks it), [V3daServe.v] (the other
      requests and the event thread), [V3daBoot.v] (the start). [V3daSystem.v] puts all
      operations of the server in any order, with the buffers as any step that keeps what the
      jobs rely on ([bkeep]), and states the theorems; [V3daJobsWitness.v] runs it.

    ** Conventions

    This file holds what all parts share: machine integers (a value of width [w] is a
    [Z]; [u8] ... [u64], [s8], [s32] are the conversions, [&&&], [|||], [<<<], [>>>] the
    bit operations of the scope [c_scope]), arrays, [cres] for results that are a value
    or [-errno], the tactics [case_if], [bsimp], [divlia] and the hint database of
    integer ranges, and lemmas on bits, division and lists.

    State is passed explicitly. Where the code can leave a buffer, follow a bad pointer
    or read beyond a descriptor, the model's result is [None] there, and theorems show
    that it is not. Calls that leave a component are recorded as events in its state
    (terminal, shared memory, RTT cache operations) or are parameters: what the kernel
    answers ([Tty.kernel], [ShmSrv.env], [V3daBo.import_env]), the constants of
    libphoenix's headers (the class [Termios.Abi] with the laws [AbiLaws]), and the
    memory system of the V3D server (the class [V3daBo.Kernel], with the laws
    [V3daBoCore.KernelLaws]: anonymous mappings are disjoint from all others and below 2^40, [va2pa] is truthful, a zeroed
    mapping is zero; [V3daBoWitness.v] has an instance), the GPU (the class [V3daGpu.Device],
    without any law: its registers answer as they like, and interrupts come as often as they
    like before every access to them or to the words they share), the flash chip (the class [Nor.Nor]
    with the laws [NorLaws]; below it the controller, [NorChip.FlexSpi] with the laws
    [FlexSpiLaws]), the width of [off_t] and constants of [fcntl.h]
    ([FlashSrv.OffT], [FlashSrv.Platform]). Conditions of
    the kernel are sticky (as [rpi4-wifi.c] describes them): a signal that nobody waits for makes the
    next [condWait] return at once. A blocking wait releases a
    lock: what other threads do meanwhile is a list of state transformers ([wakes] in
    [Tty.v]) or a step of the interleaving relation ([step] in [LfFifo.v],
    [V3daSchedCorrect.v], [V3daBoCorrect.v] and [V3daSystem.v]); critical sections are atomic
    but for the interrupt handler of the GPU.

    Widths and ABIs: [unsigned int] has 32 bits everywhere; [char] is unsigned, but for the
    PC terminal, where its sign is a parameter ([Vt.CharSign]); [size_t] has 64 bits in the
    servers and 32 in librtt and the i.MX RT flash (Cortex-M) and the PC terminal (ia32). Heap
    nodes of the V3D waits and jobs are keys of a map, 0 is [NULL]. Sequence numbers of fences are
    taken to stay below 2^64 ([V3daSystem.allowed]). The ghost field [ever_reset] of the
    job counters records that the GPU was reset; the ghost fields of
    the page-table model are read by no operation but the flush: [stale] records which overwritten entries
    the TLB may still hold, [flushes] which of the coming flushes complete (the polls of a flush may be given up,
    and the code goes on), [late] that the last one did not.

    Loops are structural where the code's are bounded by a list. Fuel is used where they
    are not: the search and erasure loops over a ring get the number of its bytes; the
    descriptor parser of [HidMouse.v] and the walk over waits of [V3daSched.v] get the
    length of the data or the size of the heap, each iteration consuming an element; the
    waiting loop of [NorChip.v], which nothing bounds in the code, gets the number [patience] of
    polls, which the laws of the chip say is enough (its result is [None] else); the
    scanner of [Nmea.v] gets a measure of unread input and state; the doubling loops of
    [ShmSrv.v] and [V3daPool.v] get the number of bits, the trim loops the number of
    blocks; the loops over overflow chunks in [V3daJobs.v] get one more than the pool can have,
    those over FIFOs one more than the jobs, the bounded polls of registers the code's own bounds. Termination theorems and lemmas show that this is enough, so
    that running out of fuel is no case of any other theorem.

    ** What the theorems show

    - Refinement and equivalence: both rings are bounded queues, in every sequence of
      operations (the byte ring loses its contents by a push when full) and every interleaving; the wait lists with pointers are lists; field
      extraction is a bit slice; poll agrees with read and write; sentences are read as by a
      reference parser; the screen memory with its offsets is a terminal of lines, what is
      written through libtty appears on it, and the scrollback view is a window of its text; both
      buffered flash drivers are arrays of bytes that a sync puts on the chip, the one of the
      i.MX RT from the probe of the chip on and down to the bus; the event queue is a bounded
      queue; modifier and lock keys are what a decoder of the scancodes that looks at nothing
      else says.
    - Invariants of all reachable states: terminal, console emulator, shared-memory table, parked waits
      (each answered at most once, none lost), BO table (references, handles, budgets); jobs and
      queues of the V3D server (no operation follows a freed job or runs on for ever, each
      overflow chunk has one owner, and, without a reset, a fence is signaled when and only when its
      job is gone).
    - Isolation: no entry of the GPU's page table, nor of its TLB unless a flush was given up, reaches memory of another BO,
      of the pool or memory given back (as long as imported buffers lie below 2^40, the addresses an entry can hold); a terminal is not read or changed by foreign sessions;
      untrusted descriptors and packets are not read out of bounds; the characters that take
      the console emulator out of its buffers or its cursor off the screen are named exactly;
      writes to a flash partition change nothing outside it (direct writes do); no chip is
      programmed or erased that did not report, in its last status, that it is ready and
      writable.
    - Functional behaviour: line editing, canonical and raw reads, blocking writes,
      session life cycle, packet and report contents, truncation, reads and writes of
      shared objects, fences and syncobjs, BO creation and closing, implicit
      synchronisation, pool trimming and placement; submissions of jobs, and what a run of the
      scheduler starts; reads of the mouse device are whole
      packets.
    - Round trips: typed lines, from scancodes and from bytes, RMAP commands and replies, shared-memory contents, cursor
      reports and saved cursors.
    - Liveness and termination: a blocking write ends when others make room; the watchdog takes
      every job off the GPU after ten seconds; the NMEA
      scanner and the descriptor parser end on every input.
    Where the code departs from what it means to do, a theorem states what it does (a
    read past the end after a receive overrun, a packet builder one byte too long, RTT
    overwriting, error reports of fences, cursor reports of row 10, saved attributes, a flash sector of ones that is not stored, reads that miss
    buffered bytes of a later sector, strokes of a key that are lost, a GPU fence that is
    signaled and then is not, a mode that a refused request changes).

    ** Not modelled

    The drivers of single devices (UART, SPI, I2C, GPIO, DMA, storage, USB hosts, PCIe,
    video, audio, wireless): sequences of register accesses whose meaning is the
    device's. Of the V3D server, the power and clock sequences of a reset (one step of the
    device), turning interrupts on, the self-test at the start, SCANOUT_INFO, the pixel samples
    of flips, the debug requests and the parameter table ([v3da_param.c]), and the unpacking of
    messages in [v3da_main.c]; of its BO manager the debug checksum, the name
    lookup and attribute replies of the name space thread, and printing. Of the PC console,
    the ports of the keyboard controller (LED commands, initialisation) and frame buffer pixels
    (drawn characters and cursor registers are events), and the echo of answers: the discipline's echo would run the emulator again
    within the sequence it answers; the theorems on answers are for disciplines without
    echo. Of the flash server, mounting, meterfs partitions and the partition table (they
    call libraries outside the repository), and the registers of the FlexSPI controller
    (the rest of [fspi.c]); of the GR716 flash, its chip commands, SPI controller and server. Memory barriers and caches are modelled
    only where the code's result depends on them (the lock-free ring's order of
    accesses, librtt's cache ranges). *)

From stdpp Require Export base tactics numbers list gmap strings.
From Stdlib Require Export ZArith Lia.
#[global] Open Scope Z_scope.

(** * C integers *)

Declare Scope c_scope.
Delimit Scope c_scope with C.
Infix "&&&" := Z.land (at level 40, left associativity) : c_scope.
Infix "|||" := Z.lor (at level 50, left associativity) : c_scope.
Infix "<<<" := Z.shiftl (at level 35, no associativity) : c_scope.
Infix ">>>" := Z.shiftr (at level 35, no associativity) : c_scope.
#[global] Open Scope c_scope.

(** Conversions to the unsigned types of the given width, and to the signed
    ones (two's complement). *)
Definition u8 (x : Z) : Z := x mod 2 ^ 8.
Definition u16 (x : Z) : Z := x mod 2 ^ 16.
Definition u32 (x : Z) : Z := x mod 2 ^ 32.
Definition u64 (x : Z) : Z := x mod 2 ^ 64.
Definition s8 (x : Z) : Z := (x + 2 ^ 7) mod 2 ^ 8 - 2 ^ 7.
Definition s32 (x : Z) : Z := (x + 2 ^ 31) mod 2 ^ 32 - 2 ^ 31.

(** [~x] on an unsigned type of width [w]. *)
Definition lnot_w (w x : Z) : Z := Z.lxor x (2 ^ w - 1).

(** [(x & mask) != 0]. *)
Definition has (x mask : Z) : bool := negb (Z.land x mask =? 0).

Definition is_byte (b : Z) : Prop := 0 <= b < 256.

(** C's [bool]-to-[int]. *)
Definition of_bool (b : bool) : Z := if b then 1 else 0.

(** * Arrays

    An array is a list; an index is a [Z]. [arr_get]/[arr_set] are used where
    the code's index is proved to be in range (a theorem of the component says
    so); [buf_get] makes an access outside the buffer observable as [None]. *)
Definition arr_get (l : list Z) (i : Z) : Z := l !!! Z.to_nat i.
Definition arr_set (l : list Z) (i v : Z) : list Z := <[Z.to_nat i := v]> l.
Definition buf_get {A} (l : list A) (i : Z) : option A :=
  if bool_decide (0 <= i) then l !! Z.to_nat i else None.
Definition zlen {A} (l : list A) : Z := Z.of_nat (length l).

(** * Errors

    The [errno] values the modelled code returns. A C function that returns a
    non-negative value or [-errno] is modelled with result type [cres]. *)
Inductive errno :=
  | EINVAL | ENOMEM | ENOENT | EFBIG | EPROTO | ENOSYS | EBADF | EPIPE
  | EWOULDBLOCK | ENOTTY | EPERM | EIO | ENODEV | ETIMEDOUT | EOTHER (n : Z).

Inductive cres (A : Type) :=
  | Ok (a : A)
  | Err (e : errno).
Arguments Ok {A} a.
Arguments Err {A} e.

#[export] Instance errno_eq_dec : EqDecision errno.
Proof. solve_decision. Defined.
#[export] Instance cres_eq_dec `{EqDecision A} : EqDecision (cres A).
Proof. solve_decision. Defined.

Definition is_ok {A} (r : cres A) : bool :=
  match r with Ok _ => true | Err _ => false end.

(** * Automation *)

(** [lia] with [div]/[mod] by constants. *)
Ltac divlia := Z.div_mod_to_equations; lia.

(** Turn every boolean comparison of the context into a proposition. *)
Ltac bsimp :=
  repeat match goal with
  | H : _ && _ = true |- _ => apply andb_true_iff in H as [? ?]
  | H : _ || _ = false |- _ => apply orb_false_iff in H as [? ?]
  | H : negb _ = true |- _ => apply negb_true_iff in H
  | H : negb _ = false |- _ => apply negb_false_iff in H
  | H : (_ =? _) = true |- _ => apply Z.eqb_eq in H
  | H : (_ =? _) = false |- _ => apply Z.eqb_neq in H
  | H : (_ <? _) = true |- _ => apply Z.ltb_lt in H
  | H : (_ <? _) = false |- _ => apply Z.ltb_ge in H
  | H : (_ <=? _) = true |- _ => apply Z.leb_le in H
  | H : (_ <=? _) = false |- _ => apply Z.leb_gt in H
  | H : bool_decide _ = true |- _ => apply bool_decide_eq_true_1 in H
  | H : bool_decide _ = false |- _ => apply bool_decide_eq_false_1 in H
  end.

(** Case analysis on the outermost test of the goal or of a hypothesis. *)
Ltac case_if :=
  match goal with
  | |- context [if ?b then _ else _] => destruct b eqn:?
  | H : context [if ?b then _ else _] |- _ => destruct b eqn:?
  end.
Ltac case_ifs := repeat (case_if; bsimp; simplify_eq/=).

(** Read a literal position of an explicit list. *)
Ltac buf_lit :=
  repeat (match goal with
  | |- context [buf_get (?x :: ?l) ?i] =>
      let n := eval compute in (Z.to_nat i) in
      let o := eval cbn [lookup list_lookup] in ((x :: l) !! n) in
      change (buf_get (x :: l) i) with o
  end; cbn [mbind option_bind]).

Create HintDb c_arith.

(** * Lemmas on masks *)

Lemma u32_range x : 0 <= u32 x < 2 ^ 32.
Proof. apply Z.mod_pos_bound. lia. Qed.

Lemma u8_range x : is_byte (u8 x).
Proof. unfold is_byte, u8. pose proof (Z.mod_pos_bound x (2 ^ 8)). lia. Qed.

Lemma u8_small x : is_byte x -> u8 x = x.
Proof. unfold is_byte, u8. intros. apply Z.mod_small. lia. Qed.

Lemma u32_small x : 0 <= x < 2 ^ 32 -> u32 x = x.
Proof. apply Z.mod_small. Qed.

(** Masking with [2^k - 1] is reduction modulo [2^k]. *)
Lemma land_mask x k : 0 <= k -> Z.land x (2 ^ k - 1) = x mod 2 ^ k.
Proof.
  intros. rewrite <- Z.land_ones by lia. f_equal. rewrite Z.ones_equiv. lia.
Qed.

(** Wrapping to 32 bits first does not change a masked value. *)
Lemma land_mask_u32 x k : 0 <= k <= 32 -> Z.land (u32 x) (2 ^ k - 1) = x mod 2 ^ k.
Proof.
  intros. rewrite land_mask by lia. unfold u32.
  rewrite Z.mod_mod_divide; [done |].
  exists (2 ^ (32 - k)). rewrite <- Z.pow_add_r by lia. f_equal. lia.
Qed.

Lemma pow2_pos k : 0 <= k -> 0 < 2 ^ k.
Proof. intros. apply Z.pow_pos_nonneg; lia. Qed.

#[export] Hint Resolve u32_range u8_range pow2_pos : c_arith.

(** Modular arithmetic on ring indices. *)
Lemma mod_add_cases a b n :
  0 <= a < n -> 0 <= b <= n ->
  (a + b) mod n = if a + b <? n then a + b else a + b - n.
Proof.
  intros. destruct (a + b <? n) eqn:?; bsimp.
  - apply Z.mod_small. lia.
  - symmetry. apply Z.mod_unique with 1; lia.
Qed.

Lemma mod_sub_cases a b n :
  0 <= a < n -> 0 <= b <= n ->
  (a - b) mod n = if b <=? a then a - b else a - b + n.
Proof.
  intros. destruct (b <=? a) eqn:?; bsimp.
  - apply Z.mod_small. lia.
  - symmetry. apply Z.mod_unique with (-1); lia.
Qed.

(** The test [x & (x - 1)] recognises the powers of two. *)
Lemma pow2_test x :
  0 < x -> Z.land x (x - 1) = 0 -> x = 2 ^ Z.log2 x.
Proof.
  intros Hx H0. destruct (Z.log2_spec x Hx) as [Hlo Hhi]. pose proof (Z.log2_nonneg x) as Hn.
  destruct (decide (x = 2 ^ Z.log2 x)) as [|Hne]; [done|exfalso].
  assert (Hb : Z.testbit (Z.land x (x - 1)) (Z.log2 x) = true).
  { rewrite Z.land_spec. rewrite Z.bit_log2 by done. cbn.
    rewrite <- (Z.log2_unique (x - 1) (Z.log2 x)) at 1 by lia. apply Z.bit_log2. 
    pose proof (pow2_pos (Z.log2 x) Hn). lia. }
  rewrite H0, Z.bits_0 in Hb. done.
Qed.

Lemma byte_land x : x &&& 0xff = x mod 256.
Proof. apply (land_mask x 8). lia. Qed.

(** Disjoint bits: the code's [|] on shifted bytes is a sum. *)
Lemma lor_shift a b k : 0 <= k -> 0 <= b < 2 ^ k -> (a <<< k) ||| b = a * 2 ^ k + b.
Proof.
  intros Hk Hb. rewrite Z.shiftl_mul_pow2 by done.
  assert (Hd : Z.land (a * 2 ^ k) b = 0).
  { apply Z.bits_inj'. intros n Hn. rewrite Z.land_spec, Z.bits_0. destruct (Z.lt_ge_cases n k).
    - by rewrite Z.mul_pow2_bits_low.
    - rewrite <- (Z.mod_small b (2 ^ k)) by done. by rewrite Z.mod_pow2_bits_high, andb_false_r by lia. }
  by rewrite <- Z.lxor_lor, <- Z.add_nocarry_lxor.
Qed.

Lemma lor_range a b k : 0 <= k -> 0 <= a < 2 ^ k -> 0 <= b < 2 ^ k -> 0 <= a ||| b < 2 ^ k.
Proof.
  intros Hk Ha Hb. assert (E : (a ||| b) mod 2 ^ k = a ||| b).
  { rewrite <- land_mask by done. rewrite Z.land_lor_distr_l, !land_mask by done.
    by rewrite !Z.mod_small. }
  rewrite <- E. apply Z.mod_pos_bound. by apply pow2_pos.
Qed.

Lemma land_range a b k : 0 <= k -> 0 <= b < 2 ^ k -> 0 <= a &&& b < 2 ^ k.
Proof.
  intros Hk Hb. assert (E : (a &&& b) mod 2 ^ k = a &&& b).
  { rewrite <- land_mask by done. rewrite <- Z.land_assoc, land_mask by done. by rewrite Z.mod_small. }
  rewrite <- E. apply Z.mod_pos_bound. by apply pow2_pos.
Qed.

(** * Lemmas on arrays *)

Lemma arr_get_byte l i : Forall is_byte l -> is_byte (arr_get l i).
Proof.
  intros Hl. unfold arr_get. rewrite list_lookup_total_alt.
  destruct (l !! Z.to_nat i) eqn:E; cbn; [by eapply Forall_lookup_1|].
  unfold is_byte. vm_compute. split; congruence.
Qed.

Lemma length_arr_set l i v : length (arr_set l i v) = length l.
Proof. apply length_insert. Qed.

Lemma zlen_app {A} (l k : list A) : zlen (l ++ k) = zlen l + zlen k.
Proof. unfold zlen. rewrite length_app. lia. Qed.

Lemma arr_get_set_eq l i v : 0 <= i < zlen l -> arr_get (arr_set l i v) i = v.
Proof.
  unfold arr_get, arr_set, zlen. intros.
  apply list_lookup_total_insert_eq. lia.
Qed.

Lemma arr_get_set_ne l i j v :
  0 <= i -> 0 <= j -> i <> j -> arr_get (arr_set l i v) j = arr_get l j.
Proof.
  unfold arr_get, arr_set. intros.
  apply list_lookup_total_insert_ne. lia.
Qed.

Lemma buf_get_Some {A} (l : list A) i :
  0 <= i < zlen l -> is_Some (buf_get l i).
Proof.
  unfold buf_get, zlen. intros. rewrite bool_decide_eq_true_2 by lia.
  apply lookup_lt_is_Some. lia.
Qed.

Lemma buf_get_inv {A} (l : list A) i x :
  buf_get l i = Some x -> 0 <= i < zlen l /\ x ∈ l.
Proof.
  unfold buf_get, zlen. intros H. case_bool_decide; [|done]. split.
  - apply lookup_lt_Some in H. lia.
  - apply list_elem_of_lookup. eauto.
Qed.

(** Byte lists by computation. *)
Lemma bytes_ok l : forallb (fun b => (0 <=? b) && (b <? 256)) l = true -> Forall is_byte l.
Proof.
  induction l as [|b l IH]; cbn; intros H; [done|]. bsimp. constructor; [|auto]. done.
Qed.
