(* ===== verification/Fifo.v ===== *)
(** * The byte ring buffer of libtty ([src/tty/libtty/fifo.h])

    [fifo] is [struct fifo_s]; every operation of the header is a definition of
    the same name. [contents] is the abstract value: the bytes between [tail]
    (oldest) and [head] (next free slot). The lemmas of this file state each
    operation as an operation on that list; libtty is verified against them. *)

From S2P Require Import Prelude.

Module Fifo.

Record fifo := mk_fifo {
  head : Z;       (* unsigned int *)
  tail : Z;       (* unsigned int *)
  size_mask : Z;  (* unsigned int *)
  data : list Z   (* uint8_t data[] *)
}.

(** [fifo_init]: the flexible array keeps whatever [malloc] left in it. *)
Definition fifo_init (f : fifo) (size : Z) : fifo :=
  mk_fifo 0 0 (u32 (size - 1)) (data f).

Definition fifo_remove_all (f : fifo) : fifo :=
  mk_fifo 0 0 (size_mask f) (data f).

Definition fifo_remove_all_but_one (f : fifo) : fifo :=
  if negb (head f =? tail f)
  then mk_fifo (u32 (tail f + 1) &&& size_mask f) (tail f) (size_mask f) (data f)
  else f.

Definition fifo_is_full (f : fifo) : bool :=
  (u32 (head f + 1) &&& size_mask f) =? tail f.

Definition fifo_is_empty (f : fifo) : bool := head f =? tail f.

Definition fifo_count (f : fifo) : Z := u32 (head f - tail f) &&& size_mask f.

Definition fifo_freespace (f : fifo) : Z := u32 (tail f - head f - 1) &&& size_mask f.

Definition fifo_push (f : fifo) (byte : Z) : fifo :=
  mk_fifo (u32 (head f + 1) &&& size_mask f) (tail f) (size_mask f)
    (arr_set (data f) (head f) byte).

Definition fifo_pop_back (f : fifo) : fifo * Z :=
  (mk_fifo (head f) (u32 (tail f + 1) &&& size_mask f) (size_mask f) (data f),
   arr_get (data f) (tail f)).

Definition fifo_pop_front (f : fifo) : fifo * Z :=
  let new_head := u32 (head f - 1) &&& size_mask f in
  (mk_fifo new_head (tail f) (size_mask f) (data f), arr_get (data f) new_head).

Definition fifo_peek_front (f : fifo) : Z :=
  let new_head := u32 (head f - 1) &&& size_mask f in
  arr_get (data f) new_head.

(** The [while (tail != f->head)] loop of [fifo_has_char]; [None] when the fuel
    runs out, which [has_char_spec] excludes for a well-formed buffer. *)
Fixpoint has_char_loop (fuel : nat) (f : fifo) (tl byte : Z) : option bool :=
  if tl =? head f then Some false
  else if arr_get (data f) tl =? u8 byte then Some true
  else match fuel with
       | O => None
       | S n => has_char_loop n f (u32 (tl + 1) &&& size_mask f) byte
       end.

Definition fifo_has_char (f : fifo) (byte : Z) : option bool :=
  if fifo_is_empty f then Some false
  else has_char_loop (length (data f)) f (tail f) byte.

(** ** The abstract value *)

(** [n] bytes of the ring starting at index [i]. *)
Definition ring_slice (m : Z) (d : list Z) (i : Z) (n : nat) : list Z :=
  map (fun j => arr_get d ((i + Z.of_nat j) mod (m + 1))) (seq 0 n).

Definition contents (f : fifo) : list Z :=
  ring_slice (size_mask f) (data f) (tail f)
    (Z.to_nat ((head f - tail f) mod (size_mask f + 1))).

(** A buffer set up for a power-of-two size that fits an [unsigned int], with
    both indices inside the array. *)
Definition fifo_wf (f : fifo) : Prop :=
  (exists k, 0 <= k <= 31 /\ size_mask f = 2 ^ k - 1) /\
  zlen (data f) = size_mask f + 1 /\
  0 <= head f <= size_mask f /\ 0 <= tail f <= size_mask f.

(** One slot is always left free. *)
Definition capacity (f : fifo) : Z := size_mask f.

(** Append, dropping the oldest byte beyond the capacity. *)
Definition push_drop (cap : Z) (l : list Z) (b : Z) : list Z :=
  if Z.of_nat (length l) <? cap then l ++ [b] else drop 1 (l ++ [b]).

(** ** A bounded queue as the specification

    The functions of the header, one by one, as a caller may issue them. *)
Inductive op := Push (b : Z) | PopBack | PopFront | PeekFront | RemoveAll | RemoveAllButOne | Count | FreeSpace | IsFull | IsEmpty | HasChar (b : Z).

(** What a function returns. *)
Inductive out := ODone | OByte (b : Z) | ONum (n : Z) | OFlag (b : bool) | OEndless.

Definition fifo_step (f : fifo) (o : op) : fifo * out :=
  match o with
  | Push b => (fifo_push f b, ODone)
  | PopBack => let '(f', b) := fifo_pop_back f in (f', OByte b)
  | PopFront => let '(f', b) := fifo_pop_front f in (f', OByte b)
  | PeekFront => (f, OByte (fifo_peek_front f))
  | RemoveAll => (fifo_remove_all f, ODone)
  | RemoveAllButOne => (fifo_remove_all_but_one f, ODone)
  | Count => (f, ONum (fifo_count f))
  | FreeSpace => (f, ONum (fifo_freespace f))
  | IsFull => (f, OFlag (fifo_is_full f))
  | IsEmpty => (f, OFlag (fifo_is_empty f))
  | HasChar b => (f, match fifo_has_char f b with Some r => OFlag r | None => OEndless end)
  end.

Fixpoint fifo_run (f : fifo) (os : list op) : fifo * list out :=
  match os with
  | [] => (f, [])
  | o :: os => let '(f1, r) := fifo_step f o in
               let '(f2, rs) := fifo_run f1 os in (f2, r :: rs)
  end.

(** The same functions on a list with room for [cap] bytes. A push on a full list loses all
    of it, the new byte too; a byte of an empty list is undefined ([None]). *)
Definition queue_step (cap : Z) (l : list Z) (o : op) : option (list Z * out) :=
  match o with
  | Push b => Some (if zlen l <? cap then l ++ [b] else [], ODone)
  | PopBack => match l with [] => None | b :: l' => Some (l', OByte b) end
  | PopFront => b ← last l; Some (take (length l - 1) l, OByte b)
  | PeekFront => b ← last l; Some (l, OByte b)
  | RemoveAll => Some ([], ODone)
  | RemoveAllButOne => Some (take 1 l, ODone)
  | Count => Some (l, ONum (zlen l))
  | FreeSpace => Some (l, ONum (cap - zlen l))
  | IsFull => Some (l, OFlag (zlen l =? cap))
  | IsEmpty => Some (l, OFlag (bool_decide (l = [])))
  | HasChar b => Some (l, OFlag (bool_decide (u8 b ∈ l)))
  end.

Fixpoint queue_run (cap : Z) (l : list Z) (os : list op) : option (list Z * list out) :=
  match os with
  | [] => Some (l, [])
  | o :: os => '(l1, r) ← queue_step cap l o; '(l2, rs) ← queue_run cap l1 os; Some (l2, r :: rs)
  end.

(** ** Index arithmetic *)

Section Index.
Context (f : fifo) (Hwf : fifo_wf f).

Lemma wf_mask_mod x : (u32 x &&& size_mask f) = x mod (size_mask f + 1).
Proof.
  destruct Hwf as ((k & Hk & ->) & _). rewrite land_mask_u32 by lia. f_equal. lia.
Qed.

Lemma wf_mask_nonneg : 0 <= size_mask f < 2 ^ 31.
Proof.
  destruct Hwf as ((k & Hk & ->) & _).
  pose proof (pow2_pos k). pose proof (Z.pow_le_mono_r 2 k 31). lia.
Qed.

Lemma wf_next i : 0 <= i <= size_mask f ->
  (u32 (i + 1) &&& size_mask f) = if i =? size_mask f then 0 else i + 1.
Proof.
  intros Hi. rewrite wf_mask_mod. pose proof wf_mask_nonneg.
  destruct (i =? size_mask f) eqn:E; bsimp.
  - subst. apply Z.mod_same. lia.
  - apply Z.mod_small. lia.
Qed.

Lemma wf_prev i : 0 <= i <= size_mask f ->
  (u32 (i - 1) &&& size_mask f) = if i =? 0 then size_mask f else i - 1.
Proof.
  intros Hi. rewrite wf_mask_mod. pose proof wf_mask_nonneg.
  destruct (i =? 0) eqn:E; bsimp.
  - subst. symmetry. apply Z.mod_unique with (-1); lia.
  - apply Z.mod_small. lia.
Qed.

Lemma count_eq : fifo_count f =
  if tail f <=? head f then head f - tail f else head f - tail f + size_mask f + 1.
Proof.
  unfold fifo_count. rewrite wf_mask_mod. destruct Hwf as (_ & _ & ? & ?).
  rewrite mod_sub_cases by lia. case_if; lia.
Qed.

Lemma freespace_eq : fifo_freespace f = capacity f - fifo_count f.
Proof.
  unfold fifo_freespace, capacity. rewrite wf_mask_mod, count_eq.
  destruct Hwf as (_ & _ & ? & ?). pose proof wf_mask_nonneg.
  replace (tail f - head f - 1) with (tail f - (head f + 1)) by lia.
  rewrite mod_sub_cases by lia. repeat case_if; bsimp; lia.
Qed.

Lemma count_range : 0 <= fifo_count f <= capacity f.
Proof.
  unfold capacity. rewrite count_eq. destruct Hwf as (_ & _ & ? & ?).
  case_if; bsimp; lia.
Qed.

Lemma length_contents : Z.of_nat (length (contents f)) = fifo_count f.
Proof.
  unfold contents, ring_slice. rewrite length_map, length_seq.
  rewrite <- wf_mask_mod. fold (fifo_count f). pose proof count_range. lia.
Qed.

Lemma contents_slice :
  contents f = ring_slice (size_mask f) (data f) (tail f) (Z.to_nat (fifo_count f)).
Proof. unfold contents, fifo_count. by rewrite wf_mask_mod. Qed.

Lemma is_empty_spec : fifo_is_empty f = true <-> contents f = [].
Proof.
  rewrite <- length_zero_iff_nil. pose proof length_contents. rewrite count_eq in *.
  unfold fifo_is_empty. rewrite Z.eqb_eq. destruct Hwf as (_ & _ & ? & ?).
  case_if; bsimp; lia.
Qed.

Lemma is_full_spec :
  fifo_is_full f = true <-> Z.of_nat (length (contents f)) = capacity f.
Proof.
  rewrite length_contents, count_eq. unfold fifo_is_full, capacity.
  destruct Hwf as (_ & _ & ? & ?). rewrite wf_next, Z.eqb_eq by lia.
  repeat case_if; bsimp; lia.
Qed.

Lemma not_full_spec :
  fifo_is_full f = false <-> Z.of_nat (length (contents f)) < capacity f.
Proof.
  pose proof is_full_spec. pose proof count_range. rewrite length_contents in *.
  destruct (fifo_is_full f); split; intros; [done | | | done].
  - assert (fifo_count f = capacity f) by tauto. lia.
  - assert (~ fifo_count f = capacity f) by (intros ?%H; congruence). lia.
Qed.

End Index.

(** ** Slices of the ring *)

Lemma ring_slice_S m d i n :
  0 <= i <= m ->
  ring_slice m d i (S n) = arr_get d i :: ring_slice m d ((i + 1) mod (m + 1)) n.
Proof.
  intros. unfold ring_slice. cbn [seq map]. f_equal.
  - f_equal. rewrite Z.add_0_r. apply Z.mod_small. lia.
  - rewrite <- seq_shift, map_map. apply map_ext. intros j. f_equal.
    rewrite Zplus_mod_idemp_l. f_equal. lia.
Qed.

Lemma ring_slice_snoc m d i n :
  ring_slice m d i (S n) =
  ring_slice m d i n ++ [arr_get d ((i + Z.of_nat n) mod (m + 1))].
Proof. unfold ring_slice. rewrite seq_S, map_app. done. Qed.

(** A store outside the slice leaves the slice alone. *)
Lemma ring_slice_set m d i n p v :
  0 <= i <= m -> 0 <= p <= m -> Z.of_nat n <= (p - i) mod (m + 1) ->
  ring_slice m (arr_set d p v) i n = ring_slice m d i n.
Proof.
  intros Hi Hp Hn. unfold ring_slice. apply map_ext_in. intros j Hj%in_seq.
  apply arr_get_set_ne; [lia | apply Z.mod_pos_bound; lia |].
  rewrite mod_sub_cases in Hn by lia.
  assert (Z.of_nat j < m + 1) by (case_if; bsimp; lia).
  rewrite mod_add_cases by lia. repeat case_if; bsimp; lia.
Qed.

(** ** Operations on the abstract value *)

Section Ops.
Context (f : fifo) (Hwf : fifo_wf f).

Lemma fifo_push_wf b : fifo_wf (fifo_push f b).
Proof.
  destruct Hwf as ((k & Hk) & Hd & Hh & Ht). repeat split; cbn; eauto; try lia.
  - unfold zlen in *. by rewrite length_arr_set.
  - rewrite wf_next by done. case_if; lia.
  - rewrite wf_next by done. case_if; bsimp; lia.
Qed.

Lemma fifo_push_contents b :
  fifo_is_full f = false -> contents (fifo_push f b) = contents f ++ [b].
Proof.
  intros Hf. apply not_full_spec in Hf; [|done].
  rewrite length_contents in Hf by done.
  assert (Hc : fifo_count (fifo_push f b) = fifo_count f + 1).
  { rewrite !count_eq by auto using fifo_push_wf. rewrite count_eq in Hf by done.
    unfold capacity in Hf. cbn. destruct Hwf as (_ & _ & ? & ?).
    rewrite wf_next by done. repeat case_if; bsimp; lia. }
  rewrite !contents_slice by auto using fifo_push_wf. rewrite Hc.
  pose proof (count_range f Hwf). rewrite Z2Nat.inj_add by lia.
  change (Z.to_nat 1) with 1%nat. rewrite Nat.add_1_r, ring_slice_snoc. cbn.
  destruct Hwf as (_ & Hd & Hh & Ht). unfold capacity in *. f_equal.
  - apply ring_slice_set; [done..|]. rewrite Z2Nat.id by lia.
    unfold fifo_count. by rewrite wf_mask_mod.
  - f_equal. rewrite Z2Nat.id by lia. rewrite count_eq in * by done.
    replace ((tail f + _) mod _) with (head f); [apply arr_get_set_eq; lia|].
    symmetry. case_if; bsimp.
    + rewrite Z.mod_small; lia.
    + symmetry. apply Z.mod_unique with 1; lia.
Qed.

Lemma fifo_pop_back_wf : fifo_wf (fifo_pop_back f).1.
Proof.
  destruct Hwf as ((k & Hk) & Hd & Hh & Ht). repeat split; cbn; eauto; try lia.
  all: rewrite wf_next by done; case_if; bsimp; lia.
Qed.

Lemma fifo_pop_back_contents :
  contents f <> [] ->
  contents f = (fifo_pop_back f).2 :: contents (fifo_pop_back f).1.
Proof.
  intros Hne.
  assert (Hpos : 0 < fifo_count f).
  { rewrite <- length_contents by done. destruct (contents f); [done|]. cbn. lia. }
  assert (Hc : fifo_count f = fifo_count (fifo_pop_back f).1 + 1).
  { rewrite !count_eq in * by auto using fifo_pop_back_wf. cbn.
    destruct Hwf as (_ & _ & ? & ?). rewrite wf_next by done.
    repeat case_if; bsimp; lia. }
  rewrite !contents_slice by auto using fifo_pop_back_wf. rewrite Hc.
  pose proof (count_range _ fifo_pop_back_wf).
  rewrite Z2Nat.inj_add by lia. change (Z.to_nat 1) with 1%nat.
  rewrite Nat.add_1_r, ring_slice_S by apply Hwf. cbn. do 2 f_equal.
  by rewrite wf_mask_mod.
Qed.

Lemma fifo_pop_front_wf : fifo_wf (fifo_pop_front f).1.
Proof.
  destruct Hwf as ((k & Hk) & Hd & Hh & Ht). repeat split; cbn; eauto; try lia.
  all: rewrite wf_prev by done; case_if; bsimp; lia.
Qed.

Lemma fifo_pop_front_contents :
  contents f <> [] ->
  contents f = contents (fifo_pop_front f).1 ++ [(fifo_pop_front f).2].
Proof.
  intros Hne.
  assert (Hpos : 0 < fifo_count f).
  { rewrite <- length_contents by done. destruct (contents f); [done|]. cbn. lia. }
  assert (Hc : fifo_count f = fifo_count (fifo_pop_front f).1 + 1).
  { rewrite !count_eq in * by auto using fifo_pop_front_wf. cbn.
    destruct Hwf as (_ & _ & ? & ?). rewrite wf_prev by done.
    repeat case_if; bsimp; lia. }
  rewrite !contents_slice by auto using fifo_pop_front_wf. rewrite Hc.
  pose proof (count_range _ fifo_pop_front_wf).
  rewrite Z2Nat.inj_add by lia. change (Z.to_nat 1) with 1%nat.
  rewrite Nat.add_1_r, ring_slice_snoc, Z2Nat.id by lia. do 3 f_equal.
  rewrite count_eq in * by auto using fifo_pop_front_wf.
  cbn in *. destruct Hwf as (_ & _ & ? & ?). rewrite wf_prev in * by done.
  case_if; bsimp; case_if; bsimp.
  all: f_equal; first [ rewrite Z.mod_small; lia
             | symmetry; apply Z.mod_unique with 1; lia ].
Qed.

Lemma fifo_peek_front_eq : fifo_peek_front f = (fifo_pop_front f).2.
Proof. done. Qed.

Lemma fifo_remove_all_wf : fifo_wf (fifo_remove_all f).
Proof. destruct Hwf as ((k & Hk) & Hd & Hh & Ht). repeat split; cbn; eauto; lia. Qed.

Lemma fifo_remove_all_contents : contents (fifo_remove_all f) = [].
Proof. by apply is_empty_spec; [apply fifo_remove_all_wf|]. Qed.

Lemma fifo_remove_all_but_one_wf : fifo_wf (fifo_remove_all_but_one f).
Proof.
  unfold fifo_remove_all_but_one. case_if; [|done].
  destruct Hwf as ((k & Hk) & Hd & Hh & Ht). repeat split; cbn; eauto; try lia.
  all: rewrite wf_next by done; case_if; bsimp; lia.
Qed.

Lemma fifo_remove_all_but_one_contents :
  contents (fifo_remove_all_but_one f) = take 1 (contents f).
Proof.
  pose proof fifo_remove_all_but_one_wf as Hwf'. unfold fifo_remove_all_but_one in *.
  destruct (fifo_is_empty f) eqn:E; unfold fifo_is_empty in E; rewrite E in *; cbn in *.
  - apply (is_empty_spec f Hwf) in E as ->. done.
  - assert (Hne : contents f <> []).
    { intros C%(is_empty_spec f Hwf). unfold fifo_is_empty in C. congruence. }
    rewrite (fifo_pop_back_contents Hne). cbn [take fifo_pop_back snd].
    rewrite take_0, contents_slice by done.
    replace (fifo_count _) with 1.
    + change (Z.to_nat 1) with 1%nat. rewrite ring_slice_S by apply Hwf. done.
    + rewrite count_eq by done. cbn. bsimp. destruct Hwf as (_ & _ & ? & ?).
      rewrite wf_next by done. repeat case_if; bsimp; lia.
Qed.

End Ops.

(** ** Overrun: drop the oldest byte, then push *)

Lemma length_le_cap f : fifo_wf f -> Z.of_nat (length (contents f)) <= capacity f.
Proof. intros Hwf. rewrite length_contents by done. by apply count_range. Qed.

Lemma fifo_cap0_nil f : fifo_wf f -> capacity f = 0 -> contents f = [].
Proof.
  intros Hwf Hc. pose proof (length_le_cap f Hwf). apply length_zero_iff_nil. lia.
Qed.

(** Dropping the oldest byte and pushing, on a full ring. *)
Lemma push_full_contents f b :
  fifo_wf f -> fifo_is_full f = true ->
  fifo_wf (fifo_push (fifo_pop_back f).1 b) /\
  contents (fifo_push (fifo_pop_back f).1 b) = drop 1 (contents f ++ [b]).
Proof.
  intros Hwf Hfull. pose proof (fifo_pop_back_wf f Hwf) as Hwf'.
  split; [by apply fifo_push_wf|]. apply is_full_spec in Hfull; [|done].
  destruct (decide (contents f = [])) as [E|E].
  - rewrite E in *. cbn in *. rewrite ?drop_0.
    apply fifo_cap0_nil; [by apply fifo_push_wf|]. done.
  - pose proof (fifo_pop_back_contents f Hwf E) as Ec. rewrite Ec in *. cbn in *.
    rewrite ?drop_0. apply fifo_push_contents; [done|].
    apply not_full_spec; [done|]. unfold capacity in *. cbn in *. lia.
Qed.

(** ** Membership *)

Lemma has_char_loop_spec f byte :
  fifo_wf f -> forall fuel i n,
  0 <= i <= size_mask f -> (n <= fuel)%nat ->
  Z.of_nat n = (head f - i) mod (size_mask f + 1) ->
  has_char_loop fuel f i byte =
    Some (bool_decide (u8 byte ∈ ring_slice (size_mask f) (data f) i n)).
Proof.
  intros Hwf. assert (Hh := Hwf). destruct Hh as (_ & _ & Hh & _).
  induction fuel as [|fuel IH]; intros i n Hi Hn Heq; cbn [has_char_loop].
  all: rewrite mod_sub_cases in Heq by lia.
  all: destruct (i =? head f) eqn:E; bsimp.
  1,3: assert (n = 0%nat) as -> by (case_if; bsimp; lia);
       rewrite bool_decide_eq_false_2; [done | by apply not_elem_of_nil].
  all: destruct n as [|n]; [destruct (i <=? head f) eqn:?; bsimp; lia|]; try lia.
  rewrite ring_slice_S by done.
  destruct (arr_get (data f) i =? u8 byte) eqn:E2; bsimp.
  - rewrite bool_decide_eq_true_2; [done|]. rewrite E2. left.
  - rewrite <- wf_mask_mod by done.
    rewrite IH with (n := n); [|rewrite wf_next by done; case_if; bsimp; lia|lia|].
    + f_equal. apply bool_decide_ext. rewrite elem_of_cons. split; [by right | intros [?|?]; [congruence | done]].
    + rewrite wf_next by done. rewrite mod_sub_cases; repeat case_if; bsimp; lia.
Qed.

(** [fifo_has_char] never runs past the buffer's contents and decides
    membership. *)
Lemma has_char_spec f byte :
  fifo_wf f -> fifo_has_char f byte = Some (bool_decide (u8 byte ∈ contents f)).
Proof.
  intros Hwf. unfold fifo_has_char. destruct (fifo_is_empty f) eqn:E.
  - apply is_empty_spec in E as ->; [|done].
    rewrite bool_decide_eq_false_2; [done | by apply not_elem_of_nil].
  - rewrite contents_slice by done. pose proof (count_range f Hwf).
    assert (size_mask f + 1 = Z.of_nat (length (data f))) by (destruct Hwf as (_ & <- & _); done).
    apply has_char_loop_spec; [done | apply Hwf | |].
    + unfold capacity in *. lia.
    + rewrite Z2Nat.id by lia. unfold fifo_count. by rewrite wf_mask_mod.
Qed.

(** A buffer fresh from [malloc] and [fifo_init] is empty and well formed when
    the size is a power of two, as the header's note asks. *)
Lemma fifo_init_wf f k :
  0 <= k <= 31 -> zlen (data f) = 2 ^ k ->
  fifo_wf (fifo_init f (2 ^ k)) /\ contents (fifo_init f (2 ^ k)) = [].
Proof.
  intros Hk Hl. pose proof (pow2_pos k).
  assert (Hu : u32 (2 ^ k - 1) = 2 ^ k - 1).
  { apply u32_small. pose proof (Z.pow_le_mono_r 2 k 31). lia. }
  assert (Hwf : fifo_wf (fifo_init f (2 ^ k))).
  { repeat split; cbn; rewrite ?Hu; try lia. eauto. }
  split; [done|]. by apply is_empty_spec.
Qed.

Lemma contents_bytes f :
  fifo_wf f -> Forall is_byte (data f) -> Forall is_byte (contents f).
Proof.
  intros Hwf Hb. unfold contents, ring_slice. apply Forall_map, Forall_forall.
  intros j _. unfold arr_get. eapply Forall_lookup_1; [done|].
  apply list_lookup_lookup_total_lt. destruct Hwf as (_ & Hd & Hh & Ht).
  unfold zlen in Hd. pose proof (Z.mod_pos_bound (tail f + Z.of_nat j) (size_mask f + 1)). lia.
Qed.

(** ** Refinement *)

(** A push on a full ring makes the indices equal. *)
Lemma push_full_empties f b : fifo_wf f -> fifo_is_full f = true -> contents (fifo_push f b) = [].
Proof.
  intros Hwf E. apply is_empty_spec; [by apply fifo_push_wf|]. unfold fifo_is_full in E. unfold fifo_is_empty. cbn. bsimp. by rewrite E, Z.eqb_refl.
Qed.

(** A byte taken or seen at the front end. *)
Lemma pop_front_last f b : fifo_wf f -> last (contents f) = Some b ->
  (fifo_pop_front f).2 = b /\ contents (fifo_pop_front f).1 = take (length (contents f) - 1) (contents f).
Proof.
  intros Hwf El. assert (Hne : contents f <> []) by (intros C; by rewrite C in El).
  pose proof (fifo_pop_front_contents f Hwf Hne) as E. rewrite E in El at 1. rewrite last_snoc in El. split; [congruence|].
  rewrite E. by rewrite length_app, Nat.add_sub, take_app_length.
Qed.

Lemma fifo_step_refines f o l r :
  fifo_wf f -> queue_step (capacity f) (contents f) o = Some (l, r) ->
  fifo_wf (fifo_step f o).1 /\ capacity (fifo_step f o).1 = capacity f /\ contents (fifo_step f o).1 = l /\ (fifo_step f o).2 = r.
Proof.
  intros Hwf. destruct o as [b| | | | | | | | | |b]; cbn [fifo_step queue_step].
  - intros [= <- <-]. split; [by apply fifo_push_wf|]. split; [done|]. split; [|done]. destruct (fifo_is_full f) eqn:E.
    + cbn [fst]. rewrite push_full_empties by done. apply is_full_spec in E; [|done]. unfold zlen. by rewrite E, Z.ltb_irrefl.
    + pose proof E as E'. apply not_full_spec, Z.ltb_lt in E'; [|done]. unfold zlen. cbn [fst]. rewrite E'. by apply fifo_push_contents.
  - destruct (contents f) as [|b l'] eqn:E; [done|]. intros [= <- <-]. assert (Hne : contents f <> []) by (by rewrite E).
    pose proof (fifo_pop_back_contents f Hwf Hne) as Ep. rewrite E in Ep. injection Ep as -> ->. by split; [apply fifo_pop_back_wf|].
  - destruct (last (contents f)) as [b|] eqn:E; cbn; [|done]. intros [= <- <-]. destruct (pop_front_last f b Hwf E) as [<- <-]. by split; [apply fifo_pop_front_wf|].
  - destruct (last (contents f)) as [b|] eqn:E; cbn; [|done]. intros [= <- <-]. destruct (pop_front_last f b Hwf E) as [<- _]. done.
  - intros [= <- <-]. cbn [fst snd]. rewrite fifo_remove_all_contents by done. by split; [apply fifo_remove_all_wf|].
  - intros [= <- <-]. cbn [fst snd]. rewrite fifo_remove_all_but_one_contents by done.
    split; [by apply fifo_remove_all_but_one_wf|]. split; [|done]. unfold fifo_remove_all_but_one. by case_if.
  - intros [= <- <-]. split_and!; [done..|]. cbn. unfold zlen. by rewrite length_contents.
  - intros [= <- <-]. split_and!; [done..|]. cbn. unfold zlen. by rewrite length_contents, freespace_eq.
  - intros [= <- <-]. split_and!; [done..|]. cbn. f_equal. apply eq_bool_prop_intro. rewrite !Is_true_true, Z.eqb_eq. by apply is_full_spec.
  - intros [= <- <-]. split_and!; [done..|]. cbn. f_equal. apply eq_bool_prop_intro. rewrite !Is_true_true, bool_decide_eq_true. by apply is_empty_spec.
  - intros [= <- <-]. split_and!; [done..|]. cbn. by rewrite has_char_spec.
Qed.

Lemma fifo_run_refines os : forall f l rs,
  fifo_wf f -> queue_run (capacity f) (contents f) os = Some (l, rs) ->
  fifo_wf (fifo_run f os).1 /\ contents (fifo_run f os).1 = l /\ (fifo_run f os).2 = rs.
Proof.
  induction os as [|o os IH]; intros f l rs Hwf; [by intros [= <- <-]|]. cbn [fifo_run queue_run].
  destruct (queue_step _ _ o) as [[l1 r]|] eqn:Eo; cbn; [|done]. destruct (queue_run _ l1 os) as [[l2 rs']|] eqn:Er; cbn; [|done]. intros [= <- <-].
  destruct (fifo_step_refines f o l1 r Hwf Eo) as (Hwf1 & Hc & E1 & <-). destruct (fifo_step f o) as [f1 r1]. cbn [fst snd] in *.
  rewrite <- Hc, <- E1 in Er. destruct (IH f1 _ _ Hwf1 Er) as (Hwf2 & E2 & <-). by destruct (fifo_run f1 os) as [f2 rs2].
Qed.

(** C6: from [fifo_init] with a power-of-two size, any sequence of calls that takes no byte from an empty
    buffer returns what it returns on a list of capacity size-1 and leaves the same bytes in the same order, in a
    well-formed buffer; a push on a full buffer, which nothing in the header prevents, loses all its bytes. *)
Theorem fifo_refines_queue f k os l rs :
  0 <= k <= 31 -> zlen (data f) = 2 ^ k -> queue_run (2 ^ k - 1) [] os = Some (l, rs) ->
  fifo_wf (fifo_run (fifo_init f (2 ^ k)) os).1 /\ contents (fifo_run (fifo_init f (2 ^ k)) os).1 = l /\
  (fifo_run (fifo_init f (2 ^ k)) os).2 = rs.
Proof.
  intros Hk Hl Hq. destruct (fifo_init_wf f k Hk Hl) as [Hwf E]. apply fifo_run_refines; [done|]. rewrite E, <- Hq. f_equal.
  unfold capacity. cbn. apply u32_small. pose proof (pow2_pos k). pose proof (Z.pow_le_mono_r 2 k 31). lia.
Qed.

Lemma fifo_refines_queue_witness :
  let os := [Push 1; Push 2; Push 3; IsFull; PopBack; Push 5; PopFront; RemoveAllButOne; PeekFront; PopBack; Push 6; Push 7; Push 8; HasChar 7; Push 9; Count] in
  contents (fifo_run (fifo_init (mk_fifo 9 9 9 [0; 0; 0; 0]) (2 ^ 2)) os).1 = [] /\
  (fifo_run (fifo_init (mk_fifo 9 9 9 [0; 0; 0; 0]) (2 ^ 2)) os).2 =
    [ODone; ODone; ODone; OFlag true; OByte 1; ODone; OByte 5; ODone; OByte 2; OByte 2; ODone; ODone; ODone; OFlag true; ODone; ONum 0].
Proof.
  intros os. apply (fifo_refines_queue (mk_fifo 9 9 9 [0; 0; 0; 0]) 2 os [] _); [lia|reflexivity|reflexivity].
Defined.

End Fifo.
