(* ===== verification/LfFifo.v ===== *)
(** * The lock-free SPSC byte ring ([src/tty/libtty/libtty-lf-fifo.h])

    A producer (an interrupt handler, so [lf_fifo_push] runs to completion) and
    a consumer thread whose [lf_fifo_pop] and [lf_fifo_empty] may be interrupted
    between any two accesses to the shared fields. The consumer is a small
    machine ([pc]) with one transition per shared access; [step] interleaves it
    with pushes. The theorems: every interleaving is one of an abstract queue
    that drops its oldest byte on overrun, the compare-and-exchange being the
    linearization point of a successful pop; bytes come out in order and at most
    once; without overruns nothing is lost. *)

From S2P Require Import Prelude Fifo.
Import Fifo.

Module LfFifo.

Record lf_fifo := mk_lf {
  lf_headPos : Z;   (* atomic_uint *)
  lf_tail : Z;      (* atomic_uint: position << 1 | "pop updated it last" *)
  lf_sizeMask : Z;
  lf_data : list Z
}.

Definition lf_fifo_init (d : list Z) (size : Z) : lf_fifo :=
  mk_lf 0 0 (u32 (size - 1)) d.

(** [lf_fifo_push]; the result is 0 in case of overrun, 1 otherwise. *)
Definition lf_fifo_push (f : lf_fifo) (byte : Z) : lf_fifo * Z :=
  let headPos := lf_headPos f in
  let tail := lf_tail f in
  let tailPos := tail >>> 1 in
  let d := arr_set (lf_data f) headPos byte in
  let headPos := u32 (headPos + 1) &&& lf_sizeMask f in
  if headPos =? tailPos
  then (mk_lf headPos (u32 ((u32 (headPos + 1) &&& lf_sizeMask f) <<< 1)) (lf_sizeMask f) d, 0)
  else (mk_lf headPos tail (lf_sizeMask f) d, 1).

(** Where the consumer thread is: between operations, or inside [lf_fifo_pop] /
    [lf_fifo_empty] with the locals read so far. *)
Inductive pc :=
  | Idle
  | PopHead (headPos : Z)                  (* headPos loaded *)
  | PopTail (headPos tail : Z)             (* tail |= 1 done, old value | 1 *)
  | PopByte (tail newTail byte : Z)        (* data[tailPos] read, CAS next *)
  | EmptyHead (headPos : Z).

#[export] Instance pc_eq_dec : EqDecision pc.
Proof. solve_decision. Defined.

(** What one transition lets an observer see. *)
Inductive label :=
  | LTau
  | LPush (byte ret : Z)
  | LPop (byte : option Z)   (* [Some b]: popped [b], returned 1; [None]: returned 0 *)
  | LEmpty (ret : bool).

(** [atomic_fetch_or(&f->tail, 1)]. *)
Definition fetch_or_tail (f : lf_fifo) : lf_fifo :=
  mk_lf (lf_headPos f) (lf_tail f ||| 1) (lf_sizeMask f) (lf_data f).

Definition set_tail (f : lf_fifo) (t : Z) : lf_fifo :=
  mk_lf (lf_headPos f) t (lf_sizeMask f) (lf_data f).

(** One shared access of the consumer. *)
Definition pop_start (f : lf_fifo) : pc := PopHead (lf_headPos f).

Definition pop_step (f : lf_fifo) (p : pc) : lf_fifo * pc * label :=
  match p with
  | Idle => (f, Idle, LTau)
  | PopHead headPos => (fetch_or_tail f, PopTail headPos (lf_tail f ||| 1), LTau)
  | PopTail headPos tail =>
      let tailPos := tail >>> 1 in
      let newTail := u32 ((u32 (tailPos + 1) &&& lf_sizeMask f) <<< 1) ||| 1 in
      if headPos =? tailPos then (f, Idle, LPop None)
      else (f, PopByte tail newTail (arr_get (lf_data f) tailPos), LTau)
  | PopByte tail newTail byte =>
      if lf_tail f =? tail then (set_tail f newTail, Idle, LPop (Some byte))
      else (f, Idle, LPop None)
  | EmptyHead headPos =>
      (fetch_or_tail f, Idle, LEmpty (headPos =? (lf_tail f >>> 1)))
  end.

Inductive step : lf_fifo * pc -> label -> lf_fifo * pc -> Prop :=
  | StepPush f p b f' r :
      lf_fifo_push f b = (f', r) -> step (f, p) (LPush b r) (f', p)
  | StepPopCall f : step (f, Idle) LTau (f, pop_start f)
  | StepEmptyCall f : step (f, Idle) LTau (f, EmptyHead (lf_headPos f))
  | StepConsumer f p f' p' l :
      p <> Idle -> pop_step f p = (f', p', l) -> step (f, p) l (f', p').

Inductive exec : lf_fifo * pc -> list label -> lf_fifo * pc -> Prop :=
  | ExecNil s : exec s [] s
  | ExecSnoc s1 ls s2 l s3 : exec s1 ls s2 -> step s2 l s3 -> exec s1 (ls ++ [l]) s3.

(** [lf_fifo_pop] run without interruption. *)
Definition lf_fifo_pop (f : lf_fifo) : lf_fifo * option Z :=
  let '(f1, p1, _) := pop_step f (pop_start f) in
  let '(f2, p2, l2) := pop_step f1 p1 in
  match l2 with
  | LPop r => (f2, r)
  | _ => match pop_step f2 p2 with
         | (f3, _, LPop r) => (f3, r)
         | (f3, _, _) => (f3, None)
         end
  end.

(** [lf_fifo_empty] run without interruption. *)
Definition lf_fifo_empty (f : lf_fifo) : lf_fifo * bool :=
  match pop_step f (EmptyHead (lf_headPos f)) with
  | (f', _, LEmpty r) => (f', r)
  | (f', _, _) => (f', false)
  end.

(** A schedule: what runs next. [run] executes it. *)
Inductive action := AIrq (byte : Z) | APop | AEmpty | AStep.

Definition act (s : lf_fifo * pc) (a : action) : option (label * (lf_fifo * pc)) :=
  match a, s with
  | AIrq b, (f, p) => let '(f', r) := lf_fifo_push f b in Some (LPush b r, (f', p))
  | APop, (f, Idle) => Some (LTau, (f, pop_start f))
  | AEmpty, (f, Idle) => Some (LTau, (f, EmptyHead (lf_headPos f)))
  | AStep, (f, p) =>
      if bool_decide (p = Idle) then None
      else let '(f', p', l) := pop_step f p in Some (l, (f', p'))
  | _, _ => None
  end.

Fixpoint run (s : lf_fifo * pc) (acc : list label) (acts : list action)
    : option (list label * (lf_fifo * pc)) :=
  match acts with
  | [] => Some (acc, s)
  | a :: acts => match act s a with
                 | Some (l, s') => run s' (acc ++ [l]) acts
                 | None => None
                 end
  end.

(** ** The abstract queue *)

(** The ring seen as a [fifo.h] ring: same indices, the flag bit dropped. *)
Definition as_fifo (f : lf_fifo) : fifo :=
  mk_fifo (lf_headPos f) (lf_tail f >>> 1) (lf_sizeMask f) (lf_data f).

Definition lf_contents (f : lf_fifo) : list Z := contents (as_fifo f).

Definition lf_wf (f : lf_fifo) : Prop := fifo_wf (as_fifo f) /\ 0 <= lf_tail f.

Inductive abs_step (cap : Z) : list Z -> label -> list Z -> Prop :=
  | AbsTau l : abs_step cap l LTau l
  | AbsPush l b : abs_step cap l
      (LPush b (if Z.of_nat (length l) <? cap then 1 else 0)) (push_drop cap l b)
  | AbsPop b l : abs_step cap (b :: l) (LPop (Some b)) l
  | AbsPopFail l : abs_step cap l (LPop None) l
  | AbsEmpty l r : (r = false -> l <> []) -> abs_step cap l (LEmpty r) l.

Inductive abs_exec (cap : Z) : list Z -> list label -> list Z -> Prop :=
  | AbsNil l : abs_exec cap l [] l
  | AbsSnoc l1 ls l2 l l3 :
      abs_exec cap l1 ls l2 -> abs_step cap l2 l l3 -> abs_exec cap l1 (ls ++ [l]) l3.

(** What an execution pushed, popped, and whether a push reported an overrun. *)
Definition pushed (ls : list label) : list Z :=
  omap (fun l => match l with LPush b _ => Some b | _ => None end) ls.
Definition popped (ls : list label) : list Z :=
  omap (fun l => match l with LPop r => r | _ => None end) ls.
Definition no_overrun (ls : list label) : Prop :=
  Forall (fun l => match l with LPush _ r => r = 1 | _ => True end) ls.

(** The consumer's locals are meaningful as long as [tail] is what it read. *)
Definition pc_ok (f : lf_fifo) (p : pc) : Prop :=
  let fresh h := lf_headPos f = h \/ lf_headPos f <> lf_tail f >>> 1 in
  match p with
  | Idle => True
  | PopHead h | EmptyHead h => fresh h
  | PopTail h t => Z.odd t = true /\ (lf_tail f = t -> fresh h)
  | PopByte t nt b =>
      Z.odd t = true /\
      nt = u32 ((u32 ((t >>> 1) + 1) &&& lf_sizeMask f) <<< 1) ||| 1 /\
      (lf_tail f = t ->
       lf_headPos f <> t >>> 1 /\ arr_get (lf_data f) (t >>> 1) = b)
  end.

Definition lf_inv (s : lf_fifo * pc) : Prop := lf_wf s.1 /\ pc_ok s.1 s.2.

(** ** The flag bit *)

Lemma shiftr_or1 x : (x ||| 1) >>> 1 = x >>> 1.
Proof.
  rewrite Z.shiftr_lor. change (1 >>> 1) with 0. apply Z.lor_0_r.
Qed.

Lemma odd_or1 x : Z.odd (x ||| 1) = true.
Proof. rewrite <- Z.bit0_odd, Z.lor_spec. cbn. apply orb_true_r. Qed.

Lemma shl1_tail x : 0 <= x < 2 ^ 31 ->
  u32 (x <<< 1) >>> 1 = x /\ Z.odd (u32 (x <<< 1)) = false /\ 0 <= u32 (x <<< 1).
Proof.
  intros Hx. rewrite Z.shiftl_mul_pow2 by lia. change (2 ^ 1) with 2.
  rewrite u32_small by lia. rewrite Z.shiftr_div_pow2 by lia. change (2 ^ 1) with 2.
  split_and!; [apply Z.div_mul; lia | | lia].
  rewrite Z.mul_comm. by rewrite Z.odd_mul.
Qed.

Lemma shl1_tail_or x : 0 <= x < 2 ^ 31 ->
  (u32 (x <<< 1) ||| 1) >>> 1 = x /\ 0 <= (u32 (x <<< 1) ||| 1).
Proof.
  intros Hx. rewrite shiftr_or1. pose proof (shl1_tail x Hx). split; [tauto|].
  apply Z.lor_nonneg. lia.
Qed.

(** ** Pushes and pops as operations of the [fifo.h] ring *)

Lemma lf_next_range f i :
  lf_wf f -> 0 <= u32 (i + 1) &&& lf_sizeMask f < 2 ^ 31.
Proof.
  intros [Hwf _]. pose proof (wf_mask_nonneg _ Hwf) as Hm. cbn in Hm.
  pose proof (wf_mask_mod _ Hwf (i + 1)) as E. cbn in E. rewrite E.
  pose proof (Z.mod_pos_bound (i + 1) (lf_sizeMask f + 1)). lia.
Qed.

Lemma as_fifo_push f b :
  lf_wf f ->
  as_fifo (lf_fifo_push f b).1 =
    (if fifo_is_full (as_fifo f)
     then fifo_push (fifo_pop_back (as_fifo f)).1 b else fifo_push (as_fifo f) b) /\
  (lf_fifo_push f b).2 = (if fifo_is_full (as_fifo f) then 0 else 1) /\
  0 <= lf_tail (lf_fifo_push f b).1 /\
  lf_sizeMask (lf_fifo_push f b).1 = lf_sizeMask f /\
  (lf_tail (lf_fifo_push f b).1 = lf_tail f /\ fifo_is_full (as_fifo f) = false \/
   Z.odd (lf_tail (lf_fifo_push f b).1) = false).
Proof.
  intros Hwf. unfold lf_fifo_push, fifo_is_full. cbn [as_fifo head tail size_mask].
  pose proof (shl1_tail _ (lf_next_range f (u32 (lf_headPos f + 1) &&& lf_sizeMask f) Hwf)) as (E1 & E2 & E3).
  destruct (_ =? _) eqn:E; cbn -[u32]; split_and!; try done; try (by right); try (by left); try apply Hwf.
  unfold as_fifo, fifo_push, fifo_pop_back. cbn -[u32].
  f_equal. rewrite E1. bsimp. by rewrite E.
Qed.

Lemma lf_push_wf f b : lf_wf f -> lf_wf (lf_fifo_push f b).1.
Proof.
  intros Hwf. pose proof (as_fifo_push f b Hwf) as (E & _ & Ht & _).
  split; [|done]. rewrite E. destruct Hwf as [Hwf _]. case_if.
  - by apply push_full_contents.
  - by apply fifo_push_wf.
Qed.

Lemma lf_push_contents f b :
  lf_wf f ->
  lf_contents (lf_fifo_push f b).1 = push_drop (lf_sizeMask f) (lf_contents f) b /\
  (lf_fifo_push f b).2 = if Z.of_nat (length (lf_contents f)) <? lf_sizeMask f then 1 else 0.
Proof.
  intros Hwf. pose proof (as_fifo_push f b Hwf) as (E & Er & _). destruct Hwf as [Hwf _].
  unfold lf_contents, push_drop. rewrite E, Er.
  pose proof (length_le_cap _ Hwf) as Hlen. unfold capacity in Hlen. cbn in Hlen.
  destruct (fifo_is_full (as_fifo f)) eqn:F.
  - pose proof F as F'. apply is_full_spec in F'; [|done]. unfold capacity in F'. cbn in F'.
    rewrite F', Z.ltb_irrefl. split; [by apply push_full_contents | done].
  - pose proof F as F'. apply not_full_spec in F'; [|done]. unfold capacity in F'. cbn in F'.
    apply Z.ltb_lt in F' as ->. split; [by apply fifo_push_contents | done].
Qed.

Lemma lf_fetch_or_same f : as_fifo (fetch_or_tail f) = as_fifo f.
Proof. unfold as_fifo, fetch_or_tail. cbn. by rewrite shiftr_or1. Qed.

Lemma lf_fetch_or_wf f : lf_wf f -> lf_wf (fetch_or_tail f).
Proof.
  intros [? ?]. split; [by rewrite lf_fetch_or_same|]. cbn. apply Z.lor_nonneg. lia.
Qed.

Lemma lf_nonempty f : lf_wf f -> lf_headPos f <> lf_tail f >>> 1 -> lf_contents f <> [].
Proof.
  intros [Hwf _] Hne C. apply is_empty_spec in C; [|done].
  unfold fifo_is_empty in C. cbn in C. bsimp. done.
Qed.

(** After a push the ring is not empty (unless its capacity is 0). *)
Lemma push_fresh f b h :
  lf_wf f ->
  lf_headPos f = h \/ lf_headPos f <> lf_tail f >>> 1 ->
  lf_headPos (lf_fifo_push f b).1 = h \/
  lf_headPos (lf_fifo_push f b).1 <> lf_tail (lf_fifo_push f b).1 >>> 1.
Proof.
  intros Hwf Hfr. pose proof (lf_push_wf f b Hwf) as [Hwf' _].
  pose proof (proj1 (lf_push_contents f b Hwf)) as E.
  destruct (decide (lf_headPos (lf_fifo_push f b).1 = lf_tail (lf_fifo_push f b).1 >>> 1)) as [Hn|]; [|by right].
  left. assert (lf_contents (lf_fifo_push f b).1 = []) as E0.
  { apply is_empty_spec; [done|]. unfold fifo_is_empty. cbn. rewrite Hn. apply Z.eqb_refl. }
  rewrite E0 in E. unfold push_drop in E.
  assert (Hm : lf_sizeMask f = 0).
  { destruct Hwf as [Hwf _]. pose proof (wf_mask_nonneg _ Hwf) as Hm. cbn in Hm.
    pose proof (f_equal length E) as El. destruct (_ <? _) eqn:F; bsimp.
    - rewrite length_app in El. cbn in El. lia.
    - rewrite length_drop, length_app in El. cbn in El.
      unfold lf_contents in *. lia. }
  destruct Hwf as [(_ & _ & Hh & Ht) _]. destruct Hwf' as (_ & _ & Hh' & _). cbn in *.
  pose proof (as_fifo_push f b) as HH.
  assert (lf_sizeMask (lf_fifo_push f b).1 = 0).
  { unfold lf_fifo_push. by case_if. }
  destruct Hfr as [<-|Hfr]; lia.
Qed.

(** ** The invariant *)

Lemma push_keeps_byte f b t nt byte :
  lf_wf f -> pc_ok f (PopByte t nt byte) -> pc_ok (lf_fifo_push f b).1 (PopByte t nt byte).
Proof.
  intros Hwf (Hodd & Hnt & Hk). pose proof (as_fifo_push f b Hwf) as (E & _ & _ & Em & Et).
  cbn. rewrite Em. split_and!; [done..|]. intros Ht.
  destruct Et as [[Et Hfull] | Et]; [|congruence].
  rewrite Et in Ht. specialize (Hk Ht) as (Hk1 & Hk2). rewrite Hfull in E.
  pose proof (f_equal head E) as E1. pose proof (f_equal data E) as E2. cbn in E1, E2.
  rewrite E1, E2. split.
  - unfold fifo_is_full in Hfull. cbn in Hfull. bsimp. by rewrite <- Ht.
  - destruct Hwf as [(_ & _ & ? & ?) _]. cbn in *. rewrite arr_get_set_ne; [done | lia | | done].
    rewrite <- Ht. lia.
Qed.

Lemma push_pc_ok f b p : lf_wf f -> pc_ok f p -> pc_ok (lf_fifo_push f b).1 p.
Proof.
  intros Hwf Hp. destruct p as [|h|h t|t nt byte|h]; [done | | | |].
  - by apply push_fresh.
  - destruct Hp as [Hodd Hp]. split; [done|]. intros Ht. apply push_fresh; [done|].
    pose proof (as_fifo_push f b Hwf) as (_ & _ & _ & _ & [[Et _]|Et]); [|congruence].
    rewrite Et in Ht. tauto.
  - by apply push_keeps_byte.
  - by apply push_fresh.
Qed.

(** A successful exchange removes the oldest byte, and it is the byte read. *)
Lemma pop_commit f nt byte :
  lf_wf f -> pc_ok f (PopByte (lf_tail f) nt byte) ->
  lf_wf (set_tail f nt) /\ lf_contents f = byte :: lf_contents (set_tail f nt).
Proof.
  intros Hwf (Hodd & -> & Hk). destruct (Hk eq_refl) as (Hne & <-).
  pose proof (shl1_tail_or _ (lf_next_range f (lf_tail f >>> 1) Hwf)) as (E1 & E2).
  assert (E : as_fifo (set_tail f (u32 ((u32 ((lf_tail f >>> 1) + 1) &&& lf_sizeMask f) <<< 1) ||| 1))
              = (fifo_pop_back (as_fifo f)).1).
  { unfold as_fifo, set_tail, fifo_pop_back. cbn -[u32]. by rewrite E1. }
  pose proof (lf_nonempty f Hwf Hne) as Hnil. destruct Hwf as [Hwf _]. split.
  - split; [|done]. rewrite E. by apply fifo_pop_back_wf.
  - unfold lf_contents. rewrite E. by apply fifo_pop_back_contents.
Qed.

Lemma consumer_step f p f' p' l :
  lf_wf f -> pc_ok f p -> p <> Idle -> pop_step f p = (f', p', l) ->
  lf_wf f' /\ pc_ok f' p' /\ lf_sizeMask f' = lf_sizeMask f /\
  abs_step (lf_sizeMask f) (lf_contents f) l (lf_contents f').
Proof.
  intros Hwf Hp Hi Hs. destruct p as [|h|h t|t nt byte|h]; [done| | | |]; cbn in Hs.
  - simplify_eq. split_and!; [by apply lf_fetch_or_wf | | done | ].
    + split; [apply odd_or1|]. intros _. cbn. rewrite shiftr_or1. apply Hp.
    + unfold lf_contents. rewrite lf_fetch_or_same. constructor.
  - destruct Hp as [Hodd Hp]. case_if; simplify_eq; (split_and!; [done| |done|constructor]); [done|].
    split_and!; [done..|]. bsimp. intros Ht. split; [|done]. rewrite <- Ht in *.
    destruct (Hp eq_refl); congruence.
  - case_if; simplify_eq; [|split_and!; [done..|apply AbsPopFail]]. bsimp. subst t.
    destruct (pop_commit f nt byte Hwf Hp) as [H1 H2].
    split_and!; [done..|]. rewrite H2. constructor.
  - simplify_eq. split_and!; [by apply lf_fetch_or_wf | done | done |].
    unfold lf_contents at 2. rewrite lf_fetch_or_same. constructor. intros E. bsimp.
    apply lf_nonempty; [done|]. destruct Hp as [Hp|Hp]; congruence.
Qed.

Lemma step_simulation s l s' :
  step s l s' -> lf_inv s ->
  lf_inv s' /\ lf_sizeMask s'.1 = lf_sizeMask s.1 /\
  abs_step (lf_sizeMask s.1) (lf_contents s.1) l (lf_contents s'.1).
Proof.
  intros Hs [Hwf Hp]. destruct Hs as [f p b f' r Hpush | f | f | f p f' p' l Hi Hc]; cbn in *.
  - pose proof (lf_push_wf f b Hwf). pose proof (push_pc_ok f b p Hwf Hp).
    pose proof (lf_push_contents f b Hwf) as [E1 E2].
    pose proof (as_fifo_push f b Hwf) as (_ & _ & _ & Em & _).
    rewrite Hpush in *. cbn in *. split_and!; [done | done |]. subst r. rewrite E1. constructor.
  - split_and!; [split; [done | by left] | done | constructor].
  - split_and!; [split; [done | by left] | done | constructor].
  - destruct (consumer_step _ _ _ _ _ Hwf Hp Hi Hc) as (? & ? & ? & ?). by split_and!.
Qed.

Lemma exec_simulation s ls s' :
  exec s ls s' -> lf_inv s ->
  lf_inv s' /\ lf_sizeMask s'.1 = lf_sizeMask s.1 /\
  abs_exec (lf_sizeMask s.1) (lf_contents s.1) ls (lf_contents s'.1).
Proof.
  intros He Hi. induction He as [s|s1 ls s2 l s3 He IH Hs].
  - split_and!; [done | done | constructor].
  - destruct (IH Hi) as (Hi2 & Hm2 & Ha2). destruct (step_simulation _ _ _ Hs Hi2) as (Hi3 & Hm3 & Ha3).
    split_and!; [done | congruence |]. rewrite Hm2 in Ha3. by econstructor.
Qed.

Lemma lf_init_inv d k :
  0 <= k <= 31 -> zlen d = 2 ^ k ->
  lf_inv (lf_fifo_init d (2 ^ k), Idle) /\ lf_contents (lf_fifo_init d (2 ^ k)) = [].
Proof.
  intros Hk Hd. destruct (fifo_init_wf (mk_fifo 0 0 0 d) k Hk Hd) as [H1 H2].
  split; [|done]. split; [|done]. by split.
Qed.

Lemma abs_exec_sublist cap l ls l' :
  abs_exec cap l ls l' -> popped ls ++ l' `sublist_of` l ++ pushed ls.
Proof.
  induction 1 as [l|l1 ls l2 x l3 He IH Hs]; [cbn; rewrite app_nil_r; done|].
  unfold popped, pushed in *. rewrite !omap_app.
  destruct Hs as [l|l b|b l|l|l r]; cbn; rewrite ?app_nil_r; try done.
  - rewrite (app_assoc l1). assert (push_drop cap l b `sublist_of` l ++ [b]).
    { unfold push_drop. case_if; [done | apply sublist_drop]. }
    etrans; [apply sublist_app; [done | eassumption]|].
    rewrite app_assoc. by apply sublist_app.
  - by rewrite <- app_assoc.
Qed.

Lemma abs_exec_lossless cap l ls l' :
  abs_exec cap l ls l' -> no_overrun ls -> popped ls ++ l' = l ++ pushed ls.
Proof.
  induction 1 as [l|l1 ls l2 x l3 He IH Hs]; intros Hno; [cbn; by rewrite app_nil_r|].
  unfold no_overrun in Hno. apply Forall_app in Hno as [Hno Hx]. specialize (IH Hno).
  unfold popped, pushed in *. rewrite !omap_app.
  destruct Hs as [l|l b|b l|l|l r]; cbn; rewrite ?app_nil_r; try done.
  - apply Forall_inv in Hx. unfold push_drop. destruct (_ <? _); [|done].
    rewrite app_assoc. rewrite IH. by rewrite app_assoc.
  - rewrite <- app_assoc. done.
Qed.

Lemma act_step s a l s' : act s a = Some (l, s') -> step s l s'.
Proof.
  destruct s as [f p]. destruct a; cbn; intros H.
  - destruct (lf_fifo_push f byte) eqn:E. simplify_eq. by constructor.
  - destruct p; simplify_eq. constructor.
  - destruct p; simplify_eq. constructor.
  - case_bool_decide; [done|]. destruct (pop_step f p) as [[f' p'] l'] eqn:E.
    simplify_eq. by constructor.
Qed.

Lemma run_exec s0 acts : forall s acc ls s',
  exec s0 acc s -> run s acc acts = Some (ls, s') -> exec s0 ls s'.
Proof.
  induction acts as [|a acts IH]; cbn; intros s acc ls s' He Hr; [by simplify_eq|].
  destruct (act s a) as [[l s1]|] eqn:E; [|done].
  eapply IH; [|done]. econstructor; [done|]. by eapply act_step.
Qed.

(** ** Theorems *)

(** C5: every interleaving of pushes (interrupt handler) with the individual
    shared accesses of [lf_fifo_pop]/[lf_fifo_empty] is an execution of a queue
    of capacity size-1 that appends on push, drops its oldest byte on overrun
    (and only then reports 0), removes exactly its oldest byte on a successful
    pop, and is never empty when [lf_fifo_empty] says it is not. *)
Theorem lf_fifo_linearizable d k ls f p :
  0 <= k <= 31 -> zlen d = 2 ^ k ->
  exec (lf_fifo_init d (2 ^ k), Idle) ls (f, p) ->
  abs_exec (2 ^ k - 1) [] ls (lf_contents f).
Proof.
  intros Hk Hd He. destruct (lf_init_inv d k Hk Hd) as [Hi E].
  destruct (exec_simulation _ _ _ He Hi) as (_ & _ & Ha). cbn in Ha.
  rewrite E in Ha. replace (2 ^ k - 1) with (u32 (2 ^ k - 1)); [done|].
  apply u32_small. pose proof (pow2_pos k). pose proof (Z.pow_le_mono_r 2 k 31). lia.
Qed.

(** bytes leave the ring in the order they were pushed and at most once
    under every interleaving, and when no push reported an overrun, the popped
    bytes followed by the bytes still in the ring are exactly the pushed ones. *)
Theorem lf_fifo_order d k ls f p :
  0 <= k <= 31 -> zlen d = 2 ^ k ->
  exec (lf_fifo_init d (2 ^ k), Idle) ls (f, p) ->
  popped ls ++ lf_contents f `sublist_of` pushed ls /\
  (no_overrun ls -> popped ls ++ lf_contents f = pushed ls).
Proof.
  intros Hk Hd He. destruct (lf_init_inv d k Hk Hd) as [Hi E].
  destruct (exec_simulation _ _ _ He Hi) as (_ & _ & Ha). cbn -[lf_fifo_init] in Ha.
  rewrite E in Ha. split.
  - by apply abs_exec_sublist in Ha.
  - intros Hno. by apply abs_exec_lossless in Ha.
Qed.

(** A pop interrupted by pushes that overrun the four-slot ring: the exchange
    fails, the next pop returns the oldest byte left. *)
Definition demo_schedule : list action :=
  [AIrq 1; AIrq 2; AIrq 3; APop; AStep; AIrq 4; AStep; AStep; APop; AStep; AStep; AStep].

Lemma lf_fifo_linearizable_witness :
  exists ls f p, popped ls = [2] /\ abs_exec 3 [] ls (lf_contents f) /\
  exec (lf_fifo_init [0; 0; 0; 0] (2 ^ 2), Idle) ls (f, p).
Proof.
  destruct (run (lf_fifo_init [0; 0; 0; 0] (2 ^ 2), Idle) [] demo_schedule)
    as [[ls [f p]]|] eqn:E; [|vm_compute in E; discriminate].
  assert (He : exec (lf_fifo_init [0; 0; 0; 0] (2 ^ 2), Idle) ls (f, p))
    by (eapply run_exec; [apply ExecNil | exact E]).
  exists ls, f, p. split_and!.
  - vm_compute in E. injection E as <- <- <-. reflexivity.
  - apply (lf_fifo_linearizable [0; 0; 0; 0] 2 ls f p); [lia | reflexivity | exact He].
  - exact He.
Defined.

Lemma lf_fifo_order_witness :
  exists ls f p, pushed ls = [7; 8] /\ popped ls ++ lf_contents f = [7; 8] /\
  exec (lf_fifo_init [0; 0; 0; 0] (2 ^ 2), Idle) ls (f, p).
Proof.
  destruct (run (lf_fifo_init [0; 0; 0; 0] (2 ^ 2), Idle) []
              [AIrq 7; APop; AStep; AIrq 8; AStep; AStep]) as [[ls [f p]]|] eqn:E;
    [|vm_compute in E; discriminate].
  assert (He : exec (lf_fifo_init [0; 0; 0; 0] (2 ^ 2), Idle) ls (f, p))
    by (eapply run_exec; [apply ExecNil | exact E]).
  pose proof (lf_fifo_order [0; 0; 0; 0] 2 ls f p) as H.
  vm_compute in E. injection E as <- <- <-. do 3 eexists. split_and!; [| | exact He]; [reflexivity |].
  apply H; [lia | reflexivity | exact He |].
  repeat (constructor; [done|]). constructor.
Defined.

(** A pop that no push interrupts succeeds exactly when the ring is not empty. *)
Lemma lf_pop_uninterrupted f :
  lf_wf f ->
  match (lf_fifo_pop f).2 with
  | Some b => lf_contents f = b :: lf_contents (lf_fifo_pop f).1
  | None => lf_contents f = []
  end.
Proof.
  intros Hwf. unfold lf_fifo_pop. cbn [pop_start pop_step].
  pose proof (shiftr_or1 (lf_tail f)) as Es.
  destruct (lf_headPos f =? (lf_tail f ||| 1) >>> 1) eqn:E; bsimp.
  - cbn. apply is_empty_spec; [apply Hwf|]. unfold fifo_is_empty. cbn.
    rewrite E, Es. apply Z.eqb_refl.
  - cbn -[u32]. rewrite Z.eqb_refl. cbn -[u32].
    destruct (pop_commit (fetch_or_tail f)
      (u32 ((u32 ((lf_tail (fetch_or_tail f) >>> 1) + 1) &&& lf_sizeMask f) <<< 1) ||| 1)
      (arr_get (lf_data f) (lf_tail (fetch_or_tail f) >>> 1))) as [_ H].
    + by apply lf_fetch_or_wf.
    + split_and!; [apply odd_or1 | done |]. done.
    + unfold lf_contents at 1 in H. rewrite lf_fetch_or_same in H. exact H.
Qed.

End LfFifo.
