(* ===== verification/Termios.v ===== *)
(** * Terminal attributes ([src/tty/libtty/ttydefaults.h], the termios part of
    [src/tty/libtty/libtty.c])

    The numeric values of the termios flags, of the [c_cc] indices and of the
    other constants come from libphoenix's headers, which are not part of this
    repository: they are the fields of the class [Abi]. [AbiLaws] states what
    POSIX documents about them (flags are distinct non-zero bit masks) and the
    [c_cc] layout that the positional table [ttydefchars] relies on. *)

From S2P Require Import Prelude.

Module Termios.

Inductive iflag := ISTRIP | INLCR | IGNCR | ICRNL | IGNBRK | BRKINT | IMAXBEL.
Inductive oflag := OPOST | ONLCR | OCRNL | TAB3 | CR0 | NL0 | BS0 | VT0 | FF0.
Inductive lflag := ECHO | ECHOE | ECHOK | ECHONL | ECHOCTL | ISIG | ICANON | IEXTEN.
Inductive cflag := CREAD | CS8 | CLOCAL.
Inductive cc := VINTR | VQUIT | VERASE | VKILL | VEOF | VTIME | VMIN | VSTART
  | VSTOP | VSUSP | VEOL | VREPRINT | VDISCARD | VWERASE | VLNEXT | VERASE2 | VEOL2.

Class Abi := {
  imask : iflag -> Z;
  omask : oflag -> Z;
  lmask : lflag -> Z;
  cmask : cflag -> Z;
  cc_ix : cc -> Z;
  NCCS : Z;
  VDISABLE : Z;      (* _POSIX_VDISABLE *)
  O_NONBLOCK : Z;
  O_NOCTTY : Z;
  POLLIN : Z; POLLRDNORM : Z; POLLOUT : Z; POLLWRNORM : Z; POLLHUP : Z
}.

(** The position of each control character in [ttydefchars]. *)
Definition ttydefchars_ix (v : cc) : Z :=
  match v with
  | VINTR => 0 | VQUIT => 1 | VERASE => 2 | VKILL => 3 | VEOF => 4 | VTIME => 5
  | VMIN => 6 | VSTART => 7 | VSTOP => 8 | VSUSP => 9 | VEOL => 10 | VREPRINT => 11
  | VDISCARD => 12 | VWERASE => 13 | VLNEXT => 14 | VERASE2 => 15 | VEOL2 => 16
  end.

Class AbiLaws `(Abi) : Prop := {
  lmask_range : forall x, 0 < lmask x < 2 ^ 32;
  omask_range : forall x, 0 <= omask x < 2 ^ 32;
  imask_range : forall x, 0 <= imask x < 2 ^ 32;
  cc_layout : forall v, cc_ix v = ttydefchars_ix v;
  nccs_fits : 17 <= NCCS;
  vdisable_byte : is_byte VDISABLE;
  poll_bits : POLLIN <> 0 /\ Z.land POLLIN POLLOUT = 0 /\ Z.land POLLIN POLLWRNORM = 0 /\
              Z.land POLLIN POLLHUP = 0
}.

Section Defs.
Context `{Abi}.

Record termios := mk_termios {
  c_iflag : Z; c_oflag : Z; c_cflag : Z; c_lflag : Z;
  c_cc : list Z;       (* cc_t c_cc[NCCS] *)
  c_ispeed : Z; c_ospeed : Z
}.

(** ** Characters *)

Definition CTRL (x : Z) : Z := x &&& 31.
Definition CEOF : Z := CTRL 100.
Definition CEOL : Z := VDISABLE.
Definition CERASE : Z := 127.
Definition CERASE2 : Z := CTRL 72.
Definition CINTR : Z := CTRL 99.
Definition CKILL : Z := CTRL 117.
Definition CMIN : Z := 1.
Definition CQUIT : Z := 28.
Definition CSUSP : Z := CTRL 122.
Definition CTIME : Z := 0.
Definition CSTART : Z := CTRL 113.
Definition CSTOP : Z := CTRL 115.
Definition CLNEXT : Z := CTRL 118.
Definition CDISCARD : Z := CTRL 111.
Definition CWERASE : Z := CTRL 119.
Definition CREPRINT : Z := CTRL 114.
Definition CTAB : Z := 9.
Definition CNL : Z := 10.
Definition CCR : Z := 13.

(** The initialiser names 17 characters; the rest of the array is zero. *)
Definition ttydefchars : list Z :=
  [CINTR; CQUIT; CERASE; CKILL; CEOF; CTIME; CMIN; CSTART; CSTOP; CSUSP; CEOL;
   CREPRINT; CDISCARD; CWERASE; CLNEXT; CERASE2; CEOL]
  ++ replicate (Z.to_nat (NCCS - 17)) 0.

(** ** Flag sets *)

Definition TTYDEF_IFLAG : Z := imask BRKINT ||| imask ISTRIP ||| imask ICRNL ||| imask IMAXBEL.
Definition TTYDEF_OFLAG : Z :=
  omask OPOST ||| omask ONLCR ||| omask CR0 ||| omask NL0 ||| omask BS0 ||| omask TAB3
  ||| omask VT0 ||| omask FF0.
Definition TTYDEF_LFLAG : Z :=
  lmask ECHO ||| lmask ICANON ||| lmask ISIG ||| lmask IEXTEN ||| lmask ECHOE
  ||| lmask ECHOK ||| lmask ECHOCTL.
Definition TTYDEF_CFLAG : Z := cmask CREAD ||| cmask CS8 ||| cmask CLOCAL.

Definition TTYSUP_IFLAG : Z := imask ISTRIP ||| imask INLCR ||| imask IGNCR ||| imask ICRNL.
Definition TTYSUP_OFLAG : Z := omask OPOST ||| omask ONLCR ||| omask TAB3 ||| omask OCRNL.
Definition TTYSUP_LFLAG : Z :=
  lmask ECHOE ||| lmask ECHO ||| lmask ECHONL ||| lmask ECHOCTL ||| lmask ISIG
  ||| lmask ICANON ||| lmask IEXTEN.

Definition termios_init (speed : Z) : termios :=
  mk_termios (TTYDEF_IFLAG &&& TTYSUP_IFLAG) (TTYDEF_OFLAG &&& TTYSUP_OFLAG)
    TTYDEF_CFLAG (TTYDEF_LFLAG &&& TTYSUP_LFLAG) ttydefchars speed speed.

(** [CMP_FLAG] and [CMP_CC]. *)
Definition CMP_I (t : termios) (f : iflag) : bool := has (c_iflag t) (imask f).
Definition CMP_O (t : termios) (f : oflag) : bool := has (c_oflag t) (omask f).
Definition CMP_L (t : termios) (f : lflag) : bool := has (c_lflag t) (lmask f).
Definition get_cc (t : termios) (v : cc) : Z := arr_get (c_cc t) (cc_ix v).
Definition CMP_CC (t : termios) (v : cc) (c : Z) : bool :=
  negb (get_cc t v =? VDISABLE) && (get_cc t v =? c).

(** Character classes of [libtty_disc.c]/[libtty_disc.h]; [c] is a byte. *)
Definition CTL_VALID (c : Z) : bool := (c =? 127) || (u8 c <? 32).
Definition CTL_PRINT (c : Z) : bool :=
  (c =? 127) || ((u8 c <? 32) && (negb (c =? CTAB) && negb (c =? CNL))).
Definition CTL_ECHO (c : Z) : bool := (c =? CTAB) || (c =? CNL) || (c =? CCR).

End Defs.

(** ** A concrete ABI, for evaluation: consecutive bits, the table's layout. *)
#[export] Instance demo_abi : Abi := {|
  imask f := match f with ISTRIP => 1 | INLCR => 2 | IGNCR => 4 | ICRNL => 8
             | IGNBRK => 16 | BRKINT => 32 | IMAXBEL => 64 end;
  omask f := match f with OPOST => 1 | ONLCR => 2 | OCRNL => 4 | TAB3 => 8 | _ => 0 end;
  lmask f := match f with ECHO => 1 | ECHOE => 2 | ECHOK => 4 | ECHONL => 8
             | ECHOCTL => 16 | ISIG => 32 | ICANON => 64 | IEXTEN => 128 end;
  cmask f := match f with CREAD => 1 | CS8 => 2 | CLOCAL => 4 end;
  cc_ix := ttydefchars_ix;
  NCCS := 20;
  VDISABLE := 255;
  O_NONBLOCK := 1; O_NOCTTY := 2;
  POLLIN := 1; POLLRDNORM := 2; POLLOUT := 4; POLLWRNORM := 8; POLLHUP := 16
|}.

#[export] Instance demo_abi_laws : AbiLaws demo_abi.
Proof.
  split; try (intros []; cbn; lia); unfold is_byte; cbn; split_and?; try lia; done.
Qed.

(** ** Lemmas *)

Section Lemmas.
Context `{AbiLaws}.

(** A mask with [m <= sup] survives [& sup]; one with [m <= clr] does not
    survive [& ~clr]. *)
Lemma has_land_sup x sup m : Z.land sup m = m -> has (x &&& sup) m = has x m.
Proof. intros E. unfold has. rewrite <- Z.land_assoc, E. done. Qed.

Lemma land_lor_self a m : Z.land (m ||| a) m = m.
Proof. apply Z.bits_inj'. intros n Hn. rewrite Z.land_spec, Z.lor_spec. by destruct (Z.testbit m n), (Z.testbit a n). Qed.

Lemma land_lor_r a b m : Z.land b m = m -> Z.land (a ||| b) m = m.
Proof.
  intros E. apply Z.bits_inj'. intros n Hn. apply (f_equal (fun z => Z.testbit z n)) in E.
  rewrite Z.land_spec in *. rewrite Z.lor_spec.
  by destruct (Z.testbit m n), (Z.testbit a n), (Z.testbit b n).
Qed.
End Lemmas.

End Termios.
