(* ===== verification/Tty.v ===== *)
(** * The tty layer: state and operations ([src/tty/libtty/libtty.c],
    [libtty.h], [libtty_disc.c], [libtty_disc.h])

    [tty] is [libtty_common_t]. Calls that leave the library (driver callbacks,
    condition variables, signals, the session system call, the mutex) are
    recorded, in order, in the field [evs]. Kernel queries are the fields of
    [kernel], a parameter. A blocking [condWait] releases the lock: what the other
    threads do to the tty until the waiter runs again is a parameter, the list
    [wakes] of state transformers, one per return of [condWait]; a call whose
    list is exhausted is still [Blocked]. [char] is unsigned, as in the ARM,
    AArch64 and RISC-V ABIs the drivers target. *)

From S2P Require Import Prelude Fifo Termios.
Import Fifo Termios.

Module Tty.

Inductive signal := SIGINT | SIGQUIT | SIGTSTP | SIGHUP | SIGWINCH.

Inductive event :=
  | EvTxReady                        (* cb.signal_txready *)
  | EvSetBaud (baud : Z)             (* cb.set_baudrate *)
  | EvSetCflag (c : Z)               (* cb.set_cflag *)
  | EvSetHalfduplex (enable : Z)     (* cb.set_halfduplex *)
  | EvSignalRx | EvSignalTx          (* condSignal *)
  | EvBroadcastRx | EvBroadcastTx    (* condBroadcast *)
  | EvKill (pid : Z) (s : signal)    (* kill *)
  | EvSessionCtty (sid : Z) (claim : bool)
  | EvLock | EvUnlock                (* mutexLock / mutexUnlock *)
  | EvWaitTx.                        (* a condWait on tx_waitq that has returned at once *)

(** Which callbacks the driver provides (a NULL one is not called). *)
Record callbacks := mk_cb {
  has_set_baudrate : bool; has_set_cflag : bool;
  has_get_halfduplex : bool; has_set_halfduplex : bool;
  has_signal_txready : bool
}.

Record tty := mk_tty {
  cb : callbacks;
  term : termios;
  ws_row : Z; ws_col : Z;
  sid : Z; pgrp : Z;
  tx_fifo : fifo; rx_fifo : fifo;
  breakchars : list Z;   (* char breakchars[4] *)
  t_flags : Z;
  evs : list event
}.

Definition set_term (t : tty) x := mk_tty (cb t) x (ws_row t) (ws_col t) (sid t) (pgrp t)
  (tx_fifo t) (rx_fifo t) (breakchars t) (t_flags t) (evs t).
Definition set_ws (t : tty) r c := mk_tty (cb t) (term t) r c (sid t) (pgrp t)
  (tx_fifo t) (rx_fifo t) (breakchars t) (t_flags t) (evs t).
Definition set_session (t : tty) s p := mk_tty (cb t) (term t) (ws_row t) (ws_col t) s p
  (tx_fifo t) (rx_fifo t) (breakchars t) (t_flags t) (evs t).
Definition set_tx (t : tty) x := mk_tty (cb t) (term t) (ws_row t) (ws_col t) (sid t) (pgrp t)
  x (rx_fifo t) (breakchars t) (t_flags t) (evs t).
Definition set_rx (t : tty) x := mk_tty (cb t) (term t) (ws_row t) (ws_col t) (sid t) (pgrp t)
  (tx_fifo t) x (breakchars t) (t_flags t) (evs t).
Definition set_breakchars (t : tty) x := mk_tty (cb t) (term t) (ws_row t) (ws_col t) (sid t) (pgrp t)
  (tx_fifo t) (rx_fifo t) x (t_flags t) (evs t).
Definition set_flags (t : tty) x := mk_tty (cb t) (term t) (ws_row t) (ws_col t) (sid t) (pgrp t)
  (tx_fifo t) (rx_fifo t) (breakchars t) x (evs t).
Definition emit (t : tty) (e : event) := mk_tty (cb t) (term t) (ws_row t) (ws_col t) (sid t) (pgrp t)
  (tx_fifo t) (rx_fifo t) (breakchars t) (t_flags t) (evs t ++ [e]).
Definition emit_if (t : tty) (b : bool) (e : event) := if b then emit t e else t.

(** [t_flags] bits. *)
Definition TF_HAVEBREAK : Z := 0x1.
Definition TF_LITERAL : Z := 0x200.
Definition TF_CLOSING : Z := 0x8000.

Definition flag_on (t : tty) (m : Z) : bool := has (t_flags t) m.
Definition flag_set (t : tty) (m : Z) : tty := set_flags t (t_flags t ||| m).
Definition flag_clear (t : tty) (m : Z) : tty := set_flags t (t_flags t &&& lnot_w 32 m).

Definition TX_FIFO_NOTFULL_WATERMARK : Z := 16.
Definition LIBTTYDISC_WRITE_OPROC_MAXLEN : Z := 8.

(** Outcome of a call that may block. *)
Inductive outcome (A : Type) := Ret (a : A) | Blocked.
Arguments Ret {A} a.
Arguments Blocked {A}.

Record read_state := mk_st { timeout_ms : Z; prevlen : Z }.
Definition libtty_read_state_init : read_state := mk_st (-1) 0.

Section Ops.
Context `{Abi}.

(** ** Line discipline: output *)

Fixpoint feed (f : fifo) (bytes : list Z) : fifo * list Z :=
  match bytes with
  | [] => (f, [])
  | b :: bytes' => if fifo_is_full f then (f, bytes) else feed (fifo_push f (u8 b)) bytes'
  end.

Definition _libttydisc_txFeedback (t : tty) (bytes : list Z) : tty * Z :=
  let '(f, rest) := feed (tx_fifo t) bytes in
  (emit_if (set_tx t f) (has_signal_txready (cb t)) EvTxReady, zlen bytes - zlen rest).

Definition _libttydisc_writeOproc (t : tty) (c : Z) : tty * Z :=
  if c =? CEOF then _libttydisc_txFeedback t [c]
  else if c =? CTAB then
    if CMP_O (term t) TAB3 then _libttydisc_txFeedback t (replicate 8 32)
    else _libttydisc_txFeedback t [c]
  else if c =? CNL then
    if CMP_O (term t) ONLCR then _libttydisc_txFeedback t [13; 10]
    else _libttydisc_txFeedback t [c]
  else if c =? CCR then
    _libttydisc_txFeedback t [if CMP_O (term t) OCRNL then CNL else c]
  else _libttydisc_txFeedback t [c].

Definition _libttydisc_echo (t : tty) (c : Z) : tty * Z :=
  if negb (CMP_L (term t) ECHO) && (negb (CMP_L (term t) ECHONL) || negb (c =? CNL))
  then (t, 0)
  else if CMP_O (term t) OPOST && CTL_ECHO c then _libttydisc_writeOproc t c
  else if CMP_L (term t) ECHOCTL && CTL_PRINT c then
    let ob1 := if negb (c =? 127) then u8 (c + 65 - 1) else 63 in
    if CMP_CC (term t) VEOF c
    then _libttydisc_txFeedback t [94; ob1; 8; 8]
    else _libttydisc_txFeedback t [94; ob1]
  else let '(t, _) := _libttydisc_txFeedback t [c] in (t, 0).

(** ** Line discipline: input *)

(** [libttydisc_is_breakchar]: scan the NUL-terminated [breakchars]. *)
Fixpoint scan_breakchars (l : list Z) (c : Z) : bool :=
  match l with
  | [] => false
  | b :: l' => if b =? 0 then false else if c =? b then true else scan_breakchars l' c
  end.
Definition libttydisc_is_breakchar (t : tty) (c : Z) : bool := scan_breakchars (breakchars t) c.

Definition rx_has (t : tty) (c : Z) : bool := default false (fifo_has_char (rx_fifo t) c).

Fixpoint scan_rx (t : tty) (l : list Z) : bool :=
  match l with
  | [] => false
  | b :: l' => if b =? 0 then false else if rx_has t b then true else scan_rx t l'
  end.
Definition libttydisc_rx_have_breakchar (t : tty) : bool := scan_rx t (breakchars t).

(** [_libttydisc_rubchar]: 0 when a character was removed, -1 otherwise. *)
Definition _libttydisc_rubchar (t : tty) : tty * Z :=
  if fifo_is_empty (rx_fifo t) then (t, -1)
  else
    let c := fifo_peek_front (rx_fifo t) in
    if (c =? CNL) || CMP_CC (term t) VEOL c || CMP_CC (term t) VEOF c then (t, -1)
    else
      let t := set_rx t (fifo_pop_front (rx_fifo t)).1 in
      let t :=
        if CMP_L (term t) ECHO then
          if CMP_L (term t) ECHOE then
            if CTL_PRINT c then
              if CMP_L (term t) ECHOCTL then (_libttydisc_txFeedback t [8; 8; 32; 32; 8; 8]).1
              else t
            else if c =? 32 then (_libttydisc_txFeedback t [8]).1
            else (_libttydisc_txFeedback t [8; 32; 8]).1
          else (_libttydisc_echo t (get_cc (term t) VERASE)).1
        else t in
      (t, 0).

(** [while (_libttydisc_rubchar(tty) == 0);] with fuel. [kill_line] gives it one
    step per byte of the buffer; [kill_line_exit] shows the loop has then ended. *)
Fixpoint rub_loop (fuel : nat) (t : tty) : tty :=
  match fuel with
  | O => t
  | S n => let '(t', r) := _libttydisc_rubchar t in if r =? 0 then rub_loop n t' else t'
  end.
Definition kill_line (t : tty) : tty := rub_loop (length (data (rx_fifo t))) t.

Definition _libtty_signal_pgrp (t : tty) (s : signal) : tty :=
  if 0 <? pgrp t then emit t (EvKill (- pgrp t) s) else t.

Definition _libtty_wake_reader (t : tty) : tty := emit t EvSignalRx.

(** The signal a character raises under ISIG. *)
Definition isig_char (t : tty) (c : Z) : option signal :=
  if CMP_L (term t) ISIG then
    if CMP_CC (term t) VINTR c then Some SIGINT
    else if CMP_CC (term t) VQUIT c then Some SIGQUIT
    else if CMP_CC (term t) VSUSP c then Some SIGTSTP
    else None
  else None.

(** CR/NL conversion on input; [None] drops the character. *)
Definition input_crnl (t : tty) (c : Z) : option Z :=
  if c =? CCR then
    if CMP_I (term t) IGNCR then None
    else if CMP_I (term t) ICRNL then Some CNL else Some c
  else if c =? CNL then
    if CMP_I (term t) INLCR then Some CCR else Some c
  else Some c.

(** Result of the input processing that precedes the push: the character was
    consumed ([inl]), or it is to be stored ([inr]). *)
Definition putchar_edit (t : tty) (c : Z) : tty + (tty * Z) :=
  if flag_on t TF_LITERAL then inr (flag_clear t TF_LITERAL, c)
  else if CMP_L (term t) IEXTEN && CMP_CC (term t) VLNEXT c then
    let t :=
      if CMP_L (term t) ECHO then
        if CMP_L (term t) ECHOE then (_libttydisc_txFeedback t [94; 8]).1
        else (_libttydisc_echo t c).1
      else t in
    inl (flag_set t TF_LITERAL)
  else
    match input_crnl t c with
    | None => inl t
    | Some c =>
        if CMP_L (term t) ICANON then
          if CMP_CC (term t) VERASE c || CMP_CC (term t) VERASE2 c
          then inl (_libttydisc_rubchar t).1
          else if CMP_CC (term t) VKILL c then inl (kill_line t)
          else inr (t, c)
        else inr (t, c)
    end.

(** Store the character, dropping the oldest one on overrun, echo it and tell
    the reader; the second component is [*wake_reader]. *)
Definition putchar_store (t : tty) (c : Z) (wake_reader : bool) : tty * Z :=
  let t := if fifo_is_full (rx_fifo t) then set_rx t (fifo_pop_back (rx_fifo t)).1 else t in
  let t := set_rx t (fifo_push (rx_fifo t) c) in
  let t := (_libttydisc_echo t c).1 in
  let wake t := if wake_reader then (t, 1) else (_libtty_wake_reader t, 0) in
  if CMP_L (term t) ICANON then
    if libttydisc_is_breakchar t c then wake (flag_set t TF_HAVEBREAK) else (t, 0)
  else wake t.

(** [_libtty_putchar]; [wake_reader] says whether the caller passed a non-NULL
    [wake_reader]. The C result is always 0. *)
Definition _libtty_putchar (t : tty) (c : Z) (wake_reader : bool) : tty * Z :=
  let c := if CMP_I (term t) ISTRIP then c &&& lnot_w 8 0x80 else c in
  match isig_char t c with
  | Some s => let t := (_libttydisc_echo t c).1 in (_libtty_signal_pgrp t s, 0)
  | None =>
      match putchar_edit t c with
      | inl t => (t, 0)
      | inr (t, c) => putchar_store t c wake_reader
      end
  end.

(** ** Reading *)

(** What [condWait] calls returned to: the state left by the other threads, and
    whether the wait timed out. *)
Definition wake := tty -> tty * bool.

Inductive wait_result := WReady | WErr (e : errno) | WPark | WBlocked.

(** The [for (;;)] of [_libttydisc_readCanon]. *)
Fixpoint canon_wait (wakes : list wake) (t : tty) (mode : Z) (st : bool) : tty * wait_result :=
  if flag_on t TF_HAVEBREAK then (t, WReady)
  else if flag_on t TF_CLOSING then (t, WErr EBADF)
  else if has mode O_NONBLOCK then (t, WErr EWOULDBLOCK)
  else if st then (t, WPark)
  else match wakes with
       | [] => (t, WBlocked)
       | w :: ws => canon_wait ws (w t).1 mode st
       end.

(** [while (len < size)] of [_libttydisc_readCanon]: [n] is [size - len], [byte]
    the last byte popped. *)
Fixpoint canon_loop (t : tty) (n : nat) (f : fifo) (byte : Z) (acc : list Z)
    : fifo * Z * list Z :=
  match n with
  | O => (f, byte, acc)
  | S n =>
      let '(f, byte) := fifo_pop_back f in
      if CMP_CC (term t) VEOF byte then (f, byte, acc)
      else if libttydisc_is_breakchar t byte then (f, byte, acc ++ [byte])
      else canon_loop t n f byte (acc ++ [byte])
  end.

(** Re-evaluate TF_HAVEBREAK after a line was taken. *)
Definition refresh_havebreak (t : tty) : tty :=
  let t := flag_clear t TF_HAVEBREAK in
  if CMP_L (term t) ICANON then
    if libttydisc_rx_have_breakchar t then flag_set t TF_HAVEBREAK else t
  else t.

(** The result of a read: return value (a length or an error), the bytes stored
    in the caller's buffer by this call, the caller's read state. *)
Record read_result := mk_rr { rr_ret : cres Z; rr_data : list Z; rr_st : option read_state }.

Definition st_timeout (st : option read_state) (ms : Z) : option read_state :=
  (fun s => mk_st ms (prevlen s)) <$> st.

Definition _libttydisc_readCanon (t : tty) (size mode : Z) (st : option read_state)
    (wakes : list wake) : tty * outcome read_result :=
  let st := st_timeout st (-1) in
  match canon_wait wakes t mode (bool_decide (is_Some st)) with
  | (t, WErr e) => (t, Ret (mk_rr (Err e) [] st))
  | (t, WPark) => (t, Ret (mk_rr (Ok 0) [] (st_timeout st 0)))
  | (t, WBlocked) => (t, Blocked)
  | (t, WReady) =>
      let '(f, byte, bytes) := canon_loop t (Z.to_nat size) (rx_fifo t) 0xff [] in
      let t := set_rx t f in
      let t := if libttydisc_is_breakchar t byte then refresh_havebreak t else t in
      (t, Ret (mk_rr (Ok (zlen bytes)) bytes st))
  end.

(** The blocking [while (fifo_is_empty(...))] of [_libttydisc_readRaw]: [inl]
    when the read must return what it has, [inr] the waits left. *)
Fixpoint raw_block (wakes : list wake) (t : tty) : tty * option (bool + list wake) :=
  if negb (fifo_is_empty (rx_fifo t)) then (t, Some (inr wakes))
  else if flag_on t TF_CLOSING then (t, Some (inl true))
  else match wakes with
       | [] => (t, None)
       | w :: ws => let '(t, timed_out) := w t in
                    if timed_out then (t, Some (inl true)) else raw_block ws t
       end.

(** [while (len < size)] of [_libttydisc_readRaw]: [n] is [size - len]. *)
Fixpoint raw_loop (t : tty) (n : nat) (len : Z) (acc : list Z) (mode vmin vtime : Z)
    (st : option read_state) (wakes : list wake) : tty * outcome read_result :=
  match n with
  | O => (t, Ret (mk_rr (Ok len) acc st))
  | S n =>
      let take t wakes :=
        let '(f, b) := fifo_pop_back (rx_fifo t) in
        raw_loop (set_rx t f) n (len + 1) (acc ++ [b]) mode vmin vtime st wakes in
      if negb (fifo_is_empty (rx_fifo t)) then take t wakes
      else if has mode O_NONBLOCK then
        (t, Ret (mk_rr (if len =? 0 then Err EWOULDBLOCK else Ok len) acc st))
      else if (vmin =? 0) && (vtime =? 0) then (t, Ret (mk_rr (Ok len) acc st))
      else if (len =? 0) || (len <? vmin) then
        match st with
        | Some _ =>
            let first_char_timeout := if vmin =? 0 then vtime else 0 in
            (t, Ret (mk_rr (Ok 0) acc
                  (Some (mk_st (if len =? 0 then first_char_timeout else vtime) len))))
        | None =>
            match raw_block wakes t with
            | (t, None) => (t, Blocked)
            | (t, Some (inl _)) => (t, Ret (mk_rr (Ok len) acc st))
            | (t, Some (inr ws)) => take t ws
            end
        end
      else (t, Ret (mk_rr (Ok len) acc st))
  end.

Definition _libttydisc_readRaw (t : tty) (size mode : Z) (st : option read_state)
    (wakes : list wake) : tty * outcome read_result :=
  let vmin := get_cc (term t) VMIN in
  let vtime := get_cc (term t) VTIME * 100 in
  let first_char_timeout := if vmin =? 0 then vtime else 0 in
  match st with
  | Some s =>
      if 0 <=? timeout_ms s then
        let wanted := if prevlen s =? 0 then first_char_timeout else vtime in
        if fifo_is_empty (rx_fifo t) then
          if wanted =? 0 then (t, Ret (mk_rr (Ok 0) [] st))
          else if 0 <? timeout_ms s then (t, Ret (mk_rr (Ok 0) [] st))
          else (t, Ret (mk_rr (Ok (prevlen s)) [] (Some (mk_st (-1) (prevlen s)))))
        else raw_loop t (Z.to_nat (size - prevlen s)) (prevlen s) [] mode vmin vtime
               (Some (mk_st (-1) (prevlen s))) wakes
      else raw_loop t (Z.to_nat size) 0 [] mode vmin vtime st wakes
  | None => raw_loop t (Z.to_nat size) 0 [] mode vmin vtime None wakes
  end.

Definition _libtty_read_nonblock (t : tty) (size mode : Z) (st : option read_state)
    (wakes : list wake) : tty * outcome read_result :=
  if flag_on t TF_CLOSING then (t, Ret (mk_rr (Err EBADF) [] st))
  else if CMP_L (term t) ICANON then _libttydisc_readCanon t size mode st wakes
  else _libttydisc_readRaw t size mode st wakes.

Definition _libtty_read (t : tty) (size mode : Z) (wakes : list wake) :=
  _libtty_read_nonblock t size mode None wakes.

Definition locked {A} (op : tty -> tty * A) (t : tty) : tty * A :=
  let '(t, r) := op (emit t EvLock) in (emit t EvUnlock, r).

Definition libtty_read_nonblock (t : tty) (size mode : Z) (st : option read_state)
    (wakes : list wake) : tty * outcome read_result :=
  locked (fun t => _libtty_read_nonblock t size mode st wakes) t.

Definition libtty_read (t : tty) (size mode : Z) (wakes : list wake) :=
  libtty_read_nonblock t size mode None wakes.

(** ** Transmit side, as the driver sees it *)

Definition _libtty_popchar (t : tty) : tty * Z :=
  let '(f, b) := fifo_pop_back (tx_fifo t) in (set_tx t f, b).

Definition _libtty_wake_writer (t : tty) : tty :=
  if TX_FIFO_NOTFULL_WATERMARK <=? fifo_freespace (tx_fifo t) then emit t EvSignalTx else t.

(** [_libtty_getchar]; the last component is [*wake_writer] when the caller
    passed a non-NULL pointer. *)
Definition _libtty_getchar (t : tty) (wake_writer : bool) : tty * Z * Z :=
  let '(t, c) := _libtty_popchar t in
  if wake_writer
  then (t, c, of_bool (TX_FIFO_NOTFULL_WATERMARK <=? fifo_freespace (tx_fifo t)))
  else (_libtty_wake_writer t, c, 0).

Definition _libtty_txready (t : tty) : bool := negb (fifo_is_empty (tx_fifo t)).
Definition _libtty_txfull (t : tty) : bool := fifo_is_full (tx_fifo t).
Definition _libtty_rxready (t : tty) : bool := negb (fifo_is_empty (rx_fifo t)).

(** ** Writing *)

(** One character of [_libtty_write]. *)
Definition write_char (t : tty) (c : Z) : tty :=
  if CMP_O (term t) OPOST && CTL_VALID c then (_libttydisc_writeOproc t c).1
  else set_tx t (fifo_push (tx_fifo t) c).

Inductive room_result := RRoom (ws : list wake) | RExit | RBlocked.

(** [while (fifo_freespace(...) < need)] *)
Fixpoint write_room (wakes : list wake) (t : tty) (mode need : Z) : tty * room_result :=
  if need <=? fifo_freespace (tx_fifo t) then (t, RRoom wakes)
  else if flag_on t TF_CLOSING then (t, RExit)
  else if has mode O_NONBLOCK then (t, RExit)
  else
    let t := emit_if t (has_signal_txready (cb t)) EvTxReady in
    match wakes with
    | [] => (t, RBlocked)
    | w :: ws => write_room ws (w t).1 mode need
    end.

(** [while (len < size)]: the bytes written so far and whether the loop ran to
    its end ([true]) or left by [goto exit] ([false]). *)
Fixpoint write_loop (t : tty) (bytes : list Z) (len mode need : Z) (wakes : list wake)
    : tty * outcome (Z * bool) :=
  match bytes with
  | [] => (t, Ret (len, true))
  | c :: bytes =>
      match write_room wakes t mode need with
      | (t, RRoom ws) => write_loop (write_char t c) bytes (len + 1) mode need ws
      | (t, RExit) => (t, Ret (len, false))
      | (t, RBlocked) => (t, Blocked)
      end
  end.

Definition _libtty_write (t : tty) (bytes : list Z) (mode : Z) (wakes : list wake)
    : tty * outcome (cres Z) :=
  if flag_on t TF_CLOSING then (t, Ret (Err EPIPE))
  else if fifo_is_full (tx_fifo t) && has mode O_NONBLOCK then (t, Ret (Err EWOULDBLOCK))
  else if zlen bytes =? 0 then (t, Ret (Ok 0))
  else
    let need := if CMP_O (term t) OPOST then LIBTTYDISC_WRITE_OPROC_MAXLEN else 1 in
    match write_loop t bytes 0 mode need wakes with
    | (t, Blocked) => (t, Blocked)
    | (t, Ret (len, finished)) =>
        let t := if finished then emit_if t (has_signal_txready (cb t)) EvTxReady else t in
        let r := if flag_on t TF_CLOSING then Err EPIPE
                 else if (len =? 0) && has mode O_NONBLOCK then Err EWOULDBLOCK
                 else Ok len in
        (t, Ret r)
    end.

Definition libtty_write (t : tty) (bytes : list Z) (mode : Z) (wakes : list wake) :=
  locked (fun t => _libtty_write t bytes mode wakes) t.

(** ** Poll *)

Definition _libtty_poll_status (t : tty) : Z :=
  let revents := 0 in
  let revents :=
    if negb (CMP_L (term t) ICANON) then
      if _libtty_rxready t then revents ||| (POLLIN ||| POLLRDNORM) else revents
    else if flag_on t TF_HAVEBREAK then revents ||| (POLLIN ||| POLLRDNORM) else revents in
  let revents := if negb (_libtty_txfull t) then revents ||| (POLLOUT ||| POLLWRNORM) else revents in
  if flag_on t TF_CLOSING then revents ||| POLLHUP else revents.

Definition libtty_poll_status (t : tty) : tty * Z :=
  locked (fun t => (t, _libtty_poll_status t)) t.

(** ** Attributes *)

(** [termios_optimize]: rebuild the break characters, re-evaluate TF_HAVEBREAK. *)
Definition termios_optimize (t : tty) : tty :=
  let b := arr_set (breakchars t) 0 CNL in
  let n := 1 in
  let '(b, n) := if negb (get_cc (term t) VEOF =? VDISABLE)
                 then (arr_set b n (get_cc (term t) VEOF), n + 1) else (b, n) in
  let '(b, n) := if negb (get_cc (term t) VEOL =? VDISABLE)
                 then (arr_set b n (get_cc (term t) VEOL), n + 1) else (b, n) in
  let b := arr_set b n 0 in
  refresh_havebreak (set_breakchars t b).

Inductive flush_type := TCIFLUSH | TCOFLUSH | TCIOFLUSH | TCother.
#[export] Instance flush_type_eq_dec : EqDecision flush_type.
Proof. solve_decision. Defined.

Definition _libtty_flush (t : tty) (type : flush_type) : tty * cres Z :=
  if bool_decide (type = TCother) then (t, Err EINVAL)
  else
    let t := if bool_decide (type = TCIFLUSH \/ type = TCIOFLUSH)
             then set_rx t (fifo_remove_all (rx_fifo t)) else t in
    let t := if bool_decide (type = TCOFLUSH \/ type = TCIOFLUSH)
             then set_tx t (fifo_remove_all_but_one (tx_fifo t)) else t in
    (termios_optimize t, Ok 0).

Fixpoint _libtty_drain (wakes : list wake) (t : tty) : tty * outcome unit :=
  if fifo_is_empty (tx_fifo t) then (t, Ret tt)
  else match wakes with
       | [] => (t, Blocked)
       | w :: ws => _libtty_drain ws (w t).1
       end.

(** TCSETS, TCSETSW and TCSETSF. *)
Definition tcsets (t : tty) (x : termios) : tty * cres Z :=
  let ispeed := if c_ispeed x =? 0 then c_ospeed x else c_ispeed x in
  if negb (ispeed =? c_ospeed x) then (t, Err EINVAL)
  else
    let t := emit_if t (negb (c_ospeed x =? c_ospeed (term t)) && has_set_baudrate (cb t))
               (EvSetBaud (c_ospeed x)) in
    let t := emit_if t (negb (c_cflag x =? c_cflag (term t)) && has_set_cflag (cb t))
               (EvSetCflag (c_cflag x)) in
    let x := mk_termios (c_iflag x &&& TTYSUP_IFLAG) (c_oflag x &&& TTYSUP_OFLAG) (c_cflag x)
               (c_lflag x &&& TTYSUP_LFLAG) (c_cc x) ispeed (c_ospeed x) in
    (termios_optimize (set_term t x), Ok 0).

Definition libtty_set_mode_raw (t : tty) : tty :=
  let x := term t in
  set_term t (mk_termios
    (c_iflag x &&& lnot_w 32 (imask IGNBRK ||| imask BRKINT ||| imask INLCR ||| imask IGNCR
                              ||| imask ICRNL ||| imask ISTRIP))
    (c_oflag x &&& lnot_w 32 (omask OPOST)) (c_cflag x)
    (c_lflag x &&& lnot_w 32 (lmask ECHO ||| lmask ECHONL ||| lmask ICANON ||| lmask ISIG
                              ||| lmask IEXTEN))
    (c_cc x) (c_ispeed x) (c_ospeed x)).

(** ** Life cycle *)

(** What [libtty_init] acquires and [libtty_destroy] gives back. *)
Inductive resource := RLock | RTxFifo | RRxFifo | RTxCond | RRxCond.
#[export] Instance resource_eq_dec : EqDecision resource.
Proof. solve_decision. Defined.

(** How the system calls made by [libtty_init] turn out: the buffers' initial
    bytes when [malloc] succeeds. *)
Record init_env := mk_ie {
  ie_mutex : bool;
  ie_tx : option (list Z); ie_rx : option (list Z);
  ie_txcond : bool; ie_rxcond : bool
}.

(** [libtty_destroy]: a field that was never filled in is zero and skipped. *)
Definition libtty_destroy (held : list resource) : list resource :=
  filter (fun r => r ∈ held) [RTxCond; RRxCond; RRxFifo; RTxFifo; RLock].

Record init_result := mk_ir {
  ir_tty : option tty;
  ir_acquired : list resource;
  ir_released : list resource
}.

Definition init_fail (held : list resource) : init_result :=
  mk_ir None held (libtty_destroy held).

(** The initialised fields of a fresh [libtty_common_t]. *)
Definition init_tty (callbacks : callbacks) (bufsize speed : Z) (dtx drx : list Z) : tty :=
  let empty d := fifo_init (mk_fifo 0 0 0 d) bufsize in
  let t := mk_tty callbacks (termios_init speed) 0 0 0 0 (empty dtx) (empty drx)
             [0; 0; 0; 0] 0 [] in
  set_session (set_ws (termios_optimize t) 25 80) (-1) (-1).

Definition libtty_init (env : init_env) (callbacks : callbacks) (bufsize speed : Z)
    (lock_given : bool) : init_result :=
  if (bufsize =? 0) || negb ((bufsize &&& (bufsize - 1)) =? 0) then mk_ir None [] []
  else if speed <? 0 then mk_ir None [] []
  else if negb lock_given && negb (ie_mutex env) then mk_ir None [] []
  else
    let held := if lock_given then [] else [RLock] in
    let held := held ++ (if ie_tx env is Some _ then [RTxFifo] else []) in
    let held := held ++ (if ie_rx env is Some _ then [RRxFifo] else []) in
    match ie_tx env, ie_rx env with
    | Some dtx, Some drx =>
        if negb (ie_txcond env) then init_fail held
        else
          let held := held ++ [RTxCond] in
          if negb (ie_rxcond env) then init_fail held
          else mk_ir (Some (init_tty callbacks bufsize speed dtx drx)) (held ++ [RRxCond]) []
    | _, _ => init_fail held
    end.

Definition _libtty_close (t : tty) : tty * Z :=
  let t := flag_set t TF_CLOSING in
  (emit (emit t EvBroadcastTx) EvBroadcastRx, 0).
Definition libtty_close (t : tty) : tty * Z := locked _libtty_close t.

End Ops.

End Tty.
