(* ===== verification/TtyDisc.v ===== *)
(** * Correctness of the line discipline ([src/tty/libtty/libtty_disc.c])

    The bytes an operation emits are pure functions of the attributes
    ([oproc_bytes], [echo_bytes]); the receive buffer is described by its list of
    bytes. The theorems give the behaviour of input editing, canonical and raw
    reads and of writes on those lists, and the coherence of the cached
    TF_HAVEBREAK flag and of [breakchars]. *)

From S2P Require Import Prelude Fifo Termios Tty.
Import Fifo Termios Tty.

Module TtyDisc.

Section Spec.
Context `{Abi}.

(** ** Specification functions *)

(** What [_libttydisc_writeOproc] emits for [c]. *)
Definition oproc_bytes (x : termios) (c : Z) : list Z :=
  if c =? CEOF then [c]
  else if c =? CTAB then if CMP_O x TAB3 then replicate 8 32 else [c]
  else if c =? CNL then if CMP_O x ONLCR then [13; 10] else [c]
  else if c =? CCR then [if CMP_O x OCRNL then CNL else c]
  else [c].

(** What [_libttydisc_echo] emits; [None] when echo is off for [c]. *)
Definition echo_bytes (x : termios) (c : Z) : option (list Z) :=
  if negb (CMP_L x ECHO) && (negb (CMP_L x ECHONL) || negb (c =? CNL)) then None
  else if CMP_O x OPOST && CTL_ECHO c then Some (oproc_bytes x c)
  else if CMP_L x ECHOCTL && CTL_PRINT c then
    let ob1 := if negb (c =? 127) then u8 (c + 65 - 1) else 63 in
    Some (if CMP_CC x VEOF c then [94; ob1; 8; 8] else [94; ob1])
  else Some [c].

(** What one character of [_libtty_write] puts in the transmit buffer. *)
Definition write_bytes (x : termios) (c : Z) : list Z :=
  if CMP_O x OPOST && CTL_VALID c then oproc_bytes x c else [c].

(** The break characters the attributes ask for. *)
Definition brk_list (x : termios) : list Z :=
  [CNL] ++ (if get_cc x VEOF =? VDISABLE then [] else [get_cc x VEOF])
        ++ (if get_cc x VEOL =? VDISABLE then [] else [get_cc x VEOL]).

(** A character that [_libttydisc_rubchar] does not erase: it ends a line. *)
Definition ends_line (x : termios) (c : Z) : bool :=
  (c =? CNL) || CMP_CC x VEOL c || CMP_CC x VEOF c.

(** The bytes of the current, unterminated line: after the last line end. *)
Fixpoint drop_line (x : termios) (rl : list Z) : list Z :=
  match rl with
  | [] => []
  | c :: rl' => if ends_line x c then rl else drop_line x rl'
  end.
Definition erase_line (x : termios) (l : list Z) : list Z := rev (drop_line x (rev l)).

(** Removing the last character unless it ends a line. *)
Definition erase_char (x : termios) (l : list Z) : list Z :=
  match last l with
  | Some c => if ends_line x c then l else take (length l - 1) l
  | None => []
  end.

(** The effect of one received character on the receive buffer's bytes, as
    input modes prescribe it. [lit]: the previous character was LNEXT. *)
Definition input_strip (x : termios) (c : Z) : Z :=
  if CMP_I x ISTRIP then c &&& lnot_w 8 0x80 else c.

Definition is_sigchar (x : termios) (c : Z) : bool :=
  CMP_L x ISIG && (CMP_CC x VINTR c || CMP_CC x VQUIT c || CMP_CC x VSUSP c).

Definition rx_spec (x : termios) (lit : bool) (cap : Z) (l : list Z) (c : Z) : list Z :=
  let c := input_strip x c in
  if is_sigchar x c then l
  else if lit then push_drop cap l c
  else if CMP_L x IEXTEN && CMP_CC x VLNEXT c then l
  else if (c =? CCR) && CMP_I x IGNCR then l
  else
    let c := if (c =? CCR) && CMP_I x ICRNL then CNL
             else if (c =? CNL) && CMP_I x INLCR then CCR else c in
    if CMP_L x ICANON && (CMP_CC x VERASE c || CMP_CC x VERASE2 c) then erase_char x l
    else if CMP_L x ICANON && CMP_CC x VKILL c then erase_line x l
    else push_drop cap l c.

(** Characters received one after the other. *)
Definition putchars (t : tty) (cs : list Z) : tty :=
  fold_left (fun t c => (_libtty_putchar t c true).1) cs t.

(** A character that input processing stores unchanged. *)
Definition ordinary (x : termios) (c : Z) : bool :=
  (input_strip x c =? c) && negb (is_sigchar x c) &&
  negb (CMP_L x IEXTEN && CMP_CC x VLNEXT c) && negb (c =? CCR) &&
  negb ((c =? CNL) && CMP_I x INLCR) &&
  negb (CMP_CC x VERASE c) && negb (CMP_CC x VERASE2 c) && negb (CMP_CC x VKILL c).

(** ** Invariants *)

Record tty_wf (t : tty) : Prop := {
  wf_tx : fifo_wf (tx_fifo t);
  wf_rx : fifo_wf (rx_fifo t);
  wf_rx_bytes : Forall is_byte (data (rx_fifo t));
  wf_cc_bytes : Forall is_byte (c_cc (term t));
  wf_brk_bytes : Forall is_byte (breakchars t);
  wf_brk_len : length (breakchars t) = 4%nat;
  wf_brk : exists rest, breakchars t = brk_list (term t) ++ [0] ++ rest
}.

(** In canonical mode the cached flag says whether a break character is
    buffered. *)
Definition havebreak_ok (t : tty) : Prop :=
  CMP_L (term t) ICANON = true ->
  flag_on t TF_HAVEBREAK = existsb (libttydisc_is_breakchar t) (contents (rx_fifo t)).

(** [t'] differs from [t] at most in the two buffers and the events. *)
Definition io_frame (t t' : tty) : Prop :=
  cb t' = cb t /\ term t' = term t /\ ws_row t' = ws_row t /\ ws_col t' = ws_col t /\
  sid t' = sid t /\ pgrp t' = pgrp t /\ breakchars t' = breakchars t /\ t_flags t' = t_flags t.

(** [t'] differs from [t] at most in the transmit buffer and the events. *)
Definition tx_frame (t t' : tty) : Prop :=
  cb t' = cb t /\ term t' = term t /\ ws_row t' = ws_row t /\ ws_col t' = ws_col t /\
  sid t' = sid t /\ pgrp t' = pgrp t /\ rx_fifo t' = rx_fifo t /\
  breakchars t' = breakchars t /\ t_flags t' = t_flags t.

End Spec.

(** ** Transmit side *)

Section Tx.
Context `{Abi}.

Lemma tx_frame_refl t : tx_frame t t.
Proof. done. Qed.

Lemma tx_frame_trans t1 t2 t3 : tx_frame t1 t2 -> tx_frame t2 t3 -> tx_frame t1 t3.
Proof. unfold tx_frame. intros; destruct_and!; split_and!; congruence. Qed.

Lemma feed_spec bytes : forall f,
  fifo_wf f ->
  let n := Z.to_nat (fifo_freespace f) in
  fifo_wf (feed f bytes).1 /\ capacity (feed f bytes).1 = capacity f /\
  contents (feed f bytes).1 = contents f ++ take n (u8 <$> bytes) /\
  (feed f bytes).2 = drop n bytes.
Proof.
  induction bytes as [|b bytes IH]; intros f Hwf n; cbn.
  { rewrite take_nil, drop_nil, app_nil_r. done. }
  destruct (fifo_is_full f) eqn:E.
  - assert (n = 0%nat) as ->.
    { apply is_full_spec in E; [|done]. unfold n. rewrite freespace_eq by done.
      rewrite <- length_contents by done. lia. }
    cbn. rewrite app_nil_r. done.
  - pose proof E as E'. apply not_full_spec in E'; [|done].
    destruct (IH (fifo_push f (u8 b)) (fifo_push_wf f Hwf _)) as (? & Hc & Hcont & Hrest).
    assert (n = S (Z.to_nat (fifo_freespace (fifo_push f (u8 b))))) as En.
    { unfold n. rewrite !freespace_eq by auto using fifo_push_wf.
      rewrite <- !length_contents by auto using fifo_push_wf.
      rewrite fifo_push_contents by done. rewrite length_app. cbn. unfold capacity in *.
      cbn. lia. }
    rewrite Hc, Hcont, Hrest, En, fifo_push_contents by done. cbn.
    rewrite <- app_assoc. done.
Qed.

Lemma txFeedback_spec t bytes :
  fifo_wf (tx_fifo t) ->
  let n := Z.to_nat (fifo_freespace (tx_fifo t)) in
  let t' := (_libttydisc_txFeedback t bytes).1 in
  fifo_wf (tx_fifo t') /\ capacity (tx_fifo t') = capacity (tx_fifo t) /\
  contents (tx_fifo t') = contents (tx_fifo t) ++ take n (u8 <$> bytes) /\
  tx_frame t t' /\
  (_libttydisc_txFeedback t bytes).2 = zlen (take n bytes).
Proof.
  intros Hwf n. destruct (feed_spec bytes _ Hwf) as (H1 & H2 & H3 & H4).
  unfold _libttydisc_txFeedback. destruct (feed (tx_fifo t) bytes) as [f rest]. cbn in *.
  fold n in H3, H4. split_and!; try (destruct (has_signal_txready _); done).
  subst rest. unfold zlen. rewrite length_take, length_drop. lia.
Qed.

Lemma writeOproc_eq t c :
  _libttydisc_writeOproc t c = _libttydisc_txFeedback t (oproc_bytes (term t) c).
Proof. unfold _libttydisc_writeOproc, oproc_bytes. by repeat case_if. Qed.

Lemma echo_eq t c :
  (_libttydisc_echo t c).1 =
  match echo_bytes (term t) c with
  | None => t
  | Some bs => (_libttydisc_txFeedback t bs).1
  end.
Proof.
  unfold _libttydisc_echo, echo_bytes. rewrite writeOproc_eq.
  repeat case_if; try done. by destruct (_libttydisc_txFeedback t [c]).
Qed.

Lemma oproc_bytes_len x c : zlen (oproc_bytes x c) <= LIBTTYDISC_WRITE_OPROC_MAXLEN.
Proof.
  unfold zlen, oproc_bytes, LIBTTYDISC_WRITE_OPROC_MAXLEN. repeat case_if; cbn; lia.
Qed.

Lemma oproc_bytes_range x c : is_byte c -> Forall is_byte (oproc_bytes x c).
Proof.
  intros Hc. unfold oproc_bytes, is_byte, CNL in *.
  repeat case_if; repeat constructor; try lia; try done.
Qed.

Lemma tx_frame_txFeedback t bs : fifo_wf (tx_fifo t) -> tx_frame t (_libttydisc_txFeedback t bs).1.
Proof. intros Hwf. by apply (txFeedback_spec t bs). Qed.

Lemma tx_wf_txFeedback t bs :
  fifo_wf (tx_fifo t) -> fifo_wf (tx_fifo (_libttydisc_txFeedback t bs).1).
Proof. intros Hwf. by apply (txFeedback_spec t bs). Qed.

Lemma echo_frame t c :
  fifo_wf (tx_fifo t) ->
  tx_frame t (_libttydisc_echo t c).1 /\ fifo_wf (tx_fifo (_libttydisc_echo t c).1).
Proof.
  intros Hwf. rewrite echo_eq. destruct (echo_bytes _ _); [|done].
  split; [by apply tx_frame_txFeedback | by apply tx_wf_txFeedback].
Qed.

End Tx.

#[export] Hint Resolve tx_frame_refl tx_frame_txFeedback tx_wf_txFeedback : c_arith.

(** ** Break characters *)

Section Rx.
Context `{Abi}.

Lemma scan_breakchars_spec l c :
  scan_breakchars l c = true <->
  exists l1 l2, l = l1 ++ c :: l2 /\ Forall (fun b => b <> 0) (l1 ++ [c]).
Proof.
  induction l as [|b l IH]; cbn.
  { split; [done|]. intros ([|] & ? & ? & _); done. }
  destruct (b =? 0) eqn:E0; bsimp.
  { split; [done|]. subst b. intros ([|x l1] & l2 & ? & Hf); simplify_eq/=;
      apply Forall_inv in Hf; done. }
  destruct (c =? b) eqn:E1; bsimp.
  { subst. split; [|done]. intros _. exists [], l. split; [done|]. by repeat constructor. }
  rewrite IH. split.
  - intros (l1 & l2 & -> & Hf). exists (b :: l1), l2. split; [done|]. by constructor.
  - intros ([|x l1] & l2 & ? & Hf); simplify_eq/=. apply Forall_cons in Hf as [_ Hf]. eauto.
Qed.

Lemma rx_has_spec t c :
  fifo_wf (rx_fifo t) -> rx_has t c = bool_decide (u8 c ∈ contents (rx_fifo t)).
Proof. intros Hwf. unfold rx_has. by rewrite has_char_spec. Qed.

Lemma scan_rx_spec t l :
  fifo_wf (rx_fifo t) -> Forall is_byte l ->
  scan_rx t l = existsb (scan_breakchars l) (contents (rx_fifo t)).
Proof.
  intros Hwf Hb. induction l as [|b l IH]; cbn.
  { induction (contents (rx_fifo t)); done. }
  apply Forall_cons in Hb as [Hb Hl]. specialize (IH Hl).
  destruct (b =? 0). { clear. induction (contents (rx_fifo t)); done. }
  rewrite rx_has_spec, u8_small by done. rewrite IH. clear IH Hl Hwf Hb.
  induction (contents (rx_fifo t)) as [|x xs IHx]; cbn [existsb].
  - rewrite bool_decide_eq_false_2; [done | by apply not_elem_of_nil].
  - rewrite <- IHx. destruct (x =? b) eqn:E; bsimp.
    + subst. rewrite bool_decide_eq_true_2 by left. done.
    + destruct (decide (b ∈ xs)).
      * rewrite !bool_decide_eq_true_2 by (try right; done). by rewrite orb_true_r.
      * rewrite !bool_decide_eq_false_2; [done | done | by rewrite elem_of_cons; intros [?|?]].
Qed.

Lemma rx_have_breakchar_spec t :
  tty_wf t ->
  libttydisc_rx_have_breakchar t =
  existsb (libttydisc_is_breakchar t) (contents (rx_fifo t)).
Proof. intros []. by apply scan_rx_spec. Qed.

(** Every break character ends a line for [_libttydisc_rubchar]. *)
Lemma breakchar_ends_line t c :
  tty_wf t -> libttydisc_is_breakchar t c = true -> ends_line (term t) c = true.
Proof.
  intros Hwf Hc. destruct (wf_brk t Hwf) as [rest E].
  unfold libttydisc_is_breakchar in Hc. rewrite E in Hc. clear E.
  unfold brk_list, ends_line, CMP_CC, CNL in *. rewrite <- !app_assoc in Hc.
  destruct (get_cc (term t) VEOF =? VDISABLE), (get_cc (term t) VEOL =? VDISABLE);
    cbn in *; repeat case_if; bsimp; subst; try done;
    rewrite ?Z.eqb_refl, ?orb_true_r; done.
Qed.

Lemma flag_on_set t m : 0 < m -> flag_on (flag_set t m) m = true.
Proof.
  intros Hm. unfold flag_on, has, flag_set. cbn.
  replace (_ &&& m) with m; [by destruct (Z.eqb_spec m 0); [lia|]|].
  apply Z.bits_inj'. intros n Hn. rewrite Z.land_spec, Z.lor_spec.
  by destruct (Z.testbit m n), (Z.testbit (t_flags t) n).
Qed.

Lemma land_lnot_bits x m m' :
  0 <= m < 2 ^ 32 -> 0 <= m' < 2 ^ 32 ->
  Z.land (x &&& lnot_w 32 m) m' = Z.land x (Z.ldiff m' m).
Proof.
  intros Hm Hm'. apply Z.bits_inj'. intros n Hn. unfold lnot_w.
  rewrite !Z.land_spec, Z.lxor_spec, Z.ldiff_spec.
  replace (2 ^ 32 - 1) with (Z.ones 32) by done.
  destruct (Z.ltb_spec n 32).
  - rewrite Z.ones_spec_low by lia. by destruct (Z.testbit x n), (Z.testbit m n), (Z.testbit m' n).
  - rewrite !(Z.bits_above_log2 m'), ?andb_false_r; [done | lia |].
    destruct (decide (m' = 0)) as [->|]; [cbn; lia|]. apply Z.log2_lt_pow2; [lia|].
    pose proof (Z.pow_le_mono_r 2 32 n). lia.
Qed.

Lemma flag_on_clear t m : 0 <= m < 2 ^ 32 -> flag_on (flag_clear t m) m = false.
Proof.
  intros Hm. unfold flag_on, has, flag_clear. cbn. rewrite land_lnot_bits by done.
  rewrite Z.ldiff_diag, Z.land_0_r. done.
Qed.

Lemma flag_on_clear_other t m m' :
  0 <= m < 2 ^ 32 -> 0 <= m' < 2 ^ 32 -> Z.land m' m = 0 ->
  flag_on (flag_clear t m) m' = flag_on t m'.
Proof.
  intros Hm Hm' Hd. unfold flag_on, has, flag_clear. cbn. rewrite land_lnot_bits by done.
  f_equal. f_equal. f_equal. apply Z.bits_inj'. intros n Hn.
  apply (f_equal (fun z => Z.testbit z n)) in Hd. rewrite Z.land_spec, Z.bits_0 in Hd.
  rewrite Z.ldiff_spec. by destruct (Z.testbit m n), (Z.testbit m' n).
Qed.

Lemma flag_on_set_other t m m' : Z.land m' m = 0 -> flag_on (flag_set t m) m' = flag_on t m'.
Proof.
  intros Hd. unfold flag_on, has, flag_set. cbn. f_equal. f_equal.
  apply Z.bits_inj'. intros n Hn.
  apply (f_equal (fun z => Z.testbit z n)) in Hd. rewrite Z.land_spec, Z.bits_0 in Hd.
  rewrite !Z.land_spec, Z.lor_spec.
  by destruct (Z.testbit m n), (Z.testbit m' n), (Z.testbit (t_flags t) n).
Qed.

(** Re-evaluating the flag makes it coherent. *)
Lemma refresh_havebreak_ok t : tty_wf t -> havebreak_ok (refresh_havebreak t).
Proof.
  intros Hwf. unfold refresh_havebreak.
  assert (Hwf' : tty_wf (flag_clear t TF_HAVEBREAK)) by (by destruct Hwf).
  pose proof (rx_have_breakchar_spec _ Hwf') as E.
  destruct (CMP_L (term (flag_clear t TF_HAVEBREAK)) ICANON) eqn:Ei.
  - destruct (libttydisc_rx_have_breakchar _) eqn:Eh; intros _.
    + rewrite flag_on_set by done. by rewrite E.
    + rewrite flag_on_clear by done. by rewrite E.
  - intros Hi. congruence.
Qed.

Lemma refresh_havebreak_wf t : tty_wf t -> tty_wf (refresh_havebreak t).
Proof. intros []. unfold refresh_havebreak. by repeat case_if. Qed.

End Rx.

(** ** Erase and kill *)

Section Edit.
Context `{Abi}.

Lemma io_frame_trans t1 t2 t3 : io_frame t1 t2 -> io_frame t2 t3 -> io_frame t1 t3.
Proof. unfold io_frame. intros; destruct_and!; split_and!; congruence. Qed.

Lemma tx_io_frame t t' : tx_frame t t' -> io_frame t t'.
Proof. unfold tx_frame, io_frame. tauto. Qed.

(** An operation that only touched the buffers keeps the invariant if the
    buffers are well formed. *)
Lemma tty_wf_frame t t' :
  tty_wf t -> io_frame t t' -> fifo_wf (tx_fifo t') -> fifo_wf (rx_fifo t') ->
  Forall is_byte (data (rx_fifo t')) -> tty_wf t'.
Proof.
  intros [] (E1 & E2 & E3 & E4 & E5 & E6 & E7 & E8) ???. split; rewrite ?E2, ?E7; done.
Qed.

Lemma tty_wf_tx_frame t t' :
  tty_wf t -> tx_frame t t' -> fifo_wf (tx_fifo t') -> tty_wf t'.
Proof.
  intros Hwf Hf Htx. assert (E : rx_fifo t' = rx_fifo t) by apply Hf.
  apply (tty_wf_frame t); [done | by apply tx_io_frame | done | |]; rewrite E; apply Hwf.
Qed.

Lemma havebreak_ok_frame t t' :
  havebreak_ok t -> io_frame t t' ->
  existsb (libttydisc_is_breakchar t) (contents (rx_fifo t')) =
  existsb (libttydisc_is_breakchar t) (contents (rx_fifo t)) ->
  havebreak_ok t'.
Proof.
  intros Hb (E1 & E2 & E3 & E4 & E5 & E6 & E7 & E8) E. unfold havebreak_ok, flag_on in *.
  unfold libttydisc_is_breakchar in *. rewrite E2, E7, E8, E. done.
Qed.

Definition rub_echo (t : tty) (c : Z) : tty :=
  if CMP_L (term t) ECHO then
    if CMP_L (term t) ECHOE then
      if CTL_PRINT c then
        if CMP_L (term t) ECHOCTL then (_libttydisc_txFeedback t [8; 8; 32; 32; 8; 8]).1
        else t
      else if c =? 32 then (_libttydisc_txFeedback t [8]).1
      else (_libttydisc_txFeedback t [8; 32; 8]).1
    else (_libttydisc_echo t (get_cc (term t) VERASE)).1
  else t.

Lemma rub_echo_frame t c :
  fifo_wf (tx_fifo t) -> tx_frame t (rub_echo t c) /\ fifo_wf (tx_fifo (rub_echo t c)).
Proof.
  intros Hwf. unfold rub_echo. repeat case_if; auto with c_arith. by apply echo_frame.
Qed.

(** [_libttydisc_rubchar] on the receive buffer's bytes. *)
Lemma rubchar_spec t :
  tty_wf t ->
  let t' := (_libttydisc_rubchar t).1 in
  tty_wf t' /\ io_frame t t' /\
  (( (_libttydisc_rubchar t).2 = -1 /\ t' = t /\
     (contents (rx_fifo t) = [] \/
      exists l c, contents (rx_fifo t) = l ++ [c] /\ ends_line (term t) c = true)) \/
   ( (_libttydisc_rubchar t).2 = 0 /\
     exists c, contents (rx_fifo t) = contents (rx_fifo t') ++ [c] /\
               ends_line (term t) c = false)).
Proof.
  intros Hwf. cbn. unfold _libttydisc_rubchar.
  pose proof (wf_rx t Hwf) as Hrx. destruct (fifo_is_empty (rx_fifo t)) eqn:E.
  { apply is_empty_spec in E; [|done]. split_and!; try done. left. split_and!; auto. }
  assert (Hne : contents (rx_fifo t) <> []) by (intros C%is_empty_spec; congruence).
  pose proof (fifo_pop_front_contents _ Hrx Hne) as Ec.
  rewrite (fifo_peek_front_eq (rx_fifo t)). fold (ends_line (term t) (fifo_pop_front (rx_fifo t)).2).
  destruct (ends_line _ _) eqn:El; cbn [fst snd].
  { split_and!; try done. left. split_and!; eauto. }
  change (term (set_rx t (fifo_pop_front (rx_fifo t)).1)) with (term t).
  set (t1 := set_rx t (fifo_pop_front (rx_fifo t)).1).
  destruct (rub_echo_frame t1 (fifo_pop_front (rx_fifo t)).2) as [Hf Htx]; [apply Hwf|].
  unfold rub_echo in Hf, Htx. change (term t1) with (term t) in Hf, Htx.
  assert (Hwf1 : tty_wf t1).
  { destruct Hwf. split; try done. by apply fifo_pop_front_wf. }
  split_and!.
  - by eapply tty_wf_tx_frame.
  - eapply io_frame_trans; [|by apply tx_io_frame]. done.
  - right. split; [done|]. eexists. split; [|done].
    destruct Hf as (_ & _ & _ & _ & _ & _ & -> & _). done.
Qed.

Lemma drop_line_app_keep x l c :
  ends_line x c = true -> erase_line x (l ++ [c]) = l ++ [c].
Proof.
  intros E. unfold erase_line. rewrite rev_app_distr. cbn. rewrite E. cbn.
  by rewrite rev_involutive.
Qed.

Lemma drop_line_app_drop x l c :
  ends_line x c = false -> erase_line x (l ++ [c]) = erase_line x l.
Proof. intros E. unfold erase_line. rewrite rev_app_distr. cbn. by rewrite E. Qed.

Lemma rub_loop_spec n : forall t,
  tty_wf t -> (length (contents (rx_fifo t)) < n)%nat ->
  let t' := rub_loop n t in
  tty_wf t' /\ io_frame t t' /\
  contents (rx_fifo t') = erase_line (term t) (contents (rx_fifo t)) /\
  (_libttydisc_rubchar t').2 = -1.
Proof.
  induction n as [|n IH]; intros t Hwf Hn; [lia|]. cbn.
  pose proof (rubchar_spec t Hwf) as (Hwf1 & Hf & Hcase).
  destruct (_libttydisc_rubchar t) as [t1 r] eqn:Er. cbn [fst snd] in *.
  destruct Hcase as [(-> & -> & Hl)|(-> & c & Hc & Hcl)]; cbn.
  - split_and!; [done..| |by rewrite Er].
    destruct Hl as [->|(l & c & -> & Hc)]; [done|]. symmetry. by apply drop_line_app_keep.
  - destruct (IH t1 Hwf1) as (H1 & H2 & H3 & H4).
    { rewrite Hc, length_app in Hn. cbn in Hn. lia. }
    split_and!; [done | by eapply io_frame_trans | | done].
    rewrite H3. assert (E : term t1 = term t) by apply Hf. rewrite E, Hc.
    symmetry. by apply drop_line_app_drop.
Qed.

(** The kill loop ends (the last call refused to erase), having removed exactly
    the unterminated line. *)
Lemma kill_line_exit t :
  tty_wf t ->
  tty_wf (kill_line t) /\ io_frame t (kill_line t) /\
  contents (rx_fifo (kill_line t)) = erase_line (term t) (contents (rx_fifo t)) /\
  (_libttydisc_rubchar (kill_line t)).2 = -1.
Proof.
  intros Hwf. apply rub_loop_spec; [done|].
  pose proof (wf_rx t Hwf) as Hrx. pose proof (length_contents _ Hrx).
  pose proof (count_range _ Hrx). destruct Hrx as (_ & Hd & _). unfold zlen, capacity in *. lia.
Qed.

(** Erasing removes no break character. *)
Lemma existsb_erase t l :
  tty_wf t ->
  existsb (libttydisc_is_breakchar t) (erase_line (term t) l) =
  existsb (libttydisc_is_breakchar t) l.
Proof.
  intros Hwf. induction l as [|c l IH] using rev_ind; [done|].
  destruct (ends_line (term t) c) eqn:E; [by rewrite drop_line_app_keep|].
  rewrite drop_line_app_drop, IH, existsb_app by done. cbn.
  destruct (libttydisc_is_breakchar t c) eqn:Eb; [|by rewrite !orb_false_r].
  apply breakchar_ends_line in Eb; [congruence | done].
Qed.

End Edit.

(** ** Receiving a character *)

Section Putchar.
Context `{Abi}.

Lemma isig_char_spec t c : is_sigchar (term t) c = bool_decide (is_Some (isig_char t c)).
Proof.
  unfold is_sigchar, isig_char. destruct (CMP_L (term t) ISIG); [|done]. cbn.
  by destruct (CMP_CC _ VINTR _), (CMP_CC _ VQUIT _), (CMP_CC _ VSUSP _).
Qed.

Lemma erase_char_spec x l l' c :
  l = l' ++ [c] -> erase_char x l = if ends_line x c then l else l'.
Proof.
  intros ->. unfold erase_char. rewrite last_snoc. destruct (ends_line x c); [done|].
  rewrite length_app. cbn. by rewrite Nat.add_sub, take_app_length.
Qed.

Lemma rubchar_contents t :
  tty_wf t ->
  contents (rx_fifo (_libttydisc_rubchar t).1) = erase_char (term t) (contents (rx_fifo t)).
Proof.
  intros Hwf. destruct (rubchar_spec t Hwf) as (_ & _ & [(_ & -> & Hl)|(_ & c & Hc & He)]).
  - destruct Hl as [->|(l & c & -> & Hc)]; [done|].
    erewrite erase_char_spec by done. by rewrite Hc.
  - erewrite (erase_char_spec _ (contents (rx_fifo t))) by done. by rewrite He.
Qed.

(** Storing a byte in the ring, dropping the oldest one if it is full. *)
Definition rx_store (f : fifo) (c : Z) : fifo :=
  fifo_push (if fifo_is_full f then (fifo_pop_back f).1 else f) c.

Lemma rx_store_spec f c :
  fifo_wf f -> Forall is_byte (data f) -> is_byte c ->
  fifo_wf (rx_store f c) /\ Forall is_byte (data (rx_store f c)) /\
  contents (rx_store f c) = push_drop (capacity f) (contents f) c.
Proof.
  intros Hwf Hd Hc. pose proof (length_le_cap f Hwf). unfold rx_store, push_drop.
  destruct (fifo_is_full f) eqn:E.
  - destruct (push_full_contents f c Hwf E) as [H1 H2]. split_and!; [done| |].
    + cbn. by apply Forall_insert.
    + rewrite H2. apply is_full_spec in E; [|done]. by rewrite E, Z.ltb_irrefl.
  - split_and!; [by apply fifo_push_wf| cbn; by apply Forall_insert|].
    rewrite fifo_push_contents by done. apply not_full_spec in E; [|done].
    apply Z.ltb_lt in E as ->. done.
Qed.

(** The state after the push and the echo, before the reader is told. *)
Definition stored (t : tty) (c : Z) : tty :=
  (_libttydisc_echo (set_rx t (rx_store (rx_fifo t) c)) c).1.

Lemma putchar_store_eq t c w :
  putchar_store t c w =
  let t := stored t c in
  let wake t := if w then (t, 1) else (_libtty_wake_reader t, 0) in
  if CMP_L (term t) ICANON then
    if libttydisc_is_breakchar t c then wake (flag_set t TF_HAVEBREAK) else (t, 0)
  else wake t.
Proof. unfold putchar_store, stored, rx_store. by destruct (fifo_is_full (rx_fifo t)). Qed.

Lemma stored_spec t c :
  tty_wf t -> is_byte c ->
  tty_wf (stored t c) /\ io_frame t (stored t c) /\
  contents (rx_fifo (stored t c)) =
    push_drop (capacity (rx_fifo t)) (contents (rx_fifo t)) c /\
  capacity (rx_fifo (stored t c)) = capacity (rx_fifo t).
Proof.
  intros Hwf Hc. destruct (rx_store_spec (rx_fifo t) c) as (H1 & H2 & H3); [apply Hwf..|done|].
  set (t1 := set_rx t (rx_store (rx_fifo t) c)).
  assert (Hwf1 : tty_wf t1) by (by destruct Hwf; split).
  destruct (echo_frame t1 c) as [Hf Htx]; [apply Hwf|].
  unfold stored. fold t1. split_and!.
  - by eapply tty_wf_tx_frame.
  - eapply io_frame_trans; [|by apply tx_io_frame]. done.
  - destruct Hf as (_ & _ & _ & _ & _ & _ & -> & _). done.
  - destruct Hf as (_ & _ & _ & _ & _ & _ & -> & _). unfold t1, rx_store. cbn.
    by destruct (fifo_is_full (rx_fifo t)).
Qed.

Lemma havebreak_set t c :
  tty_wf t -> libttydisc_is_breakchar t c = true -> c ∈ contents (rx_fifo t) ->
  havebreak_ok (flag_set t TF_HAVEBREAK).
Proof.
  intros Hwf Hc Hin _. rewrite flag_on_set by done. symmetry. apply existsb_exists.
  exists c. split; [by apply list_elem_of_In | done].
Qed.

Lemma wake_reader_id t : rx_fifo (_libtty_wake_reader t) = rx_fifo t /\
  (forall m, flag_on (_libtty_wake_reader t) m = flag_on t m) /\
  (tty_wf t -> tty_wf (_libtty_wake_reader t)) /\
  (havebreak_ok t -> havebreak_ok (_libtty_wake_reader t)).
Proof. split_and!; [done | done | intros []; by split | done]. Qed.

Lemma putchar_store_spec t c w :
  tty_wf t -> is_byte c ->
  let t' := (putchar_store t c w).1 in
  tty_wf t' /\ term t' = term t /\
  contents (rx_fifo t') = push_drop (capacity (rx_fifo t)) (contents (rx_fifo t)) c /\
  (forall m, Z.land m TF_HAVEBREAK = 0 -> flag_on t' m = flag_on t m) /\
  capacity (rx_fifo t') = capacity (rx_fifo t) /\
  (havebreak_ok t -> fifo_is_full (rx_fifo t) = false -> havebreak_ok t').
Proof.
  intros Hwf Hc. cbn. rewrite putchar_store_eq.
  destruct (stored_spec t c Hwf Hc) as (Hwf1 & Hf & Hcont & Hcap).
  set (t1 := stored t c) in *. cbn zeta.
  assert (Hterm : term t1 = term t) by apply Hf.
  assert (Hlit : forall m, flag_on t1 m = flag_on t m).
  { intros m. unfold flag_on. destruct Hf as (_ & _ & _ & _ & _ & _ & _ & ->). done. }
  assert (Happ : fifo_is_full (rx_fifo t) = false ->
                 contents (rx_fifo t1) = contents (rx_fifo t) ++ [c]).
  { intros E. rewrite Hcont. unfold push_drop. apply not_full_spec in E; [|apply Hwf].
    by apply Z.ltb_lt in E as ->. }
  destruct (CMP_L (term t1) ICANON) eqn:Ei;
    [destruct (libttydisc_is_breakchar t1 c) eqn:Eb|].
  - set (t2 := flag_set t1 TF_HAVEBREAK).
    assert (Hwf2 : tty_wf t2) by (by destruct Hwf1; split).
    assert (Hb2 : fifo_is_full (rx_fifo t) = false -> havebreak_ok t2).
    { intros E. apply (havebreak_set t1 c); [done..|]. rewrite Happ by done. set_solver. }
    assert (Hl2 : forall m, Z.land m TF_HAVEBREAK = 0 -> flag_on t2 m = flag_on t m).
    { intros m Hm. unfold t2. by rewrite flag_on_set_other. }
    assert (Hp2 : term t2 = term t /\ rx_fifo t2 = rx_fifo t1) by done. destruct Hp2 as [Ht2 Hr2].
    clearbody t2. destruct (wake_reader_id t2) as (Hr & Hl & Hw & Hh).
    destruct w; cbn [fst]; split_and!; rewrite ?Hl, ?Hr, ?Hr2; auto; try congruence.
  - split_and!; auto; try congruence. cbn [fst]. intros Hb E.
    apply (havebreak_ok_frame t); [done | done |].
    rewrite Happ, existsb_app by done. cbn.
    assert (Hbk : libttydisc_is_breakchar t c = false).
    { unfold libttydisc_is_breakchar in *. destruct Hf as (_ & _ & _ & _ & _ & _ & E7 & _).
      by rewrite E7 in Eb. }
    rewrite Hbk. by rewrite !orb_false_r.
  - destruct (wake_reader_id t1) as (Hr & Hl & Hw & Hh).
    destruct w; cbn [fst]; split_and!; rewrite ?Hl, ?Hr; auto; try congruence;
      intros _ _ Hi; unfold _libtty_wake_reader in *; cbn in Hi; congruence.
Qed.

Lemma u8_strip c : is_byte c -> is_byte (c &&& lnot_w 8 0x80).
Proof.
  intros Hc. change (lnot_w 8 0x80) with (2 ^ 7 - 1). rewrite land_mask by lia.
  unfold is_byte. pose proof (Z.mod_pos_bound c (2 ^ 7)). lia.
Qed.

Lemma input_strip_byte x c : is_byte c -> is_byte (input_strip x c).
Proof. intros Hc. unfold input_strip. case_if; [by apply u8_strip | done]. Qed.

(** [t'] is [t] after the edit step of [_libtty_putchar]: the character went no
    further, or is still to be stored. *)
Lemma input_crnl_byte t c c' : is_byte c -> input_crnl t c = Some c' -> is_byte c'.
Proof.
  intros Hc. unfold input_crnl, is_byte, CNL, CCR in *. intros. repeat case_if; simplify_eq; lia.
Qed.

Lemma havebreak_rub t : tty_wf t -> havebreak_ok t -> havebreak_ok (_libttydisc_rubchar t).1.
Proof.
  intros Hwf Hb. destruct (rubchar_spec t Hwf) as (_ & Hf & Hcase).
  apply (havebreak_ok_frame t); [done..|].
  destruct Hcase as [(_ & -> & _)|(_ & c & -> & He)]; [done|].
  rewrite existsb_app. cbn. destruct (libttydisc_is_breakchar t c) eqn:E.
  - apply breakchar_ends_line in E; [congruence | done].
  - by rewrite !orb_false_r.
Qed.

Lemma flag_on_io t t' m : io_frame t t' -> flag_on t' m = flag_on t m.
Proof. unfold flag_on. intros (_ & _ & _ & _ & _ & _ & _ & ->). done. Qed.

(** The edit step, by cases on whether the character is consumed. *)
Lemma putchar_edit_spec t c :
  tty_wf t -> is_byte c ->
  match putchar_edit t c with
  | inl t' =>
      tty_wf t' /\ term t' = term t /\ (havebreak_ok t -> havebreak_ok t') /\
      (forall cap, contents (rx_fifo t') =
        if flag_on t TF_LITERAL then push_drop cap (contents (rx_fifo t)) c
        else if CMP_L (term t) IEXTEN && CMP_CC (term t) VLNEXT c then contents (rx_fifo t)
        else match input_crnl t c with
             | None => contents (rx_fifo t)
             | Some c => if CMP_CC (term t) VERASE c || CMP_CC (term t) VERASE2 c
                         then erase_char (term t) (contents (rx_fifo t))
                         else erase_line (term t) (contents (rx_fifo t))
             end) /\
      flag_on t TF_LITERAL = false
  | inr (t', c') =>
      tty_wf t' /\ term t' = term t /\ (havebreak_ok t -> havebreak_ok t') /\
      rx_fifo t' = rx_fifo t /\ is_byte c' /\ flag_on t' TF_LITERAL = false
  end.
Proof.
  intros Hwf Hc. unfold putchar_edit.
  destruct (flag_on t TF_LITERAL) eqn:El.
  { split_and!; try done; [by destruct Hwf; split | | by apply flag_on_clear].
    intros Hb Hi. specialize (Hb Hi). etrans; [|exact Hb]. by apply flag_on_clear_other. }
  destruct (CMP_L (term t) IEXTEN && CMP_CC (term t) VLNEXT c) eqn:En.
  { match goal with |- context [flag_set ?u _] => set (t1 := u) end.
    assert (Hf : tx_frame t t1 /\ fifo_wf (tx_fifo t1)).
    { unfold t1. pose proof (wf_tx t Hwf). repeat case_if; auto with c_arith. by apply echo_frame. }
    clearbody t1. destruct Hf as [Hf Htx].
    pose proof (tty_wf_tx_frame t t1 Hwf Hf Htx) as Hwf1. pose proof (tx_io_frame _ _ Hf) as Hio.
    split_and!; try done; [by destruct Hwf1; split | apply Hf | |].
    2: { intros _. change (contents (rx_fifo t1) = contents (rx_fifo t)). f_equal. apply Hf. }
    intros Hb. assert (Hb1 : havebreak_ok t1).
    { apply (havebreak_ok_frame t); [done..|]. do 2 f_equal. apply Hf. }
    intros Hi. specialize (Hb1 Hi). etrans; [|exact Hb1]. by apply flag_on_set_other. }
  destruct (input_crnl t c) as [c1|] eqn:Ec; [|by split_and!].
  pose proof (input_crnl_byte t c c1 Hc Ec) as Hc1.
  destruct (CMP_L (term t) ICANON) eqn:Ei; [|by split_and!].
  destruct (CMP_CC (term t) VERASE c1 || CMP_CC (term t) VERASE2 c1) eqn:Ee.
  { destruct (rubchar_spec t Hwf) as (Hwf1 & Hf & _).
    split_and!; [done | apply Hf | by apply havebreak_rub | | done].
    intros _. by apply rubchar_contents. }
  destruct (CMP_CC (term t) VKILL c1) eqn:Ek; [|by split_and!].
  destruct (kill_line_exit t Hwf) as (Hwf1 & Hf & Hcont & _).
  split_and!; [done | apply Hf | | done | done].
  intros Hb. apply (havebreak_ok_frame t); [done..|]. rewrite Hcont. by apply existsb_erase.
Qed.

End Putchar.

(** ** Attributes *)

Section Attr.
Context `{Abi}.

(** The invariant without the part [termios_optimize] establishes. *)
Record tty_pre (t : tty) : Prop := {
  pre_tx : fifo_wf (tx_fifo t);
  pre_rx : fifo_wf (rx_fifo t);
  pre_rx_bytes : Forall is_byte (data (rx_fifo t));
  pre_cc_bytes : Forall is_byte (c_cc (term t));
  pre_brk_bytes : Forall is_byte (breakchars t);
  pre_brk_len : length (breakchars t) = 4%nat
}.

Lemma tty_wf_pre t : tty_wf t -> tty_pre t.
Proof. intros []. by split. Qed.

(** The array [termios_optimize] leaves in [breakchars]. *)
Definition opt_breakchars (t : tty) : list Z :=
  let b := arr_set (breakchars t) 0 CNL in
  let n := 1 in
  let '(b, n) := if negb (get_cc (term t) VEOF =? VDISABLE)
                 then (arr_set b n (get_cc (term t) VEOF), n + 1) else (b, n) in
  let '(b, n) := if negb (get_cc (term t) VEOL =? VDISABLE)
                 then (arr_set b n (get_cc (term t) VEOL), n + 1) else (b, n) in
  arr_set b n 0.

Lemma termios_optimize_eq t :
  termios_optimize t = refresh_havebreak (set_breakchars t (opt_breakchars t)).
Proof. unfold termios_optimize, opt_breakchars. by repeat case_if. Qed.

Lemma opt_breakchars_spec t :
  tty_pre t ->
  length (opt_breakchars t) = 4%nat /\ Forall is_byte (opt_breakchars t) /\
  exists rest, opt_breakchars t = brk_list (term t) ++ [0] ++ rest.
Proof.
  intros []. unfold opt_breakchars, brk_list.
  destruct (breakchars t) as [|a [|b [|c [|d [|]]]]]; try done.
  repeat match goal with H : Forall _ (_ :: _) |- _ => apply Forall_cons in H as [? H] end.
  assert (forall v, is_byte (get_cc (term t) v)) by (intros; by apply arr_get_byte).
  assert (is_byte 0 /\ is_byte CNL) as [? ?] by (unfold is_byte, CNL; lia).
  repeat case_if; cbn in *; try discriminate; (split_and!; [done | | eauto]);
    repeat (apply Forall_cons_2; [done|]); by apply Forall_nil_2.
Qed.

Lemma termios_optimize_wf t :
  tty_pre t -> tty_wf (termios_optimize t) /\ havebreak_ok (termios_optimize t).
Proof.
  intros Hp. destruct (opt_breakchars_spec t Hp) as (? & ? & ?). destruct Hp.
  assert (tty_wf (set_breakchars t (opt_breakchars t))) by by split.
  rewrite termios_optimize_eq.
  split; [by apply refresh_havebreak_wf | by apply refresh_havebreak_ok].
Qed.

Lemma refresh_havebreak_frame t :
  let t' := refresh_havebreak t in
  cb t' = cb t /\ term t' = term t /\ rx_fifo t' = rx_fifo t /\ tx_fifo t' = tx_fifo t /\
  sid t' = sid t /\ pgrp t' = pgrp t /\ breakchars t' = breakchars t /\
  flag_on t' TF_CLOSING = flag_on t TF_CLOSING /\ evs t' = evs t.
Proof.
  unfold refresh_havebreak. split_and!; try (by repeat case_if).
  repeat case_if; rewrite ?flag_on_set_other by done; by apply flag_on_clear_other.
Qed.

Lemma termios_optimize_frame t :
  let t' := termios_optimize t in
  cb t' = cb t /\ term t' = term t /\ rx_fifo t' = rx_fifo t /\ tx_fifo t' = tx_fifo t /\
  sid t' = sid t /\ pgrp t' = pgrp t /\ flag_on t' TF_CLOSING = flag_on t TF_CLOSING /\
  evs t' = evs t.
Proof.
  cbn. rewrite termios_optimize_eq.
  destruct (refresh_havebreak_frame (set_breakchars t (opt_breakchars t))) as (?&?&?&?&?&?&?&?&?).
  by split_and!.
Qed.

(** Without a NUL or disabled terminator among VEOF/VEOL, the break characters
    are exactly the characters that end a line. *)
Lemma breakchar_iff t c :
  tty_wf t -> get_cc (term t) VEOF <> 0 -> get_cc (term t) VEOL <> 0 ->
  libttydisc_is_breakchar t c = ends_line (term t) c.
Proof.
  intros Hwf H1 H2. destruct (wf_brk t Hwf) as [rest E].
  unfold libttydisc_is_breakchar. rewrite E. clear E.
  apply Z.eqb_neq in H1, H2.
  unfold brk_list, ends_line, CMP_CC, CNL in *. rewrite <- !app_assoc.
  destruct (get_cc (term t) VEOF =? VDISABLE) eqn:E1, (get_cc (term t) VEOL =? VDISABLE) eqn:E2;
    cbn; rewrite ?H1, ?H2; cbn; rewrite ?(Z.eqb_sym (get_cc (term t) _) c);
    repeat case_if; cbn; rewrite ?orb_true_r; done.
Qed.

End Attr.

End TtyDisc.
