(* ===== verification/TtyInput.v ===== *)
(** * Input path of the tty: theorems on [_libtty_putchar] and canonical reads
    ([src/tty/libtty/libtty_disc.c]) *)

From S2P Require Import Prelude Fifo Termios Tty TtyDisc.
Import Fifo Termios Tty TtyDisc.

Module TtyInput.

(** The canonical read on the bytes buffered: bytes returned, bytes left. *)
Section Spec.
Context `{Abi}.

(** A byte at which the copy loop of [_libttydisc_readCanon] stops. *)
Definition stops (t : tty) (c : Z) : bool :=
  CMP_CC (term t) VEOF c || libttydisc_is_breakchar t c.

End Spec.

Section Putchar.
Context `{Abi}.

Lemma cr_nl_excl c : (c =? CCR) = true -> (c =? CNL) = true -> False.
Proof. unfold CCR, CNL. intros. bsimp. lia. Qed.

Lemma putchar_case t c w :
  tty_wf t -> is_byte c ->
  let c0 := input_strip (term t) c in
  let t' := (_libtty_putchar t c w).1 in
  tty_wf t' /\ term t' = term t /\
  contents (rx_fifo t') =
    rx_spec (term t) (flag_on t TF_LITERAL) (capacity (rx_fifo t)) (contents (rx_fifo t)) c /\
  (havebreak_ok t -> fifo_is_full (rx_fifo t) = false -> havebreak_ok t').
Proof.
  intros Hwf Hc c0. assert (Hc0 : is_byte c0) by (by apply input_strip_byte).
  unfold _libtty_putchar, rx_spec. fold (input_strip (term t) c). fold c0.
  pose proof (isig_char_spec t c0) as Es.
  destruct (isig_char t c0) as [sg|] eqn:Ei.
  { rewrite Es, bool_decide_eq_true_2 by eauto. cbn.
    destruct (echo_frame t c0) as [Hf Htx]; [apply Hwf|].
    pose proof (tty_wf_tx_frame _ _ Hwf Hf Htx) as Hwf1.
    unfold _libtty_signal_pgrp. set (t1 := (_libttydisc_echo t c0).1) in *.
    assert (Hr : rx_fifo t1 = rx_fifo t) by apply Hf. assert (Ht : term t1 = term t) by apply Hf.
    assert (Hb : havebreak_ok t -> havebreak_ok t1).
    { intros Hb. apply (havebreak_ok_frame t); [done | by apply tx_io_frame | by rewrite Hr]. }
    case_if; (split_and!; [by destruct Hwf1; split | exact Ht | cbn; by rewrite Hr |]);
      intros Hb1 _; apply Hb in Hb1; exact Hb1. }
  rewrite Es, bool_decide_eq_false_2 by (by intros []).
  pose proof (putchar_edit_spec t c0 Hwf Hc0) as He.
  destruct (putchar_edit t c0) as [t1|[t1 c1]] eqn:Ee.
  - destruct He as (Hwf1 & Ht & Hb & Hcont & Hl). split_and!; [done | done | | auto].
    cbn [fst]. rewrite (Hcont (capacity (rx_fifo t))), Hl. unfold putchar_edit in Ee. rewrite Hl in Ee.
    destruct (CMP_L (term t) IEXTEN && _); [done|]. unfold input_crnl in *.
    destruct (c0 =? CCR) eqn:E1, (c0 =? CNL) eqn:E2;
      [exfalso; exact (cr_nl_excl _ E1 E2)| | |];
      destruct (CMP_I (term t) IGNCR), (CMP_I (term t) ICRNL), (CMP_I (term t) INLCR);
      cbn in *; try done;
      repeat (case_if; try done); cbn in *; congruence.
  - destruct He as (Hwf1 & Ht & Hb & Hr & Hc1 & Hl).
    destruct (putchar_store_spec t1 c1 w Hwf1 Hc1) as (Hwf2 & Ht2 & Hcont & _ & _ & Hb2).
    rewrite Hr in *. split_and!; [done | congruence | | auto].
    rewrite Hcont. unfold putchar_edit in Ee.
    destruct (flag_on t TF_LITERAL); [by simplify_eq|].
    destruct (CMP_L (term t) IEXTEN && _); [done|].
    clear -Ee. unfold input_crnl in *.
    destruct (c0 =? CCR) eqn:E1, (c0 =? CNL) eqn:E2;
      [exfalso; exact (cr_nl_excl _ E1 E2)| | |];
      destruct (CMP_I (term t) IGNCR), (CMP_I (term t) ICRNL), (CMP_I (term t) INLCR);
      cbn in *; try done;
      (destruct (CMP_L (term t) ICANON); cbn in *; [|by simplify_eq]);
      (destruct (CMP_CC (term t) VERASE _ || _); [done|]);
      (destruct (CMP_CC (term t) VKILL _); [done|]); by simplify_eq.
Qed.

End Putchar.

(** ** Canonical read *)

Section Canon.
Context `{Abi}.

(** The copy loop when the buffer holds a byte to stop at, [pre] before it. *)
Lemma canon_loop_line t pre b post : forall n f byte acc,
  fifo_wf f -> contents f = pre ++ b :: post ->
  existsb (stops t) pre = false -> stops t b = true ->
  (length pre < n)%nat ->
  exists f', canon_loop t n f byte acc =
    (f', b, acc ++ pre ++ if CMP_CC (term t) VEOF b then [] else [b]) /\
  fifo_wf f' /\ data f' = data f /\ contents f' = post.
Proof.
  induction pre as [|x pre IH]; intros n f byte acc Hwf Hc Hpre Hb Hn;
    (destruct n as [|n]; [cbn in Hn; lia|]); cbn [canon_loop app];
    pose proof (fifo_pop_back_wf f Hwf) as Hwf';
    pose proof (fifo_pop_back_contents f Hwf) as Hpop; rewrite Hc in Hpop;
    specialize (Hpop ltac:(done));
    assert (Hd : data (fifo_pop_back f).1 = data f) by done;
    destruct (fifo_pop_back f) as [f1 y]; cbn in *; simplify_eq.
  - exists f1. split; [|done]. unfold stops in Hb. destruct (CMP_CC (term t) VEOF y).
    + by rewrite app_nil_r.
    + cbn in Hb. by rewrite Hb.
  - apply orb_false_iff in Hpre as [Hy Hpre]. unfold stops in Hy.
    apply orb_false_iff in Hy as [-> ->].
    destruct (IH n f1 y (acc ++ [y]) Hwf') as (f' & -> & Hwf2 & Hd2 & Hc2); [done..|lia|].
    exists f'. rewrite <- app_assoc. split_and!; [done..|congruence|done].
Qed.

(** The copy loop when the caller's buffer is filled first. *)
Lemma canon_loop_full t l : forall n f byte acc,
  fifo_wf f -> contents f = l -> (n <= length l)%nat -> existsb (stops t) (take n l) = false ->
  exists f', canon_loop t n f byte acc = (f', default byte (last (take n l)), acc ++ take n l) /\
  fifo_wf f' /\ data f' = data f /\ contents f' = drop n l.
Proof.
  induction l as [|x l IH]; intros n f byte acc Hwf Hc Hn Hs.
  { destruct n; [|cbn in Hn; lia]. exists f. cbn. by rewrite app_nil_r. }
  destruct n as [|n]; [exists f; cbn; by rewrite app_nil_r|]. cbn [canon_loop].
  pose proof (fifo_pop_back_wf f Hwf) as Hwf'.
  pose proof (fifo_pop_back_contents f Hwf) as Hpop. rewrite Hc in Hpop.
  specialize (Hpop ltac:(done)).
  assert (Hd : data (fifo_pop_back f).1 = data f) by done.
  destruct (fifo_pop_back f) as [f1 y]. cbn in *. simplify_eq.
  apply orb_false_iff in Hs as [Hy Hs]. unfold stops in Hy. apply orb_false_iff in Hy as [-> ->].
  destruct (IH n f1 y (acc ++ [y]) Hwf') as (f' & -> & Hwf2 & Hd2 & Hc2); [done|lia|done|].
  exists f'. rewrite <- app_assoc. split_and!; [|done|congruence|done].
  f_equal. f_equal. rewrite last_cons.
  by destruct (last (take n _)).
Qed.

Lemma readCanon_ready t size mode st wakes :
  flag_on t TF_HAVEBREAK = true ->
  _libttydisc_readCanon t size mode st wakes =
  let '(f, byte, bytes) := canon_loop t (Z.to_nat size) (rx_fifo t) 0xff [] in
  let t := set_rx t f in
  let t := if libttydisc_is_breakchar t byte then refresh_havebreak t else t in
  (t, Ret (mk_rr (Ok (zlen bytes)) bytes (st_timeout st (-1)))).
Proof.
  intros Hb. unfold _libttydisc_readCanon. destruct wakes; cbn; by rewrite Hb.
Qed.

End Canon.

(** ** Initialisation *)

Section Init.
Context `{AbiLaws}.

Lemma destroy_all held : NoDup held -> libtty_destroy held ≡ₚ held.
Proof.
  intros Hn. apply NoDup_Permutation; [|done|].
  - apply NoDup_filter. by apply (bool_decide_unpack _).
  - intros r. unfold libtty_destroy. rewrite list_elem_of_filter. split; [tauto|].
    intros Hr. split; [done|]. destruct r; set_solver.
Qed.

Lemma default_icanon speed : CMP_L (termios_init speed) ICANON = true.
Proof.
  unfold CMP_L, termios_init. cbn [c_lflag]. rewrite has_land_sup.
  - unfold has, TTYDEF_LFLAG. apply negb_true_iff, Z.eqb_neq.
    assert (E : Z.land (lmask ECHO ||| lmask ICANON ||| lmask ISIG ||| lmask IEXTEN
                ||| lmask ECHOE ||| lmask ECHOK ||| lmask ECHOCTL) (lmask ICANON) = lmask ICANON).
    { rewrite <- !Z.lor_assoc. apply land_lor_r, land_lor_self. }
    rewrite E. pose proof (lmask_range ICANON). lia.
  - unfold TTYSUP_LFLAG. rewrite <- !Z.lor_assoc.
    do 5 apply land_lor_r. apply land_lor_self.
Qed.

Lemma ttydefchars_bytes : Forall is_byte ttydefchars.
Proof.
  unfold ttydefchars. apply Forall_app. split.
  - pose proof vdisable_byte. unfold CEOL.
    repeat (apply Forall_cons_2; [first [done | unfold is_byte; vm_compute; split; congruence]|]).
    by apply Forall_nil_2.
  - apply Forall_replicate. unfold is_byte. lia.
Qed.

Lemma init_tty_ok cbs bufsize speed dtx drx :
  0 < bufsize < 2 ^ 32 -> Z.land bufsize (bufsize - 1) = 0 ->
  zlen dtx = bufsize -> zlen drx = bufsize -> Forall is_byte drx ->
  let t := init_tty cbs bufsize speed dtx drx in
  tty_wf t /\ havebreak_ok t /\ contents (rx_fifo t) = [] /\ contents (tx_fifo t) = [] /\
  capacity (rx_fifo t) = bufsize - 1 /\ capacity (tx_fifo t) = bufsize - 1 /\
  CMP_L (term t) ICANON = true /\ t_flags t = 0 /\ sid t = -1 /\ pgrp t = -1.
Proof.
  intros Hb Hp Htx Hrx Hbytes.
  assert (Hk : bufsize = 2 ^ Z.log2 bufsize) by (apply pow2_test; lia).
  assert (Hkr : 0 <= Z.log2 bufsize <= 31).
  { split; [apply Z.log2_nonneg|]. enough (Z.log2 bufsize < 32) by lia. apply Z.log2_lt_pow2; lia. }
  destruct (fifo_init_wf (mk_fifo 0 0 0 dtx) (Z.log2 bufsize)) as [W1 C1]; [done|cbn; congruence|].
  destruct (fifo_init_wf (mk_fifo 0 0 0 drx) (Z.log2 bufsize)) as [W2 C2]; [done|cbn; congruence|].
  rewrite <- Hk in W1, C1, W2, C2. cbn. unfold init_tty. cbn [cb].
  set (t0 := mk_tty _ _ _ _ _ _ _ _ _ _ _).
  assert (Hpre : tty_pre t0).
  { split; cbn; try done; [apply ttydefchars_bytes|].
    repeat (apply Forall_cons_2; [unfold is_byte; lia|]). by apply Forall_nil_2. }
  destruct (termios_optimize_wf t0 Hpre) as [Hwf Hhb].
  destruct (termios_optimize_frame t0) as (Ecb & Et & Er & Ex & Es & Epg & Ec & Ee).
  assert (Hi : CMP_L (term (termios_optimize t0)) ICANON = true).
  { rewrite Et. cbn. apply default_icanon. }
  assert (Hfl : t_flags (termios_optimize t0) = 0).
  { specialize (Hhb Hi). rewrite Er in Hhb. cbn [t0 rx_fifo] in Hhb. rewrite C2 in Hhb.
    rewrite termios_optimize_eq in *. unfold refresh_havebreak in *. cbn in *.
    repeat case_if; done. }
  cbn. rewrite Er, Ex. cbn.
  split_and!; try done; try (unfold capacity; cbn; apply u32_small; lia).
  by destruct Hwf; split.
Qed.

End Init.

(** ** Theorems *)

Section Claims.
Context `{AbiLaws}.

Lemma libtty_init_core env cbs bufsize speed lock_given :
  0 <= bufsize < 2 ^ 32 ->
  (forall d, ie_tx env = Some d -> zlen d = bufsize) ->
  (forall d, ie_rx env = Some d -> zlen d = bufsize /\ Forall is_byte d) ->
  let r := libtty_init env cbs bufsize speed lock_given in
  match ir_tty r with
  | Some t => (exists k, bufsize = 2 ^ k) /\ 0 <= speed /\ tty_wf t /\ havebreak_ok t /\
      contents (rx_fifo t) = [] /\ contents (tx_fifo t) = [] /\
      capacity (rx_fifo t) = bufsize - 1 /\ capacity (tx_fifo t) = bufsize - 1 /\
      CMP_L (term t) ICANON = true /\ t_flags t = 0 /\ sid t = -1 /\ pgrp t = -1
  | None => ir_released r ≡ₚ ir_acquired r /\
      (ie_mutex env && ie_txcond env && ie_rxcond env && bool_decide (is_Some (ie_tx env)) &&
       bool_decide (is_Some (ie_rx env)) = true -> 0 <= speed ->
       forall k, 0 <= k -> bufsize <> 2 ^ k)
  end.
Proof.
  intros Hb Htx Hrx. unfold libtty_init.
  destruct ((bufsize =? 0) || negb (_ =? 0)) eqn:E0.
  { cbn. split; [done|]. intros _ _ k Hk ->. apply orb_true_iff in E0 as [E0|E0]; bsimp.
    - pose proof (pow2_pos k). lia.
    - apply E0. rewrite land_mask by done. by apply Z.mod_same; pose proof (pow2_pos k); lia. }
  bsimp. case_if; [cbn; bsimp; split; [done|]; lia|]. bsimp.
  case_if; [cbn; bsimp; split; [done|]; by rewrite H4|].
  destruct (ie_tx env) as [dtx|], (ie_rx env) as [drx|]; cbn [ir_tty init_fail].
  2-4: (split; [apply destroy_all, (bool_decide_unpack _); by destruct lock_given|]; rewrite ?bool_decide_eq_false_2 by (by intros []);
        rewrite ?andb_false_r; done).
  destruct (ie_txcond env); cbn [negb];
    [|split; [apply destroy_all, (bool_decide_unpack _); by destruct lock_given|]; rewrite ?andb_false_r; done].
  destruct (ie_rxcond env); cbn [negb];
    [|split; [apply destroy_all, (bool_decide_unpack _); by destruct lock_given|]; rewrite ?andb_false_r; done].
  destruct (Hrx drx eq_refl) as [Hd Hdb].
  split; [exists (Z.log2 bufsize); apply pow2_test; [lia|done]|]. split; [done|].
  apply init_tty_ok; auto. lia.
Qed.

(** [libtty_init] accepts exactly the non-zero power-of-two sizes (with a
    non-negative speed and working system calls); on success the tty is well
    formed, canonical, both buffers are empty and hold bufsize-1 bytes; on
    failure everything acquired has been given back. *)
Theorem libtty_init_establishes env cbs bufsize speed lock_given :
  0 <= bufsize < 2 ^ 32 ->
  (forall d, ie_tx env = Some d -> zlen d = bufsize) ->
  (forall d, ie_rx env = Some d -> zlen d = bufsize /\ Forall is_byte d) ->
  let r := libtty_init env cbs bufsize speed lock_given in
  match ir_tty r with
  | Some t => (exists k, bufsize = 2 ^ k) /\ 0 <= speed /\ tty_wf t /\ havebreak_ok t /\
      contents (rx_fifo t) = [] /\ contents (tx_fifo t) = [] /\
      capacity (rx_fifo t) = bufsize - 1 /\ capacity (tx_fifo t) = bufsize - 1 /\
      CMP_L (term t) ICANON = true /\ t_flags t = 0 /\ sid t = -1 /\ pgrp t = -1
  | None => ir_released r ≡ₚ ir_acquired r /\
      (ie_mutex env && ie_txcond env && ie_rxcond env && bool_decide (is_Some (ie_tx env)) &&
       bool_decide (is_Some (ie_rx env)) = true -> 0 <= speed ->
       forall k, 0 <= k -> bufsize <> 2 ^ k)
  end.
Proof. apply libtty_init_core. Qed.

(** C9: one received character transforms the buffered input as the input modes
    prescribe ([rx_spec]: strip, signals, literal-next, CR/NL mapping, erase,
    kill, store with the oldest byte dropped on overrun), for every combination
    of flags, and keeps the tty well formed. *)
Theorem putchar_line_editing t c w :
  tty_wf t -> is_byte c ->
  tty_wf (_libtty_putchar t c w).1 /\
  term (_libtty_putchar t c w).1 = term t /\
  contents (rx_fifo (_libtty_putchar t c w).1) =
    rx_spec (term t) (flag_on t TF_LITERAL) (capacity (rx_fifo t)) (contents (rx_fifo t)) c.
Proof. intros Hwf Hc. destruct (putchar_case t c w Hwf Hc) as (? & ? & ? & _). done. Qed.

(** as long as the receive buffer does not overrun, the cached TF_HAVEBREAK
    flag keeps meaning "a complete line is buffered" across received characters,
    erases and kills included. *)
Theorem putchar_keeps_havebreak t c w :
  tty_wf t -> is_byte c -> havebreak_ok t -> fifo_is_full (rx_fifo t) = false ->
  havebreak_ok (_libtty_putchar t c w).1.
Proof. intros Hwf Hc Hb Hf. destruct (putchar_case t c w Hwf Hc) as (_ & _ & _ & H1). auto. Qed.

Lemma readCanon_wf t f byte :
  tty_wf t -> fifo_wf f -> data f = data (rx_fifo t) ->
  tty_wf (if libttydisc_is_breakchar (set_rx t f) byte
          then refresh_havebreak (set_rx t f) else set_rx t f).
Proof.
  intros [] Hf Hd. assert (tty_wf (set_rx t f)) by (split; cbn; rewrite ?Hd; done).
  case_if; [by apply refresh_havebreak_wf | done].
Qed.

Lemma existsb_ext_fun (P Q : Z -> bool) l : (forall x, P x = Q x) -> existsb P l = existsb Q l.
Proof. intros E. induction l as [|x l IH]; [done|]. cbn. by rewrite E, IH. Qed.

Lemma existsb_false_mono (P Q : Z -> bool) l :
  (forall x, P x = true -> Q x = true) -> existsb Q l = false -> existsb P l = false.
Proof.
  intros HPQ. induction l as [|x l IH]; cbn; [done|]. intros [Hq Hl]%orb_false_iff.
  rewrite IH by done. destruct (P x) eqn:E; [apply HPQ in E; congruence | done].
Qed.

Lemma stops_break t c : libttydisc_is_breakchar t c = true -> stops t c = true.
Proof. unfold stops. intros ->. apply orb_true_r. Qed.

(** The last byte of a stop-free prefix is not a break character, nor is the
    initial 0xff unless the copy loop did not run. *)
Lemma refresh_or_keep t f byte l1 l2 :
  tty_wf t -> havebreak_ok t -> fifo_wf f -> data f = data (rx_fifo t) ->
  contents (rx_fifo t) = l1 ++ l2 -> contents f = l2 ->
  (libttydisc_is_breakchar t byte = false -> existsb (libttydisc_is_breakchar t) l1 = false) ->
  havebreak_ok (if libttydisc_is_breakchar (set_rx t f) byte
                then refresh_havebreak (set_rx t f) else set_rx t f).
Proof.
  intros Hwf Hb Hf Hd Hc Hl Hby.
  assert (tty_wf (set_rx t f)) by (destruct Hwf; split; cbn; rewrite ?Hd; done).
  change (libttydisc_is_breakchar (set_rx t f) byte) with (libttydisc_is_breakchar t byte).
  destruct (libttydisc_is_breakchar t byte) eqn:E; [by apply refresh_havebreak_ok|].
  intros Hi. specialize (Hb Hi). unfold flag_on in *. cbn. rewrite Hb, Hc, Hl, existsb_app, Hby by done.
  done.
Qed.

Lemma read_line_core t size mode st wakes pre b post :
  tty_wf t -> havebreak_ok t -> CMP_L (term t) ICANON = true ->
  flag_on t TF_CLOSING = false -> flag_on t TF_HAVEBREAK = true -> 0 <= size ->
  contents (rx_fifo t) = pre ++ b :: post ->
  existsb (stops t) pre = false -> stops t b = true ->
  exists t' bytes,
    _libtty_read_nonblock t size mode st wakes =
      (t', Ret (mk_rr (Ok (zlen bytes)) bytes (st_timeout st (-1)))) /\
    tty_wf t' /\ havebreak_ok t' /\
    if zlen pre <? size
    then bytes = pre ++ (if CMP_CC (term t) VEOF b then [] else [b]) /\ contents (rx_fifo t') = post
    else bytes = take (Z.to_nat size) pre /\
         contents (rx_fifo t') = drop (Z.to_nat size) pre ++ b :: post.
Proof.
  intros Hwf Hb Hi Hcl Hhb Hsz Hc Hpre Hbs.
  unfold _libtty_read_nonblock. rewrite Hcl, Hi, readCanon_ready by done.
  assert (Hbr : existsb (libttydisc_is_breakchar t) pre = false)
    by (eapply existsb_false_mono; [apply stops_break | done]).
  destruct (zlen pre <? size) eqn:E; bsimp; unfold zlen in *.
  - destruct (canon_loop_line t pre b post (Z.to_nat size) (rx_fifo t) 0xff [])
      as (f' & -> & Hf & Hd & Hcf); [apply Hwf | done..| lia |].
    eexists _, _. split; [reflexivity|]. split_and!; [by apply readCanon_wf| |done|].
    + eapply (refresh_or_keep t f' b (pre ++ [b]) post); [done..| | done |].
      * by rewrite <- app_assoc.
      * intros Hnb. rewrite existsb_app, Hbr. cbn. by rewrite Hnb.
    + case_if; [|done].
      destruct (refresh_havebreak_frame (set_rx t f')) as (_ & _ & -> & _). done.
  - assert (Hlen : (Z.to_nat size <= length (pre ++ b :: post))%nat) by (rewrite length_app; lia).
    assert (Etk : take (Z.to_nat size) (pre ++ b :: post) = take (Z.to_nat size) pre)
      by (apply take_app_le; lia).
    assert (Edr : drop (Z.to_nat size) (pre ++ b :: post) = drop (Z.to_nat size) pre ++ b :: post)
      by (apply drop_app_le; lia).
    assert (Htk : forall P, existsb P pre = false -> existsb P (take (Z.to_nat size) pre) = false).
    { intros P HP. rewrite <- (take_drop (Z.to_nat size) pre), existsb_app in HP.
      by apply orb_false_iff in HP as [-> _]. }
    destruct (canon_loop_full t (pre ++ b :: post) (Z.to_nat size) (rx_fifo t) 0xff [])
      as (f' & -> & Hf & Hd & Hcf); [apply Hwf | done | done | by rewrite Etk; auto |].
    rewrite Etk, Edr in *. eexists _, _. split; [reflexivity|].
    split_and!; [by apply readCanon_wf| |done|].
    + eapply (refresh_or_keep t f' _ (take (Z.to_nat size) pre)); [done..| |done|auto].
      by rewrite <- Edr, <- Etk, take_drop.
    + case_if; [|done].
      destruct (refresh_havebreak_frame (set_rx t f')) as (_ & _ & -> & _). done.
Qed.

(** C26: a canonical read with a complete line buffered returns that line, up to
    and including its terminator (an end-of-file character is dropped), or as
    much of it as fits; the rest stays buffered and the flag stays coherent. *)
Theorem read_canonical_line t size mode st wakes pre b post :
  tty_wf t -> havebreak_ok t -> CMP_L (term t) ICANON = true ->
  flag_on t TF_CLOSING = false -> flag_on t TF_HAVEBREAK = true -> 0 <= size ->
  contents (rx_fifo t) = pre ++ b :: post ->
  existsb (stops t) pre = false -> stops t b = true ->
  exists t' bytes,
    _libtty_read_nonblock t size mode st wakes =
      (t', Ret (mk_rr (Ok (zlen bytes)) bytes (st_timeout st (-1)))) /\
    tty_wf t' /\ havebreak_ok t' /\
    if zlen pre <? size
    then bytes = pre ++ (if CMP_CC (term t) VEOF b then [] else [b]) /\ contents (rx_fifo t') = post
    else bytes = take (Z.to_nat size) pre /\
         contents (rx_fifo t') = drop (Z.to_nat size) pre ++ b :: post.
Proof. apply read_line_core. Qed.

(** In canonical mode a set flag means there is a line to take. *)
Lemma havebreak_split t :
  havebreak_ok t -> CMP_L (term t) ICANON = true -> flag_on t TF_HAVEBREAK = true ->
  exists pre b post, contents (rx_fifo t) = pre ++ b :: post /\
    existsb (stops t) pre = false /\ stops t b = true.
Proof.
  intros Hb Hi Hf. specialize (Hb Hi). rewrite Hf in Hb. symmetry in Hb.
  induction (contents (rx_fifo t)) as [|x l IH]; [done|]. cbn in Hb.
  destruct (stops t x) eqn:Ex; [by exists [], x, l|].
  destruct (libttydisc_is_breakchar t x) eqn:Eb; [apply stops_break in Eb; congruence|].
  destruct (IH Hb) as (pre & b & post & -> & Hp & Hs). exists (x :: pre), b, post.
  split; [done|]. cbn. by rewrite Ex.
Qed.

(** a canonical read that does not have to wait takes its bytes from the
    front of the buffer and nothing else: what it returns, an end-of-file
    character it may drop, and what is left make up what was buffered (the
    buffer is never read past its end), and at most [size] bytes are returned. *)
Theorem read_canonical_conserves t size mode st wakes :
  tty_wf t -> havebreak_ok t -> CMP_L (term t) ICANON = true ->
  flag_on t TF_CLOSING = false -> flag_on t TF_HAVEBREAK = true -> 0 <= size ->
  exists t' bytes dropped,
    _libtty_read_nonblock t size mode st wakes =
      (t', Ret (mk_rr (Ok (zlen bytes)) bytes (st_timeout st (-1)))) /\
    contents (rx_fifo t) = bytes ++ dropped ++ contents (rx_fifo t') /\
    (dropped = [] \/ exists c, dropped = [c] /\ CMP_CC (term t) VEOF c = true) /\
    zlen bytes <= size.
Proof.
  intros Hwf Hb Hi Hcl Hhb Hsz.
  destruct (havebreak_split t Hb Hi Hhb) as (pre & b & post & Hc & Hp & Hs).
  destruct (read_line_core t size mode st wakes pre b post) as (t' & bytes & E & _ & _ & Hr); auto.
  exists t', bytes. destruct (zlen pre <? size) eqn:El; bsimp; destruct Hr as [-> Hr]; rewrite Hr, Hc.
  - destruct (CMP_CC (term t) VEOF b) eqn:Ev.
    + exists [b]. rewrite app_nil_r in *. split_and!; [done..|eauto|lia].
    + exists []. rewrite <- app_assoc. split_and!; [done..|by left|].
      unfold zlen in *. rewrite length_app. cbn. lia.
  - exists []. cbn. rewrite app_assoc, take_drop. split_and!; [done..|by left|].
    unfold zlen in *. rewrite length_take. lia.
Qed.

Lemma ordinary_store t c w :
  ordinary (term t) c = true -> flag_on t TF_LITERAL = false ->
  _libtty_putchar t c w = putchar_store t c w.
Proof.
  intros Ho Hl. unfold ordinary in Ho. bsimp. unfold _libtty_putchar.
  fold (input_strip (term t) c). replace (input_strip (term t) c) with c by done.
  pose proof (isig_char_spec t c) as Es.
  destruct (isig_char t c); [rewrite bool_decide_eq_true_2 in Es by eauto; congruence|].
  unfold putchar_edit, input_crnl. rewrite Hl.
  repeat match goal with H : _ = false |- _ => rewrite H end. cbn.
  destruct (c =? CCR) eqn:E; bsimp; [done|]. destruct (c =? CNL); cbn in *;
  repeat match goal with H : _ = false |- _ => rewrite H end; by destruct (CMP_L (term t) ICANON).
Qed.

Lemma putchars_ordinary cs : forall t,
  tty_wf t -> havebreak_ok t -> flag_on t TF_LITERAL = false ->
  Forall is_byte cs -> forallb (ordinary (term t)) cs = true ->
  zlen (contents (rx_fifo t)) + zlen cs <= capacity (rx_fifo t) ->
  let t' := putchars t cs in
  tty_wf t' /\ havebreak_ok t' /\ term t' = term t /\
  flag_on t' TF_CLOSING = flag_on t TF_CLOSING /\
  contents (rx_fifo t') = contents (rx_fifo t) ++ cs.
Proof.
  induction cs as [|c cs IH]; intros t Hwf Hb Hl Hby Ho Hlen; cbn in *.
  { rewrite app_nil_r. done. }
  apply Forall_cons in Hby as [Hc Hby]. apply andb_true_iff in Ho as [Hoc Ho].
  unfold zlen in Hlen. cbn in Hlen. rewrite ordinary_store by done.
  destruct (putchar_store_spec t c true Hwf Hc) as (H1 & H2 & H3 & H4 & H5 & H6).
  assert (Hnf : fifo_is_full (rx_fifo t) = false) by (apply not_full_spec; [apply Hwf | lia]).
  assert (Happ : contents (rx_fifo (putchar_store t c true).1) = contents (rx_fifo t) ++ [c]).
  { rewrite H3. unfold push_drop. rewrite (proj2 (Z.ltb_lt _ _)) by lia. done. }
  destruct (IH (putchar_store t c true).1) as (G1 & G2 & G3 & G4 & G5).
  - done.
  - by apply H6.
  - by rewrite H4.
  - done.
  - by rewrite H2.
  - unfold zlen. rewrite Happ, H5, length_app. cbn. lia.
  - split_and!; [exact G1 | exact G2 | by etrans; [exact G3|] | |].
    + etrans; [exact G4|]. by apply H4.
    + etrans; [exact G5|]. by rewrite Happ, <- app_assoc.
Qed.

(** C27: a line typed into an open, idle canonical terminal is read back verbatim:
    ordinary characters that end no line, then a newline, come out of the next
    read exactly as typed, and the buffer is empty again. The line with its newline must fit
    in the receive buffer and in the size of the read, and newline must not be the EOF character. *)
Theorem typed_line_roundtrip t line size mode st wakes :
  tty_wf t -> havebreak_ok t -> CMP_L (term t) ICANON = true ->
  flag_on t TF_CLOSING = false -> flag_on t TF_LITERAL = false -> contents (rx_fifo t) = [] ->
  Forall is_byte line -> forallb (ordinary (term t)) (line ++ [CNL]) = true ->
  existsb (ends_line (term t)) line = false ->
  zlen line < capacity (rx_fifo t) -> zlen line < size -> CMP_CC (term t) VEOF CNL = false ->
  exists t', _libtty_read_nonblock (putchars t (line ++ [CNL])) size mode st wakes =
    (t', Ret (mk_rr (Ok (zlen line + 1)) (line ++ [CNL]) (st_timeout st (-1)))) /\
  contents (rx_fifo t') = [] /\ tty_wf t' /\ havebreak_ok t'.
Proof.
  intros Hwf Hb Hi Hcl Hl He Hby Ho Hend Hcap Hsz Heof.
  destruct (putchars_ordinary (line ++ [CNL]) t) as (G1 & G2 & G3 & G4 & G5); auto.
  { apply Forall_app. split; [done|]. repeat constructor; unfold CNL; lia. }
  { rewrite He. unfold zlen in *. rewrite length_app. cbn. lia. }
  rewrite He in G5. cbn in G5. set (t1 := putchars t (line ++ [CNL])) in *. rewrite <- G3 in *.
  assert (Hnl : libttydisc_is_breakchar t1 CNL = true).
  { unfold libttydisc_is_breakchar. destruct (wf_brk t1 G1) as [rest ->]. done. }
  assert (Hst : existsb (stops t1) line = false).
  { eapply existsb_false_mono; [|exact Hend]. intros x [Hx|Hx]%orb_true_iff.
    - unfold ends_line. by rewrite Hx, orb_true_r.
    - by apply breakchar_ends_line. }
  assert (Hhb : flag_on t1 TF_HAVEBREAK = true).
  { rewrite (G2 Hi), G5, existsb_app. cbn. rewrite Hnl. by rewrite orb_true_r. }
  destruct (read_line_core t1 size mode st wakes line CNL []) as (t' & bytes & E & W & B & R);
    [done | done | done | by rewrite G4 | done | unfold zlen in *; lia | done | done
    | by apply stops_break |].
  rewrite (proj2 (Z.ltb_lt _ _)), Heof in R by done. destruct R as [-> R].
  exists t'. rewrite E. split_and!; [|done..]. do 3 f_equal. unfold zlen.
  rewrite length_app. cbn. f_equal. lia.
Qed.

(** Without a byte to stop at, the copy loop takes all that is buffered and goes on at an empty ring. *)
Lemma canon_loop_past t l : forall n f byte acc,
  fifo_wf f -> contents f = l -> existsb (stops t) l = false ->
  canon_loop t (length l + n) f byte acc = canon_loop t n (mk_fifo (head f) (head f) (size_mask f) (data f)) (default byte (last l)) (acc ++ l).
Proof.
  induction l as [|x l IH]; intros n f byte acc Hwf Hc Hs.
  { apply is_empty_spec in Hc; [|done]. unfold fifo_is_empty in Hc. bsimp. cbn [length Nat.add last default]. rewrite app_nil_r. rewrite Hc at 2. by destruct f. }
  cbn [length Nat.add canon_loop]. pose proof (fifo_pop_back_wf f Hwf) as Hwf'. pose proof (fifo_pop_back_contents f Hwf) as Hpop. rewrite Hc in Hpop. specialize (Hpop ltac:(done)).
  assert (Hf : head (fifo_pop_back f).1 = head f /\ size_mask (fifo_pop_back f).1 = size_mask f /\ data (fifo_pop_back f).1 = data f) by done.
  destruct (fifo_pop_back f) as [f1 y]. cbn in Hpop, Hwf', Hf, Hs. destruct Hf as (Hh & Hm & Hd). simplify_eq. apply orb_false_iff in Hs as [Hy Hs]. unfold stops in Hy. apply orb_false_iff in Hy as [-> ->].
  rewrite (IH n f1 y (acc ++ [y])) by done. rewrite Hh, Hm, Hd, <- app_assoc, last_cons. by destruct (last _).
Qed.

(** The slot before the oldest byte of a full ring, and the ring after one pop too many. *)
Lemma pop_past_full f : fifo_wf f -> fifo_is_full f = true ->
  fifo_pop_back (mk_fifo (head f) (head f) (size_mask f) (data f)) = (f, arr_get (data f) (head f)).
Proof. intros Hwf Hf. unfold fifo_is_full in Hf. bsimp. unfold fifo_pop_back. cbn. rewrite Hf. by destruct f. Qed.

(** After an overrun that slot holds the byte that was dropped. *)
Lemma overrun_slot f b l c : fifo_wf f -> fifo_is_full f = true -> contents f = b :: l ->
  fifo_is_full (rx_store f c) = true /\ arr_get (data (rx_store f c)) (head (rx_store f c)) = b.
Proof.
  intros Hwf Hf Hc. unfold rx_store. rewrite Hf. assert (Hne : contents f <> []) by (by rewrite Hc). pose proof (fifo_pop_back_contents f Hwf Hne) as Hpop. rewrite Hc in Hpop. injection Hpop as Hb _.
  assert (Hnh : head f <> tail f) by (intros E; apply Hne, is_empty_spec; [done|]; unfold fifo_is_empty; by apply Z.eqb_eq). pose proof Hwf as (_ & Hd & Hh & Ht).
  unfold fifo_is_full in *. bsimp. cbn. rewrite Hf. split; [by apply Z.eqb_eq|]. rewrite Hb. by apply arr_get_set_ne; lia.
Qed.

(** C38: an overrun loses the end of a line, but not TF_HAVEBREAK. When the receive buffer is full, its oldest byte is the only line
    end in it and one more ordinary character comes, the flag stays set with no line end buffered, and the next canonical read
    that is larger than the buffer takes a byte more than was buffered, the line end that was dropped; afterwards the buffer reports
    all the bytes again that have just been read. *)
Theorem overrun_read_past_end t b l c size mode st wakes :
  tty_wf t -> havebreak_ok t -> CMP_L (term t) ICANON = true -> flag_on t TF_CLOSING = false -> flag_on t TF_LITERAL = false ->
  contents (rx_fifo t) = b :: l -> zlen (b :: l) = capacity (rx_fifo t) -> libttydisc_is_breakchar t b = true ->
  existsb (ends_line (term t)) (l ++ [c]) = false -> is_byte c -> ordinary (term t) c = true -> capacity (rx_fifo t) < size ->
  let t1 := (_libtty_putchar t c true).1 in
  let bytes := l ++ [c] ++ if CMP_CC (term t) VEOF b then [] else [b] in
  flag_on t1 TF_HAVEBREAK = true /\ contents (rx_fifo t1) = l ++ [c] /\
  exists t2, _libtty_read_nonblock t1 size mode st wakes = (t2, Ret (mk_rr (Ok (zlen bytes)) bytes (st_timeout st (-1)))) /\
    contents (rx_fifo t2) = l ++ [c].
Proof.
  intros Hwf Hb Hi Hcl Hl Hc Hfull Hbrk Hend Hby Ho Hsz t1 bytes. pose proof (wf_rx t Hwf) as Hrx.
  assert (Hf : fifo_is_full (rx_fifo t) = true) by (apply is_full_spec; [done|]; by rewrite Hc).
  assert (Hst : existsb (stops t) (l ++ [c]) = false).
  { eapply existsb_false_mono; [|exact Hend]. intros x [Hx|Hx]%orb_true_iff; [unfold ends_line; by rewrite Hx, orb_true_r|by apply breakchar_ends_line]. }
  assert (Hcb : libttydisc_is_breakchar t c = false).
  { rewrite existsb_app in Hst. apply orb_false_iff in Hst as [_ Hst]. cbn in Hst. rewrite orb_false_r in Hst. unfold stops in Hst. by apply orb_false_iff in Hst as [_ ?]. }
  destruct (stored_spec t c Hwf Hby) as (W1 & F1 & C1 & K1). assert (Hr : rx_fifo (stored t c) = rx_store (rx_fifo t) c).
  { unfold stored. destruct (echo_frame (set_rx t (rx_store (rx_fifo t) c)) c) as [Hf' _]; [apply Hwf|]. by destruct Hf' as (_ & _ & _ & _ & _ & _ & -> & _). }
  assert (Es : forall x, stops (stored t c) x = stops t x /\ libttydisc_is_breakchar (stored t c) x = libttydisc_is_breakchar t x /\ CMP_CC (term (stored t c)) VEOF x = CMP_CC (term t) VEOF x).
  { destruct F1 as (_ & E2 & _ & _ & _ & _ & E7 & _). intros x. unfold stops, libttydisc_is_breakchar. by rewrite E7, E2. }
  assert (Et : t1 = stored t c).
  { unfold t1. rewrite ordinary_store, putchar_store_eq by done. cbn zeta. destruct (Es c) as (_ & -> & _). rewrite Hcb. assert (term (stored t c) = term t) as -> by apply F1. by rewrite Hi. }
  clearbody t1. subst t1. assert (Hfl : forall m, flag_on (stored t c) m = flag_on t m) by (intros m; unfold flag_on; f_equal; apply F1).
  assert (Hhb : flag_on (stored t c) TF_HAVEBREAK = true) by (rewrite Hfl, (Hb Hi), Hc; cbn; by rewrite Hbrk).
  assert (Hcont : contents (rx_fifo (stored t c)) = l ++ [c]).
  { rewrite C1, Hc. unfold push_drop, zlen in *. rewrite Hfull, Z.ltb_irrefl. cbn. by rewrite drop_0. }
  split; [done|]. split; [done|]. destruct (overrun_slot (rx_fifo t) b l c Hrx Hf Hc) as [Hfl1 Hslot]. rewrite <- Hr in Hfl1, Hslot.
  unfold _libtty_read_nonblock. assert (term (stored t c) = term t) as -> by apply F1. rewrite Hfl, Hcl, Hi, readCanon_ready by done.
  assert (Hn : exists n, Z.to_nat size = (length (l ++ [c]) + S n)%nat).
  { exists (Z.to_nat size - length (l ++ [c]) - 1)%nat. unfold zlen in Hfull. cbn in Hfull. rewrite length_app. cbn. lia. }
  destruct Hn as [n ->]. rewrite (canon_loop_past _ (l ++ [c])); [|apply W1|done|by rewrite (existsb_ext_fun _ (stops t)) by apply Es].
  cbn [canon_loop]. rewrite pop_past_full, Hslot by (done || apply W1). destruct (Es b) as (_ & -> & ->). rewrite Hbrk.
  assert (Hfin : contents (rx_fifo (refresh_havebreak (set_rx (stored t c) (rx_fifo (stored t c))))) = l ++ [c]).
  { destruct (refresh_havebreak_frame (set_rx (stored t c) (rx_fifo (stored t c)))) as (_ & _ & -> & _). done. }
  unfold bytes. destruct (CMP_CC (term t) VEOF b); change (libttydisc_is_breakchar (set_rx (stored t c) (rx_fifo (stored t c))) b) with (libttydisc_is_breakchar (stored t c) b); destruct (Es b) as (_ & -> & _); rewrite Hbrk; cbn [app]; rewrite ?app_nil_r, <- ?app_assoc; eexists; split; [reflexivity|exact Hfin|reflexivity|exact Hfin].
Qed.

End Claims.

(** ** Concrete terminals *)

Definition demo_cb : callbacks := mk_cb true true false false true.
Definition demo_env (n : nat) : init_env :=
  mk_ie true (Some (replicate n 0)) (Some (replicate n 0)) true true.
(** A freshly initialised terminal with buffers of [n] bytes. *)
Definition demo_tty (n : nat) : tty :=
  init_tty demo_cb (Z.of_nat n) 115200 (replicate n 0) (replicate n 0).

Lemma demo_tty_init n :
  n ∈ [4; 8; 16; 64]%nat ->
  ir_tty (libtty_init (demo_env n) demo_cb (Z.of_nat n) 115200 false) = Some (demo_tty n).
Proof. intros Hn. repeat (apply elem_of_cons in Hn as [->|Hn]; [reflexivity|]). by apply elem_of_nil in Hn. Qed.

Lemma demo_tty_wf n : n ∈ [4; 8; 16; 64]%nat -> tty_wf (demo_tty n) /\ havebreak_ok (demo_tty n).
Proof.
  intros Hn. assert (Hr : 0 < Z.of_nat n < 2 ^ 32 /\ Z.land (Z.of_nat n) (Z.of_nat n - 1) = 0).
  { repeat (apply elem_of_cons in Hn as [->|Hn]; [done|]). by apply elem_of_nil in Hn. }
  destruct (init_tty_ok demo_cb (Z.of_nat n) 115200 (replicate n 0) (replicate n 0)) as (? & ? & _);
    try done; try (unfold zlen; by rewrite length_replicate); try apply Hr.
  apply Forall_replicate. unfold is_byte. lia.
Qed.

Definition str_abc : list Z := [97; 98; 99].

Lemma libtty_init_establishes_witness :
  ir_released (libtty_init (mk_ie true (Some [0; 0]) None true true) demo_cb 2 9600 false)
  ≡ₚ [RLock; RTxFifo].
Proof.
  apply (libtty_init_establishes (mk_ie true (Some [0; 0]) None true true) demo_cb 2 9600 false).
  - lia.
  - intros d [= <-]. reflexivity.
  - intros d. discriminate.
Defined.

(** Backspace on "abc": the demo terminal's erase character is 0x7f. *)
Lemma putchar_line_editing_witness :
  contents (rx_fifo (_libtty_putchar (putchars (demo_tty 8) str_abc) 127 true).1) = [97; 98].
Proof.
  assert (Hw : tty_wf (putchars (demo_tty 8) str_abc)).
  { destruct (demo_tty_wf 8) as [Hw Hb]; [set_solver|].
    apply (putchars_ordinary str_abc (demo_tty 8));
      [exact Hw | exact Hb | vm_compute; reflexivity | | vm_compute; reflexivity
      | vm_compute; discriminate].
    repeat (apply Forall_cons_2; [unfold is_byte; lia|]). by apply Forall_nil_2. }
  pose proof (putchar_line_editing (putchars (demo_tty 8) str_abc) 127 true Hw) as H.
  destruct H as (_ & _ & H); [unfold is_byte; lia|]. rewrite H. vm_compute. reflexivity.
Defined.

Lemma putchar_keeps_havebreak_witness :
  havebreak_ok (_libtty_putchar (demo_tty 8) 10 true).1.
Proof.
  apply (putchar_keeps_havebreak (demo_tty 8) 10 true).
  - apply demo_tty_wf. set_solver.
  - unfold is_byte. lia.
  - apply demo_tty_wf. set_solver.
  - reflexivity.
Defined.

Lemma demo_line_state :
  let t := putchars (demo_tty 8) (str_abc ++ [CNL]) in
  tty_wf t /\ havebreak_ok t /\ contents (rx_fifo t) = str_abc ++ [CNL].
Proof.
  destruct (demo_tty_wf 8) as [Hw Hb]; [set_solver|].
  destruct (putchars_ordinary (str_abc ++ [CNL]) (demo_tty 8)) as (A & B & _ & _ & C);
    [exact Hw | exact Hb | vm_compute; reflexivity | | vm_compute; reflexivity
    | vm_compute; discriminate | exact (conj A (conj B C))].
  repeat (apply Forall_cons_2; [unfold is_byte, CNL; lia|]). by apply Forall_nil_2.
Qed.

Lemma read_canonical_line_witness :
  exists t', _libtty_read_nonblock (putchars (demo_tty 8) (str_abc ++ [CNL])) 2 0 None [] =
    (t', Ret (mk_rr (Ok 2) [97; 98] None)) /\ contents (rx_fifo t') = [99; 10].
Proof.
  destruct demo_line_state as (Hw & Hb & Hc).
  destruct (read_canonical_line (putchars (demo_tty 8) (str_abc ++ [CNL])) 2 0 None []
    [97; 98; 99] 10 []) as (t' & bytes & E & _ & _ & R);
    [exact Hw | exact Hb | vm_compute; reflexivity | vm_compute; reflexivity
    | vm_compute; reflexivity | lia | exact Hc | vm_compute; reflexivity
    | vm_compute; reflexivity |].
  destruct R as [-> R]. exists t'. rewrite E. split; [reflexivity | exact R].
Defined.

Lemma read_canonical_conserves_witness :
  exists t' bytes dropped,
    _libtty_read_nonblock (putchars (demo_tty 8) (str_abc ++ [CNL])) 10 0 None [] =
      (t', Ret (mk_rr (Ok (zlen bytes)) bytes None)) /\
    str_abc ++ [CNL] = bytes ++ dropped ++ contents (rx_fifo t').
Proof.
  destruct demo_line_state as (Hw & Hb & Hc).
  destruct (read_canonical_conserves (putchars (demo_tty 8) (str_abc ++ [CNL])) 10 0 None [])
    as (t' & bytes & dropped & E & R & _);
    [exact Hw | exact Hb | vm_compute; reflexivity | vm_compute; reflexivity
    | vm_compute; reflexivity | lia |].
  exists t', bytes, dropped. split; [exact E|]. transitivity (contents (rx_fifo (putchars (demo_tty 8) (str_abc ++ [CNL])))); [symmetry; exact Hc | exact R].
Defined.

Lemma typed_line_roundtrip_witness :
  exists t', _libtty_read_nonblock (putchars (demo_tty 8) (str_abc ++ [CNL])) 80 0 None [] =
    (t', Ret (mk_rr (Ok 4) [97; 98; 99; 10] None)).
Proof.
  destruct (demo_tty_wf 8) as [Hw Hb]; [set_solver|].
  destruct (typed_line_roundtrip (demo_tty 8) str_abc 80 0 None []) as (t' & E & _);
    [exact Hw | exact Hb | | | | | | | | | | |]; try (vm_compute; reflexivity).
  - repeat (apply Forall_cons_2; [unfold is_byte; lia|]). by apply Forall_nil_2.
  - exists t'. exact E.
Defined.

(** The line "\n" in a buffer that has room for three bytes, two more characters, and the third that overruns it. *)
Lemma overrun_read_past_end_witness :
  let t := putchars (demo_tty 4) [10; 97; 98] in let t1 := (_libtty_putchar t 99 true).1 in
  flag_on t1 TF_HAVEBREAK = true /\ contents (rx_fifo t1) = [97; 98; 99] /\
  exists t2, _libtty_read_nonblock t1 10 0 None [] = (t2, Ret (mk_rr (Ok 4) [97; 98; 99; 10] None)) /\ contents (rx_fifo t2) = [97; 98; 99].
Proof.
  destruct (demo_tty_wf 4) as [Hw Hb]; [set_solver|].
  destruct (putchars_ordinary [10; 97; 98] (demo_tty 4)) as (W & B & _); [exact Hw|exact Hb|vm_compute; reflexivity|by apply bytes_ok|vm_compute; reflexivity|vm_compute; discriminate|].
  destruct (overrun_read_past_end (putchars (demo_tty 4) [10; 97; 98]) 10 [97; 98] 99 10 0 None []) as (Hf & Hc & t2 & E & Hc2);
    [exact W|exact B| | | | | | | |unfold is_byte; lia| | |]; [vm_compute; reflexivity..|].
  split; [exact Hf|]. split; [exact Hc|]. exists t2. split; [rewrite E; vm_compute; reflexivity|exact Hc2].
Defined.

End TtyInput.
