(* ===== verification/TtyOutput.v ===== *)
(** * Writing, raw reads and poll ([src/tty/libtty/libtty.c],
    [src/tty/libtty/libtty_disc.c]) *)

From S2P Require Import Prelude Fifo Termios Tty TtyDisc TtyInput.
Import Fifo Termios Tty TtyDisc TtyInput.

Module TtyOutput.

(** Free space [_libtty_write] asks for before it takes a character. *)
Definition write_need `{Abi} (x : termios) : Z :=
  if CMP_O x OPOST then LIBTTYDISC_WRITE_OPROC_MAXLEN else 1.

(** The bytes sent for the characters [cs]. *)
Definition sent `{Abi} (x : termios) (cs : list Z) : list Z :=
  concat (map (write_bytes x) cs).

(** What the other threads may do while a writer waits for room: they keep the tty well
    formed and open with the same attributes and buffer size, take the first [n] bytes of the
    transmit buffer, and wake the writer when there is room for a character. *)
Definition drains `{Abi} (cap need : Z) (n : nat) (w : wake) : Prop :=
  forall t, tty_wf t -> flag_on t TF_CLOSING = false -> capacity (tx_fifo t) = cap -> fifo_freespace (tx_fifo t) < need ->
  tty_wf (w t).1 /\ flag_on (w t).1 TF_CLOSING = false /\ term (w t).1 = term t /\
  capacity (tx_fifo (w t).1) = cap /\ need <= fifo_freespace (tx_fifo (w t).1) /\
  (n <= length (contents (tx_fifo t)))%nat /\ contents (tx_fifo (w t).1) = drop n (contents (tx_fifo t)).

Section Write.
Context `{Abi}.

Lemma u8_bytes l : Forall is_byte l -> u8 <$> l = l.
Proof.
  induction 1 as [|x l Hx _ IH]; [done|]. cbn. by rewrite u8_small, IH.
Qed.

Lemma write_char_spec t c :
  tty_wf t -> is_byte c -> write_need (term t) <= fifo_freespace (tx_fifo t) ->
  let t' := write_char t c in
  tty_wf t' /\ tx_frame t t' /\ capacity (tx_fifo t') = capacity (tx_fifo t) /\
  contents (tx_fifo t') = contents (tx_fifo t) ++ write_bytes (term t) c.
Proof.
  intros Hwf Hc Hroom. unfold write_char, write_bytes, write_need in *.
  pose proof (wf_tx t Hwf) as Htx.
  destruct (CMP_O (term t) OPOST) eqn:Eo; cbn [andb] in *; [destruct (CTL_VALID c)|].
  { rewrite writeOproc_eq.
    destruct (txFeedback_spec t (oproc_bytes (term t) c) Htx) as (H1 & H2 & H3 & H4 & _).
    split_and!; [by eapply tty_wf_tx_frame | done | done |]. rewrite H3. f_equal.
    pose proof (oproc_bytes_len (term t) c). unfold zlen in *.
    rewrite u8_bytes by by apply oproc_bytes_range. apply take_ge. lia. }
  all: assert (Hnf : fifo_is_full (tx_fifo t) = false) by
    (apply not_full_spec; [done|]; rewrite freespace_eq in Hroom by done;
     rewrite length_contents by done; unfold LIBTTYDISC_WRITE_OPROC_MAXLEN in *; lia).
  all: split_and!; [| done | done | by apply fifo_push_contents].
  all: destruct Hwf; split; try done; by apply fifo_push_wf.
Qed.

Lemma write_room_ready wakes t mode need :
  need <= fifo_freespace (tx_fifo t) -> write_room wakes t mode need = (t, RRoom wakes).
Proof. intros Hn. apply Z.leb_le in Hn. destruct wakes; cbn; by rewrite Hn. Qed.

(** The copy loop of a non-blocking write. *)
Lemma write_loop_nonblock mode cs : has mode O_NONBLOCK = true -> forall t len,
  tty_wf t -> Forall is_byte cs -> flag_on t TF_CLOSING = false ->
  exists t' n, write_loop t cs len mode (write_need (term t)) [] =
      (t', Ret (len + Z.of_nat n, bool_decide (n = length cs))) /\
    tty_wf t' /\ tx_frame t t' /\ (n <= length cs)%nat /\
    contents (tx_fifo t') = contents (tx_fifo t) ++ sent (term t) (take n cs) /\
    ((n < length cs)%nat -> fifo_freespace (tx_fifo t') < write_need (term t)).
Proof.
  intros Hm. induction cs as [|c cs IH]; intros t len Hwf Hby Hcl.
  { exists t, 0%nat. cbn. rewrite Z.add_0_r, app_nil_r. split_and!; auto; try done. lia. }
  apply Forall_cons in Hby as [Hc Hby]. cbn [write_loop].
  destruct (write_need (term t) <=? fifo_freespace (tx_fifo t)) eqn:E.
  - apply Z.leb_le in E. rewrite write_room_ready by done.
    destruct (write_char_spec t c Hwf Hc E) as (Hwf1 & Hf & Hcap & Hcont).
    assert (Ht : term (write_char t c) = term t) by apply Hf.
    destruct (IH (write_char t c) (len + 1) Hwf1 Hby) as (t' & n & E1 & W & F & Hn & C & R).
    { rewrite <- Hcl. unfold flag_on. f_equal. apply Hf. }
    rewrite Ht in *. exists t', (S n). rewrite E1. split_and!; auto.
    + f_equal. f_equal. f_equal; [lia|]. apply bool_decide_ext. cbn. lia.
    + by eapply tx_frame_trans.
    + cbn. lia.
    + rewrite C, Hcont, <- app_assoc. done.
    + cbn. intros. apply R. lia.
  - exists t, 0%nat. cbn [write_room]. rewrite E, Hcl, Hm, Z.add_0_r.
    cbn. rewrite app_nil_r. split_and!; auto; try done; [lia|]. bsimp. lia.
Qed.

(** A wait of a blocking write, if there is one. *)
Lemma write_room_blocking mode t wakes ns :
  tty_wf t -> flag_on t TF_CLOSING = false -> has mode O_NONBLOCK = false ->
  Forall2 (drains (capacity (tx_fifo t)) (write_need (term t))) ns wakes -> wakes <> [] ->
  exists t1 (m : nat), write_room wakes t mode (write_need (term t)) = (t1, RRoom (drop m wakes)) /\
    tty_wf t1 /\ flag_on t1 TF_CLOSING = false /\ term t1 = term t /\ capacity (tx_fifo t1) = capacity (tx_fifo t) /\
    write_need (term t) <= fifo_freespace (tx_fifo t1) /\ (m <= 1)%nat /\
    (sum_list (take m ns) <= length (contents (tx_fifo t)))%nat /\ contents (tx_fifo t1) = drop (sum_list (take m ns)) (contents (tx_fifo t)).
Proof.
  intros Hwf Hcl Hm Hws Hne. destruct (write_need (term t) <=? fifo_freespace (tx_fifo t)) eqn:E.
  { apply Z.leb_le in E. exists t, 0%nat. rewrite write_room_ready by done. rewrite take_0. cbn. rewrite !drop_0. split_and!; try done; lia. }
  destruct Hws as [|n w ns ws Hw Hws]; [done|]. cbn [write_room]. rewrite E, Hcl, Hm. apply Z.leb_gt in E. set (t0 := emit_if t _ EvTxReady).
  assert (Ht0 : tty_wf t0 /\ flag_on t0 TF_CLOSING = false /\ term t0 = term t /\ tx_fifo t0 = tx_fifo t).
  { unfold t0, emit_if. case_if; split_and!; try done. by destruct Hwf; split. }
  destruct Ht0 as (W0 & C0 & T0 & X0). destruct (Hw t0 W0 C0 ltac:(by rewrite X0) ltac:(by rewrite X0)) as (W1 & C1 & T1 & K1 & R1 & N1 & D1). rewrite X0 in *.
  exists (w t0).1, 1%nat. rewrite write_room_ready by done. cbn. rewrite Nat.add_0_r, drop_0. split_and!; auto. congruence.
Qed.

(** The copy loop of a blocking write whose waits are woken when there is room. *)
Lemma write_loop_blocking mode cs : forall t len wakes ns,
  tty_wf t -> Forall is_byte cs -> flag_on t TF_CLOSING = false -> has mode O_NONBLOCK = false ->
  Forall2 (drains (capacity (tx_fifo t)) (write_need (term t))) ns wakes -> (length cs <= length wakes)%nat ->
  exists t' (m : nat), write_loop t cs len mode (write_need (term t)) wakes = (t', Ret (len + zlen cs, true)) /\
    tty_wf t' /\ flag_on t' TF_CLOSING = false /\ term t' = term t /\ (m <= length cs)%nat /\
    (sum_list (take m ns) <= length (contents (tx_fifo t) ++ sent (term t) cs))%nat /\
    contents (tx_fifo t') = drop (sum_list (take m ns)) (contents (tx_fifo t) ++ sent (term t) cs).
Proof.
  induction cs as [|c cs IH]; intros t len wakes ns Hwf Hby Hcl Hm Hws Hlen.
  { exists t, 0%nat. rewrite take_0. cbn. rewrite Z.add_0_r, drop_0, app_nil_r. split_and!; try done; lia. }
  apply Forall_cons in Hby as [Hc Hby]. cbn [write_loop length] in *.
  destruct (write_room_blocking mode t wakes ns Hwf Hcl Hm Hws) as (t1 & k & -> & W1 & C1 & T1 & K1 & R1 & Hk & N1 & D1); [by intros ->; cbn in Hlen; lia|].
  rewrite <- T1, <- K1 in *. destruct (write_char_spec t1 c W1 Hc R1) as (W2 & F2 & K2 & D2).
  assert (T2 : term (write_char t1 c) = term t1) by apply F2. rewrite <- T2, <- K2 in *.
  destruct (IH (write_char t1 c) (len + 1) (drop k wakes) (drop k ns)) as (t' & m & E & W & C & T & Hm' & N & D); auto.
  { rewrite <- C1. unfold flag_on. f_equal. apply F2. }
  { by apply Forall2_drop. }
  { rewrite length_drop. lia. }
  assert (Es : sum_list (take (k + m) ns) = (sum_list (take k ns) + sum_list (take m (drop k ns)))%nat) by (by rewrite <- take_take_drop, sum_list_with_app).
  assert (Ec : contents (tx_fifo (write_char t1 c)) ++ sent (term (write_char t1 c)) cs = drop (sum_list (take k ns)) (contents (tx_fifo t) ++ sent (term (write_char t1 c)) (c :: cs))).
  { rewrite D2, D1, drop_app_le by lia. rewrite <- app_assoc. cbn. by rewrite T2. }
  exists t', (k + m)%nat. rewrite E, Es. rewrite Ec in N, D. split_and!; auto.
  - f_equal. f_equal. f_equal. unfold zlen. cbn. lia.
  - lia.
  - rewrite length_drop in N. rewrite length_app in *. lia.
  - by rewrite D, drop_drop.
Qed.

End Write.

(** ** Raw reads *)

Section Raw.
Context `{Abi}.

(** As long as bytes are buffered, the raw copy loop just takes them. *)
Lemma raw_loop_take mode vmin vtime st wakes k : forall t n len acc l1 l2,
  tty_wf t -> contents (rx_fifo t) = l1 ++ l2 -> length l1 = k ->
  exists t', raw_loop t (k + n) len acc mode vmin vtime st wakes =
             raw_loop t' n (len + Z.of_nat k) (acc ++ l1) mode vmin vtime st wakes /\
    tty_wf t' /\ contents (rx_fifo t') = l2 /\ io_frame t t' /\
    tx_fifo t' = tx_fifo t.
Proof.
  induction k as [|k IH]; intros t n len acc l1 l2 Hwf Hc Hk.
  { destruct l1; [|done]. exists t. rewrite app_nil_r, Z.add_0_r. done. }
  destruct l1 as [|b l1]; [done|]. cbn in Hc. injection Hk as Hk.
  cbn [raw_loop Nat.add].
  assert (Hne : contents (rx_fifo t) <> []) by (by rewrite Hc).
  assert (Hem : fifo_is_empty (rx_fifo t) = false).
  { apply not_true_is_false. intros C%is_empty_spec; [done | apply Hwf]. }
  rewrite Hem. cbn [negb].
  pose proof (fifo_pop_back_wf _ (wf_rx t Hwf)) as Hp.
  pose proof (fifo_pop_back_contents _ (wf_rx t Hwf) Hne) as Hpc. rewrite Hc in Hpc.
  assert (Hd : data (fifo_pop_back (rx_fifo t)).1 = data (rx_fifo t)) by done.
  destruct (fifo_pop_back (rx_fifo t)) as [f b'] eqn:Ef. cbn in Hp, Hpc, Hd. simplify_eq.
  assert (Hwf1 : tty_wf (set_rx t f)) by (destruct Hwf; split; cbn; rewrite ?Hd; done).
  destruct (IH (set_rx t f) n (len + 1) (acc ++ [b']) l1 l2 Hwf1) as (t' & E & W & C & F & X);
    [done..|].
  exists t'. rewrite E. split_and!; [|done|done|exact F|exact X].
  rewrite <- app_assoc. by rewrite Nat2Z.inj_succ, <- Z.add_1_l, Z.add_assoc.
Qed.

Lemma raw_loop_empty t : tty_wf t -> contents (rx_fifo t) = [] -> fifo_is_empty (rx_fifo t) = true.
Proof. intros Hwf Hc. apply is_empty_spec; [apply Hwf | done]. Qed.

(** A raw read that finds at least as many bytes as it was asked for. *)
Lemma raw_loop_enough t n acc mode vmin vtime st wakes :
  tty_wf t -> (n <= length (contents (rx_fifo t)))%nat ->
  exists t', raw_loop t n 0 acc mode vmin vtime st wakes =
      (t', Ret (mk_rr (Ok (Z.of_nat n)) (acc ++ take n (contents (rx_fifo t))) st)) /\
    tty_wf t' /\ contents (rx_fifo t') = drop n (contents (rx_fifo t)).
Proof.
  intros Hwf Hn.
  destruct (raw_loop_take mode vmin vtime st wakes n t 0 0 acc (take n (contents (rx_fifo t)))
    (drop n (contents (rx_fifo t)))) as (t' & E & W & C & _); [done | by rewrite take_drop | |].
  { rewrite length_take. lia. }
  rewrite Nat.add_0_r in E. exists t'. rewrite E. done.
Qed.

(** A raw read that runs out of bytes continues on an empty buffer. *)
Lemma raw_loop_short t n acc mode vmin vtime st wakes :
  tty_wf t -> (length (contents (rx_fifo t)) < n)%nat ->
  exists t' m, (m = n - length (contents (rx_fifo t)) - 1)%nat /\
    raw_loop t n 0 acc mode vmin vtime st wakes =
    raw_loop t' (S m) (zlen (contents (rx_fifo t))) (acc ++ contents (rx_fifo t)) mode vmin vtime st wakes /\
    tty_wf t' /\ contents (rx_fifo t') = [] /\ fifo_is_empty (rx_fifo t') = true.
Proof.
  intros Hwf Hn.
  destruct (raw_loop_take mode vmin vtime st wakes (length (contents (rx_fifo t))) t
    (n - length (contents (rx_fifo t))) 0 acc (contents (rx_fifo t)) [])
    as (t' & E & W & C & _); [done | by rewrite app_nil_r | done |].
  exists t', (n - length (contents (rx_fifo t)) - 1)%nat. split; [done|].
  replace (length (contents (rx_fifo t)) + (n - length (contents (rx_fifo t))))%nat with n in E by lia.
  rewrite E. split_and!; auto; [|by apply raw_loop_empty].
  replace (n - length (contents (rx_fifo t)))%nat
    with (S (n - length (contents (rx_fifo t)) - 1)) at 1 by lia. done.
Qed.

End Raw.

(** ** Raw mode *)

Section RawMode.
Context `{AbiLaws}.

(** Clearing a set of flags clears each of them. *)
Lemma has_cleared x clr m :
  0 <= clr < 2 ^ 32 -> 0 <= m < 2 ^ 32 -> Z.land clr m = m ->
  has (x &&& lnot_w 32 clr) m = false.
Proof.
  intros Hc Hm E. unfold has. rewrite land_lnot_bits by done.
  replace (Z.ldiff m clr) with 0; [by rewrite Z.land_0_r|]. symmetry. apply Z.bits_inj'.
  intros n Hn. apply (f_equal (fun z => Z.testbit z n)) in E. rewrite Z.land_spec in E.
  rewrite Z.ldiff_spec, Z.bits_0. by destruct (Z.testbit clr n), (Z.testbit m n).
Qed.

Lemma imask_r x : 0 <= imask x < 2 ^ 32. Proof. apply imask_range. Qed.
Lemma lmask_r x : 0 <= lmask x < 2 ^ 32. Proof. pose proof (lmask_range x). lia. Qed.

Lemma raw_flags t :
  let x := term (libtty_set_mode_raw t) in
  CMP_I x ISTRIP = false /\ CMP_I x INLCR = false /\ CMP_I x IGNCR = false /\
  CMP_I x ICRNL = false /\ CMP_L x ISIG = false /\ CMP_L x IEXTEN = false /\
  CMP_L x ICANON = false /\ CMP_L x ECHO = false /\ CMP_L x ECHONL = false.
Proof.
  cbn. unfold CMP_I, CMP_L. cbn [c_iflag c_lflag].
  split_and!; apply has_cleared;
    try (repeat (apply (lor_range _ _ 32); [done|..]); first [apply imask_r | apply lmask_r]);
    rewrite <- !Z.lor_assoc;
    repeat first [apply land_lor_self | apply land_lor_r | apply Z.land_diag].
Qed.

End RawMode.

(** ** Theorems *)

Section Claims.
Context `{AbiLaws}.

(** a non-blocking write accepts a prefix of the characters, sends for it
    exactly the bytes output processing prescribes ([write_bytes]: tab and
    newline expansion, CR mapping), never splitting the expansion of a character,
    and stops short only when the transmit buffer lacks room for one more. *)
Theorem write_nonblock_prefix t cs mode :
  tty_wf t -> Forall is_byte cs -> flag_on t TF_CLOSING = false ->
  has mode O_NONBLOCK = true -> fifo_is_full (tx_fifo t) = false -> cs <> [] ->
  exists t' n,
    _libtty_write t cs mode [] =
      (t', Ret (if bool_decide (n = 0%nat) then Err EWOULDBLOCK else Ok (Z.of_nat n))) /\
    (n <= length cs)%nat /\ tty_wf t' /\
    contents (tx_fifo t') = contents (tx_fifo t) ++ sent (term t) (take n cs) /\
    ((n < length cs)%nat -> fifo_freespace (tx_fifo t') < write_need (term t)).
Proof.
  intros Hwf Hby Hcl Hm Hnf Hne. unfold _libtty_write. rewrite Hcl, Hnf. cbn [andb].
  assert ((zlen cs =? 0) = false) as ->.
  { apply Z.eqb_neq. unfold zlen. destruct cs; [done|]. cbn. lia. }
  fold (write_need (term t)).
  destruct (write_loop_nonblock mode cs Hm t 0 Hwf Hby Hcl) as (t' & n & -> & W & F & Hn & C & R).
  set (t2 := if bool_decide (n = length cs) then emit_if t' _ EvTxReady else t').
  assert (Ht2 : tty_wf t2 /\ tx_fifo t2 = tx_fifo t' /\ t_flags t2 = t_flags t').
  { unfold t2, emit_if. repeat case_if; split_and!; try done. by destruct W; split. }
  destruct Ht2 as (W2 & X2 & F2). exists t2, n. rewrite X2. split_and!; auto.
  assert (flag_on t2 TF_CLOSING = false) as ->.
  { rewrite <- Hcl. unfold flag_on. rewrite F2. f_equal. apply F. }
  rewrite Hm, andb_true_r. do 3 f_equal. case_bool_decide; subst; [done|].
  rewrite (proj2 (Z.eqb_neq _ _)) by lia. f_equal.
Qed.

(** C39: a blocking write to an open terminal whose writer is woken, when it waits, with room for a character
    returns the full length, with at most one wait per character. If the driver took the first [n1], [n2], ... bytes of
    the transmit buffer during the waits, the bytes left in it are those buffered before followed by what output
    processing makes of the text ([sent]), without the first [n1 + n2 + ...]: none is lost, repeated or out of order. *)
Theorem write_blocking_completes t cs mode wakes ns :
  tty_wf t -> Forall is_byte cs -> flag_on t TF_CLOSING = false ->
  has mode O_NONBLOCK = false -> Forall2 (drains (capacity (tx_fifo t)) (write_need (term t))) ns wakes ->
  (length cs <= length wakes)%nat ->
  exists t' (m : nat), _libtty_write t cs mode wakes = (t', Ret (Ok (zlen cs))) /\ tty_wf t' /\ (m <= length cs)%nat /\
    (sum_list (take m ns) <= length (contents (tx_fifo t) ++ sent (term t) cs))%nat /\
    contents (tx_fifo t') = drop (sum_list (take m ns)) (contents (tx_fifo t) ++ sent (term t) cs).
Proof.
  intros Hwf Hby Hcl Hm Hws Hlen. unfold _libtty_write. rewrite Hcl, Hm, andb_false_r.
  destruct (zlen cs =? 0) eqn:E0; bsimp.
  { exists t, 0%nat. rewrite E0. destruct cs; [|done]. rewrite take_0. cbn. rewrite drop_0, app_nil_r. split_and!; try done; lia. }
  fold (write_need (term t)).
  destruct (write_loop_blocking mode cs t 0 wakes ns) as (t' & m & -> & W & C & T & Hk & N & D); auto.
  set (t2 := emit_if t' _ EvTxReady).
  assert (Ht2 : tty_wf t2 /\ flag_on t2 TF_CLOSING = false /\ tx_fifo t2 = tx_fifo t').
  { unfold t2, emit_if. case_if; split_and!; try done. by destruct W; split. }
  destruct Ht2 as (W2 & C2 & X2). exists t2, m. by rewrite C2, andb_false_r, X2.
Qed.

Lemma read_raw_core t size mode wakes :
  tty_wf t -> CMP_L (term t) ICANON = false -> flag_on t TF_CLOSING = false ->
  has mode O_NONBLOCK = true -> 0 < size ->
  let l := contents (rx_fifo t) in
  exists t', _libtty_read_nonblock t size mode None wakes =
    (t', Ret (mk_rr (if bool_decide (l = []) then Err EWOULDBLOCK
                     else Ok (Z.min size (zlen l))) (take (Z.to_nat size) l) None)) /\
  contents (rx_fifo t') = drop (Z.to_nat size) l /\ tty_wf t'.
Proof.
  intros Hwf Hi Hcl Hm Hsz l. unfold _libtty_read_nonblock, _libttydisc_readRaw.
  rewrite Hcl, Hi. unfold zlen.
  set (vmin := get_cc (term t) VMIN). set (vtime := get_cc (term t) VTIME * 100).
  destruct (decide (Z.to_nat size <= length l)%nat) as [Hle|Hlt].
  - destruct (raw_loop_enough t (Z.to_nat size) [] mode vmin vtime None wakes Hwf Hle)
      as (t' & -> & W & C). exists t'. split_and!; auto.
    rewrite bool_decide_eq_false_2; [|intros E; rewrite E in Hle; cbn in Hle; lia].
    fold l. do 4 f_equal. lia.
  - destruct (raw_loop_short t (Z.to_nat size) [] mode vmin vtime None wakes Hwf)
      as (t' & m & _ & -> & W & C & E); [fold l; lia|].
    exists t'. cbn [raw_loop]. rewrite E, Hm. cbn [negb app]. fold l. unfold zlen.
    rewrite take_ge, drop_ge by lia. split_and!; auto. do 4 f_equal.
    case_bool_decide as El.
    + by rewrite El.
    + rewrite (proj2 (Z.eqb_neq _ _)); [f_equal; lia|]. destruct l; [done|]. cbn. lia.
Qed.

(** a raw non-blocking read returns what is buffered, up to the size asked
    for, in order, and would block exactly when nothing is buffered. *)
Theorem read_raw_nonblock t size mode wakes :
  tty_wf t -> CMP_L (term t) ICANON = false -> flag_on t TF_CLOSING = false ->
  has mode O_NONBLOCK = true -> 0 < size ->
  let l := contents (rx_fifo t) in
  exists t', _libtty_read_nonblock t size mode None wakes =
    (t', Ret (mk_rr (if bool_decide (l = []) then Err EWOULDBLOCK
                     else Ok (Z.min size (zlen l))) (take (Z.to_nat size) l) None)) /\
  contents (rx_fifo t') = drop (Z.to_nat size) l /\ tty_wf t'.
Proof. apply read_raw_core. Qed.

(** a raw read on the resumable interface that finds fewer than VMIN bytes
    parks with what it took, and when the missing bytes have arrived the resumed
    call completes: together they return all the bytes, in order. *)
Theorem read_raw_park_resume t size mode l1 l2 wakes1 wakes2 t2 :
  tty_wf t -> CMP_L (term t) ICANON = false -> flag_on t TF_CLOSING = false ->
  has mode O_NONBLOCK = false ->
  contents (rx_fifo t) = l1 -> zlen l1 < get_cc (term t) VMIN -> zlen l1 < size ->
  exists t1 ms,
    _libtty_read_nonblock t size mode (Some libtty_read_state_init) wakes1 =
      (t1, Ret (mk_rr (Ok 0) l1 (Some (mk_st ms (zlen l1))))) /\
    0 <= ms /\ tty_wf t1 /\ contents (rx_fifo t1) = [] /\
    (tty_wf t2 -> term t2 = term t -> flag_on t2 TF_CLOSING = false ->
     contents (rx_fifo t2) = l2 -> l2 <> [] ->
     get_cc (term t) VMIN <= zlen l1 + zlen l2 <= size ->
     exists t3 st,
       _libtty_read_nonblock t2 size mode (Some (mk_st ms (zlen l1))) wakes2 =
         (t3, Ret (mk_rr (Ok (zlen l1 + zlen l2)) l2 st)) /\
       contents (rx_fifo t3) = []).
Proof.
  intros Hwf Hi Hcl Hm Hl1 Hv Hsz. unfold _libtty_read_nonblock, _libttydisc_readRaw.
  assert (0 <= get_cc (term t) VTIME) as Hvt.
  { apply (arr_get_byte (c_cc (term t)) (cc_ix VTIME)). apply Hwf. }
  rewrite Hcl, Hi. cbn [libtty_read_state_init timeout_ms]. change (0 <=? -1) with false.
  cbv iota. unfold zlen in *. subst l1.
  destruct (raw_loop_short t (Z.to_nat size) [] mode (get_cc (term t) VMIN)
    (get_cc (term t) VTIME * 100) (Some libtty_read_state_init) wakes1 Hwf)
    as (t1 & m & _ & E1 & W & C & E); [lia|].
  eexists t1, _. split.
  { change (mk_st (-1) 0) with libtty_read_state_init. rewrite E1. cbn [raw_loop].
    rewrite E, Hm. cbn [negb]. unfold zlen.
    rewrite (proj2 (Z.eqb_neq (get_cc _ _) _)) by lia. cbn [andb].
    rewrite (proj2 (Z.ltb_lt _ _) Hv), orb_true_r. reflexivity. }
  split_and!; [case_if; lia | done | done |].
  intros W2 T2 Cl2 C2 Hne Hrange. rewrite Cl2, T2, Hi. cbn [timeout_ms prevlen].
  rewrite (proj2 (Z.leb_le 0 _)) by (case_if; lia).
  assert (fifo_is_empty (rx_fifo t2) = false) as ->.
  { apply not_true_is_false. intros Ce%is_empty_spec; [congruence | apply W2]. }
  set (st2 := Some (mk_st (-1) _)). set (len1 := Z.of_nat (length (contents (rx_fifo t)))) in *.
  destruct (raw_loop_take mode (get_cc (term t) VMIN) (get_cc (term t) VTIME * 100) st2 wakes2
    (length l2) t2 (Z.to_nat (size - len1) - length l2) len1 [] l2 []) as (t3 & E3 & W3 & C3 & _);
    [done | by rewrite app_nil_r | done |].
  replace (length l2 + (Z.to_nat (size - len1) - length l2))%nat
    with (Z.to_nat (size - len1)) in E3 by lia.
  exists t3, st2. rewrite E3. split; [|done].
  destruct (Z.to_nat (size - len1) - length l2)%nat; [done|]. cbn [raw_loop].
  rewrite raw_loop_empty, Hm by done. cbn [negb app].
  rewrite (proj2 (Z.eqb_neq (get_cc _ _) _)) by lia. cbn [andb].
  destruct l2; [done|]. cbn [length] in *.
  rewrite (proj2 (Z.eqb_neq _ _)), (proj2 (Z.ltb_ge _ _)) by lia. done.
Qed.

Lemma poll_in t :
  flag_on t TF_CLOSING = false ->
  has (_libtty_poll_status t) POLLIN =
  if CMP_L (term t) ICANON then flag_on t TF_HAVEBREAK else _libtty_rxready t.
Proof.
  intros Hcl. unfold _libtty_poll_status. rewrite Hcl.
  destruct poll_bits as (P0 & P1 & P2 & _).
  assert (Hin : forall y, has (0 ||| (POLLIN ||| POLLRDNORM) ||| y) POLLIN = true).
  { intros y. unfold has. rewrite Z.lor_0_l, <- Z.lor_assoc, land_lor_self.
    by apply negb_true_iff, Z.eqb_neq. }
  assert (Hin0 : has (0 ||| (POLLIN ||| POLLRDNORM)) POLLIN = true).
  { rewrite <- (Hin 0). by rewrite Z.lor_0_r. }
  assert (Hout : has (0 ||| (POLLOUT ||| POLLWRNORM)) POLLIN = false).
  { unfold has. rewrite Z.lor_0_l, Z.land_lor_distr_l, !(Z.land_comm _ POLLIN), P1, P2. done. }
  destruct (CMP_L (term t) ICANON), (flag_on t TF_HAVEBREAK), (_libtty_rxready t), (_libtty_txfull t);
    cbn [negb]; auto.
Qed.

(** [poll] reports input exactly when a non-blocking read of at least one
    byte would not fail with EWOULDBLOCK, in canonical and in raw mode. *)
Theorem poll_read_agree t size mode :
  tty_wf t -> flag_on t TF_CLOSING = false -> has mode O_NONBLOCK = true -> 0 < size ->
  has (_libtty_poll_status t) POLLIN = true <->
  exists rr, (_libtty_read_nonblock t size mode None []).2 = Ret rr /\ rr_ret rr <> Err EWOULDBLOCK.
Proof.
  intros Hwf Hcl Hm Hsz. rewrite poll_in by done.
  destruct (CMP_L (term t) ICANON) eqn:Ei.
  - unfold _libtty_read_nonblock, _libttydisc_readCanon. rewrite Hcl, Ei. cbn [canon_wait].
    destruct (flag_on t TF_HAVEBREAK) eqn:Eh.
    + split; [|done]. intros _.
      destruct (canon_loop t (Z.to_nat size) (rx_fifo t) 255 []) as [[f b] l].
      eexists. split; [reflexivity|]. done.
    + rewrite Hcl, Hm. split; [done|]. intros (rr & E & Hne). by simplify_eq/=.
  - destruct (read_raw_core t size mode [] Hwf Ei Hcl Hm Hsz) as (t' & -> & _). cbn [snd].
    unfold _libtty_rxready. pose proof (is_empty_spec _ (wf_rx t Hwf)) as Hem.
    rewrite negb_true_iff. split.
    + intros E. eexists. split; [reflexivity|]. cbn.
      rewrite bool_decide_eq_false_2; [done|]. intros C%Hem. congruence.
    + intros (rr & E & Hne). simplify_eq/=. case_bool_decide as El; [done|].
      apply not_true_is_false. tauto.
Qed.

(** in the mode set by [libtty_set_mode_raw] every received byte is stored
    unchanged, nothing is echoed, and the reader is told. *)
Theorem raw_mode_transparent t c :
  tty_wf t -> is_byte c ->
  let t0 := libtty_set_mode_raw t in
  let r := _libtty_putchar t0 c true in
  contents (rx_fifo r.1) = push_drop (capacity (rx_fifo t)) (contents (rx_fifo t)) c /\
  tx_fifo r.1 = tx_fifo t /\ evs r.1 = evs t /\ r.2 = 1.
Proof.
  intros Hwf Hc t0 r. destruct (raw_flags t) as (F1 & F2 & F3 & F4 & F5 & F6 & F7 & F8 & F9).
  fold t0 in F1, F2, F3, F4, F5, F6, F7, F8, F9.
  assert (Hst : exists t1, _libtty_putchar t0 c true = putchar_store t1 c true /\
    term t1 = term t0 /\ rx_fifo t1 = rx_fifo t /\ tx_fifo t1 = tx_fifo t /\ evs t1 = evs t).
  { unfold _libtty_putchar, isig_char, putchar_edit, input_crnl. rewrite F1, F5, F6. cbn [andb].
    destruct (flag_on t0 TF_LITERAL).
    - by exists (flag_clear t0 TF_LITERAL).
    - rewrite F2, F3, F4, F7. exists t0. by destruct (c =? CCR), (c =? CNL). }
  destruct Hst as (t1 & E & T1 & R1 & X1 & V1). unfold r. rewrite E, putchar_store_eq.
  assert (Es : stored t1 c = set_rx t1 (rx_store (rx_fifo t1) c)).
  { unfold stored. rewrite echo_eq. unfold echo_bytes. cbn [term set_rx].
    by rewrite T1, F8, F9. }
  rewrite Es. cbn [term set_rx]. rewrite T1, F7. cbn.
  split_and!; [|done..]. rewrite R1. apply rx_store_spec; [apply Hwf..|done].
Qed.

End Claims.

(** ** Witnesses *)

(** "a", newline on the default attributes: the newline becomes CR LF. *)
Lemma write_nonblock_prefix_witness :
  exists t', _libtty_write (demo_tty 16) [97; 10] 1 [] = (t', Ret (Ok 2)) /\
  contents (tx_fifo t') = [97; 13; 10].
Proof.
  destruct (demo_tty_wf 16) as [Hw _]; [set_solver|].
  destruct (write_nonblock_prefix (demo_tty 16) [97; 10] 1) as (t' & n & E & Hn & _ & C & R);
    [exact Hw | by apply bytes_ok | vm_compute; reflexivity | vm_compute; reflexivity
    | vm_compute; reflexivity | done |].
  exists t'. assert (n = 2%nat) as ->.
  { apply (f_equal snd) in E. vm_compute in E. destruct n as [|[|[|]]]; try discriminate; [reflexivity|].
    cbn in Hn. lia. }
  split; [exact E|]. rewrite C. vm_compute. reflexivity.
Defined.

(** A driver that takes [n] bytes before the writer runs again. *)
Definition takes (n : nat) : wake := fun t => (Nat.iter n (fun t => (_libtty_getchar t false).1.1) t, false).

Lemma getchar_spec t : tty_wf t -> contents (tx_fifo t) <> [] ->
  let t' := (_libtty_getchar t false).1.1 in
  tty_wf t' /\ t_flags t' = t_flags t /\ term t' = term t /\ capacity (tx_fifo t') = capacity (tx_fifo t) /\ contents (tx_fifo t') = drop 1 (contents (tx_fifo t)).
Proof.
  intros Hwf Hne. pose proof (wf_tx t Hwf) as Htx. pose proof (fifo_pop_back_contents _ Htx Hne) as Ep. pose proof (fifo_pop_back_wf _ Htx) as Hp.
  unfold _libtty_getchar, _libtty_popchar. destruct (fifo_pop_back (tx_fifo t)) as [f b] eqn:E. cbn [fst snd] in *. rewrite Ep. unfold _libtty_wake_writer.
  assert (Hw : tty_wf (set_tx t f)) by (destruct Hwf; by split). assert (Hc : capacity f = capacity (tx_fifo t)) by (by injection E as <- _). cbn. rewrite drop_0.
  case_if; cbn; split_and!; try done. by destruct Hw; split.
Qed.

Lemma takes_spec n : forall t, tty_wf t -> (n <= length (contents (tx_fifo t)))%nat ->
  tty_wf (takes n t).1 /\ t_flags (takes n t).1 = t_flags t /\ term (takes n t).1 = term t /\ capacity (tx_fifo (takes n t).1) = capacity (tx_fifo t) /\
  contents (tx_fifo (takes n t).1) = drop n (contents (tx_fifo t)).
Proof.
  induction n as [|n IH]; intros t Hwf Hn; [by rewrite drop_0|]. destruct (IH t Hwf ltac:(lia)) as (W & F & T & K & C). unfold takes in *. cbn [fst Nat.iter nat_rect] in *.
  destruct (getchar_spec _ W) as (W1 & F1 & T1 & K1 & C1); [intros E; apply (f_equal length) in E; rewrite C, length_drop in E; cbn in E; lia|].
  split_and!; [exact W1|by etrans; [exact F1|]|by etrans; [exact T1|]|by etrans; [exact K1|]|etrans; [exact C1|]]. rewrite C, drop_drop. f_equal. lia.
Qed.

Lemma takes_drains cap need n : need <= Z.of_nat n <= cap - need + 1 -> drains cap need n (takes n).
Proof.
  intros Hn t Hwf Hcl Hcap Hfree. rewrite freespace_eq, Hcap in Hfree by apply Hwf. rewrite <- length_contents in Hfree by apply Hwf. assert (Hlen : (n <= length (contents (tx_fifo t)))%nat) by lia.
  destruct (takes_spec n t Hwf Hlen) as (W & F & T & K & C). split_and!; try done; [unfold flag_on in *; by rewrite F|congruence|].
  rewrite freespace_eq, <- length_contents, C, K, length_drop, Hcap by apply W. pose proof (length_le_cap _ (wf_tx t Hwf)). lia.
Qed.

Lemma write_blocking_completes_witness :
  exists t' m, _libtty_write (demo_tty 64) (replicate 100 65) 0 (replicate 100 (takes 16)) = (t', Ret (Ok 100)) /\
    contents (tx_fifo t') = drop (sum_list (take m (replicate 100 16%nat))) (replicate 100 65).
Proof.
  destruct (demo_tty_wf 64) as [Hw _]; [set_solver|].
  destruct (write_blocking_completes (demo_tty 64) (replicate 100 65) 0 (replicate 100 (takes 16)) (replicate 100 16%nat))
    as (t' & m & E & _ & _ & _ & C); [exact Hw | by apply bytes_ok | vm_compute; reflexivity
    | vm_compute; reflexivity | | done |].
  - apply Forall2_replicate, takes_drains. vm_compute. split; discriminate.
  - exists t', m. split; [exact E|exact C].
Defined.

Definition raw_demo (cs : list Z) : tty := putchars (libtty_set_mode_raw (demo_tty 8)) cs.

Lemma tty_wf_raw t : tty_wf t -> tty_wf (libtty_set_mode_raw t).
Proof. intros []. by split. Qed.

Lemma putchars_wf cs : forall t, tty_wf t -> Forall is_byte cs -> tty_wf (putchars t cs).
Proof.
  induction cs as [|c cs IH]; intros t Hwf Hb; [done|]. apply Forall_cons in Hb as [Hc Hb].
  apply IH; [|done]. by apply putchar_case.
Qed.

Lemma raw_demo_wf cs : Forall is_byte cs -> tty_wf (raw_demo cs).
Proof.
  intros Hb. apply putchars_wf; [|done]. apply tty_wf_raw. apply demo_tty_wf. set_solver.
Qed.

Lemma read_raw_nonblock_witness :
  exists t', _libtty_read_nonblock (raw_demo [3; 0; 13]) 2 1 None [] =
    (t', Ret (mk_rr (Ok 2) [3; 0] None)) /\ contents (rx_fifo t') = [13].
Proof.
  destruct (read_raw_nonblock (raw_demo [3; 0; 13]) 2 1 []) as (t' & E & C & _);
    [apply raw_demo_wf; by apply bytes_ok | vm_compute; reflexivity | vm_compute; reflexivity
    | vm_compute; reflexivity | lia |].
  exists t'. split; [exact E | exact C].
Defined.

(** VMIN set to 3: one byte parks the read, two more complete it. *)
Definition vmin_demo (cs : list Z) : tty :=
  let t := libtty_set_mode_raw (demo_tty 8) in
  let x := term t in
  putchars (set_term t (mk_termios (c_iflag x) (c_oflag x) (c_cflag x) (c_lflag x)
    (arr_set (c_cc x) 6 3) (c_ispeed x) (c_ospeed x))) cs.

Lemma vmin_demo_wf cs : Forall is_byte cs -> tty_wf (vmin_demo cs).
Proof.
  intros Hb. apply putchars_wf; [|done].
  assert (Hw : tty_wf (libtty_set_mode_raw (demo_tty 8)))
    by (apply tty_wf_raw, demo_tty_wf; set_solver).
  destruct Hw. split; try done. cbn. by apply bytes_ok.
Qed.

Lemma read_raw_park_resume_witness :
  exists t1 t3 st st', _libtty_read_nonblock (vmin_demo [7]) 5 0 (Some libtty_read_state_init) [] =
      (t1, Ret (mk_rr (Ok 0) [7] (Some st))) /\
    _libtty_read_nonblock (vmin_demo [8; 9]) 5 0 (Some st) [] = (t3, Ret (mk_rr (Ok 3) [8; 9] st')).
Proof.
  destruct (read_raw_park_resume (vmin_demo [7]) 5 0 [7] [8; 9] [] [] (vmin_demo [8; 9]))
    as (t1 & ms & E1 & _ & _ & _ & R);
    [apply vmin_demo_wf; by apply bytes_ok | vm_compute; reflexivity | vm_compute; reflexivity
    | vm_compute; reflexivity | vm_compute; reflexivity | vm_compute; reflexivity
    | vm_compute; reflexivity |].
  destruct R as (t3 & st & E3 & _);
    [apply vmin_demo_wf; by apply bytes_ok | vm_compute; reflexivity | vm_compute; reflexivity
    | vm_compute; reflexivity | done | vm_compute; split; discriminate |].
  exists t1, t3, (mk_st ms 1), st. split; [exact E1 | exact E3].
Defined.

Lemma poll_read_agree_witness :
  has (_libtty_poll_status (raw_demo [65])) POLLIN = true /\
  exists rr, (_libtty_read_nonblock (raw_demo [65]) 4 1 None []).2 = Ret rr /\
    rr_ret rr <> Err EWOULDBLOCK.
Proof.
  split; [vm_compute; reflexivity|].
  apply (poll_read_agree (raw_demo [65]) 4 1);
    [apply raw_demo_wf; by apply bytes_ok | vm_compute; reflexivity | vm_compute; reflexivity
    | lia | vm_compute; reflexivity].
Defined.

(** Even the interrupt character is plain input. *)
Lemma raw_mode_transparent_witness :
  contents (rx_fifo (_libtty_putchar (libtty_set_mode_raw (demo_tty 8)) 3 true).1) = [3].
Proof.
  destruct (demo_tty_wf 8) as [Hw _]; [set_solver|].
  destruct (raw_mode_transparent (demo_tty 8) 3 Hw) as (E & _); [unfold is_byte; lia|].
  rewrite E. vm_compute. reflexivity.
Defined.

End TtyOutput.
