(* ===== verification/TtySession.v ===== *)
(** * Controlling terminal, ioctls, and the invariant of every tty operation
    ([src/tty/libtty/libtty.c], lines 440 to the end)

    The kernel's answers ([getsid], [procExists], [getpgid], [sessionCtty]) are
    the fields of [kernel], a parameter of each operation: they may differ from
    call to call. *)

From S2P Require Import Prelude Fifo Termios Tty TtyDisc TtyInput.
Import Fifo Termios Tty TtyDisc TtyInput.

Module TtySession.

Record kernel := mk_kernel {
  getsid : Z -> option Z;                  (* None: (pid_t)-1 *)
  procExists : Z -> Z -> Z -> bool -> Z;   (* pid, pgid, sid, PROCQ_ALIVE *)
  getpgid : Z -> cres Z;                   (* Err: -1 with errno set *)
  sessionCtty : Z -> bool -> cres Z;
  get_halfduplex : Z                       (* the driver's callback *)
}.

Inductive ioctl_req :=
  | TIOCGWINSZ | TIOCSWINSZ (row col : Z)
  | TCDRAIN | TCFLSH (type : flush_type)
  | TCSETS (x : termios) | TCSETSW (x : termios) | TCSETSF (x : termios) | TCGETS
  | TIOCGPGRP | TIOCSPGRP (pgid : option Z) | TIOCNOTTY | TIOCSCTTY | TIOCGSID
  | TIOCGHALFD | TIOCSHALFD (enable : Z) | FIONREAD | IOther.

(** What is copied to [out_arg]. *)
Inductive ioctl_out := OutNone | OutWinsz (row col : Z) | OutTermios (x : termios) | OutInt (v : Z).

Section Ops.
Context `{Abi} (K : kernel).

(** [_libtty_sessionRelease] *)
Definition _libtty_sessionRelease (t : tty) : tty :=
  let s := sid t in
  emit_if (set_session t (-1) (-1)) (0 <=? s) (EvSessionCtty s false).

Definition _libtty_hangup (t : tty) : tty :=
  _libtty_sessionRelease (_libtty_signal_pgrp t SIGHUP).

(** A [pid_t] returned as an [int]: callers take a negative one for an error. *)
Definition pid_ret (s : Z) : cres Z := if s <? 0 then Err (EOTHER (- s)) else Ok s.

Definition _libtty_sessionCheck (t : tty) (sender_pid : Z) (claim : bool) : tty * cres Z :=
  if sender_pid <=? 0 then (t, Err ENOTTY)
  else match getsid K sender_pid with
       | None => (t, Err ENOTTY)
       | Some s =>
           let t := if (0 <=? sid t) && (procExists K (sid t) 0 (sid t) true =? 0)
                    then set_session t (-1) (-1) else t in
           if sid t <? 0 then (t, if claim then pid_ret s else Err ENOTTY)
           else (t, if sid t =? s then Ok s else Err ENOTTY)
       end.

Definition _libtty_sessionClaim (t : tty) (s : Z) : tty :=
  if sid t <? 0 then set_session t s (pgrp t) else t.

Definition _libtty_sessionAcquire (t : tty) (sender_pid : Z) : tty * cres Z :=
  let '(t, ret) := _libtty_sessionCheck t sender_pid true in
  match ret with
  | Err e => (t, Err e)
  | Ok s =>
      if negb (s =? sender_pid) then (t, Err EPERM)
      else if sid t =? s then (t, Ok 0)
      else match getpgid K sender_pid with
           | Err e => (t, Err e)
           | Ok pg =>
               let t := emit t (EvSessionCtty s true) in
               match sessionCtty K s true with
               | Err e => (t, Err e)
               | Ok _ =>
                   let t := _libtty_sessionClaim t s in
                   (set_session t (sid t) pg, Ok 0)
               end
           end
  end.

Definition _libtty_acquire (t : tty) (sender_pid oflags : Z) : tty :=
  if (oflags &&& O_NOCTTY) =? 0 then (_libtty_sessionAcquire t sender_pid).1 else t.

Definition libtty_acquire (t : tty) (sender_pid oflags : Z) : tty :=
  (locked (fun t => (_libtty_acquire t sender_pid oflags, tt)) t).1.

Definition _libtty_cttyIoctl (t : tty) (sender_pid : Z) (cmd : ioctl_req)
    : tty * cres Z * ioctl_out :=
  match cmd with
  | TIOCGPGRP =>
      match _libtty_sessionCheck t sender_pid false with
      | (t, Err e) => (t, Err e, OutNone)
      | (t, Ok _) => (t, Ok 0, OutInt (pgrp t))
      end
  | TIOCSPGRP None => (t, Err EINVAL, OutNone)
  | TIOCSPGRP (Some pgid) =>
      if pgid <=? 0 then (t, Err EINVAL, OutNone)
      else match _libtty_sessionCheck t sender_pid false with
           | (t, Err e) => (t, Err e, OutNone)
           | (t, Ok s) =>
               if negb (procExists K 0 pgid s false =? 1) then (t, Err EPERM, OutNone)
               else (set_session t (sid t) pgid, Ok 0, OutNone)
           end
  | TIOCNOTTY =>
      match _libtty_sessionCheck t sender_pid false with
      | (t, Err e) => (t, Err e, OutNone)
      | (t, Ok s) =>
          if negb (s =? sender_pid) then (t, Err EPERM, OutNone)
          else (_libtty_sessionRelease t, Ok 0, OutNone)
      end
  | TIOCSCTTY => (_libtty_sessionAcquire t sender_pid, OutNone)
  | TIOCGSID =>
      match _libtty_sessionCheck t sender_pid false with
      | (t, Err e) => (t, Err e, OutNone)
      | (t, Ok _) => (t, Ok 0, OutInt (sid t))
      end
  | _ => (t, Err EINVAL, OutNone)
  end.

Definition _libtty_ioctl (t : tty) (sender_pid : Z) (cmd : ioctl_req) (wakes : list wake)
    : tty * outcome (cres Z * ioctl_out) :=
  let ret (r : tty * cres Z) := (r.1, Ret (r.2, OutNone)) in
  match cmd with
  | TIOCGWINSZ => (t, Ret (Ok 0, OutWinsz (ws_row t) (ws_col t)))
  | TIOCSWINSZ row col =>
      (_libtty_signal_pgrp (set_ws t row col) SIGWINCH, Ret (Ok 0, OutNone))
  | TCDRAIN =>
      match _libtty_drain wakes t with
      | (t, Ret _) => (t, Ret (Ok 0, OutNone))
      | (t, Blocked) => (t, Blocked)
      end
  | TCFLSH type => ret (_libtty_flush t type)
  | TCSETS x | TCSETSW x | TCSETSF x => ret (tcsets t x)
  | TCGETS => (t, Ret (Ok 0, OutTermios (term t)))
  | TIOCGPGRP | TIOCSPGRP _ | TIOCNOTTY | TIOCSCTTY | TIOCGSID =>
      let '(t, r, o) := _libtty_cttyIoctl t sender_pid cmd in (t, Ret (r, o))
  | TIOCGHALFD =>
      if has_get_halfduplex (cb t) then (t, Ret (Ok 0, OutInt (get_halfduplex K)))
      else (t, Ret (Err EIO, OutNone))
  | TIOCSHALFD enable =>
      if negb (has_set_halfduplex (cb t)) then (t, Ret (Err EIO, OutNone))
      else
        let enable := s32 enable in
        if negb (enable =? 0) && negb (enable =? 1) then (t, Ret (Err EINVAL, OutNone))
        else (emit t (EvSetHalfduplex enable), Ret (Ok 0, OutNone))
  | FIONREAD => (t, Ret (Ok 0, OutInt (s32 (fifo_count (rx_fifo t)))))
  | IOther => (t, Ret (Err EINVAL, OutNone))
  end.

Definition libtty_ioctl (t : tty) (sender_pid : Z) (cmd : ioctl_req) (wakes : list wake) :=
  locked (fun t => _libtty_ioctl t sender_pid cmd wakes) t.

End Ops.

(** ** The invariant of the whole component *)

Section Inv.
Context `{Abi}.

(** An unclaimed terminal has no foreground group. *)
Definition session_ok (t : tty) : Prop := sid t < 0 -> pgrp t = -1.

Definition tty_inv (t : tty) : Prop := tty_wf t /\ session_ok t.

(** What other threads do during a wait: operations that keep the invariant. *)
Definition good_wake (w : wake) : Prop := forall t, tty_inv t -> tty_inv (w t).1.

(** A termios argument as [TCSETS] receives it: an array of bytes. *)
Definition req_ok (cmd : ioctl_req) : Prop :=
  match cmd with
  | TCSETS x | TCSETSW x | TCSETSF x => Forall is_byte (c_cc x)
  | _ => True
  end.

(** Every entry point of the library. *)
Inductive tty_step : tty -> tty -> Prop :=
  | StPutchar t c w : is_byte c -> tty_step t (_libtty_putchar t c w).1
  | StGetchar t w : tty_step t (_libtty_getchar t w).1.1
  | StRead t size mode st ws :
      Forall good_wake ws -> tty_step t (libtty_read_nonblock t size mode st ws).1
  | StWrite t cs mode ws :
      Forall is_byte cs -> Forall good_wake ws -> tty_step t (libtty_write t cs mode ws).1
  | StIoctl K t pid cmd ws :
      req_ok cmd -> Forall good_wake ws -> tty_step t (libtty_ioctl K t pid cmd ws).1
  | StAcquire K t pid oflags : tty_step t (libtty_acquire K t pid oflags)
  | StHangup t : tty_step t (_libtty_hangup t)
  | StRaw t : tty_step t (libtty_set_mode_raw t)
  | StPoll t : tty_step t (libtty_poll_status t).1
  | StClose t : tty_step t (libtty_close t).1.

Inductive reachable (t0 : tty) : tty -> Prop :=
  | ReachInit : reachable t0 t0
  | ReachStep t t' : reachable t0 t -> tty_step t t' -> reachable t0 t'.

End Inv.

(** ** Preservation *)

Section Preserve.
Context `{Abi}.

Lemma inv_emit t e : tty_inv t -> tty_inv (emit t e).
Proof. intros [[] ?]. by split; [split|]. Qed.

Lemma inv_emit_if t b e : tty_inv t -> tty_inv (emit_if t b e).
Proof. destruct b; [apply inv_emit | done]. Qed.

Lemma inv_flags t x : tty_inv t -> tty_inv (set_flags t x).
Proof. intros [[] ?]. by split; [split|]. Qed.

Lemma inv_tx t f : tty_inv t -> fifo_wf f -> tty_inv (set_tx t f).
Proof. intros [[] ?] Hf. by split; [split|]. Qed.

Lemma inv_rx t f :
  tty_inv t -> fifo_wf f -> Forall is_byte (data f) -> tty_inv (set_rx t f).
Proof. intros [[] ?] Hf Hd. by split; [split|]. Qed.

Lemma inv_signal t sg : tty_inv t -> tty_inv (_libtty_signal_pgrp t sg).
Proof. unfold _libtty_signal_pgrp. case_if; [apply inv_emit | done]. Qed.

Lemma inv_session t s p : tty_inv t -> (s < 0 -> p = -1) -> tty_inv (set_session t s p).
Proof. intros [[] ?] Hs. by split; [split|]. Qed.

Lemma inv_io_frame t t' : tty_inv t -> tty_wf t' -> io_frame t t' -> tty_inv t'.
Proof.
  intros [_ Hs] Hwf (_ & _ & _ & _ & E5 & E6 & _). split; [done|].
  unfold session_ok in *. by rewrite E5, E6.
Qed.

Lemma inv_refresh t : tty_inv t -> tty_inv (refresh_havebreak t).
Proof.
  intros [Hwf Hs]. split; [by apply refresh_havebreak_wf|].
  unfold session_ok, refresh_havebreak in *. by repeat case_if.
Qed.

Lemma inv_pop_rx t : tty_inv t -> tty_inv (set_rx t (fifo_pop_back (rx_fifo t)).1).
Proof.
  intros Hi. pose proof Hi as [Hwf _]. apply inv_rx; [done | |apply Hwf].
  apply fifo_pop_back_wf. apply Hwf.
Qed.

Lemma putchar_session t c w :
  tty_wf t -> is_byte c ->
  sid (_libtty_putchar t c w).1 = sid t /\ pgrp (_libtty_putchar t c w).1 = pgrp t.
Proof.
  intros Hwf Hc. unfold _libtty_putchar. fold (input_strip (term t) c).
  set (c0 := input_strip (term t) c). assert (Hc0 : is_byte c0) by by apply input_strip_byte.
  destruct (isig_char t c0).
  { destruct (echo_frame t c0) as [(_ & _ & _ & _ & E1 & E2 & _) _]; [apply Hwf|].
    unfold _libtty_signal_pgrp. by case_if. }
  assert (He : match putchar_edit t c0 with
               | inl t' => sid t' = sid t /\ pgrp t' = pgrp t
               | inr (t', c') => sid t' = sid t /\ pgrp t' = pgrp t
               end).
  { unfold putchar_edit. case_if; [done|]. case_if.
    - cbn. pose proof (wf_tx t Hwf) as Htx. repeat case_if; try done.
      + by destruct (tx_frame_txFeedback t [94; 8] Htx) as (_ & _ & _ & _ & ? & ? & _).
      + by destruct (echo_frame t c0 Htx) as [(_ & _ & _ & _ & ? & ? & _) _].
    - destruct (input_crnl t c0); [|done]. repeat case_if; try done.
      + by destruct (rubchar_spec t Hwf) as (_ & (_ & _ & _ & _ & ? & ? & _) & _).
      + by destruct (kill_line_exit t Hwf) as (_ & (_ & _ & _ & _ & ? & ? & _) & _). }
  pose proof (putchar_edit_spec t c0 Hwf Hc0) as Hs.
  destruct (putchar_edit t c0) as [t'|[t' c']]; [done|].
  destruct Hs as (Hwf1 & _ & _ & _ & Hc1 & _). rewrite putchar_store_eq.
  destruct (stored_spec t' c' Hwf1 Hc1) as (_ & (_ & _ & _ & _ & ? & ? & _) & _).
  destruct He. cbn zeta. repeat case_if; cbn; split; congruence.
Qed.

Lemma inv_putchar t c w : tty_inv t -> is_byte c -> tty_inv (_libtty_putchar t c w).1.
Proof.
  intros [Hwf Hs] Hc. destruct (putchar_session t c w Hwf Hc) as [E1 E2].
  split; [by apply putchar_case|]. unfold session_ok in *. by rewrite E1, E2.
Qed.

Lemma inv_canon_wait ws mode st : forall t,
  tty_inv t -> Forall good_wake ws -> tty_inv (canon_wait ws t mode st).1.
Proof.
  induction ws as [|w ws IH]; intros t Hi Hw; cbn; repeat case_if; try done.
  apply Forall_cons in Hw as [Hw Hws]. apply IH; auto.
Qed.

Lemma canon_loop_wf t n : forall f byte acc,
  fifo_wf f -> let '(f', _, _) := canon_loop t n f byte acc in fifo_wf f' /\ data f' = data f.
Proof.
  induction n as [|n IH]; intros f byte acc Hf; cbn; [done|].
  pose proof (fifo_pop_back_wf f Hf) as Hf'.
  repeat case_if; try done. specialize (IH _ (fifo_pop_back f).2 (acc ++ [(fifo_pop_back f).2]) Hf').
  exact IH.
Qed.

Lemma inv_readCanon t size mode st ws :
  tty_inv t -> Forall good_wake ws -> tty_inv (_libttydisc_readCanon t size mode st ws).1.
Proof.
  intros Hi Hw. unfold _libttydisc_readCanon.
  pose proof (inv_canon_wait ws mode (bool_decide (is_Some (st_timeout st (-1)))) t Hi Hw) as Hi1.
  destruct (canon_wait _ _ _ _) as [t1 [| | |]]; cbn in Hi1; try done.
  pose proof (canon_loop_wf t1 (Z.to_nat size) (rx_fifo t1) 0xff []) as Hl.
  destruct (canon_loop _ _ _ _ _) as [[f b] l]. destruct Hl as [Hf Hd]; [apply Hi1|].
  assert (tty_inv (set_rx t1 f)) by (apply inv_rx; [done..|rewrite Hd; apply Hi1]).
  cbn. case_if; [by apply inv_refresh | done].
Qed.

Lemma inv_raw_block ws : forall t,
  tty_inv t -> Forall good_wake ws ->
  tty_inv (raw_block ws t).1 /\
  match (raw_block ws t).2 with Some (inr ws') => Forall good_wake ws' | _ => True end.
Proof.
  induction ws as [|w ws IH]; intros t Hi Hw; cbn.
  { repeat case_if; done. }
  case_if; [done|]. case_if; [done|]. apply Forall_cons in Hw as [Hw Hws].
  pose proof (Hw t Hi) as Hi'. destruct (w t) as [t1 []]; [done|]. by apply IH.
Qed.

Lemma inv_raw_loop mode vmin vtime st n : forall t len acc ws,
  tty_inv t -> Forall good_wake ws -> tty_inv (raw_loop t n len acc mode vmin vtime st ws).1.
Proof.
  induction n as [|n IH]; intros t len acc ws Hi Hw; cbn; [done|].
  pose proof (inv_pop_rx t Hi). case_if; [by apply IH|]. repeat (case_if; [done|]).
  case_if; [|done]. destruct st; [done|].
  destruct (inv_raw_block ws t Hi Hw) as [Hi1 Hw1].
  destruct (raw_block ws t) as [t1 [[|ws']|]]; try done. cbn in *.
  pose proof (inv_pop_rx t1 Hi1). by apply IH.
Qed.

Lemma inv_read t size mode st ws :
  tty_inv t -> Forall good_wake ws -> tty_inv (_libtty_read_nonblock t size mode st ws).1.
Proof.
  intros Hi Hw. unfold _libtty_read_nonblock, _libttydisc_readRaw.
  case_if; [done|]. case_if; [by apply inv_readCanon|].
  destruct st; repeat case_if; try done; by apply inv_raw_loop.
Qed.

Lemma inv_write_char t c : tty_inv t -> tty_inv (write_char t c).
Proof.
  intros Hi. pose proof Hi as [Hwf _]. unfold write_char. case_if.
  - rewrite writeOproc_eq. pose proof (wf_tx t Hwf) as Htx.
    pose proof (tx_frame_txFeedback t (oproc_bytes (term t) c) Htx) as Hf.
    apply (inv_io_frame t); [done | | by apply tx_io_frame].
    eapply tty_wf_tx_frame; [done..|]. by apply tx_wf_txFeedback.
  - apply inv_tx; [done|]. apply fifo_push_wf. apply Hwf.
Qed.

Lemma inv_write_room ws mode need : forall t,
  tty_inv t -> Forall good_wake ws ->
  tty_inv (write_room ws t mode need).1 /\
  match (write_room ws t mode need).2 with RRoom ws' => Forall good_wake ws' | _ => True end.
Proof.
  induction ws as [|w ws IH]; intros t Hi Hw; cbn.
  { repeat case_if; try done. split; [by apply inv_emit_if | done]. }
  repeat (case_if; [done|]). apply Forall_cons in Hw as [Hw Hws].
  apply IH; [|done]. apply Hw. by apply inv_emit_if.
Qed.

Lemma inv_write_loop mode need cs : forall t len ws,
  tty_inv t -> Forall good_wake ws -> tty_inv (write_loop t cs len mode need ws).1.
Proof.
  induction cs as [|c cs IH]; intros t len ws Hi Hw; cbn; [done|].
  destruct (inv_write_room ws mode need t Hi Hw) as [Hi1 Hw1].
  destruct (write_room ws t mode need) as [t1 [ws'| |]]; try done.
  apply IH; [|done]. by apply inv_write_char.
Qed.

Lemma inv_write t cs mode ws :
  tty_inv t -> Forall good_wake ws -> tty_inv (_libtty_write t cs mode ws).1.
Proof.
  intros Hi Hw. unfold _libtty_write. repeat (case_if; [done|]).
  match goal with |- context [write_loop t cs 0 mode ?n ws] =>
    pose proof (inv_write_loop mode n cs t 0 ws Hi Hw) as Hl;
    destruct (write_loop t cs 0 mode n ws) as [t1 [[len fin]|]] end; [|done].
  cbn in *. case_if; [by apply inv_emit_if | done].
Qed.

Lemma inv_optimize t : tty_pre t -> session_ok t -> tty_inv (termios_optimize t).
Proof.
  intros Hp Hs. split; [by apply termios_optimize_wf|].
  destruct (termios_optimize_frame t) as (_ & _ & _ & _ & E1 & E2 & _).
  unfold session_ok in *. by rewrite E1, E2.
Qed.

Lemma inv_flush t type : tty_inv t -> tty_inv (_libtty_flush t type).1.
Proof.
  intros Hi. unfold _libtty_flush. case_if; [done|]. cbn.
  set (t1 := if bool_decide _ then set_rx t _ else t).
  assert (H1 : tty_inv t1).
  { unfold t1. case_if; [|done]. apply inv_rx; [done|apply fifo_remove_all_wf|]; apply Hi. }
  set (t2 := if bool_decide _ then set_tx t1 _ else t1).
  assert (H2 : tty_inv t2).
  { unfold t2. case_if; [|done]. apply inv_tx; [done|]. apply fifo_remove_all_but_one_wf. apply H1. }
  apply inv_optimize; [apply tty_wf_pre|]; apply H2.
Qed.

Lemma inv_tcsets t x : tty_inv t -> Forall is_byte (c_cc x) -> tty_inv (tcsets t x).1.
Proof.
  intros Hi Hx. unfold tcsets. case_if; [done|]. cbn.
  set (t2 := emit_if (emit_if t _ _) _ _).
  assert (H2 : tty_inv t2) by by repeat apply inv_emit_if.
  apply inv_optimize; [|apply H2]. destruct H2 as [[] _]. by split.
Qed.

Lemma inv_drain ws : forall t,
  tty_inv t -> Forall good_wake ws -> tty_inv (_libtty_drain ws t).1.
Proof.
  induction ws as [|w ws IH]; intros t Hi Hw; cbn; case_if; try done.
  apply Forall_cons in Hw as [Hw Hws]. apply IH; auto.
Qed.

Lemma inv_release t : tty_inv t -> tty_inv (_libtty_sessionRelease t).
Proof. intros Hi. apply inv_emit_if. by apply inv_session. Qed.

Lemma sessionCheck_spec K t pid claim :
  tty_inv t ->
  tty_inv (_libtty_sessionCheck K t pid claim).1 /\
  forall s, (_libtty_sessionCheck K t pid claim).2 = Ok s ->
    0 < pid /\ getsid K pid = Some s /\
    (sid (_libtty_sessionCheck K t pid claim).1 = s /\ 0 <= s \/
     claim = true /\ sid (_libtty_sessionCheck K t pid claim).1 < 0).
Proof.
  intros Hi. unfold _libtty_sessionCheck. case_if; [done|]. destruct (getsid K pid) as [s|]; [|done].
  set (t1 := if _ && _ then _ else t).
  assert (H1 : tty_inv t1) by (unfold t1; case_if; [by apply inv_session | done]).
  bsimp. case_if; bsimp; cbn; (split; [done|]).
  - intros s'. destruct claim; [|done]. unfold pid_ret. case_if; [done|]. intros [= ->]. auto.
  - intros s'. case_if; [|done]. intros [= ->]. bsimp. subst. auto.
Qed.

Lemma inv_acquire K t pid : tty_inv t -> tty_inv (_libtty_sessionAcquire K t pid).1.
Proof.
  intros Hi. unfold _libtty_sessionAcquire.
  destruct (sessionCheck_spec K t pid true Hi) as [H1 Hs].
  destruct (_libtty_sessionCheck K t pid true) as [t1 [s|]]; cbn in *; [|done].
  destruct (Hs s eq_refl) as (Hp & _ & _). repeat (case_if; [done|]).
  destruct (getpgid K pid); [|done].
  destruct (sessionCtty K s true); cbn; [|by apply inv_emit].
  bsimp. unfold _libtty_sessionClaim. case_if; bsimp; cbn;
    (apply inv_session; [by repeat first [apply inv_session | apply inv_emit]; try lia|]; cbn in *; lia).
Qed.

Lemma inv_ctty K t pid cmd : tty_inv t -> tty_inv (_libtty_cttyIoctl K t pid cmd).1.1.
Proof.
  intros Hi. destruct (sessionCheck_spec K t pid false Hi) as [H1 Hs].
  assert (Ha := inv_acquire K t pid Hi).
  destruct cmd; cbn; try done.
  - by destruct (_libtty_sessionCheck K t pid false) as [t1 [s|]].
  - destruct pgid; [|done]. case_if; [done|].
    destruct (_libtty_sessionCheck K t pid false) as [t1 [s|]]; [|done]. case_if; [done|]. cbn in *.
    destruct (Hs s eq_refl) as (_ & _ & [[? ?]|[? _]]); [|done]. apply inv_session; [done|]. lia.
  - destruct (_libtty_sessionCheck K t pid false) as [t1 [s|]]; [|done]. case_if; [done|].
    by apply inv_release.
  - by destruct (_libtty_sessionCheck K t pid false) as [t1 [s|]].
Qed.

Lemma inv_ioctl K t pid cmd ws :
  tty_inv t -> req_ok cmd -> Forall good_wake ws -> tty_inv (_libtty_ioctl K t pid cmd ws).1.
Proof.
  intros Hi Hr Hw. pose proof (inv_ctty K t pid cmd Hi) as Hc.
  destruct cmd; cbn [_libtty_ioctl]; cbn in Hr; try done;
    try (destruct (_libtty_cttyIoctl K t pid _) as [[t1 r] o]; done).
  - apply inv_signal. by destruct Hi as [[] ?]; split; [split|].
  - pose proof (inv_drain ws t Hi Hw) as Hd. by destruct (_libtty_drain ws t) as [t1 []].
  - by apply inv_flush.
  - by apply inv_tcsets.
  - by apply inv_tcsets.
  - by apply inv_tcsets.
  - by case_if.
  - case_if; [done|]. case_if; [done|]. by apply inv_emit.
Qed.

Lemma inv_locked {A} (op : tty -> tty * A) t :
  tty_inv t -> (forall t, tty_inv t -> tty_inv (op t).1) -> tty_inv (locked op t).1.
Proof.
  intros Hi Hop. unfold locked. specialize (Hop _ (inv_emit t EvLock Hi)).
  destruct (op (emit t EvLock)). by apply inv_emit.
Qed.

Lemma inv_step t t' : tty_inv t -> tty_step t t' -> tty_inv t'.
Proof.
  intros Hi Hs. destruct Hs.
  - by apply inv_putchar.
  - unfold _libtty_getchar, _libtty_popchar, _libtty_wake_writer. cbn.
    assert (tty_inv (set_tx t (fifo_pop_back (tx_fifo t)).1)).
    { apply inv_tx; [done|]. apply fifo_pop_back_wf. apply Hi. }
    repeat case_if; try done. by apply inv_emit.
  - apply inv_locked; [done|]. intros. by apply inv_read.
  - apply inv_locked; [done|]. intros. by apply inv_write.
  - apply inv_locked; [done|]. intros. by apply inv_ioctl.
  - unfold libtty_acquire. apply (inv_locked (fun t => (_libtty_acquire K t pid oflags, tt))); [done|].
    intros. cbn. unfold _libtty_acquire. case_if; [by apply inv_acquire | done].
  - by apply inv_release, inv_signal.
  - destruct Hi as [[] ?]. by split; [split|].
  - by apply inv_locked.
  - apply inv_locked; [done|]. intros. cbn. by repeat apply inv_emit; apply inv_flags.
Qed.

Lemma inv_reachable t0 t : tty_inv t0 -> reachable t0 t -> tty_inv t.
Proof. intros Hi Hr. induction Hr; [done|]. eauto using inv_step. Qed.

End Preserve.

(** ** Properties *)

Section Properties.
Context `{AbiLaws}.

(** C3: every state that the library's entry points reach from an initialised
    tty, in any order and with any interleaving of other such operations during
    the waits, is well formed, and an unclaimed terminal has no foreground process
    group. *)
Theorem tty_invariant env cbs bufsize speed lock_given t0 t :
  0 <= bufsize < 2 ^ 32 ->
  (forall d, ie_tx env = Some d -> zlen d = bufsize) ->
  (forall d, ie_rx env = Some d -> zlen d = bufsize /\ Forall is_byte d) ->
  ir_tty (libtty_init env cbs bufsize speed lock_given) = Some t0 ->
  reachable t0 t -> tty_inv t.
Proof.
  intros Hb Htx Hrx Hi Hr. apply (inv_reachable t0); [|done].
  pose proof (libtty_init_core env cbs bufsize speed lock_given Hb Htx Hrx) as Hc.
  cbn zeta in Hc. rewrite Hi in Hc. destruct Hc as (_ & _ & Hwf & _ & _ & _ & _ & _ & _ & _ & _ & Hp).
  split; [done|]. by intros _.
Qed.

(** The owner is alive. *)
Definition owner_alive (K : kernel) (t : tty) : Prop :=
  0 <= sid t /\ procExists K (sid t) 0 (sid t) true <> 0.

Lemma sessionCheck_alive K t pid claim s :
  owner_alive K t -> 0 < pid -> getsid K pid = Some s ->
  _libtty_sessionCheck K t pid claim = (t, if sid t =? s then Ok s else Err ENOTTY).
Proof.
  intros [Hs Ha] Hp Hg. unfold _libtty_sessionCheck. rewrite Hg.
  destruct (Z.leb_spec pid 0); [lia|]. destruct (Z.leb_spec 0 (sid t)); [|lia].
  destruct (Z.eqb_spec (procExists K (sid t) 0 (sid t) true) 0); [done|].
  cbn. destruct (Z.ltb_spec (sid t) 0); [lia|done].
Qed.

Lemma sessionCheck_foreign K t pid claim :
  owner_alive K t -> pid <= 0 \/ getsid K pid <> Some (sid t) ->
  _libtty_sessionCheck K t pid claim = (t, Err ENOTTY).
Proof.
  intros Ho [Hp|Hg].
  - unfold _libtty_sessionCheck. by destruct (Z.leb_spec pid 0); [|lia].
  - destruct (Z.le_gt_cases pid 0).
    { unfold _libtty_sessionCheck. by destruct (Z.leb_spec pid 0); [|lia]. }
    destruct (getsid K pid) as [s|] eqn:E.
    + rewrite (sessionCheck_alive K t pid claim s) by (done || lia).
      destruct (Z.eqb_spec (sid t) s); [congruence|done].
    + unfold _libtty_sessionCheck. by rewrite E; destruct (Z.leb_spec pid 0); [lia|].
Qed.

(** C34: while the session that owns the terminal has a living leader, a process
    of another session (or an internal caller, with pid 0) can neither observe
    nor change the controlling-terminal state: all five requests, and opening
    the terminal, fail with no answer and no state change. *)
Theorem ctty_isolation K t pid cmd wakes :
  owner_alive K t -> pid <= 0 \/ getsid K pid <> Some (sid t) ->
  cmd ∈ [TIOCGPGRP; TIOCNOTTY; TIOCSCTTY; TIOCGSID] \/ (exists g, cmd = TIOCSPGRP g) ->
  (exists e, _libtty_ioctl K t pid cmd wakes = (t, Ret (Err e, OutNone))) /\
  forall oflags, _libtty_acquire K t pid oflags = t.
Proof.
  intros Ho Hf Hcmd. pose proof (sessionCheck_foreign K t pid) as Hc.
  split.
  - destruct Hcmd as [Hcmd|[g ->]].
    + repeat (apply elem_of_cons in Hcmd as [->|Hcmd]); [..|by apply elem_of_nil in Hcmd];
        cbn; unfold _libtty_sessionAcquire; rewrite Hc by done; eauto.
    + destruct g as [g|]; cbn; [|eauto]. case_if; [eauto|]. rewrite Hc by done. eauto.
  - intros oflags. unfold _libtty_acquire, _libtty_sessionAcquire. rewrite Hc by done. by case_if.
Qed.

(** What the owner's session may do. *)
Section Owner.
Variables (K : kernel) (t : tty) (pid : Z) (wakes : list wake).
Hypotheses (Ho : owner_alive K t) (Hp : 0 < pid) (Hg : getsid K pid = Some (sid t)).

Lemma sessionCheck_owner claim : _libtty_sessionCheck K t pid claim = (t, Ok (sid t)).
Proof. rewrite (sessionCheck_alive K t pid claim (sid t)) by done. by rewrite Z.eqb_refl. Qed.

Lemma ioctl_gsid : _libtty_ioctl K t pid TIOCGSID wakes = (t, Ret (Ok 0, OutInt (sid t))).
Proof. cbn. by rewrite sessionCheck_owner. Qed.

Lemma ioctl_gpgrp : _libtty_ioctl K t pid TIOCGPGRP wakes = (t, Ret (Ok 0, OutInt (pgrp t))).
Proof. cbn. by rewrite sessionCheck_owner. Qed.

Lemma ioctl_spgrp grp :
  0 < grp -> procExists K 0 grp (sid t) false = 1 ->
  _libtty_ioctl K t pid (TIOCSPGRP (Some grp)) wakes =
  (set_session t (sid t) grp, Ret (Ok 0, OutNone)).
Proof.
  intros Hgrp Hok. cbn. destruct (Z.leb_spec grp 0); [lia|].
  by rewrite sessionCheck_owner, Hok.
Qed.

Lemma ioctl_notty :
  sid t = pid ->
  _libtty_ioctl K t pid TIOCNOTTY wakes =
  (emit (set_session t (-1) (-1)) (EvSessionCtty pid false), Ret (Ok 0, OutNone)).
Proof.
  intros E. cbn. rewrite sessionCheck_owner, E, Z.eqb_refl. cbn.
  unfold _libtty_sessionRelease. rewrite E. by destruct (Z.leb_spec 0 pid); [|lia].
Qed.

End Owner.

(** A session leader takes a free terminal. *)
Lemma ioctl_sctty_free K t pid pg wakes :
  0 < pid -> getsid K pid = Some pid -> getpgid K pid = Ok pg -> is_ok (sessionCtty K pid true) = true ->
  sid t < 0 \/ procExists K (sid t) 0 (sid t) true = 0 ->
  exists te, _libtty_ioctl K t pid TIOCSCTTY wakes = (set_session te pid pg, Ret (Ok 0, OutNone)) /\
    term te = term t /\ tx_fifo te = tx_fifo t.
Proof.
  intros Hp Hg Hpg Hsc Hfree.
  set (tf := if (0 <=? sid t) && (procExists K (sid t) 0 (sid t) true =? 0)
             then set_session t (-1) (-1) else t).
  assert (Hneg : sid tf < 0).
  { unfold tf. destruct Hfree as [Hn|Hn].
    - destruct (Z.leb_spec 0 (sid t)); [lia|done].
    - rewrite Hn. destruct (Z.leb_spec 0 (sid t)); cbn; lia. }
  exists (set_session (emit tf (EvSessionCtty pid true)) pid (pgrp tf)).
  split; [|unfold tf; by case_if].
  cbn. unfold _libtty_sessionAcquire, _libtty_sessionCheck. rewrite Hg.
  destruct (Z.leb_spec pid 0); [lia|]. fold tf. destruct (Z.ltb_spec (sid tf) 0); [|lia].
  unfold pid_ret. destruct (Z.ltb_spec pid 0); [lia|]. rewrite Z.eqb_refl. cbn.
  destruct (Z.eqb_spec (sid tf) pid); [lia|]. rewrite Hpg.
  destruct (sessionCtty K pid true); [|done]. unfold _libtty_sessionClaim. cbn.
  destruct (Z.ltb_spec (sid tf) 0); [done|lia].
Qed.

(** The INTR character signals the foreground group. *)
Lemma putchar_intr t c w :
  fifo_wf (tx_fifo t) -> 0 < pgrp t -> input_strip (term t) c = c ->
  CMP_L (term t) ISIG = true -> CMP_CC (term t) VINTR c = true ->
  last (evs (_libtty_putchar t c w).1) = Some (EvKill (- pgrp t) SIGINT).
Proof.
  intros Htx Hpg Hstrip Hisig Hintr. unfold _libtty_putchar. fold (input_strip (term t) c).
  rewrite Hstrip. unfold isig_char. rewrite Hisig, Hintr. cbn.
  destruct (echo_frame t c Htx) as [(_ & _ & _ & _ & _ & Epg & _) _].
  unfold _libtty_signal_pgrp. rewrite Epg. destruct (Z.ltb_spec 0 (pgrp t)); [|lia].
  cbn. by rewrite last_snoc.
Qed.

(** a session leader that requests an unclaimed terminal (or one whose
    owner died) gets it, with its own group in the foreground. From then on, as
    long as the leader lives, every process of the session reads back the session
    and the group, moves the foreground to a group of the session and reads
    it back, the INTR character then signals exactly that group, and the leader
    gives the terminal up with TIOCNOTTY. *)
Theorem session_life_cycle K t pid pg member grp wakes w c :
  tty_wf t ->
  0 < pid -> getsid K pid = Some pid -> getpgid K pid = Ok pg -> is_ok (sessionCtty K pid true) = true ->
  sid t < 0 \/ procExists K (sid t) 0 (sid t) true = 0 ->
  procExists K pid 0 pid true <> 0 ->
  0 < member -> getsid K member = Some pid ->
  0 < grp -> procExists K 0 grp pid false = 1 ->
  is_byte c -> input_strip (term t) c = c -> CMP_L (term t) ISIG = true -> CMP_CC (term t) VINTR c = true ->
  let t1 := (_libtty_ioctl K t pid TIOCSCTTY wakes).1 in
  let t2 := (_libtty_ioctl K t1 member (TIOCSPGRP (Some grp)) wakes).1 in
  let t3 := (_libtty_putchar t2 c w).1 in
  let t4 := (_libtty_ioctl K t2 pid TIOCNOTTY wakes).1 in
  (_libtty_ioctl K t pid TIOCSCTTY wakes).2 = Ret (Ok 0, OutNone) /\
  _libtty_ioctl K t1 member TIOCGSID wakes = (t1, Ret (Ok 0, OutInt pid)) /\
  _libtty_ioctl K t1 member TIOCGPGRP wakes = (t1, Ret (Ok 0, OutInt pg)) /\
  _libtty_ioctl K t2 member TIOCGPGRP wakes = (t2, Ret (Ok 0, OutInt grp)) /\
  last (evs t3) = Some (EvKill (- grp) SIGINT) /\
  (_libtty_ioctl K t2 pid TIOCNOTTY wakes).2 = Ret (Ok 0, OutNone) /\
  sid t4 = -1 /\ pgrp t4 = -1 /\ last (evs t4) = Some (EvSessionCtty pid false).
Proof.
  intros Hwf Hp Hg Hpg Hsc Hfree Halive Hm Hgm Hgrp Hgok Hc Hstrip Hisig Hintr. cbn zeta.
  destruct (ioctl_sctty_free K t pid pg wakes) as (te & -> & Hterm & Htx); [done..|]. cbn [fst snd].
  set (t1 := set_session te pid pg).
  assert (Ho1 : owner_alive K t1) by (split; [cbn; lia | exact Halive]).
  rewrite (ioctl_spgrp K t1 member wakes Ho1 Hm Hgm grp Hgrp Hgok). cbn [fst].
  set (t2 := set_session t1 (sid t1) grp).
  assert (Ho2 : owner_alive K t2) by (split; [cbn; lia | exact Halive]).
  rewrite (ioctl_gsid K t1 member), (ioctl_gpgrp K t1 member), (ioctl_gpgrp K t2 member),
    (ioctl_notty K t2 pid) by done.
  assert (last (evs (_libtty_putchar t2 c w).1) = Some (EvKill (- grp) SIGINT)).
  { apply (putchar_intr t2); unfold t2, t1; cbn; rewrite ?Hterm, ?Htx; try done. apply Hwf. }
  split_and!; try done. cbn. by rewrite last_snoc.
Qed.

(** The supported part of a termios value, as it is stored. *)
Definition supported (x : termios) : termios :=
  mk_termios (c_iflag x &&& TTYSUP_IFLAG) (c_oflag x &&& TTYSUP_OFLAG) (c_cflag x)
    (c_lflag x &&& TTYSUP_LFLAG) (c_cc x) (c_ospeed x) (c_ospeed x).

(** setting attributes. Different speeds are refused with nothing changed;
    otherwise TCGETS reads back exactly the supported part of what was set, the
    driver is told the new speed and control flags when they changed and only
    then, buffered data is kept, and the break characters and the
    line-available flag agree with the new attributes. *)
Theorem tcsets_tcgets K t x pid cmd wakes :
  tty_inv t -> Forall is_byte (c_cc x) -> cmd ∈ [TCSETS x; TCSETSW x; TCSETSF x] ->
  let t' := (_libtty_ioctl K t pid cmd wakes).1 in
  if (c_ispeed x =? 0) || (c_ispeed x =? c_ospeed x) then
    (_libtty_ioctl K t pid cmd wakes).2 = Ret (Ok 0, OutNone) /\
    _libtty_ioctl K t' pid TCGETS wakes = (t', Ret (Ok 0, OutTermios (supported x))) /\
    evs t' = evs t ++
      (if negb (c_ospeed x =? c_ospeed (term t)) && has_set_baudrate (cb t)
       then [EvSetBaud (c_ospeed x)] else []) ++
      (if negb (c_cflag x =? c_cflag (term t)) && has_set_cflag (cb t)
       then [EvSetCflag (c_cflag x)] else []) /\
    rx_fifo t' = rx_fifo t /\ tx_fifo t' = tx_fifo t /\ tty_inv t' /\ havebreak_ok t'
  else _libtty_ioctl K t pid cmd wakes = (t, Ret (Err EINVAL, OutNone)).
Proof.
  intros Hi Hx Hcmd t'.
  assert (E : _libtty_ioctl K t pid cmd wakes = ((tcsets t x).1, Ret ((tcsets t x).2, OutNone))).
  { by repeat (apply elem_of_cons in Hcmd as [->|Hcmd]); [..|apply elem_of_nil in Hcmd]. }
  unfold t'. rewrite E. clear Hcmd E t'. pose proof (inv_tcsets t x Hi Hx) as Hi'. cbn [fst snd].
  assert (Esp : ((if c_ispeed x =? 0 then c_ospeed x else c_ispeed x) =? c_ospeed x) =
                (c_ispeed x =? 0) || (c_ispeed x =? c_ospeed x)).
  { destruct (c_ispeed x =? 0); [apply Z.eqb_refl | done]. }
  unfold tcsets in *. destruct ((c_ispeed x =? 0) || _) eqn:Eok; rewrite Esp in *; cbn [negb] in *; [|done].
  cbn [fst snd] in *.
  set (t2 := set_term _ _) in *.
  assert (Et : term t2 = supported x).
  { unfold t2, supported. cbn. repeat f_equal. by apply Z.eqb_eq in Esp. }
  destruct (termios_optimize_frame t2) as (F1 & F2 & F3 & F4 & F5 & F6 & F7 & F8).
  assert (Hp : tty_pre t2).
  { unfold t2. match goal with |- tty_pre (set_term ?u _) => assert (Hu : tty_inv u) by
      (by repeat apply inv_emit_if) end. destruct Hu as [[] _]. by split. }
  split_and!.
  - done.
  - cbn. by rewrite F2, Et.
  - rewrite F8. unfold t2, emit_if. cbn. destruct (negb (c_ospeed x =? _) && _); cbn; case_if; cbn;
      rewrite <- ?app_assoc, ?app_nil_r; done.
  - rewrite F3. unfold t2, emit_if. by repeat case_if.
  - rewrite F4. unfold t2, emit_if. by repeat case_if.
  - done.
  - by apply termios_optimize_wf.
Qed.

End Properties.

(** ** Concrete instances *)

(** Session 10 with leader 10 and member 11, and an unrelated process 20. *)
Definition demo_kernel : kernel :=
  mk_kernel (fun pid => if pid <? 20 then Some 10 else Some pid) (fun _ _ _ _ => 1)
    (fun pid => Ok pid) (fun _ _ => Ok 0) 0.

Lemma tty_invariant_witness : tty_inv (_libtty_putchar (demo_tty 8) 10 true).1.
Proof.
  apply (tty_invariant (demo_env 8) demo_cb 8 115200 false (demo_tty 8)).
  - lia.
  - intros d [= <-]. reflexivity.
  - intros d [= <-]. split; [reflexivity|]. repeat (apply Forall_cons_2; [unfold is_byte; lia|]).
    apply Forall_nil_2.
  - apply (demo_tty_init 8). set_solver.
  - eapply ReachStep; [apply ReachInit | apply StPutchar; unfold is_byte; lia].
Defined.

Lemma ctty_isolation_witness :
  exists e, _libtty_ioctl demo_kernel (set_session (demo_tty 8) 10 10) 20 TIOCSCTTY [] =
    (set_session (demo_tty 8) 10 10, Ret (Err e, OutNone)).
Proof.
  refine (proj1 (ctty_isolation demo_kernel (set_session (demo_tty 8) 10 10) 20 TIOCSCTTY [] _ _ _)).
  - split; cbn; lia.
  - right. cbn. congruence.
  - left. set_solver.
Defined.

Lemma session_life_cycle_witness :
  let t1 := (_libtty_ioctl demo_kernel (demo_tty 8) 10 TIOCSCTTY []).1 in
  _libtty_ioctl demo_kernel t1 11 TIOCGSID [] = (t1, Ret (Ok 0, OutInt 10)).
Proof.
  destruct (demo_tty_wf 8) as [Hw _]; [set_solver|].
  refine (proj1 (proj2 (session_life_cycle demo_kernel (demo_tty 8) 10 10 11 12 [] true 3 Hw _ _ _ _ _ _ _ _ _ _ _ _ _ _)));
    try (vm_compute; reflexivity); try (cbn; lia); try (unfold is_byte; lia).
Defined.

Lemma tcsets_tcgets_witness :
  let x := mk_termios 0 0 0 0 (c_cc (term (demo_tty 8))) 0 9600 in
  let t' := (_libtty_ioctl demo_kernel (demo_tty 8) 10 (TCSETS x) []).1 in
  _libtty_ioctl demo_kernel t' 10 TCGETS [] =
    (t', Ret (Ok 0, OutTermios (mk_termios 0 0 0 0 (c_cc x) 9600 9600))).
Proof.
  intros x t'. destruct (demo_tty_wf 8) as [Hw _]; [set_solver|].
  assert (Hi : tty_inv (demo_tty 8)) by (split; [exact Hw | by intros _]).
  pose proof (tcsets_tcgets demo_kernel (demo_tty 8) x 10 (TCSETS x) [] Hi (wf_cc_bytes _ Hw)) as Ht.
  destruct Ht as (_ & Ht & _); [set_solver | exact Ht].
Defined.

End TtySession.
