(* ===== verification/Rmap.v ===== *)
(** * RMAP packets over SpaceWire ([src/spacewire/librmap/rmap.c], [rmap.h])

    Buffers are lists of bytes of the length the caller gave; an access outside
    a buffer is [None]. The layout of a command is [cmd_bytes]; [decode_cmd] and
    [encode_reply] are the target's side of the protocol (ECSS-E-ST-50-52C), used
    to state the round trips. *)

From S2P Require Import Prelude.

Module Rmap.

Definition RMAP_MIN_HEADER_SIZE : Z := 15.
Definition RMAP_MIN_READ_REPLY_SIZE : Z := 12.
Definition RMAP_MIN_REPLY_SIZE : Z := 8.
Definition RMAP_PROTOCOL_ID : Z := 0x01.
Definition RMAP_MAX_DATA_LEN : Z := 0x00ffffff.

Definition INSTR_PACKET_TYPE_MASK : Z := 0x3 <<< 6.
Definition INSTR_PACKET_TYPE_CMD : Z := 0x1 <<< 6.
Definition INSTR_PACKET_TYPE_REPLY : Z := 0x0 <<< 6.
Definition INSTR_CMD_WRITE : Z := 1 <<< 5.
Definition INSTR_CMD_VERIFY : Z := 1 <<< 4.
Definition INSTR_CMD_REPLY_REQ : Z := 1 <<< 3.
Definition INSTR_CMD_INC_ADDR : Z := 1 <<< 2.

Inductive rmap_op_t := rmap_write | rmap_read | rmap_rmw.

(** [rmap_params_t]; a path pointer with its length is the list of its bytes. *)
Record rmap_params_t := mk_params {
  targetLogicalAddr : Z; initiatorLogicalAddr : Z; key : Z; transactionId : Z;
  extendedAddr : Z; memoryAddr : Z;
  targetPath : list Z; replyPath : list Z;
  verifyData : bool; requireAck : bool; incrementAddr : bool
}.

(** [rmap_reply_t]; [r_data] is the offset of the payload in the packet. *)
Record rmap_reply_t := mk_reply {
  r_initiatorLogicalAddr : Z; r_targetLogicalAddr : Z; r_status : Z; r_transactionId : Z;
  r_isReadReply : bool; r_dataLen : Z; r_data : option Z
}.

(** ** Building commands *)

(** The header buffer and [offs]. [put] is [header[offs++] = v]. *)
Definition out := (list Z * Z)%type.
Definition put (v : Z) (o : out) : option out :=
  let '(h, offs) := o in
  if (0 <=? offs) && (offs <? zlen h) then Some (arr_set h offs v, offs + 1) else None.

(** [memcpy] / [memset] of the given bytes at [offs], and the step of [offs]. *)
Fixpoint put_all (l : list Z) (o : out) : option out :=
  match l with
  | [] => Some o
  | v :: l => o ← put v o; put_all l o
  end.

Definition op_is (a b : rmap_op_t) : bool :=
  match a, b with
  | rmap_write, rmap_write | rmap_read, rmap_read | rmap_rmw, rmap_rmw => true
  | _, _ => false
  end.

Definition cmd_instruction (p : rmap_params_t) (opType : rmap_op_t) : Z :=
  let i := INSTR_PACKET_TYPE_CMD in
  let i := i ||| (if op_is opType rmap_write then INSTR_CMD_WRITE else 0) in
  let i := i ||| (if op_is opType rmap_rmw || verifyData p then INSTR_CMD_VERIFY else 0) in
  let i := i ||| (if requireAck p then INSTR_CMD_REPLY_REQ else 0) in
  let i := i ||| (if incrementAddr p then INSTR_CMD_INC_ADDR else 0) in
  u8 (i ||| ((zlen (replyPath p) + 3) / 4)).

Definition zeroPad (p : rmap_params_t) : Z := (4 - zlen (replyPath p) mod 4) mod 4.

(** [buildCmd]: the buffer after the call and the result; [None] when the code
    writes outside [header]. *)
Definition buildCmd (p : rmap_params_t) (header : list Z) (headerLen dataLen : Z)
    (opType : rmap_op_t) : option (list Z * cres Z) :=
  if (12 <? zlen (replyPath p)) || (RMAP_MAX_DATA_LEN <? dataLen) then Some (header, Err EINVAL)
  else
    let instruction := cmd_instruction p opType in
    if headerLen <? RMAP_MIN_HEADER_SIZE + zeroPad p + zlen (replyPath p)
    then Some (header, Err ENOMEM)
    else
      o ← put_all (targetPath p) (header, 0);
      o ← put (targetLogicalAddr p) o;
      o ← put RMAP_PROTOCOL_ID o;
      o ← put instruction o;
      o ← put (key p) o;
      o ← put_all (replicate (Z.to_nat (zeroPad p)) 0) o;
      o ← put_all (replyPath p) o;
      o ← put (initiatorLogicalAddr p) o;
      o ← put ((transactionId p >>> 8) &&& 0xff) o;
      o ← put (transactionId p &&& 0xff) o;
      o ← put (extendedAddr p) o;
      o ← put ((memoryAddr p >>> 24) &&& 0xff) o;
      o ← put ((memoryAddr p >>> 16) &&& 0xff) o;
      o ← put ((memoryAddr p >>> 8) &&& 0xff) o;
      o ← put (memoryAddr p &&& 0xff) o;
      o ← put ((dataLen >>> 16) &&& 0xff) o;
      o ← put ((dataLen >>> 8) &&& 0xff) o;
      o ← put (dataLen &&& 0xff) o;
      Some (o.1, Ok o.2).

Definition rmap_buildWriteCmd p header headerLen dataLen :=
  buildCmd p header headerLen dataLen rmap_write.

Definition rmap_buildReadCmd p header headerLen readLen :=
  if negb (requireAck p) || verifyData p then Some (header, Err EINVAL)
  else buildCmd p header headerLen readLen rmap_read.

Definition rmap_buildReadModifyWriteCmd p header headerLen dataLen :=
  if negb (dataLen =? 0x00) && negb (dataLen =? 0x02) && negb (dataLen =? 0x04) &&
     negb (dataLen =? 0x06) && negb (dataLen =? 0x08) then Some (header, Err EINVAL)
  else if negb (requireAck p) || negb (incrementAddr p) then Some (header, Err EINVAL)
  else buildCmd p header headerLen dataLen rmap_rmw.

(** ** Parsing replies *)

(** [rmap_parseReply]: [reply] is filled in field by field, also before an error
    is found. [None] when the code reads outside [packet]. *)
Definition rmap_parseReply (packet : list Z) (packetLen : Z) (reply : rmap_reply_t)
    : option (rmap_reply_t * cres Z) :=
  if packetLen <? RMAP_MIN_REPLY_SIZE then Some (reply, Err EINVAL)
  else
    ila ← buf_get packet 0;
    let reply := mk_reply ila (r_targetLogicalAddr reply) (r_status reply)
                   (r_transactionId reply) (r_isReadReply reply) (r_dataLen reply) (r_data reply) in
    proto ← buf_get packet 1;
    if negb (proto =? RMAP_PROTOCOL_ID) then Some (reply, Err EPROTO)
    else
      instruction ← buf_get packet 2;
      if negb ((instruction &&& INSTR_PACKET_TYPE_MASK) =? INSTR_PACKET_TYPE_REPLY)
      then Some (reply, Err EPROTO)
      else
        let isRead := (instruction &&& INSTR_CMD_WRITE) =? 0 in
        status ← buf_get packet 3;
        tla ← buf_get packet 4;
        th ← buf_get packet 5;
        tl ← buf_get packet 6;
        let tid := u16 (u16 (th <<< 8) ||| tl) in
        let reply := mk_reply ila tla status tid isRead (r_dataLen reply) (r_data reply) in
        if isRead then
          if packetLen <? RMAP_MIN_READ_REPLY_SIZE then Some (reply, Err EINVAL)
          else
            d2 ← buf_get packet 8;
            d1 ← buf_get packet 9;
            d0 ← buf_get packet 10;
            let len := u32 (u32 (u32 (d2 <<< 16) ||| (d1 <<< 8)) ||| d0) in
            Some (mk_reply ila tla status tid isRead len (Some (11 + 1)), Ok (11 + 1))
        else Some (mk_reply ila tla status tid isRead 0 None, Ok (7 + 1)).

(** ** Specification *)

(** The bytes of a command header. *)
Definition cmd_bytes (p : rmap_params_t) (dataLen : Z) (opType : rmap_op_t) : list Z :=
  targetPath p ++ [targetLogicalAddr p; RMAP_PROTOCOL_ID; cmd_instruction p opType; key p] ++
  replicate (Z.to_nat (zeroPad p)) 0 ++ replyPath p ++
  [initiatorLogicalAddr p; (transactionId p >>> 8) &&& 0xff; transactionId p &&& 0xff;
   extendedAddr p; (memoryAddr p >>> 24) &&& 0xff; (memoryAddr p >>> 16) &&& 0xff;
   (memoryAddr p >>> 8) &&& 0xff; memoryAddr p &&& 0xff;
   (dataLen >>> 16) &&& 0xff; (dataLen >>> 8) &&& 0xff; dataLen &&& 0xff].

(** A big-endian number. *)
Definition be (l : list Z) : Z := fold_left (fun a b => a * 256 + b) l 0.

(** What the target reads from a command stripped of its path: target address,
    instruction, key, reply address field, initiator, transaction, extended
    address, memory address, data length. *)
Definition decode_cmd (l : list Z) : option (Z * Z * Z * list Z * Z * Z * Z * Z * Z) :=
  match l with
  | tla :: proto :: instr :: k :: rest =>
      if negb (proto =? RMAP_PROTOCOL_ID) then None
      else
        let n := Z.to_nat (4 * (instr &&& 0x3)) in
        match drop n rest with
        | [ila; t1; t0; ext; a3; a2; a1; a0; d2; d1; d0] =>
            Some (tla, instr, k, take n rest, ila, be [t1; t0], ext, be [a3; a2; a1; a0],
                  be [d2; d1; d0])
        | _ => None
        end
  | _ => None
  end.

(** A reply as a target sends it: [Some data] answers a read, [None] a write. *)
Definition encode_reply (ila flags status tla tid : Z) (payload : option (list Z)) (crc : Z) : list Z :=
  let write := match payload with Some _ => 0 | None => INSTR_CMD_WRITE end in
  [ila; RMAP_PROTOCOL_ID; write ||| flags; status; tla; (tid >>> 8) &&& 0xff; tid &&& 0xff] ++
  match payload with
  | None => [crc]
  | Some d => [0; (zlen d >>> 16) &&& 0xff; (zlen d >>> 8) &&& 0xff; zlen d &&& 0xff; crc] ++ d ++ [crc]
  end.

(** The parameters fit the types of [rmap_params_t]. *)
Record params_ok (p : rmap_params_t) : Prop := {
  pk_tid : 0 <= transactionId p < 2 ^ 16;
  pk_addr : 0 <= memoryAddr p < 2 ^ 32;
  pk_tpath : zlen (targetPath p) < 256;
  pk_rpath : zlen (replyPath p) < 256
}.

(** ** Lemmas *)

Lemma put_all_spec l : forall h offs,
  0 <= offs <= zlen h ->
  put_all l (h, offs) =
  if offs + zlen l <=? zlen h
  then Some (take (Z.to_nat offs) h ++ l ++ drop (Z.to_nat (offs + zlen l)) h, offs + zlen l)
  else None.
Proof.
  induction l as [|v l IH]; intros h offs Ho; cbn [put_all].
  - unfold zlen in *. cbn. rewrite Z.add_0_r, take_drop.
    by destruct (Z.leb_spec offs (Z.of_nat (length h))); [|lia].
  - unfold put. destruct (Z.leb_spec 0 offs); [|lia]. destruct (Z.ltb_spec offs (zlen h)); cbn.
    + rewrite IH by (unfold zlen, arr_set in *; rewrite length_insert; lia).
      unfold arr_set, zlen in *. rewrite length_insert. cbn [length].
      replace (offs + 1 + Z.of_nat (length l)) with (offs + Z.of_nat (S (length l))) by lia.
      destruct (Z.leb_spec (offs + Z.of_nat (S (length l))) (Z.of_nat (length h))); [|done].
      do 2 f_equal. replace (Z.to_nat (offs + 1)) with (S (Z.to_nat offs)) by lia.
      rewrite (take_S_r _ _ v) by (apply list_lookup_insert_eq; lia).
      rewrite take_insert_ge, <- app_assoc by lia. cbn. do 2 f_equal.
      rewrite drop_insert_lt by lia. done.
    + destruct (Z.leb_spec (offs + zlen (v :: l)) (zlen h)); [|done]. unfold zlen in *. cbn in *. lia.
Qed.

Lemma put_all_app l1 l2 o :
  put_all (l1 ++ l2) o = (o ← put_all l1 o; put_all l2 o).
Proof. revert o. induction l1 as [|v l IH]; intros o; cbn; [done|]. by destruct (put v o); cbn. Qed.

Lemma zeroPad_range p : 0 <= zeroPad p < 4.
Proof. unfold zeroPad. apply Z.mod_pos_bound. lia. Qed.

Lemma length_cmd_bytes p dataLen op :
  zlen (cmd_bytes p dataLen op) =
  zlen (targetPath p) + RMAP_MIN_HEADER_SIZE + zeroPad p + zlen (replyPath p).
Proof.
  unfold cmd_bytes, zlen, RMAP_MIN_HEADER_SIZE. pose proof (zeroPad_range p).
  rewrite !length_app, length_replicate. cbn. lia.
Qed.

(** The sequence of stores writes [cmd_bytes]. *)
Lemma buildCmd_stores p header headerLen dataLen op :
  buildCmd p header headerLen dataLen op =
  if (12 <? zlen (replyPath p)) || (RMAP_MAX_DATA_LEN <? dataLen) then Some (header, Err EINVAL)
  else if headerLen <? RMAP_MIN_HEADER_SIZE + zeroPad p + zlen (replyPath p)
  then Some (header, Err ENOMEM)
  else o ← put_all (cmd_bytes p dataLen op) (header, 0); Some (o.1, Ok o.2).
Proof.
  unfold buildCmd. case_if; [done|]. case_if; [done|].
  unfold cmd_bytes. rewrite put_all_app.
  destruct (put_all (targetPath p) (header, 0)) as [o|]; [|done]. cbn -[put put_all cmd_instruction zeroPad].
  cbn [put_all]. repeat (match goal with |- context [put ?v ?o] => destruct (put v o) as [?o|] end; [|done]; cbn -[put put_all zeroPad]).
rewrite put_all_app. destruct (put_all (replicate _ 0) _) as [o4|]; [|done].
  cbn -[put put_all]. rewrite put_all_app. destruct (put_all (replyPath p) _) as [o5|]; [|done].
  cbn -[put]. by repeat (match goal with |- context [put ?v ?o] => destruct (put v o) as [?o|] end;
    [|done]; cbn -[put]).
Qed.

Lemma buildCmd_spec p header dataLen op :
  buildCmd p header (zlen header) dataLen op =
  if (12 <? zlen (replyPath p)) || (RMAP_MAX_DATA_LEN <? dataLen) then Some (header, Err EINVAL)
  else if zlen header <? RMAP_MIN_HEADER_SIZE + zeroPad p + zlen (replyPath p)
  then Some (header, Err ENOMEM)
  else
    let bytes := cmd_bytes p dataLen op in
    if zlen bytes <=? zlen header
    then Some (bytes ++ drop (length bytes) header, Ok (zlen bytes))
    else None.
Proof.
  rewrite buildCmd_stores. case_if; [done|]. case_if; [done|].
  rewrite put_all_spec by (unfold zlen; lia). rewrite Z.add_0_l. cbn zeta.
  case_if; [|done]. cbn -[Z.to_nat]. unfold zlen. by rewrite Nat2Z.id.
Qed.

Lemma be_2 x : 0 <= x < 2 ^ 16 -> be [(x >>> 8) &&& 0xff; x &&& 0xff] = x.
Proof.
  intros. cbn -[Z.shiftr Z.land]. rewrite !byte_land, Z.shiftr_div_pow2 by lia. divlia.
Qed.

Lemma be_3 x : 0 <= x < 2 ^ 24 -> be [(x >>> 16) &&& 0xff; (x >>> 8) &&& 0xff; x &&& 0xff] = x.
Proof.
  intros. cbn -[Z.shiftr Z.land]. rewrite !byte_land, !Z.shiftr_div_pow2 by lia. divlia.
Qed.

Lemma be_4 x : 0 <= x < 2 ^ 32 ->
  be [(x >>> 24) &&& 0xff; (x >>> 16) &&& 0xff; (x >>> 8) &&& 0xff; x &&& 0xff] = x.
Proof.
  intros. cbn -[Z.shiftr Z.land]. rewrite !byte_land, !Z.shiftr_div_pow2 by lia. divlia.
Qed.

(** The reply-address field is a multiple of four bytes, at most twelve. *)
Lemma reply_field_words p :
  zlen (replyPath p) <= 12 ->
  zeroPad p + zlen (replyPath p) = 4 * ((zlen (replyPath p) + 3) / 4) /\
  0 <= (zlen (replyPath p) + 3) / 4 <= 3.
Proof.
  intros. unfold zeroPad. assert (0 <= zlen (replyPath p)) by (unfold zlen; lia). divlia.
Qed.

Lemma instruction_fields p op :
  zlen (replyPath p) <= 12 ->
  cmd_instruction p op &&& 0x3 = (zlen (replyPath p) + 3) / 4 /\
  cmd_instruction p op &&& INSTR_PACKET_TYPE_MASK = INSTR_PACKET_TYPE_CMD /\
  has (cmd_instruction p op) INSTR_CMD_WRITE = op_is op rmap_write /\
  has (cmd_instruction p op) INSTR_CMD_VERIFY = op_is op rmap_rmw || verifyData p /\
  has (cmd_instruction p op) INSTR_CMD_REPLY_REQ = requireAck p /\
  has (cmd_instruction p op) INSTR_CMD_INC_ADDR = incrementAddr p.
Proof.
  intros Hl. destruct (reply_field_words p Hl) as [_ Hq]. unfold cmd_instruction.
  set (q := (zlen (replyPath p) + 3) / 4) in *.
  assert (Hc : q = 0 \/ q = 1 \/ q = 2 \/ q = 3) by lia. clearbody q.
  destruct op, (verifyData p), (requireAck p), (incrementAddr p);
    destruct Hc as [-> | [-> | [-> | ->]]]; vm_compute; done.
Qed.

(** The target's view of the header that follows the path. *)
Lemma decode_cmd_bytes p dataLen op :
  params_ok p -> zlen (replyPath p) <= 12 -> 0 <= dataLen <= RMAP_MAX_DATA_LEN ->
  decode_cmd (drop (length (targetPath p)) (cmd_bytes p dataLen op)) =
  Some (targetLogicalAddr p, cmd_instruction p op, key p,
        replicate (Z.to_nat (zeroPad p)) 0 ++ replyPath p, initiatorLogicalAddr p,
        transactionId p, extendedAddr p, memoryAddr p, dataLen).
Proof.
  intros [Ht Ha _ _] Hr Hd. unfold cmd_bytes. rewrite drop_app_length.
  destruct (reply_field_words p Hr) as [Hw Hq].
  destruct (instruction_fields p op Hr) as [Hi _]. cbn -[Z.land Z.shiftr be].
  change (Z.land (cmd_instruction p op) 3) with (cmd_instruction p op &&& 0x3). rewrite Hi.
  rewrite app_assoc. set (f := replicate (Z.to_nat (zeroPad p)) 0 ++ replyPath p).
  assert (Hf : Z.to_nat (4 * ((zlen (replyPath p) + 3) / 4)) = length f).
  { unfold f. rewrite length_app, length_replicate. pose proof (zeroPad_range p). unfold zlen in *. lia. }
  rewrite Hf, drop_app_length, take_app_length.
  rewrite be_2, be_4, be_3 by (unfold RMAP_MAX_DATA_LEN in *; lia). done.
Qed.

(** ** Properties *)

(** C33: a command built in a buffer with room for the whole header is laid out
    so that the target reads back every parameter. The returned length is the
    number of bytes written, the path bytes come first, the rest of the buffer
    is untouched; the instruction byte says command, write, verify, reply and
    increment as the parameters do. *)
Theorem rmap_command_roundtrip p header dataLen op :
  params_ok p -> zlen (replyPath p) <= 12 -> 0 <= dataLen <= RMAP_MAX_DATA_LEN ->
  zlen (targetPath p) + RMAP_MIN_HEADER_SIZE + zeroPad p + zlen (replyPath p) <= zlen header ->
  exists h n instr, buildCmd p header (zlen header) dataLen op = Some (h, Ok n) /\
    n = zlen (targetPath p) + RMAP_MIN_HEADER_SIZE + zeroPad p + zlen (replyPath p) /\
    zlen h = zlen header /\ drop (Z.to_nat n) h = drop (Z.to_nat n) header /\
    take (length (targetPath p)) h = targetPath p /\
    decode_cmd (drop (length (targetPath p)) (take (Z.to_nat n) h)) =
      Some (targetLogicalAddr p, instr, key p,
            replicate (Z.to_nat (zeroPad p)) 0 ++ replyPath p, initiatorLogicalAddr p,
            transactionId p, extendedAddr p, memoryAddr p, dataLen) /\
    instr &&& INSTR_PACKET_TYPE_MASK = INSTR_PACKET_TYPE_CMD /\
    has instr INSTR_CMD_WRITE = op_is op rmap_write /\
    has instr INSTR_CMD_VERIFY = op_is op rmap_rmw || verifyData p /\
    has instr INSTR_CMD_REPLY_REQ = requireAck p /\
    has instr INSTR_CMD_INC_ADDR = incrementAddr p.
Proof.
  intros Hp Hr Hd Hroom. pose proof (length_cmd_bytes p dataLen op) as Hl.
  destruct (instruction_fields p op Hr) as (_ & Hi).
  exists (cmd_bytes p dataLen op ++ drop (length (cmd_bytes p dataLen op)) header),
    (zlen (cmd_bytes p dataLen op)), (cmd_instruction p op).
  split; [|split; [exact Hl|]].
  { rewrite buildCmd_spec. assert (0 <= zlen (targetPath p)) by (unfold zlen; lia).
    destruct (Z.ltb_spec 12 (zlen (replyPath p))); [lia|].
    destruct (Z.ltb_spec RMAP_MAX_DATA_LEN dataLen); [lia|]. cbn [orb].
    destruct (Z.ltb_spec (zlen header) (RMAP_MIN_HEADER_SIZE + zeroPad p + zlen (replyPath p))); [lia|].
    cbn zeta. by destruct (Z.leb_spec (zlen (cmd_bytes p dataLen op)) (zlen header)); [|lia]. }
  rewrite <- Hl in Hroom. unfold zlen in *. rewrite Nat2Z.id.
  split_and!; try apply Hi.
  - rewrite length_app, length_drop. lia.
  - by rewrite drop_app_length.
  - unfold cmd_bytes. by rewrite <- app_assoc, take_app_length.
  - rewrite take_app_length. by apply decode_cmd_bytes.
Qed.

(** the size check leaves out the target path. A header buffer is
    overrun exactly when the request is valid and the buffer holds the header
    without, but not with, the target path; in every other case the builder
    stays inside the buffer, and when it fails it leaves the buffer alone. *)
Theorem rmap_build_overrun p header dataLen op :
  (buildCmd p header (zlen header) dataLen op = None <->
   zlen (replyPath p) <= 12 /\ dataLen <= RMAP_MAX_DATA_LEN /\
   RMAP_MIN_HEADER_SIZE + zeroPad p + zlen (replyPath p) <= zlen header <
     zlen (targetPath p) + RMAP_MIN_HEADER_SIZE + zeroPad p + zlen (replyPath p)) /\
  (forall h e, buildCmd p header (zlen header) dataLen op = Some (h, Err e) -> h = header) /\
  (zlen (targetPath p) = 0 -> is_Some (buildCmd p header (zlen header) dataLen op)).
Proof.
  rewrite buildCmd_spec. cbn zeta. rewrite length_cmd_bytes.
  destruct (Z.ltb_spec 12 (zlen (replyPath p))); cbn [orb].
  { split_and!; [split; [done|lia] | intros h e [= -> _]; done | eauto]. }
  destruct (Z.ltb_spec RMAP_MAX_DATA_LEN dataLen).
  { split_and!; [split; [done|lia] | intros h e [= -> _]; done | eauto]. }
  case_if; bsimp.
  { split_and!; [split; [done|lia] | intros h e [= -> _]; done | eauto]. }
  case_if; bsimp.
  - split_and!; [split; [done|lia] | done | eauto].
  - split_and!; [split; [lia|done] | done | lia].
Qed.

Lemma join_16 h l : is_byte h -> is_byte l -> u16 (u16 (h <<< 8) ||| l) = h * 256 + l.
Proof.
  unfold is_byte, u16. intros. rewrite (Z.mod_small (h <<< 8)).
  - rewrite lor_shift by lia. apply Z.mod_small. lia.
  - rewrite Z.shiftl_mul_pow2 by lia. lia.
Qed.

Lemma join_24 a b c :
  is_byte a -> is_byte b -> is_byte c ->
  u32 (u32 (u32 (a <<< 16) ||| (b <<< 8)) ||| c) = a * 65536 + b * 256 + c.
Proof.
  unfold is_byte. intros.
  assert (Hb : b <<< 8 = b * 256) by (rewrite Z.shiftl_mul_pow2; lia).
  rewrite (u32_small (a <<< 16)) by (rewrite Z.shiftl_mul_pow2; lia).
  rewrite lor_shift by (rewrite ?Hb; lia). rewrite Hb.
  rewrite (u32_small (a * 2 ^ 16 + b * 256)) by lia.
  replace (a * 2 ^ 16 + b * 256) with ((a * 256 + b) <<< 8) by (rewrite Z.shiftl_mul_pow2; lia).
  rewrite lor_shift by lia. rewrite u32_small by lia. lia.
Qed.

Lemma parse_in_bounds packet reply : is_Some (rmap_parseReply packet (zlen packet) reply).
Proof.
  unfold rmap_parseReply, RMAP_MIN_REPLY_SIZE, RMAP_MIN_READ_REPLY_SIZE. case_if; [eauto|]. bsimp.
  repeat (match goal with |- context [buf_get packet ?i] =>
            destruct (buf_get_Some packet i) as [?b ->]; [lia|]; cbn -[buf_get Z.land]
          | _ => progress (case_if; [eauto|]) end; bsimp); eauto.
Qed.

Lemma reply_flags f :
  f &&& (INSTR_PACKET_TYPE_MASK ||| INSTR_CMD_WRITE) = 0 ->
  f &&& INSTR_PACKET_TYPE_MASK = 0 /\ f &&& INSTR_CMD_WRITE = 0.
Proof.
  intros Hf. rewrite Z.land_lor_distr_r in Hf. by apply Z.lor_eq_0_iff in Hf.
Qed.

(** Parsing a reply whose bytes are known. *)
Lemma parse_read ila i status tla th tl rsv d2 d1 d0 rest reply tid n :
  i &&& INSTR_PACKET_TYPE_MASK = 0 -> i &&& INSTR_CMD_WRITE = 0 ->
  u16 (u16 (th <<< 8) ||| tl) = tid ->
  u32 (u32 (u32 (d2 <<< 16) ||| (d1 <<< 8)) ||| d0) = n ->
  let packet := [ila; RMAP_PROTOCOL_ID; i; status; tla; th; tl] ++ [rsv; d2; d1; d0] ++ rest in
  RMAP_MIN_READ_REPLY_SIZE <= zlen packet ->
  rmap_parseReply packet (zlen packet) reply =
  Some (mk_reply ila tla status tid true n (Some 12), Ok 12).
Proof.
  intros H1 H2 Ht Hn packet Hl. unfold rmap_parseReply.
  unfold RMAP_MIN_READ_REPLY_SIZE, RMAP_MIN_REPLY_SIZE in *.
  destruct (Z.ltb_spec (zlen packet) 8); [lia|]. destruct (Z.ltb_spec (zlen packet) 12); [lia|].
  unfold packet. cbn [app]. buf_lit. rewrite Z.eqb_refl, H1. cbn [negb]. buf_lit.
  rewrite Ht, Hn, H2. done.
Qed.

Lemma parse_write ila i status tla th tl crc reply tid :
  i &&& INSTR_PACKET_TYPE_MASK = 0 -> i &&& INSTR_CMD_WRITE = INSTR_CMD_WRITE ->
  u16 (u16 (th <<< 8) ||| tl) = tid ->
  let packet := [ila; RMAP_PROTOCOL_ID; i; status; tla; th; tl] ++ [crc] in
  rmap_parseReply packet (zlen packet) reply =
  Some (mk_reply ila tla status tid false 0 None, Ok 8).
Proof.
  intros H1 H2 Ht packet. unfold rmap_parseReply, packet. cbn [app].
  change (zlen _ <? RMAP_MIN_REPLY_SIZE) with false. cbn iota. buf_lit.
  rewrite Z.eqb_refl, H1. cbn [negb]. buf_lit. rewrite Ht, H2. done.
Qed.

(** parsing never reads outside a packet of the stated length, whatever its
    bytes, and what a target encodes is read back: the addresses, the status, the transaction and,
    for a read, the payload, at the returned offset and of the returned length. *)
Theorem rmap_reply_roundtrip ila flags status tla tid payload crc reply :
  flags &&& (INSTR_PACKET_TYPE_MASK ||| INSTR_CMD_WRITE) = 0 ->
  0 <= tid < 2 ^ 16 -> zlen (default [] payload) <= RMAP_MAX_DATA_LEN ->
  let packet := encode_reply ila flags status tla tid payload crc in
  (forall pk, is_Some (rmap_parseReply pk (zlen pk) reply)) /\
  exists r n, rmap_parseReply packet (zlen packet) reply = Some (r, Ok n) /\
    r_initiatorLogicalAddr r = ila /\ r_targetLogicalAddr r = tla /\ r_status r = status /\
    r_transactionId r = tid /\
    r_isReadReply r = bool_decide (is_Some payload) /\
    match payload with
    | None => n = zlen packet /\ r_dataLen r = 0 /\ r_data r = None
    | Some d => n + r_dataLen r + 1 = zlen packet /\ r_data r = Some n /\
        take (Z.to_nat (r_dataLen r)) (drop (Z.to_nat n) packet) = d
    end.
Proof.
  intros Hf Htid Hlen packet. split; [intros; apply parse_in_bounds|].
  apply reply_flags in Hf as [Hf1 Hf2].
  assert (Et : u16 (u16 (((tid >>> 8) &&& 0xff) <<< 8) ||| (tid &&& 0xff)) = tid).
  { rewrite join_16; unfold is_byte; rewrite ?byte_land, ?Z.shiftr_div_pow2 by lia; divlia. }
  destruct payload as [d|].
  - change (zlen d <= RMAP_MAX_DATA_LEN) in Hlen.
    assert (Ei : rmap_parseReply packet (zlen packet) reply =
        Some (mk_reply ila tla status tid true (zlen d) (Some 12), Ok 12)).
    { unfold packet, encode_reply. rewrite Z.lor_0_l. apply parse_read; [done..| |].
      - unfold RMAP_MAX_DATA_LEN in Hlen.
        assert (0 <= zlen d) by (unfold zlen; lia).
        rewrite join_24; unfold is_byte; rewrite ?byte_land, ?Z.shiftr_div_pow2 by lia; divlia.
      - unfold zlen, RMAP_MIN_READ_REPLY_SIZE. rewrite !length_app. cbn. lia. }
    exists (mk_reply ila tla status tid true (zlen d) (Some 12)), 12. rewrite Ei.
    split_and!; [done..| | done |].
    + change (12 + zlen d + 1 = zlen packet). unfold packet, encode_reply, zlen.
      rewrite !length_app. cbn. rewrite ?length_app. cbn. lia.
    + cbn. unfold zlen. rewrite Nat2Z.id. apply take_app_length.
  - exists (mk_reply ila tla status tid false 0 None), 8. split_and!; try done.
    unfold packet, encode_reply. apply parse_write; [| | done].
    + rewrite Z.land_lor_distr_l, Hf1. done.
    + rewrite Z.land_lor_distr_l, Hf2. done.
Qed.

(** ** Concrete instances *)

(** A verified write with acknowledgement, as the library's README builds it. *)
Definition demo_params (path : list Z) : rmap_params_t :=
  mk_params 0xfe 0x67 0 1 0 0x40000000 path [1; 2; 3] true true true.

Lemma rmap_command_roundtrip_witness :
  exists h instr, buildCmd (demo_params [5]) (replicate 32 0) 32 8 rmap_write = Some (h, Ok 20) /\
    decode_cmd (drop 1 (take 20 h)) =
      Some (0xfe, instr, 0, [0; 1; 2; 3], 0x67, 1, 0, 0x40000000, 8) /\
    has instr INSTR_CMD_WRITE = true.
Proof.
  destruct (rmap_command_roundtrip (demo_params [5]) (replicate 32 0) 8 rmap_write)
    as (h & n & instr & E & En & _ & _ & _ & D & _ & W & _).
  - split; vm_compute; try done; split; done.
  - vm_compute. congruence.
  - vm_compute. split; congruence.
  - vm_compute. congruence.
  - assert (Hn : n = 20) by (rewrite En; reflexivity). rewrite Hn in E, D.
    exists h, instr. split; [exact E | split; [exact D | exact W]].
Defined.

Lemma rmap_reply_roundtrip_witness :
  exists r n, rmap_parseReply (encode_reply 0x67 1 0 0xfe 513 (Some [9; 8; 7]) 0) 16
      (mk_reply 0 0 0 0 false 0 None) = Some (r, Ok n) /\
    r_transactionId r = 513 /\ r_isReadReply r = true.
Proof.
  destruct (rmap_reply_roundtrip 0x67 1 0 0xfe 513 (Some [9; 8; 7]) 0 (mk_reply 0 0 0 0 false 0 None))
    as (_ & r & n & E & _ & _ & _ & T & R & _).
  - reflexivity.
  - lia.
  - vm_compute. congruence.
  - exists r, n. split; [exact E | split; [exact T | exact R]].
Defined.

(** An empty path leaves no room for the overrun; one byte of path with a
    minimal buffer is enough for it. *)
Example rmap_overrun_demo :
  buildCmd (mk_params 0xfe 0x67 0 1 0 0 [5] [] false true true) (replicate 15 0) 15 8 rmap_write = None.
Proof. reflexivity. Qed.

End Rmap.
