(* ===== verification/HidMouse.v ===== *)
(** * USB HID mouse ([src/tty/usbmouse/hidmouse.c], [hidmouse.h])

    The report-descriptor parser, the configuration-descriptor walk and the
    translation of input reports to mouse packets. Descriptors and reports are
    untrusted byte lists: every read of one goes through [buf_get], and a read
    outside it makes the whole operation [None]. The arrays of [hid_parser_t] are
    represented by their used prefix ([stack] with the top first). The messages
    stored in [*reason] are kept as strings. *)

From S2P Require Import Prelude.

Module HidMouse.

(** ** Constants *)

Definition HIDMOUSE_PKT_SIZE : Z := 4.
Definition HIDMOUSE_MAX_BUTTONS : Z := 8.
Definition HIDMOUSE_MAX_SPLIT : Z := 17.

Definition HID_PAGE_GENERIC_DESKTOP : Z := 0x01.
Definition HID_PAGE_BUTTON : Z := 0x09.
Definition HID_PAGE_CONSUMER : Z := 0x0c.
Definition HID_USAGE (page id : Z) : Z := u32 (page <<< 16) ||| u32 id.
Definition HID_GD_X : Z := HID_USAGE HID_PAGE_GENERIC_DESKTOP 0x30.
Definition HID_GD_Y : Z := HID_USAGE HID_PAGE_GENERIC_DESKTOP 0x31.
Definition HID_GD_WHEEL : Z := HID_USAGE HID_PAGE_GENERIC_DESKTOP 0x38.
Definition HID_CON_ACPAN : Z := HID_USAGE HID_PAGE_CONSUMER 0x238.

Definition HID_INPUT_CONSTANT : Z := 0x1.
Definition HID_INPUT_VARIABLE : Z := 0x2.
Definition HID_INPUT_RELATIVE : Z := 0x4.
Definition HID_LONG_ITEM : Z := 0xfe.
Definition HID_MAX_USAGES : Z := 16.
Definition HID_MAX_STACK : Z := 4.
Definition HID_MAX_DEPTH : Z := 16.
Definition HID_MAX_IDS : Z := 16.
Definition HID_MAX_REPORT_BITS : Z := 8192.
Definition HID_MAX_FIELD_BITS : Z := 32.

(** ** Data *)

Record field := mk_field { f_off : Z; f_size : Z; f_id : Z; f_signed : bool }.
Definition no_field : field := mk_field 0 0 0 false.

Record layout := mk_layout {
  useIds : Z; nbuttons : Z; maxReportLen : Z;
  button : list field; fx : field; fy : field; fwheel : field; fhwheel : field
}.
Definition zero_layout : layout :=
  mk_layout 0 0 0 (replicate 8 no_field) no_field no_field no_field no_field.

Record globals := mk_globals {
  usagePage : Z; logicalMin : Z; reportSize : Z; reportCount : Z; reportId : Z
}.

Record parser := mk_parser {
  g : globals; stack : list globals;
  usages : list Z; usagesOverflow : bool;
  usageMin : Z; usageMax : Z; haveMin : bool; haveMax : bool;
  depth : Z;
  ids : list (Z * Z);   (* Report ID, bits *)
  sawIdlessInput : bool; sawIdInput : bool;
  buttonsSeen : Z; absXY : bool
}.
Definition zero_parser : parser :=
  mk_parser (mk_globals 0 0 0 0 0) [] [] false 0 0 false false 0 [] false false 0 false.

Definition set_g (p : parser) x := mk_parser x (stack p) (usages p) (usagesOverflow p) (usageMin p)
  (usageMax p) (haveMin p) (haveMax p) (depth p) (ids p) (sawIdlessInput p) (sawIdInput p)
  (buttonsSeen p) (absXY p).
Definition set_stack (p : parser) x := mk_parser (g p) x (usages p) (usagesOverflow p) (usageMin p)
  (usageMax p) (haveMin p) (haveMax p) (depth p) (ids p) (sawIdlessInput p) (sawIdInput p)
  (buttonsSeen p) (absXY p).
Definition set_locals (p : parser) us ov mn mx hmn hmx := mk_parser (g p) (stack p) us ov mn mx hmn hmx
  (depth p) (ids p) (sawIdlessInput p) (sawIdInput p) (buttonsSeen p) (absXY p).
Definition set_depth (p : parser) x := mk_parser (g p) (stack p) (usages p) (usagesOverflow p)
  (usageMin p) (usageMax p) (haveMin p) (haveMax p) x (ids p) (sawIdlessInput p) (sawIdInput p)
  (buttonsSeen p) (absXY p).
Definition set_ids (p : parser) x := mk_parser (g p) (stack p) (usages p) (usagesOverflow p)
  (usageMin p) (usageMax p) (haveMin p) (haveMax p) (depth p) x (sawIdlessInput p) (sawIdInput p)
  (buttonsSeen p) (absXY p).
Definition set_saw (p : parser) a b := mk_parser (g p) (stack p) (usages p) (usagesOverflow p)
  (usageMin p) (usageMax p) (haveMin p) (haveMax p) (depth p) (ids p) a b (buttonsSeen p) (absXY p).
Definition set_seen (p : parser) b a := mk_parser (g p) (stack p) (usages p) (usagesOverflow p)
  (usageMin p) (usageMax p) (haveMin p) (haveMax p) (depth p) (ids p) (sawIdlessInput p)
  (sawIdInput p) b a.

Definition set_button (l : layout) i f := mk_layout (useIds l) (nbuttons l) (maxReportLen l)
  (<[i := f]> (button l)) (fx l) (fy l) (fwheel l) (fhwheel l).
Definition set_x (l : layout) f := mk_layout (useIds l) (nbuttons l) (maxReportLen l)
  (button l) f (fy l) (fwheel l) (fhwheel l).
Definition set_y (l : layout) f := mk_layout (useIds l) (nbuttons l) (maxReportLen l)
  (button l) (fx l) f (fwheel l) (fhwheel l).
Definition set_wheel (l : layout) f := mk_layout (useIds l) (nbuttons l) (maxReportLen l)
  (button l) (fx l) (fy l) f (fhwheel l).
Definition set_hwheel (l : layout) f := mk_layout (useIds l) (nbuttons l) (maxReportLen l)
  (button l) (fx l) (fy l) (fwheel l) f.

(** ** Items *)

(** The loop of [hid_itemUnsigned], on the data bytes from [base]. *)
Fixpoint item_loop (desc : list Z) (base : Z) (i : nat) (v : Z) : option Z :=
  match i with
  | O => Some v
  | S i => b ← buf_get desc (base + Z.of_nat i); item_loop desc base i (u32 (v <<< 8) ||| b)
  end.
Definition hid_itemUnsigned (desc : list Z) (base size : Z) : option Z :=
  item_loop desc base (Z.to_nat size) 0.

Definition hid_itemSigned (desc : list Z) (base size : Z) : option Z :=
  v ← hid_itemUnsigned desc base size;
  let v := if (0 <? size) && (size <? 4) && has v (1 <<< (size * 8 - 1))
           then v ||| lnot_w 32 ((1 <<< (size * 8)) - 1) else v in
  Some (s32 v).

Definition hid_extendedUsage (p : parser) (v size : Z) : Z :=
  if size =? 4 then v else HID_USAGE (usagePage (g p)) (v &&& 0xffff).

Definition hid_clearLocals (p : parser) : parser :=
  set_locals p [] false (usageMin p) (usageMax p) false false.

(** [hid_idBits]: the index of the entry of [id], which is added if missing;
    [None] is the NULL result. *)
Fixpoint id_index (l : list (Z * Z)) (id : Z) : option nat :=
  match l with
  | [] => None
  | e :: l => if e.1 =? id then Some O else S <$> id_index l id
  end.
Definition hid_idBits (p : parser) (id : Z) : option (parser * nat) :=
  match id_index (ids p) id with
  | Some i => Some (p, i)
  | None => if HID_MAX_IDS <=? zlen (ids p) then None
            else Some (set_ids p (ids p ++ [(id, 0)]), length (ids p))
  end.

Definition hid_fieldUsage (p : parser) (i : Z) : Z :=
  if 0 <? zlen (usages p) then
    if i <? zlen (usages p) then arr_get (usages p) i
    else if usagesOverflow p then 0 else arr_get (usages p) (zlen (usages p) - 1)
  else if haveMin p && haveMax p && (usageMin p <=? usageMax p) &&
          (i <=? u32 (usageMax p - usageMin p)) then u32 (usageMin p + i)
  else 0.

Definition hid_setField (p : parser) (off size : Z) : field :=
  mk_field (u16 off) (u8 size) (u8 (reportId (g p))) (logicalMin (g p) <? 0).

(** The body of the loop of [hid_input] for the [i]-th field. *)
Definition input_field (p : parser) (l : layout) (flags i off size : Z) : parser * layout :=
  let usage := hid_fieldUsage p i in
  if (usage >>> 16) =? HID_PAGE_BUTTON then
    let usage := usage &&& 0xffff in
    let p := if (1 <=? usage) && (usage <=? 32)
             then set_seen p (u32 (buttonsSeen p ||| (1 <<< (usage - 1)))) (absXY p) else p in
    let k := Z.to_nat (usage - 1) in
    if (1 <=? usage) && (usage <=? HIDMOUSE_MAX_BUTTONS) &&
       (f_size (default no_field (button l !! k)) =? 0)
    then (p, set_button l k (hid_setField p off size)) else (p, l)
  else if (usage =? HID_GD_X) || (usage =? HID_GD_Y) then
    if negb (has flags HID_INPUT_RELATIVE) then (set_seen p (buttonsSeen p) true, l)
    else if 2 <=? size then
      if usage =? HID_GD_X then
        (p, if f_size (fx l) =? 0 then set_x l (hid_setField p off size) else l)
      else (p, if f_size (fy l) =? 0 then set_y l (hid_setField p off size) else l)
    else (p, l)
  else if (usage =? HID_GD_WHEEL) && has flags HID_INPUT_RELATIVE && (2 <=? size) &&
          (f_size (fwheel l) =? 0)
  then (p, set_wheel l (hid_setField p off size))
  else if (usage =? HID_CON_ACPAN) && has flags HID_INPUT_RELATIVE && (2 <=? size) &&
          (f_size (fhwheel l) =? 0)
  then (p, set_hwheel l (hid_setField p off size))
  else (p, l).

(** [for (i = 0; i < count; ++i, off += size)]: [n] is [count - i]. *)
Fixpoint input_loop (n : nat) (p : parser) (l : layout) (flags i off size : Z) : parser * layout :=
  match n with
  | O => (p, l)
  | S n => let '(p, l) := input_field p l flags i off size in
           input_loop n p l flags (i + 1) (u32 (off + size)) size
  end.

(** A parser step: the new state, or the message of an [-EINVAL]. *)
Definition pstep := (parser * layout + string)%type.

Definition hid_input (p : parser) (l : layout) (flags : Z) : pstep :=
  let size := reportSize (g p) in
  let count := reportCount (g p) in
  let p := if reportId (g p) =? 0 then set_saw p true (sawIdInput p)
           else set_saw p (sawIdlessInput p) true in
  if sawIdlessInput p && sawIdInput p then inr "mixed report ids"%string
  else
    match hid_idBits p (u8 (reportId (g p))) with
    | None => inr "too many report ids"%string
    | Some (p, k) =>
        let '(id, bits) := default (0, 0) (ids p !! k) in
        if (HID_MAX_REPORT_BITS <? size) || (HID_MAX_REPORT_BITS <? count) ||
           (u32 (HID_MAX_REPORT_BITS - bits) <? u32 (size * count))
        then inr "report too long"%string
        else
          let p := set_ids p (<[k := (id, u32 (bits + u32 (size * count)))]> (ids p)) in
          if has flags HID_INPUT_CONSTANT || negb (has flags HID_INPUT_VARIABLE) ||
             (size =? 0) || (HID_MAX_FIELD_BITS <? size)
          then inl (p, l)
          else inl (input_loop (Z.to_nat count) p l flags 0 bits size)
    end.

Definition hid_main (p : parser) (l : layout) (tag v : Z) : pstep :=
  let r : pstep :=
    if tag =? 0x8 then hid_input p l v
    else if (tag =? 0x9) || (tag =? 0xb) then inl (p, l)
    else if tag =? 0xa then
      if HID_MAX_DEPTH <=? depth p then inr "collections too deep"%string
      else inl (set_depth p (depth p + 1), l)
    else if tag =? 0xc then
      if depth p =? 0 then inr "unbalanced collection"%string
      else inl (set_depth p (depth p - 1), l)
    else inr "bad main item"%string in
  match r with inl (p, l) => inl (hid_clearLocals p, l) | inr e => inr e end.

Definition hid_global (p : parser) (l : layout) (tag : Z) (desc : list Z) (base size : Z)
    : option pstep :=
  v ← hid_itemUnsigned desc base size;
  let gp := g p in
  let ret x : option pstep := Some (inl (x, l)) in
  if tag =? 0x0 then
    ret (set_g p (mk_globals (v &&& 0xffff) (logicalMin gp) (reportSize gp) (reportCount gp) (reportId gp)))
  else if tag =? 0x1 then
    m ← hid_itemSigned desc base size;
    ret (set_g p (mk_globals (usagePage gp) m (reportSize gp) (reportCount gp) (reportId gp)))
  else if tag =? 0x7 then
    ret (set_g p (mk_globals (usagePage gp) (logicalMin gp) v (reportCount gp) (reportId gp)))
  else if tag =? 0x9 then
    ret (set_g p (mk_globals (usagePage gp) (logicalMin gp) (reportSize gp) v (reportId gp)))
  else if tag =? 0x8 then
    if (v =? 0) || (0xff <? v) then Some (inr "bad report id"%string)
    else ret (set_g p (mk_globals (usagePage gp) (logicalMin gp) (reportSize gp) (reportCount gp) v))
  else if tag =? 0xa then
    if HID_MAX_STACK <=? zlen (stack p) then Some (inr "push overflow"%string)
    else ret (set_stack p (gp :: stack p))
  else if tag =? 0xb then
    match stack p with
    | [] => Some (inr "pop underflow"%string)
    | x :: s => ret (set_g (set_stack p s) x)
    end
  else ret p.

Definition hid_local (p : parser) (tag v size : Z) : parser :=
  if tag =? 0x0 then
    if zlen (usages p) <? HID_MAX_USAGES
    then set_locals p (usages p ++ [hid_extendedUsage p v size]) (usagesOverflow p)
           (usageMin p) (usageMax p) (haveMin p) (haveMax p)
    else set_locals p (usages p) true (usageMin p) (usageMax p) (haveMin p) (haveMax p)
  else if tag =? 0x1 then
    set_locals p (usages p) (usagesOverflow p) (hid_extendedUsage p v size) (usageMax p) true (haveMax p)
  else if tag =? 0x2 then
    set_locals p (usages p) (usagesOverflow p) (usageMin p) (hid_extendedUsage p v size) (haveMin p) true
  else p.

(** ** The descriptor *)

Definition dataSize (i : Z) : Z := arr_get [0; 1; 2; 4] i.

(** One short item at [pos]: the step it makes and its total size; [None] is a
    read outside the descriptor. *)
Definition parse_item (desc : list Z) (len pos prefix : Z) (p : parser) (l : layout)
    : option (pstep * Z) :=
  let size := dataSize (prefix &&& 0x3) in
  let type := (prefix >>> 2) &&& 0x3 in
  let tag := prefix >>> 4 in
  if len - pos - 1 <? size then Some (inr "truncated item"%string, 0)
  else
    r ← (if type =? 0 then
           v ← hid_itemUnsigned desc (pos + 1) size; Some (hid_main p l tag v)
         else if type =? 1 then hid_global p l tag desc (pos + 1) size
         else if type =? 2 then
           v ← hid_itemUnsigned desc (pos + 1) size; Some (inl (hid_local p tag v size, l))
         else Some (inr "reserved item"%string));
    Some (r, 1 + size).

(** A long item at [pos]: its total size, or an error. *)
Definition long_item (desc : list Z) (len pos : Z) : option (Z + string) :=
  if len - pos <? 3 then Some (inr "truncated long item"%string)
  else
    n ← buf_get desc (pos + 1);
    if len - pos - 3 <? n then Some (inr "truncated long item"%string)
    else Some (inl (3 + n)).

(** [while ((err == 0) && (pos < len))], with fuel: [None] when it runs out,
    [Some None] when the code reads outside the descriptor. *)
Fixpoint parse_loop (fuel : nat) (desc : list Z) (len pos : Z) (p : parser) (l : layout)
    : option (option pstep) :=
  if negb (pos <? len) then Some (Some (inl (p, l)))
  else match fuel with
       | O => None
       | S fuel =>
           match buf_get desc pos with
           | None => Some None
           | Some prefix =>
               if prefix =? HID_LONG_ITEM then
                 match long_item desc len pos with
                 | None => Some None
                 | Some (inr e) => Some (Some (inr e))
                 | Some (inl n) => parse_loop fuel desc len (pos + n) p l
                 end
               else
                 match parse_item desc len pos prefix p l with
                 | None => Some None
                 | Some (inr e, _) => Some (Some (inr e))
                 | Some (inl (p, l), n) => parse_loop fuel desc len (pos + n) p l
                 end
           end
       end.

(** The longest report, in bits. *)
Definition max_bits (l : list (Z * Z)) : Z := fold_left (fun m e => if m <? e.2 then e.2 else m) l 0.

(** The number of bits set among the low [n]. *)
Fixpoint count_bits (n : nat) (x : Z) : Z :=
  match n with
  | O => 0
  | S n => count_bits n x + of_bool (has x (1 <<< Z.of_nat n))
  end.

Definition finish_layout (p : parser) (l : layout) : layout :=
  let ui := if sawIdlessInput p then 0 else 1 in
  mk_layout ui (u8 (count_bits 32 (buttonsSeen p)))
    (u16 ((max_bits (ids p) + 7) / 8 + ui)) (button l) (fx l) (fy l) (fwheel l) (fhwheel l).

(** The checks after the loop: the layout, the result and [*reason]. *)
Definition finish_parse (r : pstep) : layout * cres Z * option string :=
  match r with
  | inr why => (zero_layout, Err EINVAL, Some why)
  | inl (p, l) =>
      if negb (depth p =? 0)
      then (zero_layout, Err EINVAL, Some "unbalanced collection"%string)
      else if (f_size (fx l) =? 0) || (f_size (fy l) =? 0)
      then (zero_layout, Err ENOENT,
            Some (if absXY p then "absolute X/Y" else "no relative X/Y")%string)
      else (finish_layout p l, Ok 0, None)
  end.

(** [hidmouse_parse] with the fuel it needs: one step per byte. *)
Definition hidmouse_parse (desc : list Z) (len : Z)
    : option (option (layout * cres Z * option string)) :=
  if len =? 0 then Some (Some (zero_layout, Err EINVAL, Some "empty descriptor"%string))
  else match parse_loop (Z.to_nat len) desc len 0 zero_parser zero_layout with
       | None => None
       | Some None => Some None
       | Some (Some r) => Some (Some (finish_parse r))
       end.

(** ** The configuration descriptor *)

(** The loop over the subordinate descriptors of a HID descriptor at [pos]:
    [n] bounds the iterations, [i] is the next entry. *)
Fixpoint hid_reports (n : nat) (conf : list Z) (pos dlen i cnt rlen : Z) : option Z :=
  match n with
  | O => Some rlen
  | S n =>
      if (i <? cnt) && (6 + 3 * i + 3 <=? dlen) then
        t ← buf_get conf (pos + 6 + 3 * i);
        if t =? 0x22 then
          lo ← buf_get conf (pos + 7 + 3 * i);
          hi ← buf_get conf (pos + 8 + 3 * i);
          Some (lo ||| (hi <<< 8))
        else hid_reports n conf pos dlen (i + 1) cnt rlen
      else Some rlen
  end.

(** One descriptor: [inIface], [*reportDescLen], [*maxPacket] after it. *)
Definition conf_desc (conf : list Z) (iface pos dlen : Z) (st : bool * Z * Z) : option (bool * Z * Z) :=
  let '(inIface, rlen, mp) := st in
  type ← buf_get conf (pos + 1);
  if type =? 0x04 then
    if 9 <=? dlen then
      num ← buf_get conf (pos + 2);
      if num =? iface then
        alt ← buf_get conf (pos + 3);
        Some (alt =? 0, rlen, mp)
      else Some (false, rlen, mp)
    else Some (false, rlen, mp)
  else if type =? 0x21 then
    if inIface && (6 <=? dlen) then
      cnt ← buf_get conf (pos + 5);
      rlen ← hid_reports (Z.to_nat dlen) conf pos dlen 0 cnt rlen;
      Some (inIface, rlen, mp)
    else Some st
  else if type =? 0x05 then
    if inIface && (7 <=? dlen) && (mp =? 0) then
      addr ← buf_get conf (pos + 2);
      if has addr 0x80 then
        attr ← buf_get conf (pos + 3);
        if (attr &&& 0x3) =? 0x3 then
          lo ← buf_get conf (pos + 4);
          hi ← buf_get conf (pos + 5);
          Some (inIface, rlen, (lo ||| (hi <<< 8)) &&& 0x7ff)
        else Some st
      else Some st
    else Some st
  else Some st.

(** The [while]: as in [parse_loop], [None] is lack of fuel and [Some None] a
    read outside the descriptor. *)
Fixpoint conf_loop (fuel : nat) (conf : list Z) (len iface pos : Z) (st : bool * Z * Z)
    : option (option (bool * Z * Z)) :=
  if negb (pos + 2 <=? len) then Some (Some st)
  else
    match buf_get conf pos with
    | None => Some None
    | Some dlen =>
        if (2 <=? dlen) && (dlen <=? len - pos) then
          match fuel with
          | O => None
          | S fuel =>
              match conf_desc conf iface pos dlen st with
              | None => Some None
              | Some st => conf_loop fuel conf len iface (pos + dlen) st
              end
          end
        else Some (Some st)
    end.

(** The outcome and the two output parameters. *)
Definition hidmouse_findInterface (conf : list Z) (len iface : Z)
    : option (option (cres Z * Z * Z)) :=
  match conf_loop (Z.to_nat len) conf len iface 0 (false, 0, 0) with
  | None => None
  | Some None => Some None
  | Some (Some (_, rlen, mp)) =>
      Some (Some (if negb (rlen =? 0) && negb (mp =? 0) then Ok 0 else Err ENOENT, rlen, mp))
  end.

(** ** Reports *)

(** The loop of [hid_extract]: bytes [first + n - 1] down to [first]. *)
Fixpoint extract_loop (data : list Z) (first : Z) (n : nat) (v : Z) : option Z :=
  match n with
  | O => Some v
  | S n => b ← buf_get data (first + Z.of_nat n); extract_loop data first n (u64 (v <<< 8) ||| b)
  end.

Definition hid_extract (f : field) (data : list Z) : option Z :=
  let first := f_off f / 8 in
  let last := u32 (f_off f + f_size f - 1) / 8 in
  v ← extract_loop data first (Z.to_nat (last + 1 - first)) 0;
  let v := v >>> (f_off f mod 8) in
  let v := v &&& ((1 <<< f_size f) - 1) in
  Some (if f_signed f && has v (1 <<< (f_size f - 1)) then s32 (v - (1 <<< f_size f)) else s32 v).

Definition hid_fieldIn (f : field) (id plen : Z) : bool :=
  negb (f_size f =? 0) && (f_id f =? id) && (f_off f + f_size f <=? plen * 8).

Definition hid_clamp (v lim : Z) : Z :=
  if lim <? v then lim else if v <? - lim then - lim else v.

(** One field of [hidmouse_translate]: 0 and not found, or its value. *)
Definition read_field (f : field) (id : Z) (payload : list Z) (plen : Z) : option (bool * Z) :=
  if hid_fieldIn f id plen then v ← hid_extract f payload; Some (true, v) else Some (false, 0).

(** The loop over the buttons, from the [i]-th. *)
Fixpoint read_buttons (fs : list field) (i : Z) (id : Z) (payload : list Z) (plen : Z)
    (found : bool) (buttons : Z) : option (bool * Z) :=
  match fs with
  | [] => Some (found, buttons)
  | f :: fs =>
      if hid_fieldIn f id plen then
        v ← hid_extract f payload;
        let buttons := if negb (v =? 0) then u8 (buttons ||| u8 (1 <<< i))
                       else buttons &&& u8 (lnot_w 32 (1 <<< i)) in
        read_buttons fs (i + 1) id payload plen true buttons
      else read_buttons fs (i + 1) id payload plen found buttons
  end.

(** The [do ... while] that splits the motion; the packets written from [out[n]]. *)
Fixpoint split_loop (fuel : nat) (buttons dx dy wheel outsz n : Z) : list Z :=
  match fuel with
  | O => []
  | S fuel =>
      if outsz - n <? HIDMOUSE_PKT_SIZE then []
      else
        let sx := hid_clamp dx 127 in
        let sy := hid_clamp dy 127 in
        let pkt := [buttons; u8 (s8 sx); u8 (s8 sy); u8 (s8 (if n =? 0 then wheel else 0))] in
        let dx := dx - sx in
        let dy := dy - sy in
        let n := n + HIDMOUSE_PKT_SIZE in
        if (negb (dx =? 0) || negb (dy =? 0)) && (n <? HIDMOUSE_MAX_SPLIT * HIDMOUSE_PKT_SIZE)
        then pkt ++ split_loop fuel buttons dx dy wheel outsz n
        else pkt
  end.

(** The bytes written to [out] and the latched buttons. The loop counter is
    bounded by HIDMOUSE_MAX_SPLIT, which is the fuel. *)
Definition hidmouse_translate (l : layout) (buttons : Z) (report : list Z) (outsz : Z)
    : option (list Z * Z) :=
  let len := zlen report in
  if negb (useIds l =? 0) && (len <? 1) then Some ([], buttons)
  else
    id ← (if negb (useIds l =? 0) then buf_get report 0 else Some 0);
    let payload := if negb (useIds l =? 0) then drop 1 report else report in
    let plen := zlen payload in
    '(found, buttons) ← read_buttons (button l) 0 id payload plen false buttons;
    '(foundx, dx) ← read_field (fx l) id payload plen;
    '(foundy, dy) ← read_field (fy l) id payload plen;
    '(foundw, w) ← read_field (fwheel l) id payload plen;
    if negb (found || foundx || foundy || foundw) then Some ([], buttons)
    else Some (split_loop (Z.to_nat HIDMOUSE_MAX_SPLIT) buttons dx dy (hid_clamp w 127) outsz 0, buttons).

End HidMouse.
