(* ===== verification/HidMouseCorrect.v ===== *)
(** * Correctness of the HID mouse parser and translation

    The parser stays inside an arbitrary descriptor, ends, and produces layouts
    whose fields fit the reports; field extraction is a slice of the report's
    little-endian number; the packets of one report carry its motion. *)

From S2P Require Import Prelude HidMouse.
Import HidMouse.

Module HidMouseCorrect.

(** ** Field extraction *)

(** A report as one little-endian number. *)
Fixpoint le_num (l : list Z) : Z :=
  match l with
  | [] => 0
  | b :: l => b + 256 * le_num l
  end.

(** The value of a field: [f_size] bits from bit [f_off], sign-extended when
    signed, as an [int32_t]. *)
Definition field_value (f : field) (data : list Z) : Z :=
  let v := (le_num data / 2 ^ f_off f) mod 2 ^ f_size f in
  s32 (if f_signed f && (2 ^ (f_size f - 1) <=? v) then v - 2 ^ f_size f else v).

Lemma le_num_range l : Forall is_byte l -> 0 <= le_num l < 2 ^ (8 * zlen l).
Proof.
  induction 1 as [|b l Hb Hl IH]; unfold zlen in *; cbn [le_num length]; [done|].
  replace (8 * Z.of_nat (S (length l))) with (8 + 8 * Z.of_nat (length l)) by lia.
  rewrite Z.pow_add_r by lia. unfold is_byte in *. lia.
Qed.

Lemma le_num_app l1 l2 : le_num (l1 ++ l2) = le_num l1 + 2 ^ (8 * zlen l1) * le_num l2.
Proof.
  induction l1 as [|b l IH]; cbn [app le_num].
  - unfold zlen. cbn [length]. change (2 ^ (8 * Z.of_nat 0)) with 1. lia.
  - rewrite IH. unfold zlen. cbn [length].
    replace (8 * Z.of_nat (S (length l))) with (8 + 8 * Z.of_nat (length l)) by lia.
    rewrite Z.pow_add_r by lia. lia.
Qed.

Lemma le_num_split l n :
  Forall is_byte l -> (n <= length l)%nat ->
  le_num (take n l) = le_num l mod 2 ^ (8 * Z.of_nat n) /\
  le_num (drop n l) = le_num l / 2 ^ (8 * Z.of_nat n).
Proof.
  intros Hl Hn. pose proof (le_num_app (take n l) (drop n l)) as E. rewrite take_drop in E.
  pose proof (le_num_range (take n l) (Forall_take _ _ _ Hl)) as Hr.
  unfold zlen in *. rewrite length_take, Nat.min_l in * by done. rewrite E. split.
  - rewrite Z.mul_comm, Z.mod_add by lia. by rewrite Z.mod_small.
  - rewrite Z.mul_comm, Z.div_add by lia. rewrite Z.div_small by done. lia.
Qed.

Lemma extract_loop_spec data first n : forall v,
  Forall is_byte data -> 0 <= first -> first + Z.of_nat n <= zlen data -> (n <= 8)%nat ->
  0 <= v < 2 ^ (64 - 8 * Z.of_nat n) ->
  extract_loop data first n v =
  Some (v * 2 ^ (8 * Z.of_nat n) + le_num (take n (drop (Z.to_nat first) data))).
Proof.
  induction n as [|n IH]; intros v Hd Hf Hl Hn Hv; cbn [extract_loop].
  { rewrite take_0. cbn [le_num]. change (2 ^ (8 * Z.of_nat 0)) with 1. f_equal. lia. }
  unfold zlen in *. set (d := drop (Z.to_nat first) data).
  assert (Hdl : (S n <= length d)%nat) by (unfold d; rewrite length_drop; lia).
  destruct (lookup_lt_is_Some_2 d n) as [b Hb]; [lia|].
  assert (Eb : buf_get data (first + Z.of_nat n) = Some b).
  { unfold buf_get. rewrite bool_decide_eq_true_2 by lia. unfold d in Hb. rewrite lookup_drop in Hb.
    rewrite <- Hb. f_equal. lia. }
  assert (Hbb : is_byte b).
  { assert (Hd' : Forall is_byte d) by (by apply Forall_drop). by eapply Forall_lookup_1 in Hd'. }
  rewrite Eb. cbn [mbind option_bind]. unfold is_byte in Hbb.
  replace (64 - 8 * Z.of_nat (S n)) with (56 - 8 * Z.of_nat n) in Hv by lia.
  assert (Hp : 2 ^ (64 - 8 * Z.of_nat n) = 256 * 2 ^ (56 - 8 * Z.of_nat n)).
  { replace (64 - 8 * Z.of_nat n) with (8 + (56 - 8 * Z.of_nat n)) by lia.
    rewrite Z.pow_add_r by lia. done. }
  assert (Hle : 2 ^ (64 - 8 * Z.of_nat n) <= 2 ^ 64) by (apply Z.pow_le_mono_r; lia).
  assert (Eu : u64 (v <<< 8) ||| b = v * 256 + b).
  { unfold u64. rewrite Z.mod_small by (rewrite Z.shiftl_mul_pow2; lia). rewrite lor_shift; lia. }
  rewrite Eu, IH by (lia || done). f_equal. fold d.
  rewrite (take_S_r d n b Hb), le_num_app. unfold zlen. rewrite length_take, Nat.min_l by lia.
  replace (8 * Z.of_nat (S n)) with (8 + 8 * Z.of_nat n) by lia. rewrite Z.pow_add_r by lia.
  cbn [le_num]. lia.
Qed.

(** Cutting a number above the slice does not change the slice. *)
Lemma slice_cut x r s m :
  0 <= r -> 0 <= s -> r + s <= m -> (x mod 2 ^ m / 2 ^ r) mod 2 ^ s = (x / 2 ^ r) mod 2 ^ s.
Proof.
  intros. apply Z.bits_inj'. intros n Hn. destruct (Z.lt_ge_cases n s).
  - rewrite !Z.mod_pow2_bits_low, !Z.div_pow2_bits by lia. rewrite Z.mod_pow2_bits_low by lia. done.
  - rewrite !Z.mod_pow2_bits_high by lia. done.
Qed.

(** The test of the sign bit. *)
Lemma sign_bit v s : 1 <= s -> 0 <= v < 2 ^ s -> has v (1 <<< (s - 1)) = (2 ^ (s - 1) <=? v).
Proof.
  intros Hs Hv. assert (Hp : 2 ^ s = 2 * 2 ^ (s - 1)).
  { replace s with (1 + (s - 1)) at 1 by lia. rewrite Z.pow_add_r by lia. done. }
  rewrite Z.shiftl_1_l. unfold has.
  assert (E : Z.land v (2 ^ (s - 1)) = if 2 ^ (s - 1) <=? v then 2 ^ (s - 1) else 0).
  { apply Z.bits_inj'. intros n Hn. rewrite Z.land_spec, Z.pow2_bits_eqb by lia.
    destruct (Z.leb_spec (2 ^ (s - 1)) v).
    - rewrite Z.pow2_bits_eqb by lia. destruct (Z.eqb_spec (s - 1) n) as [<-|]; [|by rewrite andb_false_r].
      rewrite andb_true_r. rewrite Z.testbit_true by lia.
      rewrite <- (Z.div_unique v (2 ^ (s - 1)) 1 (v - 2 ^ (s - 1))) by lia. done.
    - rewrite Z.bits_0. destruct (Z.eqb_spec (s - 1) n) as [<-|]; [|by rewrite andb_false_r].
      rewrite andb_true_r. rewrite <- (Z.mod_small v (2 ^ (s - 1))) by lia.
      apply Z.mod_pow2_bits_high. lia. }
  rewrite E. destruct (Z.leb_spec (2 ^ (s - 1)) v); [|done].
  pose proof (pow2_pos (s - 1)). destruct (Z.eqb_spec (2 ^ (s - 1)) 0); [lia|done].
Qed.

Lemma hid_extract_core f data :
  Forall is_byte data -> 0 <= f_off f < 2 ^ 16 -> 1 <= f_size f <= 32 ->
  f_off f + f_size f <= 8 * zlen data ->
  hid_extract f data = Some (field_value f data).
Proof.
  intros Hd Ho Hs Hl. unfold hid_extract. rewrite u32_small by lia.
  set (first := f_off f / 8). set (n := Z.to_nat ((f_off f + f_size f - 1) / 8 + 1 - first)).
  assert (Hn : 8 * Z.of_nat n >= f_off f mod 8 + f_size f /\ (n <= 8)%nat /\
               0 <= first /\ first + Z.of_nat n <= zlen data).
  { unfold n, first. unfold zlen in *. divlia. }
  destruct Hn as (Hn1 & Hn2 & Hn3 & Hn4).
  rewrite extract_loop_spec; [|done..|]; cycle 1.
  { pose proof (pow2_pos (64 - 8 * Z.of_nat n)). lia. }
  cbn [mbind option_bind]. f_equal. rewrite Z.mul_0_l, Z.add_0_l.
  assert (Ev : (le_num (take n (drop (Z.to_nat first) data)) >>> (f_off f mod 8)) &&& ((1 <<< f_size f) - 1)
               = (le_num data / 2 ^ f_off f) mod 2 ^ f_size f).
  { rewrite Z.shiftl_1_l, land_mask, Z.shiftr_div_pow2 by divlia.
    unfold zlen in *.
    destruct (le_num_split (drop (Z.to_nat first) data) n) as [-> _];
      [by apply Forall_drop | rewrite length_drop; lia |].
    destruct (le_num_split data (Z.to_nat first)) as [_ ->]; [done | lia |].
    rewrite slice_cut by divlia. rewrite Z2Nat.id by done. rewrite Z.div_div by divlia.
    rewrite <- Z.pow_add_r by divlia. do 3 f_equal. unfold first. divlia. }
  rewrite Ev. unfold field_value. set (v := (le_num data / _) mod _).
  assert (Hv : 0 <= v < 2 ^ f_size f) by (apply Z.mod_pos_bound; lia).
  rewrite sign_bit, Z.shiftl_1_l by lia. by case_if.
Qed.

(** ** The parser's invariant *)

Definition globals_ok (x : globals) : Prop :=
  0 <= reportSize x < 2 ^ 32 /\ 0 <= reportCount x < 2 ^ 32 /\ is_byte (reportId x).

(** A field that is present lies inside the report of its ID. *)
Definition field_in (ri : list (Z * Z)) (f : field) : Prop :=
  f_size f = 0 \/
  (1 <= f_size f <= 32 /\ 0 <= f_off f /\
   exists bits, (f_id f, bits) ∈ ri /\ f_off f + f_size f <= bits).

Record parser_ok (p : parser) : Prop := {
  ok_usages : zlen (usages p) <= HID_MAX_USAGES;
  ok_stack_len : zlen (stack p) <= HID_MAX_STACK;
  ok_depth : 0 <= depth p <= HID_MAX_DEPTH;
  ok_ids_len : zlen (ids p) <= HID_MAX_IDS;
  ok_ids : Forall (fun e => 0 <= e.2 <= HID_MAX_REPORT_BITS) (ids p);
  ok_g : globals_ok (g p);
  ok_stack : Forall globals_ok (stack p);
  ok_idless : sawIdlessInput p = true -> Forall (fun e => e.1 = 0) (ids p);
  ok_withid : sawIdlessInput p = false -> Forall (fun e => e.1 <> 0) (ids p);
  ok_noinput : sawIdlessInput p = false -> sawIdInput p = false -> ids p = []
}.

Record layout_ok (ri : list (Z * Z)) (l : layout) : Prop := {
  lo_len : length (button l) = 8%nat;
  lo_button : Forall (field_in ri) (button l);
  lo_x : field_in ri (fx l) /\ f_size (fx l) <> 1;
  lo_y : field_in ri (fy l) /\ f_size (fy l) <> 1;
  lo_wheel : field_in ri (fwheel l);
  lo_hwheel : field_in ri (fhwheel l)
}.

(** Reports only grow. *)
Definition ids_le (a b : list (Z * Z)) : Prop :=
  forall id bits, (id, bits) ∈ a -> exists bits', (id, bits') ∈ b /\ bits <= bits'.

Lemma ids_le_refl a : ids_le a a.
Proof. intros id bits H. exists bits. split; [done|lia]. Qed.

Lemma field_in_le a b f : ids_le a b -> field_in a f -> field_in b f.
Proof.
  intros Hle [H|(Hs & Ho & bits & Hi & Hb)]; [by left|]. right. split_and!; [lia..|].
  destruct (Hle _ _ Hi) as (bits' & ? & ?). exists bits'. split; [done|lia].
Qed.

Lemma layout_ok_le a b l : ids_le a b -> layout_ok a l -> layout_ok b l.
Proof.
  intros Hle []. split; try done; try (eapply field_in_le; done).
  - eapply Forall_impl; [done|]. intros f Hf. by eapply field_in_le.
  - destruct lo_x0. split; [by eapply field_in_le | done].
  - destruct lo_y0. split; [by eapply field_in_le | done].
Qed.

(** [q] differs from [p] in the observations only. *)
Definition seen_only (p q : parser) : Prop := exists b a, q = set_seen p b a.

Lemma seen_only_refl p : seen_only p p.
Proof. exists (buttonsSeen p), (absXY p). by destruct p. Qed.

Lemma seen_only_trans p q r : seen_only p q -> seen_only q r -> seen_only p r.
Proof. intros (b & a & ->) (b' & a' & ->). by exists b', a'. Qed.

Lemma setField_in p q off size bits :
  seen_only p q -> parser_ok p -> (reportId (g p), bits) ∈ ids p -> 1 <= size <= 32 -> 0 <= off ->
  off + size <= bits -> field_in (ids p) (hid_setField q off size).
Proof.
  intros (b & a & ->) Hp Hin Hs Ho Hb.
  assert (Hbits : bits <= 8192).
  { pose proof (ok_ids p Hp) as Hi. rewrite Forall_forall in Hi. by apply Hi in Hin as [_ ?]. }
  pose proof (ok_g p Hp) as (_ & _ & Hid).
  right. unfold hid_setField. cbn -[u8 u16]. unfold u16.
  rewrite (Z.mod_small off), (u8_small size), (u8_small (reportId (g p))) by (unfold is_byte; lia || done).
  split_and!; [lia..|]. by exists bits.
Qed.

Lemma input_field_ok p l flags i off size bits :
  parser_ok p -> layout_ok (ids p) l -> (reportId (g p), bits) ∈ ids p -> 1 <= size <= 32 ->
  0 <= off -> off + size <= bits ->
  let '(p', l') := input_field p l flags i off size in seen_only p p' /\ layout_ok (ids p) l'.
Proof.
  intros Hp Hl Hin Hs Ho Hb. pose proof (seen_only_refl p) as Hr.
  assert (Hset : forall q, seen_only p q -> field_in (ids p) (hid_setField q off size)).
  { intros q Hq. by apply (setField_in p q off size bits). }
  assert (Hsz : forall q, 2 <= size -> f_size (hid_setField q off size) <> 1).
  { intros q H2. cbn -[u8]. rewrite u8_small by (unfold is_byte; lia). lia. }
  unfold input_field. set (usage := hid_fieldUsage p i). case_if.
  { set (q := if (1 <=? _) && _ then _ else p).
    assert (Hq : seen_only p q) by (unfold q; case_if; [by eexists _, _ | done]).
    case_if; [|done]. split; [done|]. destruct Hl. split; try done; cbn.
    - by rewrite length_insert.
    - apply Forall_insert; auto. }
  case_if.
  { case_if; [split; [by eexists _, _ | done]|]. case_if; [|done]. bsimp.
    repeat case_if; (split; [done|]); try done; destruct Hl; split; try done;
      cbn [set_x set_y set_wheel set_hwheel fx fy fwheel fhwheel]; auto. }
  case_if; [bsimp; split; [done|]; destruct Hl; split; try done;
      cbn [set_x set_y set_wheel set_hwheel fx fy fwheel fhwheel]; auto|].
  case_if; [bsimp; split; [done|]; destruct Hl; split; try done;
      cbn [set_x set_y set_wheel set_hwheel fx fy fwheel fhwheel]; auto|]. done.
Qed.

Lemma parser_ok_seen p q : seen_only p q -> parser_ok p -> parser_ok q.
Proof. intros (b & a & ->) []. by split. Qed.

Lemma input_loop_ok size bits n : forall p l flags i off,
  parser_ok p -> layout_ok (ids p) l -> (reportId (g p), bits) ∈ ids p -> 1 <= size <= 32 ->
  0 <= off -> off + size * Z.of_nat n <= bits ->
  let '(p', l') := input_loop n p l flags i off size in seen_only p p' /\ layout_ok (ids p) l'.
Proof.
  induction n as [|n IH]; intros p l flags i off Hp Hl Hin Hs Ho Hb; cbn [input_loop].
  { split; [apply seen_only_refl | done]. }
  assert (Hbits : bits <= 8192).
  { pose proof (ok_ids p Hp) as Hi. rewrite Forall_forall in Hi. by apply Hi in Hin as [_ ?]. }
  pose proof (input_field_ok p l flags i off size bits Hp Hl Hin Hs Ho) as Hf.
  destruct (input_field p l flags i off size) as [p1 l1]. destruct Hf as [H1 Hl1]; [lia|].
  rewrite u32_small by lia. pose proof (parser_ok_seen _ _ H1 Hp) as Hp1.
  pose proof H1 as (b & a & ->).
  specialize (IH _ l1 flags (i + 1) (off + size) Hp1 Hl1 Hin Hs). destruct (input_loop _ _ _ _ _ _ _).
  destruct IH as [? ?]; [lia..|]. split; [|done]. eapply seen_only_trans; [exact H1|done].
Qed.

(** A good state, and a step that leads to one. *)
Definition good (p : parser) (l : layout) : Prop := parser_ok p /\ layout_ok (ids p) l.
Definition step_ok (r : pstep) : Prop :=
  match r with inl (p, l) => good p l | inr _ => True end.

Lemma ids_le_trans a b c : ids_le a b -> ids_le b c -> ids_le a c.
Proof.
  intros H1 H2 id bits Hin. destruct (H1 _ _ Hin) as (b1 & Hin1 & ?).
  destruct (H2 _ _ Hin1) as (b2 & ? & ?). exists b2. split; [done|lia].
Qed.

Lemma ids_le_app a x : ids_le a (a ++ x).
Proof. intros id bits H. exists bits. split; [apply elem_of_app; by left | lia]. Qed.

Lemma ids_le_insert l k id b b' :
  l !! k = Some (id, b) -> b <= b' -> ids_le l (<[k := (id, b')]> l).
Proof.
  intros Hk Hb i bits Hin. apply list_elem_of_lookup in Hin as [j Hj].
  destruct (decide (j = k)) as [->|Hne].
  - rewrite Hk in Hj. injection Hj as <- <-. exists b'. split; [|done].
    apply list_elem_of_lookup. exists k. apply list_lookup_insert_eq. by eapply lookup_lt_Some.
  - exists bits. split; [|lia]. apply list_elem_of_lookup. exists j.
    by rewrite list_lookup_insert_ne.
Qed.

Lemma id_index_spec l id k : id_index l id = Some k -> exists b, l !! k = Some (id, b).
Proof.
  revert k. induction l as [|[i b] l IH]; intros k; cbn; [done|]. case_if; bsimp.
  - intros [= <-]. exists b. by subst.
  - destruct (id_index l id) as [j|]; [|done]. intros [= <-]. by apply IH.
Qed.

Lemma idBits_spec p id q k :
  zlen (ids p) <= HID_MAX_IDS -> hid_idBits p id = Some (q, k) ->
  q = set_ids p (ids q) /\ (ids q = ids p \/ ids q = ids p ++ [(id, 0)]) /\
  zlen (ids q) <= HID_MAX_IDS /\ exists bits, ids q !! k = Some (id, bits).
Proof.
  intros Hl. unfold hid_idBits. destruct (id_index (ids p) id) as [i|] eqn:E.
  - intros [= <- <-]. apply id_index_spec in E as [b Hb]. split_and!; eauto. by destruct p.
  - case_if; [done|]. bsimp. intros [= <- <-]. cbn. split_and!; [done | by right | |].
    + unfold zlen in *. rewrite length_app. cbn. lia.
    + exists 0. by apply list_lookup_middle.
Qed.

(** The parser after an accepted Input item. *)
Lemma input_ids_ok p q k id bits n :
  parser_ok p -> id = reportId (g p) ->
  let p1 := if reportId (g p) =? 0 then set_saw p true (sawIdInput p)
            else set_saw p (sawIdlessInput p) true in
  sawIdlessInput p1 && sawIdInput p1 = false ->
  hid_idBits p1 id = Some (q, k) -> ids q !! k = Some (id, bits) -> 0 <= n ->
  bits + n <= HID_MAX_REPORT_BITS ->
  let r := set_ids q (<[k := (id, bits + n)]> (ids q)) in
  parser_ok r /\ ids_le (ids p) (ids r) /\ (reportId (g r), bits + n) ∈ ids r /\
  reportId (g r) = id.
Proof.
  intros Hp Hid p1 Hmix Hq Hk Hn Hb r.
  assert (E1 : ids p1 = ids p /\ g p1 = g p) by (unfold p1; by case_if). destruct E1 as [E1 E2].
  destruct (idBits_spec p1 id q k) as (Eq & Hids & Hlen & _); [rewrite E1; apply Hp | done |].
  rewrite E1 in Hids.
  assert (Hall : forall P : Z * Z -> Prop, Forall P (ids p) -> P (id, 0) -> P (id, bits + n) ->
            Forall P (ids r)).
  { intros P H1 H2 H3. cbn. apply Forall_insert; [|done]. destruct Hids as [->| ->]; [done|].
    apply Forall_app. split; [done|]. by constructor. }
  assert (Hbits : 0 <= bits).
  { assert (Hi : Forall (fun e => 0 <= e.2) (ids q)).
    { destruct Hids as [->| ->]; [|apply Forall_app; split; [|by constructor]];
        (eapply Forall_impl; [apply Hp|]; cbn; lia). }
    exact (Forall_lookup_1 _ _ _ _ Hi Hk). }
  assert (F : usages r = usages p /\ stack r = stack p /\ depth r = depth p /\ g r = g p /\
    sawIdlessInput r = sawIdlessInput p1 /\ sawIdInput r = sawIdInput p1).
  { subst r. rewrite Eq. unfold p1. by case_if. }
  destruct F as (F1 & F2 & F3 & F4 & F5 & F6).
  split_and!.
  - pose proof Hp as []. unfold HID_MAX_REPORT_BITS in *.
    split; rewrite ?F1, ?F2, ?F3, ?F4, ?F5, ?F6; try done.
    + cbn. unfold zlen in *. by rewrite length_insert.
    + apply Hall; [done | cbn; unfold HID_MAX_REPORT_BITS; lia | cbn; unfold HID_MAX_REPORT_BITS; lia].
    + intros Hs. apply Hall.
      * unfold p1 in *. destruct (reportId (g p) =? 0); cbn in *; [|by rewrite Hs in Hmix].
        destruct (sawIdlessInput p); [auto|]. by rewrite ok_noinput0.
      * unfold p1 in *. destruct (Z.eqb_spec (reportId (g p)) 0); cbn in *; [lia|by rewrite Hs in Hmix].
      * unfold p1 in *. destruct (Z.eqb_spec (reportId (g p)) 0); cbn in *; [lia|by rewrite Hs in Hmix].
    + intros Hs. unfold p1 in Hs. destruct (Z.eqb_spec (reportId (g p)) 0); cbn in Hs; [done|].
      apply Hall; [auto | cbn; lia | cbn; lia].
    + unfold p1. by destruct (Z.eqb_spec (reportId (g p)) 0).
  - apply ids_le_trans with (ids q).
    + destruct Hids as [->| ->]; [apply ids_le_refl | apply ids_le_app].
    + cbn. apply ids_le_insert with bits; [done|lia].
  - apply list_elem_of_lookup. exists k. cbn. rewrite Eq. cbn. rewrite E2, <- Hid.
    apply list_lookup_insert_eq. by eapply lookup_lt_Some.
  - cbn. rewrite Eq. cbn. by rewrite E2.
Qed.

Lemma hid_input_ok p l flags : good p l -> step_ok (hid_input p l flags).
Proof.
  intros [Hp Hl]. unfold hid_input. set (p1 := if reportId (g p) =? 0 then _ else _).
  destruct (sawIdlessInput p1 && sawIdInput p1) eqn:Hmix; [done|].
  pose proof (ok_g p Hp) as (Hs & Hc & Hid).
  assert (E2 : g p1 = g p /\ ids p1 = ids p) by (unfold p1; by case_if). destruct E2 as [E2 E3].
  rewrite E2, u8_small by done.
  destruct (hid_idBits p1 (reportId (g p))) as [[q k]|] eqn:Hq; [|done].
  destruct (idBits_spec p1 (reportId (g p)) q k) as (Eq & Hids & _ & bits & Hk);
    [rewrite E3; apply Hp | done|]. rewrite Hk. cbn beta iota zeta delta [from_option id].
  case_if; [done|]. bsimp. unfold HID_MAX_REPORT_BITS in *.
  assert (Hbits : 0 <= bits <= 8192).
  { assert (Hi : Forall (fun e => 0 <= e.2 <= 8192) (ids q)).
    { rewrite E3 in Hids. destruct Hids as [->| ->]; [apply Hp|]. apply Forall_app.
      split; [apply Hp|]. by constructor. }
    exact (Forall_lookup_1 _ _ _ _ Hi Hk). }
  set (n := reportSize (g p) * reportCount (g p)) in *.
  assert (Hn : 0 <= n < 2 ^ 32) by (unfold n; nia).
  rewrite (u32_small n), (u32_small (8192 - bits)) in * by lia.
  rewrite (u32_small (bits + n)) by lia.
  destruct (input_ids_ok p q k (reportId (g p)) bits n) as (Hr & Hle & Hin & Hrid);
    [done|done|done|done|done|lia|unfold HID_MAX_REPORT_BITS; lia|].
  set (r := set_ids q _) in *. pose proof (layout_ok_le _ _ _ Hle Hl) as Hlr.
  case_if; [done|]. bsimp.
  assert (Hsize : 1 <= reportSize (g p) <= 32) by (unfold HID_MAX_FIELD_BITS in *; lia).
  pose proof (input_loop_ok (reportSize (g p)) (bits + n) (Z.to_nat (reportCount (g p))) r l flags 0 bits
    Hr Hlr Hin Hsize) as Hloop.
  destruct (input_loop _ _ _ _ _ _ _) as [p' l']. destruct Hloop as [Hse Hl']; [lia | unfold n; lia |].
  split; [by apply (parser_ok_seen r)|]. by destruct Hse as (b & a & ->).
Qed.

Section Parse.
Variable desc : list Z.
Hypothesis Hbytes : Forall is_byte desc.

Lemma item_loop_ok base n : forall v,
  0 <= base -> base + Z.of_nat n <= zlen desc -> 0 <= v < 2 ^ 32 ->
  exists r, item_loop desc base n v = Some r /\ 0 <= r < 2 ^ 32.
Proof.
  induction n as [|n IH]; intros v Hb Hl Hv; cbn [item_loop]; [eauto|].
  destruct (buf_get_Some desc (base + Z.of_nat n)) as [b Eb]; [lia|]. rewrite Eb. cbn.
  apply buf_get_inv in Eb as [_ Hin]. rewrite Forall_forall in Hbytes. apply Hbytes in Hin.
  unfold is_byte in Hin. apply IH; [done | lia |]. apply lor_range; [lia | apply u32_range | lia].
Qed.

Lemma itemUnsigned_ok base size :
  0 <= base -> 0 <= size -> base + size <= zlen desc ->
  exists v, hid_itemUnsigned desc base size = Some v /\ 0 <= v < 2 ^ 32.
Proof. intros. apply item_loop_ok; lia. Qed.

Lemma parser_ok_g p x : parser_ok p -> globals_ok x -> parser_ok (set_g p x).
Proof. intros [] ?. by split. Qed.

Lemma hid_global_ok p l tag base size :
  good p l -> 0 <= base -> 0 <= size -> base + size <= zlen desc ->
  exists r, hid_global p l tag desc base size = Some r /\ step_ok r.
Proof.
  intros [Hp Hl] Hb Hs Hlen. unfold hid_global, hid_itemSigned.
  destruct (itemUnsigned_ok base size Hb Hs Hlen) as (v & -> & Hv). cbn [mbind option_bind].
  pose proof (ok_g p Hp) as (G1 & G2 & G3).
  repeat (case_if; [eexists; split; [reflexivity|]; 
    split; [apply parser_ok_g; [done|]; unfold globals_ok, is_byte in *; cbn in *; lia | done]|]).
  case_if.
  { case_if; bsimp; [eexists; by split|]. eexists. split; [reflexivity|]. split; [|done].
    apply parser_ok_g; [done|]. unfold globals_ok, is_byte in *. cbn in *. lia. }
  case_if.
  { case_if; bsimp; eexists; (split; [reflexivity|]); [done|]. split; [|done].
    destruct Hp. split; try done; cbn; [unfold zlen in *; cbn; lia | by constructor]. }
  case_if; [|eexists; split; [reflexivity|]; by split].
  destruct (stack p) as [|x st] eqn:E; eexists; (split; [reflexivity|]); [done|]. split; [|done].
  destruct Hp. rewrite E in *. inversion_clear ok_stack0. split; try done; cbn.
  unfold zlen in *. cbn in *. lia.
Qed.

Lemma hid_main_ok p l tag v : good p l -> step_ok (hid_main p l tag v).
Proof.
  intros Hg. unfold hid_main.
  set (r := if tag =? 0x8 then _ else _).
  assert (Hr : step_ok r).
  { unfold r. case_if; [by apply hid_input_ok|]. case_if; [done|]. destruct Hg as [Hp Hl].
    case_if; [case_if; bsimp; [done|]; split; [|done]; destruct Hp; split; try done; cbn; lia|].
    case_if; [case_if; bsimp; [done|]; split; [|done]; destruct Hp; split; try done; cbn; lia|].
    done. }
  destruct r as [[p' l']|]; [|done]. destruct Hr as [[] Hl']. by split.
Qed.

Lemma hid_local_ok p l tag v size : good p l -> good (hid_local p tag v size) l.
Proof.
  intros [Hp Hl]. unfold hid_local, HID_MAX_USAGES.
  repeat case_if; try done; bsimp; (split; [|done]); destruct Hp; split; try done.
  cbn. unfold zlen, HID_MAX_USAGES in *. rewrite length_app. cbn. lia.
Qed.

Lemma dataSize_range x : 0 <= dataSize (x &&& 0x3).
Proof.
  unfold dataSize, arr_get. change (x &&& 0x3) with (x &&& (2 ^ 2 - 1)). rewrite (land_mask x 2) by lia. pose proof (Z.mod_pos_bound x 4).
  assert (H4 : x mod 2 ^ 2 = 0 \/ x mod 2 ^ 2 = 1 \/ x mod 2 ^ 2 = 2 \/ x mod 2 ^ 2 = 3).
  { change (2 ^ 2) with 4. lia. }
  destruct H4 as [-> | [-> | [-> | ->]]]; vm_compute; congruence.
Qed.

Lemma parse_item_ok pos prefix p l :
  good p l -> 0 <= pos ->
  exists r n, parse_item desc (zlen desc) pos prefix p l = Some (r, n) /\ step_ok r /\
    (is_Some (match r with inl x => Some x | inr _ => None end) -> 1 <= n).
Proof.
  intros Hg Hpos. unfold parse_item. set (size := dataSize _).
  assert (Hs : 0 <= size) by apply dataSize_range.
  case_if; [do 2 eexists; split_and!; [reflexivity | done | by intros [? ?]]|]. bsimp.
  destruct (itemUnsigned_ok (pos + 1) size) as (v & Ev & Hv); [lia..|].
  destruct (hid_global_ok p l (prefix >>> 4) (pos + 1) size Hg) as (rg & Eg & Hrg); [lia..|].
  case_if; [rewrite Ev; do 2 eexists; split_and!; [reflexivity | by apply hid_main_ok | lia]|].
  case_if; [rewrite Eg; do 2 eexists; split_and!; [reflexivity | done | lia]|].
  case_if; [rewrite Ev; do 2 eexists; split_and!; [reflexivity | by apply hid_local_ok | lia]|].
  do 2 eexists; split_and!; [reflexivity | done | lia].
Qed.

Lemma parse_loop_ok fuel : forall pos p l,
  good p l -> 0 <= pos -> zlen desc - pos <= Z.of_nat fuel ->
  exists r, parse_loop fuel desc (zlen desc) pos p l = Some (Some r) /\ step_ok r.
Proof.
  induction fuel as [|fuel IH]; intros pos p l Hg Hpos Hf; cbn [parse_loop];
    (destruct (Z.ltb_spec pos (zlen desc)); cbn [negb]; [|by eexists]); [lia|].
  destruct (buf_get_Some desc pos) as [prefix Ep]; [lia|]. rewrite Ep. case_if.
  - unfold long_item. case_if; [by eexists|]. bsimp.
    destruct (buf_get_Some desc (pos + 1)) as [n En]; [lia|]. rewrite En. cbn.
    apply buf_get_inv in En as [_ Hin]. rewrite Forall_forall in Hbytes. apply Hbytes in Hin.
    unfold is_byte in Hin. case_if; [by eexists|]. bsimp. apply IH; [done|lia..].
  - destruct (parse_item_ok pos prefix p l Hg Hpos) as (r & n & -> & Hr & Hn).
    destruct r as [[p' l']|e]; [|by eexists].
    assert (1 <= n) by (apply Hn; eauto). apply IH; [done|lia..].
Qed.

End Parse.

(** ** Layouts *)

(** A present field has at most 32 bits, lies inside the longest report, and
    names a Report ID exactly when the device uses them. *)
Definition field_wf (l : layout) (f : field) : Prop :=
  f_size f = 0 \/
  (1 <= f_size f <= 32 /\ 0 <= f_off f /\
   f_off f + f_size f <= 8 * (maxReportLen l - useIds l) /\ (f_id f = 0 <-> useIds l = 0)).

Record layout_wf (l : layout) : Prop := {
  lw_ids : useIds l = 0 \/ useIds l = 1;
  lw_max : 0 <= maxReportLen l <= 1025;
  lw_nbuttons : 0 <= nbuttons l <= 32;
  lw_len : length (button l) = 8%nat;
  lw_button : Forall (field_wf l) (button l);
  lw_x : field_wf l (fx l) /\ 2 <= f_size (fx l);
  lw_y : field_wf l (fy l) /\ 2 <= f_size (fy l);
  lw_wheel : field_wf l (fwheel l);
  lw_hwheel : field_wf l (fhwheel l)
}.

Lemma max_bits_spec l :
  Forall (fun e => 0 <= e.2 <= HID_MAX_REPORT_BITS) l ->
  0 <= max_bits l <= HID_MAX_REPORT_BITS /\ Forall (fun e => e.2 <= max_bits l) l.
Proof.
  unfold max_bits. assert (Hgen : forall m, 0 <= m <= HID_MAX_REPORT_BITS ->
    Forall (fun e => 0 <= e.2 <= HID_MAX_REPORT_BITS) l ->
    let r := fold_left (fun m (e : Z * Z) => if m <? e.2 then e.2 else m) l m in
    m <= r <= HID_MAX_REPORT_BITS /\ Forall (fun e => e.2 <= r) l).
  { induction l as [|e l IH]; intros m Hm Hl; cbn; [split; [lia|constructor]|].
    inversion_clear Hl. destruct (IH (if m <? e.2 then e.2 else m)) as [H1 H2]; [case_if; bsimp; lia | done|].
    split; [case_if; bsimp; lia|]. constructor; [|done]. case_if; bsimp; lia. }
  intros Hl. destruct (Hgen 0); [unfold HID_MAX_REPORT_BITS; lia | done |]. split; [lia|done].
Qed.

Lemma count_bits_range n x : 0 <= count_bits n x <= Z.of_nat n.
Proof. induction n as [|n IH]; cbn [count_bits]; [lia|]. unfold of_bool. case_if; lia. Qed.

Lemma finish_layout_wf p l :
  good p l -> f_size (fx l) <> 0 -> f_size (fy l) <> 0 -> layout_wf (finish_layout p l).
Proof.
  intros [Hp Hl] Hx Hy. destruct (max_bits_spec (ids p) (ok_ids p Hp)) as [Hm Hall].
  unfold HID_MAX_REPORT_BITS in *. set (ui := if sawIdlessInput p then 0 else 1).
  assert (Hui : ui = 0 \/ ui = 1) by (unfold ui; case_if; auto).
  assert (Emax : maxReportLen (finish_layout p l) = (max_bits (ids p) + 7) / 8 + ui).
  { cbn -[Z.div u16]. fold ui. apply Z.mod_small. divlia. }
  assert (Eui : useIds (finish_layout p l) = ui) by done.
  assert (Hf : forall f, field_in (ids p) f -> field_wf (finish_layout p l) f).
  { intros f [H0|(Hs & Ho & bits & Hin & Hb)]; [by left|]. right. rewrite Emax, Eui.
    rewrite Forall_forall in Hall. pose proof (Hall _ Hin). cbn in *. split_and!; [lia..| divlia |].
    unfold ui. destruct (sawIdlessInput p) eqn:E.
    - pose proof (ok_idless p Hp E) as Hz. rewrite Forall_forall in Hz. apply Hz in Hin. cbn in Hin. lia.
    - pose proof (ok_withid p Hp E) as Hz. rewrite Forall_forall in Hz. apply Hz in Hin. cbn in Hin. lia. }
  destruct Hl as [L1 L2 [L3 L3'] [L4 L4'] L5 L6]. split; try (by apply Hf).
  - by rewrite Eui.
  - rewrite Emax. divlia.
  - cbn -[count_bits u8]. pose proof (count_bits_range 32 (buttonsSeen p)).
    rewrite u8_small; [|unfold is_byte]; lia.
  - done.
  - eapply Forall_impl; [exact L2|]. done.
  - split; [by apply Hf|]. cbn. destruct L3 as [|(? & _)]; lia.
  - split; [by apply Hf|]. cbn. destruct L4 as [|(? & _)]; lia.
Qed.

Lemma good_zero : good zero_parser zero_layout.
Proof.
  assert (Hn : forall ri, field_in ri no_field) by (intros; by left).
  split; split; cbn; try done; try (unfold globals_ok, is_byte; cbn; lia);
    try (repeat (apply Forall_cons_2; [by left|]); by apply Forall_nil_2).
Qed.

Lemma hidmouse_parse_core desc :
  Forall is_byte desc ->
  exists l r why, hidmouse_parse desc (zlen desc) = Some (Some (l, r, why)) /\
    match r with
    | Ok _ => layout_wf l /\ why = None
    | Err _ => l = zero_layout /\ why <> None
    end.
Proof.
  intros Hb. unfold hidmouse_parse. case_if; [by do 3 eexists|].
  destruct (parse_loop_ok desc Hb (Z.to_nat (zlen desc)) 0 zero_parser zero_layout good_zero)
    as (r & -> & Hr); [lia | unfold zlen; lia |].
  unfold finish_parse. destruct r as [[p l]|e]; [|by do 3 eexists].
  case_if; [by do 3 eexists|]. case_if; [by do 3 eexists|]. bsimp.
  do 3 eexists. split; [reflexivity|]. split; [|done]. by apply finish_layout_wf.
Qed.

(** ** Splitting the motion *)

(** The packets of an output buffer. *)
Fixpoint packets (l : list Z) : list (Z * Z * Z * Z) :=
  match l with
  | b :: x :: y :: w :: l => (b, s8 x, s8 y, s8 w) :: packets l
  | _ => []
  end.
Definition zsum (l : list Z) : Z := fold_right Z.add 0 l.
Definition sum_x (ps : list (Z * Z * Z * Z)) : Z := zsum ((fun e => e.1.1.2) <$> ps).
Definition sum_y (ps : list (Z * Z * Z * Z)) : Z := zsum ((fun e => e.1.2) <$> ps).
Definition sum_wheel (ps : list (Z * Z * Z * Z)) : Z := zsum ((fun e => e.2) <$> ps).

Lemma clamp_range v : -127 <= hid_clamp v 127 <= 127.
Proof. unfold hid_clamp. repeat case_if; bsimp; lia. Qed.

Lemma s8_u8 v : -128 <= v <= 127 -> s8 (u8 (s8 v)) = v.
Proof. intros. unfold s8, u8. divlia. Qed.

Lemma clamp_step v k :
  1 <= k -> hid_clamp v 127 + hid_clamp (v - hid_clamp v 127) (127 * (k - 1)) = hid_clamp v (127 * k).
Proof. intros. unfold hid_clamp. repeat case_if; bsimp; lia. Qed.

Lemma clamp_fix v k : 1 <= k -> v - hid_clamp v 127 = 0 -> hid_clamp v 127 = hid_clamp v (127 * k).
Proof. intros. unfold hid_clamp in *. repeat case_if; bsimp; lia. Qed.

Lemma split_loop_spec buttons wheel outsz fuel : forall dx dy n,
  (1 <= fuel)%nat -> n = 4 * (17 - Z.of_nat fuel) -> 0 <= n -> 68 <= outsz -> -127 <= wheel <= 127 ->
  let out := split_loop fuel buttons dx dy wheel outsz n in
  let ps := packets out in
  zlen out = 4 * zlen ps /\ 1 <= zlen ps <= Z.of_nat fuel /\
  Forall (fun e => e.1.1.1 = buttons) ps /\
  sum_x ps = hid_clamp dx (127 * Z.of_nat fuel) /\ sum_y ps = hid_clamp dy (127 * Z.of_nat fuel) /\
  sum_wheel ps = if n =? 0 then wheel else 0.
Proof.
  induction fuel as [|fuel IH]; intros dx dy n Hf Hn Hn0 Ho Hw; [lia|].
  cbn [split_loop]. unfold HIDMOUSE_PKT_SIZE, HIDMOUSE_MAX_SPLIT.
  destruct (Z.ltb_spec (outsz - n) 4); [lia|]. cbn zeta.
  pose proof (clamp_range dx) as Cx. pose proof (clamp_range dy) as Cy.
  assert (Hww : -127 <= (if n =? 0 then wheel else 0) <= 127) by (case_if; lia).
  set (sx := hid_clamp dx 127) in *. set (sy := hid_clamp dy 127) in *.
  set (w0 := if n =? 0 then wheel else 0) in *.
  case_if.
  - bsimp. specialize (IH (dx - sx) (dy - sy) (n + 4)). cbn zeta in IH.
    destruct IH as (I1 & I2 & I3 & I4 & I5 & I6); [lia..|].
    set (rest := split_loop fuel _ _ _ _ _ _) in *. cbn [app packets]. rewrite !s8_u8 by lia.
    set (ps := packets rest) in *. unfold zlen, sum_x, sum_y, sum_wheel in *. cbn [length fmap list_fmap zsum fold_right fst snd].
    fold (zsum ((fun e : Z * Z * Z * Z => e.1.1.2) <$> ps)). fold (zsum ((fun e : Z * Z * Z * Z => e.1.2) <$> ps)).
    fold (zsum ((fun e : Z * Z * Z * Z => e.2) <$> ps)).
    split_and!; [lia..| by constructor | | |].
    + rewrite I4. pose proof (clamp_step dx (Z.of_nat (S fuel))) as Hc. fold sx in Hc.
      rewrite <- Hc by lia. do 2 f_equal. lia.
    + rewrite I5. pose proof (clamp_step dy (Z.of_nat (S fuel))) as Hc. fold sy in Hc.
      rewrite <- Hc by lia. do 2 f_equal. lia.
    + rewrite I6. destruct (Z.eqb_spec (n + 4) 0); lia.
  - cbn [packets]. rewrite !s8_u8 by lia. unfold zlen, sum_x, sum_y, sum_wheel. cbn.
    assert (Hend : (dx - sx = 0 /\ dy - sy = 0) \/ fuel = 0%nat).
    { apply andb_false_iff in Heqb as [Hb|Hb]; bsimp; [left; bsimp; lia | right; lia]. }
    split_and!; try lia; [by repeat constructor | |].
    + destruct Hend as [[H1 _]| ->]; [|by rewrite Z.add_0_r].
      rewrite Z.add_0_r. apply clamp_fix; lia.
    + destruct Hend as [[_ H1]| ->]; [|by rewrite Z.add_0_r].
      rewrite Z.add_0_r. apply clamp_fix; lia.
Qed.

(** ** Reports *)

Lemma small_cases (i : Z) : 0 <= i < 8 ->
  i = 0 \/ i = 1 \/ i = 2 \/ i = 3 \/ i = 4 \/ i = 5 \/ i = 6 \/ i = 7.
Proof. lia. Qed.

(** Setting and clearing one bit of the button byte. *)
Lemma button_bit b i j (v : bool) :
  is_byte b -> 0 <= i < 8 -> 0 <= j < 8 ->
  let b' := if v then u8 (b ||| u8 (1 <<< i)) else b &&& u8 (lnot_w 32 (1 <<< i)) in
  is_byte b' /\ Z.testbit b' j = if i =? j then v else Z.testbit b j.
Proof.
  intros Hb Hi Hj b'. unfold is_byte in *. split.
  - unfold b'. destruct v; [apply u8_range|].
    rewrite Z.land_comm. apply (land_range _ b 8); lia.
  - unfold b'. destruct v.
    + unfold u8 at 1. rewrite Z.mod_pow2_bits_low, Z.lor_spec by lia.
      destruct (small_cases i Hi) as [-> | [-> | [-> | [-> | [-> | [-> | [-> | ->]]]]]]];
      destruct (small_cases j Hj) as [-> | [-> | [-> | [-> | [-> | [-> | [-> | ->]]]]]]];
      cbn -[Z.testbit u8]; rewrite ?orb_true_r, ?orb_false_r; reflexivity || apply orb_true_r || apply orb_false_r.
    + rewrite Z.land_spec.
      destruct (small_cases i Hi) as [-> | [-> | [-> | [-> | [-> | [-> | [-> | ->]]]]]]];
      destruct (small_cases j Hj) as [-> | [-> | [-> | [-> | [-> | [-> | [-> | ->]]]]]]];
      cbn -[Z.testbit u8 lnot_w]; apply andb_true_r || apply andb_false_r.
Qed.

(** A field the parser may produce. *)
Definition field_sane (f : field) : Prop :=
  f_size f = 0 \/ (1 <= f_size f <= 32 /\ 0 <= f_off f < 2 ^ 16).

Lemma field_wf_sane l f : layout_wf l -> field_wf l f -> field_sane f.
Proof. intros [Hu Hm] [H|(? & ? & ? & _)]; [by left|]. right. split; lia. Qed.

Lemma fieldIn_extract f id data :
  Forall is_byte data -> field_sane f -> hid_fieldIn f id (zlen data) = true ->
  hid_extract f data = Some (field_value f data).
Proof.
  intros Hd Hs Hin. unfold hid_fieldIn in Hin. bsimp. destruct Hs as [|[? ?]]; [done|].
  apply hid_extract_core; [done | lia | lia | lia].
Qed.

Lemma read_field_spec f id data :
  Forall is_byte data -> field_sane f ->
  read_field f id data (zlen data) =
  Some (hid_fieldIn f id (zlen data), if hid_fieldIn f id (zlen data) then field_value f data else 0).
Proof.
  intros Hd Hs. unfold read_field. case_if; [|done].
  by rewrite (fieldIn_extract f id).
Qed.

Lemma read_buttons_spec id data fs : forall i found b,
  Forall is_byte data -> Forall field_sane fs -> 0 <= i -> i + zlen fs <= 8 -> is_byte b ->
  exists b', read_buttons fs i id data (zlen data) found b =
      Some (found || existsb (fun f => hid_fieldIn f id (zlen data)) fs, b') /\
    is_byte b' /\
    (forall j, 0 <= j < i -> Z.testbit b' j = Z.testbit b j) /\
    (forall k f, fs !! k = Some f -> Z.testbit b' (i + Z.of_nat k) =
       if hid_fieldIn f id (zlen data) then negb (field_value f data =? 0)
       else Z.testbit b (i + Z.of_nat k)) /\
    (existsb (fun f => hid_fieldIn f id (zlen data)) fs = false -> b' = b).
Proof.
  induction fs as [|f fs IH]; intros i found b Hd Hfs Hi Hl Hb; cbn [read_buttons existsb].
  { exists b. rewrite orb_false_r. split_and!; try done. }
  inversion_clear Hfs as [|? ? Hf Hfs']. unfold zlen in Hl. cbn in Hl.
  destruct (hid_fieldIn f id (zlen data)) eqn:E.
  - rewrite (fieldIn_extract f id) by done. cbn [mbind option_bind].
    set (b1 := if negb (field_value f data =? 0) then _ else _).
    assert (Hb1 : forall j, 0 <= j < 8 -> is_byte b1 /\
      Z.testbit b1 j = if i =? j then negb (field_value f data =? 0) else Z.testbit b j).
    { intros j Hj. apply button_bit; [done | unfold zlen; lia | done]. }
    destruct (IH (i + 1) true b1) as (b' & E' & B1 & B2 & B3 & _); [done | done | lia | unfold zlen; lia | by apply (Hb1 0)|].
    exists b'. rewrite E'. cbn. rewrite orb_true_r. split_and!; try done.
    + intros j Hj. rewrite B2 by lia. rewrite (proj2 (Hb1 j ltac:(lia))).
      by destruct (Z.eqb_spec i j); [lia|].
    + intros [|k] f' Hk; cbn in Hk.
      * injection Hk as <-. rewrite E, Z.add_0_r. rewrite B2 by lia.
        rewrite (proj2 (Hb1 i ltac:(lia))). by rewrite Z.eqb_refl.
      * apply lookup_lt_Some in Hk as Hlt.
        specialize (B3 k f' Hk). replace (i + Z.of_nat (S k)) with (i + 1 + Z.of_nat k) by lia.
        rewrite B3. case_if; [done|]. rewrite (proj2 (Hb1 (i + 1 + Z.of_nat k) ltac:(lia))).
        by destruct (Z.eqb_spec i (i + 1 + Z.of_nat k)); [lia|].
  - destruct (IH (i + 1) found b) as (b' & E' & B1 & B2 & B3 & B4); [done | done | lia | unfold zlen; lia | done|].
    exists b'. rewrite E'. cbn. split_and!; try done.
    + intros j Hj. apply B2. lia.
    + intros [|k] f' Hk; cbn in Hk.
      * injection Hk as <-. rewrite E, Z.add_0_r. apply B2. lia.
      * specialize (B3 k f' Hk). by replace (i + Z.of_nat (S k)) with (i + 1 + Z.of_nat k) by lia.
Qed.

Lemma split_loop_len buttons wheel outsz fuel : forall dx dy n,
  0 <= n <= outsz ->
  zlen (split_loop fuel buttons dx dy wheel outsz n) = 4 * zlen (packets (split_loop fuel buttons dx dy wheel outsz n)) /\
  n + zlen (split_loop fuel buttons dx dy wheel outsz n) <= outsz.
Proof.
  induction fuel as [|fuel IH]; intros dx dy n Hn; cbn [split_loop]; [unfold zlen; cbn; lia|].
  unfold HIDMOUSE_PKT_SIZE. case_if; bsimp; [unfold zlen; cbn; lia|]. cbn zeta.
  case_if; [|unfold zlen; cbn; lia].
  destruct (IH (dx - hid_clamp dx 127) (dy - hid_clamp dy 127) (n + 4)) as [I1 I2]; [lia|].
  unfold zlen in *. cbn [app packets length]. lia.
Qed.

(** The Report ID and the payload of a report. *)
Definition report_id (l : layout) (report : list Z) : Z :=
  if useIds l =? 0 then 0 else hd 0 report.
Definition report_data (l : layout) (report : list Z) : list Z :=
  if useIds l =? 0 then report else tail report.

(** A field is carried by the report; its value, 0 when it is not. *)
Definition carries (l : layout) (report : list Z) (f : field) : bool :=
  hid_fieldIn f (report_id l report) (zlen (report_data l report)).
Definition value_of (l : layout) (report : list Z) (f : field) : Z :=
  if carries l report f then field_value f (report_data l report) else 0.

(** An empty report with Report IDs carries nothing. *)
Lemma carries_empty l f : useIds l <> 0 -> field_sane f -> carries l [] f = false.
Proof.
  intros Hu Hf. unfold carries, hid_fieldIn, report_data. destruct (Z.eqb_spec (useIds l) 0); [done|].
  change (zlen (tail [])) with 0. destruct Hf as [->|Hf]; [done|].
  destruct (Z.leb_spec (f_off f + f_size f) (0 * 8)); [lia|]. by rewrite andb_false_r.
Qed.

Lemma translate_eq l buttons report outsz :
  layout_wf l -> Forall is_byte report -> is_byte buttons ->
  exists b, is_byte b /\
    (forall k f, button l !! k = Some f -> Z.testbit b (Z.of_nat k) =
       if carries l report f then negb (value_of l report f =? 0) else Z.testbit buttons (Z.of_nat k)) /\
    (existsb (carries l report) (button l) = false -> b = buttons) /\
    hidmouse_translate l buttons report outsz =
    Some (if existsb (carries l report) (button l ++ [fx l; fy l; fwheel l])
          then split_loop (Z.to_nat HIDMOUSE_MAX_SPLIT) b (value_of l report (fx l)) (value_of l report (fy l))
                 (hid_clamp (value_of l report (fwheel l)) 127) outsz 0
          else [], b).
Proof.
  intros Hw Hr Hb. pose proof Hw as [Hu _ _ Hlen Hbut [Hx _] [Hy _] Hwh _].
  assert (Hd : Forall is_byte (report_data l report)).
  { unfold report_data. case_if; [done|]. by inversion Hr. }
  assert (Hsb : Forall field_sane (button l)).
  { eapply Forall_impl; [exact Hbut|]. intros f. by apply field_wf_sane. }
  destruct (read_buttons_spec (report_id l report) (report_data l report) (button l) 0 false buttons)
    as (b & Eb & B1 & _ & B3 & B4); [done | done | lia | unfold zlen; rewrite Hlen; lia | done|].
  exists b. split; [done|]. split_and!.
  - intros k f Hk. specialize (B3 k f Hk). rewrite Z.add_0_l in B3. unfold value_of, carries.
    rewrite B3. by case_if.
  - exact B4.
  - assert (Hrest : negb (useIds l =? 0) && (zlen report <? 1) = false ->
      (if negb (useIds l =? 0) then buf_get report 0 else Some 0) = Some (report_id l report) ->
      (if negb (useIds l =? 0) then drop 1 report else report) = report_data l report ->
      hidmouse_translate l buttons report outsz = Some (if existsb (carries l report) (button l ++ [fx l; fy l; fwheel l])
          then split_loop (Z.to_nat HIDMOUSE_MAX_SPLIT) b (value_of l report (fx l)) (value_of l report (fy l))
                 (hid_clamp (value_of l report (fwheel l)) 127) outsz 0
          else [], b)).
    { intros E1 E2 E3. unfold hidmouse_translate. rewrite E1, E2, E3. cbn [mbind option_bind].
      rewrite Eb, !read_field_spec by eauto using field_wf_sane. cbn [mbind option_bind].
      fold (carries l report). fold (carries l report (fx l)) (carries l report (fy l)) (carries l report (fwheel l)).
      fold (value_of l report (fx l)) (value_of l report (fy l)) (value_of l report (fwheel l)).
      rewrite existsb_app. cbn [existsb orb]. rewrite orb_false_r, !orb_assoc.
      by destruct (existsb _ _ || _ || _ || _). }
    destruct (Z.eqb_spec (useIds l) 0) as [Eu|Eu].
    { apply Hrest; unfold report_id, report_data; by rewrite ?Eu. }
    destruct report as [|r0 rest].
    + unfold hidmouse_translate. destruct (Z.eqb_spec (useIds l) 0); [done|]. cbn [negb andb].
      change (zlen [] <? 1) with true. cbn iota.
      assert (Hnone : forall f, field_sane f -> carries l [] f = false) by (intros; by apply carries_empty).
      assert (Hex : existsb (carries l []) (button l) = false).
      { apply not_true_is_false. rewrite existsb_exists. intros (f & Hin & Hc).
        rewrite Forall_forall in Hsb. rewrite Hnone in Hc; [done|]. apply Hsb. by apply list_elem_of_In. }
      rewrite existsb_app, Hex. cbn [existsb orb]. rewrite !Hnone by eauto using field_wf_sane.
      rewrite (B4 Hex). done.
    + destruct (Z.eqb_spec (useIds l) 0); [done|]. apply Hrest; cbn [negb andb].
      * unfold zlen. cbn [length]. destruct (Z.ltb_spec (Z.of_nat (S (length rest))) 1); [lia|done].
      * unfold report_id. destruct (Z.eqb_spec (useIds l) 0); [done|]. reflexivity.
      * unfold report_data. destruct (Z.eqb_spec (useIds l) 0); [done|]. done.
Qed.

(** ** The configuration descriptor *)

Section Conf.
Variable conf : list Z.
Hypothesis Hbytes : Forall is_byte conf.

Lemma conf_byte i b : buf_get conf i = Some b -> is_byte b.
Proof.
  intros [_ Hin]%buf_get_inv. rewrite Forall_forall in Hbytes. by apply Hbytes.
Qed.

Lemma le16_range lo hi : is_byte lo -> is_byte hi -> 0 <= lo ||| (hi <<< 8) < 2 ^ 16.
Proof.
  unfold is_byte. intros. rewrite Z.lor_comm, lor_shift by lia. lia.
Qed.

Lemma hid_reports_ok pos dlen cnt n : forall i rlen,
  0 <= pos -> pos + dlen <= zlen conf -> 0 <= i -> 0 <= rlen < 2 ^ 16 ->
  exists r, hid_reports n conf pos dlen i cnt rlen = Some r /\ 0 <= r < 2 ^ 16.
Proof.
  induction n as [|n IH]; intros i rlen Hp Hl Hi Hr; cbn [hid_reports]; [eauto|].
  case_if; [|eauto]. bsimp.
  destruct (buf_get_Some conf (pos + 6 + 3 * i)) as [t Et]; [lia|]. rewrite Et. cbn [mbind option_bind].
  case_if; [|apply IH; lia].
  destruct (buf_get_Some conf (pos + 7 + 3 * i)) as [lo Elo]; [lia|]. rewrite Elo. cbn [mbind option_bind].
  destruct (buf_get_Some conf (pos + 8 + 3 * i)) as [hi Ehi]; [lia|]. rewrite Ehi. cbn [mbind option_bind].
  eexists. split; [reflexivity|]. apply le16_range; by eapply conf_byte.
Qed.

(** The two output parameters are in the range of their wire fields. *)
Definition conf_ok (st : bool * Z * Z) : Prop := 0 <= st.1.2 < 2 ^ 16 /\ 0 <= st.2 < 2 ^ 11.

Lemma conf_desc_ok iface pos dlen st :
  0 <= pos -> 2 <= dlen -> pos + dlen <= zlen conf -> conf_ok st ->
  exists st', conf_desc conf iface pos dlen st = Some st' /\ conf_ok st'.
Proof.
  intros Hp Hd Hl Hst. destruct st as [[inI rlen] mp]. destruct Hst as [Hr Hm]. cbn in Hr, Hm.
  unfold conf_desc. destruct (buf_get_Some conf (pos + 1)) as [ty ->]; [lia|]. cbn [mbind option_bind].
  case_if.
  { case_if; bsimp; [|eexists; by split].
    destruct (buf_get_Some conf (pos + 2)) as [num ->]; [lia|]. cbn [mbind option_bind].
    case_if; [|eexists; by split].
    destruct (buf_get_Some conf (pos + 3)) as [alt ->]; [lia|]. cbn [mbind option_bind]. eexists; by split. }
  case_if.
  { case_if; bsimp; [|eexists; by split].
    destruct (buf_get_Some conf (pos + 5)) as [cnt ->]; [lia|]. cbn [mbind option_bind].
    destruct (hid_reports_ok pos dlen cnt (Z.to_nat dlen) 0 rlen) as (r & -> & ?); [lia..|].
    eexists; by split. }
  case_if; [|eexists; by split]. case_if; bsimp; [|eexists; by split].
  destruct (buf_get_Some conf (pos + 2)) as [addr ->]; [lia|]. cbn [mbind option_bind].
  case_if; [|eexists; by split].
  destruct (buf_get_Some conf (pos + 3)) as [attr ->]; [lia|]. cbn [mbind option_bind].
  case_if; [|eexists; by split].
  destruct (buf_get_Some conf (pos + 4)) as [lo ->]; [lia|]. cbn [mbind option_bind].
  destruct (buf_get_Some conf (pos + 5)) as [hi ->]; [lia|]. cbn [mbind option_bind].
  eexists; split; [reflexivity|]. split; [done|]. cbn. apply (land_range _ 0x7ff 11); lia.
Qed.

Lemma conf_loop_ok iface fuel : forall pos st,
  0 <= pos -> zlen conf - pos <= 2 * Z.of_nat fuel + 1 -> conf_ok st ->
  exists st', conf_loop fuel conf (zlen conf) iface pos st = Some (Some st') /\ conf_ok st'.
Proof.
  induction fuel as [|fuel IH]; intros pos st Hp Hf Hst; cbn [conf_loop];
    (destruct (Z.leb_spec (pos + 2) (zlen conf)); cbn [negb]; [|eauto]).
  { destruct (buf_get_Some conf pos) as [d ->]; [lia|]. case_if; [bsimp; lia|eauto]. }
  destruct (buf_get_Some conf pos) as [d ->]; [lia|]. case_if; [|eauto]. bsimp.
  destruct (conf_desc_ok iface pos d st) as (st' & -> & Hst'); [lia|lia|lia|done|].
  apply IH; [lia..|done].
Qed.

End Conf.

(** ** Properties *)

(** C12: the report-descriptor parser on an arbitrary byte string never reads
    outside it and ends. A layout it accepts has relative X and Y of at least two
    bits, and each of its fields has at most 32 bits, lies inside the longest
    report and names a Report ID exactly when the device uses them; on an error
    the layout is cleared and a reason is given. *)
Theorem hidmouse_parse_safe desc :
  Forall is_byte desc ->
  exists l r why, hidmouse_parse desc (zlen desc) = Some (Some (l, r, why)) /\
    match r with
    | Ok _ => layout_wf l /\ why = None
    | Err _ => l = zero_layout /\ why <> None
    end.
Proof. apply hidmouse_parse_core. Qed.

(** [hid_extract] reads exactly the bits of its field: bit [f_off] and the
    following of the report seen as one little-endian number, sign-extended when
    the field is signed, wherever the field starts in a byte. *)
Theorem hid_extract_slice f data :
  Forall is_byte data -> 0 <= f_off f < 2 ^ 16 -> 1 <= f_size f <= 32 ->
  f_off f + f_size f <= 8 * zlen data ->
  hid_extract f data = Some (field_value f data).
Proof. apply hid_extract_core. Qed.

(** translating a report with a layout of the parser never reads outside
    the report and never writes past [outsz]. Each button bit is the report's
    value of its field, or keeps its latched state when the report does not
    carry it; a report that carries no field yields nothing. With room for 17
    packets, the packets' X and Y sum up to the report's motion clamped to 2159
    counts, the wheel travels once, and every packet shows the buttons. *)
Theorem translate_motion l buttons report outsz :
  layout_wf l -> Forall is_byte report -> is_byte buttons -> 0 <= outsz ->
  exists out b, hidmouse_translate l buttons report outsz = Some (out, b) /\
    is_byte b /\ zlen out = 4 * zlen (packets out) /\ zlen out <= outsz /\
    (forall k f, button l !! k = Some f -> Z.testbit b (Z.of_nat k) =
       if carries l report f then negb (value_of l report f =? 0)
       else Z.testbit buttons (Z.of_nat k)) /\
    if existsb (carries l report) (button l ++ [fx l; fy l; fwheel l]) then
      HIDMOUSE_MAX_SPLIT * HIDMOUSE_PKT_SIZE <= outsz ->
      1 <= zlen (packets out) <= 17 /\ Forall (fun e => e.1.1.1 = b) (packets out) /\
      sum_x (packets out) = hid_clamp (value_of l report (fx l)) 2159 /\
      sum_y (packets out) = hid_clamp (value_of l report (fy l)) 2159 /\
      sum_wheel (packets out) = hid_clamp (value_of l report (fwheel l)) 127
    else out = [] /\ b = buttons.
Proof.
  intros Hw Hr Hb Ho.
  destruct (translate_eq l buttons report outsz Hw Hr Hb) as (b & Hb' & Hbits & Hsame & ->).
  eexists _, b. split; [reflexivity|]. split; [done|].
  destruct (existsb _ (button l ++ _)) eqn:Ex.
  - destruct (split_loop_len b (hid_clamp (value_of l report (fwheel l)) 127) outsz
      (Z.to_nat HIDMOUSE_MAX_SPLIT) (value_of l report (fx l)) (value_of l report (fy l)) 0) as [L1 L2]; [lia|].
    split_and!; [done | lia | done |]. unfold HIDMOUSE_MAX_SPLIT, HIDMOUSE_PKT_SIZE. intros Hsz.
    destruct (split_loop_spec b (hid_clamp (value_of l report (fwheel l)) 127) outsz 17
      (value_of l report (fx l)) (value_of l report (fy l)) 0) as (_ & S2 & S3 & S4 & S5 & S6);
      [lia | done | lia | lia | apply clamp_range |].
    split_and!; try done; apply S2.
  - split_and!; try done. rewrite existsb_app in Ex. apply orb_false_iff in Ex as [Ex _]. auto.
Qed.

(** walking an arbitrary configuration descriptor never reads outside it
    and ends, and it succeeds exactly when it found a non-empty report descriptor
    and an interrupt-IN endpoint, whose sizes are in the range of their fields. *)
Theorem findInterface_safe conf iface :
  Forall is_byte conf ->
  exists r rlen mp, hidmouse_findInterface conf (zlen conf) iface = Some (Some (r, rlen, mp)) /\
    0 <= rlen < 2 ^ 16 /\ 0 <= mp < 2 ^ 11 /\ (is_ok r = true <-> rlen <> 0 /\ mp <> 0).
Proof.
  intros Hb. unfold hidmouse_findInterface.
  destruct (conf_loop_ok conf Hb iface (Z.to_nat (zlen conf)) 0 (false, 0, 0))
    as ([[inI rlen] mp] & -> & Hr & Hm); [lia | unfold zlen; lia | split; cbn; lia |].
  do 3 eexists. split; [reflexivity|]. cbn in Hr, Hm. split_and!; [lia..|].
  destruct (Z.eqb_spec rlen 0), (Z.eqb_spec mp 0); cbn; split; try done; try tauto; lia.
Qed.

(** ** Concrete instances *)

(** A three-button wheel mouse: 8-bit X, Y and wheel after the button byte. *)
Definition demo_desc : list Z :=
  [0x05; 0x01; 0x09; 0x02; 0xa1; 0x01; 0x09; 0x01; 0xa1; 0x00; 0x05; 0x09; 0x19; 0x01; 0x29; 0x03;
   0x15; 0x00; 0x25; 0x01; 0x95; 0x03; 0x75; 0x01; 0x81; 0x02; 0x95; 0x01; 0x75; 0x05; 0x81; 0x03;
   0x05; 0x01; 0x09; 0x30; 0x09; 0x31; 0x09; 0x38; 0x15; 0x81; 0x25; 0x7f; 0x75; 0x08; 0x95; 0x03;
   0x81; 0x06; 0xc0; 0xc0].

Definition demo_layout : layout :=
  mk_layout 0 3 4
    ([mk_field 0 1 0 false; mk_field 1 1 0 false; mk_field 2 1 0 false] ++ replicate 5 no_field)
    (mk_field 8 8 0 true) (mk_field 16 8 0 true) (mk_field 24 8 0 true) no_field.

Example demo_parse : hidmouse_parse demo_desc (zlen demo_desc) = Some (Some (demo_layout, Ok 0, None)).
Proof. vm_compute. reflexivity. Qed.

Lemma hidmouse_parse_safe_witness : layout_wf demo_layout.
Proof.
  destruct (hidmouse_parse_safe demo_desc) as (l & r & why & E & H).
  - apply bytes_ok. reflexivity.
  - rewrite demo_parse in E. injection E as <- <- <-. exact (proj1 H).
Defined.

Lemma hid_extract_slice_witness :
  hid_extract (mk_field 12 12 0 true) [0x01; 0xf2; 0xff] = Some (-1).
Proof.
  rewrite (hid_extract_slice (mk_field 12 12 0 true) [0x01; 0xf2; 0xff]).
  - reflexivity.
  - apply bytes_ok. reflexivity.
  - cbn. lia.
  - cbn. lia.
  - vm_compute. congruence.
Defined.

Lemma translate_motion_witness :
  exists out b, hidmouse_translate demo_layout 0 [0x01; 0x80; 0x05; 0xff] 68 = Some (out, b) /\
    sum_x (packets out) = -128 /\ sum_y (packets out) = 5 /\ sum_wheel (packets out) = -1.
Proof.
  destruct (translate_motion demo_layout 0 [0x01; 0x80; 0x05; 0xff] 68) as (out & b & E & _ & _ & _ & _ & H).
  - destruct (hidmouse_parse_core demo_desc) as (l & r & why & E & H); [apply bytes_ok; reflexivity|].
    rewrite demo_parse in E. injection E as <- <- <-. exact (proj1 H).
  - apply bytes_ok. reflexivity.
  - unfold is_byte. lia.
  - lia.
  - exists out, b. destruct H as (_ & _ & Hx & Hy & Hw); [vm_compute; congruence|].
    split; [exact E | split; [exact Hx | split; [exact Hy | exact Hw]]].
Defined.

(** A configuration with one HID interface. *)
Definition demo_conf : list Z :=
  [9; 2; 34; 0; 1; 1; 0; 0xa0; 50;  9; 4; 0; 0; 1; 3; 1; 2; 0;
   9; 0x21; 0x11; 1; 0; 1; 0x22; 52; 0;  7; 5; 0x81; 3; 4; 0; 10].

Lemma findInterface_safe_witness :
  exists r rlen mp, hidmouse_findInterface demo_conf (zlen demo_conf) 0 = Some (Some (r, rlen, mp)) /\
    rlen = 52 /\ mp = 4 /\ is_ok r = true.
Proof.
  destruct (findInterface_safe demo_conf 0) as (r & rlen & mp & E & _ & _ & Hr).
  - apply bytes_ok. reflexivity.
  - exists r, rlen, mp. split; [exact E|]. vm_compute in E. injection E as <- <- <-.
    split; [reflexivity | split; [reflexivity | reflexivity]].
Defined.

End HidMouseCorrect.
