(* ===== verification/ShmSrv.v ===== *)
(** * The shared-memory server ([src/misc/shmsrv/shmsrv.c], [shm_proto.h])

    [srv] is the server's static state, [shm_obj] one object; an object's pages
    ([va], [cap] bytes, zeroed when mapped) are the sparse map [mem] of the bytes
    stored since, by messages and by clients through their mappings. What the system calls answer is the parameter [env] of the
    handler; memory exported to, and withdrawn from, the kernel is recorded in
    [evs]. [size_t] and [unsigned long] have 64 bits. *)

From S2P Require Import Prelude.

Module ShmSrv.

Definition SHM_PAGE : Z := 4096.
Definition SHM_MIN_CAP : Z := 1024 * 1024.
Definition SHMSRV_MAX_BYTES : Z := 256 <<< 20.
Definition SHMSRV_PROTO : Z := 1.
Definition SHMSRV_OP_CREATE : Z := 0x53480001.
Definition SHMSRV_OP_STATS : Z := 0x53480002.
Definition SHMSRV_OP_QUIT : Z := 0x53480003.

(** ** Memory *)

Abbreviation memory := (gmap Z Z).
Definition mem_get (m : memory) (i : Z) : Z := default 0 (m !! i).
Definition mem_read (m : memory) (off : Z) (n : nat) : list Z := (fun k => mem_get m (off + Z.of_nat k)) <$> seq 0 n.
Fixpoint mem_write (m : memory) (off : Z) (bytes : list Z) : memory :=
  match bytes with
  | [] => m
  | b :: bytes => mem_write (<[off := b]> m) (off + 1) bytes
  end.
(** [memset(va + a, 0, b - a)] *)
Definition mem_zero (m : memory) (a b : Z) : memory :=
  filter (fun kv => ~ (a <= kv.1 < b)) m.

(** ** State *)

Record shm_obj := mk_obj {
  o_id : Z; opens : Z; size : Z; exported : Z; cap : Z; mem : memory
}.

Inductive event :=
  | EvExport (id bytes : Z)     (* memExport of the first bytes of the object *)
  | EvUnexport (id : Z)         (* memUnexport *)
  | EvUnmap (id cap : Z).       (* munmap *)

Record srv := mk_srv {
  port : Z; next_id : Z; objs : list shm_obj;
  live : Z; bytes : Z; created : Z; destroyed : Z; quit : bool;
  evs : list event
}.

Definition set_objs (s : srv) x := mk_srv (port s) (next_id s) x (live s) (bytes s) (created s)
  (destroyed s) (quit s) (evs s).
Definition add_bytes (s : srv) n := mk_srv (port s) (next_id s) (objs s) (live s) (u64 (bytes s + n))
  (created s) (destroyed s) (quit s) (evs s).
Definition emit (s : srv) e := mk_srv (port s) (next_id s) (objs s) (live s) (bytes s) (created s)
  (destroyed s) (quit s) (evs s ++ [e]).
Definition emit_if (s : srv) (b : bool) e := if b then emit s e else s.

(** The server as [main] starts it. *)
Definition srv_init (p : Z) : srv := mk_srv p 1 [] 0 0 0 0 false [].

(** How the system calls of one message turn out. *)
Record env := mk_env { calloc_ok : bool; mmap_ok : bool; export_rc : cres Z; now : Z }.

(** ** Objects *)

Fixpoint find_in (l : list shm_obj) (id : Z) : option shm_obj :=
  match l with
  | [] => None
  | o :: l => if o_id o =? id then Some o else find_in l id
  end.
Definition obj_find (s : srv) (id : Z) : option shm_obj := find_in (objs s) id.

(** Writes through the pointer that [obj_find] returned. *)
Fixpoint update_in (l : list shm_obj) (o : shm_obj) : list shm_obj :=
  match l with
  | [] => []
  | x :: l => if o_id x =? o_id o then o :: l else x :: update_in l o
  end.
Definition obj_store (s : srv) (o : shm_obj) : srv := set_objs s (update_in (objs s) o).

Fixpoint unlink (l : list shm_obj) (id : Z) : list shm_obj :=
  match l with
  | [] => []
  | x :: l => if o_id x =? id then l else x :: unlink l id
  end.

Definition obj_destroy (s : srv) (o : shm_obj) : srv :=
  let s := emit_if s (negb (exported o =? 0)) (EvUnexport (o_id o)) in
  let s := if negb (cap o =? 0) then add_bytes (emit s (EvUnmap (o_id o) (cap o))) (- cap o) else s in
  let s := set_objs s (unlink (objs s) (o_id o)) in
  mk_srv (port s) (next_id s) (objs s) (u32 (live s - 1)) (bytes s) (created s)
    (u64 (destroyed s + 1)) (quit s) (evs s).

Definition round_pages (n : Z) : Z := u64 (n + SHM_PAGE - 1) &&& lnot_w 64 (SHM_PAGE - 1).

(** [while (c < n) c <<= 1], with fuel; [pow2_pages_spec] shows 9 steps are
    enough for every size the server accepts. *)
Fixpoint pow2_loop (fuel : nat) (c n : Z) : Z :=
  match fuel with
  | O => c
  | S fuel => if c <? n then pow2_loop fuel (u64 (c <<< 1)) n else c
  end.
Definition pow2_pages (n : Z) : Z := pow2_loop 44 SHM_MIN_CAP n.

(** Re-export when the page-rounded size changed. *)
Definition reexport (e : env) (s : srv) (o : shm_obj) (exp : Z) : srv * shm_obj * cres Z :=
  if exp =? exported o then (s, o, Ok 0)
  else
    let s := emit_if s (negb (exported o =? 0)) (EvUnexport (o_id o)) in
    let o := if negb (exported o =? 0)
             then mk_obj (o_id o) (opens o) (size o) 0 (cap o) (mem o) else o in
    if negb (exp =? 0) then
      match export_rc e with
      | Err rc => (s, o, Err rc)
      | Ok _ => (emit s (EvExport (o_id o) exp),
                 mk_obj (o_id o) (opens o) (size o) exp (cap o) (mem o), Ok 0)
      end
    else (s, o, Ok 0).

(** The part of [obj_truncate] after the allocation. *)
Definition truncate_tail (e : env) (s : srv) (o : shm_obj) (sz exp : Z) : srv * shm_obj * cres Z :=
  let o := if negb (cap o =? 0) && (sz <? size o)
           then mk_obj (o_id o) (opens o) (size o) (exported o) (cap o) (mem_zero (mem o) sz (size o))
           else o in
  let '(s, o, rc) := reexport e s o exp in
  match rc with
  | Err _ => (s, o, rc)
  | Ok _ => (s, mk_obj (o_id o) (opens o) sz (exported o) (cap o) (mem o), Ok 0)
  end.

Definition obj_truncate (e : env) (s : srv) (o : shm_obj) (sz : Z) : srv * shm_obj * cres Z :=
  let exp := round_pages sz in
  if SHMSRV_MAX_BYTES <? sz then (s, o, Err EFBIG)
  else if (cap o =? 0) && negb (sz =? 0) then
    let c := pow2_pages exp in
    if negb (mmap_ok e) then (s, o, Err ENOMEM)
    else
      let o := mk_obj (o_id o) (opens o) (size o) (exported o) c ∅ in
      truncate_tail e (add_bytes s c) o sz exp
  else if cap o <? exp then (s, o, Err EFBIG)
  else truncate_tail e s o sz exp.

(** ** Messages *)

(** [strnlen] and [strtoul(_, _, 10)] of the C library on a byte string: the
    value and the bytes left at [end]. *)
Fixpoint c_string (l : list Z) : list Z :=
  match l with
  | [] => []
  | c :: l => if c =? 0 then [] else c :: c_string l
  end.
Definition is_space (c : Z) : bool := (c =? 32) || ((9 <=? c) && (c <=? 13)).
Definition is_digit (c : Z) : bool := (48 <=? c) && (c <=? 57).
Fixpoint skip_spaces (l : list Z) : list Z :=
  match l with
  | [] => []
  | c :: l' => if is_space c then skip_spaces l' else l
  end.
Fixpoint digits (l : list Z) (acc : Z) : Z * list Z :=
  match l with
  | [] => (acc, [])
  | c :: l' => if is_digit c then digits l' (acc * 10 + (c - 48)) else (acc, l)
  end.
Definition strtoul (l : list Z) : Z * list Z :=
  let body := skip_spaces l in
  let '(neg, body) := match body with
                      | c :: b => if c =? 45 then (true, b) else if c =? 43 then (false, b) else (false, body)
                      | [] => (false, body)
                      end in
  match body with
  | c :: _ => if is_digit c then
                let '(v, rest) := digits body 0 in
                (if 2 ^ 64 <=? v then 2 ^ 64 - 1 else if neg then u64 (- v) else v, rest)
              else (0, l)
  | [] => (0, l)
  end.

Inductive attr_type := atMode | atType | atOther.

Inductive request :=
  | mtLookup (data : option (list Z))
  | mtOpen | mtClose
  | mtTruncate (len : Z)
  | mtRead (offs osize : Z)
  | mtWrite (offs : Z) (data : list Z)
  | mtGetAttr (type : attr_type)
  | mtGetAttrAll (room : bool)      (* o.data holds a struct _attrAll *)
  | mtDevCtl (op proto : Z)
  | mtOther.

Inductive output :=
  | ONone
  | OLookup (fil_port fil_id : Z)
  | OData (data : list Z)
  | OAttr (dir : bool)
  | OAttrAll (dir : bool) (size blocks port time : Z)
  | OCreate (err : cres Z) (id live bytes : Z).

Definition attr_all (e : env) (s : srv) (room : bool) (o : option shm_obj) : cres Z * output :=
  if negb room then (Err EINVAL, ONone)
  else match o with
       | None => (Ok 0, OAttrAll true 0 0 (port s) (now e))
       | Some o => (Ok 0, OAttrAll false (size o) (cap o / 512) (port s) (now e))
       end.

Definition handle_devctl (e : env) (s : srv) (oid op proto : Z) : srv * cres Z * output :=
  let fail err := (s, err, OCreate err 0 0 0) in
  if negb (oid =? 0) then fail (Err EINVAL)
  else if op =? SHMSRV_OP_CREATE then
    if negb (proto =? SHMSRV_PROTO) then fail (Err EPROTO)
    else if negb (calloc_ok e) then fail (Err ENOMEM)
    else
      let id := next_id s in
      (mk_srv (port s) (u32 (next_id s + 1)) (mk_obj id 0 0 0 0 ∅ :: objs s) (u32 (live s + 1))
         (bytes s) (u64 (created s + 1)) (destroyed s) (quit s) (evs s), Ok 0, OCreate (Ok 0) id 0 0)
  else if (op =? SHMSRV_OP_STATS) || (op =? SHMSRV_OP_QUIT) then
    (mk_srv (port s) (next_id s) (objs s) (live s) (bytes s) (created s) (destroyed s)
       (if op =? SHMSRV_OP_QUIT then true else quit s) (evs s), Ok 0,
     OCreate (Ok 0) (u32 (next_id s - 1)) (live s) (bytes s))
  else fail (Err ENOSYS).

(** [handle]: the new state, [o.err] and the other outputs. [oid] is
    [msg->oid.id], 64 bits wide. *)
Definition handle (e : env) (s : srv) (oid : Z) (m : request) : srv * cres Z * output :=
  let o := if oid =? 0 then None else obj_find s (u32 oid) in
  let is_root := oid =? 0 in
  match m with
  | mtLookup data =>
      let name := match data with Some d => c_string d | None => [] end in
      if (zlen name =? 0) || (16 <=? zlen name) then (s, Err ENOENT, ONone)
      else
        let '(id, rest) := strtoul name in
        match rest, obj_find s (u32 id) with
        | [], Some _ => if id =? 0 then (s, Err ENOENT, ONone)
                        else (s, Ok (zlen name), OLookup (port s) id)
        | _, _ => (s, Err ENOENT, ONone)
        end
  | mtOpen =>
      match o with
      | Some o => (obj_store s (mk_obj (o_id o) (u32 (opens o + 1)) (size o) (exported o) (cap o) (mem o)), Ok 0, ONone)
      | None => (s, if is_root then Ok 0 else Err ENOENT, ONone)
      end
  | mtClose =>
      match o with
      | Some o =>
          let o := if 0 <? opens o
                   then mk_obj (o_id o) (opens o - 1) (size o) (exported o) (cap o) (mem o) else o in
          (if opens o =? 0 then obj_destroy s o else obj_store s o, Ok 0, ONone)
      | None => (s, Ok 0, ONone)
      end
  | mtTruncate len =>
      match o with
      | Some o => let '(s, o, rc) := obj_truncate e s o len in (obj_store s o, rc, ONone)
      | None => (s, Err EINVAL, ONone)
      end
  | mtRead offs osize =>
      match o with
      | Some o =>
          let off := u64 offs in
          let n := if off <? size o then size o - off else 0 in
          let n := if n <? osize then n else osize in
          (s, Ok n, OData (mem_read (mem o) off (Z.to_nat n)))
      | None => (s, Err EINVAL, ONone)
      end
  | mtWrite offs data =>
      match o with
      | Some o =>
          let off := u64 offs in
          let n := if off <? size o then size o - off else 0 in
          let n := if n <? zlen data then n else zlen data in
          let s := if negb (n =? 0)
                   then obj_store s (mk_obj (o_id o) (opens o) (size o) (exported o) (cap o)
                                       (mem_write (mem o) off (take (Z.to_nat n) data)))
                   else s in
          (s, if negb (n =? 0) then Ok n else if zlen data =? 0 then Ok 0 else Err EFBIG, ONone)
      | None => (s, Err EINVAL, ONone)
      end
  | mtGetAttr type =>
      match is_root, o with
      | false, None => (s, Err ENOENT, ONone)
      | _, _ => match type with
                | atOther => (s, Err EINVAL, ONone)
                | _ => (s, Ok 0, OAttr is_root)
                end
      end
  | mtGetAttrAll room =>
      match is_root, o with
      | false, None => (s, Err ENOENT, ONone)
      | _, _ => let '(err, out) := attr_all e s room o in (s, err, out)
      end
  | mtDevCtl op proto => handle_devctl e s oid op proto
  | mtOther => (s, Err ENOSYS, ONone)
  end.

(** ** Sessions *)

(** The largest window of an object that was ever exported. A client that has mapped it keeps its mapping. *)
Fixpoint window (l : list event) (id : Z) : Z :=
  match l with
  | [] => 0
  | EvExport i n :: l => if i =? id then Z.max n (window l id) else window l id
  | _ :: l => window l id
  end.

(** A client stores bytes through its mapping. The pages of an object that was destroyed are the server's no more. *)
Definition client_store (s : srv) (id off : Z) (data : list Z) : srv :=
  match obj_find s id with
  | Some o =>
      if (0 <=? off) && (off + zlen data <=? window (evs s) id)
      then obj_store s (mk_obj (o_id o) (opens o) (size o) (exported o) (cap o) (mem_write (mem o) off data))
      else s
  | None => s
  end.

Inductive step :=
  | Message (e : env) (oid : Z) (m : request)
  | ClientStore (id off : Z) (data : list Z).

(** The message loop of [main], until the quit flag, with what the clients store between the messages. *)
Fixpoint serve (s : srv) (ms : list step) : srv * list (cres Z * output) :=
  match ms with
  | [] => (s, [])
  | Message e oid m :: ms =>
      if quit s then (s, [])
      else
        let '(s, err, out) := handle e s oid m in
        let '(s, outs) := serve s ms in
        (s, (err, out) :: outs)
  | ClientStore id off data :: ms => serve (client_store s id off data) ms
  end.

End ShmSrv.
