(* ===== verification/ShmSrvCorrect.v ===== *)
(** * Correctness of the shared-memory server

    The invariant of the object table and its accounting for every sequence of
    messages and of stores that clients make through their mappings; what a truncation, a write and a read do to an object's bytes;
    ids are never reused. *)

From S2P Require Import Prelude ShmSrv.
Import ShmSrv.

Module ShmSrvCorrect.

(** ** Sizes *)

Lemma round_pages_spec n : 0 <= n <= SHMSRV_MAX_BYTES -> round_pages n = (n + 4095) / 4096 * 4096.
Proof.
  change SHMSRV_MAX_BYTES with (2 ^ 28). intros Hn. unfold round_pages, SHM_PAGE.
  replace (n + 4096 - 1) with (n + 4095) by lia. set (x := n + 4095).
  unfold u64. rewrite Z.mod_small by lia.
  change (lnot_w 64 (4096 - 1)) with ((2 ^ 52 - 1) * 2 ^ 12). change 4096 with (2 ^ 12).
  assert (Hx : 0 <= x < 2 ^ 64) by lia. clearbody x.
  apply Z.bits_inj'. intros i Hi. rewrite Z.land_spec. destruct (Z.lt_ge_cases i 12).
  - rewrite !Z.mul_pow2_bits_low by done. apply andb_false_r.
  - rewrite !Z.mul_pow2_bits by lia. rewrite Z.div_pow2_bits by lia.
    replace (i - 12 + 12) with i by lia.
    replace (2 ^ 52 - 1) with (Z.ones 52) by done. rewrite Z.testbit_ones_nonneg by lia.
    destruct (Z.ltb_spec (i - 12) 52); [apply andb_true_r|]. rewrite andb_false_r.
    rewrite <- (Z.mod_small x (2 ^ 64)) by done. by rewrite Z.mod_pow2_bits_high by lia.
Qed.

Lemma pow2_loop_spec n fuel : forall k,
  0 <= n <= 2 ^ 28 -> 20 <= k <= 28 -> 28 - k <= Z.of_nat fuel ->
  exists k', pow2_loop fuel (2 ^ k) n = 2 ^ k' /\ 20 <= k' <= 28 /\ n <= 2 ^ k'.
Proof.
  induction fuel as [|fuel IH]; intros k Hn Hk Hf; cbn [pow2_loop].
  { assert (k = 28) as -> by lia. exists 28. split; [done|lia]. }
  case_if; bsimp.
  - assert (k <> 28) by (intros ->; lia).
    assert (E : u64 (2 ^ k <<< 1) = 2 ^ (k + 1)).
    { rewrite Z.shiftl_mul_pow2, Z.pow_add_r by lia. apply Z.mod_small.
      assert (2 ^ k <= 2 ^ 28) by (apply Z.pow_le_mono_r; lia). pose proof (pow2_pos k). lia. }
    rewrite E. apply IH; lia.
  - exists k. split; [done|lia].
Qed.

Lemma pow2_pages_spec n : 0 <= n <= 2 ^ 28 ->
  exists k, pow2_pages n = 2 ^ k /\ 20 <= k <= 28 /\ n <= 2 ^ k.
Proof. intros. apply (pow2_loop_spec n 44 20); lia. Qed.

(** ** Memory *)

Lemma mem_read_length m off n : length (mem_read m off n) = n.
Proof. unfold mem_read. by rewrite length_fmap, length_seq. Qed.

Lemma mem_read_lookup m off n i :
  (i < n)%nat -> mem_read m off n !! i = Some (mem_get m (off + Z.of_nat i)).
Proof. intros. unfold mem_read. rewrite list_lookup_fmap, lookup_seq_lt by done. done. Qed.

Lemma mem_write_get bytes : forall m off i,
  mem_get (mem_write m off bytes) i =
  if (off <=? i) && (i <? off + zlen bytes) then bytes !!! Z.to_nat (i - off) else mem_get m i.
Proof.
  induction bytes as [|b bytes IH]; intros m off i; cbn [mem_write].
  - change (zlen []) with 0. rewrite Z.add_0_r.
    destruct (Z.leb_spec off i), (Z.ltb_spec i off); cbn; try done; lia.
  - rewrite IH. unfold zlen. cbn [length]. unfold mem_get.
    destruct (Z.leb_spec (off + 1) i), (Z.leb_spec off i), (Z.ltb_spec i (off + 1 + Z.of_nat (length bytes))),
      (Z.ltb_spec i (off + Z.of_nat (S (length bytes)))); cbn [andb]; try lia;
      first [ by rewrite lookup_insert_ne by lia
            | by replace (Z.to_nat (i - off)) with (S (Z.to_nat (i - (off + 1)))) by lia
            | assert (i = off) as -> by lia; by rewrite lookup_insert_eq, Z.sub_diag ].
Qed.

Lemma mem_write_dom bytes : forall m off i b,
  mem_write m off bytes !! i = Some b -> is_Some (m !! i) \/ off <= i < off + zlen bytes.
Proof.
  induction bytes as [|x bytes IH]; intros m off i b; cbn [mem_write]; [intros H; left; eauto|].
  intros [H|H]%IH; unfold zlen in *; cbn [length].
  - destruct (decide (i = off)) as [->|]; [right; lia|]. rewrite lookup_insert_ne in H by done. by left.
  - right. lia.
Qed.

Lemma mem_zero_get m a b i :
  mem_get (mem_zero m a b) i = if (a <=? i) && (i <? b) then 0 else mem_get m i.
Proof.
  unfold mem_get, mem_zero. rewrite map_lookup_filter. destruct (m !! i) as [v|]; cbn.
  - destruct (Z.leb_spec a i), (Z.ltb_spec i b); cbn; case_guard; cbn in *; try done; lia.
  - by case_if.
Qed.

Lemma mem_zero_dom m a b i v : mem_zero m a b !! i = Some v -> m !! i = Some v /\ ~ (a <= i < b).
Proof. unfold mem_zero. by rewrite map_lookup_filter_Some. Qed.

(** ** The object list *)

Definition ids_of (l : list shm_obj) : list Z := o_id <$> l.
Fixpoint sum_cap (l : list shm_obj) : Z :=
  match l with [] => 0 | o :: l => cap o + sum_cap l end.

Lemma find_in_id l id o : find_in l id = Some o -> o_id o = id /\ o ∈ l.
Proof.
  induction l as [|x l IH]; cbn; [done|]. case_if; bsimp.
  - intros [= <-]. split; [done|set_solver].
  - intros [? ?]%IH. set_solver.
Qed.

Lemma find_in_None l id : find_in l id = None <-> id ∉ ids_of l.
Proof.
  induction l as [|x l IH]; cbn; [split; [set_solver|done]|].
  destruct (Z.eqb_spec (o_id x) id); set_solver.
Qed.

Section List.
Variables (l : list shm_obj) (o : shm_obj).

Lemma update_ids : ids_of (update_in l o) = ids_of l.
Proof.
  induction l as [|x l' IH]; cbn; [done|]. case_if; bsimp; cbn; [by rewrite Heqb|]. f_equal. exact IH.
Qed.

Lemma find_update j :
  is_Some (find_in l (o_id o)) ->
  find_in (update_in l o) j = if j =? o_id o then Some o else find_in l j.
Proof.
  induction l as [|x l' IH]; cbn; [by intros [? ?]|].
  destruct (Z.eqb_spec (o_id x) (o_id o)) as [E|E]; intros Hs; cbn.
  - destruct (Z.eqb_spec (o_id o) j), (Z.eqb_spec j (o_id o)), (Z.eqb_spec (o_id x) j); try done; congruence.
  - destruct (Z.eqb_spec (o_id x) j); [|by apply IH].
    destruct (Z.eqb_spec j (o_id o)); [congruence|done].
Qed.

Lemma update_Forall (P : shm_obj -> Prop) : Forall P l -> P o -> Forall P (update_in l o).
Proof.
  induction 1 as [|x l' Hx Hl IH]; intros Ho; cbn; [done|]. case_if; constructor; auto.
Qed.

Lemma update_len : zlen (update_in l o) = zlen l.
Proof. pose proof update_ids as E. apply (f_equal length) in E. unfold ids_of, zlen in *. rewrite !length_fmap in E. by rewrite E. Qed.

Lemma update_sum old :
  find_in l (o_id o) = Some old -> sum_cap (update_in l o) = sum_cap l - cap old + cap o.
Proof.
  induction l as [|x l' IH]; cbn; [done|]. case_if; bsimp; cbn.
  - intros [= ->]. lia.
  - intros H%IH. lia.
Qed.

End List.

Lemma unlink_ids l id : NoDup (ids_of l) -> NoDup (ids_of (unlink l id)) /\ (id ∉ ids_of (unlink l id)) /\
  (forall j, j <> id -> find_in (unlink l id) j = find_in l j).
Proof.
  induction l as [|x l IH]; cbn; intros Hn; [split_and!; [done|set_solver|done]|].
  apply NoDup_cons in Hn as [Hx Hn]. destruct (Z.eqb_spec (o_id x) id) as [E|E].
  - split_and!; [done | by rewrite <- E |]. intros j Hj. by destruct (Z.eqb_spec (o_id x) j); [congruence|].
  - destruct (IH Hn) as (I1 & I2 & I3). cbn. split_and!.
    + apply NoDup_cons. split; [|done]. intros Hin. apply Hx. clear -Hin. revert Hin.
      induction l as [|y l IHl]; cbn; [done|]. case_if; [set_solver|]. cbn. set_solver.
    + set_solver.
    + intros j Hj. rewrite I3 by done. done.
Qed.

Lemma unlink_Forall (P : shm_obj -> Prop) l id : Forall P l -> Forall P (unlink l id).
Proof. induction 1; cbn; [done|]. case_if; [done|]. by constructor. Qed.

Lemma unlink_sum l id o :
  find_in l id = Some o -> sum_cap (unlink l id) = sum_cap l - cap o /\ zlen (unlink l id) = zlen l - 1.
Proof.
  induction l as [|x l IH]; cbn; [done|]. case_if; bsimp.
  - intros [= ->]. unfold zlen. cbn. lia.
  - intros [? ?]%IH. unfold zlen in *. cbn [sum_cap length] in *. lia.
Qed.

(** ** The invariant *)

(** An object: its size is within its capacity, a power of two between 1 MiB and
    256 MiB (or nothing yet); the window exported to the kernel is the
    page-rounded size; bytes are stored within the capacity. *)
Record obj_ok (o : shm_obj) : Prop := {
  oo_size : 0 <= size o <= cap o;
  oo_opens : 0 <= opens o < 2 ^ 32;
  oo_cap : cap o = 0 \/ exists k, cap o = 2 ^ k /\ 20 <= k <= 28;
  oo_exported : exported o = 0 \/ exported o = round_pages (size o);
  oo_window : 0 <= exported o <= cap o;
  oo_mem : forall i b, mem o !! i = Some b -> 0 <= i < cap o
}.

(** What was exported of it: its size and its window now are within the largest window there was; so are
    the bytes ever stored, and the rest of its pages is still zero. *)
Record win_ok (l : list event) (o : shm_obj) : Prop := {
  wo_exported : exported o <= window l (o_id o);
  wo_size : size o <= window l (o_id o) <= cap o;
  wo_mem : forall i b, mem o !! i = Some b -> i < window l (o_id o)
}.

(** The server: ids are distinct and below [next_id], the counters count; no window of an id to come was exported. *)
Record srv_ok (s : srv) : Prop := {
  so_objs : Forall obj_ok (objs s);
  so_nodup : NoDup (ids_of (objs s));
  so_ids : Forall (fun o => 1 <= o_id o < next_id s) (objs s);
  so_live : live s = zlen (objs s);
  so_bytes : bytes s = sum_cap (objs s);
  so_created : created s = live s + destroyed s;
  so_next : next_id s = created s + 1;
  so_range : next_id s < 2 ^ 32 /\ 0 <= destroyed s;
  so_win : Forall (win_ok (evs s)) (objs s);
  so_new : forall id, next_id s <= id -> window (evs s) id = 0
}.

Lemma window_nonneg l id : 0 <= window l id.
Proof. induction l as [|[] l IH]; cbn; try case_if; lia. Qed.

Lemma window_app l1 l2 id : window (l1 ++ l2) id = Z.max (window l1 id) (window l2 id).
Proof. induction l1 as [|[] l1 IH]; cbn; try case_if; pose proof (window_nonneg l2 id); lia. Qed.

(** Events about one object. *)
Definition about (id : Z) (l : list event) : Prop := forall j, j <> id -> window l j = 0.

Lemma window_about id l1 l2 j : about id l2 -> j <> id -> window (l1 ++ l2) j = window l1 j.
Proof. intros Ha Hj. rewrite window_app, (Ha j Hj). pose proof (window_nonneg l1 j). lia. Qed.

Lemma win_ok_eq l l' o : window l' (o_id o) = window l (o_id o) -> win_ok l o -> win_ok l' o.
Proof. intros E []. split; by rewrite E. Qed.

Lemma obj_ok_cap o : obj_ok o -> 0 <= cap o <= 2 ^ 28.
Proof.
  intros Ho. destruct (oo_cap o Ho) as [->|(k & -> & Hk)]; [lia|].
  pose proof (pow2_pos k). assert (2 ^ k <= 2 ^ 28) by (apply Z.pow_le_mono_r; lia). lia.
Qed.

Lemma sum_cap_range l : Forall obj_ok l -> 0 <= sum_cap l <= 2 ^ 28 * zlen l.
Proof.
  induction 1 as [|o l Ho Hl IH]; unfold zlen in *; cbn [sum_cap length]; [lia|].
  pose proof (obj_ok_cap o Ho). lia.
Qed.

Lemma srv_live s : srv_ok s -> 0 <= zlen (objs s) < 2 ^ 32.
Proof. intros []. unfold zlen in *. lia. Qed.

Definition log (s : srv) (l : list event) : srv :=
  mk_srv (port s) (next_id s) (objs s) (live s) (bytes s) (created s) (destroyed s) (quit s) (evs s ++ l).

Lemma update_win l l' o xs : about (o_id o) l' -> win_ok (l ++ l') o -> Forall (win_ok l) xs -> NoDup (ids_of xs) -> is_Some (find_in xs (o_id o)) ->
  Forall (win_ok (l ++ l')) (update_in xs o).
Proof.
  intros Ha Ho. induction 1 as [|x xs Hx Hxs IH]; cbn; [constructor|]. intros [Hn Hnd]%NoDup_cons Hf. destruct (Z.eqb_spec (o_id x) (o_id o)) as [E|E].
  - constructor; [done|]. apply Forall_forall. intros y Hy. rewrite Forall_forall in Hxs. apply (win_ok_eq l); [|by apply Hxs].
    apply (window_about (o_id o)); [done|]. intros Ey. apply Hn. rewrite E, <- Ey. by apply list_elem_of_fmap_2.
  - constructor; [|by apply IH]. apply (win_ok_eq l); [|done]. by apply (window_about (o_id o)).
Qed.

(** Storing an object back, with the bytes counter kept in step and the calls about it logged. *)
Lemma store_ok s o old d l :
  srv_ok s -> obj_find s (o_id o) = Some old -> obj_ok o -> d = cap o - cap old -> about (o_id o) l -> win_ok (evs s ++ l) o ->
  srv_ok (obj_store (log (if d =? 0 then s else add_bytes s d) l) o).
Proof.
  intros Hs Hf Ho Hd Ha Hw. unfold obj_find in Hf. pose proof (find_in_id _ _ _ Hf) as [Hid Hin].
  pose proof (update_Forall (objs s) o obj_ok (so_objs s Hs) Ho) as Hall.
  pose proof (sum_cap_range _ Hall) as Hsum. rewrite update_len in Hsum. pose proof (srv_live s Hs).
  assert (Hids : Forall (fun x => 1 <= o_id x < next_id s) (update_in (objs s) o)).
  { apply update_Forall; [apply Hs|]. pose proof (so_ids s Hs) as Hi. rewrite Forall_forall in Hi.
    rewrite <- Hid. by apply Hi. }
  assert (E : u64 (bytes s + d) = sum_cap (update_in (objs s) o)).
  { rewrite (update_sum (objs s) o old Hf) in *. rewrite (so_bytes s Hs), Hd. unfold u64. rewrite Z.mod_small; lia. }
  assert (Hwin : Forall (win_ok (evs s ++ l)) (update_in (objs s) o)) by (apply update_win; eauto using so_win, so_nodup).
  assert (Hnew : forall id, next_id s <= id -> window (evs s ++ l) id = 0).
  { intros id Hi. rewrite (window_about (o_id o)); [by apply Hs|done|]. pose proof (so_ids s Hs) as Hx. rewrite Forall_forall in Hx. specialize (Hx _ Hin). lia. }
  destruct Hs. destruct (Z.eqb_spec d 0); split; cbn; rewrite ?update_ids, ?update_len; try done.
  rewrite (update_sum (objs s) o old Hf). lia.
Qed.

Lemma add_bytes_0 s : srv_ok s -> add_bytes s 0 = s.
Proof.
  intros Hs. pose proof (sum_cap_range _ (so_objs s Hs)). pose proof (srv_live s Hs).
  destruct s as [p n l lv b c d q ev] eqn:E. unfold add_bytes. cbn in *. f_equal.
  rewrite Z.add_0_r. pose proof (so_bytes _ Hs) as Hb. cbn in Hb. unfold u64. apply Z.mod_small. lia.
Qed.

Lemma log_nil s : log s [] = s.
Proof. unfold log. rewrite app_nil_r. by destruct s. Qed.

Lemma store_same s o old :
  srv_ok s -> obj_find s (o_id o) = Some old -> obj_ok o -> win_ok (evs s) o -> cap o = cap old -> srv_ok (obj_store s o).
Proof.
  intros Hs Hf Ho Hw Hc. pose proof (store_ok s o old (cap o - cap old) [] Hs Hf Ho eq_refl ltac:(done) ltac:(by rewrite app_nil_r)) as H. by rewrite Hc, Z.sub_diag, log_nil in H.
Qed.

Lemma find_ok s id o : srv_ok s -> obj_find s id = Some o -> obj_ok o /\ o_id o = id /\ win_ok (evs s) o.
Proof.
  intros Hs Hf. apply find_in_id in Hf as [Hid Hin].
  pose proof (so_objs s Hs) as H. pose proof (so_win s Hs) as Hw. rewrite Forall_forall in H, Hw. auto.
Qed.

Lemma destroy_ok s o o' :
  srv_ok s -> obj_find s (o_id o) = Some o' -> cap o = cap o' -> srv_ok (obj_destroy s o).
Proof.
  intros Hs Hf Hc. unfold obj_find in Hf. destruct (unlink_ids (objs s) (o_id o) (so_nodup s Hs)) as (U1 & U2 & _).
  destruct (unlink_sum _ _ _ Hf) as [U3 U4]. rewrite <- Hc in U3.
  pose proof (unlink_Forall _ _ (o_id o) (so_objs s Hs)) as U5. pose proof (sum_cap_range _ U5) as U6.
  pose proof (unlink_Forall _ _ (o_id o) (so_ids s Hs)) as U7. pose proof (srv_live s Hs) as Hl.
  assert (Hlen : 0 <= zlen (unlink (objs s) (o_id o))) by (unfold zlen; lia).
  assert (E1 : u32 (live s - 1) = live s - 1) by (rewrite (so_live s Hs); apply u32_small; lia).
  assert (E2 : u64 (destroyed s + 1) = destroyed s + 1) by (destruct Hs; apply Z.mod_small; lia).
  assert (E3 : u64 (bytes s + - cap o) = bytes s - cap o).
  { rewrite (so_bytes s Hs). apply Z.mod_small. lia. }
  pose proof (unlink_Forall _ _ (o_id o) (so_win s Hs)) as U8.
  assert (Hd : exists l, evs (obj_destroy s o) = evs s ++ l /\ forall j, window l j = 0).
  { unfold obj_destroy, emit_if. destruct (negb (exported o =? 0)), (negb (cap o =? 0)); cbn; rewrite <- ?app_assoc; by (eexists; split; [done|]) || (exists []; by rewrite app_nil_r). }
  destruct Hd as (l & El & Hl0). assert (Ew : forall j, window (evs (obj_destroy s o)) j = window (evs s) j).
  { intros j. rewrite El, window_app, Hl0. pose proof (window_nonneg (evs s) j). lia. }
  assert (U9 : Forall (win_ok (evs (obj_destroy s o))) (unlink (objs s) (o_id o))) by (eapply Forall_impl; [exact U8|]; intros x; by apply win_ok_eq).
  assert (U10 : forall id, next_id s <= id -> window (evs (obj_destroy s o)) id = 0) by (intros id Hi; rewrite Ew; by apply Hs).
  clear Ew El. unfold obj_destroy, emit_if in *. destruct Hs.
  destruct (Z.eqb_spec (exported o) 0), (Z.eqb_spec (cap o) 0); cbn [negb] in *;
    split; cbn -[u32 u64] in *; rewrite ?E1, ?E2, ?E3; try done; lia.
Qed.

(** ** Truncation *)

(** The same state up to the recorded kernel calls, which are about one object. *)
Definition same_srv (id : Z) (s t : srv) : Prop := exists l, about id l /\ t = log s l.

Lemma same_refl id s : same_srv id s s.
Proof. exists []. split; [done|]. by rewrite log_nil. Qed.

Lemma log_log s l1 l2 : log (log s l1) l2 = log s (l1 ++ l2).
Proof. unfold log. cbn. by rewrite app_assoc. Qed.

Lemma same_emit_if id s t b e : about id [e] -> same_srv id s t -> same_srv id s (emit_if t b e).
Proof.
  intros Ha (l & Hl & ->). destruct b; cbn; [|by exists l]. exists (l ++ [e]). rewrite <- log_log. split; [|done]. intros j Hj. by rewrite window_app, (Hl j Hj), (Ha j Hj).
Qed.

Lemma about_unexport id : about id [EvUnexport id].
Proof. done. Qed.
Lemma about_export id n : about id [EvExport id n].
Proof. intros j Hj. cbn. by rewrite (proj2 (Z.eqb_neq _ _)) by done. Qed.

Definition with_exported (o : shm_obj) x := mk_obj (o_id o) (opens o) (size o) x (cap o) (mem o).

Lemma reexport_spec e s o exp : 0 <= exp ->
  let '(s', o', r) := reexport e s o exp in
  same_srv (o_id o) s s' /\ o' = with_exported o (exported o') /\
  window (evs s) (o_id o) <= window (evs s') (o_id o) <= Z.max (window (evs s) (o_id o)) exp /\
  match r with
  | Ok _ => exported o' = exp /\ (exp <= window (evs s') (o_id o) \/ exp = exported o)
  | Err x => exported o' = 0 /\ export_rc e = Err x
  end.
Proof.
  intros Hexp. unfold reexport. destruct (Z.eqb_spec exp (exported o)) as [->|Hne].
  { split_and!; [apply same_refl | by destruct o | lia | lia | done | auto]. }
  set (s1 := emit_if s _ _). assert (H1 : same_srv (o_id o) s s1) by (apply same_emit_if; [apply about_unexport|apply same_refl]).
  assert (Ew : forall j, window (evs s1) j = window (evs s) j).
  { intros j. unfold s1, emit_if. case_if; [|done]. cbn. rewrite window_app. pose proof (window_nonneg (evs s) j). cbn. lia. }
  set (o1 := if negb (exported o =? 0) then _ else o).
  assert (Eo : o1 = with_exported o 0).
  { unfold o1. destruct (Z.eqb_spec (exported o) 0) as [E|E]; cbn; [|done].
    unfold with_exported. rewrite <- E. by destruct o. }
  pose proof (window_nonneg (evs s) (o_id o)). destruct (Z.eqb_spec exp 0) as [->|He]; cbn [negb].
  { rewrite Eo. cbn. rewrite Ew. split_and!; auto; lia. }
  destruct (export_rc e) as [?|x] eqn:Er; rewrite Eo; cbn; rewrite ?window_app, ?Ew; cbn; rewrite ?Z.eqb_refl.
  - split_and!; [apply (same_emit_if _ s s1 true); [apply about_export|exact H1] | done | lia | lia | done | left; lia].
  - split_and!; try done; lia.
Qed.

(** What a truncation to [sz] does to the bytes: those between it and the old size become zero. *)
Definition bytes_after (o o' : shm_obj) (sz : Z) : Prop :=
  forall i, mem_get (mem o') i = if (sz <=? i) && (i <? size o) then 0 else mem_get (mem o) i.

(** The shrunk bytes are zeroed. *)
Lemma shrink_spec l o sz : obj_ok o -> win_ok l o -> 0 <= sz ->
  let o1 := if negb (cap o =? 0) && (sz <? size o) then mk_obj (o_id o) (opens o) (size o) (exported o) (cap o) (mem_zero (mem o) sz (size o)) else o in
  exists m, o1 = mk_obj (o_id o) (opens o) (size o) (exported o) (cap o) m /\ bytes_after o o1 sz /\ forall i b, m !! i = Some b -> is_Some (mem o !! i).
Proof.
  intros Ho Hw Hsz o1. unfold o1. pose proof (oo_size o Ho). destruct (Z.eqb_spec (cap o) 0), (Z.ltb_spec sz (size o)); cbn [negb andb].
  1: lia.
  2: { exists (mem_zero (mem o) sz (size o)). split_and!; [done| |]. { intros i. apply mem_zero_get. } intros i b [Hi _]%mem_zero_dom. eauto. }
  all: exists (mem o); split_and!; [by destruct o| |eauto]; intros i; destruct (Z.leb_spec sz i), (Z.ltb_spec i (size o)); cbn; try done; lia.
Qed.

Lemma truncate_tail_spec e s o sz :
  obj_ok o -> win_ok (evs s) o -> 0 <= sz <= SHMSRV_MAX_BYTES -> sz <= round_pages sz <= cap o ->
  let '(s', o', r) := truncate_tail e s o sz (round_pages sz) in
  same_srv (o_id o) s s' /\ obj_ok o' /\ win_ok (evs s') o' /\ o_id o' = o_id o /\ opens o' = opens o /\ cap o' = cap o /\ bytes_after o o' sz /\
  match r with
  | Ok _ => size o' = sz /\ exported o' = round_pages sz
  | Err x => size o' = size o /\ exported o' = 0 /\ export_rc e = Err x
  end.
Proof.
  intros Ho Hw Hsz Hexp. unfold truncate_tail. destruct (shrink_spec (evs s) o sz Ho Hw ltac:(lia)) as (m & E1 & Hb & Hm). cbv zeta in *.
  rewrite E1 in *. clear E1. set (o1 := mk_obj _ _ _ _ _ _) in *.
  pose proof (reexport_spec e s o1 (round_pages sz) ltac:(lia)) as Hr.
  destruct (reexport e s o1 (round_pages sz)) as [[s' o2] r]. destruct Hr as (Hs & Eo & Hwin & Hr). change (o_id o1) with (o_id o) in *. change (exported o1) with (exported o) in *.
  destruct Hw as [W1 W2 W3]. pose proof Ho as [O1 O2 O3 O4 O5 O6]. rewrite Eo. cbn.
  assert (M1 : forall i b, m !! i = Some b -> 0 <= i < cap o) by (intros i b Hi; destruct (Hm i b Hi) as [b' Hb']; eauto).
  assert (M2 : forall i b, m !! i = Some b -> i < window (evs s) (o_id o)) by (intros i b Hi; destruct (Hm i b Hi) as [b' Hb']; eauto).
  pose proof (window_nonneg (evs s') (o_id o)).
  destruct r as [z|x]; cbn.
  - destruct Hr as [Hr Hr']. rewrite Hr. split_and!; try done.
    + split; cbn; try done; auto; lia.
    + split; cbn; try lia. intros i b Hi. specialize (M2 i b Hi). lia.
  - destruct Hr as [Hr Hr']. rewrite Hr. split_and!; try done.
    + split; cbn; try done; auto; lia.
    + split; cbn; try lia. intros i b Hi. specialize (M2 i b Hi). lia.
Qed.

(** When a truncation is accepted before the export. *)
Definition truncate_fits (e : env) (o : shm_obj) (sz : Z) : bool :=
  (sz <=? SHMSRV_MAX_BYTES) &&
  (if (cap o =? 0) && negb (sz =? 0) then mmap_ok e else round_pages sz <=? cap o).

Lemma round_pages_range n : 0 <= n <= SHMSRV_MAX_BYTES -> n <= round_pages n <= 2 ^ 28.
Proof.
  intros Hn. rewrite round_pages_spec by done. change SHMSRV_MAX_BYTES with (2 ^ 28) in Hn. divlia.
Qed.

(** The object is kept: it is refused, or truncated within its capacity. *)
Definition truncated (e : env) (s : srv) (o : shm_obj) (sz : Z) (s' : srv) (o' : shm_obj) (r : cres Z) : Prop :=
  obj_ok o' /\ win_ok (evs s') o' /\ o_id o' = o_id o /\ opens o' = opens o /\
  (cap o' = cap o /\ same_srv (o_id o) s s' \/ cap o = 0 /\ same_srv (o_id o) (add_bytes s (cap o' - cap o)) s') /\
  match r with
  | Ok _ => truncate_fits e o sz = true /\ size o' = sz /\ exported o' = round_pages sz /\ bytes_after o o' sz
  | Err x => size o' = size o /\ (truncate_fits e o sz = false /\ o' = o \/ export_rc e = Err x /\ exported o' = 0 /\ bytes_after o o' sz)
  end.

Lemma truncated_refused e s o sz x : obj_ok o -> win_ok (evs s) o -> truncate_fits e o sz = false -> truncated e s o sz s o (Err x).
Proof. intros. split_and!; auto using same_refl. Qed.

Lemma truncated_tail e s o sz : obj_ok o -> win_ok (evs s) o -> 0 <= sz <= SHMSRV_MAX_BYTES -> round_pages sz <= cap o -> (cap o = 0 -> sz = 0) ->
  let '(s', o', r) := truncate_tail e s o sz (round_pages sz) in truncated e s o sz s' o' r.
Proof.
  intros Ho Hw Hsz Hc H0. pose proof (round_pages_range sz Hsz) as Hrp. pose proof (truncate_tail_spec e s o sz Ho Hw Hsz ltac:(lia)) as Ht.
  destruct (truncate_tail _ _ _ _ _) as [[s' o'] r]. destruct Ht as (T1 & T2 & T3 & T4 & T5 & T6 & T7 & Hr). split_and!; auto. destruct r.
  - destruct Hr. split_and!; try done. unfold truncate_fits. rewrite (proj2 (Z.leb_le sz _)) by lia. cbn [andb].
    destruct (Z.eqb_spec (cap o) 0) as [E|E]; cbn [andb]; [rewrite (H0 E) in *; cbn [Z.eqb negb]|]; apply Z.leb_le; lia.
  - destruct Hr as (? & ? & ?). split; auto.
Qed.

Lemma truncate_spec e s o sz :
  obj_ok o -> win_ok (evs s) o -> 0 <= sz -> let '(s', o', r) := obj_truncate e s o sz in truncated e s o sz s' o' r.
Proof.
  intros Ho Hw Hsz. unfold obj_truncate.
  destruct (Z.ltb_spec SHMSRV_MAX_BYTES sz) as [|Hmax].
  { apply truncated_refused; try done. unfold truncate_fits. by rewrite (proj2 (Z.leb_gt sz _)) by lia. }
  pose proof (round_pages_range sz ltac:(lia)) as Hrp. destruct ((cap o =? 0) && negb (sz =? 0)) eqn:Ea.
  - assert (Ef : truncate_fits e o sz = mmap_ok e) by (unfold truncate_fits; by rewrite Ea, (proj2 (Z.leb_le sz _)) by lia).
    apply andb_true_iff in Ea as [Ec Es]. bsimp. destruct (mmap_ok e) eqn:Em; cbn [negb]; [|by apply truncated_refused].
    destruct (pow2_pages_spec (round_pages sz)) as (k & Ek & Hk & Hle); [lia|]. rewrite Ek.
    pose proof (oo_size o Ho) as Hs0. set (o1 := mk_obj (o_id o) (opens o) (size o) (exported o) (2 ^ k) ∅). pose proof (pow2_pos k) as Hp.
    assert (Ho1 : obj_ok o1) by (pose proof (oo_window o Ho); destruct Ho; split; cbn; try done; try lia; right; by exists k).
    assert (Hw1 : win_ok (evs (add_bytes s (2 ^ k))) o1) by (destruct Hw; split; cbn; try done; lia).
    assert (Hz : forall i, mem_get (mem o1) i = mem_get (mem o) i).
    { intros i. unfold mem_get. destruct (mem o !! i) eqn:Ei; [|done]. apply (oo_mem o Ho) in Ei. lia. }
    pose proof (truncate_tail_spec e (add_bytes s (2 ^ k)) o1 sz Ho1 Hw1 ltac:(lia) ltac:(cbn; lia)) as Ht.
    destruct (truncate_tail _ _ _ _ _) as [[s' o'] r]. destruct Ht as (T1 & T2 & T3 & T4 & T5 & T6 & T7 & Hr). cbn in T1, T4, T5, T6.
    assert (Hb : bytes_after o o' sz) by (intros i; rewrite (T7 i), Hz; done). split_and!; auto.
    + right. split; [done|]. by rewrite T6, Ec, Z.sub_0_r.
    + destruct r; [destruct Hr; by split_and!|]. destruct Hr as (? & ? & ?). split; auto.
  - destruct (Z.ltb_spec (cap o) (round_pages sz)).
    + apply truncated_refused; try done. unfold truncate_fits. rewrite Ea, (proj2 (Z.leb_gt (round_pages sz) _)) by lia. apply andb_false_r.
    + apply truncated_tail; try done; lia.
Qed.

(** ** Messages *)

(** Arguments in the range of their types. *)
Definition request_ok (m : request) : Prop :=
  match m with
  | mtTruncate len => 0 <= len < 2 ^ 64
  | mtRead _ osize => 0 <= osize
  | _ => True
  end.

Definition with_opens (o : shm_obj) x := mk_obj (o_id o) x (size o) (exported o) (cap o) (mem o).
Definition with_mem (o : shm_obj) x := mk_obj (o_id o) (opens o) (size o) (exported o) (cap o) x.

Lemma obj_ok_opens o x : obj_ok o -> 0 <= x < 2 ^ 32 -> obj_ok (with_opens o x).
Proof. intros [] ?. by split. Qed.

(** How many bytes a transfer at [off] moves. *)
Definition span (o : shm_obj) (off n : Z) : Z :=
  let room := if off <? size o then size o - off else 0 in if room <? n then room else n.

Lemma span_range o off n : 0 <= off -> 0 <= n -> 0 <= span o off n <= n /\
  (span o off n <> 0 -> off + span o off n <= size o).
Proof. intros. unfold span. repeat case_if; bsimp; lia. Qed.

Lemma win_ok_opens l o x : win_ok l o -> win_ok l (with_opens o x).
Proof. intros []. by split. Qed.

(** Bytes stored within the largest window. *)
Lemma store_bytes l o off data : obj_ok o -> win_ok l o -> 0 <= off -> off + zlen data <= window l (o_id o) ->
  obj_ok (with_mem o (mem_write (mem o) off data)) /\ win_ok l (with_mem o (mem_write (mem o) off data)).
Proof.
  intros [] [] Hoff Hd. split; split; try done; cbn.
  - intros i b [[v Hv]|Hi]%mem_write_dom; [eauto|lia].
  - intros i b [[v Hv]|Hi]%mem_write_dom; [eauto|lia].
Qed.

Lemma obj_ok_write l o off n data :
  obj_ok o -> win_ok l o -> 0 <= off -> n = span o off (zlen data) -> n <> 0 ->
  obj_ok (with_mem o (mem_write (mem o) off (take (Z.to_nat n) data))) /\ win_ok l (with_mem o (mem_write (mem o) off (take (Z.to_nat n) data))).
Proof.
  intros Ho Hw Hoff Hn Hn0. assert (Hd : 0 <= zlen data) by (unfold zlen; lia).
  destruct (span_range o off (zlen data) Hoff Hd) as [H1 H2]. rewrite <- Hn in *. pose proof (wo_size l o Hw).
  apply store_bytes; try done. unfold zlen in *. rewrite length_take. lia.
Qed.

Lemma handle_ok e s oid m :
  srv_ok s -> next_id s + 1 < 2 ^ 32 -> request_ok m -> srv_ok (handle e s oid m).1.1.
Proof.
  intros Hs Hn Hm. unfold handle. set (oo := if oid =? 0 then None else obj_find s (u32 oid)).
  assert (Hoo : forall o, oo = Some o -> obj_ok o /\ obj_find s (o_id o) = Some o /\ win_ok (evs s) o).
  { unfold oo. case_if; [done|]. intros o Ho. destruct (find_ok s _ o Hs Ho) as (? & E & ?). by rewrite E. }
  destruct m.
  - repeat case_if; try done. destruct (strtoul _) as [id [|? ?]]; [|by cbn]. 
    destruct (obj_find s (u32 id)); cbn; [by case_if | done].
  - destruct oo as [o|] eqn:E; [|done]. destruct (Hoo o eq_refl) as (Ho & Hf & Hw). cbn.
    apply (store_same s (with_opens o (u32 (opens o + 1))) o); [done | done | | by apply win_ok_opens | done].
    apply obj_ok_opens; [done | apply u32_range].
  - destruct oo as [o|] eqn:E; [|done]. destruct (Hoo o eq_refl) as (Ho & Hf & Hw). cbn.
    set (o1 := if 0 <? opens o then _ else o).
    assert (H1 : obj_ok o1 /\ win_ok (evs s) o1 /\ o_id o1 = o_id o /\ cap o1 = cap o).
    { unfold o1. case_if; bsimp; [|done]. split; [|split; [by apply win_ok_opens|done]]. apply obj_ok_opens; [done|].
      pose proof (oo_opens o Ho). lia. }
    destruct H1 as (Ho1 & Hw1 & E1 & E2). case_if.
    + apply (destroy_ok s o1 o); by rewrite ?E1.
    + apply (store_same s o1 o); by rewrite ?E1.
  - destruct oo as [o|] eqn:E; [|done]. destruct (Hoo o eq_refl) as (Ho & Hf & Hw). cbn in Hm.
    pose proof (truncate_spec e s o len Ho Hw ltac:(lia)) as Ht. destruct (obj_truncate e s o len) as [[s' o'] r].
    destruct Ht as (Ho' & Hw' & E1 & _ & Hcap & _). cbn. rewrite <- E1 in Hf.
    destruct Hcap as [[Ec (l & Hl & ->)]|[Ec (l & Hl & ->)]]; rewrite <- E1 in Hl.
    + pose proof (store_ok s o' o (cap o' - cap o) l Hs Hf Ho' eq_refl Hl Hw') as Hst. by rewrite Ec, Z.sub_diag in Hst.
    + pose proof (store_ok s o' o (cap o' - cap o) l Hs Hf Ho' eq_refl Hl Hw') as Hst.
      destruct (Z.eqb_spec (cap o' - cap o) 0) as [Ez|]; [|done]. by rewrite Ez, add_bytes_0 by done.
  - by destruct oo.
  - destruct oo as [o|] eqn:E; [|done]. destruct (Hoo o eq_refl) as (Ho & Hf & Hw). cbn.
    fold (span o (u64 offs) (zlen data)). case_if; bsimp; [|done].
    destruct (obj_ok_write (evs s) o (u64 offs) (span o (u64 offs) (zlen data)) data Ho Hw) as [W1 W2]; [apply Z.mod_pos_bound; lia | done | done |].
    by apply (store_same s (with_mem o _) o).
  - by destruct (oid =? 0), oo, type.
  - by destruct (oid =? 0), oo, room.
  - unfold handle_devctl. repeat (case_if; [done|]). case_if.
    + repeat (case_if; [done|]). destruct Hs. cbn. unfold zlen in *.
      split; cbn -[u32 u64]; rewrite ?u32_small by lia; try done.
      * constructor; [|done]. split; cbn; try done; try lia; auto.
      * apply NoDup_cons. split; [|done]. intros Hin. apply list_elem_of_fmap in Hin as (x & Ex & Hx).
        rewrite Forall_forall in so_ids0. apply so_ids0 in Hx. lia.
      * constructor; [cbn; lia|]. eapply Forall_impl; [exact so_ids0|]. cbn. lia.
      * unfold zlen. cbn. lia.
      * unfold u64. rewrite Z.mod_small; lia.
      * unfold u64. rewrite Z.mod_small; lia.
      * lia.
      * constructor; [|done]. pose proof (so_new0 (next_id s) (Z.le_refl _)) as E0. split; cbn; [lia | lia | intros i b; by rewrite lookup_empty].
      * intros id Hid. apply so_new0. lia.
    + case_if; [|done]. destruct Hs. by split.
  - done.
Qed.

Lemma client_store_ok s id off data : srv_ok s -> srv_ok (client_store s id off data).
Proof.
  intros Hs. unfold client_store. destruct (obj_find s id) as [o|] eqn:Hf; [|done]. case_if; [|done]. bsimp. destruct (find_ok s id o Hs Hf) as (Ho & E & Hw).
  rewrite <- E in *. destruct (store_bytes (evs s) o off data Ho Hw) as [W1 W2]; [lia|lia|]. by apply (store_same s (with_mem o (mem_write (mem o) off data)) o).
Qed.

(** The id a message created, from its reply. *)
Definition created_id (m : request) (err : cres Z) (out : output) : list Z :=
  match m, err, out with
  | mtDevCtl op _, Ok _, OCreate _ id _ _ => if op =? SHMSRV_OP_CREATE then [id] else []
  | _, _, _ => []
  end.
Fixpoint created_ids (ms : list step) (outs : list (cres Z * output)) : list Z :=
  match ms, outs with
  | Message _ _ m :: ms, (err, out) :: outs => created_id m err out ++ created_ids ms outs
  | ClientStore _ _ _ :: ms, outs => created_ids ms outs
  | _, _ => []
  end.
Definition step_ok (m : step) : Prop := match m with Message _ _ m => request_ok m | ClientStore _ _ _ => True end.

Lemma unlink_subset l id j : j ∈ ids_of (unlink l id) -> j ∈ ids_of l.
Proof.
  induction l as [|x l IH]; cbn; [done|]. case_if; bsimp; [by right|].
  intros [->|H]%elem_of_cons; [by left|]. right. by apply IH.
Qed.

(** Which ids a message may add, and that creation numbers them in order. *)
Lemma handle_ids e s oid m :
  srv_ok s -> next_id s + 1 < 2 ^ 32 -> request_ok m ->
  let '(s', err, out) := handle e s oid m in
  (created_id m err out = [] /\ next_id s' = next_id s /\
     (forall j, j ∈ ids_of (objs s') -> j ∈ ids_of (objs s)) \/
   created_id m err out = [next_id s] /\ next_id s' = next_id s + 1 /\
     ids_of (objs s') = next_id s :: ids_of (objs s)).
Proof.
  intros Hs Hn Hm. unfold handle. set (oo := if oid =? 0 then None else obj_find s (u32 oid)).
  assert (Hoo : forall o, oo = Some o -> obj_ok o /\ win_ok (evs s) o).
  { unfold oo. case_if; [done|]. intros o Ho. by destruct (find_ok s (u32 oid) o Hs Ho) as (? & _ & ?). }
  assert (Hst : forall o j, j ∈ ids_of (objs (obj_store s o)) -> j ∈ ids_of (objs s)).
  { intros o j. cbn. by rewrite update_ids. }
  destruct m; try (destruct oo as [o|]; by left).
  - case_if; [by left|]. destruct (strtoul _) as [id [|? ?]]; [|by left].
    destruct (obj_find s (u32 id)); [|by left]. case_if; by left.
  - destruct oo as [o|]; left; split_and!; try done. apply Hst.
  - destruct oo as [o|]; left; split_and!; try done.
    + case_if; [|done]. unfold obj_destroy, emit_if. by repeat case_if.
    + case_if; [|apply Hst]. intros j. unfold obj_destroy, emit_if.
      repeat case_if; cbn; apply unlink_subset.
  - destruct oo as [o|] eqn:E; [|by left]. cbn in Hm.
    destruct (Hoo o eq_refl) as [Ho Hw]. pose proof (truncate_spec e s o len Ho Hw ltac:(lia)) as Ht. destruct (obj_truncate e s o len) as [[s' o'] r].
    destruct Ht as (_ & _ & _ & _ & Hcap & _). left. cbn.
    destruct Hcap as [[_ (l & _ & ->)]|[_ (l & _ & ->)]]; cbn; (split_and!; [done..|]); intros j; by rewrite update_ids.
  - destruct oo as [o|]; [|by left]. left. fold (span o (u64 offs) (zlen data)).
    destruct (negb (span o (u64 offs) (zlen data) =? 0)); split_and!; try done. apply Hst.
  - destruct (oid =? 0), oo, type; by left.
  - destruct (oid =? 0), oo, room; by left.
  - unfold handle_devctl. case_if; [by left|]. case_if.
    + repeat (case_if; [by left|]). right. cbn -[u32]. rewrite Heqb0, u32_small; [done|]. destruct Hs. unfold zlen in *. lia.
    + case_if; [|left; by repeat case_if]. left. cbn -[u32]. by rewrite Heqb0.
Qed.

Lemma serve_ok ms : forall s,
  srv_ok s -> next_id s + zlen ms < 2 ^ 32 -> Forall step_ok ms ->
  let '(s', outs) := serve s ms in
  srv_ok s' /\
  created_ids ms outs = seqZ (next_id s) (next_id s' - next_id s) /\
  next_id s <= next_id s' /\
  (forall id, 1 <= id < next_id s -> obj_find s id = None -> obj_find s' id = None).
Proof.
  induction ms as [|st ms IH]; intros s Hs Hn Hms; cbn [serve].
  { split_and!; try done. by rewrite Z.sub_diag. }
  inversion_clear Hms as [|? ? Hm Hms']. unfold zlen in Hn. cbn [length] in Hn. destruct st as [e oid m|id off data].
  2: { assert (Ec : next_id (client_store s id off data) = next_id s /\ ids_of (objs (client_store s id off data)) = ids_of (objs s)).
       { unfold client_store. destruct (obj_find s id); [|done]. case_if; [|done]. cbn. by rewrite update_ids. }
       destruct Ec as [En Ei]. specialize (IH _ (client_store_ok s id off data Hs) ltac:(unfold zlen; lia) Hms'). destruct (serve _ ms) as [s2 outs]. rewrite En in IH.
       destruct IH as (I1 & I2 & I3 & I4). split_and!; [done|done|done|]. intros j Hj Hnone. apply I4; [done|]. unfold obj_find in *. apply find_in_None. rewrite Ei. by apply find_in_None. }
  cbn in Hm. destruct (quit s).
  { split_and!; try done. by rewrite Z.sub_diag. }
  pose proof (handle_ok e s oid m Hs ltac:(lia) Hm) as Hs1.
  pose proof (handle_ids e s oid m Hs ltac:(lia) Hm) as Hi.
  destruct (handle e s oid m) as [[s1 err] out]. cbn in Hs1.
  assert (Hn1 : next_id s <= next_id s1 <= next_id s + 1) by (destruct Hi as [(_ & ? & _)|(_ & ? & _)]; lia).
  specialize (IH s1 Hs1 ltac:(unfold zlen; lia) Hms'). destruct (serve s1 ms) as [s2 outs].
  destruct IH as (I1 & I2 & I3 & I4). split_and!; [done | | lia |].
  - cbn. rewrite I2. destruct Hi as [(-> & En & _)|(-> & En & _)]; rewrite En; [done|].
    cbn. rewrite (seqZ_cons (next_id s)) by lia. do 2 f_equal; lia.
  - intros id Hid Hnone. apply I4; [lia|]. unfold obj_find in *. apply find_in_None in Hnone.
    apply find_in_None. intros Hin. destruct Hi as [(_ & _ & Hsub)|(_ & _ & Eids)]; [by apply Hnone, Hsub|].
    rewrite Eids in Hin. apply elem_of_cons in Hin as [->|Hin]; [lia|done].
Qed.

Lemma srv_init_ok p : srv_ok (srv_init p).
Proof. split; cbn; try done; try lia; constructor. Qed.

(** ** Properties *)

(** C24: after any sequence of fewer than 2^32 - 1 messages and stores of clients, each anywhere in the largest
    window of an object that was ever exported, ids of live objects
    are distinct and below the next id, the live count is the number of objects,
    the byte count the sum of their capacities, every creation is either live
    or destroyed; each object's size is within its capacity, which is nothing or a power of two from 1 MiB to 256 MiB, its
    window now is empty or the page-rounded size, and its pages past the largest window there was are still zero. *)
Theorem shmsrv_invariant p ms :
  1 + zlen ms < 2 ^ 32 -> Forall step_ok ms ->
  srv_ok (serve (srv_init p) ms).1.
Proof.
  intros Hn Hms. pose proof (serve_ok ms (srv_init p) (srv_init_ok p) Hn Hms) as H.
  destruct (serve (srv_init p) ms) as [s outs]. apply H.
Qed.

(** ids are never reused: the successful creations of a run are numbered
    consecutively, and an id that was handed out and is no longer live is not
    found again. *)
Theorem shmsrv_ids_fresh s ms :
  srv_ok s -> next_id s + zlen ms < 2 ^ 32 -> Forall step_ok ms ->
  let '(s', outs) := serve s ms in
  created_ids ms outs = seqZ (next_id s) (next_id s' - next_id s) /\
  NoDup (created_ids ms outs) /\
  (forall id, 1 <= id < next_id s -> obj_find s id = None -> obj_find s' id = None).
Proof.
  intros Hs Hn Hms. pose proof (serve_ok ms s Hs Hn Hms) as H.
  destruct (serve s ms) as [s' outs]. destruct H as (_ & H2 & _ & H4).
  split_and!; [done | rewrite H2; apply NoDup_seqZ | done].
Qed.

(** truncation of a live object. It is accepted exactly when the size is at
    most 256 MiB, fits the capacity (or memory for a first allocation is
    granted) and the window can be exported; the object then has the size, the
    bytes between it and a larger old size are zero and the others are kept.
    When it fails the size is kept; other objects are never touched. *)
Theorem shmsrv_truncate e s id o len :
  srv_ok s -> obj_find s id = Some o -> 0 < id < 2 ^ 32 -> 0 <= len ->
  let '(s', r, _) := handle e s id (mtTruncate len) in
  (forall j, j <> id -> obj_find s' j = obj_find s j) /\
  exists o', obj_find s' id = Some o' /\
    match r with
    | Ok _ => truncate_fits e o len = true /\ size o' = len /\ exported o' = round_pages len /\
        (cap o <> 0 -> cap o' = cap o) /\
        (forall i, mem_get (mem o') i = if (len <=? i) && (i <? size o) then 0 else mem_get (mem o) i)
    | Err x => size o' = size o /\ (cap o <> 0 -> cap o' = cap o) /\
        (truncate_fits e o len = false /\ o' = o \/ export_rc e = Err x /\ exported o' = 0)
    end.
Proof.
  intros Hs Hf Hid Hlen. destruct (find_ok s id o Hs Hf) as (Ho & Eid & Hw).
  unfold handle. rewrite u32_small by lia. destruct (Z.eqb_spec id 0); [lia|]. rewrite Hf.
  pose proof (truncate_spec e s o len Ho Hw Hlen) as Ht. destruct (obj_truncate e s o len) as [[s' o'] r].
  destruct Ht as (_ & _ & E1 & _ & Hcap & Hr).
  assert (Eobjs : objs s' = objs s) by (destruct Hcap as [[_ (l & _ & ->)]|[_ (l & _ & ->)]]; done).
  assert (Hfind : forall j, obj_find (obj_store s' o') j = if j =? id then Some o' else obj_find s j).
  { intros j. unfold obj_find. cbn. rewrite Eobjs, find_update, E1, Eid; [done|]. rewrite E1, Eid. eauto. }
  split.
  - intros j Hj. rewrite Hfind. by destruct (Z.eqb_spec j id).
  - exists o'. rewrite Hfind, Z.eqb_refl. split; [done|].
    assert (cap o <> 0 -> cap o' = cap o) by (destruct Hcap as [[? _]|[? _]]; done).
    destruct r; [destruct Hr as (? & ? & ? & ?); by split_and!|]. destruct Hr as [? [?|(? & ? & ?)]]; split_and!; auto.
Qed.

(** a write followed by a read. The write stores the part of the data that
    lies below the object's size and returns its length (EFBIG when nothing
    fits); a following read at any offset sees exactly those bytes over the old
    ones; accesses stay inside the object's size. *)
Theorem shmsrv_write_read e s id o offs data offs2 n2 :
  srv_ok s -> obj_find s id = Some o -> 0 < id < 2 ^ 32 ->
  0 <= offs < 2 ^ 64 -> 0 <= offs2 < 2 ^ 64 -> 0 <= n2 ->
  let n := span o offs (zlen data) in
  let '(s1, r1, _) := handle e s id (mtWrite offs data) in
  let '(s2, r2, out) := handle e s1 id (mtRead offs2 n2) in
  let m := span o offs2 n2 in
  (n <> 0 -> offs + n <= size o) /\ (m <> 0 -> offs2 + m <= size o) /\
  r1 = (if n =? 0 then if zlen data =? 0 then Ok 0 else Err EFBIG else Ok n) /\
  s2 = s1 /\ r2 = Ok m /\
  exists bytes, out = OData bytes /\ zlen bytes = m /\
    forall k, (k < Z.to_nat m)%nat -> bytes !! k =
      Some (let i := offs2 + Z.of_nat k in
            if (offs <=? i) && (i <? offs + n) then data !!! Z.to_nat (i - offs)
            else mem_get (mem o) i).
Proof.
  intros Hs Hf Hid Ho1 Ho2 Hn2. destruct (find_ok s id o Hs Hf) as (Ho & Eid & _).
  assert (Hd : 0 <= zlen data) by (unfold zlen; lia).
  destruct (span_range o offs (zlen data)) as [Hsp1 Hsp2]; [lia | done |].
  destruct (span_range o offs2 n2) as [Hsp3 Hsp4]; [lia | done |].
  set (n := span o offs (zlen data)) in *. set (m := span o offs2 n2) in *.
  set (o1 := if n =? 0 then o else with_mem o (mem_write (mem o) offs (take (Z.to_nat n) data))).
  assert (Hw : handle e s id (mtWrite offs data) =
    (if n =? 0 then s else obj_store s o1,
     if n =? 0 then if zlen data =? 0 then Ok 0 else Err EFBIG else Ok n, ONone)).
  { unfold handle. rewrite u32_small by lia. destruct (Z.eqb_spec id 0); [lia|]. rewrite Hf.
    unfold u64. rewrite Z.mod_small by lia. fold (span o offs (zlen data)). fold n.
    unfold o1. by destruct (Z.eqb_spec n 0). }
  rewrite Hw. set (s1 := if n =? 0 then s else obj_store s o1).
  assert (Hf1 : obj_find s1 id = Some o1).
  { unfold s1, o1. destruct (Z.eqb_spec n 0); [done|]. unfold obj_find. cbn.
    rewrite find_update by (cbn; rewrite Eid; eauto). cbn. by rewrite Eid, Z.eqb_refl. }
  assert (Esz : size o1 = size o) by (unfold o1; by case_if).
  unfold handle. rewrite u32_small by lia. destruct (Z.eqb_spec id 0); [lia|]. rewrite Hf1.
  unfold u64. rewrite Z.mod_small, Esz by lia. fold (span o offs2 n2). fold m.
  split_and!; try done. eexists. split; [done|]. split.
  { unfold zlen. rewrite mem_read_length. lia. }
  intros k Hk. rewrite mem_read_lookup by done. f_equal. cbn zeta. set (i := offs2 + Z.of_nat k).
  unfold o1. destruct (Z.eqb_spec n 0) as [->|].
  { rewrite Z.add_0_r. destruct (Z.leb_spec offs i), (Z.ltb_spec i offs); cbn; try done; lia. }
  cbn [with_mem mem]. rewrite mem_write_get. unfold zlen in *. rewrite length_take, Nat.min_l by lia.
  rewrite Z2Nat.id by lia. case_if; [|done]. bsimp.
  rewrite !list_lookup_total_alt, lookup_take_lt by lia. done.
Qed.

(** ** Concrete instances *)

Definition demo_e : env := mk_env true true (Ok 0) 0.
Definition demo_create : step := Message demo_e 0 (mtDevCtl SHMSRV_OP_CREATE SHMSRV_PROTO).
Definition demo_srv : srv := (serve (srv_init 7) [demo_create; demo_create; Message demo_e 1 (mtTruncate 5000)]).1.
Definition demo_obj : shm_obj := mk_obj 1 0 5000 8192 (2 ^ 20) ∅.

Lemma demo_srv_ok : srv_ok demo_srv /\ obj_find demo_srv 1 = Some demo_obj.
Proof.
  split; [|vm_compute; reflexivity].
  pose proof (serve_ok [demo_create; demo_create; Message demo_e 1 (mtTruncate 5000)] (srv_init 7) (srv_init_ok 7)) as H.
  destruct (serve (srv_init 7) _) as [s outs] eqn:E. unfold demo_srv. rewrite E. cbn [fst].
  apply H; [vm_compute; reflexivity|]. repeat (apply Forall_cons_2; [cbn; lia|]). by apply Forall_nil_2.
Qed.

(** A client stores a byte in the tail of the last page, past the size. *)
Definition demo_run : list step := [demo_create; Message demo_e 1 (mtTruncate 5000); ClientStore 1 8191 [7]; Message demo_e 1 (mtTruncate 8192)].

Lemma shmsrv_invariant_witness : srv_ok (serve (srv_init 7) demo_run).1 /\ mem_get (mem (default demo_obj (obj_find (serve (srv_init 7) demo_run).1 1))) 8191 = 7.
Proof.
  split; [|vm_compute; reflexivity]. apply (shmsrv_invariant 7 demo_run); [vm_compute; reflexivity|].
  repeat (apply Forall_cons_2; [first [exact I | cbn; lia]|]). apply Forall_nil_2.
Defined.

Lemma shmsrv_ids_fresh_witness :
  let ms := [Message demo_e 1 mtClose; demo_create] in
  created_ids ms (serve demo_srv ms).2 = [3] /\ obj_find (serve demo_srv ms).1 1 = None.
Proof.
  intros ms. pose proof (shmsrv_ids_fresh demo_srv ms (proj1 demo_srv_ok)) as H.
  assert (En : next_id (serve demo_srv ms).1 = 4) by (vm_compute; reflexivity).
  split; [|vm_compute; reflexivity].
  destruct (serve demo_srv ms) as [s' outs]. cbn [fst snd] in *.
  assert (Hl : next_id demo_srv + zlen ms < 2 ^ 32) by (vm_compute; reflexivity).
  assert (Hm : Forall step_ok ms).
  { repeat (apply Forall_cons_2; [exact I|]). apply Forall_nil_2. }
  rewrite (proj1 (H Hl Hm)), En. vm_compute. reflexivity.
Defined.

Lemma shmsrv_truncate_witness :
  exists o', obj_find (handle demo_e demo_srv 1 (mtTruncate 100)).1.1 1 = Some o' /\ size o' = 100.
Proof.
  destruct demo_srv_ok as [Hs Hf].
  pose proof (shmsrv_truncate demo_e demo_srv 1 demo_obj 100 Hs Hf ltac:(lia) ltac:(lia)) as H.
  assert (Er : (handle demo_e demo_srv 1 (mtTruncate 100)).1.2 = Ok 0) by (vm_compute; reflexivity).
  destruct (handle demo_e demo_srv 1 (mtTruncate 100)) as [[s' r] out]. cbn [fst snd] in *.
  destruct H as (_ & o' & H1 & H2). exists o'. rewrite Er in H2. split; [exact H1 | exact (proj1 (proj2 H2))].
Defined.

Lemma shmsrv_write_read_witness :
  exists bytes, (handle demo_e (handle demo_e demo_srv 1 (mtWrite 10 [1; 2; 3])).1.1 1 (mtRead 11 2)).2
    = OData bytes /\ bytes !! 0%nat = Some 2.
Proof.
  destruct demo_srv_ok as [Hs Hf].
  pose proof (shmsrv_write_read demo_e demo_srv 1 demo_obj 10 [1; 2; 3] 11 2 Hs Hf
    ltac:(lia) ltac:(lia) ltac:(lia) ltac:(lia)) as H. cbn zeta in H.
  destruct (handle demo_e demo_srv 1 (mtWrite 10 [1; 2; 3])) as [[s1 r1] out1]. cbn [fst snd].
  destruct (handle demo_e s1 1 (mtRead 11 2)) as [[s2 r2] out2]. cbn [fst snd].
  destruct H as (_ & _ & _ & _ & _ & bytes & E & _ & Hb).
  exists bytes. split; [exact E|]. rewrite (Hb 0%nat); [reflexivity | vm_compute; lia].
Defined.

End ShmSrvCorrect.
