(* ===== verification/LibRtt.v ===== *)
(** * RTT pipes through the debug probe ([src/librtt/librtt.c], [librtt.h])

    The descriptor lives in memory shared with the probe, so its indices may hold
    any value between two calls; within a call each is loaded once. A pipe's
    [pbuf] is the memory its [ptr] points at. Cache maintenance is recorded as
    address ranges. Pointers and [size_t] have 32 bits, as on the Cortex-M
    targets of the library; the default configuration of two channels each way
    is used. *)

From S2P Require Import Prelude Fifo.
Import Fifo.

Module LibRtt.

Definition LIBRTT_TXCHANNELS : Z := 2.
Definition LIBRTT_RXCHANNELS : Z := 2.
Definition LIBRTT_DESC_SIZE : Z := 256.
Definition LIBRTT_TAG_BACKWARD : string := "EPIP TTR".
Definition librtt_tagReversed : list Z := Z.of_N <$> (Ascii.N_of_ascii <$> String.list_ascii_of_string LIBRTT_TAG_BACKWARD).
Definition librtt_tagLength : Z := zlen librtt_tagReversed.
Definition sizeof_rtt_desc : Z := 24.
Definition sizeof_rtt_pipe : Z := 24.

Record rtt_pipe := mk_pipe {
  name : option string; ptr : Z; sz : Z; wr : Z; rd : Z; flags : Z; pbuf : list Z
}.
Definition zero_pipe : rtt_pipe := mk_pipe None 0 0 0 0 0 [].

Record rtt_desc := mk_desc {
  tag : list Z; txChannels : Z; rxChannels : Z; channel : list rtt_pipe
}.

Inductive cache_op := Inval (addr len : Z) | Clean (addr len : Z).

Record common := mk_common {
  rtt : option rtt_desc; invalFn : bool; cleanFn : bool; lastRd : list Z; ops : list cache_op
}.

(** The pipe of a channel number. *)
Definition chan (r : rtt_desc) (ch : Z) : rtt_pipe := default zero_pipe (buf_get (channel r) ch).
Definition set_chan (r : rtt_desc) (ch : Z) (p : rtt_pipe) : rtt_desc :=
  mk_desc (tag r) (txChannels r) (rxChannels r) (<[Z.to_nat ch := p]> (channel r)).
Definition set_rtt (c : common) (r : option rtt_desc) : common :=
  mk_common r (invalFn c) (cleanFn c) (lastRd c) (ops c).
Definition add_ops (c : common) (l : list cache_op) : common :=
  mk_common (rtt c) (invalFn c) (cleanFn c) (lastRd c) (ops c ++ l).

(** [performCacheOp]; [op] is [None] for a NULL callback. *)
Definition performCacheOp (op : option (Z -> Z -> cache_op)) (buf size rd wr : Z) : list cache_op :=
  match op with
  | None => []
  | Some op =>
      if rd =? wr then []
      else if wr <? rd then [op (buf + rd) (u32 (size - rd)); op buf (wr + 1)]
      else [op (buf + rd) (wr - rd + 1)]
  end.

Definition librtt_checkTx (c : common) (ch : Z) : bool :=
  match rtt c with
  | None => false
  | Some r => (ch <? txChannels r) && (ch <? LIBRTT_TXCHANNELS)
  end.
Definition librtt_checkRx (c : common) (ch : Z) : bool :=
  match rtt c with
  | None => false
  | Some r => (ch <? rxChannels r) && (ch <? LIBRTT_RXCHANNELS)
  end.

(** [while ((todo != 0) && (rd != wr))] of [librtt_read]. *)
Fixpoint read_loop (todo : nat) (src : list Z) (mask rd wr : Z) (acc : list Z) : list Z * Z * nat :=
  match todo with
  | O => (acc, rd, O)
  | S todo' =>
      if rd =? wr then (acc, rd, todo)
      else read_loop todo' src mask (u32 (rd + 1) &&& mask) wr (acc ++ [arr_get src rd])
  end.

Definition librtt_read (c : common) (ch count : Z) : common * cres Z * list Z :=
  match rtt c with
  | Some r =>
      if negb (librtt_checkRx c ch) then (c, Err ENODEV, [])
      else
        let ch := u32 (ch + txChannels r) in
        let p := chan r ch in
        let mask := u32 (sz p - 1) in
        let rd0 := rd p &&& mask in
        let wr0 := wr p &&& mask in
        let c := add_ops c (performCacheOp (if invalFn c then Some Inval else None) (ptr p) (u32 (mask + 1)) rd0 wr0) in
        let '(out, rd1, todo) := read_loop (Z.to_nat count) (pbuf p) mask rd0 wr0 [] in
        (set_rtt c (Some (set_chan r ch (mk_pipe (name p) (ptr p) (sz p) (wr p) rd1 (flags p) (pbuf p)))),
         Ok (count - Z.of_nat todo), out)
  | None => (c, Err ENODEV, [])
  end.

(** The first loop of [librtt_write], and its second one ([until = None]). *)
Fixpoint write_loop (src : list Z) (dst : list Z) (mask : Z) (until : option Z) (wr : Z) : list Z * Z * list Z :=
  match src with
  | [] => (dst, wr, [])
  | b :: src' =>
      if match until with Some rd => rd =? wr | None => false end then (dst, wr, src)
      else write_loop src' (arr_set dst wr b) mask until (u32 (wr + 1) &&& mask)
  end.

Definition librtt_write (c : common) (ch : Z) (data : list Z) (allowOverwrite : bool)
    : common * cres Z :=
  match rtt c with
  | Some r =>
      if negb (librtt_checkTx c ch) then (c, Err ENODEV)
      else
        let p := chan r ch in
        let mask := u32 (sz p - 1) in
        let rd0 := u32 (rd p + mask) &&& mask in
        let wr0 := wr p &&& mask in
        let '(dst, wr1, rest) := write_loop data (pbuf p) mask (Some rd0) wr0 in
        let '(dst, wr1, rest, rd1) :=
          if (rd0 =? wr1) && allowOverwrite then
            let '(dst, wr2, rest) := write_loop rest dst mask None wr1 in (dst, wr2, rest, wr2)
          else (dst, wr1, rest, rd p) in
        let c := add_ops c (performCacheOp (if cleanFn c then Some Clean else None) (ptr p) (u32 (mask + 1)) rd0 wr1) in
        (set_rtt c (Some (set_chan r ch (mk_pipe (name p) (ptr p) (sz p) wr1 rd1 (flags p) dst))),
         Ok (zlen data - zlen rest))
  | None => (c, Err ENODEV)
  end.

Definition librtt_rxAvail (c : common) (ch : Z) : Z :=
  match rtt c with
  | Some r =>
      if negb (librtt_checkRx c ch) then 0
      else
        let p := chan r (u32 (ch + txChannels r)) in
        let mask := u32 (sz p - 1) in
        let rd0 := rd p &&& mask in
        let wr0 := wr p &&& mask in
        if wr0 <? rd0 then u32 (mask + 1 - (rd0 - wr0)) else wr0 - rd0
  | None => 0
  end.

Definition librtt_txAvail (c : common) (ch : Z) : Z :=
  match rtt c with
  | Some r =>
      if negb (librtt_checkTx c ch) then 0
      else
        let p := chan r ch in
        let mask := u32 (sz p - 1) in
        let rd0 := u32 (rd p + mask) &&& mask in
        let wr0 := wr p &&& mask in
        if rd0 <? wr0 then u32 (mask + 1 - (wr0 - rd0)) else rd0 - wr0
  | None => 0
  end.

Definition librtt_rxReset (c : common) (ch : Z) : common :=
  match rtt c with
  | Some r =>
      if negb (librtt_checkRx c ch) then c
      else
        let ch := u32 (ch + txChannels r) in
        let p := chan r ch in
        set_rtt c (Some (set_chan r ch (mk_pipe (name p) (ptr p) (sz p) (wr p) (wr p) (flags p) (pbuf p))))
  | None => c
  end.

Definition librtt_txReset (c : common) (ch : Z) : common :=
  match rtt c with
  | Some r =>
      if negb (librtt_checkTx c ch) then c
      else
        let p := chan r ch in
        set_rtt c (Some (set_chan r ch (mk_pipe (name p) (ptr p) (sz p) (rd p) (rd p) (flags p) (pbuf p))))
  | None => c
  end.

Definition librtt_txCheckReaderAttached (c : common) (ch : Z) : common * Z :=
  match rtt c with
  | Some r =>
      if negb (librtt_checkTx c ch) then (c, 0)
      else
        let x := rd (chan r ch) in
        if negb (arr_get (lastRd c) ch =? x)
        then (mk_common (rtt c) (invalFn c) (cleanFn c) (arr_set (lastRd c) ch x) (ops c), 1)
        else (c, 0)
  | None => (c, 0)
  end.

(** ** Attaching to, creating and dropping a descriptor *)

Definition librtt_verifyChannel (r : rtt_desc) (ch buffers buffersSize : Z) : bool :=
  let bufEnd := buffers + buffersSize in
  let p := chan r ch in
  negb ((sz p =? 0) || negb ((sz p &&& (sz p - 1)) =? 0)) &&
  negb ((ptr p <? buffers) || (bufEnd <=? ptr p)) &&
  negb ((ptr p + sz p <=? buffers) || (bufEnd <? ptr p + sz p)).

(** The tag is the reversed constant. *)
Fixpoint tag_matches (rev : list Z) (tag : list Z) (n : Z) : bool :=
  match rev with
  | [] => true
  | c :: rev => (c =? arr_get tag (librtt_tagLength - 1 - n)) && tag_matches rev tag (n + 1)
  end.

(** The loop over the channels: [lastRd] is filled in as it goes. *)
Fixpoint verify_loop (k : nat) (n : Z) (r : rtt_desc) (buffers buffersSize : Z) (last : list Z)
    : list Z * bool :=
  match k with
  | O => (last, true)
  | S k =>
      if negb (librtt_verifyChannel r n buffers buffersSize) then (last, false)
      else
        let last := if n <? LIBRTT_TXCHANNELS then arr_set last n (rd (chan r n)) else last in
        verify_loop k (n + 1) r buffers buffersSize last
  end.

Definition librtt_verify (c : common) (r : rtt_desc) (cbSize buffers buffersSize : Z)
    (inval clean : bool) : common * cres Z :=
  if cbSize <? sizeof_rtt_desc then (c, Err EINVAL)
  else if negb (tag_matches librtt_tagReversed (tag r) 0) then (c, Err EINVAL)
  else
    let total := u32 (txChannels r + rxChannels r) in
    let realCbSize := u32 (sizeof_rtt_desc + u32 (total * sizeof_rtt_pipe)) in
    if cbSize <? realCbSize then (c, Err EINVAL)
    else
      let totalChannels := s32 total in
      let '(last, ok) := verify_loop (Z.to_nat totalChannels) 0 r buffers buffersSize (lastRd c) in
      let c := mk_common (rtt c) (invalFn c) (cleanFn c) last (ops c) in
      if negb ok then (c, Err EINVAL)
      else (mk_common (Some r) inval clean (lastRd c) (ops c), Ok 0).

(** The tag as [librtt_init] stores it in 16 zeroed bytes. *)
Definition stored_tag : list Z := rev librtt_tagReversed ++ replicate (16 - length librtt_tagReversed) 0.

Definition librtt_init (c : common) (inval clean : bool) : common * cres Z :=
  let cbSize := sizeof_rtt_desc + (LIBRTT_TXCHANNELS + LIBRTT_RXCHANNELS) * sizeof_rtt_pipe in
  if (LIBRTT_DESC_SIZE <? cbSize) || bool_decide (is_Some (rtt c)) then (c, Err EINVAL)
  else
    (mk_common (Some (mk_desc stored_tag LIBRTT_TXCHANNELS LIBRTT_RXCHANNELS (replicate 4 zero_pipe)))
       inval clean (lastRd c) (ops c), Ok 0).

Definition librtt_txName : list string := ["rtt1_tx"; "rtt2_tx"]%string.
Definition librtt_rxName : list string := ["rtt1_rx"; "rtt2_rx"]%string.

Definition librtt_initChannel (c : common) (isTx : bool) (ch addr : Z) (buf : list Z) (size : Z)
    : common * cres Z :=
  match rtt c with
  | None => (c, Err EINVAL)
  | Some r =>
      if (size =? 0) || negb ((size &&& (size - 1)) =? 0) then (c, Err EINVAL)
      else if isTx then
        if (LIBRTT_TXCHANNELS <=? ch) || (txChannels r <=? ch) then (c, Err EINVAL)
        else
          let c := mk_common (rtt c) (invalFn c) (cleanFn c) (arr_set (lastRd c) ch 0) (ops c) in
          let p := chan r ch in
          (set_rtt c (Some (set_chan r ch
             (mk_pipe (librtt_txName !! Z.to_nat ch) addr size 0 0 (flags p) buf))), Ok 0)
      else
        if (LIBRTT_RXCHANNELS <=? ch) || (rxChannels r <=? ch) then (c, Err EINVAL)
        else
          let k := u32 (ch + txChannels r) in
          let p := chan r k in
          (set_rtt c (Some (set_chan r k
             (mk_pipe (librtt_rxName !! Z.to_nat ch) addr size 0 0 (flags p) buf))), Ok 0)
  end.

Definition librtt_done (c : common) : common := set_rtt c None.

End LibRtt.
