(* ===== verification/LibRttCorrect.v ===== *)
(** * Correctness of the RTT pipes

    A pipe whose size is a power of two is a bounded byte queue, whatever values
    the probe left in its indices; the file states reads and writes on that
    queue, which cache ranges they maintain, and what [librtt_verify]
    guarantees. *)

From S2P Require Import Prelude Fifo LibRtt.
Import Fifo LibRtt.

Module LibRttCorrect.

(** A pipe over a buffer of its size, a power of two. *)
Definition pipe_ok (p : rtt_pipe) : Prop :=
  (exists k, 0 <= k <= 31 /\ sz p = 2 ^ k) /\ zlen (pbuf p) = sz p.

Definition pmask (p : rtt_pipe) : Z := u32 (sz p - 1).

(** The queue a pipe holds. *)
Definition as_fifo (p : rtt_pipe) : fifo :=
  mk_fifo (wr p &&& pmask p) (rd p &&& pmask p) (pmask p) (pbuf p).

Lemma pmask_eq p : pipe_ok p -> pmask p = sz p - 1 /\ 0 <= pmask p < 2 ^ 31.
Proof.
  intros [(k & Hk & E) _]. unfold pmask. rewrite E. pose proof (pow2_pos k).
  assert (2 ^ k <= 2 ^ 31) by (apply Z.pow_le_mono_r; lia). rewrite u32_small by lia. lia.
Qed.

Lemma land_pmask p x : pipe_ok p -> x &&& pmask p = x mod sz p.
Proof.
  intros Hp. destruct (pmask_eq p Hp) as [-> _]. destruct Hp as [(k & Hk & ->) _]. apply land_mask. lia.
Qed.

Lemma as_fifo_wf p : pipe_ok p -> fifo_wf (as_fifo p).
Proof.
  intros Hp. destruct (pmask_eq p Hp) as [Em Hm]. unfold fifo_wf, as_fifo. cbn.
  rewrite !land_pmask by done. destruct Hp as [(k & Hk & E) Hl].
  split; [exists k; split; [done|lia]|]. split; [lia|].
  pose proof (Z.mod_pos_bound (wr p) (sz p)). pose proof (Z.mod_pos_bound (rd p) (sz p)). lia.
Qed.

(** ** Reading *)

Lemma read_loop_spec n : forall f acc,
  fifo_wf f ->
  exists t, read_loop n (data f) (size_mask f) (tail f) (head f) acc =
      (acc ++ take n (contents f), t, (n - length (contents f))%nat) /\
    fifo_wf (mk_fifo (head f) t (size_mask f) (data f)) /\
    contents (mk_fifo (head f) t (size_mask f) (data f)) = drop n (contents f).
Proof.
  induction n as [|n IH]; intros f acc Hwf; cbn [read_loop].
  { exists (tail f). destruct f. by rewrite take_0, app_nil_r. }
  rewrite (Z.eqb_sym (tail f)). fold (fifo_is_empty f). destruct (fifo_is_empty f) eqn:E.
  - apply is_empty_spec in E; [|done]. exists (tail f). destruct f. rewrite E. cbn.
    by rewrite app_nil_r.
  - assert (Hne : contents f <> []) by (intros H; apply is_empty_spec in H; [congruence|done]).
    pose proof (fifo_pop_back_contents f Hwf Hne) as Hc.
    destruct (IH (fifo_pop_back f).1 (acc ++ [arr_get (data f) (tail f)])) as (t & E1 & E2 & E3);
      [by apply fifo_pop_back_wf|].
    exists t. cbn in E1, E2, E3. cbn [fifo_pop_back fst snd] in Hc. rewrite Hc. cbn [take drop length].
    rewrite E1, <- app_assoc. done.
Qed.

(** ** Cache ranges *)

Definition in_range (a : Z) (o : cache_op) : Prop :=
  match o with Inval b l | Clean b l => b <= a < b + l end.

(** The ranges cover the ring from [rd] up to and including [wr]. *)
Lemma cache_covers op buf size rd wr i :
  (forall b l a, b <= a < b + l -> in_range a (op b l)) ->
  0 < size < 2 ^ 32 -> 0 <= rd < size -> 0 <= wr < size -> rd <> wr -> 0 <= i < size ->
  (i - rd) mod size <= (wr - rd) mod size ->
  Exists (in_range (buf + i)) (performCacheOp (Some op) buf size rd wr).
Proof.
  intros Hop Hs Hr Hw Hne Hi Hle. unfold performCacheOp.
  destruct (Z.eqb_spec rd wr); [done|]. rewrite !mod_sub_cases in Hle by lia.
  destruct (Z.ltb_spec wr rd).
  - rewrite u32_small by lia. destruct (Z.le_gt_cases rd i).
    + apply Exists_cons_hd, Hop. lia.
    + apply Exists_cons_tl, Exists_cons_hd, Hop. repeat case_if; bsimp; lia.
  - apply Exists_cons_hd, Hop. repeat case_if; bsimp; lia.
Qed.

(** ** Writing *)

(** Where the writer must stop: one slot before the reader. *)
Lemma stop_eq p :
  pipe_ok p -> u32 (rd p + pmask p) &&& pmask p = (tail (as_fifo p) - 1) mod sz p.
Proof.
  intros Hp. destruct (pmask_eq p Hp) as [Em Hm]. cbn [as_fifo tail]. rewrite !(land_pmask p) by done.
  destruct Hp as [(k & Hk & E) _]. rewrite Em. unfold u32. rewrite E.
  rewrite Z.mod_mod_divide by (exists (2 ^ (32 - k)); rewrite <- Z.pow_add_r by lia; f_equal; lia).
  rewrite Zminus_mod_idemp_l. replace (rd p + (2 ^ k - 1)) with (rd p - 1 + 1 * 2 ^ k) by lia.
  by rewrite Z.mod_add by (pose proof (pow2_pos k); lia).
Qed.

Lemma full_stop f :
  fifo_wf f -> ((tail f - 1) mod (size_mask f + 1) =? head f) = fifo_is_full f.
Proof.
  intros Hwf. unfold fifo_is_full. pose proof (wf_mask_nonneg f Hwf). destruct Hwf as (Hk & Hd & Hh & Ht) eqn:E.
  rewrite wf_next by done. rewrite mod_sub_cases by lia.
  apply Bool.eq_iff_eq_true. rewrite !Z.eqb_eq. repeat case_if; bsimp; lia.
Qed.

Lemma write_loop_spec stop src : forall f,
  fifo_wf f -> stop = (tail f - 1) mod (size_mask f + 1) ->
  let n := Z.to_nat (fifo_freespace f) in
  exists d h, write_loop src (data f) (size_mask f) (Some stop) (head f) = (d, h, drop n src) /\
    fifo_wf (mk_fifo h (tail f) (size_mask f) d) /\
    contents (mk_fifo h (tail f) (size_mask f) d) = contents f ++ take n src.
Proof.
  induction src as [|b src IH]; intros f Hwf Hstop n; cbn [write_loop].
  { exists (data f), (head f). destruct f. cbn. by rewrite drop_nil, take_nil, app_nil_r. }
  rewrite Hstop, full_stop by done. pose proof (freespace_eq f Hwf) as Hfree. pose proof (count_range f Hwf).
  destruct (fifo_is_full f) eqn:E.
  - apply is_full_spec in E; [|done]. rewrite length_contents in E by done.
    assert (Hn : n = 0%nat) by (unfold n; lia). rewrite Hn.
    exists (data f), (head f). destruct f. cbn. by rewrite app_nil_r.
  - pose proof E as E'. apply not_full_spec in E'; [|done]. rewrite length_contents in E' by done.
    destruct (IH (fifo_push f b)) as (d & h & E1 & E2 & E3); [by apply fifo_push_wf | done |].
    assert (Hn : n = S (Z.to_nat (fifo_freespace (fifo_push f b)))).
    { unfold n. rewrite !freespace_eq by auto using fifo_push_wf.
      rewrite <- !length_contents by auto using fifo_push_wf. rewrite fifo_push_contents by done.
      rewrite length_app. cbn. unfold capacity in *. cbn. rewrite <- length_contents in E' by done. lia. }
    exists d, h. rewrite Hn. cbn [drop take]. cbn in E1, E2, E3. rewrite <- Hstop. rewrite E1, E3.
    split_and!; [done | done |]. rewrite fifo_push_contents by done. by rewrite <- app_assoc.
Qed.

Lemma overwrite_loop_spec src : forall f,
  fifo_wf f ->
  exists d h, write_loop src (data f) (size_mask f) None (head f) = (d, h, []) /\
    zlen d = zlen (data f) /\ 0 <= h <= size_mask f.
Proof.
  induction src as [|b src IH]; intros f Hwf; cbn [write_loop].
  { exists (data f), (head f). split_and!; [done | done | apply Hwf | apply Hwf]. }
  destruct (IH (fifo_push f b)) as (d & h & E1 & E2 & E3); [by apply fifo_push_wf|].
  exists d, h. cbn in E1. split_and!; [done | | apply E3 | apply E3]. rewrite E2. cbn. unfold zlen. by rewrite length_arr_set.
Qed.

(** ** Channels *)

Lemma chan_set_eq r k p : 0 <= k < zlen (channel r) -> chan (set_chan r k p) k = p.
Proof.
  intros Hk. unfold chan, set_chan, buf_get, zlen in *. cbn. rewrite bool_decide_eq_true_2 by lia.
  by rewrite list_lookup_insert_eq by lia.
Qed.

Lemma chan_set_ne r k j p : 0 <= k -> j <> k -> chan (set_chan r k p) j = chan r j.
Proof.
  intros Hk Hj. unfold chan, set_chan, buf_get. cbn. case_bool_decide; [|done].
  by rewrite list_lookup_insert_ne by lia.
Qed.

(** A pipe with new indices and bytes. *)
Definition moved (p : rtt_pipe) (w r : Z) (d : list Z) : rtt_pipe :=
  mk_pipe (name p) (ptr p) (sz p) w r (flags p) d.

Lemma moved_fifo p w r d :
  pipe_ok p -> zlen d = zlen (pbuf p) -> 0 <= w < sz p -> 0 <= r < sz p ->
  pipe_ok (moved p w r d) /\ as_fifo (moved p w r d) = mk_fifo w r (pmask p) d.
Proof.
  intros Hp Hd Hw Hr. assert (Hp' : pipe_ok (moved p w r d)).
  { destruct Hp as [Hk Hl]. split; [done|]. cbn. lia. }
  split; [done|]. unfold as_fifo. change (pmask (moved p w r d)) with (pmask p).
  rewrite !(land_pmask p) by done. cbn. by rewrite !Z.mod_small.
Qed.

(** The amount a reader finds, as the code computes it. *)
Lemma avail_eq p :
  pipe_ok p ->
  let r0 := rd p &&& pmask p in let w0 := wr p &&& pmask p in
  (if w0 <? r0 then u32 (pmask p + 1 - (r0 - w0)) else w0 - r0) = zlen (contents (as_fifo p)).
Proof.
  intros Hp r0 w0. pose proof (as_fifo_wf p Hp) as Hwf. destruct (pmask_eq p Hp) as [Em Hm].
  unfold zlen. rewrite length_contents, count_eq by done. cbn. fold r0 w0.
  pose proof Hwf as (_ & _ & Hh & Ht). cbn in Hh, Ht. fold r0 w0 in Hh, Ht.
  destruct (Z.ltb_spec w0 r0), (Z.leb_spec r0 w0); try lia. rewrite u32_small; lia.
Qed.

(** The free space, as the code computes it. *)
Lemma txavail_eq p :
  pipe_ok p ->
  let r0 := u32 (rd p + pmask p) &&& pmask p in let w0 := wr p &&& pmask p in
  (if r0 <? w0 then u32 (pmask p + 1 - (w0 - r0)) else r0 - w0) = fifo_freespace (as_fifo p).
Proof.
  intros Hp r0 w0. pose proof (as_fifo_wf p Hp) as Hwf. destruct (pmask_eq p Hp) as [Em Hm].
  unfold r0. rewrite stop_eq by done. rewrite freespace_eq, count_eq by done. unfold capacity. cbn. fold w0.
  set (t := rd p &&& pmask p). pose proof Hwf as (_ & _ & Hh & Ht). cbn in Hh, Ht. fold w0 in Hh. fold t in Ht.
  rewrite mod_sub_cases by lia. unfold u32. repeat (case_if; bsimp); try lia; rewrite Z.mod_small; lia.
Qed.

(** ** Properties *)

(** reading a channel. Whatever the probe left in the indices, the read
    returns the first [count] bytes of the queue and removes exactly those,
    [librtt_rxAvail] is the queue's length, no other channel changes, and with a
    cache the whole queue was invalidated before it was read. *)
Theorem rtt_read_queue c r ch count :
  rtt c = Some r -> librtt_checkRx c ch = true -> 0 <= ch -> 0 <= txChannels r -> 0 <= count ->
  ch + txChannels r < zlen (channel r) < 2 ^ 32 -> pipe_ok (chan r (ch + txChannels r)) ->
  let k := ch + txChannels r in
  let p := chan r k in
  let q := contents (as_fifo p) in
  let '(c', res, out) := librtt_read c ch count in
  out = take (Z.to_nat count) q /\ res = Ok (zlen out) /\ librtt_rxAvail c ch = zlen q /\
  exists r', rtt c' = Some r' /\ (forall j, j <> k -> chan r' j = chan r j) /\
    pipe_ok (chan r' k) /\ contents (as_fifo (chan r' k)) = drop (Z.to_nat count) q /\
    (invalFn c = true -> forall i, 0 <= i < zlen q ->
       Exists (in_range (ptr p + (rd p + i) mod sz p)) (ops c')).
Proof.
  intros Hr Hc Hch Htx Hcount Hlen Hp k p q.
  pose proof (as_fifo_wf p Hp) as Hwf. destruct (pmask_eq p Hp) as [Em Hm].
  unfold librtt_read, librtt_rxAvail. rewrite Hr, Hc. cbn [negb]. rewrite u32_small by lia. fold k p (pmask p).
  destruct (read_loop_spec (Z.to_nat count) (as_fifo p) [] Hwf) as (t & E1 & E2 & E3).
  cbn [as_fifo data size_mask tail head] in E1, E2, E3. rewrite E1. fold (as_fifo p). fold q. cbn [app].
  pose proof E2 as (_ & _ & Hh & Ht). cbn in Hh, Ht.
  destruct (moved_fifo p (wr p mod sz p) t (pbuf p) Hp) as [M1 M2]; [done | apply Z.mod_pos_bound; lia | lia |].
  assert (M3 : as_fifo (moved p (wr p) t (pbuf p)) = as_fifo (moved p (wr p mod sz p) t (pbuf p))).
  { unfold as_fifo. change (pmask (moved p (wr p) t (pbuf p))) with (pmask p).
    change (pmask (moved p (wr p mod sz p) t (pbuf p))) with (pmask p). rewrite !(land_pmask p) by done.
    cbn. by rewrite Z.mod_mod by lia. }
  split; [done|]. split; [unfold zlen; rewrite length_take; f_equal; fold q; lia|].
  split; [exact (avail_eq p Hp)|].
  eexists. split; [reflexivity|]. split; [intros j Hj; apply chan_set_ne; lia|].
  rewrite chan_set_eq by lia. change (mk_pipe _ _ _ _ _ _ _) with (moved p (wr p) t (pbuf p)). split; [|split].
  - destruct Hp as [Hk Hl]. by split.
  - rewrite M3, M2. rewrite <- (land_pmask p) by done. exact E3.
  - intros Hinv i Hi. cbn. rewrite Hinv. apply Exists_app. right.
    assert (Hq : zlen q = (wr p mod sz p - rd p mod sz p) mod sz p).
    { unfold zlen, q. rewrite length_contents, count_eq by done. cbn. rewrite !(land_pmask p) by done.
      pose proof (Z.mod_pos_bound (wr p) (sz p)). pose proof (Z.mod_pos_bound (rd p) (sz p)).
      rewrite mod_sub_cases by lia. case_if; lia. }
    rewrite !(land_pmask p) by done. rewrite Em, Z.sub_add, u32_small by lia.
    pose proof (Z.mod_pos_bound (wr p) (sz p)). pose proof (Z.mod_pos_bound (rd p) (sz p)).
    pose proof (Z.mod_pos_bound (wr p mod sz p - rd p mod sz p) (sz p)).
    apply cache_covers; [done | lia | lia | lia | | apply Z.mod_pos_bound; lia |].
    + intros E. rewrite E, Z.sub_diag, Z.mod_0_l in Hq; lia.
    + rewrite <- (Zminus_mod (rd p + i)). replace (rd p + i - rd p) with i by lia.
      rewrite Z.mod_small; lia.
Qed.

Lemma moved_write p h d :
  pipe_ok p -> zlen d = zlen (pbuf p) -> 0 <= h < sz p ->
  as_fifo (moved p h (rd p) d) = mk_fifo h (rd p &&& pmask p) (pmask p) d.
Proof.
  intros Hp Hd Hh. unfold as_fifo. change (pmask (moved p h (rd p) d)) with (pmask p).
  rewrite !(land_pmask p) by done. cbn. by rewrite (Z.mod_small h).
Qed.

Lemma count_mod f : fifo_wf f -> zlen (contents f) = (head f - tail f) mod (size_mask f + 1).
Proof. intros Hwf. unfold zlen. rewrite length_contents by done. unfold fifo_count. by rewrite wf_mask_mod. Qed.

(** Advancing a ring index by less than the ring. *)
Lemma ring_advance a b n s m : 0 < m -> (a - b) mod m = s -> 0 <= s + n < m -> (a + n - b) mod m = s + n.
Proof.
  intros Hm Ha Hn. replace (a + n - b) with (a - b + n) by lia.
  rewrite <- Zplus_mod_idemp_l, Ha. by apply Z.mod_small.
Qed.

(** The bytes of an unfilled write lie inside the cleaned ranges. *)
Lemma write_covered p h n i :
  pipe_ok p -> 0 <= h < sz p ->
  let t := rd p mod sz p in
  let lq := zlen (contents (as_fifo p)) in
  (h - t) mod sz p = lq + n -> lq + n < sz p - 1 -> 0 <= i < n ->
  Exists (in_range (ptr p + (wr p + i) mod sz p))
    (performCacheOp (Some Clean) (ptr p) (sz p) ((t - 1) mod sz p) h).
Proof.
  intros Hp Hh t lq Hht Hn Hi. pose proof (as_fifo_wf p Hp) as Hwf. destruct (pmask_eq p Hp) as [Em Hm].
  assert (Hs : 0 < sz p) by lia.
  assert (Hq : (wr p - t) mod sz p = lq).
  { unfold lq. rewrite count_mod by done. cbn. rewrite !(land_pmask p), Em, Z.sub_add by done.
    fold t. by rewrite Zminus_mod_idemp_l. }
  assert (Hlq : 0 <= lq) by (unfold lq, zlen; lia).
  assert (H1 : (h - (t - 1)) mod sz p = lq + n + 1).
  { replace (h - (t - 1)) with (h + 1 - t) by lia. apply ring_advance; [done | done | lia]. }
  assert (H2 : (wr p + i - (t - 1)) mod sz p = lq + i + 1).
  { replace (wr p + i - (t - 1)) with (wr p + (i + 1) - t) by lia.
    rewrite (ring_advance _ _ _ lq) by (done || lia). lia. }
  apply cache_covers; [done | lia | apply Z.mod_pos_bound; lia | done | | apply Z.mod_pos_bound; lia |].
  - intros E. rewrite <- E, Zminus_mod_idemp_l, Z.sub_diag, Z.mod_0_l in H1 by lia. lia.
  - rewrite <- (Zminus_mod (wr p + i)), Zminus_mod_idemp_r, H1, H2. lia.
Qed.

(** C37: writing a channel. [librtt_txAvail] is the free space. Without overwriting,
    the write appends as much of the data as fits and returns its length. With
    overwriting, data that reaches or exceeds the free space leaves the queue
    EMPTY, although the whole length is returned: the read index is set to the
    write index. A write that exactly fills the queue issues no cache maintenance
    at all, while one that does not fill it cleans every byte it stored. *)
Theorem rtt_write_queue c r ch src overwrite :
  rtt c = Some r -> librtt_checkTx c ch = true -> 0 <= ch < zlen (channel r) -> pipe_ok (chan r ch) ->
  let p := chan r ch in
  let q := contents (as_fifo p) in
  let free := librtt_txAvail c ch in
  let '(c', res) := librtt_write c ch src overwrite in
  free = sz p - 1 - zlen q /\
  exists r', rtt c' = Some r' /\ (forall j, j <> ch -> chan r' j = chan r j) /\
    pipe_ok (chan r' ch) /\
    (if overwrite && (free <=? zlen src)
     then res = Ok (zlen src) /\ contents (as_fifo (chan r' ch)) = []
     else res = Ok (Z.min free (zlen src)) /\
          contents (as_fifo (chan r' ch)) = q ++ take (Z.to_nat free) src) /\
    (overwrite = false -> free <= zlen src -> ops c' = ops c) /\
    (cleanFn c = true -> zlen src < free -> forall i, 0 <= i < zlen src ->
       Exists (in_range (ptr p + (wr p + i) mod sz p)) (ops c')).
Proof.
  intros Hr Hc Hch Hp p q free. change (pipe_ok p) in Hp.
  pose proof (as_fifo_wf p Hp) as Hwf. destruct (pmask_eq p Hp) as [Em Hm].
  assert (Hfree : free = fifo_freespace (as_fifo p)).
  { unfold free, librtt_txAvail. rewrite Hr, Hc. exact (txavail_eq p Hp). }
  assert (Hfq : free = sz p - 1 - zlen q).
  { rewrite Hfree, freespace_eq by done. unfold zlen, q. rewrite length_contents by done.
    unfold capacity. cbn. lia. }
  unfold librtt_write. rewrite Hr, Hc. cbn [negb]. fold p (pmask p).
  set (stop := u32 (rd p + pmask p) &&& pmask p).
  assert (Estop : stop = (tail (as_fifo p) - 1) mod sz p) by (apply stop_eq; done).
  destruct (write_loop_spec stop src (as_fifo p) Hwf) as (d & h & E1 & E2 & E3).
  { rewrite Estop. f_equal. cbn. lia. }
  cbn [as_fifo data size_mask tail head] in E1, E2, E3. fold (as_fifo p) in E1, E3.
  rewrite <- Hfree in E1, E3. fold q in E3. rewrite E1.
  set (n := Z.to_nat free) in *. set (f2 := mk_fifo h (rd p &&& pmask p) (pmask p) d) in *.
  assert (Hf0 : 0 <= free) by (rewrite Hfree, freespace_eq by done; pose proof (count_range _ Hwf); lia).
  assert (Hfull : (stop =? h) = (free <=? zlen src)).
  { rewrite Estop. replace (sz p) with (size_mask f2 + 1) by (cbn; lia).
    change h with (head f2). change (tail (as_fifo p)) with (tail f2). rewrite full_stop by done.
    apply Bool.eq_iff_eq_true. rewrite is_full_spec, Z.leb_le by done. rewrite E3, length_app, length_take.
    change (capacity f2) with (pmask p). unfold zlen, n in *. lia. }
  rewrite Hfull. assert (Hd2 : zlen d = pmask p + 1) by apply E2.
  assert (Hh2 : 0 <= h <= pmask p) by apply E2.
  assert (Hd : zlen d = zlen (pbuf p)) by (destruct Hp as [_ Hl]; lia).
  destruct (Z.leb_spec free (zlen src)) as [Hle|Hlt]; cbn [andb];
    [destruct overwrite; cbn [andb]|rewrite andb_false_r].
  - destruct (overwrite_loop_spec (drop n src) f2 E2) as (d2 & h2 & O1 & O2 & O3).
    cbn [f2 data size_mask head] in O1, O2, O3. rewrite O1. split; [exact Hfq|]. cbn [rtt set_rtt].
    eexists. split; [reflexivity|]. split; [intros j Hj; apply chan_set_ne; lia|].
    rewrite chan_set_eq by lia. change (mk_pipe _ _ _ _ _ _ _) with (moved p h2 h2 d2).
    destruct (moved_fifo p h2 h2 d2 Hp) as [M1 M2]; [lia..|].
    split_and!; [done | change (zlen []) with 0; f_equal; lia | | done | lia].
    rewrite M2. apply is_empty_spec; [|by apply Z.eqb_eq]. rewrite <- M2. by apply as_fifo_wf.
  - split; [exact Hfq|]. eexists. split; [reflexivity|]. split; [intros j Hj; apply chan_set_ne; lia|].
    rewrite chan_set_eq by lia. change (mk_pipe _ _ _ _ _ _ _) with (moved p h (rd p) d).
    assert (M : as_fifo (moved p h (rd p) d) = f2) by (apply moved_write; done || lia).
    split_and!; [destruct Hp; split; [done | cbn; lia] | | by rewrite M | | lia].
    + f_equal. unfold zlen, n in *. rewrite length_drop. lia.
    + intros _ _. cbn [ops set_rtt add_ops]. unfold performCacheOp. rewrite Hfull.
      destruct (cleanFn c); apply app_nil_r.
  - split; [exact Hfq|]. eexists. split; [reflexivity|]. split; [intros j Hj; apply chan_set_ne; lia|].
    rewrite chan_set_eq by lia. change (mk_pipe _ _ _ _ _ _ _) with (moved p h (rd p) d).
    assert (M : as_fifo (moved p h (rd p) d) = f2) by (apply moved_write; done || lia).
    split_and!; [destruct Hp; split; [done | cbn; lia] | | by rewrite M | lia |].
    + f_equal. unfold zlen, n in *. rewrite length_drop. lia.
    + intros Hcl _ i Hi. cbn. rewrite Hcl. apply Exists_app. right.
      rewrite Em, Z.sub_add, u32_small, Estop by lia. cbn [as_fifo tail]. rewrite (land_pmask p) by done.
      apply (write_covered p h (zlen src)); [done | lia | | fold q; lia | done].
      pose proof (count_mod f2 E2) as Hcm. rewrite E3 in Hcm. cbn [f2 head tail size_mask] in Hcm.
      rewrite (land_pmask p), Em, Z.sub_add in Hcm by done. rewrite <- Hcm. fold q.
      unfold zlen, n in *. rewrite length_app, length_take. lia.
Qed.

(** A channel's buffer is a power of two and lies inside the given region. *)
Definition channel_in (r : rtt_desc) (buffers buffersSize n : Z) : Prop :=
  (exists k, 0 <= k /\ sz (chan r n) = 2 ^ k) /\
  buffers <= ptr (chan r n) /\ ptr (chan r n) + sz (chan r n) <= buffers + buffersSize.

Lemma verifyChannel_sound r n buffers size :
  0 <= sz (chan r n) -> librtt_verifyChannel r n buffers size = true -> channel_in r buffers size n.
Proof.
  intros Hs Hv. unfold librtt_verifyChannel in Hv. bsimp. split_and!; [|lia..].
  exists (Z.log2 (sz (chan r n))). split; [apply Z.log2_nonneg|]. apply pow2_test; [lia|done].
Qed.

Lemma verify_loop_sound r buffers size k : forall n last,
  (forall j, 0 <= sz (chan r j)) -> (verify_loop k n r buffers size last).2 = true ->
  forall j, n <= j < n + Z.of_nat k -> channel_in r buffers size j.
Proof.
  induction k as [|k IH]; intros n last Hs Hv j Hj; [lia|]. cbn in Hv.
  destruct (librtt_verifyChannel r n buffers size) eqn:E; cbn in Hv; [|done].
  destruct (decide (j = n)) as [->|]; [by apply verifyChannel_sound|]. eapply IH; [done | exact Hv | lia].
Qed.

(** A descriptor whose channel counts wrap around to zero. *)
Definition wrapping_desc : rtt_desc := mk_desc stored_tag (2 ^ 32 - 1) 1 [mk_pipe None 0 3 0 0 0 []].

(** [librtt_verify] on a descriptor left in memory. When the channel counts add
    up to less than 2^27 an accepted descriptor fits the control block and every
    channel has a power-of-two buffer inside the given region; a refused one
    is not attached. The sum of the counts is not checked for wrap-around:
    a descriptor announcing 2^32 - 1 and 1 channels is accepted with none of them
    verified, and channel 0 may then be used although its size is no power of
    two and its buffer lies outside the region. *)
Theorem rtt_verify_sound c r cbSize buffers size inval clean :
  0 <= txChannels r -> 0 <= rxChannels r -> (forall j, 0 <= sz (chan r j)) ->
  let '(c', res) := librtt_verify c r cbSize buffers size inval clean in
  match res with
  | Ok _ => rtt c' = Some r /\
      (txChannels r + rxChannels r < 2 ^ 27 ->
       sizeof_rtt_desc + (txChannels r + rxChannels r) * sizeof_rtt_pipe <= cbSize /\
       forall n, 0 <= n < txChannels r + rxChannels r -> channel_in r buffers size n)
  | Err _ => rtt c' = rtt c
  end /\
  let '(w, wres) := librtt_verify (mk_common None false false [0; 0] []) wrapping_desc 24 4096 64 false false in
  wres = Ok 0 /\ librtt_checkTx w 0 = true /\ ~ channel_in wrapping_desc 4096 64 0.
Proof.
  intros Ht Hx Hs. unfold librtt_verify at 1. unfold sizeof_rtt_desc, sizeof_rtt_pipe.
  assert (Hw : forall P : Prop, P -> P /\
    let '(w, wres) := librtt_verify (mk_common None false false [0; 0] []) wrapping_desc 24 4096 64 false false in
    wres = Ok 0 /\ librtt_checkTx w 0 = true /\ ~ channel_in wrapping_desc 4096 64 0).
  { intros P HP. split; [done|]. split_and!; try (vm_compute; reflexivity).
    intros (_ & Hb & _). change (4096 <= 0) in Hb. lia. }
  case_if; [by apply Hw|]. case_if; [by apply Hw|]. case_if; [by apply Hw|]. bsimp.
  destruct (verify_loop _ 0 r buffers size (lastRd c)) as [last ok] eqn:E.
  destruct ok; cbn [negb]; apply Hw; [|done]. split; [done|]. intros Hsum.
  rewrite (u32_small (txChannels r + rxChannels r)) in * by lia.
  rewrite (u32_small ((txChannels r + rxChannels r) * 24)), u32_small in * by lia. split; [lia|]. intros n Hn.
  eapply (verify_loop_sound r buffers size _ 0); [done | by rewrite E |].
  unfold s32. rewrite Z.mod_small by lia. lia.
Qed.

(** ** Concrete instances *)

(** A pipe of eight bytes in its buffer at 0x100, with stray high index bits. *)
Definition demo_pipe (w r : Z) : rtt_pipe := mk_pipe None 0x100 8 w r 0 [1; 2; 3; 4; 5; 6; 7; 8].
Definition demo_common (w r : Z) : common :=
  mk_common (Some (mk_desc stored_tag 1 1 [demo_pipe w r; demo_pipe w r])) true true [0; 0] [].

Lemma demo_pipe_ok w r : pipe_ok (demo_pipe w r).
Proof. split; [exists 3; split; [lia|reflexivity] | reflexivity]. Qed.

Lemma rtt_read_queue_witness :
  (librtt_read (demo_common (2 + 64) 6) 0 10).2 = [7; 8; 1; 2].
Proof.
  pose proof (rtt_read_queue (demo_common (2 + 64) 6) (mk_desc stored_tag 1 1 [demo_pipe 66 6; demo_pipe 66 6]) 0 10
    eq_refl eq_refl ltac:(lia) ltac:(cbn; lia) ltac:(lia) ltac:(vm_compute; split; reflexivity) (demo_pipe_ok 66 6)) as H.
  cbn zeta in H. destruct (librtt_read (demo_common (2 + 64) 6) 0 10) as [[c' res] out].
  rewrite (proj1 H). reflexivity.
Defined.

Lemma rtt_write_queue_witness :
  (librtt_write (demo_common 2 6) 0 [9; 9; 9; 9; 9] false).2 = Ok 3.
Proof.
  pose proof (rtt_write_queue (demo_common 2 6) (mk_desc stored_tag 1 1 [demo_pipe 2 6; demo_pipe 2 6]) 0 [9; 9; 9; 9; 9]
    false eq_refl eq_refl ltac:(vm_compute; split; congruence) (demo_pipe_ok 2 6)) as H.
  cbn zeta in H. destruct (librtt_write (demo_common 2 6) 0 [9; 9; 9; 9; 9] false) as [c' res].
  destruct H as (_ & r' & _ & _ & _ & [H _] & _). cbn [snd]. exact H.
Defined.

Lemma rtt_verify_sound_witness :
  let r := mk_desc stored_tag 1 0 [demo_pipe 0 0] in
  channel_in r 0x100 16 0.
Proof.
  intros r. assert (Hsz : forall j, 0 <= sz (chan r j)).
  { intros j. unfold chan. destruct (buf_get (channel r) j) as [p|] eqn:E; cbn; [|lia].
    apply buf_get_inv in E as [_ Hin]. cbn in Hin. apply list_elem_of_singleton in Hin as ->. cbn. lia. }
  pose proof (rtt_verify_sound (mk_common None false false [0; 0] []) r 48 0x100 16 false false
    ltac:(cbn; lia) ltac:(cbn; lia) Hsz) as [H _].
  change (librtt_verify (mk_common None false false [0; 0] []) r 48 0x100 16 false false)
    with (mk_common (Some r) false false [0; 0] [], @Ok Z 0) in H.
  destruct H as [_ H]. apply H; cbn; lia.
Defined.

End LibRttCorrect.
