(* ===== verification/Nmea.v ===== *)
(** * NMEA frame scanner ([src/sensors/common/gps/nmea.c],
      [src/sensors/server-include/libsensors/gps/nmea.h])

    [scanCtx] is [nmea_scanCtx_t]; bytes are unsigned values (the code only compares
    and xors them). [scan_iter] is one iteration of the loop of [nmea_scan], in the
    order of the code; an access outside the frame buffer has the result [None].
    [*frame] is returned as its index in [ctx->buff]. *)

From S2P Require Import Prelude.

Module Nmea.

Definition BUFF_SIZE : Z := 128.   (* sizeof(ctx->buff) *)

Inductive scan_state := state_header | state_pld.

Record scanCtx := mk_ctx {
  buff : list Z; buffCnt : Z; buffIdx : Z; headIdx : Z; footIdx : Z; rdIdx : Z; st : scan_state
}.

(** The context "whole reset to 0". *)
Definition ctx0 : scanCtx := mk_ctx (replicate 128 0) 0 0 0 0 0 state_header.

(** [%02X] *)
Definition hex_digit (d : Z) : Z := if d <? 10 then 48 + d else 55 + d.

(** The [while] of [nmea_checksum] from index [ii]: the xor and the final index. *)
Fixpoint csum_loop (l : list Z) (ii csum : Z) : Z * Z :=
  match l with
  | [] => (ii, csum)
  | b :: l => if b =? 42 then (ii, csum) else csum_loop l (ii + 1) (Z.lxor csum (u8 b))
  end.

(** [nmea_checksum] on the bytes [l]; [true] is the result 0. *)
Definition nmea_checksum (l : list Z) : bool :=
  match l with
  | [] => false
  | b :: rest =>
      if negb (b =? 36) then false
      else
        let '(ii, csum) := csum_loop rest 1 0 in
        if zlen l <=? ii then false
        else if zlen l <=? ii + 2 then false
        else (hex_digit (csum / 16) =? arr_get l (ii + 1)) && (hex_digit (csum mod 16) =? arr_get l (ii + 2))
  end.

(** Bytes [a, b) of a buffer. *)
Definition slice (l : list Z) (a b : Z) : list Z := take (Z.to_nat (b - a)) (drop (Z.to_nat a) l).

Inductive outcome := Cont (c : scanCtx) | Frame (len at_ : Z) (c : scanCtx).

(** The copy of one input byte at the top of the loop. *)
Definition pull (c : scanCtx) (input : list Z) : option scanCtx :=
  if (buffIdx c =? buffCnt c) && (buffCnt c <? BUFF_SIZE) then
    b ← buf_get input (rdIdx c);
    _ ← buf_get (buff c) (buffIdx c);
    Some (mk_ctx (arr_set (buff c) (buffIdx c) b) (buffCnt c + 1) (buffIdx c) (headIdx c) (footIdx c)
            (rdIdx c + 1) (st c))
  else Some c.

Definition scan_header (c : scanCtx) : option outcome :=
  if buffCnt c =? BUFF_SIZE then
    Some (Cont (mk_ctx (buff c) 0 0 (headIdx c) (footIdx c) (rdIdx c) state_header))
  else
    b ← buf_get (buff c) (buffIdx c);
    if negb (b =? 36) then
      Some (Cont (mk_ctx (buff c) (buffCnt c) (buffIdx c + 1) (headIdx c) (footIdx c) (rdIdx c) state_header))
    else
      Some (Cont (mk_ctx (buff c) (buffCnt c) (buffIdx c + 1) (buffIdx c) (buffIdx c) (rdIdx c) state_pld)).

Definition scan_pld (c : scanCtx) : option outcome :=
  if buffCnt c =? BUFF_SIZE then
    if headIdx c =? 0 then
      Some (Cont (mk_ctx (buff c) (buffCnt c) 1 (headIdx c) (footIdx c) (rdIdx c) state_header))
    else
      let cnt := buffCnt c - headIdx c in
      let moved := slice (buff c) (headIdx c) (buffCnt c) ++ drop (Z.to_nat cnt) (buff c) in
      Some (Cont (mk_ctx moved cnt (buffIdx c - headIdx c) 0 (footIdx c) (rdIdx c) state_pld))
  else
    b ← buf_get (buff c) (buffIdx c);
    if negb (b =? 10) then
      Some (Cont (mk_ctx (buff c) (buffCnt c) (buffIdx c + 1) (headIdx c) (footIdx c) (rdIdx c) state_pld))
    else
      let foot := buffIdx c in
      let frameLen := u32 (foot - headIdx c + 1) in
      if negb (nmea_checksum (slice (buff c) (headIdx c) (headIdx c + frameLen))) then
        Some (Cont (mk_ctx (buff c) (buffCnt c) (headIdx c + 1) (headIdx c) foot (rdIdx c) state_header))
      else
        Some (Frame frameLen (headIdx c)
                (mk_ctx (arr_set (buff c) foot 0) (buffCnt c) foot (headIdx c) foot (rdIdx c) state_header)).

Definition scan_iter (c : scanCtx) (input : list Z) : option outcome :=
  c ← pull c input;
  match st c with
  | state_header => scan_header c
  | state_pld => scan_pld c
  end.

Definition set_rd (c : scanCtx) (r : Z) : scanCtx :=
  mk_ctx (buff c) (buffCnt c) (buffIdx c) (headIdx c) (footIdx c) r (st c).

(** Result of [nmea_scan]: the frame's length and place, or nothing, and the context. *)
Inductive scan_result := Found (len at_ : Z) (c : scanCtx) | NoFrame (c : scanCtx).

(** The loop; [None] when the fuel is exhausted or an access is out of bounds. *)
Fixpoint scan_loop (fuel : nat) (c : scanCtx) (input : list Z) : option scan_result :=
  if rdIdx c <? zlen input then
    match fuel with
    | O => None
    | S fuel =>
        o ← scan_iter c input;
        match o with
        | Cont c => scan_loop fuel c input
        | Frame len at_ c => Some (Found len at_ c)
        end
    end
  else Some (NoFrame (set_rd c 0)).

(** [nmea_scan] for non-NULL pointers; an empty input is an error ([-1]). *)
Definition nmea_scan (fuel : nat) (c : scanCtx) (input : list Z) : option (option scan_result) :=
  if zlen input =? 0 then Some None else Some <$> scan_loop fuel c input.

(** ** The caller's loop: all the frames of one input buffer *)
Fixpoint scan_all (calls fuel : nat) (c : scanCtx) (input : list Z) : option (list (list Z) * scanCtx) :=
  match calls with
  | O => None
  | S calls =>
      r ← scan_loop fuel c input;
      match r with
      | NoFrame c => Some ([], c)
      | Found len at_ c =>
          '(fs, c') ← scan_all calls fuel c input;
          Some (slice (buff c) at_ (at_ + len) :: fs, c')
      end
  end.

(** ** Well-formed contexts *)

Definition ctx_ok (c : scanCtx) : Prop :=
  length (buff c) = 128%nat /\ 0 <= buffIdx c <= buffCnt c /\ buffCnt c <= 128 /\ 0 <= rdIdx c /\
  0 <= headIdx c /\
  (st c = state_pld -> headIdx c < buffIdx c /\ buff c !! Z.to_nat (headIdx c) = Some 36).

(** A bound on the iterations left without reading input. *)
Definition local_measure (c : scanCtx) : Z :=
  (if buffCnt c =? 128 then 20000 else 0) +
  match st c with
  | state_header => (129 - buffIdx c) * 130 + 129
  | state_pld => (129 - headIdx c) * 130 + (128 - buffIdx c)
  end.
Definition measure (c : scanCtx) (input : list Z) : Z := (zlen input - rdIdx c) * 60000 + local_measure c.

Lemma buf_get_eq {A} (l : list A) i x : 0 <= i -> l !! Z.to_nat i = Some x -> buf_get l i = Some x.
Proof. intros Hi H. unfold buf_get. by rewrite bool_decide_eq_true_2. Qed.

Lemma local_measure_bounds c : ctx_ok c -> 0 <= local_measure c < 60000.
Proof.
  intros (_ & Hi & Hc & _ & Hh & Hp). unfold local_measure.
  destruct (st c); [|destruct (Hp eq_refl)]; case_if; bsimp; lia.
Qed.

(** What [pull] leaves: a context with a byte to look at, or a full one. *)
Lemma pull_ok c input :
  ctx_ok c -> rdIdx c < zlen input ->
  exists c', pull c input = Some c' /\ ctx_ok c' /\ st c' = st c /\ headIdx c' = headIdx c /\
    buffIdx c' = buffIdx c /\ (buffIdx c' < buffCnt c' \/ buffCnt c' = 128) /\
    ((c' = c /\ (buffIdx c < buffCnt c \/ buffCnt c = 128)) \/
     (buffIdx c = buffCnt c /\ buffCnt c < 128 /\ buffCnt c' = buffCnt c + 1 /\ rdIdx c' = rdIdx c + 1 /\
      exists b, buf_get input (rdIdx c) = Some b /\ buff c' = arr_set (buff c) (buffIdx c) b)).
Proof.
  intros Hok Hlt. pose proof Hok as (Hl & Hi & Hc & Hr & Hh & Hp). unfold pull. change BUFF_SIZE with 128. case_if; bsimp.
  - destruct (buf_get_Some input (rdIdx c)) as [b Hb]; [lia|]. rewrite Hb. cbn [mbind option_bind].
    destruct (buf_get_Some (buff c) (buffIdx c)) as [x Hx]; [unfold zlen; lia|]. rewrite Hx. cbn [mbind option_bind].
    eexists. split; [done|]. unfold ctx_ok. cbn. rewrite length_arr_set. split_and!; try done; try lia.
    + intros Hs. destruct (Hp Hs) as [Hlt' Hb']. split; [lia|]. unfold arr_set. rewrite list_lookup_insert_ne by lia. done.
    + right. split_and!; try done; try lia. exists b. done.
  - exists c. assert (buffIdx c < buffCnt c \/ buffCnt c = 128).
    { apply andb_false_iff in Heqb as [E|E]; bsimp; lia. }
    split_and!; [done..|by left].
Qed.

(** One iteration: it keeps the context well formed, and either returns a frame
    whose bytes it checked, or makes progress. *)
Lemma scan_iter_ok c input :
  ctx_ok c -> rdIdx c < zlen input ->
  exists o, scan_iter c input = Some o /\
  match o with
  | Cont c' => ctx_ok c' /\ measure c' input < measure c input /\ rdIdx c <= rdIdx c' <= rdIdx c + 1
  | Frame len at_ c' =>
      ctx_ok c' /\ measure c' input < measure c input /\ st c' = state_header /\
      rdIdx c <= rdIdx c' <= rdIdx c + 1 /\
      at_ = headIdx c' /\ footIdx c' = at_ + len - 1 /\ buffIdx c' = footIdx c' /\ 1 < len <= 128 - at_ /\
      exists c1, pull c input = Some c1 /\ buff c' = arr_set (buff c1) (footIdx c') 0 /\
        nmea_checksum (slice (buff c1) at_ (at_ + len)) = true
  end.
Proof.
  intros Hok Hlt. destruct (pull_ok c input Hok Hlt) as (c1 & Hpull & Hok1 & Hst & Hhd & Hidx & Hroom & Hor).
  unfold scan_iter. rewrite Hpull. cbn [mbind option_bind].
  assert (Hrd : rdIdx c <= rdIdx c1 <= rdIdx c + 1) by (destruct Hor as [(-> & _)|(_ & _ & _ & ? & _)]; lia).
  assert (Hm1 : (zlen input - rdIdx c1) * 60000 + local_measure c1 <= (zlen input - rdIdx c) * 60000 + local_measure c).
  { pose proof (local_measure_bounds c Hok). pose proof (local_measure_bounds c1 Hok1).
    destruct Hor as [(-> & _)|(_ & _ & _ & -> & _)]; lia. }
  pose proof Hok1 as (Hl & Hi & Hc & Hr & Hh & Hp). unfold measure. destruct (st c1) eqn:Es.
  - unfold scan_header. change BUFF_SIZE with 128. case_if; bsimp.
    + eexists. split; [done|]. cbn. split_and!; try lia; [|].
      * repeat split; cbn; try done; lia.
      * unfold local_measure in *. rewrite Es in Hm1. cbn. rewrite Heqb in Hm1. cbn in Hm1. lia.
    + destruct Hroom as [Hroom|]; [|lia].
      destruct (buf_get_Some (buff c1) (buffIdx c1)) as [b Hb]; [unfold zlen; lia|]. rewrite Hb. cbn [mbind option_bind].
      unfold local_measure in *. rewrite Es in Hm1. case_if; bsimp; eexists; (split; [done|]); cbn; rewrite (proj2 (Z.eqb_neq _ _) Heqb) in *.
      * split_and!; try lia. repeat split; cbn; try done; lia.
      * split_and!; try lia. repeat split; cbn; try done; try lia. subst. unfold buf_get in Hb.
        by rewrite bool_decide_eq_true_2 in Hb by lia.
  - destruct (Hp eq_refl) as [Hhi Hb36]. unfold scan_pld. change BUFF_SIZE with 128. case_if; bsimp.
    + case_if; bsimp; eexists; (split; [done|]); cbn; unfold local_measure in *; rewrite Es, Heqb in Hm1; cbn in Hm1 |- *.
      * rewrite Heqb. cbn. split_and!; try lia. repeat split; cbn; try done; lia.
      * destruct (buffCnt c1 - headIdx c1 =? 128) eqn:E128; bsimp; [lia|]. split_and!; try lia.
        repeat split; cbn; try done; try lia.
        -- rewrite length_app. unfold slice. rewrite length_take, !length_drop. lia.
        -- rewrite lookup_app_l; [|unfold slice; rewrite length_take, length_drop; lia].
           unfold slice. rewrite lookup_take_lt by lia. rewrite lookup_drop.
           change (Z.to_nat 0) with 0%nat. by rewrite Nat.add_0_r.
    + destruct Hroom as [Hroom|]; [|lia].
      destruct (buf_get_Some (buff c1) (buffIdx c1)) as [b Hb]; [unfold zlen; lia|]. rewrite Hb. cbn [mbind option_bind].
      unfold local_measure in *. rewrite Es in Hm1. case_if; bsimp.
      * eexists. split; [done|]. cbn. rewrite (proj2 (Z.eqb_neq _ _) Heqb) in *. split_and!; try lia.
        repeat split; cbn; try done; lia.
      * rewrite u32_small by lia. set (fl := buffIdx c1 - headIdx c1 + 1). case_if; bsimp.
        -- eexists. split; [done|]. cbn. rewrite (proj2 (Z.eqb_neq _ _) Heqb) in *. split_and!; try lia.
           repeat split; cbn; try done; lia.
        -- eexists. split; [done|]. cbn. rewrite (proj2 (Z.eqb_neq _ _) Heqb) in *. split_and!; try done; try lia.
           ++ repeat split; cbn; try done; try lia. by rewrite length_arr_set.
           ++ exists c1. done.
Qed.

(** The fuel bound of a call and of the caller's loop. *)
Definition enough (c : scanCtx) (input : list Z) : nat := S (Z.to_nat (measure c input)).

Lemma measure_nonneg c input : ctx_ok c -> rdIdx c <= zlen input -> 0 <= measure c input.
Proof. intros Hok Hr. pose proof (local_measure_bounds c Hok). unfold measure. lia. Qed.

(** The history of a context: the unexamined part of the frame buffer holds the last
    bytes of the stream [S] read so far (the newline of the last frame, overwritten
    with 0, excepted). *)
Definition base (c : scanCtx) : Z := match st c with state_header => buffIdx c | state_pld => headIdx c end.
Definition good (c : scanCtx) (S : list Z) : Prop :=
  (exists pre, S = pre ++ slice (buff c) (base c) (buffCnt c)) \/
  (st c = state_header /\ buff c !! Z.to_nat (base c) = Some 0 /\
   exists pre, S = pre ++ slice (buff c) (base c + 1) (buffCnt c)).

Lemma slice_nil l a b : b <= a -> slice l a b = [].
Proof. intros. unfold slice. by replace (Z.to_nat (b - a)) with 0%nat by lia. Qed.

Lemma slice_cons l a b x :
  0 <= a < b -> l !! Z.to_nat a = Some x -> slice l a b = x :: slice l (a + 1) b.
Proof.
  intros Ha Hx. unfold slice. rewrite (drop_S _ _ _ Hx).
  replace (Z.to_nat (b - a)) with (S (Z.to_nat (b - (a + 1)))) by lia. cbn.
  by replace (Z.to_nat (a + 1)) with (S (Z.to_nat a)) by lia.
Qed.

Lemma slice_snoc l a b x :
  0 <= a <= b -> b < zlen l -> slice (arr_set l b x) a (b + 1) = slice l a b ++ [x].
Proof.
  unfold zlen. intros Ha Hb. unfold slice, arr_set.
  replace (Z.to_nat (b + 1 - a)) with (S (Z.to_nat (b - a))) by lia.
  rewrite (take_S_r _ _ x).
  - f_equal. rewrite drop_insert_ge by lia. rewrite take_insert_ge; [done|lia].
  - rewrite lookup_drop. rewrite list_lookup_insert. replace (Z.to_nat a + Z.to_nat (b - a))%nat with (Z.to_nat b) by lia.
    rewrite decide_True; [done|]. lia.
Qed.

Lemma slice_split l a b d : 0 <= a <= b -> b <= d -> slice l a d = slice l a b ++ slice l b d.
Proof.
  intros Ha Hb. unfold slice. rewrite <- (take_drop (Z.to_nat (b - a)) (take (Z.to_nat (d - a)) (drop (Z.to_nat a) l))).
  f_equal.
  - rewrite take_take. f_equal. lia.
  - rewrite skipn_firstn_comm, drop_drop. f_equal; [lia|]. f_equal. lia.
Qed.

Lemma good_suffix S pre l a b d :
  0 <= a <= b -> b <= d -> S = pre ++ slice l a d -> exists pre', S = pre' ++ slice l b d.
Proof. intros Ha Hb ->. rewrite (slice_split l a b d) by done. exists (pre ++ slice l a b). by rewrite <- app_assoc. Qed.

(** [pull] appends the byte it reads to the history. *)
Lemma pull_good c input H c1 :
  ctx_ok c -> rdIdx c < zlen input -> pull c input = Some c1 ->
  good c (H ++ take (Z.to_nat (rdIdx c)) input) -> good c1 (H ++ take (Z.to_nat (rdIdx c1)) input).
Proof.
  intros Hok Hlt Hp Hg. destruct (pull_ok c input Hok Hlt) as (c1' & Hp' & Hok1 & Hst & Hhd & Hidx & _ & Hor).
  simplify_eq. pose proof Hok as (Hl & Hi & Hc & Hr & Hh & Hpld).
  destruct Hor as [(-> & _)|(He & Hcnt & Hc1 & Hr1 & b & Hb & Hbuf)]; [done|].
  assert (Ht : take (Z.to_nat (rdIdx c1)) input = take (Z.to_nat (rdIdx c)) input ++ [b]).
  { replace (Z.to_nat (rdIdx c1)) with (S (Z.to_nat (rdIdx c))) by lia. apply take_S_r.
    unfold buf_get in Hb. by rewrite bool_decide_eq_true_2 in Hb. }
  rewrite Ht. assert (Hbase : base c1 = base c) by (unfold base; by rewrite Hst, Hhd, Hidx).
  assert (Hb0 : 0 <= base c <= buffCnt c) by (unfold base; destruct (st c); [|destruct (Hpld eq_refl)]; lia).
  left. rewrite Hbase, Hbuf, Hc1, He. unfold zlen in *. rewrite slice_snoc; [|lia|unfold zlen; lia].
  destruct Hg as [[pre Hpre]|(Hs & _ & _)].
  - exists pre. by rewrite app_assoc, Hpre, <- app_assoc.
  - exists (H ++ take (Z.to_nat (rdIdx c)) input). unfold base. rewrite Hs, He, (slice_nil _ (buffCnt c)) by lia.
    by rewrite <- app_assoc.
Qed.

(** A frame as the scanner hands it out: its newline replaced by 0. *)
Definition handed_out (g : list Z) : list Z := take (length g - 1) g ++ [0].

Lemma slice_length l a b : 0 <= a <= b -> b <= zlen l -> length (slice l a b) = Z.to_nat (b - a).
Proof. unfold zlen. intros. unfold slice. rewrite length_take, length_drop. lia. Qed.

Lemma slice_handed l a len :
  0 <= a -> 1 <= len -> a + len <= zlen l ->
  slice (arr_set l (a + len - 1) 0) a (a + len) = handed_out (slice l a (a + len)).
Proof.
  intros Ha Hlen Hl. replace (a + len) with (a + len - 1 + 1) at 2 by lia.
  rewrite slice_snoc by lia. unfold handed_out. f_equal.
  rewrite (slice_length l a (a + len)) by lia. unfold slice. rewrite take_take. f_equal. lia.
Qed.

(** One iteration keeps the history, and a frame it returns is part of it. *)
Lemma scan_iter_good c input H o :
  ctx_ok c -> rdIdx c < zlen input -> good c (H ++ take (Z.to_nat (rdIdx c)) input) ->
  scan_iter c input = Some o ->
  match o with
  | Cont c' => good c' (H ++ take (Z.to_nat (rdIdx c')) input)
  | Frame len at_ c' =>
      good c' (H ++ take (Z.to_nat (rdIdx c')) input) /\
      exists pre g post, H ++ take (Z.to_nat (rdIdx c')) input = pre ++ g ++ post /\
        nmea_checksum g = true /\ last g = Some 10 /\
        slice (buff c') at_ (at_ + len) = handed_out g
  end.
Proof.
  intros Hok Hlt Hg. destruct (pull_ok c input Hok Hlt) as (c1 & Hpull & Hok1 & _ & _ & _ & Hroom & _).
  pose proof (pull_good c input H c1 Hok Hlt Hpull Hg) as Hg1. unfold scan_iter. rewrite Hpull. cbn [mbind option_bind].
  clear Hg Hpull. set (S := H ++ take (Z.to_nat (rdIdx c1)) input) in *.
  pose proof Hok1 as (Hl & Hi & Hc & Hr & Hh & Hp). destruct (st c1) eqn:Es.
  - unfold scan_header. change BUFF_SIZE with 128. case_if; bsimp.
    { intros [= <-]. left. exists S. unfold base. cbn. rewrite slice_nil by lia. by rewrite app_nil_r. }
    destruct Hroom as [Hroom|]; [|lia].
    destruct (buf_get_Some (buff c1) (buffIdx c1)) as [b Hb]; [unfold zlen; lia|]. rewrite Hb. cbn [mbind option_bind].
    unfold buf_get in Hb. rewrite bool_decide_eq_true_2 in Hb by lia. unfold good, base in Hg1. rewrite Es in Hg1.
    case_if; bsimp; intros [= <-]; left; unfold base; cbn; fold S.
    + destruct Hg1 as [[pre Hpre]|(_ & _ & pre & Hpre)]; [|by exists pre].
      eapply good_suffix; [| |exact Hpre]; lia.
    + destruct Hg1 as [?|(_ & H0 & _)]; [done|]. simplify_eq.
  - destruct (Hp eq_refl) as [Hhi Hb36]. unfold good, base in Hg1. rewrite Es in Hg1.
    destruct Hg1 as [[pre Hpre]|(? & _)]; [|done].
    unfold scan_pld. change BUFF_SIZE with 128. case_if; bsimp.
    + case_if; bsimp; intros [= <-]; left; unfold base; cbn; fold S.
      * eapply good_suffix; [| |exact Hpre]; lia.
      * exists pre. rewrite Hpre. f_equal. unfold slice at 2. rewrite drop_0, Z.sub_0_r, take_app_length'; [done|].
        rewrite slice_length; unfold zlen; lia.
    + destruct Hroom as [Hroom|]; [|lia].
      destruct (buf_get_Some (buff c1) (buffIdx c1)) as [b Hb]; [unfold zlen; lia|]. rewrite Hb. cbn [mbind option_bind].
      unfold buf_get in Hb. rewrite bool_decide_eq_true_2 in Hb by lia. case_if; bsimp.
      { intros [= <-]. left. exists pre. done. }
      rewrite u32_small by lia. set (fl := buffIdx c1 - headIdx c1 + 1).
      assert (Hfl : headIdx c1 + fl = buffIdx c1 + 1) by lia. case_if; bsimp; intros [= <-]; cbn; fold S.
      * left. unfold base. cbn. fold S. eapply good_suffix; [| |exact Hpre]; lia.
      * split.
        -- right. unfold base. cbn. split; [done|]. split.
           ++ unfold arr_set. apply list_lookup_insert_eq. lia.
           ++ fold S. rewrite (slice_split (buff c1) (headIdx c1) (buffIdx c1 + 1)) in Hpre by lia.
              exists (pre ++ slice (buff c1) (headIdx c1) (buffIdx c1 + 1)). rewrite Hpre, <- app_assoc. do 2 f_equal.
              unfold slice, arr_set. f_equal. rewrite drop_insert_lt by lia. done.
        -- exists pre, (slice (buff c1) (headIdx c1) (headIdx c1 + fl)), (slice (buff c1) (buffIdx c1 + 1) (buffCnt c1)).
           split_and!; [|done|..].
           ++ rewrite Hpre, Hfl. f_equal. apply slice_split; lia.
           ++ rewrite Hfl. rewrite (slice_split _ _ (buffIdx c1)) by lia.
              rewrite (slice_cons _ (buffIdx c1) _ b) by (done || lia). rewrite (slice_nil _ (buffIdx c1 + 1)) by lia.
              rewrite last_snoc. by subst.
           ++ rewrite <- slice_handed by (unfold zlen; lia). by replace (headIdx c1 + fl - 1) with (buffIdx c1) by (unfold fl; lia).
Qed.

Lemma scan_loop_mono n m c input r :
  (n <= m)%nat -> scan_loop n c input = Some r -> scan_loop m c input = Some r.
Proof.
  revert m c. induction n as [|n IH]; intros m c Hm H.
  - cbn in H. destruct m; cbn; case_if; done.
  - destruct m as [|m]; [lia|]. cbn in H |- *. case_if; [|done].
    destruct (scan_iter c input) as [[c'|? ? c']|]; cbn in *; [|done..]. apply (IH m); [lia|done].
Qed.

(** One call, from any history. *)
Lemma scan_loop_ok input H : forall fuel c,
  ctx_ok c -> rdIdx c <= zlen input -> good c (H ++ take (Z.to_nat (rdIdx c)) input) ->
  measure c input < Z.of_nat fuel ->
  exists r, scan_loop fuel c input = Some r /\
  match r with
  | NoFrame c' => ctx_ok c' /\ rdIdx c' = 0 /\ good c' (H ++ input)
  | Found len at_ c' =>
      ctx_ok c' /\ rdIdx c' <= zlen input /\ measure c' input < measure c input /\
      good c' (H ++ take (Z.to_nat (rdIdx c')) input) /\
      exists pre g post, H ++ take (Z.to_nat (rdIdx c')) input = pre ++ g ++ post /\
        nmea_checksum g = true /\ last g = Some 10 /\ slice (buff c') at_ (at_ + len) = handed_out g
  end.
Proof.
  induction fuel as [|fuel IH]; intros c Hok Hr Hg Hm.
  { pose proof (measure_nonneg c input Hok Hr). lia. }
  cbn [scan_loop]. case_if; bsimp.
  - destruct (scan_iter_ok c input Hok Heqb) as (o & E & Ho). pose proof (scan_iter_good c input H o Hok Heqb Hg E) as Hgo.
    rewrite E. cbn [mbind option_bind]. destruct o as [c'|len at_ c'].
    + destruct Ho as (Hok' & Hm' & Hr'). destruct (IH c') as (r & Er & Hres); [done|lia|done|lia|].
      exists r. split; [done|]. destruct r; [|done]. destruct Hres as (?&?&?&?&?). split_and!; try done. lia.
    + destruct Ho as (Hok' & Hm' & _ & Hr' & _). destruct Hgo as [Hg' Hex]. eexists. split; [done|].
      split_and!; try done. lia.
  - eexists. split; [done|]. cbn. assert (Hz : take (Z.to_nat (rdIdx c)) input = input).
    { apply take_ge. unfold zlen in *. lia. }
    rewrite Hz in Hg. split_and!; [|done|done]. destruct Hok as (?&?&?&?&?&Hp).
    unfold ctx_ok, set_rd; cbn. split_and!; (exact Hp || done || lia).
Qed.

(** All the frames of one input. *)
Lemma scan_all_ok input H : forall calls fuel c,
  ctx_ok c -> rdIdx c <= zlen input -> good c (H ++ take (Z.to_nat (rdIdx c)) input) ->
  measure c input < Z.of_nat fuel -> measure c input < Z.of_nat calls ->
  exists fs c', scan_all calls fuel c input = Some (fs, c') /\
    ctx_ok c' /\ rdIdx c' = 0 /\ good c' (H ++ input) /\
    Forall (fun f => exists pre g post, H ++ input = pre ++ g ++ post /\
              nmea_checksum g = true /\ last g = Some 10 /\ f = handed_out g) fs.
Proof.
  induction calls as [|calls IH]; intros fuel c Hok Hr Hg Hf Hc.
  { pose proof (measure_nonneg c input Hok Hr). lia. }
  cbn [scan_all]. destruct (scan_loop_ok input H fuel c Hok Hr Hg Hf) as (r & -> & Hres).
  cbn [mbind option_bind]. destruct r as [len at_ c1|c1].
  - destruct Hres as (Hok1 & Hr1 & Hm1 & Hg1 & pre & g & post & Hs & Hck & Hla & Hsl).
    destruct (IH fuel c1) as (fs & c' & -> & Hok' & Hr' & Hg' & Hall); [done|done|done|lia|lia|].
    cbn [mbind option_bind]. eexists _, _. split; [done|]. split_and!; try done. constructor; [|done].
    exists pre, g, (post ++ drop (Z.to_nat (rdIdx c1)) input). split_and!; [|done..].
    rewrite <- (take_drop (Z.to_nat (rdIdx c1)) input) at 1. by rewrite app_assoc, Hs, <- !app_assoc.
  - destruct Hres as (?&?&?). eexists [], c1. split; [done|]. split_and!; try done.
Qed.

(** A receiver: the context is reset once and fed buffer after buffer. *)
Fixpoint session (fuel : nat) (c : scanCtx) (inputs : list (list Z)) : option (list (list Z) * scanCtx) :=
  match inputs with
  | [] => Some ([], c)
  | i :: inputs =>
      '(fs, c) ← scan_all fuel fuel c i;
      '(gs, c) ← session fuel c inputs;
      Some (fs ++ gs, c)
  end.

Lemma session_ok fuel inputs : forall c H,
  Forall (fun i => zlen i * 60000 + 60000 <= Z.of_nat fuel) inputs ->
  ctx_ok c -> rdIdx c = 0 -> good c H ->
  exists fs c', session fuel c inputs = Some (fs, c') /\ ctx_ok c' /\ rdIdx c' = 0 /\
    Forall (fun f => exists pre g post, H ++ concat inputs = pre ++ g ++ post /\
              nmea_checksum g = true /\ last g = Some 10 /\ f = handed_out g) fs.
Proof.
  induction inputs as [|i inputs IH]; intros c H Hf Hok Hr Hg.
  { eexists [], c. split; [done|]. done. }
  apply Forall_cons in Hf as [Hi Hf]. cbn [session].
  assert (Hm : measure c i < Z.of_nat fuel).
  { pose proof (local_measure_bounds c Hok). unfold measure. lia. }
  destruct (scan_all_ok i H fuel fuel c Hok) as (fs & c1 & -> & Hok1 & Hr1 & Hg1 & Hall);
    [unfold zlen; lia|by rewrite Hr, take_0, app_nil_r|done|done|].
  cbn [mbind option_bind]. destruct (IH c1 (H ++ i) Hf Hok1 Hr1 Hg1) as (gs & c' & -> & Hok' & Hr' & Hall').
  cbn [mbind option_bind]. eexists _, _. split; [done|]. split_and!; [done|done|]. cbn [concat].
  apply Forall_app. split; [|by rewrite app_assoc].
  eapply Forall_impl; [exact Hall|]. intros f (pre & g & post & Hs & ? & ? & ?).
  exists pre, g, (post ++ concat inputs). split_and!; [|done..]. by rewrite app_assoc, Hs, <- !app_assoc.
Qed.

Lemma ctx0_ok : ctx_ok ctx0.
Proof. repeat split; cbn; done || lia. Qed.

(** ** Reception of one frame *)

(** A run of iterations that returns no frame. *)
Inductive reaches (input : list Z) : scanCtx -> scanCtx -> Prop :=
  | reaches_refl c : reaches input c c
  | reaches_step c c1 c2 :
      rdIdx c < zlen input -> scan_iter c input = Some (Cont c1) -> reaches input c1 c2 -> reaches input c c2.

Lemma reaches_trans input c1 c2 c3 : reaches input c1 c2 -> reaches input c2 c3 -> reaches input c1 c3.
Proof. induction 1; [done|]. intros. econstructor; eauto. Qed.

Lemma reaches_scan input c c' n r :
  reaches input c c' -> scan_loop n c' input = Some r -> exists m, scan_loop m c input = Some r.
Proof.
  induction 1 as [c|c c1 c2 Hr E _ IH]; intros H; [eauto|]. destruct (IH H) as [m Hm]. exists (S m).
  cbn [scan_loop]. rewrite (proj2 (Z.ltb_lt _ _) Hr), E. done.
Qed.

Lemma scan_loop_total input : forall fuel c,
  ctx_ok c -> measure c input < Z.of_nat fuel -> is_Some (scan_loop fuel c input).
Proof.
  induction fuel as [|fuel IH]; intros c Hok Hm; cbn [scan_loop]; case_if; bsimp; try by eexists.
  - pose proof (measure_nonneg c input Hok). lia.
  - destruct (scan_iter_ok c input Hok Heqb) as (o & -> & Ho). cbn [mbind option_bind].
    destruct o as [c'|len at_ c']; [|by eexists]. destruct Ho as (Hok' & Hm' & _). apply IH; [done|lia].
Qed.

(** Any sufficient fuel gives the result of a terminating run. *)
Lemma scan_loop_any c input n r fuel :
  ctx_ok c -> scan_loop n c input = Some r -> measure c input < Z.of_nat fuel ->
  scan_loop fuel c input = Some r.
Proof.
  intros Hok Hn Hf. destruct (scan_loop_total input fuel c Hok Hf) as [r' E].
  rewrite E. f_equal. destruct (Nat.le_ge_cases n fuel) as [Hl|Hl].
  - apply (scan_loop_mono _ _ _ _ _ Hl) in Hn. congruence.
  - apply (scan_loop_mono _ _ _ _ _ Hl) in E. congruence.
Qed.

(** In the payload, at the end of the buffered bytes [g1]. *)
Definition in_frame (c : scanCtx) (g1 : list Z) : Prop :=
  ctx_ok c /\ st c = state_pld /\ buffIdx c = buffCnt c /\ buffCnt c <= 127 /\
  slice (buff c) (headIdx c) (buffCnt c) = g1.

Lemma in_frame_len c g1 : in_frame c g1 -> zlen g1 = buffCnt c - headIdx c /\ 0 < zlen g1.
Proof.
  intros ((Hl & Hi & Hc & _ & Hh & Hp) & Hs & He & _ & <-). destruct (Hp Hs) as [? _].
  unfold zlen. rewrite slice_length; unfold zlen; lia.
Qed.

(** The next input byte [b], stored and about to be examined: [c2] is the context the
    payload case looks at. *)
Definition looking (c2 : scanCtx) (g : list Z) (r : Z) : Prop :=
  ctx_ok c2 /\ st c2 = state_pld /\ buffIdx c2 = buffCnt c2 - 1 /\ buffCnt c2 <= 127 /\
  slice (buff c2) (headIdx c2) (buffCnt c2) = g /\ rdIdx c2 = r.

Lemma next_byte c input g1 b :
  in_frame c g1 -> zlen g1 <= 126 -> buf_get input (rdIdx c) = Some b -> rdIdx c + 1 < zlen input ->
  exists c1 c2, reaches input c c1 /\ rdIdx c1 < zlen input /\ scan_iter c1 input = scan_pld c2 /\
    looking c2 (g1 ++ [b]) (rdIdx c + 1).
Proof.
  intros Hf Hlen Hb Hr. destruct (in_frame_len _ _ Hf) as [Hg1 _]. destruct Hf as (Hok & Hs & He & H127 & Hsl).
  destruct (pull_ok c input Hok) as (c1 & Hp & Hok1 & Hst & Hhd & Hidx & _ & Hor); [lia|].
  destruct Hor as [(-> & Hx)|(_ & _ & Hcnt & Hrd & b' & Hb' & Hbuf)]; [lia|].
  rewrite Hb in Hb'. injection Hb' as <-.
  assert (Hsl1 : slice (buff c1) (headIdx c1) (buffCnt c1) = g1 ++ [b]).
  { rewrite Hbuf, Hhd, Hcnt, He, slice_snoc; [by rewrite Hsl|..];
      destruct Hok as (?&?&?&?&?&Hpl); destruct (Hpl Hs); unfold zlen; lia. }
  assert (Hit : scan_iter c input = scan_pld c1).
  { unfold scan_iter. rewrite Hp. cbn [mbind option_bind]. by rewrite Hst, Hs. }
  destruct (decide (buffCnt c1 = 128)) as [Hfull|Hroom].
  - assert (Hhead : headIdx c1 <> 0) by lia. unfold scan_pld in Hit. change BUFF_SIZE with 128 in Hit.
    rewrite Hfull, Z.eqb_refl, (proj2 (Z.eqb_neq _ _) Hhead) in Hit.
    destruct (scan_iter_ok c input Hok) as (o & Eo & Ho); [lia|]. rewrite Hit in Eo. injection Eo as <-.
    destruct Ho as (Hok2 & _ & _). set (c2 := mk_ctx _ _ _ _ _ _ _) in *.
    assert (Hp2 : pull c2 input = Some c2).
    { unfold pull, c2. cbn. rewrite (proj2 (Z.eqb_neq _ _)) by lia. done. }
    exists c2, c2. split; [|split; [|split]].
    + eapply reaches_step; [|exact Hit|apply reaches_refl]. lia.
    + cbn. lia.
    + unfold scan_iter. rewrite Hp2. done.
    + split; [done|]. split; [done|]. cbn. split_and!; [lia|lia| |lia].
      rewrite <- Hsl1, Hfull. unfold slice at 1. rewrite drop_0, Z.sub_0_r, take_app_length'; [done|].
      destruct Hok1 as (?&?&?&?&?&Hp1). destruct Hp1 as [? _]; [congruence|]. rewrite slice_length; unfold zlen; lia.
  - exists c, c1. split; [apply reaches_refl|]. split; [lia|]. split; [done|].
    split; [done|]. split; [congruence|]. destruct Hok1 as (?&?&?&?&?&?). split_and!; try done; lia.
Qed.

Lemma drop_cons_inv (input l : list Z) r b :
  drop (Z.to_nat r) input = b :: l -> l <> [] -> 0 <= r -> buf_get input r = Some b /\ r + 1 < zlen input.
Proof.
  intros H Hl Hr. split.
  - apply buf_get_eq; [done|]. rewrite <- (Nat.add_0_r (Z.to_nat r)), <- lookup_drop, H. done.
  - apply (f_equal length) in H. rewrite length_drop in H. cbn in H. destruct l; [done|]. cbn in H. unfold zlen. lia.
Qed.

(** The byte under examination is the last one stored. *)
Lemma looking_byte c2 g r : looking c2 g r -> buff c2 !! Z.to_nat (buffIdx c2) = last g.
Proof.
  intros (Hok & Hs & Hi & Hc & Hsl & Hrd). pose proof Hok as (Hl & Hix & _ & _ & Hh & Hp). destruct (Hp Hs) as [Hhi _].
  rewrite (slice_split _ _ (buffIdx c2)) in Hsl by lia.
  destruct (lookup_lt_is_Some_2 (buff c2) (Z.to_nat (buffIdx c2))) as [y Hy]; [lia|].
  rewrite (slice_cons _ (buffIdx c2) _ y), (slice_nil _ (buffIdx c2 + 1)) in Hsl by (done || lia).
  by rewrite <- Hsl, last_snoc.
Qed.

Lemma look_plain c2 g r b :
  looking c2 g r -> last g = Some b -> b <> 10 ->
  exists c3, scan_pld c2 = Some (Cont c3) /\ in_frame c3 g /\ rdIdx c3 = r.
Proof.
  intros Hl Hb Hne. pose proof (looking_byte _ _ _ Hl) as Hby. rewrite Hb in Hby.
  destruct Hl as (Hok & Hs & Hi & Hc & Hsl & Hrd). pose proof Hok as (Hlb & Hix & ? & ? & Hh & Hp). destruct (Hp Hs) as [Hhi ?].
  unfold scan_pld. change BUFF_SIZE with 128. rewrite (proj2 (Z.eqb_neq (buffCnt c2) 128)) by lia.
  rewrite (buf_get_eq (buff c2) (buffIdx c2) b) by (done || lia). cbn [mbind option_bind].
  rewrite (proj2 (Z.eqb_neq b 10) Hne). cbn [negb]. eexists. split; [done|]. split; [|done].
  unfold in_frame, ctx_ok. cbn. split_and!; try done; try lia. intros _. split; [lia|done].
Qed.

(** The frame is completed by its remaining bytes. *)
Lemma frame_run input tail : forall g2 g1 c,
  in_frame c g1 -> Forall (fun b => b <> 10) g2 -> zlen g1 + zlen g2 <= 126 -> tail <> [] ->
  nmea_checksum (g1 ++ g2 ++ [10]) = true -> drop (Z.to_nat (rdIdx c)) input = g2 ++ 10 :: tail ->
  exists n at_ c', scan_loop n c input = Some (Found (zlen (g1 ++ g2 ++ [10])) at_ c') /\
    slice (buff c') at_ (at_ + zlen (g1 ++ g2 ++ [10])) = handed_out (g1 ++ g2 ++ [10]) /\
    rdIdx c' = rdIdx c + zlen g2 + 1.
Proof.
  induction g2 as [|b g2 IH]; intros g1 c Hf Hn Hlen Ht Hck Hin.
  - assert (Hb : buf_get input (rdIdx c) = Some 10 /\ rdIdx c + 1 < zlen input).
    { apply drop_cons_inv in Hin; [|done|apply Hf]. done. }
    destruct Hb as [Hb Hr]. destruct (next_byte c input g1 10 Hf) as (c1 & c2 & Hre & Hr1 & Hit & Hl2);
      [unfold zlen in *; cbn in *; lia|done|done|].
    assert (Hb2 : buff c2 !! Z.to_nat (buffIdx c2) = Some 10) by (rewrite (looking_byte _ _ _ Hl2); apply last_snoc).
    destruct Hl2 as (Hok & Hs & Hi & Hc & Hsl & Hrd).
    pose proof Hok as (Hl & Hix & _ & _ & Hh & Hp). destruct (Hp Hs) as [Hhi _].
    assert (Hz : zlen (g1 ++ [10]) = buffCnt c2 - headIdx c2).
    { rewrite <- Hsl. unfold zlen. rewrite slice_length; unfold zlen; lia. }
    destruct (reaches_scan input c c1 1 (Found (zlen (g1 ++ [10])) (headIdx c2)
      (mk_ctx (arr_set (buff c2) (buffIdx c2) 0) (buffCnt c2) (buffIdx c2) (headIdx c2) (buffIdx c2) (rdIdx c2) state_header)) Hre)
      as [n Hsc].
    { cbn [scan_loop]. rewrite (proj2 (Z.ltb_lt _ _) Hr1), Hit. unfold scan_pld. change BUFF_SIZE with 128.
      rewrite (proj2 (Z.eqb_neq (buffCnt c2) 128)) by lia. rewrite (buf_get_eq (buff c2) (buffIdx c2) 10) by (done || lia). cbn [mbind option_bind negb].
      change (negb (10 =? 10)) with false. cbn [negb]. rewrite u32_small by lia.
      replace (headIdx c2 + (buffIdx c2 - headIdx c2 + 1)) with (buffCnt c2) by lia.
      rewrite Hsl. cbn [app] in Hck. rewrite Hck. cbn [negb].
      by replace (buffIdx c2 - headIdx c2 + 1) with (zlen (g1 ++ [10])) by lia. }
    eexists n, _, _. split; [exact Hsc|]. cbn [app]. split.
    + cbn [buff].
      rewrite Hz, <- Hsl. replace (buffIdx c2) with (headIdx c2 + (buffCnt c2 - headIdx c2) - 1) by lia.
      rewrite slice_handed by (unfold zlen; lia). by replace (headIdx c2 + (buffCnt c2 - headIdx c2)) with (buffCnt c2) by lia.
    + cbn. unfold zlen. cbn. lia.
  - apply Forall_cons in Hn as [Hb10 Hn].
    assert (Hb : buf_get input (rdIdx c) = Some b /\ rdIdx c + 1 < zlen input).
    { apply drop_cons_inv in Hin; [|by destruct g2|apply Hf]. done. }
    destruct Hb as [Hb Hr]. destruct (next_byte c input g1 b Hf) as (c1 & c2 & Hre & Hr1 & Hit & Hl2);
      [unfold zlen in *; cbn in *; lia|done|done|].
    destruct (look_plain c2 (g1 ++ [b]) (rdIdx c + 1) b Hl2) as (c3 & Hpl & Hf3 & Hr3); [by rewrite last_snoc|done|].
    destruct (IH (g1 ++ [b]) c3) as (n & at_ & c' & Hsc & Hsl & Hrd); [done|done| |done| | |].
    + rewrite zlen_app. unfold zlen in *. cbn in *. lia.
    + by rewrite <- app_assoc.
    + rewrite Hr3. replace (Z.to_nat (rdIdx c + 1)) with (1 + Z.to_nat (rdIdx c))%nat by (destruct Hf as ((?&?&?&?&?)&_); lia).
      rewrite Nat.add_comm, <- drop_drop, Hin. done.
    + rewrite <- app_assoc in Hsc, Hsl. 
      assert (Hre3 : reaches input c c3).
      { eapply reaches_trans; [exact Hre|]. eapply reaches_step; [exact Hr1|by rewrite Hit|apply reaches_refl]. }
      destruct (reaches_scan input c c3 n _ Hre3 Hsc) as [m Hm].
      exists m, at_, c'. split; [exact Hm|]. split; [exact Hsl|]. rewrite Hrd, Hr3. unfold zlen. cbn. lia.
Qed.

(** Searching for a header with nothing but other bytes pending. *)
Definition idle (c : scanCtx) : Prop :=
  ctx_ok c /\ st c = state_header /\ Forall (fun b => b <> 36) (slice (buff c) (buffIdx c) (buffCnt c)).

Lemma header_look c b :
  idle c -> buffCnt c <> 128 -> buffIdx c < buffCnt c -> buff c !! Z.to_nat (buffIdx c) = Some b ->
  b <> 36 /\
  scan_header c = Some (Cont (mk_ctx (buff c) (buffCnt c) (buffIdx c + 1) (headIdx c) (footIdx c) (rdIdx c) state_header)) /\
  idle (mk_ctx (buff c) (buffCnt c) (buffIdx c + 1) (headIdx c) (footIdx c) (rdIdx c) state_header).
Proof.
  intros (Hok & Hs & Hn) Hc Hi Hb. pose proof Hok as (?&?&?&?&?&?).
  rewrite (slice_cons _ _ _ b) in Hn by (done || lia). apply Forall_cons in Hn as [Hb36 Hn]. split; [done|]. split.
  - unfold scan_header. change BUFF_SIZE with 128. rewrite (proj2 (Z.eqb_neq _ _) Hc).
    rewrite (buf_get_eq _ _ b) by (done || lia). cbn [mbind option_bind]. by rewrite (proj2 (Z.eqb_neq _ _) Hb36).
  - split; [|done]. unfold ctx_ok. cbn. split_and!; done || lia.
Qed.

Lemma skip_pending input n : forall c,
  idle c -> buffCnt c <= 126 -> rdIdx c < zlen input -> buffCnt c - buffIdx c = Z.of_nat n ->
  exists c1, reaches input c c1 /\ idle c1 /\ buffIdx c1 = buffCnt c1 /\ buffCnt c1 = buffCnt c /\ rdIdx c1 = rdIdx c.
Proof.
  induction n as [|n IH]; intros c Hid Hc Hr Hn; pose proof Hid as (Hok & Hs & _); pose proof Hok as (Hl & Hi & _).
  { exists c. split; [apply reaches_refl|]. split_and!; try done; lia. }
  destruct (lookup_lt_is_Some_2 (buff c) (Z.to_nat (buffIdx c))) as [b Hb]; [lia|].
  destruct (header_look c b Hid) as (_ & Hlook & Hid'); [lia|lia|done|].
  destruct (IH _ Hid') as (c1 & Hre & Hid1 & He & Hc1 & Hr1); [cbn; lia|done|cbn; lia|].
  exists c1. split; [|done]. eapply reaches_step; [done| |exact Hre].
  unfold scan_iter, pull. rewrite (proj2 (Z.eqb_neq _ _)) by lia. cbn [andb mbind option_bind]. by rewrite Hs.
Qed.

Lemma first_byte c input :
  idle c -> buffIdx c = buffCnt c -> buffCnt c <= 126 -> buf_get input (rdIdx c) = Some 36 -> rdIdx c < zlen input ->
  exists c1, scan_iter c input = Some (Cont c1) /\ in_frame c1 [36] /\ rdIdx c1 = rdIdx c + 1.
Proof.
  intros (Hok & Hs & _) He Hc Hb Hr. destruct (pull_ok c input Hok Hr) as (c1 & Hp & Hok1 & Hst & Hhd & Hidx & _ & Hor).
  destruct Hor as [(-> & Hx)|(_ & _ & Hcnt & Hrd & b' & Hb' & Hbuf)]; [lia|]. rewrite Hb in Hb'. injection Hb' as <-.
  pose proof Hok as (Hl & Hi & _). pose proof Hok1 as (Hl1 & Hi1 & _ & ? & ? & _).
  assert (H36 : buff c1 !! Z.to_nat (buffIdx c1) = Some 36).
  { rewrite Hbuf, Hidx. unfold arr_set. apply list_lookup_insert_eq. lia. }
  unfold scan_iter. rewrite Hp. cbn [mbind option_bind]. rewrite Hst, Hs. unfold scan_header. change BUFF_SIZE with 128.
  rewrite (proj2 (Z.eqb_neq (buffCnt c1) 128)) by lia. rewrite (buf_get_eq _ _ 36) by (done || lia).
  cbn [mbind option_bind]. change (negb (36 =? 36)) with false. cbn [negb]. eexists. split; [done|]. split; [|done].
  unfold in_frame, ctx_ok. cbn. split_and!; try done; try lia; [intros _; split; [lia|done]|].
  rewrite (slice_cons _ _ _ 36) by (done || lia). by rewrite slice_nil by lia.
Qed.

(** A stretch of input without a header. *)
Lemma no_header input : forall fuel c,
  idle c -> (forall b, b ∈ drop (Z.to_nat (rdIdx c)) input -> b <> 36) -> measure c input < Z.of_nat fuel ->
  exists c', scan_loop fuel c input = Some (NoFrame c').
Proof.
  induction fuel as [|fuel IH]; intros c Hid Hn Hm; pose proof Hid as (Hok & Hs & Hpend).
  { destruct (scan_loop_total input 0 c Hok Hm) as [r E]. cbn in E |- *. case_if; [done|]. eauto. }
  cbn [scan_loop]. case_if; bsimp; [|eauto].
  destruct (scan_iter_ok c input Hok Heqb) as (o & Eo & Ho).
  destruct (pull_ok c input Hok Heqb) as (c1 & Hp & Hok1 & Hst & Hhd & Hidx & Hroom & Hor).
  assert (Hid1 : idle c1).
  { split; [done|]. split; [congruence|]. destruct Hor as [(-> & _)|(He & ? & Hc1 & _ & b & Hb & Hbuf)]; [done|].
    pose proof Hok as (Hl & Hi & _). rewrite Hbuf, Hidx, Hc1, He, slice_snoc; [|lia|unfold zlen; lia].
    rewrite slice_nil by lia. constructor; [|done]. apply Hn. apply list_elem_of_lookup.
    exists 0%nat. rewrite lookup_drop, Nat.add_0_r. unfold buf_get in Hb. by case_bool_decide. }
  assert (Hrd : rdIdx c <= rdIdx c1) by (destruct Hor as [(-> & _)|(_ & _ & _ & ? & _)]; lia).
  unfold scan_iter in *. rewrite Hp in *. cbn [mbind option_bind] in *. rewrite Hst, Hs in *.
  assert (Hnext : exists c2, scan_header c1 = Some (Cont c2) /\ idle c2 /\ rdIdx c2 = rdIdx c1).
  { pose proof Hok1 as (Hl1 & Hi1 & ? & ? & ? & _). destruct (decide (buffCnt c1 = 128)) as [Hf|Hf].
    - unfold scan_header. change BUFF_SIZE with 128. rewrite Hf, Z.eqb_refl. eexists. split; [done|]. split; [|done].
      split; [unfold ctx_ok; cbn; split_and!; done || lia|]. cbn. split; [done|]. rewrite slice_nil by lia. constructor.
    - destruct Hroom as [Hroom|]; [|done].
      destruct (lookup_lt_is_Some_2 (buff c1) (Z.to_nat (buffIdx c1))) as [b Hb]; [lia|].
      destruct (header_look c1 b Hid1) as (_ & Hlk & Hid2); [done|done|done|]. eauto. }
  destruct Hnext as (c2 & E2 & Hid2 & Hr2). rewrite E2 in *. injection Eo as <-. destruct Ho as (_ & Hm2 & _).
  cbn [mbind option_bind]. apply IH; [done| |lia].
  intros b Hb. apply Hn. rewrite Hr2 in Hb. destruct Hok as (?&?&?&?&?&?).
  replace (Z.to_nat (rdIdx c1)) with (Z.to_nat (rdIdx c) + Z.to_nat (rdIdx c1 - rdIdx c))%nat in Hb by lia.
  rewrite <- drop_drop in Hb. rewrite <- (take_drop (Z.to_nat (rdIdx c1 - rdIdx c))). apply elem_of_app. by right.
Qed.

Lemma scan_loop_ctx_ok input : forall fuel c r,
  ctx_ok c -> scan_loop fuel c input = Some r -> match r with NoFrame c' | Found _ _ c' => ctx_ok c' end.
Proof.
  induction fuel as [|fuel IH]; intros c r Hok; cbn [scan_loop]; case_if; bsimp; try done.
  2: { destruct (scan_iter_ok c input Hok Heqb) as (o & -> & Ho). cbn [mbind option_bind].
       destruct o as [c'|len at_ c']; [apply IH, Ho|]. intros [= <-]. apply Ho. }
  all: intros [= <-]; destruct Hok as (?&?&?&?&?&Hp); unfold ctx_ok, set_rd; cbn; split_and!; (exact Hp || done || lia).
Qed.

(** A dollar sign read into the last place of the frame buffer. *)
Lemma lost_header c input rest fuel :
  idle c -> buffCnt c = 127 -> buffIdx c = 127 -> drop (Z.to_nat (rdIdx c)) input = 36 :: rest ->
  Forall (fun b => b <> 36) rest -> measure c input < Z.of_nat fuel ->
  exists c', scan_loop fuel c input = Some (NoFrame c').
Proof.
  intros Hid Hc Hi Hin Hno Hm. pose proof Hid as (Hok & Hs & _). pose proof Hok as (Hl & _ & _ & Hr & Hh & _).
  assert (Hlt : rdIdx c < zlen input).
  { apply (f_equal length) in Hin. rewrite length_drop in Hin. cbn in Hin. unfold zlen. lia. }
  destruct (scan_iter_ok c input Hok Hlt) as (o & Eo & Ho).
  destruct (pull_ok c input Hok Hlt) as (c1 & Hp & Hok1 & Hst & Hhd & Hidx & _ & Hor).
  destruct Hor as [(-> & Hx)|(_ & _ & Hcnt & Hrd & _)]; [lia|].
  assert (Hit : scan_iter c input = Some (Cont (mk_ctx (buff c1) 0 0 (headIdx c1) (footIdx c1) (rdIdx c1) state_header))).
  { unfold scan_iter. rewrite Hp. cbn [mbind option_bind]. rewrite Hst, Hs. unfold scan_header. change BUFF_SIZE with 128.
    by replace (buffCnt c1) with 128 by lia. }
  rewrite Hit in Eo. injection Eo as <-. destruct Ho as (Hok2 & Hm2 & _).
  destruct fuel as [|fuel]; [pose proof (measure_nonneg c input Hok); lia|].
  cbn [scan_loop]. rewrite (proj2 (Z.ltb_lt _ _) Hlt), Hit. cbn [mbind option_bind]. apply no_header; [|cbn|lia].
  - split; [done|]. split; [done|]. cbn. rewrite slice_nil by lia. constructor.
  - rewrite Hrd. replace (Z.to_nat (rdIdx c + 1)) with (Z.to_nat (rdIdx c) + 1)%nat by lia.
    rewrite <- drop_drop, Hin. cbn. intros b Hb. by apply (proj1 (Forall_forall _ _) Hno).
Qed.

(** C40: [nmea_scan] ends on every input, from every context whose indices lie in the
    frame buffer: there is one result that every fuel above the measure gives, no
    access leaves the buffers, the result is an error exactly for an empty input, and
    the context it leaves is again such a context. *)
Theorem nmea_scan_terminates (c : scanCtx) (input : list Z) :
  ctx_ok c ->
  exists r, (forall fuel, measure c input < Z.of_nat fuel -> nmea_scan fuel c input = Some r) /\
    (r = None <-> input = []) /\
    match r with Some (NoFrame c' | Found _ _ c') => ctx_ok c' | None => True end.
Proof.
  intros Hok. unfold nmea_scan. destruct input as [|b input]; [by exists None|].
  destruct (scan_loop_total (b :: input) (enough c (b :: input)) c Hok) as [r Hr]; [unfold enough; lia|].
  exists (Some r). split_and!; [|done|by apply (scan_loop_ctx_ok (b :: input) _ c r Hok Hr)].
  intros fuel Hf. rewrite (scan_loop_any c _ _ r fuel Hok Hr Hf). by rewrite (proj2 (Z.eqb_neq _ _)).
Qed.

Lemma nmea_scan_terminates_witness :
  exists r, (forall fuel, measure ctx0 [36; 10; 36] < Z.of_nat fuel -> nmea_scan fuel ctx0 [36; 10; 36] = Some r) /\
    (r = None <-> [36; 10; 36] = []) /\
    match r with Some (NoFrame c' | Found _ _ c') => ctx_ok c' | None => True end.
Proof. apply nmea_scan_terminates. exact ctx0_ok. Defined.

(** ** Sentences, as the standard has them *)

(** The value of an upper-case hexadecimal digit. *)
Definition hex_value (b : Z) : option Z :=
  if (48 <=? b) && (b <=? 57) then Some (b - 48) else if (65 <=? b) && (b <=? 70) then Some (b - 55) else None.

(** A dollar sign, the body, an asterisk and the exclusive or of the bytes of the body in two hexadecimal digits;
    whatever follows up to the newline that ends it. *)
Inductive sentence : list Z -> Prop :=
  | sentence_intro body h1 h2 d1 d2 rest :
      ~ (42 ∈ body) -> hex_value h1 = Some d1 -> hex_value h2 = Some d2 -> foldr Z.lxor 0 body = 16 * d1 + d2 ->
      sentence (36 :: body ++ 42 :: h1 :: h2 :: rest ++ [10]).

Lemma csum_loop_spec l : forall ii cs, Forall is_byte l ->
  exists body rest, l = body ++ rest /\ ~ (42 ∈ body) /\ (rest = [] \/ head rest = Some 42) /\
    csum_loop l ii cs = (ii + zlen body, Z.lxor cs (foldr Z.lxor 0 body)).
Proof.
  induction l as [|b l IH]; intros ii cs Hl; cbn [csum_loop].
  - exists [], []. rewrite Z.lxor_0_r. split_and!; [done|apply not_elem_of_nil|by left|]. by rewrite Z.add_0_r.
  - inversion_clear Hl as [|? ? Hb Hl']. destruct (b =? 42) eqn:E; bsimp.
    + exists [], (b :: l). rewrite Z.lxor_0_r. split_and!; [done|apply not_elem_of_nil|right; by rewrite E|]. by rewrite Z.add_0_r.
    + destruct (IH (ii + 1) (Z.lxor cs (u8 b)) Hl') as (body & rest & -> & Hn & Hr & ->). exists (b :: body), rest. split_and!; [done|by apply not_elem_of_cons|done|].
      rewrite (u8_small b) by exact Hb. cbn [foldr]. rewrite Z.lxor_assoc. f_equal. unfold zlen. cbn. lia.
Qed.

Lemma lxor_byte a b : is_byte a -> is_byte b -> is_byte (Z.lxor a b).
Proof.
  intros Ha Hb. assert (E : Z.lxor a b = u8 (Z.lxor a b)).
  { apply Z.bits_inj'. intros n Hn. unfold u8. destruct (Z.lt_ge_cases n 8); [by rewrite Z.mod_pow2_bits_low by lia|]. rewrite Z.mod_pow2_bits_high by lia.
    rewrite Z.lxor_spec. rewrite <- (u8_small a Ha), <- (u8_small b Hb). unfold u8. by rewrite !Z.mod_pow2_bits_high by lia. }
  rewrite E. apply u8_range.
Qed.

Lemma xor_byte l : Forall is_byte l -> is_byte (foldr Z.lxor 0 l).
Proof. induction 1; [unfold is_byte; cbn; lia|]. by apply lxor_byte. Qed.

Lemma hex_value_digit d : 0 <= d < 16 -> hex_value (hex_digit d) = Some d.
Proof. intros Hd. unfold hex_value, hex_digit. case_if; bsimp; repeat (case_if; bsimp); try lia; f_equal; lia. Qed.

Lemma lookup_after (b : Z) (body r : list Z) (k : nat) x : r !! k = Some x -> (b :: body ++ r) !! S (length body + k) = Some x.
Proof. intros H. change ((body ++ r) !! (length body + k)%nat = Some x). rewrite lookup_app_r by lia. by rewrite Nat.add_sub'. Qed.

(** The frames that [nmea_checksum] accepts are sentences. *)
Lemma checksum_sentence g : Forall is_byte g -> nmea_checksum (g ++ [10]) = true -> sentence (g ++ [10]).
Proof.
  intros Hg. destruct g as [|b g]; [done|]. inversion_clear Hg as [|? ? Hb Hg']. cbn [app nmea_checksum]. destruct (b =? 36) eqn:Eb; cbn [negb]; [|done]. bsimp. subst b.
  assert (Hg : Forall is_byte (g ++ [10])) by (apply Forall_app; split; [done|]; repeat constructor; lia).
  destruct (csum_loop_spec (g ++ [10]) 1 0 Hg) as (body & rest & Er & Hn & Hr & ->). rewrite Z.lxor_0_l. rewrite Er. set (x := foldr Z.lxor 0 body).
  assert (Hx : is_byte x) by (apply xor_byte; rewrite Er in Hg; by apply Forall_app in Hg as [? _]). unfold zlen. cbn [length]. rewrite length_app.
  destruct Hr as [->|Hr]; [cbn [length]; case_if; bsimp; [done|lia]|]. destruct rest as [|c rest]; [done|]. injection Hr as ->. case_if; [done|]. case_if; [done|]. bsimp. cbn [length] in *.
  destruct rest as [|h1 [|h2 rest]]; [cbn in *; lia..|].
  assert (E1 : arr_get (36 :: body ++ 42 :: h1 :: h2 :: rest) (1 + Z.of_nat (length body) + 1) = h1) by (unfold arr_get; replace (Z.to_nat _) with (S (length body + 1)) by lia; by apply list_lookup_total_correct, lookup_after).
  assert (E2 : arr_get (36 :: body ++ 42 :: h1 :: h2 :: rest) (1 + Z.of_nat (length body) + 2) = h2) by (unfold arr_get; replace (Z.to_nat _) with (S (length body + 2)) by lia; by apply list_lookup_total_correct, lookup_after).
  rewrite E1, E2. intros [H1 H2]%andb_true_iff. bsimp. unfold is_byte in Hx. pose proof (Z.mod_pos_bound x 16 ltac:(lia)) as Hm. assert (Hd : 0 <= x / 16 < 16) by divlia.
  assert (H10 : h2 <> 10) by (rewrite <- H2; unfold hex_digit; case_if; lia). destruct rest as [|z rest' _] using rev_ind.
  - exfalso. apply H10. apply (f_equal last) in Er. change (body ++ [42; h1; h2]) with (body ++ [42; h1] ++ [h2]) in Er. rewrite app_assoc, !last_snoc in Er. congruence.
  - assert (z = 10) as -> by (apply (f_equal last) in Er; change (h1 :: h2 :: rest' ++ [z]) with ([h1; h2] ++ rest' ++ [z]) in Er; rewrite (app_comm_cons _ _ 42), !app_assoc, !last_snoc in Er; congruence).
    apply (sentence_intro body h1 h2 (x / 16) (x mod 16)); [done|rewrite <- H1; by apply hex_value_digit|rewrite <- H2; by apply hex_value_digit|]. fold x. divlia.
Qed.

Lemma handed_out_snoc g b : handed_out (g ++ [b]) = g ++ [0].
Proof. unfold handed_out. rewrite length_app. cbn. by rewrite Nat.add_sub, take_app_length. Qed.

(** C25: whatever buffers arrive, in whatever pieces, the receiver's loop returns, and
    each frame handed out is a contiguous piece of the received stream that is a
    [sentence], from its dollar sign to its newline, except that the newline
    is handed out as 0. *)
Theorem nmea_session_sound (fuel : nat) (inputs : list (list Z)) :
  Forall (fun i => zlen i * 60000 + 60000 <= Z.of_nat fuel) inputs -> Forall (Forall is_byte) inputs ->
  exists frames c, session fuel ctx0 inputs = Some (frames, c) /\
    Forall (fun f => exists pre g post, concat inputs = pre ++ (g ++ [10]) ++ post /\ sentence (g ++ [10]) /\ f = g ++ [0]) frames.
Proof.
  intros Hf Hb. destruct (session_ok fuel inputs ctx0 [] Hf ctx0_ok) as (fs & c & E & _ & _ & Hall); [done|left; by exists []|].
  exists fs, c. split; [done|]. eapply Forall_impl; [exact Hall|]. intros f (pre & g & post & Ec & Hck & Hl & ->). rewrite app_nil_l in Ec.
  apply last_Some in Hl as [g' ->]. exists pre, g', post. rewrite handed_out_snoc. split_and!; [done| |done]. apply checksum_sentence; [|done].
  assert (Ha : Forall is_byte (concat inputs)) by (by apply Forall_concat). rewrite Ec in Ha. by apply Forall_app in Ha as [_ [[Ha _]%Forall_app _]%Forall_app].
Qed.

(** [$A*41\r\n] in two pieces. *)
Definition demo_pieces : list (list Z) := [[0; 36; 65]; [42; 52; 49; 13; 10; 0]].

Lemma demo_session :
  session 100 ctx0 demo_pieces =
  Some ([[36; 65; 42; 52; 49; 13; 0]], mk_ctx ([0; 36; 65; 42; 52; 49; 13; 0; 0] ++ replicate 119 0) 9 9 1 7 0 state_header).
Proof. vm_compute. reflexivity. Qed.

Lemma nmea_session_sound_witness :
  exists frames c, session (Z.to_nat 1000000) ctx0 demo_pieces = Some (frames, c) /\
    Forall (fun f => exists pre g post, concat demo_pieces = pre ++ (g ++ [10]) ++ post /\ sentence (g ++ [10]) /\ f = g ++ [0]) frames.
Proof.
  apply (nmea_session_sound (Z.to_nat 1000000) demo_pieces); [rewrite Z2Nat.id by lia|].
  - unfold demo_pieces, zlen. cbn [length]. repeat (apply Forall_cons_2; [cbn; lia|]). by apply Forall_nil_2.
  - unfold demo_pieces, is_byte. repeat constructor; lia.
Defined.

(** a valid frame of at most 127 bytes that follows an idle receiver is handed out
    by the call that reads it, when the input goes on after it and at most 126 bytes
    are buffered; when 127 bytes are buffered, its dollar sign falls into the last
    place of the frame buffer and the whole frame is dropped. *)
Theorem nmea_frame_received (c : scanCtx) (input body tail : list Z) (fuel : nat) :
  let g := 36 :: body ++ [10] in
  idle c -> Forall (fun b => b <> 10) body -> nmea_checksum g = true -> zlen g <= 127 ->
  drop (Z.to_nat (rdIdx c)) input = g ++ tail -> tail <> [] -> measure c input < Z.of_nat fuel ->
  (buffCnt c <= 126 ->
   exists at_ c', scan_loop fuel c input = Some (Found (zlen g) at_ c') /\
     slice (buff c') at_ (at_ + zlen g) = handed_out g /\ rdIdx c' = rdIdx c + zlen g) /\
  (buffCnt c = 127 -> buffIdx c = 127 -> Forall (fun b => b <> 36) (body ++ tail) ->
   exists c', scan_loop fuel c input = Some (NoFrame c')).
Proof.
  intros g Hid Hb Hck Hlen Hin Ht Hm. pose proof Hid as (Hok & Hs & _). pose proof Hok as (Hl & Hi & Hc & Hr & Hh & _).
  destruct (drop_cons_inv input (body ++ [10] ++ tail) (rdIdx c) 36) as [H36 Hr1];
    [by rewrite Hin; unfold g; rewrite <- app_comm_cons, <- app_assoc|by destruct body|done|].
  split.
  - intros Hc126. destruct (skip_pending input (Z.to_nat (buffCnt c - buffIdx c)) c Hid Hc126) as (c1 & Hre & Hid1 & He & Hc1 & Hrd1); [lia|lia|].
    destruct (first_byte c1 input Hid1 He) as (c2 & E2 & Hf2 & Hr2); [lia|by rewrite Hrd1|lia|].
    destruct (frame_run input tail body [36] c2 Hf2 Hb) as (n & at_ & c' & Hsc & Hsl & Hrd); [|done|done| |].
    + unfold g, zlen in *. cbn in *. rewrite length_app in Hlen. cbn in Hlen. lia.
    + rewrite Hr2, Hrd1. replace (Z.to_nat (rdIdx c + 1)) with (Z.to_nat (rdIdx c) + 1)%nat by lia.
      rewrite <- drop_drop, Hin. unfold g. cbn. by rewrite <- app_assoc.
    + assert (Hre2 : reaches input c c2).
      { eapply reaches_trans; [exact Hre|]. eapply reaches_step; [|exact E2|apply reaches_refl]. lia. }
      destruct (reaches_scan input c c2 n _ Hre2 Hsc) as [k Hk]. exists at_, c'. change ([36] ++ body ++ [10]) with g in *.
      split; [by eapply scan_loop_any|]. split; [done|]. rewrite Hrd, Hr2, Hrd1. unfold g, zlen. cbn. rewrite length_app. cbn. lia.
  - intros Hc127 Hi127 Hno. apply (lost_header c input (body ++ [10] ++ tail)); try done.
    + rewrite Hin. unfold g. cbn. by rewrite <- app_assoc.
    + apply Forall_app in Hno as [? ?]. apply Forall_app. split; [done|]. by constructor.
Qed.

(** An idle receiver with 127 other bytes buffered drops the frame; with 2, it does not. *)
Lemma nmea_frame_received_witness :
  (exists at_ c', scan_loop (Z.to_nat 10000000) (mk_ctx (replicate 128 0) 2 1 0 0 0 state_header)
                   [36; 65; 42; 52; 49; 10; 0] = Some (Found 6 at_ c') /\
                  slice (buff c') at_ (at_ + 6) = [36; 65; 42; 52; 49; 0] /\ rdIdx c' = 6) /\
  (exists c', scan_loop (Z.to_nat 10000000) (mk_ctx (replicate 128 0) 127 127 0 0 0 state_header)
                [36; 65; 42; 52; 49; 10; 0] = Some (NoFrame c')).
Proof.
  assert (Hid : forall k i, 0 <= i <= k -> k <= 127 -> idle (mk_ctx (replicate 128 0) k i 0 0 0 state_header)).
  { intros k i Hi Hk. split; [unfold ctx_ok; cbn; split_and!; done || lia|]. split; [done|]. cbn [buff buffIdx buffCnt].
    unfold slice. apply Forall_take, Forall_drop. repeat constructor; lia. }
  split.
  - apply (nmea_frame_received (mk_ctx (replicate 128 0) 2 1 0 0 0 state_header) [36; 65; 42; 52; 49; 10; 0] [65; 42; 52; 49] [0]
      (Z.to_nat 10000000)).
    + apply Hid; lia.
    + repeat constructor; lia.
    + by vm_compute.
    + by vm_compute.
    + done.
    + done.
    + rewrite Z2Nat.id by lia. by vm_compute.
    + cbn. lia.
  - apply (nmea_frame_received (mk_ctx (replicate 128 0) 127 127 0 0 0 state_header) [36; 65; 42; 52; 49; 10; 0] [65; 42; 52; 49] [0]
      (Z.to_nat 10000000)).
    + apply Hid; lia.
    + repeat constructor; lia.
    + by vm_compute.
    + by vm_compute.
    + done.
    + done.
    + rewrite Z2Nat.id by lia. by vm_compute.
    + done.
    + done.
    + repeat constructor; lia.
Defined.

End Nmea.
