(* ===== verification/NmeaParse.v ===== *)
(** * NMEA sentences ([src/sensors/common/gps/nmea.c], [nmea_interpreter] and the parsers of
      single sentences; [src/sensors/server-include/libsensors/gps/nmea.h])

    A [char *] is the part of the buffer from the byte it points at; an access beyond the
    buffer has the result [None]. Numbers of the C library's floating types, and what the
    code does with them, are the class [Floats]; a conversion to [int] of a value out of
    range, which C leaves undefined, is what the instance says. [unsigned long] has 64
    bits. *)

From S2P Require Import Prelude.

Module NmeaParse.

(** ** The C library *)

Class Floats := {
  F32 : Type; F64 : Type;
  strtod : list Z -> F64;   (* of the text before the terminating 0 *)
  to32 : F64 -> F32;
  int64 : F64 -> Z; of_int64 : Z -> F64; add64 : F64 -> F64 -> F64; sub64 : F64 -> F64 -> F64; div64 : F64 -> F64 -> F64; neg64 : F64 -> F64;
  int32 : F32 -> Z; of_int32 : Z -> F32; add32 : F32 -> F32 -> F32; sub32 : F32 -> F32 -> F32; div32 : F32 -> F32 -> F32; neg32 : F32 -> F32
}.

(** [strchr(s, c)] for a [c] other than 0: [Some None] is [NULL]. *)
Fixpoint strchr (s : list Z) (c : Z) : option (option (list Z)) :=
  match s with
  | [] => None
  | b :: t => if b =? c then Some (Some s) else if b =? 0 then Some None else strchr t c
  end.

(** [strncmp(s, lit, length lit) == 0] for a literal without 0. *)
Fixpoint strneq (s lit : list Z) {struct lit} : option bool :=
  match lit with
  | [] => Some true
  | c :: lit => match s with [] => None | b :: s => if b =? c then strneq s lit else Some false end
  end.

(** The text of a string, before its terminating 0. *)
Fixpoint cstr (s : list Z) : option (list Z) :=
  match s with
  | [] => None
  | b :: t => if b =? 0 then Some [] else cons b <$> cstr t
  end.

Definition is_space (c : Z) : bool := (c =? 32) || ((9 <=? c) && (c <=? 13)).
Definition is_digit (c : Z) : bool := (48 <=? c) && (c <=? 57).
Fixpoint skip_spaces (l : list Z) : list Z :=
  match l with [] => [] | c :: l' => if is_space c then skip_spaces l' else l end.
Fixpoint digits (l : list Z) (acc : Z) : Z :=
  match l with [] => acc | c :: l => if is_digit c then digits l (acc * 10 + (c - 48)) else acc end.
(** [strtoul(text, NULL, 10)] *)
Definition strtoul (l : list Z) : Z :=
  let body := skip_spaces l in
  let '(neg, body) := match body with
                      | c :: b => if c =? 45 then (true, b) else if c =? 43 then (false, b) else (false, body)
                      | [] => (false, body)
                      end in
  let v := digits body 0 in
  if 2 ^ 64 <=? v then 2 ^ 64 - 1 else if neg then u64 (- v) else v.

(** ** Sentences *)

Section parse.
Context {F : Floats}.

Record nmea_gsa_t := mk_gsa { gsa_fix : Z; gsa_pdop : F32; gsa_hdop : F32; gsa_vdop : F32 }.
Record nmea_rmc_t := mk_rmc { rmc_lat : F32; rmc_lon : F32; rmc_speed : F32; rmc_course : F32; rmc_magvar : F32 }.
Record nmea_vtg_t := mk_vtg { vtg_track : F32; vtg_track_type : Z; vtg_speed_knots : F32; vtg_speed_kmh : F32 }.
Record nmea_gga_t := mk_gga {
  gga_lat : F64; gga_lon : F64; gga_utc : F32; gga_fix : Z; gga_sats : Z; gga_hdop : F32; gga_h_asl : F32; gga_h_wgs : F32
}.
Inductive nmea_type := nmea_gga | nmea_gsa | nmea_rmc | nmea_vtg | nmea_unknown | nmea_broken.
(** The union; [Other] is whatever it held before. *)
Inductive nmea_msg := Gsa (m : nmea_gsa_t) | Rmc (m : nmea_rmc_t) | Vtg (m : nmea_vtg_t) | Gga (m : nmea_gga_t) | Other.
Record nmea_t := mk_nmea { type : nmea_type; msg : nmea_msg }.

Definition field_gsa_fix : nat := 2.
Definition field_gsa_pdop : nat := 15.
Definition field_gsa_hdop : nat := 16.
Definition field_gsa_vdop : nat := 17.
Definition field_rmc_lat : nat := 3.
Definition field_rmc_lon : nat := 5.
Definition field_rmc_speedknots : nat := 7.
Definition field_rmc_course : nat := 8.
Definition field_rmc_magvar : nat := 10.
Definition field_vtg_track : nat := 1.
Definition field_vtg_speedknots : nat := 5.
Definition field_vtg_speedkmh : nat := 7.
Definition field_gga_utc : nat := 1.
Definition field_gga_lat : nat := 2.
Definition field_gga_lon : nat := 4.
Definition field_gga_fix : nat := 6.
Definition field_gga_sats : nat := 7.
Definition field_gga_hdop : nat := 8.
Definition field_gga_h_asl : nat := 9.
Definition field_gga_h_wgs : nat := 11.
Definition gsa_fix_notavailable : Z := 1.
Definition gsa_fix_3d : Z := 3.
Definition gga_fix_invalid : Z := 0.
Definition gga_fix_simulation : Z := 8.

(** [str + 1] *)
Definition next (str : list Z) : option (list Z) := match str with [] => None | _ :: t => Some t end.

Fixpoint nmea_nField (str : list Z) (n : nat) : option (option (list Z)) :=
  match n with
  | O => Some (Some str)
  | S n =>
      t ← next str;
      r ← strchr t 44;
      match r with None => Some None | Some p => nmea_nField p n end
  end.

(** [p = nmea_nField(p, n); if (p == NULL) return;] and what follows. *)
Definition on_field {A} (p : list Z) (n : nat) (broken : option A) (k : list Z -> option A) : option A :=
  r ← nmea_nField p n;
  match r with None => broken | Some p => k p end.

(** [strtod(p + 1, NULL)] and [strtoul(p + 1, NULL, 10)] (to [unsigned int]). *)
Definition num (p : list Z) : option F64 := t ← next p; s ← cstr t; Some (strtod s).
Definition num32 (p : list Z) : option F32 := x ← num p; Some (to32 x).
Definition count (p : list Z) : option Z := t ← next p; s ← cstr t; Some (u32 (strtoul s)).

(** [ddmm.mmmm] to [dd.dddd], and its sign. *)
Definition degrees64 (x : F64) (negative : bool) : F64 :=
  let d := int64 x `quot` 100 in
  let y := add64 (of_int64 d) (div64 (sub64 x (of_int64 (d * 100))) (of_int64 60)) in
  if negative then neg64 y else y.
Definition degrees32 (x : F32) (negative : bool) : F32 :=
  let d := int32 x `quot` 100 in
  let y := add32 (of_int32 d) (div32 (sub32 x (of_int32 (d * 100))) (of_int32 60)) in
  if negative then neg32 y else y.

(** [sign[1] == c] *)
Definition sign_is (sign : list Z) (c : Z) : option bool := b ← sign !! 1%nat; Some (b =? c).

Definition nmea_parsegsa (str : list Z) (out : nmea_t) : option nmea_t :=
  let broken := Some (mk_nmea nmea_broken (msg out)) in
  on_field str field_gsa_fix broken (fun p =>
  fix_ ← count p;
  let fix_ := if (fix_ <? gsa_fix_notavailable) || (gsa_fix_3d <? fix_) then gsa_fix_notavailable else fix_ in
  on_field p (field_gsa_pdop - field_gsa_fix) broken (fun p =>
  pdop ← num32 p;
  on_field p (field_gsa_hdop - field_gsa_pdop) broken (fun p =>
  hdop ← num32 p;
  on_field p (field_gsa_vdop - field_gsa_hdop) broken (fun p =>
  vdop ← num32 p;
  Some (mk_nmea nmea_gsa (Gsa (mk_gsa fix_ pdop hdop vdop))))))).

Definition nmea_parsevtg (str : list Z) (out : nmea_t) : option nmea_t :=
  let broken := Some (mk_nmea nmea_broken (msg out)) in
  on_field str field_vtg_track broken (fun p =>
  track ← num32 p;
  on_field p (field_vtg_speedknots - field_vtg_track) broken (fun p =>
  knots ← num32 p;
  on_field p (field_vtg_speedkmh - field_vtg_speedknots) broken (fun p =>
  kmh ← num32 p;
  Some (mk_nmea nmea_vtg (Vtg (mk_vtg track 0 knots kmh)))))).

Definition nmea_parsegga (str : list Z) (out : nmea_t) : option nmea_t :=
  let broken := Some (mk_nmea nmea_broken (msg out)) in
  on_field str field_gga_utc broken (fun p =>
  utc ← num32 p;
  on_field p (field_gga_lat - field_gga_utc) broken (fun p =>
  on_field p 1 broken (fun sign =>
  lat ← num p;
  south ← sign_is sign 83;
  let lat := degrees64 lat south in
  on_field p (field_gga_lon - field_gga_lat) broken (fun p =>
  on_field p 1 broken (fun sign =>
  lon ← num p;
  west ← sign_is sign 87;
  let lon := degrees64 lon west in
  on_field p (field_gga_fix - field_gga_lon) broken (fun p =>
  fix_ ← count p;
  let fix_ := if gga_fix_simulation <? fix_ then gga_fix_invalid else fix_ in
  on_field p (field_gga_sats - field_gga_fix) broken (fun p =>
  sats ← count p;
  on_field p (field_gga_hdop - field_gga_sats) broken (fun p =>
  hdop ← num32 p;
  on_field p (field_gga_h_asl - field_gga_hdop) broken (fun p =>
  h_asl ← num32 p;
  on_field p (field_gga_h_wgs - field_gga_h_asl) broken (fun p =>
  h_wgs ← num32 p;
  Some (mk_nmea nmea_gga (Gga (mk_gga lat lon utc fix_ sats hdop h_asl h_wgs))))))))))))).

Definition nmea_parsermc (str : list Z) (out : nmea_t) : option nmea_t :=
  let broken := Some (mk_nmea nmea_broken (msg out)) in
  on_field str field_rmc_lat broken (fun p =>
  on_field p 1 broken (fun sign =>
  lat ← num32 p;
  south ← sign_is sign 83;
  let lat := degrees32 lat south in
  on_field p (field_rmc_lon - field_rmc_lat) broken (fun p =>
  on_field p 1 broken (fun sign =>
  lon ← num32 p;
  west ← sign_is sign 87;
  let lon := degrees32 lon west in
  on_field p (field_rmc_speedknots - field_rmc_lon) broken (fun p =>
  speed ← num32 p;
  on_field p (field_rmc_course - field_rmc_speedknots) broken (fun p =>
  course ← num32 p;
  on_field p (field_rmc_magvar - field_rmc_course) broken (fun p =>
  magvar ← num32 p;
  Some (mk_nmea nmea_rmc (Rmc (mk_rmc lat lon speed course magvar)))))))))).

Definition GSA : list Z := [71; 83; 65].
Definition VTG : list Z := [86; 84; 71].
Definition GGA : list Z := [71; 71; 65].
Definition RMC : list Z := [82; 77; 67].

Definition nmea_interpreter (str : list Z) (out : nmea_t) : option nmea_t :=
  let unknown := Some (mk_nmea nmea_unknown (msg out)) in
  g ← strneq str [36; 71];
  if negb g then unknown
  else
    b ← str !! 2%nat;
    if b =? 0 then unknown
    else
      let id := drop 3 str in
      is_gsa ← strneq id GSA;
      if (is_gsa : bool) then nmea_parsegsa str out
      else
        is_vtg ← strneq id VTG;
        if (is_vtg : bool) then nmea_parsevtg str out
        else
          is_gga ← strneq id GGA;
          if (is_gga : bool) then nmea_parsegga str out
          else
            is_rmc ← strneq id RMC;
            if (is_rmc : bool) then nmea_parsermc str out else unknown.
End parse.
(** ** Fields *)

(** A text cut at its commas: what precedes the first one, and the fields. *)
Fixpoint cut (s : list Z) : list Z * list (list Z) :=
  match s with
  | [] => ([], [])
  | b :: s => let '(f, fs) := cut s in if b =? 44 then ([], f :: fs) else (b :: f, fs)
  end.

(** The text of the fields, each after its comma. *)
Definition joined (fs : list (list Z)) : list Z := concat (map (cons 44) fs).

(** A field is a text without comma and 0. *)
Definition plain (f : list Z) : Prop := (44 ∉ f) /\ (0 ∉ f).

Lemma plain_cons b f : plain (b :: f) <-> (b <> 44 /\ b <> 0 /\ plain f).
Proof. unfold plain. rewrite !not_elem_of_cons. intuition congruence. Qed.

Lemma cut_spec s : 0 ∉ s -> s = (cut s).1 ++ joined (cut s).2 /\ plain (cut s).1 /\ Forall plain (cut s).2.
Proof.
  induction s as [|b s IH]; cbn; [intros _; split; [done|split; [split; apply not_elem_of_nil|constructor]]|].
  rewrite not_elem_of_cons. intros [Hb Hs]. destruct (IH Hs) as (E & Hp & Hf). destruct (cut s) as [f fs]. cbn in *. case_if; bsimp; cbn.
  - subst b. split; [by rewrite E at 1|split; [split; apply not_elem_of_nil|by constructor]].
  - split; [by rewrite E at 1|split; [by apply plain_cons|done]].
Qed.

Lemma cut_plain f fs : plain f -> Forall plain fs -> cut (f ++ joined fs) = (f, fs).
Proof.
  intros Hf Hfs. revert f Hf. induction Hfs as [|g fs Hg _ IH]; intros f Hf.
  - rewrite app_nil_r. induction f as [|b f IHf]; [done|]. apply plain_cons in Hf as (H1 & _ & Hf). cbn. rewrite IHf by done.
    by rewrite (proj2 (Z.eqb_neq b 44) H1).
  - induction f as [|b f IHf]; cbn.
    + by rewrite IH.
    + apply plain_cons in Hf as (H1 & _ & Hf). specialize (IHf Hf). cbn in IHf. rewrite IHf. by rewrite (proj2 (Z.eqb_neq b 44) H1).
Qed.

Section fields.
Variable rest : list Z.

(** The buffer from a comma, or from the terminating 0, on. *)
Definition mem (fs : list (list Z)) : list Z := joined fs ++ 0 :: rest.

Lemma strchr_mem f fs : plain f -> strchr (f ++ mem fs) 44 = Some (match fs with [] => None | _ => Some (mem fs) end).
Proof.
  induction f as [|b f IH]; intros Hf; cbn; [by destruct fs|]. apply plain_cons in Hf as (H1 & H2 & Hf).
  rewrite (proj2 (Z.eqb_neq b 44) H1), (proj2 (Z.eqb_neq b 0) H2). by apply IH.
Qed.

Lemma cstr_text s : 0 ∉ s -> cstr (s ++ 0 :: rest) = Some s.
Proof. induction s as [|b s IH]; cbn; [done|]. rewrite not_elem_of_cons. intros [Hb Hs]. rewrite (proj2 (Z.eqb_neq b 0)) by congruence. by rewrite IH. Qed.

Lemma strneq_text s lit : 0 ∉ s -> 0 ∉ lit -> strneq (s ++ 0 :: rest) lit = Some (bool_decide (take (length lit) s = lit)).
Proof.
  revert s. induction lit as [|c lit IH]; intros s Hs Hl; cbn [strneq]; [by rewrite bool_decide_eq_true_2|].
  apply not_elem_of_cons in Hl as [Hc Hl]. destruct s as [|b s]; cbn [app take length].
  - rewrite (proj2 (Z.eqb_neq 0 c)) by done. by rewrite bool_decide_eq_false_2.
  - apply not_elem_of_cons in Hs as [Hb Hs]. case_if; bsimp; [subst b|by rewrite bool_decide_eq_false_2 by congruence].
    rewrite IH by done. f_equal. apply bool_decide_ext. split; [by intros ->|congruence].
Qed.

(** The [n]-th comma after a character that starts a text or a field. *)
Lemma nField_mem n : forall c f fs, plain f -> Forall plain fs -> (n <> 0)%nat ->
  nmea_nField (c :: f ++ mem fs) n = Some (if decide (n <= length fs)%nat then Some (mem (drop (n - 1) fs)) else None).
Proof.
  induction n as [|n IH]; intros c f fs Hf Hfs Hn; [done|]. cbn [nmea_nField next]. cbn. rewrite strchr_mem by done.
  destruct fs as [|g fs]; [done|]. apply Forall_cons in Hfs as [Hg Hfs]. cbn [mbind option_bind]. destruct n as [|n]; [done|].
  change (mem (g :: fs)) with (44 :: (g ++ joined fs) ++ 0 :: rest). rewrite <- app_assoc. change (joined fs ++ 0 :: rest) with (mem fs).
  rewrite IH by done. cbn [length]. f_equal. replace (S n - 1)%nat with n by lia. replace (S (S n) - 1)%nat with (S n) by lia. cbn [drop].
  repeat case_decide; try done; lia.
Qed.
End fields.
(** ** The sentences by their fields *)

(** A literal has no 0. *)
Ltac no_zero := apply (bool_decide_unpack _); by vm_compute.

Section sentences.
Context {F : Floats}.

(** Field [k] of a text with the fields [fs] ([k = 1] is the first one after a comma). *)
Definition field (fs : list (list Z)) (k : nat) : list Z := fs !!! (k - 1)%nat.
Definition real (fs : list (list Z)) (k : nat) : F32 := to32 (strtod (field fs k)).
Definition natural (fs : list (list Z)) (k : nat) : Z := u32 (strtoul (field fs k)).
Definition starts (fs : list (list Z)) (k : nat) (c : Z) : bool := bool_decide (head (field fs k) = Some c).

(** What the standard says a sentence with these fields means; too few fields are broken. *)
Definition gsa_of (fs : list (list Z)) : nmea_gsa_t :=
  let v := natural fs 2 in mk_gsa (if (1 <=? v) && (v <=? 3) then v else 1) (real fs 15) (real fs 16) (real fs 17).
Definition vtg_of (fs : list (list Z)) : nmea_vtg_t := mk_vtg (real fs 1) 0 (real fs 5) (real fs 7).
Definition gga_of (fs : list (list Z)) : nmea_gga_t :=
  mk_gga (degrees64 (strtod (field fs 2)) (starts fs 3 83)) (degrees64 (strtod (field fs 4)) (starts fs 5 87)) (real fs 1)
    (if natural fs 6 <=? 8 then natural fs 6 else 0) (natural fs 7) (real fs 8) (real fs 9) (real fs 11).
Definition rmc_of (fs : list (list Z)) : nmea_rmc_t :=
  mk_rmc (degrees32 (real fs 3) (starts fs 4 83)) (degrees32 (real fs 5) (starts fs 6 87)) (real fs 7) (real fs 8) (real fs 10).

Definition sentence (s : list Z) (out : nmea_t) : nmea_t :=
  let fs := (cut s).2 in
  let id := take 3 (drop 3 s) in
  let known (need : nat) (m : nmea_t) := if decide (need <= length fs)%nat then m else mk_nmea nmea_broken (msg out) in
  if bool_decide (take 2 s = [36; 71]) && bool_decide (2 < length s)%nat then
    if bool_decide (id = GSA) then known 17%nat (mk_nmea nmea_gsa (Gsa (gsa_of fs)))
    else if bool_decide (id = VTG) then known 7%nat (mk_nmea nmea_vtg (Vtg (vtg_of fs)))
    else if bool_decide (id = GGA) then known 11%nat (mk_nmea nmea_gga (Gga (gga_of fs)))
    else if bool_decide (id = RMC) then known 10%nat (mk_nmea nmea_rmc (Rmc (rmc_of fs)))
    else mk_nmea nmea_unknown (msg out)
  else mk_nmea nmea_unknown (msg out).

Lemma skip_spaces_comma a b : skip_spaces (a ++ 44 :: b) = skip_spaces a ++ 44 :: b.
Proof. induction a as [|c a IH]; cbn; [done|]. by case_if. Qed.

Lemma digits_comma a b : forall acc, digits (a ++ 44 :: b) acc = digits a acc.
Proof. induction a as [|c a IH]; intros acc; cbn; [done|]. case_if; [apply IH|done]. Qed.

Lemma strtoul_comma a b : strtoul (a ++ 44 :: b) = strtoul a.
Proof.
  unfold strtoul. rewrite skip_spaces_comma. destruct (skip_spaces a) as [|c body]; cbn [app]; [done|].
  destruct (c =? 45); [by rewrite digits_comma|]. destruct (c =? 43); [by rewrite digits_comma|].
  change (c :: body ++ 44 :: b) with ((c :: body) ++ 44 :: b). by rewrite digits_comma.
Qed.

Hypothesis strtod_comma : forall a b, strtod (a ++ 44 :: b) = strtod a.
Variable rest : list Z.
Variable fs : list (list Z).
Hypothesis Hfs : Forall plain fs.

(** The pointer to the comma before field [k]. *)
Definition at_field (k : nat) : list Z := mem rest (drop (k - 1) fs).

Lemma at_field_eq k : (1 <= k <= length fs)%nat ->
  at_field k = 44 :: field fs k ++ mem rest (drop k fs) /\ plain (field fs k).
Proof.
  intros Hk. destruct (lookup_lt_is_Some_2 fs (k - 1)) as [f Hf]; [lia|]. unfold at_field, field. rewrite (list_lookup_total_correct _ _ _ Hf).
  rewrite (drop_S _ f (k - 1) Hf). replace (S (k - 1)) with k by lia. split; [|by eapply Forall_lookup_1].
  unfold mem. cbn. by rewrite <- app_assoc.
Qed.

Lemma on_field_at {A} k n broken (K : list Z -> option A) : (1 <= k <= length fs)%nat -> (n <> 0)%nat ->
  on_field (at_field k) n broken K = if decide (k + n <= length fs)%nat then K (at_field (k + n)) else broken.
Proof.
  intros Hk Hn. destruct (at_field_eq k Hk) as [-> Hp]. unfold on_field.
  rewrite (nField_mem rest n 44 _ (drop k fs)); [|done|by apply Forall_drop|done]. cbn. rewrite length_drop. repeat case_decide; try lia; [|done].
  unfold at_field. rewrite drop_drop. do 3 f_equal. lia.
Qed.

Lemma on_field_start {A} c f n broken (K : list Z -> option A) : plain f -> (n <> 0)%nat ->
  on_field (c :: f ++ mem rest fs) n broken K = if decide (n <= length fs)%nat then K (at_field n) else broken.
Proof. intros Hf Hn. unfold on_field. rewrite nField_mem by done. cbn. by case_decide. Qed.

Lemma text_at k : (1 <= k <= length fs)%nat -> (t ← next (at_field k); cstr t) = Some (field fs k ++ joined (drop k fs)).
Proof.
  intros Hk. destruct (at_field_eq k Hk) as [-> Hp]. cbn. unfold mem. rewrite app_assoc. apply cstr_text.
  rewrite not_elem_of_app. split; [apply Hp|]. assert (Hd : Forall plain (drop k fs)) by by apply Forall_drop.
  induction Hd as [|f l [_ Hf] _ IH]; [by apply not_elem_of_nil|]. cbn. rewrite not_elem_of_cons, not_elem_of_app. done.
Qed.

Lemma joined_cases l : joined l = [] \/ exists b, joined l = 44 :: b.
Proof. destruct l as [|f l]; [by left|right; by eexists]. Qed.

Lemma num_at k : (1 <= k <= length fs)%nat -> num (at_field k) = Some (strtod (field fs k)).
Proof.
  intros Hk. pose proof (text_at k Hk) as E. unfold num. destruct (next (at_field k)) as [t|]; [|done]. cbn in E |- *. rewrite E. cbn.
  destruct (joined_cases (drop k fs)) as [->|[b ->]]; [by rewrite app_nil_r|by rewrite strtod_comma].
Qed.

Lemma num32_at k : (1 <= k <= length fs)%nat -> num32 (at_field k) = Some (real fs k).
Proof. intros Hk. unfold num32. by rewrite num_at. Qed.

Lemma count_at k : (1 <= k <= length fs)%nat -> count (at_field k) = Some (natural fs k).
Proof.
  intros Hk. pose proof (text_at k Hk) as E. unfold count. destruct (next (at_field k)) as [t|]; [|done]. cbn in E |- *. rewrite E. cbn.
  unfold natural. destruct (joined_cases (drop k fs)) as [->|[b ->]]; [by rewrite app_nil_r|by rewrite strtoul_comma].
Qed.

Lemma sign_at k c : (1 <= k <= length fs)%nat -> c <> 44 -> c <> 0 -> sign_is (at_field k) c = Some (starts fs k c).
Proof.
  intros Hk H44 H0. destruct (at_field_eq k Hk) as [-> _]. unfold sign_is, starts. destruct (field fs k) as [|b f]; cbn [app lookup list_lookup mbind option_bind head].
  - unfold mem. rewrite bool_decide_eq_false_2 by done.
    destruct (joined_cases (drop k fs)) as [->|[x ->]]; cbn [app lookup list_lookup mbind option_bind]; f_equal; by apply Z.eqb_neq.
  - f_equal. destruct (Z.eqb_spec b c) as [->|Hne]; [by rewrite bool_decide_eq_true_2|by rewrite bool_decide_eq_false_2 by congruence].
Qed.
(** ** The parsers *)

(** One more field, or too few of them. *)
Ltac next_field :=
  first [rewrite on_field_start by (done || lia) | rewrite on_field_at by lia];
  case_decide; [cbn [Nat.add]|rewrite decide_False by lia; done].

Lemma parse_fields c f out : plain f ->
  let str := c :: f ++ mem rest fs in
  let known (need : nat) (m : nmea_t) := if decide (need <= length fs)%nat then m else mk_nmea nmea_broken (msg out) in
  nmea_parsegsa str out = Some (known 17%nat (mk_nmea nmea_gsa (Gsa (gsa_of fs)))) /\
  nmea_parsevtg str out = Some (known 7%nat (mk_nmea nmea_vtg (Vtg (vtg_of fs)))) /\
  nmea_parsegga str out = Some (known 11%nat (mk_nmea nmea_gga (Gga (gga_of fs)))) /\
  nmea_parsermc str out = Some (known 10%nat (mk_nmea nmea_rmc (Rmc (rmc_of fs)))).
Proof.
  intros Hf. cbn zeta. split_and!.
  - unfold nmea_parsegsa, field_gsa_fix, field_gsa_pdop, field_gsa_hdop, field_gsa_vdop. cbn [Nat.sub].
    next_field. rewrite count_at by lia. cbn [mbind option_bind]. next_field. rewrite num32_at by lia. cbn [mbind option_bind].
    next_field. rewrite num32_at by lia. cbn [mbind option_bind]. next_field. rewrite num32_at by lia. cbn [mbind option_bind].
    rewrite decide_True by lia. do 3 f_equal. unfold gsa_of, gsa_fix_notavailable, gsa_fix_3d. cbn zeta. f_equal. repeat case_if; bsimp; lia.
  - unfold nmea_parsevtg, field_vtg_track, field_vtg_speedknots, field_vtg_speedkmh. cbn [Nat.sub].
    next_field. rewrite num32_at by lia. cbn [mbind option_bind]. next_field. rewrite num32_at by lia. cbn [mbind option_bind].
    next_field. rewrite num32_at by lia. cbn [mbind option_bind]. by rewrite decide_True by lia.
  - unfold nmea_parsegga, field_gga_utc, field_gga_lat, field_gga_lon, field_gga_fix, field_gga_sats, field_gga_hdop, field_gga_h_asl, field_gga_h_wgs.
    cbn [Nat.sub].
    next_field. rewrite num32_at by lia. cbn [mbind option_bind]. next_field. next_field. rewrite num_at, sign_at by lia. cbn [mbind option_bind].
    next_field. next_field. rewrite num_at, sign_at by lia. cbn [mbind option_bind].
    do 2 (next_field; rewrite count_at by lia; cbn [mbind option_bind]). do 3 (next_field; rewrite num32_at by lia; cbn [mbind option_bind]).
    rewrite decide_True by lia. do 3 f_equal. unfold gga_of, gga_fix_simulation, gga_fix_invalid. f_equal. repeat case_if; bsimp; lia.
  - unfold nmea_parsermc, field_rmc_lat, field_rmc_lon, field_rmc_speedknots, field_rmc_course, field_rmc_magvar. cbn [Nat.sub].
    next_field. next_field. rewrite num32_at, sign_at by lia. cbn [mbind option_bind].
    next_field. next_field. rewrite num32_at, sign_at by lia. cbn [mbind option_bind].
    do 3 (next_field; rewrite num32_at by lia; cbn [mbind option_bind]). by rewrite decide_True by lia.
Qed.
End sentences.

(** the interpreter of a sentence stored with its terminating 0 in a buffer never
    leaves the buffer, and its result is what the comma-separated fields of the text
    mean: the type by the letters after the talker, every number from the field of its
    position, the hemisphere letters as signs, fix qualities out of their range as
    invalid; a sentence with too few fields is broken, another one unknown, and both
    leave the message alone. *)
Theorem nmea_interpreter_fields `{F : Floats} (s rest : list Z) (out : nmea_t) :
  (forall a b, strtod (a ++ 44 :: b) = strtod a) -> 0 ∉ s ->
  nmea_interpreter (s ++ 0 :: rest) out = Some (sentence s out).
Proof.
  intros Hc Hs. unfold nmea_interpreter, sentence. rewrite strneq_text by (done || no_zero). cbn [mbind option_bind length].
  case_bool_decide as E2; [|done]. destruct s as [|c [|g s]]; [done|by destruct c|]. injection E2 as -> ->. cbn [negb andb].
  destruct s as [|t s]; [done|]. cbn [app lookup list_lookup mbind option_bind]. apply not_elem_of_cons in Hs as [_ Hs]. pose proof Hs as Hs0.
  apply not_elem_of_cons in Hs as [_ Hs]. apply not_elem_of_cons in Hs as [Ht Hs]. rewrite (proj2 (Z.eqb_neq t 0)) by congruence.
  rewrite (bool_decide_eq_true_2 (2 < _)%nat) by (cbn; lia). cbn zeta. cbn [drop].
  destruct (cut_spec (71 :: t :: s) Hs0) as (E & Hp & Hf). set (f := (cut (71 :: t :: s)).1) in *. set (fs := (cut (71 :: t :: s)).2) in *.
  assert (Efs : (cut (36 :: 71 :: t :: s)).2 = fs).
  { change (cut (36 :: 71 :: t :: s)) with (let '(f, fs) := cut (71 :: t :: s) in (36 :: f, fs)). by destruct (cut (71 :: t :: s)). }
  rewrite Efs. assert (Em : 36 :: 71 :: t :: s ++ 0 :: rest = 36 :: f ++ mem rest fs).
  { f_equal. unfold mem. rewrite app_assoc, <- E. done. }
  rewrite Em. destruct (parse_fields Hc rest fs Hf 36 f out Hp) as (P1 & P2 & P3 & P4). rewrite P1, P2, P3, P4.
  rewrite !drop_0, !strneq_text by (done || no_zero). cbn [mbind option_bind].
  change (length GSA) with 3%nat. change (length VTG) with 3%nat. change (length GGA) with 3%nat. change (length RMC) with 3%nat.
  repeat case_bool_decide; done.
Qed.

(** Whole numbers in place of the floating types. *)
#[local] Instance demo_floats : Floats := {
  F32 := Z; F64 := Z; strtod := strtoul; to32 x := x;
  int64 x := x; of_int64 x := x; add64 := Z.add; sub64 := Z.sub; div64 := Z.quot; neg64 := Z.opp;
  int32 x := x; of_int32 x := x; add32 := Z.add; sub32 := Z.sub; div32 := Z.quot; neg32 := Z.opp
}.

Definition text (s : string) : list Z := map (fun a => Z.of_N (Ascii.N_of_ascii a)) (String.list_ascii_of_string s).

Definition demo_gga : list Z := text "$GPGGA,172814,3723,S,12202,W,2,6,1,18,M,25,M,2,0031*4F".

Definition demo_msg : nmea_t := mk_nmea nmea_gga (Gga (mk_gga (-37) (-122) 172814 2 6 1 18 25)).

Lemma demo_sentence : sentence demo_gga (mk_nmea nmea_unknown Other) = demo_msg.
Proof. exact (eq_refl demo_msg <: sentence demo_gga (mk_nmea nmea_unknown Other) = demo_msg). Qed.

Lemma nmea_interpreter_fields_witness :
  nmea_interpreter (demo_gga ++ 0 :: [65; 66]) (mk_nmea nmea_unknown Other) = Some demo_msg.
Proof.
  refine (eq_trans (@nmea_interpreter_fields demo_floats demo_gga [65; 66] (mk_nmea nmea_unknown Other) _ _) (f_equal Some demo_sentence)).
  - intros a b. apply strtoul_comma.
  - no_zero.
Defined.

(** Too few fields, and an unknown sentence. *)
Example demo_broken : type <$> nmea_interpreter (text "$GPGGA,172814,3723,S" ++ [0]) (mk_nmea nmea_unknown Other) = Some nmea_broken.
Proof. by vm_compute. Qed.
Example demo_unknown : type <$> nmea_interpreter (text "$GPGSV,3,1,11" ++ [0]) (mk_nmea nmea_unknown Other) = Some nmea_unknown.
Proof. by vm_compute. Qed.
End NmeaParse.
