(* ===== verification/V3daSched.v ===== *)
(** * Fences, parked waits and syncobjs of the V3D render server
      ([src/gpu/rpi4-v3d-async/v3da_sched.c], [v3da.h], [v3da_proto.h])

    [srv] is the part of the server's state this code reads and writes. A parked
    request is a heap node ([heap]) with its [next]/[prev] pointers, as in the code:
    [srv.waits] and every "to answer" list are pointers into the heap, 0 is [NULL],
    a released node is no longer in the heap, and a step that reads a pointer, a
    fence row or a client out of range has the result [None]. [w_req] groups the
    fields of [v3da_wait_t] other than the links. *)

From S2P Require Import Prelude.

Module V3da.

Definition V3DA_Q_COUNT : Z := 6.
Definition V3DA_FENCE_NSLOTS : Z := (4096 - 256) / 64.
Definition V3DA_MAX_CLIENTS : Z := V3DA_FENCE_NSLOTS.
Definition V3DA_MAX_SYNCOBJS : Z := 256.
Definition V3DA_SYNCOBJ_WAIT_MAX : Z := 8.
Definition V3DA_WAIT_MAX_MS : Z := 2000.
Definition V3DA_SYNCOBJ_CREATE_SIGNALED : Z := 1.
Definition IDLE_TIMEOUT_US : Z := 100000.
Definition IRQ_BACKSTOP_US : Z := 10000.

(** ** Data *)

Record fence := mk_fence { f_slot : Z; f_queue : Z; f_gen : Z; f_seqno : Z }.
Definition no_fence : fence := mk_fence 0 0 0 0.

(** A row of the fence page. *)
Record fence_slot := mk_slot { completed : list Z; error_seq : Z; gen : Z }.

Inductive sync_state := V3DA_SYNC_EMPTY | V3DA_SYNC_FENCE | V3DA_SYNC_SIGNALED.
Record syncobj := mk_sync { so_used : bool; so_state : sync_state; so_fence : fence }.
Definition no_sync : syncobj := mk_sync false V3DA_SYNC_EMPTY no_fence.

Record client := mk_client {
  c_used : bool; c_id : Z; c_pid : Z; c_hello : bool; c_slot : Z;
  next_seq : list Z; c_nparked : Z; sync : list syncobj
}.
Definition no_client : client :=
  mk_client false 0 0 false 0 (replicate 6 0) 0 (replicate 256 no_sync).

#[export] Instance fence_inhabited : Inhabited fence := populate no_fence.
#[export] Instance slot_inhabited : Inhabited fence_slot := populate (mk_slot [] 0 0).
#[export] Instance syncobj_inhabited : Inhabited syncobj := populate no_sync.
#[export] Instance client_inhabited : Inhabited client := populate no_client.

(** The fields of a job the fence code reads. *)
Record job := mk_job { j_queue : Z; j_fence : fence }.

(** The response in [msg.o.raw]: [err] and [op], and the members of its union the
    waits fill ([fence_wait] and [syncobj.first]; a wait uses those of its kind). *)
Record resp := mk_resp {
  r_err : cres (); r_op : Z;
  fw_completed : Z; fw_error : Z; fw_echo : Z; so_first : Z
}.
(** A message: the request's [op], the response area, [o.err]. *)
Record msg := mk_msg { m_op : Z; m_resp : resp; m_oerr : Z }.

Inductive wait_kind := V3DA_WAIT_FENCE | V3DA_WAIT_SYNCOBJ | V3DA_WAIT_BO | V3DA_WAIT_OTHER (k : Z).

Record request := mk_req {
  w_kind : wait_kind; w_client : Z; w_msg : msg; w_rid : Z; w_port : Z;
  w_deadline : Z; w_fence : list fence; w_handle : list Z;
  w_n : Z; w_all : bool; w_for_submit : bool
}.
Record wait := mk_wait { w_next : Z; w_prev : Z; w_req : request }.

Record srv := mk_srv {
  slots : list fence_slot; hw_completed : list Z;
  slot_gen : list Z; dead_flush : list (list Z);
  active : list (option job);
  clients : list client; nclients : Z;
  heap : gmap Z wait; waits : Z;
  nparked : Z; parked_max : Z; timeouts : Z;
  kick_pending : bool; port : Z; rx_port : Z
}.

(** Field updates. *)
Definition set_fp (s : srv) sl hw : srv := mk_srv sl hw (slot_gen s) (dead_flush s) (active s)
  (clients s) (nclients s) (heap s) (waits s) (nparked s) (parked_max s) (timeouts s)
  (kick_pending s) (port s) (rx_port s).
Definition set_slot_gen (s : srv) g d : srv := mk_srv (slots s) (hw_completed s) g d (active s)
  (clients s) (nclients s) (heap s) (waits s) (nparked s) (parked_max s) (timeouts s)
  (kick_pending s) (port s) (rx_port s).
Definition set_clients (s : srv) cs n : srv := mk_srv (slots s) (hw_completed s) (slot_gen s)
  (dead_flush s) (active s) cs n (heap s) (waits s) (nparked s) (parked_max s) (timeouts s)
  (kick_pending s) (port s) (rx_port s).
Definition set_heap (s : srv) h p : srv := mk_srv (slots s) (hw_completed s) (slot_gen s)
  (dead_flush s) (active s) (clients s) (nclients s) h p (nparked s) (parked_max s) (timeouts s)
  (kick_pending s) (port s) (rx_port s).
Definition set_counts (s : srv) n m t : srv := mk_srv (slots s) (hw_completed s) (slot_gen s)
  (dead_flush s) (active s) (clients s) (nclients s) (heap s) (waits s) n m t
  (kick_pending s) (port s) (rx_port s).
Definition v3da_kick_event_thread (s : srv) : srv := mk_srv (slots s) (hw_completed s)
  (slot_gen s) (dead_flush s) (active s) (clients s) (nclients s) (heap s) (waits s)
  (nparked s) (parked_max s) (timeouts s) true (port s) (rx_port s).

Definition set_nparked (c : client) n : client := mk_client (c_used c) (c_id c) (c_pid c)
  (c_hello c) (c_slot c) (next_seq c) n (sync c).
Definition set_sync (c : client) y : client := mk_client (c_used c) (c_id c) (c_pid c)
  (c_hello c) (c_slot c) (next_seq c) (c_nparked c) y.
Definition upd_client (s : srv) (i : Z) (f : client -> client) : srv :=
  set_clients s (alter f (Z.to_nat i) (clients s)) (nclients s).
Definition set_next (w : wait) p : wait := mk_wait p (w_prev w) (w_req w).
Definition set_prev (w : wait) p : wait := mk_wait (w_next w) p (w_req w).

(** ** The fence page *)

Definition slot_at (s : srv) (i : Z) : fence_slot := slots s !!! Z.to_nat i.
Definition client_at (s : srv) (i : Z) : client := clients s !!! Z.to_nat i.

Definition slot_gen_ok (s : srv) (f : fence) : bool := u32 (gen (slot_at s (f_slot f))) =? f_gen f.

(** Returns the answer and [*error]. *)
Definition v3da_fence_signaled (s : srv) (f : fence) : bool * Z :=
  if (V3DA_FENCE_NSLOTS <=? f_slot f) || (V3DA_Q_COUNT <=? f_queue f) then (true, 0)
  else if negb (slot_gen_ok s f) then (true, 0)
  else
    let done := arr_get (completed (slot_at s (f_slot f))) (f_queue f) in
    if done <? f_seqno f then (false, 0)
    else
      let es := error_seq (slot_at s (f_slot f)) in
      if negb (es =? 0) && ((es >>> 56) =? f_queue f) && (f_seqno f <=? (es &&& 0x00ffffffffffffff))
      then (true, 1) else (true, 0).

Definition v3da_fence_valid (s : srv) (f : fence) : bool :=
  if (V3DA_FENCE_NSLOTS <=? f_slot f) || (V3DA_Q_COUNT <=? f_queue f) || (f_seqno f =? 0) then false
  else
    let owner := client_at s (f_slot f) in
    if negb (c_used owner) || negb (slot_gen_ok s f) then true
    else f_seqno f <=? arr_get (next_seq owner) (f_queue f).

Definition ERR_SEQ (q s : Z) : Z := u64 (q <<< 56) ||| (s &&& 0x00ffffffffffffff).

Definition v3da_fence_complete (s : srv) (j : job) (error : bool) : srv :=
  let seq := f_seqno (j_fence j) in
  let slot := f_slot (j_fence j) in
  let q := j_queue j in
  let dead := arr_get (dead_flush s !!! Z.to_nat slot) q in
  let flush := negb (c_used (client_at s slot)) && (seq <? dead) in
  let seq := if flush then dead else seq in
  let error := flush || error in
  let r := slot_at s slot in
  let r := if error then mk_slot (completed r) (ERR_SEQ q seq) (gen r) else r in
  let r := mk_slot (arr_set (completed r) q seq) (error_seq r) (gen r) in
  set_fp s (<[Z.to_nat slot := r]> (slots s))
    (arr_set (hw_completed s) q (u64 (arr_get (hw_completed s) q + 1))).

Definition v3da_slot_busy (s : srv) (slot : Z) : bool :=
  existsb (fun a => match a with Some j => f_slot (j_fence j) =? slot | None => false end) (active s).

Definition v3da_slot_assign (s : srv) (slot : Z) : srv :=
  let i := Z.to_nat slot in
  let g := u64 (slot_gen s !!! i + 1) in
  set_slot_gen
    (set_fp s (<[i := mk_slot (replicate 6 0) 0 g]> (slots s)) (hw_completed s))
    (<[i := g]> (slot_gen s)) (<[i := replicate 6 0]> (dead_flush s)).

(** ** Clients ([v3da_main.c]) *)

Definition client_get (s : srv) (id : Z) : option client :=
  if (id <? 1) || (V3DA_MAX_CLIENTS <? id) then None
  else if c_used (client_at s (id - 1)) then Some (client_at s (id - 1)) else None.

(** The loop of [client_open] from slot [i] on. *)
Fixpoint client_open_from (s : srv) (pid : Z) (i : Z) (fuel : nat) : option (srv * Z) :=
  match fuel with
  | O => None
  | S fuel =>
      if negb (c_used (client_at s i)) && negb (v3da_slot_busy s i) then
        let c := mk_client true (i + 1) pid false i (replicate 6 0) 0 (replicate 256 no_sync) in
        let s := set_clients s (<[Z.to_nat i := c]> (clients s)) (nclients s) in
        let s := v3da_slot_assign s i in
        Some (set_clients s (clients s) (u32 (nclients s + 1)), i + 1)
      else client_open_from s pid (i + 1) fuel
  end.
Definition client_open (s : srv) (pid : Z) : srv * cres Z :=
  match client_open_from s pid 0 (Z.to_nat V3DA_MAX_CLIENTS) with
  | Some (s, id) => (s, Ok id)
  | None => (s, Err (EOTHER 23))     (* ENFILE *)
  end.

(** ** Syncobjs *)

Definition v3da_syncobj_get (c : client) (handle : Z) : option syncobj :=
  if (handle =? 0) || (V3DA_MAX_SYNCOBJS <? handle) then None
  else
    let o := sync c !!! Z.to_nat (handle - 1) in
    if so_used o then Some o else None.

Fixpoint syncobj_free (l : list syncobj) (i : Z) : option Z :=
  match l with
  | [] => None
  | o :: l => if so_used o then syncobj_free l (i + 1) else Some i
  end.

(** [c] is the client's index in [srv.clients]. *)
Definition v3da_syncobj_create (s : srv) (c flags : Z) : srv * cres Z :=
  match syncobj_free (sync (client_at s c)) 0 with
  | Some i =>
      let st := if has flags V3DA_SYNCOBJ_CREATE_SIGNALED then V3DA_SYNC_SIGNALED else V3DA_SYNC_EMPTY in
      (upd_client s c (fun cl => set_sync cl (<[Z.to_nat i := mk_sync true st no_fence]> (sync cl))),
       Ok (i + 1))
  | None => (s, Err ENOMEM)
  end.

(** The other operations: find the object, or fail. *)
Definition upd_sync (s : srv) (c handle : Z) (f : syncobj -> syncobj) : srv :=
  upd_client s c (fun cl => set_sync cl (alter f (Z.to_nat (handle - 1)) (sync cl))).

Definition v3da_syncobj_destroy (s : srv) (c handle : Z) : srv * cres Z :=
  match v3da_syncobj_get (client_at s c) handle with
  | None => (s, Err EINVAL)
  | Some _ =>
      (v3da_kick_event_thread
         (upd_sync s c handle (fun o => mk_sync false (so_state o) (so_fence o))), Ok 0)
  end.

Definition v3da_syncobj_reset (s : srv) (c handle : Z) : srv * cres Z :=
  match v3da_syncobj_get (client_at s c) handle with
  | None => (s, Err EINVAL)
  | Some _ => (upd_sync s c handle (fun o => mk_sync (so_used o) V3DA_SYNC_EMPTY no_fence), Ok 0)
  end.

Definition v3da_syncobj_signal (s : srv) (c handle : Z) : srv * cres Z :=
  match v3da_syncobj_get (client_at s c) handle with
  | None => (s, Err EINVAL)
  | Some _ =>
      (v3da_kick_event_thread
         (upd_sync s c handle (fun o => mk_sync (so_used o) V3DA_SYNC_SIGNALED (so_fence o))), Ok 0)
  end.

Definition v3da_syncobj_import (s : srv) (c handle : Z) (f : fence) : srv * cres Z :=
  match v3da_syncobj_get (client_at s c) handle with
  | None => (s, Err EINVAL)
  | Some _ =>
      if f_seqno f =? 0 then
        (v3da_kick_event_thread
           (upd_sync s c handle (fun o => mk_sync (so_used o) V3DA_SYNC_SIGNALED (so_fence o))), Ok 0)
      else if v3da_fence_valid s f then
        (v3da_kick_event_thread
           (upd_sync s c handle (fun o => mk_sync (so_used o) V3DA_SYNC_FENCE f)), Ok 0)
      else (s, Err EINVAL)
  end.

(** Returns [out]: the handle, the state and the fence. *)
Definition v3da_syncobj_query (s : srv) (c handle : Z) : cres (Z * sync_state * fence) :=
  match v3da_syncobj_get (client_at s c) handle with
  | None => Err EINVAL
  | Some o => Ok (handle, so_state o, so_fence o)
  end.

(** ** Parked waits *)

(** A store through a node pointer. *)
Definition upd (s : srv) (p : Z) (f : wait -> wait) : option srv :=
  w ← heap s !! p; Some (set_heap s (<[p := f w]> (heap s)) (waits s)).

Definition set_req (w : wait) r : wait := mk_wait (w_next w) (w_prev w) r.
Definition req_set_msg (r : request) m : request := mk_req (w_kind r) (w_client r) m (w_rid r)
  (w_port r) (w_deadline r) (w_fence r) (w_handle r) (w_n r) (w_all r) (w_for_submit r).
Definition req_set_deadline (r : request) d : request := mk_req (w_kind r) (w_client r) (w_msg r)
  (w_rid r) (w_port r) d (w_fence r) (w_handle r) (w_n r) (w_all r) (w_for_submit r).
Definition req_set_resp (r : request) x : request :=
  req_set_msg r (mk_msg (m_op (w_msg r)) x (m_oerr (w_msg r))).

Definition wait_unlink (s : srv) (p : Z) : option srv :=
  w ← heap s !! p;
  s ← (if negb (w_prev w =? 0) then upd s (w_prev w) (fun v => set_next v (w_next w))
       else Some (set_heap s (heap s) (w_next w)));
  s ← (if negb (w_next w =? 0) then upd s (w_next w) (fun v => set_prev v (w_prev w))
       else Some s);
  s ← upd s p (fun v => set_prev (set_next v 0) 0);
  let s := set_counts s (u32 (nparked s - 1)) (parked_max s) (timeouts s) in
  let c := w_client (w_req w) in
  Some (if (1 <=? c) && (c <=? V3DA_MAX_CLIENTS) && (0 <? c_nparked (client_at s (c - 1)))
        then upd_client s (c - 1) (fun cl => set_nparked cl (c_nparked cl - 1)) else s).

(** What [wait_claim] writes into the claimed request. *)
Definition claim_req (r : request) (err : cres ()) : request :=
  let x := m_resp (w_msg r) in
  let echo := match w_kind r with
              | V3DA_WAIT_FENCE => u32 (f_seqno (w_fence r !!! 0%nat))
              | _ => fw_echo x
              end in
  req_set_msg r (mk_msg (m_op (w_msg r))
    (mk_resp err (r_op x) (fw_completed x) (fw_error x) echo (so_first x)) 0).

(** Returns the new state and the new [*answer]. *)
Definition wait_claim (s : srv) (p : Z) (err : cres ()) (answer : Z) : option (srv * Z) :=
  s ← wait_unlink s p;
  s ← upd s p (fun w => set_next (set_req w (claim_req (w_req w) err)) answer);
  Some (s, p).

(** The loop of the [V3DA_WAIT_BO] case over the first [n] fences. *)
Fixpoint bo_loop (s : srv) (fs : list fence) : bool :=
  match fs with
  | [] => true
  | f :: fs => if negb (f_seqno f =? 0) && negb (v3da_fence_signaled s f).1 then false else bo_loop s fs
  end.

(** The loop of the [V3DA_WAIT_SYNCOBJ] case: [nsig] and [first]. *)
Fixpoint sync_loop (s : srv) (c : client) (for_submit : bool) (hs : list Z) (i nsig first : Z)
  : cres (Z * Z) :=
  match hs with
  | [] => Ok (nsig, first)
  | h :: hs =>
      match v3da_syncobj_get c h with
      | None => Err EINVAL
      | Some o =>
          let next (sig : bool) :=
            if sig then sync_loop s c for_submit hs (i + 1) (nsig + 1) (if first =? 0xffffffff then i else first)
            else sync_loop s c for_submit hs (i + 1) nsig first in
          match so_state o with
          | V3DA_SYNC_SIGNALED => next true
          | V3DA_SYNC_FENCE => next (v3da_fence_signaled s (so_fence o)).1
          | V3DA_SYNC_EMPTY => if for_submit then next false else Err EINVAL
          end
      end
  end.

(** [Ok true]: satisfied, with the response filled; [Ok false]: not yet; [Err]: fail
    now. [None]: a read outside an array. *)
Definition wait_eval (s : srv) (r : request) : option (cres bool * resp) :=
  let x := m_resp (w_msg r) in
  match w_kind r with
  | V3DA_WAIT_FENCE =>
      f ← buf_get (w_fence r) 0;
      let '(sig, err) := v3da_fence_signaled s f in
      if negb sig then Some (Ok false, x)
      else
        row ← buf_get (slots s) (f_slot f);
        done ← buf_get (completed row) (f_queue f);
        Some (Ok true, mk_resp (r_err x) (r_op x) done err (u32 (f_seqno f)) (so_first x))
  | V3DA_WAIT_BO =>
      if zlen (w_fence r) <? w_n r then None
      else Some (Ok (bo_loop s (take (Z.to_nat (w_n r)) (w_fence r))), x)
  | V3DA_WAIT_SYNCOBJ =>
      c ← buf_get (clients s) (w_client r - 1);
      if zlen (w_handle r) <? w_n r then None
      else
        match sync_loop s c (w_for_submit r) (take (Z.to_nat (w_n r)) (w_handle r)) 0 0 0xffffffff with
        | Err e => Some (Err e, x)
        | Ok (nsig, first) =>
            if (w_all r && (nsig =? w_n r)) || (negb (w_all r) && (0 <? nsig))
            then Some (Ok true, mk_resp (r_err x) (r_op x) (fw_completed x) (fw_error x) (fw_echo x)
                         (if first =? 0xffffffff then 0 else first))
            else Some (Ok false, x)
        end
  | V3DA_WAIT_OTHER _ => Some (Err EINVAL, x)
  end.

(** [memcpy] of the first [n] elements of [src] over [dst]. *)
Definition copy_n {A} (n : Z) (src dst : list A) : list A :=
  take (Z.to_nat n) src ++ drop (Z.to_nat n) dst.

(** The request [v3da_wait_park] fills in, with a cleared response; [fences] and
    [handles] are [None] for [NULL]. *)
Definition new_wait (s : srv) (c : Z) (kind : wait_kind) (m : msg) (rid : Z)
  (fences : option (list fence)) (handles : option (list Z)) (n : Z) (all for_submit : bool) : request :=
  mk_req kind (c_id (client_at s c))
    (mk_msg (m_op m) (mk_resp (Ok ()) (m_op m) 0 0 0 0) (m_oerr m)) rid (rx_port s) 0
    (match fences with Some fs => copy_n n fs (replicate 8 no_fence) | None => replicate 8 no_fence end)
    (match handles with Some hs => copy_n n hs (replicate 8 0) | None => replicate 8 0 end)
    n all for_submit.

(** [c] is the client's index; [p] is what
    [calloc] returns and [now] the time. Returns [0] (parked), [1] (satisfied) or the
    error, and the caller's message. *)
Definition v3da_wait_park (s : srv) (c : Z) (kind : wait_kind) (m : msg) (rid : Z)
  (fences : option (list fence)) (handles : option (list Z)) (n : Z) (all for_submit : bool)
  (timeout_ms : Z) (p now : Z) : option (cres Z * msg * srv) :=
  if V3DA_SYNCOBJ_WAIT_MAX <? n then Some (Err EINVAL, m, s)
  else if p =? 0 then Some (Err ENOMEM, m, s)
  else
    let rq := new_wait s c kind m rid fences handles n all for_submit in
    ev ← wait_eval s rq;
    match ev with
    | (Ok true, x) => Some (Ok 1, mk_msg (m_op m) x (m_oerr m), s)
    | (Err e, x) => Some (Err e, mk_msg (m_op m) x (m_oerr m), s)
    | (Ok false, _) =>
        if timeout_ms =? 0 then Some (Err ETIMEDOUT, m, s)
        else
          let timeout_ms := if V3DA_WAIT_MAX_MS <? timeout_ms then V3DA_WAIT_MAX_MS else timeout_ms in
          let rq := req_set_deadline rq (u64 (now + timeout_ms * 1000)) in
          let w := mk_wait (waits s) 0 rq in
          let s1 := set_heap s (<[p := w]> (heap s)) (waits s) in
          s2 ← (if negb (waits s =? 0) then upd s1 (waits s) (fun v => set_prev v p) else Some s1);
          let s3 := set_heap s2 (heap s2) p in
          let s4 := upd_client s3 c (fun cl => set_nparked cl (u32 (c_nparked cl + 1))) in
          let np := u32 (nparked s4 + 1) in
          let s5 := set_counts s4 np (if parked_max s4 <? np then np else parked_max s4) (timeouts s4) in
          Some (Ok 0, m, v3da_kick_event_thread s5)
    end.

(** The loop of [waits_scan] at node [w]. *)
Fixpoint scan_loop (fuel : nat) (s : srv) (w now answer : Z) : option (srv * Z) :=
  if w =? 0 then Some (s, answer)
  else match fuel with
  | O => None
  | S fuel =>
      n ← heap s !! w;
      let next := w_next n in
      ev ← wait_eval s (w_req n);
      s ← upd s w (fun v => set_req v (req_set_resp (w_req v) ev.2));
      match ev.1 with
      | Ok true => '(s, answer) ← wait_claim s w (Ok ()) answer; scan_loop fuel s next now answer
      | Err e => '(s, answer) ← wait_claim s w (Err e) answer; scan_loop fuel s next now answer
      | Ok false =>
          if w_deadline (w_req n) <=? now then
            let s := set_counts s (nparked s) (parked_max s) (u32 (timeouts s + 1)) in
            '(s, answer) ← wait_claim s w (Err ETIMEDOUT) answer; scan_loop fuel s next now answer
          else scan_loop fuel s next now answer
      end
  end.
Definition waits_scan (fuel : nat) (s : srv) (now answer : Z) : option (srv * Z) :=
  scan_loop fuel s (waits s) now answer.

Fixpoint gone_loop (fuel : nat) (s : srv) (w client answer : Z) : option (srv * Z) :=
  if w =? 0 then Some (s, answer)
  else match fuel with
  | O => None
  | S fuel =>
      n ← heap s !! w;
      let next := w_next n in
      if w_client (w_req n) =? client then
        '(s, answer) ← wait_claim s w (Err EPIPE) answer; gone_loop fuel s next client answer
      else gone_loop fuel s next client answer
  end.
Definition v3da_waits_client_gone (fuel : nat) (s : srv) (client answer : Z) : option (srv * Z) :=
  gone_loop fuel s (waits s) client answer.

Fixpoint v3da_waits_all (fuel : nat) (s : srv) (answer : Z) (err : cres ()) : option (srv * Z) :=
  if waits s =? 0 then Some (s, answer)
  else match fuel with
  | O => None
  | S fuel => '(s, answer) ← wait_claim s (waits s) err answer; v3da_waits_all fuel s answer err
  end.

(** One [msgRespond]: the port, the message and the request id. *)
Record response := mk_response { a_port : Z; a_msg : msg; a_rid : Z }.

Fixpoint v3da_waits_answer (fuel : nat) (s : srv) (lst : Z) : option (srv * list response) :=
  if lst =? 0 then Some (s, [])
  else match fuel with
  | O => None
  | S fuel =>
      n ← heap s !! lst;
      let r := w_req n in
      let a := mk_response (if negb (w_port r =? 0) then w_port r else port s) (w_msg r) (w_rid r) in
      '(s, l) ← v3da_waits_answer fuel (set_heap s (delete lst (heap s)) (waits s)) (w_next n);
      Some (s, a :: l)
  end.

(** ** The event thread's timeout

    [jobs_deadline], [hw_busy] are the answers of [v3da_jobs.c]; [scan_nq], [irq_on],
    [poll_us] the fields [srv.scan.nq], [srv.hw.irq_on], [srv.poll_us]. *)
Record timing := mk_timing {
  jobs_deadline : Z; hw_busy : bool; scan_nq : Z; irq_on : bool; poll_us : Z
}.

Fixpoint deadline_loop (fuel : nat) (s : srv) (w now t : Z) : option Z :=
  if w =? 0 then Some t
  else match fuel with
  | O => None
  | S fuel =>
      n ← heap s !! w;
      let d := if now <? w_deadline (w_req n) then w_deadline (w_req n) - now else 1 in
      deadline_loop fuel s (w_next n) now (if d <? t then d else t)
  end.

Definition next_timeout_us (fuel : nat) (s : srv) (e : timing) (now : Z) : option Z :=
  let t := IDLE_TIMEOUT_US in
  let d := jobs_deadline e in
  let t := if d <? t then d else t in
  t ← deadline_loop fuel s (waits s) now t;
  let t := if negb (scan_nq e =? 0) && (1000 <? t) then 1000 else t in
  let t := if irq_on e then (if IRQ_BACKSTOP_US <? t then IRQ_BACKSTOP_US else t)
           else if hw_busy e && (poll_us e <? t) then poll_us e else t in
  Some (if t =? 0 then 1 else u32 t).

(** ** The wait requests of [handle_raw] ([v3da_main.c])

    [Ok None]: the request was parked and is not answered now. *)
Definition raw_answer (x : option (cres Z * msg * srv)) : option (option (cres ()) * msg * srv) :=
  '(rc, m, s) ← x;
  Some (match rc with
        | Ok z => if z =? 0 then None else Some (Ok ())
        | Err e => Some (Err e)
        end, m, s).

Definition op_fence_wait (s : srv) (c : Z) (m : msg) (rid : Z) (f : fence) (timeout_ms p now : Z) :=
  if negb (v3da_fence_valid s f) then Some (Some (Err EINVAL), m, s)
  else raw_answer (v3da_wait_park s c V3DA_WAIT_FENCE m rid (Some [f]) None 1 true false timeout_ms p now).

(** [last] is the buffer's [last[V3DA_Q_COUNT]], [None] when there is no such buffer. *)
Definition op_bo_wait (s : srv) (c : Z) (m : msg) (rid : Z) (last : option (list fence))
  (timeout_ms p now : Z) :=
  match last with
  | None => Some (Some (Err EINVAL), m, s)
  | Some f => raw_answer (v3da_wait_park s c V3DA_WAIT_BO m rid (Some f) None V3DA_Q_COUNT true false
                            timeout_ms p now)
  end.

Definition op_syncobj_wait (s : srv) (c : Z) (m : msg) (rid n flags : Z) (handles : list Z)
  (timeout_ms p now : Z) :=
  if (n =? 0) || (V3DA_SYNCOBJ_WAIT_MAX <? n) then Some (Some (Err EINVAL), m, s)
  else if negb (forallb (fun h => bool_decide (is_Some (v3da_syncobj_get (client_at s c) h)))
                  (take (Z.to_nat n) handles))
  then Some (Some (Err EINVAL), m, s)
  else raw_answer (v3da_wait_park s c V3DA_WAIT_SYNCOBJ m rid None (Some handles) n
                     (has flags 1) (has flags 2) timeout_ms p now).

End V3da.
