(* ===== verification/V3daSchedCorrect.v ===== *)
(** * Correctness of the V3D server's waits, fences and syncobjs

    The doubly linked list of parked requests and the singly linked "to answer"
    lists are related to Rocq lists of (pointer, request) pairs ([seg], [alist],
    [rep]); every list operation of the code refines the operation on the lists.
    [step] interleaves the requests of the dispatch threads, the scans of the event
    thread and the answers each thread sends after releasing the lock. *)

From S2P Require Import Prelude V3daSched.
Import V3da.

Module V3daCorrect.

(** ** Pointer lists *)

Abbreviation node := (Z * request)%type.

(** The doubly linked segment from [p] (whose [prev] is [pv]) to the link [nx]; its
    last node is [la]. *)
Fixpoint seg (h : gmap Z wait) (pv p : Z) (l : list node) (la nx : Z) : Prop :=
  match l with
  | [] => p = nx /\ la = pv
  | (q, r) :: l => p = q /\ q <> 0 /\ exists n, h !! q = Some (mk_wait n pv r) /\ seg h q n l la nx
  end.

(** A "to answer" list. *)
Fixpoint alist (h : gmap Z wait) (p : Z) (l : list node) : Prop :=
  match l with
  | [] => p = 0
  | (q, r) :: l => p = q /\ q <> 0 /\ exists n, h !! q = Some (mk_wait n 0 r) /\ alist h n l
  end.

Definition hd_ptr (l : list node) : Z := from_option fst 0 (head l).

Lemma seg_app h pv p l1 l2 la nx :
  seg h pv p (l1 ++ l2) la nx <-> exists pm m, seg h pv p l1 pm m /\ seg h pm m l2 la nx.
Proof.
  revert pv p. induction l1 as [|[q r] l1 IH]; intros pv p; cbn.
  - naive_solver.
  - split.
    + intros (-> & Hq & n & Hn & H). apply IH in H as (pm & m & H1 & H2). naive_solver.
    + intros (pm & m & (-> & Hq & n & Hn & H1) & H2). split_and!; [done..|]. exists n.
      split; [done|]. apply IH. eauto.
Qed.

Lemma seg_ext h h' pv p l la nx :
  (forall q, q ∈ l.*1 -> h' !! q = h !! q) -> seg h pv p l la nx -> seg h' pv p l la nx.
Proof.
  revert pv p. induction l as [|[q r] l IH]; intros pv p He; cbn; [done|].
  intros (-> & Hq & n & Hn & H). split_and!; [done..|]. exists n. split.
  - rewrite He; [done|]. cbn. set_solver.
  - apply IH; [|done]. intros. apply He. cbn. set_solver.
Qed.

Lemma alist_ext h h' p l :
  (forall q, q ∈ l.*1 -> h' !! q = h !! q) -> alist h p l -> alist h' p l.
Proof.
  revert p. induction l as [|[q r] l IH]; intros p He; cbn; [done|].
  intros (-> & Hq & n & Hn & H). split_and!; [done..|]. exists n. split.
  - rewrite He; [done|]. cbn. set_solver.
  - apply IH; [|done]. intros. apply He. cbn. set_solver.
Qed.

Lemma seg_hd h pv p l la : seg h pv p l la 0 -> p = hd_ptr l.
Proof. destruct l as [|[q r] l]; cbn; naive_solver. Qed.

(** The last node of a segment, or the node before an empty one. *)
Lemma seg_last h pv p l la nx :
  seg h pv p l la nx -> (l = [] /\ la = pv /\ p = nx) \/ (la <> 0 /\ la ∈ l.*1).
Proof.
  revert pv p. induction l as [|[q r] l IH]; intros pv p; cbn; [naive_solver|].
  intros (-> & Hq & n & _ & H). right. apply IH in H as [(-> & -> & _)|[H1 H2]]; set_solver.
Qed.

(** Redirecting the link out of a segment. *)
Lemma seg_relink_next h pv p l la nx nx' :
  NoDup l.*1 -> seg h pv p l la nx -> l <> [] ->
  exists w, h !! la = Some w /\ seg (<[la := set_next w nx']> h) pv p l la nx'.
Proof.
  revert pv p. induction l as [|[q r] l IH]; intros pv p Hnd; cbn; [done|].
  apply NoDup_cons in Hnd as [Hni Hnd]. intros (-> & Hq & n & Hn & H) _.
  destruct l as [|x l].
  - destruct H as [-> ->]. exists (mk_wait nx pv r). split; [done|]. split_and!; [done..|].
    exists nx'. by rewrite lookup_insert_eq.
  - apply seg_last in H as Hla. destruct Hla as [(? & _)|[_ Hla]]; [done|].
    destruct (IH _ _ Hnd H) as (w & Hw & Hs); [done|]. exists w. split; [done|].
    split_and!; [done..|]. exists n. split; [|done]. rewrite lookup_insert_ne; [done|].
    intros ->. done.
Qed.

(** The two link updates of [wait_unlink]. *)
Lemma unlink_before s l1 pm p nx :
  NoDup l1.*1 -> seg (heap s) 0 (waits s) l1 pm p ->
  exists h hd,
    (if negb (pm =? 0) then upd s pm (fun v => set_next v nx) else Some (set_heap s (heap s) nx))
      = Some (set_heap s h hd) /\
    seg h 0 hd l1 pm nx /\
    (forall q, q ∉ l1.*1 -> h !! q = heap s !! q) /\ dom h = dom (heap s).
Proof.
  intros Hnd H. destruct (seg_last _ _ _ _ _ _ H) as [(-> & -> & _)|[Hne Hin]].
  - exists (heap s), nx. done.
  - destruct (seg_relink_next _ _ _ _ _ _ nx Hnd H) as (w & Hw & Hs); [by intros ->; set_solver|].
    exists (<[pm := set_next w nx]> (heap s)), (waits s). unfold upd. rewrite Hw.
    rewrite (proj2 (Z.eqb_neq _ _) Hne). split_and!; [done..| |].
    + intros q Hq. apply lookup_insert_ne. intros ->. done.
    + apply dom_insert_lookup_L. eauto.
Qed.

Lemma unlink_after s l2 p pm nx la :
  NoDup l2.*1 -> seg (heap s) p nx l2 la 0 ->
  exists h la',
    (if negb (nx =? 0) then upd s nx (fun v => set_prev v pm) else Some s)
      = Some (set_heap s h (waits s)) /\
    seg h pm nx l2 la' 0 /\
    (forall q, q ∉ l2.*1 -> h !! q = heap s !! q) /\ dom h = dom (heap s).
Proof.
  destruct l2 as [|[q r] l2]; cbn; intros Hnd H.
  - destruct H as [-> ->]. exists (heap s), pm. by destruct s.
  - destruct H as (-> & Hq & n & Hn & H). apply NoDup_cons in Hnd as [Hni Hnd].
    rewrite (proj2 (Z.eqb_neq _ _) Hq). unfold upd. rewrite Hn. cbn.
    eexists _, la. split; [done|]. split_and!.
    + done.
    + done.
    + exists n. rewrite lookup_insert_eq. split; [done|]. eapply seg_ext; [|done].
      intros q' Hq'. apply lookup_insert_ne. intros ->. done.
    + intros q' Hq'. apply lookup_insert_ne. intros ->. set_solver.
    + apply dom_insert_lookup_L. eauto.
Qed.

(** ** The representation of the server's lists *)

Definition ptrs (ws : list node) (outs : list (Z * list node)) : list Z :=
  ws.*1 ++ concat ((fun o => o.2.*1) <$> outs).

(** [ws] is the list of parked requests, [outs] the answer lists the threads hold:
    the heap holds these nodes and no other. *)
Definition rep (s : srv) (ws : list node) (outs : list (Z * list node)) : Prop :=
  (exists la, seg (heap s) 0 (waits s) ws la 0) /\
  Forall (fun o => alist (heap s) o.1 o.2) outs /\
  NoDup (ptrs ws outs) /\ dom (heap s) = list_to_set (ptrs ws outs) /\
  nparked s = u32 (zlen ws).

(** What claiming leaves unchanged: all that [wait_eval] reads, and the ports. *)
Definition same_env (s s' : srv) : Prop :=
  slots s' = slots s /\ sync <$> clients s' = sync <$> clients s /\
  length (clients s') = length (clients s) /\ port s' = port s /\ rx_port s' = rx_port s /\
  c_used <$> clients s' = c_used <$> clients s /\ c_id <$> clients s' = c_id <$> clients s.

Lemma same_env_refl s : same_env s s.
Proof. done. Qed.
Lemma same_env_trans s1 s2 s3 : same_env s1 s2 -> same_env s2 s3 -> same_env s1 s3.
Proof. unfold same_env. intros (?&?&?&?&?&?&?) (?&?&?&?&?&?&?). split_and!; congruence. Qed.

(** A change of one client's [nparked]. *)
Lemma alter_client_env (cs : list client) i (g : client -> client) :
  (forall c, sync (g c) = sync c /\ c_used (g c) = c_used c /\ c_id (g c) = c_id c) ->
  sync <$> alter g i cs = sync <$> cs /\ c_used <$> alter g i cs = c_used <$> cs /\
  c_id <$> alter g i cs = c_id <$> cs /\ length (alter g i cs) = length cs.
Proof.
  intros Hg. split_and!; [..|apply length_alter];
    (apply list_eq; intros j; rewrite !list_lookup_fmap;
     destruct (decide (i = j)) as [->|]; [|by rewrite list_lookup_alter_ne];
     rewrite list_lookup_alter_eq; destruct (cs !! j); cbn; [|done]; f_equal; apply Hg).
Qed.

Lemma upd_nparked_env s i n :
  same_env s (upd_client s i (fun cl => set_nparked cl (n cl))).
Proof.
  destruct (alter_client_env (clients s) (Z.to_nat i) (fun cl => set_nparked cl (n cl)))
    as (?&?&?&?); [done|]. unfold same_env. cbn. split_and!; done.
Qed.

Lemma wait_unlink_spec s l1 l2 p r la :
  NoDup (l1 ++ (p, r) :: l2).*1 ->
  seg (heap s) 0 (waits s) (l1 ++ (p, r) :: l2) la 0 ->
  exists s' la', wait_unlink s p = Some s' /\
    seg (heap s') 0 (waits s') (l1 ++ l2) la' 0 /\
    heap s' !! p = Some (mk_wait 0 0 r) /\
    (forall q, q ∉ (l1 ++ (p, r) :: l2).*1 -> heap s' !! q = heap s !! q) /\
    dom (heap s') = dom (heap s) /\
    nparked s' = u32 (nparked s - 1) /\ timeouts s' = timeouts s /\ same_env s s'.
Proof.
  rewrite fmap_app, fmap_cons. intros Hnd Hs.
  apply NoDup_app in Hnd as (Hn1 & Hd1 & Hnd). apply NoDup_cons in Hnd as [Hpni Hn2].
  apply seg_app in Hs as (pm & m & Hs1 & Hs2). cbn in Hs2.
  destruct Hs2 as (-> & Hp & nx & Hw & Hs2).
  assert (Hp1 : p ∉ l1.*1) by (intros Hx; apply Hd1 in Hx; set_solver).
  destruct (unlink_before s l1 pm p nx Hn1 Hs1) as (h1 & hd & E1 & Ha1 & Hf1 & Hd1').
  assert (Hs2' : seg h1 p nx l2 la 0).
  { eapply seg_ext; [|done]. intros q Hq. apply Hf1. intros Hx. apply Hd1 in Hx. set_solver. }
  destruct (unlink_after (set_heap s h1 hd) l2 p pm nx la Hn2 Hs2') as (h2 & la' & E2 & Ha2 & Hf2 & Hd2').
  unfold wait_unlink. rewrite Hw. cbn [mbind option_bind w_prev w_next w_req].
  rewrite E1. cbn [mbind option_bind]. rewrite E2. cbn [mbind option_bind]. unfold upd at 1. cbn.
  assert (Hwp : h2 !! p = Some (mk_wait nx pm r)) by (rewrite Hf2 by done; cbn; rewrite Hf1; done).
  rewrite Hwp. cbn. eexists. exists la'. split; [done|].
  set (s3 := set_counts _ _ _ _). set (b := _ && (0 <? _)).
  assert (He : same_env s (if b then upd_client s3 (w_client r - 1)
                 (fun cl => set_nparked cl (c_nparked cl - 1)) else s3)).
  { apply same_env_trans with s3; [done|]. destruct b; [apply upd_nparked_env|done]. }
  assert (Hx : forall q, q ∈ (l1 ++ l2).*1 -> <[p := mk_wait 0 0 r]> h2 !! q = h2 !! q).
  { intros q Hq. apply lookup_insert_ne. intros ->. rewrite fmap_app in Hq. set_solver. }
  split_and!; [| | | |by destruct b|by destruct b|done].
  - assert (Hall : seg (<[p := mk_wait 0 0 r]> h2) 0 hd (l1 ++ l2) la' 0).
    { eapply seg_ext; [exact Hx|]. apply seg_app. exists pm, nx. split; [|done].
      eapply seg_ext; [|exact Ha1]. intros q Hq. apply Hf2. intros Hq2. apply Hd1 in Hq. set_solver. }
    by destruct b.
  - destruct b; cbn; apply lookup_insert_eq.
  - intros q Hq. assert (<[p := mk_wait 0 0 r]> h2 !! q = heap s !! q).
    { rewrite lookup_insert_ne by (intros ->; set_solver). rewrite Hf2 by set_solver.
      apply Hf1. set_solver. } by destruct b.
  - assert (dom (<[p := mk_wait 0 0 r]> h2) = dom (heap s)).
    { rewrite dom_insert_lookup_L by eauto. cbn in *. congruence. } by destruct b.
Qed.

(** Answer lists are untouched by writes to other nodes. *)
Lemma outs_ext h h' (outs : list (Z * list node)) :
  (forall q, q ∈ concat ((fun o => o.2.*1) <$> outs) -> h' !! q = h !! q) ->
  Forall (fun o => alist h o.1 o.2) outs -> Forall (fun o => alist h' o.1 o.2) outs.
Proof.
  intros He. induction 1 as [|o outs Ho _ IH]; constructor; cbn in He.
  - eapply alist_ext; [|exact Ho]. intros. apply He. set_solver.
  - apply IH. intros. apply He. set_solver.
Qed.

(** Claiming a node moves it, with its response, to the front of an answer list. *)
Lemma wait_claim_rep s l1 l2 p r a la outs err :
  rep s (l1 ++ (p, r) :: l2) ((a, la) :: outs) ->
  exists s', wait_claim s p err a = Some (s', p) /\
    rep s' (l1 ++ l2) ((p, (p, claim_req r err) :: la) :: outs) /\
    same_env s s' /\ timeouts s' = timeouts s.
Proof.
  intros ((lst & Hs) & Ho & Hnd & Hdom & Hnp). apply Forall_cons in Ho as [Ha Ho]. cbn in Ha.
  assert (Hp : ptrs (l1 ++ l2) ((p, (p, claim_req r err) :: la) :: outs)
               ≡ₚ ptrs (l1 ++ (p, r) :: l2) ((a, la) :: outs)).
  { unfold ptrs. rewrite !fmap_app. cbn. solve_Permutation. }
  pose proof Hnd as Hnd0. unfold ptrs in Hnd. apply NoDup_app in Hnd as (Hn1 & Hd & Hn2).
  destruct (wait_unlink_spec _ _ _ _ _ _ Hn1 Hs)
    as (s1 & la' & E1 & Hs1 & Hw & Hf & Hdom1 & Hnp1 & Ht & He).
  unfold wait_claim. rewrite E1. cbn [mbind option_bind]. unfold upd. rewrite Hw. cbn.
  eexists. split; [done|]. rewrite fmap_app in Hn1. cbn in Hn1.
  assert (Hpni : p ∉ l1.*1 ++ l2.*1).
  { apply (NoDup_cons (p) (l1.*1 ++ l2.*1)). by rewrite Permutation_middle. }
  assert (Hout : forall q, q ∈ la.*1 ++ concat ((fun o => o.2.*1) <$> outs) ->
            <[p := mk_wait a 0 (claim_req r err)]> (heap s1) !! q = heap s !! q).
  { intros q Hq. assert (q ∉ (l1 ++ (p, r) :: l2).*1) by (intros Hx; by apply (Hd q)).
    rewrite lookup_insert_ne, Hf; [done..|]. intros ->. rewrite fmap_app in *. set_solver. }
  split_and!; [|done..]. repeat split; cbn.
  - exists la'. eapply seg_ext; [|exact Hs1]. intros q Hq. apply lookup_insert_ne.
    intros ->. by rewrite fmap_app in Hq.
  - constructor; cbn.
    + split_and!; [done|..].
      * intros ->. apply seg_app in Hs as (?&?&_&Hz&Hz'&_). done.
      * exists a. rewrite lookup_insert_eq. split; [done|]. eapply alist_ext; [|exact Ha].
        intros q Hq. apply Hout. set_solver.
    + eapply outs_ext; [|exact Ho]. intros. apply Hout. set_solver.
  - by rewrite Hp.
  - rewrite dom_insert_lookup_L by eauto. rewrite Hdom1, Hdom. by rewrite Hp.
  - rewrite Hnp1, Hnp. unfold u32, zlen. rewrite !length_app. cbn. rewrite Zminus_mod_idemp_l. f_equal. lia.
Qed.

(** Writing the response of a parked request. *)
Lemma upd_req_rep s l1 l2 p r outs g :
  rep s (l1 ++ (p, r) :: l2) outs ->
  exists s', upd s p (fun v => set_req v (g (w_req v))) = Some s' /\
    rep s' (l1 ++ (p, g r) :: l2) outs /\ same_env s s' /\ timeouts s' = timeouts s.
Proof.
  intros ((lst & Hs) & Ho & Hnd & Hdom & Hnp).
  apply seg_app in Hs as (pm & m & Hs1 & Hs2). cbn in Hs2. destruct Hs2 as (-> & Hp & nx & Hw & Hs2).
  unfold upd. rewrite Hw. cbn. eexists. split; [done|]. split_and!; [|done..].
  assert (Hpt : ptrs (l1 ++ (p, g r) :: l2) outs = ptrs (l1 ++ (p, r) :: l2) outs).
  { unfold ptrs. by rewrite !fmap_app. }
  unfold rep. rewrite Hpt. cbn. split_and!.
  - exists lst. apply seg_app. pose proof Hnd as Hn. unfold ptrs in Hn. rewrite fmap_app in Hn. cbn in Hn.
    rewrite <- app_assoc in Hn. apply NoDup_app in Hn as (_ & Hd & Hn). cbn in Hn.
    apply NoDup_cons in Hn as [Hni _]. exists pm, p. split.
    + eapply seg_ext; [|done]. intros q Hq. apply lookup_insert_ne. intros ->. apply Hd in Hq. set_solver.
    + cbn. split_and!; [done..|]. exists nx. rewrite lookup_insert_eq. split; [done|].
      eapply seg_ext; [|done]. intros q Hq. apply lookup_insert_ne. intros ->. set_solver.
  - eapply outs_ext; [|exact Ho]. intros q Hq. apply lookup_insert_ne. intros ->.
    unfold ptrs in Hnd. apply NoDup_app in Hnd as (_ & Hd & _). apply (Hd q); [rewrite fmap_app; set_solver|done].
  - done.
  - rewrite dom_insert_lookup_L by eauto. done.
  - rewrite Hnp. unfold zlen. by rewrite !length_app.
Qed.

(** ** Evaluating a wait *)

Lemma signaled_env s s' f : slots s' = slots s -> v3da_fence_signaled s' f = v3da_fence_signaled s f.
Proof. intros H. unfold v3da_fence_signaled, slot_gen_ok, slot_at. by rewrite H. Qed.

Lemma sync_loop_env s s' c c' fs hs i nsig first :
  slots s' = slots s -> sync c' = sync c ->
  sync_loop s' c' fs hs i nsig first = sync_loop s c fs hs i nsig first.
Proof.
  intros Hs Hc. revert i nsig first. induction hs as [|h hs IH]; intros; cbn; [done|].
  assert (v3da_syncobj_get c' h = v3da_syncobj_get c h) as ->
    by (unfold v3da_syncobj_get; by rewrite Hc).
  destruct (v3da_syncobj_get c h) as [o|]; [|done].
  rewrite (signaled_env s s') by done. destruct (so_state o), fs; rewrite ?IH; done.
Qed.

Lemma bo_loop_env s s' fs : slots s' = slots s -> bo_loop s' fs = bo_loop s fs.
Proof. intros H. induction fs as [|f fs IH]; cbn; [done|]. by rewrite (signaled_env s s'), IH. Qed.

Lemma wait_eval_env s s' r : same_env s s' -> wait_eval s' r = wait_eval s r.
Proof.
  intros (Hs & Hc & _). unfold wait_eval. destruct (w_kind r).
  - destruct (buf_get (w_fence r) 0) as [f|]; cbn; [|done].
    by rewrite (signaled_env s s'), Hs.
  - assert (Hb : sync <$> buf_get (clients s') (w_client r - 1) = sync <$> buf_get (clients s) (w_client r - 1)).
    { unfold buf_get. case_bool_decide; [|done]. by rewrite <- !list_lookup_fmap, Hc. }
    destruct (buf_get (clients s') _) as [c'|], (buf_get (clients s) _) as [c|]; simplify_eq/=; [|done].
    by rewrite (sync_loop_env s s' c c') by done.
  - by rewrite (bo_loop_env s s').
  - done.
Qed.

Lemma wait_eval_pending s r x : wait_eval s r = Some (Ok false, x) -> x = m_resp (w_msg r).
Proof.
  unfold wait_eval. intros H. destruct (w_kind r).
  - destruct (buf_get _ _); cbn in H; [|done]. destruct (v3da_fence_signaled _ _) as [[] ?]; cbn in H; [|by simplify_eq].
    destruct (buf_get (slots s) _); cbn in H; [|done]. by destruct (buf_get _ _).
  - destruct (buf_get _ _); cbn in H; [|done]. case_if; [done|].
    destruct (sync_loop _ _ _ _ _ _ _) as [[]|]; [|by simplify_eq]. by case_if; simplify_eq.
  - by case_if; simplify_eq.
  - by simplify_eq.
Qed.

Lemma req_set_resp_id r : req_set_resp r (m_resp (w_msg r)) = r.
Proof. by destruct r as [? ? [] ? ? ? ? ? ? ? ?]. Qed.

(** The requests the code parks, and the tables it indexes. *)
Definition req_ok (r : request) : Prop :=
  match w_kind r with
  | V3DA_WAIT_FENCE => exists f, w_fence r !! 0%nat = Some f /\ 0 <= f_slot f < 60 /\ 0 <= f_queue f < 6
  | V3DA_WAIT_SYNCOBJ => 1 <= w_client r <= 60 /\ w_n r <= zlen (w_handle r)
  | V3DA_WAIT_BO => w_n r <= zlen (w_fence r)
  | V3DA_WAIT_OTHER _ => True
  end.
Definition tables_ok (s : srv) : Prop :=
  length (slots s) = 60%nat /\ Forall (fun r => length (completed r) = 6%nat) (slots s) /\
  length (clients s) = 60%nat /\
  (forall i c, clients s !! i = Some c -> c_used c = true -> c_id c = Z.of_nat i + 1).

Lemma wait_eval_total s r : tables_ok s -> req_ok r -> is_Some (wait_eval s r).
Proof.
  intros (Hl & Hq & Hc & _) H. unfold wait_eval, req_ok in *. destruct (w_kind r).
  - destruct H as (f & Hf & Hs & Hu). assert (buf_get (w_fence r) 0 = Some f) as -> by exact Hf. cbn.
    destruct (v3da_fence_signaled s f) as [[] e]; cbn; [|eauto].
    destruct (buf_get_Some (slots s) (f_slot f)) as [row Hr]; [unfold zlen; lia|]. rewrite Hr. cbn.
    apply buf_get_inv in Hr as [_ Hr]. pose proof (proj1 (Forall_forall _ _) Hq row Hr) as Hl6. cbn in Hl6.
    destruct (buf_get_Some (completed row) (f_queue f)) as [d Hd]; [unfold zlen; lia|]. rewrite Hd. eauto.
  - destruct H as [Hcl Hn]. destruct (buf_get_Some (clients s) (w_client r - 1)) as [c Ec]; [unfold zlen; lia|].
    rewrite Ec. cbn. rewrite (proj2 (Z.ltb_ge _ _) Hn).
    destruct (sync_loop _ _ _ _ _ _ _) as [[]|]; [|eauto]. case_if; eauto.
  - rewrite (proj2 (Z.ltb_ge _ _) H). eauto.
  - eauto.
Qed.

(** ** Scanning

    What the scan decides for one request: [None] while it stays parked, otherwise
    the request with its response. *)
Definition verdict (s : srv) (now : Z) (r : request) : option request :=
  match wait_eval s r with
  | Some (Ok true, x) => Some (claim_req (req_set_resp r x) (Ok ()))
  | Some (Err e, x) => Some (claim_req (req_set_resp r x) (Err e))
  | Some (Ok false, _) => if w_deadline r <=? now then Some (claim_req r (Err ETIMEDOUT)) else None
  | None => None
  end.

(** The nodes a pass over [l] keeps, and those it claims, in claiming order. *)
Definition kept (v : request -> option request) (l : list node) : list node :=
  filter (fun n => v n.2 = None) l.
Definition claimed (v : request -> option request) (l : list node) : list node :=
  omap (fun n => pair n.1 <$> v n.2) l.

Lemma verdict_env s s' now r : same_env s s' -> verdict s' now r = verdict s now r.
Proof. intros H. unfold verdict. by rewrite (wait_eval_env s s'). Qed.

Lemma rep_node s l1 p r l2 outs :
  rep s (l1 ++ (p, r) :: l2) outs ->
  p <> 0 /\ exists pv, heap s !! p = Some (mk_wait (hd_ptr l2) pv r).
Proof.
  intros ((la & H) & _). apply seg_app in H as (pm & m & _ & -> & Hp & n & Hn & H).
  split; [done|]. exists pm. apply seg_hd in H. by subst.
Qed.

Lemma rep_hd s l outs : rep s l outs -> waits s = hd_ptr l.
Proof. intros ((la & H) & _). by apply seg_hd in H. Qed.

Lemma scan_loop_rep now v l2 : forall fuel s l1 a la outs,
  rep s (l1 ++ l2) ((a, la) :: outs) ->
  Forall (fun n => is_Some (wait_eval s n.2)) l2 ->
  (forall r, v r = verdict s now r) -> (length l2 < fuel)%nat ->
  exists s' a', scan_loop fuel s (hd_ptr l2) now a = Some (s', a') /\
    rep s' (l1 ++ kept v l2) ((a', rev (claimed v l2) ++ la) :: outs) /\ same_env s s'.
Proof.
  induction l2 as [|[p r] l2 IH]; intros fuel s l1 a la outs Hr Hev Hv Hf.
  { exists s, a. destruct fuel; cbn in *; done. }
  destruct fuel as [|fuel]; [cbn in Hf; lia|]. apply Forall_cons in Hev as [[[c x] Ev] Hev]. cbn in Ev.
  destruct (rep_node _ _ _ _ _ _ Hr) as (Hp & pv & Hw).
  cbn [scan_loop hd_ptr head from_option fst]. cbn [fst]. rewrite (proj2 (Z.eqb_neq _ _) Hp), Hw.
  cbn [mbind option_bind w_req w_next]. rewrite Ev. cbn [mbind option_bind snd fst].
  destruct (upd_req_rep s l1 l2 p r _ (fun q => req_set_resp q x) Hr) as (s1 & -> & Hr1 & He1 & _).
  cbn [mbind option_bind].
  assert (Hcont : forall s2 l1' a' la', rep s2 (l1' ++ l2) ((a', la') :: outs) -> same_env s s2 ->
    exists s' a'', scan_loop fuel s2 (hd_ptr l2) now a' = Some (s', a'') /\
      rep s' (l1' ++ kept v l2) ((a'', rev (claimed v l2) ++ la') :: outs) /\ same_env s s').
  { intros s2 l1' a' la' H2 He2. destruct (IH fuel s2 l1' a' la' outs H2) as (s' & a'' & ? & ? & ?).
    - eapply Forall_impl; [exact Hev|]. intros n [y Hy]. rewrite (wait_eval_env s s2) by done. eauto.
    - intros q. by rewrite (verdict_env s s2).
    - cbn in Hf. lia.
    - exists s', a''. split_and!; [done..|]. by eapply same_env_trans. }
  assert (Hclaim : forall s1' err q, rep s1' (l1 ++ (p, q) :: l2) ((a, la) :: outs) -> same_env s s1' ->
    v r = Some (claim_req q err) ->
    exists s' a', ('(s2, a2) ← wait_claim s1' p err a; scan_loop fuel s2 (hd_ptr l2) now a2) = Some (s', a') /\
      rep s' (l1 ++ kept v ((p, r) :: l2)) ((a', rev (claimed v ((p, r) :: l2)) ++ la) :: outs) /\ same_env s s').
  { intros s1' err q H1 He Hvr. destruct (wait_claim_rep _ _ _ _ _ _ _ _ err H1) as (s2 & -> & Hr2 & He2 & _).
    cbn [mbind option_bind]. unfold kept, claimed. rewrite filter_cons_False by (cbn; congruence).
    cbn [omap list_omap fst snd]. rewrite Hvr. cbn [fmap option_fmap option_map rev]. rewrite <- app_assoc.
    apply Hcont; [done|]. by eapply same_env_trans. }
  pose proof (Hv r) as Hvr. unfold verdict in Hvr. rewrite Ev in Hvr.
  destruct c as [[]|e].
  - by eapply Hclaim.
  - apply wait_eval_pending in Ev as ->. rewrite req_set_resp_id in Hr1. case_if.
    + by eapply Hclaim.
    + unfold kept, claimed. rewrite filter_cons_True by done. cbn [omap list_omap fst snd]. rewrite Hvr. cbn.
      change ((p, r) :: filter ?P l2) with ([(p, r)] ++ filter P l2). rewrite app_assoc.
      apply Hcont; [|done]. by rewrite <- app_assoc.
  - by eapply Hclaim.
Qed.

Definition gone_verdict (client : Z) (r : request) : option request :=
  if w_client r =? client then Some (claim_req r (Err EPIPE)) else None.

Lemma gone_loop_rep client l2 : forall fuel s l1 a la outs,
  rep s (l1 ++ l2) ((a, la) :: outs) -> (length l2 < fuel)%nat ->
  exists s' a', gone_loop fuel s (hd_ptr l2) client a = Some (s', a') /\
    rep s' (l1 ++ kept (gone_verdict client) l2)
      ((a', rev (claimed (gone_verdict client) l2) ++ la) :: outs) /\ same_env s s'.
Proof.
  induction l2 as [|[p r] l2 IH]; intros fuel s l1 a la outs Hr Hf.
  { exists s, a. destruct fuel; cbn in *; done. }
  destruct fuel as [|fuel]; [cbn in Hf; lia|]. cbn in Hf.
  destruct (rep_node _ _ _ _ _ _ Hr) as (Hp & pv & Hw).
  cbn [gone_loop hd_ptr head from_option fst]. cbn [fst]. rewrite (proj2 (Z.eqb_neq _ _) Hp), Hw.
  cbn [mbind option_bind w_req w_next]. unfold kept, claimed. cbn [omap list_omap fst snd].
  destruct (w_client r =? client) eqn:E.
  - assert (Hv : gone_verdict client r = Some (claim_req r (Err EPIPE))) by (unfold gone_verdict; by rewrite E).
    rewrite filter_cons_False by (cbn; congruence). rewrite Hv. cbn [fmap option_fmap option_map rev].
    rewrite <- app_assoc. destruct (wait_claim_rep _ _ _ _ _ _ _ _ (Err EPIPE) Hr) as (s2 & -> & Hr2 & He2 & _).
    cbn [mbind option_bind]. destruct (IH fuel s2 l1 p _ outs Hr2) as (s' & a'' & ? & ? & ?); [lia|].
    exists s', a''. split_and!; [done..|]. by eapply same_env_trans.
  - assert (Hv : gone_verdict client r = None) by (unfold gone_verdict; by rewrite E).
    rewrite filter_cons_True by done. rewrite Hv. cbn [fmap option_fmap option_map].
    change ((p, r) :: filter ?P l2) with ([(p, r)] ++ filter P l2). rewrite app_assoc.
    apply IH; [by rewrite <- app_assoc|lia].
Qed.

Lemma waits_all_rep err l : forall fuel s a la outs,
  rep s l ((a, la) :: outs) -> (length l < fuel)%nat ->
  exists s' a', v3da_waits_all fuel s a err = Some (s', a') /\
    rep s' [] ((a', rev ((fun n => (n.1, claim_req n.2 err)) <$> l) ++ la) :: outs) /\ same_env s s'.
Proof.
  induction l as [|[p r] l IH]; intros fuel s a la outs Hr Hf; pose proof (rep_hd _ _ _ Hr) as Hh.
  { exists s, a. destruct fuel; cbn; rewrite Hh; done. }
  destruct fuel as [|fuel]; [cbn in Hf; lia|]. cbn in Hf, Hh.
  destruct (rep_node _ [] _ _ _ _ Hr) as (Hp & pv & Hw).
  cbn [v3da_waits_all fmap list_fmap rev fst snd]. rewrite Hh, (proj2 (Z.eqb_neq _ _) Hp), <- app_assoc.
  destruct (wait_claim_rep _ [] _ _ _ _ _ _ err Hr) as (s2 & -> & Hr2 & He2 & _).
  cbn [mbind option_bind]. destruct (IH fuel s2 p _ outs Hr2) as (s' & a'' & ? & ? & ?); [lia|].
  exists s', a''. split_and!; [done..|]. by eapply same_env_trans.
Qed.

(** ** Answering *)

Definition respond_to (s : srv) (r : request) : response :=
  mk_response (if negb (w_port r =? 0) then w_port r else port s) (w_msg r) (w_rid r).

Lemma rep_perm s ws outs outs' : outs ≡ₚ outs' -> rep s ws outs -> rep s ws outs'.
Proof.
  intros Hp (H1 & H2 & H3 & H4 & H5). assert (Hq : ptrs ws outs ≡ₚ ptrs ws outs').
  { clear -Hp. unfold ptrs. apply Permutation_app_head. induction Hp; cbn; [done|by apply Permutation_app_head|solve_Permutation|by etrans]. }
  unfold rep. rewrite <- Hq, <- Hp. done.
Qed.

Lemma rep_pop s ws a p r l outs :
  rep s ws ((a, (p, r) :: l) :: outs) ->
  a = p /\ p <> 0 /\ exists n, heap s !! p = Some (mk_wait n 0 r) /\
    rep (set_heap s (delete p (heap s)) (waits s)) ws ((n, l) :: outs).
Proof.
  intros ((la & Hs) & Ho & Hnd & Hdom & Hnp). apply Forall_cons in Ho as [Ha Ho]. cbn in Ha.
  destruct Ha as (-> & Hp & n & Hn & Ha). split_and!; [done..|]. exists n. split; [done|].
  assert (Hpt : ptrs ws ((p, (p, r) :: l) :: outs) ≡ₚ p :: ptrs ws ((n, l) :: outs)).
  { unfold ptrs. cbn. solve_Permutation. }
  rewrite Hpt in Hnd, Hdom. apply NoDup_cons in Hnd as [Hni Hnd].
  assert (Hd : forall q, q ∈ ptrs ws ((n, l) :: outs) -> delete p (heap s) !! q = heap s !! q).
  { intros q Hq. apply lookup_delete_ne. intros ->. done. }
  unfold ptrs in Hd. cbn in Hd. repeat split; cbn.
  - exists la. eapply seg_ext; [|exact Hs]. intros. apply Hd. set_solver.
  - constructor; [eapply alist_ext; [|exact Ha]|eapply outs_ext; [|exact Ho]]; intros; apply Hd; set_solver.
  - done.
  - rewrite dom_delete_L, Hdom. cbn. set_solver.
  - done.
Qed.

Lemma waits_answer_rep ws l : forall fuel s a outs,
  rep s ws ((a, l) :: outs) -> (length l < fuel)%nat ->
  exists s', v3da_waits_answer fuel s a = Some (s', respond_to s <$> l.*2) /\
    rep s' ws outs /\ same_env s s'.
Proof.
  induction l as [|[p r] l IH]; intros fuel s a outs Hr Hf.
  - assert (a = 0) as ->. { destruct Hr as (_ & Ho & _). apply Forall_cons in Ho as [Ho _]. done. }
    exists s. destruct fuel; cbn; split_and!; try done;
      destruct Hr as (? & Ho & ? & ? & ?); apply Forall_cons in Ho as [_ Ho]; done.
  - destruct fuel as [|fuel]; [cbn in Hf; lia|]. cbn in Hf.
    destruct (rep_pop _ _ _ _ _ _ _ Hr) as (-> & Hp & n & Hn & Hr').
    cbn [v3da_waits_answer]. rewrite (proj2 (Z.eqb_neq _ _) Hp), Hn. cbn [mbind option_bind w_req w_next].
    destruct (IH fuel _ n outs Hr') as (s' & -> & ? & ?); [lia|].
    exists s'. split_and!; [|done|done]. done.
Qed.

(** ** Parking *)

Lemma rep_push s ws outs p r np pm :
  rep s ws outs -> p <> 0 -> heap s !! p = None ->
  exists s2,
    (if negb (waits s =? 0)
     then upd (set_heap s (<[p := mk_wait (waits s) 0 r]> (heap s)) (waits s)) (waits s) (fun v => set_prev v p)
     else Some (set_heap s (<[p := mk_wait (waits s) 0 r]> (heap s)) (waits s))) = Some s2 /\
    nparked s2 = nparked s /\ parked_max s2 = parked_max s /\ timeouts s2 = timeouts s /\ same_env s s2 /\
    clients s2 = clients s /\
    forall cs n, rep (v3da_kick_event_thread (set_counts (set_clients (set_heap s2 (heap s2) p) cs n)
        (u32 (nparked s + 1)) pm np)) ((p, r) :: ws) outs.
Proof.
  intros ((la & Hs) & Ho & Hnd & Hdom & Hnp) Hp Hfr.
  assert (Hpn : p ∉ ptrs ws outs).
  { intros Hin. assert (p ∈ dom (heap s)) by (rewrite Hdom; by apply elem_of_list_to_set).
    by apply elem_of_dom in H as [? ?]; congruence. }
  set (s1 := set_heap s (<[p := mk_wait (waits s) 0 r]> (heap s)) (waits s)).
  assert (Hnd1 : NoDup ws.*1) by (unfold ptrs in Hnd; by apply NoDup_app in Hnd as (?&_)).
  assert (Hs1 : seg (heap s1) 0 (waits s) ws la 0).
  { eapply seg_ext; [|exact Hs]. intros q Hq. apply lookup_insert_ne. intros ->. unfold ptrs in Hpn. set_solver. }
  destruct (unlink_after s1 ws 0 p (waits s) la Hnd1 Hs1) as (h2 & la' & E & Hs2 & Hf & Hd).
  exists (set_heap s1 h2 (waits s1)). rewrite E. split_and!; try done. intros cs n.
  assert (Hout : forall q, q ∉ ws.*1 -> q <> p -> h2 !! q = heap s !! q).
  { intros q Hq Hne. rewrite Hf by done. by apply lookup_insert_ne. }
  repeat split; cbn.
  - exists la'. split_and!; [done..|]. exists (waits s). split; [|done].
    rewrite Hf; [apply lookup_insert_eq|]. unfold ptrs in Hpn. set_solver.
  - eapply outs_ext; [|exact Ho]. intros q Hq. apply Hout.
    + intros Hx. unfold ptrs in Hnd. apply NoDup_app in Hnd as (_ & Hdis & _). by apply (Hdis q).
    + intros ->. unfold ptrs in Hpn. set_solver.
  - unfold ptrs in *. cbn. by constructor.
  - rewrite Hd. cbn. rewrite dom_insert_L, Hdom. unfold ptrs. cbn. done.
  - rewrite Hnp. unfold u32, zlen. cbn. rewrite Zplus_mod_idemp_l. f_equal. lia.
Qed.

(** Every branch of [v3da_wait_park]. *)
Lemma wait_park_spec s c kind m rid fences handles n all fs t p now ws outs :
  rep s ws outs -> p = 0 \/ heap s !! p = None -> n <= 8 ->
  let rq := new_wait s c kind m rid fences handles n all fs in
  is_Some (wait_eval s rq) ->
  exists rc m' s', v3da_wait_park s c kind m rid fences handles n all fs t p now = Some (rc, m', s') /\
    same_env s s' /\
    (rc <> Ok 0 -> s' = s) /\
    (rc = Ok 0 ->
       p <> 0 /\ (exists x, wait_eval s rq = Some (Ok false, x)) /\ t <> 0 /\ kick_pending s' = true /\
       rep s' ((p, req_set_deadline rq (u64 (now + Z.min t V3DA_WAIT_MAX_MS * 1000))) :: ws) outs).
Proof.
  intros Hr Hp Hn rq [[ev x] Hev]. unfold v3da_wait_park. change V3DA_SYNCOBJ_WAIT_MAX with 8.
  rewrite (proj2 (Z.ltb_ge _ _) Hn). destruct (p =? 0) eqn:Ep; [by eexists _, _, _|]. bsimp.
  destruct Hp as [|Hp]; [done|]. fold rq. rewrite Hev. cbn [mbind option_bind].
  destruct ev as [[]|e]; [by eexists _, _, _| |by eexists _, _, _].
  destruct (t =? 0) eqn:Et; [by eexists _, _, _|]. bsimp.
  set (t' := if V3DA_WAIT_MAX_MS <? t then V3DA_WAIT_MAX_MS else t).
  assert (t' = Z.min t V3DA_WAIT_MAX_MS) as -> by (unfold t'; case_if; bsimp; lia).
  set (rq' := req_set_deadline rq _).
  destruct (rep_push s ws outs p rq' (timeouts s)
    (if parked_max s <? u32 (nparked s + 1) then u32 (nparked s + 1) else parked_max s) Hr Ep Hp)
    as (s2 & E & En & Em & Et' & He & Hc & Hrep).
  rewrite E. cbn [mbind option_bind]. eexists _, _, _. split; [done|]. split_and!; [|done|].
  - apply same_env_trans with s2; [done|].
    eapply same_env_trans; [apply (upd_nparked_env s2 c (fun cl => u32 (c_nparked cl + 1)))|done].
  - intros _. split_and!; [done|by exists x|done|done|]. unfold upd_client.
    cbn [nparked parked_max timeouts set_clients set_heap clients nclients]. rewrite En, Em, Et'. apply Hrep.
Qed.

(** ** The server's threads

    A dispatch thread serves the wait requests; the event thread scans; a closing
    client and the shutdown claim waits as well. Whoever claims holds the answer list
    and sends it later, after other threads may have run. [Sys] also records which
    (port, request id) pairs were parked and which responses were sent. *)
Record sys := Sys {
  sv : srv; held : list Z; parked : list (Z * Z); answered : list response
}.

Definition key_of (pt : Z) (r : request) : Z * Z := ((if negb (w_port r =? 0) then w_port r else pt), w_rid r).
Definition a_key (a : response) : Z * Z := (a_port a, a_rid a).

(** The wait requests of [handle_raw]. *)
Inductive wait_op :=
  | OpFence (f : fence) | OpBo (last : option (list fence)) | OpSync (n flags : Z) (handles : list Z).
Definition do_op (s : srv) (c : Z) (m : msg) (rid : Z) (o : wait_op) (t p now : Z) :=
  match o with
  | OpFence f => op_fence_wait s c m rid f t p now
  | OpBo last => op_bo_wait s c m rid last t p now
  | OpSync n flags hs => op_syncobj_wait s c m rid n flags hs t p now
  end.
(** The types of the arguments: unsigned fields, arrays of their declared size. *)
Definition op_typed (o : wait_op) : Prop :=
  match o with
  | OpFence f => 0 <= f_slot f /\ 0 <= f_queue f
  | OpBo last => match last with Some l => length l = 6%nat | None => True end
  | OpSync n _ hs => 0 <= n /\ length hs = 8%nat
  end.

(** Every list is no longer than the heap. *)
Definition fuel_of (s : srv) : nat := S (size (heap s)).

Inductive step : sys -> sys -> Prop :=
  | step_op s c cl m rid o t p now res m' s' hd pk an :
      op_typed o -> client_get s (c + 1) = Some cl -> (p = 0 \/ heap s !! p = None) ->
      do_op s c m rid o t p now = Some (res, m', s') ->
      step (Sys s hd pk an)
        (Sys s' hd (match res with None => (if negb (rx_port s =? 0) then rx_port s else port s, rid) :: pk
                               | Some _ => pk end) an)
  | step_scan s now s' a hd pk an :
      waits_scan (fuel_of s) s now 0 = Some (s', a) -> step (Sys s hd pk an) (Sys s' (a :: hd) pk an)
  | step_gone s id s' a hd pk an :
      v3da_waits_client_gone (fuel_of s) s id 0 = Some (s', a) -> step (Sys s hd pk an) (Sys s' (a :: hd) pk an)
  | step_quit s err s' a hd pk an :
      v3da_waits_all (fuel_of s) s 0 err = Some (s', a) -> step (Sys s hd pk an) (Sys s' (a :: hd) pk an)
  | step_answer s s' l hd1 a hd2 pk an :
      v3da_waits_answer (fuel_of s) s a = Some (s', l) ->
      step (Sys s (hd1 ++ a :: hd2) pk an) (Sys s' (hd1 ++ hd2) pk (an ++ l))
  | step_other s s' hd pk an :      (* the rest of the server: jobs, fences, syncobjs, clients *)
      heap s' = heap s -> waits s' = waits s -> nparked s' = nparked s -> port s' = port s ->
      tables_ok s' -> step (Sys s hd pk an) (Sys s' hd pk an).

Definition initial (s : srv) : Prop :=
  heap s = ∅ /\ waits s = 0 /\ nparked s = 0 /\ tables_ok s.
Inductive reachable : sys -> Prop :=
  | reach_init s : initial s -> reachable (Sys s [] [] [])
  | reach_step x y : reachable x -> step x y -> reachable y.

Lemma tables_env s s' : same_env s s' -> tables_ok s -> tables_ok s'.
Proof.
  intros (Hs & _ & Hl & _ & _ & Hu & Hi) (H1 & H2 & H3 & H4). unfold tables_ok. rewrite Hs, Hl.
  split_and!; [done..|]. intros i c Hc Hused.
  assert (Hui : (c_used <$> clients s) !! i = Some true) by (rewrite <- Hu, list_lookup_fmap, Hc; cbn; by rewrite Hused).
  assert (Hii : (c_id <$> clients s) !! i = Some (c_id c)) by (by rewrite <- Hi, list_lookup_fmap, Hc).
  rewrite list_lookup_fmap in Hui. rewrite list_lookup_fmap in Hii.
  destruct (clients s !! i) as [c0|] eqn:E; [|done]. cbn in Hui, Hii.
  injection Hui as Hu0. injection Hii as Hi0. rewrite <- Hi0. by apply H4.
Qed.

Lemma client_get_inv s c cl :
  tables_ok s -> client_get s (c + 1) = Some cl ->
  0 <= c < 60 /\ client_at s c = cl /\ c_id cl = c + 1.
Proof.
  intros (_ & _ & Hl & Hid) H. unfold client_get in H. change V3DA_MAX_CLIENTS with 60 in H.
  replace (c + 1 - 1) with c in H by lia. case_ifs. split; [lia|]. split; [done|].
  replace (c + 1) with (Z.of_nat (Z.to_nat c) + 1) by lia. apply Hid; [|done].
  unfold client_at. apply list_lookup_lookup_total_lt. lia.
Qed.

(** The wait requests: a request that is not answered at once is parked, with its
    port and id, and everything else is left as it was. *)
Lemma do_op_spec s c cl m rid o t p now ws outs :
  tables_ok s -> op_typed o -> client_get s (c + 1) = Some cl -> rep s ws outs ->
  p = 0 \/ heap s !! p = None ->
  exists res m' s', do_op s c m rid o t p now = Some (res, m', s') /\ same_env s s' /\
    match res with
    | Some _ => s' = s
    | None => exists r, rep s' ((p, r) :: ws) outs /\ req_ok r /\ w_port r = rx_port s /\ w_rid r = rid
    end.
Proof.
  intros Ht Ho Hc Hr Hp. destruct (client_get_inv _ _ _ Ht Hc) as (Hcr & Hat & Hid).
  assert (Hpark : forall kind fences handles n all fs,
    n <= 8 -> let rq := new_wait s c kind m rid fences handles n all fs in req_ok rq ->
    exists res m' s', raw_answer (v3da_wait_park s c kind m rid fences handles n all fs t p now) = Some (res, m', s') /\
      same_env s s' /\
      match res with
      | Some _ => s' = s
      | None => exists r, rep s' ((p, r) :: ws) outs /\ req_ok r /\ w_port r = rx_port s /\ w_rid r = rid
      end).
  { intros kind fences handles n all fs Hn rq Hrq.
    destruct (wait_park_spec s c kind m rid fences handles n all fs t p now ws outs Hr Hp Hn)
      as (rc & m' & s' & E & He & Hne & Heq); [by apply wait_eval_total|].
    rewrite E. unfold raw_answer. cbn [mbind option_bind]. eexists _, _, _. split; [done|]. split; [done|].
    destruct rc as [z|e]; [destruct (z =? 0) eqn:Ez; bsimp; subst|]; [|apply Hne; congruence|by apply Hne].
    destruct Heq as (_ & _ & _ & _ & Hrep); [done|]. eexists. split; [exact Hrep|]. done. }
  destruct o as [f|last|n flags hs]; cbn [do_op op_typed] in *.
  - unfold op_fence_wait. destruct (v3da_fence_valid s f) eqn:Ev; cbn [negb]; [|by eexists _, _, _].
    apply Hpark; [lia|]. cbn. exists f. split; [done|]. unfold v3da_fence_valid in Ev.
    change V3DA_FENCE_NSLOTS with 60 in Ev. change V3DA_Q_COUNT with 6 in Ev. case_if; [done|]. bsimp. lia.
  - unfold op_bo_wait. destruct last as [l|]; [|by eexists _, _, _]. apply Hpark; [done|].
    cbn. unfold zlen, copy_n. rewrite length_app, length_take, length_drop, Ho. cbn. change (Z.to_nat V3DA_Q_COUNT) with 6%nat. cbn. done.
  - unfold op_syncobj_wait. change V3DA_SYNCOBJ_WAIT_MAX with 8. destruct Ho as [Hn Hl].
    case_if; [by eexists _, _, _|]. bsimp. case_if; [by eexists _, _, _|]. apply Hpark; [lia|].
    cbn. rewrite Hat, Hid. split; [lia|].
    unfold zlen, copy_n. rewrite length_app, length_take, length_drop, Hl. cbn. lia.
Qed.

(** ** The invariant of the interleaved system *)

Definition keys (pt : Z) (l : list node) : list (Z * Z) := key_of pt <$> l.*2.

Definition inv (x : sys) : Prop :=
  exists ws outs, rep (sv x) ws outs /\ held x = outs.*1 /\ tables_ok (sv x) /\
    Forall (fun n => req_ok n.2) ws /\
    parked x ≡ₚ (a_key <$> answered x) ++ keys (port (sv x)) (concat outs.*2) ++ keys (port (sv x)) ws.

Lemma keys_app pt l1 l2 : keys pt (l1 ++ l2) = keys pt l1 ++ keys pt l2.
Proof. unfold keys. by rewrite !fmap_app. Qed.
Lemma keys_rev pt l : keys pt (rev l) ≡ₚ keys pt l.
Proof. unfold keys. by rewrite <- Permutation_rev. Qed.

(** A pass that keeps the identities loses no request. *)
Lemma keys_pass pt v l :
  (forall r r', v r = Some r' -> key_of pt r' = key_of pt r) ->
  keys pt (claimed v l) ++ keys pt (kept v l) ≡ₚ keys pt l.
Proof.
  intros Hv. induction l as [|[p r] l IH]; [done|]. unfold kept, claimed in *. cbn [omap list_omap fst snd].
  destruct (v r) as [r'|] eqn:E.
  - rewrite filter_cons_False by (cbn; congruence). cbn. unfold keys in *. cbn. rewrite (Hv _ _ E). by constructor.
  - rewrite filter_cons_True by done. cbn. unfold keys in *. cbn. rewrite <- IH. solve_Permutation.
Qed.

Lemma verdict_key s now pt r r' : verdict s now r = Some r' -> key_of pt r' = key_of pt r.
Proof.
  unfold verdict. destruct (wait_eval s r) as [[[[]|e] x]|]; intros H; simplify_eq; try done. case_if; by simplify_eq.
Qed.

(** Any pass over the parked requests preserves the invariant. *)
Lemma inv_pass s s' a hd pk an ws outs ws' la :
  rep s ws outs -> hd = outs.*1 -> tables_ok s -> Forall (fun n => req_ok n.2) ws ->
  pk ≡ₚ (a_key <$> an) ++ keys (port s) (concat outs.*2) ++ keys (port s) ws ->
  rep s' ws' ((a, la) :: outs) -> same_env s s' -> ws' ⊆ ws ->
  keys (port s) la ++ keys (port s) ws' ≡ₚ keys (port s) ws ->
  inv (Sys s' (a :: hd) pk an).
Proof.
  intros Hr -> Ht Hok Hpk Hr' He Hsub Hk. exists ws', ((a, la) :: outs). cbn [sv held parked answered].
  split_and!; [done|done|by eapply tables_env|..].
  - apply Forall_forall. intros n Hn. apply (proj1 (Forall_forall _ _) Hok). by apply Hsub.
  - destruct He as (_ & _ & _ & -> & _). change (concat ((a, la) :: outs).*2) with (la ++ concat outs.*2).
    rewrite Hpk, keys_app, <- Hk. solve_Permutation.
Qed.

Lemma rep_claim_start s ws outs : rep s ws outs -> rep s ws ((0, []) :: outs).
Proof. intros (H1 & H2 & H3 & H4 & H5). split_and!; [done| |done..]. by constructor. Qed.

Lemma rep_fuel s ws outs : rep s ws outs -> (length ws <= size (heap s))%nat.
Proof.
  intros (_ & _ & Hnd & Hdom & _). rewrite <- size_dom, Hdom, size_list_to_set by done.
  unfold ptrs. rewrite length_app, length_fmap. lia.
Qed.

Lemma rep_fuel_out s ws a l outs : rep s ws ((a, l) :: outs) -> (length l <= size (heap s))%nat.
Proof.
  intros (_ & _ & Hnd & Hdom & _). rewrite <- size_dom, Hdom, size_list_to_set by done.
  unfold ptrs. cbn. rewrite !length_app, !length_fmap. lia.
Qed.

Lemma respond_keys s l : a_key <$> (respond_to s <$> l.*2) = keys (port s) l.
Proof. unfold keys. by rewrite <- list_fmap_compose. Qed.

Lemma kept_sub v l : kept v l ⊆ l.
Proof. intros n Hn. by apply list_elem_of_filter in Hn as [_ ?]. Qed.

(** The scan, on a represented state. *)
Lemma waits_scan_rep s now ws outs :
  rep s ws outs -> tables_ok s -> Forall (fun n => req_ok n.2) ws ->
  exists s' a, waits_scan (fuel_of s) s now 0 = Some (s', a) /\
    rep s' (kept (verdict s now) ws) ((a, rev (claimed (verdict s now) ws)) :: outs) /\ same_env s s'.
Proof.
  intros Hr Ht Hok. unfold waits_scan. rewrite (rep_hd _ _ _ Hr).
  destruct (scan_loop_rep now (verdict s now) ws (fuel_of s) s [] 0 [] outs) as (s' & a & E & Hr' & He).
  - by apply rep_claim_start.
  - eapply Forall_impl; [exact Hok|]. intros n. by apply wait_eval_total.
  - done.
  - unfold fuel_of. apply rep_fuel in Hr. lia.
  - exists s', a. rewrite app_nil_r in Hr'. done.
Qed.

Lemma sys_inv_step x y : inv x -> step x y -> inv y.
Proof.
  intros (ws & outs & Hr & Hh & Ht & Hok & Hpk) Hst. destruct Hst; cbn [sv held parked answered] in *; subst.
  - destruct (do_op_spec s c cl m rid o t p now ws outs Ht) as (res' & m'' & s'' & E & He & Hres); [done..|].
    simplify_eq. pose proof He as (_ & _ & _ & Ep & _). destruct res.
    + subst. by exists ws, outs.
    + destruct Hres as (r & Hrep & Hrq & Hport & Hrid). exists ((p, r) :: ws), outs. cbn [sv held parked answered].
      split_and!; [done|done|by eapply tables_env|by constructor|].
      rewrite Hpk, Ep. unfold keys. cbn. unfold key_of at 4. rewrite Hport, Hrid. solve_Permutation.
  - destruct (waits_scan_rep s now ws outs Hr Ht Hok) as (s'' & a' & E & Hrep & He). simplify_eq.
    apply (inv_pass _ _ _ _ _ _ _ _ _ _ Hr eq_refl Ht Hok Hpk Hrep He); [apply kept_sub|]. rewrite keys_rev. apply keys_pass. by apply verdict_key.
  - destruct (gone_loop_rep id ws (fuel_of s) s [] 0 [] outs) as (s'' & a' & E & Hrep & He).
    { by apply rep_claim_start. } { unfold fuel_of. apply rep_fuel in Hr. lia. }
    unfold v3da_waits_client_gone in *. rewrite (rep_hd _ _ _ Hr) in *. simplify_eq. rewrite app_nil_r in Hrep.
    apply (inv_pass _ _ _ _ _ _ _ _ _ _ Hr eq_refl Ht Hok Hpk Hrep He); [apply kept_sub|]. rewrite keys_rev. apply keys_pass.
    unfold gone_verdict. intros r r2 Hv. case_if; by simplify_eq.
  - destruct (waits_all_rep err ws (fuel_of s) s 0 [] outs) as (s'' & a' & E & Hrep & He).
    { by apply rep_claim_start. } { unfold fuel_of. apply rep_fuel in Hr. lia. }
    simplify_eq. rewrite app_nil_r in Hrep. apply (inv_pass _ _ _ _ _ _ _ _ _ _ Hr eq_refl Ht Hok Hpk Hrep He); [set_solver|]. rewrite keys_rev.
    cbn. rewrite app_nil_r. unfold keys. by rewrite <- !list_fmap_compose.
  - symmetry in Hh. apply fmap_app_inv in Hh as (o1 & o2 & -> & Ho2 & ->). symmetry in Ho2.
    apply fmap_cons_inv in Ho2 as ([a' l'] & o3 & -> & -> & ->). cbn [fst] in *.
    assert (Hr' : rep s ws ((a', l') :: o1 ++ o3)) by (eapply rep_perm; [|exact Hr]; solve_Permutation).
    destruct (waits_answer_rep ws l' (fuel_of s) s a' (o1 ++ o3) Hr') as (s'' & E & Hrep & He).
    { unfold fuel_of. apply rep_fuel_out in Hr'. lia. }
    simplify_eq. exists ws, (o1 ++ o3). cbn [sv held parked answered].
    split_and!; [done|by rewrite fmap_app|by eapply tables_env|done|].
    pose proof He as (_ & _ & _ & -> & _). rewrite Hpk, !fmap_app, !concat_app. cbn.
    rewrite !keys_app, respond_keys. solve_Permutation.
  - exists ws, outs. cbn [sv held parked answered]. split_and!; try done.
    + unfold rep in *. by repeat match goal with E : _ s' = _ s |- _ => rewrite E; clear E end.
    + by match goal with E : port s' = _ |- _ => rewrite E end.
Qed.

Lemma sys_inv_reachable x : reachable x -> inv x.
Proof.
  induction 1 as [s (Hh & Hw & Hn & Ht)|x y _ IH Hst]; [|by eapply sys_inv_step].
  exists [], []. cbn. split_and!; [|done..]. unfold rep. rewrite Hh, Hw, Hn.
  split_and!; [by exists 0|done|by constructor|by rewrite dom_empty_L|done].
Qed.

(** C7: in every interleaving of the dispatch threads, the event thread, closing
    clients and the shutdown, each parked request is answered at most once and none is
    lost: the parked (port, id) pairs are exactly those already answered, those claimed
    by a thread that will answer them, and those still parked ([nparked] counts these);
    and no pass over the lists fails or runs out of the heap-sized fuel. *)
Theorem v3da_answered_once (x : sys) :
  reachable x ->
  (exists claimed waiting : list (Z * Z),
     parked x ≡ₚ (a_key <$> answered x) ++ claimed ++ waiting /\
     nparked (sv x) = u32 (zlen waiting) /\
     (waits (sv x) = 0 -> waiting = []) /\ (held x = [] -> claimed = [])) /\
  (forall now, is_Some (waits_scan (fuel_of (sv x)) (sv x) now 0)) /\
  (forall id, is_Some (v3da_waits_client_gone (fuel_of (sv x)) (sv x) id 0)) /\
  (forall err, is_Some (v3da_waits_all (fuel_of (sv x)) (sv x) 0 err)) /\
  (forall a, a ∈ held x -> is_Some (v3da_waits_answer (fuel_of (sv x)) (sv x) a)).
Proof.
  intros (ws & outs & Hr & Hh & Ht & Hok & Hpk)%sys_inv_reachable.
  pose proof (rep_fuel _ _ _ Hr) as Hf. pose proof (rep_hd _ _ _ Hr) as Hhd. split_and!.
  - exists (keys (port (sv x)) (concat outs.*2)), (keys (port (sv x)) ws). split_and!; [done|..].
    + destruct Hr as (_ & _ & _ & _ & ->). unfold keys, zlen. by rewrite !length_fmap.
    + intros Hw. destruct ws as [|[p r] ws]; [done|]. destruct (rep_node _ [] _ _ _ _ Hr) as [? _].
      rewrite Hhd in Hw. done.
    + intros Hn. rewrite Hn in Hh. by destruct outs.
  - intros now. destruct (waits_scan_rep _ now _ _ Hr Ht Hok) as (?&?&->&_). eauto.
  - intros id. unfold v3da_waits_client_gone. rewrite Hhd.
    destruct (gone_loop_rep id ws (fuel_of (sv x)) (sv x) [] 0 [] outs) as (?&?&->&_); [|unfold fuel_of; lia|eauto].
    by apply rep_claim_start.
  - intros err. destruct (waits_all_rep err ws (fuel_of (sv x)) (sv x) 0 [] outs) as (?&?&->&_);
      [by apply rep_claim_start|unfold fuel_of; lia|eauto].
  - intros a Ha. rewrite Hh in Ha. apply list_elem_of_fmap in Ha as ([a' l] & -> & Hin).
    apply list_elem_of_split in Hin as (o1 & o2 & ->). cbn [fst].
    assert (Hr' : rep (sv x) ws ((a', l) :: o1 ++ o2)) by (eapply rep_perm; [|exact Hr]; solve_Permutation).
    destruct (waits_answer_rep ws l (fuel_of (sv x)) (sv x) a' (o1 ++ o2) Hr') as (?&->&_); [|eauto].
    apply rep_fuel_out in Hr'. unfold fuel_of. lia.
Qed.

(** C23: one scan answers everything that can be answered: with [ws] parked, it
    terminates, keeps in order exactly the requests that are neither satisfied nor
    failed nor past their deadline, and hands every other request once, newest claim
    first and with the response of its verdict, to the answer list; afterwards no
    parked request is satisfied, failed or expired. *)
Theorem v3da_scan_spec (s : srv) (now : Z) ws outs :
  rep s ws outs -> tables_ok s -> Forall (fun n => req_ok n.2) ws ->
  exists s' a, waits_scan (fuel_of s) s now 0 = Some (s', a) /\
    rep s' (kept (verdict s now) ws) ((a, rev (claimed (verdict s now) ws)) :: outs) /\
    (forall p r, (p, r) ∈ kept (verdict s now) ws ->
       wait_eval s' r = Some (Ok false, m_resp (w_msg r)) /\ now < w_deadline r) /\
    (forall p r, (p, r) ∈ ws -> (p, r) ∉ kept (verdict s now) ws ->
       exists r', (p, r') ∈ claimed (verdict s now) ws /\ w_rid r' = w_rid r /\
         ((exists x, wait_eval s r = Some (Ok true, x) /\ r_err (m_resp (w_msg r')) = Ok ()) \/
          (exists e x, wait_eval s r = Some (Err e, x) /\ r_err (m_resp (w_msg r')) = Err e) \/
          (w_deadline r <= now /\ r_err (m_resp (w_msg r')) = Err ETIMEDOUT))).
Proof.
  intros Hr Ht Hok. destruct (waits_scan_rep s now ws outs Hr Ht Hok) as (s' & a & E & Hr' & He).
  exists s', a. split_and!; [done|done|..].
  - intros p r Hin. apply list_elem_of_filter in Hin as [Hv Hin]. cbn in Hv.
    pose proof (proj1 (Forall_forall _ _) Hok _ Hin) as Hrq. cbn in Hrq.
    destruct (wait_eval_total s r Ht Hrq) as [[ev x] Ev]. rewrite (wait_eval_env s s') by done.
    unfold verdict in Hv. rewrite Ev in Hv. destruct ev as [[]|]; [done| |done].
    pose proof (wait_eval_pending _ _ _ Ev) as ->. case_if; [done|]. bsimp. done.
  - intros p r Hin Hk. pose proof (proj1 (Forall_forall _ _) Hok _ Hin) as Hrq. cbn in Hrq.
    destruct (wait_eval_total s r Ht Hrq) as [[ev x] Ev]. destruct (verdict s now r) as [r'|] eqn:Hv.
    + exists r'. split; [|unfold verdict in Hv; rewrite Ev in Hv].
      { apply list_elem_of_omap. exists (p, r). cbn. by rewrite Hv. }
      destruct ev as [[]|e]; [| |]; [simplify_eq; split; [done|]; left; eauto | |simplify_eq; split; [done|]; right; left; eauto].
      case_if; [|done]. bsimp. simplify_eq. split; [done|]. right. right. done.
    + destruct Hk. apply list_elem_of_filter. done.
Qed.

End V3daCorrect.
