(* ===== verification/V3daFences.v ===== *)
(** * Fences, syncobjs, parking and timeouts of the V3D server

    The remaining theorems on [V3daSched.v]: what completing a job and reassigning a
    fence-page row do to every fence, the syncobj table, each branch of
    [v3da_wait_park], and the event thread's sleep. *)

From S2P Require Import Prelude V3daSched V3daSchedCorrect.
Import V3da V3daCorrect.

Module V3daFences.

(** ** Fences *)

Definition fence_in (f : fence) : Prop := 0 <= f_slot f < 60 /\ 0 <= f_queue f < 6.

(** [v3da_fence_signaled] on a fence inside the page. *)
Definition row_signaled (r : fence_slot) (f : fence) : bool :=
  negb (u32 (gen r) =? f_gen f) || (f_seqno f <=? arr_get (completed r) (f_queue f)).
Lemma signaled_row s f :
  fence_in f -> (v3da_fence_signaled s f).1 = row_signaled (slot_at s (f_slot f)) f.
Proof.
  intros [Hs Hq]. unfold v3da_fence_signaled, row_signaled, slot_gen_ok.
  change V3DA_FENCE_NSLOTS with 60. change V3DA_Q_COUNT with 6.
  destruct (60 <=? f_slot f) eqn:?, (6 <=? f_queue f) eqn:?; bsimp; try lia. cbn [orb].
  destruct (u32 _ =? _) eqn:?; cbn [negb orb]; [|done]. case_if; [|case_if]; cbn; symmetry.
  - apply Z.leb_gt. by bsimp.
  - apply Z.leb_le. by bsimp.
  - apply Z.leb_le. by bsimp.
Qed.

Lemma slot_at_insert s i j r hw :
  length (slots s) = 60%nat -> 0 <= i < 60 -> 0 <= j ->
  slot_at (set_fp s (<[Z.to_nat i := r]> (slots s)) hw) j = if i =? j then r else slot_at s j.
Proof.
  intros Hl Hi Hj. unfold slot_at. cbn. case_if; bsimp.
  - subst. apply list_lookup_total_insert_eq. lia.
  - apply list_lookup_total_insert_ne. lia.
Qed.

(** The error word: the queue in the top byte, the sequence number below. *)
Lemma ERR_SEQ_fields q n : 0 <= q < 6 -> 0 <= n < 2 ^ 56 ->
  ERR_SEQ q n >>> 56 = q /\ ERR_SEQ q n &&& 0x00ffffffffffffff = n.
Proof.
  intros Hq Hn. unfold ERR_SEQ. change 0x00ffffffffffffff with (2 ^ 56 - 1).
  assert (Eu : u64 (q <<< 56) = q <<< 56).
  { apply Z.mod_small. rewrite Z.shiftl_mul_pow2 by lia. lia. }
  rewrite Eu, !land_mask, (Z.mod_small n) by lia. rewrite lor_shift by lia. split.
  - rewrite Z.shiftr_div_pow2 by lia. rewrite Z.div_add_l by lia. rewrite Z.div_small by lia. lia.
  - rewrite Z.add_comm, Z_mod_plus_full. by apply Z.mod_small.
Qed.

(** The sequence number [v3da_fence_complete] publishes. *)
Definition published (s : srv) (j : job) : Z :=
  let seq := f_seqno (j_fence j) in
  let dead := arr_get (dead_flush s !!! Z.to_nat (f_slot (j_fence j))) (j_queue j) in
  if negb (c_used (client_at s (f_slot (j_fence j)))) && (seq <? dead) then dead else seq.

Lemma published_ge s j : f_seqno (j_fence j) <= published s j.
Proof. unfold published. case_if; bsimp; lia. Qed.

Lemma complete_row s j e i :
  length (slots s) = 60%nat -> fence_in (j_fence j) -> 0 <= i ->
  slot_at (v3da_fence_complete s j e) i =
  (let r := slot_at s i in
   if f_slot (j_fence j) =? i then
     mk_slot (arr_set (completed r) (j_queue j) (published s j))
       (if bool_decide (published s j <> f_seqno (j_fence j)) || e then ERR_SEQ (j_queue j) (published s j)
        else error_seq r) (gen r)
   else r).
Proof.
  intros Hl [Hs _] Hi. unfold v3da_fence_complete, published. rewrite slot_at_insert by done.
  destruct (f_slot (j_fence j) =? i) eqn:E; [|done]. bsimp. subst.
  destruct (_ && (_ <? _)) eqn:Ed; cbn [orb].
  - rewrite bool_decide_eq_true_2 by (bsimp; lia). done.
  - rewrite bool_decide_eq_false_2 by (intros Hx; by apply Hx). cbn [orb]. by destruct e.
Qed.

Lemma row_len s i : tables_ok s -> 0 <= i < 60 -> zlen (completed (slot_at s i)) = 6.
Proof.
  intros (Hl & Hf & _) Hi. unfold zlen, slot_at.
  assert (Hx : slots s !! Z.to_nat i = Some (slots s !!! Z.to_nat i)).
  { apply list_lookup_lookup_total_lt. lia. }
  pose proof (Forall_lookup_1 _ _ _ _ Hf Hx) as E. cbn in E. by rewrite E.
Qed.

(** Any fence after a completion. *)
Lemma complete_signaled s j e g :
  tables_ok s -> fence_in (j_fence j) -> j_queue j = f_queue (j_fence j) -> fence_in g ->
  (v3da_fence_signaled (v3da_fence_complete s j e) g).1 =
  negb (u32 (gen (slot_at s (f_slot g))) =? f_gen g) ||
  (f_seqno g <=? if (f_slot (j_fence j) =? f_slot g) && (f_queue (j_fence j) =? f_queue g) then published s j
                 else arr_get (completed (slot_at s (f_slot g))) (f_queue g)).
Proof.
  intros Ht Hf Hq Hg. rewrite signaled_row by done. destruct Hg as [Hgs Hgq]. pose proof Hf as [Hfs Hfq].
  rewrite complete_row by (try apply Ht; done || lia). unfold row_signaled. cbn [gen completed].
  destruct (f_slot (j_fence j) =? f_slot g) eqn:E; [|done]. bsimp. cbn [andb gen completed].
  destruct (f_queue (j_fence j) =? f_queue g) eqn:E2; bsimp; rewrite Hq.
  - rewrite E2, arr_get_set_eq; [done|]. rewrite row_len by done. lia.
  - rewrite arr_get_set_ne by lia. done.
Qed.

(** The error report after a failed job: [error_seq] holds the last failure only. *)
Lemma complete_error s j g :
  tables_ok s -> fence_in (j_fence j) -> j_queue j = f_queue (j_fence j) ->
  1 <= f_seqno (j_fence j) -> published s j < 2 ^ 56 ->
  fence_in g -> f_slot g = f_slot (j_fence j) -> u32 (gen (slot_at s (f_slot g))) = f_gen g ->
  (f_queue g = f_queue (j_fence j) -> f_seqno g <= published s j) ->
  (v3da_fence_signaled (v3da_fence_complete s j true) g).2 = of_bool (f_queue g =? f_queue (j_fence j)).
Proof.
  intros Ht Hf Hq H1 Hp [Hgs Hgq] Hsl Hg Hle. pose proof Hf as [Hfs Hfq]. pose proof (published_ge s j).
  unfold v3da_fence_signaled, slot_gen_ok. change V3DA_FENCE_NSLOTS with 60. change V3DA_Q_COUNT with 6.
  rewrite complete_row by (try apply Ht; done || lia). rewrite <- Hsl, Z.eqb_refl. cbn [gen completed error_seq].
  destruct (60 <=? _) eqn:?, (6 <=? _) eqn:?; bsimp; try lia. cbn [orb]. rewrite Hg, Z.eqb_refl. cbn [negb].
  rewrite Hq, orb_true_r.
  destruct (ERR_SEQ_fields (f_queue (j_fence j)) (published s j)) as [E1 E2]; [lia..|]. rewrite E1, E2.
  destruct (f_queue g =? f_queue (j_fence j)) eqn:Eq; bsimp.
  - rewrite Eq, arr_get_set_eq by (rewrite row_len by done; lia).
    rewrite (proj2 (Z.ltb_ge _ _)) by auto. rewrite Z.eqb_refl, (proj2 (Z.leb_le _ _)) by auto.
    destruct (ERR_SEQ _ _ =? 0) eqn:E0; [|done]. bsimp. rewrite E0, Z.land_0_l in E2. lia.
  - rewrite (proj2 (Z.eqb_neq (f_queue (j_fence j)) _)) by lia. rewrite andb_false_r. by case_if.
Qed.

(** A reassigned row. *)
Lemma assign_row s i :
  length (slots s) = 60%nat -> 0 <= i < 60 ->
  slot_at (v3da_slot_assign s i) i = mk_slot (replicate 6 0) 0 (u64 (slot_gen s !!! Z.to_nat i + 1)).
Proof.
  intros Hl Hi. unfold v3da_slot_assign, slot_at. cbn. apply list_lookup_total_insert_eq. lia.
Qed.

Lemma u32_u64_succ x : u32 (u64 (x + 1)) <> u32 x.
Proof.
  unfold u32, u64. rewrite Z.mod_mod_divide by (exists (2 ^ 32); done).
  Z.div_mod_to_equations. lia.
Qed.

(** completing a job in order (its queue's [completed] word is below it) signals
    its fence, keeps every signalled fence signalled, leaves the fences of all other
    rows and queues as they were. A failed job is reported to every fence of its queue
    that is not newer, and from then on no failure of the row's other queues is. Reassigning a row signals every fence of its previous
    generation and no fence the new owner can be given. *)
Theorem v3da_fence_spec (s : srv) (j : job) (e : bool) :
  tables_ok s ->
  (let f := j_fence j in
   fence_in f -> j_queue j = f_queue f -> 1 <= f_seqno f -> published s j < 2 ^ 56 ->
   arr_get (completed (slot_at s (f_slot f))) (f_queue f) < f_seqno f ->
   let s' := v3da_fence_complete s j e in
   (v3da_fence_signaled s' f).1 = true /\
   (e = true -> forall g, fence_in g -> f_slot g = f_slot f -> f_gen g = u32 (gen (slot_at s (f_slot f))) ->
      (f_queue g = f_queue f -> f_seqno g <= f_seqno f) ->
      (v3da_fence_signaled s' g).2 = of_bool (f_queue g =? f_queue f)) /\
   (forall g, fence_in g -> (v3da_fence_signaled s g).1 = true -> (v3da_fence_signaled s' g).1 = true) /\
   (forall g, fence_in g -> (f_slot g, f_queue g) <> (f_slot f, f_queue f) ->
      (v3da_fence_signaled s' g).1 = (v3da_fence_signaled s g).1)) /\
  (forall g, fence_in g -> slot_gen s !!! Z.to_nat (f_slot g) = gen (slot_at s (f_slot g)) ->
   let s' := v3da_slot_assign s (f_slot g) in
   (f_gen g = u32 (gen (slot_at s (f_slot g))) -> v3da_fence_signaled s' g = (true, 0)) /\
   (f_gen g = u32 (gen (slot_at s' (f_slot g))) -> 1 <= f_seqno g -> v3da_fence_signaled s' g = (false, 0))).
Proof.
  intros Ht. split.
  - intros f Hf Hq H1 Hp Hlt s'. pose proof (published_ge s j) as Hpub. split_and!.
    + unfold s'. rewrite complete_signaled by done. rewrite !Z.eqb_refl. cbn [andb].
      rewrite (proj2 (Z.leb_le _ _)) by done. apply orb_true_r.
    + intros -> g Hg Hsl Hgn Hle. apply complete_error; try done.
      * by rewrite Hsl.
      * intros E. apply Hle in E. unfold f in *. lia.
    + intros g Hg. unfold s'. rewrite complete_signaled, signaled_row by done. unfold row_signaled.
      destruct (u32 _ =? f_gen g); cbn [negb orb]; [|done].
      destruct (_ && _) eqn:E; [|done]. bsimp. fold f in H, H0, Hpub. rewrite <- H, <- H0. intros Hle. bsimp.
      apply Z.leb_le. lia.
    + intros g Hg Hne. unfold s'. rewrite complete_signaled, signaled_row by done. unfold row_signaled.
      destruct (_ && _) eqn:E; [|done]. bsimp. destruct Hne. fold f in H, H0. congruence.
  - intros g Hg Hgen s'. pose proof Hg as [Hs Hq].
    assert (Hrow : slot_at s' (f_slot g) = mk_slot (replicate 6 0) 0 (u64 (gen (slot_at s (f_slot g)) + 1))).
    { unfold s'. rewrite assign_row by (try apply Ht; done). by rewrite Hgen. }
    unfold v3da_fence_signaled, slot_gen_ok. rewrite Hrow. cbn [gen completed].
    change V3DA_FENCE_NSLOTS with 60. change V3DA_Q_COUNT with 6.
    destruct (60 <=? _) eqn:?, (6 <=? _) eqn:?; bsimp; try lia. cbn [orb]. split.
    + intros ->. rewrite (proj2 (Z.eqb_neq _ _)); [done|]. apply u32_u64_succ.
    + intros -> Hn. rewrite Z.eqb_refl. cbn [negb]. unfold arr_get.
      assert (replicate 6 0 !!! Z.to_nat (f_queue g) = 0) as ->.
      { apply list_lookup_total_correct, lookup_replicate. lia. }
      rewrite (proj2 (Z.ltb_lt _ _)) by lia. done.
Qed.

(** ** Syncobjs *)

Lemma client_at_upd s c i f :
  length (clients s) = 60%nat -> 0 <= c < 60 -> 0 <= i ->
  client_at (upd_client s c f) i = if c =? i then f (client_at s i) else client_at s i.
Proof.
  intros Hl Hc Hi. unfold client_at, upd_client. cbn. case_if; bsimp.
  - subst. apply list_lookup_total_alter_eq. lia.
  - apply list_lookup_total_alter_ne. lia.
Qed.

Definition table (s : srv) (c : Z) : list syncobj := sync (client_at s c).

Lemma table_upd s c handle f :
  length (clients s) = 60%nat -> 0 <= c < 60 ->
  table (upd_sync s c handle f) c = alter f (Z.to_nat (handle - 1)) (table s c).
Proof.
  intros Hl Hc. unfold table, upd_sync. rewrite client_at_upd by (done || lia). by rewrite Z.eqb_refl.
Qed.

Lemma get_table s c h :
  v3da_syncobj_get (client_at s c) h =
  if (h =? 0) || (256 <? h) then None
  else let o := table s c !!! Z.to_nat (h - 1) in if so_used o then Some o else None.
Proof. done. Qed.

(** An object after an update through its handle. *)
Lemma get_upd_sync s c h f o :
  length (clients s) = 60%nat -> 0 <= c < 60 -> length (table s c) = 256%nat -> 0 <= h ->
  v3da_syncobj_get (client_at s c) h = Some o ->
  v3da_syncobj_get (client_at (upd_sync s c h f) c) h = if so_used (f o) then Some (f o) else None.
Proof.
  intros Hl Hc Ht Hh. rewrite !get_table. case_if; [done|]. bsimp. cbn zeta.
  rewrite table_upd by done. rewrite list_lookup_total_alter_eq by lia. set (x := table s c !!! _).
  destruct (so_used x); [|done]. intros [= ->]. done.
Qed.

(** The first free entry. *)
Lemma syncobj_free_spec l : forall i,
  match syncobj_free l i with
  | Some k => i <= k < i + zlen l /\ so_used (l !!! Z.to_nat (k - i)) = false /\
              forall q, i <= q < k -> so_used (l !!! Z.to_nat (q - i)) = true
  | None => forall q, i <= q < i + zlen l -> so_used (l !!! Z.to_nat (q - i)) = true
  end.
Proof.
  induction l as [|o l IH]; intros i; cbn [syncobj_free]; unfold zlen; cbn [length].
  - intros q Hq. lia.
  - assert (Hsh : forall q, i < q -> (o :: l) !!! Z.to_nat (q - i) = l !!! Z.to_nat (q - (i + 1))).
    { intros q Hq. replace (Z.to_nat (q - i)) with (S (Z.to_nat (q - (i + 1)))) by lia. done. }
    destruct (so_used o) eqn:Eo.
    + assert (H0 : so_used ((o :: l) !!! Z.to_nat (i - i)) = true) by (by rewrite Z.sub_diag).
      specialize (IH (i + 1)). unfold zlen in IH. destruct (syncobj_free l (i + 1)) as [k|].
      * destruct IH as (Hk & Hu & Hall). split; [lia|]. rewrite Hsh by lia. split; [done|]. intros q Hq.
        destruct (decide (q = i)) as [->|]; [done|]. rewrite Hsh by lia. apply Hall. lia.
      * intros q Hq. destruct (decide (q = i)) as [->|]; [done|]. rewrite Hsh by lia. apply IH. lia.
    + rewrite Z.sub_diag. split; [lia|]. split; [done|]. lia.
Qed.

(** A wait on a destroyed object fails. *)
Lemma sync_loop_gone s c fs hs h i nsig first :
  v3da_syncobj_get c h = None -> h ∈ hs -> sync_loop s c fs hs i nsig first = Err EINVAL.
Proof.
  intros Hg. revert i nsig first. induction hs as [|k hs IH]; intros i nsig first Hin; [set_solver|]. cbn.
  destruct (v3da_syncobj_get c k) as [o|] eqn:Ek; [|done].
  assert (Hin' : h ∈ hs) by (apply elem_of_cons in Hin as [->|]; [congruence|done]).
  destruct (so_state o), fs; try done; try (by apply IH); case_if; by apply IH.
Qed.

Lemma handle_range h : 1 <= h <= 256 -> (h =? 0) || (256 <? h) = false.
Proof. intros. apply orb_false_iff. split; [apply Z.eqb_neq|apply Z.ltb_ge]; lia. Qed.

Lemma syncobj_create_spec s c flags :
  length (clients s) = 60%nat -> 0 <= c < 60 -> length (table s c) = 256%nat ->
  match v3da_syncobj_create s c flags with
  | (s', Ok h) =>
      1 <= h <= 256 /\ v3da_syncobj_get (client_at s c) h = None /\
      (forall k, 1 <= k < h -> is_Some (v3da_syncobj_get (client_at s c) k)) /\
      v3da_syncobj_query s' c h =
        Ok (h, (if has flags 1 then V3DA_SYNC_SIGNALED else V3DA_SYNC_EMPTY), no_fence) /\
      (forall k, 0 <= k -> k <> h -> v3da_syncobj_get (client_at s' c) k = v3da_syncobj_get (client_at s c) k) /\
      (forall c', 0 <= c' -> c' <> c -> client_at s' c' = client_at s c')
  | (s', Err e) => e = ENOMEM /\ s' = s /\
      forall k, 1 <= k <= 256 -> is_Some (v3da_syncobj_get (client_at s c) k)
  end.
Proof.
  intros Hlc Hc Hl. pose proof (syncobj_free_spec (table s c) 0) as Hf. unfold v3da_syncobj_create.
  fold (table s c). assert (Hz : zlen (table s c) = 256) by (unfold zlen; lia).
  assert (Hused : forall k, 1 <= k <= 256 -> so_used (table s c !!! Z.to_nat (k - 1)) = true ->
            is_Some (v3da_syncobj_get (client_at s c) k)).
  { intros k Hk Hu. rewrite get_table, handle_range by lia. cbn zeta. rewrite Hu. eauto. }
  destruct (syncobj_free (table s c) 0) as [i|].
  - destruct Hf as (Hi & Hu & Hall). rewrite Z.sub_0_r in Hu. set (st := if has flags _ then _ else _).
    set (s' := upd_client _ _ _).
    assert (Htb : table s' c = <[Z.to_nat i := mk_sync true st no_fence]> (table s c)).
    { unfold table, s'. rewrite client_at_upd by (done || lia). by rewrite Z.eqb_refl. }
    assert (Hi1 : (i + 1 =? 0) || (256 <? i + 1) = false) by (apply handle_range; lia).
    split_and!; [lia|lia|..].
    + rewrite get_table, Hi1. replace (i + 1 - 1) with i by lia. cbn zeta. by rewrite Hu.
    + intros k Hk. apply Hused; [lia|]. specialize (Hall (k - 1)). rewrite Z.sub_0_r in Hall. apply Hall. lia.
    + unfold v3da_syncobj_query. rewrite get_table, Hi1. replace (i + 1 - 1) with i by lia. cbn zeta.
      rewrite Htb, list_lookup_total_insert_eq by lia. done.
    + intros k Hk Hne. rewrite !get_table. case_if; [done|]. apply orb_false_iff in Heqb as [E1 _]. bsimp.
      rewrite Htb, list_lookup_total_insert_ne by lia. done.
    + intros c' Hc' Hne. unfold s'. rewrite client_at_upd by (done || lia). by rewrite (proj2 (Z.eqb_neq _ _)) by lia.
  - split_and!; [done..|]. intros k Hk. apply Hused; [done|]. specialize (Hf (k - 1)). rewrite Z.sub_0_r in Hf.
    apply Hf. lia.
Qed.

(** a new syncobj gets the lowest free handle, in the state its flags ask for,
    and no other handle of any client changes; when there is none free the table is
    full and nothing changes. On a live handle [destroy] makes it unknown and fails
    every wait that names it, [signal], [reset] and [import] set the state they name;
    on an unknown handle each of them fails without effect. *)
Theorem v3da_syncobj_spec (s : srv) (c flags : Z) :
  tables_ok s -> 0 <= c < 60 -> length (table s c) = 256%nat ->
  (match v3da_syncobj_create s c flags with
   | (s', Ok h) =>
       1 <= h <= 256 /\ v3da_syncobj_get (client_at s c) h = None /\
       (forall k, 1 <= k < h -> is_Some (v3da_syncobj_get (client_at s c) k)) /\
       v3da_syncobj_query s' c h =
         Ok (h, (if has flags 1 then V3DA_SYNC_SIGNALED else V3DA_SYNC_EMPTY), no_fence) /\
       (forall k, 0 <= k -> k <> h -> v3da_syncobj_get (client_at s' c) k = v3da_syncobj_get (client_at s c) k) /\
       (forall c', 0 <= c' -> c' <> c -> client_at s' c' = client_at s c')
   | (s', Err e) => e = ENOMEM /\ s' = s /\
       forall k, 1 <= k <= 256 -> is_Some (v3da_syncobj_get (client_at s c) k)
   end) /\
  (forall h o, 0 <= h -> v3da_syncobj_get (client_at s c) h = Some o ->
     (let s' := (v3da_syncobj_destroy s c h).1 in
      v3da_syncobj_query s' c h = Err EINVAL /\
      forall r, w_kind r = V3DA_WAIT_SYNCOBJ -> w_client r = c + 1 -> w_n r <= zlen (w_handle r) ->
        h ∈ take (Z.to_nat (w_n r)) (w_handle r) -> wait_eval s' r = Some (Err EINVAL, m_resp (w_msg r))) /\
     v3da_syncobj_query (v3da_syncobj_signal s c h).1 c h = Ok (h, V3DA_SYNC_SIGNALED, so_fence o) /\
     v3da_syncobj_query (v3da_syncobj_reset s c h).1 c h = Ok (h, V3DA_SYNC_EMPTY, no_fence) /\
     forall f, f_seqno f <> 0 -> v3da_fence_valid s f = true ->
       v3da_syncobj_query (v3da_syncobj_import s c h f).1 c h = Ok (h, V3DA_SYNC_FENCE, f)) /\
  (forall h, v3da_syncobj_get (client_at s c) h = None ->
     v3da_syncobj_destroy s c h = (s, Err EINVAL) /\ v3da_syncobj_signal s c h = (s, Err EINVAL) /\
     v3da_syncobj_reset s c h = (s, Err EINVAL) /\
     forall f, v3da_syncobj_import s c h f = (s, Err EINVAL)).
Proof.
  intros Ht Hc Hl. pose proof Ht as (_ & _ & Hlc & _). split_and!.
  - apply syncobj_create_spec; done.
  - intros h o Hh Ho. pose proof Ho as Hu. rewrite get_table in Hu. case_if; [done|]. cbn zeta in Hu.
    destruct (so_used (table s c !!! Z.to_nat (h - 1))) eqn:Eu; [|done]. injection Hu as Eo. rewrite Eo in Eu.
    unfold v3da_syncobj_query, v3da_syncobj_destroy, v3da_syncobj_signal, v3da_syncobj_reset, v3da_syncobj_import.
    rewrite Ho. cbn [fst].
    change (client_at (v3da_kick_event_thread ?x)) with (client_at x).
    assert (Hg : forall f, v3da_syncobj_get (client_at (upd_sync s c h f) c) h = if so_used (f o) then Some (f o) else None).
    { intros f. by apply get_upd_sync. }
    rewrite !Hg. cbn [so_used so_state so_fence]. rewrite Eu. split_and!; [done| |done|done|].
    + intros r Hk Hcl Hn Hin. unfold wait_eval. rewrite Hk, Hcl. replace (c + 1 - 1) with c by lia.
      set (s' := v3da_kick_event_thread _). assert (Hb : buf_get (clients s') c = Some (client_at s' c)).
      { unfold buf_get. rewrite bool_decide_eq_true_2 by lia. apply list_lookup_lookup_total_lt.
        cbn. rewrite length_alter. lia. }
      rewrite Hb. cbn [mbind option_bind]. rewrite (proj2 (Z.ltb_ge _ _) Hn).
      rewrite (sync_loop_gone _ _ _ _ h); [done| |done]. apply (Hg (fun o => mk_sync false (so_state o) (so_fence o))).
    + intros f Hf ->. rewrite (proj2 (Z.eqb_neq _ _) Hf). cbn [fst].
      change (client_at (v3da_kick_event_thread ?x)) with (client_at x). rewrite Hg. cbn. by rewrite Eu.
  - intros h Hh. unfold v3da_syncobj_destroy, v3da_syncobj_signal, v3da_syncobj_reset, v3da_syncobj_import.
    by rewrite Hh.
Qed.

(** ** Parking *)

(** [v3da_wait_park] on every branch: more than eight objects and a failed
    allocation are refused; a request that is already decided is answered by the caller
    with the outcome and the filled response, and one that is not but may not wait with
    [-ETIMEDOUT], all without effect; any other request is parked at the front of the
    list, at most two seconds, the event thread is kicked and the caller's message is
    untouched. *)
Theorem v3da_park_spec s c kind m rid fences handles n all fs t p now ws outs ev x :
  rep s ws outs -> p = 0 \/ heap s !! p = None ->
  let rq := new_wait s c kind m rid fences handles n all fs in
  let park := v3da_wait_park s c kind m rid fences handles n all fs t p now in
  wait_eval s rq = Some (ev, x) -> 0 <= t -> 0 <= now < 2 ^ 63 ->
  (8 < n -> park = Some (Err EINVAL, m, s)) /\
  (n <= 8 -> p = 0 -> park = Some (Err ENOMEM, m, s)) /\
  (n <= 8 -> p <> 0 ->
   match ev with
   | Ok true => park = Some (Ok 1, mk_msg (m_op m) x (m_oerr m), s)
   | Err e => park = Some (Err e, mk_msg (m_op m) x (m_oerr m), s)
   | Ok false =>
       (t = 0 -> park = Some (Err ETIMEDOUT, m, s)) /\
       (t <> 0 -> exists s' d, park = Some (Ok 0, m, s') /\
          rep s' ((p, req_set_deadline rq d) :: ws) outs /\ kick_pending s' = true /\
          d = now + Z.min t 2000 * 1000)
   end).
Proof.
  intros Hr Hp rq park Hev Ht Hnow. unfold park, v3da_wait_park. change V3DA_SYNCOBJ_WAIT_MAX with 8.
  split_and!.
  - intros Hn. by rewrite (proj2 (Z.ltb_lt _ _) Hn).
  - intros Hn ->. by rewrite (proj2 (Z.ltb_ge _ _) Hn).
  - intros Hn Hp0. destruct (wait_park_spec s c kind m rid fences handles n all fs t p now ws outs Hr Hp Hn)
      as (rc & m' & s' & E & _ & _ & Hrc); [fold rq; rewrite Hev; eauto|]. unfold v3da_wait_park in E.
    change V3DA_SYNCOBJ_WAIT_MAX with 8 in E. rewrite (proj2 (Z.ltb_ge _ _) Hn), (proj2 (Z.eqb_neq _ _) Hp0) in *.
    fold rq in E, Hrc |- *. rewrite Hev in *. cbn [mbind option_bind] in *.
    destruct ev as [[]|e]; [done| |done]. split; [by intros ->|].
    intros Ht0. rewrite (proj2 (Z.eqb_neq _ _) Ht0) in *. rewrite E.
    destruct (if negb (waits s =? 0) then _ else _) as [s2|] in E; cbn [mbind option_bind] in E; [|done].
    simplify_eq. destruct Hrc as (_ & _ & _ & Hk & Hrep); [done|]. eexists _, _. split; [done|].
    split; [exact Hrep|]. split; [done|]. change V3DA_WAIT_MAX_MS with 2000. apply Z.mod_small. lia.
Qed.

(** ** The event thread's sleep *)

Definition due (now : Z) (n : node) : Z := Z.max 1 (w_deadline n.2 - now).

Lemma deadline_loop_rep now l2 : forall fuel s l1 outs t,
  rep s (l1 ++ l2) outs -> (length l2 < fuel)%nat ->
  deadline_loop fuel s (hd_ptr l2) now t = Some (foldr Z.min t (due now <$> l2)).
Proof.
  induction l2 as [|[p r] l2 IH]; intros fuel s l1 outs t Hr Hf.
  { destruct fuel; done. }
  destruct fuel as [|fuel]; [cbn in Hf; lia|]. cbn in Hf.
  destruct (rep_node _ _ _ _ _ _ Hr) as (Hp & pv & Hw).
  cbn [deadline_loop hd_ptr head from_option fst]. cbn [fst]. rewrite (proj2 (Z.eqb_neq _ _) Hp), Hw.
  cbn [mbind option_bind w_req w_next]. rewrite (IH fuel s (l1 ++ [(p, r)]) outs); [|by rewrite <- app_assoc|lia].
  f_equal. cbn [fmap list_fmap foldr]. set (d := if now <? _ then _ else _).
  assert (d = due now (p, r)) as -> by (unfold d, due; cbn; case_if; bsimp; lia).
  assert ((if due now (p, r) <? t then due now (p, r) else t) = Z.min (due now (p, r)) t) as ->
    by (case_if; bsimp; lia).
  clear. generalize (due now (p, r)) as d. intros d. change ((fix rec (l : list (Z * request)) := _) l2) with (due now <$> l2).
  induction (due now <$> l2) as [|y l IHl]; cbn; [done|]. rewrite IHl. lia.
Qed.

(** What bounds the sleep apart from the parked requests. *)
Definition sleep_bound (e : timing) : Z :=
  Z.min (Z.min IDLE_TIMEOUT_US (jobs_deadline e))
    (Z.min (if scan_nq e =? 0 then IDLE_TIMEOUT_US else 1000)
       (if irq_on e then IRQ_BACKSTOP_US else if hw_busy e then poll_us e else IDLE_TIMEOUT_US)).

Lemma foldr_min_le t l : foldr Z.min t l <= t.
Proof. induction l; cbn; lia. Qed.
Lemma foldr_min_comm a t l : foldr Z.min (Z.min t a) l = Z.min (foldr Z.min t l) a.
Proof. induction l as [|y l IH]; cbn; [done|]. rewrite IH. lia. Qed.

(** the event thread sleeps exactly until the first thing that may be due: the
    earliest deadline of a parked request or of a job, the backstop of the mode, or the
    idle period; never 0, which would mean forever. *)
Theorem v3da_timeout_spec (s : srv) (e : timing) (now : Z) ws outs :
  rep s ws outs -> 0 <= jobs_deadline e -> 0 <= poll_us e ->
  next_timeout_us (fuel_of s) s e now =
    Some (Z.max 1 (foldr Z.min (sleep_bound e) (due now <$> ws))).
Proof.
  intros Hr Hj Hp. unfold next_timeout_us. rewrite (rep_hd _ _ _ Hr).
  rewrite (deadline_loop_rep now ws (fuel_of s) s [] outs); [|done|apply rep_fuel in Hr; unfold fuel_of; lia].
  cbn [mbind option_bind]. unfold sleep_bound. rewrite foldr_min_comm.
  set (t0 := if jobs_deadline e <? _ then _ else _).
  assert (t0 = Z.min IDLE_TIMEOUT_US (jobs_deadline e)) as -> by (unfold t0; case_if; bsimp; lia).
  set (i := Z.min IDLE_TIMEOUT_US _). set (t := foldr Z.min i _).
  assert (Ht : t <= i) by apply foldr_min_le. assert (Hi : i <= IDLE_TIMEOUT_US) by (unfold i; lia).
  assert (H0 : 0 <= t).
  { unfold t. assert (0 <= i) by (unfold i, IDLE_TIMEOUT_US; lia). clear -H. induction ws; cbn; [done|]. unfold due at 1. lia. }
  f_equal. unfold IDLE_TIMEOUT_US, IRQ_BACKSTOP_US in *.
  assert (Hu : forall z, 0 <= z <= 100000 -> (if z =? 0 then 1 else u32 z) = Z.max 1 z).
  { intros z Hz. case_if; bsimp; [lia|]. rewrite u32_small by lia. lia. }
  rewrite Hu; [|destruct (scan_nq e =? 0), (irq_on e), (hw_busy e); cbn; case_ifs; lia].
  f_equal. destruct (scan_nq e =? 0), (irq_on e), (hw_busy e); cbn; case_ifs; lia.
Qed.

End V3daFences.
