(* ===== verification/V3daWitness.v ===== *)
(** * A run of the V3D server's waits

    One client waits for the second job of its CPU queue: the request is parked, the
    job completes, the event thread's scan claims the request and answers it. The
    states of this run instantiate the theorems of [V3daSchedCorrect.v] and
    [V3daFences.v]. *)

From S2P Require Import Prelude V3daSched V3daSchedCorrect V3daFences.
Import V3da V3daCorrect V3daFences.

Module V3daWitness.

Definition tables_check (s : srv) : bool :=
  (length (slots s) =? 60)%nat && forallb (fun r => (length (completed r) =? 6)%nat) (slots s) &&
  (length (clients s) =? 60)%nat &&
  forallb (fun ic => negb (c_used ic.2) || (c_id ic.2 =? Z.of_nat ic.1 + 1)) (imap pair (clients s)).

Lemma tables_check_ok s : tables_check s = true -> tables_ok s.
Proof.
  unfold tables_check, tables_ok. intros H. bsimp.
  repeat match goal with E : (_ =? _)%nat = true |- _ => apply Nat.eqb_eq in E end. split_and!; [done| |done|].
  - apply Forall_forall. intros r Hr.
    match goal with E : forallb _ (slots s) = true |- _ => rewrite forallb_forall in E; apply list_elem_of_In, E in Hr end.
    by apply Nat.eqb_eq.
  - intros i c Hc Hu.
    match goal with E : forallb _ (imap _ _) = true |- _ => rewrite forallb_forall in E; specialize (E (i, c)) end.
    cbn in *. rewrite Hu in *. cbn in *. apply Z.eqb_eq. match goal with E : _ -> _ |- _ => apply E end.
    apply list_elem_of_In, elem_of_lookup_imap. eauto.
Qed.

(** The server with one client, whose three jobs on the CPU queue are not complete. *)
Definition cl1 : client :=
  mk_client true 1 100 true 0 [0; 0; 0; 0; 0; 3] 0
    (mk_sync true V3DA_SYNC_FENCE (mk_fence 0 5 1 3) :: replicate 255 no_sync).
Definition srv1 : srv :=
  mk_srv (mk_slot (replicate 6 0) 0 1 :: replicate 59 (mk_slot (replicate 6 0) 0 0)) (replicate 8 0)
    (1 :: replicate 59 0) (replicate 60 (replicate 6 0)) (replicate 6 None)
    (cl1 :: replicate 59 no_client) 1 ∅ 0 0 0 0 false 7 7.

Definition f2 : fence := mk_fence 0 5 1 2.
Definition m0 : msg := mk_msg 37 (mk_resp (Ok ()) 37 0 0 0 0) 0.

(** [FENCE_WAIT] with request id 11; [calloc] returns 4096. *)
Definition srv2 : srv :=
  match do_op srv1 0 m0 11 (OpFence f2) 1500 4096 1000 with Some (_, _, s) => s | None => srv1 end.
Definition srv3 : srv := v3da_fence_complete srv2 (mk_job 5 f2) true.
Definition scan4 := match waits_scan (fuel_of srv3) srv3 5000 0 with Some x => x | None => (srv3, 0) end.
Definition ans5 := match v3da_waits_answer (fuel_of scan4.1) scan4.1 scan4.2 with Some x => x | None => (srv3, []) end.

Lemma initial1 : initial srv1.
Proof. split_and!; [done..|]. apply tables_check_ok. by vm_compute. Defined.

Lemma reach2 : reachable (Sys srv2 [] [(7, 11)] []).
Proof.
  eapply reach_step; [apply (reach_init _ initial1)|].
  eapply (step_op srv1 0 cl1 m0 11 (OpFence f2) 1500 4096 1000 None m0).
  - by vm_compute.
  - by vm_compute.
  - right. by vm_compute.
  - by vm_compute.
Defined.

Lemma reach5 : reachable (Sys ans5.1 [] [(7, 11)] ans5.2).
Proof.
  eapply reach_step; [eapply reach_step; [eapply reach_step; [apply reach2|]|]|].
  - apply (step_other srv2 srv3); [by vm_compute..|]. apply tables_check_ok. by vm_compute.
  - apply (step_scan srv3 5000 scan4.1 scan4.2). by vm_compute.
  - apply (step_answer scan4.1 ans5.1 ans5.2 [] scan4.2 [] _ []). by vm_compute.
Defined.

(** The response of the run: on the arrival port, for the request's id, with the
    completed sequence number, the error and the echo. *)
Lemma v3da_answered_once_witness :
  ans5.2 = [mk_response 7 (mk_msg 37 (mk_resp (Ok ()) 37 2 1 2 0) 0) 11] /\
  exists claimed waiting : list (Z * Z),
    [(7, 11)] ≡ₚ (a_key <$> ans5.2) ++ claimed ++ waiting /\
    nparked ans5.1 = u32 (zlen waiting) /\ (waits ans5.1 = 0 -> waiting = []) /\ ([] = @nil Z -> claimed = []).
Proof. split; [by vm_compute|]. apply (v3da_answered_once _ reach5). Defined.

(** The parked request. *)
Definition rq2 : request := req_set_deadline
  (new_wait srv1 0 V3DA_WAIT_FENCE m0 11 (Some [f2]) None 1 true false) 1501000.

Lemma rep1 : rep srv1 [] [].
Proof. split_and!; [by exists 0|by constructor..|by vm_compute|by vm_compute]. Defined.

Lemma rep2 : rep srv2 [(4096, rq2)] [].
Proof.
  split_and!.
  - exists 4096. cbn. split_and!; [by vm_compute|lia|]. exists 0. split; by vm_compute.
  - by constructor.
  - cbn. apply NoDup_singleton.
  - by vm_compute.
  - by vm_compute.
Defined.

Lemma rep3 : rep srv3 [(4096, rq2)] [].
Proof. exact rep2. Defined.

Lemma rq2_ok : Forall (fun n => req_ok n.2) [(4096, rq2)].
Proof. constructor; [|constructor]. exists f2. cbn. split_and!; done || lia. Defined.

(** Before the job completes the scan keeps the request, after it the scan claims it. *)
Lemma v3da_scan_spec_witness :
  kept (verdict srv2 5000) [(4096, rq2)] = [(4096, rq2)] /\
  kept (verdict srv3 5000) [(4096, rq2)] = [] /\
  exists s' a, waits_scan (fuel_of srv3) srv3 5000 0 = Some (s', a) /\
    rep s' [] ((a, rev (claimed (verdict srv3 5000) [(4096, rq2)])) :: []).
Proof.
  split; [by vm_compute|]. split; [by vm_compute|].
  destruct (v3da_scan_spec srv3 5000 [(4096, rq2)] [] rep3) as (s' & a & E & Hr & _).
  - apply tables_check_ok. by vm_compute.
  - exact rq2_ok.
  - exists s', a. split; [exact E|]. exact Hr.
Defined.

Lemma v3da_park_spec_witness :
  exists s' d,
    v3da_wait_park srv1 0 V3DA_WAIT_FENCE m0 11 (Some [f2]) None 1 true false 5000 4096 1000 = Some (Ok 0, m0, s') /\
    kick_pending s' = true /\ d = 1000 + 2000 * 1000.
Proof.
  destruct (v3da_park_spec srv1 0 V3DA_WAIT_FENCE m0 11 (Some [f2]) None 1 true false 5000 4096 1000 [] []
    (Ok false) (mk_resp (Ok ()) 37 0 0 0 0) rep1) as (_ & _ & H);
    [by right|by vm_compute|lia|lia|]. destruct H as [_ H]; [lia|lia|].
  destruct H as (s' & d & E & _ & Hk & Hd); [lia|]. by exists s', d.
Defined.

Lemma v3da_fence_spec_witness :
  (v3da_fence_signaled srv2 f2).1 = false /\ (v3da_fence_signaled srv3 f2).1 = true /\
  (v3da_fence_signaled srv3 f2).2 = 1 /\ (v3da_fence_signaled srv3 (mk_fence 0 5 1 1)).2 = 1 /\
  v3da_fence_signaled (v3da_slot_assign srv3 0) (mk_fence 0 5 1 3) = (true, 0).
Proof.
  assert (Ht : tables_ok srv2) by (apply tables_check_ok; by vm_compute).
  assert (Ht3 : tables_ok srv3) by (apply tables_check_ok; by vm_compute).
  destruct (v3da_fence_spec srv2 (mk_job 5 f2) true Ht) as [H _]. cbv zeta in H.
  destruct H as (H1 & H2 & _); [done..|by vm_compute|]. split; [by vm_compute|]. split_and!.
  - exact H1.
  - apply (H2 eq_refl f2); [done..|]. cbn. lia.
  - apply (H2 eq_refl (mk_fence 0 5 1 1)); [done..|]. cbn. lia.
  - destruct (v3da_fence_spec srv3 (mk_job 5 f2) true Ht3) as [_ H].
    apply (H (mk_fence 0 5 1 3)); [done|by vm_compute|by vm_compute].
Defined.

(** The second handle is free, the first one is destroyed under a waiter. *)
Lemma v3da_syncobj_spec_witness :
  (v3da_syncobj_create srv1 0 1).2 = Ok 2 /\
  v3da_syncobj_query (v3da_syncobj_create srv1 0 1).1 0 2 = Ok (2, V3DA_SYNC_SIGNALED, no_fence) /\
  v3da_syncobj_query (v3da_syncobj_destroy srv1 0 1).1 0 1 = Err EINVAL.
Proof.
  assert (Ht : tables_ok srv1) by (apply tables_check_ok; by vm_compute).
  destruct (v3da_syncobj_spec srv1 0 1 Ht) as (H1 & H2 & _); [lia|by vm_compute|].
  split; [by vm_compute|]. split.
  - change (v3da_syncobj_create srv1 0 1) with ((v3da_syncobj_create srv1 0 1).1, @Ok Z 2) in H1. apply H1.
  - destruct (H2 1 (mk_sync true V3DA_SYNC_FENCE (mk_fence 0 5 1 3))) as [[H _] _]; [lia|by vm_compute|]. exact H.
Defined.

(** With the request due at 1501000 the thread sleeps 1000 microseconds at 1500000. *)
Lemma v3da_timeout_spec_witness :
  next_timeout_us (fuel_of srv2) srv2 (mk_timing 50000 true 0 true 0) 1500000 = Some 1000.
Proof.
  rewrite (v3da_timeout_spec srv2 (mk_timing 50000 true 0 true 0) 1500000 [(4096, rq2)] [] rep2).
  - by vm_compute.
  - cbn. lia.
  - cbn. lia.
Defined.

End V3daWitness.
