(* ===== verification/V3daPool.v ===== *)
(** * Block pool and scan-out placement of the V3D render server
      ([src/gpu/rpi4-v3d-async/v3da_pool.h], [v3da_lowmem.h])

    The pool array is the list of its [n] used entries. The release callback of the
    trim is the list of the blocks it was called with, in order; the allocator that
    [v3da_lowmem_map] drives is a parameter of its section. *)

From S2P Require Import Prelude.

Module V3daPool.

Definition V3DA_LOWMEM_LIMIT : Z := 0x40000000.
Definition V3DA_LOWMEM_TRIES : Z := 16.
Definition UINT64_MAX : Z := 2 ^ 64 - 1.

Record pool_block := mk_block { pb_cpu : Z; pb_pa : Z; pb_pages : Z; pb_cached : Z; pb_freed_us : Z }.
#[export] Instance pool_block_eq_dec : EqDecision pool_block.
Proof. solve_decision. Defined.
#[export] Instance pool_block_inhabited : Inhabited pool_block := populate (mk_block 0 0 0 0 0).

(** ** Sizes and placement *)

(** The doubling loop of [v3da_lowmem_footprint]; 64 doublings leave any 64-bit size behind. *)
Fixpoint footprint_loop (fuel : nat) (b want : Z) : Z :=
  match fuel with
  | O => b
  | S fuel => if b <? want then footprint_loop fuel (u64 (b <<< 1)) want else b
  end.
Definition v3da_lowmem_footprint (pages page_size : Z) : Z :=
  footprint_loop 64 page_size (u64 (pages * page_size)).

Definition v3da_lowmem_admit (live foot budget : Z) : bool := (foot <=? budget) && (live <=? budget - foot).

Definition v3da_lowmem_is_low (pa bytes : Z) : bool :=
  negb (bytes =? 0) && (pa <=? u64 (pa + bytes)) && (u64 (pa + bytes) <=? V3DA_LOWMEM_LIMIT).

Definition v3da_pool_block_bytes (b : pool_block) (page_size : Z) : Z := v3da_lowmem_footprint (pb_pages b) page_size.

Definition block_low (b : pool_block) (page_size : Z) : bool :=
  v3da_lowmem_is_low (pb_pa b) (u64 (pb_pages b * page_size)).

(** The scan of [v3da_pool_pick] from index [i]; [any] is the first low block seen. *)
Fixpoint pick_loop (pool : list pool_block) (i : Z) (any pages cached : Z) (want_low : bool) (page_size : Z) : Z :=
  match pool with
  | [] => if want_low then -1 else any
  | b :: pool =>
      if negb (pb_pages b =? pages) || negb (pb_cached b =? cached) then
        pick_loop pool (i + 1) any pages cached want_low page_size
      else
        let low := v3da_lowmem_is_low (pb_pa b) (u64 (pages * page_size)) in
        if want_low then
          if low then i else pick_loop pool (i + 1) any pages cached want_low page_size
        else if negb low then i
        else pick_loop pool (i + 1) (if any <? 0 then i else any) pages cached want_low page_size
  end.
Definition v3da_pool_pick (pool : list pool_block) (pages cached : Z) (want_low : bool) (page_size : Z) : Z :=
  pick_loop pool 0 (-1) pages cached want_low page_size.

(** ** The trim *)

(** The scan of [v3da_pool_victim] over the blocks from index [i] on. *)
Fixpoint victim_loop (pool rest : list pool_block) (i best : Z) (best_low : bool) (page_size : Z) : Z :=
  match rest with
  | [] => best
  | b :: rest =>
      let low := block_low b page_size in
      if (best <? 0) || (negb low && best_low) ||
         (Bool.eqb low best_low && (pb_freed_us b <? pb_freed_us (pool !!! Z.to_nat best)))
      then victim_loop pool rest (i + 1) i low page_size
      else victim_loop pool rest (i + 1) best best_low page_size
  end.
Definition v3da_pool_victim (pool : list pool_block) (page_size : Z) : Z :=
  victim_loop pool pool 0 (-1) true page_size.

(** [pool[i] = pool[--n]] *)
Definition swap_remove {A} `{Inhabited A} (i : Z) (l : list A) : list A :=
  let n := length l in take (n - 1) (<[Z.to_nat i := l !!! (n - 1)%nat]> l).

(** [v3da_pool_freed_t], and the blocks given to the release callback. *)
Record pool_freed := mk_freed { fr_bytes : Z; fr_blocks : Z; fr_idle : Z; fr_cap : Z }.
Record trim_state := mk_trim { t_pool : list pool_block; t_bytes : Z; t_freed : pool_freed; t_released : list pool_block }.

Definition v3da_pool_remove (t : trim_state) (i page_size : Z) : trim_state :=
  let b := t_pool t !!! Z.to_nat i in
  let foot := v3da_pool_block_bytes b page_size in
  mk_trim (swap_remove i (t_pool t))
    (if foot <=? t_bytes t then t_bytes t - foot else 0)
    (mk_freed (u64 (fr_bytes (t_freed t) + foot)) (u32 (fr_blocks (t_freed t) + 1)) (fr_idle (t_freed t)) (fr_cap (t_freed t)))
    (t_released t ++ [b]).

Definition idle_block (b : pool_block) (now_us idle_us : Z) : bool :=
  (pb_freed_us b <=? now_us) && (idle_us <=? now_us - pb_freed_us b).

Definition count_idle (t : trim_state) : trim_state :=
  let f := t_freed t in
  mk_trim (t_pool t) (t_bytes t) (mk_freed (fr_bytes f) (fr_blocks f) (u32 (fr_idle f + 1)) (fr_cap f)) (t_released t).

(** The first loop; every iteration removes a block or moves on, so the pool's length is
    fuel enough. *)
Fixpoint idle_loop (fuel : nat) (t : trim_state) (i now_us idle_us page_size : Z) : trim_state :=
  match fuel with
  | O => t
  | S fuel =>
      if i <? zlen (t_pool t) then
        if idle_block (t_pool t !!! Z.to_nat i) now_us idle_us
        then idle_loop fuel (count_idle (v3da_pool_remove t i page_size)) i now_us idle_us page_size
        else idle_loop fuel t (i + 1) now_us idle_us page_size
      else t
  end.

(** The second loop; every iteration removes a block. *)
Fixpoint cap_loop (fuel : nat) (t : trim_state) (cap page_size : Z) : trim_state :=
  match fuel with
  | O => t
  | S fuel =>
      if cap <? t_bytes t then
        let v := v3da_pool_victim (t_pool t) page_size in
        if 0 <=? v then cap_loop fuel (v3da_pool_remove t v page_size) cap page_size else t
      else t
  end.

Definition v3da_pool_trim (pool : list pool_block) (bytes cap now_us idle_us page_size : Z) : trim_state :=
  let t := mk_trim pool bytes (mk_freed 0 0 0 0) [] in
  let t := if negb (idle_us =? 0) then idle_loop (length pool) t 0 now_us idle_us page_size else t in
  let before := fr_blocks (t_freed t) in
  let t := cap_loop (length pool) t cap page_size in
  let f := t_freed t in
  mk_trim (t_pool t) (t_bytes t) (mk_freed (fr_bytes f) (fr_blocks f) (fr_idle f) (u32 (fr_blocks f - before))) (t_released t).

(** ** Fresh blocks for a scan-out BO *)

(** A block held while trying: its address, first physical address, [held_ok]. *)
Record held_block := mk_held { h_cpu : Z; h_pa : Z; h_ok : bool }.
#[export] Instance held_inhabited : Inhabited held_block := populate (mk_held 0 0 false).

Record lowmem_result := mk_res { res_tries : Z; res_rejected : Z; res_low : bool }.

Section lowmem.
Context {ST : Type} (map_ : ST -> option (Z * Z * Z) * ST) (unmap_ : ST -> Z -> ST).

Definition held_of (bytes page_size cpu first last : Z) : held_block :=
  mk_held cpu first (negb (first =? UINT64_MAX) && (last =? u64 (first + bytes - page_size))).

(** The [while] loop, with [more] tries left. *)
Fixpoint map_loop (more : nat) (st : ST) (held : list held_block) (keep : Z) (bytes page_size : Z) :
    ST * list held_block * Z * bool :=
  match more with
  | O => (st, held, keep, false)
  | S more =>
      match map_ st with
      | (None, st) => (st, held, keep, false)
      | (Some (cpu, first, last), st) =>
          let h := held_of bytes page_size cpu first last in
          if h_ok h then
            if v3da_lowmem_is_low first bytes then (st, held ++ [h], zlen held, true)
            else map_loop more st (held ++ [h]) (zlen held) bytes page_size
          else map_loop more st (held ++ [h]) keep bytes page_size
      end
  end.

(** The [for] loop that unmaps every held block but [keep]. *)
Fixpoint unmap_loop (st : ST) (held : list held_block) (i keep rejected : Z) : ST * Z :=
  match held with
  | [] => (st, rejected)
  | h :: held =>
      if negb (i =? keep) then unmap_loop (unmap_ st (h_cpu h)) held (i + 1) keep (u32 (rejected + 1))
      else unmap_loop st held (i + 1) keep rejected
  end.

(** Returns the kept block and its physical address ([None] is [NULL]), and [*res]. *)
Definition v3da_lowmem_map (st : ST) (bytes tries page_size : Z) : option (Z * Z) * lowmem_result * ST :=
  let tries := if V3DA_LOWMEM_TRIES <? tries then V3DA_LOWMEM_TRIES else tries in
  if (bytes =? 0) || (page_size =? 0) || negb (bytes mod page_size =? 0) then (None, mk_res 0 0 false, st)
  else
    let '(st, held, keep, low) := map_loop (Z.to_nat tries) st [] (-1) bytes page_size in
    let '(st, rejected) := unmap_loop st held 0 keep 0 in
    let res := mk_res (zlen held) rejected low in
    if keep <? 0 then (None, res, st)
    else let h := held !!! Z.to_nat keep in (Some (h_cpu h, h_pa h), res, st).
End lowmem.

(** ** Facts *)

Arguments v3da_lowmem_footprint : simpl never.
Arguments v3da_pool_block_bytes : simpl never.
Arguments block_low : simpl never.
Arguments swap_remove : simpl never.

(** A pool block's age class: blocks above the display limit go first, then by age. *)
Definition goes_before (page_size : Z) (a b : pool_block) : Prop :=
  (block_low a page_size = false /\ block_low b page_size = true) \/
  (block_low a page_size = block_low b page_size /\ pb_freed_us a <= pb_freed_us b).

Definition sum_foot (page_size : Z) (l : list pool_block) : Z :=
  foldr (fun b n => v3da_pool_block_bytes b page_size + n) 0 l.
Arguments sum_foot : simpl never.

Lemma swap_remove_perm {A} `{Inhabited A} (i : Z) (l : list A) :
  0 <= i < zlen l -> l ≡ₚ l !!! Z.to_nat i :: swap_remove i l.
Proof.
  unfold zlen, swap_remove. intros Hi. destruct l as [|x l0 _] using rev_ind; [cbn in Hi; lia|].
  rewrite length_app in *. cbn [length] in *. replace (length l0 + 1 - 1)%nat with (length l0) by lia.
  assert (Hx : (l0 ++ [x]) !!! length l0 = x) by by apply list_lookup_total_middle.
  rewrite Hx. destruct (decide (Z.to_nat i = length l0)) as [E|E].
  - rewrite E, Hx, list_insert_id, take_app_length by by apply list_lookup_middle.
    by rewrite Permutation_app_comm.
  - rewrite lookup_total_app_l, insert_app_l, take_app_length' by (rewrite ?length_insert; lia).
    destruct (lookup_lt_is_Some_2 l0 (Z.to_nat i)) as [y Hy]; [lia|].
    rewrite (list_lookup_total_correct _ _ _ Hy), insert_take_drop by lia.
    rewrite <- (take_drop_middle l0 (Z.to_nat i) y Hy) at 1. solve_Permutation.
Qed.

Lemma swap_remove_length {A} `{Inhabited A} (i : Z) (l : list A) :
  0 <= i < zlen l -> length (swap_remove i l) = (length l - 1)%nat.
Proof. intros Hi. rewrite (swap_remove_perm i l Hi) at 2. cbn. lia. Qed.

Lemma footprint_nonneg pages page_size : 0 <= page_size -> 0 <= v3da_lowmem_footprint pages page_size.
Proof.
  unfold v3da_lowmem_footprint. generalize 64%nat (u64 (pages * page_size)). intros fuel want.
  revert page_size. induction fuel as [|fuel IH]; intros b Hb; cbn [footprint_loop]; [done|].
  case_if; [|done]. apply IH. apply Z.mod_pos_bound. lia.
Qed.

Section facts.
Context (page_size : Z) (Hps : 0 <= page_size).

Lemma sum_foot_perm l1 l2 : l1 ≡ₚ l2 -> sum_foot page_size l1 = sum_foot page_size l2.
Proof. unfold sum_foot. induction 1; cbn [foldr]; lia. Qed.

Lemma sum_foot_app l1 l2 : sum_foot page_size (l1 ++ l2) = sum_foot page_size l1 + sum_foot page_size l2.
Proof. unfold sum_foot. induction l1 as [|b l1 IH]; [done|]. cbn [foldr app]. rewrite IH. lia. Qed.

Lemma sum_foot_cons b l : sum_foot page_size (b :: l) = v3da_pool_block_bytes b page_size + sum_foot page_size l.
Proof. done. Qed.

Lemma sum_foot_nonneg l : 0 <= sum_foot page_size l.
Proof.
  induction l as [|b l IH]; [done|]. rewrite sum_foot_cons.
  pose proof (footprint_nonneg (pb_pages b) page_size Hps). unfold v3da_pool_block_bytes. lia.
Qed.

(** What a trim has done so far to the pool [pool0]. *)
Definition trimmed (pool0 : list pool_block) (t : trim_state) : Prop :=
  pool0 ≡ₚ t_pool t ++ t_released t /\ t_bytes t = sum_foot page_size (t_pool t) /\
  fr_bytes (t_freed t) = sum_foot page_size (t_released t) /\ fr_blocks (t_freed t) = zlen (t_released t).

Lemma trimmed_remove pool0 t i :
  sum_foot page_size pool0 < 2 ^ 64 -> zlen pool0 < 2 ^ 32 ->
  trimmed pool0 t -> 0 <= i < zlen (t_pool t) ->
  let t' := v3da_pool_remove t i page_size in
  let b := t_pool t !!! Z.to_nat i in
  trimmed pool0 t' /\ t_pool t ≡ₚ b :: t_pool t' /\ t_released t' = t_released t ++ [b] /\
  length (t_pool t') = (length (t_pool t) - 1)%nat.
Proof.
  intros Hs Hn (Hp & Hb & Hf & Hk) Hi t' b. subst t'. unfold v3da_pool_remove. fold b.
  pose proof (swap_remove_perm i (t_pool t) Hi) as Hsw. fold b in Hsw.
  pose proof (sum_foot_perm _ _ Hsw) as Hsum. pose proof (sum_foot_perm _ _ Hp) as Hsp.
  rewrite sum_foot_app in Hsp. rewrite sum_foot_cons in Hsum.
  pose proof (sum_foot_nonneg (swap_remove i (t_pool t))). pose proof (sum_foot_nonneg (t_released t)).
  pose proof (footprint_nonneg (pb_pages b) page_size Hps). fold (v3da_pool_block_bytes b page_size) in *.
  assert (Hlen : zlen pool0 = zlen (t_pool t) + zlen (t_released t)) by (unfold zlen; rewrite Hp, length_app; lia).
  cbn. split; [|split_and!; [done|done|by apply swap_remove_length]]. unfold trimmed. cbn. split_and!.
  - rewrite Hp. etrans; [apply Permutation_app_tail, Hsw|]. solve_Permutation.
  - case_if; bsimp; lia.
  - rewrite sum_foot_app, sum_foot_cons. change (sum_foot page_size []) with 0. unfold u64. rewrite Z.mod_small; lia.
  - unfold zlen in *. rewrite length_app. cbn. rewrite u32_small; lia.
Qed.

(** The victim is first in the order. *)
Lemma victim_loop_first pool rest : forall done best best_low,
  pool = done ++ rest ->
  ((done = [] /\ best = -1) \/
   (0 <= best < zlen done /\ best_low = block_low (pool !!! Z.to_nat best) page_size /\
    Forall (goes_before page_size (pool !!! Z.to_nat best)) done)) ->
  let v := victim_loop pool rest (zlen done) best best_low page_size in
  (pool = [] /\ v = -1) \/ (0 <= v < zlen pool /\ Forall (goes_before page_size (pool !!! Z.to_nat v)) pool).
Proof.
  induction rest as [|b rest IH]; intros dn best best_low Hpool Hbest; cbn [victim_loop].
  { rewrite app_nil_r in Hpool. subst dn. destruct Hbest as [?|(? & _ & ?)]; [by left|by right]. }
  assert (Hb : pool !!! Z.to_nat (zlen dn) = b).
  { unfold zlen. rewrite Nat2Z.id, Hpool. by apply list_lookup_total_middle. }
  assert (Hpool' : pool = (dn ++ [b]) ++ rest) by (by rewrite <- app_assoc).
  assert (Hl : zlen (dn ++ [b]) = zlen dn + 1) by (unfold zlen; rewrite length_app; cbn; lia).
  assert (0 <= zlen dn) by (unfold zlen; lia).
  rewrite <- Hl. case_if.
  - apply (IH _ _ _ Hpool'). right. rewrite Hb. split_and!; [lia|lia|done|].
    apply Forall_app. split; [|constructor; [by right|done]].
    destruct Hbest as [(-> & _)|(Hr & Hlow & Hall)]; [done|]. eapply Forall_impl; [exact Hall|]. intros x Hx.
    unfold goes_before in *. destruct (best <? 0) eqn:?; bsimp; [lia|]. cbn in Heqb0. subst best_low.
    apply orb_true_iff in Heqb0 as [E|E]; bsimp.
    + left. destruct Hx as [[? ?]|[? ?]]; [congruence|]. split; congruence.
    + apply Bool.eqb_prop in H0. destruct Hx as [[? ?]|[? ?]]; [left; split; congruence|right; split; [congruence|lia]].
  - apply (IH _ _ _ Hpool'). right. apply orb_false_iff in Heqb0 as [E1 E3]. apply orb_false_iff in E1 as [E1 E2]. bsimp.
    destruct Hbest as [(_ & ->)|(Hr & Hlow & Hall)]; [lia|]. split_and!; [lia|lia|done|].
    apply Forall_app. split; [done|]. constructor; [|done]. subst best_low. unfold goes_before.
    destruct (block_low b page_size), (block_low (pool !!! Z.to_nat best) page_size); cbn in *; bsimp; auto; try done.
Qed.

Lemma victim_first pool :
  let v := v3da_pool_victim pool page_size in
  (pool = [] /\ v = -1) \/ (0 <= v < zlen pool /\ Forall (goes_before page_size (pool !!! Z.to_nat v)) pool).
Proof. apply (victim_loop_first pool pool [] (-1) true); [done|by left]. Qed.

Lemma take_swap_remove (i : Z) (l : list pool_block) :
  0 <= i < zlen l -> take (Z.to_nat i) (swap_remove i l) = take (Z.to_nat i) l.
Proof.
  unfold zlen, swap_remove. intros Hi. rewrite take_take, Nat.min_l by lia. by apply take_insert_ge.
Qed.

(** The idle sweep leaves no idle block and gives back only idle ones. *)
Lemma idle_loop_spec pool0 now idle :
  sum_foot page_size pool0 < 2 ^ 64 -> zlen pool0 < 2 ^ 32 ->
  forall fuel t i,
  trimmed pool0 t -> 0 <= i -> zlen (t_pool t) - i <= Z.of_nat fuel ->
  0 <= fr_idle (t_freed t) <= zlen (t_released t) ->
  Forall (fun b => idle_block b now idle = false) (take (Z.to_nat i) (t_pool t)) ->
  let t' := idle_loop fuel t i now idle page_size in
  trimmed pool0 t' /\ Forall (fun b => idle_block b now idle = false) (t_pool t') /\
  exists r, t_released t' = t_released t ++ r /\ Forall (fun b => idle_block b now idle = true) r /\
    fr_idle (t_freed t') = fr_idle (t_freed t) + zlen r.
Proof.
  intros Hs Hn. assert (Hstop : forall t i, trimmed pool0 t -> zlen (t_pool t) <= i ->
    Forall (fun b => idle_block b now idle = false) (take (Z.to_nat i) (t_pool t)) ->
    trimmed pool0 t /\ Forall (fun b => idle_block b now idle = false) (t_pool t) /\
    exists r, t_released t = t_released t ++ r /\ Forall (fun b => idle_block b now idle = true) r /\
      fr_idle (t_freed t) = fr_idle (t_freed t) + zlen r).
  { intros t i Ht Hi Hall. rewrite take_ge in Hall by (unfold zlen in Hi; lia). split_and!; [done..|].
    exists []. rewrite app_nil_r. unfold zlen. cbn [length]. split_and!; [done|done|lia]. }
  induction fuel as [|fuel IH]; intros t i Ht Hi Hfuel Hid Hall; cbn [idle_loop]; [apply (Hstop t i); lia || done|].
  case_if; bsimp; [|apply (Hstop t i); lia || done].
  assert (Hib : 0 <= i < zlen (t_pool t)) by lia. case_if.
  - destruct (trimmed_remove pool0 t i Hs Hn Ht Hib) as (Ht' & _ & Hrel & Hlen).
    set (b := t_pool t !!! Z.to_nat i) in *. set (t1 := v3da_pool_remove t i page_size) in *.
    assert (Hz : zlen (t_released t1) < 2 ^ 32).
    { destruct Ht' as (Hp & _). unfold zlen in *. rewrite Hp, length_app in Hn. lia. }
    assert (Hi1 : fr_idle (t_freed (count_idle t1)) = fr_idle (t_freed t) + 1).
    { cbn. rewrite Hrel in Hz. unfold zlen in *. rewrite length_app in Hz. cbn in Hz. rewrite u32_small; lia. }
    destruct (IH (count_idle t1) i) as (Hok & Hno & r & Hr & Hall' & Hfr); [done|lia|change (t_pool (count_idle t1)) with (t_pool t1); unfold zlen in *; lia| |cbn; by rewrite take_swap_remove|].
    { rewrite Hi1. change (t_released (count_idle t1)) with (t_released t1). rewrite Hrel. unfold zlen in *. rewrite length_app. cbn. lia. }
    split_and!; [done..|]. exists (b :: r). rewrite Hr, Hfr, Hi1. change (t_released (count_idle t1)) with (t_released t1). rewrite Hrel, <- app_assoc.
    split_and!; [done|by constructor|]. unfold zlen. cbn. lia.
  - apply IH; [done|lia|lia|done|].
    replace (Z.to_nat (i + 1)) with (S (Z.to_nat i)) by lia.
    assert (Hlk : t_pool t !! Z.to_nat i = Some (t_pool t !!! Z.to_nat i)).
    { apply list_lookup_lookup_total_lt. unfold zlen in Hib. lia. }
    rewrite (take_S_r _ _ _ Hlk). apply Forall_app. split; [done|]. by constructor.
Qed.

(** The blocks given back over the cap: each precedes everything that stayed longer,
    and without the last one the pool would still be over the cap. *)
Definition victims (r rest : list pool_block) : Prop :=
  forall r1 b r2, r = r1 ++ b :: r2 -> Forall (goes_before page_size b) (r2 ++ rest).

Lemma cap_loop_spec pool0 cap :
  sum_foot page_size pool0 < 2 ^ 64 -> zlen pool0 < 2 ^ 32 -> 0 <= cap ->
  forall fuel t, trimmed pool0 t -> (length (t_pool t) <= fuel)%nat ->
  let t' := cap_loop fuel t cap page_size in
  trimmed pool0 t' /\ t_bytes t' <= cap /\ fr_idle (t_freed t') = fr_idle (t_freed t) /\
  exists r, t_pool t ≡ₚ r ++ t_pool t' /\ t_released t' = t_released t ++ r /\ victims r (t_pool t') /\
    (r = [] \/ exists b, last r = Some b /\ cap < t_bytes t' + v3da_pool_block_bytes b page_size).
Proof.
  intros Hs Hn Hcap. assert (Hstop : forall t, trimmed pool0 t -> t_bytes t <= cap ->
    trimmed pool0 t /\ t_bytes t <= cap /\ fr_idle (t_freed t) = fr_idle (t_freed t) /\
    exists r, t_pool t ≡ₚ r ++ t_pool t /\ t_released t = t_released t ++ r /\ victims r (t_pool t) /\
      (r = [] \/ exists b, last r = Some b /\ cap < t_bytes t + v3da_pool_block_bytes b page_size)).
  { intros t Ht Hb. split_and!; [done..|]. exists []. rewrite app_nil_r. split_and!; [done|done| |by left].
    intros [|? ?] ? ? ?; done. }
  assert (Hempty : forall t, trimmed pool0 t -> t_pool t = [] -> t_bytes t <= cap).
  { intros t (_ & -> & _) ->. done. }
  induction fuel as [|fuel IH]; intros t Ht Hf; cbn [cap_loop].
  { apply Hstop; [done|]. apply Hempty; [done|]. destruct (t_pool t); [done|cbn in Hf; lia]. }
  case_if; bsimp; [|by apply Hstop].
  destruct (victim_first (t_pool t)) as [(He & Hv)|(Hv & Hfirst)]; cbn zeta in *.
  { rewrite Hv. cbn. apply Hstop; [done|]. by apply Hempty. }
  set (v := v3da_pool_victim (t_pool t) page_size) in *. rewrite (proj2 (Z.leb_le 0 v)) by lia.
  destruct (trimmed_remove pool0 t v Hs Hn Ht Hv) as (Ht' & Hperm & Hrel & Hlen).
  set (b := t_pool t !!! Z.to_nat v) in *. set (t1 := v3da_pool_remove t v page_size) in *.
  destruct (IH t1 Ht') as (Hok & Hb & Hid & r & Hp & Hr & Hvs & Hmin); [lia|].
  split_and!; [done|done|done|]. exists (b :: r). split_and!.
  - rewrite Hperm. cbn. by constructor.
  - by rewrite Hr, Hrel, <- app_assoc.
  - intros [|x r1] b' r2; cbn; intros [= -> ->]; [|by eapply Hvs].
    rewrite Forall_forall in *. intros x Hx. apply Hfirst. rewrite Hperm, Hp. by right.
  - right. destruct r as [|x r _] using rev_ind.
    + exists b. split; [done|]. destruct Hok as (_ & -> & _). destruct Ht as (_ & Hbt & _).
      cbn [app] in Hp. rewrite <- (sum_foot_perm _ _ Hp). rewrite (sum_foot_perm _ _ Hperm), sum_foot_cons in Hbt. lia.
    + destruct Hmin as [Hmin|(b' & Hl & Hlt)]; [by destruct r|]. exists b'. split; [|done].
      by rewrite last_cons, Hl.
Qed.
End facts.

Lemma footprint_loop_spec want : forall fuel b,
  0 < b -> want <= 2 ^ 62 -> want <= b * 2 ^ Z.of_nat fuel ->
  exists k, 0 <= k /\ footprint_loop fuel b want = b * 2 ^ k /\ want <= b * 2 ^ k /\ (k = 0 \/ b * 2 ^ k < 2 * want).
Proof.
  induction fuel as [|fuel IH]; intros b Hb Hw Hf; cbn [footprint_loop].
  { exists 0. cbn in Hf. split_and!; auto; lia. }
  case_if; bsimp; [|exists 0; split_and!; auto; lia].
  assert (Hu : u64 (b <<< 1) = 2 * b) by (rewrite Z.shiftl_mul_pow2 by lia; unfold u64; rewrite Z.mod_small; lia).
  rewrite Hu. destruct (IH (2 * b)) as (k & Hk & E & Hle & Hor); [lia|done| |].
  { rewrite Nat2Z.inj_succ, Z.pow_succ_r in Hf by lia. lia. }
  exists (k + 1). rewrite E, Z.pow_add_r, Z.pow_1_r by lia. split_and!; [lia|lia|lia|right].
  destruct Hor as [->|]; lia.
Qed.

(** The footprint: the least buddy block (page size times a power of two) that holds the pages. *)
Lemma footprint_spec pages page_size :
  0 <= pages -> 0 < page_size -> pages * page_size <= 2 ^ 62 ->
  exists k, 0 <= k /\ v3da_lowmem_footprint pages page_size = page_size * 2 ^ k /\
    pages * page_size <= page_size * 2 ^ k /\ (k = 0 \/ page_size * 2 ^ k < 2 * (pages * page_size)).
Proof.
  intros Hp Hs Hle. unfold v3da_lowmem_footprint, u64. rewrite Z.mod_small by nia. apply footprint_loop_spec; [done|done|].
  transitivity (2 ^ 62); [done|]. cbn [Z.of_nat]. nia.
Qed.

Definition suits (pages cached : Z) (b : pool_block) : bool := (pb_pages b =? pages) && (pb_cached b =? cached).

(** What [v3da_pool_pick] returns. *)
Lemma pick_loop_spec pages cached want_low page_size : forall rest pool seen any,
  pool = seen ++ rest ->
  Forall (fun b => suits pages cached b = true -> block_low b page_size = negb want_low) seen ->
  (any = -1 /\ (want_low = false -> Forall (fun b => suits pages cached b = false) seen) \/
   0 <= any < zlen seen /\ suits pages cached (pool !!! Z.to_nat any) = true) ->
  let r := pick_loop rest (zlen seen) any pages cached want_low page_size in
  (r = -1 /\ Forall (fun b => suits pages cached b = true -> want_low = true /\ block_low b page_size = false) pool) \/
  (0 <= r < zlen pool /\ suits pages cached (pool !!! Z.to_nat r) = true /\
   (block_low (pool !!! Z.to_nat r) page_size = want_low \/
    want_low = false /\ Forall (fun b => suits pages cached b = true -> block_low b page_size = true) pool)).
Proof.
  induction rest as [|b rest IH]; intros pool seen any Hpool Hseen Hany; cbn [pick_loop].
  { rewrite app_nil_r in Hpool. subst seen. destruct want_low; cbn in *.
    - left. split; [done|]. eapply Forall_impl; [exact Hseen|]. auto.
    - destruct Hany as [(-> & Hno)|(Hr & Hs)]; [left; split; [done|]|right; auto].
      eapply Forall_impl; [exact (Hno eq_refl)|]. intros ? ->. done. }
  assert (Hb : pool !!! Z.to_nat (zlen seen) = b).
  { unfold zlen. rewrite Nat2Z.id, Hpool. by apply list_lookup_total_middle. }
  assert (Hp2 : pool = (seen ++ [b]) ++ rest) by (by rewrite <- app_assoc).
  assert (Hl : zlen (seen ++ [b]) = zlen seen + 1) by (unfold zlen; rewrite length_app; cbn; lia).
  assert (Hlt : 0 <= zlen seen < zlen pool) by (rewrite Hpool; unfold zlen; rewrite length_app; cbn; lia).
  assert (Hsu : (negb (pb_pages b =? pages) || negb (pb_cached b =? cached)) = negb (suits pages cached b)).
  { unfold suits. by rewrite negb_andb. }
  rewrite Hsu, <- Hl. destruct (suits pages cached b) eqn:Eb; cbn [negb].
  2: { apply (IH pool _ _ Hp2).
       - apply Forall_app. split; [done|]. constructor; [by rewrite Eb|done].
       - destruct Hany as [(-> & Hno)|(Hr & Hs)]; [left|right; split; [lia|done]]. split; [done|]. intros Hw.
         apply Forall_app. split; [auto|]. by constructor. }
  assert (Hlow : v3da_lowmem_is_low (pb_pa b) (u64 (pages * page_size)) = block_low b page_size).
  { unfold block_low. unfold suits in Eb. bsimp. by subst. }
  rewrite Hlow. destruct want_low.
  - destruct (block_low b page_size) eqn:El; [right; rewrite Hb, Eb; auto|].
    apply (IH pool _ _ Hp2); [apply Forall_app; split; [done|]; by constructor|].
    destruct Hany as [(-> & Hno)|(Hr & Hs)]; [by left|right; split; [lia|done]].
  - destruct (block_low b page_size) eqn:El; cbn [negb]; [|right; rewrite Hb, Eb; auto].
    apply (IH pool _ _ Hp2); [apply Forall_app; split; [done|]; by constructor|]. right.
    destruct (any <? 0) eqn:E; bsimp; [rewrite Hb; split; [lia|done]|].
    destruct Hany as [(-> & _)|(Hr & Hs)]; [lia|]. split; [lia|done].
Qed.

(** Wrapper at the start of the pool. *)
Lemma pool_pick_spec pool pages cached want_low page_size :
  let r := v3da_pool_pick pool pages cached want_low page_size in
  (r = -1 /\ Forall (fun b => suits pages cached b = true -> want_low = true /\ block_low b page_size = false) pool) \/
  (0 <= r < zlen pool /\ suits pages cached (pool !!! Z.to_nat r) = true /\
   (block_low (pool !!! Z.to_nat r) page_size = want_low \/
    want_low = false /\ Forall (fun b => suits pages cached b = true -> block_low b page_size = true) pool)).
Proof. apply (pick_loop_spec pages cached want_low page_size pool pool [] (-1)); [done|done|]. left. done. Qed.

(** ** The placement loop *)

Section lowmem_facts.
Context {ST : Type} (map_ : ST -> option (Z * Z * Z) * ST) (unmap_ : ST -> Z -> ST).

(** The blocks the allocator hands out one after the other, and the state after them. *)
Inductive hands_out (bytes page_size : Z) : ST -> list held_block -> ST -> Prop :=
  | hands_none st : hands_out bytes page_size st [] st
  | hands_more st cpu first last st1 l st2 :
      map_ st = (Some (cpu, first, last), st1) -> hands_out bytes page_size st1 l st2 ->
      hands_out bytes page_size st (held_of bytes page_size cpu first last :: l) st2.

(** Why the loop stopped: the tries are used up, the allocator has nothing more, or a
    block below the limit was found. *)
Definition is_low_held (bytes : Z) (h : held_block) : bool := h_ok h && v3da_lowmem_is_low (h_pa h) bytes.

Lemma map_loop_spec bytes page_size : forall more st held keep st' held' keep' low,
  map_loop map_ more st held keep bytes page_size = (st', held', keep', low) ->
  exists l st1, held' = held ++ l /\ hands_out bytes page_size st l st1 /\ (length l <= more)%nat /\
    (low = true -> st' = st1 /\ exists l0 h, l = l0 ++ [h] /\ keep' = zlen (held ++ l0) /\ is_low_held bytes h = true /\
                   Forall (fun h => is_low_held bytes h = false) l0) /\
    (low = false -> Forall (fun h => is_low_held bytes h = false) l /\
       (st' = st1 /\ length l = more \/ map_ st1 = (None, st')) /\
       ((keep' = keep /\ Forall (fun h => h_ok h = false) l) \/
        exists l0 h l1, l = l0 ++ h :: l1 /\ h_ok h = true /\ keep' = zlen (held ++ l0) /\ Forall (fun h => h_ok h = false) l1)).
Proof.
  induction more as [|more IH]; intros st held keep st' held' keep' low; cbn [map_loop].
  { intros [= <- <- <- <-]. exists [], st. rewrite app_nil_r. split_and!; [done|constructor|done|done|].
    intros _. split_and!; [done|by left|by left]. }
  destruct (map_ st) as [[[[cpu first] last]|] st1] eqn:Em.
  2: { intros [= <- <- <- <-]. exists [], st. rewrite app_nil_r. split_and!; [done|constructor|cbn; lia|done|].
       intros _. split_and!; [done|by right|by left]. }
  set (h := held_of bytes page_size cpu first last).
  assert (Hcons : forall l st2, hands_out bytes page_size st1 l st2 -> hands_out bytes page_size st (h :: l) st2).
  { intros. by eapply hands_more. }
  destruct (h_ok h) eqn:Eok; [destruct (v3da_lowmem_is_low first bytes) eqn:El|].
  { intros [= <- <- <- <-]. exists [h], st1. split_and!; [done|apply Hcons; constructor|cbn; lia| |done].
    intros _. split; [done|]. exists [], h. rewrite app_nil_r. unfold is_low_held. cbn [h_pa h held_of].
    fold (held_of bytes page_size cpu first last). fold h. by rewrite Eok, El. }
  all: intros Hrun; apply IH in Hrun as (l & st2 & -> & Hh & Hlen & Hlow & Hno);
    assert (Hnl : is_low_held bytes h = false) by (unfold is_low_held; cbn [h_pa h held_of];
      fold (held_of bytes page_size cpu first last); fold h; rewrite Eok, ?El; done);
    exists (h :: l), st2; rewrite <- app_assoc; split_and!; [done|by apply Hcons|cbn; lia| |].
  1,3: intros Hl; destruct (Hlow Hl) as (-> & l0 & h1 & -> & -> & Hh1 & Hall); split; [done|]; exists (h :: l0), h1;
    rewrite <- app_assoc; split_and!; [done..|by constructor].
  all: intros Hl; destruct (Hno Hl) as (Hall & Hend & Hkeep); split_and!; [by constructor| |].
  1,3: destruct Hend as [[-> <-]|?]; [by left|by right].
  all: destruct Hkeep as [(-> & Hbad)|(l0 & h1 & l1 & -> & Hok1 & -> & Hbad)];
    [|right; exists (h :: l0), h1, l1; rewrite <- app_assoc; done].
  - right. exists [], h, l. rewrite app_nil_r. done.
  - left. split; [done|]. by constructor.
Qed.

(** The blocks other than number [keep], given back in order. *)
Fixpoint without (i keep : Z) (l : list held_block) : list held_block :=
  match l with [] => [] | h :: l => if i =? keep then without (i + 1) keep l else h :: without (i + 1) keep l end.

Lemma unmap_loop_spec keep : forall held st i rejected,
  0 <= rejected -> rejected + zlen held < 2 ^ 32 ->
  unmap_loop unmap_ st held i keep rejected =
  (fold_left (fun st h => unmap_ st (h_cpu h)) (without i keep held) st, rejected + zlen (without i keep held)).
Proof.
  induction held as [|h held IH]; intros st i rejected Hr Hz; cbn [unmap_loop without]; [f_equal; unfold zlen; cbn; lia|].
  assert (zlen (h :: held) = 1 + zlen held) by (unfold zlen; cbn; lia).
  destruct (i =? keep) eqn:E; cbn [negb]; [apply IH; lia|].
  rewrite u32_small by (unfold zlen in *; lia). rewrite IH by lia. cbn [fold_left]. f_equal. unfold zlen. cbn. lia.
Qed.

Lemma without_split l0 h l1 : without 0 (zlen l0) (l0 ++ h :: l1) = l0 ++ l1.
Proof.
  assert (Hid : forall l i keep, keep < i -> without i keep l = l).
  { induction l as [|x l IH]; intros i keep Hi; cbn; [done|]. rewrite (proj2 (Z.eqb_neq i keep)) by lia.
    f_equal. apply IH. lia. }
  assert (H : forall l2 i, without i (i + zlen l2) (l2 ++ h :: l1) = l2 ++ l1); [|by rewrite <- (H l0 0)].
  induction l2 as [|x l IH]; intros i; cbn [app without].
  - replace (i + zlen []) with i by (unfold zlen; cbn; lia). rewrite Z.eqb_refl. apply Hid. lia.
  - unfold zlen. cbn [length]. rewrite (proj2 (Z.eqb_neq i _)) by lia. f_equal.
    rewrite <- (IH (i + 1)). f_equal. unfold zlen. lia.
Qed.

Lemma without_none l : without 0 (-1) l = l.
Proof.
  assert (H : forall l i, 0 <= i -> without i (-1) l = l); [|by apply H].
  induction l0 as [|x l0 IH]; intros i Hi; cbn; [done|]. rewrite (proj2 (Z.eqb_neq i (-1))) by lia. f_equal. apply IH. lia.
Qed.

Definition give_back (st : ST) (l : list held_block) : ST := fold_left (fun st h => unmap_ st (h_cpu h)) l st.

Lemma lowmem_map_facts (st st' : ST) (bytes tries page_size : Z) (r : option (Z * Z)) (res : lowmem_result) :
  bytes <> 0 -> page_size <> 0 -> bytes mod page_size = 0 -> 0 <= tries ->
  v3da_lowmem_map map_ unmap_ st bytes tries page_size = (r, res, st') ->
  exists taken st1 st2, hands_out bytes page_size st taken st1 /\ zlen taken <= Z.min tries 16 /\
    (st2 = st1 \/ map_ st1 = (None, st2)) /\ res_tries res = zlen taken /\
    (res_low res = false -> Forall (fun h => is_low_held bytes h = false) taken /\
                            (zlen taken = Z.min tries 16 \/ map_ st1 = (None, st2))) /\
    match r with
    | None => res_low res = false /\ Forall (fun h => h_ok h = false) taken /\ st' = give_back st2 taken /\
              res_rejected res = zlen taken
    | Some (cpu, pa) =>
        exists l0 h l1, taken = l0 ++ h :: l1 /\ h_ok h = true /\ cpu = h_cpu h /\ pa = h_pa h /\
          st' = give_back st2 (l0 ++ l1) /\ res_rejected res = zlen (l0 ++ l1) /\
          (res_low res = true -> l1 = [] /\ v3da_lowmem_is_low pa bytes = true /\ Forall (fun h => is_low_held bytes h = false) l0) /\
          (res_low res = false -> Forall (fun h => h_ok h = false) l1)
    end.
Proof.
  intros Hb Hp Hm Ht. unfold v3da_lowmem_map. rewrite (proj2 (Z.eqb_neq bytes 0) Hb), (proj2 (Z.eqb_neq page_size 0) Hp), Hm.
  cbn [orb negb Z.eqb].
  set (n := if V3DA_LOWMEM_TRIES <? tries then V3DA_LOWMEM_TRIES else tries).
  assert (Hn : n = Z.min tries 16) by (unfold n, V3DA_LOWMEM_TRIES; case_if; bsimp; lia). clearbody n.
  destruct (map_loop map_ (Z.to_nat n) st [] (-1) bytes page_size) as [[[st2 held] keep] low] eqn:E.
  apply map_loop_spec in E as (l & st1 & -> & Hh & Hlen & Hlow & Hno). cbn [app] in *.
  assert (Hlz : zlen l <= Z.min tries 16) by (unfold zlen; lia).
  rewrite unmap_loop_spec by lia. rewrite Z.add_0_l.
  destruct low; [destruct (Hlow eq_refl) as (-> & l0 & h & -> & -> & Hlh & Hall)|destruct (Hno eq_refl) as (Hall & Hend & Hk)].
  - rewrite (proj2 (Z.ltb_ge (zlen l0) 0)) by (unfold zlen; lia). intros [= <- <- <-].
    exists (l0 ++ [h]), st1, st1. cbn [res_tries res_low res_rejected]. split_and!; [done|done|by left|done|done|].
    rewrite without_split. unfold is_low_held in Hlh. bsimp.
    unfold zlen. rewrite Nat2Z.id, (list_lookup_total_middle l0 [] h) by done.
    exists l0, h, []. split_and!; try done.
  - assert (Hend2 : st2 = st1 \/ map_ st1 = (None, st2)) by (destruct Hend as [[? _]|?]; auto).
    assert (Hend3 : zlen l = Z.min tries 16 \/ map_ st1 = (None, st2)).
    { destruct Hend as [[_ Hl]|?]; [left; unfold zlen; lia|by right]. }
    destruct Hk as [(-> & Hbad)|(l0 & h & l1 & -> & Hok & -> & Hbad)].
    + rewrite without_none. intros [= <- <- <-]. exists l, st1, st2. cbn. split_and!; done.
    + rewrite (proj2 (Z.ltb_ge (zlen l0) 0)) by (unfold zlen; lia). intros [= <- <- <-].
      exists (l0 ++ h :: l1), st1, st2. cbn [res_tries res_low res_rejected]. split_and!; try done.
      rewrite without_split. unfold zlen at 1 2. rewrite !Nat2Z.id, (list_lookup_total_middle l0 l1 h) by done.
      exists l0, h, l1. split_and!; try done.
Qed.

(** placing a scan-out block: the placement takes at most 16 fresh blocks, one
    after the other, keeps one and gives every other one back exactly once. The block
    kept is contiguous: the first one below the limit when there is one, else the last
    contiguous one taken, and then the tries or the allocator were exhausted; when no
    block was contiguous, all go back and nothing is returned. *)
Theorem lowmem_map_spec (st st' : ST) (bytes tries page_size : Z) (r : option (Z * Z)) (res : lowmem_result) :
  bytes <> 0 -> page_size <> 0 -> bytes mod page_size = 0 -> 0 <= tries ->
  v3da_lowmem_map map_ unmap_ st bytes tries page_size = (r, res, st') ->
  exists taken st1 st2, hands_out bytes page_size st taken st1 /\ zlen taken <= Z.min tries 16 /\
    (st2 = st1 \/ map_ st1 = (None, st2)) /\ res_tries res = zlen taken /\
    (res_low res = false -> Forall (fun h => is_low_held bytes h = false) taken /\
                            (zlen taken = Z.min tries 16 \/ map_ st1 = (None, st2))) /\
    match r with
    | None => res_low res = false /\ Forall (fun h => h_ok h = false) taken /\ st' = give_back st2 taken /\
              res_rejected res = zlen taken
    | Some (cpu, pa) =>
        exists l0 h l1, taken = l0 ++ h :: l1 /\ h_ok h = true /\ cpu = h_cpu h /\ pa = h_pa h /\
          st' = give_back st2 (l0 ++ l1) /\ res_rejected res = zlen (l0 ++ l1) /\
          (res_low res = true -> l1 = [] /\ v3da_lowmem_is_low pa bytes = true /\ Forall (fun h => is_low_held bytes h = false) l0) /\
          (res_low res = false -> Forall (fun h => h_ok h = false) l1)
    end.
Proof. apply lowmem_map_facts. Qed.
End lowmem_facts.

(** An allocator that hands out the blocks of a list and keeps the ones given back. *)
Definition demo_map (st : list (Z * Z * Z) * list Z) : option (Z * Z * Z) * (list (Z * Z * Z) * list Z) :=
  match st.1 with [] => (None, st) | b :: l => (Some b, (l, st.2)) end.
Definition demo_unmap (st : list (Z * Z * Z) * list Z) (cpu : Z) := (st.1, st.2 ++ [cpu]).
Definition demo_blocks : list (Z * Z * Z) :=
  [(1, 0x50000000, 0x50001000); (2, 0x1000, 0x9000); (3, 0x3fffe000, 0x3ffff000); (4, 0, 0x1000)].

(** The second block is torn, the third lies just below the limit. *)
Lemma lowmem_map_spec_witness :
  exists taken st1 st2, hands_out demo_map 0x2000 0x1000 (demo_blocks, []) taken st1 /\ zlen taken <= Z.min 16 16 /\
    (st2 = st1 \/ demo_map st1 = (None, st2)) /\ 3 = zlen taken /\
    (true = false -> Forall (fun h => is_low_held 0x2000 h = false) taken /\
                     (zlen taken = Z.min 16 16 \/ demo_map st1 = (None, st2))) /\
    exists l0 h l1, taken = l0 ++ h :: l1 /\ h_ok h = true /\ 3 = h_cpu h /\ 0x3fffe000 = h_pa h /\
      ([(4, 0, 0x1000)], [1; 2]) = give_back demo_unmap st2 (l0 ++ l1) /\ 2 = zlen (l0 ++ l1) /\
      (true = true -> l1 = [] /\ v3da_lowmem_is_low 0x3fffe000 0x2000 = true /\
                      Forall (fun h => is_low_held 0x2000 h = false) l0) /\
      (true = false -> Forall (fun h => h_ok h = false) l1).
Proof.
  apply (lowmem_map_spec demo_map demo_unmap (demo_blocks, []) ([(4, 0, 0x1000)], [1; 2]) 0x2000 16 0x1000
    (Some (3, 0x3fffe000)) (mk_res 3 2 true)); done || lia.
Defined.

Lemma pool_trim_facts (pool : list pool_block) (cap now idle page_size : Z) :
  0 <= page_size -> 0 <= cap -> sum_foot page_size pool < 2 ^ 64 -> zlen pool < 2 ^ 32 ->
  let t := v3da_pool_trim pool (sum_foot page_size pool) cap now idle page_size in
  let f := t_freed t in
  exists ridle rcap, t_released t = ridle ++ rcap /\ pool ≡ₚ t_pool t ++ ridle ++ rcap /\
    t_bytes t = sum_foot page_size (t_pool t) /\ t_bytes t <= cap /\
    f = mk_freed (sum_foot page_size (ridle ++ rcap)) (zlen (ridle ++ rcap)) (zlen ridle) (zlen rcap) /\
    (if idle =? 0 then ridle = [] else
       Forall (fun b => idle_block b now idle = true) ridle /\ Forall (fun b => idle_block b now idle = false) (t_pool t)) /\
    victims page_size rcap (t_pool t) /\
    (rcap = [] \/ exists b, last rcap = Some b /\ cap < t_bytes t + v3da_pool_block_bytes b page_size).
Proof.
  intros Hps Hcap Hs Hn t f. subst f. unfold v3da_pool_trim in t.
  set (t0 := mk_trim pool (sum_foot page_size pool) (mk_freed 0 0 0 0) []) in *.
  assert (H0 : trimmed page_size pool t0) by (unfold trimmed; cbn; by rewrite app_nil_r).
  set (t1 := if negb (idle =? 0) then idle_loop (length pool) t0 0 now idle page_size else t0) in *.
  assert (H1 : trimmed page_size pool t1 /\ fr_idle (t_freed t1) = zlen (t_released t1) /\
    if idle =? 0 then t_released t1 = [] else
      Forall (fun b => idle_block b now idle = true) (t_released t1) /\
      Forall (fun b => idle_block b now idle = false) (t_pool t1)).
  { subst t1. destruct (idle =? 0) eqn:Ei; cbn [negb]; [done|].
    destruct (idle_loop_spec page_size Hps pool now idle Hs Hn (length pool) t0 0 H0) as (Ht & Hno & r & Hr & Hall & Hf);
      [done|cbn; unfold zlen; lia|done|done|]. cbn [t_released t0 app] in Hr. rewrite Hr. cbn in Hf. split_and!; try done. }
  destruct H1 as (Ht1 & Hf1 & Hid1).
  assert (Hle : (length (t_pool t1) <= length pool)%nat) by (destruct Ht1 as (-> & _); rewrite length_app; lia).
  destruct (cap_loop_spec page_size Hps pool cap Hs Hn Hcap (length pool) t1 Ht1 Hle) as (Ht2 & Hb & Hf2 & r & Hp & Hr & Hv & Hmin).
  set (t2 := cap_loop (length pool) t1 cap page_size) in *. destruct Ht2 as (Hperm & Hbytes & Hfb & Hfk).
  destruct Ht1 as (_ & _ & _ & Hk1). exists (t_released t1), r. subst t. cbn. rewrite Hr in *. split_and!; try done.
  - rewrite Hfb, Hfk, Hf2, Hf1, Hk1. unfold zlen in *. rewrite length_app.
    assert (Hlp : (length pool = length (t_pool t2) + length (t_released t1 ++ r))%nat) by (by rewrite Hperm, length_app).
    rewrite length_app in Hlp. rewrite u32_small by lia. f_equal. lia.
  - destruct (idle =? 0); [done|]. destruct Hid1 as [? Hno]. split; [done|]. rewrite Hp in Hno. by apply Forall_app in Hno as [_ ?].
Qed.

(** a trim ends; it splits the pool into what stays and what it gives back and keeps
    the byte count exact; afterwards the pool is within its cap and, when an idle limit
    is given, holds no idle block. First the idle blocks go, then blocks in the order
    "above the display limit first, oldest first", and no more of them than needed. *)
Theorem pool_trim_spec (pool : list pool_block) (cap now idle page_size : Z) :
  0 <= page_size -> 0 <= cap -> sum_foot page_size pool < 2 ^ 64 -> zlen pool < 2 ^ 32 ->
  let t := v3da_pool_trim pool (sum_foot page_size pool) cap now idle page_size in
  let f := t_freed t in
  exists ridle rcap, t_released t = ridle ++ rcap /\ pool ≡ₚ t_pool t ++ ridle ++ rcap /\
    t_bytes t = sum_foot page_size (t_pool t) /\ t_bytes t <= cap /\
    f = mk_freed (sum_foot page_size (ridle ++ rcap)) (zlen (ridle ++ rcap)) (zlen ridle) (zlen rcap) /\
    (if idle =? 0 then ridle = [] else
       Forall (fun b => idle_block b now idle = true) ridle /\ Forall (fun b => idle_block b now idle = false) (t_pool t)) /\
    victims page_size rcap (t_pool t) /\
    (rcap = [] \/ exists b, last rcap = Some b /\ cap < t_bytes t + v3da_pool_block_bytes b page_size).
Proof. apply pool_trim_facts. Qed.

Definition demo_pool : list pool_block :=
  [mk_block 1 0x80000000 1 0 100; mk_block 2 0x1000 4 0 50; mk_block 3 0x90000000 2 0 70; mk_block 4 0x10000 3 0 1].

Lemma pool_trim_spec_witness :
  let t := v3da_pool_trim demo_pool (sum_foot 4096 demo_pool) 20480 1000 990 4096 in
  let f := t_freed t in
  exists ridle rcap, t_released t = ridle ++ rcap /\ demo_pool ≡ₚ t_pool t ++ ridle ++ rcap /\
    t_bytes t = sum_foot 4096 (t_pool t) /\ t_bytes t <= 20480 /\
    f = mk_freed (sum_foot 4096 (ridle ++ rcap)) (zlen (ridle ++ rcap)) (zlen ridle) (zlen rcap) /\
    (if 990 =? 0 then ridle = [] else
       Forall (fun b => idle_block b 1000 990 = true) ridle /\ Forall (fun b => idle_block b 1000 990 = false) (t_pool t)) /\
    victims 4096 rcap (t_pool t) /\
    (rcap = [] \/ exists b, last rcap = Some b /\ 20480 < t_bytes t + v3da_pool_block_bytes b 4096).
Proof. apply (pool_trim_spec demo_pool 20480 1000 990 4096); done || lia. Defined.

Example demo_trim :
  t_released (v3da_pool_trim demo_pool (sum_foot 4096 demo_pool) 20480 1000 990 4096) =
  [mk_block 4 0x10000 3 0 1; mk_block 3 0x90000000 2 0 70].
Proof. vm_compute. reflexivity. Qed.
End V3daPool.
