(* ===== verification/V3daBo.v ===== *)
(** * Buffer objects of the V3D render server
      ([src/gpu/rpi4-v3d-async/v3da_bo.c], [v3da_hw.c], [v3da.h])

    [bsrv] holds the part of [srv] the BO manager reads and writes; its field [base]
    is the state of the fence and wait code. A BO is named by its slot index, as the
    code names it by a pointer into [srv.bos]; [bos], [bo_gen] and the pool are the
    used prefixes of the code's arrays. The page table is the map [pt] of the entries
    written so far (an entry never written is 0). Three fields are ghosts that no operation
    of the code reads: [stale], the valid entries overwritten since the last flush that
    completed, which the TLB may still hold; [late], whether the last flush was given up when
    its polling bound was spent; and [flushes], whether the flushes to come will complete. Memory is the kernel's: [Kernel] is what the code uses of it. Printing is not
    modelled; the counters that only bound the printing are. *)

From S2P Require Import Prelude V3daSched V3daPool.

Module V3daBo.
Import V3da V3daPool.

Definition PAGE_SIZE : Z := 4096.
Definition V3D_PAGE_SHIFT : Z := 12.
Definition PTE_V : Z := 1 <<< 28.
Definition PTE_W : Z := 1 <<< 29.
Definition V3DA_MAX_BOS : Z := 4096.
Definition V3DA_MAX_HOLES : Z := 2048.
Definition V3DA_MAX_POOL : Z := 1024.
Definition V3DA_SCANOUT_MAX : Z := 3.
Definition V3DA_HANDLE_SLOT_BITS : Z := 13.
Definition V3DA_HANDLE_SLOT_MASK : Z := (1 <<< V3DA_HANDLE_SLOT_BITS) - 1.
Definition V3DA_Q_CPU : nat := 5.
Definition V3DA_BO_CACHEABLE : Z := 1.
Definition V3DA_BO_SCANOUT : Z := 2.
Definition V3DA_BO_LOWMEM : Z := 4.
Definition V3DA_MEM_PHYS : Z := 1.
Definition V3DA_MEM_OID : Z := 2.
Definition V3DA_CACHE_CACHED : Z := 0.
Definition V3DA_CACHE_UNCACHED : Z := 1.
Definition V3DA_IMPORT_NS_KMSBUF : Z := 1.
Definition V3DA_IMPORT_NS_V3DBUF : Z := 2.
Definition V3DA_IMPORT_MAX_SIZE : Z := 0x10000000.
Definition V3DA_BO_SYNC_HANDLE : Z := 0.
Definition V3DA_BO_FENCES_MAX : Z := 3.
Definition V3DA_BO_FENCES_MORE : Z := 1.
Definition GPUVA_BASE : Z := 0x100000.
Definition GPUVA_PT_PAGES : Z := 256.
Definition POOL_SCAN_US : Z := 1000000.
Definition POOL_NOTE_US : Z := 1000000.

(** ** The kernel

    [mmap] of a contiguous anonymous block of the given size and memory type, [mmap] of
    a buffer descriptor, [munmap], [va2pa], [memset] to 0, [memExport]/[memUnexport] of
    [port, id], and the clock. *)
Class Kernel := {
  kstate : Type;
  k_mmap : kstate -> Z -> bool -> option (Z * kstate);
  k_mmap_fd : kstate -> Z -> Z -> bool -> option (Z * kstate);
  k_munmap : kstate -> Z -> Z -> kstate;
  k_va2pa : kstate -> Z -> Z;
  k_zero : kstate -> Z -> Z -> kstate;
  k_export : kstate -> Z * Z -> Z -> Z -> Z * kstate;
  k_unexport : kstate -> Z * Z -> kstate;
  k_now : kstate -> Z * kstate
}.

(** ** Data *)

Record hw := mk_hw {
  pt : gmap Z Z; pt_entries : Z; next_gpuva : Z; holes : list (Z * Z);
  pt_gen : Z; tlb_gen : Z; tlb_flushes : Z; stale : list (Z * Z); late : bool; flushes : list bool
}.

Inductive bo_state := V3DA_BO_FREE | V3DA_BO_LIVE | V3DA_BO_QUARANTINE.
#[export] Instance bo_state_eq_dec : EqDecision bo_state.
Proof. solve_decision. Defined.

Record memref := mk_memref { mr_kind : Z; mr_cache : Z; mr_port : Z; mr_size : Z; mr_addr : Z }.
Definition no_memref : memref := mk_memref 0 0 0 0 0.

(** [v3da_bo_t]: what its creation sets, ... *)
Record bo_mem := mk_mem {
  m_handle : Z; m_flags : Z; m_cpu : Z; m_pa : Z; m_gpuva : Z; m_pages : Z;
  m_scanout : Z; m_low : bool; m_imported : bool; m_imp : memref
}.
(** ... who holds it, ... *)
Record bo_cnt := mk_cnt {
  owner : Z; refs : Z; inflight : Z; exported : bool; fd_opens : Z; sharers : Z
}.
(** ... its last use per queue (fence and submission order) and its quarantine. *)
Record bo := mk_bo {
  b_state : bo_state; b_mem : bo_mem; b_cnt : bo_cnt; b_last : list (fence * Z);
  clear_pt_gen : Z; pass : list Z
}.
Definition no_mem : bo_mem := mk_mem 0 0 0 0 0 0 0 false false no_memref.
Definition no_bo : bo := mk_bo V3DA_BO_FREE no_mem (mk_cnt 0 0 0 false 0 0) (replicate 6 (no_fence, 0)) 0 (replicate 6 0).
#[export] Instance bo_inhabited : Inhabited bo := populate no_bo.

Definition b_handle (b : bo) : Z := m_handle (b_mem b).
Definition b_gpuva (b : bo) : Z := m_gpuva (b_mem b).
Definition b_pages (b : bo) : Z := m_pages (b_mem b).

(** Blocks trimmed since the last [pool trim] line, and when the next line may come. *)
Record pool_notes := mk_notes { n_bytes : Z; n_blocks : Z; n_idle : Z; n_cap : Z; n_us : Z }.
Record pool_st := mk_pool {
  blocks : list pool_block; pool_cap : Z; pool_idle_us : Z; pool_bytes : Z; pool_peak : Z;
  pool_scan_us : Z; pool_trimmed : Z; pool_trims : Z; notes : pool_notes
}.
Record low_st := mk_low {
  low_budget : Z; low_live : Z; low_peak : Z; low_bos : Z; low_from_pool : Z; low_fallback : Z;
  low_tries : Z; low_rejected : Z; low_notes : Z
}.
Record scan_st := mk_scan { scan_pa : Z; scan_bytes : Z; scan_nbuf : Z; claimed : list Z }.

Section Bo.
Context `{K : Kernel}.

Record bsrv := mk_bsrv {
  base : srv; hw_submitted : list Z; hwst : hw;
  bos : list bo; bo_gen : list Z;
  pool : pool_st; low : low_st; scan : scan_st;
  ovf : list (Z * Z * Z);   (* the overflow pool: GPU address, pages, mapping *)
  imports : Z; exports : Z; buf_port : Z; verbose : bool;
  bo_quarantine_passed : Z; pages_to_kernel : Z;
  kern : kstate
}.

(** Field updates. *)
Definition set_hw (s : bsrv) h : bsrv := mk_bsrv (base s) (hw_submitted s) h (bos s) (bo_gen s) (pool s) (low s)
  (scan s) (ovf s) (imports s) (exports s) (buf_port s) (verbose s) (bo_quarantine_passed s) (pages_to_kernel s) (kern s).
Definition set_bos (s : bsrv) l g : bsrv := mk_bsrv (base s) (hw_submitted s) (hwst s) l g (pool s) (low s)
  (scan s) (ovf s) (imports s) (exports s) (buf_port s) (verbose s) (bo_quarantine_passed s) (pages_to_kernel s) (kern s).
Definition set_pool (s : bsrv) p : bsrv := mk_bsrv (base s) (hw_submitted s) (hwst s) (bos s) (bo_gen s) p (low s)
  (scan s) (ovf s) (imports s) (exports s) (buf_port s) (verbose s) (bo_quarantine_passed s) (pages_to_kernel s) (kern s).
Definition set_low (s : bsrv) l : bsrv := mk_bsrv (base s) (hw_submitted s) (hwst s) (bos s) (bo_gen s) (pool s) l
  (scan s) (ovf s) (imports s) (exports s) (buf_port s) (verbose s) (bo_quarantine_passed s) (pages_to_kernel s) (kern s).
Definition set_claimed (s : bsrv) c : bsrv := mk_bsrv (base s) (hw_submitted s) (hwst s) (bos s) (bo_gen s) (pool s) (low s)
  (mk_scan (scan_pa (scan s)) (scan_bytes (scan s)) (scan_nbuf (scan s)) c) (ovf s) (imports s) (exports s) (buf_port s)
  (verbose s) (bo_quarantine_passed s) (pages_to_kernel s) (kern s).
Definition set_ovf (s : bsrv) o : bsrv := mk_bsrv (base s) (hw_submitted s) (hwst s) (bos s) (bo_gen s) (pool s) (low s)
  (scan s) o (imports s) (exports s) (buf_port s) (verbose s) (bo_quarantine_passed s) (pages_to_kernel s) (kern s).
Definition set_prime (s : bsrv) i e : bsrv := mk_bsrv (base s) (hw_submitted s) (hwst s) (bos s) (bo_gen s) (pool s) (low s)
  (scan s) (ovf s) i e (buf_port s) (verbose s) (bo_quarantine_passed s) (pages_to_kernel s) (kern s).
Definition set_stats (s : bsrv) q p : bsrv := mk_bsrv (base s) (hw_submitted s) (hwst s) (bos s) (bo_gen s) (pool s) (low s)
  (scan s) (ovf s) (imports s) (exports s) (buf_port s) (verbose s) q p (kern s).
Definition set_kern (s : bsrv) k : bsrv := mk_bsrv (base s) (hw_submitted s) (hwst s) (bos s) (bo_gen s) (pool s) (low s)
  (scan s) (ovf s) (imports s) (exports s) (buf_port s) (verbose s) (bo_quarantine_passed s) (pages_to_kernel s) k.

Definition bo_at (s : bsrv) (i : nat) : bo := bos s !!! i.
Definition upd_bo (s : bsrv) (i : nat) (f : bo -> bo) : bsrv := set_bos s (alter f i (bos s)) (bo_gen s).
Definition set_state (st : bo_state) (b : bo) : bo := mk_bo st (b_mem b) (b_cnt b) (b_last b) (clear_pt_gen b) (pass b).
Definition set_cnt (b : bo) (c : bo_cnt) : bo := mk_bo (b_state b) (b_mem b) c (b_last b) (clear_pt_gen b) (pass b).
Definition set_quarantine (b : bo) g p : bo := mk_bo V3DA_BO_QUARANTINE (b_mem b) (b_cnt b) (b_last b) g p.

(** ** Handles *)

(** The slot of the live BO with this exact handle. *)
Definition bo_lookup (s : bsrv) (handle : Z) : option nat :=
  let slot := handle &&& V3DA_HANDLE_SLOT_MASK in
  if (slot =? 0) || (zlen (bos s) <? slot) then None
  else
    let i := Z.to_nat (slot - 1) in
    let b := bo_at s i in
    if bool_decide (b_state b = V3DA_BO_LIVE) && (b_handle b =? handle) then Some i else None.

Definition v3da_bo_find (s : bsrv) (handle : Z) : option nat :=
  i ← bo_lookup s handle;
  if 0 <? refs (b_cnt (bo_at s i)) then Some i else None.

(** ** Page table and GPU addresses *)

Definition pt_get (h : hw) (i : Z) : Z := default 0 (pt h !! i).

(** [pt[i] = v] *)
Definition pt_set (h : hw) (i v : Z) : hw :=
  mk_hw (<[i := v]> (pt h)) (pt_entries h) (next_gpuva h) (holes h) (pt_gen h) (tlb_gen h) (tlb_flushes h)
    (if has (pt_get h i) PTE_V then (i, pt_get h i) :: stale h else stale h) (late h) (flushes h).

(** [for (i = 0; i < n; i++) pt[base + i] = l[i]] *)
Fixpoint pt_fill (h : hw) (at_ : Z) (l : list Z) : hw :=
  match l with [] => h | v :: l => pt_fill (pt_set h at_ v) (at_ + 1) l end.

Definition bump_pt_gen (h : hw) : hw :=
  mk_hw (pt h) (pt_entries h) (next_gpuva h) (holes h) (u64 (pt_gen h + 1)) (tlb_gen h) (tlb_flushes h) (stale h) (late h) (flushes h).

(** [PTE of a physical address] *)
Definition pte (ppa : Z) : Z := u32 (ppa >>> V3D_PAGE_SHIFT) ||| PTE_W ||| PTE_V.

(** A flush whose polls saw it complete ([ok]), or were given up; the code goes on as if it had completed. *)
Definition mmu_flush (ok : bool) (h : hw) : hw :=
  mk_hw (pt h) (pt_entries h) (next_gpuva h) (holes h) (pt_gen h) (pt_gen h) (u32 (tlb_flushes h + 1)) (if ok then [] else stale h) (negb ok) (flushes h).

(** The flush of the BO manager; its registers are part of [V3daGpu.v]. *)
Definition v3da_hw_mmu_flush (h : hw) : hw :=
  mmu_flush (default true (head (flushes h)))
    (mk_hw (pt h) (pt_entries h) (next_gpuva h) (holes h) (pt_gen h) (tlb_gen h) (tlb_flushes h) (stale h) (late h) (tail (flushes h))).

Definition set_va (h : hw) n l : hw :=
  mk_hw (pt h) (pt_entries h) n l (pt_gen h) (tlb_gen h) (tlb_flushes h) (stale h) (late h) (flushes h).

(** The hardware state [v3da_hw_init] leaves; [l] says which flushes will complete. *)
Definition hw_start (l : list bool) : hw :=
  v3da_hw_mmu_flush (mk_hw ∅ (GPUVA_PT_PAGES * (PAGE_SIZE / 4)) GPUVA_BASE [] 1 0 0 [] false l).

(** The first hole of at least [pages] pages. *)
Fixpoint find_hole (l : list (Z * Z)) (i : Z) (pages : Z) : option Z :=
  match l with
  | [] => None
  | (_, n) :: l => if pages <=? n then Some i else find_hole l (i + 1) pages
  end.

(** The address (0: none) and the hardware state. *)
Definition v3da_hw_va_alloc (h : hw) (pages : Z) : Z * hw :=
  match find_hole (holes h) 0 pages with
  | Some i =>
      let '(va, n) := holes h !!! Z.to_nat i in
      if n =? pages then (va, set_va h (next_gpuva h) (swap_remove i (holes h)))
      else (va, set_va h (next_gpuva h) (<[Z.to_nat i := (u32 (va + pages * PAGE_SIZE), u32 (n - pages))]> (holes h)))
  | None =>
      if pt_entries h <? u32 ((next_gpuva h >>> V3D_PAGE_SHIFT) + pages) then (0, h)
      else
        let va := next_gpuva h in
        let h := set_va h (u32 (va + pages * PAGE_SIZE)) (holes h) in
        (va, pt_fill h (va >>> V3D_PAGE_SHIFT) (replicate (Z.to_nat pages) 0))
  end.

Definition v3da_hw_va_free (h : hw) (gpuva pages : Z) : hw :=
  if zlen (holes h) <? V3DA_MAX_HOLES then set_va h (next_gpuva h) (holes h ++ [(gpuva, pages)]) else h.

(** ** Blocks *)

(** The first and last page are touched, so that [va2pa] resolves them. *)
Definition block_map (bytes : Z) (cached : bool) (k : kstate) : option (Z * Z * Z) * kstate :=
  match k_mmap k bytes cached with
  | None => (None, k)
  | Some (cpu, k) => (Some (cpu, k_va2pa k cpu, k_va2pa k (cpu + bytes - PAGE_SIZE)), k)
  end.
Definition block_unmap (bytes : Z) (k : kstate) (cpu : Z) : kstate := k_munmap k cpu bytes.

(** [v3da_place_t]: whether the block came from the pool, the tries, whether it lies low. *)
Record place := mk_place { from_pool : bool; pl_res : lowmem_result; pl_low : bool }.

Definition pool_take (p : pool_st) (i : Z) : pool_st :=
  mk_pool (swap_remove i (blocks p)) (pool_cap p) (pool_idle_us p)
    (u64 (pool_bytes p - v3da_pool_block_bytes (blocks p !!! Z.to_nat i) PAGE_SIZE)) (pool_peak p) (pool_scan_us p)
    (pool_trimmed p) (pool_trims p) (notes p).

Definition add_tries (l : low_st) (r : lowmem_result) : low_st :=
  mk_low (low_budget l) (low_live l) (low_peak l) (low_bos l) (low_from_pool l) (low_fallback l)
    (u32 (low_tries l + res_tries r)) (u32 (low_rejected l + res_rejected r)) (low_notes l).

(** The ordinary path: one fresh block, whatever its placement. *)
Definition fresh_block (s : bsrv) (bytes : Z) (cached : bool) (res : lowmem_result) : option (Z * Z) * place * bsrv :=
  match block_map bytes cached (kern s) with
  | (None, k) => (None, mk_place false res false, set_kern s k)
  | (Some (cpu, _, _), k) =>
      let k := k_zero k cpu bytes in
      let pa := k_va2pa k cpu in
      (Some (cpu, pa), mk_place false res (v3da_lowmem_is_low pa bytes), set_kern s k)
  end.

Definition block_get (s : bsrv) (pages : Z) (cached want_low : bool) : option (Z * Z) * place * bsrv :=
  let bytes := pages * PAGE_SIZE in
  let i := v3da_pool_pick (blocks (pool s)) pages (of_bool cached) want_low PAGE_SIZE in
  if 0 <=? i then
    let b := blocks (pool s) !!! Z.to_nat i in
    let s := set_pool s (pool_take (pool s) i) in
    let s := set_kern s (k_zero (kern s) (pb_cpu b) bytes) in
    (Some (pb_cpu b, pb_pa b), mk_place true (mk_res 0 0 false) (v3da_lowmem_is_low (pb_pa b) bytes), s)
  else if want_low then
    let '(r, res, k) := v3da_lowmem_map (block_map bytes cached) (block_unmap bytes) (kern s) bytes V3DA_LOWMEM_TRIES PAGE_SIZE in
    let s := set_low (set_kern s k) (add_tries (low s) res) in
    match r with
    | Some (cpu, pa) => (Some (cpu, pa), mk_place false res (res_low res), set_kern s (k_zero (kern s) cpu bytes))
    | None => fresh_block s bytes cached res
    end
  else fresh_block s bytes cached (mk_res 0 0 false).

(** ** The pool *)

Definition pool_note (p : pool_st) (now : Z) : pool_st :=
  if (n_blocks (notes p) =? 0) || (now <? n_us (notes p)) then p
  else mk_pool (blocks p) (pool_cap p) (pool_idle_us p) (pool_bytes p) (pool_peak p) (pool_scan_us p)
         (pool_trimmed p) (pool_trims p) (mk_notes 0 0 0 0 (u64 (now + POOL_NOTE_US))).

(** [munmap] of the released blocks, in order. *)
Definition pool_release (k : kstate) (l : list pool_block) : kstate :=
  fold_left (fun k b => k_munmap k (pb_cpu b) (pb_pages b * PAGE_SIZE)) l k.

Definition pool_trim (s : bsrv) (now idle_us : Z) : bsrv :=
  let p := pool s in
  let t := v3da_pool_trim (blocks p) (pool_bytes p) (pool_cap p) now idle_us PAGE_SIZE in
  let f := t_freed t in
  let n := notes p in
  let s := set_kern s (pool_release (kern s) (t_released t)) in
  let p' := mk_pool (t_pool t) (pool_cap p) (pool_idle_us p) (t_bytes t) (pool_peak p) (pool_scan_us p) in
  if fr_blocks f =? 0 then set_pool s (p' (pool_trimmed p) (pool_trims p) n)
  else set_pool s (pool_note (p' (u64 (pool_trimmed p + fr_bytes f)) (u32 (pool_trims p + fr_blocks f))
         (mk_notes (u64 (n_bytes n + fr_bytes f)) (u32 (n_blocks n + fr_blocks f)) (u32 (n_idle n + fr_idle f))
            (u32 (n_cap n + fr_cap f)) (n_us n))) now).

Definition pool_add (p : pool_st) (b : pool_block) : pool_st :=
  let bytes := u64 (pool_bytes p + v3da_pool_block_bytes b PAGE_SIZE) in
  mk_pool (blocks p ++ [b]) (pool_cap p) (pool_idle_us p) bytes (if pool_peak p <? bytes then bytes else pool_peak p)
    (pool_scan_us p) (pool_trimmed p) (pool_trims p) (notes p).

Definition block_put (s : bsrv) (cpu pa pages : Z) (cached : bool) : bsrv :=
  if zlen (blocks (pool s)) <? V3DA_MAX_POOL then
    let '(now, k) := k_now (kern s) in
    let s := set_pool (set_kern s k) (pool_add (pool s) (mk_block cpu pa pages (of_bool cached) now)) in
    if pool_cap (pool s) <? pool_bytes (pool s) then pool_trim s now 0 else s
  else
    let s := set_stats s (bo_quarantine_passed s) (u32 (pages_to_kernel s + pages)) in
    set_kern s (k_munmap (kern s) cpu (pages * PAGE_SIZE)).

Definition set_scan_us (p : pool_st) t : pool_st :=
  mk_pool (blocks p) (pool_cap p) (pool_idle_us p) (pool_bytes p) (pool_peak p) t (pool_trimmed p) (pool_trims p) (notes p).

Definition v3da_bo_pool_tick (s : bsrv) (now : Z) (soon : bool) : bsrv :=
  let s := if soon || (pool_scan_us (pool s) <=? now)
           then pool_trim (set_pool s (set_scan_us (pool s) (u64 (now + POOL_SCAN_US)))) now (pool_idle_us (pool s))
           else s in
  set_pool s (pool_note (pool s) now).

Definition v3da_bo_pool_counts (s : bsrv) : Z * Z * Z * Z :=
  (pool_bytes (pool s), pool_peak (pool s), zlen (blocks (pool s)), pool_trimmed (pool s)).
Definition v3da_bo_low_counts (s : bsrv) : Z * Z * Z * Z :=
  (low_live (low s), low_budget (low s), low_bos (low s), low_fallback (low s)).

(** ** Creation *)

(** The lowest unclaimed framebuffer buffer, or -1. *)
Fixpoint scanout_free (l : list Z) (i : Z) : Z :=
  match l with [] => -1 | c :: l => if c =? 0 then i else scanout_free l (i + 1) end.
Definition scanout_pick (s : bsrv) : Z := scanout_free (take (Z.to_nat (scan_nbuf (scan s))) (claimed (scan s))) 0.

(** The first FREE slot, [nbos] when there is none. *)
Fixpoint free_slot (l : list bo) : nat :=
  match l with [] => 0 | b :: l => if bool_decide (b_state b = V3DA_BO_FREE) then 0 else S (free_slot l) end%nat.

(** The slot for a new BO; a new one extends the table. *)
Definition slot_for (s : bsrv) : option (nat * bsrv) :=
  let slot := free_slot (bos s) in
  if bool_decide (slot = length (bos s)) then
    if V3DA_MAX_BOS <=? zlen (bos s) then None
    else Some (slot, set_bos s (bos s ++ [no_bo]) (bo_gen s ++ [0]))
  else Some (slot, s).

(** The next generation of a slot's handles. *)
Definition next_gen (g : Z) : Z :=
  let g := u32 (g + 1) in
  if (g &&& (0xffffffff >>> V3DA_HANDLE_SLOT_BITS)) =? 0 then 1 else g.
Definition make_handle (g : Z) (slot : nat) : Z := u32 (g <<< V3DA_HANDLE_SLOT_BITS) ||| (Z.of_nat slot + 1).

(** The physical address each page of a new BO gets: the framebuffer's for the first
    [scan_pages], the block's own for the others. *)
Definition page_pa (k : kstate) (cpu buf_pa scan_pages i : Z) : Z :=
  if i <? scan_pages then buf_pa + i * PAGE_SIZE else k_va2pa k (cpu + i * PAGE_SIZE).

(** [b->handle], ... of a new BO; its generation is stepped. *)
Definition bo_new (s : bsrv) (slot : nat) (client : Z) (mem : Z -> bo_mem) : bsrv :=
  let g := next_gen (bo_gen s !!! slot) in
  let b := mk_bo V3DA_BO_LIVE (mem (make_handle g slot)) (mk_cnt client 1 0 false 0 0) (replicate 6 (no_fence, 0)) 0 (replicate 6 0) in
  set_bos s (<[slot := b]> (bos s)) (<[slot := g]> (bo_gen s)).

Definition low_note (s : bsrv) (l : low_st) : low_st :=
  if negb (verbose s) && (64 <=? low_notes l) then l
  else mk_low (low_budget l) (low_live l) (low_peak l) (low_bos l) (low_from_pool l) (low_fallback l) (low_tries l)
         (low_rejected l) (u32 (low_notes l + 1)).
Definition low_fell_back (l : low_st) : low_st :=
  mk_low (low_budget l) (low_live l) (low_peak l) (low_bos l) (low_from_pool l) (u32 (low_fallback l + 1)) (low_tries l)
    (low_rejected l) (low_notes l).
Definition low_placed (l : low_st) (foot : Z) (pooled : bool) : low_st :=
  let live := u64 (low_live l + foot) in
  mk_low (low_budget l) live (if low_peak l <? live then live else low_peak l) (u32 (low_bos l + 1))
    (if pooled then u32 (low_from_pool l + 1) else low_from_pool l) (low_fallback l) (low_tries l) (low_rejected l) (low_notes l).

Record create_resp := mk_create { cr_handle : Z; cr_gpuva : Z; cr_size : Z; cr_scanout : Z; cr_mem : memref }.

Definition v3da_bo_create (s : bsrv) (client size flags : Z) : cres create_resp * bsrv :=
  let scan_i := if has flags V3DA_BO_SCANOUT then scanout_pick s else -1 in
  let cached := if 0 <=? scan_i then false else has flags V3DA_BO_CACHEABLE in
  let buf_pa := if 0 <=? scan_i then u32 (scan_pa (scan s) + u32 (scan_i * scan_bytes (scan s))) else 0 in
  if 0x40000000 <? size then (Err EINVAL, s)
  else
    let pages := u32 ((size + PAGE_SIZE - 1) / PAGE_SIZE) in
    let pages := if pages =? 0 then 1 else pages in
    match slot_for s with
    | None => (Err ENOMEM, s)
    | Some (slot, s) =>
        let lowmem := has flags V3DA_BO_LOWMEM && (scan_i <? 0) in
        let foot := if lowmem then v3da_lowmem_footprint pages PAGE_SIZE else 0 in
        let want_low := lowmem && v3da_lowmem_admit (low_live (low s)) foot (low_budget (low s)) in
        let '(r, pl, s) := block_get s pages cached want_low in
        match r with
        | None => (Err ENOMEM, if has flags V3DA_BO_LOWMEM then set_low s (low_fell_back (low s)) else s)
        | Some (cpu, pa) =>
            let '(gpuva, h) := v3da_hw_va_alloc (hwst s) pages in
            let s := set_hw s h in
            if gpuva =? 0 then (Err ENOMEM, block_put s cpu pa pages cached)
            else
              let scan_pages := if 0 <=? scan_i then Z.min (scan_bytes (scan s) / PAGE_SIZE) pages else 0 in
              let ptes := map (fun i => pte (page_pa (kern s) cpu buf_pa scan_pages i)) (seqZ 0 pages) in
              let s := set_hw s (bump_pt_gen (pt_fill (hwst s) (gpuva >>> V3D_PAGE_SHIFT) ptes)) in
              let placed := want_low && pl_low pl in
              let bflags := if cached then flags ||| V3DA_BO_CACHEABLE else flags &&& lnot_w 32 V3DA_BO_CACHEABLE in
              let s := bo_new s slot client (fun handle =>
                mk_mem handle bflags cpu pa gpuva pages (if 0 <=? scan_i then scan_i + 1 else 0) placed false no_memref) in
              let b := bo_at s slot in
              let s := if 0 <=? scan_i then set_claimed s (<[Z.to_nat scan_i := b_handle b]> (claimed (scan s))) else s in
              let s := if has flags V3DA_BO_LOWMEM then
                         if placed then set_low s (low_note s (low_placed (low s) foot (from_pool pl)))
                         else if scan_i <? 0 then set_low s (low_note s (low_fell_back (low s))) else s
                       else s in
              (Ok (mk_create (b_handle b) gpuva (u32 (pages * PAGE_SIZE)) (m_scanout (b_mem b))
                     (mk_memref V3DA_MEM_PHYS (if cached then V3DA_CACHE_CACHED else V3DA_CACHE_UNCACHED) 0
                        (pages * PAGE_SIZE) pa)), s)
        end
    end.

(** ** References and the quarantine *)

Definition with_exported (c : bo_cnt) e : bo_cnt := mk_cnt (owner c) (refs c) (inflight c) e (fd_opens c) (sharers c).
Definition with_refs (c : bo_cnt) r : bo_cnt := mk_cnt (owner c) r (inflight c) (exported c) (fd_opens c) (sharers c).
Definition with_inflight (c : bo_cnt) n : bo_cnt := mk_cnt (owner c) (refs c) n (exported c) (fd_opens c) (sharers c).
Definition with_owner (c : bo_cnt) o : bo_cnt := mk_cnt o (refs c) (inflight c) (exported c) (fd_opens c) (sharers c).
Definition with_sharers (c : bo_cnt) x : bo_cnt := mk_cnt (owner c) (refs c) (inflight c) (exported c) (fd_opens c) x.
Definition with_opens (c : bo_cnt) n : bo_cnt := mk_cnt (owner c) (refs c) (inflight c) (exported c) n (sharers c).
Definition upd_cnt (s : bsrv) (i : nat) (f : bo_cnt -> bo_cnt) : bsrv := upd_bo s i (fun b => set_cnt b (f (b_cnt b))).

(** A job runs on a hardware queue. *)
Definition hw_queue_busy (s : bsrv) : bool :=
  existsb (fun q => bool_decide (q <> V3DA_Q_CPU) && bool_decide (is_Some (active (base s) !!! q))) (seq 0 6).

Definition export_withdraw (s : bsrv) (i : nat) : bsrv :=
  if exported (b_cnt (bo_at s i)) then
    let s := upd_cnt s i (fun c => with_exported c false) in
    let s := set_kern s (k_unexport (kern s) (buf_port s, b_handle (bo_at s i))) in
    set_prime s (imports s) (u32 (exports s - 1))
  else s.

Definition unclaim (s : bsrv) (b : bo) : bsrv :=
  let o := m_scanout (b_mem b) in
  if (0 <? o) && (o <=? V3DA_SCANOUT_MAX) && (arr_get (claimed (scan s)) (o - 1) =? b_handle b)
  then set_claimed s (arr_set (claimed (scan s)) (o - 1) 0) else s.

Definition quarantine_begin (s : bsrv) (i : nat) : bsrv :=
  let s := export_withdraw s i in
  let b := bo_at s i in
  let h := pt_fill (hwst s) (b_gpuva b >>> V3D_PAGE_SHIFT) (replicate (Z.to_nat (b_pages b)) 0) in
  let s := unclaim (set_hw s (bump_pt_gen h)) b in
  let g := pt_gen (hwst s) in
  let p := map (fun q => arr_get (hw_submitted s) q) (seqZ 0 V3DA_Q_COUNT) in
  let s := if hw_queue_busy s then s else set_hw s (v3da_hw_mmu_flush (hwst s)) in
  upd_bo s i (fun b => set_quarantine b g p).

Definition client_bit (client : Z) : Z :=
  if (1 <=? client) && (client <=? V3DA_MAX_CLIENTS) then 1 <<< (client - 1) else 0.

Definition bo_unref (s : bsrv) (i : nat) : bsrv :=
  let s := if 0 <? refs (b_cnt (bo_at s i)) then upd_cnt s i (fun c => with_refs c (refs c - 1)) else s in
  if refs (b_cnt (bo_at s i)) =? 0 then
    let s := export_withdraw s i in
    if inflight (b_cnt (bo_at s i)) =? 0 then quarantine_begin s i else s
  else s.

(** ** Jobs *)

Definition pin_one (s : bsrv) (handle : Z) : bsrv :=
  match v3da_bo_find s handle with
  | Some i => upd_cnt s i (fun c => with_inflight c (u32 (inflight c + 1)))
  | None => s
  end.
Definition v3da_bo_pin_for_job (s : bsrv) (handles : list Z) : cres () * bsrv :=
  if forallb (fun h => bool_decide (is_Some (v3da_bo_find s h))) handles then (Ok (), fold_left pin_one handles s)
  else (Err ENOENT, s).

Definition mark_one (f : fence) (gseq : Z) (s : bsrv) (handle : Z) : bsrv :=
  match bo_lookup s handle with
  | Some i =>
      if f_queue f <? V3DA_Q_COUNT then
        upd_bo s i (fun b => mk_bo (b_state b) (b_mem b) (b_cnt b) (<[Z.to_nat (f_queue f) := (f, gseq)]> (b_last b))
                               (clear_pt_gen b) (pass b))
      else s
  | None => s
  end.
Definition v3da_bo_mark_use (s : bsrv) (handles : list Z) (f : fence) (gseq : Z) : bsrv :=
  fold_left (mark_one f gseq) handles s.

Definition same_point (a b : fence) : bool := (f_slot a =? f_slot b) && (f_queue a =? f_queue b) && (f_gen a =? f_gen b).

(** The dependency set, and whether it was full. *)
Fixpoint set_merge (dep : list fence) (f : fence) : option (list fence) :=
  match dep with
  | [] => None
  | d :: dep =>
      if same_point d f then
        Some ((if f_seqno d <? f_seqno f then mk_fence (f_slot d) (f_queue d) (f_gen d) (f_seqno f) else d) :: dep)
      else dep ← set_merge dep f; Some (d :: dep)
  end.
Definition v3da_fence_set_add (dep : list fence) (max : Z) (f : fence) : Z * list fence :=
  match set_merge dep f with
  | Some dep => (0, dep)
  | None => if max <=? zlen dep then (1, dep) else (0, dep ++ [f])
  end.

(** A last use that a submission of client slot [slot] waits for. *)
Definition waits_for (s : bsrv) (slot : Z) (f : fence) : bool :=
  negb (f_seqno f =? 0) && negb (f_slot f =? slot) && negb (v3da_fence_signaled (base s) f).1.

Definition dep_add (max : Z) (acc : Z * list fence) (f : fence) : Z * list fence :=
  let '(dropped, dep) := acc in
  let '(d, dep) := v3da_fence_set_add dep max f in (u32 (dropped + d), dep).

Definition deps_of_bo (s : bsrv) (slot max : Z) (acc : Z * list fence) (handle : Z) : Z * list fence :=
  match bo_lookup s handle with
  | None => acc
  | Some i => fold_left (fun acc f => if waits_for s slot f then dep_add max acc f else acc) (map fst (b_last (bo_at s i))) acc
  end.
(** The number of dropped dependencies and the set. *)
Definition v3da_bo_implicit_deps (s : bsrv) (slot : Z) (handles : list Z) (dep : list fence) (max : Z) : Z * list fence :=
  fold_left (deps_of_bo s slot max) handles (0, dep).

Definition unpin_one (s : bsrv) (handle : Z) : bsrv :=
  match bo_lookup s handle with
  | None => s
  | Some i =>
      let s := if 0 <? inflight (b_cnt (bo_at s i)) then upd_cnt s i (fun c => with_inflight c (inflight c - 1)) else s in
      let c := b_cnt (bo_at s i) in
      if (refs c =? 0) && (inflight c =? 0) then quarantine_begin s i else s
  end.
Definition v3da_bo_unpin (s : bsrv) (handles : list Z) : bsrv := fold_left unpin_one handles s.

(** ** The overflow pool *)

Definition v3da_bo_map_ovf_pool (s : bsrv) (bytes : Z) : cres Z * bsrv :=
  let pages := bytes / PAGE_SIZE in
  let '(va, h) := v3da_hw_va_alloc (hwst s) pages in
  let s := set_hw s h in
  if va =? 0 then (Err ENOMEM, s)
  else
    match k_mmap (kern s) bytes false with
    | None => (Err ENOMEM, set_hw s (v3da_hw_va_free (hwst s) va pages))
    | Some (cpu, k) =>
        let k := k_zero k cpu bytes in
        let ptes := map (fun i => pte (k_va2pa k (cpu + i * PAGE_SIZE))) (seqZ 0 pages) in
        let s := set_hw (set_kern s k) (v3da_hw_mmu_flush (bump_pt_gen (pt_fill (hwst s) (va >>> V3D_PAGE_SHIFT) ptes))) in
        (Ok va, set_ovf s (ovf s ++ [(va, pages, cpu)]))
    end.

(** ** Closing, and the end of the quarantine *)

(** A quarantined BO whose entries are out of the TLB and which every queue has passed. *)
Definition quarantine_over (s : bsrv) (b : bo) : bool :=
  bool_decide (b_state b = V3DA_BO_QUARANTINE) && (clear_pt_gen b <=? tlb_gen (hwst s)) &&
  forallb (fun q => arr_get (pass b) q <=? arr_get (hw_completed (base s)) q) (seqZ 0 V3DA_Q_COUNT).

Definition low_release (l : low_st) (foot : Z) : low_st :=
  mk_low (low_budget l) (u64 (low_live l - foot)) (low_peak l) (low_bos l) (low_from_pool l) (low_fallback l)
    (low_tries l) (low_rejected l) (low_notes l).

(** The block goes back: an import's mapping to the kernel, an own block to the pool. *)
Definition release_block (s : bsrv) (b : bo) : bsrv :=
  let m := b_mem b in
  if m_imported m then
    let s := set_kern s (k_munmap (kern s) (m_cpu m) (m_pages m * PAGE_SIZE)) in
    set_prime s (u32 (imports s - 1)) (exports s)
  else
    let s := if m_low m then set_low s (low_release (low s) (v3da_lowmem_footprint (m_pages m) PAGE_SIZE)) else s in
    block_put s (m_cpu m) (m_pa m) (m_pages m) (has (m_flags m) V3DA_BO_CACHEABLE).

Definition poll_one (s : bsrv) (i : nat) : bsrv :=
  let b := bo_at s i in
  if quarantine_over s b then
    let s := release_block s b in
    let s := set_hw s (v3da_hw_va_free (hwst s) (b_gpuva b) (b_pages b)) in
    let s := upd_bo s i (fun _ => no_bo) in
    set_stats s (u32 (bo_quarantine_passed s + 1)) (pages_to_kernel s)
  else s.
Definition v3da_bo_quarantine_poll (s : bsrv) : bsrv := fold_left poll_one (seq 0 (length (bos s))) s.

Definition v3da_bo_close (s : bsrv) (client handle : Z) : bsrv :=
  match v3da_bo_find s handle with
  | None => s
  | Some i =>
      let c := b_cnt (bo_at s i) in
      let bit := client_bit client in
      if has (sharers c) bit then
        v3da_bo_quarantine_poll (bo_unref (upd_cnt s i (fun c => with_sharers c (sharers c &&& lnot_w 64 bit))) i)
      else if negb (owner c =? 0) then
        v3da_bo_quarantine_poll (bo_unref (upd_cnt s i (fun c => with_owner c 0)) i)
      else s
  end.

Definition gone_one (client : Z) (s : bsrv) (i : nat) : bsrv :=
  let b := bo_at s i in
  if negb (bool_decide (b_state b = V3DA_BO_LIVE)) || (refs (b_cnt b) =? 0) then s
  else
    let s := if owner (b_cnt b) =? client then bo_unref (upd_cnt s i (fun c => with_owner c 0)) i else s in
    let b := bo_at s i in
    let bit := client_bit client in
    if bool_decide (b_state b = V3DA_BO_LIVE) && has (sharers (b_cnt b)) bit
    then bo_unref (upd_cnt s i (fun c => with_sharers c (sharers c &&& lnot_w 64 bit))) i else s.
Definition v3da_bo_client_gone (s : bsrv) (client : Z) : bsrv :=
  let s := fold_left (gone_one client) (seq 0 (length (bos s))) s in
  let s := v3da_bo_quarantine_poll s in
  let '(now, k) := k_now (kern s) in
  v3da_bo_pool_tick (set_kern s k) now true.

(** ** Queries *)

Record bo_resp := mk_resp_bo { br_gpuva : Z; br_size : Z; br_mem : memref }.

Definition v3da_bo_mmap (s : bsrv) (handle : Z) : cres bo_resp :=
  match v3da_bo_find s handle with
  | None => Err EINVAL
  | Some i =>
      let m := b_mem (bo_at s i) in
      Ok (mk_resp_bo (m_gpuva m) (u32 (m_pages m * PAGE_SIZE))
            (if m_imported m then m_imp m
             else mk_memref V3DA_MEM_PHYS (if has (m_flags m) V3DA_BO_CACHEABLE then V3DA_CACHE_CACHED else V3DA_CACHE_UNCACHED)
                    0 (m_pages m * PAGE_SIZE) (m_pa m)))
  end.

Definition v3da_bo_offset (s : bsrv) (handle : Z) : cres Z :=
  match v3da_bo_find s handle with None => Err EINVAL | Some i => Ok (b_gpuva (bo_at s i)) end.

Definition count_state (st : bo_state) (l : list bo) : Z := zlen (List.filter (fun b => bool_decide (b_state b = st)) l).
Definition v3da_bo_counts (s : bsrv) : Z * Z * Z :=
  (count_state V3DA_BO_LIVE (bos s), count_state V3DA_BO_QUARANTINE (bos s), zlen (blocks (pool s))).

(** ** Imports *)

Record import_req := mk_import { iq_port : Z; iq_cache : Z; iq_id : Z; iq_size : Z; iq_ns : Z; iq_pad : Z }.

Fixpoint index_where (p : bo -> bool) (l : list bo) : option nat :=
  match l with [] => None | b :: l => if p b then Some O else S <$> index_where p l end.

Definition import_of (client port id : Z) (b : bo) : bool :=
  bool_decide (b_state b = V3DA_BO_LIVE) && m_imported (b_mem b) && (0 <? refs (b_cnt b)) && (owner (b_cnt b) =? client) &&
  (mr_port (m_imp (b_mem b)) =? port) && (mr_addr (m_imp (b_mem b)) =? id).
Definition import_find (s : bsrv) (client port id : Z) : option nat := index_where (import_of client port id) (bos s).

Definition import_reply (b : bo) : create_resp :=
  mk_create (b_handle b) (b_gpuva b) (u32 (b_pages b * PAGE_SIZE)) 0 (m_imp (b_mem b)).

(** What [lookup], [open] (a descriptor or a negative number, and [errno]), [lseek],
    [mmap]'s [errno] and [malloc] answer to [import_map]. *)
Record import_env := mk_ienv {
  ie_lookup : option (Z * Z); ie_fd : Z; ie_open_errno : Z; ie_end : Z; ie_mmap_errno : Z; ie_malloc : bool
}.

Definition errno_of (e : Z) (dflt : errno) : errno := if e =? 0 then dflt else EOTHER e.

(** The size to map, from the request and the end of the descriptor. *)
Definition import_size (rq : import_req) (end_ : Z) : option Z :=
  if iq_size rq =? 0 then if end_ <=? 0 then None else Some end_
  else if (0 <? end_) && (end_ <? iq_size rq) then None else Some (iq_size rq).

Definition bad_page (pa : Z) : bool :=
  (pa =? UINT64_MAX) || negb ((pa &&& (PAGE_SIZE - 1)) =? 0) || ((1 <<< (32 + V3D_PAGE_SHIFT)) <=? pa).

Definition import_map (k : kstate) (rq : import_req) (e : import_env) : cres (Z * list Z * Z) * kstate :=
  match ie_lookup e with
  | None => (Err ENOENT, k)
  | Some (port, id) =>
      if negb (port =? iq_port rq) || negb (id =? iq_id rq) then (Err EINVAL, k)
      else if ie_fd e <? 0 then (Err (errno_of (ie_open_errno e) EIO), k)
      else
        match import_size rq (ie_end e) with
        | None => (Err EINVAL, k)
        | Some size =>
            if negb ((size &&& (PAGE_SIZE - 1)) =? 0) || (V3DA_IMPORT_MAX_SIZE <? size) then (Err EINVAL, k)
            else
              match k_mmap_fd k (ie_fd e) size (negb (iq_cache rq =? V3DA_CACHE_UNCACHED)) with
              | None => (Err (errno_of (ie_mmap_errno e) EINVAL), k)
              | Some (cpu, k) =>
                  let pages := u32 (size / PAGE_SIZE) in
                  if negb (ie_malloc e) then (Err ENOMEM, k_munmap k cpu size)
                  else
                    let pa := map (fun i => k_va2pa k (cpu + i * PAGE_SIZE)) (seqZ 0 pages) in
                    if existsb bad_page pa then (Err (EOTHER 14), k_munmap k cpu size)   (* EFAULT *)
                    else (Ok (cpu, pa, pages), k)
              end
        end
  end.

Definition export_memref (s : bsrv) (b : bo) : memref :=
  mk_memref V3DA_MEM_OID V3DA_CACHE_UNCACHED (buf_port s) (b_pages b * PAGE_SIZE) (b_handle b).

Definition client_used (s : bsrv) (client : Z) : bool := c_used (client_at (base s) (client - 1)).

Definition import_v3dbuf (s : bsrv) (client : Z) (rq : import_req) : cres create_resp * bsrv :=
  if negb (client_used s client) then (Err EBADF, s)
  else if (buf_port s =? 0) || negb (iq_port rq =? buf_port s) then (Err EINVAL, s)
  else
    match (if 0xffffffff <? iq_id rq then None else v3da_bo_find s (iq_id rq)) with
    | None => (Err ENOENT, s)
    | Some i =>
        let b := bo_at s i in
        let c := b_cnt b in
        if negb (exported c) then (Err ENOENT, s)
        else if negb ((iq_size rq &&& (PAGE_SIZE - 1)) =? 0) || (b_pages b * PAGE_SIZE <? iq_size rq) then (Err EINVAL, s)
        else
          let self := (owner c =? client) || has (sharers c) (client_bit client) in
          let s := if self then s
                   else upd_cnt s i (fun c => with_refs (with_sharers c (sharers c ||| client_bit client)) (u32 (refs c + 1))) in
          (Ok (mk_create (b_handle b) (b_gpuva b) (u32 (b_pages b * PAGE_SIZE)) 0 (export_memref s b)), s)
    end.

(** The second critical section of [v3da_bo_import], with the mapping of [import_map]. *)
Definition import_commit (s : bsrv) (client : Z) (rq : import_req) (gen cpu : Z) (pa : list Z) (pages : Z) : cres create_resp * bsrv :=
  let undo s := set_kern s (k_munmap (kern s) cpu (pages * PAGE_SIZE)) in
  if negb (client_used s client) || negb (arr_get (slot_gen (base s)) (client - 1) =? gen) then (Err EBADF, undo s)
  else
    match import_find s client (iq_port rq) (iq_id rq) with
    | Some i => (Ok (import_reply (bo_at s i)), undo s)
    | None =>
        let slot := free_slot (bos s) in
        if bool_decide (slot = length (bos s)) && (V3DA_MAX_BOS <=? zlen (bos s)) then (Err ENOMEM, undo s)
        else
          let '(gpuva, h) := v3da_hw_va_alloc (hwst s) pages in
          let s := set_hw s h in
          if gpuva =? 0 then (Err ENOMEM, undo s)
          else
            let s := if bool_decide (slot = length (bos s)) then set_bos s (bos s ++ [no_bo]) (bo_gen s ++ [0]) else s in
            let s := set_hw s (bump_pt_gen (pt_fill (hwst s) (gpuva >>> V3D_PAGE_SHIFT) (map pte pa))) in
            let s := bo_new s slot client (fun handle =>
              mk_mem handle (if iq_cache rq =? V3DA_CACHE_CACHED then V3DA_BO_CACHEABLE else 0) cpu (pa !!! O) gpuva pages 0 false true
                (mk_memref V3DA_MEM_OID (iq_cache rq) (iq_port rq) (pages * PAGE_SIZE) (iq_id rq))) in
            let s := set_prime s (u32 (imports s + 1)) (exports s) in
            (Ok (import_reply (bo_at s slot)), s)
    end.

(** [v3da_bo_import] up to the mapping: an answer, or the client's generation to go on with. *)
Definition import_begin (s : bsrv) (client : Z) (rq : import_req) : (cres create_resp * bsrv) + Z :=
  if negb (iq_pad rq =? 0) || (client <? 1) || (V3DA_MAX_CLIENTS <? client) then inl (Err EINVAL, s)
  else if iq_ns rq =? V3DA_IMPORT_NS_V3DBUF then inl (import_v3dbuf s client rq)
  else if negb (iq_ns rq =? V3DA_IMPORT_NS_KMSBUF) || (V3DA_CACHE_UNCACHED <? iq_cache rq) then inl (Err EINVAL, s)
  else if negb (client_used s client) then inl (Err EBADF, s)
  else
    match import_find s client (iq_port rq) (iq_id rq) with
    | Some i => inl (Ok (import_reply (bo_at s i)), s)
    | None => inr (arr_get (slot_gen (base s)) (client - 1))
    end.

(** The mapping, made without the lock; a failure answers the request. *)
Definition import_mapped (s : bsrv) (rq : import_req) (e : import_env) : cres (Z * list Z * Z) * bsrv :=
  let '(r, k) := import_map (kern s) rq e in (r, set_kern s k).

(** ** Exports and their names *)

Definition v3da_bo_export (s : bsrv) (client handle : Z) : cres bo_resp * bsrv :=
  match v3da_bo_find s handle with
  | None => (Err ENOENT, s)
  | Some i =>
      let b := bo_at s i in
      let c := b_cnt b in
      let reply s := (Ok (mk_resp_bo (b_gpuva b) (u32 (b_pages b * PAGE_SIZE)) (export_memref s b)), s) in
      if negb (owner c =? client) && negb (has (sharers c) (client_bit client)) then (Err ENOENT, s)
      else if m_imported (b_mem b) || (0 <? m_scanout (b_mem b)) || has (m_flags (b_mem b)) V3DA_BO_CACHEABLE then (Err EINVAL, s)
      else if buf_port s =? 0 then (Err ENODEV, s)
      else if exported c then reply s
      else
        let '(rc, k) := k_export (kern s) (buf_port s, b_handle b) (m_cpu (b_mem b)) (b_pages b * PAGE_SIZE) in
        let s := set_kern s k in
        if negb (rc =? 0) then (Err (if rc <? 0 then EOTHER (- rc) else EIO), s)
        else
          let s := upd_cnt s i (fun c => with_exported c true) in
          reply (set_prime s (imports s) (u32 (exports s + 1)))
  end.

Definition bo_by_export (s : bsrv) (id : Z) : option nat :=
  i ← (if negb (id =? 0) && (id <=? 0xffffffff) then bo_lookup s id else None);
  let c := b_cnt (bo_at s i) in
  if exported c && (0 <? refs c) then Some i else None.

(** The name space thread: [mtOpen], [mtClose] and [atSize] of an object id. *)
Definition bufns_open (s : bsrv) (id : Z) : cres () * bsrv :=
  if id =? 0 then (Ok (), s)
  else match bo_by_export s id with
       | None => (Err ENOENT, s)
       | Some i => (Ok (), upd_cnt s i (fun c => with_refs (with_opens c (u32 (fd_opens c + 1))) (u32 (refs c + 1))))
       end.

Definition bufns_close (s : bsrv) (id : Z) : bsrv :=
  match (if negb (id =? 0) && (id <=? 0xffffffff) then bo_lookup s id else None) with
  | None => s
  | Some i =>
      if 0 <? fd_opens (b_cnt (bo_at s i)) then
        v3da_bo_quarantine_poll (bo_unref (upd_cnt s i (fun c => with_opens c (fd_opens c - 1))) i)
      else s
  end.

Definition bufns_size (s : bsrv) (id : Z) : cres Z :=
  match bo_by_export s id with None => Err ENOENT | Some i => Ok (b_pages (bo_at s i) * PAGE_SIZE) end.

(** ** Implicit sync between processes *)

Record sync_req := mk_sreq { sq_ns : Z; sq_port : Z; sq_id : Z; sq_handle : Z; sq_flags : Z }.

(** The slots of the live imports of [port, id], at most [max]. *)
Fixpoint import_slots (l : list bo) (i : nat) (port id : Z) (max : nat) : list nat :=
  match l, max with
  | b :: l, S more =>
      if bool_decide (b_state b = V3DA_BO_LIVE) && m_imported (b_mem b) && (0 <? refs (b_cnt b)) &&
         (mr_port (m_imp (b_mem b)) =? port) && (mr_addr (m_imp (b_mem b)) =? id)
      then i :: import_slots l (S i) port id more else import_slots l (S i) port id max
  | _, _ => []
  end.

Definition v3da_bo_sync_targets (s : bsrv) (client : Z) (rq : sync_req) (max : Z) : cres (list nat) :=
  if negb (sq_flags rq =? 0) || (max =? 0) then Err EINVAL
  else if sq_ns rq =? V3DA_BO_SYNC_HANDLE then
    match v3da_bo_find s (sq_handle rq) with
    | None => Err ENOENT
    | Some i =>
        let c := b_cnt (bo_at s i) in
        if negb (owner c =? client) && negb (has (sharers c) (client_bit client)) then Err ENOENT else Ok [i]
    end
  else if sq_ns rq =? V3DA_IMPORT_NS_V3DBUF then
    if (buf_port s =? 0) || negb (sq_port rq =? buf_port s) then Err EINVAL
    else match bo_by_export s (sq_id rq) with None => Err ENOENT | Some i => Ok [i] end
  else if sq_ns rq =? V3DA_IMPORT_NS_KMSBUF then Ok (import_slots (bos s) 0 (sq_port rq) (sq_id rq) (Z.to_nat max))
  else Err EINVAL.

Definition NCAND : Z := 24.

(** The candidates with their submission order, and whether one found no room. *)
Fixpoint cand_merge (cand : list (fence * Z)) (f : fence * Z) : option (list (fence * Z)) :=
  match cand with
  | [] => None
  | c :: cand =>
      if same_point c.1 f.1 then Some ((if f_seqno c.1 <? f_seqno f.1 then f else c) :: cand)
      else l ← cand_merge cand f; Some (c :: l)
  end.
Definition cand_add (s : bsrv) (acc : list (fence * Z) * bool) (f : fence * Z) : list (fence * Z) * bool :=
  let '(cand, more) := acc in
  if (f_seqno f.1 =? 0) || (v3da_fence_signaled (base s) f.1).1 then acc
  else match cand_merge cand f with
       | Some cand => (cand, more)
       | None => if zlen cand <? NCAND then (cand ++ [f], more) else (cand, true)
       end.
Definition candidates (s : bsrv) (targets : list nat) : list (fence * Z) * bool :=
  fold_left (cand_add s) (concat (map (fun i => b_last (bo_at s i)) targets)) ([], false).

(** The first newest candidate, exchanged with the head. *)
Fixpoint newest (l : list (fence * Z)) (k best : nat) (g : Z) : nat :=
  match l with [] => best | c :: l => if g <? c.2 then newest l (S k) k c.2 else newest l (S k) best g end.
Definition bring_newest (l : list (fence * Z)) : list (fence * Z) :=
  match l with
  | [] => []
  | c :: l' => let k := newest l' 1 0 c.2 in
               match k with O => l | S k' => (l' !!! k') :: <[k' := c]> l' end
  end.
(** [out->f]: at most [n] of them, newest first. *)
Fixpoint pick_newest (n : nat) (l : list (fence * Z)) : list fence :=
  match n with
  | O => []
  | S n => match bring_newest l with [] => [] | c :: l => c.1 :: pick_newest n l end
  end.

(** The fences and the flags. *)
Definition v3da_bo_last_fence (s : bsrv) (client : Z) (rq : sync_req) : cres (list fence * Z) :=
  match v3da_bo_sync_targets s client rq V3DA_MAX_CLIENTS with
  | Err e => Err e
  | Ok t =>
      let '(cand, more) := candidates s t in
      Ok (pick_newest (Z.to_nat V3DA_BO_FENCES_MAX) cand,
          if more || (V3DA_BO_FENCES_MAX <? zlen cand) then V3DA_BO_FENCES_MORE else 0)
  end.

End Bo.
End V3daBo.
