(* ===== verification/V3daBoCore.v ===== *)
(** * Memory and page table of the BO manager

    The laws of the kernel the BO manager relies on, the invariant [core] of its
    memory (who owns which mapping, which GPU address and which page-table entry), and
    the lemmas that the building blocks of the operations keep it. *)

From S2P Require Import Prelude V3daSched V3daPool V3daBo.

Module V3daBoCore.
Import V3da V3daPool V3daBo.

(** ** The kernel's laws

    [k_regions] is the map of the server's mappings: start address, whether it is an
    anonymous block (or a window on another process's buffer), physical addresses of
    its pages. [k_fw] says which physical addresses belong to the firmware's
    framebuffer. Anonymous memory is nobody else's, its physical addresses and those of the framebuffer fit the
    frame field of a page-table entry (below 2^40), and [va2pa] tells the truth. Windows on other buffers may lie anywhere. *)
Class KernelLaws (K : Kernel) := {
  k_ok : kstate -> Prop;
  k_regions : kstate -> gmap Z (bool * list Z);
  k_fw : Z -> Prop;
  k_zeroed : kstate -> Z -> Prop;
  k_fw_page pa : k_fw pa -> pa mod 4096 = 0 /\ 0 <= pa < 2 ^ 40;
  k_page k c a p pa : k_ok k -> k_regions k !! c = Some (a, p) -> pa ∈ p ->
    pa mod 4096 = 0 /\ 0 <= pa /\ (a = true -> pa < 2 ^ 40 /\ ~ k_fw pa);
  k_disjoint k c1 c2 p1 a p2 pa : k_ok k -> c1 <> c2 -> k_regions k !! c1 = Some (true, p1) ->
    k_regions k !! c2 = Some (a, p2) -> pa ∈ p1 -> pa ∈ p2 -> False;
  k_resolve k c a p i pa : k_ok k -> k_regions k !! c = Some (a, p) -> p !! i = Some pa ->
    k_va2pa k (c + Z.of_nat i * 4096) = pa;
  k_mmap_law k n cached cpu k' : k_ok k -> 0 <= n -> k_mmap k (n * 4096) cached = Some (cpu, k') ->
    k_ok k' /\ k_regions k !! cpu = None /\
    exists p, zlen p = n /\ k_regions k' = <[cpu := (true, p)]> (k_regions k);
  k_mmap_fd_law k fd n cached cpu k' : k_ok k -> 0 <= n -> k_mmap_fd k fd (n * 4096) cached = Some (cpu, k') ->
    k_ok k' /\ k_regions k !! cpu = None /\
    exists p, zlen p = n /\ k_regions k' = <[cpu := (false, p)]> (k_regions k);
  k_munmap_law k cpu a p : k_ok k -> k_regions k !! cpu = Some (a, p) ->
    k_ok (k_munmap k cpu (zlen p * 4096)) /\ k_regions (k_munmap k cpu (zlen p * 4096)) = delete cpu (k_regions k);
  k_zero_law k cpu a p : k_ok k -> k_regions k !! cpu = Some (a, p) ->
    k_ok (k_zero k cpu (zlen p * 4096)) /\ k_regions (k_zero k cpu (zlen p * 4096)) = k_regions k /\
    k_zeroed (k_zero k cpu (zlen p * 4096)) cpu;
  k_export_law k oid cpu n : k_ok k -> k_ok (k_export k oid cpu n).2 /\ k_regions (k_export k oid cpu n).2 = k_regions k;
  k_unexport_law k oid : k_ok k -> k_ok (k_unexport k oid) /\ k_regions (k_unexport k oid) = k_regions k;
  k_now_law k : k_ok k -> k_ok (k_now k).2 /\ k_regions (k_now k).2 = k_regions k
}.

(** ** Page-table entries *)

Lemma shr12 x : x >>> V3D_PAGE_SHIFT = x / 4096.
Proof. unfold V3D_PAGE_SHIFT. by rewrite Z.shiftr_div_pow2. Qed.

(** An entry is the frame number and the two flags, side by side. *)
Lemma pte_eq pa : 0 <= pa < 2 ^ 40 -> pte pa = pa / 4096 + 3 * 2 ^ 28.
Proof.
  intros H. unfold pte. rewrite shr12, <- Z.lor_assoc. change (PTE_W ||| PTE_V) with (3 <<< 28).
  assert (0 <= pa / 4096 < 2 ^ 28) by divlia.
  rewrite u32_small by lia. rewrite Z.lor_comm, lor_shift by lia. lia.
Qed.

Lemma pte_inj pa pa' :
  0 <= pa < 2 ^ 40 -> pa mod 4096 = 0 -> 0 <= pa' < 2 ^ 40 -> pa' mod 4096 = 0 -> pte pa = pte pa' -> pa = pa'.
Proof. intros H Hm H' Hm'. rewrite !pte_eq by done. divlia. Qed.

(** Beyond the frame field entries no longer tell addresses apart. *)
Lemma pte_alias pa : 0 <= pa < 2 ^ 40 -> pte (2 ^ 40 + pa) = pte pa.
Proof.
  intros H. rewrite (pte_eq pa) by done. unfold pte. rewrite shr12, <- Z.lor_assoc. change (PTE_W ||| PTE_V) with (3 <<< 28).
  assert (0 <= pa / 4096 < 2 ^ 28) by divlia.
  replace ((2 ^ 40 + pa) / 4096) with (1 * 2 ^ 28 + pa / 4096) by divlia. rewrite u32_small by lia. rewrite <- (lor_shift 1 (pa / 4096) 28) by lia.
  rewrite Z.lor_comm, Z.lor_assoc, <- Z.shiftl_lor. change (3 ||| 1) with 3. rewrite lor_shift by lia. lia.
Qed.

Lemma pte_valid pa : has (pte pa) PTE_V = true.
Proof.
  unfold has. apply negb_true_iff, Z.eqb_neq. intros E.
  assert (Hb : Z.testbit (pte pa &&& PTE_V) 28 = true).
  { rewrite Z.land_spec. unfold pte. rewrite Z.lor_spec. change (Z.testbit PTE_V 28) with true. by rewrite orb_true_r. }
  rewrite E, Z.bits_0 in Hb. done.
Qed.

Lemma pte_nonzero pa : pte pa <> 0.
Proof. intros E. pose proof (pte_valid pa) as H. rewrite E in H. done. Qed.

Lemma pt_get_set h i v j : pt_get (pt_set h i v) j = if decide (j = i) then v else pt_get h j.
Proof.
  unfold pt_get, pt_set. cbn. destruct (decide (j = i)) as [->|Hne]; [by rewrite lookup_insert_eq|].
  by rewrite lookup_insert_ne by congruence.
Qed.

(** What a fill leaves in the table. *)
Lemma pt_fill_get l : forall h at_ j,
  pt_get (pt_fill h at_ l) j =
  if bool_decide (at_ <= j < at_ + zlen l) then l !!! Z.to_nat (j - at_) else pt_get h j.
Proof.
  induction l as [|v l IH]; intros h at_ j; cbn [pt_fill].
  { rewrite bool_decide_eq_false_2; [done|]. unfold zlen. cbn. lia. }
  rewrite IH, pt_get_set. unfold zlen. cbn [length]. destruct (decide (j = at_)) as [->|Hne].
  - rewrite bool_decide_eq_false_2, bool_decide_eq_true_2 by lia. by replace (Z.to_nat (at_ - at_)) with O by lia.
  - repeat case_bool_decide; try lia. replace (Z.to_nat (j - at_)) with (S (Z.to_nat (j - (at_ + 1)))) by lia. done.
Qed.

(** The fields a fill does not touch, and the entries it writes. *)
Lemma pt_fill_frame l : forall h at_,
  pt_entries (pt_fill h at_ l) = pt_entries h /\ next_gpuva (pt_fill h at_ l) = next_gpuva h /\
  holes (pt_fill h at_ l) = holes h /\ pt_gen (pt_fill h at_ l) = pt_gen h /\ tlb_gen (pt_fill h at_ l) = tlb_gen h.
Proof. induction l as [|v l IH]; intros h at_; cbn [pt_fill]; [done|]. destruct (IH (pt_set h at_ v) (at_ + 1)) as (-> & -> & -> & -> & ->). done. Qed.

Lemma pt_fill_dom l : forall h at_ j,
  is_Some (pt (pt_fill h at_ l) !! j) -> is_Some (pt h !! j) \/ at_ <= j < at_ + zlen l.
Proof.
  induction l as [|v l IH]; intros h at_ j; cbn [pt_fill]; [by left|]. intros H. apply IH in H as [H|H].
  - cbn in H. destruct (decide (j = at_)) as [->|Hne]; [right; unfold zlen; cbn; lia|].
    rewrite lookup_insert_ne in H by congruence. by left.
  - right. unfold zlen in *. cbn in *. lia.
Qed.

(** A fill makes stale exactly valid entries it overwrites. *)
Lemma pt_fill_stale l : forall h at_ j v,
  (j, v) ∈ stale (pt_fill h at_ l) <->
  (j, v) ∈ stale h \/ (at_ <= j < at_ + zlen l /\ v = pt_get h j /\ has v PTE_V = true).
Proof.
  induction l as [|x l IH]; intros h at_ j v; cbn [pt_fill].
  { unfold zlen. cbn. split; [by left|]. intros [?|?]; [done|lia]. }
  rewrite IH, pt_get_set. unfold zlen. cbn [length]. cbn [stale pt_set]. split.
  - intros [H|(Hr & Hv & Hb)].
    + destruct (has (pt_get h at_) PTE_V) eqn:E; [|by left]. apply elem_of_cons in H as [[= -> ->]|H]; [right|by left].
      split_and!; [lia|lia|done|done].
    + destruct (decide (j = at_)) as [->|]; [lia|]. right. split_and!; [lia|lia|done|done].
  - intros [H|(Hr & Hv & Hb)].
    + left. destruct (has (pt_get h at_) PTE_V); [by right|done].
    + destruct (decide (j = at_)) as [->|]; [left; subst v; rewrite Hb; by left|right; split_and!; [lia|lia|done|done]].
Qed.

(** The stale entries that count: those the TLB may hold when the last flush has completed. *)
Definition held (h : hw) : list (Z * Z) := if late h then [] else stale h.

Lemma pt_fill_late l : forall h at_, late (pt_fill h at_ l) = late h.
Proof. induction l as [|x l IH]; intros h at_; cbn [pt_fill]; [done|]. by rewrite IH. Qed.

Lemma pt_fill_held l h at_ j v :
  (j, v) ∈ held (pt_fill h at_ l) <->
  (j, v) ∈ held h \/ (late h = false /\ at_ <= j < at_ + zlen l /\ v = pt_get h j /\ has v PTE_V = true).
Proof.
  unfold held. rewrite pt_fill_late. destruct (late h); [|rewrite pt_fill_stale; tauto]. split; [by left|]. by intros [?|[? _]].
Qed.

(** ** The invariant *)

(** Pages of a range of GPU addresses. *)
Definition range (r : Z * Z) : list Z := seqZ (r.1 / 4096) r.2.

Lemma elem_of_range j va n : j ∈ range (va, n) <-> va / 4096 <= j < va / 4096 + n.
Proof. unfold range. rewrite elem_of_seqZ. cbn. lia. Qed.

Section core.
Context `{KL : KernelLaws}.

Definition bo_cpus (b : bo) : list Z := if bool_decide (b_state b = V3DA_BO_FREE) then [] else [m_cpu (b_mem b)].
Definition bo_ranges (b : bo) : list (Z * Z) :=
  if bool_decide (b_state b = V3DA_BO_FREE) then [] else [(b_gpuva b, b_pages b)].

(** Mappings and GPU ranges by owner: BOs, pool or holes, overflow pool, and those an
    operation holds in between ([L], [V]). *)
Definition cpus (s : bsrv) (L : list (Z * bool * list Z)) : list Z :=
  concat (map bo_cpus (bos s)) ++ map pb_cpu (blocks (pool s)) ++ map snd (ovf s) ++ map (fun l => l.1.1) L.
Definition ranges (s : bsrv) (V : list (Z * Z)) : list (Z * Z) :=
  concat (map bo_ranges (bos s)) ++ holes (hwst s) ++ map fst (ovf s) ++ V.

Definition regions (s : bsrv) : gmap Z (bool * list Z) := k_regions (kern s).

(** A block of [pages] pages at physical address [pa]. *)
Definition block_ok (R : gmap Z (bool * list Z)) (cpu : Z) (anon : bool) (pages pa : Z) : Prop :=
  exists p, R !! cpu = Some (anon, p) /\ zlen p = pages /\ p !! O = Some pa /\ pages <= 2 ^ 18.

(** [v] maps page [off] of the mapping at [cpu], or the framebuffer. *)
Definition maps_page (R : gmap Z (bool * list Z)) (cpu off v : Z) : Prop :=
  exists a p pa, R !! cpu = Some (a, p) /\ v = pte pa /\ (p !! Z.to_nat off = Some pa \/ k_fw pa).

Record core (s : bsrv) (L : list (Z * bool * list Z)) (V : list (Z * Z)) : Prop := {
  co_k : k_ok (kern s);
  co_cpus : NoDup (cpus s L);
  co_bo : forall b, b ∈ bos s -> b_state b <> V3DA_BO_FREE ->
    block_ok (regions s) (m_cpu (b_mem b)) (negb (m_imported (b_mem b))) (b_pages b) (m_pa (b_mem b));
  co_pool : forall b, b ∈ blocks (pool s) -> block_ok (regions s) (pb_cpu b) true (pb_pages b) (pb_pa b);
  co_ovf : forall va n c, (va, n, c) ∈ ovf s -> exists p, regions s !! c = Some (true, p) /\ zlen p = n;
  co_loose : forall c a p, (c, a, p) ∈ L -> regions s !! c = Some (a, p);
  co_vas : NoDup (concat (map range (ranges s V)));
  co_range : forall va n, (va, n) ∈ ranges s V -> va mod 4096 = 0 /\ 0 < n /\ 0x100000 <= va /\ va + n * 4096 <= next_gpuva (hwst s);
  co_next : next_gpuva (hwst s) mod 4096 = 0 /\ 0x100000 <= next_gpuva (hwst s) <= 2 ^ 30 /\ pt_entries (hwst s) = 2 ^ 18;
  co_dom : forall j, is_Some (pt (hwst s) !! j) -> 0 <= j < pt_entries (hwst s);
  co_live : forall b, b ∈ bos s -> b_state b = V3DA_BO_LIVE -> forall off, 0 <= off < b_pages b ->
    maps_page (regions s) (m_cpu (b_mem b)) off (pt_get (hwst s) (b_gpuva b / 4096 + off));
  co_omap : forall va n c, (va, n, c) ∈ ovf s -> forall off, 0 <= off < n -> maps_page (regions s) c off (pt_get (hwst s) (va / 4096 + off));
  co_zero : forall j, (forall b, b ∈ bos s -> b_state b = V3DA_BO_LIVE -> j ∉ range (b_gpuva b, b_pages b)) ->
    (forall o, o ∈ ovf s -> j ∉ range o.1) -> pt_get (hwst s) j = 0;
  co_stale : forall j v, (j, v) ∈ held (hwst s) -> exists b off, b ∈ bos s /\ b_state b = V3DA_BO_QUARANTINE /\
    tlb_gen (hwst s) < clear_pt_gen b /\ 0 <= off < b_pages b /\ j = b_gpuva b / 4096 + off /\
    maps_page (regions s) (m_cpu (b_mem b)) off v;
  co_gen : 0 <= tlb_gen (hwst s) <= pt_gen (hwst s);
  co_clear : forall b, b ∈ bos s -> b_state b = V3DA_BO_QUARANTINE -> clear_pt_gen b <= pt_gen (hwst s);
  co_scan : forall i off, 0 <= i < scan_nbuf (scan s) -> 0 <= off < scan_bytes (scan s) / 4096 ->
    k_fw (u32 (scan_pa (scan s) + u32 (i * scan_bytes (scan s))) + off * 4096)
}.
End core.

(** ** Ownership lists *)

Lemma concat_map_insert {A} (f : bo -> list A) (l : list bo) i b b' :
  l !! i = Some b ->
  concat (map f l) ≡ₚ f b ++ concat (map f (delete i l)) /\
  concat (map f (<[i := b']> l)) ≡ₚ f b' ++ concat (map f (delete i l)).
Proof.
  intros Hi. rewrite insert_take_drop, delete_take_drop by by eapply lookup_lt_Some.
  rewrite <- (take_drop_middle l i b Hi) at 1. rewrite !map_app, !concat_app. cbn. split; solve_Permutation.
Qed.

Lemma elem_of_concat_map {A B} (f : A -> list B) (l : list A) x : x ∈ concat (map f l) <-> exists y, y ∈ l /\ x ∈ f y.
Proof.
  rewrite !list_elem_of_In, in_concat. split.
  - intros (k & Hk & Hx). apply in_map_iff in Hk as (y & <- & Hy). exists y. by rewrite !list_elem_of_In.
  - intros (y & Hy & Hx). exists (f y). rewrite !list_elem_of_In in *. split; [by apply in_map|done].
Qed.

Lemma NoDup_concat_range_split r rs j :
  NoDup (concat (map range (r :: rs))) -> j ∈ range r -> j ∉ concat (map range rs).
Proof. cbn. intros H. apply NoDup_app in H as (_ & H & _). apply H. Qed.

Section lists.
Context `{KL : KernelLaws}.
Implicit Types (s : bsrv) (b : bo).

Lemma cpus_bo s L b : b ∈ bos s -> b_state b <> V3DA_BO_FREE -> m_cpu (b_mem b) ∈ cpus s L.
Proof.
  intros Hb Hs. unfold cpus. apply elem_of_app. left. apply elem_of_concat_map. exists b. split; [done|].
  unfold bo_cpus. rewrite bool_decide_eq_false_2 by done. by left.
Qed.
Lemma cpus_pool s L pb : pb ∈ blocks (pool s) -> pb_cpu pb ∈ cpus s L.
Proof. intros H. unfold cpus. apply elem_of_app. right. apply elem_of_app. left. by apply list_elem_of_fmap_2. Qed.
Lemma cpus_ovf s L o : o ∈ ovf s -> o.2 ∈ cpus s L.
Proof. intros H. unfold cpus. rewrite !elem_of_app. right. right. left. by apply list_elem_of_fmap_2. Qed.
Lemma cpus_loose s L c a p : (c, a, p) ∈ L -> c ∈ cpus s L.
Proof. intros H. unfold cpus. rewrite !elem_of_app. do 3 right. by apply (list_elem_of_fmap_2 (fun l => l.1.1)) in H. Qed.

Lemma cpus_cons s L c a p : cpus s ((c, a, p) :: L) ≡ₚ c :: cpus s L.
Proof. unfold cpus. cbn. solve_Permutation. Qed.

Lemma ranges_bo s V b : b ∈ bos s -> b_state b <> V3DA_BO_FREE -> (b_gpuva b, b_pages b) ∈ ranges s V.
Proof.
  intros Hb Hs. unfold ranges. apply elem_of_app. left. apply elem_of_concat_map. exists b. split; [done|].
  unfold bo_ranges. rewrite bool_decide_eq_false_2 by done. by left.
Qed.
Lemma ranges_ovf s V va n c : (va, n, c) ∈ ovf s -> (va, n) ∈ ranges s V.
Proof. intros H. unfold ranges. rewrite !elem_of_app. right. right. left. by apply (list_elem_of_fmap_2 fst) in H. Qed.
Lemma ranges_cons s V r : ranges s (r :: V) ≡ₚ r :: ranges s V.
Proof. unfold ranges. solve_Permutation. Qed.

Lemma concat_range_perm (l l' : list (Z * Z)) : l ≡ₚ l' -> concat (map range l) ≡ₚ concat (map range l').
Proof. intros H. rewrite <- !flat_map_concat_map. by rewrite H. Qed.

Lemma elem_of_ranges j r (l : list (Z * Z)) : r ∈ l -> j ∈ range r -> j ∈ concat (map range l).
Proof. intros Hr Hj. apply elem_of_concat_map. eauto. Qed.

(** Two owners of one page are the same range. *)
Lemma ranges_unique (l : list (Z * Z)) i k r1 r2 j :
  NoDup (concat (map range l)) -> l !! i = Some r1 -> l !! k = Some r2 -> j ∈ range r1 -> j ∈ range r2 -> i = k.
Proof.
  revert i k. induction l as [|r l IH]; intros i k Hnd Hi Hk H1 H2; [done|].
  cbn in Hnd. pose proof Hnd as (_ & Hdis & Hnd')%NoDup_app.
  destruct i as [|i], k as [|k]; cbn in Hi, Hk; simplify_eq; [done| | |f_equal; by apply IH].
  - exfalso. apply (Hdis j H1). eapply elem_of_ranges; [|exact H2]. by eapply list_elem_of_lookup_2.
  - exfalso. apply (Hdis j H2). eapply elem_of_ranges; [|exact H1]. by eapply list_elem_of_lookup_2.
Qed.

(** ** Steps that only change what the invariant does not read *)

Definition same_view (b b' : bo) : Prop :=
  b_state b' = b_state b /\ b_mem b' = b_mem b /\ clear_pt_gen b' = clear_pt_gen b.

Lemma same_view_in l l' b' : Forall2 same_view l l' -> b' ∈ l' -> exists b, b ∈ l /\ same_view b b'.
Proof.
  intros H Hb. apply list_elem_of_lookup in Hb as [i Hi]. destruct (Forall2_lookup_r _ _ _ _ _ H Hi) as (b & Hbi & Hv).
  exists b. split; [by eapply list_elem_of_lookup_2|done].
Qed.
Lemma same_view_in_l l l' b : Forall2 same_view l l' -> b ∈ l -> exists b', b' ∈ l' /\ same_view b b'.
Proof.
  intros H Hb. apply list_elem_of_lookup in Hb as [i Hi]. destruct (Forall2_lookup_l _ _ _ _ _ H Hi) as (b' & Hbi & Hv).
  exists b'. split; [by eapply list_elem_of_lookup_2|done].
Qed.

Lemma core_ext s s' L V :
  core s L V -> Forall2 same_view (bos s) (bos s') -> hwst s' = hwst s -> blocks (pool s') = blocks (pool s) ->
  ovf s' = ovf s -> scan_pa (scan s') = scan_pa (scan s) -> scan_bytes (scan s') = scan_bytes (scan s) ->
  scan_nbuf (scan s') = scan_nbuf (scan s) -> k_ok (kern s') -> regions s' = regions s -> core s' L V.
Proof.
  intros H Hb Hh Hp Ho S1 S2 S3 Hk Hr.
  assert (E1 : concat (map bo_cpus (bos s')) = concat (map bo_cpus (bos s))).
  { f_equal. clear - Hb. induction Hb as [|b b' l l' (Hs & Hm & _) _ IH]; cbn; [done|]. f_equal; [|done].
    unfold bo_cpus. by rewrite Hs, Hm. }
  assert (E2 : concat (map bo_ranges (bos s')) = concat (map bo_ranges (bos s))).
  { f_equal. clear - Hb. induction Hb as [|b b' l l' (Hs & Hm & _) _ IH]; cbn; [done|]. f_equal; [|done].
    unfold bo_ranges, b_gpuva, b_pages. by rewrite Hs, Hm. }
  destruct H as [H1 H2 H3 H4 H5 H6 H7 H8 H9 H10 H11 H12 H13 H14 H15 H16 H17].
  constructor; unfold cpus, ranges in *; rewrite ?Hh, ?Hp, ?Ho, ?Hr, ?E1, ?E2, ?S1, ?S2, ?S3; try done.
  - intros b' Hb' Hf. destruct (same_view_in _ _ _ Hb Hb') as (b & Hin & Hs & Hm & Hc). unfold b_pages in *.
    rewrite Hm. rewrite Hs in Hf. by apply H3.
  - intros b' Hb' Hf. destruct (same_view_in _ _ _ Hb Hb') as (b & Hin & Hs & Hm & Hc). unfold b_pages, b_gpuva in *.
    rewrite Hm. rewrite Hs in Hf. by apply H11.
  - intros j Hj. apply H13. intros b Hin Hs. destruct (same_view_in_l _ _ _ Hb Hin) as (b' & Hin' & Hs' & Hm & _).
    specialize (Hj b' Hin'). unfold b_gpuva, b_pages in *. rewrite Hs', Hm in Hj. auto.
  - intros j v Hjv. destruct (H14 j v Hjv) as (b & off & Hin & Hs & Hc & Hrest).
    destruct (same_view_in_l _ _ _ Hb Hin) as (b' & Hin' & Hs' & Hm & Hc'). exists b', off.
    unfold b_gpuva, b_pages in *. rewrite Hs', Hm, Hc'. done.
  - intros b' Hb' Hf. destruct (same_view_in _ _ _ Hb Hb') as (b & Hin & Hs & Hm & Hc). rewrite Hc. rewrite Hs in Hf. auto.
Qed.

Lemma same_view_refl l : Forall2 same_view l l.
Proof. apply Forall_Forall2_diag, Forall_true. done. Qed.

Lemma same_view_alter f i l : (forall b, same_view b (f b)) -> Forall2 same_view l (alter f i l).
Proof.
  intros Hf. apply Forall2_same_length_lookup_2; [by rewrite length_alter|]. intros j x y Hx Hy.
  destruct (decide (i = j)) as [->|Hne].
  - rewrite list_lookup_alter_eq, Hx in Hy. cbn in Hy. simplify_eq. apply Hf.
  - rewrite list_lookup_alter_ne, Hx in Hy by done. by simplify_eq.
Qed.

Lemma core_upd s L V i f : core s L V -> (forall b, same_view b (f b)) -> core (upd_bo s i f) L V.
Proof. intros H Hf. eapply core_ext; [exact H|by apply same_view_alter|done..|apply H|done]. Qed.

Lemma core_cnt s L V i f : core s L V -> core (upd_cnt s i f) L V.
Proof. intros H. apply core_upd; [done|]. intros b. done. Qed.

(** A kernel call that changes no mapping. *)
Lemma core_kern s L V k : core s L V -> k_ok k -> k_regions k = regions s -> core (set_kern s k) L V.
Proof. intros H Hk Hr. eapply core_ext; [exact H|apply same_view_refl|done..]. Qed.

Lemma maps_page_ext (R R' : gmap Z (bool * list Z)) c off v : R' !! c = R !! c -> maps_page R c off v -> maps_page R' c off v.
Proof. intros E (a & p & pa & Hc & H). exists a, p, pa. by rewrite E. Qed.

(** A change of the mappings that leaves every owned one alone. *)
Lemma core_regions s L V k :
  core s L V -> k_ok k -> (forall c, c ∈ cpus s L -> k_regions k !! c = regions s !! c) -> core (set_kern s k) L V.
Proof.
  intros H Hk Hr. destruct H as [H1 H2 H3 H4 H5 H6 H7 H8 H9 H10 H11 H12 H13 H14 H15 H16 H17].
  assert (Hbo : forall b, b ∈ bos s -> b_state b <> V3DA_BO_FREE -> k_regions k !! m_cpu (b_mem b) = regions s !! m_cpu (b_mem b)).
  { intros b Hb Hs. by apply Hr, cpus_bo. }
  constructor; try done; unfold regions; cbn [kern set_kern].
  - intros b Hb Hs. destruct (H3 b Hb Hs) as (p & Hp & Hrest). exists p. by rewrite Hbo.
  - intros b Hb. destruct (H4 b Hb) as (p & Hp & Hrest). exists p. rewrite Hr; [done|]. by apply cpus_pool.
  - intros va n c Ho. rewrite Hr; [by eapply H5|]. by apply (cpus_ovf s L (va, n, c)).
  - intros c a p Hl. rewrite Hr; [by apply H6|]. by eapply cpus_loose.
  - intros b Hb Hs off Hoff. eapply maps_page_ext; [|by apply H11]. apply Hbo; [done|by rewrite Hs].
  - intros va n c Ho off Hoff. eapply maps_page_ext; [|by eapply H12]. apply Hr. by apply (cpus_ovf s L (va, n, c)).
  - intros j v Hjv. destruct (H14 j v Hjv) as (b & off & Hb & Hs & Hc & Hoff & Hj & Hm). exists b, off. split_and!; try done; try lia.
    eapply maps_page_ext; [|done]. apply Hbo; [done|by rewrite Hs].
Qed.

(** A new mapping, held by the operation. *)
Lemma core_mapped s L V k cpu a p :
  core s L V -> k_ok k -> regions s !! cpu = None -> k_regions k = <[cpu := (a, p)]> (regions s) ->
  core (set_kern s k) ((cpu, a, p) :: L) V.
Proof.
  intros H Hk Hn Hr.
  assert (Hown : forall c, c ∈ cpus s L -> is_Some (regions s !! c)).
  { intros c. unfold cpus. rewrite !elem_of_app. intros [Hc|[Hc|[Hc|Hc]]].
    - apply elem_of_concat_map in Hc as (b & Hb & Hcl).
      unfold bo_cpus in Hcl. case_bool_decide as Hs; [by apply elem_of_nil in Hcl|].
      apply list_elem_of_singleton in Hcl as ->. destruct (co_bo _ _ _ H b Hb Hs) as (p' & -> & _). done.
    - apply list_elem_of_fmap in Hc as (b & -> & Hb). destruct (co_pool _ _ _ H b Hb) as (p' & -> & _). done.
    - apply list_elem_of_fmap in Hc as ([[va n] c'] & -> & Ho). cbn. destruct (co_ovf _ _ _ H va n c' Ho) as (p' & -> & _). done.
    - apply list_elem_of_fmap in Hc as ([[c' a'] p'] & -> & Hl). cbn. by rewrite (co_loose _ _ _ H _ _ _ Hl). }
  assert (Hc : cpu ∉ cpus s L) by (intros Hc; destruct (Hown cpu Hc); congruence).
  assert (H' : core (set_kern s k) L V).
  { apply core_regions; [done..|]. intros c Hcc. rewrite Hr, lookup_insert_ne; [done|]. by intros ->. }
  destruct H' as [H1 H2 H3 H4 H5 H6 H7 H8 H9 H10 H11 H12 H13 H14 H15 H16 H17]. constructor; try done.
  - rewrite cpus_cons. by constructor.
  - intros c' a' p' [[= -> -> ->]|Hl]%elem_of_cons; [unfold regions; cbn; by rewrite Hr, lookup_insert_eq|by apply H6].
Qed.

(** A mapping the operation holds goes back to the kernel. *)
Lemma core_unmapped s L V cpu a p :
  core s ((cpu, a, p) :: L) V -> core (set_kern s (k_munmap (kern s) cpu (zlen p * 4096))) L V.
Proof.
  intros H. pose proof (co_loose _ _ _ H cpu a p ltac:(by left)) as Hl.
  destruct (k_munmap_law (kern s) cpu a p (co_k _ _ _ H) Hl) as [Hk Hr].
  pose proof (co_cpus _ _ _ H) as Hnd. rewrite cpus_cons in Hnd. apply NoDup_cons in Hnd as [Hnot Hnd].
  apply core_regions; [|done|].
  - destruct H as [H1 H2 H3 H4 H5 H6 H7 H8 H9 H10 H11 H12 H13 H14 H15 H16 H17]. constructor; try done.
    intros c' a' p' Hc. apply H6. by right.
  - intros c Hc. rewrite Hr, lookup_delete_ne; [done|]. by intros ->.
Qed.

End lists.

(** ** Slots *)

Lemma map_alter {A} (f : bo -> A) (g : bo -> bo) i l : (forall b, l !! i = Some b -> f (g b) = f b) -> map f (alter g i l) = map f l.
Proof.
  intros H. apply list_eq. intros j. rewrite !list_lookup_fmap. destruct (decide (i = j)) as [->|Hne].
  - rewrite list_lookup_alter_eq. destruct (l !! j) eqn:E; cbn; [|done]. f_equal. by apply H.
  - by rewrite list_lookup_alter_ne.
Qed.

(** The members of a table after a change of slot [i]. *)
Lemma elem_of_slot (l : list bo) i b x : x ∈ <[i := b]> l -> x = b \/ exists j, j <> i /\ l !! j = Some x.
Proof.
  intros Hx. apply list_elem_of_lookup in Hx as [j Hj]. apply list_lookup_insert_Some in Hj as [(-> & -> & _)|(Hne & Hj)]; eauto.
Qed.

Lemma slot_other (l : list bo) i b j x : j <> i -> l !! j = Some x -> x ∈ <[i := b]> l.
Proof. intros Hne Hj. apply (list_elem_of_lookup_2 _ j). by rewrite list_lookup_insert_ne. Qed.

Lemma alter_insert (l : list bo) i f b : l !! i = Some b -> alter f i l = <[i := f b]> l.
Proof.
  intros Hb. apply list_eq. intros j. destruct (decide (i = j)) as [->|Hne].
  - rewrite list_lookup_alter_eq, Hb, list_lookup_insert_eq; [done|]. by eapply lookup_lt_Some.
  - by rewrite list_lookup_alter_ne, list_lookup_insert_ne.
Qed.

Section steps.
Context `{KL : KernelLaws}.
Implicit Types (s : bsrv) (b : bo).

Lemma ranges_split s V i b :
  bos s !! i = Some b -> b_state b <> V3DA_BO_FREE ->
  ranges s V ≡ₚ (b_gpuva b, b_pages b) :: concat (map bo_ranges (delete i (bos s))) ++ holes (hwst s) ++ map fst (ovf s) ++ V.
Proof.
  intros Hi Hs. unfold ranges. rewrite (proj1 (concat_map_insert bo_ranges (bos s) i b b Hi)).
  unfold bo_ranges at 1. by rewrite bool_decide_eq_false_2.
Qed.

(** A page of a BO belongs to nothing else. *)
Lemma page_owner s L V i b j :
  core s L V -> bos s !! i = Some b -> b_state b <> V3DA_BO_FREE -> j ∈ range (b_gpuva b, b_pages b) ->
  (forall k b', k <> i -> bos s !! k = Some b' -> b_state b' <> V3DA_BO_FREE -> j ∉ range (b_gpuva b', b_pages b')) /\
  (forall o, o ∈ ovf s -> j ∉ range o.1).
Proof.
  intros H Hi Hs Hj. pose proof (co_vas _ _ _ H) as Hnd.
  rewrite (concat_range_perm _ _ (ranges_split s V i b Hi Hs)) in Hnd.
  pose proof (NoDup_concat_range_split _ _ _ Hnd Hj) as Hno. split.
  - intros k b' Hne Hk Hs' Hj'. apply Hno. eapply elem_of_ranges; [|exact Hj']. apply elem_of_app. left.
    apply elem_of_concat_map. exists b'. split.
    + apply (list_elem_of_lookup_2 _ (if decide (k < i)%nat then k else (k - 1)%nat)). case_decide.
      * by rewrite list_lookup_delete_lt.
      * rewrite list_lookup_delete_ge by lia. by replace (S (k - 1)) with k by lia.
    + unfold bo_ranges. rewrite bool_decide_eq_false_2 by done. by left.
  - intros o Ho Hj'. apply Hno. eapply elem_of_ranges; [|exact Hj']. rewrite !elem_of_app. right. right. left.
    by apply list_elem_of_fmap_2.
Qed.

(** Pages of a range the operation holds are not in the table. *)
Lemma loose_zero s L V va n j : core s L ((va, n) :: V) -> j ∈ range (va, n) -> pt_get (hwst s) j = 0.
Proof.
  intros H Hj. pose proof (co_vas _ _ _ H) as Hnd. rewrite (concat_range_perm _ _ (ranges_cons s V (va, n))) in Hnd.
  pose proof (NoDup_concat_range_split _ _ _ Hnd Hj) as Hno. apply (co_zero _ _ _ H).
  - intros b Hb Hs Hj'. apply Hno. eapply elem_of_ranges; [|exact Hj']. apply ranges_bo; [done|by rewrite Hs].
  - intros [[va' n'] c] Ho Hj'. apply Hno. eapply elem_of_ranges; [|exact Hj']. by eapply ranges_ovf.
Qed.

Lemma core_mmu_flush s L V ok : core s L V -> core (set_hw s (mmu_flush ok (hwst s))) L V.
Proof.
  intros H. destruct H as [H1 H2 H3 H4 H5 H6 H7 H8 H9 H10 H11 H12 H13 H14 H15 H16 H17]. constructor; try done.
  - intros j v Hv. by destruct ok; apply elem_of_nil in Hv.
  - cbn. lia.
Qed.

Lemma core_flush s L V : core s L V -> core (set_hw s (v3da_hw_mmu_flush (hwst s))) L V.
Proof.
  intros H. apply (core_mmu_flush s L V (default true (head (flushes (hwst s))))) in H. destruct H as [H1 H2 H3 H4 H5 H6 H7 H8 H9 H10 H11 H12 H13 H14 H15 H16 H17]. by constructor.
Qed.

(** The overwritten entries of a live BO become stale entries of the quarantined one. *)
Lemma core_quarantine s L V i b p :
  core s L V -> bos s !! i = Some b -> b_state b = V3DA_BO_LIVE -> pt_gen (hwst s) + 1 < 2 ^ 64 ->
  let h := pt_fill (hwst s) (b_gpuva b / 4096) (replicate (Z.to_nat (b_pages b)) 0) in
  core (upd_bo (set_hw s (bump_pt_gen h)) i (fun b => set_quarantine b (pt_gen (hwst s) + 1) p)) L V.
Proof.
  intros H Hi Hs Hg h. pose proof H as [H1 H2 H3 H4 H5 H6 H7 H8 H9 H10 H11 H12 H13 H14 H15 H16 H17].
  assert (Hin : b ∈ bos s) by by eapply list_elem_of_lookup_2.
  assert (Hnf : b_state b <> V3DA_BO_FREE) by by rewrite Hs.
  destruct (H8 (b_gpuva b) (b_pages b)) as (Hal4 & Hn & Hlo & Hhi); [by apply ranges_bo|].
  assert (Hzl : zlen (replicate (Z.to_nat (b_pages b)) 0) = b_pages b) by (unfold zlen; rewrite length_replicate; lia).
  destruct (pt_fill_frame (replicate (Z.to_nat (b_pages b)) 0) (hwst s) (b_gpuva b / 4096)) as (F1 & F2 & F3 & F4 & F5).
  fold h in F1, F2, F3, F4, F5.
  assert (Hget : forall j, pt_get h j = if bool_decide (j ∈ range (b_gpuva b, b_pages b)) then 0 else pt_get (hwst s) j).
  { intros j. unfold h. rewrite pt_fill_get, Hzl. rewrite (bool_decide_ext _ _ (elem_of_range j (b_gpuva b) (b_pages b))).
    case_bool_decide; [|done]. apply lookup_total_replicate_2. lia. }
  set (b' := set_quarantine b (pt_gen (hwst s) + 1) p).
  assert (Hal : alter (fun b => set_quarantine b (pt_gen (hwst s) + 1) p) i (bos s) = <[i := b']> (bos s)) by by rewrite (alter_insert _ _ _ b Hi).
  assert (Hm : forall {A} (f : bo -> list A), f b' = f b -> map f (<[i := b']> (bos s)) = map f (bos s)).
  { intros A f Hf. rewrite <- Hal. apply map_alter. intros ? E. by simplify_eq. }
  assert (Hc : map bo_cpus (<[i := b']> (bos s)) = map bo_cpus (bos s)) by (apply Hm; unfold bo_cpus; cbn; by rewrite Hs).
  assert (Hr : map bo_ranges (<[i := b']> (bos s)) = map bo_ranges (bos s)) by (apply Hm; unfold bo_ranges; cbn; by rewrite Hs).
  assert (Hb' : b' ∈ <[i := b']> (bos s)).
  { apply (list_elem_of_lookup_2 _ i), list_lookup_insert_eq. by eapply lookup_lt_Some. }
  constructor; unfold cpus, ranges, upd_bo, regions in *; cbn [bos set_bos hwst set_hw pool ovf kern scan bump_pt_gen holes next_gpuva
    pt_entries pt pt_gen tlb_gen stale]; rewrite ?Hal, ?Hc, ?Hr, ?F1, ?F2, ?F3, ?F4, ?F5; try done.
  - intros x [->|(k & _ & Hk)]%elem_of_slot Hf; [exact (H3 b Hin Hnf)|]. apply H3; [by eapply list_elem_of_lookup_2|done].
  - intros j Hj. apply pt_fill_dom in Hj as [Hj|Hj]; [by apply H10|]. rewrite Hzl in Hj.
    destruct H9 as (? & ? & ->). divlia.
  - intros x [->|(k & Hne & Hk)]%elem_of_slot Hf off Hoff; [done|].
    change (pt_get (bump_pt_gen h)) with (pt_get h). rewrite Hget. case_bool_decide as Hj.
    + exfalso. destruct (page_owner s L V i b _ H Hi Hnf Hj) as [Hno _]. apply (Hno k x Hne Hk); [by rewrite Hf|].
      apply elem_of_range. lia.
    + apply H11; [by eapply list_elem_of_lookup_2|done|done].
  - intros va n c Ho off Hoff. change (pt_get (bump_pt_gen h)) with (pt_get h). rewrite Hget. case_bool_decide as Hj; [|by eapply H12].
    exfalso. destruct (page_owner s L V i b _ H Hi Hnf Hj) as [_ Hno]. apply (Hno _ Ho). apply elem_of_range. lia.
  - intros j Hlive Hovf. change (pt_get (bump_pt_gen h)) with (pt_get h). rewrite Hget. case_bool_decide as Hj; [done|].
    apply H13; [|done]. intros x Hx Hsx. apply list_elem_of_lookup in Hx as [k Hk].
    destruct (decide (k = i)) as [->|Hne]; [by simplify_eq|]. apply Hlive; [by eapply slot_other|done].
  - intros j v Hjv. change (held (bump_pt_gen h)) with (held h) in Hjv. unfold h in Hjv. apply pt_fill_held in Hjv as [Hjv|(_ & Hj & -> & _)].
    + destruct (H14 j v Hjv) as (x & off & Hx & Hsx & Hrest). apply list_elem_of_lookup in Hx as [k Hk].
      destruct (decide (k = i)) as [->|Hne]; [simplify_eq; congruence|]. exists x, off. split; [by eapply slot_other|done].
    + rewrite Hzl in Hj. exists b', (j - b_gpuva b / 4096). change (b_pages b') with (b_pages b). change (b_gpuva b') with (b_gpuva b).
      split_and!; try done; try lia; [cbn; lia|]. replace j with (b_gpuva b / 4096 + (j - b_gpuva b / 4096)) at 2 by lia.
      apply (H11 b Hin Hs). lia.
  - unfold u64. rewrite Z.mod_small by lia. lia.
  - unfold u64. rewrite Z.mod_small by lia. intros x [->|(k & _ & Hk)]%elem_of_slot Hsx; [cbn; lia|].
    specialize (H16 x ltac:(by eapply list_elem_of_lookup_2) Hsx). lia.
Qed.

(** A quarantined BO whose entries are out of the TLB: its slot is freed, and the
    operation holds its mapping and its range. *)
Lemma core_free s L V i b a p :
  core s L V -> bos s !! i = Some b -> b_state b = V3DA_BO_QUARANTINE -> clear_pt_gen b <= tlb_gen (hwst s) ->
  regions s !! m_cpu (b_mem b) = Some (a, p) ->
  core (upd_bo s i (fun _ => no_bo)) ((m_cpu (b_mem b), a, p) :: L) ((b_gpuva b, b_pages b) :: V).
Proof.
  intros H Hi Hs Hg Hp. pose proof H as [H1 H2 H3 H4 H5 H6 H7 H8 H9 H10 H11 H12 H13 H14 H15 H16 H17].
  unfold upd_bo. rewrite (alter_insert _ _ _ b Hi).
  assert (Hc : cpus (set_bos s (<[i := no_bo]> (bos s)) (bo_gen s)) ((m_cpu (b_mem b), a, p) :: L) ≡ₚ cpus s L).
  { rewrite cpus_cons. unfold cpus. cbn [bos set_bos pool ovf].
    rewrite (proj2 (concat_map_insert bo_cpus (bos s) i b no_bo Hi)), (proj1 (concat_map_insert bo_cpus (bos s) i b no_bo Hi)).
    unfold bo_cpus at 1 3. rewrite bool_decide_eq_true_2, bool_decide_eq_false_2 by (done || by rewrite Hs). done. }
  assert (Hr : ranges (set_bos s (<[i := no_bo]> (bos s)) (bo_gen s)) ((b_gpuva b, b_pages b) :: V) ≡ₚ ranges s V).
  { rewrite ranges_cons. unfold ranges. cbn [bos set_bos hwst ovf].
    rewrite (proj2 (concat_map_insert bo_ranges (bos s) i b no_bo Hi)), (proj1 (concat_map_insert bo_ranges (bos s) i b no_bo Hi)).
    unfold bo_ranges at 1 3. rewrite bool_decide_eq_true_2, bool_decide_eq_false_2 by (done || by rewrite Hs). done. }
  constructor; cbn [bos set_bos hwst pool ovf kern scan]; try done.
  - by rewrite Hc.
  - intros x [->|(k & _ & Hk)]%elem_of_slot Hf; [done|]. apply H3; [by eapply list_elem_of_lookup_2|done].
  - intros c a' p' [[= -> -> ->]|Hl]%elem_of_cons; [done|by apply H6].
  - by rewrite (concat_range_perm _ _ Hr).
  - intros va n. rewrite Hr. apply H8.
  - intros x [->|(k & _ & Hk)]%elem_of_slot Hf; [done|]. apply H11; [by eapply list_elem_of_lookup_2|done].
  - intros j Hlive Hovf. apply H13; [|done]. intros x Hx Hsx. apply list_elem_of_lookup in Hx as [k Hk].
    destruct (decide (k = i)) as [->|Hne]; [simplify_eq; congruence|]. apply Hlive; [by eapply slot_other|done].
  - intros j v Hjv. destruct (H14 j v Hjv) as (x & off & Hx & Hsx & Hlt & Hrest). apply list_elem_of_lookup in Hx as [k Hk].
    destruct (decide (k = i)) as [->|Hne]; [simplify_eq; lia|]. exists x, off. split; [by eapply slot_other|done].
  - intros x [->|(k & _ & Hk)]%elem_of_slot Hf; [done|]. apply H16; [by eapply list_elem_of_lookup_2|done].
Qed.

(** A new slot at the end of the table. *)
Lemma core_grow s L V g : core s L V -> core (set_bos s (bos s ++ [no_bo]) g) L V.
Proof.
  intros H. destruct H as [H1 H2 H3 H4 H5 H6 H7 H8 H9 H10 H11 H12 H13 H14 H15 H16 H17].
  assert (Hin : forall x, x ∈ bos s ++ [no_bo] -> x ∈ bos s \/ x = no_bo).
  { intros x [Hx|Hx]%elem_of_app; [by left|]. apply list_elem_of_singleton in Hx. by right. }
  assert (E : forall {A} (f : bo -> list A), f no_bo = [] -> concat (map f (bos s ++ [no_bo])) = concat (map f (bos s))).
  { intros A f Hf. rewrite map_app, concat_app. cbn. by rewrite Hf, !app_nil_r. }
  constructor; unfold cpus, ranges in *; cbn [bos set_bos hwst pool ovf kern scan]; rewrite ?(E _ bo_cpus), ?(E _ bo_ranges) by done; try done.
  - intros x [Hx| ->]%Hin Hf; [by apply H3|done].
  - intros x [Hx| ->]%Hin Hf; [by apply H11|done].
  - intros j Hlive. apply H13. intros x Hx. apply Hlive. apply elem_of_app. by left.
  - intros j v Hjv. destruct (H14 j v Hjv) as (x & off & Hx & Hrest). exists x, off. split; [apply elem_of_app; by left|done].
  - intros x [Hx| ->]%Hin Hf; [by apply H16|done].
Qed.

(** The pool takes a block the operation holds, or gives it one. *)
Lemma core_pool_add s L V p' pb p :
  core s ((pb_cpu pb, true, p) :: L) V -> blocks p' ≡ₚ pb :: blocks (pool s) ->
  zlen p = pb_pages pb -> p !! O = Some (pb_pa pb) -> pb_pages pb <= 2 ^ 18 -> core (set_pool s p') L V.
Proof.
  intros H Hp Hz H0 Hle. destruct H as [H1 H2 H3 H4 H5 H6 H7 H8 H9 H10 H11 H12 H13 H14 H15 H16 H17].
  constructor; cbn [bos set_pool hwst pool ovf kern scan]; try done.
  - rewrite cpus_cons in H2. revert H2. apply NoDup_Permutation_proper. unfold cpus. cbn. rewrite Hp. cbn. solve_Permutation.
  - intros x. rewrite Hp, elem_of_cons. intros [->|Hx]; [|by apply H4]. exists p. split_and!; try done. apply H6. by left.
  - intros c a q Hl. apply H6. by right.
Qed.

Lemma core_pool_take s L V p' pb :
  core s L V -> blocks (pool s) ≡ₚ pb :: blocks p' ->
  exists p, zlen p = pb_pages pb /\ p !! O = Some (pb_pa pb) /\ pb_pages pb <= 2 ^ 18 /\
    core (set_pool s p') ((pb_cpu pb, true, p) :: L) V.
Proof.
  intros H Hp. destruct H as [H1 H2 H3 H4 H5 H6 H7 H8 H9 H10 H11 H12 H13 H14 H15 H16 H17].
  destruct (H4 pb) as (p & Hr & Hz & H0 & Hle); [rewrite Hp; by left|]. exists p. split_and!; try done.
  constructor; cbn [bos set_pool hwst pool ovf kern scan]; try done.
  - revert H2. apply NoDup_Permutation_proper. rewrite cpus_cons. unfold cpus. cbn. rewrite Hp. cbn. solve_Permutation.
  - intros x Hx. apply H4. rewrite Hp. by right.
  - intros c a q [[= -> -> ->]|Hl]%elem_of_cons; [done|by apply H6].
Qed.

(** ** GPU addresses *)

Lemma core_ranges s L V V' h :
  core s L V ->
  pt h = pt (hwst s) -> pt_entries h = pt_entries (hwst s) -> pt_gen h = pt_gen (hwst s) -> tlb_gen h = tlb_gen (hwst s) ->
  held h = held (hwst s) -> next_gpuva h = next_gpuva (hwst s) ->
  NoDup (concat (map range (ranges (set_hw s h) V'))) ->
  (forall va n, (va, n) ∈ ranges (set_hw s h) V' -> va mod 4096 = 0 /\ 0 < n /\ 0x100000 <= va /\ va + n * 4096 <= next_gpuva h) ->
  core (set_hw s h) L V'.
Proof.
  intros H E1 E2 E3 E4 E5 E6 Hnd Hr. destruct H as [H1 H2 H3 H4 H5 H6 H7 H8 H9 H10 H11 H12 H13 H14 H15 H16 H17].
  constructor; try done; cbn [bos set_hw hwst pool ovf kern scan]; unfold pt_get in *; rewrite ?E1, ?E2, ?E3, ?E4, ?E5, ?E6; done.
Qed.

Lemma core_va_free s L V va n : core s L ((va, n) :: V) -> core (set_hw s (v3da_hw_va_free (hwst s) va n)) L V.
Proof.
  intros H. unfold v3da_hw_va_free. pose proof (co_vas _ _ _ H) as Hnd. case_if.
  - eapply core_ranges; [exact H|done..| |].
    + rewrite (concat_range_perm _ (ranges s ((va, n) :: V))); [done|]. unfold ranges. cbn. solve_Permutation.
    + intros va' n' Hin. apply (co_range _ _ _ H). revert Hin. unfold ranges. cbn. rewrite !elem_of_app, list_elem_of_singleton, elem_of_cons.
      tauto.
  - rewrite (concat_range_perm _ _ (ranges_cons s V (va, n))) in Hnd. cbn in Hnd. apply NoDup_app in Hnd as (_ & _ & Hnd).
    eapply core_ranges; [exact H|done..|done|]. intros va' n' Hin. apply (co_range _ _ _ H). rewrite ranges_cons. by right.
Qed.

Lemma find_hole_spec pages l : forall i0 i,
  find_hole l i0 pages = Some i -> 0 <= i0 -> exists va n, i0 <= i /\ l !! Z.to_nat (i - i0) = Some (va, n) /\ pages <= n.
Proof.
  induction l as [|[va n] l IH]; intros i0 i; cbn [find_hole]; [done|]. case_if; bsimp.
  - intros [= ->] _. exists va, n. rewrite Z.sub_diag. split_and!; [lia|done|done].
  - intros Hi H0. destruct (IH _ _ Hi ltac:(lia)) as (va' & n' & Hle & Hlk & Hp). exists va', n'. split_and!; [lia| |done].
    by replace (Z.to_nat (i - i0)) with (S (Z.to_nat (i - (i0 + 1)))) by lia.
Qed.

Lemma range_split va n m : 0 <= m <= n -> va mod 4096 = 0 -> range (va, n) ≡ₚ range (va, m) ++ range (va + m * 4096, n - m).
Proof.
  intros Hm Ha. unfold range. cbn. replace ((va + m * 4096) / 4096) with (va / 4096 + m) by divlia.
  rewrite <- seqZ_app by lia. by replace (m + (n - m)) with n by lia.
Qed.

Lemma list_split_at {A} (l : list A) k x : l !! k = Some x -> l ≡ₚ x :: delete k l /\ forall y, <[k := y]> l ≡ₚ y :: delete k l.
Proof.
  intros Hk. split; [by apply delete_Permutation|]. intros y.
  rewrite insert_take_drop, delete_take_drop by by eapply lookup_lt_Some. solve_Permutation.
Qed.

(** Addresses from a hole: all of it, or its front part. *)
Lemma core_va_hole s L V i va n pages :
  core s L V -> holes (hwst s) !! Z.to_nat i = Some (va, n) -> 0 <= i -> 0 < pages <= n ->
  let h := if n =? pages then set_va (hwst s) (next_gpuva (hwst s)) (swap_remove i (holes (hwst s)))
           else set_va (hwst s) (next_gpuva (hwst s))
                  (<[Z.to_nat i := (u32 (va + pages * PAGE_SIZE), u32 (n - pages))]> (holes (hwst s))) in
  core (set_hw s h) L ((va, pages) :: V).
Proof.
  intros H Hi H0 Hp h. pose proof (co_vas _ _ _ H) as Hnd.
  assert (Hin : (va, n) ∈ ranges s V).
  { unfold ranges. rewrite !elem_of_app. right. left. by eapply list_elem_of_lookup_2. }
  destruct (co_range _ _ _ H va n Hin) as (Ha & Hn & Hlo & Hhi). destruct (co_next _ _ _ H) as (_ & Hnx & _).
  pose proof (lookup_lt_Some _ _ _ Hi) as Hlt. subst h. case_if; bsimp.
  - subst pages. assert (Hsw := swap_remove_perm i (holes (hwst s)) ltac:(unfold zlen; lia)).
    rewrite (list_lookup_total_correct _ _ _ Hi) in Hsw.
    assert (Hr : ranges s V ≡ₚ ranges (set_hw s (set_va (hwst s) (next_gpuva (hwst s)) (swap_remove i (holes (hwst s))))) ((va, n) :: V)).
    { rewrite ranges_cons. unfold ranges. cbn. etrans; [apply Permutation_app_head, Permutation_app_tail, Hsw|]. solve_Permutation. }
    eapply core_ranges; [exact H|done..| |].
    + by rewrite <- (concat_range_perm _ _ Hr).
    + intros va' n'. rewrite <- Hr. apply (co_range _ _ _ H).
  - change PAGE_SIZE with 4096. rewrite !u32_small by lia. destruct (list_split_at _ _ _ Hi) as [Hd Hd'].
    set (rest := concat (map bo_ranges (bos s)) ++ delete (Z.to_nat i) (holes (hwst s)) ++ map fst (ovf s) ++ V).
    assert (Hr1 : ranges s V ≡ₚ (va, n) :: rest).
    { unfold ranges, rest. etrans; [apply Permutation_app_head, Permutation_app_tail, Hd|]. solve_Permutation. }
    set (h := set_va (hwst s) (next_gpuva (hwst s)) (<[Z.to_nat i := (va + pages * 4096, n - pages)]> (holes (hwst s)))).
    assert (Hr2 : ranges (set_hw s h) ((va, pages) :: V) ≡ₚ (va, pages) :: (va + pages * 4096, n - pages) :: rest).
    { rewrite ranges_cons. constructor. unfold ranges, rest. cbn. etrans; [apply Permutation_app_head, Permutation_app_tail, Hd'|]. solve_Permutation. }
    eapply core_ranges; [exact H|done..| |].
    + rewrite (concat_range_perm _ _ Hr2). rewrite (concat_range_perm _ _ Hr1) in Hnd. cbn in Hnd |- *.
      rewrite (range_split va n pages) in Hnd by (done || lia). by rewrite app_assoc.
    + intros va' n'. rewrite Hr2, !elem_of_cons. intros [[= -> ->]|[[= -> ->]|Hin']].
      * split_and!; [done|lia|done|cbn; lia].
      * split_and!; [divlia|lia|lia|cbn; lia].
      * apply (co_range _ _ _ H). rewrite Hr1. by right.
Qed.

(** Writing the entries of a range the operation holds makes nothing stale. *)
Lemma fill_fresh s L V va n l :
  core s L ((va, n) :: V) -> zlen l = n ->
  let h := pt_fill (hwst s) (va / 4096) l in
  (forall j, pt_get h j = if bool_decide (j ∈ range (va, n)) then l !!! Z.to_nat (j - va / 4096) else pt_get (hwst s) j) /\
  (forall j v, (j, v) ∈ held h <-> (j, v) ∈ held (hwst s)) /\
  (forall j, is_Some (pt h !! j) -> 0 <= j < pt_entries (hwst s)).
Proof.
  intros H Hz h. destruct (co_range _ _ _ H va n) as (Ha & Hn & Hlo & Hhi); [rewrite ranges_cons; by left|].
  split_and!.
  - intros j. unfold h. rewrite pt_fill_get, Hz. by rewrite (bool_decide_ext _ _ (elem_of_range j va n)).
  - intros j v. unfold h. rewrite pt_fill_held, Hz. split; [|by left]. intros [?|(_ & Hj & -> & Hv)]; [done|].
    rewrite (loose_zero s L V va n j H) in Hv by (apply elem_of_range; lia). done.
  - intros j Hj. apply pt_fill_dom in Hj as [Hj|Hj]; [by apply (co_dom _ _ _ H)|].
    destruct (co_next _ _ _ H) as (? & ? & ->). rewrite Hz in Hj. divlia.
Qed.

(** Addresses past every range: their entries are cleared at hand-out. *)
Lemma core_va_bump s L V pages :
  core s L V -> 0 < pages -> next_gpuva (hwst s) / 4096 + pages <= 2 ^ 18 ->
  let va := next_gpuva (hwst s) in
  let h := pt_fill (set_va (hwst s) (va + pages * 4096) (holes (hwst s))) (va / 4096) (replicate (Z.to_nat pages) 0) in
  core (set_hw s h) L ((va, pages) :: V).
Proof.
  intros H Hp Hle va h. pose proof H as [H1 H2 H3 H4 H5 H6 H7 H8 H9 H10 H11 H12 H13 H14 H15 H16 H17].
  destruct H9 as (Ha & Hnx & He). fold va in Ha, Hnx, Hle.
  set (h0 := set_va (hwst s) (va + pages * 4096) (holes (hwst s))) in *.
  destruct (pt_fill_frame (replicate (Z.to_nat pages) 0) h0 (va / 4096)) as (F1 & F2 & F3 & F4 & F5). fold h in F1, F2, F3, F4, F5.
  assert (Hzl : zlen (replicate (Z.to_nat pages) 0) = pages) by (unfold zlen; rewrite length_replicate; lia).
  assert (Hzero : forall j, va / 4096 <= j -> pt_get (hwst s) j = 0).
  { intros j Hj. apply H13.
    - intros b Hb Hs. rewrite elem_of_range. destruct (H8 (b_gpuva b) (b_pages b)) as (? & ? & ? & Hhi);
        [apply ranges_bo; [done|by rewrite Hs]|]. fold va in Hhi. divlia.
    - intros [[va' n'] c] Ho. cbn [fst]. rewrite elem_of_range. destruct (H8 va' n') as (? & ? & ? & Hhi);
        [by eapply ranges_ovf|]. fold va in Hhi. divlia. }
  assert (Hget : forall j, pt_get h j = pt_get (hwst s) j).
  { intros j. unfold h. rewrite pt_fill_get, Hzl. change (pt_get h0 j) with (pt_get (hwst s) j). case_bool_decide as Hj; [|done].
    rewrite Hzero by lia. apply lookup_total_replicate_2. lia. }
  assert (Hst : forall j v, (j, v) ∈ held h <-> (j, v) ∈ held (hwst s)).
  { intros j v. unfold h. rewrite pt_fill_held, Hzl. change (held h0) with (held (hwst s)). change (pt_get h0 j) with (pt_get (hwst s) j).
    split; [|by left]. intros [?|(_ & Hj & -> & Hv)]; [done|]. rewrite Hzero in Hv by lia. done. }
  assert (Hr : ranges (set_hw s h) ((va, pages) :: V) ≡ₚ (va, pages) :: ranges s V).
  { rewrite ranges_cons. unfold ranges. cbn [bos set_hw hwst ovf]. by rewrite F3. }
  constructor; cbn [bos set_hw hwst pool ovf kern scan]; try done; rewrite ?F1, ?F2, ?F4, ?F5; try done.
  - rewrite (concat_range_perm _ _ Hr). cbn. apply NoDup_app. split_and!; [apply NoDup_seqZ| |done].
    intros j Hj Hin. apply elem_of_range in Hj. apply elem_of_concat_map in Hin as ([va' n'] & Hin & Hj').
    apply elem_of_range in Hj'. destruct (H8 va' n' Hin) as (? & ? & ? & Hhi). fold va in Hhi. divlia.
  - intros va' n'. rewrite Hr, elem_of_cons. intros [[= -> ->]|Hin]; [cbn; split_and!; [done|lia|lia|lia]|].
    destruct (H8 va' n' Hin) as (? & ? & ? & Hhi). fold va in Hhi. cbn. split_and!; [done|lia|lia|lia].
  - cbn. split_and!; [|lia|divlia|done]. rewrite Z.add_mod, Z.mul_mod by lia. rewrite Ha. divlia.
  - intros j Hj. apply pt_fill_dom in Hj as [Hj|Hj]; [by apply H10|]. rewrite Hzl in Hj. cbn. rewrite He. divlia.
  - intros b Hb Hs off Hoff. rewrite Hget. by apply H11.
  - intros va' n' c Ho off Hoff. rewrite Hget. by eapply H12.
  - intros j Hl Ho. rewrite Hget. by apply H13.
  - intros j v Hjv. apply Hst in Hjv. by apply H14.
Qed.

Lemma core_va_alloc s L V pages va h :
  core s L V -> 0 < pages <= 2 ^ 18 -> v3da_hw_va_alloc (hwst s) pages = (va, h) ->
  (va = 0 /\ h = hwst s) \/ (va <> 0 /\ core (set_hw s h) L ((va, pages) :: V)).
Proof.
  intros H Hp. unfold v3da_hw_va_alloc. destruct (co_next _ _ _ H) as (Ha & Hn & He).
  destruct (find_hole (holes (hwst s)) 0 pages) as [i|] eqn:Ef.
  - destruct (find_hole_spec _ _ _ _ Ef ltac:(lia)) as (va' & n & Hi & Hlk & Hle). rewrite Z.sub_0_r in Hlk.
    rewrite (list_lookup_total_correct _ _ _ Hlk). intros E. right.
    pose proof (core_va_hole s L V i va' n pages H Hlk Hi ltac:(lia)) as Hc. cbn zeta in Hc.
    destruct (n =? pages); injection E as <- <-; (split; [|exact Hc]);
      destruct (co_range _ _ _ Hc va' pages) as (_ & _ & ? & _); try lia; rewrite ranges_cons; by left.
  - rewrite shr12. rewrite (u32_small (next_gpuva (hwst s) / 4096 + pages)) by divlia. rewrite He.
    change PAGE_SIZE with 4096. case_if; bsimp; [intros [= <- <-]; by left|]. intros [= <- <-]. right. split; [lia|].
    rewrite u32_small by divlia. apply core_va_bump; [done|lia|lia].
Qed.

(** A new BO takes over a mapping and a range; its entries map its pages. *)
Lemma core_new s L V i b0 b a p l g :
  core s ((m_cpu (b_mem b), a, p) :: L) ((b_gpuva b, b_pages b) :: V) ->
  bos s !! i = Some b0 -> b_state b0 = V3DA_BO_FREE -> b_state b = V3DA_BO_LIVE ->
  m_imported (b_mem b) = negb a -> zlen p = b_pages b -> p !! O = Some (m_pa (b_mem b)) -> b_pages b <= 2 ^ 18 ->
  zlen l = b_pages b -> pt_gen (hwst s) + 1 < 2 ^ 64 ->
  (forall off, 0 <= off < b_pages b -> maps_page (regions s) (m_cpu (b_mem b)) off (l !!! Z.to_nat off)) ->
  core (set_bos (set_hw s (bump_pt_gen (pt_fill (hwst s) (b_gpuva b / 4096) l))) (<[i := b]> (bos s)) g) L V.
Proof.
  intros H Hi Hf Hs Himp Hz H0 Hle Hl Hg Hmap. pose proof H as [H1 H2 H3 H4 H5 H6 H7 H8 H9 H10 H11 H12 H13 H14 H15 H16 H17].
  destruct (fill_fresh s _ V _ _ l H Hl) as (Hget & Hst & Hdom). set (h := pt_fill (hwst s) (b_gpuva b / 4096) l) in *.
  destruct (pt_fill_frame l (hwst s) (b_gpuva b / 4096)) as (F1 & F2 & F3 & F4 & F5). fold h in F1, F2, F3, F4, F5.
  destruct (co_range _ _ _ H (b_gpuva b) (b_pages b)) as (_ & Hpos & _); [rewrite ranges_cons; by left|].
  assert (Hc : cpus (set_bos s (<[i := b]> (bos s)) g) L ≡ₚ cpus s ((m_cpu (b_mem b), a, p) :: L)).
  { rewrite cpus_cons. unfold cpus. cbn [bos set_bos pool ovf].
    rewrite (proj2 (concat_map_insert bo_cpus (bos s) i b0 b Hi)), (proj1 (concat_map_insert bo_cpus (bos s) i b0 b Hi)).
    unfold bo_cpus at 1 3. rewrite bool_decide_eq_false_2, bool_decide_eq_true_2 by (done || by rewrite Hs). done. }
  assert (Hr : ranges (set_bos (set_hw s (bump_pt_gen h)) (<[i := b]> (bos s)) g) V ≡ₚ ranges s ((b_gpuva b, b_pages b) :: V)).
  { rewrite ranges_cons. unfold ranges. cbn [bos set_bos set_hw hwst ovf bump_pt_gen holes]. rewrite F3.
    rewrite (proj2 (concat_map_insert bo_ranges (bos s) i b0 b Hi)), (proj1 (concat_map_insert bo_ranges (bos s) i b0 b Hi)).
    unfold bo_ranges at 1 3. rewrite bool_decide_eq_false_2, bool_decide_eq_true_2 by (done || by rewrite Hs). done. }
  pose proof H7 as Hnd. rewrite (concat_range_perm _ _ (ranges_cons s V _)) in Hnd.
  assert (Hother : forall j, j ∈ range (b_gpuva b, b_pages b) -> j ∉ concat (map range (ranges s V))).
  { intros j Hj. by eapply NoDup_concat_range_split. }
  assert (Hb : b ∈ <[i := b]> (bos s)).
  { apply (list_elem_of_lookup_2 _ i), list_lookup_insert_eq. by eapply lookup_lt_Some. }
  constructor; cbn [bos set_bos set_hw hwst pool ovf kern scan bump_pt_gen next_gpuva pt_entries pt pt_gen tlb_gen stale];
    rewrite ?F1, ?F2, ?F4, ?F5; try done.
  - unfold cpus in *. cbn in *. by rewrite Hc.
  - intros x [->|(k & _ & Hk)]%elem_of_slot Hsx; [|apply H3; [by eapply list_elem_of_lookup_2|done]].
    exists p. rewrite Himp, negb_involutive. split_and!; try done. apply H6. by left.
  - intros c a' p' Hin. apply H6. by right.
  - by rewrite (concat_range_perm _ _ Hr).
  - intros va n. rewrite Hr. apply H8.
  - intros x Hx Hsx off Hoff. change (pt_get (bump_pt_gen h)) with (pt_get h). rewrite Hget. apply elem_of_slot in Hx as [->|(k & _ & Hk)].
    + rewrite bool_decide_eq_true_2 by (apply elem_of_range; lia). replace (b_gpuva b / 4096 + off - b_gpuva b / 4096) with off by lia. by apply Hmap.
    + assert (Hx : x ∈ bos s) by by eapply list_elem_of_lookup_2. rewrite bool_decide_eq_false_2; [by apply H11|].
      intros Hj. apply (Hother _ Hj). apply (elem_of_ranges _ (b_gpuva x, b_pages x)); [apply ranges_bo; [done|by rewrite Hsx]|].
      apply elem_of_range. lia.
  - intros va n c Ho off Hoff. change (pt_get (bump_pt_gen h)) with (pt_get h). rewrite Hget. rewrite bool_decide_eq_false_2; [by eapply H12|].
    intros Hj. apply (Hother _ Hj). apply (elem_of_ranges _ (va, n)); [by eapply ranges_ovf|]. apply elem_of_range. lia.
  - intros j Hlive Hovf. change (pt_get (bump_pt_gen h)) with (pt_get h). rewrite Hget. rewrite bool_decide_eq_false_2 by by apply Hlive.
    apply H13; [|done]. intros x Hx Hsx. apply list_elem_of_lookup in Hx as [k Hk].
    destruct (decide (k = i)) as [->|Hne]; [simplify_eq; congruence|]. apply Hlive; [by eapply slot_other|done].
  - intros j v Hjv. apply Hst in Hjv. destruct (H14 j v Hjv) as (x & off & Hx & Hsx & Hrest). apply list_elem_of_lookup in Hx as [k Hk].
    destruct (decide (k = i)) as [->|Hne]; [simplify_eq; congruence|]. exists x, off. split; [by eapply slot_other|done].
  - unfold u64. rewrite Z.mod_small by lia. lia.
  - unfold u64. rewrite Z.mod_small by lia. intros x [->|(k & _ & Hk)]%elem_of_slot Hsx; [congruence|].
    specialize (H16 x ltac:(by eapply list_elem_of_lookup_2) Hsx). lia.
Qed.
End steps.
End V3daBoCore.
