(* ===== verification/V3daBoOps.v ===== *)
(** * The operations of the BO manager keep its memory in order

    Each operation of [v3da_bo.c] keeps the invariant [core] of the memory and the
    page table, and [pool_acct], the accounting of the block pool. *)

From S2P Require Import Prelude V3daSched V3daPool V3daBo V3daBoCore.

Module V3daBoOps.
Import V3da V3daPool V3daBo V3daBoCore.

(** A step that changes no field the invariant reads. *)
Ltac core_same H := eapply core_ext; [exact H|apply same_view_refl|done..|apply H|done].

Lemma page_size_eq : PAGE_SIZE = 4096.
Proof. done. Qed.

Section pool.
Context `{KL : KernelLaws}.
Implicit Types (s : bsrv).

(** ** The pool *)

(** Blocks with the sizes a BO can have. *)
Definition sized (l : list pool_block) : Prop := Forall (fun b => 0 <= pb_pages b <= 2 ^ 18) l.

Lemma foot_bound pages : 0 <= pages <= 2 ^ 18 -> 0 <= v3da_lowmem_footprint pages 4096 <= 2 ^ 31.
Proof.
  intros Hp. destruct (footprint_spec pages 4096) as (k & Hk & -> & _ & Hor); [lia|lia|lia|].
  pose proof (pow2_pos k Hk). destruct Hor as [->|]; lia.
Qed.

Lemma sum_foot_bound l : sized l -> 0 <= sum_foot 4096 l <= zlen l * 2 ^ 31.
Proof.
  induction 1 as [|b l Hb _ IH]; [done|]. rewrite sum_foot_cons. pose proof (foot_bound _ Hb) as Hf.
  unfold v3da_pool_block_bytes, zlen in *. cbn [length]. lia.
Qed.

Definition pool_acct (p : pool_st) : Prop :=
  pool_bytes p = sum_foot 4096 (blocks p) /\ zlen (blocks p) <= 1024 /\ pool_bytes p <= pool_cap p /\ 0 <= pool_cap p.

Lemma core_sized s L V : core s L V -> sized (blocks (pool s)).
Proof.
  intros H. apply Forall_forall. intros b Hb. destruct (co_pool _ _ _ H b Hb) as (p & _ & Hz & _ & Hle). unfold zlen in Hz. lia.
Qed.

Lemma core_self s L V : core s L V -> core (set_kern s (kern s)) L V.
Proof. intros H. apply core_kern; [done|apply H|done]. Qed.
Lemma core_stats s L V q n : core s L V -> core (set_stats s q n) L V.
Proof. intros H. core_same H. Qed.
Lemma core_low s L V l : core s L V -> core (set_low s l) L V.
Proof. intros H. core_same H. Qed.
Lemma core_prime s L V i e : core s L V -> core (set_prime s i e) L V.
Proof. intros H. core_same H. Qed.
Lemma core_claimed s L V c : core s L V -> core (set_claimed s c) L V.
Proof. intros H. core_same H. Qed.

Lemma core_pool_perm s L V p' : core s L V -> blocks p' ≡ₚ blocks (pool s) -> core (set_pool s p') L V.
Proof.
  intros H Hp. destruct H as [H1 H2 H3 H4 H5 H6 H7 H8 H9 H10 H11 H12 H13 H14 H15 H16 H17].
  constructor; cbn [bos set_pool hwst pool ovf kern scan]; try done.
  - revert H2. apply NoDup_Permutation_proper. unfold cpus. cbn. by rewrite Hp.
  - intros x. rewrite Hp. apply H4.
Qed.

Lemma core_release V : forall (r : list pool_block) s L p',
  core s L V -> blocks (pool s) ≡ₚ r ++ blocks p' -> core (set_kern (set_pool s p') (pool_release (kern s) r)) L V.
Proof.
  induction r as [|b r IH]; intros s L p' H Hp; cbn [app] in Hp.
  - cbn [pool_release fold_left]. apply (core_pool_perm s L V p' H). by symmetry.
  - set (p1 := mk_pool (r ++ blocks p') 0 0 0 0 0 0 0 (notes p')).
    destruct (core_pool_take s L V p1 b H Hp) as (p & Hz & _ & _ & Hc).
    apply core_unmapped in Hc. rewrite Hz in Hc. by apply (IH _ _ p' Hc).
Qed.

Lemma pool_note_blocks p now :
  blocks (pool_note p now) = blocks p /\ pool_bytes (pool_note p now) = pool_bytes p /\ pool_cap (pool_note p now) = pool_cap p.
Proof. unfold pool_note. by case_if. Qed.

Lemma core_note s L V p now : core (set_pool s p) L V -> core (set_pool s (pool_note p now)) L V.
Proof. intros H. apply (core_pool_perm (set_pool s p) L V (pool_note p now) H). by rewrite (proj1 (pool_note_blocks p now)). Qed.

Lemma acct_note p now : pool_acct p -> pool_acct (pool_note p now).
Proof. unfold pool_acct. destruct (pool_note_blocks p now) as (-> & -> & ->). done. Qed.

Lemma pool_trim_ok s L V now idle :
  core s L V -> pool_bytes (pool s) = sum_foot 4096 (blocks (pool s)) -> zlen (blocks (pool s)) <= 1024 ->
  0 <= pool_cap (pool s) -> core (pool_trim s now idle) L V /\ pool_acct (pool (pool_trim s now idle)).
Proof.
  intros H Hb Hn Hc. pose proof (sum_foot_bound _ (core_sized _ _ _ H)) as Hs. unfold pool_trim. rewrite Hb, page_size_eq.
  destruct (pool_trim_facts (blocks (pool s)) (pool_cap (pool s)) now idle 4096) as (r1 & r2 & Hr & Hp & Hbytes & Hcap & _);
    [lia|done|lia|lia|].
  set (t := v3da_pool_trim _ _ _ _ _ _) in *. rewrite Hr.
  assert (Hcore : forall p', blocks p' = t_pool t -> core (set_pool (set_kern s (pool_release (kern s) (r1 ++ r2))) p') L V).
  { intros p' E. apply (core_release V (r1 ++ r2) s L p' H). rewrite E, Hp. solve_Permutation. }
  assert (Hlen : zlen (t_pool t) <= 1024) by (unfold zlen in *; rewrite Hp, length_app in Hn; lia).
  case_if; cbn zeta.
  - split; [by apply Hcore|]. by unfold pool_acct.
  - split; [apply core_note; by apply Hcore|]. apply acct_note. by unfold pool_acct.
Qed.

Lemma block_put_ok s L V cpu p pages pa cached :
  core s ((cpu, true, p) :: L) V -> pool_acct (pool s) -> zlen p = pages -> p !! O = Some pa -> pages <= 2 ^ 18 ->
  core (block_put s cpu pa pages cached) L V /\ pool_acct (pool (block_put s cpu pa pages cached)).
Proof.
  intros H Ha Hz H0 Hle. pose proof Ha as (Hb & Hn & Hcap & Hc). unfold block_put. case_if; bsimp.
  2: { split; [|done]. rewrite page_size_eq, <- Hz. by eapply core_unmapped, core_stats. }
  destruct (k_now (kern s)) as [now k] eqn:Ek. destruct (k_now_law (kern s) (co_k _ _ _ H)) as [Hk Hr]. rewrite Ek in Hk, Hr. cbn in Hk, Hr.
  set (b := mk_block cpu pa pages (of_bool cached) now).
  assert (H1 : core (set_pool (set_kern s k) (pool_add (pool s) b)) L V).
  { apply (core_pool_add (set_kern s k) L V (pool_add (pool s) b) b p); try done; [by apply core_kern|]. cbn. solve_Permutation. }
  pose proof (sum_foot_bound _ (core_sized _ _ _ H1)) as Hsb. cbn [pool set_pool pool_add blocks] in Hsb.
  change V3DA_MAX_POOL with 1024 in Heqb.
  assert (Hlen : zlen (blocks (pool s) ++ [b]) = zlen (blocks (pool s)) + 1) by (unfold zlen; rewrite length_app; cbn; lia).
  assert (Hbytes : u64 (pool_bytes (pool s) + v3da_pool_block_bytes b PAGE_SIZE) = sum_foot 4096 (blocks (pool s) ++ [b])).
  { rewrite page_size_eq, Hb. rewrite sum_foot_app, sum_foot_cons in *. change (sum_foot 4096 []) with 0 in *.
    unfold u64. rewrite Z.mod_small; lia. }
  case_if; bsimp.
  - apply pool_trim_ok; [done|done| |done]. cbn. lia.
  - split; [done|]. cbn in Heqb0. unfold pool_acct. cbn. split_and!; [done|lia|lia|done].
Qed.

Lemma pool_tick_ok s L V now soon :
  core s L V -> pool_acct (pool s) ->
  core (v3da_bo_pool_tick s now soon) L V /\ pool_acct (pool (v3da_bo_pool_tick s now soon)).
Proof.
  intros H Ha. unfold v3da_bo_pool_tick. set (c := soon || _). destruct c.
  - set (s1 := set_pool s (set_scan_us (pool s) (u64 (now + POOL_SCAN_US)))).
    assert (H1 : core s1 L V) by by apply core_pool_perm.
    destruct Ha as (Hb & Hn & Hcap & Hc). destruct (pool_trim_ok s1 L V now (pool_idle_us (pool s)) H1 Hb Hn Hc) as [H2 H3].
    split; [|by apply acct_note]. by apply (core_note (pool_trim s1 now (pool_idle_us (pool s))) L V (pool (pool_trim s1 now (pool_idle_us (pool s)))) now),
      core_pool_perm.
  - split; [|by apply acct_note]. by apply core_note, core_pool_perm.
Qed.

(** ** Fresh blocks *)

Lemma core_mmap s L V n cached cpu k' :
  core s L V -> 0 < n -> k_mmap (kern s) (n * 4096) cached = Some (cpu, k') ->
  exists p, zlen p = n /\ p !! O = Some (k_va2pa k' cpu) /\ core (set_kern s k') ((cpu, true, p) :: L) V.
Proof.
  intros H Hn E. destruct (k_mmap_law (kern s) n cached cpu k' (co_k _ _ _ H) ltac:(lia) E) as (Hk & Hno & p & Hz & Hr).
  destruct (lookup_lt_is_Some_2 p 0) as [pa Hpa]; [unfold zlen in Hz; lia|]. exists p. split_and!; [done| |by apply core_mapped].
  assert (E2 : k_va2pa k' (cpu + Z.of_nat 0 * 4096) = pa).
  { apply (k_resolve k' cpu true p 0%nat pa); [done| |done]. by rewrite Hr, lookup_insert_eq. }
  rewrite Z.mul_0_l, Z.add_0_r in E2. by rewrite E2.
Qed.

(** Zeroing a mapping the operation holds. *)
Lemma core_zero s L V cpu a p bytes :
  core s ((cpu, a, p) :: L) V -> bytes = zlen p * 4096 ->
  core (set_kern s (k_zero (kern s) cpu bytes)) ((cpu, a, p) :: L) V /\ k_zeroed (k_zero (kern s) cpu bytes) cpu.
Proof.
  intros H ->. destruct (k_zero_law (kern s) cpu a p (co_k _ _ _ H)) as (Hk & Hr & Hz); [apply (co_loose _ _ _ H); by left|].
  split; [by apply core_kern|done].
Qed.

Lemma core_va2pa s L V cpu a p pa :
  core s ((cpu, a, p) :: L) V -> p !! O = Some pa -> k_va2pa (kern s) cpu = pa.
Proof.
  intros H H0. pose proof (k_resolve (kern s) cpu a p 0%nat pa (co_k _ _ _ H)) as E.
  rewrite Z.mul_0_l, Z.add_0_r in E. apply E; [apply (co_loose _ _ _ H); by left|done].
Qed.

Lemma fresh_block_ok s L V n cached res r pl s' :
  core s L V -> pool_acct (pool s) -> 0 < n -> fresh_block s (n * PAGE_SIZE) cached res = (r, pl, s') ->
  pool_acct (pool s') /\
  match r with
  | None => core s' L V
  | Some (cpu, pa) => exists p, zlen p = n /\ p !! O = Some pa /\ core s' ((cpu, true, p) :: L) V /\ k_zeroed (kern s') cpu
  end.
Proof.
  intros H Ha Hn. unfold fresh_block, block_map. rewrite page_size_eq. destruct (k_mmap (kern s) (n * 4096) cached) as [[cpu k]|] eqn:E.
  - intros [= <- <- <-]. split; [done|]. destruct (core_mmap s L V n cached cpu k H Hn E) as (p & Hz & H0 & Hc).
    destruct (core_zero _ _ _ _ _ _ (n * 4096) Hc) as [Hc' Hz']; [by rewrite Hz|]. exists p. split_and!; [done| |done|done].
    rewrite H0. f_equal. symmetry. apply (core_va2pa _ _ _ _ _ _ _ Hc'). by rewrite H0.
  - intros [= <- <- <-]. split; [done|]. apply core_kern; [done|apply H|done].
Qed.

(** The blocks taken by the placement loop, held by the operation. *)
Definition held_as (n : Z) (h : held_block) (l : Z * bool * list Z) : Prop :=
  l.1 = (h_cpu h, true) /\ zlen l.2 = n /\ l.2 !! O = Some (h_pa h).

Lemma core_loose_perm s L L' V : core s L V -> L ≡ₚ L' -> core s L' V.
Proof.
  intros H Hp. destruct H as [H1 H2 H3 H4 H5 H6 H7 H8 H9 H10 H11 H12 H13 H14 H15 H16 H17]. constructor; try done.
  - revert H2. apply NoDup_Permutation_proper. unfold cpus. by rewrite Hp.
  - intros c a p. rewrite <- Hp. apply H6.
Qed.

Lemma core_hands_out s V n cached : forall k taken k1,
  hands_out (block_map (n * 4096) cached) (n * 4096) 4096 k taken k1 -> 0 < n ->
  forall L, core (set_kern s k) L V ->
  exists T, Forall2 (held_as n) taken T /\ core (set_kern s k1) (T ++ L) V.
Proof.
  induction 1 as [k|k cpu first last k1 l k2 Hm _ IH]; intros Hn L Hc; [by exists []|].
  unfold block_map in Hm. destruct (k_mmap k (n * 4096) cached) as [[cpu' k']|] eqn:E; [|done]. injection Hm as <- <- <- <-.
  destruct (core_mmap _ _ _ _ _ _ _ Hc Hn E) as (p & Hz & H0 & Hc'). destruct (IH Hn _ Hc') as (T & HT & HcT).
  exists ((cpu', true, p) :: T). split; [by constructor|].
  eapply core_loose_perm; [exact HcT|]. cbn. by rewrite Permutation_middle.
Qed.

Lemma core_give_back s V n : forall (l : list held_block) T, Forall2 (held_as n) l T ->
  forall k L, core (set_kern s k) (T ++ L) V -> core (set_kern s (give_back (block_unmap (n * 4096)) k l)) L V.
Proof.
  induction 1 as [|h [[c a] p] l T ([= -> ->] & Hz & _) _ IH]; intros k L Hc; [done|]. cbn in Hz.
  cbn [give_back fold_left]. apply IH. unfold block_unmap. rewrite <- Hz. by eapply (core_unmapped (set_kern s k)).
Qed.

Lemma lowmem_block_ok s L V n cached r res k :
  core s L V -> 0 < n ->
  v3da_lowmem_map (block_map (n * 4096) cached) (block_unmap (n * 4096)) (kern s) (n * 4096) V3DA_LOWMEM_TRIES 4096 = (r, res, k) ->
  match r with
  | None => core (set_kern s k) L V
  | Some (cpu, pa) => exists p, zlen p = n /\ p !! O = Some pa /\ core (set_kern s k) ((cpu, true, p) :: L) V
  end.
Proof.
  intros H Hn E. apply lowmem_map_facts in E as (taken & k1 & k2 & Hh & _ & Hk2 & _ & _ & Hr); [|lia|lia|apply Z.mod_mul; lia|done].
  destruct (core_hands_out s V n cached _ _ _ Hh Hn L (core_self _ _ _ H)) as (T & HT & Hc).
  assert (Ek : k2 = k1).
  { destruct Hk2 as [->|Hm]; [done|]. unfold block_map in Hm. destruct (k_mmap k1 (n * 4096) cached) as [[??]|]; by simplify_eq. }
  subst k2. destruct r as [[cpu pa]|].
  - destruct Hr as (l0 & h & l1 & -> & _ & -> & -> & -> & _).
    apply Forall2_app_inv_l in HT as (T0 & T1' & HT0 & HT1 & ->). apply Forall2_cons_inv_l in HT1 as ([[c a] p] & T1 & (Ha & Hz & H0) & HT1 & ->).
    cbn in Ha, Hz, H0. injection Ha as -> ->. exists p. split_and!; [done|done|].
    apply (core_give_back s V n (l0 ++ l1) (T0 ++ T1)); [by apply Forall2_app|]. eapply core_loose_perm; [exact Hc|]. solve_Permutation.
  - destruct Hr as (_ & _ & -> & _). by apply (core_give_back s V n taken T).
Qed.

Lemma block_get_ok s L V n cached want_low r pl s' :
  core s L V -> pool_acct (pool s) -> 0 < n -> block_get s n cached want_low = (r, pl, s') ->
  pool_acct (pool s') /\
  match r with
  | None => core s' L V
  | Some (cpu, pa) => exists p, zlen p = n /\ p !! O = Some pa /\ core s' ((cpu, true, p) :: L) V /\ k_zeroed (kern s') cpu
  end.
Proof.
  intros H Ha Hn. unfold block_get. rewrite page_size_eq. case_if; bsimp.
  - destruct (pool_pick_spec (blocks (pool s)) n (of_bool cached) want_low 4096) as [(E & _)|(Hi & Hsu & _)]; cbn zeta in *; [lia|].
    set (i := v3da_pool_pick _ _ _ _ _) in *. set (b := blocks (pool s) !!! Z.to_nat i) in *.
    pose proof (swap_remove_perm i (blocks (pool s)) Hi) as Hp. fold b in Hp.
    destruct (core_pool_take s L V (pool_take (pool s) i) b H Hp) as (p & Hz & H0 & Hle & Hc).
    unfold suits in Hsu. bsimp. intros [= <- <- <-].
    destruct (core_zero _ _ _ _ _ _ (n * 4096) Hc) as [Hc' Hzz]; [lia|]. split; [|exists p; split_and!; [lia|done|done|done]].
    destruct Ha as (Hb & Hlen & Hcap & Hc0). pose proof (sum_foot_bound _ (core_sized _ _ _ Hc)) as Hsb. cbn in Hsb.
    pose proof (sum_foot_perm 4096 _ _ Hp) as Hsum. rewrite sum_foot_cons in Hsum. pose proof (sum_foot_bound _ (core_sized _ _ _ H)) as Hsb0.
    assert (Hlt : length (blocks (pool s)) = S (length (swap_remove i (blocks (pool s))))) by (rewrite Hp at 1; done).
    unfold pool_acct. cbn. fold b. rewrite Hb, page_size_eq. unfold u64.
    pose proof (foot_bound (pb_pages b)) as Hfb. unfold v3da_pool_block_bytes in *. unfold zlen in *.
    rewrite Z.mod_small by lia. split_and!; lia.
  - destruct want_low; [|by apply fresh_block_ok].
    destruct (v3da_lowmem_map _ _ _ _ _ _) as [[r0 res] k] eqn:E. pose proof (lowmem_block_ok s L V n cached r0 res k H Hn E) as Hr.
    destruct r0 as [[cpu pa]|].
    + intros [= <- <- <-]. split; [done|]. destruct Hr as (p & Hz & H0 & Hc).
      destruct (core_zero _ _ _ _ _ _ (n * 4096) Hc) as [Hc' Hzz]; [lia|]. exists p. split_and!; try done.
      by apply (core_low _ _ _ (add_tries (low s) res)) in Hc'.
    + apply fresh_block_ok; [|done|done]. by apply core_low.
Qed.

End pool.

(** ** References and quarantine *)

Section refs.
Context `{KL : KernelLaws}.
Implicit Types (s : bsrv).

(** The invariant of the memory with the mappings [L] held outside the tables, and room
    for [n] more changes of the page table's generation. *)
Definition mem_ok (s : bsrv) (L : list (Z * bool * list Z)) (n : Z) : Prop :=
  core s L [] /\ pool_acct (pool s) /\ zlen (bos s) <= 4096 /\ pt_gen (hwst s) + n < 2 ^ 64.

Lemma mem_ok_weaken s L n m : mem_ok s L n -> m <= n -> mem_ok s L m.
Proof. intros (H & Ha & Hl & Hg) Hm. split_and!; [done|done|done|lia]. Qed.

Lemma mem_ok_cnt s L n i f : mem_ok s L n -> mem_ok (upd_cnt s i f) L n.
Proof. intros (H & Ha & Hl & Hg). split_and!; [by apply core_cnt|done| |done]. unfold zlen. cbn. by rewrite length_alter. Qed.

Lemma bo_at_eq s i b : bos s !! i = Some b -> bo_at s i = b.
Proof. apply list_lookup_total_correct. Qed.

Lemma bos_upd_cnt s i b f : bos s !! i = Some b -> bos (upd_cnt s i f) !! i = Some (set_cnt b (f (b_cnt b))).
Proof. intros H. unfold upd_cnt, upd_bo. cbn. by rewrite list_lookup_alter_eq, H. Qed.

(** Withdrawing the name of BO [i] only clears its [exported]. *)
Lemma export_withdraw_ok s L n i b :
  mem_ok s L n -> bos s !! i = Some b ->
  mem_ok (export_withdraw s i) L n /\ bos (export_withdraw s i) !! i = Some (set_cnt b (with_exported (b_cnt b) false)) /\
  hwst (export_withdraw s i) = hwst s.
Proof.
  intros (H & Ha & Hl & Hg) Hb. unfold export_withdraw. rewrite (bo_at_eq s i b Hb). case_if.
  - split_and!; [split_and!|by apply bos_upd_cnt|done]; [|done|unfold zlen; cbn; by rewrite length_alter|done].
    apply core_prime. destruct (k_unexport_law (kern s) (buf_port s, b_handle (bo_at (upd_cnt s i (fun c => with_exported c false)) i)) (co_k _ _ _ H)).
    apply core_kern; [by apply core_cnt|done|done].
  - split_and!; [done| |done]. rewrite Hb. f_equal. destruct b as [? ? [] ? ? ?]; cbn in *. by subst.
Qed.

Lemma quarantine_begin_ok s L n i b :
  mem_ok s L (n + 1) -> 0 <= n -> bos s !! i = Some b -> b_state b = V3DA_BO_LIVE -> mem_ok (quarantine_begin s i) L n.
Proof.
  intros Hok Hn Hb Hs. destruct (export_withdraw_ok s L (n + 1) i b Hok Hb) as ((H & Ha & Hl & Hg) & Hb1 & Hh).
  unfold quarantine_begin. set (s1 := export_withdraw s i) in *. rewrite (bo_at_eq s1 i _ Hb1).
  set (b1 := set_cnt b (with_exported (b_cnt b) false)) in *. rewrite shr12.
  set (h := pt_fill (hwst s1) (b_gpuva b1 / 4096) (replicate (Z.to_nat (b_pages b1)) 0)).
  set (s2 := unclaim (set_hw s1 (bump_pt_gen h)) b1).
  assert (Hcl : exists c, s2 = set_claimed (set_hw s1 (bump_pt_gen h)) c).
  { unfold s2, unclaim. case_if; [by eexists|]. exists (claimed (scan s1)). unfold set_claimed, set_hw. cbn. by destruct s1 as [? ? ? ? ? ? ? []]. }
  destruct Hcl as [c Ec]. clearbody s2. subst s2.
  assert (Hgen : pt_gen (bump_pt_gen h) = pt_gen (hwst s1) + 1).
  { cbn. destruct (pt_fill_frame (replicate (Z.to_nat (b_pages b1)) 0) (hwst s1) (b_gpuva b1 / 4096)) as (_ & _ & _ & E & _).
    fold h in E. rewrite E. unfold u64. rewrite Z.mod_small; [done|]. destruct (co_gen _ _ _ H). lia. }
  change (pt_gen (hwst (set_claimed (set_hw s1 (bump_pt_gen h)) c))) with (pt_gen (bump_pt_gen h)). rewrite Hgen.
  set (p := map _ _). clearbody p.
  pose proof (core_quarantine s1 L [] i b1 p H Hb1 Hs ltac:(lia)) as Hq. cbn zeta in Hq. fold h in Hq.
  assert (Hgoal : forall s3, s3 = set_hw (set_claimed (set_hw s1 (bump_pt_gen h)) c) (v3da_hw_mmu_flush (bump_pt_gen h)) \/
      s3 = set_claimed (set_hw s1 (bump_pt_gen h)) c ->
    mem_ok (upd_bo s3 i (fun b => set_quarantine b (pt_gen (hwst s1) + 1) p)) L n).
  { intros s3 [->| ->]; split_and!; try done; try (unfold zlen; cbn; by rewrite length_alter).
    - apply core_flush in Hq. by apply (core_claimed _ _ _ c) in Hq.
    - change (pt_gen (bump_pt_gen h) + n < 2 ^ 64). lia.
    - by apply (core_claimed _ _ _ c) in Hq.
    - change (pt_gen (bump_pt_gen h) + n < 2 ^ 64). lia. }
  apply Hgoal. case_if; [by right|by left].
Qed.

Lemma bo_unref_ok s L n i b :
  mem_ok s L (n + 1) -> 0 <= n -> bos s !! i = Some b -> b_state b = V3DA_BO_LIVE -> mem_ok (bo_unref s i) L n.
Proof.
  intros Hok Hn Hb Hs. unfold bo_unref. rewrite (bo_at_eq s i b Hb).
  set (s1 := if 0 <? refs (b_cnt b) then upd_cnt s i (fun c => with_refs c (refs c - 1)) else s).
  assert (H1 : mem_ok s1 L (n + 1) /\ exists b1, bos s1 !! i = Some b1 /\ b_state b1 = V3DA_BO_LIVE).
  { unfold s1. case_if; [split; [by apply mem_ok_cnt|]|by eauto]. eexists. split; [by apply bos_upd_cnt|done]. }
  clearbody s1. destruct H1 as (H1 & b1 & Hb1 & Hs1). rewrite (bo_at_eq s1 i b1 Hb1).
  case_if; [|by apply (mem_ok_weaken _ _ _ n) in H1; [|lia]].
  destruct (export_withdraw_ok s1 L (n + 1) i b1 H1 Hb1) as (H2 & Hb2 & _).
  case_if; [by eapply quarantine_begin_ok|]. by apply (mem_ok_weaken _ _ _ n) in H2; [|lia].
Qed.

(** ** The end of the quarantine *)

Lemma block_put_frame s cpu pa pages cached :
  bos (block_put s cpu pa pages cached) = bos s /\ bo_gen (block_put s cpu pa pages cached) = bo_gen s /\
  hwst (block_put s cpu pa pages cached) = hwst s /\ low (block_put s cpu pa pages cached) = low s /\
  scan (block_put s cpu pa pages cached) = scan s.
Proof.
  unfold block_put. case_if; [|done]. destruct (k_now (kern s)) as [now k]. case_if; [|done].
  unfold pool_trim. by case_if.
Qed.

(** The block's release does not read the table of BOs. *)
Lemma block_put_set_bos s l g cpu pa pages cached :
  block_put (set_bos s l g) cpu pa pages cached = set_bos (block_put s cpu pa pages cached) l g.
Proof.
  unfold block_put. cbn [pool set_bos kern]. case_if; [|done]. destruct (k_now (kern s)) as [now k].
  cbn [pool set_pool set_kern pool_cap pool_bytes]. case_if; [|done]. unfold pool_trim. cbn zeta. cbn [pool set_pool]. by case_if.
Qed.

Lemma release_block_set_bos s l g b : release_block (set_bos s l g) b = set_bos (release_block s b) l g.
Proof.
  unfold release_block. destruct (m_imported (b_mem b)); [done|]. destruct (m_low (b_mem b)); [|apply block_put_set_bos].
  apply (block_put_set_bos (set_low s (low_release (low s) (v3da_lowmem_footprint (m_pages (b_mem b)) PAGE_SIZE)))).
Qed.

Lemma release_block_ok s L b p :
  core s ((m_cpu (b_mem b), negb (m_imported (b_mem b)), p) :: L) [(b_gpuva b, b_pages b)] -> pool_acct (pool s) ->
  zlen p = b_pages b -> p !! O = Some (m_pa (b_mem b)) -> b_pages b <= 2 ^ 18 ->
  core (release_block s b) L [(b_gpuva b, b_pages b)] /\ pool_acct (pool (release_block s b)) /\ hwst (release_block s b) = hwst s.
Proof.
  intros H Ha Hz H0 Hle. unfold release_block. destruct (m_imported (b_mem b)); cbn [negb] in H.
  - split_and!; [|done|done]. change (m_pages (b_mem b)) with (b_pages b). rewrite page_size_eq. replace (b_pages b * 4096) with (zlen p * 4096) by lia.
    by apply core_prime, (core_unmapped s L _ _ false p).
  - set (s1 := if m_low _ then _ else _).
    assert (H1 : core s1 ((m_cpu (b_mem b), true, p) :: L) [(b_gpuva b, b_pages b)] /\ pool s1 = pool s /\ hwst s1 = hwst s).
    { unfold s1. destruct (m_low (b_mem b)); [split; [by apply core_low|done]|done]. }
    clearbody s1. destruct H1 as (H1 & Hp & Hh).
    destruct (block_put_ok s1 L _ (m_cpu (b_mem b)) p (b_pages b) (m_pa (b_mem b)) (has (m_flags (b_mem b)) V3DA_BO_CACHEABLE) H1) as [Hc Hac];
      [by rewrite Hp|done..|].
    split_and!; [done|done|]. rewrite <- Hh. apply block_put_frame.
Qed.

Lemma poll_one_ok s L n i : mem_ok s L n -> mem_ok (poll_one s i) L n.
Proof.
  intros (H & Ha & Hl & Hg). unfold poll_one. destruct (bos s !! i) as [b|] eqn:Hb.
  2: { unfold bo_at. rewrite list_lookup_total_alt, Hb. cbn. done. }
  rewrite (bo_at_eq s i b Hb). destruct (quarantine_over s b) eqn:Eq; [|done]. unfold quarantine_over in Eq.
  apply andb_true_iff in Eq as [Eq _]. apply andb_true_iff in Eq as [H1 H3]. bsimp.
  destruct (co_bo _ _ _ H b) as (p & Hp & Hz & H0 & Hle); [by eapply list_elem_of_lookup_2|congruence|].
  pose proof (core_free s L [] i b _ p H Hb H1 H3 Hp) as Hf.
  destruct (release_block_ok _ L b p Hf Ha Hz H0 Hle) as (Hc & Hac & Hh).
  unfold upd_bo in Hc, Hac, Hh. rewrite release_block_set_bos in Hc, Hac, Hh. apply core_va_free in Hc.
  split_and!.
  - apply core_stats. unfold upd_bo. cbn [bos set_hw bo_gen].
    assert (E : bos (release_block s b) = bos s /\ bo_gen (release_block s b) = bo_gen s).
    { unfold release_block. destruct (m_imported (b_mem b)); [done|]. destruct (m_low (b_mem b)); cbn zeta;
        [set (s1 := set_low _ _)|set (s1 := s)]; destruct (block_put_frame s1 (m_cpu (b_mem b)) (m_pa (b_mem b)) (m_pages (b_mem b))
          (has (m_flags (b_mem b)) V3DA_BO_CACHEABLE)) as (E1 & E2 & _); by rewrite E1, E2. }
    destruct E as [-> ->]. done.
  - done.
  - unfold zlen. cbn. rewrite length_alter. unfold release_block. destruct (m_imported (b_mem b)); [done|]. destruct (m_low (b_mem b)); cbn zeta;
      by rewrite (proj1 (block_put_frame _ _ _ _ _)).
  - cbn in Hh |- *. unfold v3da_hw_va_free. case_if; cbn; by rewrite Hh.
Qed.

Lemma quarantine_poll_ok s L n : mem_ok s L n -> mem_ok (v3da_bo_quarantine_poll s) L n.
Proof.
  unfold v3da_bo_quarantine_poll. generalize (seq 0 (length (bos s))). intros l. revert s.
  induction l as [|i l IH]; intros s H; [done|]. cbn. by apply IH, poll_one_ok.
Qed.
End refs.

(** ** Lookups *)

Section lookups.
Context `{KL : KernelLaws}.
Implicit Types (s : bsrv).

Lemma bo_lookup_Some s handle i :
  bo_lookup s handle = Some i ->
  exists b, bos s !! i = Some b /\ b_state b = V3DA_BO_LIVE /\ b_handle b = handle.
Proof.
  unfold bo_lookup. case_if; [done|]. case_if; [|done]. intros [= <-]. bsimp.
  assert (0 <= handle &&& V3DA_HANDLE_SLOT_MASK) by (apply Z.land_nonneg; right; done).
  eexists. split; [apply list_lookup_lookup_total_lt; unfold zlen in *; lia|done].
Qed.

Lemma bo_find_Some s handle i :
  v3da_bo_find s handle = Some i ->
  exists b, bos s !! i = Some b /\ b_state b = V3DA_BO_LIVE /\ b_handle b = handle /\ 0 < refs (b_cnt b).
Proof.
  unfold v3da_bo_find. destruct (bo_lookup s handle) as [i'|] eqn:E; cbn; [|done]. case_if; [|done]. intros [= ->]. bsimp.
  destruct (bo_lookup_Some _ _ _ E) as (b & Hb & Hs & Hh). rewrite (bo_at_eq _ _ _ Hb) in *. eauto.
Qed.

(** ** The operations *)

Lemma pin_ok s L n handles : mem_ok s L n -> mem_ok (v3da_bo_pin_for_job s handles).2 L n.
Proof.
  intros H. unfold v3da_bo_pin_for_job. case_if; [|done]. clear Heqb. cbn. revert s H.
  induction handles as [|h handles IH]; intros s H; [done|]. cbn. apply IH. unfold pin_one.
  destruct (v3da_bo_find s h); [by apply mem_ok_cnt|done].
Qed.

Lemma mem_ok_upd s L n i f : mem_ok s L n -> (forall b, same_view b (f b)) -> mem_ok (upd_bo s i f) L n.
Proof. intros (H & Ha & Hl & Hg) Hf. split_and!; [by apply core_upd|done| |done]. unfold zlen. cbn. by rewrite length_alter. Qed.

Lemma mark_use_ok s L n handles f gseq : mem_ok s L n -> mem_ok (v3da_bo_mark_use s handles f gseq) L n.
Proof.
  unfold v3da_bo_mark_use. revert s. induction handles as [|h handles IH]; intros s H; [done|]. cbn. apply IH. unfold mark_one.
  destruct (bo_lookup s h); [|done]. case_if; [|done]. by apply mem_ok_upd.
Qed.

Lemma unpin_ok s L n handles : mem_ok s L (n + zlen handles) -> 0 <= n -> mem_ok (v3da_bo_unpin s handles) L n.
Proof.
  unfold v3da_bo_unpin. revert s. induction handles as [|h handles IH]; intros s H Hn; cbn [fold_left].
  { eapply mem_ok_weaken; [exact H|unfold zlen; cbn; lia]. }
  assert (E : zlen (h :: handles) = zlen handles + 1) by (unfold zlen; cbn; lia). assert (0 <= zlen handles) by (unfold zlen; lia).
  apply IH; [|done]. unfold unpin_one. destruct (bo_lookup s h) as [i|] eqn:El; [|eapply mem_ok_weaken; [exact H|lia]].
  destruct (bo_lookup_Some _ _ _ El) as (b & Hb & Hs & _). rewrite (bo_at_eq s i b Hb).
  set (s1 := if 0 <? inflight (b_cnt b) then _ else s).
  assert (H1 : mem_ok s1 L (n + zlen (h :: handles)) /\ exists b1, bos s1 !! i = Some b1 /\ b_state b1 = V3DA_BO_LIVE).
  { unfold s1. case_if; [split; [by apply mem_ok_cnt|]|by eauto]. eexists. split; [by apply bos_upd_cnt|done]. }
  destruct H1 as (H1 & b1 & Hb1 & Hs1). case_if; [|eapply mem_ok_weaken; [exact H1|lia]].
  eapply quarantine_begin_ok; [eapply mem_ok_weaken; [exact H1|lia]|lia|done|done].
Qed.

(** Dropping a reference of BO [i] after a change of its counts. *)
Lemma unref_cnt_ok s L n i b f :
  mem_ok s L (n + 1) -> 0 <= n -> bos s !! i = Some b -> b_state b = V3DA_BO_LIVE -> mem_ok (bo_unref (upd_cnt s i f) i) L n.
Proof. intros H Hn Hb Hs. eapply bo_unref_ok; [by apply mem_ok_cnt|done|by apply bos_upd_cnt|done]. Qed.

Lemma close_ok s L n client handle : mem_ok s L (n + 1) -> 0 <= n -> mem_ok (v3da_bo_close s client handle) L n.
Proof.
  intros H Hn. unfold v3da_bo_close. assert (Hw : mem_ok s L n) by (eapply mem_ok_weaken; [exact H|lia]).
  destruct (v3da_bo_find s handle) as [i|] eqn:E; [|done]. destruct (bo_find_Some _ _ _ E) as (b & Hb & Hs & _).
  case_if; [|case_if; [|done]]; apply quarantine_poll_ok; by eapply unref_cnt_ok.
Qed.

Lemma gone_one_ok s L n client i : mem_ok s L (n + 2) -> 0 <= n -> mem_ok (gone_one client s i) L n.
Proof.
  intros H Hn. unfold gone_one. case_if; [eapply mem_ok_weaken; [exact H|lia]|]. apply orb_false_iff in Heqb as [Hs _]. apply negb_false_iff, bool_decide_eq_true_1 in Hs.
  destruct (bos s !! i) as [b|] eqn:Hb.
  2: { unfold bo_at in Hs. rewrite list_lookup_total_alt, Hb in Hs. done. }
  rewrite (bo_at_eq s i b Hb) in *. set (s1 := if owner (b_cnt b) =? client then _ else s).
  assert (H1 : mem_ok s1 L (n + 1)).
  { unfold s1. case_if; [|eapply mem_ok_weaken; [exact H|lia]]. eapply unref_cnt_ok; [|lia|done|done]. eapply mem_ok_weaken; [exact H|lia]. }
  clearbody s1. case_if; [|eapply mem_ok_weaken; [exact H1|lia]]. bsimp. destruct (bos s1 !! i) as [b1|] eqn:Hb1.
  - rewrite (bo_at_eq s1 i b1 Hb1) in *. by eapply unref_cnt_ok.
  - unfold bo_at in *. rewrite list_lookup_total_alt, Hb1 in *. done.
Qed.

Lemma client_gone_ok s L n client : mem_ok s L (n + 8192) -> 0 <= n -> mem_ok (v3da_bo_client_gone s client) L n.
Proof.
  intros H Hn. unfold v3da_bo_client_gone.
  assert (Hloop : forall l s, mem_ok s L (n + 2 * zlen l) -> mem_ok (fold_left (gone_one client) l s) L n).
  { induction l as [|i l IH]; intros s' H'; cbn [fold_left]; [eapply mem_ok_weaken; [exact H'|unfold zlen; cbn; lia]|].
    apply IH, gone_one_ok; [|unfold zlen; lia]. eapply mem_ok_weaken; [exact H'|unfold zlen; cbn; lia]. }
  assert (H1 : mem_ok (v3da_bo_quarantine_poll (fold_left (gone_one client) (seq 0 (length (bos s))) s)) L n).
  { apply quarantine_poll_ok, Hloop. eapply mem_ok_weaken; [exact H|]. destruct H as (_ & _ & Hl & _). unfold zlen in *.
    rewrite length_seq. lia. }
  set (s1 := v3da_bo_quarantine_poll _) in *. clearbody s1. destruct (k_now (kern s1)) as [now k] eqn:Ek.
  destruct H1 as (H1 & Ha & Hl & Hg). destruct (k_now_law (kern s1) (co_k _ _ _ H1)) as [Hk Hr]. rewrite Ek in Hk, Hr. cbn in Hk, Hr.
  destruct (pool_tick_ok (set_kern s1 k) L [] now true) as [Hc Hac]; [by apply core_kern|done|].
  split_and!; [done|done| |]; unfold v3da_bo_pool_tick, pool_trim; cbn; repeat case_if; done.
Qed.

Lemma tick_ok s L n now soon : mem_ok s L n -> mem_ok (v3da_bo_pool_tick s now soon) L n.
Proof.
  intros (H1 & Ha & Hl & Hg). destruct (pool_tick_ok s L [] now soon H1 Ha) as [Hc Hac].
  split_and!; [done|done| |]; unfold v3da_bo_pool_tick, pool_trim; cbn; repeat case_if; done.
Qed.

Lemma export_ok s L n client handle : mem_ok s L n -> mem_ok (v3da_bo_export s client handle).2 L n.
Proof.
  intros H. unfold v3da_bo_export. destruct (v3da_bo_find s handle) as [i|]; [|done].
  case_if; [done|]. case_if; [done|]. case_if; [done|]. case_if; [done|].
  destruct (k_export _ _ _ _) as [rc k] eqn:Ek. pose proof H as (Hc & Ha & Hl & Hg).
  destruct (k_export_law (kern s) (buf_port s, b_handle (bo_at s i)) (m_cpu (b_mem (bo_at s i))) (b_pages (bo_at s i) * PAGE_SIZE) (co_k _ _ _ Hc)) as [Hk Hr].
  rewrite Ek in Hk, Hr. cbn in Hk, Hr.
  assert (H1 : mem_ok (set_kern s k) L n) by (split_and!; [by apply core_kern|done|done|done]).
  case_if; [done|]. cbn. apply (mem_ok_cnt _ _ _ i (fun c => with_exported c true)) in H1. destruct H1 as (H1 & ? & ? & ?).
  split_and!; try done. by apply core_prime.
Qed.

Lemma import_v3dbuf_ok s L n client rq : mem_ok s L n -> mem_ok (import_v3dbuf s client rq).2 L n.
Proof.
  intros H. unfold import_v3dbuf. case_if; [done|]. case_if; [done|]. destruct (if 0xffffffff <? iq_id rq then None else _) as [i|]; [|done].
  case_if; [done|]. case_if; [done|]. cbn. case_if; [done|]. by apply mem_ok_cnt.
Qed.

Lemma bufns_open_ok s L n id : mem_ok s L n -> mem_ok (bufns_open s id).2 L n.
Proof. intros H. unfold bufns_open. case_if; [done|]. destruct (bo_by_export s id); [|done]. by apply mem_ok_cnt. Qed.

Lemma bufns_close_ok s L n id : mem_ok s L (n + 1) -> 0 <= n -> mem_ok (bufns_close s id) L n.
Proof.
  intros H Hn. unfold bufns_close. assert (Hw : mem_ok s L n) by (eapply mem_ok_weaken; [exact H|lia]).
  destruct (if negb (id =? 0) && (id <=? 0xffffffff) then bo_lookup s id else None) as [i|] eqn:E; [|done]. case_if; [|done].
  assert (El : bo_lookup s id = Some i) by (destruct (negb (id =? 0) && (id <=? 0xffffffff)); done).
  destruct (bo_lookup_Some _ _ _ El) as (b & Hb & Hs & _). apply quarantine_poll_ok. by eapply unref_cnt_ok.
Qed.
End lookups.

(** ** New BOs *)

Section create.
Context `{KL : KernelLaws}.
Implicit Types (s : bsrv).

Lemma free_slot_spec l : (free_slot l <= length l)%nat /\
  forall b, l !! free_slot l = Some b -> b_state b = V3DA_BO_FREE.
Proof.
  induction l as [|b l [IH1 IH2]]; cbn; [split; [lia|done]|]. case_bool_decide; cbn; [split; [lia|by intros ? [= <-]]|split; [lia|done]].
Qed.

(** The table grown by a slot if need be. *)
Definition grown (s : bsrv) (slot : nat) : bsrv :=
  if bool_decide (slot = length (bos s)) then set_bos s (bos s ++ [no_bo]) (bo_gen s ++ [0]) else s.

Lemma grown_ok s L V slot :
  core s L V -> slot = free_slot (bos s) ->
  core (grown s slot) L V /\ exists b0, bos (grown s slot) !! slot = Some b0 /\ b_state b0 = V3DA_BO_FREE.
Proof.
  intros H ->. unfold grown. destruct (free_slot_spec (bos s)) as [Hle Hfree]. case_bool_decide as E.
  - split; [by apply core_grow|]. exists no_bo. split; [|done]. cbn. rewrite E. by apply list_lookup_middle.
  - split; [done|]. destruct (lookup_lt_is_Some_2 (bos s) (free_slot (bos s))) as [b Hb]; [lia|]. eauto.
Qed.

Lemma grown_length s : zlen (bos s) <= 4096 ->
  (free_slot (bos s) = length (bos s) -> zlen (bos s) < 4096) -> zlen (bos (grown s (free_slot (bos s)))) <= 4096.
Proof.
  intros Hl Hn. unfold grown. case_bool_decide as E; [|done]. specialize (Hn E). unfold zlen in *. cbn. rewrite length_app. cbn. lia.
Qed.

Lemma slot_for_grown s slot s1 :
  slot_for s = Some (slot, s1) -> zlen (bos s) <= 4096 ->
  slot = free_slot (bos s) /\ s1 = grown s slot /\ zlen (bos s1) <= 4096.
Proof.
  unfold slot_for. intros E Hl. pose proof (grown_length s Hl) as Hg. unfold grown in *. case_bool_decide as Ec.
  - destruct (V3DA_MAX_BOS <=? zlen (bos s)) eqn:Em; [done|]. injection E as <- <-. rewrite bool_decide_eq_true_2 by done.
    apply Z.leb_gt in Em. split_and!; [done|done|auto].
  - injection E as <- <-. rewrite bool_decide_eq_false_2 by done. done.
Qed.

Lemma scanout_free_spec l : forall i, 0 <= i -> 
  scanout_free l i = -1 \/ (i <= scanout_free l i < i + zlen l /\ arr_get l (scanout_free l i - i) = 0).
Proof.
  induction l as [|c l IH]; intros i Hi; cbn [scanout_free]; [by left|]. assert (zlen (c :: l) = 1 + zlen l) by (unfold zlen; cbn; lia).
  case_if; bsimp; [right; split; [unfold zlen; cbn; lia|by rewrite Z.sub_diag]|].
  destruct (IH (i + 1)) as [->|[Hr Hz]]; [lia|by left|right; split; [lia|]].
  unfold arr_get in *. by replace (Z.to_nat (scanout_free l (i + 1) - i)) with (S (Z.to_nat (scanout_free l (i + 1) - (i + 1)))) by lia.
Qed.

Lemma scanout_pick_range s : 0 <= scanout_pick s -> 0 <= scanout_pick s < scan_nbuf (scan s).
Proof.
  unfold scanout_pick. intros H. destruct (scanout_free_spec (take (Z.to_nat (scan_nbuf (scan s))) (claimed (scan s))) 0) as [E|[Hr _]]; [lia|lia|].
  unfold zlen in Hr. rewrite length_take in Hr. lia.
Qed.

Lemma map_seqZ_lookup (f : Z -> Z) n off : 0 <= off < n -> map f (seqZ 0 n) !!! Z.to_nat off = f off.
Proof.
  intros H. apply list_lookup_total_correct. rewrite list_lookup_fmap, lookup_seqZ_lt by lia. cbn. f_equal. f_equal. lia.
Qed.

Lemma zlen_map_seqZ (f : Z -> Z) n : 0 <= n -> zlen (map f (seqZ 0 n)) = n.
Proof. intros H. unfold zlen. rewrite length_map, length_seqZ. lia. Qed.

(** The physical pages a new BO's entries name. *)
Lemma page_pa_maps s L V cpu a p buf_pa scan_pages off :
  core s ((cpu, a, p) :: L) V -> 0 <= off < zlen p ->
  (forall o, 0 <= o < scan_pages -> k_fw (buf_pa + o * 4096)) ->
  maps_page (regions s) cpu off (pte (page_pa (kern s) cpu buf_pa scan_pages off)).
Proof.
  intros H Hoff Hfw. pose proof (co_loose _ _ _ H cpu a p ltac:(by left)) as Hr. unfold page_pa. rewrite page_size_eq. case_if; bsimp.
  - exists a, p, (buf_pa + off * 4096). split_and!; [done|done|right; apply Hfw; lia].
  - destruct (lookup_lt_is_Some_2 p (Z.to_nat off)) as [pa Hpa]; [unfold zlen in Hoff; lia|].
    exists a, p, pa. split_and!; [done| |by left]. f_equal. rewrite <- (k_resolve (kern s) cpu a p (Z.to_nat off) pa (co_k _ _ _ H) Hr Hpa).
    f_equal. lia.
Qed.

(** [bo_new] in the slot found, with the mapping and the range the operation holds. *)
Lemma bo_new_ok s L n slot client mem cpu a p pages gpuva l b0 :
  let b := mem (make_handle (next_gen (bo_gen s !!! slot)) slot) in
  core s ((cpu, a, p) :: L) [(gpuva, pages)] -> pool_acct (pool s) -> zlen (bos s) <= 4096 ->
  bos s !! slot = Some b0 -> b_state b0 = V3DA_BO_FREE ->
  m_cpu b = cpu -> m_gpuva b = gpuva -> m_pages b = pages -> m_imported b = negb a -> p !! O = Some (m_pa b) ->
  zlen p = pages -> pages <= 2 ^ 18 -> zlen l = pages -> 0 <= n -> pt_gen (hwst s) + (n + 1) < 2 ^ 64 ->
  (forall off, 0 <= off < pages -> maps_page (regions s) cpu off (l !!! Z.to_nat off)) ->
  mem_ok (bo_new (set_hw s (bump_pt_gen (pt_fill (hwst s) (gpuva >>> V3D_PAGE_SHIFT) l))) slot client mem) L n.
Proof.
  intros b H Ha Hl Hb0 Hf Ec Eg Ep Ei H0 Hz Hle Hzl Hn Hg Hmap.
  set (nb := mk_bo V3DA_BO_LIVE b (mk_cnt client 1 0 false 0 0) (replicate 6 (no_fence, 0)) 0 (replicate 6 0)).
  assert (Hc : core s ((m_cpu (b_mem nb), a, p) :: L) [(b_gpuva nb, b_pages nb)]).
  { unfold b_gpuva, b_pages. cbn. by rewrite Ec, Eg, Ep. }
  assert (E1 : b_gpuva nb = gpuva) by done. assert (E2 : b_pages nb = pages) by done.
  pose proof (core_new s L [] slot b0 nb a p l (<[slot := next_gen (bo_gen s !!! slot)]> (bo_gen s)) Hc Hb0 Hf) as Hnew.
  rewrite E1, E2 in Hnew. change (m_cpu (b_mem nb)) with (m_cpu b) in Hnew. rewrite Ec in Hnew.
  pose proof (pt_fill_frame l (hwst s) (gpuva / 4096)) as (_ & _ & _ & F4 & _). rewrite shr12. split_and!.
  - apply Hnew; try done; lia.
  - done.
  - unfold zlen in *. cbn. by rewrite length_insert.
  - cbn. rewrite F4. unfold u64. destruct (co_gen _ _ _ H). rewrite Z.mod_small; lia.
Qed.

Lemma va_alloc_gen h pages va h' : v3da_hw_va_alloc h pages = (va, h') -> pt_gen h' = pt_gen h.
Proof.
  unfold v3da_hw_va_alloc. destruct (find_hole (holes h) 0 pages) as [i|].
  - destruct (holes h !!! Z.to_nat i) as [va' n']. case_if; by intros [= _ <-].
  - case_if; intros [= _ <-]; [done|]. by apply (pt_fill_frame _ (set_va h _ _)).
Qed.

Lemma block_get_frame s n cached want_low r pl s' :
  block_get s n cached want_low = (r, pl, s') ->
  hwst s' = hwst s /\ bos s' = bos s /\ bo_gen s' = bo_gen s /\ scan s' = scan s /\ low_live (low s') = low_live (low s) /\
  low_budget (low s') = low_budget (low s).
Proof.
  unfold block_get, fresh_block. case_if; [by intros [= _ _ <-]|]. destruct want_low.
  - destruct (v3da_lowmem_map _ _ _ _ _ _) as [[[[cpu pa]|] res] k]; [by intros [= _ _ <-]|].
    cbn [kern set_low set_kern]. destruct (block_map _ _ k) as [[[[cpu first] last]|] k']; by intros [= _ _ <-].
  - destruct (block_map _ _ _) as [[[[cpu first] last]|] k']; by intros [= _ _ <-].
Qed.

Lemma create_pages size : 0 <= size <= 0x40000000 ->
  let n := u32 ((size + PAGE_SIZE - 1) / PAGE_SIZE) in 0 < (if n =? 0 then 1 else n) <= 2 ^ 18.
Proof.
  intros Hs. cbn zeta. rewrite page_size_eq. rewrite u32_small by divlia. case_if; bsimp; divlia.
Qed.

Lemma create_ok s L n client size flags :
  mem_ok s L (n + 1) -> 0 <= n -> 0 <= size -> mem_ok (v3da_bo_create s client size flags).2 L n.
Proof.
  intros Hok Hn Hsize. unfold v3da_bo_create. set (scan_i := if has flags V3DA_BO_SCANOUT then scanout_pick s else -1).
  assert (Hscan : 0 <= scan_i -> 0 <= scan_i < scan_nbuf (scan s)).
  { unfold scan_i. case_if; [apply scanout_pick_range|lia]. }
  clearbody scan_i. set (cached := if 0 <=? scan_i then false else _). clearbody cached. set (buf_pa := if 0 <=? scan_i then _ else 0).
  assert (Hw : mem_ok s L n) by (eapply mem_ok_weaken; [exact Hok|lia]). case_if; bsimp; [done|].
  pose proof (create_pages size ltac:(lia)) as Hp. cbn zeta in Hp. set (pages := if _ =? 0 then 1 else _) in *. clearbody pages.
  destruct (slot_for s) as [[slot s1]|] eqn:Eslot; [|done]. pose proof Hok as (H & Ha & Hl & Hg).
  destruct (slot_for_grown _ _ _ Eslot Hl) as (-> & Es1 & Hl1). destruct (grown_ok s L [] _ H eq_refl) as (H1 & b0 & Hb0 & Hf0). rewrite <- Es1 in H1, Hb0.
  assert (F1 : hwst s1 = hwst s /\ pool s1 = pool s /\ scan s1 = scan s) by (rewrite Es1; unfold grown; by case_bool_decide).
  destruct F1 as (F1 & F2 & F3). clear Es1 Eslot. set (slot := free_slot (bos s)) in *. clearbody slot.
  set (want_low := _ && v3da_lowmem_admit _ _ _). clearbody want_low.
  destruct (block_get s1 pages cached want_low) as [[r pl] s2] eqn:Eget.
  destruct (block_get_frame _ _ _ _ _ _ _ Eget) as (G1 & G2 & G3 & G4 & _).
  destruct (block_get_ok s1 L [] pages cached want_low r pl s2 H1 ltac:(by rewrite F2) ltac:(lia) Eget) as [Ha2 Hr].
  destruct r as [[cpu pa]|].
  2: { case_if; (split_and!; [try apply core_low; done|done|cbn; by rewrite G2|cbn; rewrite G1, F1; lia]). }
  destruct Hr as (p & Hz & H0 & Hc2 & _). destruct (v3da_hw_va_alloc (hwst s2) pages) as [gpuva h] eqn:Eva.
  pose proof (va_alloc_gen _ _ _ _ Eva) as Hgen.
  destruct (core_va_alloc s2 _ [] pages gpuva h Hc2 ltac:(lia) Eva) as [(-> & ->)|(Hva & Hc3)].
  { rewrite Z.eqb_refl. assert (Hcp : core (set_hw s2 (hwst s2)) ((cpu, true, p) :: L) []) by core_same Hc2.
    destruct (block_put_ok _ L [] cpu p pages pa cached Hcp Ha2 Hz H0 ltac:(lia)) as [Hc4 Ha4].
    destruct (block_put_frame (set_hw s2 (hwst s2)) cpu pa pages cached) as (E1 & _ & E3 & _).
    split_and!; [done|done|cbn [snd]; rewrite E1; cbn; by rewrite G2|cbn [snd]; rewrite E3; cbn; rewrite G1, F1; lia]. }
  rewrite (proj2 (Z.eqb_neq gpuva 0) Hva). set (scan_pages := if 0 <=? scan_i then _ else 0).
  assert (Hnew : mem_ok (bo_new (set_hw (set_hw s2 h) (bump_pt_gen (pt_fill h (gpuva >>> V3D_PAGE_SHIFT)
      (map (fun i => pte (page_pa (kern s2) cpu buf_pa scan_pages i)) (seqZ 0 pages))))) slot client
      (fun handle => mk_mem handle (if cached then flags ||| V3DA_BO_CACHEABLE else flags &&& lnot_w 32 V3DA_BO_CACHEABLE) cpu pa gpuva
         pages (if 0 <=? scan_i then scan_i + 1 else 0) (want_low && pl_low pl) false no_memref)) L n).
  { apply (bo_new_ok (set_hw s2 h) L n slot client _ cpu true p pages gpuva _ b0); try done; cbn [bos set_hw hwst].
    - by rewrite G2.
    - by rewrite G2.
    - lia.
    - apply zlen_map_seqZ. lia.
    - rewrite Hgen, G1, F1. lia.
    - intros off Hoff. rewrite map_seqZ_lookup by lia. apply (page_pa_maps (set_hw s2 h) L [(gpuva, pages)] cpu true p); [done|lia|].
      intros o Ho. unfold scan_pages, buf_pa in *. rewrite page_size_eq in *. cbn [scan set_hw] in *. rewrite G4, F3 in *.
      destruct (0 <=? scan_i) eqn:Ei; [|lia]. apply Z.leb_le in Ei. apply (co_scan _ _ _ H); [by apply Hscan|lia]. }
  cbn [hwst set_hw kern]. set (s4 := bo_new _ _ _ _) in *. clearbody s4. cbn [snd].
  set (s5 := if 0 <=? scan_i then set_claimed s4 _ else s4).
  assert (H5 : mem_ok s5 L n) by (unfold s5; case_if; [|done]; destruct Hnew as (? & ? & ? & ?); split_and!; [by apply core_claimed|done..]).
  clearbody s5. destruct H5 as (? & ? & ? & ?). repeat case_if; split_and!; try done; by apply core_low.
Qed.
End create.

(** ** Imports and the overflow pool *)

Section import.
Context `{KL : KernelLaws}.
Implicit Types (s : bsrv).

Lemma mem_ok_unmap s L n cpu a p bytes :
  mem_ok s ((cpu, a, p) :: L) n -> bytes = zlen p * 4096 -> mem_ok (set_kern s (k_munmap (kern s) cpu bytes)) L n.
Proof. intros (H & ? & ? & ?) ->. split_and!; [by eapply core_unmapped|done..]. Qed.

Lemma import_size_pos rq end_ size : 0 <= iq_size rq -> import_size rq end_ = Some size -> 0 < size.
Proof. intros H. unfold import_size. repeat case_if; bsimp; intros [= <-]; lia. Qed.

(** The addresses [va2pa] reports for a mapping. *)
Lemma va2pa_pages s L V cpu a p :
  core s ((cpu, a, p) :: L) V -> map (fun i => k_va2pa (kern s) (cpu + i * 4096)) (seqZ 0 (zlen p)) = p.
Proof.
  intros H. pose proof (co_loose _ _ _ H cpu a p ltac:(by left)) as Hr. apply list_eq. intros i. rewrite list_lookup_fmap.
  destruct (p !! i) as [pa|] eqn:Hi.
  - pose proof (lookup_lt_Some _ _ _ Hi). rewrite lookup_seqZ_lt by (unfold zlen; lia). cbn. f_equal.
    rewrite <- (k_resolve (kern s) cpu a p i pa (co_k _ _ _ H) Hr Hi). f_equal; lia.
  - apply lookup_ge_None in Hi. rewrite lookup_seqZ_ge; [done|]. unfold zlen. lia.
Qed.

Lemma import_mapped_ok s L n rq e r s' :
  mem_ok s L n -> 0 <= iq_size rq -> import_mapped s rq e = (r, s') ->
  match r with
  | Err _ => mem_ok s' L n
  | Ok (cpu, pa, pages) => mem_ok s' ((cpu, false, pa) :: L) n /\ zlen pa = pages /\ 0 < pages <= 2 ^ 18
  end.
Proof.
  intros Hok Hsz. unfold import_mapped. destruct (import_map (kern s) rq e) as [r' k] eqn:E. intros [= <- <-]. revert E.
  assert (Hself : mem_ok (set_kern s (kern s)) L n) by (destruct Hok as (? & ? & ? & ?); split_and!; [by apply core_self|done..]).
  unfold import_map. destruct (ie_lookup e) as [[port id]|]; [|by intros [= <- <-]].
  case_if; [by intros [= <- <-]|]. case_if; [by intros [= <- <-]|].
  destruct (import_size rq (ie_end e)) as [size|] eqn:Es; [|by intros [= <- <-]].
  pose proof (import_size_pos _ _ _ Hsz Es) as Hpos.
  case_if; [by intros [= <- <-]|]. apply orb_false_iff in Heqb1 as [Hal Hmax]. bsimp. change V3DA_IMPORT_MAX_SIZE with 0x10000000 in Hmax.
  rewrite page_size_eq in *. change (4096 - 1) with (2 ^ 12 - 1) in Hal. rewrite land_mask in Hal by lia. change (2 ^ 12) with 4096 in Hal.
  assert (Hex : exists m, size = m * 4096) by (exists (size / 4096); divlia). destruct Hex as [m ->].
  destruct (k_mmap_fd (kern s) (ie_fd e) (m * 4096) _) as [[cpu k']|] eqn:Ek; [|by intros [= <- <-]].
  destruct Hok as (Hc & Ha & Hl & Hg). destruct (k_mmap_fd_law (kern s) (ie_fd e) m _ cpu k' (co_k _ _ _ Hc) ltac:(lia) Ek) as (Hk & Hno & p & Hz & Hr).
  assert (Hm : mem_ok (set_kern s k') ((cpu, false, p) :: L) n) by (split_and!; [by apply core_mapped|done..]).
  case_if; [intros [= <- <-]; apply (mem_ok_unmap _ _ _ _ _ _ _ Hm); lia|]. rewrite Z.div_mul, u32_small by lia.
  pose proof (va2pa_pages (set_kern s k') L [] cpu false p (proj1 Hm)) as Hpa. rewrite Hz in Hpa. cbn [kern set_kern] in Hpa. rewrite Hpa.
  case_if; intros [= <- <-]; [apply (mem_ok_unmap _ _ _ _ _ _ _ Hm); lia|]. split_and!; [done|done|lia|lia].
Qed.

Lemma import_commit_ok s L n client rq gen cpu pa pages :
  mem_ok s ((cpu, false, pa) :: L) (n + 1) -> 0 <= n -> zlen pa = pages -> 0 < pages <= 2 ^ 18 ->
  mem_ok (import_commit s client rq gen cpu pa pages).2 L n.
Proof.
  intros Hok Hn Hz Hp. assert (Hw : mem_ok s ((cpu, false, pa) :: L) n) by (eapply mem_ok_weaken; [exact Hok|lia]).
  assert (Hundo : forall s', mem_ok s' ((cpu, false, pa) :: L) n -> mem_ok (set_kern s' (k_munmap (kern s') cpu (pages * PAGE_SIZE))) L n).
  { intros s' H'. apply (mem_ok_unmap _ _ _ _ _ _ _ H'). rewrite page_size_eq. lia. }
  unfold import_commit. case_if; [by apply Hundo|]. destruct (import_find s client (iq_port rq) (iq_id rq)) as [i|]; [by apply Hundo|].
  case_if; [by apply Hundo|]. pose proof Hok as (H & Ha & Hl & Hg). destruct (v3da_hw_va_alloc (hwst s) pages) as [gpuva h] eqn:Eva.
  pose proof (va_alloc_gen _ _ _ _ Eva) as Hgen.
  destruct (core_va_alloc s _ [] pages gpuva h H Hp Eva) as [(-> & ->)|(Hva & Hc)].
  { rewrite Z.eqb_refl. apply (Hundo (set_hw s (hwst s))). split_and!; [core_same H|done|done|cbn; lia]. }
  rewrite (proj2 (Z.eqb_neq gpuva 0) Hva). cbn [bos set_hw].
  set (slot := free_slot (bos s)) in *. destruct (grown_ok (set_hw s h) _ _ slot Hc eq_refl) as (Hc1 & b0 & Hb0 & Hf0).
  unfold grown in Hc1, Hb0. cbn [bos set_hw] in Hc1, Hb0. set (s1 := if bool_decide (slot = length (bos s)) then _ else _) in *.
  assert (F : hwst s1 = h /\ pool s1 = pool s) by (unfold s1; by case_bool_decide). destruct F as [F1 F2].
  assert (Hl1 : zlen (bos s1) <= 4096).
  { unfold s1. case_bool_decide as E; [|done]. cbn in Heqb0. apply Z.leb_gt in Heqb0. change V3DA_MAX_BOS with 4096 in Heqb0.
    unfold zlen in *. cbn. rewrite length_app. cbn. lia. }
  clearbody s1.
  assert (Hnew : forall imp fl, mem_ok (bo_new (set_hw s1 (bump_pt_gen (pt_fill (hwst s1) (gpuva >>> V3D_PAGE_SHIFT) (map pte pa)))) slot client
      (fun handle => mk_mem handle fl cpu (pa !!! O) gpuva pages 0 false true imp)) L n).
  { intros imp fl. apply (bo_new_ok s1 L n slot client _ cpu false pa pages gpuva _ b0); try done.
    - by rewrite F2.
    - apply list_lookup_lookup_total_lt. unfold zlen in Hz. lia.
    - lia.
    - unfold zlen in *. by rewrite length_map.
    - rewrite F1, Hgen. lia.
    - intros off Hoff. exists false, pa, (pa !!! Z.to_nat off). assert (Hlt : (Z.to_nat off < length pa)%nat) by (unfold zlen in Hz; lia). split_and!.
      + apply (co_loose _ _ _ Hc1). by left.
      + apply list_lookup_total_correct. rewrite list_lookup_fmap, (list_lookup_lookup_total_lt _ _ Hlt). done.
      + left. by apply list_lookup_lookup_total_lt. }
  cbn [snd]. destruct (Hnew (mk_memref V3DA_MEM_OID (iq_cache rq) (iq_port rq) (pages * PAGE_SIZE) (iq_id rq))
    (if iq_cache rq =? V3DA_CACHE_CACHED then V3DA_BO_CACHEABLE else 0)) as (N1 & N2 & N3 & N4).
  split_and!; [by apply core_prime|done..].
Qed.

(** The overflow pool takes over a mapping and a range for good. *)
Lemma core_add_ovf s L V va n cpu p l :
  core s ((cpu, true, p) :: L) ((va, n) :: V) -> zlen p = n -> zlen l = n -> pt_gen (hwst s) + 1 < 2 ^ 64 ->
  (forall off, 0 <= off < n -> maps_page (regions s) cpu off (l !!! Z.to_nat off)) ->
  core (set_ovf (set_hw s (bump_pt_gen (pt_fill (hwst s) (va / 4096) l))) (ovf s ++ [(va, n, cpu)])) L V.
Proof.
  intros H Hz Hl Hg Hmap. pose proof H as [H1 H2 H3 H4 H5 H6 H7 H8 H9 H10 H11 H12 H13 H14 H15 H16 H17].
  destruct (fill_fresh s _ V _ _ l H Hl) as (Hget & Hst & Hdom). set (h := pt_fill (hwst s) (va / 4096) l) in *.
  destruct (pt_fill_frame l (hwst s) (va / 4096)) as (F1 & F2 & F3 & F4 & F5). fold h in F1, F2, F3, F4, F5.
  set (s' := set_ovf _ _).
  assert (Hc : cpus s' L ≡ₚ cpus s ((cpu, true, p) :: L)) by (rewrite cpus_cons; unfold cpus; cbn; rewrite map_app; cbn; solve_Permutation).
  assert (Hr : ranges s' V ≡ₚ ranges s ((va, n) :: V)).
  { rewrite ranges_cons. unfold ranges. cbn. rewrite F3, map_app. cbn. solve_Permutation. }
  assert (Hother : forall j r, j ∈ range (va, n) -> r ∈ ranges s V -> j ∉ range r).
  { intros j r Hj Hin Hj'. rewrite (concat_range_perm _ _ (ranges_cons s V _)) in H7. apply (NoDup_concat_range_split _ _ _ H7 Hj).
    by eapply elem_of_ranges. }
  assert (Ho : forall o, o ∈ ovf s ++ [(va, n, cpu)] -> o ∈ ovf s \/ o = (va, n, cpu)).
  { intros o [?|?%list_elem_of_singleton]%elem_of_app; [by left|by right]. }
  constructor; cbn [bos set_ovf set_hw hwst pool ovf kern scan bump_pt_gen next_gpuva pt_entries pt pt_gen tlb_gen stale s'];
    rewrite ?F1, ?F2, ?F4, ?F5; try done; change (pt_get (bump_pt_gen h)) with (pt_get h).
  - by rewrite Hc.
  - intros va' n' c [Hin|[= -> -> ->]]%Ho; [by eapply H5|]. exists p. split; [apply H6; by left|done].
  - intros c a' p' Hin. apply H6. by right.
  - by rewrite (concat_range_perm _ _ Hr).
  - intros va' n'. rewrite Hr. apply H8.
  - intros x Hx Hsx off Hoff. rewrite Hget. rewrite bool_decide_eq_false_2; [by apply H11|]. intros Hj.
    apply (Hother _ (b_gpuva x, b_pages x) Hj); [apply ranges_bo; [done|by rewrite Hsx]|apply elem_of_range; lia].
  - intros va' n' c Hin off Hoff. rewrite Hget. apply Ho in Hin as [Hin|[= -> -> ->]].
    + rewrite bool_decide_eq_false_2; [by eapply H12|]. intros Hj. apply (Hother _ (va', n') Hj); [by eapply ranges_ovf|apply elem_of_range; lia].
    + rewrite bool_decide_eq_true_2 by (apply elem_of_range; lia).
      replace (va / 4096 + off - va / 4096) with off by lia. by apply Hmap.
  - intros j Hlive Hovf. rewrite Hget. rewrite bool_decide_eq_false_2.
    + apply H13; [done|]. intros o Hin. apply Hovf. apply elem_of_app. by left.
    + apply (Hovf (va, n, cpu)). apply elem_of_app. right. by left.
  - intros j v Hjv. apply Hst in Hjv. by apply H14.
  - unfold u64. rewrite Z.mod_small by lia. lia.
  - unfold u64. rewrite Z.mod_small by lia. intros x Hx Hsx. specialize (H16 x Hx Hsx). lia.
Qed.

Lemma map_ovf_ok s L n m :
  mem_ok s L (n + 1) -> 0 <= n -> 0 < m <= 2 ^ 18 -> mem_ok (v3da_bo_map_ovf_pool s (m * 4096)).2 L n.
Proof.
  intros Hok Hn Hm. unfold v3da_bo_map_ovf_pool. rewrite page_size_eq, Z.div_mul by lia. pose proof Hok as (H & Ha & Hl & Hg).
  destruct (v3da_hw_va_alloc (hwst s) m) as [va h] eqn:Eva. pose proof (va_alloc_gen _ _ _ _ Eva) as Hgen.
  destruct (core_va_alloc s L [] m va h H Hm Eva) as [(-> & ->)|(Hva & Hc)].
  { rewrite Z.eqb_refl. split_and!; [core_same H|done|done|cbn; lia]. }
  rewrite (proj2 (Z.eqb_neq va 0) Hva). cbn [kern set_hw]. destruct (k_mmap (kern s) (m * 4096) false) as [[cpu k]|] eqn:Ek.
  - destruct (core_mmap (set_hw s h) L _ m false cpu k Hc ltac:(lia) Ek) as (p & Hz & _ & Hc1).
    destruct (core_zero _ _ _ _ _ _ (m * 4096) Hc1) as [Hc2 _]; [lia|]. cbn [kern set_kern] in Hc2. rewrite shr12. cbn [snd hwst set_hw set_kern].
    set (s2 := set_kern (set_kern (set_hw s h) k) (k_zero k cpu (m * 4096))) in *.
    pose proof (core_add_ovf s2 L [] va m cpu p (map (fun i => pte (k_va2pa (k_zero k cpu (m * 4096)) (cpu + i * 4096))) (seqZ 0 m)) Hc2 Hz) as Hov.
    assert (Hov' := core_flush _ _ _ (Hov ltac:(apply zlen_map_seqZ; lia) ltac:(cbn; lia)
      ltac:(intros off Hoff; rewrite map_seqZ_lookup by lia;
            pose proof (page_pa_maps s2 L [(va, m)] cpu true p 0 0 off Hc2 ltac:(lia) ltac:(intros; lia)) as Hpp;
            unfold page_pa in Hpp; rewrite (proj2 (Z.ltb_ge off 0)) in Hpp by lia; exact Hpp))).
    split_and!; [exact Hov'|done|done|]. cbn. pose proof (pt_fill_frame (map (fun i => pte (k_va2pa (k_zero k cpu (m * 4096)) (cpu + i * 4096))) (seqZ 0 m)) h (va / 4096)) as (_ & _ & _ & F4 & _).
    rewrite F4. unfold u64. rewrite Z.mod_small; [lia|]. pose proof (co_gen _ _ _ H). lia.
  - split_and!; [by apply core_va_free in Hc|done|done|]. cbn. unfold v3da_hw_va_free. case_if; cbn; lia.
Qed.
End import.
End V3daBoOps.
