(* ===== verification/V3daBoTable.v ===== *)
(** * Handles, references and placement of the BO table

    [slots_ok] ties each used slot to its handle, its framebuffer claim and the
    low-memory account; [counts_ok] ties the reference count of a live BO to its
    holders. Every operation of [v3da_bo.c] keeps both. *)

From S2P Require Import Prelude V3daSched V3daPool V3daBo V3daBoCore V3daBoOps.

Module V3daBoTable.
Import V3da V3daPool V3daBo V3daBoCore V3daBoOps.

(** ** Clients in a mask *)

(** The number of clients in a [sharers] mask. *)
Definition popcount (x : Z) : Z := foldr (fun i n => of_bool (Z.testbit x i) + n) 0 (seqZ 0 64).

Lemma sum_bits_ext (f g : Z -> bool) l :
  (forall i, i ∈ l -> f i = g i) -> foldr (fun i n => of_bool (f i) + n) 0 l = foldr (fun i n => of_bool (g i) + n) 0 l.
Proof.
  induction l as [|i l IH]; intros H; cbn; [done|]. rewrite H by by left. f_equal. apply IH. intros. apply H. by right.
Qed.

Lemma sum_bits_flip (f g : Z -> bool) k l :
  NoDup l -> k ∈ l -> f k = false -> g k = true -> (forall i, i <> k -> f i = g i) ->
  foldr (fun i n => of_bool (g i) + n) 0 l = foldr (fun i n => of_bool (f i) + n) 0 l + 1.
Proof.
  induction 1 as [|i l Hi Hnd IH]; intros Hk Hf Hg Ho; [by apply elem_of_nil in Hk|]. cbn. apply elem_of_cons in Hk as [->|Hk].
  - rewrite Hf, Hg. cbn. rewrite (sum_bits_ext g f) by (intros j Hj; symmetry; apply Ho; by intros ->). lia.
  - rewrite IH by done. rewrite (Ho i) by (by intros ->). lia.
Qed.

Lemma popcount_flip x y k :
  0 <= k < 64 -> Z.testbit x k = false -> Z.testbit y k = true -> (forall i, i <> k -> Z.testbit x i = Z.testbit y i) ->
  popcount y = popcount x + 1.
Proof. intros. apply (sum_bits_flip (Z.testbit x) (Z.testbit y) k); [apply NoDup_seqZ|apply elem_of_seqZ; lia|done..]. Qed.

Lemma popcount_nonneg x : 0 <= popcount x.
Proof. unfold popcount. induction (seqZ 0 64) as [|i l IH]; cbn; [done|]. destruct (Z.testbit x i); cbn; lia. Qed.

Lemma max_clients_eq : V3DA_MAX_CLIENTS = 60.
Proof. done. Qed.

Lemma client_bit_eq c : 1 <= c <= 60 -> client_bit c = 2 ^ (c - 1).
Proof.
  intros H. unfold client_bit. rewrite max_clients_eq. rewrite (proj2 (Z.leb_le 1 c)), (proj2 (Z.leb_le c 60)) by lia.
  cbn [andb]. by rewrite Z.shiftl_1_l.
Qed.

Lemma land_pow2 x k : 0 <= k -> x &&& 2 ^ k = if Z.testbit x k then 2 ^ k else 0.
Proof.
  intros Hk. apply Z.bits_inj'. intros i Hi. rewrite Z.land_spec, Z.pow2_bits_eqb by done. destruct (k =? i) eqn:E; bsimp.
  - subst i. destruct (Z.testbit x k); [by rewrite Z.pow2_bits_true|by rewrite Z.bits_0].
  - rewrite andb_false_r. destruct (Z.testbit x k); [rewrite Z.pow2_bits_false by done|rewrite Z.bits_0]; done.
Qed.

Lemma has_client x c : 1 <= c <= 60 -> has x (client_bit c) = Z.testbit x (c - 1).
Proof.
  intros H. rewrite client_bit_eq by done. unfold has. rewrite land_pow2 by lia. pose proof (pow2_pos (c - 1) ltac:(lia)).
  destruct (Z.testbit x (c - 1)); [|done]. apply negb_true_iff, Z.eqb_neq. lia.
Qed.

(** Adding and removing a client. *)
Lemma popcount_add x c : 1 <= c <= 60 -> Z.testbit x (c - 1) = false -> popcount (x ||| client_bit c) = popcount x + 1.
Proof.
  intros Hc Hx. rewrite client_bit_eq by done. apply (popcount_flip _ _ (c - 1)); [lia|done| |].
  - by rewrite Z.lor_spec, Z.pow2_bits_true, orb_true_r by lia.
  - intros i Hi. rewrite Z.lor_spec, Z.pow2_bits_false, orb_false_r by done. done.
Qed.

Lemma popcount_del x c : 0 <= x < 2 ^ 64 -> 1 <= c <= 60 -> Z.testbit x (c - 1) = true ->
  popcount (x &&& lnot_w 64 (client_bit c)) = popcount x - 1.
Proof.
  intros Hr Hc Hx. rewrite client_bit_eq by done. set (y := x &&& lnot_w 64 (2 ^ (c - 1))).
  assert (Hbit : forall i, 0 <= i -> Z.testbit y i = Z.testbit x i && negb (c - 1 =? i)).
  { intros i Hi. unfold y, lnot_w. rewrite Z.land_spec, Z.lxor_spec, Z.pow2_bits_eqb by lia.
    replace (2 ^ 64 - 1) with (Z.ones 64) by done. destruct (Z.lt_ge_cases i 64).
    - rewrite Z.ones_spec_low by lia. by destruct (Z.testbit x i), (c - 1 =? i).
    - rewrite <- (Z.mod_small x (2 ^ 64)) by done. by rewrite Z.mod_pow2_bits_high by lia. }
  rewrite (popcount_flip y x (c - 1)); [lia|lia| |done|].
  - by rewrite Hbit, Z.eqb_refl, andb_false_r by lia.
  - intros i Hi. destruct (Z.lt_ge_cases i 0); [by rewrite !Z.testbit_neg_r by done|]. rewrite Hbit by done.
    rewrite (proj2 (Z.eqb_neq (c - 1) i)) by done. by rewrite andb_true_r.
Qed.

Lemma sharers_range x c : 0 <= x < 2 ^ 64 ->
  0 <= x ||| client_bit c < 2 ^ 64 /\ 0 <= x &&& lnot_w 64 (client_bit c) < 2 ^ 64.
Proof.
  intros Hx. assert (Hb : 0 <= client_bit c < 2 ^ 64).
  { destruct (decide (1 <= c <= 60)) as [Hc|Hc].
    - rewrite client_bit_eq by done. split; [apply Z.pow_nonneg; lia|apply Z.pow_lt_mono_r; lia].
    - unfold client_bit. rewrite max_clients_eq. case_if; bsimp; [|done]. lia. }
  split; [by apply lor_range|]. rewrite Z.land_comm. by apply land_range.
Qed.

(** ** Handles *)

Lemma handle_eq g slot : 0 <= g < 2 ^ 19 -> Z.of_nat slot < 4096 -> make_handle g slot = g * 2 ^ 13 + Z.of_nat slot + 1.
Proof.
  intros Hg Hs. unfold make_handle, V3DA_HANDLE_SLOT_BITS. 
  assert (E : u32 (g <<< 13) = g <<< 13) by (rewrite Z.shiftl_mul_pow2 by lia; apply u32_small; lia).
  rewrite E, lor_shift by lia. lia.
Qed.

Lemma handle_slot g slot : 0 <= g < 2 ^ 19 -> Z.of_nat slot < 4096 -> make_handle g slot &&& V3DA_HANDLE_SLOT_MASK = Z.of_nat slot + 1.
Proof.
  intros Hg Hs. rewrite handle_eq by done. change V3DA_HANDLE_SLOT_MASK with (2 ^ 13 - 1). rewrite land_mask by lia.
  replace (g * 2 ^ 13 + Z.of_nat slot + 1) with (Z.of_nat slot + 1 + g * 2 ^ 13) by lia. rewrite Z.mod_add by lia. rewrite Z.mod_small; lia.
Qed.

Lemma next_gen_eq g : 0 <= g < 2 ^ 19 -> next_gen g = if g =? 2 ^ 19 - 1 then 1 else g + 1.
Proof.
  intros Hg. unfold next_gen. rewrite u32_small by lia. change (0xffffffff >>> V3DA_HANDLE_SLOT_BITS) with (2 ^ 19 - 1).
  rewrite land_mask by lia. destruct (g =? 2 ^ 19 - 1) eqn:E; bsimp; [by subst g|]. rewrite Z.mod_small by lia.
  by rewrite (proj2 (Z.eqb_neq (g + 1) 0)) by lia.
Qed.

Lemma next_gen_range g : 0 <= g < 2 ^ 19 -> 1 <= next_gen g < 2 ^ 19.
Proof. intros Hg. rewrite next_gen_eq by done. case_if; bsimp; lia. Qed.

(** ** The invariants *)

Definition low_foot (b : bo) : Z :=
  if negb (bool_decide (b_state b = V3DA_BO_FREE)) && m_low (b_mem b) then v3da_lowmem_footprint (b_pages b) 4096 else 0.
Arguments low_foot : simpl never.
Definition low_sum (l : list bo) : Z := foldr (fun b n => low_foot b + n) 0 l.

Lemma low_sum_insert l i b b' : l !! i = Some b -> low_sum (<[i := b']> l) = low_sum l - low_foot b + low_foot b'.
Proof.
  revert i. unfold low_sum. induction l as [|x l IH]; intros [|i] Hi; cbn in Hi; simplify_eq; cbn; [lia|].
  etrans; [apply (f_equal (Z.add (low_foot x))), (IH i Hi)|]. lia.
Qed.

Lemma low_sum_app l b : low_sum (l ++ [b]) = low_sum l + low_foot b.
Proof. unfold low_sum. induction l as [|x l IH]; cbn in *; lia. Qed.

(** The references of a BO: its creator's, its importers' and the open descriptors. *)
Definition holders (c : bo_cnt) : Z := of_bool (negb (owner c =? 0)) + popcount (sharers c) + fd_opens c.

Definition cnt_range (c : bo_cnt) : Prop :=
  0 <= owner c <= 60 /\ 0 <= sharers c < 2 ^ 64 /\ 0 <= fd_opens c < 2 ^ 31 /\ 0 <= inflight c < 2 ^ 32.

Definition cnt_ok (b : bo) : Prop :=
  match b_state b with
  | V3DA_BO_FREE => True
  | V3DA_BO_LIVE =>
      refs (b_cnt b) = holders (b_cnt b) /\ cnt_range (b_cnt b) /\ (refs (b_cnt b) = 0 -> 0 < inflight (b_cnt b)) /\
      (exported (b_cnt b) = true -> 0 < refs (b_cnt b))
  | V3DA_BO_QUARANTINE => holders (b_cnt b) = 0 /\ refs (b_cnt b) = 0 /\ inflight (b_cnt b) = 0 /\ exported (b_cnt b) = false
  end.

Lemma holders_bound c : cnt_range c -> 0 <= holders c < 2 ^ 31 + 66.
Proof.
  intros (_ & _ & Hf & _). unfold holders. pose proof (popcount_nonneg (sharers c)) as Hp.
  assert (popcount (sharers c) <= 64).
  { unfold popcount. change 64 with (Z.of_nat (length (seqZ 0 64))) at 2. generalize (seqZ 0 64).
    induction l as [|i l IH]; cbn [foldr length]; [lia|]. destruct (Z.testbit (sharers c) i); cbn [of_bool]; lia. }
  destruct (negb (owner c =? 0)); cbn [of_bool]; lia.
Qed.

Section table.
Context `{KL : KernelLaws}.
Implicit Types (s : bsrv).

Record slots_ok (s : bsrv) : Prop := {
  sl_len : length (bo_gen s) = length (bos s) /\ zlen (bos s) <= 4096;
  sl_gen : forall g, g ∈ bo_gen s -> 0 <= g < 2 ^ 19;
  sl_handle : forall i b, bos s !! i = Some b -> b_state b <> V3DA_BO_FREE -> b_handle b = make_handle (bo_gen s !!! i) i;
  sl_nclaim : length (claimed (scan s)) = 3%nat /\ scan_nbuf (scan s) <= 3;
  sl_scan : forall b, b ∈ bos s -> b_state b = V3DA_BO_LIVE -> 0 < m_scanout (b_mem b) ->
    m_scanout (b_mem b) <= 3 /\ arr_get (claimed (scan s)) (m_scanout (b_mem b) - 1) = b_handle b;
  sl_claim : forall i, 0 <= i < 3 -> arr_get (claimed (scan s)) i <> 0 ->
    exists b, b ∈ bos s /\ b_state b = V3DA_BO_LIVE /\ m_scanout (b_mem b) = i + 1;
  sl_pages : forall b, b ∈ bos s -> b_state b <> V3DA_BO_FREE -> 0 < b_pages b <= 2 ^ 18 /\ (m_low (b_mem b) = true -> m_imported (b_mem b) = false);
  sl_low : low_live (low s) = low_sum (bos s) /\ low_live (low s) <= low_budget (low s) < 2 ^ 63
}.

Definition counts_ok (s : bsrv) : Prop := forall i b, bos s !! i = Some b -> cnt_ok b.
Definition counts_but (s : bsrv) (i : nat) : Prop := forall j b, j <> i -> bos s !! j = Some b -> cnt_ok b.

(** Handles of two slots differ. *)
Lemma handle_inj s i j b b' :
  slots_ok s -> bos s !! i = Some b -> bos s !! j = Some b' -> b_state b <> V3DA_BO_FREE -> b_state b' <> V3DA_BO_FREE ->
  b_handle b = b_handle b' -> i = j.
Proof.
  intros [[Hlen Hmax] Hg Hh _ _ _ _ _] Hi Hj Hs Hs' E. rewrite (Hh i b Hi Hs), (Hh j b' Hj Hs') in E.
  assert (Hr : forall k x, bos s !! k = Some x -> 0 <= bo_gen s !!! k < 2 ^ 19 /\ Z.of_nat k < 4096).
  { intros k x Hk. pose proof (lookup_lt_Some _ _ _ Hk) as Hlt. split; [|unfold zlen in Hmax; lia]. apply Hg.
    apply (list_elem_of_lookup_2 _ k). apply list_lookup_lookup_total_lt. lia. }
  destruct (Hr _ _ Hi), (Hr _ _ Hj). rewrite !handle_eq in E by done. lia.
Qed.

Lemma handle_pos s i b : slots_ok s -> bos s !! i = Some b -> b_state b <> V3DA_BO_FREE -> 0 < b_handle b.
Proof.
  intros [[Hlen Hmax] Hg Hh _ _ _ _ _] Hi Hs. rewrite (Hh i b Hi Hs). pose proof (lookup_lt_Some _ _ _ Hi) as Hlt.
  assert (0 <= bo_gen s !!! i < 2 ^ 19). { apply Hg, (list_elem_of_lookup_2 _ i), list_lookup_lookup_total_lt. lia. }
  rewrite handle_eq by (done || unfold zlen in Hmax; lia). lia.
Qed.

(** A live BO is found under its handle. *)
Lemma lookup_live s i b : slots_ok s -> bos s !! i = Some b -> b_state b = V3DA_BO_LIVE -> bo_lookup s (b_handle b) = Some i.
Proof.
  intros Hok Hi Hs. pose proof Hok as [[Hlen Hmax] Hg Hh _ _ _ _ _]. pose proof (lookup_lt_Some _ _ _ Hi) as Hlt.
  assert (0 <= bo_gen s !!! i < 2 ^ 19). { apply Hg, (list_elem_of_lookup_2 _ i), list_lookup_lookup_total_lt. lia. }
  unfold bo_lookup. rewrite (Hh i b Hi) by by rewrite Hs. rewrite handle_slot by (done || unfold zlen in Hmax; lia).
  rewrite (proj2 (Z.eqb_neq (Z.of_nat i + 1) 0)) by lia. rewrite (proj2 (Z.ltb_ge (zlen (bos s)) (Z.of_nat i + 1))) by (unfold zlen; lia).
  cbn [orb]. replace (Z.to_nat (Z.of_nat i + 1 - 1)) with i by lia. rewrite (bo_at_eq s i b Hi), bool_decide_eq_true_2 by done.
  rewrite (Hh i b Hi) by by rewrite Hs. by rewrite Z.eqb_refl.
Qed.

Definition same_slot (b b' : bo) : Prop := b_state b' = b_state b /\ b_mem b' = b_mem b.

(** Changes the slots' invariant does not read. *)
Lemma slots_ext s s' :
  slots_ok s -> Forall2 same_slot (bos s) (bos s') -> bo_gen s' = bo_gen s -> claimed (scan s') = claimed (scan s) ->
  scan_nbuf (scan s') = scan_nbuf (scan s) -> low_live (low s') = low_live (low s) -> low_budget (low s') = low_budget (low s) -> slots_ok s'.
Proof.
  intros [H1 H2 H3 H4 H5 H6 H7 H8] Hb Eg Ec En El Ebud.
  assert (Hr : forall i b', bos s' !! i = Some b' -> exists b, bos s !! i = Some b /\ same_slot b b').
  { intros i b' Hi. destruct (Forall2_lookup_r _ _ _ _ _ Hb Hi) as (b & ? & ?). eauto. }
  assert (Hin : forall b', b' ∈ bos s' -> exists b, b ∈ bos s /\ same_slot b b').
  { intros b' [i Hi]%list_elem_of_lookup. destruct (Hr i b' Hi) as (b & ? & ?). exists b. split; [by eapply list_elem_of_lookup_2|done]. }
  assert (Hlow : low_sum (bos s') = low_sum (bos s)).
  { clear - Hb. induction Hb as [|b b' l l' [Hs Hm] _ IH]; [done|]. unfold low_sum in *. cbn [foldr]. rewrite IH. f_equal.
    unfold low_foot, b_pages. by rewrite Hs, Hm. }
  assert (Hlen : length (bos s') = length (bos s)) by (symmetry; by eapply Forall2_length).
  constructor; rewrite ?Eg, ?Ec, ?En, ?El, ?Ebud, ?Hlow; unfold zlen; rewrite ?Hlen; try done.
  - intros i b' Hi Hs. destruct (Hr i b' Hi) as (b & Hbi & Hs' & Hm). unfold b_handle. rewrite Hm. apply H3; [done|by rewrite <- Hs'].
  - intros b' Hb' Hs Ho. destruct (Hin b' Hb') as (b & Hbi & Hs' & Hm). unfold b_handle. rewrite Hm in *. rewrite Hs' in Hs. by apply H5.
  - intros i Hi Hc. destruct (H6 i Hi Hc) as (b & [k Hk]%list_elem_of_lookup & Hs & Ho).
    destruct (Forall2_lookup_l _ _ _ _ _ Hb Hk) as (b' & Hb' & Hs' & Hm). exists b'. rewrite Hs', Hm. split; [by eapply list_elem_of_lookup_2|done].
  - intros b' Hb' Hs. destruct (Hin b' Hb') as (b & Hbi & Hs' & Hm). unfold b_pages. rewrite Hm. apply H7; [done|by rewrite <- Hs'].
Qed.

Lemma same_slot_alter f i l : (forall b, same_slot b (f b)) -> Forall2 same_slot l (alter f i l).
Proof.
  intros Hf. apply Forall2_same_length_lookup_2; [by rewrite length_alter|]. intros j x y Hx Hy. destruct (decide (i = j)) as [->|Hne].
  - rewrite list_lookup_alter_eq, Hx in Hy. cbn in Hy. simplify_eq. apply Hf.
  - rewrite list_lookup_alter_ne, Hx in Hy by done. by simplify_eq.
Qed.
Lemma same_slot_refl l : Forall2 same_slot l l.
Proof. by apply Forall_Forall2_diag, Forall_true. Qed.

Lemma slots_cnt s i f : slots_ok s -> slots_ok (upd_cnt s i f).
Proof. intros H. eapply slots_ext; [exact H|by apply same_slot_alter|done..]. Qed.

Lemma counts_upd s i f : counts_ok s -> counts_but (upd_cnt s i f) i.
Proof. intros H j b Hne Hj. unfold upd_cnt, upd_bo in Hj. cbn in Hj. rewrite list_lookup_alter_ne in Hj by congruence. by eapply H. Qed.

Lemma counts_but_upd s i f : counts_but s i -> counts_but (upd_cnt s i f) i.
Proof. intros H j b Hne Hj. unfold upd_cnt, upd_bo in Hj. cbn in Hj. rewrite list_lookup_alter_ne in Hj by congruence. by eapply H. Qed.

Lemma counts_join s i b : counts_but s i -> bos s !! i = Some b -> cnt_ok b -> counts_ok s.
Proof. intros H Hi Hc j b' Hj. destruct (decide (j = i)) as [->|Hne]; [by simplify_eq|by eapply H]. Qed.

(** ** Withdrawal and quarantine *)

Lemma withdraw_slots s i : slots_ok s -> slots_ok (export_withdraw s i).
Proof. intros H. unfold export_withdraw. case_if; [|done]. eapply slots_ext; [exact H|by apply same_slot_alter|done..]. Qed.

Lemma withdraw_bos s i b : bos s !! i = Some b ->
  bos (export_withdraw s i) = <[i := set_cnt b (with_exported (b_cnt b) false)]> (bos s).
Proof.
  intros Hi. unfold export_withdraw. rewrite (bo_at_eq s i b Hi). case_if.
  - cbn. unfold upd_bo. by rewrite (alter_insert _ _ _ b Hi).
  - rewrite list_insert_id; [done|]. rewrite Hi. f_equal. destruct b as [? ? [] ? ? ?]; cbn in *. by subst.
Qed.

(** What [quarantine_begin] does to the table. *)
Lemma quarantine_effect s i b : bos s !! i = Some b ->
  exists g p, let b' := set_quarantine (set_cnt b (with_exported (b_cnt b) false)) g p in
  let s' := quarantine_begin s i in
  bos s' = <[i := b']> (bos s) /\ bo_gen s' = bo_gen s /\ low s' = low s /\ scan_nbuf (scan s') = scan_nbuf (scan s) /\
  claimed (scan s') = (let o := m_scanout (b_mem b) in
    if (0 <? o) && (o <=? V3DA_SCANOUT_MAX) && (arr_get (claimed (scan s)) (o - 1) =? b_handle b)
    then arr_set (claimed (scan s)) (o - 1) 0 else claimed (scan s)).
Proof.
  intros Hi. unfold quarantine_begin. pose proof (withdraw_bos s i b Hi) as Hw. set (s1 := export_withdraw s i) in *.
  assert (F : bo_gen s1 = bo_gen s /\ low s1 = low s /\ scan s1 = scan s) by (unfold s1, export_withdraw; by case_if).
  destruct F as (F1 & F2 & F3). set (b1 := set_cnt b (with_exported (b_cnt b) false)) in *.
  assert (Hlt : (i < length (bos s))%nat) by by eapply lookup_lt_Some.
  assert (Hb1 : bos s1 !! i = Some b1) by (rewrite Hw; by apply list_lookup_insert_eq).
  rewrite (bo_at_eq s1 i b1 Hb1). clearbody s1. eexists _, _. cbn zeta.
  set (h := bump_pt_gen _). set (s2 := unclaim (set_hw s1 h) b1). set (g := pt_gen (hwst s2)). set (p := map _ _).
  assert (E : forall s3, bos s3 = bos s2 -> bo_gen s3 = bo_gen s2 -> low s3 = low s2 -> scan s3 = scan s2 ->
    bos (upd_bo s3 i (fun b => set_quarantine b g p)) = <[i := set_quarantine b1 g p]> (bos s) /\
    bo_gen (upd_bo s3 i (fun b => set_quarantine b g p)) = bo_gen s /\ low (upd_bo s3 i (fun b => set_quarantine b g p)) = low s /\
    scan (upd_bo s3 i (fun b => set_quarantine b g p)) = scan s2).
  { intros s3 E1 E2 E3 E4.
    assert (G : bos s2 = bos s1 /\ bo_gen s2 = bo_gen s1 /\ low s2 = low s1) by (unfold s2, unclaim; by case_if).
    destruct G as (G1 & G2 & G3). unfold upd_bo. cbn [bos set_bos bo_gen low scan]. rewrite E1, G1, (alter_insert _ _ _ b1 Hb1), Hw, list_insert_insert_eq.
    rewrite E2, G2, F1, E3, G3, F2, E4. done. }
  set (s3 := if hw_queue_busy s2 then s2 else _).
  assert (Es3 : bos s3 = bos s2 /\ bo_gen s3 = bo_gen s2 /\ low s3 = low s2 /\ scan s3 = scan s2) by (unfold s3; by destruct (hw_queue_busy s2)).
  destruct Es3 as (S1 & S2 & S3 & S4). destruct (E s3 S1 S2 S3 S4) as (-> & -> & -> & ->). split_and!; try done.
  - unfold s2, unclaim. case_if; cbn; by rewrite F3.
  - unfold s2, unclaim. change (b_handle b1) with (b_handle b). change (b_mem b1) with (b_mem b). cbn [scan set_hw]. rewrite F3.
    destruct (_ && _); cbn; by rewrite ?F3.
Qed.
End table.

Section ops.
Context `{KL : KernelLaws}.
Implicit Types (s : bsrv).

(** A framebuffer claim belongs to one live BO. *)
Lemma scanout_unique s i j b b' :
  slots_ok s -> bos s !! i = Some b -> bos s !! j = Some b' -> b_state b = V3DA_BO_LIVE -> b_state b' = V3DA_BO_LIVE ->
  0 < m_scanout (b_mem b) -> m_scanout (b_mem b) = m_scanout (b_mem b') -> i = j.
Proof.
  intros H Hi Hj Hs Hs' Ho E. apply (handle_inj s i j b b' H Hi Hj); [congruence|congruence|].
  destruct (sl_scan _ H b) as [_ E1]; [by eapply list_elem_of_lookup_2|done|done|].
  destruct (sl_scan _ H b') as [_ E2]; [by eapply list_elem_of_lookup_2|done|lia|]. by rewrite <- E1, <- E2, E.
Qed.

Lemma quarantine_slots s i b : slots_ok s -> bos s !! i = Some b -> b_state b = V3DA_BO_LIVE -> slots_ok (quarantine_begin s i).
Proof.
  intros H Hi Hs. destruct (quarantine_effect s i b Hi) as (g & p & Hb & Hg & Hl & Hn & Hc). cbn zeta in *.
  set (b' := set_quarantine _ g p) in *. set (s' := quarantine_begin s i) in *. clearbody s'.
  pose proof H as [H1 H2 H3 H4 H5 H6 H7 H8]. assert (Hin : b ∈ bos s) by by eapply list_elem_of_lookup_2.
  set (o := m_scanout (b_mem b)) in *. change V3DA_SCANOUT_MAX with 3 in Hc.
  assert (Hcl : claimed (scan s') = if 0 <? o then arr_set (claimed (scan s)) (o - 1) 0 else claimed (scan s)).
  { rewrite Hc. destruct (0 <? o) eqn:E; [|done]. apply Z.ltb_lt in E. destruct (H5 b Hin Hs E) as [Hle Heq]. fold o in Hle, Heq.
    rewrite (proj2 (Z.leb_le o 3)), Heq, Z.eqb_refl by done. done. }
  assert (Hget : forall k, 0 <= k < 3 -> arr_get (claimed (scan s')) k = if k + 1 =? o then 0 else arr_get (claimed (scan s)) k).
  { intros k Hk. rewrite Hcl. destruct (0 <? o) eqn:E; bsimp.
    - destruct (H5 b Hin Hs E) as [Hle _]. fold o in Hle. destruct (k + 1 =? o) eqn:Ek; bsimp.
      + replace k with (o - 1) by lia. apply arr_get_set_eq. unfold zlen. lia.
      + apply arr_get_set_ne; lia.
    - by rewrite (proj2 (Z.eqb_neq (k + 1) o)) by lia. }
  constructor; rewrite ?Hb, ?Hg, ?Hl, ?Hn; unfold zlen; rewrite ?length_insert; try done.
  - intros j x Hj Hsx. apply list_lookup_insert_Some in Hj as [(-> & <- & _)|(Hne & Hj)]; [|by apply H3]. apply (H3 j b Hi). by rewrite Hs.
  - destruct H4 as [H4 ?]. split; [|done]. rewrite Hcl. case_if; [by rewrite length_arr_set|done].
  - intros x [->|(j & Hne & Hj)]%elem_of_slot Hsx Hox; [done|]. destruct (H5 x) as [Hle Heq]; [by eapply list_elem_of_lookup_2|done|done|].
    split; [done|]. rewrite Hget by lia. rewrite (proj2 (Z.eqb_neq (m_scanout (b_mem x) - 1 + 1) o)); [done|].
    intros E. apply Hne. eapply (scanout_unique s j i x b); try done. fold o. lia.
  - intros k Hk. rewrite Hget by done. destruct (k + 1 =? o) eqn:Ek; [done|]. apply Z.eqb_neq in Ek. intros Hnz.
    destruct (H6 k Hk Hnz) as (x & [j Hj]%list_elem_of_lookup & Hsx & Hox). exists x. split; [|done].
    eapply (slot_other _ i b' j); [|done]. intros ->. by simplify_eq.
  - intros x [->|(j & Hne & Hj)]%elem_of_slot Hsx; [apply (H7 b Hin); by rewrite Hs|]. apply H7; [by eapply list_elem_of_lookup_2|done].
  - rewrite (low_sum_insert _ _ b b' Hi). assert (low_foot b' = low_foot b) as ->; [|by rewrite Z.sub_simpl_r || (split; lia)].
    unfold low_foot, b_pages. cbn. by rewrite Hs.
Qed.

Lemma quarantine_counts s i b :
  counts_but s i -> bos s !! i = Some b -> refs (b_cnt b) = 0 -> holders (b_cnt b) = 0 -> inflight (b_cnt b) = 0 -> counts_ok (quarantine_begin s i).
Proof.
  intros H Hi Hr Hh Hf. destruct (quarantine_effect s i b Hi) as (g & p & Hb & _). cbn zeta in Hb. intros j x Hj. rewrite Hb in Hj.
  apply list_lookup_insert_Some in Hj as [(-> & <- & _)|(Hne & Hj)]; [done|]. by eapply H.
Qed.

(** Dropping the reference of a holder that is no longer counted. *)
Lemma unref_table s i b :
  slots_ok s -> counts_but s i -> bos s !! i = Some b -> b_state b = V3DA_BO_LIVE ->
  refs (b_cnt b) = holders (b_cnt b) + 1 -> cnt_range (b_cnt b) -> slots_ok (bo_unref s i) /\ counts_ok (bo_unref s i).
Proof.
  intros H Hc Hi Hs Hr Hrg. pose proof (holders_bound _ Hrg) as Hh. unfold bo_unref. rewrite (bo_at_eq s i b Hi).
  rewrite (proj2 (Z.ltb_lt 0 (refs (b_cnt b)))) by lia.
  set (s1 := upd_cnt s i (fun c => with_refs c (refs c - 1))). set (b1 := set_cnt b (with_refs (b_cnt b) (refs (b_cnt b) - 1))).
  assert (Hb1 : bos s1 !! i = Some b1) by exact (bos_upd_cnt s i b (fun c => with_refs c (refs c - 1)) Hi).
  assert (H1 : slots_ok s1) by by apply slots_cnt. assert (Hc1 : counts_but s1 i) by by apply counts_but_upd.
  rewrite (bo_at_eq s1 i b1 Hb1). clearbody s1. destruct (refs (b_cnt b1) =? 0) eqn:E.
  2: { split; [done|]. eapply counts_join; [done|exact Hb1|]. unfold cnt_ok. cbn. rewrite Hs. apply Z.eqb_neq in E. cbn in E.
       unfold holders, cnt_range in *. cbn. split_and!; try lia. }
  apply Z.eqb_eq in E. cbn in E. set (s2 := export_withdraw s1 i). set (b2 := set_cnt b1 (with_exported (b_cnt b1) false)).
  assert (Hw : bos s2 = <[i := b2]> (bos s1)) by by apply withdraw_bos.
  assert (Hb2 : bos s2 !! i = Some b2) by (rewrite Hw; apply list_lookup_insert_eq; by eapply lookup_lt_Some).
  assert (H2 : slots_ok s2) by by apply withdraw_slots.
  assert (Hc2 : counts_but s2 i). { intros j x Hne Hj. rewrite Hw, list_lookup_insert_ne in Hj by congruence. by eapply Hc1. }
  rewrite (bo_at_eq s2 i b2 Hb2). clearbody s2. destruct (inflight (b_cnt b2) =? 0) eqn:Ef.
  - apply Z.eqb_eq in Ef. split; [by eapply quarantine_slots|]. eapply quarantine_counts; [done|exact Hb2|done| |done].
    unfold holders in *. cbn. lia.
  - apply Z.eqb_neq in Ef. cbn in Ef. split; [done|]. eapply counts_join; [done|exact Hb2|]. unfold cnt_ok. cbn. rewrite Hs.
    unfold holders, cnt_range in *. cbn. split_and!; try lia; done.
Qed.

(** ** The end of the quarantine *)

Lemma release_effect s b :
  bos (release_block s b) = bos s /\ bo_gen (release_block s b) = bo_gen s /\ scan (release_block s b) = scan s /\
  low_budget (low (release_block s b)) = low_budget (low s) /\
  low_live (low (release_block s b)) =
    if negb (m_imported (b_mem b)) && m_low (b_mem b) then u64 (low_live (low s) - v3da_lowmem_footprint (m_pages (b_mem b)) PAGE_SIZE)
    else low_live (low s).
Proof.
  unfold release_block. destruct (m_imported (b_mem b)); [done|]. cbn [negb andb]. destruct (m_low (b_mem b)); cbn zeta.
  - set (s1 := set_low _ _). destruct (block_put_frame s1 (m_cpu (b_mem b)) (m_pa (b_mem b)) (m_pages (b_mem b))
      (has (m_flags (b_mem b)) V3DA_BO_CACHEABLE)) as (-> & -> & _ & -> & ->). done.
  - destruct (block_put_frame s (m_cpu (b_mem b)) (m_pa (b_mem b)) (m_pages (b_mem b))
      (has (m_flags (b_mem b)) V3DA_BO_CACHEABLE)) as (-> & -> & _ & -> & ->). done.
Qed.

Lemma low_sum_nonneg l : (forall b, b ∈ l -> b_state b <> V3DA_BO_FREE -> 0 < b_pages b <= 2 ^ 18) -> 0 <= low_sum l.
Proof.
  intros H. induction l as [|b l IH]; [done|]. change (low_sum (b :: l)) with (low_foot b + low_sum l).
  assert (0 <= low_sum l) by (apply IH; intros; apply H; [by right|done]).
  assert (0 <= low_foot b); [|lia]. unfold low_foot. case_if; [|done]. bsimp.
  apply (foot_bound (b_pages b)). specialize (H b ltac:(by left) ltac:(done)). lia.
Qed.

Definition table_ok (s : bsrv) : Prop := slots_ok s /\ counts_ok s.

Lemma poll_one_table s i : table_ok s -> table_ok (poll_one s i).
Proof.
  intros [H Hc]. unfold poll_one. destruct (bos s !! i) as [b|] eqn:Hb.
  2: { unfold bo_at. by rewrite list_lookup_total_alt, Hb. }
  rewrite (bo_at_eq s i b Hb). destruct (quarantine_over s b) eqn:Eq; [|done]. unfold quarantine_over in Eq.
  apply andb_true_iff in Eq as [Eq _]. apply andb_true_iff in Eq as [Hs _]. bsimp.
  destruct (release_effect s b) as (E1 & E2 & E3 & E4 & E5). set (s1 := release_block s b) in *. clearbody s1.
  set (s2 := set_stats _ _ _).
  assert (F : bos s2 = <[i := no_bo]> (bos s) /\ bo_gen s2 = bo_gen s /\ scan s2 = scan s /\ low s2 = low s1).
  { cbn. rewrite E1, E2, E3. by rewrite (alter_insert _ _ _ b Hb). }
  clearbody s2. destruct F as (F1 & F2 & F3 & F4). pose proof H as [H1 H2 H3 H4 H5 H6 H7 H8].
  assert (Hin : b ∈ bos s) by by eapply list_elem_of_lookup_2. split.
  2: { intros j x Hj. rewrite F1 in Hj. apply list_lookup_insert_Some in Hj as [(_ & <- & _)|(_ & Hj)]; [done|by eapply Hc]. }
  constructor; rewrite ?F1, ?F2, ?F3, ?F4; unfold zlen; rewrite ?length_insert; try done.
  - intros j x Hj Hsx. apply list_lookup_insert_Some in Hj as [(_ & <- & _)|(Hne & Hj)]; [done|by apply H3].
  - intros x [->|(j & _ & Hj)]%elem_of_slot Hsx; [done|]. apply H5; [by eapply list_elem_of_lookup_2|done].
  - intros k Hk Hnz. destruct (H6 k Hk Hnz) as (x & [j Hj]%list_elem_of_lookup & Hsx & Hox). exists x. split; [|done].
    eapply (slot_other _ i no_bo j); [|done]. intros ->. simplify_eq. congruence.
  - intros x [->|(j & _ & Hj)]%elem_of_slot Hsx; [done|]. apply H7; [by eapply list_elem_of_lookup_2|done].
  - rewrite (low_sum_insert _ _ b no_bo Hb), E4, E5. change (low_foot no_bo) with 0.
    assert (Hnn : 0 <= low_sum (<[i := no_bo]> (bos s))).
    { apply low_sum_nonneg. intros x [->|(j & _ & Hj)]%elem_of_slot Hsx; [done|]. apply H7; [by eapply list_elem_of_lookup_2|done]. }
    rewrite (low_sum_insert _ _ b no_bo Hb) in Hnn. change (low_foot no_bo) with 0 in Hnn.
    destruct (H7 b Hin) as [Hpg Himp]; [congruence|]. pose proof (foot_bound (b_pages b) ltac:(lia)) as Hfb.
    unfold low_foot in *. rewrite bool_decide_eq_false_2 in * by congruence. cbn [negb andb] in *.
    destruct (m_low (b_mem b)); [rewrite (Himp eq_refl)|rewrite andb_false_r]; cbn [negb andb].
    + change (v3da_lowmem_footprint (m_pages (b_mem b)) PAGE_SIZE) with (v3da_lowmem_footprint (b_pages b) 4096). unfold u64.
      rewrite Z.mod_small; lia.
    + lia.
Qed.

Lemma poll_table s : table_ok s -> table_ok (v3da_bo_quarantine_poll s).
Proof.
  unfold v3da_bo_quarantine_poll. generalize (seq 0 (length (bos s))). intros l. revert s.
  induction l as [|i l IH]; intros s H; [done|]. cbn. by apply IH, poll_one_table.
Qed.

(** A change of the counts of BO [i] that keeps its invariant. *)
Lemma table_cnt s i b f :
  table_ok s -> bos s !! i = Some b -> cnt_ok (set_cnt b (f (b_cnt b))) -> table_ok (upd_cnt s i f).
Proof.
  intros [H Hc] Hi Hok. split; [by apply slots_cnt|]. eapply counts_join; [by apply counts_upd|by apply bos_upd_cnt|done].
Qed.

(** A holder leaves and its reference is dropped. *)
Lemma table_leave s i b f :
  table_ok s -> bos s !! i = Some b -> b_state b = V3DA_BO_LIVE -> cnt_range (f (b_cnt b)) ->
  refs (f (b_cnt b)) = refs (b_cnt b) -> holders (f (b_cnt b)) + 1 = holders (b_cnt b) -> table_ok (bo_unref (upd_cnt s i f) i).
Proof.
  intros [H Hc] Hi Hs Hrg Hr Hh. pose proof (Hc i b Hi) as Hb. unfold cnt_ok in Hb. rewrite Hs in Hb. destruct Hb as (Hrh & _).
  eapply unref_table; [by apply slots_cnt|by apply counts_upd|by apply bos_upd_cnt|done| |done]. cbn. lia.
Qed.

Lemma live_counts s i b : table_ok s -> bos s !! i = Some b -> b_state b = V3DA_BO_LIVE ->
  refs (b_cnt b) = holders (b_cnt b) /\ cnt_range (b_cnt b).
Proof. intros [_ Hc] Hi Hs. specialize (Hc i b Hi). unfold cnt_ok in Hc. rewrite Hs in Hc. by destruct Hc as (? & ? & _). Qed.

(** The three ways a holder leaves. *)
Lemma owner_leaves s i b : table_ok s -> bos s !! i = Some b -> b_state b = V3DA_BO_LIVE -> owner (b_cnt b) <> 0 ->
  table_ok (bo_unref (upd_cnt s i (fun c => with_owner c 0)) i).
Proof.
  intros H Hi Hs Ho. destruct (live_counts s i b H Hi Hs) as (Hr & Hrg). eapply table_leave; [done|done|done| |done|].
  - unfold cnt_range in *. cbn. split_and!; try lia.
  - unfold holders. cbn. rewrite (proj2 (Z.eqb_neq _ _) Ho). cbn. lia.
Qed.

Lemma sharer_leaves s i b client : table_ok s -> bos s !! i = Some b -> b_state b = V3DA_BO_LIVE ->
  has (sharers (b_cnt b)) (client_bit client) = true ->
  table_ok (bo_unref (upd_cnt s i (fun c => with_sharers c (sharers c &&& lnot_w 64 (client_bit client)))) i).
Proof.
  intros H Hi Hs Hb. destruct (live_counts s i b H Hi Hs) as (Hr & Hrg). pose proof Hrg as (R1 & R2 & R3 & R4).
  assert (Hcl : 1 <= client <= 60).
  { unfold client_bit in Hb. rewrite max_clients_eq in Hb. destruct ((1 <=? client) && (client <=? 60)) eqn:E; [bsimp; lia|].
    unfold has in Hb. by rewrite Z.land_0_r in Hb. }
  rewrite has_client in Hb by done. eapply table_leave; [done|done|done| |done|].
  - unfold cnt_range. cbn. split_and!; try lia; apply (sharers_range _ client R2).
  - unfold holders. cbn. rewrite popcount_del by done. lia.
Qed.

Lemma close_table s client handle : table_ok s -> table_ok (v3da_bo_close s client handle).
Proof.
  intros H. unfold v3da_bo_close. destruct (v3da_bo_find s handle) as [i|] eqn:E; [|done].
  destruct (bo_find_Some _ _ _ E) as (b & Hb & Hs & _). rewrite (bo_at_eq s i b Hb).
  case_if; [by apply poll_table; eapply sharer_leaves|]. case_if; [|done]. bsimp. by apply poll_table; eapply owner_leaves.
Qed.

Lemma gone_one_table s client i : table_ok s -> 1 <= client -> table_ok (gone_one client s i).
Proof.
  intros H Hcl. unfold gone_one. case_if; [done|]. apply orb_false_iff in Heqb as [Hs _]. apply negb_false_iff, bool_decide_eq_true_1 in Hs.
  destruct (bos s !! i) as [b|] eqn:Hb.
  2: { unfold bo_at in Hs. rewrite list_lookup_total_alt, Hb in Hs. done. }
  rewrite (bo_at_eq s i b Hb) in *. set (s1 := if owner (b_cnt b) =? client then _ else s).
  assert (H1 : table_ok s1) by (unfold s1; case_if; [bsimp; eapply owner_leaves; [done|done|done|lia]|done]).
  clearbody s1. destruct (bool_decide _ && _) eqn:E2; [|done]. apply andb_true_iff in E2 as [Hs1 Hbit]. apply bool_decide_eq_true_1 in Hs1.
  destruct (bos s1 !! i) as [b1|] eqn:Hb1.
  - rewrite (bo_at_eq s1 i b1 Hb1) in *. by eapply sharer_leaves.
  - unfold bo_at in Hs1. rewrite list_lookup_total_alt, Hb1 in Hs1. done.
Qed.

(** A step that leaves the table alone. *)
Lemma table_same s s' : table_ok s -> bos s' = bos s -> bo_gen s' = bo_gen s -> claimed (scan s') = claimed (scan s) ->
  scan_nbuf (scan s') = scan_nbuf (scan s) -> low_live (low s') = low_live (low s) -> low_budget (low s') = low_budget (low s) -> table_ok s'.
Proof.
  intros [H Hc] Eb Eg Ecl En El Ebd. split.
  - eapply slots_ext; [exact H|rewrite Eb; apply same_slot_refl|done..].
  - intros i b. rewrite Eb. apply Hc.
Qed.

Lemma tick_table s now soon : table_ok s -> table_ok (v3da_bo_pool_tick s now soon).
Proof. intros H. eapply table_same; [exact H|..]; unfold v3da_bo_pool_tick, pool_trim; repeat case_if; done. Qed.

Lemma client_gone_table s client : table_ok s -> 1 <= client -> table_ok (v3da_bo_client_gone s client).
Proof.
  intros H Hcl. unfold v3da_bo_client_gone.
  assert (Hloop : forall l s, table_ok s -> table_ok (fold_left (gone_one client) l s)).
  { induction l as [|i l IH]; intros s' H'; [done|]. cbn. by apply IH, gone_one_table. }
  pose proof (poll_table _ (Hloop (seq 0 (length (bos s))) s H)) as H1. set (s1 := v3da_bo_quarantine_poll _) in *. clearbody s1.
  destruct (k_now (kern s1)) as [now k]. apply tick_table. by eapply table_same.
Qed.

Lemma pin_table s handles :
  table_ok s -> (forall i b, bos s !! i = Some b -> inflight (b_cnt b) + zlen handles < 2 ^ 32) ->
  table_ok (v3da_bo_pin_for_job s handles).2.
Proof.
  unfold v3da_bo_pin_for_job. intros H Hb. case_if; [|done]. clear Heqb. cbn. revert s H Hb.
  induction handles as [|h handles IH]; intros s H Hb; [done|]. cbn [fold_left].
  assert (E : zlen (h :: handles) = zlen handles + 1) by (unfold zlen; cbn; lia). assert (0 <= zlen handles) by (unfold zlen; lia).
  unfold pin_one. destruct (v3da_bo_find s h) as [i|] eqn:Ef.
  2: { apply IH; [done|]. intros j b Hj. specialize (Hb j b Hj). lia. }
  destruct (bo_find_Some _ _ _ Ef) as (b & Hi & Hs & _ & Hr). pose proof (proj2 H i b Hi) as Hc. unfold cnt_ok in Hc. rewrite Hs in Hc.
  destruct Hc as (C1 & C2 & C3 & C4). pose proof (Hb i b Hi) as Hbi.
  assert (Eu : u32 (inflight (b_cnt b) + 1) = inflight (b_cnt b) + 1) by (destruct C2 as (_ & _ & _ & ?); apply u32_small; lia).
  apply IH.
  - eapply table_cnt; [done|done|]. unfold cnt_ok. cbn. rewrite Hs, Eu. unfold holders, cnt_range in *. cbn. split_and!; try lia; done.
  - intros j x Hj. unfold upd_cnt, upd_bo in Hj. cbn in Hj. destruct (decide (i = j)) as [->|Hne].
    + rewrite list_lookup_alter_eq, Hi in Hj. cbn in Hj. simplify_eq. cbn. rewrite Eu. lia.
    + rewrite list_lookup_alter_ne in Hj by done. specialize (Hb j x Hj). lia.
Qed.

Lemma mark_table s handles f gseq : table_ok s -> table_ok (v3da_bo_mark_use s handles f gseq).
Proof.
  unfold v3da_bo_mark_use. revert s. induction handles as [|h handles IH]; intros s H; [done|]. cbn. apply IH. unfold mark_one.
  destruct (bo_lookup s h) as [i|]; [|done]. case_if; [|done]. destruct H as [H Hc]. split.
  - eapply slots_ext; [exact H|by apply same_slot_alter|done..].
  - intros j x Hj. cbn in Hj. destruct (decide (i = j)) as [->|Hne]; [|rewrite list_lookup_alter_ne in Hj by done; by eapply Hc].
    rewrite list_lookup_alter_eq in Hj. destruct (bos s !! j) as [b|] eqn:Hb; cbn in Hj; simplify_eq. by specialize (Hc j b Hb).
Qed.

Lemma unpin_one_table s h : table_ok s -> table_ok (unpin_one s h).
Proof.
  intros H. unfold unpin_one. destruct (bo_lookup s h) as [i|] eqn:El; [|done]. destruct (bo_lookup_Some _ _ _ El) as (b & Hb & Hs & _).
  rewrite (bo_at_eq s i b Hb). pose proof (proj2 H i b Hb) as Hc. unfold cnt_ok in Hc. rewrite Hs in Hc. destruct Hc as (C1 & C2 & C3 & C4).
  set (f := fun c => with_inflight c (inflight c - 1)). destruct (0 <? inflight (b_cnt b)) eqn:Ei.
  - apply Z.ltb_lt in Ei. pose proof (bos_upd_cnt s i b f Hb) as Hb1. rewrite (bo_at_eq _ i _ Hb1). cbn [b_cnt set_cnt].
    destruct ((refs (f (b_cnt b)) =? 0) && (inflight (f (b_cnt b)) =? 0)) eqn:E.
    + apply andb_true_iff in E as [E1 E2]. apply Z.eqb_eq in E1, E2. cbn in E1, E2.
      split; [eapply quarantine_slots; [by apply slots_cnt; apply H|exact Hb1|done]|].
      eapply quarantine_counts; [by apply counts_upd, H|exact Hb1|done|unfold holders in *; cbn; lia|done].
    + eapply table_cnt; [done|done|]. unfold cnt_ok. cbn. rewrite Hs. apply andb_false_iff in E. cbn in E.
      unfold holders, cnt_range in *. cbn. split_and!; try lia; try done; try (intros Hr0; destruct E as [E|E]; apply Z.eqb_neq in E; lia).
  - apply Z.ltb_ge in Ei. rewrite (bo_at_eq s i b Hb). case_if; [|done]. bsimp.
    destruct C2 as (_ & _ & _ & C5). specialize (C3 ltac:(done)). lia.
Qed.

Lemma unpin_table s handles : table_ok s -> table_ok (v3da_bo_unpin s handles).
Proof.
  unfold v3da_bo_unpin. revert s. induction handles as [|h handles IH]; intros s H; [done|]. cbn. by apply IH, unpin_one_table.
Qed.

Lemma export_table s client handle : table_ok s -> table_ok (v3da_bo_export s client handle).2.
Proof.
  intros H. unfold v3da_bo_export. destruct (v3da_bo_find s handle) as [i|] eqn:E; [|done]. destruct (bo_find_Some _ _ _ E) as (b & Hb & Hs & _ & Hr).
  rewrite (bo_at_eq s i b Hb). case_if; [done|]. case_if; [done|]. case_if; [done|]. case_if; [done|].
  destruct (k_export _ _ _ _) as [rc k]. case_if; [by eapply table_same|]. cbn [snd].
  assert (H1 : table_ok (upd_cnt (set_kern s k) i (fun c => with_exported c true))).
  { apply (table_cnt _ i b); [by eapply table_same|done|]. pose proof (proj2 H i b Hb) as Hc. unfold cnt_ok in *. cbn. rewrite Hs in *.
    destruct Hc as (? & ? & ? & _). unfold holders, cnt_range in *. cbn. done. }
  by eapply table_same.
Qed.

Lemma import_v3dbuf_table s client rq : table_ok s -> 1 <= client <= 60 -> table_ok (import_v3dbuf s client rq).2.
Proof.
  intros H Hcl. unfold import_v3dbuf. case_if; [done|]. case_if; [done|]. destruct (if 0xffffffff <? iq_id rq then None else _) as [i|] eqn:E; [|done].
  assert (Ef : v3da_bo_find s (iq_id rq) = Some i) by (destruct (0xffffffff <? iq_id rq); done).
  destruct (bo_find_Some _ _ _ Ef) as (b & Hb & Hs & _ & Hr). rewrite (bo_at_eq s i b Hb). case_if; [done|]. case_if; [done|]. cbn [snd].
  case_if; [done|]. bsimp. eapply table_cnt; [done|done|]. pose proof (proj2 H i b Hb) as Hc. unfold cnt_ok in *. cbn. rewrite Hs in *.
  destruct Hc as (C1 & C2 & C3 & C4). pose proof (holders_bound _ C2) as Hhb. pose proof C2 as (R1 & R2 & R3 & R4).
  rewrite has_client in * by done. rewrite (u32_small (refs (b_cnt b) + 1)) by lia.
  unfold holders, cnt_range in *. cbn. rewrite popcount_add by done. destruct (sharers_range (sharers (b_cnt b)) client R2) as [? _].
  split_and!; lia || done.
Qed.

Lemma bufns_open_table s id :
  table_ok s -> (forall i b, bos s !! i = Some b -> fd_opens (b_cnt b) + 1 < 2 ^ 31) -> table_ok (bufns_open s id).2.
Proof.
  intros H Hb. unfold bufns_open. case_if; [done|]. destruct (bo_by_export s id) as [i|] eqn:E; [|done].
  unfold bo_by_export in E. destruct (if negb (id =? 0) && (id <=? 0xffffffff) then bo_lookup s id else None) as [i'|] eqn:El; [|done]. cbn in E.
  destruct (exported _ && _) eqn:Ee in E; [|done]. injection E as ->. apply andb_true_iff in Ee as [_ Er]. apply Z.ltb_lt in Er.
  assert (El' : bo_lookup s id = Some i) by (destruct (negb (id =? 0) && (id <=? 0xffffffff)); done).
  destruct (bo_lookup_Some _ _ _ El') as (b & Hi & Hs & _). rewrite (bo_at_eq s i b Hi) in Er. cbn [snd]. eapply table_cnt; [done|done|].
  pose proof (proj2 H i b Hi) as Hc. unfold cnt_ok in *. cbn. rewrite Hs in *. destruct Hc as (C1 & C2 & C3 & C4).
  pose proof (holders_bound _ C2) as Hhb. pose proof C2 as (R1 & R2 & R3 & R4). specialize (Hb i b Hi).
  rewrite !u32_small by lia. unfold holders, cnt_range in *. cbn. split_and!; try lia; done.
Qed.

Lemma bufns_close_table s id : table_ok s -> table_ok (bufns_close s id).
Proof.
  intros H. unfold bufns_close. destruct (if negb (id =? 0) && (id <=? 0xffffffff) then bo_lookup s id else None) as [i|] eqn:El; [|done].
  assert (El' : bo_lookup s id = Some i) by (destruct (negb (id =? 0) && (id <=? 0xffffffff)); done).
  destruct (bo_lookup_Some _ _ _ El') as (b & Hi & Hs & _). rewrite (bo_at_eq s i b Hi). case_if; [|done]. bsimp. apply poll_table.
  destruct (live_counts s i b H Hi Hs) as (Hr & R1 & R2 & R3 & R4). eapply table_leave; [done|done|done| |done|].
  - unfold cnt_range. cbn. split_and!; lia.
  - unfold holders. cbn. lia.
Qed.

(** ** New BOs *)

Lemma grown_table s slot : table_ok s -> zlen (bos (grown s slot)) <= 4096 -> table_ok (grown s slot).
Proof.
  unfold grown. case_bool_decide as E0; [|done]. intros [H Hc] Hl. destruct H as [H1 H2 H3 H4 H5 H6 H7 H8]. cbn in Hl.
  assert (Hin : forall x, x ∈ bos s ++ [no_bo] -> x ∈ bos s \/ x = no_bo).
  { intros x [Hx|Hx]%elem_of_app; [by left|]. apply list_elem_of_singleton in Hx. by right. }
  assert (Hlk : forall i x, (bos s ++ [no_bo]) !! i = Some x -> x = no_bo \/ bos s !! i = Some x).
  { intros i x Hi. apply lookup_app_Some in Hi as [Hi|[_ Hi]]; [by right|left]. by apply list_lookup_singleton_Some in Hi as [_ <-]. }
  split.
  2: { intros i x Hi. cbn in Hi. apply Hlk in Hi as [->|Hi]; [done|by eapply Hc]. }
  constructor; cbn [bos set_bos bo_gen scan low]; try done.
  - rewrite !length_app. cbn. split; [lia|done].
  - intros g [Hg|Hg]%elem_of_app; [by apply H2|]. apply list_elem_of_singleton in Hg as ->. lia.
  - intros i b Hi Hs. apply Hlk in Hi as [->|Hi]; [done|]. rewrite lookup_total_app_l; [by apply H3|].
    apply lookup_lt_Some in Hi. destruct H1. lia.
  - intros b [Hb| ->]%Hin Hs; [by apply H5|done].
  - intros i Hi Hnz. destruct (H6 i Hi Hnz) as (b & Hb & Hrest). exists b. split; [apply elem_of_app; by left|done].
  - intros b [Hb| ->]%Hin Hs; [by apply H7|done].
  - by rewrite low_sum_app, Z.add_0_r.
Qed.

(** A BO put into a free slot, with its claim and its account. *)
Lemma new_table s s' slot b0 b :
  table_ok s -> bos s !! slot = Some b0 -> b_state b0 = V3DA_BO_FREE -> b_state b = V3DA_BO_LIVE -> cnt_ok b ->
  b_handle b = make_handle (next_gen (bo_gen s !!! slot)) slot -> 0 < b_pages b <= 2 ^ 18 ->
  (m_low (b_mem b) = true -> m_imported (b_mem b) = false) ->
  bos s' = <[slot := b]> (bos s) -> bo_gen s' = <[slot := next_gen (bo_gen s !!! slot)]> (bo_gen s) ->
  scan_nbuf (scan s') = scan_nbuf (scan s) ->
  (let o := m_scanout (b_mem b) in
   (o = 0 /\ claimed (scan s') = claimed (scan s)) \/
   (1 <= o <= 3 /\ arr_get (claimed (scan s)) (o - 1) = 0 /\ claimed (scan s') = arr_set (claimed (scan s)) (o - 1) (b_handle b))) ->
  low_live (low s') = low_live (low s) + low_foot b -> low_live (low s') <= low_budget (low s') -> low_budget (low s') = low_budget (low s) ->
  table_ok s'.
Proof.
  intros [H Hc] Hi Hf Hs Hcnt Hh Hpg Himp Eb Eg En Hclaim El Hle Ebud. pose proof H as [H1 H2 H3 H4 H5 H6 H7 H8].
  pose proof (lookup_lt_Some _ _ _ Hi) as Hlt. destruct H1 as [H1 H1'].
  assert (Hg0 : 0 <= bo_gen s !!! slot < 2 ^ 19). { apply H2, (list_elem_of_lookup_2 _ slot), list_lookup_lookup_total_lt. lia. }
  pose proof (next_gen_range _ Hg0) as Hng. set (g := next_gen (bo_gen s !!! slot)) in *.
  assert (Hpos : 0 < b_handle b) by (rewrite Hh, handle_eq by (unfold zlen in *; lia); lia).
  set (o := m_scanout (b_mem b)) in *. cbn zeta in Hclaim.
  assert (Hget : forall k, 0 <= k < 3 -> arr_get (claimed (scan s')) k = if k + 1 =? o then b_handle b else arr_get (claimed (scan s)) k).
  { intros k Hk. destruct Hclaim as [(Ho & ->)|(Ho & _ & ->)].
    - by rewrite (proj2 (Z.eqb_neq (k + 1) o)) by lia.
    - destruct (k + 1 =? o) eqn:E; bsimp; [replace k with (o - 1) by lia; apply arr_get_set_eq; unfold zlen; destruct H4; lia|].
      apply arr_get_set_ne; lia. }
  split.
  2: { intros j x. rewrite Eb. intros Hj. apply list_lookup_insert_Some in Hj as [(_ & <- & _)|(_ & Hj)]; [done|by eapply Hc]. }
  constructor; rewrite ?Eb, ?Eg, ?En, ?Ebud; unfold zlen; rewrite ?length_insert; try done.
  - intros x [j Hj]%list_elem_of_lookup. apply list_lookup_insert_Some in Hj as [(_ & <- & _)|(_ & Hj)]; [lia|].
    apply H2. by eapply list_elem_of_lookup_2.
  - intros j x Hj Hsx. apply list_lookup_insert_Some in Hj as [(<- & <- & _)|(Hne & Hj)].
    + rewrite list_lookup_total_insert_eq by lia. done.
    + rewrite list_lookup_total_insert_ne by done. by apply H3.
  - destruct H4 as [H4 ?]. split; [|done]. destruct Hclaim as [(_ & ->)|(_ & _ & ->)]; [done|by rewrite length_arr_set].
  - intros x [->|(j & Hne & Hj)]%elem_of_slot Hsx Hox.
    + fold o in Hox |- *. destruct Hclaim as [(? & _)|(Ho & _)]; [lia|]. split; [lia|]. rewrite Hget by lia.
      by rewrite (proj2 (Z.eqb_eq (o - 1 + 1) o)) by lia.
    + destruct (H5 x) as [Hle3 Heq]; [by eapply list_elem_of_lookup_2|done|done|]. split; [done|]. rewrite Hget by lia.
      destruct (m_scanout (b_mem x) - 1 + 1 =? o) eqn:E; [|done]. apply Z.eqb_eq in E. exfalso.
      destruct Hclaim as [(? & _)|(_ & Hz & _)]; [lia|]. replace (o - 1) with (m_scanout (b_mem x) - 1) in Hz by lia.
      pose proof (handle_pos s j x H Hj ltac:(by rewrite Hsx)). lia.
  - intros k Hk. rewrite Hget by done. destruct (k + 1 =? o) eqn:E.
    + intros _. apply Z.eqb_eq in E. exists b. fold o. split_and!; [|done|lia]. apply (list_elem_of_lookup_2 _ slot), list_lookup_insert_eq. done.
    + intros Hnz. destruct (H6 k Hk Hnz) as (x & [j Hj]%list_elem_of_lookup & Hsx & Hox). exists x. split; [|done].
      eapply (slot_other _ slot b j); [|done]. intros ->. simplify_eq. congruence.
  - intros x [->|(j & _ & Hj)]%elem_of_slot Hsx; [done|]. apply H7; [by eapply list_elem_of_lookup_2|done].
  - rewrite (low_sum_insert _ _ b0 b Hi). assert (low_foot b0 = 0) as -> by (unfold low_foot; by rewrite Hf). lia.
Qed.

Lemma new_cnt_ok st mem client l g p : 1 <= client <= 60 -> cnt_ok (mk_bo st mem (mk_cnt client 1 0 false 0 0) l g p) \/ st <> V3DA_BO_LIVE.
Proof.
  intros Hc. destruct (decide (st = V3DA_BO_LIVE)) as [->|]; [left|by right]. unfold cnt_ok, holders, cnt_range. cbn.
  rewrite (proj2 (Z.eqb_neq client 0)) by lia. cbn. split_and!; lia || done.
Qed.

Lemma block_put_table s cpu pa pages cached : table_ok s -> table_ok (block_put s cpu pa pages cached).
Proof.
  intros H. destruct (block_put_frame s cpu pa pages cached) as (E1 & E2 & _ & E4 & E5).
  eapply table_same; [exact H|done|done|by rewrite E5|by rewrite E5|by rewrite E4|by rewrite E4].
Qed.

Lemma create_table s client size flags :
  table_ok s -> 1 <= client <= 60 -> 0 <= size -> table_ok (v3da_bo_create s client size flags).2.
Proof.
  intros H Hcl Hsize. unfold v3da_bo_create. set (scan_i := if has flags V3DA_BO_SCANOUT then scanout_pick s else -1).
  assert (Hscan : scan_i = -1 \/ (0 <= scan_i < 3 /\ arr_get (claimed (scan s)) scan_i = 0)).
  { unfold scan_i. case_if; [|by left]. unfold scanout_pick.
    destruct (scanout_free_spec (take (Z.to_nat (scan_nbuf (scan s))) (claimed (scan s))) 0) as [E|[Hr Hz]]; [lia|by left|right].
    destruct (sl_nclaim _ (proj1 H)) as [Hn3 Hnb]. unfold zlen in Hr. rewrite length_take in Hr. split; [lia|]. rewrite Z.sub_0_r in Hz.
    unfold arr_get in *. rewrite lookup_total_take_lt in Hz by lia. done. }
  clearbody scan_i. case_if; bsimp; [done|].
  pose proof (create_pages size ltac:(lia)) as Hp. cbn zeta in Hp. set (pages := if _ =? 0 then 1 else _) in *. clearbody pages.
  destruct (slot_for s) as [[slot s1]|] eqn:Eslot; [|done].
  destruct (slot_for_grown _ _ _ Eslot (proj2 (sl_len _ (proj1 H)))) as (Eslt & Es1 & Hl1).
  assert (H1 : table_ok s1) by (rewrite Es1; apply grown_table; [done|by rewrite <- Es1]).
  assert (Hb0 : exists b0, bos s1 !! slot = Some b0 /\ b_state b0 = V3DA_BO_FREE).
  { rewrite Es1. unfold grown. destruct (free_slot_spec (bos s)) as [Hle Hfree]. case_bool_decide as E.
    - exists no_bo. split; [|done]. cbn. rewrite E. by apply list_lookup_middle.
    - destruct (lookup_lt_is_Some_2 (bos s) slot) as [b Hb]; [lia|]. exists b. split; [done|]. apply Hfree. by rewrite <- Eslt. }
  assert (F : scan s1 = scan s /\ low s1 = low s) by (rewrite Es1; unfold grown; by case_bool_decide). destruct F as [F1 F2].
  destruct Hb0 as (b0 & Hb0 & Hf0). clear Es1 Eslot Eslt.
  set (cached := if 0 <=? scan_i then false else _). clearbody cached. set (lowmem := has flags V3DA_BO_LOWMEM && (scan_i <? 0)).
  set (foot := if lowmem then _ else 0). set (want_low := lowmem && _).
  destruct (block_get s1 pages cached want_low) as [[r pl] s2] eqn:Eget. destruct (block_get_frame _ _ _ _ _ _ _ Eget) as (_ & G2 & G3 & G4 & G5 & G6).
  assert (H2 : table_ok s2) by (eapply table_same; [exact H1|done|done|by rewrite G4|by rewrite G4|done|done]).
  destruct r as [[cpu pa]|]; [|case_if; [by eapply table_same|done]].
  destruct (v3da_hw_va_alloc (hwst s2) pages) as [gpuva h].
  case_if; [apply block_put_table; by eapply table_same|]. cbn [snd].
  set (ptes := map _ _). set (bflags := if cached then _ else _). set (placed := want_low && pl_low pl).
  set (buf_pa := if 0 <=? scan_i then _ else 0) in *. clearbody ptes bflags.
  set (mem := fun handle => mk_mem handle bflags cpu pa gpuva pages (if 0 <=? scan_i then scan_i + 1 else 0) placed false no_memref).
  set (s3 := set_hw (set_hw s2 h) _). set (nb := mk_bo V3DA_BO_LIVE (mem (make_handle (next_gen (bo_gen s2 !!! slot)) slot)) (mk_cnt client 1 0 false 0 0)
    (replicate 6 (no_fence, 0)) 0 (replicate 6 0)).
  assert (Hat : bo_at (bo_new s3 slot client mem) slot = nb).
  { unfold bo_at, bo_new. cbn. apply list_lookup_total_insert_eq. rewrite G2. by eapply lookup_lt_Some. }
  rewrite Hat. set (s4 := if 0 <=? scan_i then _ else _).
  assert (F4 : bos s4 = <[slot := nb]> (bos s2) /\ bo_gen s4 = <[slot := next_gen (bo_gen s2 !!! slot)]> (bo_gen s2) /\
    scan_nbuf (scan s4) = scan_nbuf (scan s2) /\ low s4 = low s2 /\
    claimed (scan s4) = if 0 <=? scan_i then <[Z.to_nat scan_i := b_handle nb]> (claimed (scan s2)) else claimed (scan s2)).
  { unfold s4. by destruct (0 <=? scan_i). }
  clearbody s4. destruct F4 as (K1 & K2 & K3 & K4 & K5).
  assert (Hfoot : low_foot nb = if placed then foot else 0).
  { unfold low_foot. cbn. destruct placed eqn:Epl; [|done]. unfold placed, want_low in Epl. apply andb_true_iff in Epl as [Epl _].
    apply andb_true_iff in Epl as [Epl _]. unfold foot. by rewrite Epl. }
  assert (Hfb : 0 <= foot <= 2 ^ 31) by (unfold foot; case_if; [apply foot_bound; lia|lia]).
  assert (Hlive : 0 <= low_live (low s2) <= low_budget (low s2) /\ low_budget (low s2) < 2 ^ 63).
  { destruct (sl_low _ (proj1 H2)) as [E1 E2]. split; [|lia]. split; [|lia]. rewrite E1. apply low_sum_nonneg.
    intros x Hx Hsx. apply (sl_pages _ (proj1 H2) x Hx Hsx). }
  assert (Hadm : placed = true -> low_live (low s2) + foot <= low_budget (low s2)).
  { intros Epl. unfold placed, want_low in Epl. apply andb_true_iff in Epl as [Epl _]. apply andb_true_iff in Epl as [_ Epl].
    unfold v3da_lowmem_admit in Epl. bsimp. rewrite F2 in *. lia. }
  assert (Hnew : forall l, low_budget l = low_budget (low s2) -> low_live l = low_live (low s2) + (if placed then foot else 0) -> table_ok (set_low s4 l)).
  { intros l Eb El. apply (new_table s2 (set_low s4 l) slot b0 nb H2); cbn [bos set_low bo_gen scan low]; try done.
    - by rewrite G2.
    - by destruct (new_cnt_ok V3DA_BO_LIVE (b_mem nb) client (b_last nb) 0 (pass nb) Hcl).
    - cbn. destruct Hscan as [->|[Hr Hz]]; [by left|right]. rewrite (proj2 (Z.leb_le 0 scan_i)) in * by lia.
      replace (scan_i + 1 - 1) with scan_i by lia. rewrite G4, F1 in *. split_and!; [lia|lia|done|]. by rewrite K5.
    - by rewrite Hfoot.
    - rewrite El, Eb. destruct placed; [auto|lia]. }
  assert (Hplain : placed = false -> table_ok s4).
  { intros Epl. specialize (Hnew (low s2) eq_refl). rewrite Epl, Z.add_0_r in Hnew. specialize (Hnew eq_refl).
    eapply table_same; [exact Hnew|done..| |]; cbn; by rewrite K4. }
  destruct (has flags V3DA_BO_LOWMEM) eqn:Efl.
  - destruct placed eqn:Epl.
    + apply Hnew; unfold low_note, low_placed; rewrite K4; case_if; cbn; try done; unfold u64; (rewrite Z.mod_small; [done|]);
        specialize (Hadm eq_refl); lia.
    + destruct (scan_i <? 0); [|by apply Hplain]. eapply table_same; [apply Hplain; done|done..| |]; unfold low_note, low_fell_back; by case_if.
  - apply Hplain. unfold placed, want_low, lowmem. by rewrite ?Efl.
Qed.

Lemma import_commit_table s client rq gen cpu pa pages :
  table_ok s -> 1 <= client <= 60 -> 0 < pages <= 2 ^ 18 -> table_ok (import_commit s client rq gen cpu pa pages).2.
Proof.
  intros H Hcl Hp. assert (Hundo : forall s', table_ok s' -> table_ok (set_kern s' (k_munmap (kern s') cpu (pages * PAGE_SIZE)))).
  { intros s' H'. by eapply table_same. }
  unfold import_commit. case_if; [by apply Hundo|]. destruct (import_find s client (iq_port rq) (iq_id rq)) as [i|]; [by apply Hundo|].
  case_if; [by apply Hundo|]. destruct (v3da_hw_va_alloc (hwst s) pages) as [gpuva h].
  case_if; [apply (Hundo (set_hw s h)); by eapply table_same|]. cbn [bos set_hw snd].
  set (slot := free_slot (bos s)) in *. destruct (free_slot_spec (bos s)) as [Hle Hfree]. fold slot in Hle, Hfree.
  set (s1 := if bool_decide (slot = length (bos s)) then _ else _).
  assert (Eg : s1 = set_hw (grown s slot) h) by (unfold s1, grown; cbn; by case_bool_decide).
  assert (Hl1 : zlen (bos (grown s slot)) <= 4096).
  { apply grown_length; [apply (sl_len _ (proj1 H))|]. intros E. fold slot in E. rewrite bool_decide_eq_true_2 in Heqb0 by done.
    cbn in Heqb0. apply Z.leb_gt in Heqb0. done. }
  assert (H1 : table_ok s1) by (rewrite Eg; eapply table_same; [by apply (grown_table s slot)|done..]).
  assert (Hb0 : exists b0, bos s1 !! slot = Some b0 /\ b_state b0 = V3DA_BO_FREE).
  { rewrite Eg. unfold grown. case_bool_decide as E.
    - exists no_bo. split; [|done]. cbn. rewrite E. by apply list_lookup_middle.
    - destruct (lookup_lt_is_Some_2 (bos s) slot) as [b Hb]; [lia|]. exists b. split; [done|by apply Hfree]. }
  destruct Hb0 as (b0 & Hb0 & Hf0). clearbody s1. clear Eg. set (mem := fun handle => mk_mem handle _ _ _ _ _ _ _ _ _).
  set (nb := mk_bo V3DA_BO_LIVE (mem (make_handle (next_gen (bo_gen s1 !!! slot)) slot)) (mk_cnt client 1 0 false 0 0) (replicate 6 (no_fence, 0)) 0 (replicate 6 0)).
  eapply (new_table s1 _ slot b0 nb H1); try done.
  - by destruct (new_cnt_ok V3DA_BO_LIVE (b_mem nb) client (b_last nb) 0 (pass nb) Hcl).
  - cbn. by left.
  - assert (low_foot nb = 0) as -> by (unfold low_foot; by rewrite andb_false_r). by rewrite Z.add_0_r.
  - cbn. apply (sl_low _ (proj1 H1)).
Qed.

Lemma import_mapped_table s rq e : table_ok s -> table_ok (import_mapped s rq e).2.
Proof. intros H. unfold import_mapped. destruct (import_map (kern s) rq e) as [r k]. by eapply table_same. Qed.

Lemma map_ovf_table s bytes : table_ok s -> table_ok (v3da_bo_map_ovf_pool s bytes).2.
Proof.
  intros H. unfold v3da_bo_map_ovf_pool. destruct (v3da_hw_va_alloc _ _) as [va h]. case_if; [by eapply table_same|].
  destruct (k_mmap _ _ _) as [[cpu k]|]; by eapply table_same.
Qed.
End ops.
End V3daBoTable.
