(* ===== verification/V3daBoCorrect.v ===== *)
(** * The BO manager in use

    The step relation of the server's BO manager: requests of clients, submissions and
    completions of jobs, the name space thread, the event thread, and what the rest of
    the server changes in between. The theorems hold in every reachable state. *)

From S2P Require Import Prelude V3daSched V3daPool V3daBo V3daBoCore V3daBoOps V3daBoTable.

Module V3daBoCorrect.
Import V3da V3daPool V3daBo V3daBoCore V3daBoOps V3daBoTable.

Section system.
Context `{KL : KernelLaws}.

(** An import between its two critical sections: its client and request, the client's
    generation, and the mapping it has made. *)
Record pending := mk_pending {
  pe_client : Z; pe_rq : import_req; pe_gen : Z; pe_cpu : Z; pe_pa : list Z; pe_pages : Z
}.
Record sys := mk_sys { sv : bsrv; pend : list pending }.

Definition loose_of (p : pending) : Z * bool * list Z := (pe_cpu p, false, pe_pa p).

(** What the rest of the server changes: fences, queues and clients, and the
    framebuffer's geometry ([SCANOUT_INFO]). *)
Definition set_env (s : bsrv) (b : srv) (sub : list Z) : bsrv :=
  mk_bsrv b sub (hwst s) (bos s) (bo_gen s) (pool s) (low s) (scan s) (ovf s) (imports s) (exports s) (buf_port s)
    (verbose s) (bo_quarantine_passed s) (pages_to_kernel s) (kern s).
Definition set_geometry (s : bsrv) (pa bytes nbuf : Z) : bsrv :=
  mk_bsrv (base s) (hw_submitted s) (hwst s) (bos s) (bo_gen s) (pool s) (low s)
    (mk_scan pa bytes nbuf (claimed (scan s))) (ovf s) (imports s) (exports s) (buf_port s)
    (verbose s) (bo_quarantine_passed s) (pages_to_kernel s) (kern s).

(** The framebuffer buffers lie in the firmware's memory. *)
Definition fw_buffers (pa bytes nbuf : Z) : Prop :=
  nbuf <= 3 /\ forall i off, 0 <= i < nbuf -> 0 <= off < bytes / 4096 -> k_fw (u32 (pa + u32 (i * bytes)) + off * 4096).

(** Counters far from their wrap-around. *)
Definition room (s : bsrv) (n : Z) : Prop :=
  pt_gen (hwst s) + n + 8192 < 2 ^ 64 /\
  forall i b, bos s !! i = Some b -> fd_opens (b_cnt b) + 1 < 2 ^ 31 /\ inflight (b_cnt b) + n < 2 ^ 32.

Inductive step : sys -> sys -> Prop :=
  | st_create s P client size flags : 1 <= client <= 60 -> 0 <= size -> room s 0 ->
      step (mk_sys s P) (mk_sys (v3da_bo_create s client size flags).2 P)
  | st_close s P client handle : room s 0 -> step (mk_sys s P) (mk_sys (v3da_bo_close s client handle) P)
  | st_pin s P handles : room s (zlen handles) -> step (mk_sys s P) (mk_sys (v3da_bo_pin_for_job s handles).2 P)
  | st_mark s P handles f gseq : step (mk_sys s P) (mk_sys (v3da_bo_mark_use s handles f gseq) P)
  | st_unpin s P handles : room s (zlen handles) -> step (mk_sys s P) (mk_sys (v3da_bo_unpin s handles) P)
  | st_export s P client handle : step (mk_sys s P) (mk_sys (v3da_bo_export s client handle).2 P)
  | st_import_done s P client rq r s' : import_begin s client rq = inl (r, s') -> step (mk_sys s P) (mk_sys s' P)
  | st_import_map s P client rq e gen cpu pa pages s' :
      import_begin s client rq = inr gen -> 0 <= iq_size rq -> import_mapped s rq e = (Ok (cpu, pa, pages), s') ->
      step (mk_sys s P) (mk_sys s' (mk_pending client rq gen cpu pa pages :: P))
  | st_import_fail s P rq e er s' : 0 <= iq_size rq -> import_mapped s rq e = (Err er, s') -> step (mk_sys s P) (mk_sys s' P)
  | st_import_commit s P1 p P2 : room s 0 ->
      step (mk_sys s (P1 ++ p :: P2))
           (mk_sys (import_commit s (pe_client p) (pe_rq p) (pe_gen p) (pe_cpu p) (pe_pa p) (pe_pages p)).2 (P1 ++ P2))
  | st_open s P id : room s 0 -> step (mk_sys s P) (mk_sys (bufns_open s id).2 P)
  | st_close_fd s P id : room s 0 -> step (mk_sys s P) (mk_sys (bufns_close s id) P)
  | st_gone s P client : 1 <= client -> room s 0 -> step (mk_sys s P) (mk_sys (v3da_bo_client_gone s client) P)
  | st_poll s P : step (mk_sys s P) (mk_sys (v3da_bo_quarantine_poll s) P)
  | st_tick s P now soon : step (mk_sys s P) (mk_sys (v3da_bo_pool_tick s now soon) P)
  | st_ovf s P n : 0 < n <= 2 ^ 18 -> room s 0 -> step (mk_sys s P) (mk_sys (v3da_bo_map_ovf_pool s (n * 4096)).2 P)
  | st_flush s P ok : step (mk_sys s P) (mk_sys (set_hw s (mmu_flush ok (hwst s))) P)   (* by the scheduler *)
  | st_env s P b sub : step (mk_sys s P) (mk_sys (set_env s b sub) P)
  | st_geometry s P pa bytes nbuf : fw_buffers pa bytes nbuf -> step (mk_sys s P) (mk_sys (set_geometry s pa bytes nbuf) P).

(** The server after its initialisation. *)
Record initial (s : bsrv) : Prop := {
  in_hw : exists l, hwst s = hw_start l; in_bos : bos s = [] /\ bo_gen s = []; in_ovf : ovf s = [];
  in_pool : blocks (pool s) = [] /\ pool_bytes (pool s) = 0 /\ 0 <= pool_cap (pool s);
  in_low : low_live (low s) = 0 /\ 0 <= low_budget (low s) < 2 ^ 63;
  in_scan : scan_nbuf (scan s) = 0 /\ claimed (scan s) = [0; 0; 0]; in_kern : k_ok (kern s)
}.

Inductive reachable : sys -> Prop :=
  | reach_init s : initial s -> reachable (mk_sys s [])
  | reach_step a b : reachable a -> step a b -> reachable b.

(** ** The invariant *)

Definition pending_ok (p : pending) : Prop := 1 <= pe_client p <= 60 /\ zlen (pe_pa p) = pe_pages p /\ 0 < pe_pages p <= 2 ^ 18.

Record sys_ok (a : sys) : Prop := {
  so_mem : core (sv a) (map loose_of (pend a)) [];
  so_pool : pool_acct (pool (sv a));
  so_table : table_ok (sv a);
  so_pend : Forall pending_ok (pend a)
}.

Lemma sys_ok_mem a n : sys_ok a -> pt_gen (hwst (sv a)) + n < 2 ^ 64 -> mem_ok (sv a) (map loose_of (pend a)) n.
Proof. intros [H1 H2 H3 _] Hn. split_and!; [done|done|apply (sl_len _ (proj1 H3))|done]. Qed.

Lemma sys_ok_intro s P n : mem_ok s (map loose_of P) n -> table_ok s -> Forall pending_ok P -> sys_ok (mk_sys s P).
Proof. intros (H1 & H2 & _) H3 H4. by constructor. Qed.

(** Nothing is in the empty list. *)
Ltac no_elem := by intros; match goal with H : _ ∈ [] |- _ => apply elem_of_nil in H end.

Lemma initial_ok s : initial s -> sys_ok (mk_sys s []).
Proof.
  intros [[l Hh] [Hb Hg] Ho (Hp & Hpb & Hpc) (Hl & Hbud) (Hn & Hc) Hk].
  constructor; cbn.
  - constructor; unfold cpus, ranges; rewrite ?Hh, ?Hb, ?Ho, ?Hp; cbn; try no_elem; try done; try (by constructor); try lia.
    all: try (split_and!; lia).
    + intros j Hj. rewrite lookup_empty in Hj. by destruct Hj.
    + intros j v. replace (held (hw_start l)) with (@nil (Z * Z)); [no_elem|]. unfold held, hw_start. cbn. by destruct (default true (head l)).
  - unfold pool_acct. rewrite Hp, Hpb. unfold zlen. cbn. split_and!; try lia. done.
  - split.
    + constructor; rewrite ?Hb, ?Hg, ?Hc, ?Hn, ?Hl; unfold zlen; cbn; try no_elem; try (split; lia); try done.
      intros i Hi Hz. exfalso. apply Hz. unfold arr_get. destruct (Z.to_nat i) as [|[|[|k]]] eqn:E; cbn; [done..|lia].
    + intros i b. rewrite Hb. done.
  - done.
Qed.

Lemma import_begin_ok s P client rq r s' :
  sys_ok (mk_sys s P) -> import_begin s client rq = inl (r, s') -> sys_ok (mk_sys s' P).
Proof.
  intros H. unfold import_begin. case_if; [by intros [= _ <-]|]. apply orb_false_iff in Heqb as [E E3]. apply orb_false_iff in E as [_ E2]. bsimp.
  rewrite max_clients_eq in E3. case_if.
  - intros [= Hr]. pose proof (sys_ok_mem _ (- pt_gen (hwst s)) H ltac:(cbn; lia)) as Hm. cbn in Hm.
    apply (import_v3dbuf_ok _ _ _ client rq) in Hm. pose proof (import_v3dbuf_table s client rq (so_table _ H) ltac:(lia)) as Ht.
    rewrite Hr in Hm, Ht. eapply sys_ok_intro; [exact Hm|done|apply (so_pend _ H)].
  - case_if; [by intros [= _ <-]|]. case_if; [by intros [= _ <-]|]. destruct (import_find _ _ _ _); by intros [= _ <-].
Qed.

Lemma import_begin_client s client rq gen : import_begin s client rq = inr gen -> 1 <= client <= 60.
Proof.
  unfold import_begin. case_if; [done|]. intros _. apply orb_false_iff in Heqb as [E E3]. apply orb_false_iff in E as [_ E2]. bsimp.
  rewrite max_clients_eq in E3. lia.
Qed.

(** Room for the changes of one step. *)
Lemma room_mem s P n m : sys_ok (mk_sys s P) -> room s n -> m <= n + 8192 -> mem_ok s (map loose_of P) m.
Proof. intros H [Hr _] Hm. apply (sys_ok_mem (mk_sys s P)); [done|]. cbn. lia. Qed.

Lemma any_mem s P : sys_ok (mk_sys s P) -> mem_ok s (map loose_of P) (- pt_gen (hwst s)).
Proof. intros H. apply (sys_ok_mem (mk_sys s P)); [done|]. cbn. lia. Qed.

Lemma step_ok a b : sys_ok a -> step a b -> sys_ok b.
Proof.
  intros H Hst. destruct Hst as [s P client size flags Hcl Hsz Hr|s P client handle Hr|s P handles Hr|s P handles f gseq|s P handles Hr
    |s P client handle|s P client rq r s' Hb|s P client rq e gen cpu pa pages s' Hb Hsz Hm|s P rq e er s' Hsz Hm|s P1 p P2 Hr
    |s P id Hr|s P id Hr|s P client Hcl Hr|s P|s P now soon|s P n Hn Hr|s P ok|s P b sub|s P pa bytes nbuf Hfw];
    pose proof (so_table _ H) as Ht; pose proof (so_pend _ H) as Hp; cbn [sv pend] in Ht, Hp.
  - eapply sys_ok_intro; [apply (create_ok _ _ 0); [by eapply room_mem|done|done]|by apply create_table|done].
  - eapply sys_ok_intro; [apply (close_ok _ _ 0); [by eapply room_mem|done]|by apply close_table|done].
  - eapply sys_ok_intro; [apply pin_ok, any_mem, H|apply pin_table; [done|]|done]. intros i b Hi. apply (proj2 Hr i b Hi).
  - eapply sys_ok_intro; [apply mark_use_ok, any_mem, H|by apply mark_table|done].
  - eapply sys_ok_intro; [apply (unpin_ok _ _ 0); [eapply room_mem; [done|done|lia]|done]|by apply unpin_table|done].
  - eapply sys_ok_intro; [apply export_ok, any_mem, H|by apply export_table|done].
  - by eapply import_begin_ok.
  - pose proof (import_mapped_ok s _ _ rq e _ s' (any_mem _ _ H) Hsz Hm) as (H1 & Hz & Hpg).
    pose proof (import_mapped_table s rq e Ht) as Ht'. rewrite Hm in Ht'. eapply (sys_ok_intro s' (_ :: P)); [exact H1|done|].
    constructor; [|done]. pose proof (import_begin_client s client rq gen Hb). unfold pending_ok. cbn. lia.
  - pose proof (import_mapped_ok s _ _ rq e _ s' (any_mem _ _ H) Hsz Hm) as H1.
    pose proof (import_mapped_table s rq e Ht) as Ht'. rewrite Hm in Ht'. eapply sys_ok_intro; [exact H1|done|done].
  - apply Forall_app in Hp as [Hp1 Hp2]. apply Forall_cons in Hp2 as [(Hcl & Hz & Hpg) Hp2].
    eapply sys_ok_intro; [apply (import_commit_ok _ _ 0); [|done|done|done]|by apply import_commit_table|by apply Forall_app].
    pose proof (room_mem _ _ _ 1 H Hr ltac:(lia)) as (Hc & ? & ? & ?). split_and!; try done.
    eapply core_loose_perm; [exact Hc|]. rewrite !map_app. cbn. solve_Permutation.
  - eapply sys_ok_intro; [apply bufns_open_ok, any_mem, H|apply bufns_open_table; [done|]|done]. intros i b Hi. apply (proj2 Hr i b Hi).
  - eapply sys_ok_intro; [apply (bufns_close_ok _ _ 0); [by eapply room_mem|done]|by apply bufns_close_table|done].
  - eapply sys_ok_intro; [apply (client_gone_ok _ _ 0); [by eapply room_mem|done]|by apply client_gone_table|done].
  - eapply sys_ok_intro; [apply quarantine_poll_ok, any_mem, H|by apply poll_table|done].
  - eapply sys_ok_intro; [apply tick_ok, any_mem, H|by apply tick_table|done].
  - eapply sys_ok_intro; [apply (map_ovf_ok _ _ 0); [by eapply room_mem|done|done]|by apply map_ovf_table|done].
  - constructor; [apply core_mmu_flush, H|apply H|by eapply table_same|done].
  - constructor; [|apply H|by eapply table_same|done]. pose proof (so_mem _ H) as Hc. core_same Hc.
  - destruct Hfw as [Hn3 Hfw]. constructor; [|apply H| |done].
    + pose proof (so_mem _ H) as Hc. destruct Hc as [H1 H2 H3 H4 H5 H6 H7 H8 H9 H10 H11 H12 H13 H14 H15 H16 H17]. by constructor.
    + destruct Ht as [[T1 T2 T3 [T4 T4'] T5 T6 T7 T8] Tc]. split; [by constructor|done].
Qed.

Lemma reachable_ok a : reachable a -> sys_ok a.
Proof. induction 1 as [s Hi|a b _ IH Hst]; [by apply initial_ok|by eapply step_ok]. Qed.

(** ** Isolation *)

(** The GPU can use the entry [v] for page [j]: it is in the page table, or, if the TLB counts, the TLB may
    still hold it. *)
Definition usable (tlb : bool) (s : bsrv) (j v : Z) : Prop := (v <> 0 /\ pt_get (hwst s) j = v) \/ (tlb = true /\ (j, v) ∈ stale (hwst s)).

(** The TLB may count unless the last flush was given up. *)
Definition flushed (tlb : bool) (s : bsrv) : Prop := tlb = true -> late (hwst s) = false.

(** The windows on other processes' buffers fit the frame field of a page-table entry. *)
Definition imports_fit (s : bsrv) : Prop := forall c p pa, regions s !! c = Some (false, p) -> pa ∈ p -> pa < 2 ^ 40.

(** The mapping at [c] is the memory of a BO (live, or quarantined and not yet flushed)
    or of the overflow pool, with page [j] in its range of GPU addresses. *)
Definition serves (s : bsrv) (c j : Z) : Prop :=
  (exists i b, bos s !! i = Some b /\ m_cpu (b_mem b) = c /\ j ∈ range (b_gpuva b, b_pages b) /\
     (b_state b = V3DA_BO_LIVE \/ (b_state b = V3DA_BO_QUARANTINE /\ tlb_gen (hwst s) < clear_pt_gen b))) \/
  (exists va n, (va, n, c) ∈ ovf s /\ j ∈ range (va, n)).

Lemma usable_serves tlb s L V j v :
  core s L V -> flushed tlb s -> usable tlb s j v ->
  exists c a p pa, serves s c j /\ regions s !! c = Some (a, p) /\ v = pte pa /\ (pa ∈ p \/ k_fw pa).
Proof.
  intros H Hfl Hu.
  assert (Hmp : forall c off, serves s c j -> maps_page (regions s) c off v ->
    exists c a p pa, serves s c j /\ regions s !! c = Some (a, p) /\ v = pte pa /\ (pa ∈ p \/ k_fw pa)).
  { intros c off Hs (a & p & pa & Hr & Hv & Hpa). exists c, a, p, pa. split_and!; try done.
    destruct Hpa as [Hpa|?]; [left; by eapply list_elem_of_lookup_2|by right]. }
  destruct Hu as [[Hv Hj]|[Ht Hst]].
  - destruct (decide (Exists (fun b => b_state b = V3DA_BO_LIVE /\ j ∈ range (b_gpuva b, b_pages b)) (bos s))) as [Hex|Hno].
    + apply Exists_exists in Hex as (b & Hb & Hs & Hin). pose proof Hb as [i Hi]%list_elem_of_lookup.
      apply (Hmp (m_cpu (b_mem b)) (j - b_gpuva b / 4096)); [left; exists i, b; auto|]. apply elem_of_range in Hin.
      rewrite <- Hj. replace j with (b_gpuva b / 4096 + (j - b_gpuva b / 4096)) at 2 by lia. apply (co_live _ _ _ H b Hb Hs). lia.
    + destruct (decide (Exists (fun o => j ∈ range o.1) (ovf s))) as [Hex|Hno'].
      * apply Exists_exists in Hex as ([[va n] c] & Ho & Hin). cbn in Hin.
        apply (Hmp c (j - va / 4096)); [right; exists va, n; auto|]. apply elem_of_range in Hin.
        rewrite <- Hj. replace j with (va / 4096 + (j - va / 4096)) at 2 by lia. apply (co_omap _ _ _ H va n c Ho). lia.
      * exfalso. apply Hv. rewrite <- Hj. apply (co_zero _ _ _ H).
        -- intros b Hb Hs Hin. apply Hno, Exists_exists. eauto.
        -- intros o Ho Hin. apply Hno', Exists_exists. eauto.
  - assert (Hh : (j, v) ∈ held (hwst s)) by (unfold held; by rewrite (Hfl Ht)). destruct (co_stale _ _ _ H j v Hh) as (b & off & Hb & Hs & Hlt & Hoff & -> & Hm). pose proof Hb as [i Hi]%list_elem_of_lookup.
    apply (Hmp (m_cpu (b_mem b)) off); [|done]. left. exists i, b. split_and!; [done|done|apply elem_of_range; lia|by right].
Qed.

(** A page that is served fits the frame field. *)
Lemma served_fits s L V c a p pa : core s L V -> imports_fit s -> regions s !! c = Some (a, p) -> pa ∈ p \/ k_fw pa -> 0 <= pa < 2 ^ 40 /\ pa mod 4096 = 0.
Proof.
  intros H Hi Hr [Hin|Hf]; [|destruct (k_fw_page pa Hf); lia]. destruct (k_page (kern s) c a p pa (co_k _ _ _ H) Hr Hin) as (? & ? & Ha).
  destruct a; [destruct (Ha eq_refl); lia|]. specialize (Hi c p pa Hr Hin). lia.
Qed.

(** An own page is only reached through its owner. *)
Lemma own_page_served tlb s L V c0 p0 pa j :
  core s L V -> flushed tlb s -> imports_fit s -> regions s !! c0 = Some (true, p0) -> pa ∈ p0 -> usable tlb s j (pte pa) -> serves s c0 j.
Proof.
  intros H Hfl Hi Hc0 Hpa Hu. destruct (usable_serves tlb s L V j _ H Hfl Hu) as (c & a & p & pa' & Hs & Hr & Hv & Hor).
  destruct (k_page (kern s) c0 true p0 pa (co_k _ _ _ H) Hc0 Hpa) as (_ & _ & Hnf). destruct (Hnf eq_refl) as [_ Hnf'].
  destruct (served_fits s L V _ _ _ pa H Hi Hc0 (or_introl Hpa)), (served_fits s L V _ _ _ pa' H Hi Hr Hor).
  assert (pa = pa') by (by apply pte_inj). subst pa'. destruct Hor as [Hin|?]; [|done]. destruct (decide (c = c0)) as [->|Hne]; [done|]. exfalso.
  eapply (k_disjoint (kern s) c0 c p0 a p pa); [apply H|congruence|done..].
Qed.

Lemma NoDup_cpus_pool s L i b pb :
  NoDup (cpus s L) -> bos s !! i = Some b -> b_state b <> V3DA_BO_FREE -> pb ∈ blocks (pool s) -> m_cpu (b_mem b) <> pb_cpu pb.
Proof.
  intros Hnd Hi Hs Hpb E. unfold cpus in Hnd. apply NoDup_app in Hnd as (_ & Hd & _). apply (Hd (m_cpu (b_mem b))).
  - apply elem_of_concat_map. exists b. split; [by eapply list_elem_of_lookup_2|]. unfold bo_cpus. rewrite bool_decide_eq_false_2 by done. by left.
  - rewrite E, elem_of_app. left. by apply list_elem_of_fmap_2.
Qed.

Lemma NoDup_cpus_ovf s L va n c pb : NoDup (cpus s L) -> (va, n, c) ∈ ovf s -> pb ∈ blocks (pool s) -> c <> pb_cpu pb.
Proof.
  intros Hnd Ho Hpb ->. unfold cpus in Hnd. apply NoDup_app in Hnd as (_ & _ & Hnd). apply NoDup_app in Hnd as (_ & Hd & _).
  apply (Hd (pb_cpu pb)); [by apply list_elem_of_fmap_2|]. rewrite elem_of_app. left. by apply (list_elem_of_fmap_2 snd) in Ho.
Qed.

(** C1: in every reachable state of the BO manager, also after flushes of the TLB that were given up, the entries in
    the page table, and if the last flush has completed also those the TLB may still hold after a BO was unmapped, name
    only pages of the memory of the BO (or of the overflow pool) whose address range they lie
    in, or of the framebuffer. If moreover the imported buffers lie below 2^40, where page-table entries tell
    addresses apart, no page of a pooled block is reachable by the GPU, nor
    any page the server has given back, and no BO's range reaches another BO's block. *)
Theorem v3da_bo_isolation (a : sys) (tlb : bool) :
  reachable a ->
  let s := sv a in flushed tlb s ->
  (forall j v, usable tlb s j v ->
     exists c x p pa, serves s c j /\ regions s !! c = Some (x, p) /\ v = pte pa /\ (pa ∈ p \/ k_fw pa)) /\
  (imports_fit s ->
   (forall c p pa j, regions s !! c = Some (true, p) -> pa ∈ p -> usable tlb s j (pte pa) -> serves s c j) /\
   (forall pb, pb ∈ blocks (pool s) -> exists p, regions s !! pb_cpu pb = Some (true, p) /\ zlen p = pb_pages pb /\
      forall pa j, pa ∈ p -> ~ usable tlb s j (pte pa)) /\
   (forall pa j, pa mod 4096 = 0 -> 0 <= pa < 2 ^ 40 -> ~ k_fw pa ->
      (forall c x p, regions s !! c = Some (x, p) -> pa ∉ p) -> ~ usable tlb s j (pte pa))).
Proof.
  intros Hr s Hfl. pose proof (so_mem _ (reachable_ok a Hr)) as H. fold s in H. split; [intros j v; by eapply usable_serves|]. intros Hi. split_and!.
  - intros c p pa j. by eapply own_page_served.
  - intros pb Hpb. destruct (co_pool _ _ _ H pb Hpb) as (p & Hp & Hz & _). exists p. split_and!; [done|done|]. intros pa j Hpa Hu.
    destruct (own_page_served _ _ _ _ _ _ _ _ H Hfl Hi Hp Hpa Hu) as [(i & b & Hb & Hc & _ & Hs)|(va & n & Ho & _)].
    + eapply (NoDup_cpus_pool s); [apply H|done|destruct Hs as [->|[-> _]]; done|done|done].
    + eapply (NoDup_cpus_ovf s); [apply H|done|done|done].
  - intros pa j Ha Hb Hnf Hno Hu. destruct (usable_serves tlb s _ _ j _ H Hfl Hu) as (c & x & p & pa' & _ & Hc & Hv & Hor).
    destruct (served_fits s _ _ _ _ _ pa' H Hi Hc Hor). assert (pa = pa') by (by apply pte_inj).
    subst pa'. destruct Hor as [Hin|?]; [by apply (Hno c x p)|done].
Qed.

(** ** References and budgets *)

Lemma find_live s i b : slots_ok s -> bos s !! i = Some b -> b_state b = V3DA_BO_LIVE ->
  v3da_bo_find s (b_handle b) = if 0 <? refs (b_cnt b) then Some i else None.
Proof. intros H Hi Hs. unfold v3da_bo_find. by rewrite (lookup_live s i b H Hi Hs), <- (bo_at_eq s i b Hi). Qed.

Lemma lookup_dead s i b : slots_ok s -> bos s !! i = Some b -> b_state b = V3DA_BO_QUARANTINE -> bo_lookup s (b_handle b) = None.
Proof.
  intros H Hi Hs. destruct (bo_lookup s (b_handle b)) as [j|] eqn:E; [|done]. destruct (bo_lookup_Some s _ _ E) as (b' & Hj & Hs' & Hh).
  assert (j = i) as -> by (apply (handle_inj s j i b' b H Hj Hi); congruence). congruence.
Qed.

Lemma export_live s i b : slots_ok s -> bos s !! i = Some b -> b_state b = V3DA_BO_LIVE -> 0 < refs (b_cnt b) -> b_handle b <= 0xffffffff ->
  bo_by_export s (b_handle b) = if exported (b_cnt b) then Some i else None.
Proof.
  intros H Hi Hs Hr Hle. unfold bo_by_export. pose proof (handle_pos s i b H Hi ltac:(congruence)).
  rewrite (proj2 (Z.eqb_neq (b_handle b) 0)), (proj2 (Z.leb_le (b_handle b) 0xffffffff)) by lia. cbn [negb andb].
  rewrite (lookup_live s i b H Hi Hs). cbn. rewrite (bo_at_eq s i b Hi), (proj2 (Z.ltb_lt 0 _) Hr). by rewrite andb_true_r.
Qed.

Lemma handle_width s i b : slots_ok s -> bos s !! i = Some b -> b_state b <> V3DA_BO_FREE -> 0 < b_handle b <= 0xffffffff.
Proof.
  intros H Hi Hs. split; [by eapply handle_pos|]. rewrite (sl_handle s H i b Hi Hs). destruct (sl_len s H) as [Hl Hm].
  pose proof (lookup_lt_Some _ _ _ Hi) as Hlt.
  assert (0 <= bo_gen s !!! i < 2 ^ 19) by (apply (sl_gen s H), (list_elem_of_lookup_2 _ i), list_lookup_lookup_total_lt; lia).
  unfold zlen in Hm. rewrite handle_eq by (done || lia). lia.
Qed.

(** C8: in every reachable state, the reference count of a live BO is the number of its
    holders (its creator, the clients that share it, the open descriptors of its export);
    exactly while it has a holder its handle finds it, and its export, if it has one, is
    found under its object id. A live BO without a holder is pinned by a job; a
    quarantined BO has neither holder, job nor export and no lookup finds it. Two used
    slots never have the same handle. *)
Theorem v3da_bo_references (a : sys) :
  reachable a ->
  let s := sv a in
  (forall (i : nat) (b : bo), bos s !! i = Some b ->
     match b_state b with
     | V3DA_BO_FREE => True
     | V3DA_BO_LIVE =>
         refs (b_cnt b) = holders (b_cnt b) /\ (holders (b_cnt b) = 0 -> 0 < inflight (b_cnt b)) /\
         (v3da_bo_find s (b_handle b) = if 0 <? holders (b_cnt b) then Some i else None) /\
         (bo_by_export s (b_handle b) = if exported (b_cnt b) then Some i else None)
     | V3DA_BO_QUARANTINE =>
         holders (b_cnt b) = 0 /\ inflight (b_cnt b) = 0 /\ exported (b_cnt b) = false /\ bo_lookup s (b_handle b) = None
     end) /\
  (forall h i, v3da_bo_find s h = Some i -> exists b, bos s !! i = Some b /\ b_state b = V3DA_BO_LIVE /\ b_handle b = h) /\
  (forall i j b b', bos s !! i = Some b -> bos s !! j = Some b' -> b_state b <> V3DA_BO_FREE -> b_state b' <> V3DA_BO_FREE ->
     b_handle b = b_handle b' -> i = j).
Proof.
  intros Hr s. pose proof (so_table _ (reachable_ok a Hr)) as [Hs Hc]. fold s in Hs, Hc. split_and!.
  - intros i b Hi. specialize (Hc i b Hi). unfold cnt_ok in Hc. pose proof (handle_width s i b Hs Hi) as Hw. destruct (b_state b) eqn:E; [done| |].
    + destruct Hc as (Hh & Hrg & H0 & He). pose proof (holders_bound _ Hrg). rewrite (find_live s i b Hs Hi E), Hh in *.
      split_and!; [done|done|done|]. destruct (decide (0 < holders (b_cnt b))) as [Hp|Hp].
      * apply export_live; [done|done|done|lia|apply Hw; congruence].
      * destruct (exported (b_cnt b)) eqn:Ex; [specialize (He eq_refl); lia|]. unfold bo_by_export.
        rewrite (lookup_live s i b Hs Hi E). case_if; [|done]. cbn. by rewrite (bo_at_eq s i b Hi), Ex.
    + destruct Hc as (? & ? & ? & ?). split_and!; [done..|by eapply lookup_dead].
  - intros h i Hf. destruct (bo_find_Some s h i Hf) as (b & ? & ? & ? & _). eauto.
  - intros i j b b'. by apply handle_inj.
Qed.

(** in every reachable state the pool's byte count is the sum of its blocks'
    footprints, within its cap, with at most 1024 blocks; the low-memory account is the
    sum of the footprints of the BOs placed low, within its budget; the table has at most
    4096 slots; no two live BOs have the same framebuffer buffer, and the addresses of
    BOs, holes and the overflow pool never share a page and lie below the end of the
    page table. *)
Theorem v3da_bo_budgets (a : sys) :
  reachable a ->
  let s := sv a in
  (pool_bytes (pool s) = sum_foot 4096 (blocks (pool s)) /\ pool_bytes (pool s) <= pool_cap (pool s) /\ zlen (blocks (pool s)) <= 1024) /\
  (low_live (low s) = low_sum (bos s) /\ low_live (low s) <= low_budget (low s)) /\
  zlen (bos s) <= 4096 /\
  (forall i j b b', bos s !! i = Some b -> bos s !! j = Some b' -> b_state b = V3DA_BO_LIVE -> b_state b' = V3DA_BO_LIVE ->
     0 < m_scanout (b_mem b) -> m_scanout (b_mem b) = m_scanout (b_mem b') -> i = j) /\
  NoDup (concat (map range (ranges s []))) /\
  (forall j, j ∈ concat (map range (ranges s [])) -> 256 <= j < pt_entries (hwst s)).
Proof.
  intros Hr s. pose proof (reachable_ok a Hr) as [Hm Hp [Hs _] _]. fold s in Hm, Hp, Hs. destruct Hp as (P1 & P2 & P3 & _).
  destruct (sl_low s Hs) as [S1 [S2 _]], (sl_len s Hs) as [_ Hlen]. do 4 (split; [try tauto|]).
  - intros i j b b'. by apply scanout_unique.
  - split; [apply Hm|]. intros j H1. apply elem_of_concat_map in H1 as ([va n] & Hin & Hj). apply elem_of_range in Hj. destruct (co_range _ _ _ Hm va n Hin) as (? & ? & ? & ?).
    destruct (co_next _ _ _ Hm) as (? & ? & ->). divlia.
Qed.
End system.
End V3daBoCorrect.
