(* ===== verification/V3daBoSpec.v ===== *)
(** * What the BO requests answer

    The functional behaviour of single operations of the BO manager in a reachable state:
    creation, the end of the quarantine, the dependencies a submission gathers from its
    BOs, and the fences of a BO newest first. *)

From Stdlib Require Import Sorted.
From S2P Require Import Prelude V3daSched V3daPool V3daBo V3daBoCore V3daBoOps V3daBoTable V3daBoCorrect.

Module V3daBoSpec.
Import V3da V3daPool V3daBo V3daBoCore V3daBoOps V3daBoTable V3daBoCorrect.

(** ** Creation *)

Section create.
Context `{KL : KernelLaws}.
Implicit Types (s : bsrv).

(** The pages of a request. *)
Definition pages_of (size : Z) : Z := Z.max 1 ((size + 4095) / 4096).

Lemma create_pages_eq size : 0 <= size <= 0x40000000 ->
  (let n := u32 ((size + PAGE_SIZE - 1) / PAGE_SIZE) in if n =? 0 then 1 else n) = pages_of size.
Proof.
  intros H. cbn zeta. unfold pages_of. rewrite page_size_eq. replace (size + 4096 - 1) with (size + 4095) by lia.
  rewrite u32_small by divlia. case_if; bsimp; divlia.
Qed.

Lemma grown_frame s slot : hwst (grown s slot) = hwst s /\ pool (grown s slot) = pool s /\ kern (grown s slot) = kern s.
Proof. unfold grown. by case_bool_decide. Qed.

Lemma cacheable_flag (cached : bool) flags :
  has (if cached then flags ||| V3DA_BO_CACHEABLE else flags &&& lnot_w 32 V3DA_BO_CACHEABLE) V3DA_BO_CACHEABLE = cached.
Proof.
  unfold has. destruct cached; change V3DA_BO_CACHEABLE with (2 ^ 0); rewrite land_pow2 by lia.
  - by rewrite Z.lor_spec, orb_true_r.
  - by rewrite Z.land_spec, andb_false_r.
Qed.

(** The two ways a creation ends. *)
Lemma create_cases s client size flags r s' :
  0 <= size -> zlen (bos s) <= 4096 -> v3da_bo_create s client size flags = (r, s') ->
  match r with
  | Err e =>
      ((e = EINVAL /\ 0x40000000 < size) \/ (e = ENOMEM /\ size <= 0x40000000)) /\
      (bos s' = bos s \/ bos s' = bos s ++ [no_bo]) /\
      (hwst s' = hwst s \/ exists h va pages, v3da_hw_va_alloc (hwst s) pages = (va, h) /\ 0 < pages <= 2 ^ 18 /\ va = 0 /\ hwst s' = h)
  | Ok c =>
      size <= 0x40000000 /\
      exists cached want_low cpu pa pl s2 h l b,
        let slot := free_slot (bos s) in let pages := pages_of size in
        block_get (grown s slot) pages cached want_low = (Some (cpu, pa), pl, s2) /\
        v3da_hw_va_alloc (hwst s2) pages = (b_gpuva b, h) /\ b_gpuva b <> 0 /\ zlen l = pages /\
        hwst s' = bump_pt_gen (pt_fill h (b_gpuva b / 4096) l) /\ kern s' = kern s2 /\
        bos s' = <[slot := b]> (bos (grown s slot)) /\ (slot < length (bos (grown s slot)))%nat /\
        b_state b = V3DA_BO_LIVE /\ b_cnt b = mk_cnt client 1 0 false 0 0 /\ b_pages b = pages /\ m_cpu (b_mem b) = cpu /\
        m_pa (b_mem b) = pa /\ m_imported (b_mem b) = false /\
        c = mk_create (b_handle b) (b_gpuva b) (pages * 4096) (m_scanout (b_mem b))
              (mk_memref V3DA_MEM_PHYS (if has (m_flags (b_mem b)) V3DA_BO_CACHEABLE then V3DA_CACHE_CACHED else V3DA_CACHE_UNCACHED) 0
                 (pages * 4096) pa)
  end.
Proof.
  intros Hsize Hl. unfold v3da_bo_create. set (scan_i := if has flags V3DA_BO_SCANOUT then scanout_pick s else -1). clearbody scan_i.
  set (cached := if 0 <=? scan_i then false else _). clearbody cached. set (buf_pa := if 0 <=? scan_i then _ else 0). clearbody buf_pa.
  destruct (0x40000000 <? size) eqn:Esz; bsimp; [intros [= <- <-]; split; [left; split; [done|lia]|split; by left]|].
  pose proof (create_pages_eq size ltac:(lia)) as Ep. pose proof (create_pages size ltac:(lia)) as Hp. cbn zeta in Ep, Hp. rewrite !Ep in *.
  set (pages := pages_of size) in *. clearbody pages.
  destruct (slot_for s) as [[slot s1]|] eqn:Eslot; [|intros [= <- <-]; split; [right; split; [done|lia]|split; by left]].
  destruct (slot_for_grown _ _ _ Eslot Hl) as (-> & Es1 & _). clear Eslot. destruct (grown_frame s (free_slot (bos s))) as (F1 & _).
  set (want_low := _ && v3da_lowmem_admit _ _ _). clearbody want_low. set (foot := if _ && _ then _ else 0). clearbody foot.
  destruct (block_get s1 pages cached want_low) as [[r' pl] s2] eqn:Eget. destruct (block_get_frame _ _ _ _ _ _ _ Eget) as (G1 & G2 & _).
  assert (Hb : bos s2 = bos s \/ bos s2 = bos s ++ [no_bo]) by (rewrite G2, Es1; unfold grown; case_bool_decide; [by right|by left]).
  assert (Hh : hwst s2 = hwst s) by by rewrite G1, Es1, F1.
  destruct r' as [[cpu pa]|]; [|intros [= <- <-]; split; [right; split; [done|lia]|]; case_if; cbn; split; try done; by left].
  destruct (v3da_hw_va_alloc (hwst s2) pages) as [gpuva h] eqn:Eva. destruct (gpuva =? 0) eqn:Eg; bsimp.
  { intros [= <- <-]. destruct (block_put_frame (set_hw s2 h) cpu pa pages cached) as (E1 & _ & E3 & _). rewrite E1, E3. cbn.
    split; [right; split; [done|lia]|split; [done|]]. right. exists h, gpuva, pages. by rewrite Hh in Eva. }
  set (l := map _ (seqZ 0 pages)). set (mem := fun handle => mk_mem _ _ _ _ _ _ _ _ _ _). set (s3 := set_hw (set_hw s2 h) _).
  set (slot := free_slot (bos s)) in *.
  set (nb := mk_bo V3DA_BO_LIVE (mem (make_handle (next_gen (bo_gen s2 !!! slot)) slot)) (mk_cnt client 1 0 false 0 0)
    (replicate 6 (no_fence, 0)) 0 (replicate 6 0)).
  assert (Hlt : (slot < length (bos s1))%nat).
  { rewrite Es1. unfold grown. destruct (free_slot_spec (bos s)) as [Hle _]. fold slot in Hle. case_bool_decide; cbn; rewrite ?length_app; cbn; lia. }
  assert (Hat : bo_at (bo_new s3 slot client mem) slot = nb).
  { unfold bo_at, bo_new. cbn. apply list_lookup_total_insert_eq. by rewrite G2. }
  rewrite Hat. intros [= <- <-]. split; [lia|].
  exists cached, want_low, cpu, pa, pl, s2, h, l, nb. cbn zeta. rewrite <- Es1. rewrite !u32_small by (rewrite page_size_eq; lia).
  unfold nb, mem. cbn [b_mem b_cnt b_state m_flags m_pa m_cpu m_scanout]. unfold b_gpuva, b_pages, b_handle. cbn [b_mem m_gpuva m_pages m_handle].
  rewrite cacheable_flag. split_and!; try done.
  - unfold l. apply zlen_map_seqZ. lia.
  - repeat case_if; cbn; by rewrite shr12.
  - repeat case_if; done.
  - repeat case_if; cbn; by rewrite G2.
Qed.

(** What a handle finds depends on the live BOs only. *)
Lemma find_iff s h i : slots_ok s ->
  v3da_bo_find s h = Some i <-> exists b, bos s !! i = Some b /\ b_state b = V3DA_BO_LIVE /\ b_handle b = h /\ 0 < refs (b_cnt b).
Proof.
  intros H. split; [apply bo_find_Some|]. intros (b & Hi & Hs & <- & Hr). rewrite (find_live s i b H Hi Hs). by rewrite (proj2 (Z.ltb_lt _ _) Hr).
Qed.

Lemma find_same s s' h : slots_ok s -> slots_ok s' ->
  (forall i b, b_state b = V3DA_BO_LIVE -> b_handle b = h -> bos s !! i = Some b <-> bos s' !! i = Some b) ->
  v3da_bo_find s' h = v3da_bo_find s h.
Proof.
  intros H H' Hb. apply option_eq. intros i. rewrite !find_iff by done.
  split; intros (b & Hi & Hs & Hh & Hr); exists b; split_and!; try done; by apply (Hb i b).
Qed.

(** A new slot holds no live BO. *)
Lemma app_no_bo_lookup (l : list bo) (i : nat) (b : bo) : b_state b = V3DA_BO_LIVE -> l !! i = Some b <-> (l ++ [no_bo]) !! i = Some b.
Proof.
  intros Hs. rewrite lookup_app_Some. split; [by left|]. intros [?|[_ H]]; [done|]. exfalso.
  apply list_lookup_singleton_Some in H as [_ <-]. done.
Qed.

Lemma grown_lookup s i b : b_state b = V3DA_BO_LIVE -> bos s !! i = Some b <-> bos (grown s (free_slot (bos s))) !! i = Some b.
Proof.
  intros Hs. unfold grown. case_bool_decide as E; [|done]. cbn. by apply app_no_bo_lookup.
Qed.

(** The slot a creation takes is free or new. *)
Lemma free_not_live s b : bos s !! free_slot (bos s) = Some b -> b_state b <> V3DA_BO_LIVE.
Proof. intros H. by rewrite (proj2 (free_slot_spec (bos s)) b H). Qed.
Lemma va_alloc_pt h pages va h' j : 0 <= pages -> v3da_hw_va_alloc h pages = (va, h') -> j ∉ range (va, pages) -> pt_get h' j = pt_get h j.
Proof.
  intros Hp. rewrite elem_of_range. unfold v3da_hw_va_alloc. destruct (find_hole (holes h) 0 pages) as [i|].
  - destruct (holes h !!! Z.to_nat i) as [va' n']. case_if; by intros [= <- <-].
  - case_if; intros [= <- <-]; [done|]. intros Hj. rewrite pt_fill_get, shr12, bool_decide_eq_false_2; [done|].
    unfold zlen. rewrite length_replicate. lia.
Qed.

(** The state after a creation in a reachable state. *)
Lemma create_keeps s P client size flags :
  sys_ok (mk_sys s P) -> 1 <= client <= 60 -> 0 <= size -> room s 0 -> sys_ok (mk_sys (v3da_bo_create s client size flags).2 P).
Proof. intros H Hcl Hsz Hr. exact (step_ok _ _ H (st_create s P client size flags Hcl Hsz Hr)). Qed.

(** A new BO: one reference, held by its client, under a handle that found nothing
    before; a zeroed block of its own; its pages mapped. *)
Record created s client size (c : create_resp) s' : Prop := {
  cr_fresh : v3da_bo_find s (cr_handle c) = None;
  cr_bo : exists i b, v3da_bo_find s' (cr_handle c) = Some i /\ bos s' !! i = Some b /\
    b_cnt b = mk_cnt client 1 0 false 0 0 /\ b_gpuva b = cr_gpuva c /\ b_pages b * 4096 = cr_size c /\
    k_zeroed (kern s') (m_cpu (b_mem b)) /\ m_scanout (b_mem b) = cr_scanout c /\
    cr_mem c = mk_memref V3DA_MEM_PHYS (if has (m_flags (b_mem b)) V3DA_BO_CACHEABLE then V3DA_CACHE_CACHED else V3DA_CACHE_UNCACHED) 0
                 (cr_size c) (m_pa (b_mem b)) /\
    (exists p, regions s' !! m_cpu (b_mem b) = Some (true, p) /\ zlen p = b_pages b /\ p !! O = Some (m_pa (b_mem b))) /\
    (forall off, 0 <= off < b_pages b -> maps_page (regions s') (m_cpu (b_mem b)) off (pt_get (hwst s') (b_gpuva b / 4096 + off))) /\
    (forall j, j ∉ range (b_gpuva b, b_pages b) -> pt_get (hwst s') j = pt_get (hwst s) j);
  cr_bytes : size <= cr_size c < Z.max 1 size + 4096;
  cr_others : forall h, h <> cr_handle c -> v3da_bo_find s' h = v3da_bo_find s h
}.

(** creating a BO of [size] bytes in a reachable state either fails and changes
    nothing a client or the GPU can see (EINVAL for more than 1 GiB, ENOMEM otherwise),
    or answers a handle that found nothing before and now finds a BO held by the client
    alone, of the size rounded up to pages, whose block is its own, zeroed and mapped at
    the answered GPU address; every other handle and every other page-table entry is as
    it was. *)
Theorem v3da_bo_create_spec s P client size flags r s' :
  reachable (mk_sys s P) -> 1 <= client <= 60 -> 0 <= size -> room s 0 -> v3da_bo_create s client size flags = (r, s') ->
  match r with
  | Err e => e = (if 0x40000000 <? size then EINVAL else ENOMEM) /\
      (forall h, v3da_bo_find s' h = v3da_bo_find s h) /\ (forall j, pt_get (hwst s') j = pt_get (hwst s) j)
  | Ok c => created s client size c s'
  end.
Proof.
  intros Hreach Hcl Hsz Hroom E. pose proof (reachable_ok _ Hreach) as Hok. pose proof (create_keeps s P client size flags Hok Hcl Hsz Hroom) as Hok'.
  rewrite E in Hok'. cbn in Hok'. destruct Hok as [Hm Hpl [Hs _] _], Hok' as [Hm' _ [Hs' _] _]. cbn [sv pend] in *.
  pose proof (create_cases s client size flags r s' Hsz (proj2 (sl_len _ Hs)) E) as Hc. destruct r as [c|e].
  - destruct Hc as (Hle & cached & want & cpu & pa & pl & s2 & h & l & b & Eget & Eva & Hva & Hzl & Ehw & Ek & Eb & Hlt & Hst & Hcnt & Epg & <- & <- & Himp & ->).
    set (slot := free_slot (bos s)) in *. assert (Hpg : 0 < pages_of size <= 2 ^ 18) by (unfold pages_of; divlia).
    assert (Hbi : bos s' !! slot = Some b) by (rewrite Eb; by apply list_lookup_insert_eq).
    assert (Hbin : b ∈ bos s') by by eapply list_elem_of_lookup_2.
    assert (Hold : forall i b', i <> slot -> b_state b' = V3DA_BO_LIVE -> bos s !! i = Some b' <-> bos s' !! i = Some b').
    { intros i b' Hi Hl. rewrite Eb, list_lookup_insert_ne by done. by apply grown_lookup. }
    constructor; cbn [cr_handle cr_gpuva cr_size cr_scanout cr_mem].
    + destruct (v3da_bo_find s (b_handle b)) as [j|] eqn:Ef; [|done]. exfalso. destruct (bo_find_Some _ _ _ Ef) as (b' & Hj & Hl & Hh & _).
      destruct (decide (j = slot)) as [->|Hne]; [by eapply free_not_live|]. apply Hne. apply (Hold j b' Hne Hl) in Hj.
      apply (handle_inj s' j slot b' b Hs' Hj Hbi); congruence.
    + exists slot, b. rewrite Epg. destruct (block_get_ok (grown s slot) (map loose_of P) [] (pages_of size) cached want
        (Some (m_cpu (b_mem b), m_pa (b_mem b))) pl s2) as [_ (p & Hz & H0 & Hc2 & Hzero)];
        [by apply grown_ok|by rewrite (proj1 (proj2 (grown_frame s slot)))|lia|done|].
      split_and!; try done; [|by rewrite Ek| | |].
      * rewrite (find_live s' slot b Hs' Hbi Hst), Hcnt. done.
      * destruct (co_bo _ _ _ Hm' b Hbin) as (p' & Hp' & Hz' & H0' & _); [congruence|]. rewrite Himp in Hp'. exists p'. by rewrite Hz', Epg.
      * rewrite <- Epg. by apply (co_live _ _ _ Hm' b Hbin Hst).
      * intros j Hj. rewrite Ehw. change (pt_get (bump_pt_gen ?x)) with (pt_get x). rewrite pt_fill_get, bool_decide_eq_false_2 by (rewrite Hzl; by rewrite elem_of_range in Hj).
        rewrite (va_alloc_pt _ _ _ _ _ (Z.lt_le_incl _ _ (proj1 Hpg)) Eva Hj). destruct (block_get_frame _ _ _ _ _ _ _ Eget) as (-> & _). by rewrite (proj1 (grown_frame s slot)).
    + unfold pages_of. divlia.
    + intros h' Hh. apply find_same; [done..|]. intros i b' Hl Eh. destruct (decide (i = slot)) as [->|Hne]; [|by apply Hold].
      split; intros Hi; [by apply free_not_live in Hi|]. rewrite Hbi in Hi. injection Hi as <-. congruence.
  - destruct Hc as (He & Hb & Hh). split_and!.
    + destruct He as [[-> Hlt]|[-> Hle]]; [by rewrite (proj2 (Z.ltb_lt _ _) Hlt)|by rewrite (proj2 (Z.ltb_ge _ _) Hle)].
    + intros h. apply find_same; [done..|]. intros i b Hl _. destruct Hb as [->| ->]; [done|by apply app_no_bo_lookup].
    + intros j. destruct Hh as [->|(h & va & pages & Ea & Hpg & -> & ->)]; [done|].
      destruct (core_va_alloc s _ [] pages 0 h Hm Hpg Ea) as [(_ & ->)|[? _]]; done.
Qed.
End create.
(** ** The end of the quarantine *)

Section quarantine.
Context `{KL : KernelLaws}.
Implicit Types (s : bsrv).

(** A slot after the end of quarantines. *)
Definition polled s (b : bo) : bo := if quarantine_over s b then no_bo else b.

Lemma release_frame s b : hwst (release_block s b) = hwst s /\ base (release_block s b) = base s /\ bos (release_block s b) = bos s.
Proof.
  unfold release_block, block_put, pool_trim. destruct (m_imported (b_mem b)); [done|].
  destruct (m_low (b_mem b)); cbn zeta; (case_if; [|done]); destruct (k_now _) as [now k]; (case_if; [|done]); by case_if.
Qed.

Lemma poll_one_effect s i b : bos s !! i = Some b ->
  bos (poll_one s i) = <[i := polled s b]> (bos s) /\ base (poll_one s i) = base s /\
  hwst (poll_one s i) = if quarantine_over s b then v3da_hw_va_free (hwst s) (b_gpuva b) (b_pages b) else hwst s.
Proof.
  intros Hi. unfold poll_one, polled. rewrite (bo_at_eq s i b Hi). destruct (quarantine_over s b); [|by rewrite list_insert_id].
  destruct (release_frame s b) as (E1 & E2 & E3). cbn. unfold upd_bo. cbn. rewrite E1, E2, E3. by rewrite (alter_insert _ _ _ b Hi).
Qed.

Lemma va_free_frame h va n : pt (v3da_hw_va_free h va n) = pt h /\ tlb_gen (v3da_hw_va_free h va n) = tlb_gen h /\
  pt_gen (v3da_hw_va_free h va n) = pt_gen h.
Proof. unfold v3da_hw_va_free. by case_if. Qed.

Lemma va_free_holes h va n r : r ∈ (va, n) :: holes h \/ 2048 <= zlen (holes h) ->
  r ∈ holes (v3da_hw_va_free h va n) \/ 2048 <= zlen (holes (v3da_hw_va_free h va n)).
Proof.
  unfold v3da_hw_va_free. change V3DA_MAX_HOLES with 2048. case_if; bsimp; [|by right]. cbn. intros [H|H]; [left|lia].
  rewrite elem_of_app, list_elem_of_singleton. apply elem_of_cons in H as [->|H]; auto.
Qed.

(** What the pass over the slots [k], [k + 1], ... does. *)
Lemma poll_fold : forall n k s s0,
  (k + n = length (bos s))%nat -> base s = base s0 -> tlb_gen (hwst s) = tlb_gen (hwst s0) ->
  let s' := fold_left poll_one (seq k n) s in
  bos s' = take k (bos s) ++ map (polled s0) (drop k (bos s)) /\ base s' = base s0 /\ pt (hwst s') = pt (hwst s) /\
  tlb_gen (hwst s') = tlb_gen (hwst s0) /\ pt_gen (hwst s') = pt_gen (hwst s) /\
  (forall r, r ∈ holes (hwst s) \/ 2048 <= zlen (holes (hwst s)) -> r ∈ holes (hwst s') \/ 2048 <= zlen (holes (hwst s'))) /\
  (forall b, b ∈ drop k (bos s) -> quarantine_over s0 b = true ->
     (b_gpuva b, b_pages b) ∈ holes (hwst s') \/ 2048 <= zlen (holes (hwst s'))).
Proof.
  induction n as [|n IH]; intros k s s0 Hlen Hb Ht; cbn [seq fold_left].
  { rewrite drop_ge, take_ge, app_nil_r by lia. split_and!; try done. intros b H. by apply elem_of_nil in H. }
  destruct (lookup_lt_is_Some_2 (bos s) k) as [b Hk]; [lia|]. destruct (poll_one_effect s k b Hk) as (E1 & E2 & E3).
  assert (Eq : forall x, quarantine_over s x = quarantine_over s0 x) by (intros; unfold quarantine_over; by rewrite Hb, Ht).
  assert (Ep : polled s b = polled s0 b) by (unfold polled; by rewrite Eq).
  set (s1 := poll_one s k) in *. clearbody s1. rewrite Eq in E3.
  assert (F : pt (hwst s1) = pt (hwst s) /\ tlb_gen (hwst s1) = tlb_gen (hwst s) /\ pt_gen (hwst s1) = pt_gen (hwst s)).
  { rewrite E3. case_if; [apply va_free_frame|done]. }
  destruct F as (F1 & F2 & F3).
  destruct (IH (S k) s1 s0) as (I1 & I2 & I3 & I4 & I5 & I6 & I7); [rewrite E1, length_insert; lia|congruence|congruence|].
  assert (Hmono : forall r, r ∈ holes (hwst s) \/ 2048 <= zlen (holes (hwst s)) -> r ∈ holes (hwst s1) \/ 2048 <= zlen (holes (hwst s1))).
  { intros r Hr. rewrite E3. case_if; [|done]. apply va_free_holes. destruct Hr; [left; by right|by right]. }
  rewrite I1, I2, I3, I4, I5, F1, F3. split_and!; try done.
  - rewrite E1, Ep, (drop_S _ b k Hk). cbn [map]. rewrite drop_insert_lt by lia.
    rewrite <- (take_drop_middle (<[k := polled s0 b]> (bos s)) k (polled s0 b)) by (apply list_lookup_insert_eq; by eapply lookup_lt_Some).
    assert (El : length (take k (bos s)) = k) by (rewrite length_take; lia).
    rewrite take_insert_ge by lia. rewrite firstn_app, El, take_ge by lia.
    replace (S k - k)%nat with 1%nat by lia. cbn [take]. by rewrite <- app_assoc.
  - intros r Hr. by apply I6, Hmono.
  - intros x Hx Hq. rewrite (drop_S _ b k Hk) in Hx. apply elem_of_cons in Hx as [->|Hx].
    + apply I6. rewrite E3, Hq. apply va_free_holes. left. by left.
    + apply I7; [|done]. rewrite E1, drop_insert_lt by lia. done.
Qed.

Lemma v3da_bo_poll_facts s :
  let s' := v3da_bo_quarantine_poll s in
  bos s' = map (polled s) (bos s) /\ base s' = base s /\ pt (hwst s') = pt (hwst s) /\ tlb_gen (hwst s') = tlb_gen (hwst s) /\
  (forall b, b ∈ bos s -> quarantine_over s b = true ->
     (b_gpuva b, b_pages b) ∈ holes (hwst s') \/ V3DA_MAX_HOLES <= zlen (holes (hwst s'))).
Proof.
  destruct (poll_fold (length (bos s)) 0 s s) as (H1 & H2 & H3 & H4 & _ & _ & H7); [done..|]. split_and!; try done.
Qed.

(** one pass of the quarantine frees exactly the BOs whose unmap has been flushed
    from the TLB and which every queue has passed, and no other; their ranges of GPU
    addresses are holes again (unless the list of holes is full), and neither the page
    table nor the fences change. *)
Theorem v3da_bo_poll_spec s :
  let s' := v3da_bo_quarantine_poll s in
  bos s' = map (fun b => if quarantine_over s b then no_bo else b) (bos s) /\
  base s' = base s /\ pt (hwst s') = pt (hwst s) /\ tlb_gen (hwst s') = tlb_gen (hwst s) /\
  (forall b, b ∈ bos s -> quarantine_over s b = true ->
     (b_gpuva b, b_pages b) ∈ holes (hwst s') \/ V3DA_MAX_HOLES <= zlen (holes (hwst s'))).
Proof. exact (v3da_bo_poll_facts s). Qed.

(** What [quarantine_begin] leaves: the pages are unmapped, and with idle queues the TLB
    is flushed at once. *)
Lemma quarantine_hw s i b : bos s !! i = Some b -> zlen (bos s) <= 4096 -> 0 <= b_pages b ->
  let s' := quarantine_begin s i in
  exists b', bos s' = <[i := b']> (bos s) /\ b_mem b' = b_mem b /\ b_state b' = V3DA_BO_QUARANTINE /\
  base s' = base s /\
  (forall j, j ∈ range (b_gpuva b, b_pages b) -> pt_get (hwst s') j = 0) /\
  pass b' = map (fun q => arr_get (hw_submitted s) q) (seqZ 0 V3DA_Q_COUNT) /\
  (hw_queue_busy s = false -> tlb_gen (hwst s') = clear_pt_gen b').
Proof.
  intros Hi Hl Hpg. unfold quarantine_begin. pose proof (withdraw_bos s i b Hi) as Hw. set (s1 := export_withdraw s i) in *.
  assert (F : base s1 = base s /\ hw_submitted s1 = hw_submitted s /\ hwst s1 = hwst s) by (unfold s1, export_withdraw; by case_if).
  destruct F as (F1 & F2 & F3). set (b1 := set_cnt b (with_exported (b_cnt b) false)) in *.
  assert (Hb1 : bos s1 !! i = Some b1) by (rewrite Hw; apply list_lookup_insert_eq; by eapply lookup_lt_Some).
  rewrite (bo_at_eq s1 i b1 Hb1). clearbody s1. cbn zeta. set (h := bump_pt_gen _). set (s2 := unclaim (set_hw s1 h) b1).
  assert (G : base s2 = base s /\ hw_submitted s2 = hw_submitted s /\ hwst s2 = h /\ bos s2 = bos s1) by (unfold s2, unclaim; by case_if).
  destruct G as (G1 & G2 & G3 & G4). clearbody s2. rewrite G2, G3. set (p := map _ _). set (s3 := if hw_queue_busy s2 then _ else _).
  assert (Hbusy : hw_queue_busy s2 = hw_queue_busy s) by (unfold hw_queue_busy; by rewrite G1).
  assert (Kx : base s3 = base s /\ bos s3 = bos s1 /\ pt (hwst s3) = pt h /\ (hw_queue_busy s = false -> tlb_gen (hwst s3) = pt_gen h)).
  { unfold s3. rewrite Hbusy. destruct (hw_queue_busy s); cbn; rewrite ?G3; split_and!; try done; congruence. }
  clearbody s3. destruct Kx as (K1 & K2 & K3 & K4). exists (set_quarantine b1 (pt_gen h) p). split_and!; try done.
  - cbn. unfold upd_bo. rewrite K2, (alter_insert _ _ _ b1 Hb1), Hw. apply list_insert_insert_eq.
  - intros j Hj. unfold pt_get. cbn. rewrite K3. change (pt_get h j = 0). unfold h. change (pt_get (bump_pt_gen ?x) j) with (pt_get x j).
    change (b_gpuva b1) with (b_gpuva b). change (b_pages b1) with (b_pages b). apply elem_of_range in Hj.
    assert (Hz : zlen (replicate (Z.to_nat (b_pages b)) 0) = b_pages b) by (unfold zlen; rewrite length_replicate; lia).
    rewrite pt_fill_get, shr12, Hz, bool_decide_eq_true_2 by done. apply lookup_total_replicate_2. lia.
Qed.

(** Dropping one reference. *)
Lemma unref_effect s i b : bos s !! i = Some b -> zlen (bos s) <= 4096 -> 0 <= b_pages b -> b_state b = V3DA_BO_LIVE -> 0 < refs (b_cnt b) ->
  let s' := bo_unref s i in
  exists b', bos s' = <[i := b']> (bos s) /\ b_mem b' = b_mem b /\ base s' = base s /\
  (1 < refs (b_cnt b) -> b_state b' = V3DA_BO_LIVE /\ refs (b_cnt b') = refs (b_cnt b) - 1) /\
  (refs (b_cnt b) = 1 -> inflight (b_cnt b) <> 0 -> refs (b_cnt b') = 0) /\
  (refs (b_cnt b) = 1 -> inflight (b_cnt b) = 0 ->
     b_state b' = V3DA_BO_QUARANTINE /\ (forall j, j ∈ range (b_gpuva b, b_pages b) -> pt_get (hwst s') j = 0) /\
     pass b' = map (fun q => arr_get (hw_submitted s) q) (seqZ 0 V3DA_Q_COUNT) /\
     (hw_queue_busy s = false -> tlb_gen (hwst s') = clear_pt_gen b')).
Proof.
  intros Hi Hl Hpg Hs Hr. unfold bo_unref. rewrite (bo_at_eq s i b Hi), (proj2 (Z.ltb_lt _ _) Hr).
  set (s1 := upd_cnt s i _). set (b1 := set_cnt b (with_refs (b_cnt b) (refs (b_cnt b) - 1))).
  assert (Hb1 : bos s1 = <[i := b1]> (bos s)) by (unfold s1, upd_cnt, upd_bo; cbn; by rewrite (alter_insert _ _ _ b Hi)).
  assert (Hlt : (i < length (bos s))%nat) by by eapply lookup_lt_Some.
  assert (Hi1 : bos s1 !! i = Some b1) by (rewrite Hb1; by apply list_lookup_insert_eq).
  assert (F : base s1 = base s /\ hw_submitted s1 = hw_submitted s) by done. destruct F as [F1 F2]. clearbody s1.
  rewrite (bo_at_eq s1 i b1 Hi1). cbn zeta. destruct (refs (b_cnt b1) =? 0) eqn:E; bsimp; cbn in E.
  2: { exists b1. split_and!; try done; lia. }
  pose proof (withdraw_bos s1 i b1 Hi1) as Hw. set (s2 := export_withdraw s1 i) in *. set (b2 := set_cnt b1 (with_exported (b_cnt b1) false)) in *.
  assert (Hi2 : bos s2 !! i = Some b2) by (rewrite Hw; apply list_lookup_insert_eq; by rewrite Hb1, length_insert).
  assert (G : base s2 = base s /\ hw_submitted s2 = hw_submitted s) by (unfold s2, export_withdraw; by case_if). destruct G as [G1 G2]. clearbody s2.
  assert (Hb2 : bos s2 = <[i := b2]> (bos s)) by by rewrite Hw, Hb1, list_insert_insert_eq.
  rewrite (bo_at_eq s2 i b2 Hi2). destruct (inflight (b_cnt b2) =? 0) eqn:Ef; bsimp; cbn in Ef.
  - destruct (quarantine_hw s2 i b2 Hi2) as (b' & Q1 & Q2 & Q3 & Q4 & Q5 & Q6 & Q7); [unfold zlen in *; by rewrite Hb2, length_insert|done|].
    exists b'. unfold hw_queue_busy in Q7. rewrite G1 in Q7. rewrite Q1, Hb2, list_insert_insert_eq, Q2, Q4, G1, Q6, G2. split_and!; try done; lia.
  - exists b2. split_and!; try done; try lia; cbn; lia.
Qed.

(** The reference [v3da_bo_close] drops. *)
Definition drop_ref s (i : nat) (client : Z) : bsrv :=
  if has (sharers (b_cnt (bo_at s i))) (client_bit client)
  then upd_cnt s i (fun c => with_sharers c (sharers c &&& lnot_w 64 (client_bit client)))
  else upd_cnt s i (fun c => with_owner c 0).

Lemma drop_ref_effect s i client b : bos s !! i = Some b ->
  exists b1, bos (drop_ref s i client) = <[i := b1]> (bos s) /\ b_mem b1 = b_mem b /\ b_state b1 = b_state b /\
  refs (b_cnt b1) = refs (b_cnt b) /\ inflight (b_cnt b1) = inflight (b_cnt b) /\ base (drop_ref s i client) = base s /\
  hw_submitted (drop_ref s i client) = hw_submitted s.
Proof.
  intros Hi. unfold drop_ref, upd_cnt, upd_bo. case_if; cbn; rewrite (alter_insert _ _ _ b Hi); by eexists.
Qed.

Lemma close_eq s client handle i b : v3da_bo_find s handle = Some i -> bos s !! i = Some b ->
  has (sharers (b_cnt b)) (client_bit client) || negb (owner (b_cnt b) =? 0) = true ->
  v3da_bo_close s client handle = v3da_bo_quarantine_poll (bo_unref (drop_ref s i client) i).
Proof.
  intros Hf Hi Hh. unfold v3da_bo_close, drop_ref. rewrite Hf, (bo_at_eq s i b Hi). case_if; [done|]. cbn in Hh. by rewrite Hh.
Qed.

Lemma polled_live s (b : bo) : b_state b = V3DA_BO_LIVE -> polled s b = b.
Proof. intros H. unfold polled, quarantine_over. by rewrite H. Qed.

Lemma polled_was_live s (b : bo) : b_state (polled s b) = V3DA_BO_LIVE -> polled s b = b.
Proof. unfold polled. by case_if. Qed.

Lemma poll_lookup s i b : b_state b = V3DA_BO_LIVE -> bos (v3da_bo_quarantine_poll s) !! i = Some b <-> bos s !! i = Some b.
Proof.
  intros Hs. rewrite (proj1 (v3da_bo_poll_facts s)), list_lookup_fmap. split.
  - destruct (bos s !! i) as [x|]; cbn; [|done]. intros [= Hx]. by rewrite <- Hx, polled_was_live by by rewrite Hx.
  - intros ->. cbn. by rewrite polled_live.
Qed.

(** closing a handle that a client of the BO holds (an importer its import, any
    client the creator's handle) drops exactly that reference: the handle still finds
    the BO if another holder is left and finds nothing otherwise, and no other handle is
    affected. When it was the last reference and no job pins the BO, its pages are
    unmapped at once, and if moreover no hardware queue runs a job and each has completed
    what was submitted, its slot is free when the request is answered. *)
Theorem v3da_bo_close_spec s P client handle i b :
  reachable (mk_sys s P) -> room s 0 -> v3da_bo_find s handle = Some i -> bos s !! i = Some b ->
  has (sharers (b_cnt b)) (client_bit client) || negb (owner (b_cnt b) =? 0) = true ->
  let s' := v3da_bo_close s client handle in
  v3da_bo_find s' handle = (if 1 <? holders (b_cnt b) then Some i else None) /\
  (forall h, h <> handle -> v3da_bo_find s' h = v3da_bo_find s h) /\
  (holders (b_cnt b) = 1 -> inflight (b_cnt b) = 0 ->
     (forall j, j ∈ range (b_gpuva b, b_pages b) -> pt_get (hwst s') j = 0) /\
     (hw_queue_busy s = false -> (forall q, 0 <= q < 6 -> arr_get (hw_submitted s) q <= arr_get (hw_completed (base s)) q) ->
        bos s' !! i = Some no_bo)).
Proof.
  intros Hreach Hroom Hf Hi Hh. pose proof (reachable_ok _ Hreach) as Hok.
  pose proof (step_ok _ _ Hok (st_close s P client handle Hroom)) as [_ _ [Hs' _] _]. destruct Hok as [_ _ Ht _]. cbn [sv] in *.
  destruct (bo_find_Some s handle i Hf) as (b0 & Hi0 & Hs & Hhd & Hr). rewrite Hi in Hi0. injection Hi0 as <-.
  destruct (live_counts s i b Ht Hi Hs) as [Hrh _]. destruct Ht as [Hsl _]. rewrite <- Hrh. clear Hrh. cbn zeta.
  rewrite (close_eq s client handle i b Hf Hi Hh) in *. destruct (drop_ref_effect s i client b Hi) as (b1 & D1 & D2 & D3 & D4 & D5 & D6 & D7).
  pose proof (sl_pages _ Hsl b ltac:(by eapply list_elem_of_lookup_2) ltac:(congruence)) as [Hpg _].
  destruct (unref_effect (drop_ref s i client) i b1) as (b' & U1 & U2 & U3 & U4 & U5 & U6);
    [rewrite D1; apply list_lookup_insert_eq; by eapply lookup_lt_Some|rewrite D1; unfold zlen; rewrite length_insert; apply (sl_len _ Hsl)
    |unfold b_pages; rewrite D2; unfold b_pages in Hpg; lia|congruence|lia|].
  set (s2 := bo_unref (drop_ref s i client) i) in *. rewrite D1, list_insert_insert_eq in U1. rewrite D4 in U4, U5, U6. rewrite D5 in U5, U6.
  assert (Hi2 : bos s2 !! i = Some b') by (rewrite U1; apply list_lookup_insert_eq; by eapply lookup_lt_Some).
  assert (Hhb : b_handle b' = handle) by (unfold b_handle; by rewrite U2, D2).
  assert (Hoth : forall j x, j <> i -> b_state x = V3DA_BO_LIVE -> bos (v3da_bo_quarantine_poll s2) !! j = Some x <-> bos s !! j = Some x).
  { intros j x Hj Hx. by rewrite poll_lookup, U1, list_lookup_insert_ne. }
  split_and!.
  - case_if; bsimp.
    + destruct (U4 ltac:(lia)) as [S1 S2]. rewrite <- Hhb, (find_live _ i b' Hs'); [|by apply poll_lookup|done].
      by rewrite (proj2 (Z.ltb_lt 0 _)) by lia.
    + destruct (v3da_bo_find (v3da_bo_quarantine_poll s2) handle) as [j|] eqn:Ef; [|done]. exfalso.
      destruct (bo_find_Some _ _ _ Ef) as (x & Hj & Hx & Hxh & Hxr). destruct (decide (j = i)) as [->|Hne].
      * rewrite poll_lookup, Hi2 in Hj by done. injection Hj as <-.
        destruct (decide (inflight (b_cnt b) = 0)) as [E|E]; [destruct (U6 ltac:(lia) E) as [? _]; congruence|].
        rewrite (U5 ltac:(lia) E) in Hxr. lia.
      * apply (Hoth j x Hne Hx) in Hj. apply Hne, (handle_inj s j i x b Hsl Hj Hi); congruence.
  - intros h Hne. apply find_same; [done..|]. intros j x Hx Hxh. destruct (decide (j = i)) as [->|Hj]; [|by rewrite Hoth].
    rewrite Hi, poll_lookup, Hi2 by done. split; intros [= <-]; congruence.
  - intros Hone Hfl. destruct (U6 ltac:(lia) Hfl) as (S1 & S2 & S3 & S4). destruct (v3da_bo_poll_facts s2) as (Hb & _ & Hpt & _).
    unfold b_gpuva, b_pages in S2. rewrite D2 in S2. split.
    + intros j Hj. unfold pt_get. rewrite Hpt. by apply S2.
    + intros Hbusy Hq. rewrite Hb, list_lookup_fmap, Hi2. cbn. unfold polled. f_equal.
      unfold hw_queue_busy in S4, Hbusy. rewrite D6 in S4.
      assert (Hov : quarantine_over s2 b' = true); [|by rewrite Hov]. apply andb_true_iff. split.
      * rewrite S1, (S4 Hbusy), Z.leb_refl. done.
      * apply forallb_forall. intros q Hin. apply list_elem_of_In, elem_of_seqZ in Hin. rewrite U3, D6, S3, D7. apply Z.leb_le.
        change V3DA_Q_COUNT with 6 in *. unfold arr_get at 1. rewrite map_seqZ_lookup by lia. apply Hq. lia.
Qed.
End quarantine.
(** ** Fences of a BO *)

(** The set has a fence of the same client, queue and generation, at least as late. *)
Definition covers (dep : list fence) (f : fence) : Prop := exists g, g ∈ dep /\ same_point g f = true /\ f_seqno f <= f_seqno g.

Lemma same_point_iff a b : same_point a b = true <-> f_slot a = f_slot b /\ f_queue a = f_queue b /\ f_gen a = f_gen b.
Proof. unfold same_point. rewrite !andb_true_iff, !Z.eqb_eq. tauto. Qed.

(** Waiting for a fence that covers another one waits for both. *)
Lemma covers_signaled (t : srv) dep f :
  covers dep f -> (forall g, g ∈ dep -> (v3da_fence_signaled t g).1 = true) -> (v3da_fence_signaled t f).1 = true.
Proof.
  intros (g & Hg & Hp & Hle) H. specialize (H g Hg). apply same_point_iff in Hp as (E1 & E2 & E3). revert H.
  unfold v3da_fence_signaled, slot_gen_ok. rewrite E1, E2, E3. destruct (_ || _); [done|]. destruct (negb _); [done|]. cbn zeta.
  destruct (_ <? f_seqno g) eqn:Eg; [done|]. intros _. bsimp. rewrite (proj2 (Z.ltb_ge _ (f_seqno f))) by lia. by case_if.
Qed.

(** Adding a fence to a set: whether it was dropped, and the set. *)
Record added (dep : list fence) (f : fence) (dep' : list fence) (dropped : bool) : Prop := {
  ad_new : dropped = false -> covers dep' f;
  ad_old : forall g, covers dep g -> covers dep' g;
  ad_only : forall g, g ∈ dep' -> g ∈ dep \/ g = f
}.

Lemma set_merge_spec dep f : forall dep', set_merge dep f = Some dep' -> added dep f dep' false /\ zlen dep' = zlen dep.
Proof.
  induction dep as [|d dep IH]; intros dep'; cbn [set_merge]; [done|]. destruct (same_point d f) eqn:Ep.
  - intros [= <-]. pose proof (proj1 (same_point_iff _ _) Ep) as (E1 & E2 & E3). split; [|unfold zlen; cbn; lia]. case_if; bsimp.
    + assert (Ef : mk_fence (f_slot d) (f_queue d) (f_gen d) (f_seqno f) = f) by (destruct f; cbn in *; congruence). rewrite Ef. constructor.
      * intros _. exists f. split_and!; [by left|by apply same_point_iff|done].
      * intros g (x & Hx & Hp & Hle). apply elem_of_cons in Hx as [->|Hx]; [|exists x; split_and!; [by right|done|done]].
        exists f. apply same_point_iff in Hp as (? & ? & ?). split_and!; [by left|apply same_point_iff; split_and!; congruence|lia].
      * intros g [->|Hg]%elem_of_cons; [by right|left; by right].
    + constructor; [|done|by left]. intros _. exists d. split_and!; [by left|done|lia].
  - destruct (set_merge dep f) as [l|] eqn:E; [|done]. cbn. intros [= <-]. destruct (IH l eq_refl) as [[H1 H2 H3] Hl].
    split; [|unfold zlen in *; cbn; lia]. constructor.
    + intros _. destruct (H1 eq_refl) as (x & Hx & ?). exists x. split; [by right|done].
    + intros g (x & Hx & Hp). apply elem_of_cons in Hx as [->|Hx]; [exists d; split; [by left|done]|].
      destruct (H2 g) as (y & Hy & ?); [by exists x|]. exists y. split; [by right|done].
    + intros g [->|Hg]%elem_of_cons; [left; by left|]. destruct (H3 g Hg); [left; by right|by right].
Qed.

Lemma set_add_spec dep max f d dep' : v3da_fence_set_add dep max f = (d, dep') ->
  added dep f dep' (d =? 1) /\ (d = 0 \/ d = 1) /\ zlen dep' <= Z.max max (zlen dep).
Proof.
  unfold v3da_fence_set_add. destruct (set_merge dep f) as [l|] eqn:E.
  - intros [= <- <-]. destruct (set_merge_spec dep f l E) as [H Hl]. split_and!; [done|by left|lia].
  - case_if; bsimp; intros [= <- <-]; split_and!; try (by left); try (by right); try lia.
    + constructor; [done|done|by left].
    + constructor.
      * intros _. exists f. split_and!; [apply elem_of_app; right; by left|by apply same_point_iff|done].
      * intros g (x & Hx & Hp). exists x. split; [apply elem_of_app; by left|done].
      * intros g Hg. apply elem_of_app in Hg as [?|Hg]; [by left|]. apply list_elem_of_singleton in Hg as ->. by right.
    + unfold zlen in *. rewrite length_app. cbn. lia.
Qed.

(** Adding the fences of a list. *)
Lemma dep_add_fold max l : forall d dep d' dep', 0 <= d -> d + zlen l < 2 ^ 32 ->
  fold_left (dep_add max) l (d, dep) = (d', dep') ->
  d <= d' <= d + zlen l /\ zlen dep' <= Z.max max (zlen dep) /\ (forall g, covers dep g -> covers dep' g) /\
  (forall g, g ∈ dep' -> g ∈ dep \/ g ∈ l) /\ (d' = d -> forall f, f ∈ l -> covers dep' f).
Proof.
  induction l as [|f l IH]; intros d dep d' dep' Hd Hb; cbn [fold_left].
  { intros [= <- <-]. unfold zlen in *. cbn in *. split_and!; try lia; [done|by left|]. intros _ f H. by apply elem_of_nil in H. }
  assert (Hz : zlen (f :: l) = 1 + zlen l) by (unfold zlen; cbn; lia). rewrite Hz in *. cbn [dep_add].
  destruct (v3da_fence_set_add dep max f) as [x dep1] eqn:E. destruct (set_add_spec _ _ _ _ _ E) as ([A1 A2 A3] & Hx & Hl1).
  assert (0 <= zlen l) by (unfold zlen; lia). rewrite u32_small by lia. intros Hf.
  destruct (IH (d + x) dep1 d' dep' ltac:(lia) ltac:(lia) Hf) as (I1 & I2 & I3 & I4 & I5). split_and!; try lia.
  - auto.
  - intros g Hg. destruct (I4 g Hg) as [Hg1|?]; [destruct (A3 g Hg1) as [?| ->]; [by left|right; by left]|right; by right].
  - intros -> g Hg. assert (x = 0) as -> by lia. apply elem_of_cons in Hg as [->|Hg]; [apply I3, A1; done|apply I5; [lia|done]].
Qed.

Section fences.
Context `{K : Kernel}.
Implicit Types (s : bsrv).

(** The unfinished last uses, by other clients, of the BOs of a job. *)
Definition foreign_uses s (slot : Z) (handles : list Z) : list fence :=
  concat (map (fun h => match bo_lookup s h with None => [] | Some i => List.filter (waits_for s slot) (map fst (b_last (bo_at s i))) end) handles).

Lemma fold_left_filter {A B} (p : B -> bool) (f : A -> B -> A) l : forall a,
  fold_left (fun a x => if p x then f a x else a) l a = fold_left f (List.filter p l) a.
Proof. induction l as [|x l IH]; intros a; cbn; [done|]. rewrite IH. by destruct (p x). Qed.

Lemma implicit_deps_fold s slot handles dep max :
  v3da_bo_implicit_deps s slot handles dep max = fold_left (dep_add max) (foreign_uses s slot handles) (0, dep).
Proof.
  unfold v3da_bo_implicit_deps, foreign_uses. generalize (0, dep). induction handles as [|h l IH]; intros acc; cbn [fold_left map concat]; [done|].
  rewrite fold_left_app, IH. f_equal. unfold deps_of_bo. destruct (bo_lookup s h); [|done]. apply (fold_left_filter (waits_for s slot)).
Qed.

(** the dependencies a submission gathers from its BOs stay within the room for
    them, contain only what was there and unfinished last uses by other clients of the
    BOs it names, and keep waiting for everything they waited for; when none is reported
    dropped, a job that waits until they are all signalled waits until every unfinished
    use of its BOs by another client is signalled. *)
Theorem v3da_bo_implicit_deps_spec s slot handles dep max d dep' :
  6 * zlen handles < 2 ^ 32 -> (forall b, b ∈ bos s -> length (b_last b) = 6%nat) ->
  v3da_bo_implicit_deps s slot handles dep max = (d, dep') ->
  zlen dep' <= Z.max max (zlen dep) /\ 0 <= d <= zlen (foreign_uses s slot handles) /\
  (forall g, g ∈ dep' -> g ∈ dep \/ g ∈ foreign_uses s slot handles) /\
  (forall t : srv, (forall g, g ∈ dep' -> (v3da_fence_signaled t g).1 = true) ->
     (forall f, f ∈ dep -> (v3da_fence_signaled t f).1 = true) /\
     (d = 0 -> forall f, f ∈ foreign_uses s slot handles -> (v3da_fence_signaled t f).1 = true)).
Proof.
  intros Hn Hlen. rewrite implicit_deps_fold. intros Hf.
  assert (Hu : zlen (foreign_uses s slot handles) <= 6 * zlen handles).
  { clear -Hlen. unfold foreign_uses. induction handles as [|h l IH]; [done|]. cbn [map concat]. unfold zlen in *. rewrite length_app. cbn [length].
    destruct (bo_lookup s h) as [i|] eqn:E; [|cbn; lia]. destruct (bo_lookup_Some s h i E) as (b & Hb & _).
    assert (Hfl : forall l0 : list fence, (length (List.filter (waits_for s slot) l0) <= length l0)%nat).
    { induction l0 as [|x l0 IH0]; cbn; [done|]. destruct (waits_for s slot x); cbn; lia. }
    specialize (Hfl (map fst (b_last (bo_at s i)))). rewrite length_map in Hfl. rewrite (bo_at_eq s i b Hb), Hlen in Hfl by by eapply list_elem_of_lookup_2.
    rewrite (bo_at_eq s i b Hb). lia. }
  destruct (dep_add_fold max (foreign_uses s slot handles) 0 dep d dep' ltac:(lia) ltac:(lia) Hf) as (H1 & H2 & H3 & H4 & H5).
  split_and!; try lia; [done|]. intros t Ht. split; intros; eapply covers_signaled; try exact Ht.
  - apply H3. exists f. split_and!; [done|by apply same_point_iff|done].
  - by apply H5.
Qed.
End fences.
(** ** The newest fences *)

Lemma newest_spec l : forall k best g, (best < k)%nat ->
  (newest l k best g = best /\ forall x, x ∈ l -> x.2 <= g) \/
  exists c, (k <= newest l k best g)%nat /\ l !! (newest l k best g - k)%nat = Some c /\ g < c.2 /\ forall x, x ∈ l -> x.2 <= c.2.
Proof.
  induction l as [|y l IH]; intros k best g Hk; cbn [newest]; [left; split; [done|]; intros x H; by apply elem_of_nil in H|].
  destruct (g <? y.2) eqn:E; bsimp.
  - right. destruct (IH (S k) k y.2 ltac:(lia)) as [[-> H]|(c & Hle & Hc & Hlt & H)].
    + exists y. rewrite Nat.sub_diag. split_and!; [done|done|done|]. intros x [->|Hx]%elem_of_cons; [done|by apply H].
    + exists c. split_and!; [lia| |lia|intros x [->|Hx]%elem_of_cons; [lia|by apply H]].
      destruct (newest l (S k) k y.2 - k)%nat as [|m] eqn:Em; [lia|]. cbn. by replace m with (newest l (S k) k y.2 - S k)%nat by lia.
  - destruct (IH (S k) best g ltac:(lia)) as [[-> H]|(c & Hle & Hc & Hlt & H)].
    + left. split; [done|]. intros x [->|Hx]%elem_of_cons; [done|by apply H].
    + right. exists c. split_and!; [lia| |lia|intros x [->|Hx]%elem_of_cons; [lia|by apply H]].
      destruct (newest l (S k) best g - k)%nat as [|m] eqn:Em; [lia|]. cbn. by replace m with (newest l (S k) best g - S k)%nat by lia.
Qed.

Lemma bring_newest_spec l : bring_newest l ≡ₚ l /\
  match bring_newest l with [] => True | c :: l' => forall x, x ∈ l' -> x.2 <= c.2 end.
Proof.
  destruct l as [|c l]; [done|]. cbn [bring_newest]. destruct (newest_spec l 1 0 c.2 ltac:(lia)) as [[-> H]|(d & Hle & Hd & Hlt & H)]; [done|].
  destruct (newest l 1 0 c.2) as [|k] eqn:Ek; [lia|]. cbn in Hd. rewrite Nat.sub_0_r in Hd. rewrite (list_lookup_total_correct _ _ _ Hd).
  assert (Hp : d :: <[k := c]> l ≡ₚ c :: l).
  { rewrite insert_take_drop by by eapply lookup_lt_Some. rewrite <- (take_drop_middle l k d Hd) at 3. solve_Permutation. }
  split; [done|]. intros x Hx. apply list_elem_of_lookup in Hx as [j Hj]. apply list_lookup_insert_Some in Hj as [(_ & <- & _)|(_ & Hj)]; [lia|].
  by apply H; eapply list_elem_of_lookup_2.
Qed.

(** The picked fences are the newest ones, newest first. *)
Lemma pick_newest_spec n : forall l, exists p rest,
  l ≡ₚ p ++ rest /\ pick_newest n l = map fst p /\ StronglySorted (fun a b => b.2 <= a.2) p /\
  (forall a b, a ∈ p -> b ∈ rest -> b.2 <= a.2) /\ length p = Nat.min n (length l).
Proof.
  induction n as [|n IH]; intros l; cbn [pick_newest].
  { exists [], l. split_and!; try done; [constructor|]. intros a b H. by apply elem_of_nil in H. }
  destruct (bring_newest_spec l) as [Hp Hm]. destruct (bring_newest l) as [|c l'].
  { apply Permutation_nil_l in Hp as <-. exists [], []. split_and!; try done; [constructor|]. intros a b H. by apply elem_of_nil in H. }
  destruct (IH l') as (p & rest & Hp' & -> & Hs & Hr & Hl). assert (Hin : forall x, x ∈ p ++ rest -> x.2 <= c.2) by (intros x; rewrite <- Hp'; apply Hm).
  exists (c :: p), rest. split_and!.
  - rewrite <- Hp. cbn. by rewrite Hp'.
  - done.
  - constructor; [done|]. apply List.Forall_forall. intros x Hx. apply Hin, elem_of_app. left. by apply list_elem_of_In.
  - intros a b [->|Ha]%elem_of_cons Hb; [apply Hin, elem_of_app; by right|by apply Hr].
  - rewrite <- Hp. cbn. lia.
Qed.

Section last_fence.
Context `{K : Kernel}.
Implicit Types (s : bsrv).

Lemma cand_merge_fst f : forall cand,
  match cand_merge cand f with
  | None => set_merge (map fst cand) f.1 = None
  | Some c' => set_merge (map fst cand) f.1 = Some (map fst c') /\ (forall x, x ∈ c' -> x ∈ cand \/ x = f)
  end.
Proof.
  induction cand as [|c cand IH]; cbn [cand_merge map set_merge]; [done|]. destruct (same_point c.1 f.1) eqn:Ep.
  - pose proof (proj1 (same_point_iff _ _) Ep) as (E1 & E2 & E3). split.
    + case_if; [|done]. cbn. do 2 f_equal. destruct f as [[] ?]; cbn in *; congruence.
    + intros x [->|Hx]%elem_of_cons; [case_if; [by right|left; by left]|left; by right].
  - destruct (cand_merge cand f) as [l|]; cbn; [|by rewrite IH]. destruct IH as [-> H]. split; [done|].
    intros x [->|Hx]%elem_of_cons; [left; by left|]. destruct (H x Hx); [left; by right|by right].
Qed.

(** An unfinished use. *)
Definition unfinished s (f : fence * Z) : bool := negb (f_seqno f.1 =? 0) && negb (v3da_fence_signaled (base s) f.1).1.

(** The unfinished last uses of the BOs [targets]. *)
Definition last_uses s (targets : list nat) : list (fence * Z) := List.filter (unfinished s) (concat (map (fun i => b_last (bo_at s i)) targets)).

Lemma cand_add_spec s cand more f cand' more' : cand_add s (cand, more) f = (cand', more') ->
  (more = true -> more' = true) /\ (forall g, covers (map fst cand) g -> covers (map fst cand') g) /\
  (forall x, x ∈ cand' -> x ∈ cand \/ (x = f /\ unfinished s f = true)) /\
  (more' = false -> unfinished s f = true -> covers (map fst cand') f.1) /\ (zlen cand <= NCAND -> zlen cand' <= NCAND).
Proof.
  unfold cand_add, unfinished. destruct (f_seqno f.1 =? 0) eqn:E0; [intros [= <- <-]; split_and!; try done; by left|].
  destruct (v3da_fence_signaled (base s) f.1).1 eqn:Es; [intros [= <- <-]; split_and!; try done; by left|]. cbn [orb negb andb].
  pose proof (cand_merge_fst f cand) as Hm. destruct (cand_merge cand f) as [l|] eqn:Ec.
  - intros [= <- <-]. destruct Hm as [Hm Hs]. destruct (set_merge_spec _ _ _ Hm) as [[A1 A2 A3] Hl]. unfold zlen in *. rewrite !length_map in Hl.
    split_and!; try done; [|auto|lia]. intros x Hx. destruct (Hs x Hx); auto.
  - case_if; bsimp; intros [= <- <-]; split_and!; try done; [..|by left].
    + intros g (x & Hx & ?). exists x. rewrite map_app. split; [apply elem_of_app; by left|done].
    + intros x Hx. apply elem_of_app in Hx as [?|Hx]; [by left|]. apply list_elem_of_singleton in Hx as ->. by right.
    + intros _ _. exists f.1. rewrite map_app. split_and!; [apply elem_of_app; right; by left|by apply same_point_iff|done].
    + unfold zlen in *. rewrite length_app. cbn. lia.
Qed.

Lemma cand_fold s l : forall cand more cand' more', fold_left (cand_add s) l (cand, more) = (cand', more') ->
  (more = true -> more' = true) /\ (forall g, covers (map fst cand) g -> covers (map fst cand') g) /\
  (forall x, x ∈ cand' -> x ∈ cand \/ x ∈ List.filter (unfinished s) l) /\
  (more' = false -> forall f, f ∈ List.filter (unfinished s) l -> covers (map fst cand') f.1) /\ (zlen cand <= NCAND -> zlen cand' <= NCAND).
Proof.
  induction l as [|f l IH]; intros cand more cand' more'; cbn [fold_left].
  { intros [= <- <-]. split_and!; try done; [by left|]. intros _ f H. by apply elem_of_nil in H. }
  destruct (cand_add s (cand, more) f) as [c1 m1] eqn:E. destruct (cand_add_spec _ _ _ _ _ _ E) as (A1 & A2 & A3 & A4 & A5).
  intros Hf. destruct (IH _ _ _ _ Hf) as (I1 & I2 & I3 & I4 & I5). cbn [List.filter]. split_and!; [auto|auto|..|auto].
  - intros x Hx. destruct (I3 x Hx) as [Hc|Hl]; [destruct (A3 x Hc) as [?|[-> ->]]; [by left|right; by left]|].
    right. case_if; [by right|done].
  - intros Hm g Hg. assert (m1 = false) by (destruct m1; [rewrite I1 in Hm by done; done|done]).
    destruct (unfinished s f) eqn:Eu; [|by apply I4]. apply elem_of_cons in Hg as [->|Hg]; [by apply I2, A4|by apply I4].
Qed.

(** [BO_LAST_FENCE] answers at most three unfinished last uses of the BO it names,
    newest submission first, none of them older than one it leaves out; when it does not
    say that there are more, a client that waits for the answered fences waits for every
    unfinished last use. *)
Theorem v3da_bo_last_fence_spec s client rq t fs flags :
  v3da_bo_sync_targets s client rq V3DA_MAX_CLIENTS = Ok t -> v3da_bo_last_fence s client rq = Ok (fs, flags) ->
  exists picked rest,
    fs = map fst picked /\ zlen fs <= 3 /\ StronglySorted (fun a b => b.2 <= a.2) picked /\
    (forall a b, a ∈ picked -> b ∈ rest -> b.2 <= a.2) /\ (forall a, a ∈ picked ++ rest -> a ∈ last_uses s t) /\
    (flags = 0 <-> rest = [] /\ (candidates s t).2 = false) /\
    (flags = 0 -> forall u : srv, (forall g, g ∈ fs -> (v3da_fence_signaled u g).1 = true) ->
       forall f, f ∈ last_uses s t -> (v3da_fence_signaled u f.1).1 = true).
Proof.
  intros Ht. unfold v3da_bo_last_fence. rewrite Ht. destruct (candidates s t) as [cand more] eqn:Ec. intros Heq.
  assert (Efs : fs = pick_newest (Z.to_nat V3DA_BO_FENCES_MAX) cand) by congruence.
  assert (Efl : flags = if more || (V3DA_BO_FENCES_MAX <? zlen cand) then V3DA_BO_FENCES_MORE else 0) by congruence. subst fs flags. clear Heq.
  destruct (cand_fold s _ _ _ _ _ Ec) as (_ & _ & C3 & C4 & C5).
  destruct (pick_newest_spec (Z.to_nat V3DA_BO_FENCES_MAX) cand) as (p & rest & Hp & Epk & Hs & Hr & Hl). rewrite Epk. clear Epk.
  change (Z.to_nat V3DA_BO_FENCES_MAX) with 3%nat in Hl. pose proof (Permutation_length Hp) as Hlen. rewrite length_app in Hlen.
  assert (Hfl : (if more || (V3DA_BO_FENCES_MAX <? zlen cand) then V3DA_BO_FENCES_MORE else 0) = 0 <-> rest = [] /\ more = false).
  { change V3DA_BO_FENCES_MAX with 3. unfold zlen. destruct more; cbn [orb]; [split; [done|by intros [_ ?]]|]. case_if; bsimp.
    - split; [done|]. intros [-> _]. cbn in Hlen. lia.
    - split; [|done]. intros _. split; [|done]. apply nil_length_inv. lia. }
  exists p, rest. split_and!; try done.
  - unfold zlen. rewrite length_map. lia.
  - intros a Ha. rewrite <- Hp in Ha. destruct (C3 a Ha) as [H|H]; [by apply elem_of_nil in H|done].
  - intros Hz u Hu f Hf. apply Hfl in Hz as [-> Hm]. rewrite app_nil_r in Hp. eapply covers_signaled; [|exact Hu].
    destruct (C4 Hm f Hf) as (g & Hg & ?). exists g. split; [by rewrite <- Hp|done].
Qed.
End last_fence.
End V3daBoSpec.
