(* ===== verification/V3daBoWitness.v ===== *)
(** * A run of the BO manager

    A kernel that hands out fresh pages, one after the other, mapped where they lie,
    and satisfies the laws of [KernelLaws]; and a run of the BO manager on it: client 1
    creates two BOs, submits a job on the first and closes the second, whose block goes
    to the pool. The states of this run instantiate the theorems about BOs. *)

From Stdlib Require Import Sorted.
From S2P Require Import Prelude V3daSched V3daPool V3daBo V3daBoCore V3daBoOps V3daBoTable V3daBoCorrect V3daBoSpec V3daWitness.

Module V3daBoWitness.
Import V3da V3daPool V3daBo V3daBoCore V3daBoOps V3daBoTable V3daBoCorrect V3daBoSpec.

(** ** The kernel *)

(** The next free page, the mappings, and what has been zeroed. *)
Record kst := mk_kst { kn : Z; kr : gmap Z (bool * list Z); kz : list Z }.

Definition fresh (k : kst) (bytes : Z) (anon : bool) : option (Z * kst) :=
  let n := bytes / 4096 in
  if (0 <? n) && (kn k + n <=? 2 ^ 28) then
    Some (kn k * 4096, mk_kst (kn k + n) (<[kn k * 4096 := (anon, map (fun i => i * 4096) (seqZ (kn k) n))]> (kr k)) (kz k))
  else None.

#[local] Instance demo_kernel : Kernel := {
  kstate := kst;
  k_mmap k bytes _ := fresh k bytes true;
  k_mmap_fd k _ bytes _ := fresh k bytes false;
  k_munmap k cpu _ := mk_kst (kn k) (delete cpu (kr k)) (kz k);
  k_va2pa _ va := va;
  k_zero k cpu _ := mk_kst (kn k) (kr k) (cpu :: kz k);
  k_export k _ _ _ := (0, k);
  k_unexport k _ := k;
  k_now k := (1000, k)
}.

(** The first 256 pages are the firmware's. *)
Definition fw (pa : Z) : Prop := pa mod 4096 = 0 /\ 0 <= pa < 256 * 4096.

Record kst_ok (k : kst) : Prop := {
  ks_n : 256 <= kn k <= 2 ^ 28;
  ks_id : forall c a p i pa, kr k !! c = Some (a, p) -> p !! i = Some pa -> c + Z.of_nat i * 4096 = pa;
  ks_range : forall c a p pa, kr k !! c = Some (a, p) -> pa ∈ p -> pa mod 4096 = 0 /\ 256 * 4096 <= pa < kn k * 4096;
  ks_start : forall c a p, kr k !! c = Some (a, p) -> c < kn k * 4096;
  ks_disj : forall c1 c2 a1 a2 p1 p2 pa, c1 <> c2 -> kr k !! c1 = Some (a1, p1) -> kr k !! c2 = Some (a2, p2) -> pa ∈ p1 -> pa ∈ p2 -> False
}.

Lemma fresh_ok k n anon cpu k' : kst_ok k -> fresh k (n * 4096) anon = Some (cpu, k') ->
  kst_ok k' /\ kr k !! cpu = None /\ exists p, zlen p = n /\ kr k' = <[cpu := (anon, p)]> (kr k).
Proof.
  intros [H1 H2 H3 H4 H5]. unfold fresh. rewrite Z.div_mul by lia. case_if; [|done]. bsimp. intros [= <- <-].
  set (p := map (fun i => i * 4096) (seqZ (kn k) n)).
  assert (Hp : forall i pa, p !! i = Some pa -> pa = (kn k + Z.of_nat i) * 4096 /\ 0 <= Z.of_nat i < n).
  { intros i pa Hi. unfold p in Hi. rewrite list_lookup_fmap in Hi. destruct (seqZ (kn k) n !! i) as [x|] eqn:E; [|done].
    apply lookup_seqZ in E as [-> ?]. cbn in Hi. injection Hi as <-. lia. }
  assert (Hin : forall pa, pa ∈ p -> pa mod 4096 = 0 /\ kn k * 4096 <= pa < (kn k + n) * 4096).
  { intros pa [i Hi]%list_elem_of_lookup. destruct (Hp i pa Hi) as [-> ?]. split; [apply Z.mod_mul; lia|lia]. }
  assert (Hno : kr k !! (kn k * 4096) = None).
  { destruct (kr k !! (kn k * 4096)) as [[a q]|] eqn:E; [|done]. specialize (H4 _ _ _ E). lia. }
  assert (Hold : forall c a q pa, kr k !! c = Some (a, q) -> pa ∈ q -> pa ∈ p -> False).
  { intros c a q pa Hc Hq Hpa. destruct (H3 c a q pa Hc Hq), (Hin pa Hpa). lia. }
  split; [|split; [done|exists p; split; [|done]; unfold zlen, p; rewrite length_map, length_seqZ; lia]].
  constructor; cbn; [lia| | | |].
  - intros c a q i pa. rewrite lookup_insert_Some. intros [(<- & [= _ <-])|(_ & Hc)] Hi; [destruct (Hp i pa Hi); lia|by eapply H2].
  - intros c a q pa. rewrite lookup_insert_Some. intros [(<- & [= _ <-])|(_ & Hc)] Hi; [destruct (Hin pa Hi); lia|].
    destruct (H3 c a q pa Hc Hi). split; [done|lia].
  - intros c a q. rewrite lookup_insert_Some. intros [(<- & _)|(_ & Hc)]; [lia|]. specialize (H4 c a q Hc). lia.
  - intros c1 c2 a1 a2 p1 p2 pa Hne. rewrite !lookup_insert_Some. intros [(<- & [= _ <-])|(_ & E1)] [(<- & [= _ <-])|(_ & E2)] Hi1 Hi2; [done|by eapply Hold..|by eapply H5].
Qed.

Lemma unmap_ok k cpu : kst_ok k -> kst_ok (mk_kst (kn k) (delete cpu (kr k)) (kz k)).
Proof.
  intros [H1 H2 H3 H4 H5]. constructor; cbn; [done|..].
  - intros c a p i pa [_ Hc]%lookup_delete_Some. by apply (H2 c a).
  - intros c a p pa [_ Hc]%lookup_delete_Some. by apply (H3 c a).
  - intros c a p [_ Hc]%lookup_delete_Some. by apply (H4 c a p).
  - intros c1 c2 a1 a2 p1 p2 pa Hne [_ E1]%lookup_delete_Some [_ E2]%lookup_delete_Some. by apply (H5 c1 c2 a1 a2).
Qed.

#[local] Instance demo_laws : KernelLaws demo_kernel.
Proof.
  refine {| k_ok := kst_ok; k_regions := kr; k_fw := fw; k_zeroed := fun k c => c ∈ kz k |}; cbn.
  - intros pa [? ?]. split; [done|lia].
  - intros k c a p pa Hk Hc Hp. destruct (ks_range k Hk c a p pa Hc Hp) as [Hm Hr]. pose proof (ks_n k Hk). unfold fw. split_and!; [done|lia|lia].
  - intros k c1 c2 p1 a p2 pa Hk Hne. by apply (ks_disj k Hk c1 c2 true a).
  - intros k c a p i pa Hk. by apply (ks_id k Hk c a).
  - intros k n _ cpu k' Hk _. by apply fresh_ok.
  - intros k _ n _ cpu k' Hk _. by apply fresh_ok.
  - intros k cpu a p Hk _. split; [by apply unmap_ok|done].
  - intros k cpu a p [H1 H2 H3 H4 H5] _. split_and!; [by constructor|done|by left].
  - intros k _ _ _ Hk. done.
  - intros k _ Hk. done.
  - intros k Hk. done.
Defined.
(** ** The run *)

Definition boot : bsrv :=
  mk_bsrv V3daWitness.srv1 (replicate 6 0) (hw_start []) [] []
    (mk_pool [] (2 ^ 24) 5000000 0 0 0 0 0 (mk_notes 0 0 0 0 0)) (mk_low (2 ^ 24) 0 0 0 0 0 0 0 0)
    (mk_scan 0 0 0 [0; 0; 0]) [] 0 0 9 false 0 0 (mk_kst 256 ∅ []).

Definition h1 : Z := 8193.   (* generation 1 of slot 0, ... *)
Definition h2 : Z := 8194.   (* ... of slot 1 *)
Definition run1 : bsrv := (v3da_bo_create boot 1 8000 0).2.
Definition run2 : bsrv := (v3da_bo_create run1 1 4096 V3DA_BO_LOWMEM).2.
Definition run3 : bsrv := (v3da_bo_pin_for_job run2 [h1]).2.
Definition run4 : bsrv := v3da_bo_mark_use run3 [h1] (mk_fence 0 5 1 2) 77.
Definition run5 : bsrv := v3da_bo_close run4 1 h2.
Strategy 1000 [run1 run2 run3 run4 run5].

Definition room_check (s : bsrv) (n : Z) : bool :=
  (pt_gen (hwst s) + n + 8192 <? 2 ^ 64) &&
  forallb (fun b => (fd_opens (b_cnt b) + 1 <? 2 ^ 31) && (inflight (b_cnt b) + n <? 2 ^ 32)) (bos s).

Lemma room_check_ok s n : room_check s n = true -> room s n.
Proof.
  unfold room_check, room. intros H. bsimp. split; [done|]. intros i b Hi.
  match goal with E : forallb _ _ = true |- _ => rewrite forallb_forall in E; specialize (E b) end.
  assert (Hin : In b (bos s)) by (apply list_elem_of_In; by eapply list_elem_of_lookup_2). apply H0 in Hin. bsimp. lia.
Qed.

Lemma boot_initial : initial boot.
Proof.
  constructor; cbn; try done; try lia. by exists [].
Defined.

Lemma run1_ok : reachable (mk_sys run1 []).
Proof.
  eapply reach_step; [apply reach_init, boot_initial|]. apply (st_create boot [] 1 8000 0); [lia|lia|]. by apply room_check_ok; vm_compute.
Defined.

Lemma run2_ok : reachable (mk_sys run2 []).
Proof.
  eapply reach_step; [apply run1_ok|]. apply (st_create run1 [] 1 4096 V3DA_BO_LOWMEM); [lia|lia|]. by apply room_check_ok; vm_compute.
Defined.

Lemma run4_ok : reachable (mk_sys run4 []).
Proof.
  eapply reach_step; [eapply reach_step; [apply run2_ok|]|apply st_mark]. apply st_pin. by apply room_check_ok; vm_compute.
Defined.

Lemma run5_ok : reachable (mk_sys run5 []).
Proof. eapply reach_step; [apply run4_ok|]. apply st_close. by apply room_check_ok; vm_compute. Defined.

(** The run as it ends: one live BO, pinned by its job, and one block in the pool. *)
Example run5_state :
  (map b_state (bos run5), pt_get (hwst run5) 256, pt_get (hwst run5) 258, length (blocks (pool run5)), low_live (low run5), holes (hwst run5)) =
  ([V3DA_BO_LIVE; V3DA_BO_FREE], pte 0x100000, 0, 1%nat, 0, [(0x102000, 1)]).
Proof. by vm_compute. Qed.
(** ** The theorems on the run *)

Definition use1 : fence := mk_fence 0 5 1 2.

Definition pb5 : pool_block := mk_block 0x102000 0x102000 1 0 1000.
Lemma run5_pool : blocks (pool run5) = [pb5].
Proof. by vm_compute. Qed.

Lemma run5_fits : imports_fit run5.
Proof.
  intros c p pa Hc. assert (E : map_Forall (fun _ x => x.1 = true) (regions run5)) by (apply (bool_decide_unpack _); by vm_compute).
  specialize (E _ _ Hc). done.
Defined.

Lemma v3da_bo_isolation_witness :
  (exists c x p pa, serves run5 c 256 /\ regions run5 !! c = Some (x, p) /\ pte 0x100000 = pte pa /\ (pa ∈ p \/ k_fw pa)) /\
  (exists pb, pb ∈ blocks (pool run5) /\ exists p, regions run5 !! pb_cpu pb = Some (true, p) /\ zlen p = pb_pages pb /\
     forall pa j, pa ∈ p -> ~ usable true run5 j (pte pa)).
Proof.
  destruct (v3da_bo_isolation (mk_sys run5 []) true run5_ok) as (H1 & H2); [by vm_compute|]. destruct (H2 run5_fits) as (_ & H3 & _). cbn [sv] in *. split.
  - apply H1. left. split; [done|by vm_compute].
  - assert (E : pb5 ∈ blocks (pool run5)) by (rewrite run5_pool; by left). exists pb5. split; [exact E|exact (H3 pb5 E)].
Defined.

(** The condition on the last flush is needed: when the polls of the flush that ends the quarantine of the second BO are
    given up, its block is pooled all the same, and the TLB may still hold the entry for it. *)
Definition boot_late : bsrv := set_hw boot (hw_start [true; false]).
Definition late5 : bsrv :=
  let s := (v3da_bo_create (v3da_bo_create boot_late 1 8000 0).2 1 4096 V3DA_BO_LOWMEM).2 in
  v3da_bo_close (v3da_bo_mark_use (v3da_bo_pin_for_job s [h1]).2 [h1] (mk_fence 0 5 1 2) 77) 1 h2.

Example late5_state : (late (hwst late5), stale (hwst late5), blocks (pool late5)) = (true, [(258, pte (pb_cpu pb5))], [pb5]).
Proof. by vm_compute. Qed.

Lemma v3da_bo_references_witness :
  refs (b_cnt (bo_at run5 0)) = holders (b_cnt (bo_at run5 0)) /\ v3da_bo_find run5 h1 = Some 0%nat /\ bo_by_export run5 h1 = None.
Proof.
  destruct (v3da_bo_references (mk_sys run5 []) run5_ok) as (H & _). cbn [sv] in *. specialize (H 0%nat (bo_at run5 0) ltac:(by vm_compute)).
  replace (b_state (bo_at run5 0)) with V3DA_BO_LIVE in H by by vm_compute. destruct H as (H1 & _ & H3 & H4). split; [exact H1|].
  replace (b_handle (bo_at run5 0)) with h1 in H3, H4 by by vm_compute. rewrite H3, H4. clear. by vm_compute.
Defined.

Lemma v3da_bo_budgets_witness :
  pool_bytes (pool run5) = sum_foot 4096 (blocks (pool run5)) /\ pool_bytes (pool run5) <= pool_cap (pool run5) /\ 0 < pool_bytes (pool run5).
Proof.
  destruct (v3da_bo_budgets (mk_sys run5 []) run5_ok) as ((H1 & H2 & _) & _). cbn [sv] in *. split; [exact H1|split; [exact H2|clear; by vm_compute]].
Defined.

Definition created2 : create_resp := mk_create h2 0x102000 4096 0 (mk_memref V3DA_MEM_PHYS V3DA_CACHE_UNCACHED 0 4096 0x102000).

Lemma run2_eq : v3da_bo_create run1 1 4096 V3DA_BO_LOWMEM = (Ok created2, run2).
Proof. apply injective_projections; [by vm_compute|]. cbn [snd]. unfold run2. exact eq_refl. Qed.

Lemma v3da_bo_create_spec_witness : created run1 1 4096 created2 run2.
Proof.
  exact (v3da_bo_create_spec run1 [] 1 4096 V3DA_BO_LOWMEM (Ok created2) run2 run1_ok ltac:(lia) ltac:(lia)
    ltac:(by apply room_check_ok; vm_compute) run2_eq).
Defined.

Lemma v3da_bo_close_spec_witness : v3da_bo_find run5 h2 = None /\ v3da_bo_find run5 h1 = v3da_bo_find run4 h1 /\ bos run5 !! 1%nat = Some no_bo.
Proof.
  destruct (v3da_bo_close_spec run4 [] 1 h2 1 (bo_at run4 1) run4_ok) as (H1 & H2 & H3);
    [by apply room_check_ok; vm_compute|by vm_compute..|]. split; [|split].
  - etransitivity; [apply H1|clear; by vm_compute].
  - apply H2. done.
  - apply H3; [clear; by vm_compute..|]. clear. intros q Hq.
    assert (E : forallb (fun q => arr_get (hw_submitted run4) q <=? arr_get (hw_completed (base run4)) q) (seqZ 0 6) = true) by by vm_compute.
    rewrite forallb_forall in E. apply Z.leb_le, E, list_elem_of_In, elem_of_seqZ. lia.
Defined.

Lemma v3da_bo_implicit_deps_spec_witness :
  v3da_bo_implicit_deps run5 3 [h1] [] 16 = (0, [use1]) /\
  forall t : srv, (v3da_fence_signaled t use1).1 = true -> forall f, f ∈ foreign_uses run5 3 [h1] -> (v3da_fence_signaled t f).1 = true.
Proof.
  assert (E : v3da_bo_implicit_deps run5 3 [h1] [] 16 = (0, [use1])) by by vm_compute. split; [exact E|].
  destruct (v3da_bo_implicit_deps_spec run5 3 [h1] [] 16 0 [use1]) as (_ & _ & _ & H); [by vm_compute| |exact E|].
  - apply Forall_forall. apply (bool_decide_unpack (Forall (fun b => length (b_last b) = 6%nat) (bos run5))). by vm_compute.
  - intros t Ht. apply H; [|done]. intros g Hg. apply list_elem_of_singleton in Hg as ->. exact Ht.
Defined.

Lemma v3da_bo_last_fence_spec_witness :
  v3da_bo_last_fence run5 1 (mk_sreq V3DA_BO_SYNC_HANDLE 0 0 h1 0) = Ok ([use1], 0) /\
  forall u : srv, (v3da_fence_signaled u use1).1 = true -> forall f, f ∈ last_uses run5 [0%nat] -> (v3da_fence_signaled u f.1).1 = true.
Proof.
  set (rq := mk_sreq V3DA_BO_SYNC_HANDLE 0 0 h1 0). assert (E : v3da_bo_last_fence run5 1 rq = Ok ([use1], 0)) by by vm_compute. split; [exact E|].
  destruct (v3da_bo_last_fence_spec run5 1 rq [0%nat] [use1] 0) as (p & r & _ & _ & _ & _ & _ & _ & H); [by vm_compute|exact E|].
  intros u Hu. apply (H eq_refl u). intros g Hg. apply list_elem_of_singleton in Hg as ->. exact Hu.
Defined.
End V3daBoWitness.
