(* ===== verification/Slices.v ===== *)
(** * Slices of buffers

    Replacing and copying runs of elements of a buffer: [splice], [blit] and [span] with
    natural offsets, [patch] and [slice] with addresses. *)

From S2P Require Import Prelude.

Module Slices.

(** ** Splices *)

(** [xs] in place of the elements from [o] on. *)
Definition splice (l : list Z) (o : nat) (xs : list Z) : list Z := take o l ++ xs ++ drop (o + length xs) l.
(** [n] elements copied from [s] to [d] within [l]. *)
Definition blit (l : list Z) (d s n : nat) : list Z := splice l d (take n (drop s l)).
(** [n] elements of [l] from [o] on. *)
Definition span (l : list Z) (o n : nat) : list Z := take n (drop o l).

Lemma length_span l o n : (o + n <= length l)%nat -> length (span l o n) = n.
Proof. intros. unfold span. rewrite length_take, length_drop. lia. Qed.

Lemma length_splice l o xs : (o + length xs <= length l)%nat -> length (splice l o xs) = length l.
Proof. intros. unfold splice. rewrite !length_app, length_take, length_drop. lia. Qed.

Lemma lookup_splice l o xs i : (o + length xs <= length l)%nat ->
  splice l o xs !! i = if decide (o <= i < o + length xs)%nat then xs !! (i - o)%nat else l !! i.
Proof.
  intros Ho. unfold splice. destruct (decide (i < o)%nat).
  - rewrite lookup_app_l by (rewrite length_take; lia). rewrite lookup_take_lt by lia. case_decide; [lia|done].
  - rewrite lookup_app_r by (rewrite length_take; lia). rewrite length_take, Nat.min_l by lia. case_decide.
    + by rewrite lookup_app_l by lia.
    + rewrite lookup_app_r by lia. rewrite lookup_drop. f_equal. lia.
Qed.

Lemma lookup_span l o n i : span l o n !! i = if decide (i < n)%nat then l !! (o + i)%nat else None.
Proof.
  unfold span. case_decide; [by rewrite lookup_take_lt, lookup_drop|]. apply lookup_take_ge. lia.
Qed.

Lemma length_blit l d s n : (d + n <= length l)%nat -> (s + n <= length l)%nat -> length (blit l d s n) = length l.
Proof. intros. apply length_splice. fold (span l s n). rewrite length_span by done. done. Qed.

Lemma lookup_blit l d s n i : (d + n <= length l)%nat -> (s + n <= length l)%nat ->
  blit l d s n !! i = if decide (d <= i < d + n)%nat then l !! (s + (i - d))%nat else l !! i.
Proof.
  intros Hd Hs. unfold blit. fold (span l s n). rewrite lookup_splice by (rewrite length_span; done). rewrite length_span by done.
  repeat case_decide; try done. rewrite lookup_span. case_decide; [done|lia].
Qed.

Lemma splice_nil l o : splice l o [] = l.
Proof. unfold splice. cbn. rewrite Nat.add_0_r. apply take_drop. Qed.

Lemma splice_cons l o x xs : (o + S (length xs) <= length l)%nat -> splice (<[o := x]> l) (S o) xs = splice l o (x :: xs).
Proof.
  intros Ho. apply list_eq. intros i. rewrite !lookup_splice by (rewrite ?length_insert; cbn; lia). cbn [length].
  repeat case_decide; try lia; try done.
  - replace (i - o)%nat with (S (i - S o)) by lia. done.
  - assert (i = o) as -> by lia. rewrite Nat.sub_diag. cbn. rewrite list_lookup_insert_eq by lia. done.
  - by rewrite list_lookup_insert_ne by lia.
Qed.

Lemma splice_app l o xs ys : (o + length xs + length ys <= length l)%nat ->
  splice (splice l o xs) (o + length xs) ys = splice l o (xs ++ ys).
Proof.
  intros Ho. apply list_eq. intros i. rewrite !lookup_splice by (rewrite ?length_splice, ?length_app; lia). rewrite length_app.
  repeat case_decide; try lia; try done.
  - rewrite lookup_app_r by lia. f_equal. lia.
  - by rewrite lookup_app_l by lia.
Qed.

(** One more element, from the front and from the back. *)
Lemma blit_front l d s n x : (d < s)%nat -> (s + S n <= length l)%nat -> l !! s = Some x ->
  blit (<[d := x]> l) (S d) (S s) n = blit l d s (S n).
Proof.
  intros Hds Hs Hx. apply list_eq. intros i. rewrite !lookup_blit by (rewrite ?length_insert; lia).
  repeat case_decide; try lia.
  - rewrite list_lookup_insert_ne by lia. f_equal. lia.
  - assert (i = d) as -> by lia. rewrite list_lookup_insert_eq by lia. rewrite <- Hx. f_equal. lia.
  - by rewrite list_lookup_insert_ne by lia.
Qed.

Lemma blit_back l d s n x : (s <= d)%nat -> (d + S n <= length l)%nat -> l !! (s + n)%nat = Some x ->
  blit (<[(d + n)%nat := x]> l) d s n = blit l d s (S n).
Proof.
  intros Hds Hd Hx. apply list_eq. intros i. rewrite !lookup_blit by (rewrite ?length_insert; lia).
  repeat case_decide; try lia.
  - rewrite list_lookup_insert_ne by lia. done.
  - assert (i = (d + n)%nat) as -> by lia. rewrite list_lookup_insert_eq by lia. rewrite <- Hx. f_equal. lia.
  - by rewrite list_lookup_insert_ne by lia.
Qed.

(** ** Addresses *)

(** [n] elements from address [a] on; [xs] written at address [a]. *)
Definition slice (l : list Z) (a n : Z) : list Z := span l (Z.to_nat a) (Z.to_nat n).
Definition patch (l : list Z) (a : Z) (xs : list Z) : list Z := splice l (Z.to_nat a) xs.

Lemma zlen_nonneg {A} (l : list A) : 0 <= zlen l.
Proof. unfold zlen. lia. Qed.
Lemma zlen_nil {A} (l : list A) : zlen l = 0 -> l = [].
Proof. unfold zlen. destruct l; [done|]. cbn. lia. Qed.
Lemma zlen_take {A} (l : list A) n : 0 <= n <= zlen l -> zlen (take (Z.to_nat n) l) = n.
Proof. unfold zlen. rewrite length_take. lia. Qed.
Lemma zlen_drop {A} (l : list A) n : 0 <= n <= zlen l -> zlen (drop (Z.to_nat n) l) = zlen l - n.
Proof. unfold zlen. rewrite length_drop. lia. Qed.

Lemma zlen_slice l a n : 0 <= a -> 0 <= n -> a + n <= zlen l -> zlen (slice l a n) = n.
Proof. unfold zlen, slice. intros. rewrite length_span; lia. Qed.
Lemma zlen_patch l a xs : 0 <= a -> a + zlen xs <= zlen l -> zlen (patch l a xs) = zlen l.
Proof. unfold zlen, patch. intros. rewrite length_splice; lia. Qed.

Lemma lookup_slice l a n i : 0 <= a -> 0 <= n -> slice l a n !! i = if decide (Z.of_nat i < n) then l !! (Z.to_nat a + i)%nat else None.
Proof. intros. unfold slice. rewrite lookup_span. repeat case_decide; try done; lia. Qed.
Lemma lookup_patch l a xs i : 0 <= a -> a + zlen xs <= zlen l ->
  patch l a xs !! i = if decide (a <= Z.of_nat i < a + zlen xs) then xs !! (i - Z.to_nat a)%nat else l !! i.
Proof. unfold zlen, patch. intros. rewrite lookup_splice by lia. repeat case_decide; try done; lia. Qed.

Lemma slice_all l : slice l 0 (zlen l) = l.
Proof. unfold slice, span, zlen. cbn. apply take_ge. lia. Qed.
Lemma slice_whole l n : zlen l = n -> slice l 0 n = l.
Proof. intros <-. apply slice_all. Qed.
Lemma slice_0 l a : slice l a 0 = [].
Proof. done. Qed.
Lemma patch_nil l a : patch l a [] = l.
Proof. apply splice_nil. Qed.

(** Both sides have the same elements. *)
Ltac slice_eq :=
  apply list_eq; intros ?i; rewrite ?lookup_patch, ?lookup_slice by (rewrite ?zlen_patch, ?zlen_slice by lia; lia);
  repeat case_decide; rewrite ?lookup_patch, ?lookup_slice by (rewrite ?zlen_patch, ?zlen_slice by lia; lia); repeat case_decide;
  first [done | lia | f_equal; lia | (rewrite ?zlen_patch, ?zlen_slice in * by lia; first [done | lia | f_equal; lia]) | idtac].

Lemma slice_slice l a n b m : 0 <= a -> 0 <= b -> 0 <= m -> b + m <= n -> slice (slice l a n) b m = slice l (a + b) m.
Proof. intros. slice_eq. Qed.

Lemma slice_app l a n m : 0 <= a -> 0 <= n -> 0 <= m -> a + n + m <= zlen l -> slice l a (n + m) = slice l a n ++ slice l (a + n) m.
Proof.
  intros. unfold slice, span. rewrite Z2Nat.inj_add, <- take_take_drop by lia. f_equal. rewrite drop_drop. do 2 f_equal. lia.
Qed.

Lemma slice_patch_out l a xs b n : 0 <= a -> a + zlen xs <= zlen l -> 0 <= b -> 0 <= n -> b + n <= a \/ a + zlen xs <= b -> slice (patch l a xs) b n = slice l b n.
Proof. intros. slice_eq. Qed.

Lemma slice_patch_in l a xs b n : 0 <= b -> b <= a -> a + zlen xs <= b + n -> b + n <= zlen l -> slice (patch l a xs) b n = patch (slice l b n) (a - b) xs.
Proof. intros. pose proof (zlen_nonneg xs). slice_eq. Qed.

Lemma slice_patch l a xs b n : 0 <= a -> a <= b -> 0 <= n -> b + n <= a + zlen xs -> a + zlen xs <= zlen l -> slice (patch l a xs) b n = slice xs (b - a) n.
Proof. intros. slice_eq. Qed.

Lemma slice_patch_same l a xs : 0 <= a -> a + zlen xs <= zlen l -> slice (patch l a xs) a (zlen xs) = xs.
Proof. intros. pose proof (zlen_nonneg xs). rewrite slice_patch by lia. rewrite Z.sub_diag. apply slice_all. Qed.

Lemma slice_patch_whole l a xs n : zlen xs = n -> 0 <= a -> a + n <= zlen l -> slice (patch l a xs) a n = xs.
Proof. intros <-. apply slice_patch_same. Qed.

Lemma patch_slice l a n : 0 <= a -> 0 <= n -> a + n <= zlen l -> patch l a (slice l a n) = l.
Proof. intros. slice_eq. Qed.

Lemma patch_over l a xs b ys : 0 <= b -> b <= a -> a + zlen xs <= b + zlen ys -> b + zlen ys <= zlen l -> patch (patch l a xs) b ys = patch l b ys.
Proof. intros. pose proof (zlen_nonneg xs). slice_eq. Qed.

Lemma patch_in l a n b xs : 0 <= a -> 0 <= b -> b + zlen xs <= n -> a + n <= zlen l -> patch l a (patch (slice l a n) b xs) = patch l (a + b) xs.
Proof. intros. pose proof (zlen_nonneg xs). assert (zlen (patch (slice l a n) b xs) = n) by (rewrite zlen_patch; rewrite ?zlen_slice; lia). slice_eq. Qed.

Lemma patch_app l a xs ys : 0 <= a -> a + zlen xs + zlen ys <= zlen l -> patch (patch l a xs) (a + zlen xs) ys = patch l a (xs ++ ys).
Proof. unfold patch, zlen. intros. rewrite Z2Nat.inj_add, Nat2Z.id by lia. apply splice_app. lia. Qed.

Lemma patch_comm l a xs b ys : 0 <= a -> 0 <= b -> a + zlen xs <= zlen l -> b + zlen ys <= zlen l -> a + zlen xs <= b \/ b + zlen ys <= a -> patch (patch l a xs) b ys = patch (patch l b ys) a xs.
Proof. intros. pose proof (zlen_nonneg xs). pose proof (zlen_nonneg ys). slice_eq. Qed.
End Slices.
