(* ===== verification/Vt.v ===== *)
(** * PC virtual terminal: state and operations ([src/tty/pc-tty/ttypc_vt.c],
      [ttypc_vtf.c], [ttypc_vga.c])

    The VT220 emulator of the PC console. A buffer of character cells is a list, a cell is
    16 bits (attribute and character); a load or a store outside its buffer has the result
    [None]. [size_t] and [unsigned int] have 32 bits, as on the ia32 the driver runs on.
    What the driver does to the outside (answers handed to the line discipline, cursor
    registers, keyboard lamps, characters drawn on a frame buffer) is the list of events
    [out], latest first. *)

From S2P Require Import Prelude.
From Stdlib Require Import Ascii.

Module Vt.

Open Scope Z_scope.

(** ** Data *)

Inductive esc :=
  | ESC_INIT | ESC_ESC | ESC_BLANK | ESC_HASH | ESC_BROPN | ESC_BRCLO | ESC_CSI | ESC_CSIQM | ESC_AMPSND
  | ESC_STAR | ESC_PLUS | ESC_DCS | ESC_SCA | ESC_STR | ESC_MINUS | ESC_DOT | ESC_SLASH.
Inductive fbcon := FBCON_UNSUPPORTED | FBCON_DISABLED | FBCON_ENABLED.
(** What [GL], [GR] and [Gs] point at. *)
Inductive gslot := AtG0 | AtG1 | AtG2 | AtG3.

#[export] Instance esc_eq_dec : EqDecision esc. Proof. solve_decision. Defined.
#[export] Instance fbcon_eq_dec : EqDecision fbcon. Proof. solve_decision. Defined.
#[export] Instance gslot_eq_dec : EqDecision gslot. Proof. solve_decision. Defined.

Definition MAXTABS : Z := 132.
Definition MAXPARMS : Z := 10.
Definition SCRB_PAGES : Z := 32.
Definition CHR_VGA : Z := 2.
Definition CUR_DEFH : Z := 14.
Definition CUR_DEF : Z := 13.
Definition KB_NUM : Z := 0x20.
Definition VT_NORMAL : Z := 0.
Definition VT_BOLD : Z := 1.
Definition VT_UNDER : Z := 2.
Definition VT_BLINK : Z := 4.
Definition VT_INVERSED : Z := 8.
Definition FG_LIGHTGREY : Z := 7.
Definition BG_BLACK : Z := 0.
Definition FG_BRIGHT : Z := 0x800.
Definition BG_BRIGHT : Z := 0x8000.

Inductive event :=
  | Respond (bytes : list Z)          (* _ttypc_vt_respond *)
  | Leds (lockst : Z)                 (* _ttypc_kbd_updateled, _ttypc_bioskbd_updateled *)
  | CursorAt (pos : Z)                (* CRTC_CURSORH and CRTC_CURSORL *)
  | CursorOn (from to : Z) | CursorOff
  | Draw (col row val : Z)            (* a character drawn on the frame buffer *)
  | Resized (ws_col ws_row : Z).      (* the line discipline's window and SIGWINCH *)

Record charsets := mk_charsets { G0 : list Z; G1 : list Z; G2 : list Z; G3 : list Z; GL : gslot; GR : gslot }.
Record saved := mk_saved { sccol : Z; sccrow : Z; sccpos : Z; sccs : charsets; scawm : bool; scom : bool; scsgr : Z; scattr : Z }.

(** [ttypc_vt_t], in parts, with the fields of [ttypc_t] it uses. [mem] is the memory of an
    active terminal, whose [vram] is the display's. *)
Record host := mk_host { active : bool; color : bool; ktype : Z; lockst : Z; fbmode : fbcon; buffsz : Z; mem : list Z }.
Record screen := mk_screen { vram : list Z; rows : Z; cols : Z; top : Z; bottom : Z; scro : list Z; scrb : list Z; scrbsz : Z; scrbpos : Z }.
Record cursor := mk_cursor { ctype : Z; cst : bool; ccol : Z; crow : Z; cpos : Z; dpos : Z }.
Record modes := mk_modes { awm : bool; om : bool; ckm : bool; irm : bool; arm : bool; lnm : bool; sc : bool; lc : bool }.
Record chars := mk_chars { cs : charsets; Gs : gslot; ss : bool; attr : Z; sgr : Z }.
Record parser := mk_parser { escst : esc; parmi : Z; parms : list Z; tabs : list bool }.

Record vt := mk_vt {
  vt_host :> host; vt_screen :> screen; vt_cursor :> cursor; vt_modes :> modes; vt_chars :> chars; vt_parser :> parser;
  sv : saved; out : list event
}.

Definition set_host (x : host) (v : vt) : vt := mk_vt x (vt_screen v) (vt_cursor v) (vt_modes v) (vt_chars v) (vt_parser v) (sv v) (out v).
Definition set_screen (x : screen) (v : vt) : vt := mk_vt (vt_host v) x (vt_cursor v) (vt_modes v) (vt_chars v) (vt_parser v) (sv v) (out v).
Definition set_cursor (x : cursor) (v : vt) : vt := mk_vt (vt_host v) (vt_screen v) x (vt_modes v) (vt_chars v) (vt_parser v) (sv v) (out v).
Definition set_modes (x : modes) (v : vt) : vt := mk_vt (vt_host v) (vt_screen v) (vt_cursor v) x (vt_chars v) (vt_parser v) (sv v) (out v).
Definition set_chars (x : chars) (v : vt) : vt := mk_vt (vt_host v) (vt_screen v) (vt_cursor v) (vt_modes v) x (vt_parser v) (sv v) (out v).
Definition set_parser (x : parser) (v : vt) : vt := mk_vt (vt_host v) (vt_screen v) (vt_cursor v) (vt_modes v) (vt_chars v) x (sv v) (out v).
Definition set_sv (x : saved) (v : vt) : vt := mk_vt (vt_host v) (vt_screen v) (vt_cursor v) (vt_modes v) (vt_chars v) (vt_parser v) x (out v).
Definition emit (e : event) (v : vt) : vt := mk_vt (vt_host v) (vt_screen v) (vt_cursor v) (vt_modes v) (vt_chars v) (vt_parser v) (sv v) (e :: out v).
Definition set_active (x : bool) (v : vt) : vt := set_host (mk_host x (color v) (ktype v) (lockst v) (fbmode v) (buffsz v) (mem v)) v.
Definition set_color (x : bool) (v : vt) : vt := set_host (mk_host (active v) x (ktype v) (lockst v) (fbmode v) (buffsz v) (mem v)) v.
Definition set_ktype (x : Z) (v : vt) : vt := set_host (mk_host (active v) (color v) x (lockst v) (fbmode v) (buffsz v) (mem v)) v.
Definition set_lockst (x : Z) (v : vt) : vt := set_host (mk_host (active v) (color v) (ktype v) x (fbmode v) (buffsz v) (mem v)) v.
Definition set_fbmode (x : fbcon) (v : vt) : vt := set_host (mk_host (active v) (color v) (ktype v) (lockst v) x (buffsz v) (mem v)) v.
Definition set_buffsz (x : Z) (v : vt) : vt := set_host (mk_host (active v) (color v) (ktype v) (lockst v) (fbmode v) x (mem v)) v.
Definition set_mem (x : list Z) (v : vt) : vt := set_host (mk_host (active v) (color v) (ktype v) (lockst v) (fbmode v) (buffsz v) x) v.
Definition set_vram (x : list Z) (v : vt) : vt := set_screen (mk_screen x (rows v) (cols v) (top v) (bottom v) (scro v) (scrb v) (scrbsz v) (scrbpos v)) v.
Definition set_rows (x : Z) (v : vt) : vt := set_screen (mk_screen (vram v) x (cols v) (top v) (bottom v) (scro v) (scrb v) (scrbsz v) (scrbpos v)) v.
Definition set_cols (x : Z) (v : vt) : vt := set_screen (mk_screen (vram v) (rows v) x (top v) (bottom v) (scro v) (scrb v) (scrbsz v) (scrbpos v)) v.
Definition set_top (x : Z) (v : vt) : vt := set_screen (mk_screen (vram v) (rows v) (cols v) x (bottom v) (scro v) (scrb v) (scrbsz v) (scrbpos v)) v.
Definition set_bottom (x : Z) (v : vt) : vt := set_screen (mk_screen (vram v) (rows v) (cols v) (top v) x (scro v) (scrb v) (scrbsz v) (scrbpos v)) v.
Definition set_scro (x : list Z) (v : vt) : vt := set_screen (mk_screen (vram v) (rows v) (cols v) (top v) (bottom v) x (scrb v) (scrbsz v) (scrbpos v)) v.
Definition set_scrb (x : list Z) (v : vt) : vt := set_screen (mk_screen (vram v) (rows v) (cols v) (top v) (bottom v) (scro v) x (scrbsz v) (scrbpos v)) v.
Definition set_scrbsz (x : Z) (v : vt) : vt := set_screen (mk_screen (vram v) (rows v) (cols v) (top v) (bottom v) (scro v) (scrb v) x (scrbpos v)) v.
Definition set_scrbpos (x : Z) (v : vt) : vt := set_screen (mk_screen (vram v) (rows v) (cols v) (top v) (bottom v) (scro v) (scrb v) (scrbsz v) x) v.
Definition set_ctype (x : Z) (v : vt) : vt := set_cursor (mk_cursor x (cst v) (ccol v) (crow v) (cpos v) (dpos v)) v.
Definition set_cst (x : bool) (v : vt) : vt := set_cursor (mk_cursor (ctype v) x (ccol v) (crow v) (cpos v) (dpos v)) v.
Definition set_ccol (x : Z) (v : vt) : vt := set_cursor (mk_cursor (ctype v) (cst v) x (crow v) (cpos v) (dpos v)) v.
Definition set_crow (x : Z) (v : vt) : vt := set_cursor (mk_cursor (ctype v) (cst v) (ccol v) x (cpos v) (dpos v)) v.
Definition set_cpos (x : Z) (v : vt) : vt := set_cursor (mk_cursor (ctype v) (cst v) (ccol v) (crow v) x (dpos v)) v.
Definition set_dpos (x : Z) (v : vt) : vt := set_cursor (mk_cursor (ctype v) (cst v) (ccol v) (crow v) (cpos v) x) v.
Definition set_awm (x : bool) (v : vt) : vt := set_modes (mk_modes x (om v) (ckm v) (irm v) (arm v) (lnm v) (sc v) (lc v)) v.
Definition set_om (x : bool) (v : vt) : vt := set_modes (mk_modes (awm v) x (ckm v) (irm v) (arm v) (lnm v) (sc v) (lc v)) v.
Definition set_ckm (x : bool) (v : vt) : vt := set_modes (mk_modes (awm v) (om v) x (irm v) (arm v) (lnm v) (sc v) (lc v)) v.
Definition set_irm (x : bool) (v : vt) : vt := set_modes (mk_modes (awm v) (om v) (ckm v) x (arm v) (lnm v) (sc v) (lc v)) v.
Definition set_arm (x : bool) (v : vt) : vt := set_modes (mk_modes (awm v) (om v) (ckm v) (irm v) x (lnm v) (sc v) (lc v)) v.
Definition set_lnm (x : bool) (v : vt) : vt := set_modes (mk_modes (awm v) (om v) (ckm v) (irm v) (arm v) x (sc v) (lc v)) v.
Definition set_sc (x : bool) (v : vt) : vt := set_modes (mk_modes (awm v) (om v) (ckm v) (irm v) (arm v) (lnm v) x (lc v)) v.
Definition set_lc (x : bool) (v : vt) : vt := set_modes (mk_modes (awm v) (om v) (ckm v) (irm v) (arm v) (lnm v) (sc v) x) v.
Definition set_cs (x : charsets) (v : vt) : vt := set_chars (mk_chars x (Gs v) (ss v) (attr v) (sgr v)) v.
Definition set_Gs (x : gslot) (v : vt) : vt := set_chars (mk_chars (cs v) x (ss v) (attr v) (sgr v)) v.
Definition set_ss (x : bool) (v : vt) : vt := set_chars (mk_chars (cs v) (Gs v) x (attr v) (sgr v)) v.
Definition set_attr (x : Z) (v : vt) : vt := set_chars (mk_chars (cs v) (Gs v) (ss v) x (sgr v)) v.
Definition set_sgr (x : Z) (v : vt) : vt := set_chars (mk_chars (cs v) (Gs v) (ss v) (attr v) x) v.
Definition set_escst (x : esc) (v : vt) : vt := set_parser (mk_parser x (parmi v) (parms v) (tabs v)) v.
Definition set_parmi (x : Z) (v : vt) : vt := set_parser (mk_parser (escst v) x (parms v) (tabs v)) v.
Definition set_parms (x : list Z) (v : vt) : vt := set_parser (mk_parser (escst v) (parmi v) x (tabs v)) v.
Definition set_tabs (x : list bool) (v : vt) : vt := set_parser (mk_parser (escst v) (parmi v) (parms v) x) v.

(** Sequencing of steps on the terminal; [None] is an access outside a buffer. *)
Notation "v ⇐ r ; k" := (mbind (fun v : vt => k) r) (at level 20, r at level 100, k at level 200, only parsing) : Z_scope.

(** ** Cells *)

Definition load (l : list Z) (i : Z) : option Z := buf_get l i.
Definition store (l : list Z) (i x : Z) : option (list Z) :=
  if (0 <=? i) && (i <? zlen l) then Some (<[Z.to_nat i := x]> l) else None.
(** [memmove] of [n] cells within a buffer. *)
Definition memmove (l : list Z) (d s n : Z) : option (list Z) :=
  if (d + n <=? zlen l) && (s + n <=? zlen l) then
    Some (take (Z.to_nat d) l ++ take (Z.to_nat n) (drop (Z.to_nat s) l) ++ drop (Z.to_nat (d + n)) l)
  else None.

Definition _ttypc_fbcon_drawChar (v : vt) (col row val : Z) : vt :=
  if active v && bool_decide (fbmode v = FBCON_ENABLED) then emit (Draw (u16 col) (u16 row) (u16 val)) v else v.

(** The position of the next character. *)
Definition next_cell (v : vt) (col row : Z) : Z * Z := if col <? cols v - 1 then (col + 1, row) else (0, row + 1).

Fixpoint read_loop (n : nat) (src : list Z) (so : Z) (buff : list Z) (bo : Z) : option (list Z) :=
  match n with
  | O => Some buff
  | S n => x ← load src so; buff ← store buff bo x; read_loop n src (so + 1) buff (bo + 1)
  end.
Definition _ttypc_vga_read (v : vt) (offs : Z) (buff : list Z) (bo n : Z) : option (list Z) :=
  read_loop (Z.to_nat (u32 n)) (vram v) (u32 offs) buff (u32 bo).

Fixpoint write_loop (n : nat) (v : vt) (offs : Z) (buff : list Z) (bo col row : Z) : option vt :=
  match n with
  | O => Some v
  | S n =>
      x ← load buff bo; m ← store (vram v) offs x;
      let v := _ttypc_fbcon_drawChar (set_vram m v) col row x in
      let '(col, row) := next_cell v col row in write_loop n v (offs + 1) buff (bo + 1) col row
  end.
Definition _ttypc_vga_write (v : vt) (offs : Z) (buff : list Z) (bo n : Z) : option vt :=
  let offs := u32 offs in write_loop (Z.to_nat (u32 n)) v offs buff (u32 bo) (offs mod cols v) (offs / cols v).

Fixpoint set_loop (n : nat) (v : vt) (offs val col row : Z) : option vt :=
  match n with
  | O => Some v
  | S n =>
      m ← store (vram v) offs val;
      let v := _ttypc_fbcon_drawChar (set_vram m v) col row val in
      let '(col, row) := next_cell v col row in set_loop n v (offs + 1) val col row
  end.
Definition _ttypc_vga_set (v : vt) (offs val n : Z) : option vt :=
  let offs := u32 offs in set_loop (Z.to_nat (u32 n)) v offs (u16 val) (offs mod cols v) (offs / cols v).

Fixpoint move_forward (n : nat) (v : vt) (d s col row : Z) : option vt :=
  match n with
  | O => Some v
  | S n =>
      x ← load (vram v) s; m ← store (vram v) d x; y ← load m s;
      let v := _ttypc_fbcon_drawChar (set_vram m v) col row y in
      let '(col, row) := next_cell v col row in move_forward n v (d + 1) (s + 1) col row
  end.
Fixpoint move_backward (n : nat) (v : vt) (d s col row : Z) : option vt :=
  match n with
  | O => Some v
  | S n =>
      let i := Z.of_nat n in
      x ← load (vram v) (s + i); m ← store (vram v) (d + i) x; y ← load m (s + i);
      let v := _ttypc_fbcon_drawChar (set_vram m v) col row y in
      if 0 <? col then move_backward n v d s (col - 1) row
      else if row =? 0 then Some v else move_backward n v d s (cols v - 1) (row - 1)
  end.
Definition _ttypc_vga_move (v : vt) (doffs soffs n : Z) : option vt :=
  let doffs := u32 doffs in let soffs := u32 soffs in let n := u32 n in
  if doffs <? soffs then move_forward (Z.to_nat n) v doffs soffs (doffs mod cols v) (doffs / cols v)
  else move_backward (Z.to_nat n) v doffs soffs ((doffs + n) mod cols v) ((doffs + n) / cols v).

(** ** The cursor *)

Definition INVERT_COLORS (val : Z) : Z := ((val &&& 0x0f00) <<< 4) ||| ((val &&& 0xf000) >>> 4) ||| (val &&& 0xff).
Definition s16 (x : Z) : Z := (x + 2 ^ 15) mod 2 ^ 16 - 2 ^ 15.

Definition _ttypc_vga_setcursor (v : vt) : option vt :=
  let v := emit (CursorAt (cpos v)) v in
  v ⇐ (if negb (dpos v =? -1) then
         x ← load (vram v) (dpos v); Some (_ttypc_fbcon_drawChar v (Z.rem (dpos v) (cols v)) (Z.quot (dpos v) (cols v)) x)
       else Some v);
  x ← load (vram v) (cpos v);
  let v := _ttypc_fbcon_drawChar v (cpos v mod cols v) (cpos v / cols v) (INVERT_COLORS x) in
  Some (set_dpos (s16 (cpos v)) v).

Definition _ttypc_vga_togglecursor (v : vt) (state : bool) : vt :=
  if state then emit (CursorOn (ctype v) CUR_DEFH) v else emit CursorOff v.

Definition _ttypc_vga_getcursor (reg : Z) (v : vt) : vt :=
  let v := set_cpos (u16 reg) v in
  let v := set_ccol (u8 (cpos v mod cols v)) v in set_crow (u8 (cpos v / cols v)) v.

(** ** Scrolling *)

Definition _ttypc_vga_scrollbackcapacity (v : vt) : Z := u32 (SCRB_PAGES * buffsz v) / (cols v * CHR_VGA).

Definition _ttypc_vga_allocscrollback (v : vt) (n : Z) : option vt :=
  let scrbcap := _ttypc_vga_scrollbackcapacity v in
  if scrbcap <? u32 (scrbsz v + n) then
    b ← memmove (scrb v) 0 (u32 ((scrbsz v + n - scrbcap) * cols v)) (u32 ((scrbcap - n) * cols v * CHR_VGA) / CHR_VGA);
    Some (set_scrbsz (u16 scrbcap) (set_scrb b v))
  else Some (set_scrbsz (u16 (scrbsz v + n)) v).

Definition blank (v : vt) : Z := attr v ||| 32.

Definition _ttypc_vga_rollup (v : vt) (n : Z) : option vt :=
  let k := Z.min n (_ttypc_vga_scrollbackcapacity v) in
  v ⇐ _ttypc_vga_allocscrollback v k;
  b ← _ttypc_vga_read v ((top v + n - k) * cols v) (scrb v) ((scrbsz v - k) * cols v) (k * cols v);
  let v := set_scrb b v in
  if n <? u32 (bottom v - top v) then
    v ⇐ _ttypc_vga_move v (top v * cols v) ((top v + n) * cols v) ((bottom v - top v + 1 - n) * cols v);
    _ttypc_vga_set v ((bottom v + 1 - n) * cols v) (blank v) (n * cols v)
  else Some v.

Definition _ttypc_vga_rolldown (v : vt) (n : Z) : option vt :=
  if crow v <? bottom v then
    let k := Z.min n (bottom v - crow v) in
    let l := Z.min k (scrbsz v) in
    v ⇐ _ttypc_vga_move v ((top v + k) * cols v) (top v * cols v) (u32 (bottom v - top v + 1 - k) * cols v);
    v ⇐ _ttypc_vga_set v (top v * cols v) (blank v) ((k - l) * cols v);
    v ⇐ _ttypc_vga_write v ((top v + k - l) * cols v) (scrb v) ((scrbsz v - l) * cols v) (l * cols v);
    Some (set_scrbsz (u16 (scrbsz v - l)) v)
  else Some v.

(** Scrolling by [n] lines that are there. *)
Definition scroll_by (v : vt) (n : Z) : option vt :=
  let v := set_crow (u8 (crow v + n)) (set_cpos (u16 (cpos v + n * cols v)) v) in
  v ⇐ (if scrbpos v =? 0 then b ← _ttypc_vga_read v 0 (scro v) 0 (rows v * cols v); Some (set_scro b v) else Some v);
  let v := set_scrbpos (u16 (scrbpos v + n)) v in
  v ⇐ _ttypc_vga_write v 0 (scrb v) ((scrbsz v - scrbpos v) * cols v) (Z.min (scrbpos v) (rows v) * cols v);
  if scrbpos v <? rows v then
    v ⇐ _ttypc_vga_write v (scrbpos v * cols v) (scro v) 0 ((rows v - scrbpos v) * cols v);
    if active v && cst v then v ⇐ _ttypc_vga_setcursor v; Some (_ttypc_vga_togglecursor v true) else Some v
  else Some (_ttypc_vga_togglecursor v false).

Definition _ttypc_vga_scroll (v : vt) (n : Z) : option vt :=
  let n := if scrbsz v - scrbpos v <? n then scrbsz v - scrbpos v else if n <? - scrbpos v then - scrbpos v else n in
  if n =? 0 then Some v else scroll_by v n.

Definition _ttypc_vga_scrollcancel (v : vt) : option vt :=
  if scrbpos v =? 0 then Some v
  else
    v ⇐ _ttypc_vga_write v 0 (scro v) 0 (rows v * cols v);
    let v := set_crow (u8 (crow v - scrbpos v)) (set_cpos (u16 (cpos v - scrbpos v * cols v)) v) in
    v ⇐ (if active v && cst v then v ⇐ _ttypc_vga_setcursor v; Some (_ttypc_vga_togglecursor v true) else Some v);
    Some (set_scrbpos 0 v).

(** ** Character tables *)

Definition csgr : list Z := [0x07; 0x0f; 0x67; 0x5f; 0x87; 0x9f; 0xe7; 0xdf; 0x70; 0x7f; 0x76; 0x7f; 0xf0; 0xff; 0xf6; 0xff].
Definition msgr : list Z := [0x07; 0x01; 0x01; 0x01; 0x87; 0x81; 0x81; 0x81; 0x70; 0x70; 0x70; 0x70; 0xf0; 0xf0; 0xf0; 0xf0].
Definition fgansitopc : list Z := [0; 4; 2; 6; 1; 5; 3; 7].
Definition bgansitopc : list Z := [0; 0x40; 0x20; 0x60; 0x10; 0x50; 0x30; 0x70].
Definition ascii : list Z := seqZ 0x20 96.
Definition supg : list Z := [
  0x20; 0xad; 0x9b; 0x9c; 0x20; 0x9d; 0x20; 0x20; 0x20; 0x20; 0xa6; 0xae; 0x20; 0x20; 0x20; 0x20;
  0xf8; 0xf1; 0xfd; 0x20; 0x20; 0xe6; 0x20; 0x20; 0x20; 0x20; 0xa7; 0xaf; 0xac; 0xab; 0x20; 0xa8;
  0x20; 0x20; 0x20; 0x20; 0x8e; 0x8f; 0x92; 0x80; 0x20; 0x90; 0x20; 0x20; 0x8d; 0xa1; 0x8c; 0x8b;
  0x20; 0xa5; 0x20; 0x20; 0x20; 0x20; 0x99; 0x20; 0x20; 0x20; 0x20; 0x20; 0x9a; 0x20; 0x20; 0xe1;
  0x85; 0xa0; 0x83; 0x20; 0x84; 0x86; 0x91; 0x87; 0x8a; 0x82; 0x88; 0x89; 0x8d; 0xa1; 0x8c; 0x8b;
  0x20; 0xa4; 0x95; 0xa2; 0x93; 0x20; 0x94; 0x20; 0x20; 0x97; 0xa3; 0x96; 0x81; 0x98; 0x20; 0x20].

Definition charset_at (s : charsets) (g : gslot) : list Z :=
  match g with AtG0 => G0 s | AtG1 => G1 s | AtG2 => G2 s | AtG3 => G3 s end.
Definition set_GL (g : gslot) (v : vt) : vt := set_cs (mk_charsets (G0 (cs v)) (G1 (cs v)) (G2 (cs v)) (G3 (cs v)) g (GR (cs v))) v.
Definition set_GR (g : gslot) (v : vt) : vt := set_cs (mk_charsets (G0 (cs v)) (G1 (cs v)) (G2 (cs v)) (G3 (cs v)) (GL (cs v)) g) v.

(** ** Functions of the terminal ([ttypc_vtf.c]) *)

Definition parm (v : vt) (i : Z) : Z := arr_get (parms v) i.
Definition sgr_attr (v : vt) (sgr : Z) : Z := u16 (arr_get (if color v then csgr else msgr) sgr <<< 8).

Definition _ttypc_vtf_clrparms (v : vt) : vt := set_parmi 0 (set_parms (replicate (Z.to_nat MAXPARMS) 0) v).

Definition _ttypc_vtf_str (v : vt) : vt :=
  let v := set_bottom (u8 (rows v - 1)) (set_top 0 v) in
  let v := _ttypc_vga_togglecursor (set_ctype CUR_DEF (set_cst true v)) true in
  let v := set_sgr VT_NORMAL (set_escst ESC_INIT v) in
  let v := set_attr (sgr_attr v (sgr v)) v in
  let v := set_tabs ((fun i => i mod 8 =? 0) <$> seqZ 0 MAXTABS) v in
  let v := _ttypc_vtf_clrparms v in
  let v := emit (Leds 0) (set_lockst 0 v) in
  let v := set_modes (mk_modes true false false false true false false (lc v)) v in
  set_cs (mk_charsets ascii ascii supg supg AtG0 AtG2) v.

Definition _ttypc_vtf_sc (v : vt) : vt :=
  set_sc true (set_sv (mk_saved (ccol v) (crow v) (cpos v) (cs v) (awm v) (om v) (sgr v) (u8 (attr v))) v).

Definition _ttypc_vtf_rc (v : vt) : vt :=
  if negb (sc v) then v
  else
    let s := sv v in
    let v := set_cpos (sccpos s) (set_crow (sccrow s) (set_ccol (sccol s) v)) in
    let v := set_cs (sccs s) v in
    let v := set_attr (scattr s) (set_sgr (scsgr s) (set_om (scom s) (set_awm (scawm s) v))) in
    set_sc false v.

Definition bytes_of (s : string) : list Z := map (fun a => Z.of_N (N_of_ascii a)) (String.list_ascii_of_string s).
Definition answer (s : string) (v : vt) : vt := emit (Respond (27 :: bytes_of s)) v.

Definition _ttypc_vtf_da (v : vt) : vt := answer "[62;c" v.

Definition _ttypc_vtf_aln (v : vt) : option vt :=
  _ttypc_vga_set (set_crow 0 (set_ccol 0 (set_cpos 0 v))) 0 (attr v ||| 69) (rows v * cols v).

(** [p = vt->parms[0]; if (p < 1) p = 1; else if (p > max) p = max;] *)
Definition count (v : vt) (max : Z) : Z := let p := parm v 0 in if p <? 1 then 1 else if max <? p then max else p.

Definition _ttypc_vtf_su (v : vt) : option vt := _ttypc_vga_rollup v (u32 (count v (rows v - 1))).
Definition _ttypc_vtf_sd (v : vt) : option vt := _ttypc_vga_rolldown v (u32 (count v (rows v - 1))).

Definition _ttypc_vtf_cuu (v : vt) : vt := set_cpos (u16 (cpos v - cols v * count v (crow v - top v))) v.
Definition _ttypc_vtf_cud (v : vt) : vt := set_cpos (u16 (cpos v + cols v * count v (bottom v - crow v))) v.
Definition _ttypc_vtf_cuf (v : vt) : vt :=
  let p := count v (cols v - ccol v - 1) in set_ccol (u8 (ccol v + p)) (set_cpos (u16 (cpos v + p)) v).
Definition _ttypc_vtf_cub (v : vt) : vt :=
  let p := count v (ccol v) in set_ccol (u8 (ccol v - p)) (set_cpos (u16 (cpos v - p)) v).

Definition _ttypc_vtf_clreos (v : vt) : option vt :=
  if parm v 0 =? 0 then _ttypc_vga_set v (cpos v) (blank v) (cols v * rows v - cpos v)
  else if parm v 0 =? 1 then _ttypc_vga_set v 0 (blank v) (cpos v + 1)
  else if parm v 0 =? 2 then _ttypc_vga_set v 0 (blank v) (cols v * rows v)
  else Some v.

Definition _ttypc_vtf_clreol (v : vt) : option vt :=
  if parm v 0 =? 0 then _ttypc_vga_set v (cpos v) (blank v) (cols v - ccol v)
  else if parm v 0 =? 1 then _ttypc_vga_set v (cpos v - ccol v) (blank v) (ccol v + 1)
  else if parm v 0 =? 2 then _ttypc_vga_set v (cpos v - ccol v) (blank v) (cols v)
  else Some v.

Definition set_parm (i x : Z) (v : vt) : vt := set_parms (arr_set (parms v) i (u16 x)) v.
(** [if (x < lo) x = lo; else if (x > hi) x = hi;] on a parameter. *)
Definition range_parm (i lo hi : Z) (v : vt) : vt :=
  if parm v i <? lo then set_parm i lo v else if hi <? parm v i then set_parm i hi v else v.

Definition _ttypc_vtf_curadr (v : vt) : vt :=
  if (parm v 0 =? 0) && (parm v 1 =? 0) then set_ccol 0 (set_cpos (if om v then u16 (top v * cols v) else 0) v)
  else
    let v := range_parm 0 1 (if om v then bottom v - top v + 1 else rows v) v in
    let v := range_parm 1 1 (cols v) v in
    let v := set_cpos (u16 ((parm v 0 - 1) * cols v + parm v 1 - 1 + (if om v then top v * cols v else 0))) v in
    set_ccol (u8 (parm v 1 - 1)) v.

(** To the first column. *)
Definition home_column (v : vt) : vt := set_ccol 0 (set_cpos (u16 (cpos v - ccol v)) v).

Definition _ttypc_vtf_il (v : vt) : option vt :=
  if (top v <=? crow v) && (crow v <=? bottom v) then
    let p := count v (bottom v - crow v) in
    let v := home_column v in
    if crow v =? top v then _ttypc_vga_rolldown v (u32 p)
    else
      v ⇐ _ttypc_vga_move v (cpos v + p * cols v) (cpos v) ((bottom v - crow v + 1 - p) * cols v);
      _ttypc_vga_set v (cpos v) (blank v) (p * cols v)
  else Some v.

Definition _ttypc_vtf_ic (v : vt) : option vt :=
  let p := count v (cols v - ccol v) in
  v ⇐ _ttypc_vga_move v (cpos v + p) (cpos v) (cols v - ccol v - p);
  _ttypc_vga_set v (cpos v) (blank v) p.

Definition _ttypc_vtf_dl (v : vt) : option vt :=
  if (top v <=? crow v) && (crow v <=? bottom v) then
    let p := count v (bottom v - crow v) in
    let v := home_column v in
    if crow v =? top v then _ttypc_vga_rollup v (u32 p)
    else
      v ⇐ _ttypc_vga_move v (cpos v) (cpos v + p * cols v) ((bottom v - crow v + 1 - p) * cols v);
      _ttypc_vga_set v ((bottom v + 1 - p) * cols v) (blank v) (p * cols v)
  else Some v.

Definition _ttypc_vtf_dch (v : vt) : option vt :=
  let p := count v (cols v - ccol v) in
  v ⇐ _ttypc_vga_move v (cpos v) (cpos v + p) (cols v - ccol v - p);
  _ttypc_vga_set v (cpos v + cols v - p) (blank v) p.

Definition _ttypc_vtf_ri (v : vt) : option vt :=
  if (top v + 1) * cols v <=? cpos v then Some (set_cpos (u16 (cpos v - cols v)) v) else _ttypc_vga_rolldown v 1.

Definition _ttypc_vtf_ind (v : vt) : option vt :=
  if cpos v <? bottom v * cols v then Some (set_cpos (u16 (cpos v + cols v)) v) else _ttypc_vga_rollup v 1.

Definition _ttypc_vtf_nel (v : vt) : option vt :=
  if cpos v <? bottom v * cols v then Some (set_ccol 0 (set_cpos (u16 (cpos v + (cols v - ccol v))) v))
  else v ⇐ _ttypc_vga_rollup v 1; Some (home_column v).

(** [vt->tabs[i] = b] *)
Definition store_tab (v : vt) (i : Z) (b : bool) : option vt :=
  if (0 <=? i) && (i <? MAXTABS) then Some (set_tabs (<[Z.to_nat i := b]> (tabs v)) v) else None.

Definition _ttypc_vtf_clrtab (v : vt) : option vt :=
  if parm v 0 =? 0 then store_tab v (ccol v) false
  else if parm v 0 =? 3 then Some (set_tabs (replicate (Z.to_nat MAXTABS) false) v)
  else Some v.

Definition _ttypc_vtf_ris (v : vt) : option vt :=
  let v := set_crow 0 (set_ccol 0 (set_cpos 0 v)) in
  let v := set_scrbpos 0 (set_scrbsz 0 v) in
  v ⇐ _ttypc_vga_set v 0 (blank v) (cols v * rows v);
  Some (_ttypc_vtf_str v).

Definition _ttypc_vtf_ech (v : vt) : option vt := _ttypc_vga_set v (cpos v) (blank v) (count v (cols v - ccol v)).
Definition _ttypc_vtf_mc (v : vt) : vt := v.
Definition _ttypc_vtf_tst (v : vt) : vt := v.

(** One parameter of SGR, on the configuration, the attribute and [cc]. *)
Definition sgr_parm (color : bool) (p : Z) (st : Z * Z * bool) : Z * Z * bool :=
  let '(sgr, attr, cc) := st in
  let within lo := (lo <=? p) && (p <=? lo + 7) in
  let paint a := if color then (sgr, a, true) else (sgr, attr, cc) in
  let fg i := (attr &&& 0xf000) ||| (arr_get fgansitopc i <<< 8) in
  let bg i := (arr_get bgansitopc i <<< 8) ||| (attr &&& 0x0f00) in
  if p =? 0 then (VT_NORMAL, attr, false)
  else if p =? 1 then (sgr ||| VT_BOLD, attr, cc)
  else if p =? 4 then (sgr ||| VT_UNDER, attr, cc)
  else if p =? 5 then (sgr ||| VT_BLINK, attr, cc)
  else if p =? 7 then (sgr ||| VT_INVERSED, attr, cc)
  else if p =? 22 then (sgr &&& lnot_w 8 VT_BOLD, attr, cc)
  else if p =? 24 then (sgr &&& lnot_w 8 VT_UNDER, attr, cc)
  else if p =? 25 then (sgr &&& lnot_w 8 VT_BLINK, attr, cc)
  else if p =? 27 then (sgr &&& lnot_w 8 VT_INVERSED, attr, cc)
  else if within 30 then paint (fg ((p - 30) &&& 7))
  else if p =? 39 then paint (fg FG_LIGHTGREY)
  else if within 40 then paint (bg ((p - 40) &&& 7))
  else if p =? 49 then paint (bg BG_BLACK)
  else if within 90 then paint (fg ((p - 90) &&& 7) ||| 0x0800)
  else if within 100 then paint (bg ((p - 100) &&& 7) ||| 0x8000)
  else st.

(** The parameters [i], [i + 1], ..., [n] of them. *)
Fixpoint sgr_loop (n : nat) (v : vt) (i : Z) (st : Z * Z * bool) : option (Z * Z * bool) :=
  match n with
  | O => Some st
  | S n => p ← load (parms v) i; sgr_loop n v (i + 1) (sgr_parm (color v) p st)
  end.

Definition sgr_bold (sgr attr : Z) : Z :=
  if has sgr VT_BOLD then
    if has sgr VT_INVERSED then (attr &&& lnot_w 16 FG_BRIGHT) ||| BG_BRIGHT
    else (attr ||| FG_BRIGHT) &&& lnot_w 16 BG_BRIGHT
  else attr.

Definition _ttypc_vtf_sgr (v : vt) : option vt :=
  st ← sgr_loop (S (Z.to_nat (parmi v))) v 0 (sgr v, attr v, false);
  let '(sgr, attr, cc) := st in
  let v := set_sgr sgr v in
  if color v then
    a ← (if (cc : bool) then Some attr else x ← load csgr sgr; Some (x <<< 8));
    Some (set_attr (sgr_bold sgr a) v)
  else x ← load msgr sgr; Some (set_attr (x <<< 8) v).

(** A number up to 255 as the code prints it. *)
Definition dsr_number (x : Z) : list Z := (if 10 <? x then [48 + x / 10] else []) ++ [48 + x mod 10].

Definition _ttypc_vtf_dsr (v : vt) : vt :=
  if parm v 0 =? 5 then answer "[0n" v
  else if parm v 0 =? 6 then
    emit (Respond ([0x1b; 91] ++ dsr_number (crow v + 1) ++ [59] ++ dsr_number (ccol v + 1) ++ [82])) v
  else if parm v 0 =? 15 then answer "[?13n" v
  else if parm v 0 =? 25 then answer "[?21n" v
  else if parm v 0 =? 26 then answer "[?27;1n" v
  else v.

Definition _ttypc_vtf_stbm (v : vt) : vt :=
  if (parm v 0 =? 0) && (parm v 1 =? 0) then set_ccol 0 (set_bottom (u8 (rows v - 1)) (set_top 0 (set_cpos 0 v)))
  else if parm v 1 <=? parm v 0 then v
  else
    let v := range_parm 0 1 (rows v - 1) v in
    let v := range_parm 1 2 (rows v) v in
    let v := set_bottom (u8 (parm v 1 - 1)) (set_top (u8 (parm v 0 - 1)) v) in
    set_ccol 0 (set_cpos (if om v then u16 (top v * cols v) else 0) v).

(** The new value of a cell. *)
Definition _ttypc_vtf_setattr (attr cell : Z) : Z :=
  let nattr := attr in
  let nattr := if negb (Z.lxor (cell &&& 0x0f00) ((attr &&& 0xf000) >>> 4) =? 0) then (cell &&& 0x0f00) ||| (nattr &&& 0xf0ff) else nattr in
  let nattr := if negb (Z.lxor ((cell &&& 0xf000) >>> 4) (attr &&& 0x0f00) =? 0) then (cell &&& 0xf000) ||| (nattr &&& 0x0fff) else nattr in
  (cell &&& 0x00ff) ||| nattr.
(** On the first [n] cells of a buffer. *)
Definition _ttypc_vtf_applyattr (l : list Z) (n attr : Z) : option (list Z) :=
  if n <=? zlen l then Some (map (_ttypc_vtf_setattr attr) (take (Z.to_nat n) l) ++ drop (Z.to_nat n) l) else None.

Definition _ttypc_vtf_applysgr (v : vt) (sgr : Z) : option vt :=
  let v := set_attr (sgr_attr v sgr) (set_sgr sgr v) in
  m ← _ttypc_vtf_applyattr (vram v) (rows v * cols v) (attr v);
  let v := set_vram m v in
  b ← _ttypc_vtf_applyattr (scrb v) (scrbsz v * cols v) (attr v);
  let v := set_scrb b v in
  if negb (scrbpos v =? 0) then o ← _ttypc_vtf_applyattr (scro v) (rows v * cols v) (attr v); Some (set_scro o v) else Some v.

Definition _ttypc_vtf_setdecpriv (v : vt) : option vt :=
  let p := parm v 0 in
  if (p =? 0) || (p =? 1) then Some (set_ckm true v)
  else if p =? 5 then _ttypc_vtf_applysgr v VT_INVERSED
  else if p =? 6 then Some (set_om true v)
  else if p =? 7 then Some (set_awm true v)
  else if p =? 8 then Some (set_arm true v)
  else if p =? 25 then Some (_ttypc_vga_togglecursor (set_cst true v) true)
  else Some v.

Definition _ttypc_vtf_resetdecpriv (v : vt) : option vt :=
  let p := parm v 0 in
  if (p =? 0) || (p =? 1) then Some (set_ckm false v)
  else if p =? 5 then _ttypc_vtf_applysgr v VT_NORMAL
  else if p =? 6 then Some (set_om false v)
  else if p =? 7 then Some (set_awm false v)
  else if p =? 8 then Some (set_arm false v)
  else if p =? 25 then Some (_ttypc_vga_togglecursor (set_cst false v) false)
  else Some v.

Definition _ttypc_vtf_setansi (v : vt) : vt :=
  if parm v 0 =? 4 then set_irm true v else if parm v 0 =? 20 then set_lnm true v else v.
Definition _ttypc_vtf_resetansi (v : vt) : vt :=
  if parm v 0 =? 4 then set_irm false v else if parm v 0 =? 20 then set_lnm false v else v.

Definition _ttypc_vtf_reqtparm (v : vt) : vt := answer "[3;1;1;120;120;1;0x" v.
Definition update_leds (x : Z) (v : vt) : vt := emit (Leds x) (set_lockst x v).
Definition _ttypc_vtf_keynum (v : vt) : vt := update_leds (lockst v ||| KB_NUM) v.
Definition _ttypc_vtf_keyappl (v : vt) : vt := update_leds (lockst v &&& lnot_w 8 KB_NUM) v.

(** ** Characters ([ttypc_vt.c]) *)

(** Whether the compiler's [char] is signed (it is by default on ia32). *)
Class CharSign := char_signed : bool.

(** [switch (c)]: the first case of the list that has [c]. *)
Fixpoint switch {A} (c : Z) (cases : list (Z * A)) (default : A) : A :=
  match cases with
  | [] => default
  | (k, a) :: cases => if c =? k then a else switch c cases default
  end.
Definition ch (a : Ascii.ascii) : Z := Z.of_N (N_of_ascii a).
Arguments ch a%_char_scope.

Section sput.
Context {CS : CharSign}.

Definition to_char (x : Z) : Z := if char_signed then s8 x else u8 x.

Definition _ttypc_vt_sdraw (v : vt) (c : Z) : option vt :=
  c ← (if (0x20 <=? c) && (c <=? 0x7f) then
         x ← load (charset_at (cs v) (if ss v then Gs v else GL (cs v))) (c - 0x20); Some (to_char x)
       else if 0xa0 <=? c then x ← load (charset_at (cs v) (GR (cs v))) (c - 0xa0); Some (to_char x)
       else Some c);
  let val := u16 (attr v ||| c) in
  m ← store (vram v) (cpos v) val;
  let v := set_ss false (set_vram m v) in
  Some (_ttypc_fbcon_drawChar v (cpos v mod cols v) (cpos v / cols v) val).

Definition backspace (v : vt) : option vt :=
  if negb (ccol v =? 0) then Some (set_cpos (u16 (cpos v - 1)) (set_ccol (u8 (ccol v - 1)) v))
  else
    v ⇐ _ttypc_vtf_ri v;
    Some (set_cpos (u16 (cpos v + (cols v - 1))) (set_ccol (u8 (cols v - 1)) v)).

(** The columns that are left bound the steps of the loop. *)
Fixpoint tab_loop (n : nat) (v : vt) : option vt :=
  match n with
  | O => Some v
  | S n =>
      let v := set_cpos (u16 (cpos v + 1)) v in
      let v := set_ccol (u8 (ccol v + 1)) v in
      stop ← buf_get (tabs v) (ccol v);
      if (stop : bool) then Some v else tab_loop n v
  end.
Definition tab (v : vt) : option vt := tab_loop (Z.to_nat (cols v - 1 - ccol v)) v.

Definition line_feed (v : vt) : vt :=
  let v := if negb (lc v) then
             let v := if lnm v then home_column v else v in set_cpos (u16 (cpos v + cols v)) v
           else v in
  set_lc false v.

Definition cancel (v : vt) : vt := _ttypc_vtf_clrparms (set_escst ESC_INIT v).

Definition control (c : Z) (v : vt) : option vt :=
  switch c [
    (0x08, backspace v); (0x09, tab v);
    (0x0a, Some (line_feed v)); (0x0b, Some (line_feed v)); (0x0c, Some (line_feed v));
    (0x0d, Some (home_column v));
    (0x0e, Some (set_GL AtG1 v)); (0x0f, Some (set_GL AtG0 v));
    (0x18, Some (cancel v)); (0x1a, Some (cancel v));
    (0x1b, Some (_ttypc_vtf_clrparms (set_escst ESC_ESC v)))] (Some v).

(** A character outside escape sequences. *)
Definition print (c : Z) (v : vt) : option vt :=
  v ⇐ (if irm v then _ttypc_vga_move v (cpos v + 1) (cpos v) (cols v - ccol v - 1) else Some v);
  v ⇐ _ttypc_vt_sdraw v c;
  let v := set_lc false v in
  Some (if ccol v <? cols v - 1 then set_cpos (u16 (cpos v + 1)) (set_ccol (u8 (ccol v + 1)) v)
        else if awm v then set_lc true (set_cpos (u16 (cpos v + 1)) (set_ccol 0 v))
        else v).

Definition to_init (v : vt) : option vt := Some (set_escst ESC_INIT v).
(** An operation, and back to plain characters. *)
Definition final (r : option vt) : option vt := v ⇐ r; to_init v.

Definition after_esc (c : Z) (v : vt) : option vt :=
  let family st := Some (set_escst st v) in
  switch c [
    (ch " ", family ESC_BLANK); (ch "#", family ESC_HASH); (ch "&", to_init v); (ch "(", family ESC_BROPN);
    (ch ")", family ESC_BRCLO); (ch "*", family ESC_STAR); (ch "+", family ESC_PLUS); (ch "-", family ESC_MINUS);
    (ch ".", family ESC_DOT); (ch "/", family ESC_SLASH);
    (ch "7", to_init (_ttypc_vtf_sc v)); (ch "8", to_init (_ttypc_vtf_rc v));
    (ch "=", to_init (_ttypc_vtf_keyappl v)); (ch ">", to_init (_ttypc_vtf_keynum v));
    (ch "D", final (_ttypc_vtf_ind v)); (ch "E", final (_ttypc_vtf_nel v)); (ch "H", final (store_tab v (ccol v) true));
    (ch "M", final (_ttypc_vtf_ri v));
    (ch "N", to_init (set_ss true (set_Gs AtG2 v))); (ch "O", to_init (set_ss true (set_Gs AtG3 v)));
    (ch "P", family ESC_DCS); (ch "Z", to_init (_ttypc_vtf_da v)); (ch "[", Some (set_escst ESC_CSI (_ttypc_vtf_clrparms v)));
    (ch "\", to_init v); (ch "c", final (_ttypc_vtf_ris v)); (ch "d", to_init v);
    (ch "n", to_init (set_GL AtG2 v)); (ch "o", to_init (set_GL AtG3 v)); (ch "}", to_init (set_GR AtG2 v));
    (ch "|", to_init (set_GR AtG3 v)); (ch "~", to_init (set_GR AtG1 v))] (to_init v).

Definition is_digit (c : Z) : bool := (48 <=? c) && (c <=? 57).
(** A digit of a parameter. *)
Definition parm_digit (c : Z) (v : vt) : option vt :=
  x ← load (parms v) (parmi v); Some (set_parms (arr_set (parms v) (parmi v) (u16 (u16 (x * 10) + (c - 48)))) v).
Definition next_parm (v : vt) : vt := if parmi v + 1 <? MAXPARMS then set_parmi (u8 (parmi v + 1)) v else v.

Definition after_csi (c : Z) (v : vt) : option vt :=
  if is_digit c then parm_digit c v
  else switch c [
    (ch ";", Some (next_parm v)); (ch "?", Some (set_escst ESC_CSIQM v)); (ch "@", final (_ttypc_vtf_ic v));
    (34, Some (set_escst ESC_SCA v)); (ch "!", Some (set_escst ESC_STR v));
    (ch "A", to_init (_ttypc_vtf_cuu v)); (ch "B", to_init (_ttypc_vtf_cud v)); (ch "C", to_init (_ttypc_vtf_cuf v));
    (ch "D", to_init (_ttypc_vtf_cub v)); (ch "H", to_init (_ttypc_vtf_curadr v)); (ch "J", final (_ttypc_vtf_clreos v));
    (ch "K", final (_ttypc_vtf_clreol v)); (ch "L", final (_ttypc_vtf_il v)); (ch "M", final (_ttypc_vtf_dl v));
    (ch "P", final (_ttypc_vtf_dch v)); (ch "S", final (_ttypc_vtf_su v)); (ch "T", final (_ttypc_vtf_sd v));
    (ch "X", final (_ttypc_vtf_ech v)); (ch "c", to_init (_ttypc_vtf_da v)); (ch "f", to_init (_ttypc_vtf_curadr v));
    (ch "g", final (_ttypc_vtf_clrtab v)); (ch "h", to_init (_ttypc_vtf_setansi v)); (ch "i", to_init (_ttypc_vtf_mc v));
    (ch "l", to_init (_ttypc_vtf_resetansi v)); (ch "m", final (_ttypc_vtf_sgr v)); (ch "n", to_init (_ttypc_vtf_dsr v));
    (ch "r", to_init (_ttypc_vtf_stbm v)); (ch "x", to_init (_ttypc_vtf_reqtparm v)); (ch "y", to_init (_ttypc_vtf_tst v))]
    (to_init v).

Definition after_csiqm (c : Z) (v : vt) : option vt :=
  if is_digit c then parm_digit c v
  else switch c [
    (ch ";", Some (next_parm v)); (ch "h", final (_ttypc_vtf_setdecpriv v)); (ch "l", final (_ttypc_vtf_resetdecpriv v));
    (ch "n", to_init (_ttypc_vtf_dsr v))] (to_init v).

(** A character that is no control character, by the state of the escape sequence. *)
Definition character (c : Z) (v : vt) : option vt :=
  match escst v with
  | ESC_INIT => print c v
  | ESC_ESC => after_esc c v
  | ESC_HASH => switch c [(ch "8", final (_ttypc_vtf_aln v))] (to_init v)
  | ESC_CSI => after_csi c v
  | ESC_CSIQM => after_csiqm c v
  | ESC_STR => switch c [(ch "p", to_init (_ttypc_vtf_str v))] (to_init v)
  | ESC_BLANK | ESC_BROPN | ESC_BRCLO | ESC_STAR | ESC_PLUS | ESC_MINUS | ESC_DOT | ESC_SLASH
  | ESC_DCS | ESC_SCA | ESC_AMPSND => to_init v
  end.

(** What follows every character: a roll when the cursor is below the region. *)
Definition settle (v : vt) : option vt :=
  v ⇐ (if (bottom v + 1) * cols v <=? cpos v then
         v ⇐ _ttypc_vga_rollup v 1; Some (set_cpos (u16 (cpos v - cols v)) v)
       else Some v);
  let v := set_crow (u8 (cpos v / cols v)) v in
  if active v then _ttypc_vga_setcursor v else Some v.

Definition _ttypc_vt_sput (c : Z) (v : vt) : option vt :=
  v ⇐ _ttypc_vga_scrollcancel v;
  v ⇐ (if (c <? 0x20) || (c =? 0x7f) then control c v else character c v);
  settle v.

(** A stream of bytes. *)
Definition sputs (bs : list Z) (v : vt) : option vt := foldl (fun r b => v ⇐ r; _ttypc_vt_sput (to_char b) v) (Some v) bs.
End sput.

(** ** Life of a terminal *)

Definition _ttypc_vt_resize (ws_col ws_row : Z) (v : vt) : vt :=
  let v := emit (Resized ws_col ws_row) v in
  _ttypc_vtf_str (set_rows (u8 ws_row) (set_cols (u8 ws_col) v)).

(** The zeroed structure with its buffers ([ttybuffsz] bytes each), all allocations made. *)
Definition vt_zero (color : bool) (ktype ttybuffsz : Z) : vt :=
  let cells n := replicate (Z.to_nat (n / CHR_VGA)) 0 in
  let none := mk_charsets [] [] [] [] AtG0 AtG0 in
  mk_vt (mk_host false color ktype 0 FBCON_UNSUPPORTED ttybuffsz [])
    (mk_screen (cells ttybuffsz) 0 0 0 0 (cells ttybuffsz) (cells (SCRB_PAGES * ttybuffsz)) 0 0)
    (mk_cursor 0 false 0 0 0 0) (mk_modes false false false false false false false false)
    (mk_chars none AtG0 false 0 0) (mk_parser ESC_INIT 0 (replicate (Z.to_nat MAXPARMS) 0) (replicate (Z.to_nat MAXTABS) false))
    (mk_saved 0 0 0 none false false 0 0) [].

Definition ttypc_vt_init (color : bool) (ktype ttybuffsz : Z) : option vt :=
  let v := set_dpos (-1) (vt_zero color ktype ttybuffsz) in
  let v := _ttypc_vtf_str (set_rows 25 (set_cols 80 v)) in
  _ttypc_vga_set v 0 (blank v) (cols v * rows v).

(** The first terminal becomes the display, in text mode ([main]): [vga] is the display's
    memory, [reg] the cursor register. *)
Definition start_display (vga : list Z) (reg : Z) (v : vt) : option vt :=
  let v := set_active true (set_vram vga (set_mem (vram v) v)) in
  let v := _ttypc_vga_getcursor reg v in
  _ttypc_vga_set v (cpos v) (FG_LIGHTGREY <<< 8) (rows v * cols v - cpos v).

(** [_ttypc_vga_switch] from the active terminal [cvt] to [v]; [maxcols], [maxrows] are the
    frame buffer's. *)
Definition _ttypc_vga_switch (maxcols maxrows : Z) (cvt v : vt) : option (vt * vt) :=
  m ← _ttypc_vga_read cvt 0 (mem cvt) 0 (rows cvt * cols cvt);
  let vga := vram cvt in
  let cvt := set_active false (set_vram m cvt) in
  let v := set_active true v in
  let v := if bool_decide (fbmode v = FBCON_UNSUPPORTED) then v else _ttypc_vt_resize maxcols maxrows v in
  let v := set_vram vga (set_mem (vram v) v) in
  v ⇐ _ttypc_vga_write v 0 (mem v) 0 (rows v * cols v);
  v ⇐ _ttypc_vga_setcursor v;
  Some (cvt, _ttypc_vga_togglecursor v (cst v)).

(** [FBCONSETMODE] *)
Definition fbcon_setmode (mode : option fbcon) (v : vt) : cres vt :=
  if bool_decide (fbmode v = FBCON_UNSUPPORTED) then Err ENODEV
  else match mode with
       | Some FBCON_ENABLED => Ok (set_fbmode FBCON_ENABLED v)
       | Some FBCON_DISABLED => Ok (set_fbmode FBCON_DISABLED v)
       | _ => Err EINVAL
       end.
End Vt.
