(* ===== verification/VtCells.v ===== *)
(** * PC virtual terminal: what the cell loops compute

    The loops of [ttypc_vga.c] over screen and scrollback cells are equal to splices of
    lists; the only other thing they change is the list of events. *)

From S2P Require Import Prelude Slices Vt.

Module VtCells.
Import Vt.
Export Slices.
Implicit Types v w : vt.

(** ** Loads and stores *)

Lemma load_Some l i x : 0 <= i -> l !! Z.to_nat i = Some x -> load l i = Some x.
Proof. intros. unfold load, buf_get. by rewrite bool_decide_eq_true_2. Qed.

Lemma load_in l i : 0 <= i < zlen l -> exists x, load l i = Some x /\ l !! Z.to_nat i = Some x.
Proof.
  intros Hi. destruct (lookup_lt_is_Some_2 l (Z.to_nat i)) as [x Hx]; [unfold zlen in Hi; lia|]. exists x. split; [|done]. apply load_Some; [lia|done].
Qed.

Lemma load_out l i : zlen l <= i -> load l i = None.
Proof. intros Hi. unfold load, buf_get. case_bool_decide; [|done]. apply lookup_ge_None. unfold zlen in Hi. lia. Qed.

Lemma store_in l i x : 0 <= i < zlen l -> store l i x = Some (<[Z.to_nat i := x]> l).
Proof. intros. unfold store. rewrite (proj2 (Z.leb_le _ _)), (proj2 (Z.ltb_lt _ _)) by lia. done. Qed.

Lemma store_out l i x : zlen l <= i -> store l i x = None.
Proof. intros. unfold store. rewrite (proj2 (Z.ltb_ge _ _)) by lia. by rewrite andb_false_r. Qed.

(** ** Events *)

Definition add_out (es : list event) (v : vt) : vt :=
  mk_vt (vt_host v) (vt_screen v) (vt_cursor v) (vt_modes v) (vt_chars v) (vt_parser v) (sv v) (es ++ out v).

Lemma add_out_nil v : add_out [] v = v.
Proof. by destruct v. Qed.
Lemma add_out_app es es' v : add_out es (add_out es' v) = add_out (es ++ es') v.
Proof. unfold add_out. cbn. by rewrite app_assoc. Qed.

Lemma set_vram_id v : set_vram (vram v) v = v.
Proof. by destruct v as [? []]. Qed.

Lemma drawChar_out v col row val : exists es, _ttypc_fbcon_drawChar v col row val = add_out es v.
Proof. unfold _ttypc_fbcon_drawChar. case_if; [by exists [Draw (u16 col) (u16 row) (u16 val)]|]. exists []. by rewrite add_out_nil. Qed.

(** The result [v'] of a loop that leaves [m] on the screen. *)
Definition paints (r : option vt) (v : vt) (m : list Z) : Prop := exists es, r = Some (add_out es (set_vram m v)).

Lemma paints_step (r : option vt) v es m m' :
  paints r (add_out es (set_vram m v)) m' -> paints r v m'.
Proof. intros [es' ->]. exists (es' ++ es). f_equal. rewrite <- add_out_app. done. Qed.

Lemma paints_refl v : paints (Some v) v (vram v).
Proof. exists []. by rewrite set_vram_id, add_out_nil. Qed.

(** ** The loops *)

Lemma of_nat_S n : Z.of_nat n + 1 = Z.of_nat (S n).
Proof. lia. Qed.

Lemma set_loop_paints n : forall v offs val col row, (offs + n <= length (vram v))%nat ->
  paints (set_loop n v (Z.of_nat offs) val col row) v (splice (vram v) offs (replicate n val)).
Proof.
  induction n as [|n IH]; intros v offs val col row Hl; cbn [set_loop].
  - cbn. rewrite splice_nil. apply paints_refl.
  - rewrite store_in by (unfold zlen; lia). cbn. rewrite Nat2Z.id. destruct (drawChar_out (set_vram (<[offs:=val]> (vram v)) v) col row val) as [es ->].
    destruct (next_cell _ col row) as [c r]. apply (paints_step _ v es (<[offs:=val]> (vram v))).
    rewrite <- splice_cons by (rewrite length_replicate; lia). rewrite of_nat_S.
    apply (IH (add_out es (set_vram (<[offs:=val]> (vram v)) v))). cbn. rewrite length_insert. lia.
Qed.

Lemma write_loop_paints n : forall v offs buff bo col row, (offs + n <= length (vram v))%nat -> (bo + n <= length buff)%nat ->
  paints (write_loop n v (Z.of_nat offs) buff (Z.of_nat bo) col row) v (splice (vram v) offs (span buff bo n)).
Proof.
  induction n as [|n IH]; intros v offs buff bo col row Hl Hb; cbn [write_loop].
  - unfold span. cbn. rewrite splice_nil. apply paints_refl.
  - destruct (load_in buff (Z.of_nat bo)) as (x & -> & Hx); [unfold zlen; lia|]. rewrite Nat2Z.id in Hx. cbn [mbind option_bind].
    rewrite store_in by (unfold zlen; lia). cbn [mbind option_bind]. rewrite Nat2Z.id.
    destruct (drawChar_out (set_vram (<[offs:=x]> (vram v)) v) col row x) as [es ->].
    destruct (next_cell _ col row) as [c r]. apply (paints_step _ v es (<[offs:=x]> (vram v))).
    unfold span. rewrite (drop_S buff x bo Hx). cbn [take]. fold (span buff (S bo) n).
    rewrite <- splice_cons by (rewrite length_span by lia; lia). rewrite !of_nat_S.
    apply (IH (add_out es (set_vram (<[offs:=x]> (vram v)) v))); [|lia]. cbn. rewrite length_insert. lia.
Qed.

Lemma read_loop_splice n : forall src so buff bo, (so + n <= length src)%nat -> (bo + n <= length buff)%nat ->
  read_loop n src (Z.of_nat so) buff (Z.of_nat bo) = Some (splice buff bo (span src so n)).
Proof.
  induction n as [|n IH]; intros src so buff bo Hs Hb; cbn [read_loop].
  - unfold span. cbn. by rewrite splice_nil.
  - destruct (load_in src (Z.of_nat so)) as (x & -> & Hx); [unfold zlen; lia|]. rewrite Nat2Z.id in Hx. cbn [mbind option_bind].
    rewrite store_in by (unfold zlen; lia). cbn [mbind option_bind]. rewrite Nat2Z.id.
    rewrite !of_nat_S.
    rewrite IH by (rewrite ?length_insert; lia). f_equal. unfold span at 2. rewrite (drop_S src x so Hx). cbn [take]. fold (span src (S so) n).
    apply splice_cons. rewrite length_span by lia. lia.
Qed.

Lemma move_forward_paints n : forall v d s col row, (d < s)%nat -> (s + n <= length (vram v))%nat ->
  paints (move_forward n v (Z.of_nat d) (Z.of_nat s) col row) v (blit (vram v) d s n).
Proof.
  induction n as [|n IH]; intros v d s col row Hds Hs; cbn [move_forward].
  - unfold blit. cbn. rewrite splice_nil. apply paints_refl.
  - destruct (load_in (vram v) (Z.of_nat s)) as (x & -> & Hx); [unfold zlen; lia|]. rewrite Nat2Z.id in Hx. cbn [mbind option_bind].
    rewrite store_in by (unfold zlen; lia). cbn [mbind option_bind]. rewrite Nat2Z.id.
    destruct (load_in (<[d:=x]> (vram v)) (Z.of_nat s)) as (y & -> & Hy); [unfold zlen; rewrite length_insert; lia|]. cbn [mbind option_bind].
    destruct (drawChar_out (set_vram (<[d:=x]> (vram v)) v) col row y) as [es ->].
    destruct (next_cell _ col row) as [c r]. apply (paints_step _ v es (<[d:=x]> (vram v))).
    rewrite <- (blit_front _ _ _ _ x) by (done || lia). rewrite !of_nat_S.
    apply (IH (add_out es (set_vram (<[d:=x]> (vram v)) v))); [lia|]. cbn. rewrite length_insert. lia.
Qed.

(** The test that ends the loop early is never met: the position drawn at is above 0. *)
Lemma move_backward_paints n : forall v d s col row, (s <= d)%nat -> (d + n <= length (vram v))%nat ->
  0 <= col < cols v -> 0 <= row -> row * cols v + col = Z.of_nat (d + n) ->
  paints (move_backward n v (Z.of_nat d) (Z.of_nat s) col row) v (blit (vram v) d s n).
Proof.
  induction n as [|n IH]; intros v d s col row Hds Hd Hcol Hrow Hpos; cbn [move_backward].
  - unfold blit. cbn. rewrite splice_nil. apply paints_refl.
  - rewrite <- !Nat2Z.inj_add. destruct (load_in (vram v) (Z.of_nat (s + n))) as (x & -> & Hx); [unfold zlen; lia|]. rewrite Nat2Z.id in Hx. cbn [mbind option_bind].
    rewrite store_in by (unfold zlen; lia). cbn [mbind option_bind]. rewrite Nat2Z.id.
    destruct (load_in (<[(d + n)%nat:=x]> (vram v)) (Z.of_nat (s + n))) as (y & -> & Hy); [unfold zlen; rewrite length_insert; lia|]. cbn [mbind option_bind].
    destruct (drawChar_out (set_vram (<[(d + n)%nat:=x]> (vram v)) v) col row y) as [es ->].
    apply (paints_step _ v es (<[(d + n)%nat:=x]> (vram v))). rewrite <- (blit_back _ _ _ _ x) by (done || lia).
    set (w := add_out es (set_vram (<[(d + n)%nat:=x]> (vram v)) v)).
    assert (Hw : cols w = cols v /\ vram w = <[(d + n)%nat:=x]> (vram v)) by done. destruct Hw as [Hc Hm].
    rewrite <- Hm. case_if; bsimp; [|case_if; bsimp].
    + apply IH; rewrite ?Hc, ?Hm, ?length_insert; try done; lia.
    + exfalso. lia.
    + apply IH; rewrite ?Hc, ?Hm, ?length_insert; try done; nia.
Qed.

(** ** The functions, with the offsets of the callers *)

Lemma u32_id x : 0 <= x < 2 ^ 32 -> u32 x = x.
Proof. apply u32_small. Qed.

Section in_range.
Context (v : vt).
Hypothesis Hlen : zlen (vram v) < 2 ^ 32.

Lemma vga_set_paints offs val n : 0 <= offs -> 0 <= n -> offs + n <= zlen (vram v) ->
  paints (_ttypc_vga_set v offs val n) v (splice (vram v) (Z.to_nat offs) (replicate (Z.to_nat n) (u16 val))).
Proof.
  intros. unfold _ttypc_vga_set, zlen in *. rewrite !u32_id by lia. rewrite <- (Z2Nat.id offs) at 1 by done. apply set_loop_paints. lia.
Qed.

Lemma vga_write_paints offs buff bo n : 0 <= offs -> 0 <= bo -> 0 <= n -> offs + n <= zlen (vram v) -> bo + n <= zlen buff < 2 ^ 32 ->
  paints (_ttypc_vga_write v offs buff bo n) v (splice (vram v) (Z.to_nat offs) (span buff (Z.to_nat bo) (Z.to_nat n))).
Proof.
  intros. unfold _ttypc_vga_write, zlen in *. rewrite !u32_id by lia. rewrite <- (Z2Nat.id offs) at 1 by done. rewrite <- (Z2Nat.id bo) at 1 by done.
  apply write_loop_paints; lia.
Qed.

Lemma vga_read_splice offs buff bo n : 0 <= offs -> 0 <= bo -> 0 <= n -> offs + n <= zlen (vram v) -> bo + n <= zlen buff < 2 ^ 32 ->
  _ttypc_vga_read v offs buff bo n = Some (splice buff (Z.to_nat bo) (span (vram v) (Z.to_nat offs) (Z.to_nat n))).
Proof.
  intros. unfold _ttypc_vga_read, zlen in *. rewrite !u32_id by lia. rewrite <- (Z2Nat.id offs) at 1 by done. rewrite <- (Z2Nat.id bo) at 1 by done.
  apply read_loop_splice; lia.
Qed.

Lemma vga_move_paints d s n : 0 < cols v -> 0 <= d -> 0 <= s -> 0 <= n -> d + n <= zlen (vram v) -> s + n <= zlen (vram v) ->
  paints (_ttypc_vga_move v d s n) v (blit (vram v) (Z.to_nat d) (Z.to_nat s) (Z.to_nat n)).
Proof.
  intros Hc ?????. unfold _ttypc_vga_move, zlen in *. rewrite !u32_id by lia.
  case_if; bsimp; rewrite <- (Z2Nat.id d) at 1 by done; rewrite <- (Z2Nat.id s) at 1 by done.
  - apply move_forward_paints; lia.
  - pose proof (Z.mod_pos_bound (d + n) (cols v) Hc). pose proof (Z.div_mod (d + n) (cols v)).
    apply move_backward_paints; [lia|lia|done| |nia]. apply Z.div_pos; lia.
Qed.
End in_range.

(** ** Outside the buffer *)

Lemma set_loop_out n : forall v offs val col row, 0 <= offs -> zlen (vram v) < offs + Z.of_nat n -> (n <> 0)%nat ->
  set_loop n v offs val col row = None.
Proof.
  induction n as [|n IH]; intros v offs val col row Ho Hl Hn; [done|]. cbn [set_loop].
  destruct (Z.le_gt_cases (zlen (vram v)) offs); [by rewrite store_out|]. rewrite store_in by lia. cbn [mbind option_bind].
  destruct (drawChar_out (set_vram (<[Z.to_nat offs:=val]> (vram v)) v) col row val) as [es ->].
  destruct (next_cell _ col row) as [c r]. apply IH; [lia| |]; cbn; unfold zlen in *; rewrite ?length_insert; lia.
Qed.

Lemma read_loop_out n : forall src so buff bo, 0 <= so -> zlen src < so + Z.of_nat n -> (n <> 0)%nat -> read_loop n src so buff bo = None.
Proof.
  induction n as [|n IH]; intros src so buff bo Ho Hl Hn; [done|]. cbn [read_loop].
  destruct (Z.le_gt_cases (zlen src) so); [by rewrite load_out|]. destruct (load src so); [|done]. cbn [mbind option_bind].
  destruct (store buff bo z); [|done]. cbn [mbind option_bind]. apply IH; lia.
Qed.

Lemma move_backward_out n v d s col row : 0 <= s -> zlen (vram v) < s + Z.of_nat n -> (n <> 0)%nat -> move_backward n v d s col row = None.
Proof. intros Hs Hl Hn. destruct n as [|n]; [done|]. cbn [move_backward]. by rewrite load_out by lia. Qed.
End VtCells.
