(* ===== verification/VtSafe.v ===== *)
(** * PC virtual terminal: the invariant and memory safety

    [plain]: the cursor is on the screen and its offset agrees with its row and column, the
    margins are on the screen, every index the code forms from the state is within its
    array. Every character keeps it, but for a few escape sequences that [hazard] names;
    those do break it. *)

From S2P Require Import Prelude Vt VtCells.
From Stdlib Require Import Ascii.

Module VtSafe.
Import Vt VtCells.
Implicit Types v w : vt.

(** ** The invariant *)

Definition capacity (v : vt) : Z := _ttypc_vga_scrollbackcapacity v.

Record geometry (v : vt) : Prop := {
  g_rows : 2 <= rows v <= 255;
  g_cols : 1 <= cols v <= MAXTABS;
  g_screen : rows v * cols v <= 2 ^ 15;
  g_vram : rows v * cols v <= zlen (vram v) < 2 ^ 31;
  g_scro : rows v * cols v <= zlen (scro v) < 2 ^ 32;
  g_cap : 1 <= capacity v < 2 ^ 16;
  g_scrb : capacity v * cols v <= zlen (scrb v) < 2 ^ 32;
}.

Definition cs_ok (s : charsets) : Prop := forall g, zlen (charset_at s g) = 96.
(** A place of the screen: column, row and offset. *)
Definition on_screen (v : vt) (c r p : Z) : Prop := 0 <= c < cols v /\ 0 <= r < rows v /\ p = r * cols v + c.

Record core (v : vt) : Prop := {
  k_geo : geometry v;
  k_margins : 0 <= top v < bottom v /\ bottom v < rows v;
  k_hist : 0 <= scrbsz v <= capacity v;
  k_dpos : -1 <= dpos v < rows v * cols v;
  k_sgr : 0 <= sgr v < 16;
  k_cs : cs_ok (cs v);
  k_parms : 0 <= parmi v < MAXPARMS /\ zlen (parms v) = MAXPARMS /\ Forall (fun p => 0 <= p < 2 ^ 16) (parms v);
  k_tabs : zlen (tabs v) = MAXTABS;
  k_saved : sc v = true -> on_screen v (sccol (sv v)) (sccrow (sv v)) (sccpos (sv v)) /\ cs_ok (sccs (sv v)) /\ 0 <= scsgr (sv v) < 16;
}.

Record plain (v : vt) : Prop := {
  p_core : core v;
  p_live : scrbpos v = 0;
  p_cur : on_screen v (ccol v) (crow v) (cpos v);
}.

(** While a character is processed: the offset may be one row below the screen, and [crow] is not up to date. *)
Record mid (v : vt) : Prop := {
  m_core : core v;
  m_live : scrbpos v = 0;
  m_col : 0 <= ccol v < cols v;
  m_row : exists r, 0 <= r <= rows v /\ cpos v = r * cols v + ccol v;
}.

(** A result that is a state with [P]. *)
Definition ok (r : option vt) (P : vt -> Prop) : Prop := match r with Some v => P v | None => False end.

Lemma ok_bind r k P : ok r (fun v => ok (k v) P) -> ok (mbind (M := option) k r) P.
Proof. by destruct r. Qed.
Lemma ok_mono r (P Q : vt -> Prop) : ok r P -> (forall v, P v -> Q v) -> ok r Q.
Proof. destruct r; cbn; auto. Qed.
Lemma ok_elim r P : ok r P -> exists v, r = Some v /\ P v.
Proof. destruct r as [v|]; [by exists v|done]. Qed.

(** ** Updates the invariant does not see *)

(** Two states that agree on all that [core] speaks of. *)
Record alike (v w : vt) : Prop := {
  a_vram : length (vram w) = length (vram v);
  a_scro : length (scro w) = length (scro v);
  a_scrb : length (scrb w) = length (scrb v);
  a_rest : rows w = rows v /\ cols w = cols v /\ buffsz w = buffsz v /\ top w = top v /\ bottom w = bottom v;
  a_chars : sgr w = sgr v /\ cs w = cs v /\ parmi w = parmi v /\ parms w = parms v /\ tabs w = tabs v;
  a_saved : sc w = sc v /\ sv w = sv v;
  a_live : scrbpos w = scrbpos v;
}.

Lemma capacity_eq v w : cols w = cols v -> buffsz w = buffsz v -> capacity w = capacity v.
Proof. unfold capacity, _ttypc_vga_scrollbackcapacity. by intros -> ->. Qed.

Lemma core_alike v w : core v -> alike v w -> 0 <= scrbsz w <= capacity v -> -1 <= dpos w < rows v * cols v -> core w.
Proof.
  intros [[] ? ? ? ? ? ? ? Hs] [Ev Eo Eb (Er & Ec & Eu & Et & Em) (Eg & Ex & Ei & Ep & Eta) (Esc & Esv) El] Hh Hd.
  assert (Ecap : capacity w = capacity v) by (by apply capacity_eq).
  constructor; unfold on_screen, zlen in *; rewrite ?Er, ?Ec, ?Et, ?Em, ?Eg, ?Ex, ?Ei, ?Ep, ?Eta, ?Ecap, ?Esv, ?Esc; try done.
  constructor; unfold zlen; rewrite ?Er, ?Ec, ?Ecap, ?Ev, ?Eo, ?Eb; done.
Qed.

Lemma alike_refl v : alike v v.
Proof. by constructor. Qed.

(** What a loop leaves: the same state with other cells. *)
Definition repainted (v w : vt) : Prop := exists es m, length m = length (vram v) /\ w = add_out es (set_vram m v).

Lemma repainted_refl v : repainted v v.
Proof. exists [], (vram v). by rewrite set_vram_id, add_out_nil. Qed.

Lemma repainted_trans v w x : repainted v w -> repainted w x -> repainted v x.
Proof.
  intros (es & m & Hm & ->) (es' & m' & Hm' & ->). exists (es' ++ es), m'. split; [by rewrite Hm', <- Hm|]. by rewrite <- add_out_app.
Qed.

Lemma ok_paints r v m P : paints r v m -> length m = length (vram v) -> (forall w, repainted v w -> P w) -> ok r P.
Proof. intros [es ->] Hm HP. apply HP. by exists es, m. Qed.

(** What a roll leaves: the scrollback is other, too. *)
Definition rolled (v w : vt) : Prop :=
  exists es m b z, length m = length (vram v) /\ length b = length (scrb v) /\ 0 <= z <= capacity v /\
    w = add_out es (set_vram m (set_scrb b (set_scrbsz z v))).

Lemma core_rolled v w : core v -> rolled v w -> core w.
Proof.
  intros Hv (es & m & b & z & Hm & Hb & Hz & ->). pose proof (k_dpos v Hv). apply (core_alike v); [done| |done|done]. by constructor.
Qed.
Lemma core_repainted v w : core v -> repainted v w -> core w.
Proof. intros Hv (es & m & Hm & ->). pose proof (k_dpos v Hv). pose proof (k_hist v Hv). apply (core_alike v); [done| |done|done]. by constructor. Qed.

Lemma plain_mid v : plain v -> mid v.
Proof. intros [Hk Hl (Hc & Hr & Hp)]. constructor; try done. exists (crow v). split; [lia|done]. Qed.

(** [mid] after a step that changes only cells and scrollback. *)
Lemma mid_rolled v w : mid v -> rolled v w -> mid w.
Proof.
  intros [Hk Hl Hc Hr] H. pose proof (core_rolled v w Hk H) as Hw. destruct H as (es & m & b & z & _ & _ & _ & ->). by constructor.
Qed.
Lemma mid_repainted v w : mid v -> repainted v w -> mid w.
Proof. intros [Hk Hl Hc Hr] H. pose proof (core_repainted v w Hk H) as Hw. destruct H as (es & m & _ & ->). by constructor. Qed.

(** ** Cells within the screen *)

Section painting.
Context (v : vt).
Hypothesis Hv : core v.

Lemma vram_bound : zlen (vram v) < 2 ^ 32.
Proof. pose proof (g_vram v (k_geo v Hv)). lia. Qed.

Lemma ok_set offs val n P : 0 <= offs -> 0 <= n -> offs + n <= zlen (vram v) -> (forall w, repainted v w -> P w) ->
  ok (_ttypc_vga_set v offs val n) P.
Proof.
  intros Ho Hn Hl HP. eapply ok_paints; [apply vga_set_paints; [apply vram_bound|done..]| |done].
  apply length_splice. rewrite length_replicate. unfold zlen in Hl. lia.
Qed.

Lemma ok_move d s n P : 0 <= d -> 0 <= s -> 0 <= n -> d + n <= zlen (vram v) -> s + n <= zlen (vram v) ->
  (forall w, repainted v w -> P w) -> ok (_ttypc_vga_move v d s n) P.
Proof.
  intros Hd Hs Hn Hdl Hsl HP. pose proof (g_cols v (k_geo v Hv)). eapply ok_paints; [apply vga_move_paints; [apply vram_bound|lia|done..]| |done].
  unfold zlen in *. apply length_blit; lia.
Qed.

Lemma ok_write offs buff bo n P : 0 <= offs -> 0 <= bo -> 0 <= n -> offs + n <= zlen (vram v) -> bo + n <= zlen buff < 2 ^ 32 ->
  (forall w, repainted v w -> P w) -> ok (_ttypc_vga_write v offs buff bo n) P.
Proof.
  intros Ho Hb Hn Hl Hbl HP. eapply ok_paints; [apply vga_write_paints; [apply vram_bound|done..]| |done].
  unfold zlen in *. apply length_splice. rewrite length_span by lia. lia.
Qed.
End painting.

(** ** Rolls *)

Lemma memmove_blit l d s n : 0 <= d -> 0 <= s -> 0 <= n -> d + n <= zlen l -> s + n <= zlen l ->
  memmove l d s n = Some (blit l (Z.to_nat d) (Z.to_nat s) (Z.to_nat n)).
Proof.
  intros Hd Hs Hn Hdl Hsl. unfold memmove. rewrite !(proj2 (Z.leb_le _ _)) by done. cbn [andb]. unfold blit, splice. fold (span l (Z.to_nat s) (Z.to_nat n)).
  rewrite length_span by (unfold zlen in *; lia). by rewrite <- Z2Nat.inj_add.
Qed.

(** [n] rows of [c] cells from row [a] on lie within the first [b] rows. *)
Lemma row_block a n b c len : 0 <= a -> 0 <= n -> a + n <= b -> 0 <= c -> b * c <= len -> 0 <= a * c /\ 0 <= n * c /\ a * c + n * c <= len.
Proof. intros. repeat split; nia. Qed.

Section rolls.
Context (v : vt).
Hypothesis Hv : core v.

(** The scrollback with room for [k] lines, and their number. *)
Definition alloc_scrb (k : Z) : list Z :=
  if capacity v <? scrbsz v + k then
    blit (scrb v) 0 (Z.to_nat ((scrbsz v + k - capacity v) * cols v)) (Z.to_nat ((capacity v - k) * cols v))
  else scrb v.
Definition alloc_size (k : Z) : Z := Z.min (scrbsz v + k) (capacity v).

Lemma length_alloc k : 0 <= k <= capacity v -> length (alloc_scrb k) = length (scrb v).
Proof.
  intros Hk. pose proof (g_scrb v (k_geo v Hv)). pose proof (k_hist v Hv). pose proof (g_cols v (k_geo v Hv)). unfold alloc_scrb, zlen in *. case_if; bsimp; [|done].
  assert ((capacity v - k) * cols v <= capacity v * cols v) by nia.
  assert ((scrbsz v + k - capacity v) * cols v + (capacity v - k) * cols v <= capacity v * cols v) by nia.
  apply length_blit; rewrite ?Nat.add_0_l; [lia|]. rewrite <- Z2Nat.inj_add by nia. lia.
Qed.

Lemma alloc_eq k : 0 <= k <= capacity v ->
  _ttypc_vga_allocscrollback v k = Some (set_scrbsz (alloc_size k) (set_scrb (alloc_scrb k) v)).
Proof.
  intros Hk. pose proof (g_cap v (k_geo v Hv)). pose proof (k_hist v Hv). pose proof (g_scrb v (k_geo v Hv)). pose proof (g_cols v (k_geo v Hv)) as Hc. unfold MAXTABS in Hc.
  unfold _ttypc_vga_allocscrollback. fold (capacity v). rewrite u32_id by lia. unfold alloc_scrb, alloc_size.
  destruct (capacity v <? scrbsz v + k) eqn:E; bsimp.
  - assert (0 <= (scrbsz v + k - capacity v) * cols v <= capacity v * cols v) by nia.
    assert (0 <= (capacity v - k) * cols v <= capacity v * cols v) by nia.
    assert ((scrbsz v + k - capacity v) * cols v + (capacity v - k) * cols v <= capacity v * cols v) by nia.
    unfold CHR_VGA. rewrite !u32_id by nia. rewrite Z.div_mul by lia. rewrite memmove_blit by lia. cbn.
    rewrite Z.min_r by lia. unfold u16. by rewrite Z.mod_small by lia.
  - rewrite Z.min_l by lia. unfold u16. rewrite Z.mod_small by lia. f_equal.
Qed.

(** The screen and the scrollback after [n] lines have rolled up. *)
Definition up_lines (n : Z) : Z := Z.min n (capacity v).
Definition up_vram (n : Z) : list Z :=
  if n <? bottom v - top v then
    splice (blit (vram v) (Z.to_nat (top v * cols v)) (Z.to_nat ((top v + n) * cols v)) (Z.to_nat ((bottom v - top v + 1 - n) * cols v)))
      (Z.to_nat ((bottom v + 1 - n) * cols v)) (replicate (Z.to_nat (n * cols v)) (u16 (blank v)))
  else vram v.
Definition up_scrb (n : Z) : list Z :=
  let k := up_lines n in
  splice (alloc_scrb k) (Z.to_nat ((alloc_size k - k) * cols v)) (span (vram v) (Z.to_nat ((top v + n - k) * cols v)) (Z.to_nat (k * cols v))).

Lemma up_bounds n : 1 <= n -> 1 <= up_lines n <= n /\ up_lines n <= capacity v /\ up_lines n <= alloc_size (up_lines n) <= capacity v.
Proof. intros Hn. pose proof (g_cap v (k_geo v Hv)). pose proof (k_hist v Hv). unfold up_lines, alloc_size. lia. Qed.

Lemma region_bounds n : 1 <= n < bottom v - top v ->
  0 <= top v * cols v /\ 0 <= (top v + n) * cols v /\ 0 <= (bottom v - top v + 1 - n) * cols v /\
  top v * cols v + (bottom v - top v + 1 - n) * cols v <= zlen (vram v) /\
  (top v + n) * cols v + (bottom v - top v + 1 - n) * cols v <= zlen (vram v) /\
  0 <= (bottom v + 1 - n) * cols v /\ 0 <= n * cols v /\ (bottom v + 1 - n) * cols v + n * cols v <= zlen (vram v).
Proof. intros Hn. destruct (k_margins v Hv). pose proof (g_vram v (k_geo v Hv)). pose proof (g_cols v (k_geo v Hv)). repeat split; nia. Qed.

Lemma length_up_vram n : 1 <= n -> length (up_vram n) = length (vram v).
Proof.
  intros Hn. unfold up_vram. case_if; bsimp; [|done]. destruct (region_bounds n) as (? & ? & ? & ? & ? & ? & ? & ?); [lia|]. unfold zlen in *.
  rewrite length_splice; rewrite ?length_replicate, length_blit; lia.
Qed.

Lemma length_up_scrb n : 1 <= n -> (top v + n) * cols v <= zlen (vram v) -> length (up_scrb n) = length (scrb v).
Proof.
  intros Hn Hl. destruct (up_bounds n Hn) as (? & ? & ?). pose proof (g_scrb v (k_geo v Hv)). pose proof (g_cols v (k_geo v Hv)). destruct (k_margins v Hv). unfold up_scrb.
  assert ((alloc_size (up_lines n) - up_lines n) * cols v + up_lines n * cols v <= capacity v * cols v) by nia.
  assert ((top v + n - up_lines n) * cols v + up_lines n * cols v = (top v + n) * cols v) by nia.
  assert (0 <= (top v + n - up_lines n) * cols v) by nia. assert (0 <= up_lines n * cols v) by nia. assert (0 <= (alloc_size (up_lines n) - up_lines n) * cols v) by nia.
  unfold zlen in *. rewrite length_splice; rewrite ?length_alloc by lia; [done|]. rewrite length_span by lia. lia.
Qed.

(** Rolling up, exactly. *)
Lemma rollup_eq n : 1 <= n < 2 ^ 16 -> (top v + n) * cols v <= zlen (vram v) ->
  exists es, _ttypc_vga_rollup v n =
    Some (add_out es (set_vram (up_vram n) (set_scrb (up_scrb n) (set_scrbsz (alloc_size (up_lines n)) v)))).
Proof.
  intros Hn Hl. destruct (up_bounds n) as (Hk1 & Hk2 & Hk3); [lia|]. destruct (k_margins v Hv) as [Ht Hb]. pose proof (g_cols v (k_geo v Hv)) as Hc.
  pose proof (g_scrb v (k_geo v Hv)) as Hsb. pose proof (g_rows v (k_geo v Hv)) as Hrw. pose proof (vram_bound v Hv) as Hvb.
  unfold _ttypc_vga_rollup. fold (capacity v). fold (up_lines n). rewrite alloc_eq by lia. cbn [mbind option_bind].
  set (v1 := set_scrbsz (alloc_size (up_lines n)) (set_scrb (alloc_scrb (up_lines n)) v)).
  assert (H1 : (alloc_size (up_lines n) - up_lines n) * cols v + up_lines n * cols v <= capacity v * cols v) by nia.
  rewrite (vga_read_splice v1); [|exact Hvb|cbn; nia..|].
  2: { cbn. unfold zlen. rewrite length_alloc by lia. unfold zlen in Hsb. lia. }
  cbn [mbind option_bind]. change (vram v1) with (vram v). change (scrb v1) with (alloc_scrb (up_lines n)).
  change (scrbsz v1) with (alloc_size (up_lines n)). change (top v1) with (top v). change (cols v1) with (cols v). fold (up_scrb n).
  set (v2 := set_scrb (up_scrb n) v1). change (bottom v2) with (bottom v). change (top v2) with (top v). change (cols v2) with (cols v).
  rewrite u32_id by lia. unfold up_vram. destruct (n <? bottom v - top v) eqn:E; bsimp.
  - destruct (region_bounds n) as (? & ? & ? & ? & ? & ? & ? & ?); [lia|].
    destruct (vga_move_paints v2 Hvb (top v * cols v) ((top v + n) * cols v) ((bottom v - top v + 1 - n) * cols v)) as [es ->]; try (done || (cbn; lia)).
    cbn [mbind option_bind]. change (vram v2) with (vram v). set (m := blit _ _ _ _). set (v3 := add_out es (set_vram m v2)).
    assert (Hm : zlen m = zlen (vram v)) by (unfold m, zlen in *; rewrite length_blit; lia).
    destruct (vga_set_paints v3 ltac:(cbn; lia) ((bottom v + 1 - n) * cols v) (blank v) (n * cols v)) as [es' Eset]; try (done || (cbn; lia)).
    exists (es' ++ es). change (bottom v3) with (bottom v). change (cols v3) with (cols v). change (blank v3) with (blank v). rewrite Eset.
    rewrite <- add_out_app. done.
  - exists []. by rewrite add_out_nil.
Qed.

Lemma ok_rollup n P : 1 <= n < 2 ^ 16 -> (top v + n) * cols v <= zlen (vram v) -> (forall w, rolled v w -> P w) -> ok (_ttypc_vga_rollup v n) P.
Proof.
  intros Hn Hl HP. destruct (rollup_eq n Hn Hl) as [es ->]. apply HP. destruct (up_bounds n) as (? & ? & ?); [lia|].
  exists es, (up_vram n), (up_scrb n), (alloc_size (up_lines n)). split; [apply length_up_vram; lia|]. split; [apply length_up_scrb; [lia|done]|]. split; [|done]. lia.
Qed.

(** One line always fits. *)
Lemma ok_rollup_1 P : (forall w, rolled v w -> P w) -> ok (_ttypc_vga_rollup v 1) P.
Proof.
  apply ok_rollup; [lia|]. destruct (k_margins v Hv). pose proof (g_vram v (k_geo v Hv)). pose proof (g_cols v (k_geo v Hv)). nia.
Qed.

Lemma ok_rolldown n P : 0 <= n < 2 ^ 16 -> Z.min n (bottom v - crow v) <= bottom v - top v + 1 -> 0 <= crow v -> (forall w, rolled v w -> P w) ->
  ok (_ttypc_vga_rolldown v n) P.
Proof.
  intros Hn Hk Hr HP. destruct (k_margins v Hv) as [Ht Hb]. pose proof (g_cols v (k_geo v Hv)) as Hc. pose proof (k_hist v Hv) as Hh.
  pose proof (g_scrb v (k_geo v Hv)) as Hsb. pose proof (g_vram v (k_geo v Hv)) as Hvr. pose proof (g_rows v (k_geo v Hv)) as Hrw. pose proof (g_cap v (k_geo v Hv)).
  unfold _ttypc_vga_rolldown. case_if; bsimp.
  2: { apply HP. exists [], (vram v), (scrb v), (scrbsz v). split; [done|]. split; [done|]. split; [done|]. rewrite add_out_nil. by destruct v as [? []]. }
  set (k := Z.min n (bottom v - crow v)) in *. set (l := Z.min k (scrbsz v)). assert (Hkl : 0 <= l <= k /\ l <= scrbsz v) by lia.
  assert (Hlast : (bottom v + 1) * cols v <= zlen (vram v)) by nia.
  destruct (row_block (top v + k) (bottom v - top v + 1 - k) (bottom v + 1) (cols v) (zlen (vram v))) as (? & ? & ?); [lia..|].
  destruct (row_block (top v) (bottom v - top v + 1 - k) (bottom v + 1) (cols v) (zlen (vram v))) as (? & _ & ?); [lia..|].
  destruct (row_block (top v) (k - l) (bottom v + 1) (cols v) (zlen (vram v))) as (_ & ? & ?); [lia..|].
  destruct (row_block (top v + k - l) l (bottom v + 1) (cols v) (zlen (vram v))) as (? & ? & ?); [lia..|].
  destruct (row_block (scrbsz v - l) l (capacity v) (cols v) (zlen (scrb v))) as (? & _ & ?); [lia..|].
  rewrite u32_id by lia. apply ok_bind, ok_move; [done..|]. intros w1 Hw1. pose proof (core_repainted v w1 Hv Hw1) as Hk1. destruct Hw1 as (es1 & m1 & Hm1 & ->).
  set (w1 := add_out es1 (set_vram m1 v)) in *. change (top w1) with (top v). change (cols w1) with (cols v).
  assert (Hz1 : zlen (vram w1) = zlen (vram v)) by (cbn; unfold zlen; lia).
  apply ok_bind, ok_set; [done|done|done|lia|]. intros w2 Hw2. pose proof (core_repainted w1 w2 Hk1 Hw2) as Hk2. destruct Hw2 as (es2 & m2 & Hm2 & ->).
  set (w2 := add_out es2 (set_vram m2 w1)) in *. change (top w2) with (top v). change (cols w2) with (cols v). change (scrb w2) with (scrb v). change (scrbsz w2) with (scrbsz v).
  assert (Hz2 : zlen (vram w2) = zlen (vram v)) by (rewrite <- Hz1; unfold zlen; cbn; by rewrite Hm2).
  apply ok_bind, ok_write; [done|done|done|done|lia|lia|]. intros w3 (es3 & m3 & Hm3 & ->). apply HP.
  exists (es3 ++ es2 ++ es1), m3, (scrb v), (scrbsz v - l). split; [unfold zlen in *; cbn in *; lia|]. split; [done|]. split; [lia|].
  unfold u16. cbn. rewrite Z.mod_small by lia. rewrite app_assoc, <- !add_out_app. by destruct v as [? []].
Qed.
End rolls.

(** ** Steps *)

Lemma u16_id x : 0 <= x < 2 ^ 16 -> u16 x = x.
Proof. apply Z.mod_small. Qed.
Lemma u8_id x : 0 <= x < 2 ^ 8 -> u8 x = x.
Proof. apply Z.mod_small. Qed.

(** The state differs only where [core] does not look. *)
Ltac unseen v := apply (core_alike v); [assumption|by constructor|exact (k_hist v ltac:(assumption))|exact (k_dpos v ltac:(assumption))].

Lemma cells_bound v : geometry v -> (rows v + 1) * cols v < 2 ^ 16 /\ cols v < 2 ^ 8 /\ 0 < cols v /\ cols v <= rows v * cols v.
Proof. intros []. unfold MAXTABS in *. repeat split; nia. Qed.

(** A place in a row below the limit. *)
Lemma row_offset r c n k : 0 <= r < n -> 0 <= c < k -> 0 <= r * k + c < n * k.
Proof. intros. nia. Qed.

Lemma offset_row r c k : 0 <= c < k -> (r * k + c) / k = r.
Proof. intros. rewrite Z.div_add_l by lia. rewrite Z.div_small by done. lia. Qed.

(** The new cursor of a step, [crow] being recomputed later. *)
Lemma mid_intro v w r : core v -> scrbpos v = 0 -> alike v w -> scrbsz w = scrbsz v -> dpos w = dpos v ->
  0 <= ccol w < cols v -> 0 <= r <= rows v -> cpos w = r * cols v + ccol w -> mid w.
Proof.
  intros Hk Hl Ha Hz Hd Hc Hr Hp. pose proof (k_hist v Hk). pose proof (k_dpos v Hk). pose proof (a_rest v w Ha) as (Er & Ec & _).
  constructor; [apply (core_alike v); [done..|lia|lia]|by rewrite (a_live v w Ha)|by rewrite Ec|]. exists r. by rewrite Er, Ec.
Qed.
Ltac to_mid v r := apply (mid_intro v _ r); [assumption|assumption|by constructor|done|done|cbn..].

Lemma ok_drawcursor v P : -1 <= dpos v < zlen (vram v) -> 0 <= cpos v < zlen (vram v) -> cpos v < 2 ^ 15 -> (forall es, P (add_out es (set_dpos (cpos v) v))) -> ok (_ttypc_vga_setcursor v) P.
Proof.
  intros Hd Hp Hp' HP. unfold _ttypc_vga_setcursor.
  set (v1 := emit (CursorAt (cpos v)) v).
  assert (Hs : exists es, (if negb (dpos v1 =? -1)
     then x ← load (vram v1) (dpos v1); Some (_ttypc_fbcon_drawChar v1 (Z.rem (dpos v1) (cols v1)) (Z.quot (dpos v1) (cols v1)) x) else Some v1) = Some (add_out es v)).
  { case_if; bsimp; [|by exists [CursorAt (cpos v)]]. destruct (load_in (vram v1) (dpos v1)) as (x & -> & _); [change (dpos v1) with (dpos v) in *; change (vram v1) with (vram v); lia|].
    cbn [mbind option_bind]. destruct (drawChar_out v1 (Z.rem (dpos v1) (cols v1)) (Z.quot (dpos v1) (cols v1)) x) as [es ->]. exists (es ++ [CursorAt (cpos v)]).
    by rewrite <- add_out_app. }
  destruct Hs as [es ->]. cbn [mbind option_bind]. destruct (load_in (vram v) (cpos v)) as (y & Hy & _); [lia|]. change (vram (add_out es v)) with (vram v). change (cpos (add_out es v)) with (cpos v).
  rewrite Hy. cbn [mbind option_bind]. change (cols (add_out es v)) with (cols v). destruct (drawChar_out (add_out es v) (cpos v mod cols v) (cpos v / cols v) (INVERT_COLORS y)) as [es' ->]. rewrite add_out_app.
  change (cpos (add_out (es' ++ es) v)) with (cpos v). unfold s16. rewrite Z.mod_small by lia. replace (cpos v + 2 ^ 15 - 2 ^ 15) with (cpos v) by lia. apply (HP (es' ++ es)).
Qed.

Lemma ok_setcursor v P : core v -> 0 <= cpos v < rows v * cols v -> (forall es, P (add_out es (set_dpos (cpos v) v))) -> ok (_ttypc_vga_setcursor v) P.
Proof.
  intros Hk Hp HP. destruct Hk as [Hg _ _ Hd _ _ _ _ _]. pose proof (g_vram v Hg). pose proof (g_screen v Hg). apply ok_drawcursor; [lia..|done].
Qed.

Lemma settle_ok v : mid v -> ok (settle v) plain.
Proof.
  intros Hm. unfold settle. apply ok_bind.
  assert (Hroll : ok (if (bottom v + 1) * cols v <=? cpos v then mbind (M := option) (fun w : vt => Some (set_cpos (u16 (cpos w - cols w)) w)) (_ttypc_vga_rollup v 1) else Some v)
    (fun w => core w /\ scrbpos w = 0 /\ exists r, on_screen w (ccol w) r (cpos w))).
  { pose proof (m_core v Hm) as Hk. pose proof (k_margins v Hk) as [Ht Hb]. destruct (m_row v Hm) as (r & Hr & Hp). pose proof (m_col v Hm) as Hc.
    destruct (cells_bound v (k_geo v Hk)) as (Hb1 & _ & Hb3 & _).
    case_if; bsimp.
    - apply ok_bind, ok_rollup_1; [done|]. intros w Hw. cbn. pose proof (mid_rolled v w Hm Hw) as Hmw. destruct Hw as (es & m & b & z & _ & _ & _ & ->).
      split; [|split; [apply Hmw|]]; [pose proof (m_core _ Hmw) as Hkw; unseen (add_out es (set_vram m (set_scrb b (set_scrbsz z v))))|]. cbn. exists (r - 1). rewrite Hp.
      pose proof (row_offset (r - 1) (ccol v) (rows v) (cols v) ltac:(nia) Hc). unfold on_screen. cbn. rewrite u16_id by nia. repeat split; nia.
    - split; [done|]. split; [apply Hm|]. exists r. repeat split; try lia. nia. }
  apply (ok_mono _ _ _ Hroll). clear v Hm Hroll. intros v (Hk & Hl & r & Hc & Hr & Hp). destruct (cells_bound v (k_geo v Hk)) as (_ & _ & Hb3 & _).
  pose proof (row_offset r (ccol v) (rows v) (cols v) Hr Hc). pose proof (g_rows v (k_geo v Hk)). assert (Er : u8 (cpos v / cols v) = r) by (rewrite Hp, offset_row by done; apply u8_id; lia). rewrite Er.
  assert (Hpl : plain (set_crow r v)) by (constructor; [unseen v|done|done]). case_if; [|done].
  apply ok_setcursor; [apply Hpl|cbn; lia|]. intros es. constructor; [|done|done].
  apply (core_alike v); [done|by constructor|exact (k_hist v Hk)|]. cbn. lia.
Qed.

(** ** The functions *)

Section functions.
Context (v : vt).
Hypothesis Hv : plain v.

Let Hk : core v := p_core v Hv.
Let Hl : scrbpos v = 0 := p_live v Hv.
Let Hg : geometry v := k_geo v Hk.

Lemma cur_bounds : 0 <= ccol v < cols v /\ 0 <= crow v < rows v /\ cpos v = crow v * cols v + ccol v /\ 0 <= cpos v < rows v * cols v.
Proof. destruct (p_cur v Hv) as (Hc & Hr & Hp). repeat split; try lia; rewrite Hp; pose proof (row_offset _ _ _ _ Hr Hc); lia. Qed.

Lemma ok_mid_painted r : ok r (repainted v) -> ok r mid.
Proof. intros H. apply (ok_mono _ _ _ H). intros w Hw. apply (mid_repainted v w); [by apply plain_mid|done]. Qed.
Lemma ok_mid_rolled r : ok r (rolled v) -> ok r mid.
Proof. intros H. apply (ok_mono _ _ _ H). intros w Hw. apply (mid_rolled v w); [by apply plain_mid|done]. Qed.

Lemma ri_ok : ok (_ttypc_vtf_ri v) (fun w => core w /\ scrbpos w = 0 /\ cols w = cols v /\ rows w = rows v /\ ccol w = ccol v /\ exists r, on_screen v (ccol v) r (cpos w)).
Proof.
  destruct cur_bounds as (Hc & Hr & Hp & Hb). destruct (k_margins v Hk) as [Ht Hbo]. destruct (cells_bound v Hg) as (Hb1 & _ & Hb3 & _). unfold _ttypc_vtf_ri. case_if; bsimp.
  - split; [unseen v|]. split; [done|]. do 3 (split; [done|]). exists (crow v - 1). cbn. rewrite u16_id by nia. unfold on_screen. repeat split; nia.
  - apply ok_rolldown; [done|lia|lia|lia|]. intros w Hw. pose proof (core_rolled v w Hk Hw) as Hkw. destruct Hw as (es & m & b & z & _ & _ & _ & ->).
    split; [done|]. split; [done|]. do 3 (split; [done|]). exists (crow v). cbn. by unfold on_screen.
Qed.

Lemma ri_mid : ok (_ttypc_vtf_ri v) mid.
Proof.
  apply (ok_mono _ _ _ ri_ok). intros w (Hkw & Hlw & Ec & Er & Ecc & r & Hc & Hr & Hp).
  constructor; rewrite ?Ec, ?Er, ?Ecc; try done. exists r. split; [lia|done].
Qed.

Lemma backspace_ok : ok (backspace v) mid.
Proof.
  destruct cur_bounds as (Hc & Hr & Hp & Hb). destruct (cells_bound v Hg) as (Hb1 & Hb2 & Hb3 & Hb4). unfold backspace. case_if; bsimp.
  - cbn. rewrite u16_id, u8_id by nia. to_mid v (crow v); lia.
  - apply ok_bind. apply (ok_mono _ _ _ ri_ok). intros w (Hkw & Hlw & Ec & Er & Ecc & r & Hc' & Hr' & Hp'). cbn. rewrite Ec, Hp'.
    pose proof (row_offset r (ccol v) (rows v) (cols v) Hr' Hc'). rewrite u16_id, u8_id by nia. to_mid w r; rewrite ?Ec, ?Er; lia.
Qed.

Lemma tab_loop_ok n : forall w, core w -> scrbpos w = 0 -> cols w = cols v -> rows w = rows v -> (Z.of_nat n <= cols v - 1 - ccol w) -> 0 <= ccol w < cols v ->
  cpos w = crow v * cols v + ccol w -> ok (tab_loop n w) mid.
Proof.
  destruct cur_bounds as (_ & Hr & _ & _). destruct (cells_bound v Hg) as (Hb1 & Hb2 & Hb3 & Hb4). pose proof (g_cols v Hg) as Hcm.
  induction n as [|n IH]; intros w Hkw Hlw Ec Er Hn Hc Hp; cbn [tab_loop].
  - constructor; rewrite ?Ec, ?Er; try done. exists (crow v). split; [lia|done].
  - rewrite Hp. pose proof (row_offset (crow v) (ccol w) (rows v) (cols v) Hr Hc). change (ccol (set_cpos (u16 (crow v * cols v + ccol w + 1)) w)) with (ccol w). rewrite u16_id, u8_id by nia.
    set (w' := set_ccol (ccol w + 1) (set_cpos (crow v * cols v + ccol w + 1) w)). assert (Hkw' : core w') by (unseen w).
    pose proof (k_tabs w Hkw) as Ht. change (tabs w') with (tabs w). change (ccol w') with (ccol w + 1).
    destruct (lookup_lt_is_Some_2 (tabs w) (Z.to_nat (ccol w + 1))) as [b Hb]; [unfold zlen in Ht; lia|].
    unfold buf_get. rewrite bool_decide_eq_true_2, Hb by lia. cbn [mbind option_bind]. destruct b.
    + constructor; [done|done|change (0 <= ccol w + 1 < cols w); lia|]. exists (crow v). change (0 <= crow v <= rows w /\ crow v * cols v + ccol w + 1 = crow v * cols w + (ccol w + 1)). rewrite Ec, Er. lia.
    + apply IH; try done; cbn; lia.
Qed.

Lemma tab_ok : ok (tab v) mid.
Proof. destruct cur_bounds as (Hc & Hr & Hp & Hb). apply tab_loop_ok; try done; lia. Qed.

Lemma home_column_eq : home_column v = set_ccol 0 (set_cpos (crow v * cols v) v).
Proof. destruct cur_bounds as (Hc & Hr & Hp & Hb). destruct (cells_bound v Hg) as (Hb1 & Hb2 & Hb3 & Hb4). unfold home_column. rewrite u16_id by nia. do 2 f_equal. lia. Qed.

Lemma home_column_plain : plain (home_column v).
Proof.
  destruct cur_bounds as (Hc & Hr & Hp & Hb). rewrite home_column_eq. constructor; [unseen v|done|]. unfold on_screen. cbn. repeat split; lia.
Qed.

Lemma line_feed_ok : mid (line_feed v).
Proof.
  destruct cur_bounds as (Hc & Hr & Hp & Hb). destruct (cells_bound v Hg) as (Hb1 & Hb2 & Hb3 & Hb4). unfold line_feed.
  case_if; [case_if|]; rewrite ?home_column_eq; cbn [cpos vt_cursor set_cpos set_ccol set_cursor cols vt_screen]; rewrite ?u16_id by nia.
  - to_mid v (crow v + 1); lia.
  - to_mid v (crow v + 1); nia.
  - to_mid v (crow v); lia.
Qed.

Lemma cs_ok_select s g g' : cs_ok s -> cs_ok (mk_charsets (G0 s) (G1 s) (G2 s) (G3 s) g g').
Proof. intros H []; [apply (H AtG0)|apply (H AtG1)|apply (H AtG2)|apply (H AtG3)]. Qed.

(** Updates of character sets and parser. *)
Lemma mid_chars ch' pa : 0 <= sgr ch' < 16 -> cs_ok (cs ch') ->
  (0 <= parmi pa < MAXPARMS /\ zlen (parms pa) = MAXPARMS /\ Forall (fun p => 0 <= p < 2 ^ 16) (parms pa)) -> zlen (tabs pa) = MAXTABS ->
  mid (set_chars ch' (set_parser pa v)).
Proof.
  intros H1 H2 H3 H4. destruct (plain_mid v Hv) as [[] ? ? ?]. constructor; [|done..]. constructor; try done. by destruct k_geo0.
Qed.

Lemma mid_GL g : mid (set_GL g v).
Proof. destruct Hk. apply (mid_chars (mk_chars _ (Gs v) (ss v) (attr v) (sgr v)) (vt_parser v)); try done; by apply cs_ok_select. Qed.
Lemma mid_GR g : mid (set_GR g v).
Proof. destruct Hk. apply (mid_chars (mk_chars _ (Gs v) (ss v) (attr v) (sgr v)) (vt_parser v)); try done; by apply cs_ok_select. Qed.

Lemma zero_parms : 0 <= 0 < MAXPARMS /\ zlen (replicate (Z.to_nat MAXPARMS) 0) = MAXPARMS /\ Forall (fun p => 0 <= p < 2 ^ 16) (replicate (Z.to_nat MAXPARMS) 0).
Proof. split; [done|]. split; [done|]. by apply Forall_replicate. Qed.

Lemma mid_clrparms st : mid (_ttypc_vtf_clrparms (set_escst st v)).
Proof. destruct Hk. apply (mid_chars (vt_chars v) (mk_parser st 0 (replicate (Z.to_nat MAXPARMS) 0) (tabs v))); try done. apply zero_parms. Qed.

Lemma parm_range i : 0 <= i < MAXPARMS -> 0 <= parm v i < 2 ^ 16.
Proof.
  intros Hi. destruct (k_parms v Hk) as (_ & Hz & Hf). unfold parm, arr_get. apply (Forall_lookup_total_1 _ _ _ Hf). unfold zlen in Hz. lia.
Qed.

(** The value of [count] by the parameter. *)
Lemma count_cases max : (parm v 0 = 0 /\ count v max = 1) \/ (1 <= parm v 0 /\ count v max = Z.min (parm v 0) max).
Proof. pose proof (parm_range 0 ltac:(done)). unfold count. case_ifs; lia. Qed.

Lemma count_pos max : 1 <= max < 2 ^ 16 -> 1 <= count v max <= max.
Proof. intros. destruct (count_cases max) as [[? ->]|[? ->]]; lia. Qed.

Lemma cuu_ok : (parm v 0 =? 0) && (crow v =? 0) = false -> mid (_ttypc_vtf_cuu v).
Proof.
  intros Hz. destruct cur_bounds as (Hc & Hr & Hp & Hb). destruct (cells_bound v Hg) as (Hb1 & Hb2 & Hb3 & Hb4). destruct (k_margins v Hk) as [Ht Hbo]. unfold _ttypc_vtf_cuu.
  assert (H : 0 <= crow v - count v (crow v - top v) < rows v).
  { destruct (count_cases (crow v - top v)) as [[E ->]|[? ->]]; [|lia]. rewrite E in Hz. cbn in Hz. bsimp. lia. }
  set (r := crow v - count v (crow v - top v)) in *. rewrite u16_id; [to_mid v r; unfold r in *; nia|].
  pose proof (row_offset r (ccol v) (rows v) (cols v) H Hc). unfold r in *. nia.
Qed.

Lemma cud_ok : mid (_ttypc_vtf_cud v).
Proof.
  destruct cur_bounds as (Hc & Hr & Hp & Hb). destruct (cells_bound v Hg) as (Hb1 & Hb2 & Hb3 & Hb4). destruct (k_margins v Hk) as [Ht Hbo]. unfold _ttypc_vtf_cud.
  assert (H : 0 <= crow v + count v (bottom v - crow v) < rows v + 1) by (destruct (count_cases (bottom v - crow v)) as [[? ->]|[? ->]]; lia).
  set (r := crow v + count v (bottom v - crow v)) in *. rewrite u16_id; [to_mid v r; unfold r in *; nia|].
  pose proof (row_offset r (ccol v) (rows v + 1) (cols v) H Hc). unfold r in *. nia.
Qed.

Lemma cuf_ok : (parm v 0 =? 0) && (ccol v =? cols v - 1) = false -> mid (_ttypc_vtf_cuf v).
Proof.
  intros Hz. destruct cur_bounds as (Hc & Hr & Hp & Hb). destruct (cells_bound v Hg) as (Hb1 & Hb2 & Hb3 & Hb4). unfold _ttypc_vtf_cuf.
  assert (H : 0 <= ccol v + count v (cols v - ccol v - 1) < cols v).
  { destruct (count_cases (cols v - ccol v - 1)) as [[E ->]|[? ->]]; [|lia]. rewrite E in Hz. cbn in Hz. bsimp. lia. }
  pose proof (row_offset (crow v) _ (rows v) (cols v) Hr H). rewrite u16_id, u8_id by nia. to_mid v (crow v); lia.
Qed.

Lemma cub_ok : (parm v 0 =? 0) && (ccol v =? 0) = false -> mid (_ttypc_vtf_cub v).
Proof.
  intros Hz. destruct cur_bounds as (Hc & Hr & Hp & Hb). destruct (cells_bound v Hg) as (Hb1 & Hb2 & Hb3 & Hb4). unfold _ttypc_vtf_cub.
  assert (H : 0 <= ccol v - count v (ccol v) < cols v).
  { destruct (count_cases (ccol v)) as [[E ->]|[? ->]]; [|lia]. rewrite E in Hz. cbn in Hz. bsimp. lia. }
  pose proof (row_offset (crow v) _ (rows v) (cols v) Hr H). rewrite u16_id, u8_id by nia. to_mid v (crow v); lia.
Qed.

Lemma clreos_ok : ok (_ttypc_vtf_clreos v) (repainted v).
Proof.
  destruct cur_bounds as (Hc & Hr & Hp & Hb). pose proof (g_vram v Hg). unfold _ttypc_vtf_clreos.
  case_if; [|case_if; [|case_if]]; try (apply ok_set; [done|lia..|done]). apply repainted_refl.
Qed.

Lemma clreol_ok : ok (_ttypc_vtf_clreol v) (repainted v).
Proof.
  destruct cur_bounds as (Hc & Hr & Hp & Hb). pose proof (g_vram v Hg). assert ((crow v + 1) * cols v <= rows v * cols v /\ 0 <= crow v * cols v) by nia. unfold _ttypc_vtf_clreol.
  case_if; [|case_if; [|case_if]]; try (apply ok_set; [done|lia..|done]). apply repainted_refl.
Qed.

Lemma ic_ok : ok (_ttypc_vtf_ic v) (repainted v).
Proof.
  destruct cur_bounds as (Hc & Hr & Hp & Hb). pose proof (g_vram v Hg). pose proof (g_cols v Hg) as Hcm. unfold MAXTABS in Hcm. assert ((crow v + 1) * cols v <= rows v * cols v) by nia.
  pose proof (count_pos (cols v - ccol v) ltac:(lia)) as Hn. unfold _ttypc_vtf_ic. set (p := count v (cols v - ccol v)) in *.
  apply ok_bind, ok_move; [done|lia..|]. intros w Hw. pose proof (core_repainted v w Hk Hw) as Hkw. destruct Hw as (es & m & Hm & ->).
  apply ok_set; [done|cbn; lia|lia|cbn; unfold zlen in *; lia|]. intros w Hw. refine (repainted_trans _ _ _ _ Hw). by exists es, m.
Qed.

Lemma dch_ok : (zlen (vram v) <? cpos v + cols v) = false -> ok (_ttypc_vtf_dch v) (repainted v).
Proof.
  intros Hz. bsimp. destruct cur_bounds as (Hc & Hr & Hp & Hb). pose proof (g_vram v Hg). pose proof (g_cols v Hg) as Hcm. unfold MAXTABS in Hcm. assert ((crow v + 1) * cols v <= rows v * cols v) by nia.
  pose proof (count_pos (cols v - ccol v) ltac:(lia)) as Hn. unfold _ttypc_vtf_dch. set (p := count v (cols v - ccol v)) in *.
  apply ok_bind, ok_move; [done|lia..|]. intros w Hw. pose proof (core_repainted v w Hk Hw) as Hkw. destruct Hw as (es & m & Hm & ->).
  apply ok_set; [done|cbn; lia|lia|cbn; unfold zlen in *; lia|]. intros w Hw. refine (repainted_trans _ _ _ _ Hw). by exists es, m.
Qed.

Lemma ech_ok : ok (_ttypc_vtf_ech v) (repainted v).
Proof.
  destruct cur_bounds as (Hc & Hr & Hp & Hb). pose proof (g_vram v Hg). pose proof (g_cols v Hg) as Hcm. unfold MAXTABS in Hcm. assert ((crow v + 1) * cols v <= rows v * cols v) by nia.
  pose proof (count_pos (cols v - ccol v) ltac:(lia)) as Hn. unfold _ttypc_vtf_ech. apply ok_set; [done|lia..|done].
Qed.

Lemma su_ok : (zlen (vram v) <? (top v + count v (rows v - 1)) * cols v) = false -> ok (_ttypc_vtf_su v) (rolled v).
Proof.
  intros Hz. bsimp. pose proof (g_rows v Hg). pose proof (count_pos (rows v - 1) ltac:(lia)). unfold _ttypc_vtf_su. rewrite u32_id by lia. apply ok_rollup; [done|lia|lia|done].
Qed.

Lemma sd_ok : (crow v <? bottom v) && (bottom v - top v + 1 <? Z.min (count v (rows v - 1)) (bottom v - crow v)) = false -> ok (_ttypc_vtf_sd v) (rolled v).
Proof.
  intros Hz. destruct cur_bounds as (Hc & Hr & Hp & Hb). destruct (k_margins v Hk) as [Ht Hbo]. pose proof (g_rows v Hg). pose proof (count_pos (rows v - 1) ltac:(lia)). unfold _ttypc_vtf_sd. rewrite u32_id by lia.
  apply ok_rolldown; [done|lia| |lia|done]. apply andb_false_iff in Hz as [Hz|Hz]; bsimp; lia.
Qed.

Lemma ind_ok : ok (_ttypc_vtf_ind v) mid.
Proof.
  destruct cur_bounds as (Hc & Hr & Hp & Hb). destruct (cells_bound v Hg) as (Hb1 & Hb2 & Hb3 & Hb4). unfold _ttypc_vtf_ind. case_if; bsimp.
  - cbn. rewrite u16_id by nia. to_mid v (crow v + 1); nia.
  - apply ok_mid_rolled, ok_rollup_1; done.
Qed.

Lemma nel_ok : ok (_ttypc_vtf_nel v) mid.
Proof.
  destruct cur_bounds as (Hc & Hr & Hp & Hb). destruct (cells_bound v Hg) as (Hb1 & Hb2 & Hb3 & Hb4). unfold _ttypc_vtf_nel. case_if; bsimp.
  - cbn. rewrite u16_id by nia. to_mid v (crow v + 1); nia.
  - apply ok_bind, ok_rollup_1; [done|]. intros w Hw. pose proof (core_rolled v w Hk Hw) as Hkw. destruct Hw as (es & m & b & z & _ & _ & _ & ->). cbn. unfold home_column. cbn. rewrite u16_id by nia.
    to_mid (add_out es (set_vram m (set_scrb b (set_scrbsz z v)))) (crow v); lia.
Qed.

(** Lines of the region from the cursor on. *)
Lemma lines_from p : top v <= crow v <= bottom v -> 0 <= p <= bottom v - crow v + 1 ->
  let c := cols v in let o := crow v * c in
  0 <= o /\ 0 <= p * c /\ 0 <= (bottom v - crow v + 1 - p) * c /\ o + p * c + (bottom v - crow v + 1 - p) * c <= zlen (vram v) /\
  0 <= (bottom v + 1 - p) * c /\ (bottom v + 1 - p) * c + p * c <= zlen (vram v).
Proof.
  intros Hr Hp c o. destruct cur_bounds as (_ & Hr' & _ & _). destruct (k_margins v Hk) as [Ht Hbo]. pose proof (g_vram v Hg). pose proof (g_cols v Hg).
  assert ((bottom v + 1) * c <= zlen (vram v)) by (unfold c; nia). unfold o. repeat split; unfold c in *; nia.
Qed.

Lemma il_ok : ok (_ttypc_vtf_il v) mid.
Proof.
  unfold _ttypc_vtf_il. case_if; bsimp; [|by apply plain_mid]. destruct cur_bounds as (_ & Hr & _ & _). destruct (k_margins v Hk) as [Ht Hbo]. pose proof (g_rows v Hg).
  assert (Hn : 0 <= count v (bottom v - crow v) <= bottom v - crow v + 1) by (destruct (count_cases (bottom v - crow v)) as [[? ->]|[? ->]]; lia).
  set (p := count v (bottom v - crow v)) in *. pose proof home_column_plain as Hh. pose proof (lines_from p ltac:(lia) Hn) as Hlf. cbv zeta in Hlf. destruct Hlf as (Hf1 & Hf2 & Hf3 & Hf4 & Hf5 & Hf6).
  rewrite home_column_eq in *. set (h := set_ccol 0 (set_cpos (crow v * cols v) v)) in *.
  change (crow h) with (crow v). change (top h) with (top v). change (bottom h) with (bottom v). change (cols h) with (cols v). change (cpos h) with (crow v * cols v).
  pose proof (p_core h Hh) as Hkh. case_if; bsimp.
  - rewrite u32_id by lia. apply ok_rolldown; [done|lia|change (Z.min p (bottom v - crow v) <= bottom v - top v + 1); lia|change (0 <= crow v); lia|].
    intros w Hw. apply (mid_rolled h w); [by apply plain_mid|done].
  - apply ok_bind, ok_move; [done|lia|lia|lia|change (vram h) with (vram v); lia|change (vram h) with (vram v); lia|]. intros w Hw. pose proof (core_repainted h w Hkh Hw) as Hkw.
    pose proof (mid_repainted h w (plain_mid h Hh) Hw) as Hmw. destruct Hw as (es & m & Hm & ->).
    apply ok_set; [done|change (0 <= crow v * cols v); lia|change (0 <= p * cols v); lia|cbn in *; unfold zlen in *; lia|]. intros w Hw. by apply (mid_repainted _ w Hmw).
Qed.

Lemma dl_ok : ok (_ttypc_vtf_dl v) mid.
Proof.
  unfold _ttypc_vtf_dl. case_if; bsimp; [|by apply plain_mid]. destruct cur_bounds as (_ & Hr & _ & _). destruct (k_margins v Hk) as [Ht Hbo]. pose proof (g_rows v Hg). pose proof (g_vram v Hg). pose proof (g_cols v Hg).
  assert (Hn : 0 <= count v (bottom v - crow v) <= bottom v - crow v + 1) by (destruct (count_cases (bottom v - crow v)) as [[? ->]|[? ->]]; lia).
  assert (Hn' : crow v = top v -> 1 <= count v (bottom v - crow v) <= bottom v - top v) by (intros E; pose proof (count_pos (bottom v - crow v) ltac:(lia)); lia).
  set (p := count v (bottom v - crow v)) in *. pose proof home_column_plain as Hh. pose proof (lines_from p ltac:(lia) Hn) as Hlf. cbv zeta in Hlf. destruct Hlf as (Hf1 & Hf2 & Hf3 & Hf4 & Hf5 & Hf6).
  rewrite home_column_eq in *. set (h := set_ccol 0 (set_cpos (crow v * cols v) v)) in *.
  change (crow h) with (crow v). change (top h) with (top v). change (bottom h) with (bottom v). change (cols h) with (cols v). change (cpos h) with (crow v * cols v).
  pose proof (p_core h Hh) as Hkh. case_if; bsimp.
  - specialize (Hn' ltac:(done)). rewrite u32_id by lia. apply ok_rollup; [done|lia|change ((top v + p) * cols v <= zlen (vram v)); nia|].
    intros w Hw. apply (mid_rolled h w); [by apply plain_mid|done].
  - apply ok_bind, ok_move; [done|lia|lia|lia|change (vram h) with (vram v); lia|change (vram h) with (vram v); lia|]. intros w Hw. pose proof (core_repainted h w Hkh Hw) as Hkw.
    pose proof (mid_repainted h w (plain_mid h Hh) Hw) as Hmw. destruct Hw as (es & m & Hm & ->).
    apply ok_set; [done|change (0 <= (bottom v + 1 - p) * cols v); lia|change (0 <= p * cols v); lia|cbn in *; unfold zlen in *; lia|]. intros w Hw. by apply (mid_repainted _ w Hmw).
Qed.

(** [core] with other modes, characters, parser and margins. *)
Lemma core_parts mo ch' pa t b : (sc mo = true -> sc v = true) -> 0 <= sgr ch' < 16 -> cs_ok (cs ch') ->
  (0 <= parmi pa < MAXPARMS /\ zlen (parms pa) = MAXPARMS /\ Forall (fun p => 0 <= p < 2 ^ 16) (parms pa)) -> zlen (tabs pa) = MAXTABS ->
  (0 <= t < b /\ b < rows v) -> core (set_top t (set_bottom b (set_modes mo (set_chars ch' (set_parser pa v))))).
Proof.
  intros H1 H2 H3 H4 H5 H6. destruct Hk as [Hgv ? ? ? ? ? ? ? Hs]. constructor; try done; [by destruct Hgv|]. cbn. intros E. apply (Hs (H1 E)).
Qed.

Lemma margins_full : 0 <= 0 < rows v - 1 /\ rows v - 1 < rows v.
Proof. pose proof (g_rows v Hg). lia. Qed.

Lemma standard_sets g g' : cs_ok (mk_charsets ascii ascii supg supg g g').
Proof. by intros []. Qed.

Lemma str_ok : plain (_ttypc_vtf_str v).
Proof.
  pose proof (g_rows v Hg). pose proof margins_full as Hf. unfold _ttypc_vtf_str. rewrite u8_id by lia. destruct (p_cur v Hv) as (Hc & Hr & Hp).
  assert (Hq : core (set_top 0 (set_bottom (rows v - 1) (set_modes (mk_modes true false false false true false false (lc v))
    (set_chars (mk_chars (mk_charsets ascii ascii supg supg AtG0 AtG2) (Gs v) (ss v) (sgr_attr v VT_NORMAL) VT_NORMAL)
    (set_parser (mk_parser ESC_INIT 0 (replicate (Z.to_nat MAXPARMS) 0) ((fun i => i mod 8 =? 0) <$> seqZ 0 MAXTABS)) v)))))).
  { apply core_parts; try done; [apply standard_sets|apply zero_parms]. }
  constructor; [|done|done].
  set (q := set_top 0 _) in Hq. apply (core_alike q); [done|by constructor|exact (k_hist q Hq)|exact (k_dpos q Hq)].
Qed.

Lemma sc_ok : mid (_ttypc_vtf_sc v).
Proof.
  pose proof (plain_mid v Hv) as [_ H2 H3 H4]. destruct Hk as [Hgv ? ? ? ? ? ? ? Hs]. constructor; [|done..].
  constructor; try done; [by destruct Hgv|]. intros _. cbn. destruct (p_cur v Hv). by unfold on_screen.
Qed.

Lemma rc_ok : mid (_ttypc_vtf_rc v).
Proof.
  unfold _ttypc_vtf_rc. destruct (sc v) eqn:E; cbn [negb]; [|by apply plain_mid]. destruct Hk as [Hgv ? ? ? ? ? ? ? Hs]. destruct (Hs E) as ((Hc & Hr & Hp) & Hcs & Hsg).
  constructor; try done; [|exists (sccrow (sv v)); split; [cbn; lia|done]]. constructor; try done. by destruct Hgv.
Qed.

Lemma origin_plain w : core w -> scrbpos w = 0 -> ccol w = 0 -> crow w = 0 -> cpos w = 0 -> plain w.
Proof.
  intros H1 H2 H3 H4 H5. pose proof (g_cols w (k_geo w H1)). pose proof (g_rows w (k_geo w H1)). constructor; [done..|]. unfold on_screen. lia.
Qed.

Lemma aln_ok : ok (_ttypc_vtf_aln v) mid.
Proof.
  unfold _ttypc_vtf_aln. set (w := set_crow 0 (set_ccol 0 (set_cpos 0 v))). assert (Hw : plain w) by (apply origin_plain; [unseen v|done..]).
  pose proof (g_vram v Hg). destruct (cells_bound v Hg) as (_ & _ & ? & ?). apply ok_set; [apply Hw|done|lia|change (vram w) with (vram v); lia|].
  intros x Hx. apply (mid_repainted w x); [by apply plain_mid|done].
Qed.

Lemma ris_prepared : plain (set_scrbpos 0 (set_scrbsz 0 (set_crow 0 (set_ccol 0 (set_cpos 0 v))))).
Proof.
  apply origin_plain; try done. pose proof (g_cap v Hg). destruct Hk as [Hgv ? ? ? ? ? ? ? Hs]. constructor; try done; [by destruct Hgv|]. change (0 <= 0 <= capacity v). lia.
Qed.
End functions.

(** A repaint keeps [plain]. *)
Lemma plain_repainted v w : plain v -> repainted v w -> plain w.
Proof. intros Hv Hw. pose proof (core_repainted v w (p_core v Hv) Hw) as Hk. destruct Hv as [_ Hl Hp]. destruct Hw as (es & m & Hm & ->). by constructor. Qed.

Lemma ris_ok v : plain v -> ok (_ttypc_vtf_ris v) mid.
Proof.
  intros Hv. unfold _ttypc_vtf_ris. pose proof (ris_prepared v Hv) as Hw. set (w := set_scrbpos 0 _) in *. pose proof (g_vram w (k_geo w (p_core w Hw))).
  destruct (cells_bound w (k_geo w (p_core w Hw))) as (_ & _ & ? & ?). apply ok_bind, ok_set; [apply Hw|done|lia|lia|].
  intros x Hx. cbn. apply plain_mid, str_ok. by apply (plain_repainted w).
Qed.

(** ** Parameters *)

Section parameters.
Context (v : vt).
Hypothesis Hv : plain v.

Let Hk : core v := p_core v Hv.
Let Hl : scrbpos v = 0 := p_live v Hv.
Let Hg : geometry v := k_geo v Hk.

(** The state with other parameters. *)
Lemma plain_parms i ps : 0 <= i < MAXPARMS -> zlen ps = MAXPARMS -> Forall (fun p => 0 <= p < 2 ^ 16) ps -> plain (set_parmi i (set_parms ps v)).
Proof.
  intros H1 H2 H3. destruct Hk as [Hgv ? ? ? ? ? ? ? Hs]. destruct Hv. constructor; try done. constructor; try done. by destruct Hgv.
Qed.

Lemma parms_insert i x : 0 <= i < MAXPARMS -> 0 <= x < 2 ^ 16 ->
  zlen (arr_set (parms v) i x) = MAXPARMS /\ Forall (fun p => 0 <= p < 2 ^ 16) (arr_set (parms v) i x).
Proof.
  intros Hi Hx. destruct (k_parms v Hk) as (_ & Hz & Hf). split; [unfold zlen; by rewrite length_arr_set|]. by apply Forall_insert.
Qed.

Lemma parm_digit_ok c : ok (parm_digit c v) mid.
Proof.
  unfold parm_digit. destruct (k_parms v Hk) as (Hi & Hz & Hf). destruct (load_in (parms v) (parmi v)) as (x & -> & _); [lia|]. cbn. apply plain_mid.
  pose proof (Z.mod_pos_bound (u16 (x * 10) + (c - 48)) (2 ^ 16) ltac:(lia)). destruct (parms_insert (parmi v) (u16 (u16 (x * 10) + (c - 48)))); [done|done|].
  apply (plain_parms (parmi v)); done.
Qed.

Lemma next_parm_ok : mid (next_parm v).
Proof.
  unfold next_parm. destruct (k_parms v Hk) as (Hi & Hz & Hf). apply plain_mid. case_if; bsimp; [|done].
  unfold MAXPARMS in *. rewrite u8_id by lia. apply (plain_parms (parmi v + 1) (parms v)); unfold MAXPARMS; try done; lia.
Qed.

(** A parameter put into a range; [parm] is what it was or a bound. *)
Lemma range_parm_ok i lo hi : 0 <= i < MAXPARMS -> 0 <= lo <= hi -> hi < 2 ^ 16 ->
  exists ps, range_parm i lo hi v = set_parms ps v /\ plain (set_parms ps v) /\ arr_get ps i = Z.max lo (Z.min (parm v i) hi) /\
    forall j, 0 <= j < MAXPARMS -> j <> i -> arr_get ps j = parm v j.
Proof.
  intros Hi Hlo Hhi. destruct (k_parms v Hk) as (Hpi & Hz & Hf). unfold range_parm, set_parm.
  assert (Hset : forall x, 0 <= x < 2 ^ 16 -> plain (set_parms (arr_set (parms v) i x) v)).
  { intros x Hx. destruct (parms_insert i x) as [Hz' Hf']; [done|done|]. apply (plain_parms (parmi v)); done. }
  assert (Hget : forall x j, 0 <= j < MAXPARMS -> j <> i -> arr_get (arr_set (parms v) i x) j = parm v j) by (intros; apply arr_get_set_ne; lia).
  case_if; bsimp; [|case_if; bsimp]; rewrite ?u16_id by lia.
  - exists (arr_set (parms v) i lo). split; [done|]. split; [apply Hset; lia|]. split; [rewrite arr_get_set_eq by lia; lia|]. apply Hget.
  - exists (arr_set (parms v) i hi). split; [done|]. split; [apply Hset; lia|]. split; [rewrite arr_get_set_eq by lia; lia|]. apply Hget.
  - exists (parms v). assert (E : set_parms (parms v) v = v) by (by destruct v as [? ? ? ? ? []]). rewrite E. split; [done|]. split; [done|]. split; [|done].
    unfold parm in *. lia.
Qed.

(** The cursor at the origin of the screen or of the region. *)
Lemma origin_mid w : plain w -> mid (set_ccol 0 (set_cpos (if om w then u16 (top w * cols w) else 0) w)).
Proof.
  intros Hw. pose proof (p_core w Hw) as Hkw. pose proof (p_live w Hw) as Hlw. destruct (k_margins w Hkw) as [Ht Hb]. destruct (cells_bound w (k_geo w Hkw)) as (H1 & _ & H3 & _).
  destruct (om w); [rewrite u16_id by nia; to_mid w (top w); lia|to_mid w 0; lia].
Qed.
End parameters.

Lemma curadr_ok v : plain v -> mid (_ttypc_vtf_curadr v).
Proof.
  intros Hv. pose proof (p_core v Hv) as Hk. destruct (k_margins v Hk) as [Ht Hb]. pose proof (k_geo v Hk) as Hg. pose proof (g_rows v Hg). pose proof (g_cols v Hg) as Hcm. unfold MAXTABS in Hcm.
  unfold _ttypc_vtf_curadr. case_if; [by apply origin_mid|]. cbv zeta.
  set (hi := if om v then bottom v - top v + 1 else rows v). assert (Hhi : 1 <= hi <= rows v /\ (om v = true -> top v + hi <= rows v)) by (unfold hi; destruct (om v); split; (lia || done)).
  destruct (range_parm_ok v Hv 0 1 hi) as (ps & -> & Hv1 & E0 & _); [done|lia|lia|]. change (cols (set_parms ps v)) with (cols v).
  destruct (range_parm_ok _ Hv1 1 1 (cols v)) as (ps' & -> & Hv2 & E1 & Ej); [done|lia|lia|]. set (w := set_parms ps' (set_parms ps v)) in *.
  specialize (Ej 0 ltac:(done) ltac:(done)). change (parm (set_parms ps v) 0) with (arr_get ps 0) in Ej. change (parm w 0) with (arr_get ps' 0). change (parm w 1) with (arr_get ps' 1).
  change (om w) with (om v). change (top w) with (top v). change (cols w) with (cols v). rewrite Ej, E0.
  pose proof (p_core w Hv2) as Hkw. pose proof (p_live w Hv2) as Hlw. change (parm (set_parms ps v) 1) with (arr_get ps 1) in E1.
  assert (Hc1 : 1 <= arr_get ps' 1 <= cols v) by lia. clear E1.
  set (r := (Z.max 1 (Z.min (parm v 0) hi) - 1) + (if om v then top v else 0)).
  assert (Hr : 0 <= r < rows v) by (unfold r; destruct (om v); [destruct Hhi as [? Hhi]; specialize (Hhi eq_refl)|]; lia).
  pose proof (row_offset r (arr_get ps' 1 - 1) (rows v) (cols v) Hr ltac:(lia)). destruct (cells_bound v Hg) as (Hb1 & _).
  assert (E : (Z.max 1 (Z.min (parm v 0) hi) - 1) * cols v + arr_get ps' 1 - 1 + (if om v then top v * cols v else 0) = r * cols v + (arr_get ps' 1 - 1)) by (unfold r; destruct (om v); lia).
  rewrite E. rewrite u16_id by lia. change (parm (set_cpos (r * cols v + (arr_get ps' 1 - 1)) w) 1) with (arr_get ps' 1). rewrite u8_id by lia.
  to_mid w r; change (cols w) with (cols v) in *; change (rows w) with (rows v); lia.
Qed.

(** New margins. *)
Lemma core_margins v t b : core v -> (0 <= t < b /\ b < rows v) -> core (set_bottom b (set_top t v)).
Proof. intros [Hgv ? ? ? ? ? ? ? Hs] H6. constructor; try done. by destruct Hgv. Qed.

Lemma stbm_ok v : plain v -> mid (_ttypc_vtf_stbm v).
Proof.
  intros Hv. pose proof (p_core v Hv) as Hk. pose proof (p_live v Hv) as Hl. pose proof (k_geo v Hk) as Hg. pose proof (g_rows v Hg). pose proof (g_cols v Hg).
  unfold _ttypc_vtf_stbm. case_if.
  - rewrite u8_id by lia. pose proof (core_margins v 0 (rows v - 1) Hk ltac:(lia)) as Hkm. to_mid (set_bottom (rows v - 1) (set_top 0 v)) 0; cbn; lia.
  - case_if; bsimp; [by apply plain_mid|]. cbv zeta.
    destruct (range_parm_ok v Hv 0 1 (rows v - 1)) as (ps & -> & Hv1 & E0 & Ej0); [done|lia|lia|]. change (rows (set_parms ps v)) with (rows v).
    destruct (range_parm_ok _ Hv1 1 2 (rows v)) as (ps' & -> & Hv2 & E1 & Ej1); [done|lia|lia|]. set (w := set_parms ps' (set_parms ps v)) in *.
    specialize (Ej1 0 ltac:(done) ltac:(done)). specialize (Ej0 1 ltac:(done) ltac:(done)). change (parm (set_parms ps v) 0) with (arr_get ps 0) in Ej1. change (parm (set_parms ps v) 1) with (arr_get ps 1) in E1.
    change (parm w 0) with (arr_get ps' 0). change (parm w 1) with (arr_get ps' 1). pose proof (parm_range v Hv 0 ltac:(done)). pose proof (parm_range v Hv 1 ltac:(done)).
    assert (Hm : 0 <= arr_get ps' 0 - 1 < arr_get ps' 1 - 1 /\ arr_get ps' 1 - 1 < rows v) by lia.
    change (parm (set_top (u8 (arr_get ps' 0 - 1)) w) 1) with (arr_get ps' 1). rewrite !u8_id by lia.
    pose proof (core_margins w _ _ (p_core w Hv2) Hm) as Hkm. apply origin_mid. destruct Hv2 as [? ? ?]. by constructor.
Qed.

(** ** Attributes *)

Lemma sgr_parm_range color p st : 0 <= (st.1).1 < 16 -> 0 <= ((sgr_parm color p st).1).1 < 16.
Proof.
  destruct st as [[g a] cc]. cbn [fst]. intros Hg. unfold sgr_parm.
  assert (Ho : forall b, 0 <= b < 16 -> 0 <= g ||| b < 16) by (intros; by apply (lor_range _ _ 4)).
  assert (Hl : forall b, 0 <= g &&& b < 16) by (intros; rewrite Z.land_comm; by apply (land_range _ _ 4)).
  repeat (case_if; [cbn [fst]; first [done|by apply Ho|by apply Hl|destruct color; done]|]). done.
Qed.

Lemma sgr_loop_ok v n : forall i st, core v -> 0 <= i -> i + Z.of_nat n <= MAXPARMS -> 0 <= (st.1).1 < 16 ->
  exists st', sgr_loop n v i st = Some st' /\ 0 <= (st'.1).1 < 16.
Proof.
  induction n as [|n IH]; intros i st Hk Hi Hn Hst; cbn [sgr_loop]; [by exists st|]. destruct (k_parms v Hk) as (_ & Hz & _).
  destruct (load_in (parms v) i) as (x & -> & _); [lia|]. cbn [mbind option_bind]. apply IH; [done|lia|lia|]. by apply sgr_parm_range.
Qed.

Lemma plain_attr v g a : plain v -> 0 <= g < 16 -> plain (set_attr a (set_sgr g v)).
Proof.
  intros Hv Hs. pose proof (p_core v Hv) as [Hgv ? ? ? ? ? ? ? ?]. destruct Hv. constructor; try done. constructor; try done. by destruct Hgv.
Qed.

Lemma sgr_ok v : plain v -> ok (_ttypc_vtf_sgr v) mid.
Proof.
  intros Hv. pose proof (p_core v Hv) as Hk. destruct (k_parms v Hk) as (Hi & _). unfold _ttypc_vtf_sgr.
  destruct (sgr_loop_ok v (S (Z.to_nat (parmi v))) 0 (sgr v, attr v, false) Hk) as ([[g a] cc] & -> & Hg); [done|lia|apply Hk|]. cbn [mbind option_bind fst] in *.
  destruct (color (set_sgr g v)); [destruct cc|].
  - apply plain_mid. by apply plain_attr.
  - destruct (load_in csgr g) as (x & -> & _); [done|]. apply plain_mid. by apply plain_attr.
  - destruct (load_in msgr g) as (x & -> & _); [done|]. apply plain_mid. by apply plain_attr.
Qed.

Lemma applyattr_ok l n a : 0 <= n <= zlen l -> exists l', _ttypc_vtf_applyattr l n a = Some l' /\ length l' = length l.
Proof.
  intros Hn. unfold _ttypc_vtf_applyattr. rewrite (proj2 (Z.leb_le _ _)) by lia. eexists. split; [done|].
  rewrite length_app, length_map, length_take, length_drop. unfold zlen in Hn. lia.
Qed.

Lemma applysgr_ok v g : plain v -> 0 <= g < 16 -> ok (_ttypc_vtf_applysgr v g) mid.
Proof.
  intros Hv Hgr. pose proof (plain_attr v g (sgr_attr v g) Hv Hgr) as Hw. unfold _ttypc_vtf_applysgr. change (sgr_attr (set_sgr g v) g) with (sgr_attr v g).
  set (w := set_attr (sgr_attr v g) (set_sgr g v)) in *. pose proof (p_core w Hw) as Hk. pose proof (p_live w Hw) as Hl. pose proof (k_geo w Hk) as Hg. pose proof (g_vram w Hg). pose proof (g_scrb w Hg).
  pose proof (k_hist w Hk). destruct (cells_bound w Hg) as (_ & _ & ? & ?).
  destruct (applyattr_ok (vram w) (rows w * cols w) (attr w)) as (m & -> & Hm); [lia|]. cbn [mbind option_bind]. set (w1 := set_vram m w).
  change (scrb w1) with (scrb w). change (scrbsz w1) with (scrbsz w). change (cols w1) with (cols w). change (attr w1) with (attr w).
  destruct (applyattr_ok (scrb w) (scrbsz w * cols w) (attr w)) as (b & -> & Hb); [nia|]. cbn [mbind option_bind]. change (scrbpos (set_scrb b w1)) with (scrbpos w). rewrite Hl. cbn.
  destruct (p_cur w Hw) as (Hc & Hr & Hp). to_mid w (crow w); cbn in *; try lia.
Qed.

Lemma setdecpriv_ok v : plain v -> ok (_ttypc_vtf_setdecpriv v) mid.
Proof.
  intros Hv. destruct (cur_bounds v Hv) as (Hc & Hr & Hp & _). pose proof (p_core v Hv) as Hk. pose proof (p_live v Hv) as Hl. unfold _ttypc_vtf_setdecpriv.
  repeat (case_if; [try (to_mid v (crow v); cbn; lia)|]); [|by apply plain_mid]. by apply applysgr_ok.
Qed.

Lemma resetdecpriv_ok v : plain v -> ok (_ttypc_vtf_resetdecpriv v) mid.
Proof.
  intros Hv. destruct (cur_bounds v Hv) as (Hc & Hr & Hp & _). pose proof (p_core v Hv) as Hk. pose proof (p_live v Hv) as Hl. unfold _ttypc_vtf_resetdecpriv.
  repeat (case_if; [try (to_mid v (crow v); cbn; lia)|]); [|by apply plain_mid]. by apply applysgr_ok.
Qed.

(** ** Tabulators *)

Lemma mid_tabs v ts : plain v -> zlen ts = MAXTABS -> mid (set_tabs ts v).
Proof.
  intros Hv Hz. pose proof (p_core v Hv) as [Hgv ? ? ? ? ? ? ? ?]. apply plain_mid. destruct Hv. constructor; try done. constructor; try done. by destruct Hgv.
Qed.

Lemma store_tab_ok v b : plain v -> ok (store_tab v (ccol v) b) mid.
Proof.
  intros Hv. destruct (cur_bounds v Hv) as (Hc & _). pose proof (g_cols v (k_geo v (p_core v Hv))). unfold store_tab. rewrite (proj2 (Z.leb_le _ _)), (proj2 (Z.ltb_lt _ _)) by lia. cbn.
  apply mid_tabs; [done|]. unfold zlen. rewrite length_insert. apply (k_tabs v), p_core, Hv.
Qed.

Lemma clrtab_ok v : plain v -> ok (_ttypc_vtf_clrtab v) mid.
Proof.
  intros Hv. unfold _ttypc_vtf_clrtab. case_if; [by apply store_tab_ok|]. case_if; [by apply mid_tabs|]. by apply plain_mid.
Qed.

(** ** Characters *)

Lemma plain_unseen v w : plain v -> alike v w -> scrbsz w = scrbsz v -> dpos w = dpos v -> ccol w = ccol v -> crow w = crow v -> cpos w = cpos v -> plain w.
Proof.
  intros Hv Ha Hz Hd Hc Hr Hp. pose proof (p_core v Hv) as Hk. pose proof (k_hist v Hk). pose proof (k_dpos v Hk). pose proof (a_rest v w Ha) as (Er & Ec & _).
  destruct Hv as [_ Hl Hcur]. constructor; [apply (core_alike v); [done|done|lia|lia]|by rewrite (a_live v w Ha)|]. unfold on_screen. by rewrite Hc, Hr, Hp, Er, Ec.
Qed.

Section chars.
Context {CS : CharSign}.

(** What [_ttypc_vt_sdraw] puts into a cell. *)
Lemma sdraw_eq v c : plain v -> c <= 255 -> exists val es, _ttypc_vt_sdraw v c = Some (add_out es (set_ss false (set_vram (<[Z.to_nat (cpos v) := val]> (vram v)) v))).
Proof.
  intros Hv Hc. destruct (cur_bounds v Hv) as (_ & _ & _ & Hp). pose proof (k_cs v (p_core v Hv)) as Hcs. pose proof (g_vram v (k_geo v (p_core v Hv))). unfold _ttypc_vt_sdraw.
  assert (Hx : exists x, (if (0x20 <=? c) && (c <=? 0x7f) then x ← load (charset_at (cs v) (if ss v then Gs v else GL (cs v))) (c - 0x20); Some (to_char x)
       else if 0xa0 <=? c then x ← load (charset_at (cs v) (GR (cs v))) (c - 0xa0); Some (to_char x) else Some c) = Some x).
  { repeat (case_if; bsimp); try by eexists.
    - destruct (load_in (charset_at (cs v) (Gs v)) (c - 32)) as (x & -> & _); [rewrite Hcs; lia|by eexists].
    - destruct (load_in (charset_at (cs v) (GL (cs v))) (c - 32)) as (x & -> & _); [rewrite Hcs; lia|by eexists].
    - destruct (load_in (charset_at (cs v) (GR (cs v))) (c - 160)) as (x & -> & _); [rewrite Hcs; lia|by eexists]. }
  destruct Hx as [x ->]. cbn [mbind option_bind]. rewrite store_in by lia. cbn [mbind option_bind]. set (val := u16 (attr v ||| x)). exists val.
  set (w := set_ss false (set_vram (<[Z.to_nat (cpos v):=val]> (vram v)) v)). destruct (drawChar_out w (cpos w mod cols w) (cpos w / cols w) val) as [es ->]. by exists es.
Qed.

Lemma print_ok c v : plain v -> c <= 255 -> ok (print c v) mid.
Proof.
  intros Hv Hc. destruct (cur_bounds v Hv) as (Hcc & Hr & Hp & Hb). pose proof (k_geo v (p_core v Hv)) as Hg. pose proof (g_vram v Hg). destruct (cells_bound v Hg) as (Hb1 & Hb2 & Hb3 & _).
  assert ((crow v + 1) * cols v <= rows v * cols v) by nia. unfold print. apply ok_bind.
  assert (Hi : ok (if irm v then _ttypc_vga_move v (cpos v + 1) (cpos v) (cols v - ccol v - 1) else Some v) (fun w => repainted v w)).
  { case_if; [apply ok_move; [apply Hv|lia..|done]|apply repainted_refl]. }
  apply (ok_mono _ _ _ Hi). clear Hi. intros w Hw. pose proof (plain_repainted v w Hv Hw) as Hpw. destruct Hw as (es & m & Hm & ->). set (w := add_out es (set_vram m v)) in *.
  destruct (sdraw_eq w c Hpw Hc) as (val & es' & ->). cbn [mbind option_bind ok]. set (w2 := add_out es' _).
  assert (Hw2 : plain (set_lc false w2)) by (apply (plain_unseen w); try done; constructor; try done; cbn; by rewrite length_insert).
  set (w3 := set_lc false w2) in *. change (ccol w3) with (ccol v). change (cols w3) with (cols v). change (cpos w3) with (cpos v).
  pose proof (p_core w3 Hw2) as Hk3. pose proof (p_live w3 Hw2) as Hl3.
  case_if; bsimp; [|case_if; [|by apply plain_mid]].
  - change (cpos (set_ccol (u8 (ccol v + 1)) w3)) with (cpos v). rewrite u16_id, u8_id by nia. to_mid w3 (crow v); cbn; lia.
  - change (cpos (set_ccol 0 w3)) with (cpos v). rewrite u16_id by nia. to_mid w3 (crow v + 1); cbn; nia.
Qed.

Lemma switch_ind {A} (P : A -> Prop) c cases d : Forall (fun ka => c = ka.1 -> P ka.2) cases -> P d -> P (switch c cases d).
Proof.
  intros Hc Hd. induction Hc as [|[k a] cases Ha _ IH]; cbn; [done|]. case_if; bsimp; [|done]. by apply Ha.
Qed.

(** Split a switch into its cases. *)
Ltac cases := apply switch_ind; [repeat (apply Forall_cons; split; [cbn [fst snd]; intros ->|]); try (by constructor)|].

Lemma control_ok c v : plain v -> ok (control c v) mid.
Proof.
  intros Hv. unfold control. cases.
  - by apply backspace_ok.
  - by apply tab_ok.
  - by apply line_feed_ok.
  - by apply line_feed_ok.
  - by apply line_feed_ok.
  - by apply plain_mid, home_column_plain.
  - by apply mid_GL.
  - by apply mid_GL.
  - by apply mid_clrparms.
  - by apply mid_clrparms.
  - by apply mid_clrparms.
  - by apply plain_mid.
Qed.

Lemma mid_escst v st : mid v -> mid (set_escst st v).
Proof. intros [Hk Hl Hc Hr]. constructor; try done. unseen v. Qed.
Lemma to_init_ok v : mid v -> ok (to_init v) mid.
Proof. apply mid_escst. Qed.
Lemma final_ok r : ok r mid -> ok (final r) mid.
Proof. intros H. apply ok_bind. apply (ok_mono _ _ _ H). intros v. apply to_init_ok. Qed.

(** A step whose effect the invariant does not see. *)
Lemma unseen_mid v w : plain v -> alike v w -> scrbsz w = scrbsz v -> dpos w = dpos v -> ccol w = ccol v -> cpos w = cpos v -> mid w.
Proof. intros Hv Ha Hz Hd Hc Hp. destruct (cur_bounds v Hv) as (Hcc & Hr & Hcp & _). apply (mid_intro v w (crow v)); try done; [apply Hv|apply Hv|by rewrite Hc|lia|by rewrite Hc, Hp]. Qed.
Ltac seen_not v := by apply (unseen_mid v).

Lemma after_esc_ok c v : plain v -> ok (after_esc c v) mid.
Proof.
  intros Hv. pose proof (plain_mid v Hv) as Hm. unfold after_esc. cases; try exact (to_init_ok v Hm); try exact (mid_escst v _ Hm).
  - by apply to_init_ok, sc_ok.
  - by apply to_init_ok, rc_ok.
  - apply to_init_ok. seen_not v.
  - apply to_init_ok. seen_not v.
  - by apply final_ok, ind_ok.
  - by apply final_ok, nel_ok.
  - by apply final_ok, store_tab_ok.
  - by apply final_ok, ri_mid.
  - apply to_init_ok. seen_not v.
  - apply to_init_ok. seen_not v.
  - apply to_init_ok. seen_not v.
  - apply mid_escst. pose proof (mid_clrparms v Hv (escst v)) as H. by destruct v as [? ? ? ? ? []].
  - by apply final_ok, ris_ok.
  - by apply to_init_ok, mid_GL.
  - by apply to_init_ok, mid_GL.
  - by apply to_init_ok, mid_GR.
  - by apply to_init_ok, mid_GR.
  - by apply to_init_ok, mid_GR.
Qed.

(** The sequences that put the cursor or a cell access off the screen. *)
Definition hazard (c : Z) (v : vt) : bool :=
  bool_decide (escst v = ESC_CSI) && switch c [
    (ch "A", (parm v 0 =? 0) && (crow v =? 0));
    (ch "C", (parm v 0 =? 0) && (ccol v =? cols v - 1));
    (ch "D", (parm v 0 =? 0) && (ccol v =? 0));
    (ch "P", zlen (vram v) <? cpos v + cols v);
    (ch "S", zlen (vram v) <? (top v + count v (rows v - 1)) * cols v);
    (ch "T", (crow v <? bottom v) && (bottom v - top v + 1 <? Z.min (count v (rows v - 1)) (bottom v - crow v)))] false.

Lemma dsr_ok v : plain v -> mid (_ttypc_vtf_dsr v).
Proof. intros Hv. unfold _ttypc_vtf_dsr. repeat (case_if; [seen_not v|]). by apply plain_mid. Qed.

Lemma ansi_ok v : plain v -> mid (_ttypc_vtf_setansi v) /\ mid (_ttypc_vtf_resetansi v).
Proof. intros Hv. unfold _ttypc_vtf_setansi, _ttypc_vtf_resetansi. split; repeat (case_if; [seen_not v|]); by apply plain_mid. Qed.

Lemma after_csi_ok c v : plain v -> escst v = ESC_CSI -> hazard c v = false -> ok (after_csi c v) mid.
Proof.
  intros Hv He Hz. pose proof (plain_mid v Hv) as Hm. unfold hazard in Hz. rewrite bool_decide_eq_true_2 in Hz by done. cbn [andb] in Hz. unfold after_csi. case_if; [by apply parm_digit_ok|].
  cases; try exact (to_init_ok v Hm); try exact (mid_escst v _ Hm).
  - by apply next_parm_ok.
  - by apply final_ok, (ok_mid_painted v Hv), ic_ok.
  - by apply to_init_ok, cuu_ok.
  - by apply to_init_ok, cud_ok.
  - by apply to_init_ok, cuf_ok.
  - by apply to_init_ok, cub_ok.
  - by apply to_init_ok, curadr_ok.
  - by apply final_ok, (ok_mid_painted v Hv), clreos_ok.
  - by apply final_ok, (ok_mid_painted v Hv), clreol_ok.
  - by apply final_ok, il_ok.
  - by apply final_ok, dl_ok.
  - by apply final_ok, (ok_mid_painted v Hv), dch_ok.
  - by apply final_ok, (ok_mid_rolled v Hv), su_ok.
  - by apply final_ok, (ok_mid_rolled v Hv), sd_ok.
  - by apply final_ok, (ok_mid_painted v Hv), ech_ok.
  - apply to_init_ok. seen_not v.
  - by apply to_init_ok, curadr_ok.
  - by apply final_ok, clrtab_ok.
  - by apply to_init_ok, ansi_ok.
  - by apply to_init_ok, ansi_ok.
  - by apply final_ok, sgr_ok.
  - by apply to_init_ok, dsr_ok.
  - by apply to_init_ok, stbm_ok.
  - apply to_init_ok. seen_not v.
Qed.

Lemma after_csiqm_ok c v : plain v -> ok (after_csiqm c v) mid.
Proof.
  intros Hv. unfold after_csiqm. case_if; [by apply parm_digit_ok|]. cases.
  - by apply next_parm_ok.
  - by apply final_ok, setdecpriv_ok.
  - by apply final_ok, resetdecpriv_ok.
  - by apply to_init_ok, dsr_ok.
  - by apply to_init_ok, plain_mid.
Qed.

Lemma character_ok c v : plain v -> c <= 255 -> hazard c v = false -> ok (character c v) mid.
Proof.
  intros Hv Hc Hz. pose proof (plain_mid v Hv) as Hm. unfold character. destruct (escst v) eqn:He; try (by apply to_init_ok).
  - by apply print_ok.
  - by apply after_esc_ok.
  - cases; [by apply final_ok, aln_ok|by apply to_init_ok].
  - by apply after_csi_ok.
  - by apply after_csiqm_ok.
  - cases; [by apply to_init_ok, plain_mid, str_ok|by apply to_init_ok].
Qed.

Lemma sput_plain c v : plain v -> c <= 255 -> hazard c v = false -> ok (_ttypc_vt_sput c v) plain.
Proof.
  intros Hv Hc Hz. unfold _ttypc_vt_sput, _ttypc_vga_scrollcancel. rewrite (p_live v Hv). cbn [Z.eqb mbind option_bind]. apply ok_bind.
  assert (H : ok (if (c <? 0x20) || (c =? 0x7f) then control c v else character c v) mid) by (case_if; [by apply control_ok|by apply character_ok]).
  apply (ok_mono _ _ _ H). apply settle_ok.
Qed.
End chars.
End VtSafe.
