(* ===== verification/VtCorrect.v ===== *)
(** * PC virtual terminal: memory safety of character streams

    The characters that keep the invariant of [VtSafe] are exactly those that [hazard] does
    not name; a terminal starts with the invariant, so that a stream without hazards never
    leaves the buffers. *)

From S2P Require Import Prelude Vt VtCells VtSafe.
From Stdlib Require Import Ascii.

Module VtCorrect.
Import Vt VtCells VtSafe.
Implicit Types v w : vt.

(** ** The hazards are real *)

Lemma setcursor_frame v w : _ttypc_vga_setcursor v = Some w -> exists es, w = add_out es (set_dpos (s16 (cpos v)) v).
Proof.
  unfold _ttypc_vga_setcursor. set (v1 := emit (CursorAt (cpos v)) v). intros E.
  assert (Hs : forall u, (if negb (dpos v1 =? -1)
     then x ← load (vram v1) (dpos v1); Some (_ttypc_fbcon_drawChar v1 (Z.rem (dpos v1) (cols v1)) (Z.quot (dpos v1) (cols v1)) x) else Some v1) = Some u -> exists es, u = add_out es v).
  { intros u. case_if; [|by intros [= <-]; exists [CursorAt (cpos v)]]. destruct (load (vram v1) (dpos v1)) as [x|]; [|done]. cbn [mbind option_bind].
    destruct (drawChar_out v1 (Z.rem (dpos v1) (cols v1)) (Z.quot (dpos v1) (cols v1)) x) as [es ->]. intros E'. injection E' as <-. exists (es ++ [CursorAt (cpos v)]). by rewrite <- add_out_app. }
  destruct (if negb (dpos v1 =? -1) then _ else Some v1) as [u|]; [|done]. destruct (Hs u eq_refl) as [es ->]. cbn [mbind option_bind] in E.
  change (vram (add_out es v)) with (vram v) in E. change (cpos (add_out es v)) with (cpos v) in E. change (cols (add_out es v)) with (cols v) in E.
  destruct (load (vram v) (cpos v)) as [x|]; [|done]. cbn [mbind option_bind] in E.
  destruct (drawChar_out (add_out es v) (cpos v mod cols v) (cpos v / cols v) (INVERT_COLORS x)) as [es' Hd]. rewrite Hd in E. injection E as <-. exists (es' ++ es).
  rewrite add_out_app. done.
Qed.

(** The cursor that [settle] leaves. *)
Lemma settle_cursor v w : core v -> settle v = Some w ->
  ccol w = ccol v /\ cols w = cols v /\ rows w = rows v /\ cpos w = (if (bottom v + 1) * cols v <=? cpos v then u16 (cpos v - cols v) else cpos v).
Proof.
  intros Hk E. unfold settle in E.
  assert (Hr : exists u, (if (bottom v + 1) * cols v <=? cpos v then mbind (M := option) (fun x : vt => Some (set_cpos (u16 (cpos x - cols x)) x)) (_ttypc_vga_rollup v 1) else Some v) = Some u /\
    ccol u = ccol v /\ cols u = cols v /\ rows u = rows v /\ cpos u = (if (bottom v + 1) * cols v <=? cpos v then u16 (cpos v - cols v) else cpos v)).
  { case_if; [|by exists v]. destruct (ok_elim _ _ (ok_rollup_1 v Hk (rolled v) (fun w H => H))) as (u & -> & es & m & b & z & _ & _ & _ & ->). by eexists. }
  destruct Hr as (u & Hu & H1 & H2 & H3 & H4). rewrite Hu in E. cbn [mbind option_bind] in E.
  destruct (active (set_crow (u8 (cpos u / cols u)) u)); [destruct (setcursor_frame _ _ E) as [es ->]|injection E as <-]; exact (conj H1 (conj H2 (conj H3 H4))).
Qed.

Section sput.
Context {CS : CharSign}.

(** A printable character in a state without scrollback view. *)
Lemma sput_char c v : scrbpos v = 0 -> 0x20 <= c -> c <> 0x7f -> _ttypc_vt_sput c v = mbind (M := option) settle (character c v).
Proof.
  intros Hl Hc Hd. unfold _ttypc_vt_sput, _ttypc_vga_scrollcancel. rewrite Hl. cbn [Z.eqb mbind option_bind].
  rewrite (proj2 (Z.ltb_ge _ _)), (proj2 (Z.eqb_neq _ _)) by done. done.
Qed.

Lemma dch_out v : plain v -> zlen (vram v) < cpos v + cols v -> _ttypc_vtf_dch v = None.
Proof.
  intros Hv Hz. destruct (cur_bounds v Hv) as (Hc & Hr & Hp & Hb). pose proof (p_core v Hv) as Hk. pose proof (g_vram v (k_geo v Hk)). pose proof (g_cols v (k_geo v Hk)) as Hcm. unfold MAXTABS in Hcm.
  assert ((crow v + 1) * cols v <= rows v * cols v) by nia. pose proof (count_pos v Hv (cols v - ccol v) ltac:(lia)). unfold _ttypc_vtf_dch. set (p := count v (cols v - ccol v)) in *.
  destruct (ok_elim _ (repainted v) (ok_move v Hk (cpos v) (cpos v + p) (cols v - ccol v - p) _ ltac:(lia) ltac:(lia) ltac:(lia) ltac:(lia) ltac:(lia) (fun w H => H))) as (w & -> & es & m & Hm & ->).
  cbn [mbind option_bind]. unfold _ttypc_vga_set. set (w := add_out es (set_vram m v)). change (cpos w) with (cpos v). change (cols w) with (cols v). rewrite !u32_id by lia.
  apply set_loop_out; [lia| |lia]. rewrite Z2Nat.id by lia. cbn. unfold zlen in *. lia.
Qed.

Lemma rollup_out v n : core v -> 1 <= n < 2 ^ 16 -> zlen (vram v) < (top v + n) * cols v -> _ttypc_vga_rollup v n = None.
Proof.
  intros Hk Hn Hz. destruct (up_bounds v Hk n) as (Hk1 & Hk2 & Hk3); [lia|]. pose proof (g_cols v (k_geo v Hk)) as Hc. unfold MAXTABS in Hc. destruct (k_margins v Hk). pose proof (g_rows v (k_geo v Hk)).
  unfold _ttypc_vga_rollup. fold (capacity v). fold (up_lines v n). rewrite alloc_eq by (done || lia). cbn [mbind option_bind].
  set (w := set_scrbsz _ _). unfold _ttypc_vga_read. change (vram w) with (vram v). change (top w) with (top v). change (cols w) with (cols v).
  assert ((top v + n - up_lines v n) * cols v + up_lines v n * cols v = (top v + n) * cols v) by nia.
  assert (0 <= (top v + n - up_lines v n) * cols v < 2 ^ 32) by nia. assert (1 <= up_lines v n * cols v < 2 ^ 32) by nia.
  rewrite !(u32_id ((top v + n - up_lines v n) * cols v)), (u32_id (up_lines v n * cols v)) by lia.
  rewrite read_loop_out; [done|lia|lia|lia].
Qed.

Lemma sd_out v : plain v -> crow v < bottom v -> bottom v - top v + 1 < Z.min (count v (rows v - 1)) (bottom v - crow v) -> _ttypc_vtf_sd v = None.
Proof.
  intros Hv Hb Hz. pose proof (p_core v Hv) as Hk. pose proof (g_rows v (k_geo v Hk)). pose proof (g_cols v (k_geo v Hk)) as Hc. unfold MAXTABS in Hc. destruct (k_margins v Hk) as [Ht Hbo].
  pose proof (count_pos v Hv (rows v - 1) ltac:(lia)). destruct (cur_bounds v Hv) as (_ & Hr & _ & _). pose proof (g_vram v (k_geo v Hk)). unfold _ttypc_vtf_sd, _ttypc_vga_rolldown. rewrite u32_id by lia.
  rewrite (proj2 (Z.ltb_lt _ _)) by done. cbv zeta. set (k := Z.min _ _) in *. set (j := k - (bottom v - top v + 1)). assert (Hj : 1 <= j <= 255) by lia.
  replace (bottom v - top v + 1 - k) with (- j) by lia.
  assert (E : u32 (u32 (- j) * cols v) = 2 ^ 32 - j * cols v).
  { unfold u32. rewrite Z.mul_mod_idemp_l by lia. symmetry. apply (Z.mod_unique _ _ (-1)); nia. }
  assert (0 <= top v * cols v <= rows v * cols v) by nia. assert (1 <= j * cols v < 2 ^ 16) by nia. assert (0 <= (top v + k) * cols v < 2 ^ 32) by nia. assert (top v * cols v <= (top v + k) * cols v) by nia.
  unfold _ttypc_vga_move. rewrite E, (u32_id (top v * cols v)), (u32_id ((top v + k) * cols v)) by lia. rewrite (proj2 (Z.ltb_ge _ _)) by done.
  rewrite move_backward_out; [done|lia|rewrite Z2Nat.id by lia; lia|lia].
Qed.

(** A step of a CSI sequence that leaves the state [w] before [settle]. *)
Lemma csi_settle c v w w' : plain v -> escst v = ESC_CSI -> 0x20 <= c -> c <> 0x7f -> after_csi c v = to_init w -> core w ->
  _ttypc_vt_sput c v = Some w' ->
  ccol w' = ccol w /\ cols w' = cols w /\ rows w' = rows w /\ cpos w' = (if (bottom w + 1) * cols w <=? cpos w then u16 (cpos w - cols w) else cpos w).
Proof.
  intros Hv He Hc Hd Ha Hk E. rewrite sput_char in E by (done || apply Hv). unfold character in E. rewrite He, Ha in E. cbn [to_init mbind option_bind] in E.
  apply settle_cursor in E; [done|]. apply (core_alike w); [done|by constructor|exact (k_hist w Hk)|exact (k_dpos w Hk)].
Qed.

Lemma core_cursor v c p : core v -> core (set_ccol c (set_cpos p v)).
Proof. intros Hk. apply (core_alike v); [done|by constructor|exact (k_hist v Hk)|exact (k_dpos v Hk)]. Qed.

(** A hazard either leaves a buffer or leaves the cursor off the screen. *)
Lemma hazard_breaks c v w : plain v -> hazard c v = true -> _ttypc_vt_sput c v = Some w -> ~ plain w.
Proof.
  intros Hv Hz E Hw. unfold hazard in Hz. apply andb_true_iff in Hz as [He Hz]. apply bool_decide_eq_true_1 in He. pose proof (p_core v Hv) as Hk. destruct (cur_bounds v Hv) as (Hc & Hr & Hp & Hb).
  destruct (cells_bound v (k_geo v Hk)) as (Hb1 & _ & Hb3 & _). pose proof (g_cols v (k_geo v Hk)) as Hcm. unfold MAXTABS in Hcm. pose proof (g_rows v (k_geo v Hk)). destruct (k_margins v Hk) as [Ht Hbo].
  destruct (p_cur w Hw) as (Hwc & Hwr & Hwp). pose proof (row_offset _ _ _ _ Hwr Hwc) as Hoff. rewrite <- Hwp in Hoff.
  revert Hz. apply (switch_ind (fun b : bool => b = true -> False)); [repeat (apply Forall_cons; split; [cbn [fst snd]; intros -> Hz; bsimp|]); try (by constructor)|done].
  - apply (csi_settle _ _ (_ttypc_vtf_cuu v)) in E as (_ & Ec & Er & Ep); try done; [|by apply (core_alike v); [done|by constructor|exact (k_hist v Hk)|exact (k_dpos v Hk)]].
    change (cols (_ttypc_vtf_cuu v)) with (cols v) in *. change (rows (_ttypc_vtf_cuu v)) with (rows v) in *. change (bottom (_ttypc_vtf_cuu v)) with (bottom v) in Ep.
    assert (Eu : cpos (_ttypc_vtf_cuu v) = 2 ^ 16 + ccol v - cols v).
    { cbn. destruct (count_cases v Hv (crow v - top v)) as [[_ ->]|[? _]]; [|lia]. unfold u16. symmetry. apply (Z.mod_unique _ _ (-1)); nia. }
    rewrite Eu in Ep. rewrite (proj2 (Z.leb_le _ _)) in Ep by nia. rewrite u16_id in Ep by lia. rewrite Er, Ec in Hoff. pose proof (g_screen v (k_geo v Hk)). lia.
  - apply (csi_settle _ _ (_ttypc_vtf_cuf v)) in E as (Ecc & Ec & _ & _); try done; [|by apply core_cursor].
    change (cols (_ttypc_vtf_cuf v)) with (cols v) in *. assert (Eu : ccol (_ttypc_vtf_cuf v) = cols v).
    { cbn. destruct (count_cases v Hv (cols v - ccol v - 1)) as [[_ ->]|[? _]]; [|lia]. rewrite u8_id by lia. lia. }
    lia.
  - apply (csi_settle _ _ (_ttypc_vtf_cub v)) in E as (Ecc & Ec & _ & _); try done; [|by apply core_cursor].
    change (cols (_ttypc_vtf_cub v)) with (cols v) in *. assert (Eu : ccol (_ttypc_vtf_cub v) = 255).
    { cbn. destruct (count_cases v Hv (ccol v)) as [[_ ->]|[? _]]; [|lia]. replace (ccol v) with 0 by lia. done. }
    lia.
  - rewrite sput_char in E by (done || apply Hv). unfold character in E. rewrite He in E. change (after_csi (ch "P") v) with (final (_ttypc_vtf_dch v)) in E. by rewrite dch_out in E.
  - rewrite sput_char in E by (done || apply Hv). unfold character in E. rewrite He in E. change (after_csi (ch "S") v) with (final (_ttypc_vtf_su v)) in E. unfold _ttypc_vtf_su in E.
    pose proof (count_pos v Hv (rows v - 1) ltac:(lia)). rewrite u32_id, rollup_out in E by (done || lia). done.
  - rewrite sput_char in E by (done || apply Hv). unfold character in E. rewrite He in E. change (after_csi (ch "T") v) with (final (_ttypc_vtf_sd v)) in E. by rewrite sd_out in E.
Qed.

(** A stream none of whose characters is a hazard where it is processed. *)
Inductive calm : list Z -> vt -> Prop :=
  | calm_nil v : calm [] v
  | calm_cons b bs v : hazard (to_char b) v = false -> (forall w, _ttypc_vt_sput (to_char b) v = Some w -> calm bs w) -> calm (b :: bs) v.

Lemma to_char_range b : to_char b <= 255.
Proof. unfold to_char, s8, u8. case_if; pose proof (Z.mod_pos_bound (b + 2 ^ 7) (2 ^ 8)); pose proof (Z.mod_pos_bound b (2 ^ 8)); lia. Qed.

Lemma sputs_cons b bs v : sputs (b :: bs) v = mbind (M := option) (sputs bs) (_ttypc_vt_sput (to_char b) v).
Proof.
  unfold sputs. cbn [foldl mbind option_bind]. destruct (_ttypc_vt_sput (to_char b) v) as [w|]; [done|]. cbn. induction bs; [done|]. cbn. done.
Qed.

Lemma sputs_app bs bs' v : sputs (bs ++ bs') v = mbind (M := option) (sputs bs') (sputs bs v).
Proof.
  revert v. induction bs as [|b bs IH]; intros v; [done|]. cbn [app]. rewrite !sputs_cons. destruct (_ttypc_vt_sput (to_char b) v) as [w|]; [apply IH|done].
Qed.

Lemma sputs_calm bs v : plain v -> calm bs v -> exists w, sputs bs v = Some w /\ plain w.
Proof.
  intros Hv Hc. induction Hc as [v|b bs v Hz _ IH]; [by exists v|]. destruct (ok_elim _ _ (sput_plain _ v Hv (to_char_range b) Hz)) as (w & E & Hw).
  rewrite sputs_cons, E. cbn. by apply IH.
Qed.
End sput.

(** ** Text outside escape sequences *)

(** What text outside escape sequences leaves alone: the parser's state, the saved state, the geometry. *)
Record framed (v w : vt) : Prop := {
  f_escst : escst w = escst v;
  f_saved : sc w = sc v /\ sv w = sv v;
  f_screen : rows w = rows v /\ cols w = cols v /\ top w = top v /\ bottom w = bottom v;
}.

Lemma framed_refl v : framed v v.
Proof. by constructor. Qed.
Lemma framed_trans v w x : framed v w -> framed w x -> framed v x.
Proof. intros [? [] (? & ? & ? & ?)] [? [] (? & ? & ? & ?)]. constructor; repeat split; congruence. Qed.

Lemma rolled_framed v w : rolled v w -> framed v w.
Proof. by intros (es & m & b & z & _ & _ & _ & ->). Qed.
Lemma repainted_framed v w : repainted v w -> framed v w.
Proof. by intros (es & m & _ & ->). Qed.

Section text.
Context {CS : CharSign}.

Lemma ri_framed v : plain v -> ok (_ttypc_vtf_ri v) (framed v).
Proof.
  intros Hv. unfold _ttypc_vtf_ri. case_if; [by constructor|]. pose proof (k_margins v (p_core v Hv)). destruct (cur_bounds v Hv) as (_ & Hr & Hp & Hb). bsimp.
  destruct (cells_bound v (k_geo v (p_core v Hv))) as (_ & _ & ? & _). apply ok_rolldown; [apply Hv|lia|nia|lia|]. apply rolled_framed.
Qed.

Lemma tab_framed n : forall v w, tab_loop n v = Some w -> framed v w.
Proof.
  induction n as [|n IH]; intros v w; cbn [tab_loop]; [by intros [= <-]|]. cbv zeta. set (v1 := set_ccol _ _). assert (H1 : framed v v1) by (by constructor).
  destruct (buf_get (tabs v1) (ccol v1)) as [[]|]; cbn [mbind option_bind]; [by intros [= <-]| |done]. intros E. apply (framed_trans _ _ _ H1). by apply IH.
Qed.

Lemma control_framed c v : plain v -> escst v = ESC_INIT -> c <> 0x1b -> ok (control c v) (framed v).
Proof.
  intros Hv He Hc. unfold control. apply switch_ind; [repeat (apply Forall_cons; split; [cbn [fst snd]; intros Ec|]); try (by constructor)|done]; try done.
  - unfold backspace. case_if; [by constructor|]. apply ok_bind. apply (ok_mono _ _ _ (ri_framed v Hv)). intros w Hw. refine (framed_trans _ _ _ Hw _). by constructor.
  - destruct (ok_elim _ _ (tab_ok v Hv)) as (w & E & _). rewrite E. by apply tab_framed in E.
  - unfold line_feed. repeat case_if; by constructor.
  - unfold line_feed. repeat case_if; by constructor.
  - unfold line_feed. repeat case_if; by constructor.
Qed.

Lemma print_framed c v : plain v -> c <= 255 -> ok (print c v) (framed v).
Proof.
  intros Hv Hc. unfold print. apply ok_bind. destruct (cur_bounds v Hv) as (Hcc & Hr & Hp & Hb). pose proof (k_geo v (p_core v Hv)) as Hg. pose proof (g_vram v Hg). assert ((crow v + 1) * cols v <= rows v * cols v) by nia.
  assert (Hi : ok (if irm v then _ttypc_vga_move v (cpos v + 1) (cpos v) (cols v - ccol v - 1) else Some v) (fun w => repainted v w)).
  { case_if; [apply ok_move; [apply Hv|lia..|done]|apply repainted_refl]. }
  apply (ok_mono _ _ _ Hi). intros w Hw. destruct (sdraw_eq w c (plain_repainted v w Hv Hw) Hc) as (val & es & ->). cbn [mbind option_bind ok].
  apply repainted_framed in Hw. refine (framed_trans _ _ _ Hw _). repeat case_if; by constructor.
Qed.

Lemma settle_framed v : mid v -> ok (settle v) (framed v).
Proof.
  intros Hm. destruct (ok_elim _ _ (settle_ok v Hm)) as (w & E & _). rewrite E. cbn. unfold settle in E.
  assert (Hr : exists u, (if (bottom v + 1) * cols v <=? cpos v then mbind (M := option) (fun x : vt => Some (set_cpos (u16 (cpos x - cols x)) x)) (_ttypc_vga_rollup v 1) else Some v) = Some u /\ framed v u).
  { case_if; [|by exists v]. destruct (ok_elim _ _ (ok_rollup_1 v (m_core v Hm) (rolled v) (fun w H => H))) as (u & -> & Hu). eexists. split; [done|]. apply rolled_framed in Hu. refine (framed_trans _ _ _ Hu _). by constructor. }
  destruct Hr as (u & Hu & He). rewrite Hu in E. cbn [mbind option_bind] in E. refine (framed_trans _ _ _ He _).
  destruct (active (set_crow (u8 (cpos u / cols u)) u)); [destruct (setcursor_frame _ _ E) as [es ->]|injection E as <-]; by constructor.
Qed.

Lemma ok_and r (P Q : vt -> Prop) : ok r P -> ok r Q -> ok r (fun v => P v /\ Q v).
Proof. by destruct r. Qed.

Lemma sput_framed c v w : plain v -> escst v = ESC_INIT -> c <= 255 -> c <> 0x1b -> _ttypc_vt_sput c v = Some w -> plain w /\ framed v w.
Proof.
  intros Hv He Hc Hn E. assert (Hz : hazard c v = false) by (unfold hazard; by rewrite bool_decide_eq_false_2 by congruence).
  assert (H : ok (_ttypc_vt_sput c v) (fun w => plain w /\ framed v w)); [|by rewrite E in H].
  unfold _ttypc_vt_sput, _ttypc_vga_scrollcancel. rewrite (p_live v Hv). cbn [Z.eqb mbind option_bind]. apply ok_bind.
  assert (H : ok (if (c <? 0x20) || (c =? 0x7f) then control c v else character c v) (fun w => mid w /\ framed v w)).
  { apply ok_and; [case_if; [by apply control_ok|by apply character_ok]|]. case_if; [by apply control_framed|]. unfold character. rewrite He. by apply print_framed. }
  apply (ok_mono _ _ _ H). intros x [Hx Hex]. apply ok_and; [by apply settle_ok|]. apply (ok_mono _ _ _ (settle_framed x Hx)). intros y. by apply framed_trans.
Qed.

Lemma text_calm bs : forall v, plain v -> escst v = ESC_INIT -> Forall (fun b => to_char b <> 0x1b) bs -> calm bs v.
Proof.
  induction bs as [|b bs IH]; intros v Hv He Hf; [constructor|]. apply Forall_cons in Hf as [Hb Hf].
  constructor; [unfold hazard; by rewrite bool_decide_eq_false_2 by congruence|]. intros w E. destruct (sput_framed _ v w Hv He (to_char_range b) Hb E) as [Hw Hf']. apply IH; [done|by rewrite (f_escst v w Hf')|done].
Qed.
End text.

(** ** The start of a terminal *)

Definition fresh (color : bool) (ktype ttybuffsz : Z) : vt := _ttypc_vtf_str (set_rows 25 (set_cols 80 (set_dpos (-1) (vt_zero color ktype ttybuffsz)))).

Lemma zlen_replicate {A} n (x : A) : 0 <= n -> zlen (replicate (Z.to_nat n) x) = n.
Proof. intros. unfold zlen. rewrite length_replicate. lia. Qed.

Lemma fresh_plain color ktype sz : 4000 <= sz <= 2 ^ 18 -> plain (fresh color ktype sz).
Proof.
  intros Hz. assert (Hcap : capacity (fresh color ktype sz) = 32 * sz / 160).
  { unfold capacity, _ttypc_vga_scrollbackcapacity, SCRB_PAGES. change (buffsz (fresh color ktype sz)) with sz. change (cols (fresh color ktype sz)) with 80. rewrite u32_id by lia. done. }
  assert (Hv : zlen (vram (fresh color ktype sz)) = sz / 2) by (apply zlen_replicate; divlia).
  assert (Ho : zlen (scro (fresh color ktype sz)) = sz / 2) by (apply zlen_replicate; divlia).
  assert (Hb : zlen (scrb (fresh color ktype sz)) = 32 * sz / 2) by (apply (zlen_replicate (32 * sz / 2)); divlia).
  constructor; [|done|done]. constructor; try done.
  - constructor; rewrite ?Hcap, ?Hv, ?Ho, ?Hb; change (rows (fresh color ktype sz)) with 25; change (cols (fresh color ktype sz)) with 80; unfold MAXTABS; divlia.
  - rewrite Hcap. change (scrbsz (fresh color ktype sz)) with 0. divlia.
  - apply standard_sets.
  - apply zero_parms.
Qed.

Lemma init_escst color ktype sz : 4000 <= sz <= 2 ^ 18 ->
  ok (ttypc_vt_init color ktype sz) (fun w => plain w /\ escst w = ESC_INIT /\ rows w = 25 /\ cols w = 80).
Proof.
  intros Hz. pose proof (fresh_plain color ktype sz Hz) as Hf. unfold ttypc_vt_init. change (_ttypc_vtf_str _) with (fresh color ktype sz).
  pose proof (g_vram _ (k_geo _ (p_core _ Hf))). apply ok_set; [apply Hf|done|done|change (rows (fresh color ktype sz)) with 25 in *; change (cols (fresh color ktype sz)) with 80 in *; lia|].
  intros w Hw. split; [by apply (plain_repainted _ _ Hf)|]. by destruct Hw as (es & m & _ & ->).
Qed.

(** The first terminal on the display; the cursor register must point at the screen. *)
Lemma start_ok v vga reg : plain v -> rows v * cols v <= zlen vga < 2 ^ 31 -> 0 <= reg < rows v * cols v ->
  ok (start_display vga reg v) (fun w => plain w /\ escst w = escst v).
Proof.
  intros Hv Hvga Hreg. pose proof (p_core v Hv) as Hk. pose proof (k_geo v Hk) as Hg. destruct (cells_bound v Hg) as (Hb1 & Hb2 & Hb3 & Hb4). pose proof (g_rows v Hg).
  unfold start_display, _ttypc_vga_getcursor. rewrite u16_id by nia. set (w0 := set_active true (set_vram vga (set_mem (vram v) v))).
  change (cpos (set_cpos reg w0)) with reg. change (cols (set_cpos reg w0)) with (cols v). cbn [cpos cols vt_cursor vt_screen set_ccol set_cursor set_cpos]. change (cols w0) with (cols v).
  pose proof (Z.mod_pos_bound reg (cols v) Hb3) as Hm. pose proof (Z.div_mod reg (cols v) ltac:(lia)) as Hdm. pose proof (Z.div_pos reg (cols v) ltac:(lia) Hb3).
  assert (reg / cols v < rows v) by (apply Z.div_lt_upper_bound; lia). rewrite !u8_id by lia.
  set (w := set_crow (reg / cols v) (set_ccol (reg mod cols v) (set_cpos reg w0))).
  assert (Hw : plain w).
  { destruct Hk as [Hgv ? ? ? ? ? ? ? Hs]. constructor; [|apply Hv|repeat split; cbn; lia]. constructor; try done. destruct Hgv. by constructor. }
  apply ok_set; [apply Hw|cbn; lia|cbn; lia|cbn; lia|]. intros x Hx. split; [by apply (plain_repainted w x)|]. by apply repainted_framed in Hx as [].
Qed.

(** ** Theorems *)

(** C17: memory safety of a character, exactly. In a state with the invariant, a character is processed without
    an access outside the buffers, and leaves a state with the invariant, if and only if it is not one of the
    hazards: the final of a CSI sequence that moves the cursor up, right or left without parameter at the edge of
    the screen, deletes characters so close to the end of the memory that the blanks fall outside, or scrolls more
    lines than the memory holds below the top margin or more than the region has when the cursor is above it. *)
Theorem vt_sput_safe_iff `{CS : CharSign} c v : plain v -> c <= 255 ->
  (hazard c v = false <-> exists w, _ttypc_vt_sput c v = Some w /\ plain w).
Proof.
  intros Hv Hc. split.
  - intros Hz. by apply ok_elim, sput_plain.
  - intros (w & E & Hw). destruct (hazard c v) eqn:Hz; [|done]. by destruct (hazard_breaks c v w Hv Hz E).
Qed.

(** safety of streams. A terminal that has been initialised with a page of memory or more processes every
    stream of bytes without hazards to its end, and keeps the invariant; a stream with no escape character is one. *)
Theorem vt_stream_safe `{CS : CharSign} color ktype sz vga reg bs : 4000 <= sz <= 2 ^ 18 -> 2000 <= zlen vga < 2 ^ 31 -> 0 <= reg < 2000 ->
  exists v0 v, ttypc_vt_init color ktype sz = Some v0 /\ start_display vga reg v0 = Some v /\ plain v /\
    (calm bs v -> exists w, sputs bs v = Some w /\ plain w) /\
    (Forall (fun b => to_char b <> 0x1b) bs -> calm bs v).
Proof.
  intros Hz Hvga Hreg. destruct (ok_elim _ _ (init_escst color ktype sz Hz)) as (v0 & E0 & Hv0 & He0 & Er & Ec). exists v0.
  assert (Ecells : rows v0 * cols v0 = 2000) by (by rewrite Er, Ec).
  destruct (ok_elim _ _ (start_ok v0 vga reg Hv0 ltac:(lia) ltac:(lia))) as (v & E & Hv & He). exists v. split; [done|]. split; [done|]. split; [done|].
  split; [by apply sputs_calm|]. apply text_calm; [done|]. congruence.
Qed.
End VtCorrect.
