(* ===== verification/VtText.v ===== *)
(** * PC virtual terminal: text

    The flat screen memory with its offsets implements a terminal of lines: [aterm] has the
    lines of the screen, the lines scrolled off, and a cursor. Printable characters, carriage
    return and line feed are proved to do on the memory what they do on the lines. *)

From S2P Require Import Prelude Vt VtCells VtSafe VtCorrect.

Module VtText.
Import Vt VtCells VtSafe VtCorrect.
Implicit Types v w : vt.

(** ** Rows of a buffer *)

(** Row [r] of a buffer with rows of [c] cells. *)
Definition row (l : list Z) (c r : nat) : list Z := span l (r * c) c.

Lemma lookup_row l c r i : row l c r !! i = if decide (i < c)%nat then l !! (r * c + i)%nat else None.
Proof. apply lookup_span. Qed.

Lemma row_splice l a xs k c r : length xs = (k * c)%nat -> (a * c + k * c <= length l)%nat ->
  row (splice l (a * c) xs) c r = if decide (a <= r < a + k)%nat then row xs c (r - a) else row l c r.
Proof.
  intros Hx Hl. apply list_eq. intros i. rewrite lookup_row. destruct (decide (i < c)%nat) as [Hi|Hi].
  - rewrite lookup_splice by lia. rewrite Hx. repeat case_decide; rewrite ?lookup_row, ?decide_True by done; try done; try (exfalso; nia). f_equal. nia.
  - case_decide; rewrite lookup_row, decide_False by done; done.
Qed.

Lemma row_blit l d s k c r : (d * c + k * c <= length l)%nat -> (s * c + k * c <= length l)%nat ->
  row (blit l (d * c) (s * c) (k * c)) c r = if decide (d <= r < d + k)%nat then row l c (s + (r - d)) else row l c r.
Proof.
  intros Hd Hs. apply list_eq. intros i. rewrite lookup_row. destruct (decide (i < c)%nat) as [Hi|Hi].
  - rewrite lookup_blit by lia. repeat case_decide; rewrite ?lookup_row, ?decide_True by done; try done; try (exfalso; nia). f_equal. nia.
  - case_decide; rewrite lookup_row, decide_False by done; done.
Qed.

Lemma row_insert l c r0 j x r : (j < c)%nat -> ((r0 + 1) * c <= length l)%nat ->
  row (<[(r0 * c + j)%nat := x]> l) c r = if decide (r = r0) then <[j := x]> (row l c r) else row l c r.
Proof.
  intros Hj Hl. apply list_eq. intros i. rewrite lookup_row. destruct (decide (i < c)%nat) as [Hi|Hi].
  - destruct (decide (r = r0)) as [->|Hr].
    + destruct (decide (i = j)) as [->|Hij].
      * rewrite !list_lookup_insert_eq; [done|unfold row; rewrite length_span; [done|nia]|nia].
      * rewrite !list_lookup_insert_ne by lia. by rewrite lookup_row, decide_True.
    + rewrite list_lookup_insert_ne by nia. by rewrite lookup_row, decide_True.
  - destruct (decide (r = r0)); [rewrite list_lookup_insert_ne by lia|]; by rewrite lookup_row, decide_False.
Qed.

Lemma row_replicate n c r x : ((r + 1) * c <= n)%nat -> row (replicate n x) c r = replicate c x.
Proof.
  intros Hn. apply list_eq. intros i. rewrite lookup_row. case_decide; [rewrite !lookup_replicate_2 by nia; done|]. symmetry. apply lookup_ge_None. rewrite length_replicate. lia.
Qed.

Lemma row_0 l c : length l = c -> row l c 0 = l.
Proof. intros <-. unfold row, span. cbn. by rewrite take_ge. Qed.

(** The first [n] rows. *)
Definition table (l : list Z) (c n : nat) : list (list Z) := row l c <$> seq 0 n.

Lemma lookup_table l c n r : table l c n !! r = if decide (r < n)%nat then Some (row l c r) else None.
Proof.
  unfold table. rewrite list_lookup_fmap. case_decide; [by rewrite lookup_seq_lt|]. by rewrite lookup_seq_ge by lia.
Qed.

Lemma length_table l c n : length (table l c n) = n.
Proof. unfold table. by rewrite length_fmap, length_seq. Qed.

(** ** The terminal of lines *)

Record setup := mk_setup {
  s_cols : nat; s_rows : nat; s_top : nat; s_bottom : nat; s_cap : nat;   (* geometry, margins, lines kept *)
  s_blank : Z; s_glyph : Z -> Z;                                          (* cells *)
  s_wrap : bool; s_newline : bool                                         (* auto wrap, new line mode *)
}.
Record aterm := mk_aterm { a_hist : list (list Z); a_lines : list (list Z); a_row : nat; a_col : nat; a_skip : bool }.

(** The last [n] elements. *)
Definition lastn {A} (n : nat) (l : list A) : list A := drop (length l - n) l.

(** The region one line up; a region of two lines stays as it is. *)
Definition region_up (s : setup) (ls : list (list Z)) : list (list Z) :=
  if decide (s_bottom s - s_top s <= 1)%nat then ls
  else take (s_top s) ls ++ drop (S (s_top s)) (take (S (s_bottom s)) ls) ++ [replicate (s_cols s) (s_blank s)] ++ drop (S (s_bottom s)) ls.

(** The cursor one line down, or the region one line up when it is at its bottom. *)
Definition a_down (s : setup) (t : aterm) : aterm :=
  if decide (a_row t < s_bottom s)%nat then mk_aterm (a_hist t) (a_lines t) (S (a_row t)) (a_col t) (a_skip t)
  else mk_aterm (lastn (s_cap s) (a_hist t ++ [a_lines t !!! s_top s])) (region_up s (a_lines t)) (a_row t) (a_col t) (a_skip t).

Definition a_put (s : setup) (x : Z) (t : aterm) : aterm :=
  let ls := alter (fun l => <[a_col t := x]> l) (a_row t) (a_lines t) in
  if decide (S (a_col t) < s_cols s)%nat then mk_aterm (a_hist t) ls (a_row t) (S (a_col t)) false
  else if s_wrap s then a_down s (mk_aterm (a_hist t) ls (a_row t) 0 true)
  else mk_aterm (a_hist t) ls (a_row t) (a_col t) false.

Definition a_return (t : aterm) : aterm := mk_aterm (a_hist t) (a_lines t) (a_row t) 0 (a_skip t).

(** After a wrap, the line feed is skipped. *)
Definition a_feed (s : setup) (t : aterm) : aterm :=
  let t' := mk_aterm (a_hist t) (a_lines t) (a_row t) (a_col t) false in
  if a_skip t then t' else a_down s (if s_newline s then a_return t' else t').

Definition a_char (s : setup) (t : aterm) (c : Z) : aterm :=
  if c =? 13 then a_return t else if (c =? 10) || (c =? 11) || (c =? 12) then a_feed s t else a_put s (s_glyph s c) t.

(** ** What the memory shows *)

Section view.
Context {CS : CharSign}.

Definition glyph (v : vt) (c : Z) : Z := u16 (attr v ||| to_char (arr_get (charset_at (cs v) (GL (cs v))) (c - 0x20))).

Definition setup_of (v : vt) : setup :=
  mk_setup (Z.to_nat (cols v)) (Z.to_nat (rows v)) (Z.to_nat (top v)) (Z.to_nat (bottom v)) (Z.to_nat (capacity v))
    (u16 (blank v)) (glyph v) (awm v) (lnm v).

Definition lines (v : vt) : list (list Z) := table (vram v) (Z.to_nat (cols v)) (Z.to_nat (rows v)).
Definition history (v : vt) : list (list Z) := table (scrb v) (Z.to_nat (cols v)) (Z.to_nat (scrbsz v)).
Definition view (v : vt) : aterm := mk_aterm (history v) (lines v) (Z.to_nat (crow v)) (Z.to_nat (ccol v)) (lc v).

(** Ready for text: outside escape sequences, within the region or above it, no insertion. *)
Record ready (v : vt) : Prop := {
  r_plain : plain v;
  r_init : escst v = ESC_INIT;
  r_irm : irm v = false;
  r_ss : ss v = false;
  r_row : crow v <= bottom v;
}.

Definition is_text (c : Z) : Prop := 0x20 <= c < 0x7f \/ 10 <= c <= 13.

(** ** Rolls on lines *)

Section up.
Context (v : vt).
Hypothesis Hk : core v.

Let C := Z.to_nat (cols v).
Let Hg : geometry v := k_geo v Hk.

Lemma mul_nat a : 0 <= a -> Z.to_nat (a * cols v) = (Z.to_nat a * C)%nat.
Proof. intros. pose proof (g_cols v Hg). unfold C. rewrite Z2Nat.inj_mul by lia. done. Qed.

Lemma vram_rows : (Z.to_nat (rows v) * C <= length (vram v))%nat.
Proof. pose proof (g_vram v Hg). pose proof (g_rows v Hg). unfold zlen in *. rewrite <- mul_nat by lia. lia. Qed.

Lemma scrb_rows : (Z.to_nat (capacity v) * C <= length (scrb v))%nat.
Proof. pose proof (g_scrb v Hg). pose proof (g_cap v Hg). unfold zlen in *. rewrite <- mul_nat by lia. lia. Qed.

Lemma up_vram_row r : row (up_vram v 1) C r =
  if decide (Z.to_nat (bottom v) - Z.to_nat (top v) <= 1)%nat then row (vram v) C r
  else if decide (r = Z.to_nat (bottom v)) then replicate C (u16 (blank v))
  else if decide (Z.to_nat (top v) <= r < Z.to_nat (bottom v))%nat then row (vram v) C (S r) else row (vram v) C r.
Proof.
  destruct (k_margins v Hk) as [Ht Hb]. pose proof vram_rows as Hrw. unfold up_vram. destruct (1 <? bottom v - top v) eqn:E; bsimp; [rewrite decide_False by lia|by rewrite decide_True by lia].
  rewrite !mul_nat by lia. rewrite (Z2Nat.inj_add (top v)) by lia.
  assert (E1 : Z.to_nat (bottom v - top v + 1 - 1) = (Z.to_nat (bottom v) - Z.to_nat (top v))%nat) by lia.
  replace (bottom v + 1 - 1) with (bottom v) by lia. rewrite E1. change (Z.to_nat 1) with 1%nat. rewrite ?Nat.mul_1_l.
  rewrite (row_splice _ _ _ 1); [|by rewrite length_replicate; lia|rewrite length_blit; nia].
  case_decide; [case_decide; [|lia]|case_decide; [lia|]].
  - replace (r - Z.to_nat (bottom v))%nat with 0%nat by lia. apply row_0. apply length_replicate.
  - rewrite row_blit by nia. repeat case_decide; try lia; [|done]. f_equal. lia.
Qed.

Lemma lookup_region_up ls r : length ls = Z.to_nat (rows v) -> region_up (setup_of v) ls !! r =
  if decide (Z.to_nat (bottom v) - Z.to_nat (top v) <= 1)%nat then ls !! r
  else if decide (r = Z.to_nat (bottom v)) then Some (replicate C (u16 (blank v)))
  else if decide (Z.to_nat (top v) <= r < Z.to_nat (bottom v))%nat then ls !! S r else ls !! r.
Proof.
  intros Hls. destruct (k_margins v Hk) as [Ht Hb]. unfold region_up. cbn [s_bottom s_top setup_of s_cols s_blank]. case_decide; [done|].
  set (T := Z.to_nat (top v)) in *. set (B := Z.to_nat (bottom v)) in *. assert (HB : (T < B < length ls)%nat) by lia.
  assert (Hd : length (drop (S T) (take (S B) ls)) = (B - T)%nat) by (rewrite length_drop, length_take; lia).
  destruct (decide (r < T)%nat).
  { rewrite lookup_app_l by (rewrite length_take; lia). rewrite lookup_take_lt by lia. repeat case_decide; try lia; done. }
  rewrite lookup_app_r by (rewrite length_take; lia). rewrite length_take, Nat.min_l by lia. destruct (decide (r < B)%nat).
  { rewrite lookup_app_l by lia. rewrite lookup_drop, lookup_take_lt by lia. repeat case_decide; try lia. f_equal. lia. }
  rewrite lookup_app_r by lia. rewrite Hd. destruct (decide (r = B)) as [->|Hr].
  { by replace (B - T - (B - T))%nat with 0%nat by lia. }
  rewrite lookup_app_r by (cbn; lia). rewrite lookup_drop. cbn [length]. repeat case_decide; try lia. f_equal. lia.
Qed.

Lemma lines_up : table (up_vram v 1) C (Z.to_nat (rows v)) = region_up (setup_of v) (lines v).
Proof.
  destruct (k_margins v Hk) as [Ht Hb]. apply list_eq. intros r. rewrite lookup_region_up by apply length_table. unfold lines. rewrite !lookup_table, up_vram_row. fold C.
  repeat case_decide; try done; lia.
Qed.

Lemma history_up : table (up_scrb v 1) C (Z.to_nat (alloc_size v 1)) = lastn (Z.to_nat (capacity v)) (history v ++ [lines v !!! Z.to_nat (top v)]).
Proof.
  destruct (k_margins v Hk) as [Ht Hb]. pose proof (g_cap v Hg). pose proof (k_hist v Hk). pose proof vram_rows as Hvr. pose proof scrb_rows as Hsr.
  assert (Hlen : length (history v ++ [lines v !!! Z.to_nat (top v)]) = S (Z.to_nat (scrbsz v))) by (rewrite length_app; unfold history; rewrite length_table; cbn; lia).
  assert (El : lines v !!! Z.to_nat (top v) = row (vram v) C (Z.to_nat (top v))) by (apply list_lookup_total_correct; unfold lines; rewrite lookup_table, decide_True by lia; done).
  assert (Eu : up_lines v 1 = 1) by (unfold up_lines; lia). apply list_eq. intros r. unfold lastn. rewrite lookup_drop, Hlen, lookup_table. unfold up_scrb. rewrite Eu.
  replace (top v + 1 - 1) with (top v) by lia. rewrite !mul_nat by (unfold alloc_size; lia). change (Z.to_nat 1) with 1%nat. rewrite Nat.mul_1_l. fold (row (vram v) C (Z.to_nat (top v))).
  assert (Hrow : length (row (vram v) C (Z.to_nat (top v))) = C) by (unfold row; apply length_span; nia).
  set (n := Z.to_nat (alloc_size v 1 - 1)). unfold alloc_size in *.
  case_decide as Hr.
  2: { symmetry. apply lookup_ge_None. rewrite Hlen. lia. }
  rewrite (row_splice _ _ _ 1) by (rewrite ?length_alloc by (done || lia); nia). case_decide as Hn.
  - rewrite lookup_app_r by (unfold history; rewrite length_table; lia). unfold history. rewrite length_table. replace (S (Z.to_nat (scrbsz v)) - Z.to_nat (capacity v) + r - Z.to_nat (scrbsz v))%nat with 0%nat by lia.
    replace (r - n)%nat with 0%nat by lia. rewrite row_0 by done. cbn. by rewrite El.
  - rewrite lookup_app_l by (unfold history; rewrite length_table; lia). unfold history. rewrite lookup_table, decide_True by lia. unfold alloc_scrb. case_if; bsimp.
    + rewrite !mul_nat by lia. match goal with |- context [blit ?l 0 ?s ?k] => change (blit l 0 s k) with (blit l (0 * C) s k) end.
      rewrite row_blit by nia. rewrite decide_True by lia. do 2 f_equal. lia.
    + do 2 f_equal. lia.
Qed.
End up.

(** ** One character *)

(** Everything that [setup_of] and [ready] read is the same. *)
Record keeps (v w : vt) : Prop := {
  q_geo : rows w = rows v /\ cols w = cols v /\ top w = top v /\ bottom w = bottom v /\ buffsz w = buffsz v;
  q_chars : attr w = attr v /\ cs w = cs v /\ ss w = ss v;
  q_modes : awm w = awm v /\ lnm w = lnm v /\ irm w = irm v /\ escst w = escst v;
}.

Lemma keeps_setup v w : keeps v w -> setup_of w = setup_of v.
Proof.
  intros [(E1 & E2 & E3 & E4 & E5) (E6 & E7 & _) (E8 & E9 & _)]. unfold setup_of, glyph, blank. by rewrite (capacity_eq v w), E1, E2, E3, E4, E6, E7, E8, E9 by done.
Qed.

Lemma keeps_trans v w x : keeps v w -> keeps w x -> keeps v x.
Proof. intros [(?&?&?&?&?) (?&?&?) (?&?&?&?)] [(?&?&?&?&?) (?&?&?) (?&?&?&?)]. constructor; repeat split; congruence. Qed.

(** [settle] as a step down: [r] is the row of the cursor's offset. *)
Lemma settle_view v r : mid v -> cpos v = r * cols v + ccol v -> 0 <= r <= bottom v + 1 ->
  exists w, settle v = Some w /\ plain w /\ keeps v w /\ crow w <= bottom v /\
    view w = if decide (r <= bottom v) then mk_aterm (history v) (lines v) (Z.to_nat r) (Z.to_nat (ccol v)) (lc v)
             else mk_aterm (lastn (Z.to_nat (capacity v)) (history v ++ [lines v !!! Z.to_nat (top v)])) (region_up (setup_of v) (lines v))
                    (Z.to_nat (bottom v)) (Z.to_nat (ccol v)) (lc v).
Proof.
  intros Hm Hp Hr. destruct (ok_elim _ _ (settle_ok v Hm)) as (w & E & Hw). exists w. split; [done|]. split; [done|]. pose proof (m_core v Hm) as Hk. pose proof (m_col v Hm) as Hc.
  destruct (k_margins v Hk) as [Ht Hb]. destruct (cells_bound v (k_geo v Hk)) as (Hb1 & _ & Hb3 & _). pose proof (g_rows v (k_geo v Hk)). unfold settle in E.
  assert (Hu : exists es m b z r', (if (bottom v + 1) * cols v <=? cpos v then mbind (M := option) (fun x : vt => Some (set_cpos (u16 (cpos x - cols x)) x)) (_ttypc_vga_rollup v 1) else Some v)
      = Some (add_out es (set_cpos (r' * cols v + ccol v) (set_vram m (set_scrb b (set_scrbsz z v))))) /\ 0 <= r' <= bottom v /\
      (if decide (r <= bottom v) then m = vram v /\ b = scrb v /\ z = scrbsz v /\ r' = r else m = up_vram v 1 /\ b = up_scrb v 1 /\ z = alloc_size v 1 /\ r' = bottom v)).
  { case_decide as Hd.
    - rewrite (proj2 (Z.leb_gt _ _)) by nia. exists [], (vram v), (scrb v), (scrbsz v), r. split; [|split; [lia|done]]. rewrite add_out_nil, <- Hp. by destruct v as [? [] []].
    - rewrite (proj2 (Z.leb_le _ _)) by nia. destruct (rollup_eq v Hk 1) as [es ->]; [lia|pose proof (g_vram v (k_geo v Hk)); nia|]. assert (up_lines v 1 = 1) as -> by (unfold up_lines; pose proof (g_cap v (k_geo v Hk)); lia).
      exists es, (up_vram v 1), (up_scrb v 1), (alloc_size v 1), (bottom v). split; [|split; [lia|done]]. cbn [mbind option_bind]. set (x := add_out es _). change (cpos x) with (cpos v). change (cols x) with (cols v).
      assert (Ep : cpos v - cols v = bottom v * cols v + ccol v) by nia. rewrite Ep, u16_id by nia. done. }
  destruct Hu as (es & m & b & z & r' & Eu & Hr' & Hmb). rewrite Eu in E. cbn [mbind option_bind] in E. set (x := add_out es _) in E. change (cpos x) with (r' * cols v + ccol v) in E. change (cols x) with (cols v) in E.
  rewrite offset_row in E by done. rewrite u8_id in E by lia.
  assert (Hv : exists es' d, w = add_out es' (set_dpos d (set_crow r' x))).
  { destruct (active (set_crow r' x)); [destruct (setcursor_frame _ _ E) as [es' ->]; by exists es', (s16 (cpos (set_crow r' x)))|]. injection E as <-. exists [], (dpos x). by rewrite add_out_nil. }
  destruct Hv as (es' & d & ->). split; [by constructor|]. split; [cbn; lia|]. unfold view, history, lines. cbn -[lastn]. case_decide; destruct Hmb as (-> & -> & -> & ->); [done|].
  f_equal; [by apply history_up|by apply lines_up].
Qed.

Lemma sdraw_text c v : plain v -> ss v = false -> 0x20 <= c < 0x7f ->
  exists es, _ttypc_vt_sdraw v c = Some (add_out es (set_ss false (set_vram (<[Z.to_nat (cpos v) := glyph v c]> (vram v)) v))).
Proof.
  intros Hv Hs Hc. destruct (cur_bounds v Hv) as (_ & _ & _ & Hp). pose proof (k_cs v (p_core v Hv)) as Hcs. pose proof (g_vram v (k_geo v (p_core v Hv))). unfold _ttypc_vt_sdraw. rewrite Hs.
  rewrite (proj2 (Z.leb_le _ _)), (proj2 (Z.leb_le _ _)) by lia. cbn [andb]. destruct (load_in (charset_at (cs v) (GL (cs v))) (c - 32)) as (x & -> & Hx); [rewrite Hcs; lia|]. cbn [mbind option_bind].
  assert (Eg : u16 (attr v ||| to_char x) = glyph v c) by (unfold glyph, arr_get; by rewrite (list_lookup_total_correct _ _ _ Hx)). rewrite Eg.
  rewrite store_in by lia. cbn [mbind option_bind]. set (w := set_ss false _). destruct (drawChar_out w (cpos w mod cols w) (cpos w / cols w) (glyph v c)) as [es ->]. by exists es.
Qed.

Lemma lines_put v x : plain v -> table (<[Z.to_nat (cpos v) := x]> (vram v)) (Z.to_nat (cols v)) (Z.to_nat (rows v)) =
  alter (fun l => <[Z.to_nat (ccol v) := x]> l) (Z.to_nat (crow v)) (lines v).
Proof.
  intros Hv. destruct (cur_bounds v Hv) as (Hc & Hr & Hp & Hb). pose proof (vram_rows v (p_core v Hv)) as Hvr. rewrite Hp, Z2Nat.inj_add, (mul_nat v (p_core v Hv)) by nia.
  apply list_eq. intros r. rewrite lookup_table. destruct (decide (r = Z.to_nat (crow v))) as [->|Hne].
  - rewrite decide_True by lia. rewrite list_lookup_alter_eq. unfold lines. rewrite lookup_table, decide_True by lia. cbn. by rewrite row_insert, decide_True by nia.
  - rewrite list_lookup_alter_ne by done. unfold lines. rewrite lookup_table. case_decide; [|done]. by rewrite row_insert, decide_False by nia.
Qed.

(** The step of a state [v1] that is [v] but for cells, cursor and the skip flag. *)
Lemma text_settle v v1 r : ready v -> mid v1 -> keeps v v1 -> cpos v1 = r * cols v1 + ccol v1 -> 0 <= r <= bottom v1 + 1 ->
  exists w, settle v1 = Some w /\ ready w /\ setup_of w = setup_of v /\
    view w = if decide (r <= bottom v) then mk_aterm (history v1) (lines v1) (Z.to_nat r) (Z.to_nat (ccol v1)) (lc v1)
             else mk_aterm (lastn (Z.to_nat (capacity v)) (history v1 ++ [lines v1 !!! Z.to_nat (top v)])) (region_up (setup_of v) (lines v1))
                    (Z.to_nat (bottom v)) (Z.to_nat (ccol v1)) (lc v1).
Proof.
  intros [Hv Hi Hirm Hss Hrow] Hm Hkp Hp Hr. destruct (settle_view v1 r Hm Hp Hr) as (w & E & Hw & Hkw & Hcw & Hview). exists w. split; [done|].
  pose proof (keeps_trans _ _ _ Hkp Hkw) as Hkvw. split; [|split; [by apply keeps_setup|]].
  - destruct Hkvw as [(E1 & E2 & E3 & E4 & E5) (E6 & E7 & E8) (E9 & E10 & E11 & E12)]. destruct Hkp as [(_ & _ & _ & F4 & _) _ _]. constructor; try done; congruence || lia.
  - rewrite Hview. destruct Hkp as [(E1 & E2 & E3 & E4 & E5) ? ?] eqn:Eq. rewrite (keeps_setup v v1), (capacity_eq v v1), E3, E4 by done. done.
Qed.

Lemma sput_control c v : scrbpos v = 0 -> c < 0x20 -> _ttypc_vt_sput c v = mbind (M := option) settle (control c v).
Proof.
  intros Hl Hc. unfold _ttypc_vt_sput, _ttypc_vga_scrollcancel. rewrite Hl. cbn [Z.eqb mbind option_bind]. by rewrite (proj2 (Z.ltb_lt _ _)).
Qed.

(** [settle] when the offset is in the region, and when it has left it. *)
Lemma view_down v hist ls c skip : plain v -> crow v <= bottom v ->
  a_down (setup_of v) (mk_aterm hist ls (Z.to_nat (crow v)) c skip) =
  if decide (crow v + 1 <= bottom v) then mk_aterm hist ls (Z.to_nat (crow v + 1)) c skip
  else mk_aterm (lastn (Z.to_nat (capacity v)) (hist ++ [ls !!! Z.to_nat (top v)])) (region_up (setup_of v) ls) (Z.to_nat (bottom v)) c skip.
Proof.
  intros Hv Hr. destruct (cur_bounds v Hv) as (_ & Hr' & _). unfold a_down. cbn -[lastn region_up]. repeat case_decide; try lia; f_equal; lia.
Qed.

Lemma return_step v : ready v -> exists w, _ttypc_vt_sput 13 v = Some w /\ ready w /\ setup_of w = setup_of v /\ view w = a_return (view v).
Proof.
  intros Hrd. pose proof (r_plain v Hrd) as Hv. destruct (cur_bounds v Hv) as (Hc & Hr & Hp & Hb). pose proof (r_row v Hrd).
  rewrite sput_control by (apply Hv || lia). change (control 13 v) with (Some (home_column v)). cbn [mbind option_bind]. pose proof (home_column_plain v Hv) as Hh. rewrite (home_column_eq v Hv) in *.
  destruct (text_settle v (set_ccol 0 (set_cpos (crow v * cols v) v)) (crow v) Hrd) as (w & E & Hrw & Hsw & Hview); [by apply plain_mid|by constructor|cbn; lia|cbn; lia|].
  exists w. split; [done|]. split; [done|]. split; [done|]. rewrite Hview, decide_True by lia. done.
Qed.

Lemma feed_step c v : ready v -> 10 <= c <= 12 -> exists w, _ttypc_vt_sput c v = Some w /\ ready w /\ setup_of w = setup_of v /\ view w = a_feed (setup_of v) (view v).
Proof.
  intros Hrd Hcc. pose proof (r_plain v Hrd) as Hv. destruct (cur_bounds v Hv) as (Hc & Hr & Hp & Hb). pose proof (r_row v Hrd) as Hrow. destruct (cells_bound v (k_geo v (p_core v Hv))) as (Hb1 & _ & Hb3 & _).
  rewrite sput_control by (apply Hv || lia). assert (Ec : control c v = Some (line_feed v)) by (assert (c = 10 \/ c = 11 \/ c = 12) as [->|[->| ->]] by lia; done). rewrite Ec. cbn [mbind option_bind].
  pose proof (line_feed_ok v Hv) as Hm. unfold line_feed in *. destruct (lc v) eqn:El; cbn [negb] in *.
  - destruct (text_settle v (set_lc false v) (crow v) Hrd) as (w & E & Hrw & Hsw & Hview); [done|by constructor|done|cbn; lia|].
    exists w. split; [done|]. split; [done|]. split; [done|]. rewrite Hview, decide_True by lia. unfold a_feed, view. cbn. by rewrite El.
  - set (h := if lnm v then home_column v else v) in *. assert (Hh : exists k, ccol h = k /\ cpos h = crow v * cols v + k /\ 0 <= k < cols v /\ k = if lnm v then 0 else ccol v).
    { unfold h. destruct (lnm v); [exists 0; rewrite (home_column_eq v Hv); cbn; lia|by exists (ccol v)]. }
    destruct Hh as (k & Ek & Epos & Hk & Ekd). set (v1 := set_lc false (set_cpos (u16 (cpos h + cols h)) h)) in *.
    assert (Ekeep : keeps v v1 /\ history v1 = history v /\ lines v1 = lines v /\ ccol v1 = k /\ bottom v1 = bottom v /\ cols v1 = cols v).
    { unfold v1, h in *. destruct (lnm v); (split; [by constructor|]); repeat split; exact Ek. }
    destruct Ekeep as (Hkeep & Eh & Els & Ekc & Ebt & Eco). assert (Ecp : cpos v1 = (crow v + 1) * cols v1 + ccol v1).
    { rewrite Eco, Ekc. change (cpos v1) with (u16 (cpos h + cols h)). assert (cols h = cols v) as -> by (unfold h; by destruct (lnm v)). rewrite Epos, u16_id by nia. lia. }
    destruct (text_settle v v1 (crow v + 1) Hrd Hm Hkeep Ecp) as (w & E & Hrw & Hsw & Hview); [rewrite Ebt; lia|]. exists w. split; [done|]. split; [done|]. split; [done|].
    rewrite Hview, Eh, Els, Ekc. unfold a_feed, view. cbn [a_skip]. rewrite El. cbn [s_newline setup_of a_hist a_lines a_row a_col].
    assert (Ed : (if lnm v then a_return (mk_aterm (history v) (lines v) (Z.to_nat (crow v)) (Z.to_nat (ccol v)) false) else mk_aterm (history v) (lines v) (Z.to_nat (crow v)) (Z.to_nat (ccol v)) false)
      = mk_aterm (history v) (lines v) (Z.to_nat (crow v)) (Z.to_nat k) false) by (subst k; by destruct (lnm v)).
    change (lc v1) with false. rewrite Ed. by rewrite view_down by done.
Qed.

Lemma put_step c v : ready v -> 0x20 <= c < 0x7f -> exists w, _ttypc_vt_sput c v = Some w /\ ready w /\ setup_of w = setup_of v /\ view w = a_put (setup_of v) (glyph v c) (view v).
Proof.
  intros Hrd Hcc. pose proof (r_plain v Hrd) as Hv. destruct (cur_bounds v Hv) as (Hc & Hr & Hp & Hb). pose proof (r_row v Hrd) as Hrow. destruct (cells_bound v (k_geo v (p_core v Hv))) as (Hb1 & Hb2 & Hb3 & _).
  rewrite sput_char by (apply Hv || lia). unfold character. rewrite (r_init v Hrd). destruct (ok_elim _ _ (print_ok c v Hv ltac:(lia))) as (v1 & E1 & Hm). rewrite E1. cbn [mbind option_bind].
  unfold print in E1. rewrite (r_irm v Hrd) in E1. cbn [mbind option_bind] in E1. destruct (sdraw_text c v Hv (r_ss v Hrd) Hcc) as [es Ed]. rewrite Ed in E1. cbn [mbind option_bind] in E1.
  set (m := <[Z.to_nat (cpos v):=glyph v c]> (vram v)) in *. set (u := set_lc false _) in E1. change (ccol u) with (ccol v) in E1. change (cols u) with (cols v) in E1. change (cpos u) with (cpos v) in E1. change (awm u) with (awm v) in E1.
  assert (Hlines : forall w, vram w = m -> cols w = cols v -> rows w = rows v -> lines w = alter (fun l => <[Z.to_nat (ccol v) := glyph v c]> l) (Z.to_nat (crow v)) (lines v)).
  { intros w Em Ec Er. unfold lines at 1. rewrite Em, Ec, Er. by apply lines_put. }
  unfold a_put. change (a_col (view v)) with (Z.to_nat (ccol v)). change (a_row (view v)) with (Z.to_nat (crow v)). change (a_lines (view v)) with (lines v). change (a_hist (view v)) with (history v). injection E1 as E1. destruct (ccol v <? cols v - 1) eqn:Elt; bsimp.
  - rewrite decide_True by (cbn; lia). change (cpos (set_ccol (u8 (ccol v + 1)) u)) with (cpos v) in E1. rewrite u8_id, u16_id in E1 by nia. subst v1.
    destruct (text_settle v _ (crow v) Hrd Hm) as (w & E & Hrw & Hsw & Hview); [constructor; try done; split; [done|]; split; [done|]; by rewrite (r_ss v Hrd)|cbn; lia|cbn; lia|].
    exists w. split; [done|]. split; [done|]. split; [done|]. rewrite Hview, decide_True by lia. f_equal; [by apply Hlines|]. cbn. lia.
  - rewrite decide_False by (cbn; lia). cbn [s_wrap setup_of]. destruct (awm v) eqn:Ew.
    + change (cpos (set_ccol 0 u)) with (cpos v) in E1. rewrite u16_id in E1 by nia. subst v1.
      destruct (text_settle v _ (crow v + 1) Hrd Hm) as (w & E & Hrw & Hsw & Hview); [constructor; try done; split; [done|]; split; [done|]; by rewrite (r_ss v Hrd)|cbn; nia|cbn; lia|].
      exists w. split; [done|]. split; [done|]. split; [done|]. rewrite Hview, (view_down v) by done. by rewrite (Hlines (set_lc true (set_cpos (cpos v + 1) (set_ccol 0 u))) eq_refl eq_refl eq_refl).
    + subst v1. destruct (text_settle v _ (crow v) Hrd Hm) as (w & E & Hrw & Hsw & Hview); [constructor; try done; split; [done|]; split; [done|]; by rewrite (r_ss v Hrd)|cbn; lia|cbn; lia|].
      exists w. split; [done|]. split; [done|]. split; [done|]. rewrite Hview, decide_True by lia. f_equal. by apply Hlines.
Qed.

Lemma text_step c v : ready v -> is_text c -> exists w, _ttypc_vt_sput c v = Some w /\ ready w /\ setup_of w = setup_of v /\ view w = a_char (setup_of v) (view v) c.
Proof.
  intros Hv Hc. unfold a_char. destruct (c =? 13) eqn:E13; bsimp; [subst c; by apply return_step|]. case_if.
  - apply feed_step; [done|]. destruct (c =? 10) eqn:?, (c =? 11) eqn:?, (c =? 12) eqn:?; bsimp; lia || done.
  - bsimp. apply put_step; [done|]. destruct Hc; lia.
Qed.

Lemma text_byte b : is_text b -> to_char b = b.
Proof. unfold is_text, to_char, s8, u8. intros. case_if; rewrite Z.mod_small; lia. Qed.
End view.

(** C18: text on the screen. On a terminal outside escape sequences, a stream of printable characters, carriage
    returns and line feeds is processed to its end, and the screen lines, the scrolled-off lines and the cursor are
    those of the terminal of lines after the same stream: wrapping, scrolling of the region, the bounded history and
    the line feed skipped after a wrap included. *)
Theorem vt_text_refines `{CS : CharSign} bs v : ready v -> Forall is_text bs ->
  exists w, sputs bs v = Some w /\ ready w /\ view w = foldl (a_char (setup_of v)) (view v) bs.
Proof.
  intros Hv Hf. revert v Hv. induction Hf as [|b bs Hb _ IH]; intros v Hv; [by exists v|]. destruct (text_step b v Hv Hb) as (w & E & Hw & Hs & Hview).
  rewrite sputs_cons, text_byte, E by done. cbn [mbind option_bind]. destruct (IH w Hw) as (x & Ex & Hx & Hxv). exists x. split; [done|]. split; [done|]. cbn [foldl]. by rewrite <- Hview, <- Hs.
Qed.
End VtText.
