(* ===== verification/VtView.v ===== *)
(** * PC virtual terminal: the scrollback view

    Scrolling back shows a window of the scrolled-off lines followed by the screen, and
    leaves the terminal otherwise as it was: the next character, or scrolling forward again,
    gives back the screen and the cursor. *)

From S2P Require Import Prelude Vt VtCells VtSafe VtCorrect VtText.

Module VtView.
Import Vt VtCells VtSafe VtCorrect VtText.
Implicit Types v w x : vt.

(** The [rows] lines that end [k] lines above the end of history and screen. *)
Definition window (v : vt) (k : Z) : list (list Z) :=
  take (Z.to_nat (rows v)) (drop (Z.to_nat (scrbsz v - k)) (history v ++ lines v)).

Lemma window_0 v : 0 <= scrbsz v -> window v 0 = lines v.
Proof.
  intros H. unfold window. rewrite Z.sub_0_r. rewrite drop_app_length' by (unfold history; by rewrite length_table). apply take_ge. unfold lines. rewrite length_table. done.
Qed.

Lemma lookup_window v k r : 0 <= k <= scrbsz v -> (r < Z.to_nat (rows v))%nat ->
  window v k !! r = Some (if decide (Z.of_nat r < k) then row (scrb v) (Z.to_nat (cols v)) (Z.to_nat (scrbsz v - k) + r) else row (vram v) (Z.to_nat (cols v)) (r - Z.to_nat k)).
Proof.
  intros Hk Hr. unfold window. rewrite lookup_take_lt, lookup_drop by done. case_decide.
  - rewrite lookup_app_l by (unfold history; rewrite length_table; lia). unfold history. rewrite lookup_table, decide_True by lia. done.
  - rewrite lookup_app_r by (unfold history; rewrite length_table; lia). unfold lines, history. rewrite length_table, lookup_table. rewrite decide_True by lia. do 2 f_equal. lia.
Qed.

Lemma row_span l o n c r : (r < n)%nat -> row (span l (o * c) (n * c)) c r = row l c (o + r).
Proof.
  intros Hr. apply list_eq. intros i. rewrite !lookup_row. case_decide; [|done]. rewrite lookup_span, decide_True by nia. f_equal. lia.
Qed.

(** The state [v] with the cells [m] on the screen as window [k]: [o] is the saved screen, [d] where the cursor is drawn. *)
Definition shown (v : vt) (es : list event) (d k : Z) (o m : list Z) : vt :=
  mk_vt (vt_host v) (mk_screen m (rows v) (cols v) (top v) (bottom v) o (scrb v) (scrbsz v) k)
    (mk_cursor (ctype v) (cst v) (ccol v) (u8 (crow v + k)) (u16 (cpos v + k * cols v)) d) (vt_modes v) (vt_chars v) (vt_parser v) (sv v) (es ++ out v).

(** Where the cursor is drawn while window [k] is shown: within the memory, and on the screen when it is not shifted. *)
Definition drawn (v : vt) (k d : Z) : Prop := -1 <= d < zlen (vram v) /\ (k = 0 \/ active v && cst v = false -> d < rows v * cols v).

(** [w] shows the window [k] of [v]. *)
Inductive showing (v : vt) (k : Z) : vt -> Prop :=
  | showing_intro es m o d :
      length m = length (vram v) -> length o = length (scro v) -> drawn v k d ->
      table m (Z.to_nat (cols v)) (Z.to_nat (rows v)) = window v k ->
      (k = 0 \/ table o (Z.to_nat (cols v)) (Z.to_nat (rows v)) = lines v) ->
      showing v k (shown v es d k o m).

Lemma showing_0 v : plain v -> showing v 0 v.
Proof.
  intros Hv. pose proof (p_core v Hv) as Hk. destruct (cur_bounds v Hv) as (Hc & Hr & Hp & Hb). destruct (cells_bound v (k_geo v Hk)) as (Hb1 & _). pose proof (g_rows v (k_geo v Hk)).
  assert (E : v = shown v [] (dpos v) 0 (scro v) (vram v)).
  { unfold shown. rewrite Z.mul_0_l, !Z.add_0_r, u8_id, u16_id by lia. rewrite <- (p_live v Hv). by destruct v as [? [] []]. }
  rewrite E at 2. apply showing_intro; [done|done| | |by left]; [pose proof (k_dpos v Hk); pose proof (g_vram v (k_geo v Hk)); unfold drawn; lia|]. rewrite window_0 by apply Hk. done.
Qed.

(** The cursor is off, or the window does not show the screen, or the cursor, shifted with the text, is still a cell of
    the screen memory (at an offset of 15 bits). *)
Definition cursor_shown (v : vt) (k : Z) : bool :=
  negb (active v && cst v) || (rows v <=? k) || (cpos v + k * cols v <? Z.min (zlen (vram v)) (2 ^ 15)).

(** The amount that is really scrolled. *)
Definition clamp (v : vt) (k n : Z) : Z := Z.max 0 (Z.min (scrbsz v) (k + n)).

Section views.
Context (v : vt).
Hypothesis Hv : plain v.

Let Hk : core v := p_core v Hv.
Let Hg : geometry v := k_geo v Hk.
Let C := Z.to_nat (cols v).

(** The cells that the two writes leave: [k] lines of the history, then the saved screen. *)
Lemma window_cells m o k : 0 <= k <= scrbsz v -> length m = length (vram v) -> length o = length (scro v) -> table o C (Z.to_nat (rows v)) = lines v ->
  let n := Z.min k (rows v) in
  let m1 := splice m 0 (span (scrb v) (Z.to_nat ((scrbsz v - k) * cols v)) (Z.to_nat (n * cols v))) in
  let m2 := if k <? rows v then splice m1 (Z.to_nat (k * cols v)) (span o 0 (Z.to_nat ((rows v - k) * cols v))) else m1 in
  length m1 = length m /\ length m2 = length m /\ table m2 C (Z.to_nat (rows v)) = window v k.
Proof.
  intros Hkk Hm Ho Eo n m1 m2. pose proof (vram_rows v Hk) as Hvr. pose proof (scrb_rows v Hk) as Hsr. fold C in Hvr, Hsr. pose proof (k_hist v Hk). pose proof (g_rows v Hg).
  pose proof (g_scro v Hg) as Hsc. assert (Hor : (Z.to_nat (rows v) * C <= length o)%nat) by (rewrite Ho; unfold C; rewrite <- (mul_nat v Hk) by lia; unfold zlen in Hsc; lia).
  assert (Hl1 : length (span (scrb v) (Z.to_nat ((scrbsz v - k) * cols v)) (Z.to_nat (n * cols v))) = (Z.to_nat n * C)%nat).
  { rewrite !(mul_nat v Hk) by lia. fold C. apply length_span. assert (Z.to_nat (scrbsz v - k) + Z.to_nat n <= Z.to_nat (capacity v))%nat by lia. nia. }
  assert (Em1 : length m1 = length m) by (apply length_splice; rewrite Hl1, Hm; assert (Z.to_nat n <= Z.to_nat (rows v))%nat by lia; nia).
  assert (Hl2 : k < rows v -> length (span o 0 (Z.to_nat ((rows v - k) * cols v))) = (Z.to_nat (rows v - k) * C)%nat).
  { intros. rewrite (mul_nat v Hk) by lia. fold C. apply length_span. assert (Z.to_nat (rows v - k) <= Z.to_nat (rows v))%nat by lia. nia. }
  assert (Hk2 : k < rows v -> (Z.to_nat k * C + Z.to_nat (rows v - k) * C <= length m1)%nat) by (intros; rewrite Em1, Hm; assert (Z.to_nat k + Z.to_nat (rows v - k) = Z.to_nat (rows v))%nat by lia; nia).
  split; [done|]. split.
  { unfold m2. case_if; bsimp; [|done]. rewrite length_splice; [done|]. rewrite Hl2 by done. rewrite (mul_nat v Hk) by lia. fold C. by apply Hk2. }
  assert (Er1 : forall r, row m1 C r = if decide (r < Z.to_nat n)%nat then row (scrb v) C (Z.to_nat (scrbsz v - k) + r) else row m C r).
  { intros r. unfold m1. rewrite <- (Nat.mul_0_l C) at 1. rewrite (row_splice _ 0 _ (Z.to_nat n)) by (rewrite ?Hl1, ?Hm; assert (Z.to_nat n <= Z.to_nat (rows v))%nat by lia; nia).
    rewrite !(mul_nat v Hk) by lia. fold C. repeat case_decide; try lia; [|done]. rewrite row_span by lia. f_equal. lia. }
  apply list_eq. intros r. rewrite lookup_table. case_decide as Hr; [|symmetry; apply lookup_ge_None; unfold window; rewrite length_take; lia].
  rewrite lookup_window by done. f_equal. fold C. unfold m2. destruct (k <? rows v) eqn:Ek; bsimp.
  - rewrite (mul_nat v Hk) by lia. fold C. rewrite (row_splice _ _ _ (Z.to_nat (rows v - k))) by (auto using Hl2, Hk2). case_decide.
    + rewrite decide_False by lia. assert (E2 : row (span o 0 (Z.to_nat ((rows v - k) * cols v))) C (r - Z.to_nat k) = row o C (r - Z.to_nat k)).
      { rewrite (mul_nat v Hk) by lia. fold C. rewrite <- (Nat.mul_0_l C) at 1. by rewrite row_span by lia. }
      rewrite E2. assert (Hlk : table o C (Z.to_nat (rows v)) !! (r - Z.to_nat k)%nat = lines v !! (r - Z.to_nat k)%nat) by (by rewrite Eo).
      unfold lines in Hlk. rewrite !lookup_table, !decide_True in Hlk by lia. fold C in Hlk. congruence.
    + rewrite Er1. rewrite decide_True by lia. rewrite decide_True by lia. done.
  - rewrite Er1. rewrite !decide_True by lia. done.
Qed.

Abbreviation shown := (shown v).

Lemma shown_paint es' es d k o m m' : add_out es' (set_vram m' (shown es d k o m)) = shown (es' ++ es) d k o m'.
Proof. unfold VtView.shown, add_out. cbn. by rewrite app_assoc. Qed.

Lemma shown_cursor e es' es d d' k o m : emit e (add_out es' (set_dpos d' (shown es d k o m))) = shown (e :: es' ++ es) d' k o m.
Proof. change (add_out (e :: es') (set_dpos d' (shown es d k o m)) = shown (e :: es' ++ es) d' k o m). unfold VtView.shown, add_out. cbn. by rewrite app_assoc. Qed.

Lemma u16_add a b : u16 (u16 a + b) = u16 (a + b).
Proof. unfold u16. by rewrite Zplus_mod_idemp_l. Qed.
Lemma u8_add a b : u8 (u8 a + b) = u8 (a + b).
Proof. unfold u8. by rewrite Zplus_mod_idemp_l. Qed.

(** The cells of a state of that shape after the writes. *)
Lemma scroll_cells es d k o m : 0 <= k <= scrbsz v -> length m = length (vram v) -> length o = length (scro v) -> table o C (Z.to_nat (rows v)) = lines v ->
  exists es1 m1, _ttypc_vga_write (shown es d k o m) 0 (scrb v) ((scrbsz v - k) * cols v) (Z.min k (rows v) * cols v) = Some (shown es1 d k o m1) /\
  (rows v <= k -> table m1 C (Z.to_nat (rows v)) = window v k) /\ length m1 = length (vram v) /\
  (k < rows v -> exists es2 m2, _ttypc_vga_write (shown es1 d k o m1) (k * cols v) o 0 ((rows v - k) * cols v) = Some (shown es2 d k o m2) /\
     length m2 = length (vram v) /\ table m2 C (Z.to_nat (rows v)) = window v k).
Proof.
  intros Hkk Hm Ho Eo. destruct (window_cells m o k Hkk Hm Ho Eo) as (Hm1 & Hm2 & Et). cbv zeta in *. pose proof (k_hist v Hk). pose proof (g_rows v Hg). pose proof (g_cols v Hg).
  pose proof (g_vram v Hg) as Hvr. pose proof (g_scrb v Hg). pose proof (g_scro v Hg). assert (Hz : zlen m = zlen (vram v)) by (unfold zlen; lia). assert (Hzo : zlen o = zlen (scro v)) by (unfold zlen; lia).
  destruct (row_block 0 (Z.min k (rows v)) (rows v) (cols v) (zlen (vram v))) as (_ & ? & ?); [lia..|].
  destruct (row_block (scrbsz v - k) (Z.min k (rows v)) (capacity v) (cols v) (zlen (scrb v))) as (? & _ & ?); [lia..|].
  destruct (vga_write_paints (shown es d k o m) ltac:(cbn; lia) 0 (scrb v) ((scrbsz v - k) * cols v) (Z.min k (rows v) * cols v)) as [es1 E1]; [done|done|done|cbn; lia|lia|].
  change (vram (shown es d k o m)) with m in E1. set (m1 := splice m _ _) in E1. exists (es1 ++ es), m1. assert (Hm1' : length m1 = length (vram v)) by (rewrite <- Hm; exact Hm1).
  split; [by rewrite E1, shown_paint|]. split; [|split; [done|]].
  - intros Hle. rewrite (proj2 (Z.ltb_ge _ _)) in Et by done. exact Et.
  - intros Hlt. rewrite (proj2 (Z.ltb_lt _ _)) in Et, Hm2 by done. destruct (row_block k (rows v - k) (rows v) (cols v) (zlen (vram v))) as (? & ? & ?); [lia..|].
    destruct (row_block 0 (rows v - k) (rows v) (cols v) (zlen o)) as (_ & _ & ?); [lia..|]. assert (Hz1 : zlen m1 = zlen (vram v)) by (unfold zlen; lia).
    destruct (vga_write_paints (shown (es1 ++ es) d k o m1) ltac:(cbn; lia) (k * cols v) o 0 ((rows v - k) * cols v)) as [es2 E2]; [done|done|done|cbn; lia|lia|].
    change (vram (shown (es1 ++ es) d k o m1)) with m1 in E2. eexists (es2 ++ es1 ++ es), _. split; [by rewrite E2, shown_paint|]. split; [|exact Et].
    rewrite <- Hm. exact Hm2.
Qed.

(** The state is one the drawing of the cursor accepts. *)
Lemma shown_core es d k o m : 0 <= k -> length m = length (vram v) -> length o = length (scro v) -> -1 <= d < rows v * cols v -> core (shown es d k o m).
Proof.
  intros Hkk Hm Ho Hd. destruct Hk as [[] ? ? ? ? ? ? ? Hs]. constructor; try done. constructor; try done; unfold zlen; cbn; rewrite ?Hm, ?Ho; done.
Qed.

(** The fields of a shown state. *)
Section projections.
Context (es : list event) (d k : Z) (o m : list Z).
Lemma shown_geo : rows (shown es d k o m) = rows v /\ cols (shown es d k o m) = cols v /\ scrb (shown es d k o m) = scrb v /\ scrbsz (shown es d k o m) = scrbsz v.
Proof. done. Qed.
Lemma shown_cells : vram (shown es d k o m) = m /\ scro (shown es d k o m) = o /\ scrbpos (shown es d k o m) = k.
Proof. done. Qed.
Lemma shown_cur : cpos (shown es d k o m) = u16 (cpos v + k * cols v) /\ crow (shown es d k o m) = u8 (crow v + k) /\ active (shown es d k o m) = active v /\ cst (shown es d k o m) = cst v /\ ctype (shown es d k o m) = ctype v.
Proof. done. Qed.
(** Moving on to another window. *)
Lemma shown_move k' o' : set_scrbpos k' (set_scro o' (set_crow (u8 (crow v + k')) (set_cpos (u16 (cpos v + k' * cols v)) (shown es d k o m)))) = shown es d k' o' m.
Proof. done. Qed.
End projections.

Ltac shown_simpl :=
  repeat match goal with
  | |- context [?f (vt_screen (shown ?es ?d ?k ?o ?m))] =>
      first [rewrite (proj1 (shown_geo es d k o m))|rewrite (proj1 (proj2 (shown_geo es d k o m)))|rewrite (proj1 (proj2 (proj2 (shown_geo es d k o m))))
            |rewrite (proj2 (proj2 (proj2 (shown_geo es d k o m))))|rewrite (proj1 (shown_cells es d k o m))|rewrite (proj1 (proj2 (shown_cells es d k o m)))|rewrite (proj2 (proj2 (shown_cells es d k o m)))]
  | |- context [?f (vt_cursor (shown ?es ?d ?k ?o ?m))] =>
      first [rewrite (proj1 (shown_cur es d k o m))|rewrite (proj1 (proj2 (shown_cur es d k o m)))|rewrite (proj1 (proj2 (proj2 (proj2 (shown_cur es d k o m)))))|rewrite (proj2 (proj2 (proj2 (proj2 (shown_cur es d k o m)))))]
  | |- context [?f (vt_host (shown ?es ?d ?k ?o ?m))] => rewrite (proj1 (proj2 (proj2 (shown_cur es d k o m))))
  end.

(** The screen is saved when the view leaves it. *)
Lemma save_origin es d k o m (x : vt) : 0 <= k <= scrbsz v -> length m = length (vram v) -> length o = length (scro v) ->
  table m C (Z.to_nat (rows v)) = window v k -> (k = 0 \/ table o C (Z.to_nat (rows v)) = lines v) ->
  vram x = m -> scro x = o -> rows x * cols x = rows v * cols v -> scrbpos x = k ->
  x = set_crow (crow x) (set_cpos (cpos x) (shown es d k o m)) ->
  exists o', (if scrbpos x =? 0 then b ← _ttypc_vga_read x 0 (scro x) 0 (rows x * cols x); Some (set_scro b x) else Some x) = Some (set_scro o' x) /\
    length o' = length (scro v) /\ table o' C (Z.to_nat (rows v)) = lines v.
Proof.
  intros Hkk Hm Ho Em Eo Xm Xo Xr Xk Xe. rewrite Xk. destruct (k =? 0) eqn:E0; bsimp.
  - pose proof (k_hist v Hk). pose proof (g_vram v Hg). pose proof (g_scro v Hg). pose proof (g_rows v Hg). destruct (cells_bound v Hg) as (_ & _ & ? & ?). assert (Hzm : zlen m = zlen (vram v)) by (unfold zlen; lia). assert (Hzo : zlen o = zlen (scro v)) by (unfold zlen; lia).
    rewrite Xo, Xr. rewrite (vga_read_splice x); rewrite ?Xm; try lia. cbn [mbind option_bind]. eexists. split; [done|].
    pose proof (vram_rows v Hk) as Hvr. fold C in Hvr. assert (Hl : length (span m (Z.to_nat 0) (Z.to_nat (rows v * cols v))) = (Z.to_nat (rows v) * C)%nat) by (rewrite (mul_nat v Hk) by lia; fold C; apply length_span; cbn; lia).
    assert (Hor : (Z.to_nat (rows v) * C <= length o)%nat) by (unfold C; rewrite <- (mul_nat v Hk) by lia; unfold zlen in *; lia).
    split; [rewrite length_splice; [done|]; rewrite Hl; cbn; lia|]. subst k. rewrite E0, window_0 in Em by lia. rewrite <- Em. apply list_eq. intros r. rewrite !lookup_table. case_decide; [|done]. f_equal.
    change (Z.to_nat 0) with (0 * C)%nat. rewrite (row_splice _ 0 _ (Z.to_nat (rows v))) by (exact Hl || lia). rewrite decide_True by lia. rewrite (mul_nat v Hk) by lia. fold C. rewrite row_span by lia. f_equal. lia.
  - exists o. split; [|split; [done|]]; [|by destruct Eo as [->|Eo]]. rewrite Xe. done.
Qed.

(** Scrolling up to the point where the cursor is drawn. *)
Lemma scroll_by_window es d k o m n : 0 <= k <= scrbsz v -> 0 <= k + n <= scrbsz v -> length m = length (vram v) -> length o = length (scro v) ->
  table m C (Z.to_nat (rows v)) = window v k -> (k = 0 \/ table o C (Z.to_nat (rows v)) = lines v) ->
  exists es' o' m', length m' = length (vram v) /\ length o' = length (scro v) /\ table m' C (Z.to_nat (rows v)) = window v (k + n) /\ table o' C (Z.to_nat (rows v)) = lines v /\
    scroll_by (shown es d k o m) n = if k + n <? rows v
      then if active v && cst v then w ← _ttypc_vga_setcursor (shown es' d (k + n) o' m'); Some (_ttypc_vga_togglecursor w true) else Some (shown es' d (k + n) o' m')
      else Some (_ttypc_vga_togglecursor (shown es' d (k + n) o' m') false).
Proof.
  intros Hkk Hk' Hm Ho Em Eo. pose proof (k_hist v Hk) as Hh. pose proof (g_cap v Hg). destruct (cur_bounds v Hv) as (Hcc & Hr & Hp & Hb).
  unfold scroll_by. shown_simpl. rewrite u16_add, u8_add. replace (cpos v + k * cols v + n * cols v) with (cpos v + (k + n) * cols v) by lia. replace (crow v + k + n) with (crow v + (k + n)) by lia.
  remember (k + n) as k' eqn:Ek'. set (x := set_crow (u8 (crow v + k')) _).
  destruct (save_origin es d k o m x Hkk Hm Ho Em Eo) as (o' & -> & Ho' & Eo'); try done. cbn [mbind option_bind].
  assert (Xk : scrbpos (set_scro o' x) = k) by done. rewrite Xk, <- Ek', (u16_id k') by lia. unfold x. rewrite shown_move.
  destruct (scroll_cells es d k' o' m Hk' Hm Ho' Eo') as (es1 & m1 & E1 & Hfar & Hm1 & Hnear). shown_simpl. rewrite E1. cbn [mbind option_bind]. shown_simpl.
  destruct (k' <? rows v) eqn:Elt; bsimp.
  - destruct (Hnear Elt) as (es2 & m2 & -> & Hm2 & Et). cbn [mbind option_bind]. shown_simpl. by exists es2, o', m2.
  - exists es1, o', m1. auto.
Qed.

(** The place of the cursor in a window that shows part of the screen. *)
Lemma shown_cpos es d k o m : 0 <= k < rows v -> cpos (shown es d k o m) = cpos v + k * cols v /\ 0 <= cpos v + k * cols v.
Proof.
  intros Hkk. shown_simpl. destruct (cur_bounds v Hv) as (Hcc & Hr & Hp & Hb). destruct (cells_bound v Hg) as (Hb1 & _ & Hb3 & Hb4). pose proof (g_screen v Hg).
  pose proof (Z.mul_lt_mono_pos_r (cols v) k (rows v) ltac:(lia)) as Hm. pose proof (Z.mul_nonneg_nonneg k (cols v) ltac:(lia) ltac:(lia)). rewrite u16_id by lia. lia.
Qed.

Lemma scroll_by_shown es d k o m n : 0 <= k <= scrbsz v -> 0 <= k + n <= scrbsz v -> length m = length (vram v) -> length o = length (scro v) -> drawn v k d ->
  table m C (Z.to_nat (rows v)) = window v k -> (k = 0 \/ table o C (Z.to_nat (rows v)) = lines v) -> cursor_shown v (k + n) = true ->
  exists w', scroll_by (shown es d k o m) n = Some w' /\ showing v (k + n) w'.
Proof.
  intros Hkk Hk' Hm Ho [Hd Hd'] Em Eo Hcs. destruct (scroll_by_window es d k o m n Hkk Hk' Hm Ho Em Eo) as (es2 & o' & m2 & Hm2 & Ho' & Et & Eo' & ->).
  remember (k + n) as k' eqn:Ek'. pose proof (g_rows v Hg) as Hrw. destruct (k' <? rows v) eqn:Elt; bsimp.
  - unfold cursor_shown in Hcs. destruct (active v && cst v) eqn:Ea; cbn [negb orb] in Hcs; bsimp.
    + destruct (shown_cpos es2 d k' o' m2 ltac:(lia)) as [Ecp Hc0]. assert (Hz : zlen (vram (shown es2 d k' o' m2)) = zlen (vram v)) by (unfold zlen; cbn; lia).
      destruct (ok_elim _ _ (ok_drawcursor (shown es2 d k' o' m2) (fun w => exists es3, w = add_out es3 (set_dpos (cpos (shown es2 d k' o' m2)) (shown es2 d k' o' m2)))
        ltac:(rewrite Hz; exact Hd) ltac:(rewrite Ecp, Hz; lia) ltac:(rewrite Ecp; lia) ltac:(by eexists))) as (w' & -> & es3 & ->). cbn [mbind option_bind].
      unfold _ttypc_vga_togglecursor. rewrite shown_cursor. eexists. split; [done|]. apply showing_intro; [done|done| |done|by right]. rewrite Ecp. split; [lia|].
      intros [->|?]; [|by destruct (active v), (cst v)]. destruct (cur_bounds v Hv) as (_ & _ & _ & ?). lia.
    + eexists. split; [done|]. apply showing_intro; auto. split; [done|]. auto.
  - eexists. split; [done|]. apply (showing_intro v k' (CursorOff :: es2)); auto. split; [done|]. intros [->|?]; [lia|]. auto.
Qed.

(** The amount that a request comes to. *)
Lemma scroll_amount k w n : 0 <= k <= scrbsz v -> showing v k w ->
  exists n', clamp v k n = k + n' /\ 0 <= k + n' <= scrbsz v /\ _ttypc_vga_scroll w n = if n' =? 0 then Some w else scroll_by w n'.
Proof.
  intros Hkk Hw. assert (Ef : scrbsz w = scrbsz v /\ scrbpos w = k) by (by destruct Hw). destruct Ef as [E1 E2]. unfold _ttypc_vga_scroll. rewrite E1, E2. cbv zeta.
  match goal with |- context [if ?x =? 0 then _ else _] => remember x as n' eqn:En' end. exists n'.
  assert (Ec : clamp v k n = k + n') by (unfold clamp; case_ifs; lia). split; [done|]. split; [|done]. pose proof (k_hist v Hk). unfold clamp in Ec. lia.
Qed.

Lemma scroll_step k w n : 0 <= k <= scrbsz v -> showing v k w -> cursor_shown v (clamp v k n) = true ->
  exists w', _ttypc_vga_scroll w n = Some w' /\ showing v (clamp v k n) w'.
Proof.
  intros Hkk Hw Hcs. destruct (scroll_amount k w n Hkk Hw) as (n' & Ec & Hk' & ->). rewrite Ec in *. case_if; bsimp.
  - subst. rewrite Z.add_0_r. by eexists.
  - destruct Hw. by apply scroll_by_shown.
Qed.

(** Back to the screen: the state before and after the cursor is drawn. *)
Definition restored (es : list event) (d k : Z) (o m : list Z) : vt :=
  set_crow (u8 (crow v + 0)) (set_cpos (u16 (cpos v + 0 * cols v)) (shown es d k o m)).
Lemma restored_shown es d k o m : set_scrbpos 0 (restored es d k o m) = shown es d 0 o m.
Proof. done. Qed.
Lemma restored_drawn e es' es d d' k o m : set_scrbpos 0 (emit e (add_out es' (set_dpos d' (restored es d k o m)))) = shown (e :: es' ++ es) d' 0 o m.
Proof. unfold restored, VtView.shown, add_out, emit. cbn. by rewrite app_assoc. Qed.
Lemma restored_fields es d k o m : active (restored es d k o m) = active v /\ cst (restored es d k o m) = cst v /\ rows (restored es d k o m) = rows v /\ cols (restored es d k o m) = cols v /\
  cpos (restored es d k o m) = u16 (cpos v + 0 * cols v).
Proof. done. Qed.
(** Window 0 is the screen. *)
Lemma shown_back es d o m : length m = length (vram v) -> length o = length (scro v) -> -1 <= d < rows v * cols v -> table m C (Z.to_nat (rows v)) = lines v ->
  plain (shown es d 0 o m) /\ view (shown es d 0 o m) = view v.
Proof.
  intros Hm Ho Hd Et. destruct (cur_bounds v Hv) as (Hcc & Hr & Hp & Hb). pose proof (g_rows v Hg) as Hrw. destruct (cells_bound v Hg) as (Hb1 & _ & Hb3 & Hb4).
  assert (E1 : u8 (crow v + 0) = crow v) by (rewrite Z.add_0_r; apply u8_id; lia). assert (E2 : u16 (cpos v + 0 * cols v) = cpos v) by (rewrite Z.mul_0_l, Z.add_0_r; apply u16_id; lia). split.
  - constructor; [by apply shown_core|done|]. unfold on_screen. shown_simpl. by rewrite E1, E2.
  - unfold view, history, lines. shown_simpl. fold C. by rewrite Et, E1.
Qed.

(** The saved screen copied back. *)
Lemma origin_back es d k o m : length m = length (vram v) -> length o = length (scro v) -> table o C (Z.to_nat (rows v)) = lines v ->
  exists es1 m1, _ttypc_vga_write (shown es d k o m) 0 o 0 (rows v * cols v) = Some (shown es1 d k o m1) /\ length m1 = length (vram v) /\ table m1 C (Z.to_nat (rows v)) = lines v.
Proof.
  intros Hm Ho Eo. pose proof (g_vram v Hg). pose proof (g_scro v Hg). pose proof (g_rows v Hg). destruct (cells_bound v Hg) as (_ & _ & ? & ?). assert (Hzm : zlen m = zlen (vram v)) by (unfold zlen; lia). assert (Hzo : zlen o = zlen (scro v)) by (unfold zlen; lia).
  destruct (vga_write_paints (shown es d k o m) ltac:(cbn; lia) 0 o 0 (rows v * cols v)) as [es1 E1]; [done|done|lia|cbn; lia|lia|]. rewrite E1, shown_paint. eexists _, _. split; [done|]. rewrite (proj1 (shown_cells es d k o m)).
  assert (Hor : (Z.to_nat (rows v) * C <= length o)%nat) by (unfold C; rewrite <- (mul_nat v Hk) by lia; unfold zlen in *; lia). pose proof (vram_rows v Hk) as Hvr. fold C in Hvr.
  assert (Hl : length (span o (Z.to_nat 0) (Z.to_nat (rows v * cols v))) = (Z.to_nat (rows v) * C)%nat) by (rewrite (mul_nat v Hk) by lia; fold C; apply length_span; cbn; lia).
  split; [rewrite length_splice; [done|]; rewrite Hl; cbn; lia|].
  rewrite <- Eo. apply list_eq. intros r. rewrite !lookup_table. case_decide; [|done]. f_equal. change (Z.to_nat 0) with (0 * C)%nat. rewrite (row_splice _ 0 _ (Z.to_nat (rows v))) by (exact Hl || lia).
  rewrite decide_True by lia. rewrite (mul_nat v Hk) by lia. fold C. rewrite row_span by lia. f_equal. lia.
Qed.

(** The next character starts from the screen and the cursor as they were. *)
Lemma cancel_shown k w : 0 <= k <= scrbsz v -> showing v k w -> exists x, _ttypc_vga_scrollcancel w = Some x /\ plain x /\ view x = view v.
Proof.
  intros Hkk [es m o d Hm Ho Hd Em Eo]. pose proof (k_hist v Hk) as Hh. destruct (cur_bounds v Hv) as (Hcc & Hr & Hp & Hb). destruct (cells_bound v Hg) as (Hb1 & _ & Hb3 & Hb4).
  unfold _ttypc_vga_scrollcancel. shown_simpl. destruct (k =? 0) eqn:E0; bsimp.
  { subst k. rewrite window_0 in Em by lia. eexists. split; [done|]. apply shown_back; try done. split; [apply Hd|]. apply Hd. by left. }
  destruct Eo as [?|Eo]; [done|]. destruct (origin_back es d k o m Hm Ho Eo) as (es1 & m1 & -> & Hm1 & Et). cbn [mbind option_bind]. shown_simpl. unfold Z.sub. rewrite u16_add, u8_add.
  replace (crow v + k + - k) with (crow v + 0) by lia. replace (cpos v + k * cols v + - (k * cols v)) with (cpos v + 0 * cols v) by lia. fold (restored es1 d k o m1).
  destruct (restored_fields es1 d k o m1) as (-> & -> & Fr & Fc & Fp). destruct (active v && cst v) eqn:Ea; cbn [mbind option_bind].
  - assert (Ecz : cpos (restored es1 d k o m1) = cpos v) by (rewrite Fp, Z.mul_0_l, Z.add_0_r, u16_id by lia; done). pose proof (g_vram v Hg). pose proof (g_screen v Hg).
    assert (Hz : zlen (vram (restored es1 d k o m1)) = zlen (vram v)) by (unfold zlen; cbn; lia).
    destruct (ok_elim _ _ (ok_drawcursor (restored es1 d k o m1) (fun w => exists es3, w = add_out es3 (set_dpos (cpos v) (restored es1 d k o m1)))
      ltac:(rewrite Hz; apply Hd) ltac:(rewrite Ecz, Hz; lia) ltac:(rewrite Ecz; lia) ltac:(rewrite Ecz; by eexists))) as (w' & -> & es3 & ->). cbn [mbind option_bind].
    unfold _ttypc_vga_togglecursor. rewrite restored_drawn. eexists. split; [done|]. apply shown_back; try done. lia.
  - rewrite restored_shown. eexists. split; [done|]. apply shown_back; try done. split; [apply Hd|]. apply Hd. by right.
Qed.

(** The cursor is drawn even where it has left the screen. *)
Lemma setcursor_out w : -1 <= dpos w < zlen (vram w) -> zlen (vram w) <= cpos w -> _ttypc_vga_setcursor w = None.
Proof.
  intros Hd Hp. unfold _ttypc_vga_setcursor. set (w1 := emit (CursorAt (cpos w)) w).
  assert (Hs : exists es, (if negb (dpos w1 =? -1)
     then x ← load (vram w1) (dpos w1); Some (_ttypc_fbcon_drawChar w1 (Z.rem (dpos w1) (cols w1)) (Z.quot (dpos w1) (cols w1)) x) else Some w1) = Some (add_out es w)).
  { case_if; bsimp; [|by exists [CursorAt (cpos w)]]. destruct (load_in (vram w1) (dpos w1)) as (x & -> & _); [change (dpos w1) with (dpos w) in *; change (vram w1) with (vram w); lia|].
    cbn [mbind option_bind]. destruct (drawChar_out w1 (Z.rem (dpos w1) (cols w1)) (Z.quot (dpos w1) (cols w1)) x) as [es ->]. exists (es ++ [CursorAt (cpos w)]).
    by rewrite <- add_out_app. }
  destruct Hs as [es ->]. cbn [mbind option_bind]. change (vram (add_out es w)) with (vram w). change (cpos (add_out es w)) with (cpos w). by rewrite load_out.
Qed.

(** A step that shifts the drawn cursor past the memory. *)
Lemma scroll_out k w n : zlen (vram v) <= 2 ^ 15 -> 0 <= k <= scrbsz v -> showing v k w -> cursor_shown v k = true -> cursor_shown v (clamp v k n) = false -> _ttypc_vga_scroll w n = None.
Proof.
  intros Hz Hkk Hw Hin Hcs. destruct (scroll_amount k w n Hkk Hw) as (n' & Ec & Hk' & ->). rewrite Ec in Hcs. case_if; bsimp; [subst; rewrite Z.add_0_r in Hcs; congruence|].
  destruct Hw as [es m o d Hm Ho Hd Em Eo]. destruct (scroll_by_window es d k o m n' Hkk Hk' Hm Ho Em Eo) as (es2 & o' & m2 & Hm2 & Ho' & Et & Eo' & ->).
  unfold cursor_shown in Hcs. destruct (active v && cst v) eqn:Ea; cbn [negb orb] in Hcs; [|done]. apply orb_false_iff in Hcs as [Hfar Hcs]. bsimp. rewrite (proj2 (Z.ltb_lt _ _)) by lia. destruct (shown_cpos es2 d (k + n') o' m2 ltac:(lia)) as [Ecp Hc0].
  assert (Hz2 : zlen (vram (shown es2 d (k + n') o' m2)) = zlen (vram v)) by (unfold zlen; cbn; lia). rewrite setcursor_out; [done| |].
  - rewrite Hz2. exact (proj1 Hd).
  - rewrite Ecp, Hz2. lia.
Qed.
End views.

(** A session of scrolling. *)
Fixpoint scrolls (ns : list Z) (v : vt) : option vt :=
  match ns with [] => Some v | n :: ns => mbind (M := option) (scrolls ns) (_ttypc_vga_scroll v n) end.
(** The window that a session leads to. *)
Definition window_at (v : vt) (ns : list Z) : Z := foldl (clamp v) 0 ns.

(** The cursor can be drawn in every window of the session. *)
Fixpoint all_shown (v : vt) (k : Z) (ns : list Z) : bool :=
  match ns with [] => true | n :: ns => cursor_shown v (clamp v k n) && all_shown v (clamp v k n) ns end.

Lemma clamp_in v k n : plain v -> 0 <= clamp v k n <= scrbsz v.
Proof. intros Hv. pose proof (k_hist v (p_core v Hv)). unfold clamp. lia. Qed.

Lemma scrolls_shown v ns : forall k w, plain v -> 0 <= k <= scrbsz v -> showing v k w -> all_shown v k ns = true ->
  exists w', scrolls ns w = Some w' /\ showing v (foldl (clamp v) k ns) w' /\ 0 <= foldl (clamp v) k ns <= scrbsz v.
Proof.
  induction ns as [|n ns IH]; intros k w Hv Hk Hw Hs; cbn [scrolls foldl]; [by exists w|]. cbn [all_shown] in Hs. apply andb_true_iff in Hs as [Hc Hs].
  destruct (scroll_step v Hv k w n Hk Hw Hc) as (x & -> & Hx). cbn [mbind option_bind]. apply IH; try done. by apply clamp_in.
Qed.

Lemma scrolls_out v ns : forall k w, plain v -> zlen (vram v) <= 2 ^ 15 -> 0 <= k <= scrbsz v -> showing v k w -> cursor_shown v k = true -> all_shown v k ns = false -> scrolls ns w = None.
Proof.
  induction ns as [|n ns IH]; intros k w Hv Hz Hk Hw Hin Hs; [done|]. cbn [scrolls all_shown] in *. destruct (cursor_shown v (clamp v k n)) eqn:Hc; cbn [andb] in Hs.
  - destruct (scroll_step v Hv k w n Hk Hw Hc) as (x & -> & Hx). cbn [mbind option_bind]. apply (IH (clamp v k n)); try done. by apply clamp_in.
  - by rewrite (scroll_out v Hv k w n Hz Hk Hw Hin Hc).
Qed.

Lemma cursor_shown_0 v : plain v -> cursor_shown v 0 = true.
Proof.
  intros Hv. destruct (cur_bounds v Hv) as (_ & _ & _ & Hb). pose proof (g_vram v (k_geo v (p_core v Hv))). pose proof (g_screen v (k_geo v (p_core v Hv))).
  unfold cursor_shown. rewrite (proj2 (Z.ltb_lt _ (Z.min _ _))) by lia. apply orb_true_r.
Qed.

(** C20: scrolling back. However a user scrolls back and forth, as long as at each step the cursor is off, or the window
    is a screen or more back, or the cursor shifted down with the text is still a cell of the screen memory: every step
    is taken, the screen shows the lines of the scrolled-off text followed by the text on the screen, at the position
    the requests add up to within the text that is there, and the next character is processed from the screen, the
    history and the cursor as they were. The condition is exact for a screen memory of up to 2^15 cells: the first step
    that shifts a drawn cursor past the memory makes the driver read outside it. *)
Theorem vt_scrollback_view v ns : plain v ->
  (all_shown v 0 ns = true -> exists w, scrolls ns v = Some w /\ lines w = window v (window_at v ns) /\
     exists x, _ttypc_vga_scrollcancel w = Some x /\ plain x /\ view x = view v) /\
  (zlen (vram v) <= 2 ^ 15 -> all_shown v 0 ns = false -> scrolls ns v = None).
Proof.
  intros Hv. pose proof (k_hist v (p_core v Hv)). split.
  - intros Hs. destruct (scrolls_shown v ns 0 v Hv ltac:(lia) (showing_0 v Hv) Hs) as (w & E & Hw & Hk). exists w. split; [done|]. split; [by destruct Hw|]. by apply (cancel_shown v Hv _ w Hk).
  - intros Hz. apply scrolls_out with (k := 0); auto using showing_0, cursor_shown_0. lia.
Qed.
End VtView.
