(* ===== verification/VtSeq.v ===== *)
(** * PC virtual terminal: escape sequences

    Whole sequences, from the escape character to the final: addressing the cursor and
    reporting it, saving and restoring the state, erasing and deleting characters. *)

From S2P Require Import Prelude Vt VtCells VtSafe VtCorrect VtText.

Module VtSeq.
Import Vt VtCells VtSafe VtCorrect VtText.
Implicit Types v w s : vt.

(** ** Characters that leave the cursor in the region *)

(** The answers among the events. *)
Definition answers (es : list event) : list (list Z) := omap (fun e => match e with Respond b => Some b | _ => None end) es.

(** The state with more events and the cursor drawn at [d]. *)
Definition touched (v : vt) (es : list event) (d : Z) : vt :=
  mk_vt (vt_host v) (vt_screen v) (mk_cursor (ctype v) (cst v) (ccol v) (crow v) (cpos v) d) (vt_modes v) (vt_chars v) (vt_parser v) (sv v) (es ++ out v).

Lemma answers_app es es' : answers (es ++ es') = answers es ++ answers es'.
Proof. apply omap_app. Qed.

Lemma drawChar_quiet v col row val : exists es, _ttypc_fbcon_drawChar v col row val = add_out es v /\ answers es = [].
Proof. unfold _ttypc_fbcon_drawChar. case_if; [by exists [Draw (u16 col) (u16 row) (u16 val)]|]. exists []. by rewrite add_out_nil. Qed.

Lemma setcursor_quiet v : core v -> 0 <= cpos v < rows v * cols v -> exists es, _ttypc_vga_setcursor v = Some (add_out es (set_dpos (cpos v) v)) /\ answers es = [].
Proof.
  intros Hk Hp. destruct Hk as [Hg _ _ Hd _ _ _ _ _]. pose proof (g_vram v Hg). pose proof (g_screen v Hg). unfold _ttypc_vga_setcursor. set (v1 := emit (CursorAt (cpos v)) v).
  assert (Hs : exists es, (if negb (dpos v1 =? -1)
     then x ← load (vram v1) (dpos v1); Some (_ttypc_fbcon_drawChar v1 (Z.rem (dpos v1) (cols v1)) (Z.quot (dpos v1) (cols v1)) x) else Some v1) = Some (add_out es v) /\ answers es = []).
  { case_if; bsimp; [|by exists [CursorAt (cpos v)]]. destruct (load_in (vram v1) (dpos v1)) as (x & -> & _); [change (dpos v1) with (dpos v) in *; change (vram v1) with (vram v); lia|].
    cbn [mbind option_bind]. destruct (drawChar_quiet v1 (Z.rem (dpos v1) (cols v1)) (Z.quot (dpos v1) (cols v1)) x) as (es & -> & Hq). exists (es ++ [CursorAt (cpos v)]).
    rewrite answers_app, Hq. split; [|done]. by rewrite <- add_out_app. }
  destruct Hs as (es & -> & Hq). cbn [mbind option_bind]. destruct (load_in (vram v) (cpos v)) as (y & Hy & _); [lia|]. change (vram (add_out es v)) with (vram v). change (cpos (add_out es v)) with (cpos v).
  rewrite Hy. cbn [mbind option_bind]. change (cols (add_out es v)) with (cols v). destruct (drawChar_quiet (add_out es v) (cpos v mod cols v) (cpos v / cols v) (INVERT_COLORS y)) as (es' & -> & Hq'). rewrite add_out_app.
  change (cpos (add_out (es' ++ es) v)) with (cpos v). unfold s16. rewrite Z.mod_small by lia. replace (cpos v + 2 ^ 15 - 2 ^ 15) with (cpos v) by lia.
  exists (es' ++ es). rewrite answers_app, Hq, Hq'. done.
Qed.

(** [settle] with the cursor in row [r] of the region or above it. *)
Lemma settle_at v r : core v -> 0 <= ccol v < cols v -> 0 <= r <= bottom v -> cpos v = r * cols v + ccol v ->
  exists es d, settle v = Some (touched (set_crow r v) es d) /\ answers es = [] /\ -1 <= d < rows v * cols v.
Proof.
  intros Hk Hc Hr Hp. destruct (cells_bound v (k_geo v Hk)) as (_ & _ & Hb3 & _). pose proof (g_rows v (k_geo v Hk)). destruct (k_margins v Hk). unfold settle.
  rewrite (proj2 (Z.leb_gt _ _)) by nia. cbn [mbind option_bind]. rewrite Hp, offset_row, u8_id by lia. set (w := set_crow r v). change (active w) with (active v).
  assert (Hw : core w) by (apply (core_alike v); [done|by constructor|exact (k_hist v Hk)|exact (k_dpos v Hk)]). assert (0 <= cpos w < rows w * cols w) by (cbn; rewrite Hp; apply row_offset; lia).
  case_if; [|exists [], (dpos v); split; [by destruct v as [? ? []]|split; [done|apply Hk]]].
  destruct (setcursor_quiet w Hw) as (es & -> & Hq); [done|]. exists es, (cpos w). split; [by destruct v as [? ? []]|]. split; [done|cbn in *; lia].
Qed.

Lemma settle_idle v : plain v -> crow v <= bottom v -> exists es d, settle v = Some (touched v es d) /\ answers es = [] /\ -1 <= d < rows v * cols v.
Proof.
  intros Hv Hr. destruct (cur_bounds v Hv) as (Hcc & Hrr & Hp & Hb). replace (touched v) with (touched (set_crow (crow v) v)) by (by destruct v as [? ? []]). apply settle_at; [apply Hv|done|lia|done].
Qed.

Section seq.
Context {CS : CharSign}.

Lemma ascii_char b : 0 <= b < 128 -> to_char b = b.
Proof. unfold to_char, s8, u8. intros. case_if; rewrite Z.mod_small; lia. Qed.

(** A character whose effect [s'] keeps the cursor in the region. *)
Lemma sput_op c s s' : plain s -> 0x20 <= c -> c <> 0x7f -> character c s = Some s' -> plain s' -> crow s' <= bottom s' ->
  exists es d, _ttypc_vt_sput c s = Some (touched s' es d) /\ answers es = [] /\ -1 <= d < rows s' * cols s'.
Proof. intros Hs Hc Hd E Hs' Hr. rewrite sput_char, E by (done || apply Hs). cbn [mbind option_bind]. by apply settle_idle. Qed.

(** ** The parser *)

(** The state [v] in the midst of a sequence. *)
Definition parsing (v : vt) (pa : parser) (es : list event) (d : Z) : vt :=
  mk_vt (vt_host v) (vt_screen v) (mk_cursor (ctype v) (cst v) (ccol v) (crow v) (cpos v) d) (vt_modes v) (vt_chars v) pa (sv v) (es ++ out v).

Definition zeros : list Z := replicate (Z.to_nat MAXPARMS) 0.
Definition parms_ok (i : Z) (ps : list Z) : Prop := 0 <= i < MAXPARMS /\ zlen ps = MAXPARMS /\ Forall (fun p => 0 <= p < 2 ^ 16) ps.

Lemma parsing_plain v st i ps es d : plain v -> parms_ok i ps -> -1 <= d < rows v * cols v -> plain (parsing v (mk_parser st i ps (tabs v)) es d).
Proof.
  intros Hv Hp Hd. pose proof (p_core v Hv) as [Hgv ? ? ? ? ? ? ? ?]. destruct Hv. constructor; try done. constructor; try done. by destruct Hgv.
Qed.

Lemma touched_parsing v pa es es' d d' : touched (parsing v pa es d) es' d' = parsing v pa (es' ++ es) d'.
Proof. unfold touched, parsing. cbn. by rewrite app_assoc. Qed.

Lemma parsing_self v : parsing v (vt_parser v) [] (dpos v) = v.
Proof. by destruct v as [? ? []]. Qed.
Lemma parser_self v : vt_parser v = mk_parser (escst v) (parmi v) (parms v) (tabs v).
Proof. by destruct v as [? ? ? ? ? []]. Qed.

(** Where a sequence stands: [v] but for the parser, without new answers. *)
Definition stands (v : vt) (st : esc) (i : Z) (ps : list Z) (r : option vt) : Prop :=
  exists es d, r = Some (parsing v (mk_parser st i ps (tabs v)) es d) /\ answers es = [] /\ -1 <= d < rows v * cols v /\ parms_ok i ps.

Lemma stands_step v st i ps es d c st' i' ps' :
  plain v -> crow v <= bottom v -> parms_ok i ps -> parms_ok i' ps' -> -1 <= d < rows v * cols v -> answers es = [] -> 0x20 <= c -> c <> 0x7f ->
  character c (parsing v (mk_parser st i ps (tabs v)) es d) = Some (parsing v (mk_parser st' i' ps' (tabs v)) es d) ->
  stands v st' i' ps' (_ttypc_vt_sput c (parsing v (mk_parser st i ps (tabs v)) es d)).
Proof.
  intros Hv Hr Hp Hp' Hd Hq Hc Hn E. destruct (sput_op c _ _ (parsing_plain v st i ps es d Hv Hp Hd) Hc Hn E (parsing_plain v st' i' ps' es d Hv Hp' Hd) Hr) as (es' & d' & -> & Hq' & Hd').
  exists (es' ++ es), d'. rewrite touched_parsing, answers_app, Hq, Hq'. done.
Qed.

Lemma zeros_ok : parms_ok 0 zeros.
Proof. apply zero_parms. Qed.

Lemma settle_parsing v st i ps es d : plain v -> crow v <= bottom v -> parms_ok i ps -> -1 <= d < rows v * cols v -> answers es = [] ->
  stands v st i ps (settle (parsing v (mk_parser st i ps (tabs v)) es d)).
Proof.
  intros Hv Hr Hp Hd Hq. destruct (settle_idle _ (parsing_plain v st i ps es d Hv Hp Hd) Hr) as (es' & d' & -> & Hq' & Hd'). exists (es' ++ es), d'. by rewrite touched_parsing, answers_app, Hq, Hq'.
Qed.

(** [ESC] *)
Lemma esc_intro v bs : plain v -> crow v <= bottom v ->
  exists es d, sputs (27 :: bs) v = sputs bs (parsing v (mk_parser ESC_ESC 0 zeros (tabs v)) es d) /\ answers es = [] /\ -1 <= d < rows v * cols v.
Proof.
  intros Hv Hr. rewrite sputs_cons, ascii_char by lia. rewrite sput_control by (apply Hv || done). change (control 27 v) with (Some (_ttypc_vtf_clrparms (set_escst ESC_ESC v))). cbn [mbind option_bind].
  assert (E1 : _ttypc_vtf_clrparms (set_escst ESC_ESC v) = parsing v (mk_parser ESC_ESC 0 zeros (tabs v)) [] (dpos v)) by (by destruct v as [? ? []]). rewrite E1.
  destruct (settle_parsing v ESC_ESC 0 zeros [] (dpos v) Hv Hr zeros_ok (k_dpos v (p_core v Hv)) eq_refl) as (es & d & -> & Hq & Hd & _). by exists es, d.
Qed.

(** [ESC \[] *)
Lemma csi_intro v bs : plain v -> crow v <= bottom v ->
  exists es d, sputs (27 :: 91 :: bs) v = sputs bs (parsing v (mk_parser ESC_CSI 0 zeros (tabs v)) es d) /\ answers es = [] /\ -1 <= d < rows v * cols v.
Proof.
  intros Hv Hr. destruct (esc_intro v (91 :: bs) Hv Hr) as (es & d & -> & Hq & Hd). rewrite sputs_cons, ascii_char by lia.
  destruct (stands_step v ESC_ESC 0 zeros es d 91 ESC_CSI 0 zeros) as (es' & d' & -> & Hq' & Hd' & _); try done; [apply zeros_ok|apply zeros_ok|]. by exists es', d'.
Qed.

(** A digit of parameter [i]. *)
Lemma csi_digit v i ps es d c bs : plain v -> crow v <= bottom v -> parms_ok i ps -> -1 <= d < rows v * cols v -> answers es = [] -> 48 <= c <= 57 -> arr_get ps i * 10 + (c - 48) < 2 ^ 16 ->
  exists es' d', sputs (c :: bs) (parsing v (mk_parser ESC_CSI i ps (tabs v)) es d) =
    sputs bs (parsing v (mk_parser ESC_CSI i (arr_set ps i (arr_get ps i * 10 + (c - 48))) (tabs v)) es' d') /\ answers es' = [] /\ -1 <= d' < rows v * cols v /\
    parms_ok i (arr_set ps i (arr_get ps i * 10 + (c - 48))).
Proof.
  intros Hv Hr Hp Hd Hq Hc Hx. rewrite sputs_cons, ascii_char by lia. destruct Hp as (Hi & Hz & Hf).
  assert (Hg : 0 <= arr_get ps i < 2 ^ 16) by (unfold arr_get; apply (Forall_lookup_total_1 _ _ _ Hf); unfold zlen in Hz; lia).
  assert (Hp' : parms_ok i (arr_set ps i (arr_get ps i * 10 + (c - 48)))) by (split; [done|]; split; [unfold zlen; by rewrite length_arr_set|]; apply Forall_insert; [done|cbn beta; lia]).
  destruct (stands_step v ESC_CSI i ps es d c ESC_CSI i (arr_set ps i (arr_get ps i * 10 + (c - 48)))) as (es' & d' & -> & Hq' & Hd' & _); try done; [lia|lia| |by exists es', d'].
  unfold character. cbn [escst vt_parser parsing]. unfold after_csi, is_digit. rewrite (proj2 (Z.leb_le _ _)), (proj2 (Z.leb_le _ _)) by lia. cbn [andb]. unfold parm_digit. cbn [parms parmi vt_parser parsing].
  destruct (load_in ps i) as (x & -> & Hx'); [lia|]. cbn [mbind option_bind]. assert (Eg : arr_get ps i = x) by (unfold arr_get; by apply list_lookup_total_correct). rewrite Eg in *. rewrite (u16_id (x * 10)) by lia. rewrite u16_id by lia. done.
Qed.

(** A number in decimal, and what the parser makes of it. *)
Definition dec (x : Z) : list Z :=
  if x <? 10 then [48 + x] else if x <? 100 then [48 + x / 10; 48 + x mod 10] else [48 + x / 100; 48 + x / 10 mod 10; 48 + x mod 10].

Lemma arr_set_set ps i a b : arr_set (arr_set ps i a) i b = arr_set ps i b.
Proof. apply list_insert_insert_eq. Qed.

Lemma csi_number v i ps es d n bs : plain v -> crow v <= bottom v -> parms_ok i ps -> -1 <= d < rows v * cols v -> answers es = [] -> arr_get ps i = 0 -> 0 <= n < 1000 ->
  exists es' d', sputs (dec n ++ bs) (parsing v (mk_parser ESC_CSI i ps (tabs v)) es d) =
    sputs bs (parsing v (mk_parser ESC_CSI i (arr_set ps i n) (tabs v)) es' d') /\ answers es' = [] /\ -1 <= d' < rows v * cols v /\ parms_ok i (arr_set ps i n).
Proof.
  intros Hv Hr Hp Hd Hq H0 Hn. destruct Hp as (Hi & Hz & Hf) eqn:Ep. assert (Hget : forall a, arr_get (arr_set ps i a) i = a) by (intros; apply arr_get_set_eq; lia).
  unfold dec. repeat case_if; bsimp; cbn [app].
  - destruct (csi_digit v i ps es d (48 + n) bs) as (es1 & d1 & -> & Hq1 & Hd1 & Hp1); try done; [lia|lia|]. rewrite H0 in *. replace (0 * 10 + (48 + n - 48)) with n in * by lia. by exists es1, d1.
  - destruct (csi_digit v i ps es d (48 + n / 10) (48 + n mod 10 :: bs)) as (es1 & d1 & -> & Hq1 & Hd1 & Hp1); try done; [divlia|divlia|]. rewrite H0 in *. replace (0 * 10 + (48 + n / 10 - 48)) with (n / 10) in * by lia.
    destruct (csi_digit v i _ es1 d1 (48 + n mod 10) bs Hv Hr Hp1) as (es2 & d2 & -> & Hq2 & Hd2 & Hp2); try done; rewrite ?Hget in *; [divlia|divlia|]. rewrite arr_set_set in *.
    replace (n / 10 * 10 + (48 + n mod 10 - 48)) with n in * by divlia. by exists es2, d2.
  - destruct (csi_digit v i ps es d (48 + n / 100) (48 + n / 10 mod 10 :: 48 + n mod 10 :: bs)) as (es1 & d1 & -> & Hq1 & Hd1 & Hp1); try done; [divlia|divlia|]. rewrite H0 in *. replace (0 * 10 + (48 + n / 100 - 48)) with (n / 100) in * by lia.
    destruct (csi_digit v i _ es1 d1 (48 + n / 10 mod 10) (48 + n mod 10 :: bs) Hv Hr Hp1) as (es2 & d2 & -> & Hq2 & Hd2 & Hp2); try done; rewrite ?Hget in *; [divlia|divlia|]. rewrite arr_set_set in *.
    replace (n / 100 * 10 + (48 + n / 10 mod 10 - 48)) with (n / 10) in * by divlia.
    destruct (csi_digit v i _ es2 d2 (48 + n mod 10) bs Hv Hr Hp2) as (es3 & d3 & -> & Hq3 & Hd3 & Hp3); try done; rewrite ?Hget in *; [divlia|divlia|]. rewrite arr_set_set in *.
    replace (n / 10 * 10 + (48 + n mod 10 - 48)) with n in * by divlia. by exists es3, d3.
Qed.

Lemma csi_next v i ps es d bs : plain v -> crow v <= bottom v -> parms_ok i ps -> i + 1 < MAXPARMS -> -1 <= d < rows v * cols v -> answers es = [] ->
  exists es' d', sputs (59 :: bs) (parsing v (mk_parser ESC_CSI i ps (tabs v)) es d) = sputs bs (parsing v (mk_parser ESC_CSI (i + 1) ps (tabs v)) es' d') /\ answers es' = [] /\ -1 <= d' < rows v * cols v /\ parms_ok (i + 1) ps.
Proof.
  intros Hv Hr Hp Hi Hd Hq. rewrite sputs_cons, ascii_char by lia. assert (Hp' : parms_ok (i + 1) ps) by (destruct Hp as (? & ? & ?); split; [lia|done]).
  destruct (stands_step v ESC_CSI i ps es d 59 ESC_CSI (i + 1) ps) as (es' & d' & -> & Hq' & Hd' & _); try done; [|by exists es', d'].
  change (character 59 (parsing v (mk_parser ESC_CSI i ps (tabs v)) es d)) with (Some (next_parm (parsing v (mk_parser ESC_CSI i ps (tabs v)) es d))). unfold next_parm. cbn [parmi vt_parser parsing]. rewrite (proj2 (Z.ltb_lt _ _)) by done.
  destruct Hp as (? & ? & ?). unfold MAXPARMS in *. rewrite u8_id by lia. done.
Qed.

(** The final [c] of a sequence whose effect [w] leaves the cursor in row [r]. *)
Lemma csi_final c s w r bs : plain s -> 0x20 <= c < 0x7f -> character c s = Some w -> core w -> 0 <= ccol w < cols w -> 0 <= r <= bottom w -> cpos w = r * cols w + ccol w ->
  exists es d, sputs (c :: bs) s = sputs bs (touched (set_crow r w) es d) /\ answers es = [] /\ -1 <= d < rows w * cols w.
Proof.
  intros Hs Hc E Hw Hcol Hr Hp. rewrite sputs_cons, ascii_char, sput_char, E by (lia || apply Hs). cbn [mbind option_bind].
  destruct (settle_at w r Hw Hcol Hr Hp) as (es & d & -> & Hq & Hd). by exists es, d.
Qed.

(** ** Addressing and reporting the cursor *)

(** The state [v] with the cursor at column [c] of row [r]. *)
Definition placed (v : vt) (c r : Z) (pa : parser) (es : list event) (d : Z) : vt :=
  mk_vt (vt_host v) (vt_screen v) (mk_cursor (ctype v) (cst v) c r (r * cols v + c) d) (vt_modes v) (vt_chars v) pa (sv v) (es ++ out v).

Lemma placed_plain v c r st i ps es d : plain v -> parms_ok i ps -> -1 <= d < rows v * cols v -> 0 <= c < cols v -> 0 <= r < rows v ->
  plain (placed v c r (mk_parser st i ps (tabs v)) es d).
Proof.
  intros Hv Hp Hd Hc Hr. pose proof (p_core v Hv) as [Hgv ? ? ? ? ? ? ? ?]. destruct Hv. constructor; try done. constructor; try done. by destruct Hgv.
Qed.

Lemma get_set_ne (ps : list Z) i j a : 0 <= i -> 0 <= j -> i <> j -> arr_get (arr_set ps i a) j = arr_get ps j.
Proof. intros. unfold arr_get, arr_set. apply list_lookup_total_insert_ne. lia. Qed.

Lemma parms_ok_set i j ps x : parms_ok i ps -> 0 <= x < 2 ^ 16 -> parms_ok i (arr_set ps j x).
Proof. intros (Hi & Hz & Hf) Hx. split; [done|]. split; [unfold zlen; by rewrite length_arr_set|]. by apply Forall_insert. Qed.

Lemma zlen_set (ps : list Z) i x : zlen (arr_set ps i x) = zlen ps.
Proof. unfold zlen. by rewrite length_arr_set. Qed.

(** A parameter from 0 to [hi], 0 meaning 1. *)
Lemma range_parm_parsing v st i ps es d j hi : parms_ok i ps -> 0 <= j < MAXPARMS -> arr_get ps j <= hi -> 1 <= hi -> 0 <= arr_get ps j ->
  exists ps', range_parm j 1 hi (parsing v (mk_parser st i ps (tabs v)) es d) = parsing v (mk_parser st i ps' (tabs v)) es d /\ parms_ok i ps' /\
    arr_get ps' j = Z.max 1 (arr_get ps j) /\ forall k, 0 <= k -> k <> j -> arr_get ps' k = arr_get ps k.
Proof.
  intros Hp Hj Hh H1 H0. pose proof Hp as (_ & Hz & _). unfold range_parm, parm. cbn [parms vt_parser parsing]. case_if; bsimp.
  - exists (arr_set ps j (u16 1)). split; [done|]. split; [by apply parms_ok_set|]. split; [rewrite arr_get_set_eq by lia; change (u16 1) with 1; lia|]. intros k Hk Hkj. by rewrite get_set_ne by lia.
  - case_if; bsimp; [lia|]. exists ps. split; [done|]. split; [done|]. split; [lia|done].
Qed.

(** [ESC \[ r ; c H] *)
Lemma cup_effect v ps es d r c : plain v -> parms_ok 1 ps -> -1 <= d < rows v * cols v -> om v = false -> arr_get ps 0 = r -> arr_get ps 1 = c -> 0 <= r <= rows v -> 0 <= c <= cols v ->
  exists ps', set_crow (Z.max 1 r - 1) (set_escst ESC_INIT (_ttypc_vtf_curadr (parsing v (mk_parser ESC_CSI 1 ps (tabs v)) es d))) =
    placed v (Z.max 1 c - 1) (Z.max 1 r - 1) (mk_parser ESC_INIT 1 ps' (tabs v)) es d /\ parms_ok 1 ps' /\
    cpos (_ttypc_vtf_curadr (parsing v (mk_parser ESC_CSI 1 ps (tabs v)) es d)) = (Z.max 1 r - 1) * cols v + (Z.max 1 c - 1).
Proof.
  intros Hv Hp Hd Ho Hpr Hpc Hr Hc. pose proof (k_geo v (p_core v Hv)) as Hg. destruct (cells_bound v Hg) as (Hb1 & Hb2 & Hb3 & _). pose proof (g_rows v Hg).
  set (s := parsing v (mk_parser ESC_CSI 1 ps (tabs v)) es d). unfold _ttypc_vtf_curadr. change (om s) with (om v). rewrite Ho. change (parm s 0) with (arr_get ps 0). change (parm s 1) with (arr_get ps 1). rewrite Hpr, Hpc.
  case_if; bsimp; [replace r with 0 by lia; replace c with 0 by lia; exists ps; by destruct v as [? ? []]|]. cbv zeta.
  destruct (range_parm_parsing v ESC_CSI 1 ps es d 0 (rows v) Hp) as (ps1 & E1 & Hp1 & Eg1 & Hk1); [done|lia|lia|lia|]. fold s in E1. change (rows s) with (rows v). rewrite E1. set (s1 := parsing v (mk_parser ESC_CSI 1 ps1 (tabs v)) es d). change (cols s1) with (cols v).
  assert (Eg2 : arr_get ps1 1 = c) by (by rewrite Hk1 by lia).
  destruct (range_parm_parsing v ESC_CSI 1 ps1 es d 1 (cols v) Hp1) as (ps2 & E2 & Hp2 & Eg3 & Hk2); [done|lia|lia|lia|]. fold s1 in E2. rewrite E2. set (s2 := parsing v (mk_parser ESC_CSI 1 ps2 (tabs v)) es d).
  assert (P0 : parm s2 0 = Z.max 1 r) by (unfold parm; cbn; rewrite Hk2 by lia; lia). assert (P1 : parm s2 1 = Z.max 1 c) by (unfold parm; cbn; lia).
  change (om s2) with (om v). rewrite Ho. set (s3 := set_cpos _ s2). change (parm s3 1) with (parm s2 1). change (cols s2) with (cols v) in s3. rewrite P1, u8_id by lia. unfold s3. rewrite P0, P1.
  pose proof (row_offset (Z.max 1 r - 1) (Z.max 1 c - 1) (rows v) (cols v) ltac:(lia) ltac:(lia)).
  replace ((Z.max 1 r - 1) * cols v + Z.max 1 c - 1 + 0) with ((Z.max 1 r - 1) * cols v + (Z.max 1 c - 1)) by lia. rewrite u16_id by nia. exists ps2. done.
Qed.

Lemma cup_seq v r c : plain v -> crow v <= bottom v -> om v = false -> 0 <= r <= bottom v + 1 -> 0 <= c <= cols v ->
  exists ps es d, sputs ([27; 91] ++ dec r ++ [59] ++ dec c ++ [72]) v = Some (placed v (Z.max 1 c - 1) (Z.max 1 r - 1) (mk_parser ESC_INIT 1 ps (tabs v)) es d) /\
    answers es = [] /\ -1 <= d < rows v * cols v /\ parms_ok 1 ps.
Proof.
  intros Hv Hr Ho Hrr Hc. pose proof (k_geo v (p_core v Hv)) as Hg. pose proof (g_rows v Hg). pose proof (g_cols v Hg) as Hcm. unfold MAXTABS in Hcm. destruct (k_margins v (p_core v Hv)) as [Ht Hb]. cbn [app].
  destruct (csi_intro v (dec r ++ 59 :: dec c ++ [72]) Hv Hr) as (es1 & d1 & -> & Hq1 & Hd1).
  destruct (csi_number v 0 zeros es1 d1 r (59 :: dec c ++ [72]) Hv Hr zeros_ok Hd1 Hq1 eq_refl ltac:(lia)) as (es2 & d2 & -> & Hq2 & Hd2 & Hp2).
  destruct (csi_next v 0 _ es2 d2 (dec c ++ [72]) Hv Hr Hp2 ltac:(done) Hd2 Hq2) as (es3 & d3 & -> & Hq3 & Hd3 & Hp3). change (0 + 1) with 1 in *.
  assert (E0 : arr_get (arr_set zeros 0 r) 1 = 0) by done. destruct (csi_number v 1 _ es3 d3 c [72] Hv Hr Hp3 Hd3 Hq3 E0 ltac:(lia)) as (es4 & d4 & -> & Hq4 & Hd4 & Hp4).
  set (ps := arr_set (arr_set zeros 0 r) 1 c) in *. destruct (cup_effect v ps es4 d4 r c Hv Hp4 Hd4 Ho) as (ps' & Eeff & Hp' & Epos); [done|done|lia|lia|].
  set (s := parsing v (mk_parser ESC_CSI 1 ps (tabs v)) es4 d4) in *. set (w := set_escst ESC_INIT (_ttypc_vtf_curadr s)) in *. change (cpos (_ttypc_vtf_curadr s)) with (cpos w) in Epos.
  assert (Hpl : plain (placed v (Z.max 1 c - 1) (Z.max 1 r - 1) (mk_parser ESC_INIT 1 ps' (tabs v)) es4 d4)) by (apply placed_plain; try done; lia).
  rewrite <- Eeff in Hpl. destruct (p_cur _ Hpl) as (Hcw & _ & _). pose proof (p_core _ Hpl) as Hkw. change (ccol (set_crow (Z.max 1 r - 1) w)) with (ccol w) in Hcw. change (cols (set_crow (Z.max 1 r - 1) w)) with (cols w) in Hcw.
  assert (Hkw' : core w) by (apply (core_alike _ w Hkw); [by constructor|apply Hkw|apply Hkw]).
  assert (Ecol : ccol w = Z.max 1 c - 1) by (change (ccol w) with (ccol (set_crow (Z.max 1 r - 1) w)); by rewrite Eeff).
  assert (Escr : vt_screen w = vt_screen v) by (change (vt_screen w) with (vt_screen (set_crow (Z.max 1 r - 1) w)); by rewrite Eeff).
  destruct (csi_final 72 s w (Z.max 1 r - 1) []) as (es5 & d5 & -> & Hq5 & Hd5); [by apply parsing_plain|done|done|done|done|rewrite Escr; lia|by rewrite Epos, Ecol, Escr|].
  rewrite Eeff. exists ps', (es5 ++ es4), d5. rewrite Escr in Hd5. rewrite answers_app, Hq5, Hq4. split; [|done]. unfold touched, placed. cbn. by rewrite app_assoc.
Qed.

(** A number below 100 as the report prints it: that 10 loses its first digit. *)
Definition reported (n : Z) : Z := if n =? 10 then 0 else n.

Lemma dsr_dec n : 1 <= n < 100 -> dsr_number n = dec (reported n).
Proof.
  intros Hn. unfold dsr_number, reported, dec. destruct (Z.eqb_spec n 10) as [->|]; [done|]. destruct (Z.ltb_spec n 10).
  - rewrite (proj2 (Z.ltb_ge _ _)) by lia. cbn [app]. by rewrite Z.mod_small by lia.
  - rewrite (proj2 (Z.ltb_lt _ _)) by lia. by rewrite (proj2 (Z.ltb_lt _ _)) by lia.
Qed.

(** The position as the report prints it. *)
Definition position (v : vt) : list Z := dsr_number (crow v + 1) ++ [59] ++ dsr_number (ccol v + 1).

(** [ESC \[ 6 n] *)
Lemma dsr_seq v : plain v -> crow v <= bottom v ->
  exists w, sputs [27; 91; 54; 110] v = Some w /\ plain w /\ view w = view v /\ answers (out w) = ([27; 91] ++ position v ++ [82]) :: answers (out v).
Proof.
  intros Hv Hr. destruct (csi_intro v [54; 110] Hv Hr) as (es1 & d1 & -> & Hq1 & Hd1). destruct (csi_number v 0 zeros es1 d1 6 [110] Hv Hr zeros_ok Hd1 Hq1 eq_refl ltac:(lia)) as (es2 & d2 & E2 & Hq2 & Hd2 & Hp2).
  change (dec 6 ++ [110]) with [54; 110] in E2. rewrite E2. set (report := [27; 91] ++ position v ++ [82]).
  set (w := parsing v (mk_parser ESC_INIT 0 (arr_set zeros 0 6) (tabs v)) (Respond report :: es2) d2).
  assert (Hw : plain w) by (by apply parsing_plain). destruct (cur_bounds v Hv) as (Hc & Hrr & Hp & _).
  destruct (csi_final 110 (parsing v (mk_parser ESC_CSI 0 (arr_set zeros 0 6) (tabs v)) es2 d2) w (crow v) []) as (es3 & d3 & E3 & Hq3 & Hd3); [by apply parsing_plain|done| |apply Hw|done|cbn; lia|done|].
  { unfold w, report, position. rewrite <- !app_assoc. done. }
  rewrite E3. eexists. split; [done|]. split; [|split; [done|]].
  - replace (touched (set_crow (crow v) w) es3 d3) with (parsing v (mk_parser ESC_INIT 0 (arr_set zeros 0 6) (tabs v)) (es3 ++ Respond report :: es2) d3) by (unfold touched, w, parsing; cbn; by rewrite <- app_assoc).
    by apply parsing_plain.
  - cbn. rewrite !answers_app, Hq3. cbn. by rewrite answers_app, Hq2.
Qed.

(** ** Saving and restoring *)

Lemma text_framed bs : forall v, plain v -> escst v = ESC_INIT -> Forall (fun b => to_char b <> 0x1b) bs -> exists w, sputs bs v = Some w /\ plain w /\ framed v w.
Proof.
  induction bs as [|b bs IH]; intros v Hv He Hf; [exists v; split; [done|]; split; [done|apply framed_refl]|]. apply Forall_cons in Hf as [Hb Hf].
  assert (Hz : hazard (to_char b) v = false) by (unfold hazard; by rewrite bool_decide_eq_false_2 by congruence).
  destruct (ok_elim _ _ (sput_plain _ v Hv (to_char_range b) Hz)) as (w & E & _). destruct (sput_framed _ v w Hv He (to_char_range b) Hb E) as [Hw Hfw].
  destruct (IH w Hw) as (x & Ex & Hx & Hfx); [by rewrite (f_escst v w Hfw)|done|]. exists x. rewrite sputs_cons, E. split; [done|]. split; [done|]. by apply (framed_trans v w x).
Qed.

(** What [ESC 7] saves. *)
Definition saves (v : vt) : saved := mk_saved (ccol v) (crow v) (cpos v) (cs v) (awm v) (om v) (sgr v) (u8 (attr v)).

Lemma save_seq v bs : plain v -> crow v <= bottom v ->
  exists w, sputs (27 :: 55 :: bs) v = sputs bs w /\ plain w /\ escst w = ESC_INIT /\ sc w = true /\ sv w = saves v /\ bottom w = bottom v.
Proof.
  intros Hv Hr. destruct (esc_intro v (55 :: bs) Hv Hr) as (es & d & -> & Hq & Hd). set (s := parsing v (mk_parser ESC_ESC 0 zeros (tabs v)) es d).
  assert (Hs : plain s) by (apply parsing_plain; [done|apply zeros_ok|done]). pose proof (sc_ok s Hs) as Hm. set (w := set_escst ESC_INIT (_ttypc_vtf_sc s)). pose proof (mid_escst _ ESC_INIT Hm) as Hw. change (set_escst ESC_INIT (_ttypc_vtf_sc s)) with w in Hw.
  rewrite sputs_cons, ascii_char, sput_char by (done || apply Hs). change (character 55 s) with (Some w). cbn [mbind option_bind].
  destruct (ok_elim _ _ (ok_and _ _ _ (settle_ok w Hw) (settle_framed w Hw))) as (x & -> & Hx & [He [Hsc Hsv] (_ & _ & _ & Hb)]). exists x. by rewrite He, Hsc, Hsv, Hb.
Qed.

Lemma restore_seq v w : plain v -> crow v <= bottom v -> plain w -> sc w = true -> sv w = saves v -> bottom w = bottom v ->
  exists x, sputs [27; 56] w = Some x /\ plain x /\ ccol x = ccol v /\ crow x = crow v /\ cs x = cs v /\ awm x = awm v /\ om x = om v /\ sgr x = sgr v /\ attr x = u8 (attr v) /\ sc x = false.
Proof.
  intros Hv Hr Hw Hsc Hsv Hb. rewrite sputs_cons, ascii_char, sput_control by (done || apply Hw). change (control 27 w) with (Some (_ttypc_vtf_clrparms (set_escst ESC_ESC w))). cbn [mbind option_bind].
  pose proof (mid_clrparms w Hw ESC_ESC) as Hm. destruct (ok_elim _ _ (ok_and _ _ _ (settle_ok _ Hm) (settle_framed _ Hm))) as (s & -> & Hs & [He [Esc Esv] (_ & _ & _ & Eb)]). cbn [mbind option_bind].
  change (escst s = ESC_ESC) in He. change (sc s = sc w) in Esc. change (sv s = sv w) in Esv. change (bottom s = bottom w) in Eb. rewrite Hsc in Esc. rewrite Hsv in Esv. rewrite Hb in Eb.
  rewrite sputs_cons, ascii_char, sput_char by (done || apply Hs). assert (E : character 56 s = Some (set_escst ESC_INIT (_ttypc_vtf_rc s))) by (unfold character; by rewrite He). rewrite E. cbn [mbind option_bind].
  pose proof (rc_ok s Hs) as Hrc. pose proof (k_saved s (p_core s Hs) Esc) as ((Hsc1 & Hsc2 & Hsc3) & _). rewrite Esv in Hsc1, Hsc2, Hsc3. cbn in Hsc1, Hsc2, Hsc3.
  unfold _ttypc_vtf_rc in *. rewrite Esc in *. cbn [negb] in *. rewrite Esv in *. cbv zeta in *. set (u := set_sc false _) in *.
  destruct (settle_at (set_escst ESC_INIT u) (crow v)) as (es & d & -> & Hq & Hd); [apply (mid_escst u ESC_INIT Hrc)|done|change (bottom (set_escst ESC_INIT u)) with (bottom s); lia|done|].
  eexists. split; [done|]. split; [|done]. pose proof (mid_escst u ESC_INIT Hrc) as Hu. destruct Hu as [Hku Hl _ _]. constructor; [|done|done].
  apply (core_alike _ _ Hku); [by constructor|exact (k_hist _ Hku)|done].
Qed.
End seq.

(** C31: reporting the cursor. For a cursor not below the bottom margin, in a row and a column below 99 (counted from
    0), on a terminal that does not echo its answers: [ESC \[ 6 n] leaves the view as it was and has the terminal
    answer a report of the position. Sent as [ESC \[ row ; column H] to a terminal of the same width, with origin mode off and
    with its own cursor and the row of the report not below its bottom margin, the report puts the cursor in the row and
    the column it was made for and leaves the text alone, except that the tenth row and the tenth column are reported as
    0 and come back as the first. *)
Theorem vt_cursor_report `{CS : CharSign} v u : plain v -> crow v <= bottom v -> crow v < 99 -> ccol v < 99 ->
  plain u -> crow u <= bottom u -> om u = false -> cols u = cols v -> crow v <= bottom u ->
  (exists w, sputs [27; 91; 54; 110] v = Some w /\ plain w /\ view w = view v /\ answers (out w) = ([27; 91] ++ position v ++ [82]) :: answers (out v)) /\
  exists w, sputs ([27; 91] ++ position v ++ [72]) u = Some w /\ plain w /\ lines w = lines u /\ history w = history u /\
    crow w = (if crow v =? 9 then 0 else crow v) /\ ccol w = (if ccol v =? 9 then 0 else ccol v).
Proof.
  intros Hv Hr Hr99 Hc99 Hu Hru Ho Hcols Hrb. split; [by apply dsr_seq|]. destruct (cur_bounds v Hv) as (Hc & Hrr & _ & _). unfold position. rewrite !dsr_dec, <- !app_assoc by lia.
  assert (Hrep : forall n, 0 <= n -> 0 <= reported (n + 1) <= n + 1 /\ Z.max 1 (reported (n + 1)) - 1 = (if n =? 9 then 0 else n)) by (intros; unfold reported; repeat case_if; bsimp; lia).
  destruct (Hrep (crow v)) as [Hb1 E1]; [lia|]. destruct (Hrep (ccol v)) as [Hb2 E2]; [lia|]. destruct (k_margins u (p_core u Hu)).
  destruct (cup_seq u (reported (crow v + 1)) (reported (ccol v + 1)) Hu Hru Ho ltac:(lia) ltac:(lia)) as (ps & es & d & E & Hq & Hd & Hp). rewrite E1, E2 in E.
  eexists. split; [exact E|]. split; [|done]. apply placed_plain; try done; case_if; bsimp; lia.
Qed.

(** saving and restoring. [ESC 7], any text without escape characters, and [ESC 8] restore the cursor, the character sets,
    the wrap and origin modes and the rendition; of the attribute cells are drawn with, the low byte only, which is 0 in
    every attribute the terminal makes: text after [ESC 8] is drawn black on black. *)
Theorem vt_save_restore `{CS : CharSign} v bs : plain v -> crow v <= bottom v -> Forall (fun b => to_char b <> 0x1b) bs ->
  exists w, sputs ([27; 55] ++ bs ++ [27; 56]) v = Some w /\ plain w /\ ccol w = ccol v /\ crow w = crow v /\ cs w = cs v /\
    awm w = awm v /\ om w = om v /\ sgr w = sgr v /\ attr w = u8 (attr v) /\ sc w = false.
Proof.
  intros Hv Hr Hf. cbn [app]. destruct (save_seq v (bs ++ [27; 56]) Hv Hr) as (w & -> & Hw & He & Hsc & Hsv & Hb). destruct (text_framed bs w Hw He Hf) as (x & Ex & Hx & [_ [Fsc Fsv] (_ & _ & _ & Fb)]).
  rewrite sputs_app, Ex. cbn [mbind option_bind]. apply restore_seq; try done; congruence.
Qed.
End VtSeq.
