(* ===== verification/VtTty.v ===== *)
(** * PC virtual terminal: the terminal behind its line discipline

    The terminal is the driver below a [libtty] line discipline: the discipline calls
    [_ttypc_vt_signaltxready] when it has output, which passes the bytes of the transmit buffer
    on to the emulator, and the emulator's answers are input of the discipline. The callback runs
    at the end of [_libttydisc_txFeedback], with nothing after it in the functions that write, so
    that it is run after the step of the discipline.

    An answer is modelled for a discipline that does not echo: then input neither writes output
    nor calls back, and it cannot be told whether it is put in the midst of a character or after
    it. With echo on, an answer has the result [None] here. *)

From S2P Require Import Prelude Fifo Termios Tty TtyDisc TtyOutput Vt VtCells VtSafe VtCorrect VtText VtSeq.

Module VtTty.
Import Fifo Termios Tty TtyDisc TtyOutput Vt VtCells VtSafe VtCorrect VtText VtSeq.
Implicit Types (t : tty) (v w : vt).

Section ops.
Context `{Abi} {CS : CharSign}.

(** ** The driver *)

(** The result of [_libtty_putchar] is 0. *)
Definition _ttypc_vt_respond (t : tty) (bytes : list Z) : tty := foldl (fun t b => (_libtty_putchar t (u8 b) false).1) t bytes.

Definition echoes (t : tty) : bool := CMP_L (term t) ECHO || CMP_L (term t) ECHONL.
(** The answers of [w] that are new since [v], oldest first. *)
Definition new_answers (v w : vt) : list (list Z) := rev (take (length (answers (out w)) - length (answers (out v))) (answers (out w))).

(** [_ttypc_vt_sput(vt, (char)_libtty_popchar(&vt->tty))] *)
Definition pump (t : tty) (v : vt) : option (tty * vt) :=
  let '(t, b) := _libtty_popchar t in
  w ← _ttypc_vt_sput (to_char b) v;
  match new_answers v w with
  | [] => Some (t, w)
  | l => if echoes t then None else Some (foldl _ttypc_vt_respond t l, w)
  end.

(** The bytes in the transmit buffer bound the steps. *)
Fixpoint pump_loop (n : nat) (t : tty) (v : vt) : option (tty * vt) :=
  match n with
  | O => Some (t, v)
  | S n => if _libtty_txready t then r ← pump t v; pump_loop n r.1 r.2 else Some (t, v)
  end.

Definition _ttypc_vt_signaltxready (t : tty) (v : vt) : option (tty * vt) :=
  r ← pump_loop (length (contents (tx_fifo t))) t v; Some (_libtty_wake_writer r.1, r.2).

(** [CALLBACK(signal_txready)] *)
Definition callback (t : tty) (v : vt) : option (tty * vt) := if has_signal_txready (cb t) then _ttypc_vt_signaltxready t v else Some (t, v).

(** One character of [_libtty_write]. *)
Definition put_output (t : tty) (v : vt) (c : Z) : option (tty * vt) :=
  if CMP_O (term t) OPOST && CTL_VALID c then callback (write_char t c) v else Some (write_char t c, v).

(** Conditions of the kernel are sticky: a signal without a waiter stays pending, and the next [condWait] returns at once
    (see the comments on [condWait] in [rpi4-wifi.c] and [imx6ull-sdma.c]). Whether [tx_waitq] is pending can be read off the events, as
    long as no other writer waits on it. *)
Definition pending (l : list Tty.event) : bool := foldl (fun p e => match e with EvSignalTx | EvBroadcastTx => true | EvWaitTx => false | _ => p end) false l.

Inductive room := HasRoom | Leaves | Waits.

(** [while (fifo_freespace(...) < need)]. The callback empties the buffer, so that a third round would find what the second
    has found: the loop does not end ([None]). *)
Fixpoint room_loop (n : nat) (t : tty) (v : vt) (mode need : Z) : option (tty * vt * room) :=
  if need <=? fifo_freespace (tx_fifo t) then Some (t, v, HasRoom)
  else if flag_on t TF_CLOSING || has mode O_NONBLOCK then Some (t, v, Leaves)
  else match n with
       | O => None
       | S n => r ← callback t v; if pending (Tty.evs r.1) then room_loop n (Tty.emit r.1 EvWaitTx) r.2 mode need else Some (r, Waits)
       end.

(** The loop of [_libtty_write]: the bytes written, and whether it ran to its end; [Blocked] in [condWait]. *)
Fixpoint output_loop (t : tty) (v : vt) (bytes : list Z) (len mode need : Z) : option (tty * vt * outcome (Z * bool)) :=
  match bytes with
  | [] => Some (t, v, Ret (len, true))
  | c :: bytes' =>
      x ← room_loop 2 t v mode need;
      match x with
      | (t, v, HasRoom) => r ← put_output t v c; output_loop r.1 r.2 bytes' (len + 1) mode need
      | (t, v, Leaves) => Some (t, v, Ret (len, false))
      | (t, v, Waits) => Some (t, v, Blocked)
      end
  end.

(** [_libtty_write] on the terminal, until the writer waits. *)
Definition ttypc_vt_write (t : tty) (v : vt) (bytes : list Z) (mode : Z) : option (tty * vt * outcome (cres Z)) :=
  if flag_on t TF_CLOSING then Some (t, v, Ret (Err EPIPE))
  else if fifo_is_full (tx_fifo t) && has mode O_NONBLOCK then Some (t, v, Ret (Err EWOULDBLOCK))
  else if zlen bytes =? 0 then Some (t, v, Ret (Ok 0))
  else
    r ← output_loop t v bytes 0 mode (write_need (term t));
    match r with
    | (t, v, Blocked) => Some (t, v, Blocked)
    | (t, v, Ret (len, finished)) =>
        r ← (if finished : bool then callback t v else Some (t, v));
        Some (r, Ret (if flag_on r.1 TF_CLOSING then Err EPIPE else if (len =? 0) && has mode O_NONBLOCK then Err EWOULDBLOCK else Ok len))
    end.
End ops.

(** ** Text has no answers *)

Definition quiet (v w : vt) : Prop := answers (out w) = answers (out v).

Lemma quiet_trans v w x : quiet v w -> quiet w x -> quiet v x.
Proof. unfold quiet. congruence. Qed.

(** The steps of a result that is there. *)
Ltac unbind H := repeat match type of H with mbind _ ?r = Some _ => destruct r eqn:?; cbn [mbind option_bind] in H; [|discriminate H] end.

Lemma drawChar_silent v col row val : quiet v (_ttypc_fbcon_drawChar v col row val).
Proof. unfold _ttypc_fbcon_drawChar, quiet. by case_if. Qed.

Lemma set_loop_silent n : forall v offs val col row w, set_loop n v offs val col row = Some w -> quiet v w.
Proof.
  induction n as [|n IH]; intros v offs val col row w E; [by injection E as <-|]. cbn [set_loop] in E. unbind E. destruct (next_cell _ col row) as [c r]. apply IH in E.
  eapply quiet_trans; [|exact E]. apply (drawChar_silent (set_vram l v)).
Qed.

Lemma move_forward_silent n : forall v d s col row w, move_forward n v d s col row = Some w -> quiet v w.
Proof.
  induction n as [|n IH]; intros v d s col row w E; [by injection E as <-|]. cbn [move_forward] in E. unbind E. destruct (next_cell _ col row) as [c r]. apply IH in E.
  eapply quiet_trans; [|exact E]. apply (drawChar_silent (set_vram l v)).
Qed.

Lemma move_backward_silent n : forall v d s col row w, move_backward n v d s col row = Some w -> quiet v w.
Proof.
  induction n as [|n IH]; intros v d s col row w E; [by injection E as <-|]. cbn [move_backward] in E. unbind E. eapply quiet_trans; [apply (drawChar_silent (set_vram l v) col row z0)|].
  repeat case_if; [by apply IH in E|by injection E as <-|by apply IH in E].
Qed.

Lemma move_silent v d s n w : _ttypc_vga_move v d s n = Some w -> quiet v w.
Proof. unfold _ttypc_vga_move. case_if; [apply move_forward_silent|apply move_backward_silent]. Qed.

Lemma rollup_silent v n w : _ttypc_vga_rollup v n = Some w -> quiet v w.
Proof.
  unfold _ttypc_vga_rollup, _ttypc_vga_allocscrollback. intros E. unbind E. assert (Hq : quiet v v0).
  { clear E. case_if; [unbind Heqo; by injection Heqo as <-|by injection Heqo as <-]. }
  eapply quiet_trans; [exact Hq|]. clear Heqo. case_if; [|by injection E as <-]. unbind E. apply move_silent in Heqo. unfold _ttypc_vga_set in E. apply set_loop_silent in E. by eapply quiet_trans.
Qed.

Lemma setcursor_silent v w : _ttypc_vga_setcursor v = Some w -> quiet v w.
Proof.
  unfold _ttypc_vga_setcursor. set (v1 := emit _ v). intros E. unbind E. injection E as <-. assert (Hq : quiet v v0).
  { case_if; [unbind Heqo; injection Heqo as <-; apply (drawChar_silent v1)|by injection Heqo as <-]. }
  eapply quiet_trans; [exact Hq|]. apply (drawChar_silent v0).
Qed.

Lemma settle_silent v w : settle v = Some w -> quiet v w.
Proof.
  unfold settle. intros E. unbind E. assert (Hq : quiet v v0).
  { clear E. case_if; [unbind Heqo; injection Heqo as <-; by apply rollup_silent in Heqo0|by injection Heqo as <-]. }
  eapply quiet_trans; [exact Hq|]. clear Heqo. case_if; [by apply setcursor_silent in E|by injection E as <-].
Qed.

Section text.
Context `{Abi} {CS : CharSign}.

Lemma print_silent c v w : print c v = Some w -> quiet v w.
Proof.
  unfold print. intros E. unbind E. injection E as <-. assert (Hq : quiet v v0) by (case_if; [by apply move_silent in Heqo|by injection Heqo as <-]). eapply quiet_trans; [exact Hq|].
  unfold _ttypc_vt_sdraw in Heqo0. unbind Heqo0. injection Heqo0 as <-. eapply quiet_trans; [apply (drawChar_silent (set_ss false (set_vram l v0)))|]. repeat case_if; done.
Qed.

Lemma text_silent c v w : ready v -> is_text c -> _ttypc_vt_sput c v = Some w -> quiet v w.
Proof.
  intros Hv Hc E. destruct Hc as [Hc|Hc].
  - rewrite sput_char in E by (lia || apply Hv). unfold character in E. rewrite (r_init v Hv) in E. unbind E. apply print_silent in Heqo. apply settle_silent in E. by eapply quiet_trans.
  - rewrite sput_control in E by (lia || apply Hv). assert (Hx : exists x, control c v = Some x /\ quiet v x).
    { unfold control, line_feed, home_column. assert (c = 10 \/ c = 11 \/ c = 12 \/ c = 13) as [-> | [-> | [-> | ->]]] by lia; cbn [switch Z.eqb Pos.eqb]; eexists; (split; [done|]); repeat case_if; done. }
    destruct Hx as (x & Ex & Hq). rewrite Ex in E. apply settle_silent in E. by eapply quiet_trans.
Qed.

(** ** Output reaches the screen *)

(** The screen once the output in the transmit buffer is processed. *)
Definition shown_by (t : tty) (v : vt) : aterm := foldl (a_char (setup_of v)) (view v) (contents (tx_fifo t)).

(** A terminal with text on its way, and what a step that adds the output [bs] leaves. *)
Record carries (t : tty) (v : vt) : Prop := {
  c_wf : tty_wf t;
  c_ready : ready v;
  c_text : Forall is_text (contents (tx_fifo t));
  c_open : flag_on t TF_CLOSING = false;
  c_driver : has_signal_txready (cb t) = true;
}.
Record delivers (t : tty) (v : vt) (bs : list Z) (t' : tty) (w : vt) : Prop := {
  d_carries : carries t' w;
  d_frame : tx_frame t t';
  d_cap : Fifo.capacity (tx_fifo t') = Fifo.capacity (tx_fifo t);
  d_setup : setup_of w = setup_of v;
  d_shown : shown_by t' w = foldl (a_char (setup_of v)) (shown_by t v) bs;
}.


Lemma delivers_refl t v : carries t v -> delivers t v [] t v.
Proof. intros Hc. by constructor. Qed.

Lemma delivers_trans t v bs t1 v1 bs' t2 v2 : delivers t v bs t1 v1 -> delivers t1 v1 bs' t2 v2 -> delivers t v (bs ++ bs') t2 v2.
Proof.
  intros [C1 F1 K1 S1 V1] [C2 F2 K2 S2 V2]. constructor; [done|by eapply tx_frame_trans|congruence|congruence|]. by rewrite V2, V1, S1, foldl_app.
Qed.

Lemma carries_frame t t' v w : carries t v -> tx_frame t t' -> tty_wf t' -> ready w -> Forall is_text (contents (tx_fifo t')) -> carries t' w.
Proof.
  intros [_ _ _ Hcl Hcb] Hf Hwf Hw Ht. constructor; try done; [rewrite <- Hcl; unfold flag_on; f_equal; apply Hf|rewrite <- Hcb; f_equal; apply Hf].
Qed.

Lemma pump_text t v b p : carries t v -> contents (tx_fifo t) = b :: p ->
  exists t' w, pump t v = Some (t', w) /\ delivers t v [] t' w /\ contents (tx_fifo t') = p.
Proof.
  intros Hc E. pose proof Hc as [Hwf Hv Ht _ _]. rewrite E in Ht. apply Forall_cons in Ht as [Hb Hp]. pose proof (wf_tx t Hwf) as Htx.
  assert (Hne : contents (tx_fifo t) <> []) by (by rewrite E). pose proof (fifo_pop_back_contents _ Htx Hne) as Ep. rewrite E in Ep. pose proof (fifo_pop_back_wf _ Htx) as Hpw.
  unfold pump, _libtty_popchar. destruct (fifo_pop_back (tx_fifo t)) as [f x] eqn:Ef. cbn [fst snd] in Ep, Hpw. injection Ep as <- Ep. destruct (text_step b v Hv Hb) as (w & Ew & Hw & Hs & Hview).
  rewrite text_byte, Ew by done. cbn [mbind option_bind]. pose proof (text_silent b v w Hv Hb Ew) as Hq. unfold new_answers. rewrite Hq, Nat.sub_diag. cbn [take rev].
  assert (Hwf' : tty_wf (set_tx t f)) by (destruct Hwf; by split). exists (set_tx t f), w. split; [done|]. split; [|done].
  constructor; [apply (carries_frame t _ v w Hc); try done; cbn [tx_fifo set_tx]; by rewrite <- Ep|done|by injection Ef as <-|done|].
  unfold shown_by. cbn [tx_fifo set_tx]. by rewrite E, <- Ep, Hs, Hview.
Qed.

Lemma pump_loop_text p : forall t v, carries t v -> contents (tx_fifo t) = p ->
  exists t' w, pump_loop (length p) t v = Some (t', w) /\ delivers t v [] t' w /\ contents (tx_fifo t') = [].
Proof.
  induction p as [|b p IH]; intros t v Hc E; cbn [length pump_loop]; [exists t, v; split; [done|]; split; [by apply delivers_refl|done]|].
  assert (Hr : _libtty_txready t = true).
  { unfold _libtty_txready. destruct (fifo_is_empty (tx_fifo t)) eqn:Ee; [|done]. apply is_empty_spec in Ee; [|apply Hc]. congruence. }
  rewrite Hr. destruct (pump_text t v b p Hc E) as (t1 & v1 & -> & Hd & E1). cbn [mbind option_bind fst snd]. destruct (IH t1 v1 (d_carries _ _ _ _ _ Hd) E1) as (t2 & v2 & -> & Hd2 & E2).
  exists t2, v2. split; [done|]. split; [|done]. by apply (delivers_trans _ _ [] _ _ [] _ _ Hd).
Qed.

(** The callback empties the transmit buffer onto the screen, and signals the writer when that is room enough. *)
Lemma callback_text t v : carries t v -> exists t' w, callback t v = Some (t', w) /\ delivers t v [] t' w /\ contents (tx_fifo t') = [] /\
  (TX_FIFO_NOTFULL_WATERMARK <= Fifo.capacity (tx_fifo t) -> pending (Tty.evs t') = true).
Proof.
  intros Hc. unfold callback. rewrite (c_driver t v Hc). unfold _ttypc_vt_signaltxready. destruct (pump_loop_text _ t v Hc eq_refl) as (t1 & v1 & -> & Hd & E1). cbn [mbind option_bind fst snd].
  exists (_libtty_wake_writer t1), v1. split; [done|]. pose proof (d_carries _ _ _ _ _ Hd) as Hc1. unfold _libtty_wake_writer. case_if.
  - split; [|split; [done|intros _; cbn [Tty.evs Tty.emit]; unfold pending; by rewrite foldl_app]]. apply (delivers_trans _ _ [] _ _ [] _ _ Hd). destruct Hc1.
    constructor; try done. constructor; try done. by destruct c_wf0; split.
  - split; [done|]. split; [done|]. intros Hcap. exfalso. rewrite freespace_eq, <- length_contents, E1, (d_cap _ _ _ _ _ Hd) in Heqb by apply Hc1. cbn in Heqb. bsimp. lia.
Qed.

Lemma text_is_byte c : is_text c -> is_byte c.
Proof. unfold is_text, is_byte. lia. Qed.

Lemma write_bytes_text x c : is_text c -> Forall is_text (write_bytes x c).
Proof.
  intros Hc. assert (H1 : Forall is_text [c]) by (by apply Forall_singleton). assert (H2 : is_text 10 /\ is_text 13 /\ is_text 32) by (unfold is_text; lia). destruct H2 as (Hn & Hr & Hs).
  unfold write_bytes, oproc_bytes. repeat case_match; try done; repeat (constructor; [done|]); by constructor.
Qed.

(** One character of text. *)
Lemma put_text t v c : carries t v -> is_text c -> write_need (term t) <= fifo_freespace (tx_fifo t) ->
  exists t' w, put_output t v c = Some (t', w) /\ delivers t v (write_bytes (term t) c) t' w /\ (length (contents (tx_fifo t')) <= length (contents (tx_fifo t)) + 1)%nat /\
    (0x20 <= c -> w = v /\ contents (tx_fifo t') = contents (tx_fifo t) ++ [c]).
Proof.
  intros Hc Hx Hroom. pose proof Hc as [Hwf Hv Ht _ _]. destruct (write_char_spec t c Hwf (text_is_byte c Hx) Hroom) as (W & F & K & E).
  assert (Hd : delivers t v (write_bytes (term t) c) (write_char t c) v).
  { constructor; try done; [|unfold shown_by; by rewrite E, foldl_app]. apply (carries_frame t _ v v Hc F W Hv). rewrite E. apply Forall_app. split; [done|by apply write_bytes_text]. }
  unfold put_output. destruct (CMP_O (term t) OPOST && CTL_VALID c) eqn:Eo.
  - destruct (callback_text (write_char t c) v (d_carries _ _ _ _ _ Hd)) as (t1 & v1 & -> & Hd1 & E1 & _). exists t1, v1. split; [done|]. split; [rewrite <- (app_nil_r (write_bytes (term t) c)); by apply (delivers_trans _ _ _ _ _ [] _ _ Hd)|].
    rewrite E1. split; [cbn; lia|]. intros H20. apply andb_true_iff in Eo as [_ Eo]. unfold CTL_VALID in Eo. rewrite u8_id in Eo by (destruct Hx; lia). exfalso. destruct Hx; apply orb_true_iff in Eo as [Eo|Eo]; bsimp; lia.
  - exists (write_char t c), v. split; [done|]. split; [done|]. unfold write_bytes in E. rewrite Eo in E. rewrite E, length_app. cbn. split; [lia|done].
Qed.

Lemma output_text cs mode : forall t v len, carries t v -> Forall is_text cs -> zlen (contents (tx_fifo t)) + zlen cs + write_need (term t) <= Fifo.capacity (tx_fifo t) + 1 ->
  exists t' w, output_loop t v cs len mode (write_need (term t)) = Some (t', w, Ret (len + zlen cs, true)) /\ delivers t v (sent (term t) cs) t' w.
Proof.
  induction cs as [|c cs IH]; intros t v len Hc Hf Hz; cbn [output_loop]; [exists t, v; rewrite Z.add_0_r; split; [done|by apply delivers_refl]|]. apply Forall_cons in Hf as [Hx Hf].
  unfold zlen in *. cbn [length] in *. pose proof (wf_tx t (c_wf t v Hc)) as Htx. pose proof (freespace_eq _ Htx) as Efs. rewrite <- length_contents in Efs by done. cbn [room_loop]. rewrite (proj2 (Z.leb_le _ _)) by lia. cbn [mbind option_bind].
  destruct (put_text t v c Hc Hx) as (t1 & v1 & -> & Hd & Hl & _); [lia|]. cbn [mbind option_bind fst snd]. assert (Et : term t1 = term t) by apply (d_frame _ _ _ _ _ Hd). pose proof (d_cap _ _ _ _ _ Hd) as Ec.
  destruct (IH t1 v1 (len + 1) (d_carries _ _ _ _ _ Hd) Hf) as (t2 & v2 & E2 & Hd2); [rewrite Et, Ec; lia|]. rewrite Et in *. exists t2, v2. rewrite E2. split; [do 4 f_equal; lia|].
  by apply (delivers_trans _ _ _ _ _ _ _ _ Hd Hd2).
Qed.

(** There is always room for a character of text, after a wait if need be. *)
Lemma room_text t v mode : carries t v -> has mode O_NONBLOCK = false -> TX_FIFO_NOTFULL_WATERMARK <= Fifo.capacity (tx_fifo t) ->
  exists t' w, room_loop 2 t v mode (write_need (term t)) = Some (t', w, HasRoom) /\ delivers t v [] t' w /\ write_need (term t) <= fifo_freespace (tx_fifo t').
Proof.
  intros Hc Hm Hcap. cbn [room_loop]. case_if; bsimp; [exists t, v; split; [done|]; split; [by apply delivers_refl|done]|]. rewrite (c_open t v Hc), Hm. cbn [orb].
  destruct (callback_text t v Hc) as (t1 & v1 & -> & Hd & E1 & Hp). cbn [mbind option_bind fst snd]. rewrite (Hp Hcap). pose proof (d_carries _ _ _ _ _ Hd) as Hc1.
  assert (Hfree : write_need (term t) <= fifo_freespace (tx_fifo t1)).
  { rewrite freespace_eq, <- length_contents, E1, (d_cap _ _ _ _ _ Hd) by apply Hc1. unfold write_need, LIBTTYDISC_WRITE_OPROC_MAXLEN, TX_FIFO_NOTFULL_WATERMARK in *. cbn. case_if; lia. }
  cbn [tx_fifo Tty.emit]. rewrite (proj2 (Z.leb_le _ _)) by done. exists (Tty.emit t1 EvWaitTx), v1. split; [done|]. split; [|done].
  apply (delivers_trans _ _ [] _ _ [] _ _ Hd). destruct Hc1. constructor; try done. constructor; try done. by destruct c_wf0; split.
Qed.

Lemma output_any cs mode : has mode O_NONBLOCK = false -> forall t v len, carries t v -> Forall is_text cs -> TX_FIFO_NOTFULL_WATERMARK <= Fifo.capacity (tx_fifo t) ->
  exists t' w, output_loop t v cs len mode (write_need (term t)) = Some (t', w, Ret (len + zlen cs, true)) /\ delivers t v (sent (term t) cs) t' w.
Proof.
  intros Hm. induction cs as [|c cs IH]; intros t v len Hc Hf Hcap; cbn [output_loop]; [exists t, v; rewrite Z.add_0_r; split; [done|by apply delivers_refl]|]. apply Forall_cons in Hf as [Hx Hf].
  destruct (room_text t v mode Hc Hm Hcap) as (t0 & v0 & -> & Hd0 & Hr). cbn [mbind option_bind]. assert (E0 : term t0 = term t) by apply (d_frame _ _ _ _ _ Hd0). rewrite <- E0 in *.
  destruct (put_text t0 v0 c (d_carries _ _ _ _ _ Hd0) Hx Hr) as (t1 & v1 & -> & Hd & _). cbn [mbind option_bind fst snd]. assert (Et : term t1 = term t0) by apply (d_frame _ _ _ _ _ Hd).
  destruct (IH t1 v1 (len + 1) (d_carries _ _ _ _ _ Hd) Hf) as (t2 & v2 & E2 & Hd2); [by rewrite (d_cap _ _ _ _ _ Hd), (d_cap _ _ _ _ _ Hd0)|]. rewrite Et in *. exists t2, v2. rewrite E2. unfold zlen. cbn [length]. split; [do 4 f_equal; lia|].
  apply (delivers_trans _ _ [] _ _ _ _ _ Hd0). by apply (delivers_trans _ _ _ _ _ _ _ _ Hd Hd2).
Qed.

(** What [_libtty_write] does after its loop. *)
Lemma write_finish t v cs mode t1 v1 : carries t v -> cs <> [] -> (fifo_is_full (tx_fifo t) = false \/ has mode O_NONBLOCK = false) ->
  output_loop t v cs 0 mode (write_need (term t)) = Some (t1, v1, Ret (0 + zlen cs, true)) -> delivers t v (sent (term t) cs) t1 v1 ->
  exists t' w, ttypc_vt_write t v cs mode = Some (t', w, Ret (Ok (zlen cs))) /\ carries t' w /\ contents (tx_fifo t') = [] /\
    view w = foldl (a_char (setup_of v)) (shown_by t v) (sent (term t) cs).
Proof.
  intros Hc Hne Hnf E1 Hd1. destruct (callback_text t1 v1 (d_carries _ _ _ _ _ Hd1)) as (t2 & v2 & E2 & Hd2 & Ee & _).
  pose proof (delivers_trans _ _ _ _ _ _ _ _ Hd1 Hd2) as [Hc2 _ _ Hs Hv]. assert (Hpos : 0 < zlen cs) by (unfold zlen; destruct cs; [done|]; cbn; lia).
  exists t2, v2. unfold ttypc_vt_write. assert (fifo_is_full (tx_fifo t) && has mode O_NONBLOCK = false) as -> by (destruct Hnf as [-> | ->]; [done|apply andb_false_r]).
  rewrite (c_open t v Hc), (proj2 (Z.eqb_neq (zlen cs) 0)), E1 by lia. cbn [mbind option_bind]. rewrite E2. cbn [mbind option_bind fst snd].
  rewrite (c_open t2 v2 Hc2), (proj2 (Z.eqb_neq (0 + zlen cs) 0)) by lia. split; [done|]. split; [done|]. split; [done|]. unfold shown_by in Hv at 1. rewrite Ee, app_nil_r in Hv. done.
Qed.
End text.

(** C19: what is written is shown. A program's text for which the transmit buffer has room is written in full, whether the write
    may wait or not: afterwards the transmit buffer is empty, and the screen is that of the terminal of lines after the output
    that was on its way and the bytes output processing makes of the text. *)
Theorem vt_write_shows `{Abi} `{CS : CharSign} t v cs mode : carries t v -> Forall is_text cs -> cs <> [] ->
  zlen (contents (tx_fifo t)) + zlen cs + write_need (term t) <= Fifo.capacity (tx_fifo t) + 1 ->
  exists t' w, ttypc_vt_write t v cs mode = Some (t', w, Ret (Ok (zlen cs))) /\ carries t' w /\ contents (tx_fifo t') = [] /\
    view w = foldl (a_char (setup_of v)) (shown_by t v) (sent (term t) cs).
Proof.
  intros Hc Hf Hne Hz. destruct (output_text cs mode t v 0 Hc Hf Hz) as (t1 & v1 & E1 & Hd1). apply (write_finish t v cs mode t1 v1 Hc Hne); [left|done|done].
  apply not_full_spec; [apply Hc|]. unfold zlen, write_need, LIBTTYDISC_WRITE_OPROC_MAXLEN in *. destruct cs; [done|]. cbn in Hz. case_if; lia.
Qed.

(** C32: a write that may wait ends, however long its text is. When the transmit buffer, of at least the watermark's size, has no room, the driver's
    callback empties it onto the screen and signals the writer, and the signal is still pending when the writer waits: the text is written
    in full, the transmit buffer is empty afterwards, and the screen is that of the terminal of lines after the output that was on its way and the
    bytes output processing makes of the text. No other writer waits meanwhile. *)
Theorem vt_write_completes `{Abi} `{CS : CharSign} t v cs mode : carries t v -> Forall is_text cs -> cs <> [] -> has mode O_NONBLOCK = false ->
  TX_FIFO_NOTFULL_WATERMARK <= Fifo.capacity (tx_fifo t) ->
  exists t' w, ttypc_vt_write t v cs mode = Some (t', w, Ret (Ok (zlen cs))) /\ carries t' w /\ contents (tx_fifo t') = [] /\
    view w = foldl (a_char (setup_of v)) (shown_by t v) (sent (term t) cs).
Proof.
  intros Hc Hf Hne Hm Hcap. destruct (output_any cs mode Hm t v 0 Hc Hf Hcap) as (t1 & v1 & E1 & Hd1). apply (write_finish t v cs mode t1 v1 Hc Hne); [by right|done|done].
Qed.
End VtTty.
