(* ===== verification/VtWitness.v ===== *)
(** * PC virtual terminal: concrete terminals

    A terminal on a small display, after a text that scrolls, and with the cursor at home;
    the theorems on the terminal at them. *)

From S2P Require Import Prelude Fifo Termios Tty TtyDisc TtyInput TtyOutput Vt VtCells VtSafe VtCorrect VtText VtView VtSeq VtTty.
From Stdlib Require Import Ascii.

Module VtWitness.
Import Termios Vt VtCells VtSafe VtCorrect VtText VtView VtSeq VtTty.

#[local] Instance signed_char : CharSign := true.

(** A display of three lines of four cells. *)
Definition display : vt := set_active true (_ttypc_vtf_str (set_rows 3 (set_cols 4 (set_dpos (-1) (vt_zero true 1 24))))).

Lemma display_plain : plain display.
Proof.
  constructor; [|done|done]. constructor; try done; [apply standard_sets|apply zero_parms].
Qed.

(** A result, which is known to be there. *)
Definition got (r : option vt) : vt := default display r.

Lemma got_ok r P : ok r P -> r = Some (got r) /\ P (got r).
Proof. by destruct r. Qed.

(** The parts of the state that the theorems ask about. *)
Record known (v : vt) (ro co cr bo hi at_ cc : Z) (ac cs ir s o : bool) : Prop := {
  n_rows : rows v = ro; n_cols : cols v = co; n_crow : crow v = cr; n_bottom : bottom v = bo; n_hist : scrbsz v = hi; n_attr : attr v = at_; n_ccol : ccol v = cc;
  n_active : active v = ac; n_cst : cst v = cs; n_irm : irm v = ir; n_ss : ss v = s; n_om : om v = o
}.
Definition facts (v : vt) : list Z * list bool := ([rows v; cols v; crow v; bottom v; scrbsz v; attr v; ccol v], [active v; cst v; irm v; ss v; om v]).

Lemma facts_known v ro co cr bo hi at_ cc ac cs ir s o : facts v = ([ro; co; cr; bo; hi; at_; cc], [ac; cs; ir; s; o]) -> known v ro co cr bo hi at_ cc ac cs ir s o.
Proof. intros E. injection E. intros. by constructor. Qed.

Lemma display_known : known display 3 4 0 2 0 0x700 0 true true false false false.
Proof. apply facts_known. vm_compute. reflexivity. Qed.

(** Seven lines further. *)
Definition feeds : list Z := replicate 7 10.
Definition scrolled : vt := got (sputs feeds display).

Lemma feeds_text : Forall (fun b => to_char b <> 0x1b) feeds.
Proof. by apply Forall_replicate. Qed.

Lemma scrolled_plain : sputs feeds display = Some scrolled /\ plain scrolled.
Proof.
  pose proof display_plain as Hd. apply got_ok. destruct (sputs_calm feeds display Hd (text_calm feeds display Hd eq_refl feeds_text)) as (w & -> & Hw). done.
Qed.

Lemma scrolled_known : known scrolled 3 4 2 2 5 0x700 0 true true false false false.
Proof. apply facts_known. vm_compute. reflexivity. Qed.

(** The cursor back at home. *)
Definition home_seq : list Z := [27; 91] ++ dec 1 ++ [59] ++ dec 1 ++ [72].
Definition home : vt := got (sputs home_seq scrolled).

Lemma home_seq_ok v : plain v -> crow v <= bottom v -> om v = false -> ok (sputs home_seq v) plain.
Proof.
  intros Hv Hr Ho. destruct (k_margins v (p_core v Hv)). destruct (cells_bound v (k_geo v (p_core v Hv))) as (_ & _ & ? & _).
  destruct (cup_seq v 1 1 Hv Hr Ho ltac:(lia) ltac:(lia)) as (ps & es & d & E & _ & Hd & Hp). unfold home_seq. rewrite E. apply placed_plain; try done; lia.
Qed.

Lemma home_plain : plain home.
Proof.
  destruct scrolled_plain as [_ Hs]. destruct scrolled_known as [_ _ Ecr Eb _ _ _ _ _ _ _ Eo]. refine (proj2 (got_ok _ _ (home_seq_ok scrolled Hs _ Eo))). rewrite Ecr, Eb. done.
Qed.

Lemma home_known : known home 3 4 0 2 5 0x700 0 true true false false false.
Proof. apply facts_known. vm_compute. reflexivity. Qed.

Lemma display_escst : escst display = ESC_INIT.
Proof. reflexivity. Qed.

Opaque display scrolled home.

(** [A] outside escape sequences is safe; the final [D] with the cursor in the first column is not. *)
Lemma vt_sput_safe_iff_witness : exists w, _ttypc_vt_sput 65 display = Some w /\ plain w.
Proof.
  apply (vt_sput_safe_iff 65 display display_plain); [lia|reflexivity].
Defined.

Lemma vt_stream_safe_witness : exists v0 v, ttypc_vt_init true 1 4096 = Some v0 /\ start_display (replicate 2048 0) 0 v0 = Some v /\ exists w, sputs feeds v = Some w /\ plain w.
Proof.
  destruct (vt_stream_safe true 1 4096 (replicate 2048 0) 0 feeds) as (v0 & v & E0 & E & Hv & Hc & Ht); [lia|unfold zlen; rewrite length_replicate; lia|lia|]. exists v0, v. split; [exact E0|]. split; [exact E|]. exact (Hc (Ht feeds_text)).
Defined.

Lemma known_ready v ro co cr bo hi at_ cc ac cs o : plain v -> escst v = ESC_INIT -> known v ro co cr bo hi at_ cc ac cs false false o -> cr <= bo -> ready v.
Proof. intros Hv He [] Hr. constructor; try done. lia. Qed.

Lemma display_ready : ready display.
Proof. exact (known_ready _ _ _ _ _ _ _ _ _ _ _ display_plain display_escst display_known ltac:(lia)). Qed.

(** The text [Hi], and a new line. *)
Lemma vt_text_refines_witness : exists w, sputs [72; 105; 13; 10] display = Some w /\ ready w /\ view w = foldl (a_char (setup_of display)) (view display) [72; 105; 13; 10].
Proof. apply (vt_text_refines [72; 105; 13; 10] display display_ready). repeat constructor; unfold is_text; lia. Defined.

(** The memory of the display has 12 cells: the cursor at home can be shifted by two lines, the one on the last line
    by none. *)
Lemma home_shown : all_shown home 0 [1; 1; -1] = true /\ all_shown scrolled 0 [1] = false /\ zlen (vram scrolled) <= 2 ^ 15.
Proof. vm_compute. repeat split. discriminate. Qed.

(** One line back, one more, one forth; and the cursor below the memory. *)
Lemma vt_scrollback_view_witness :
  (exists w, scrolls [1; 1; -1] home = Some w /\ lines w = window home (window_at home [1; 1; -1])) /\ scrolls [1] scrolled = None.
Proof.
  destruct home_shown as (H1 & H2 & H3). split.
  - destruct (vt_scrollback_view home [1; 1; -1] home_plain) as [H _]. destruct (H H1) as (w & E & El & _). exact (ex_intro _ w (conj E El)).
  - exact (proj2 (vt_scrollback_view scrolled [1] (proj2 scrolled_plain)) H3 H2).
Defined.

(** The cursor of [scrolled] is reported and put back. *)
Lemma vt_cursor_report_witness : exists w, sputs ([27; 91] ++ position scrolled ++ [72]) home = Some w /\ crow w = 2.
Proof.
  destruct scrolled_known as [_ Ec Ecr Eb _ _ Ecc _ _ _ _ _]. destruct home_known as [_ Ec' Ecr' Eb' _ _ _ _ _ _ _ Eo'].
  assert (H : crow scrolled <= bottom scrolled /\ crow scrolled < 99 /\ ccol scrolled < 99 /\ crow home <= bottom home /\ crow scrolled <= bottom home) by (rewrite Ecr, Eb, Ecc, Ecr', Eb'; lia). destruct H as (H1 & H2 & H3 & H4 & H5).
  destruct (vt_cursor_report scrolled home (proj2 scrolled_plain) H1 H2 H3 home_plain H4 Eo' (eq_trans Ec' (eq_sym Ec)) H5) as [_ (w & E & _ & _ & _ & Hw & _)].
  exists w. split; [exact E|]. rewrite Hw, Ecr. reflexivity.
Defined.

Lemma vt_save_restore_witness : exists w, sputs ([27; 55] ++ feeds ++ [27; 56]) display = Some w /\ crow w = 0 /\ attr w = 0.
Proof.
  destruct display_known as [_ _ Er Eb _ Ea _ _ _ _ _ _].
  assert (Hr : crow display <= bottom display) by (rewrite Er, Eb; lia). destruct (vt_save_restore display feeds display_plain Hr feeds_text) as (w & E & _ & _ & Hc & _ & _ & _ & _ & Ha & _).
  exists w. split; [exact E|]. rewrite Hc, Ha, Er, Ea. split; reflexivity.
Defined.

(** The display behind a line discipline with buffers of 16 bytes. *)
Lemma demo_carries : carries (TtyInput.demo_tty 16) display.
Proof. constructor; [apply TtyInput.demo_tty_wf; set_solver|apply display_ready|vm_compute; constructor|vm_compute; reflexivity|vm_compute; reflexivity]. Qed.

Lemma vt_write_shows_witness : exists t w, ttypc_vt_write (TtyInput.demo_tty 16) display [72; 105; 10] 0 = Some (t, w, Tty.Ret (Ok 3)) /\
  view w = foldl (a_char (setup_of display)) (view display) [72; 105; 13; 10].
Proof.
  destruct (vt_write_shows (TtyInput.demo_tty 16) display [72; 105; 10] 0 demo_carries) as (t & w & E & _ & _ & Hv); [repeat constructor; unfold is_text; lia|discriminate|vm_compute; discriminate|].
  exists t, w. split; [exact E|exact Hv].
Defined.

(** Seventy characters through a transmit buffer of 64 bytes. *)
Lemma vt_write_completes_witness : exists t w, ttypc_vt_write (TtyInput.demo_tty 64) display (replicate 70 65) 0 = Some (t, w, Tty.Ret (Ok 70)) /\
  Fifo.contents (Tty.tx_fifo t) = [] /\ view w = foldl (a_char (setup_of display)) (view display) (replicate 70 65).
Proof.
  destruct (vt_write_completes (TtyInput.demo_tty 64) display (replicate 70 65) 0) as (t & w & E & _ & He & Hv);
    [constructor; [apply TtyInput.demo_tty_wf; set_solver|apply display_ready|vm_compute; constructor|vm_compute; reflexivity|vm_compute; reflexivity]
    |apply Forall_replicate; unfold is_text; lia|discriminate|vm_compute; reflexivity|vm_compute; discriminate|].
  exists t, w. split; [exact E|]. split; [exact He|exact Hv].
Defined.
End VtWitness.
