(* ===== verification/ErrState.v ===== *)
(** * Sequences that end with the first error

    C code that returns at the first negative result, on a state of type [S]: an operation
    that fails returns the state as it stands then. *)

From S2P Require Import Prelude.

Module ErrState.
Definition M (S A : Type) : Type := S -> S * cres A.
#[export] Instance M_ret S : MRet (M S) := fun A a s => (s, Ok a).
#[export] Instance M_bind S : MBind (M S) := fun A B k m s => match m s with (s, Ok a) => k a s | (s, Err e) => (s, Err e) end.

Definition fail {S A} (e : errno) : M S A := fun s => (s, Err e).
Definition get {S A} (f : S -> A) : M S A := fun s => (s, Ok (f s)).
Definition modify {S} (f : S -> S) : M S unit := fun s => (f s, Ok tt).
End ErrState.
