(* ===== verification/ByteArray.v ===== *)
(** * An array of bytes

    What a flash driver promises to those above it: reads, writes and syncs of an array of
    bytes. A driver implements it when each operation, performed in a state with the
    driver's invariant, answers and changes as the array does. *)

From S2P Require Import Prelude Slices.

Module ByteArray.
Import Slices.

Inductive op := Write (a : Z) (xs : list Z) | Read (a n : Z) | Sync.
Inductive answer := Count (n : Z) | Data (l : list Z) | Failed (e : errno).

Definition on_bytes (o : op) (l : list Z) : list Z * answer :=
  match o with
  | Write a xs => (patch l a xs, Count (zlen xs))
  | Read a n => (l, Data (slice l a n))
  | Sync => (l, Count 0)
  end.
Fixpoint bytes_session (os : list op) (l : list Z) : list Z * list answer :=
  match os with [] => (l, []) | o :: os => let '(l, r) := on_bytes o l in let '(l, rs) := bytes_session os l in (l, r :: rs) end.

(** The answer to an operation that may fail. *)
Definition result {S A} (f : A -> answer) (r : S * cres A) : S * answer := (r.1, match r.2 with Ok a => f a | Err e => Failed e end).

Section simulation.
Context {S : Type} (perform : op -> S -> S * answer).

Fixpoint session (os : list op) (s : S) : S * list answer :=
  match os with [] => (s, []) | o :: os => let '(s, r) := perform o s in let '(s, rs) := session os s in (s, r :: rs) end.

(** Operations that are sound on the array before them. *)
Context (sound : op -> list Z -> Prop).
Fixpoint all_sound (os : list op) (l : list Z) : Prop := match os with [] => True | o :: os => sound o l /\ all_sound os (on_bytes o l).1 end.

Context (inv : S -> Prop) (abs : S -> list Z).
Hypothesis step : forall o s, inv s -> sound o (abs s) -> exists s', perform o s = (s', (on_bytes o (abs s)).2) /\ inv s' /\ abs s' = (on_bytes o (abs s)).1.

Lemma session_refines os : forall s, inv s -> all_sound os (abs s) ->
  exists s', session os s = (s', (bytes_session os (abs s)).2) /\ inv s' /\ abs s' = (bytes_session os (abs s)).1.
Proof.
  induction os as [|o os IH]; intros s Hs Ho; [by exists s|]. destruct Ho as [Ho Hos]. destruct (step o s Hs Ho) as (s1 & E1 & Hs1 & Ha1). cbn [session bytes_session]. rewrite E1. rewrite <- Ha1 in Hos.
  destruct (IH s1 Hs1 Hos) as (s2 & E2 & Hs2 & Ha2). destruct (on_bytes o (abs s)) as [l r]. cbn [fst snd] in *. subst l. rewrite E2. destruct (bytes_session os (abs s1)) as [l rs]. by exists s2.
Qed.
End simulation.
End ByteArray.
