(* ===== verification/Nor.v ===== *)
(** * NOR flash chips

    What the flash drivers need of the chip and the controller below them: the class [Nor] has
    the four operations of [nor.c] (reading, programming within a page, erasing a sector,
    erasing the chip), the class [NorLaws] what data sheets promise of a chip that works:
    programming clears bits, erasing sets them, reading returns what is stored, up to a limit
    of bytes per read (the i.MX RT controller serves longer reads through a cache, see
    [NorChip.v]). [ideal] is a chip that satisfies the laws. *)

From S2P Require Import Prelude Slices.

Module Nor.
Import Slices.

Class Nor := {
  chip : Type;
  (** The bytes that reach the destination, and the result. *)
  nor_readData : chip -> Z -> Z -> chip * list Z * cres Z;
  nor_pageProgram : chip -> Z -> list Z -> chip * cres Z;
  nor_eraseSector : chip -> Z -> chip * cres Z;
  nor_eraseChip : chip -> chip * cres Z;
}.

Definition NOR_ERASED_STATE : Z := 0xff.

(** Bytes of an erased chip, and what programming leaves. *)
Definition erased (n : Z) : list Z := replicate (Z.to_nat n) NOR_ERASED_STATE.
Definition programmed (old xs : list Z) : list Z := zip_with Z.land old xs.

(** Sizes that chips have: powers of two, pages within sectors, sectors within the chip; addresses of 32 bits. *)
Record sizes (size page sector : Z) : Prop := {
  s_page : exists j, 0 <= j /\ page = 2 ^ j;
  s_sector : exists k, 0 < k /\ sector = 2 ^ k;
  s_pages : (page | sector);
  s_sectors : (sector | size);
  s_size : sector <= size <= 2 ^ 31;
}.

(** Reads of up to [lim] bytes return what is stored. *)
Class NorLaws (N : Nor) (size page sector lim : Z) := {
  bytes : chip -> list Z;
  healthy : chip -> Prop;
  nor_sizes : sizes size page sector;
  sector_lim : sector <= lim;
  bytes_size c : healthy c -> zlen (bytes c) = size;
  bytes_byte c : healthy c -> Forall is_byte (bytes c);
  read_law c a n : healthy c -> 0 <= a -> 0 <= n <= lim -> a + n <= size ->
    exists c', nor_readData c a n = (c', slice (bytes c) a n, Ok n) /\ healthy c' /\ bytes c' = bytes c;
  program_law c a xs : healthy c -> 0 <= a -> a + zlen xs <= size -> a mod page + zlen xs <= page -> Forall is_byte xs ->
    exists c' r, nor_pageProgram c a xs = (c', Ok r) /\ healthy c' /\ bytes c' = patch (bytes c) a (programmed (slice (bytes c) a (zlen xs)) xs);
  erase_law c a : healthy c -> 0 <= a < size -> a mod sector = 0 ->
    exists c' r, nor_eraseSector c a = (c', Ok r) /\ healthy c' /\ bytes c' = patch (bytes c) a (erased sector);
  erase_all_law c : healthy c -> exists c' r, nor_eraseChip c = (c', Ok r) /\ healthy c' /\ bytes c' = erased size;
}.

(** ** Lemmas *)

Lemma zlen_erased n : 0 <= n -> zlen (erased n) = n.
Proof. intros. unfold zlen, erased. rewrite length_replicate. lia. Qed.

Lemma erased_byte n : Forall is_byte (erased n).
Proof. apply Forall_replicate. unfold is_byte, NOR_ERASED_STATE. lia. Qed.

Lemma byte_ones x : is_byte x -> Z.land 255 x = x.
Proof. intros Hx. rewrite Z.land_comm. change 255 with (2 ^ 8 - 1). rewrite land_mask by lia. apply Z.mod_small. apply Hx. Qed.

(** Programming erased bytes stores the data. *)
Lemma programmed_erased xs : Forall is_byte xs -> programmed (erased (zlen xs)) xs = xs.
Proof.
  unfold programmed, erased, zlen. rewrite Nat2Z.id. induction 1 as [|x xs Hx _ IH]; [done|]. cbn. by rewrite IH, byte_ones.
Qed.

Lemma erased_eq l : Forall (fun x => x = NOR_ERASED_STATE) l -> l = erased (zlen l).
Proof.
  intros Hf. unfold erased, zlen. rewrite Nat2Z.id. induction Hf as [|x l -> _ IH]; [done|]. cbn. by rewrite <- IH.
Qed.

Lemma slice_erased n a m : 0 <= a -> 0 <= m -> a + m <= n -> slice (erased n) a m = erased m.
Proof.
  intros. unfold slice, span, erased. rewrite drop_replicate, take_replicate. f_equal. lia.
Qed.

Lemma zlen_programmed old xs : zlen old = zlen xs -> zlen (programmed old xs) = zlen xs.
Proof. unfold zlen, programmed. rewrite length_zip_with. lia. Qed.

Lemma programmed_byte old xs : Forall is_byte xs -> Forall is_byte (programmed old xs).
Proof.
  intros Hx. revert old. induction Hx as [|x xs Hx _ IH]; intros [|o old]; cbn; try constructor; auto. pose proof (land_range o x 8 ltac:(lia) Hx). unfold is_byte. lia.
Qed.

Lemma slice_byte l a n : Forall is_byte l -> Forall is_byte (slice l a n).
Proof. intros. unfold slice, span. by apply Forall_take, Forall_drop. Qed.

Lemma patch_byte l a xs : Forall is_byte l -> Forall is_byte xs -> Forall is_byte (patch l a xs).
Proof. intros. unfold patch, splice. apply Forall_app; split; [by apply Forall_take|]. apply Forall_app; split; [done|by apply Forall_drop]. Qed.

(** ** A chip *)

#[export] Instance ideal (size sector : Z) : Nor := {|
  chip := list Z;
  nor_readData l a n := (l, slice l a n, Ok n);
  nor_pageProgram l a xs := (patch l a (programmed (slice l a (zlen xs)) xs), Ok 0);
  nor_eraseSector l a := (patch l a (erased sector), Ok 0);
  nor_eraseChip l := (erased size, Ok 0);
|}.

#[export, refine] Instance ideal_laws size page sector lim (H : sizes size page sector) (Hlim : sector <= lim) : NorLaws (ideal size sector) size page sector lim := {|
  bytes := fun l : @chip (ideal size sector) => (l : list Z);
  healthy := fun l : @chip (ideal size sector) => zlen (l : list Z) = size /\ Forall is_byte (l : list Z);
|}.
Proof.
  - done.
  - done.
  - by intros c [].
  - by intros c [].
  - intros c a n Hc _ _ _. by exists c.
  - intros c a xs [Hl Hb] Ha Hs _ Hx. cbn. eexists _, _. split; [done|]. split; [|done]. pose proof (zlen_nonneg xs).
    split; [rewrite zlen_patch; [done|lia|rewrite zlen_programmed; [lia|rewrite zlen_slice; lia]]|]. apply patch_byte; [done|by apply programmed_byte].
  - intros c a [Hl Hb] Ha Hm. cbn. eexists _, _. split; [done|]. split; [|done]. destruct H as [_ (k & ? & Hk) _ [q Hq] ?].
    assert (a + sector <= size). { assert (a = a / sector * sector) by (pose proof (Z.div_mod a sector ltac:(lia)); lia). assert (a / sector < q) by nia. nia. }
    split; [|by apply patch_byte, erased_byte]. rewrite zlen_patch; [done|lia|]. rewrite zlen_erased; lia.
  - intros c _. cbn. eexists _, _. split; [done|]. split; [|done]. destruct H as [_ (k & ? & Hk) _ _ ?]. split; [apply zlen_erased; lia|apply erased_byte].
Defined.
End Nor.
