(* ===== verification/Sectors.v ===== *)
(** * Sectors and pages of a chip

    The arithmetic of the addresses of a chip: sizes are powers of two, a sector begins at a
    multiple of its size. *)

From S2P Require Import Prelude Slices Nor.

Module Sectors.
Import Slices Nor.

Lemma land_high a k : 0 <= k <= 32 -> 0 <= a < 2 ^ 32 -> a &&& lnot_w 32 (2 ^ k - 1) = a / 2 ^ k * 2 ^ k.
Proof.
  intros Hk Ha. unfold lnot_w. rewrite <- Z.shiftr_div_pow2, <- Z.shiftl_mul_pow2 by lia. apply Z.bits_inj'. intros n Hn.
  rewrite Z.land_spec, Z.lxor_spec. replace (2 ^ k - 1) with (Z.ones k) by (rewrite Z.ones_equiv; lia). change (2 ^ 32 - 1) with (Z.ones 32).
  rewrite !Z.testbit_ones_nonneg by lia. rewrite Z.shiftl_spec by done. destruct (Z.ltb_spec n k).
  - rewrite (proj2 (Z.ltb_lt n 32)) by lia. cbn. rewrite andb_false_r. symmetry. apply Z.testbit_neg_r. lia.
  - rewrite Z.shiftr_spec by lia. replace (n - k + k) with n by lia. destruct (Z.ltb_spec n 32); cbn; [by rewrite andb_true_r|].
    rewrite andb_false_r. symmetry. apply (Z.bits_above_log2 a n); [lia|]. destruct (decide (a = 0)) as [->|]; [cbn; lia|].
    apply Z.lt_le_trans with 32; [|done]. apply Z.log2_lt_pow2; lia.
Qed.

Section sectors.
Context {N : Nor} {sz pg sc lim : Z} {L : NorLaws N sz pg sc lim}.

(** The start of a sector. *)
Definition base (a : Z) : Z := a / sc * sc.

Lemma geo : 0 < pg /\ 1 < sc /\ pg <= sc /\ sc <= sz <= 2 ^ 31 /\ (exists q, 0 < q /\ sc = q * pg) /\ exists q, 0 < q /\ sz = q * sc.
Proof.
  destruct nor_sizes as [(j & Hj & ->) (k & Hk & ->) [q Hq] [r Hr] Hs]. assert (0 < 2 ^ j) by (apply Z.pow_pos_nonneg; lia). assert (1 < 2 ^ k) by (apply Z.pow_gt_1; lia).
  split; [done|]. split; [done|]. split; [apply Z.divide_pos_le; [lia|by exists q]|]. split; [done|]. split; [exists q; nia|exists r; nia].
Qed.

Lemma base_range a : 0 <= a < sz -> 0 <= base a /\ base a <= a < base a + sc /\ base a + sc <= sz /\ base a mod sc = 0.
Proof.
  intros Ha. destruct geo as (_ & Hsc & _ & _ & _ & q & Hq & Es). unfold base. pose proof (Z.div_mod a sc ltac:(lia)). pose proof (Z.mod_pos_bound a sc ltac:(lia)).
  assert (0 <= a / sc) by (apply Z.div_pos; lia). assert (a / sc < q) by (apply Z.div_lt_upper_bound; lia). split; [nia|]. split; [nia|]. split; [nia|]. apply Z_mod_mult.
Qed.

Lemma base_same a b : 0 <= b -> base a <= b < base a + sc -> base b = base a.
Proof.
  intros Hb H. destruct geo as (_ & Hsc & _). unfold base in *. f_equal. symmetry. apply (Z.div_unique b sc (a / sc) (b - a / sc * sc)); lia.
Qed.

Lemma base_mod a : base (base a) = base a.
Proof. unfold base. destruct geo as (_ & ? & _). by rewrite Z.div_mul by lia. Qed.

Lemma offset_mod a : 0 <= a -> a &&& (sc - 1) = a - base a.
Proof. intros. destruct nor_sizes as [_ (k & Hk & Ek) _ _ _]. unfold base. rewrite Ek, land_mask by lia. pose proof (Z.div_mod a (2 ^ k)). lia. Qed.

Lemma base_aligned a : a mod sc = 0 -> base a = a.
Proof. intros Hm. destruct geo as (_ & ? & _). unfold base. pose proof (Z.div_mod a sc ltac:(lia)). lia. Qed.

Lemma sectors_apart a b : a mod sc = 0 -> b mod sc = 0 -> a <> b -> a + sc <= b \/ b + sc <= a.
Proof.
  intros Ha Hb Hne. destruct geo as (_ & Hsc & _). apply Z.mod_divide in Ha as [i ->]; [|lia]. apply Z.mod_divide in Hb as [j ->]; [|lia]. assert (i < j \/ j < i) as [|] by nia; nia.
Qed.

Lemma sector_mask a : 0 <= a < 2 ^ 32 -> a &&& lnot_w 32 (sc - 1) = base a.
Proof.
  intros Ha. unfold base. destruct nor_sizes as [_ (k & Hk & Ek) _ _ Hs]. rewrite Ek. apply land_high; [|done].
  assert (H : 2 ^ k <= 2 ^ 31) by lia. apply Z.pow_le_mono_r_iff in H; lia.
Qed.
End sectors.
End Sectors.
