(* ===== verification/FlashRt.v ===== *)
(** * i.MX RT flash driver ([src/storage/imxrt-flash/flashdrv.c])

    The driver keeps one sector of the chip in a write-back buffer. Its operations are
    functions of the context [flash_context_t]; an operation that fails returns the context
    as it stands then. Addresses and sizes are [uint32_t]. *)

From S2P Require Import Prelude Slices ErrState Nor.

Module FlashRt.
Import Slices ErrState Nor.

Section driver.
Context {N : Nor}.

Record flash_context := mk_ctx {
  size : Z; page_size : Z; sector_size : Z;   (* flash_properties_t *)
  isDirty : bool; prevAddr : Z; buff : list Z; dev : chip
}.

Definition set_dirty (x : bool) (c : flash_context) : flash_context := mk_ctx (size c) (page_size c) (sector_size c) x (prevAddr c) (buff c) (dev c).
Definition set_prev (x : Z) (c : flash_context) : flash_context := mk_ctx (size c) (page_size c) (sector_size c) (isDirty c) x (buff c) (dev c).
Definition set_buff (x : list Z) (c : flash_context) : flash_context := mk_ctx (size c) (page_size c) (sector_size c) (isDirty c) (prevAddr c) x (dev c).
Definition set_dev (x : chip) (c : flash_context) : flash_context := mk_ctx (size c) (page_size c) (sector_size c) (isDirty c) (prevAddr c) (buff c) x.

(** [(uint32_t)-1] *)
Definition NONE : Z := 2 ^ 32 - 1.

Local Notation M := (ErrState.M flash_context).

(** The chip's operations. *)
Definition dev_read (a n : Z) : M (list Z) := fun c =>
  match nor_readData (dev c) a n with (d, l, Ok _) => (set_dev d c, Ok l) | (d, _, Err e) => (set_dev d c, Err e) end.
Definition dev_program (a : Z) (xs : list Z) : M Z := fun c => let '(d, r) := nor_pageProgram (dev c) a xs in (set_dev d c, r).
Definition dev_erase (a : Z) : M Z := fun c => let '(d, r) := nor_eraseSector (dev c) a in (set_dev d c, r).
Definition dev_eraseChip : M Z := fun c => let '(d, r) := nor_eraseChip (dev c) in (set_dev d c, r).

(** Reading into the buffer: what has arrived stays there, also after an error. *)
Definition dev_load (a n : Z) : M Z := fun c =>
  let '(d, l, r) := nor_readData (dev c) a n in (set_dev d (set_buff (patch (buff c) 0 l) c), r).

(** ** Addresses *)

Definition get_sectorIdFromAddress (c : flash_context) (addr : Z) : Z := addr / sector_size c.
Definition get_sectorAddress (c : flash_context) (addr : Z) : Z := addr &&& lnot_w 32 (sector_size c - 1).
(** Whether the C function returns 0. *)
Definition flash_isValidAddress (c : flash_context) (addr n : Z) : bool := u32 (addr + n) <=? size c.

(** ** Direct access *)

Definition flash_directRead (offset n : Z) : M (list Z) :=
  ok ← get (fun c => flash_isValidAddress c offset n);
  if ok : bool then dev_read offset n else fail EPERM.

(** The number of bytes bounds the number of chunks. *)
Fixpoint program_chunks (fuel : nat) (offset : Z) (xs : list Z) : M unit :=
  match fuel, xs with
  | S fuel, _ :: _ =>
      page ← get page_size;
      let chunk := Z.min (page - (offset &&& (page - 1))) (zlen xs) in
      _ ← dev_program offset (take (Z.to_nat chunk) xs);
      program_chunks fuel (u32 (offset + chunk)) (drop (Z.to_nat chunk) xs)
  | _, _ => mret tt
  end.
Definition flash_directWrite (offset : Z) (xs : list Z) : M Z :=
  _ ← program_chunks (length xs) offset xs; mret (zlen xs).

(** ** The buffer *)

Definition is_erased (l : list Z) : bool := forallb (fun x => x =? NOR_ERASED_STATE) l.

(** The pages of the buffer from [ofs] on, [n] of them. *)
Fixpoint program_pages (n : nat) (sectorAddr ofs : Z) : M unit :=
  match n with
  | O => mret tt
  | S n =>
      page ← get page_size;
      xs ← get (fun c => slice (buff c) ofs page);
      _ ← (if is_erased xs then mret 0 else dev_program (u32 (sectorAddr + ofs)) xs);
      program_pages n sectorAddr (ofs + page)
  end.

Definition flash_sync : M Z :=
  skip ← get (fun c => (prevAddr c =? NONE) || negb (isDirty c));
  if skip : bool then mret 0
  else
    sectorAddr ← get (fun c => get_sectorAddress c (prevAddr c));
    blank ← get (fun c => is_erased (slice (buff c) 0 (sector_size c)));
    _ ← (if blank : bool then mret 0 else dev_erase sectorAddr);
    n ← get (fun c => (sector_size c + page_size c - 1) / page_size c);
    _ ← program_pages (Z.to_nat n) sectorAddr 0;
    _ ← modify (set_dirty false);
    mret 0.

Definition bufferSync (dstAddr : Z) (isLast : bool) : M Z :=
  same ← get (fun c => get_sectorIdFromAddress c dstAddr =? get_sectorIdFromAddress c (prevAddr c));
  if same : bool then mret 0
  else
    res ← flash_sync;
    _ ← modify (fun c => if sector_size c <=? dstAddr then set_prev NONE c else c);
    if isLast then mret res
    else
      over ← get (fun c => size c <? u32 (dstAddr + sector_size c));
      if over : bool then fail EIO
      else
        src ← get (fun c => get_sectorAddress c dstAddr);
        n ← get sector_size;
        res ← dev_load src n;
        _ ← modify (set_prev dstAddr);
        mret res.

Definition flash_bufferedRead (srcAddr n : Z) : M (list Z) :=
  direct ← get (fun c => (prevAddr c =? NONE) || negb (isDirty c));
  if direct : bool then flash_directRead srcAddr n
  else
    bufSize ← get sector_size;
    bufAddr ← get (fun c => prevAddr c &&& lnot_w 32 (bufSize - 1));
    let bufEndAddr := u32 (bufAddr + bufSize) in
    let srcEnd := u32 (srcAddr + n) in
    if (bufEndAddr <=? srcAddr) || (srcEnd <=? bufAddr) then flash_directRead srcAddr n
    else
      let overlapStart := if bufAddr <? srcAddr then srcAddr else bufAddr in
      let overlapEnd := if srcEnd <? bufEndAddr then srcEnd else bufEndAddr in
      let overlapSize := u32 (overlapEnd - overlapStart) in
      front ← (if srcAddr <? bufAddr then flash_directRead srcAddr (u32 (bufAddr - srcAddr)) else mret []);
      mid ← get (fun c => slice (buff c) (overlapStart - bufAddr) overlapSize);
      back ← (if bufEndAddr <? srcEnd then flash_directRead bufEndAddr (u32 (srcEnd - bufEndAddr)) else mret []);
      mret (front ++ mid ++ back).

(** The number of bytes bounds the number of chunks. *)
Fixpoint write_chunks (fuel : nat) (dstAddr : Z) (xs : list Z) : M Z :=
  match fuel, xs with
  | S fuel, _ :: _ =>
      _ ← bufferSync dstAddr false;
      sector ← get sector_size;
      let ofs := dstAddr &&& (sector - 1) in
      let chunkSz := if sector - ofs <? zlen xs then sector - ofs else zlen xs in
      _ ← modify (fun c => set_dirty true (set_buff (patch (buff c) ofs (take (Z.to_nat chunkSz) xs)) c));
      write_chunks fuel (u32 (dstAddr + chunkSz)) (drop (Z.to_nat chunkSz) xs)
  | _, _ => mret dstAddr
  end.

Definition flash_bufferedWrite (dstAddr : Z) (xs : list Z) : M Z :=
  ok ← get (fun c => flash_isValidAddress c dstAddr (zlen xs));
  if ok : bool then
    dst ← write_chunks (length xs) dstAddr xs;
    _ ← (if 0 <? zlen xs then bufferSync dst true else mret 0);
    mret (zlen xs)
  else fail EPERM.

(** ** Erasing *)

Definition flash_chipErase : M Z := dev_eraseChip.
Definition flash_sectorErase (offset : Z) : M Z := a ← get (fun c => get_sectorAddress c offset); dev_erase a.

(** ** Life of a context *)

(** [flash_init], from the probe on: the chip found (total, page and sector size) and whether the buffer was allocated. *)
Definition flash_init (probe : cres (Z * Z * Z)) (allocated : bool) (d : chip) : cres flash_context :=
  match probe with
  | Err e => Err e
  | Ok (total, page, sector) => if allocated then Ok (mk_ctx total page sector false NONE (erased sector) d) else Err ENOMEM
  end.

(** [flash_contextDestroy]: the chip that is left. *)
Definition flash_contextDestroy (c : flash_context) : chip := dev (flash_sync c).1.
End driver.
End FlashRt.
