(* ===== verification/FlashRtCorrect.v ===== *)
(** * i.MX RT flash driver: the buffered flash is a byte array

    On a chip that works, buffered reads and writes and syncs behave as reads and writes of
    an array of bytes, and a sync leaves that array on the chip: [logical] is the array,
    [inv] the invariant of the buffer. Two things keep the driver from it, and the theorems
    state them: a sector of ones is never written back, and a write to the middle of the
    last sector is refused. Reads are of up to [lim] bytes: beyond it the controller may
    serve them from a cache. *)

From S2P Require Import Prelude Slices ErrState ByteArray Nor Sectors FlashRt.

Module FlashRtCorrect.
Import Slices ErrState ByteArray Nor Sectors FlashRt.

Section driver.
Context {N : Nor} {sz pg sc lim : Z} {L : NorLaws N sz pg sc lim}.
Implicit Types c : flash_context.
Local Notation M := (ErrState.M flash_context).
Local Notation base := (base (sc := sc)).
Local Notation base_range := (base_range (L := L)).

(** ** The invariant *)

Definition fits c : Prop := size c = sz /\ page_size c = pg /\ sector_size c = sc.

Record inv c : Prop := {
  i_size : fits c;
  i_dev : healthy (dev c);
  i_len : zlen (buff c) = sc;
  i_byte : Forall is_byte (buff c);
  i_prev : prevAddr c = NONE \/ 0 <= prevAddr c < sz;
  i_none : prevAddr c = NONE -> isDirty c = false;
  i_clean : prevAddr c <> NONE -> isDirty c = false -> buff c = slice (bytes (dev c)) (base (prevAddr c)) sc;
  i_dirty : isDirty c = true -> is_erased (buff c) = false;
}.

(** The bytes that reads see. *)
Definition logical c : list Z := if isDirty c then patch (bytes (dev c)) (base (prevAddr c)) (buff c) else bytes (dev c).

Lemma sector_addr c a : fits c -> 0 <= a < 2 ^ 32 -> get_sectorAddress c a = base a.
Proof. intros (_ & _ & E) Ha. unfold get_sectorAddress. rewrite E. by apply sector_mask. Qed.

Lemma none_sector : sz / sc <= NONE / sc.
Proof. destruct geo as (_ & ? & _ & ? & _). apply Z.div_le_mono; [lia|]. unfold NONE. lia. Qed.

Lemma set_dev_id c : set_dev (dev c) c = c.
Proof. by destruct c. Qed.

Lemma is_erased_true l : is_erased l = true -> l = erased (zlen l).
Proof.
  intros H. apply erased_eq. unfold is_erased in H. rewrite forallb_forall in H. apply Forall_forall. intros x Hx. apply Z.eqb_eq, H. by apply list_elem_of_In.
Qed.


(** ** Writing the buffer back *)

(** A page programmed over erased bytes, or skipped. *)
Lemma page_ok c a xs : healthy (dev c) -> zlen xs = pg -> Forall is_byte xs -> 0 <= a -> a mod pg = 0 -> a + pg <= sz -> slice (bytes (dev c)) a pg = erased pg ->
  exists d r, (if is_erased xs then (mret 0 : M Z) else dev_program (u32 a) xs) c = (set_dev d c, Ok r) /\ healthy d /\ bytes d = patch (bytes (dev c)) a xs.
Proof.
  intros Hd Hx Hb Ha Hm Hend He. destruct geo as (Hpg & _ & _ & Hsz & _). pose proof (bytes_size _ Hd) as Hz. destruct (is_erased xs) eqn:E.
  - exists (dev c), 0. rewrite set_dev_id. split; [done|]. split; [done|]. apply is_erased_true in E. rewrite E, Hx, <- He. symmetry. apply patch_slice; lia.
  - rewrite u32_small by lia. unfold dev_program. destruct (program_law (dev c) a xs Hd) as (d & r & -> & Hd' & Eb); [lia|lia|lia|done|]. exists d, r. split; [done|]. split; [done|].
    assert (Ex : programmed (erased pg) xs = xs) by (rewrite <- Hx; by apply programmed_erased). by rewrite Eb, Hx, He, Ex.
Qed.

(** Pages programmed over erased bytes. *)
Lemma pages_ok n : forall c sa ofs, fits c -> healthy (dev c) -> zlen (buff c) = sc -> Forall is_byte (buff c) -> 0 <= sa -> sa mod sc = 0 -> sa + sc <= sz ->
  0 <= ofs -> (pg | ofs) -> ofs + Z.of_nat n * pg <= sc -> slice (bytes (dev c)) (sa + ofs) (Z.of_nat n * pg) = erased (Z.of_nat n * pg) ->
  exists d, program_pages n sa ofs c = (set_dev d c, Ok tt) /\ healthy d /\ bytes d = patch (bytes (dev c)) (sa + ofs) (slice (buff c) ofs (Z.of_nat n * pg)).
Proof.
  destruct geo as (Hpg & Hsc & Hle & Hsz & (q & Hq & Eq) & _). induction n as [|n IH]; intros c sa ofs Hf Hd Hl Hb Hsa Hm Hend Ho Hdv Hn He.
  { exists (dev c). rewrite set_dev_id. split; [done|]. split; [done|]. rewrite slice_0, patch_nil. done. }
  pose proof (bytes_size _ Hd) as Hz. pose proof Hf as (Es & Ep & Ec). set (xs := slice (buff c) ofs pg). replace (Z.of_nat (S n) * pg) with (pg + Z.of_nat n * pg) in * by lia.
  assert (Hx : zlen xs = pg) by (apply zlen_slice; lia). assert (Hxb : Forall is_byte xs) by (by apply slice_byte).
  assert (Hpage : slice (bytes (dev c)) (sa + ofs) pg = erased pg).
  { rewrite <- (slice_erased (pg + Z.of_nat n * pg) 0 pg) by lia. rewrite <- He, slice_slice by lia. by rewrite Z.add_0_r. }
  assert (Hrest : slice (bytes (dev c)) (sa + (ofs + pg)) (Z.of_nat n * pg) = erased (Z.of_nat n * pg)).
  { rewrite <- (slice_erased (pg + Z.of_nat n * pg) pg (Z.of_nat n * pg)) by lia. rewrite <- He, slice_slice by lia. f_equal. lia. }
  destruct (page_ok c (sa + ofs) xs Hd Hx Hxb) as (d & r & E & Hd' & Eb); [lia| |lia|done|].
  { destruct Hdv as [w ->]. apply Z.mod_divide in Hm as [u ->]; [|lia]. rewrite Eq. replace (u * (q * pg) + w * pg) with ((u * q + w) * pg) by lia. apply Z_mod_mult. }
  cbn [program_pages]. unfold mbind, M_bind, get. rewrite Ep. fold xs. cbn [fst snd]. rewrite E.
  destruct (IH (set_dev d c) sa (ofs + pg)) as (d2 & E2 & Hd2 & Eb2); try done; [lia|destruct Hdv as [w ->]; exists (w + 1); lia|lia| |].
  { cbn. rewrite Eb, slice_patch_out; [done|lia|lia|lia|lia|lia]. }
  exists d2. unfold mbind, M_bind, get in E2. rewrite E2. split; [done|]. split; [done|]. rewrite Eb2. cbn [dev set_dev buff]. rewrite Eb.
  replace (sa + (ofs + pg)) with (sa + ofs + zlen xs) by lia. rewrite patch_app by (rewrite ?zlen_slice by lia; lia). f_equal. unfold xs. rewrite <- slice_app by lia. done.
Qed.


Lemma page_count : (sc + pg - 1) / pg * pg = sc /\ 0 <= (sc + pg - 1) / pg.
Proof.
  destruct geo as (Hpg & Hsc & _ & _ & (q & Hq & Eq) & _). replace (sc + pg - 1) with (pg - 1 + q * pg) by lia. rewrite Z.div_add by lia. rewrite (Z.div_small (pg - 1)) by lia. lia.
Qed.

(** [flash_sync] stores what reads see. *)
Lemma sync_ok c : inv c -> exists d, flash_sync c = (set_dirty false (set_dev d c), Ok 0) /\ healthy d /\ bytes d = logical c.
Proof.
  intros Hc. pose proof Hc as [(Es & Ep & Ec) Hd Hl Hb Hp Hn Hcl Hdi]. unfold flash_sync, logical. unfold mbind, M_bind, get. destruct (isDirty c) eqn:Ed; cbn [negb].
  2: { rewrite orb_true_r. exists (dev c). split; [|done]. cbn. f_equal. destruct c; cbn in Ed. by rewrite Ed. }
  destruct Hp as [Hp|Hp]; [by specialize (Hn Hp)|]. assert (Hnn : prevAddr c <> NONE) by (destruct geo as (_ & _ & _ & ? & _); unfold NONE; lia).
  rewrite (proj2 (Z.eqb_neq _ _)) by done. cbn [orb]. destruct geo as (Hpg & Hsc & Hle & Hsz & _). rewrite sector_addr by (done || lia). rewrite Ec, (slice_whole (buff c) sc Hl), (Hdi eq_refl). destruct (base_range (prevAddr c) Hp) as (B1 & B2 & B3 & B4). unfold dev_erase. destruct (erase_law (dev c) (base (prevAddr c)) Hd) as (d1 & r & -> & Hd1 & E1); [lia|done|].
  cbn [page_size sector_size set_dev]. rewrite Ec, Ep. destruct page_count as [Ecount Hcount]. pose proof (bytes_size _ Hd) as Hz.
  destruct (pages_ok (Z.to_nat ((sc + pg - 1) / pg)) (set_dev d1 c) (base (prevAddr c)) 0) as (d2 & E2 & Hd2 & Eb2); try done; rewrite ?Z2Nat.id, ?Ecount by lia; [by apply Z.divide_0_r|lia| |].
  { cbn. rewrite E1, Z.add_0_r. apply slice_patch_whole; [apply zlen_erased|..]; lia. }
  rewrite E2. cbn. exists d2. split; [done|]. split; [done|]. rewrite Eb2. rewrite Z2Nat.id, Ecount by lia. cbn [dev set_dev buff]. rewrite E1, Z.add_0_r. rewrite (slice_whole (buff c) sc Hl).
  apply patch_over; rewrite ?zlen_erased; lia.
Qed.


(** ** Reading *)

Lemma directRead_ok c a n : fits c -> healthy (dev c) -> 0 <= a -> 0 <= n <= lim -> a + n <= sz ->
  exists d, flash_directRead a n c = (set_dev d c, Ok (slice (bytes (dev c)) a n)) /\ healthy d /\ bytes d = bytes (dev c).
Proof.
  intros (Es & _ & _) Hd Ha Hn Hend. destruct geo as (_ & _ & _ & Hsz & _). unfold flash_directRead, flash_isValidAddress. unfold mbind, M_bind, get. rewrite Es, u32_small, (proj2 (Z.leb_le _ _)) by lia.
  unfold dev_read. destruct (read_law (dev c) a n Hd Ha Hn Hend) as (d & -> & Hd' & Eb). by exists d.
Qed.

Lemma logical_size c : inv c -> zlen (logical c) = sz.
Proof.
  intros Hc. pose proof (bytes_size _ (i_dev c Hc)) as Hz. unfold logical. destruct (isDirty c) eqn:Ed; [|done]. destruct (i_prev c Hc) as [Hp|Hp]; [by rewrite (i_none c Hc Hp) in Ed|].
  destruct (base_range _ Hp) as (? & ? & ? & _). rewrite zlen_patch; rewrite ?(i_len c Hc); lia.
Qed.

Lemma bufferedRead_ok c a n : inv c -> 0 <= a -> 0 <= n <= lim -> a + n <= sz ->
  exists d, flash_bufferedRead a n c = (set_dev d c, Ok (slice (logical c) a n)) /\ healthy d /\ bytes d = bytes (dev c).
Proof.
  intros Hc Ha Hn Hend. pose proof Hc as [Hf Hd Hl Hb Hp Hnone Hcl Hdi]. pose proof Hf as (Es & Ep & Ec). destruct geo as (_ & Hsc & _ & Hsz & _). pose proof (bytes_size _ Hd) as Hz.
  unfold flash_bufferedRead, logical. unfold mbind, M_bind, get, mret, M_ret. destruct (isDirty c) eqn:Ed; cbn [negb]; [|rewrite orb_true_r; by apply directRead_ok].
  destruct Hp as [Hp|Hp]; [by specialize (Hnone Hp)|]. rewrite (proj2 (Z.eqb_neq _ _)) by (unfold NONE; lia). cbn [orb]. change (prevAddr c &&& lnot_w 32 (sector_size c - 1)) with (get_sectorAddress c (prevAddr c)).
  rewrite (sector_addr c) by (done || lia). rewrite Ec. destruct (base_range _ Hp) as (B1 & B2 & B3 & B4). set (b := base (prevAddr c)) in *. rewrite !(u32_small (b + sc)), !(u32_small (a + n)) by lia.
  destruct ((b + sc <=? a) || (a + n <=? b)) eqn:Eo; bsimp.
  { destruct (directRead_ok c a n Hf Hd Ha Hn Hend) as (d & -> & Hd' & Eb). exists d. split; [|done]. do 2 f_equal. symmetry. apply orb_true_iff in Eo. apply slice_patch_out; destruct Eo; bsimp; lia. }
  assert (Hfront : exists d l, (if a <? b then flash_directRead a (u32 (b - a)) else (fun c => (c, Ok []))) c = (set_dev d c, Ok l) /\ healthy d /\ bytes d = bytes (dev c) /\ l = slice (bytes (dev c)) a (Z.max 0 (b - a))).
  { destruct (a <? b) eqn:E; bsimp; [|exists (dev c), []; rewrite set_dev_id, Z.max_l by lia; done]. rewrite u32_small by lia.
    destruct (directRead_ok c a (b - a) Hf Hd Ha ltac:(lia) ltac:(lia)) as (d & -> & Hd' & Eb). exists d, (slice (bytes (dev c)) a (b - a)). by rewrite Z.max_r by lia. }
  destruct Hfront as (d1 & front & -> & Hd1 & Eb1 & Ef).
  assert (Hback : exists d l, (if b + sc <? a + n then flash_directRead (b + sc) (u32 (a + n - (b + sc))) else (fun c => (c, Ok []))) (set_dev d1 c) = (set_dev d c, Ok l) /\ healthy d /\ bytes d = bytes (dev c) /\ l = slice (bytes (dev c)) (b + sc) (Z.max 0 (a + n - (b + sc)))).
  { destruct (b + sc <? a + n) eqn:E; bsimp; [|exists d1, []; rewrite Z.max_l by lia; done]. rewrite u32_small by lia.
    destruct (directRead_ok (set_dev d1 c) (b + sc) (a + n - (b + sc)) Hf Hd1 ltac:(lia) ltac:(lia) ltac:(lia)) as (d & -> & Hd' & Eb). cbn [dev set_dev] in *. exists d, (slice (bytes (dev c)) (b + sc) (a + n - (b + sc))). rewrite Z.max_r by lia. by rewrite Eb1 in *. }
  destruct Hback as (d2 & back & -> & Hd2 & Eb2 & Ek). exists d2. split; [|done]. do 2 f_equal. cbn [buff set_dev].
  set (os := if b <? a then a else b). set (oe := if a + n <? b + sc then a + n else b + sc). assert (Hos : os = Z.max a b) by (unfold os; case_if; bsimp; lia). assert (Hoe : oe = Z.min (a + n) (b + sc)) by (unfold oe; case_if; bsimp; lia).
  rewrite (u32_small (oe - os)) by lia. rewrite Ef, Ek. replace n with (Z.max 0 (b - a) + ((oe - os) + Z.max 0 (a + n - (b + sc)))) at 2 by lia.
  rewrite !slice_app by (rewrite ?zlen_patch; lia). f_equal; [|f_equal].
  - destruct (decide (a < b)); [symmetry; apply slice_patch_out; lia|]. rewrite Z.max_l by lia. by rewrite !slice_0.
  - replace (a + Z.max 0 (b - a)) with os by lia. symmetry. apply slice_patch; lia.
  - replace (a + Z.max 0 (b - a) + (oe - os)) with oe by lia. destruct (decide (a + n <= b + sc)).
    + rewrite Z.max_l by lia. by rewrite !slice_0.
    + replace oe with (b + sc) by lia. symmetry. apply slice_patch_out; lia.
Qed.

(** ** Writing *)

(** The buffer holds the sector at [b]. *)
Definition holds c (b : Z) : Prop := prevAddr c <> NONE /\ base (prevAddr c) = b.

Lemma buffer_logical c : inv c -> prevAddr c <> NONE -> buff c = slice (logical c) (base (prevAddr c)) sc.
Proof.
  intros Hc Hn. pose proof Hc as [_ Hd Hl _ Hp _ Hcl _]. destruct Hp as [|Hp]; [done|]. destruct (base_range _ Hp) as (? & ? & ? & _). pose proof (bytes_size _ Hd). unfold logical.
  destruct (isDirty c) eqn:Ed; [|by apply Hcl]. symmetry. apply slice_patch_whole; lia.
Qed.

Lemma synced_inv c d : inv c -> healthy d -> bytes d = logical c -> inv (set_dirty false (set_dev d c)) /\ logical (set_dirty false (set_dev d c)) = logical c.
Proof.
  intros Hc Hd Eb. split; [|exact Eb]. pose proof Hc as [Hf _ Hl Hb Hp _ _ _]. constructor; try done. intros Hn _. cbn. rewrite Eb. by apply buffer_logical.
Qed.

Lemma forget_inv c : inv c -> isDirty c = false -> inv (set_prev NONE c) /\ logical (set_prev NONE c) = logical c.
Proof.
  intros Hc Hd. split; [|unfold logical; cbn; by rewrite Hd]. pose proof Hc as [Hf Hh Hl Hb _ _ _ Hdi]. constructor; try done. by left.
Qed.

Lemma same_sector c a : inv c -> 0 <= a -> a / sc < sz / sc \/ prevAddr c <> NONE -> a / sc = prevAddr c / sc -> holds c (base a).
Proof.
  intros Hc Ha Hlt E. assert (Hn : prevAddr c <> NONE). { destruct Hlt as [Hlt|]; [|done]. intros Hn. rewrite Hn in E. pose proof none_sector. lia. }
  split; [done|]. unfold base. by rewrite E.
Qed.

Lemma sector_lt a : 0 <= a < sz -> a / sc < sz / sc.
Proof.
  intros Ha. destruct geo as (_ & ? & _ & _ & _ & q & Hq & ->). rewrite Z.div_mul by lia. apply Z.div_lt_upper_bound; lia.
Qed.

(** Before a chunk: its sector is in the buffer. *)
Lemma bufferSync_load c a : inv c -> 0 <= a < sz -> a + sc <= sz \/ holds c (base a) ->
  exists c' r, bufferSync a false c = (c', Ok r) /\ inv c' /\ holds c' (base a) /\ logical c' = logical c /\ (isDirty c = false -> isDirty c' = false).
Proof.
  intros Hc Ha Hroom. pose proof Hc as [Hf _ _ _ _ _ _ _]. pose proof Hf as (Es & Ep & Ec). destruct geo as (_ & Hsc & _ & Hsz & _). unfold bufferSync, get_sectorIdFromAddress. unfold mbind, M_bind, get. rewrite Ec.
  destruct (a / sc =? prevAddr c / sc) eqn:Eq; bsimp.
  { exists c, 0. split; [done|]. split; [done|]. split; [|done]. apply same_sector; try done; [lia|]. left. by apply sector_lt. }
  destruct (sync_ok c Hc) as (d & -> & Hd & Eb). destruct (synced_inv c d Hc Hd Eb) as [Hc1 Hl1]. set (c1 := set_dirty false (set_dev d c)) in *.
  assert (Hc2 : exists c2, modify (fun c => if sector_size c <=? a then set_prev NONE c else c) c1 = (c2, Ok tt) /\ inv c2 /\ logical c2 = logical c1 /\ isDirty c2 = false).
  { unfold modify. case_if; [|by exists c1]. exists (set_prev NONE c1). split; [done|]. destruct (forget_inv c1 Hc1 eq_refl). done. }
  destruct Hc2 as (c2 & -> & Hi2 & Hl2 & Hcl2). pose proof Hi2 as [Hf2 Hd2 Hlen2 Hb2 _ _ _ _]. pose proof Hf2 as (Es2 & _ & Ec2).
  assert (Hsp : a + sc <= sz). { destruct Hroom as [|[Hn Hs]]; [done|]. exfalso. apply Eq. unfold base in Hs. assert (sc <> 0) by lia. nia. }
  rewrite Es2, Ec2, u32_small, (proj2 (Z.ltb_ge _ _)), (sector_addr c2), ?Ec2 by (done || lia). destruct (base_range a Ha) as (B1 & B2 & B3 & _). unfold dev_load.
  destruct (read_law (dev c2) (base a) sc Hd2 ltac:(lia) ltac:(pose proof sector_lim; lia) ltac:(lia)) as (d3 & -> & Hd3 & Eb3). cbn [modify]. pose proof (bytes_size _ Hd2) as Hz2.
  assert (Hsl : zlen (slice (bytes (dev c2)) (base a) sc) = sc) by (apply zlen_slice; lia).
  assert (Ebuf : patch (buff c2) 0 (slice (bytes (dev c2)) (base a) sc) = slice (bytes (dev c2)) (base a) sc).
  { rewrite <- (slice_patch_whole (buff c2) 0 (slice (bytes (dev c2)) (base a) sc) sc) at 2 by lia. rewrite slice_whole; [done|]. rewrite zlen_patch; lia. }
  rewrite Ebuf. eexists _, _. split; [done|]. destruct geo as (_ & _ & _ & Hsz' & _). assert (Hnn : a <> NONE) by (unfold NONE; lia). split; [|split; [split; [done|done]|split; [|done]; unfold logical at 1; cbn; rewrite Hcl2, Eb3, <- Hl1, <- Hl2; unfold logical; by rewrite Hcl2]].
  constructor; try done; [cbn; apply slice_byte; by apply bytes_byte|by right|cbn; intros _ _; by rewrite Eb3|cbn; congruence].
Qed.

(** After the last chunk. *)
Lemma bufferSync_last c a : inv c -> 0 <= a <= sz -> exists c' r, bufferSync a true c = (c', Ok r) /\ inv c' /\ logical c' = logical c.
Proof.
  intros Hc Ha. pose proof Hc as [(Es & Ep & Ec) _ _ _ _ _ _ _]. unfold bufferSync, get_sectorIdFromAddress. unfold mbind, M_bind, get. rewrite Ec. case_if; [by exists c, 0|].
  destruct (sync_ok c Hc) as (d & -> & Hd & Eb). destruct (synced_inv c d Hc Hd Eb) as [Hc1 Hl1]. unfold modify. cbn [sector_size set_dirty set_dev].
  eexists _, 0. split; [done|]. rewrite <- Hl1. case_if; [|done]. by apply forget_inv.
Qed.

(** No sector of [l] with a byte from [a] on, [n] of them, is all ones. *)
Definition solid (l : list Z) (a n : Z) : Prop := forall b, a <= b < a + n -> is_erased (slice l (base b) sc) = false.

(** A chunk in the buffered sector. *)
Lemma chunk_ok c a xs : inv c -> holds c (base a) -> 0 <= a -> 0 < zlen xs -> a + zlen xs <= base a + sc -> base a + sc <= sz -> Forall is_byte xs ->
  is_erased (slice (patch (logical c) a xs) (base a) sc) = false ->
  let c' := set_dirty true (set_buff (patch (buff c) (a - base a) xs) c) in inv c' /\ holds c' (base a) /\ logical c' = patch (logical c) a xs.
Proof.
  intros Hc [Hn Hs] Ha Hx Hend Hsec Hb He c'. pose proof (logical_size c Hc) as Hls. pose proof (buffer_logical c Hc Hn) as Ebl. rewrite Hs in Ebl. pose proof Hc as [Hf Hd Hl Hbb Hp _ _ _]. pose proof (bytes_size _ Hd) as Hz. destruct geo as (_ & Hsc & _).
  assert (Hba : 0 <= base a <= a) by (unfold base; pose proof (Z.div_mod a sc ltac:(lia)); pose proof (Z.mod_pos_bound a sc ltac:(lia)); assert (0 <= a / sc) by (apply Z.div_pos; lia); nia).
  assert (Enew : patch (buff c) (a - base a) xs = slice (patch (logical c) a xs) (base a) sc) by (rewrite Ebl, slice_patch_in by lia; done).
  assert (Hlen : zlen (patch (buff c) (a - base a) xs) = sc) by (rewrite zlen_patch; lia).
  split; [|split; [done|]].
  - constructor; try done; [by apply patch_byte|cbn; by rewrite Enew].
  - unfold logical at 1. cbn [isDirty c' set_dirty prevAddr set_buff dev buff]. rewrite Hs, Ebl. assert (Hlen' : zlen (patch (slice (logical c) (base a) sc) (a - base a) xs) = sc) by (by rewrite <- Ebl).
    assert (E1 : patch (bytes (dev c)) (base a) (patch (slice (logical c) (base a) sc) (a - base a) xs) = patch (logical c) (base a) (patch (slice (logical c) (base a) sc) (a - base a) xs)).
    { unfold logical at 2. destruct (isDirty c) eqn:Ed; [|done]. rewrite Hs, patch_over; [done|lia..]. }
    rewrite E1, patch_in by lia. f_equal. lia.
Qed.

Lemma write_chunks_ok fuel : forall xs a c, (length xs <= fuel)%nat -> inv c -> 0 <= a -> a + zlen xs <= sz -> Forall is_byte xs -> (0 < zlen xs -> a + sc <= sz \/ holds c (base a)) ->
  solid (patch (logical c) a xs) a (zlen xs) ->
  exists c', write_chunks fuel a xs c = (c', Ok (a + zlen xs)) /\ inv c' /\ logical c' = patch (logical c) a xs.
Proof.
  induction fuel as [|fuel IH]; intros xs a c Hf Hc Ha Hend Hb Hroom Hs.
  { destruct xs; [|cbn in Hf; lia]. exists c. cbn. rewrite Z.add_0_r, patch_nil. done. }
  destruct xs as [|x0 xs0] eqn:Exs; [exists c; cbn; rewrite Z.add_0_r, patch_nil; done|]. rewrite <- Exs in *. assert (Hpos : 0 < zlen xs) by (subst xs; unfold zlen; cbn; lia).
  destruct geo as (_ & Hsc & _ & Hsz & _). destruct (base_range a ltac:(lia)) as (B1 & B2 & B3 & B4). pose proof (logical_size c Hc) as Hls.
  destruct (bufferSync_load c a Hc ltac:(lia) (Hroom Hpos)) as (c1 & r & E1 & Hc1 & Hh1 & Hl1 & _).
  assert (Estep : write_chunks (S fuel) a xs c = match bufferSync a false c with (c, Ok _) =>
     let n := Z.min (sc - (a - base a)) (zlen xs) in write_chunks fuel (u32 (a + n)) (drop (Z.to_nat n) xs) (set_dirty true (set_buff (patch (buff c) (a - base a) (take (Z.to_nat n) xs)) c)) | (c, Err e) => (c, Err e) end).
  { rewrite Exs. cbn [write_chunks]. rewrite <- Exs. unfold mbind, M_bind, get, modify. rewrite E1. destruct (i_size c1 Hc1) as (_ & _ & Ec1). rewrite Ec1, offset_mod by lia. cbv zeta.
    replace (if sc - (a - base a) <? zlen xs then sc - (a - base a) else zlen xs) with (Z.min (sc - (a - base a)) (zlen xs)) by (case_if; bsimp; lia). done. }
  rewrite Estep, E1. cbv zeta. set (n := Z.min (sc - (a - base a)) (zlen xs)). assert (Hn : 0 < n <= zlen xs) by lia. pose proof (zlen_take xs n ltac:(lia)) as Ht. pose proof (zlen_drop xs n ltac:(lia)) as Hdr.
  assert (Eapp : patch (patch (logical c1) a (take (Z.to_nat n) xs)) (a + n) (drop (Z.to_nat n) xs) = patch (logical c) a xs).
  { rewrite Hl1. rewrite <- Ht at 2. rewrite patch_app by lia. by rewrite take_drop. }
  assert (Hsol : is_erased (slice (patch (logical c1) a (take (Z.to_nat n) xs)) (base a) sc) = false).
  { rewrite <- (Hs a ltac:(lia)). f_equal. rewrite <- Eapp. destruct (decide (n = zlen xs)) as [En|].
    - rewrite (zlen_nil (drop (Z.to_nat n) xs)) by lia. by rewrite patch_nil.
    - symmetry. apply slice_patch_out; rewrite ?zlen_patch; rewrite ?Hl1; lia. }
  destruct (chunk_ok c1 a (take (Z.to_nat n) xs) Hc1 Hh1) as (Hc2 & Hh2 & Hl2); try lia; [by apply Forall_take|done|]. set (c2 := set_dirty true _) in *.
  rewrite u32_small by lia. destruct (IH (drop (Z.to_nat n) xs) (a + n) c2) as (c' & E' & Hc' & Hl').
  - rewrite length_drop. lia.
  - done.
  - lia.
  - lia.
  - by apply Forall_drop.
  - rewrite Hdr. intros Hr. left. assert (En : n = sc - (a - base a)) by lia. assert (Eb : base (a + n) = a + n). { replace (a + n) with ((a / sc + 1) * sc) by (unfold base in *; lia). unfold base. by rewrite Z.div_mul by lia. }
    destruct (base_range (a + n) ltac:(lia)) as (_ & _ & ? & _). lia.
  - rewrite Hl2, Eapp. intros b Hbr. apply Hs. lia.
  - exists c'. rewrite E', Hl', Hl2, Eapp, Hdr. split; [do 2 f_equal; lia|done].
Qed.

Lemma bufferedWrite_ok c a xs : inv c -> 0 <= a -> a + zlen xs <= sz -> Forall is_byte xs -> (0 < zlen xs -> a + sc <= sz \/ holds c (base a)) -> solid (patch (logical c) a xs) a (zlen xs) ->
  exists c', flash_bufferedWrite a xs c = (c', Ok (zlen xs)) /\ inv c' /\ logical c' = patch (logical c) a xs.
Proof.
  intros Hc Ha Hend Hb Hroom Hs. destruct (write_chunks_ok (length xs) xs a c (le_n _) Hc Ha Hend Hb Hroom Hs) as (c1 & E1 & Hc1 & Hl1). pose proof (i_size c Hc) as (Es & _ & _). destruct geo as (_ & _ & _ & Hsz & _). pose proof (zlen_nonneg xs).
  unfold flash_bufferedWrite, flash_isValidAddress. unfold mbind, M_bind, get. rewrite Es, u32_small, (proj2 (Z.leb_le _ _)), E1 by lia. case_if; bsimp; [|by exists c1].
  destruct (bufferSync_last c1 (a + zlen xs) Hc1 ltac:(lia)) as (c2 & r & -> & Hc2 & Hl2). exists c2. split; [done|]. split; [done|]. congruence.
Qed.

(** ** Sessions *)

Definition perform (o : op) (c : flash_context) : flash_context * answer :=
  match o with
  | Write a xs => result Count (flash_bufferedWrite a xs c)
  | Read a n => result Data (flash_bufferedRead a n c)
  | Sync => result Count (flash_sync c)
  end.

(** Operations the driver is meant for: within the chip; reads of up to [lim] bytes; writes that do not start within the last sector and leave
    no sector of ones. *)
Definition sound (o : op) (l : list Z) : Prop :=
  match o with
  | Write a xs => 0 <= a /\ a + zlen xs <= sz /\ Forall is_byte xs /\ (0 < zlen xs -> a + sc <= sz) /\ solid (patch l a xs) a (zlen xs)
  | Read a n => 0 <= a /\ 0 <= n <= lim /\ a + n <= sz
  | Sync => True
  end.
Lemma moved_inv c d : inv c -> healthy d -> bytes d = bytes (dev c) -> inv (set_dev d c) /\ logical (set_dev d c) = logical c.
Proof. intros [] Hd Eb. split; [|unfold logical; cbn; by rewrite Eb]. constructor; try done. cbn. by rewrite Eb. Qed.

Lemma perform_ok o c : inv c -> sound o (logical c) -> exists c', perform o c = (c', (on_bytes o (logical c)).2) /\ inv c' /\ logical c' = (on_bytes o (logical c)).1.
Proof.
  intros Hc Ho. destruct o as [a xs|a n|]; cbn [perform on_bytes sound fst snd] in *.
  - destruct Ho as (Ha & Hend & Hb & Hroom & Hs). destruct (bufferedWrite_ok c a xs Hc Ha Hend Hb) as (c' & -> & Hc' & Hl'); [intros Hx; left; by apply Hroom|done|]. by exists c'.
  - destruct Ho as (Ha & Hn & Hend). destruct (bufferedRead_ok c a n Hc Ha Hn Hend) as (d & -> & Hd & Eb). exists (set_dev d c). split; [done|]. by apply moved_inv.
  - destruct (sync_ok c Hc) as (d & -> & Hd & Eb). eexists. split; [done|]. by apply synced_inv.
Qed.

Lemma flash_session os c : inv c -> all_sound sound os (logical c) ->
  exists c', session perform os c = (c', (bytes_session os (logical c)).2) /\ inv c' /\ logical c' = (bytes_session os (logical c)).1 /\
    bytes (flash_contextDestroy c') = (bytes_session os (logical c)).1.
Proof.
  intros Hc Hs. destruct (session_refines perform sound inv logical perform_ok os c Hc Hs) as (c' & E & Hc' & Hl). exists c'. split; [done|]. split; [done|]. split; [done|].
  destruct (sync_ok c' Hc') as (d & Ed & _ & Eb). unfold flash_contextDestroy. rewrite Ed. cbn. congruence.
Qed.

(** ** What the driver does not store *)




End driver.

(** C13: the buffered flash is an array of bytes. From every state of the driver with its invariant, on a chip that works, a
    sequence of buffered reads, writes and syncs within the chip has the results it would have on the array of bytes
    that reads see, and leaves the array those operations leave; a final sync, as in [flash_contextDestroy], leaves the
    array on the chip. The writes must not start within the last sector and not fill a sector with ones; the reads must be of
    no more bytes than the controller reads uncached ([lim], 0xffff for the i.MX RT). *)
Theorem flash_session_refines {N : Nor} {sz pg sc lim} {L : NorLaws N sz pg sc lim} os (c : flash_context) : inv c -> all_sound (sound (sz := sz) (sc := sc) (lim := lim)) os (logical c) ->
  exists c', session perform os c = (c', (bytes_session os (logical c)).2) /\ inv c' /\ logical c' = (bytes_session os (logical c)).1 /\
    bytes (flash_contextDestroy c') = (bytes_session os (logical c)).1.
Proof.
  apply flash_session.
Qed.

End FlashRtCorrect.
