(* ===== verification/FlashSrv.v ===== *)
(** * i.MX RT flash server ([src/storage/imxrt-flash/flashsrv.c])

    Requests to a chip ([flashsrv_devThread]) and to its raw partitions
    ([flashsrv_rawThread]), with the driver of [FlashRt.v] below. A thread handles one request
    at a time under the memory's lock; a request is a step on the memory. A chip has fewer
    than 256 partitions. *)

From S2P Require Import Prelude Slices ErrState Nor FlashRt.

Module FlashSrv.
Import Slices ErrState Nor FlashRt.

(** Whether [off_t] has 64 bits; with 32 bits an offset is compared with a [uint32_t] as unsigned. *)
Class OffT := off_wide : bool.
Definition off_cmp `{OffT} (offs : Z) : Z := if off_wide then offs else u32 offs.

(** The constants of [fcntl.h] the server uses, and the number of chips ([FLEXSPI_COUNT]) of the board. *)
Class Platform := { O_CREAT : Z; O_EXCL : Z; FLASH_MEMORIES_NO : Z }.

(** ** CRC *)

Definition crc32_bit (crc : Z) : Z := Z.lxor (crc >>> 1) (if has crc 1 then 0xedb88320 else 0).
Definition crc32_byte (crc x : Z) : Z := Nat.iter 8 crc32_bit (Z.lxor crc x).
Definition flashsrv_crc32Update (crc : Z) (data : list Z) : Z := foldl crc32_byte crc data.

Section server.
Context {N : Nor} `{OffT} `{Platform}.

Local Notation M := (ErrState.M flash_context).

Record flashsrv_partition := mk_part { p_offset : Z; p_size : Z; pStatus : bool; authProcPid : Z }.
Record flashsrv_memory := mk_mem { ctx : flash_context; parts : list flashsrv_partition; fStatus : bool; fID : Z }.

Definition set_ctx (x : flash_context) (m : flashsrv_memory) : flashsrv_memory := mk_mem x (parts m) (fStatus m) (fID m).
Definition set_auth (i : Z) (pid : Z) (m : flashsrv_memory) : flashsrv_memory :=
  mk_mem (ctx m) (alter (fun p => mk_part (p_offset p) (p_size p) (pStatus p) pid) (Z.to_nat i) (parts m)) (fStatus m) (fID m).

Definition CRC32_BUFSZ : Z := 256.

(** An operation of the driver on the memory of the chip, [flashsrv_getFlashMemory] first. *)
Definition on_memory {A} (f : M A) (m : flashsrv_memory) : flashsrv_memory * cres A :=
  if fStatus m then let '(c, r) := f (ctx m) in (set_ctx c m, r) else (m, Err ENODEV).

(** The chunks of [flashsrv_calcCrc32], at most [fuel] of them. *)
Fixpoint crc_loop (fuel : nat) (offset len crc : Z) : M Z :=
  match fuel with
  | O => mret crc
  | S fuel =>
      if 0 <? len then
        buf ← flash_directRead offset (if len <? CRC32_BUFSZ then len else CRC32_BUFSZ);
        crc_loop fuel (u32 (offset + zlen buf)) (len - zlen buf) (flashsrv_crc32Update crc buf)
      else mret crc
  end.
Definition flashsrv_calcCrc32 (offset len crc : Z) : M Z := crc_loop (Z.to_nat len) offset len crc.

(** ** Requests *)

Inductive devctl :=
  | devctl_properties | devctl_sync | devctl_eraseSector (addr : Z) | devctl_erasePartition
  | devctl_directWrite (addr : Z) (data : list Z) | devctl_directRead (addr osize : Z) | devctl_calcCrc32 (addr len base : Z) | devctl_other.

Inductive request :=
  | mtRead (offs osize : Z) | mtWrite (offs : Z) (data : list Z) | mtDevCtl (d : devctl)
  | mtOpen (flags : Z) | mtClose | mtSync | mtGetAttr (is_size : bool) | mtOther.

(** [msg.o.err] and what else is sent back. *)
Inductive reply :=
  | Done (err : Z) | Bytes (l : list Z) | Properties (size psize ssize offs : Z) | Crc (r : cres Z) (crc : Z) | Attr (val : Z) | Error (e : errno).

Definition count (r : cres Z) : reply := match r with Ok n => Done n | Err e => Error e end.
Definition data (r : cres (list Z)) : reply := match r with Ok l => Bytes l | Err e => Error e end.
Definition reply_with {A} (f : A -> reply) (r : flashsrv_memory * A) : flashsrv_memory * reply := (r.1, f r.2).

(** [n] sectors from [offs] on; errors are ignored. *)
Fixpoint erase_sectors (n : nat) (offs : Z) (m : flashsrv_memory) : flashsrv_memory :=
  match n with O => m | S n => erase_sectors n (u32 (offs + sector_size (ctx m))) (on_memory (flash_sectorErase offs) m).1 end.

Definition crc_request (start addr len base : Z) (m : flashsrv_memory) : flashsrv_memory * reply :=
  reply_with (fun r => Crc r (match r with Ok crc => crc | Err _ => base end)) (on_memory (flashsrv_calcCrc32 (u32 (start + addr)) len base) m).

Definition flashsrv_devCtl (id : Z) (m : flashsrv_memory) (d : devctl) : flashsrv_memory * reply :=
  let total := size (ctx m) in
  if FLASH_MEMORIES_NO <=? u8 id then (m, Error EINVAL)
  else match d with
  | devctl_properties => (m, Properties total (page_size (ctx m)) (sector_size (ctx m)) 0)
  | devctl_sync => let '(c, r) := flash_sync (ctx m) in (set_ctx c m, count r)
  | devctl_eraseSector addr => if total <=? addr then (m, Error EINVAL) else ((on_memory (flash_sectorErase addr) m).1, Done 0)
  | devctl_erasePartition => ((on_memory flash_chipErase m).1, Done 0)
  | devctl_directWrite addr xs => if total <=? addr then (m, Error EINVAL) else reply_with count (on_memory (flash_directWrite addr xs) m)
  | devctl_directRead addr n => if total <=? addr then (m, Error EINVAL) else reply_with data (on_memory (flash_directRead addr n) m)
  | devctl_calcCrc32 addr len base =>
      if (addr =? 0) && (len =? 0) then crc_request 0 addr total base m
      else if total <? u32 (addr + len) then (m, Error EINVAL) else crc_request 0 addr len base m
  | devctl_other => (m, Error EINVAL)
  end.

Definition flashsrv_rawCtl (m : flashsrv_memory) (p : flashsrv_partition) (d : devctl) : flashsrv_memory * reply :=
  if negb (pStatus p) then (m, Error ENODEV)
  else match d with
  | devctl_properties => (m, Properties (p_size p) (page_size (ctx m)) (sector_size (ctx m)) (p_offset p))
  | devctl_sync => let '(c, r) := flash_sync (ctx m) in (set_ctx c m, count r)
  | devctl_eraseSector addr => if p_size p <=? addr then (m, Error EINVAL) else ((on_memory (flash_sectorErase (u32 (p_offset p + addr))) m).1, Done 0)
  | devctl_erasePartition => (erase_sectors (Z.to_nat (p_size p / sector_size (ctx m))) (p_offset p) m, Done 0)
  | devctl_directWrite addr xs => if p_size p <=? addr then (m, Error EINVAL) else reply_with count (on_memory (flash_directWrite (u32 (p_offset p + addr)) xs) m)
  | devctl_directRead addr n => if p_size p <=? addr then (m, Error EINVAL) else reply_with data (on_memory (flash_directRead (u32 (p_offset p + addr)) n) m)
  | devctl_calcCrc32 addr len base =>
      if (addr =? 0) && (len =? 0) then crc_request (p_offset p) addr (p_size p) base m
      else if p_size p <? u32 (addr + len) then (m, Error EINVAL) else crc_request (p_offset p) addr len base m
  | devctl_other => (m, Error EINVAL)
  end.

Definition hasAccess (p : flashsrv_partition) (pid : Z) : bool := (authProcPid p =? 0) || (authProcPid p =? pid).

(** The size that is left of a request, or the error. *)
Definition flashsrv_verifyRawIO (p : flashsrv_partition) (offs n : Z) : cres Z :=
  if negb (pStatus p) then Err ENODEV
  else if p_size p <=? off_cmp offs then Err EINVAL
  else if p_size p <? off_cmp (offs + n) then Ok (u32 (p_size p - offs)) else Ok n.

(** [flashsrv_rawThread]: a request of process [pid] to partition [id]. *)
Definition flashsrv_raw (id pid : Z) (q : request) (m : flashsrv_memory) : flashsrv_memory * reply :=
  match (if id <? zlen (parts m) then buf_get (parts m) id else None) with
  | None => (m, Error EINVAL)
  | Some p =>
      if negb (hasAccess p pid) then (m, Error (EOTHER 13))   (* EACCES *)
      else match q with
      | mtRead offs n =>
          match flashsrv_verifyRawIO p offs n with
          | Ok n => reply_with data (on_memory (flash_bufferedRead (u32 (p_offset p + offs)) n) m)
          | Err e => (m, Error e)
          end
      | mtWrite offs xs =>
          match flashsrv_verifyRawIO p offs (zlen xs) with
          | Ok n => reply_with count (on_memory (flash_bufferedWrite (u32 (p_offset p + offs)) (take (Z.to_nat n) xs)) m)
          | Err e => (m, Error e)
          end
      | mtDevCtl d => flashsrv_rawCtl m p d
      | mtOpen flags => (if (flags &&& (O_CREAT ||| O_EXCL)) =? O_EXCL then set_auth id pid m else m, Done 0)
      | mtClose => ((on_memory flash_sync (set_auth id 0 m)).1, Done 0)
      | mtSync => reply_with count (on_memory flash_sync m)
      | mtGetAttr true => (m, Attr (p_size p))
      | mtGetAttr false | mtOther => (m, Error ENOSYS)
      end
  end.

(** [flashsrv_devThread]: a request to object [id]. *)
Definition flashsrv_dev (id : Z) (q : request) (m : flashsrv_memory) : flashsrv_memory * reply :=
  match q with
  | mtRead offs n => reply_with data (on_memory (flash_bufferedRead (u32 offs) n) m)
  | mtWrite offs xs => reply_with count (on_memory (flash_bufferedWrite (u32 offs) xs) m)
  | mtDevCtl d => flashsrv_devCtl id m d
  | mtOpen _ | mtClose => (m, Done 0)
  | mtSync => reply_with count (on_memory flash_sync m)
  | mtGetAttr true => (m, Attr (size (ctx m)))
  | mtGetAttr false | mtOther => (m, Error ENOSYS)
  end.
End server.
End FlashSrv.
