(* ===== verification/FlashSrvCorrect.v ===== *)
(** * i.MX RT flash server: partitions

    Reads and writes of a raw partition stay within it and show its bytes; direct writes do
    not stay within it; checksums are those of the bytes on the chip. *)

From S2P Require Import Prelude Slices ErrState Nor Sectors FlashRt FlashRtCorrect FlashSrv.

Module FlashSrvCorrect.
Import Slices ErrState Nor Sectors FlashRt FlashRtCorrect FlashSrv.

Section server.
Context {N : Nor} {sz pg sc lim : Z} {L : NorLaws N sz pg sc lim} `{OffT} `{Platform}.
Implicit Types (c : flash_context) (m : flashsrv_memory) (p : flashsrv_partition).

(** ** Direct writes *)

Lemma page_rest a : 0 <= a -> a &&& (pg - 1) = a mod pg.
Proof. intros. destruct nor_sizes as [(j & Hj & Ej) _ _ _ _]. rewrite Ej. apply land_mask. done. Qed.

Lemma programmed_app o1 o2 x1 x2 : zlen o1 = zlen x1 -> programmed (o1 ++ o2) (x1 ++ x2) = programmed o1 x1 ++ programmed o2 x2.
Proof. unfold zlen, programmed. intros. apply zip_with_app. lia. Qed.

Lemma chunks_ok fuel : forall xs a c, (length xs <= fuel)%nat -> fits (sz := sz) (pg := pg) (sc := sc) c -> healthy (dev c) -> Forall is_byte xs -> 0 <= a -> a + zlen xs <= sz ->
  exists d, program_chunks fuel a xs c = (set_dev d c, Ok tt) /\ healthy d /\ bytes d = patch (bytes (dev c)) a (programmed (slice (bytes (dev c)) a (zlen xs)) xs).
Proof.
  destruct geo as (Hpg & _ & _ & Hsz & _). induction fuel as [|fuel IH]; intros xs a c Hf Hfit Hd Hb Ha Hend.
  { destruct xs; [|cbn in Hf; lia]. exists (dev c). rewrite set_dev_id. split; [done|]. split; [done|]. cbn. by rewrite patch_nil. }
  destruct xs as [|x0 xs0] eqn:Exs; [exists (dev c); rewrite set_dev_id; split; [done|]; split; [done|]; cbn; by rewrite patch_nil|]. rewrite <- Exs in *. assert (Hpos : 0 < zlen xs) by (subst xs; unfold zlen; cbn; lia).
  pose proof (bytes_size _ Hd) as Hz. pose proof (Z.mod_pos_bound a pg Hpg) as Hmod. set (n := Z.min (pg - a mod pg) (zlen xs)). assert (Hn : 0 < n <= zlen xs) by lia.
  pose proof (zlen_take xs n ltac:(lia)) as Ht. pose proof (zlen_drop xs n ltac:(lia)) as Hdr.
  destruct (program_law (dev c) a (take (Z.to_nat n) xs) Hd Ha) as (d1 & r & E1 & Hd1 & Eb1); [lia|lia|by apply Forall_take|].
  destruct (IH (drop (Z.to_nat n) xs) (a + n) (set_dev d1 c)) as (d2 & E2 & Hd2 & Eb2); [rewrite length_drop; lia|done|done|by apply Forall_drop|lia|lia|].
  assert (Estep : program_chunks (S fuel) a xs c = program_chunks fuel (a + n) (drop (Z.to_nat n) xs) (set_dev d1 c)).
  { rewrite Exs. cbn [program_chunks]. rewrite <- Exs. unfold mbind, M_bind, get, dev_program. destruct Hfit as (_ & Ep & _). rewrite Ep, page_rest by done. fold n. rewrite E1, u32_small by lia. done. }
  rewrite Estep, E2. exists d2. split; [done|]. split; [done|]. rewrite Eb2. cbn [dev set_dev]. rewrite Eb1, Hdr, Ht.
  set (o1 := slice (bytes (dev c)) a n). assert (Ho1 : zlen o1 = n) by (apply zlen_slice; lia). assert (Hp1 : zlen (programmed o1 (take (Z.to_nat n) xs)) = n) by (rewrite zlen_programmed; lia).
  rewrite slice_patch_out by lia. set (o2 := slice (bytes (dev c)) (a + n) (zlen xs - n)). rewrite <- Hp1 at 2. assert (zlen o2 = zlen xs - n) by (apply zlen_slice; lia).
  rewrite patch_app by (rewrite ?zlen_programmed; lia). f_equal. rewrite <- programmed_app, take_drop by lia. f_equal. unfold o1, o2. rewrite <- slice_app by lia. f_equal. lia.
Qed.

(** ** Checksums *)

Lemma crc_app crc l k : flashsrv_crc32Update crc (l ++ k) = flashsrv_crc32Update (flashsrv_crc32Update crc l) k.
Proof. apply foldl_app. Qed.

Lemma crc_ok (Hlim : 256 <= lim) fuel : forall a n crc c, (Z.to_nat n <= fuel)%nat -> fits (sz := sz) (pg := pg) (sc := sc) c -> healthy (dev c) -> 0 <= a -> 0 <= n -> a + n <= sz ->
  exists d, crc_loop fuel a n crc c = (set_dev d c, Ok (flashsrv_crc32Update crc (slice (bytes (dev c)) a n))) /\ healthy d /\ bytes d = bytes (dev c).
Proof.
  destruct geo as (_ & _ & _ & Hsz & _). induction fuel as [|fuel IH]; intros a n crc c Hf Hfit Hd Ha Hn Hend; cbn [crc_loop].
  { replace n with 0 by lia. exists (dev c). rewrite set_dev_id, slice_0. done. }
  destruct (0 <? n) eqn:E0; bsimp; [|replace n with 0 by lia; exists (dev c); rewrite set_dev_id, slice_0; done]. unfold CRC32_BUFSZ. set (k := if n <? 256 then n else 256). assert (Hk : 0 < k <= n /\ k <= 256) by (unfold k; case_if; bsimp; lia).
  destruct (directRead_ok c a k Hfit Hd Ha ltac:(lia) ltac:(lia)) as (d & E & Hd' & Eb). unfold mbind, M_bind. rewrite E. pose proof (bytes_size _ Hd) as Hz. rewrite zlen_slice, u32_small by lia.
  destruct (IH (a + k) (n - k) (flashsrv_crc32Update crc (slice (bytes (dev c)) a k)) (set_dev d c)) as (d2 & -> & Hd2 & Eb2); try done; try lia. exists d2. cbn [dev set_dev] in *. split; [|split; [done|congruence]].
  do 2 f_equal. rewrite Eb, <- crc_app, <- slice_app by lia. do 2 f_equal. lia.
Qed.

(** ** Partitions *)

(** A memory in service with its driver's invariant, and a partition within the chip that [pid] may use. *)
Record serves m (id pid : Z) p : Prop := {
  v_active : fStatus m = true;
  v_inv : inv (sz := sz) (pg := pg) (sc := sc) (ctx m);
  v_part : 0 <= id /\ buf_get (parts m) id = Some p;
  v_in : 0 <= p_offset p /\ 0 <= p_size p /\ p_offset p + p_size p <= sz;
  v_on : pStatus p = true;
  v_access : hasAccess p pid = true;
}.

Lemma raw_lookup m id p : 0 <= id -> buf_get (parts m) id = Some p -> (if id <? zlen (parts m) then buf_get (parts m) id else None) = Some p.
Proof.
  intros Hid E. pose proof E as E'. unfold buf_get in E'. rewrite bool_decide_eq_true_2 in E' by done. apply lookup_lt_Some in E'. rewrite (proj2 (Z.ltb_lt _ _)); [done|]. unfold zlen. lia.
Qed.

Lemma verify_ok m p offs n : pStatus p = true -> 0 <= offs < p_size p -> 0 <= n -> offs + n < 2 ^ 32 -> p_size p < 2 ^ 32 -> flashsrv_verifyRawIO p offs n = Ok (Z.min n (p_size p - offs)).
Proof.
  intros Hs Ho Hn Hw Hp. unfold flashsrv_verifyRawIO. rewrite Hs. cbn [negb]. assert (Ec : off_cmp offs = offs) by (unfold off_cmp; case_if; [done|apply u32_small; lia]). assert (Ec2 : off_cmp (offs + n) = offs + n) by (unfold off_cmp; case_if; [done|apply u32_small; lia]).
  rewrite Ec, Ec2, (proj2 (Z.leb_gt _ _)) by lia. case_if; bsimp; [rewrite u32_small by lia; f_equal; lia|f_equal; lia].
Qed.
End server.

(** C15: partitions. A write to a raw partition stores the bytes that fit in it, and nothing outside it changes; a read returns the
    partition's bytes that the request covers, and nothing changes; both are refused without any change to a process that the
    partition is closed to. Offset and length of a request must add up to less than 2^32; the write must not start within the
    last sector of the chip and not fill a sector with ones; the bytes that are read must be no more than the controller reads
    uncached ([lim], 0xffff for the i.MX RT). *)
Theorem flashsrv_partition_io {N : Nor} {sz pg sc lim} {L : NorLaws N sz pg sc lim} `{OffT} `{Platform} m id pid p offs :
  serves (sz := sz) (pg := pg) (sc := sc) m id pid p -> 0 <= offs < p_size p ->
  let a := p_offset p + offs in let l := logical (ctx m) in
  (forall xs n, n = Z.min (zlen xs) (p_size p - offs) -> offs + zlen xs < 2 ^ 32 -> Forall is_byte xs -> (0 < n -> a + sc <= sz) -> solid (sc := sc) (patch l a (take (Z.to_nat n) xs)) a n ->
     exists m', flashsrv_raw id pid (mtWrite offs xs) m = (m', Done n) /\ serves (sz := sz) (pg := pg) (sc := sc) m' id pid p /\ logical (ctx m') = patch l a (take (Z.to_nat n) xs) /\
       forall b k, 0 <= b -> 0 <= k -> b + k <= p_offset p \/ p_offset p + p_size p <= b -> slice (logical (ctx m')) b k = slice l b k) /\
  (forall n, 0 <= n -> offs + n < 2 ^ 32 -> Z.min n (p_size p - offs) <= lim ->
     exists m', flashsrv_raw id pid (mtRead offs n) m = (m', Bytes (slice (slice l (p_offset p) (p_size p)) offs (Z.min n (p_size p - offs)))) /\ serves (sz := sz) (pg := pg) (sc := sc) m' id pid p /\ logical (ctx m') = l) /\
  (forall pid' q, hasAccess p pid' = false -> flashsrv_raw id pid' q m = (m, Error (EOTHER 13))).
Proof.
  intros [Hact Hinv [Hid Hget] (Hp1 & Hp2 & Hp3) Hon Hacc] Ho a l. pose proof (raw_lookup m id p Hid Hget) as Hlk. destruct (geo (L := L)) as (_ & _ & _ & Hsz & _). assert (Ha : u32 (p_offset p + offs) = a) by (apply u32_small; lia).
  split; [|split].
  - intros xs n Hn Hw Hb Hroom Hs. pose proof (zlen_nonneg xs). unfold flashsrv_raw. rewrite Hlk, Hacc. cbn [negb]. rewrite (verify_ok m p offs (zlen xs)), <- Hn, Ha by (done || lia). pose proof (zlen_take xs n ltac:(lia)) as Ht.
    destruct (bufferedWrite_ok (ctx m) a (take (Z.to_nat n) xs) Hinv ltac:(lia) ltac:(lia) (Forall_take _ _ _ Hb)) as (c' & E & Hc' & Hl'); [rewrite Ht; intros; left; by apply Hroom|by rewrite Ht|].
    unfold on_memory, reply_with. rewrite Hact, E. cbn [fst snd count]. rewrite Ht. eexists. split; [done|]. split; [done|]. split; [exact Hl'|]. intros b k Hb0 Hk Hout. cbn. rewrite Hl'. pose proof (logical_size (ctx m) Hinv) as Hls. apply slice_patch_out; subst l; lia.
  - intros n Hn Hw Hlim. unfold flashsrv_raw. rewrite Hlk, Hacc. cbn [negb]. rewrite (verify_ok m p offs n), Ha by (done || lia). destruct (bufferedRead_ok (ctx m) a (Z.min n (p_size p - offs)) Hinv ltac:(lia) ltac:(lia) ltac:(lia)) as (d & E & Hd & Eb).
    unfold on_memory, reply_with. rewrite Hact, E. cbn [fst snd data]. eexists. destruct (moved_inv (ctx m) d Hinv Hd Eb) as [Hi Hl]. split; [by rewrite slice_slice by lia|]. split; [by constructor|done].
  - intros pid' q Hno. unfold flashsrv_raw. by rewrite Hlk, Hno.
Qed.

(** C36: direct writes leave the partition. A direct write that starts in a raw partition programs all its bytes, also those that fall
    behind the partition's end into the partitions that follow. *)
Theorem flashsrv_directWrite_spills {N : Nor} {sz pg sc lim} {L : NorLaws N sz pg sc lim} `{OffT} `{Platform} m id pid p addr xs :
  serves (sz := sz) (pg := pg) (sc := sc) m id pid p -> 0 <= addr < p_size p -> Forall is_byte xs -> p_offset p + addr + zlen xs <= sz ->
  exists m', flashsrv_raw id pid (mtDevCtl (devctl_directWrite addr xs)) m = (m', Done (zlen xs)) /\
    bytes (dev (ctx m')) = patch (bytes (dev (ctx m))) (p_offset p + addr) (programmed (slice (bytes (dev (ctx m))) (p_offset p + addr) (zlen xs)) xs).
Proof.
  intros [Hact Hinv [Hid Hget] (Hp1 & Hp2 & Hp3) Hon Hacc] Ha Hb Hend. destruct (geo (L := L)) as (_ & _ & _ & Hsz & _). pose proof (zlen_nonneg xs). unfold flashsrv_raw, flashsrv_rawCtl. rewrite (raw_lookup m id p Hid Hget), Hacc, Hon. cbn [negb].
  rewrite (proj2 (Z.leb_gt _ _)), u32_small by lia. destruct (chunks_ok (length xs) xs (p_offset p + addr) (ctx m) (le_n _) (i_size _ Hinv) (i_dev _ Hinv) Hb ltac:(lia) Hend) as (d & E & Hd & Eb).
  unfold on_memory, reply_with, flash_directWrite. unfold mbind, M_bind. rewrite Hact, E. eexists. split; [done|]. exact Eb.
Qed.

(** checksums. The checksum the server computes in pieces of 256 bytes is the CRC of the bytes that are on the chip in the
    range of the partition that is asked for, or in all of it for address and length 0; the chip is not changed. *)
Theorem flashsrv_crc_spec {N : Nor} {sz pg sc lim} {L : NorLaws N sz pg sc lim} `{OffT} `{Platform} m id pid p addr len base :
  256 <= lim -> serves (sz := sz) (pg := pg) (sc := sc) m id pid p -> 0 <= addr -> 0 <= len -> addr + len <= p_size p ->
  let n := if (addr =? 0) && (len =? 0) then p_size p else len in let crc := flashsrv_crc32Update base (slice (bytes (dev (ctx m))) (p_offset p + addr) n) in
  exists m', flashsrv_raw id pid (mtDevCtl (devctl_calcCrc32 addr len base)) m = (m', Crc (Ok crc) crc) /\ bytes (dev (ctx m')) = bytes (dev (ctx m)).
Proof.
  intros Hlim [Hact Hinv [Hid Hget] (Hp1 & Hp2 & Hp3) Hon Hacc] Ha Hn Hend n crc. destruct (geo (L := L)) as (_ & _ & _ & Hsz & _). unfold flashsrv_raw, flashsrv_rawCtl. rewrite (raw_lookup m id p Hid Hget), Hacc, Hon. cbn [negb].
  assert (Hr : 0 <= n /\ addr + n <= p_size p) by (unfold n; case_if; bsimp; lia). destruct (crc_ok Hlim (Z.to_nat n) (p_offset p + addr) n base (ctx m) (le_n _) (i_size _ Hinv) (i_dev _ Hinv) ltac:(lia) ltac:(lia) ltac:(lia)) as (d & E & Hd & Eb).
  assert (Hreq : crc_request (p_offset p) addr n base m = (set_ctx (set_dev d (ctx m)) m, Crc (Ok crc) crc)).
  { unfold crc_request, flashsrv_calcCrc32, on_memory, reply_with. rewrite u32_small, Hact, E by lia. done. }
  exists (set_ctx (set_dev d (ctx m)) m). split; [|exact Eb]. unfold n in *. destruct ((addr =? 0) && (len =? 0)); [done|]. rewrite u32_small, (proj2 (Z.ltb_ge _ _)) by lia. done.
Qed.
End FlashSrvCorrect.
