(* ===== verification/NorChip.v ===== *)
(** * NOR chips behind the FlexSPI controller ([src/storage/imxrt-flash/nor.c, fspi.c])

    The commands of a serial NOR chip. [flexspi_xferExec] sends a transfer through the
    registers and FIFOs of the controller, but serves a read of more than 0xffff bytes from the
    memory window of the AHB bus, which may be cached, and refuses a longer write. The
    controller with the chip behind it is the class [FlexSpi]: an IP transfer ([ip_xfer], with
    the register accesses, polls and FIFO copies that make it up) and a read of the window
    ([ahb_read]). What data sheets promise of IP transfers is the class [FlexSpiLaws]; nothing is
    promised of the window, whose cache the driver never invalidates. [nor_chip] is the
    implementation of the interface [Nor]. [nor_waitBusy] has no bound in the code: with the
    fuel [patience] spent the functions are [None]. *)

From S2P Require Import Prelude Slices Nor.

Module NorChip.
Import Slices Nor.

(** ** The controller ([fspi.h]) *)

(** The sequences of [nor.h] that are used. *)
Inductive seq := fspi_readData | fspi_readStatus | fspi_writeEnable | fspi_writeDisable | fspi_eraseSector | fspi_eraseChip | fspi_programQPP | fspi_readID.

Inductive xferOp := xfer_opCommand (seqIdx : seq) (addr : Z) | xfer_opWrite (seqIdx : seq) (addr : Z) (ptr : list Z) | xfer_opRead (seqIdx : seq) (addr sz : Z).

Class FlexSpi := {
  bus : Type;
  (** The bytes that are read, and the result; a read that succeeds has filled its buffer. *)
  ip_xfer : bus -> xferOp -> bus * list Z * cres Z;
  (** [memcpy] from [fspi->ahbAddr + addr]. *)
  ahb_read : bus -> Z -> Z -> bus * list Z;
  flexspi_schedYield : bus -> bus;
}.

(** The size of an IP transfer has 16 bits. *)
Definition IP_MAX : Z := 0xffff.

Definition flexspi_xferExec {F : FlexSpi} (b : bus) (x : xferOp) : bus * list Z * cres Z :=
  match x with
  | xfer_opRead _ addr sz => if IP_MAX <? sz then let '(b, l) := ahb_read b addr sz in (b, l, Ok sz) else ip_xfer b x
  | xfer_opWrite _ _ ptr => if IP_MAX <? zlen ptr then (b, [], Err EPERM) else ip_xfer b x
  | xfer_opCommand _ _ => ip_xfer b x
  end.

(** ** Chips that are known *)

Record nor_info := mk_info { jedecId : Z; totalSz : Z; pageSz : Z; sectorSz : Z }.

Definition FLASH_ID (vid pid : Z) : Z := (vid &&& 0xff) ||| (pid &&& 0xff00) ||| ((pid &&& 0xff) <<< 16).

Definition known (vid pid mb : Z) : nor_info := mk_info (FLASH_ID vid pid) (mb * 1024 * 1024) 0x100 0x1000.
Definition flashInfo : list nor_info := [
  (* Winbond *)
  known 0xef 0x4015 2; known 0xef 0x4016 4; known 0xef 0x4017 8; known 0xef 0x4018 16;
  known 0xef 0x4019 32; known 0xef 0x6019 32; known 0xef 0x8019 32; known 0xef 0x6020 64;
  (* ISSI *)
  known 0x9d 0x7016 4; known 0x9d 0x7017 8; known 0x9d 0x7018 16; known 0x9d 0x7019 32; known 0x9d 0x6019 32;
  (* Micron *)
  known 0x20 0xba19 32; known 0x20 0xba20 64; known 0x20 0xba21 128; known 0x20 0xba22 256;
  (* Macronix *)
  known 0xc2 0x2016 4].

Inductive vendor := Winbond | Micron | ISSI | Macronix | Unknown.
Definition nor_vendors : list (Z * vendor) := [(0xef, Winbond); (0x20, Micron); (0x9d, ISSI); (0xc2, Macronix)].

Section commands.
Context {F : FlexSpi} (patience : nat).

(** ** Sequences of transfers; [None] for a loop that does not end *)

Definition C (A : Type) : Type := bus -> bus * option (cres A).
#[export] Instance C_ret : MRet C := fun A a b => (b, Some (Ok a)).
#[export] Instance C_bind : MBind C := fun A B k m b => match m b with (b, Some (Ok a)) => k a b | (b, Some (Err e)) => (b, Some (Err e)) | (b, None) => (b, None) end.

Definition raise {A} (e : errno) : C A := fun b => (b, Some (Err e)).
Definition exec (x : xferOp) : C (list Z) := fun b => let '(b, l, r) := flexspi_xferExec b x in (b, Some (match r with Ok _ => Ok l | Err e => Err e end)).
Definition yield : C unit := fun b => (flexspi_schedYield b, Some (Ok tt)).

(** A [uint32_t] or [uint8_t] that was 0, filled from its first byte on. *)
Definition little_endian (l : list Z) : Z := foldr (fun x n => x + 256 * n) 0 l.

Definition nor_readID : C Z := l ← exec (xfer_opRead fspi_readID 0 3); mret (little_endian l).
Definition nor_readStatus : C Z := l ← exec (xfer_opRead fspi_readStatus 0 1); mret (little_endian l).

Fixpoint wait_loop (fuel : nat) : C unit :=
  match fuel with
  | O => fun b => (b, None)
  | S fuel => status ← nor_readStatus; if has status 1 then (_ ← yield; wait_loop fuel) else mret tt
  end.
Definition nor_waitBusy : C unit := wait_loop patience.

Definition nor_writeEnable (enable : bool) : C unit :=
  _ ← nor_waitBusy;
  _ ← exec (xfer_opCommand (if enable then fspi_writeEnable else fspi_writeDisable) 0);
  status ← nor_readStatus;
  if bool_decide ((status >>> 1) &&& 1 = Z.b2z enable) then mret tt else raise (EOTHER 13).   (* EACCES *)

(** The commands of [Nor.v]; the results of the C functions are [EOK]. *)
Definition eraseSector (addr : Z) : C unit := _ ← nor_writeEnable true; _ ← exec (xfer_opCommand fspi_eraseSector addr); nor_waitBusy.
Definition eraseChip : C unit := _ ← nor_writeEnable true; _ ← exec (xfer_opCommand fspi_eraseChip 0); nor_waitBusy.
Definition pageProgram (dstAddr : Z) (src : list Z) : C unit := _ ← nor_writeEnable true; _ ← exec (xfer_opWrite fspi_programQPP dstAddr src); nor_waitBusy.
Definition readData (addr size : Z) (b : bus) : bus * list Z * cres Z := flexspi_xferExec b (xfer_opRead fspi_readData addr size).

(** [nor_probe], with both pointers given. *)
Definition nor_probe : C (nor_info * vendor) :=
  id ← nor_readID;
  match list_find (fun i => jedecId i = id) flashInfo with
  | None => raise (EOTHER 6)   (* ENXIO *)
  | Some (_, info) => mret (info, match list_find (fun v => v.1 = id &&& 0xff) nor_vendors with Some (_, (_, v)) => v | None => Unknown end)
  end.

(** A command as the interface has it; one that does not end is no success. *)
Definition finish (r : bus * option (cres unit)) : bus * cres Z :=
  (r.1, match r.2 with Some (Ok _) => Ok 0 | Some (Err e) => Err e | None => Err (EOTHER 0) end).

#[export] Instance nor_chip : Nor := {|
  chip := bus;
  nor_readData b a n := readData a n b;
  nor_pageProgram b a xs := finish (pageProgram a xs b);
  nor_eraseSector b a := finish (eraseSector a b);
  nor_eraseChip b := finish (eraseChip b);
|}.
End commands.

(** ** Traces of transfers *)

Definition event : Type := xferOp * list Z * cres Z.
#[export] Instance traced (F : FlexSpi) : FlexSpi := {|
  bus := @bus F * list event;
  ip_xfer s x := let '(b, l, r) := ip_xfer s.1 x in ((b, s.2 ++ [(x, l, r)]), l, r);
  ahb_read s a n := let '(b, l) := ahb_read s.1 a n in ((b, s.2 ++ [(xfer_opRead fspi_readData a n, l, Ok n)]), l);
  flexspi_schedYield s := (flexspi_schedYield s.1, s.2);
|}.

(** ** What data sheets promise of IP transfers

    The contents of the chip (of a busy chip, those it will have), how often its status will
    still be read as busy, and its write enable latch. *)
Class FlexSpiLaws (F : FlexSpi) (size page sector : Z) (patience : nat) := {
  mem : bus -> list Z;
  busy : bus -> nat;
  wel : bus -> bool;
  good : bus -> Prop;
  chip_sizes : sizes size page sector;
  ip_sector : sector <= IP_MAX;
  patient : (0 < patience)%nat;
  mem_size b : good b -> zlen (mem b) = size;
  mem_byte b : good b -> Forall is_byte (mem b);
  status_law b : good b -> exists b' s, ip_xfer b (xfer_opRead fspi_readStatus 0 1) = (b', [s], Ok 1) /\ good b' /\ mem b' = mem b /\ busy b' = pred (busy b) /\
    has s 1 = negb (Nat.eqb (busy b) 0) /\ (busy b = O -> wel b' = wel b /\ (s >>> 1) &&& 1 = Z.b2z (wel b));
  yield_law b : good b -> good (flexspi_schedYield b) /\ mem (flexspi_schedYield b) = mem b /\ (busy (flexspi_schedYield b) <= busy b)%nat;
  enable_law b : good b -> busy b = O -> exists b' l r, ip_xfer b (xfer_opCommand fspi_writeEnable 0) = (b', l, Ok r) /\ good b' /\ mem b' = mem b /\ busy b' = O /\ wel b' = true;
  data_law b a n : good b -> busy b = O -> 0 <= a -> 0 <= n <= IP_MAX -> a + n <= size ->
    exists b', ip_xfer b (xfer_opRead fspi_readData a n) = (b', slice (mem b) a n, Ok n) /\ good b' /\ mem b' = mem b /\ busy b' = O;
  qpp_law b a xs : good b -> busy b = O -> wel b = true -> 0 <= a -> a + zlen xs <= size -> a mod page + zlen xs <= page -> Forall is_byte xs ->
    exists b' l r, ip_xfer b (xfer_opWrite fspi_programQPP a xs) = (b', l, Ok r) /\ good b' /\ mem b' = patch (mem b) a (programmed (slice (mem b) a (zlen xs)) xs) /\ (busy b' < patience)%nat;
  sector_law b a : good b -> busy b = O -> wel b = true -> 0 <= a < size -> a mod sector = 0 ->
    exists b' l r, ip_xfer b (xfer_opCommand fspi_eraseSector a) = (b', l, Ok r) /\ good b' /\ mem b' = patch (mem b) a (erased sector) /\ (busy b' < patience)%nat;
  chip_law b : good b -> busy b = O -> wel b = true ->
    exists b' l r, ip_xfer b (xfer_opCommand fspi_eraseChip 0) = (b', l, Ok r) /\ good b' /\ mem b' = erased size /\ (busy b' < patience)%nat;
}.
End NorChip.
