(* ===== verification/NorChipCorrect.v ===== *)
(** * NOR chips behind the FlexSPI controller: the commands keep the protocol and the contract

    On a controller and chip with the laws of their data sheets, the commands of [nor.c]
    end, and satisfy the laws the flash driver is proved against; on any hardware, however it
    answers, no command that changes the chip is sent without an idle status and a latched
    write enable before it. *)

From S2P Require Import Prelude Slices ByteArray Nor NorChip FlashRt FlashRtCorrect.

Module NorChipCorrect.
Import Slices ByteArray Nor NorChip.

(** ** The contract *)

Section contract.
Context {F : FlexSpi} {sz pg sc : Z} {patience : nat} {L : FlexSpiLaws F sz pg sc patience}.
Implicit Types b : bus.

(** What a step of a command may change: nothing, and the chip is idle afterwards. *)
Definition kept (b b' : bus) : Prop := good b' /\ mem b' = mem b /\ busy b' = O.

Lemma little_endian_1 s : little_endian [s] = s.
Proof. unfold little_endian. cbn [foldr]. lia. Qed.

Lemma status_ok b : good b -> exists b' s, nor_readStatus b = (b', Some (Ok s)) /\ good b' /\ mem b' = mem b /\ busy b' = pred (busy b) /\
  has s 1 = negb (Nat.eqb (busy b) 0) /\ (busy b = O -> wel b' = wel b /\ (s >>> 1) &&& 1 = Z.b2z (wel b)).
Proof.
  intros Hb. destruct (status_law b Hb) as (b' & s & E & H). exists b', s. split; [|exact H]. unfold nor_readStatus. unfold mbind, C_bind, exec, flexspi_xferExec. change (IP_MAX <? 1) with false. cbv iota. rewrite E. cbn [mret]. unfold C_ret. by rewrite little_endian_1.
Qed.

Lemma wait_ok fuel : forall b, good b -> (busy b < fuel)%nat -> exists b', wait_loop fuel b = (b', Some (Ok tt)) /\ kept b b'.
Proof.
  induction fuel as [|fuel IH]; intros b Hb Hf; [lia|]. cbn [wait_loop]. unfold mbind at 1, C_bind at 1. destruct (status_ok b Hb) as (b1 & s & -> & Hb1 & Hm1 & Hk1 & Hs & _). rewrite Hs.
  destruct (busy b) as [|k] eqn:Ek; cbn [Nat.eqb negb]; [by exists b1|]. unfold mbind, C_bind, yield. destruct (yield_law b1 Hb1) as (Hb2 & Hm2 & Hk2).
  destruct (IH (flexspi_schedYield b1) Hb2 ltac:(cbn in *; lia)) as (b' & -> & Hg & Hm & Hz). exists b'. split; [done|]. split; [done|]. split; [congruence|done].
Qed.

Lemma enable_ok b : good b -> (busy b < patience)%nat -> exists b', nor_writeEnable patience true b = (b', Some (Ok tt)) /\ kept b b' /\ wel b' = true.
Proof.
  intros Hb Hf. destruct (wait_ok patience b Hb Hf) as (b1 & E1 & Hg1 & Hm1 & Hz1). destruct (enable_law b1 Hg1 Hz1) as (b2 & l & r & E2 & Hg2 & Hm2 & Hz2 & Hw2). destruct (status_ok b2 Hg2) as (b3 & s & E3 & Hg3 & Hm3 & Hz3 & _ & Hs). destruct (Hs Hz2) as [Hw3 Hbit].
  exists b3. unfold nor_writeEnable, nor_waitBusy, mbind, C_bind, exec. rewrite E1. change (flexspi_xferExec b1 (xfer_opCommand fspi_writeEnable 0)) with (ip_xfer b1 (xfer_opCommand fspi_writeEnable 0)). rewrite E2, E3, Hbit, Hw2. split; [done|]. split; [|congruence]. split; [done|]. split; [congruence|]. by rewrite Hz3, Hz2.
Qed.

(** A command that changes the contents: write enable, the transfer, the wait. *)
Lemma command_ok b x (P : list Z -> Prop) : good b -> (busy b < patience)%nat ->
  (forall b1, kept b b1 -> wel b1 = true -> exists b2 l r, flexspi_xferExec b1 x = (b2, l, Ok r) /\ good b2 /\ P (mem b2) /\ (busy b2 < patience)%nat) ->
  exists b', finish ((_ ← nor_writeEnable patience true; _ ← exec x; nor_waitBusy patience) b) = (b', Ok 0) /\ (good b' /\ busy b' = O) /\ P (mem b').
Proof.
  intros Hb Hf Hx. destruct (enable_ok b Hb Hf) as (b1 & E1 & Hk1 & Hw1). destruct (Hx b1 Hk1 Hw1) as (b2 & l & r & E2 & Hg2 & Hp & Hf2). destruct (wait_ok patience b2 Hg2 Hf2) as (b3 & E3 & Hg3 & Hm3 & Hz3).
  exists b3. unfold mbind, C_bind, exec, nor_waitBusy, finish. rewrite E1, E2, E3. split; [done|]. split; [done|]. by rewrite Hm3.
Qed.

(** What is programmed at once is short enough for a transfer. *)
Lemma page_ip a n : a mod pg + n <= pg -> n <= IP_MAX.
Proof.
  intros Hn. destruct chip_sizes as [(j & Hj & Ej) (k & Hk & Ek) Hd _ _]. pose proof ip_sector. assert (0 < pg) by (rewrite Ej; apply Z.pow_pos_nonneg; lia). assert (0 < sc) by (rewrite Ek; apply Z.pow_pos_nonneg; lia).
  pose proof (Z.mod_pos_bound a pg ltac:(lia)). apply Z.divide_pos_le in Hd; lia.
Qed.

#[export, refine] Instance nor_chip_laws : NorLaws (nor_chip patience) sz pg sc IP_MAX := {|
  bytes := fun b : @chip (nor_chip patience) => mem (b : bus);
  healthy := fun b : @chip (nor_chip patience) => good (b : bus) /\ busy (b : bus) = O;
|}.
Proof.
  all: pose proof patient as Hp.
  - apply chip_sizes.
  - apply ip_sector.
  - intros c [Hc _]. by apply mem_size.
  - intros c [Hc _]. by apply mem_byte.
  - intros c a n [Hc Hz] Ha Hn Hend. destruct (data_law c a n Hc Hz Ha Hn Hend) as (c' & E & Hc' & Hm & Hz'). exists c'. cbn. unfold readData, flexspi_xferExec. by rewrite (proj2 (Z.ltb_ge _ _)) by lia.
  - intros c a xs [Hc Hz] Ha Hend Hpg Hx. destruct (command_ok c (xfer_opWrite fspi_programQPP a xs) (eq (patch (mem c) a (programmed (slice (mem c) a (zlen xs)) xs))) Hc) as (c' & E & Hh & Hm); [by rewrite Hz| |by exists c', 0].
    intros b1 (Hg1 & Hm1 & Hz1) Hw1. destruct (qpp_law b1 a xs) as (b2 & l & r & E & Hg2 & Hm2 & Hf2); try done. exists b2, l, r. cbn [flexspi_xferExec]. rewrite (proj2 (Z.ltb_ge _ _)) by (by apply page_ip with (a := a)). by rewrite Hm2, Hm1.
  - intros c a [Hc Hz] Ha Hmod. destruct (command_ok c (xfer_opCommand fspi_eraseSector a) (eq (patch (mem c) a (erased sc))) Hc) as (c' & E & Hh & Hm); [by rewrite Hz| |by exists c', 0].
    intros b1 (Hg1 & Hm1 & Hz1) Hw1. destruct (sector_law b1 a) as (b2 & l & r & E & Hg2 & Hm2 & Hf2); try done. exists b2, l, r. by rewrite Hm2, Hm1.
  - intros c [Hc Hz]. destruct (command_ok c (xfer_opCommand fspi_eraseChip 0) (eq (erased sz)) Hc) as (c' & E & Hh & Hm); [by rewrite Hz| |by exists c', 0].
    intros b1 (Hg1 & Hm1 & Hz1) Hw1. destruct (chip_law b1) as (b2 & l & r & E & Hg2 & Hm2 & Hf2); try done. by exists b2, l, r.
Defined.
End contract.

(** ** The protocol *)

Section protocol.
Context {F : FlexSpi} (patience : nat).
Local Notation T := (@bus (traced F)).

(** Transfers that start a change of the contents. *)
Definition modifies (x : xferOp) : bool :=
  match x with xfer_opWrite _ _ _ => true | xfer_opCommand (fspi_eraseSector | fspi_eraseChip) _ => true | _ => false end.

Local Notation status_read := (xfer_opRead fspi_readStatus 0 1).

(** The last transfers found the chip idle, enabled writing, and found the latch set. *)
Definition ready (t : list event) : Prop := exists t' l0 n0 l1 n1 l2 n2,
  t = t' ++ [(status_read, l0, Ok n0); (xfer_opCommand fspi_writeEnable 0, l1, Ok n1); (status_read, l2, Ok n2)] /\ has (little_endian l0) 1 = false /\ has (little_endian l2) 2 = true.

Definition guarded (t : list event) : Prop := forall pre x l r post, t = pre ++ (x, l, r) :: post -> modifies x = true -> ready pre.

Lemma guarded_snoc t x l r : guarded t -> (modifies x = true -> ready t) -> guarded (t ++ [(x, l, r)]).
Proof.
  intros Ht Hx pre x' l' r' post E Hm. destruct post as [|e post] using rev_ind.
  - apply app_inj_tail in E as [-> [= -> -> ->]]. by apply Hx.
  - clear IHpost. rewrite app_comm_cons, app_assoc in E. apply app_inj_tail in E as [-> _]. by apply (Ht pre x' l' r' post).
Qed.

(** The state after a command, and the trace if it succeeded. *)
Definition leaves {A} (r : T * option (cres A)) (Q : A -> list event -> Prop) : Prop :=
  guarded r.1.2 /\ match r.2 with Some (Ok a) => Q a r.1.2 | _ => True end.

Lemma leaves_bind {A B} (m : @C (traced F) A) (k : A -> @C (traced F) B) s Q R :
  leaves (m s) Q -> (forall a s', guarded s'.2 -> Q a s'.2 -> leaves (k a s') R) -> leaves ((m ≫= k) s) R.
Proof. intros [Hg Hq] Hk. unfold mbind, C_bind. destruct (m s) as [s' [[a|e]|]]; [by apply Hk|done..]. Qed.

Lemma leaves_ret {A} (a : A) (s : T) (Q : A -> list event -> Prop) : guarded s.2 -> Q a s.2 -> leaves ((mret a : @C (traced F) A) s) Q.
Proof. done. Qed.

(** Only data are read through the window. *)
Definition sendable (x : xferOp) : Prop := match x with xfer_opRead q _ n => n <= IP_MAX \/ q = fspi_readData | _ => True end.

(** A transfer is sent, and recorded, or refused. *)
Lemma exec_cases (s : T) x : sendable x -> (exists b l r, flexspi_xferExec (F := traced F) s x = ((b, s.2 ++ [(x, l, r)]), l, r)) \/ exists e, flexspi_xferExec (F := traced F) s x = (s, [], Err e).
Proof.
  assert (Hip : exists b l r, ip_xfer (FlexSpi := traced F) s x = ((b, s.2 ++ [(x, l, r)]), l, r)) by (cbn; destruct (ip_xfer s.1 x) as [[b l] r]; by exists b, l, r).
  intros Hq. unfold flexspi_xferExec. destruct x as [q a|q a p|q a n]; [by left|case_if; [right; by eexists|by left]|]. case_if; bsimp; [|by left]. destruct Hq as [?| ->]; [lia|]. left. cbn. destruct (ahb_read s.1 a n) as [b l]. eexists b, l, _. reflexivity.
Qed.

Lemma leaves_exec x (s : T) : sendable x -> guarded s.2 -> (modifies x = true -> ready s.2) -> leaves (exec x s) (fun l t => exists n, t = s.2 ++ [(x, l, Ok n)]).
Proof.
  intros Hs Hg Hx. unfold exec. destruct (exec_cases s x Hs) as [(b & l & r & ->)|(e & ->)]; [|done]. split; [by apply guarded_snoc|]. destruct r as [n|]; [by exists n|done].
Qed.

Lemma leaves_status (s : T) : guarded s.2 -> leaves (nor_readStatus s) (fun v t => exists l n, t = s.2 ++ [(status_read, l, Ok n)] /\ v = little_endian l).
Proof.
  intros Hg. eapply leaves_bind; [apply leaves_exec; [left; unfold IP_MAX; lia|done..]|]. intros l s' Hg' [n E]. apply leaves_ret; [done|]. by exists l, n.
Qed.

Definition idle (t : list event) : Prop := exists t' l n, t = t' ++ [(status_read, l, Ok n)] /\ has (little_endian l) 1 = false.

Lemma leaves_wait fuel : forall s : T, guarded s.2 -> leaves (wait_loop fuel s) (fun _ t => idle t).
Proof.
  induction fuel as [|fuel IH]; intros s Hg; [done|]. cbn [wait_loop]. eapply leaves_bind; [by apply leaves_status|]. intros v s' Hg' (l & n & E & ->). destruct (has (little_endian l) 1) eqn:Eb.
  - unfold mbind, C_bind, yield. by apply IH.
  - apply leaves_ret; [done|]. by exists s.2, l, n.
Qed.

Lemma latch_bit v : (v >>> 1) &&& 1 = 1 -> has v 2 = true.
Proof.
  intros E. unfold has. apply negb_true_iff, Z.eqb_neq. intros Hz. assert (Ht : Z.testbit v 1 = true). { apply (f_equal (fun z => Z.testbit z 0)) in E. rewrite Z.land_spec, Z.shiftr_spec, andb_true_r in E by lia. exact E. }
  apply (f_equal (fun z => Z.testbit z 1)) in Hz. rewrite Z.land_spec, Ht in Hz. discriminate.
Qed.

Lemma leaves_enable (s : T) : guarded s.2 -> leaves (nor_writeEnable patience true s) (fun _ t => ready t).
Proof.
  intros Hg. eapply leaves_bind; [by apply leaves_wait|]. intros _ s1 Hg1 (t' & l0 & n0 & E1 & H0). eapply leaves_bind; [by apply leaves_exec|]. intros l1 s2 Hg2 [n1 E2].
  eapply leaves_bind; [by apply leaves_status|]. intros v s3 Hg3 (l2 & n2 & E3 & ->). case_bool_decide as Hb; [|done]. apply leaves_ret; [done|]. exists t', l0, n0, l1, n1, l2, n2. rewrite E3, E2, E1, <- !app_assoc. split; [done|]. split; [done|]. by apply latch_bit.
Qed.

Lemma leaves_command x (s : T) : sendable x -> guarded s.2 -> leaves ((_ ← nor_writeEnable patience true; _ ← exec x; nor_waitBusy patience) s) (fun _ _ => True).
Proof.
  intros Hs Hg. eapply leaves_bind; [by apply leaves_enable|]. intros u s1 Hg1 Hr. eapply leaves_bind; [by apply leaves_exec|]. intros l s2 Hg2 _. destruct (leaves_wait patience s2 Hg2) as [H _]. split; [exact H|]. by repeat case_match.
Qed.

(** Any sequence of commands, whatever their results. *)
Inductive command := EraseSector (a : Z) | EraseChip | PageProgram (a : Z) (xs : list Z) | ReadData (a n : Z) | Probe.
Definition issue (c : command) (s : T) : T :=
  match c with
  | EraseSector a => (nor_eraseSector (Nor := nor_chip patience) s a).1
  | EraseChip => (nor_eraseChip (Nor := nor_chip patience) s).1
  | PageProgram a xs => (nor_pageProgram (Nor := nor_chip patience) s a xs).1
  | ReadData a n => (nor_readData (Nor := nor_chip patience) s a n).1.1
  | Probe => (nor_probe s).1
  end.

Lemma issue_guarded c (s : T) : guarded s.2 -> guarded (issue c s).2.
Proof.
  intros Hg. destruct c as [a| |a xs|a n|]; cbn [issue nor_chip nor_eraseSector nor_eraseChip nor_pageProgram nor_readData finish fst]; try apply leaves_command; try done.
  - unfold readData. destruct (exec_cases s (xfer_opRead fspi_readData a n) (or_intror eq_refl)) as [(b & l & r & ->)|(e & ->)]; [by apply guarded_snoc|done].
  - apply (leaves_bind nor_readID _ s (fun _ _ => True) (fun _ _ => True)).
    + eapply leaves_bind; [apply leaves_exec; [left; unfold IP_MAX; lia|done..]|]. intros l s' Hg' _. by apply leaves_ret.
    + intros id s' Hg' _. by destruct (list_find _ _) as [[i info]|].
Qed.
End protocol.

(** ** Chips of the table *)

Lemma table_ids : NoDup (jedecId <$> flashInfo).
Proof. apply (bool_decide_unpack _). vm_compute. exact I. Qed.

Lemma table_find i info : flashInfo !! i = Some info -> exists j, list_find (fun k => jedecId k = jedecId info) flashInfo = Some (j, info).
Proof.
  intros Hi. destruct (list_find_elem_of (fun k => jedecId k = jedecId info) flashInfo info) as [[j k] E]; [by eapply list_elem_of_lookup_2|done|]. exists j. rewrite E. do 2 f_equal.
  apply list_find_Some in E as (Hj & Ek & _). assert (Hij : i = j). { eapply (NoDup_lookup _ _ _ _ table_ids); rewrite list_lookup_fmap; [by rewrite Hi|by rewrite Hj; cbn; rewrite Ek]. } subst j. congruence.
Qed.

(** C16: the protocol of the chip. On any controller and chip, however they answer, and in every sequence of reads, programs,
    erases and probes: each transfer that starts a program or an erase directly follows a status read that found the chip idle,
    a write enable, and a status read that found the write enable latch set. *)
Theorem nor_protocol (F : FlexSpi) patience cs b : guarded (foldl (fun s c => issue patience c s) (b, []) cs).2.
Proof.
  assert (H : forall s : @bus (traced F), guarded s.2 -> guarded (foldl (fun s c => issue patience c s) s cs).2).
  { induction cs as [|c cs IH]; intros s Hs; [done|]. cbn [foldl]. by apply IH, issue_guarded. }
  apply H. intros [|] ????; discriminate.
Qed.

(** C14: from probe to shutdown. On a controller and chip with the laws of their data sheets, where the chip has the identity and
    the sizes of an entry of the table: the probe finds the entry, the driver it initialises has its invariant, every sound
    sequence of buffered reads, writes and syncs has the results it has on the contents of the chip as an array of bytes, and
    when the driver is destroyed the chip has the contents of that array; every wait for the chip ends. Sound are reads of at most
    0xffff bytes, which are IP transfers (longer ones read the window of the AHB bus, which may be cached), and writes that do not
    start within the last sector and fill no sector with ones. *)
Theorem nor_flash_refines (F : FlexSpi) patience i info (L : FlexSpiLaws F (totalSz info) (pageSz info) (sectorSz info) patience) b b' id :
  flashInfo !! i = Some info -> good b -> busy b = O ->
  flexspi_xferExec b (xfer_opRead fspi_readID 0 3) = (b', id, Ok 3) -> little_endian id = jedecId info -> kept b b' ->
  exists v (c : FlashRt.flash_context (N := nor_chip patience)), nor_probe b = (b', Some (Ok (info, v))) /\
    FlashRt.flash_init (N := nor_chip patience) (Ok (totalSz info, pageSz info, sectorSz info)) true b' = Ok c /\ FlashRtCorrect.inv (L := nor_chip_laws) c /\
    forall os, all_sound (FlashRtCorrect.sound (sz := totalSz info) (sc := sectorSz info) (lim := IP_MAX)) os (mem b) ->
      exists c', session FlashRtCorrect.perform os c = (c', (bytes_session os (mem b)).2) /\ mem (FlashRt.flash_contextDestroy c' : bus) = (bytes_session os (mem b)).1.
Proof.
  intros Hi Hg Hz Hid Hle (Hg' & Hm' & Hz'). destruct (table_find i info Hi) as [j Ej]. eexists _, _. split; [|split; [reflexivity|]].
  { unfold nor_probe, nor_readID. unfold mbind, C_bind, exec, mret, C_ret. rewrite Hid. cbv beta iota. rewrite Hle, Ej. reflexivity. }
  set (c := FlashRt.mk_ctx _ _ _ _ _ _ _). assert (Hc : FlashRtCorrect.inv (L := nor_chip_laws) c).
  { constructor; try done; [|apply erased_byte|by left]. apply zlen_erased. destruct chip_sizes as [_ (k & Hk & ->) _ _ _]. apply Z.pow_nonneg. lia. }
  split; [exact Hc|]. intros os Hs. rewrite <- Hm' in Hs |- *. destruct (FlashRtCorrect.flash_session (L := nor_chip_laws) os c Hc Hs) as (c' & E & _ & _ & Eb). by exists c'.
Qed.
End NorChipCorrect.
