(* ===== verification/FlashWitness.v ===== *)
(** * i.MX RT flash: witnesses

    A chip of 16 bytes with pages of two and sectors of four, and a server with two
    partitions on it, at which the theorems on the flash driver and server apply; a chip behind
    a controller that obeys its data sheet. *)

From S2P Require Import Prelude Slices ErrState ByteArray Nor Sectors FlashRt FlashRtCorrect FlashSrv FlashSrvCorrect NorChip NorChipCorrect.

Module FlashWitness.
Import Slices ErrState ByteArray Nor Sectors FlashRt FlashRtCorrect FlashSrv FlashSrvCorrect.

Lemma small : sizes 16 2 4.
Proof.
  constructor; [exists 1; lia|exists 2; lia|exists 2; lia|exists 4; lia|lia].
Qed.

#[local] Instance N16 : Nor := ideal 16 4.
Lemma small_sector : 4 <= 0xffff.
Proof. lia. Qed.
#[local] Instance L16 : NorLaws N16 16 2 4 0xffff := ideal_laws 16 2 4 0xffff small small_sector.

Definition image : list Z := [0; 1; 2; 3; 4; 5; 6; 7; 8; 9; 10; 11; 12; 13; 14; 15].
Definition started : @flash_context N16 := mk_ctx 16 2 4 false NONE (erased 4) (image : @chip N16).

Lemma bytes_list l : forallb (fun x => (0 <=? x) && (x <? 256)) l = true -> Forall is_byte l.
Proof. rewrite forallb_forall. intros H. apply Forall_forall. intros x Hx. unfold is_byte. specialize (H x (proj1 (list_elem_of_In _ _) Hx)). bsimp. lia. Qed.

Lemma init_started : flash_init (Ok (16, 2, 4)) true (image : @chip N16) = Ok started.
Proof. reflexivity. Qed.

Lemma started_inv : inv (L := L16) started.
Proof.
  constructor; try done; [split; [reflexivity|apply bytes_list; reflexivity]|apply erased_byte|by left].
Qed.

(** A range is solid when each of its bytes lies in a sector that has other bytes than ones. *)
Lemma solid_list l a n : forallb (fun b => negb (is_erased (slice l (b / 4 * 4) 4))) (seqZ a n) = true -> solid (sc := 4) l a n.
Proof.
  intros H b Hb. rewrite forallb_forall in H. unfold base. apply negb_true_iff, H, list_elem_of_In, elem_of_seqZ. lia.
Qed.

(** A write across a sector boundary, a read around it, a sync, a read of all. *)
Definition demo : list op := [Write 3 [77; 88]; Read 2 4; Sync; Read 0 16].

Lemma demo_sound : all_sound (sound (sz := 16) (sc := 4) (lim := 0xffff)) demo (logical (L := L16) started).
Proof.
  cbn [all_sound demo sound]. change (logical (L := L16) started) with image. repeat split; try (unfold zlen; cbn; lia).
  - apply bytes_list. reflexivity.
  - apply solid_list. reflexivity.
Qed.

Lemma flash_session_refines_witness : exists c, session perform demo started = (c, [Count 2; Data [2; 77; 88; 5]; Count 0; Data [0; 1; 2; 77; 88; 5; 6; 7; 8; 9; 10; 11; 12; 13; 14; 15]]) /\
  bytes (NorLaws := L16) (flash_contextDestroy c) = [0; 1; 2; 77; 88; 5; 6; 7; 8; 9; 10; 11; 12; 13; 14; 15].
Proof.
  destruct (flash_session_refines (L := L16) demo started started_inv demo_sound) as (c & E & _ & _ & Ed). exists c. split; [rewrite E|rewrite Ed]; reflexivity.
Defined.


(** Two partitions: four bytes from 4 on, and eight bytes behind them, closed to all but process 7. *)
Definition first : flashsrv_partition := mk_part 4 4 true 0.
Definition second : flashsrv_partition := mk_part 8 8 true 7.
Definition server : @flashsrv_memory N16 := mk_mem started [first; second] true 0.

#[local] Instance off64 : OffT := true.
#[local] Instance board : Platform := {| O_CREAT := 0x100; O_EXCL := 0x800; FLASH_MEMORIES_NO := 2 |}.

Lemma server_first pid : serves (L := L16) server 0 pid first.
Proof. constructor; try done. exact started_inv. Qed.
Lemma server_second : serves (L := L16) server 1 7 second.
Proof. constructor; try done. exact started_inv. Qed.

(** Of four bytes written from the third byte of the first partition on, two are stored. *)
Lemma flashsrv_partition_io_witness :
  (exists m, flashsrv_raw 0 5 (mtWrite 2 [70; 71; 72; 73]) server = (m, Done 2) /\ slice (logical (L := L16) (ctx m)) 0 8 = [0; 1; 2; 3; 4; 5; 70; 71]) /\
  (exists m, flashsrv_raw 0 5 (mtRead 1 100) server = (m, Bytes [5; 6; 7])) /\
  flashsrv_raw 1 5 mtClose server = (server, Error (EOTHER 13)).
Proof.
  assert (H2 : 0 <= 2 < p_size first) by (cbn; lia). assert (H1 : 0 <= 1 < p_size first) by (cbn; lia). split; [|split].
  - destruct (proj1 (flashsrv_partition_io (L := L16) server 0 5 first 2 (server_first 5) H2) [70; 71; 72; 73] 2) as (m & E & _ & El & _); [reflexivity|unfold zlen; cbn; lia|apply bytes_list; reflexivity|cbn; lia|apply solid_list; reflexivity|].
    exists m. split; [exact E|rewrite El; reflexivity].
  - destruct (proj1 (proj2 (flashsrv_partition_io (L := L16) server 0 5 first 1 (server_first 5) H1)) 100) as (m & E & _); [lia|lia|cbn; lia|]. exists m. exact E.
  - assert (H0 : 0 <= 0 < p_size second) by (cbn; lia). exact (proj2 (proj2 (flashsrv_partition_io (L := L16) server 1 7 second 0 server_second H0)) 5 mtClose eq_refl).
Defined.

(** The first partition ends at 8; a direct write of its last byte and two more clears bits of the second. *)
Lemma flashsrv_directWrite_spills_witness : exists m, flashsrv_raw 0 5 (mtDevCtl (devctl_directWrite 3 [0; 0; 8])) server = (m, Done 3) /\
  slice (bytes (NorLaws := L16) (dev (ctx m))) 6 4 = [6; 0; 0; 8].
Proof.
  destruct (flashsrv_directWrite_spills (L := L16) server 0 5 first 3 [0; 0; 8] (server_first 5)) as (m & E & Eb); [cbn; lia|apply bytes_list; reflexivity|unfold zlen; cbn; lia|].
  exists m. split; [exact E|rewrite Eb; reflexivity].
Defined.

Lemma flashsrv_crc_spec_witness : exists m crc, flashsrv_raw 0 5 (mtDevCtl (devctl_calcCrc32 1 3 (2 ^ 32 - 1))) server = (m, Crc (Ok crc) crc) /\ crc = flashsrv_crc32Update (2 ^ 32 - 1) [5; 6; 7].
Proof.
  destruct (flashsrv_crc_spec (L := L16) server 0 5 first 1 3 (2 ^ 32 - 1) ltac:(lia) (server_first 5)) as (m & E & _); [lia|lia|cbn; lia|]. exists m. eexists. split; [exact E|reflexivity].
Defined.

(** ** A chip behind a controller *)
Import NorChip NorChipCorrect.

(** The contents, how often the status will be busy, the write enable latch. A program or an erase takes three status reads. *)
Definition cells : Type := list Z * nat * bool.
#[local] Instance sheet (id : list Z) (size sector : Z) : FlexSpi := {|
  bus := cells;
  ip_xfer s x := let '(l, k, w) := s in
    let change l' := if Nat.eqb k 0 && w then ((l', 3%nat, w), [], Ok 0) else ((l, k, w), [], Ok 0) in
    match x with
    | xfer_opRead fspi_readStatus _ _ => ((l, pred k, match k with 1%nat => false | _ => w end), [(if Nat.eqb k 0 then 0 else 1) + (if w then 2 else 0)], Ok 1)
    | xfer_opRead fspi_readID _ _ => ((l, k, w), id, Ok 3)
    | xfer_opRead _ a n => ((l, k, w), slice l a n, Ok n)
    | xfer_opCommand fspi_writeEnable _ => ((l, k, if Nat.eqb k 0 then true else w), [], Ok 0)
    | xfer_opCommand fspi_writeDisable _ => ((l, k, if Nat.eqb k 0 then false else w), [], Ok 0)
    | xfer_opCommand fspi_eraseSector a => change (patch l a (erased sector))
    | xfer_opCommand fspi_eraseChip _ => change (erased size)
    | xfer_opCommand _ _ => ((l, k, w), [], Ok 0)
    | xfer_opWrite _ a xs => change (patch l a (programmed (slice l a (zlen xs)) xs))
    end;
  ahb_read s _ n := (s, erased n);   (* a cache that is never invalidated *)
  flexspi_schedYield s := s;
|}.

#[local, refine] Instance sheet_laws id size page sector (H : sizes size page sector) (Hip : sector <= IP_MAX) : FlexSpiLaws (sheet id size sector) size page sector 4 := {|
  mem := fun s : @bus (sheet id size sector) => (s : cells).1.1;
  busy := fun s : @bus (sheet id size sector) => (s : cells).1.2;
  wel := fun s : @bus (sheet id size sector) => (s : cells).2;
  good := fun s : @bus (sheet id size sector) => healthy (NorLaws := ideal_laws size page sector IP_MAX H Hip) (s : cells).1.1;
|}.
Proof.
  all: try done; try lia.
  - by intros [[l k] w] [].
  - by intros [[l k] w] [].
  - intros [[l k] w] Hg. eexists (_, _, _), _. split; [reflexivity|]. split; [done|]. split; [done|]. split; [done|]. destruct k, w; split; try reflexivity; intros Hk; done.
  - intros [[l k] w] Hg Hk. cbn in Hk. subst k. by eexists (_, _, _), _, _.
  - intros [[l k] w] a n Hg Hk _ _ _. by eexists (_, _, _).
  - intros [[l k] w] a xs Hg Hk Hw Ha Hend Hpg Hx. cbn in Hk, Hw. subst. eexists (_, _, _), _, _. split; [reflexivity|]. destruct (program_law (NorLaws := ideal_laws size page sector IP_MAX H Hip) l a xs Hg Ha Hend Hpg Hx) as (c' & r & [= <- _] & Hc & _). split; [exact Hc|]. split; [done|cbn; lia].
  - intros [[l k] w] a Hg Hk Hw Ha Hm. cbn in Hk, Hw. subst. eexists (_, _, _), _, _. split; [reflexivity|]. destruct (erase_law (NorLaws := ideal_laws size page sector IP_MAX H Hip) l a Hg Ha Hm) as (c' & r & [= <- _] & Hc & _). split; [exact Hc|]. split; [done|cbn; lia].
  - intros [[l k] w] Hg Hk Hw. cbn in Hk, Hw. subst. eexists (_, _, _), _, _. split; [reflexivity|]. destruct (erase_all_law (NorLaws := ideal_laws size page sector IP_MAX H Hip) l Hg) as (c' & r & [= <- _] & Hc & _). split; [exact Hc|]. split; [done|cbn; lia].
Defined.

(** The first chip of the table, erased. *)
Definition w25q16 : nor_info := known 0xef 0x4015 2.
Lemma w25q16_sizes : sizes (totalSz w25q16) (pageSz w25q16) (sectorSz w25q16).
Proof. change (sizes 2097152 256 4096). constructor; [exists 8; lia|exists 12; lia|exists 16; lia|exists 512; lia|lia]. Qed.
Lemma w25q16_ip : sectorSz w25q16 <= IP_MAX.
Proof. vm_compute. discriminate. Qed.
Definition blank_chip : cells := (erased (totalSz w25q16), O, false).
Definition first_write : list op := [Write 5 [1; 2]; Sync].

Lemma first_write_sound : all_sound (sound (sz := totalSz w25q16) (sc := sectorSz w25q16) (lim := IP_MAX)) first_write (erased (totalSz w25q16)).
Proof.
  split; [|done]. cbn [sound]. split; [lia|]. split; [vm_compute; discriminate|]. split; [apply bytes_list; reflexivity|]. split; [intros _; vm_compute; discriminate|].
  intros b Hb. assert (Eb : base (sc := sectorSz w25q16) b = 0) by (unfold base; change (sectorSz w25q16) with 4096; cbn in Hb; rewrite Z.div_small by (change (zlen [1; 2]) with 2 in Hb; lia); reflexivity). rewrite Eb.
  apply not_true_is_false. intros Ht. unfold is_erased in Ht. rewrite forallb_forall in Ht. specialize (Ht 1). cut ((1 =? NOR_ERASED_STATE) = true); [discriminate|]. apply Ht, list_elem_of_In.
  apply (list_elem_of_lookup_2 _ 5). unfold slice, span. rewrite lookup_take by (change (sectorSz w25q16) with 4096; lia). change (Z.to_nat 0) with O. rewrite drop_0. unfold patch, splice.
  assert (H5 : length (take (Z.to_nat 5) (erased (totalSz w25q16))) = 5%nat) by (rewrite length_take; unfold erased; rewrite length_replicate; change (totalSz w25q16) with 2097152; lia).
  rewrite lookup_app_r by (rewrite H5; lia). rewrite H5. reflexivity.
Qed.

Lemma nor_flash_refines_witness : exists v (c : @flash_context (nor_chip (F := sheet [239; 64; 21] (totalSz w25q16) (sectorSz w25q16)) 4)),
  nor_probe (F := sheet [239; 64; 21] (totalSz w25q16) (sectorSz w25q16)) blank_chip = (blank_chip, Some (Ok (w25q16, v))) /\
  exists c', session perform first_write c = (c', [Count 2; Count 0]).
Proof.
  destruct (nor_flash_refines (sheet [239; 64; 21] (totalSz w25q16) (sectorSz w25q16)) 4 0 w25q16 (sheet_laws [239; 64; 21] _ _ _ w25q16_sizes w25q16_ip) blank_chip blank_chip [239; 64; 21]) as (v & c & E & _ & _ & Hs); try reflexivity.
  - split; [apply zlen_erased; vm_compute; discriminate|apply erased_byte].
  - split; [|done]. split; [apply zlen_erased; vm_compute; discriminate|apply erased_byte].
  - exists v, c. split; [exact E|]. destruct (Hs first_write first_write_sound) as (c' & Ec & _). exists c'. exact Ec.
Defined.
End FlashWitness.
