(* ===== verification/FlashGr.v ===== *)
(** * GR716 flash driver ([src/storage/gr716-flash/flashdrv.c])

    Another driver over the interface of [Nor.v]: a buffer of one sector, whole sectors
    written around it. [addr_t] and [size_t] have 32 bits. *)

From S2P Require Import Prelude Slices ErrState Nor.

Module FlashGr.
Import Slices ErrState Nor.

Section driver.
Context {N : Nor}.

Record flash_context := mk_ctx {
  totalSz : Z; pageSz : Z; sectorSz : Z;   (* properties *)
  sectorBufAddr : Z; sectorBufDirty : bool; sectorBuf : list Z; spimctrl : chip
}.

Definition set_addr (x : Z) (c : flash_context) : flash_context := mk_ctx (totalSz c) (pageSz c) (sectorSz c) x (sectorBufDirty c) (sectorBuf c) (spimctrl c).
Definition set_dirty (x : bool) (c : flash_context) : flash_context := mk_ctx (totalSz c) (pageSz c) (sectorSz c) (sectorBufAddr c) x (sectorBuf c) (spimctrl c).
Definition set_buf (x : list Z) (c : flash_context) : flash_context := mk_ctx (totalSz c) (pageSz c) (sectorSz c) (sectorBufAddr c) (sectorBufDirty c) x (spimctrl c).
Definition set_spi (x : chip) (c : flash_context) : flash_context := mk_ctx (totalSz c) (pageSz c) (sectorSz c) (sectorBufAddr c) (sectorBufDirty c) (sectorBuf c) x.

(** [(addr_t)-1] *)
Definition NONE : Z := 2 ^ 32 - 1.

Local Notation M := (ErrState.M flash_context).

(** The chip's operations; the bytes that a read has brought, and its result. *)
Definition spi_read (a n : Z) : M (list Z) := fun c =>
  match nor_readData (spimctrl c) a n with (d, l, Ok _) => (set_spi d c, Ok l) | (d, _, Err e) => (set_spi d c, Err e) end.
Definition spi_program (a : Z) (xs : list Z) : M Z := fun c => let '(d, r) := nor_pageProgram (spimctrl c) a xs in (set_spi d c, r).
Definition spi_erase (a : Z) : M Z := fun c => let '(d, r) := nor_eraseSector (spimctrl c) a in (set_spi d c, r).
Definition spi_eraseChip : M Z := fun c => let '(d, r) := nor_eraseChip (spimctrl c) in (set_spi d c, r).

Definition flash_getSectorAddress (c : flash_context) (addr : Z) : Z := addr &&& lnot_w 32 (sectorSz c - 1).
Definition flash_isValidAddress (memsz offs len : Z) : bool := (offs <? memsz) && (u32 (offs + len) <=? memsz).

(** The pages of [flash_directSectorWrite] from [pos] on, [n] of them. *)
Fixpoint program_pages (n : nat) (offs pos : Z) (src : list Z) : M unit :=
  match n with
  | O => mret tt
  | S n =>
      page ← get pageSz;
      _ ← spi_program (u32 (offs + pos)) (slice src pos page);
      program_pages n offs (pos + page) src
  end.
Definition flash_directSectorWrite (offs : Z) (src : list Z) : M Z :=
  _ ← spi_erase offs;
  n ← get (fun c => (sectorSz c + pageSz c - 1) / pageSz c);
  _ ← program_pages (Z.to_nat n) offs 0 src;
  get sectorSz.

(** ** Interface *)

Definition flash_readData (offs len : Z) : M (list Z) :=
  ok ← get (fun c => flash_isValidAddress (totalSz c) offs len);
  if negb ok then fail EINVAL
  else if len =? 0 then mret []
  else
    held ← get (fun c => flash_getSectorAddress c offs =? sectorBufAddr c);
    if held : bool then
      doneBytes ← get (fun c => Z.min (u32 (sectorBufAddr c + sectorSz c - offs)) len);
      front ← get (fun c => slice (sectorBuf c) (offs - sectorBufAddr c) doneBytes);
      if doneBytes =? len then mret front
      else back ← spi_read (u32 (offs + doneBytes)) (len - doneBytes); mret (front ++ back)
    else spi_read offs len.

(** The number of bytes bounds the number of chunks. *)
Fixpoint direct_chunks (fuel : nat) (offs : Z) (xs : list Z) : M unit :=
  match fuel, xs with
  | S fuel, _ :: _ =>
      page ← get pageSz;
      let chunk := Z.min (zlen xs) page in
      _ ← modify (fun c => if flash_getSectorAddress c offs =? sectorBufAddr c then set_addr NONE c else c);
      _ ← spi_program offs (take (Z.to_nat chunk) xs);
      direct_chunks fuel (u32 (offs + chunk)) (drop (Z.to_nat chunk) xs)
  | _, _ => mret tt
  end.
Definition flash_directWrite (offs : Z) (xs : list Z) : M Z :=
  ok ← get (fun c => flash_isValidAddress (totalSz c) offs (zlen xs));
  if negb ok then fail EINVAL else _ ← direct_chunks (length xs) offs xs; mret (zlen xs).

(** A successful [flash_directSectorWrite] returns the size of the sector, which is not [EOK]. *)
Definition flash_sync : M Z :=
  skip ← get (fun c => (sectorBufAddr c =? NONE) || negb (sectorBufDirty c));
  if skip : bool then mret 0
  else
    res ← (fun c => flash_directSectorWrite (sectorBufAddr c) (sectorBuf c) c);
    _ ← modify (fun c => if res =? 0 then set_dirty false c else c);
    mret (if res <? 0 then res else 0).

(** Reading a sector into the buffer. *)
Definition load (currAddr : Z) : M unit := fun c =>
  let c := set_addr currAddr c in
  let '(d, l, r) := nor_readData (spimctrl c) currAddr (sectorSz c) in
  let c := set_spi d (set_buf (patch (sectorBuf c) 0 l) c) in
  match r with Ok _ => (c, Ok tt) | Err e => (set_addr NONE c, Err e) end.

(** A chunk of the sector [currAddr]: written to the chip if it is the whole sector and not the buffered one, else to the buffer. *)
Definition put_chunk (currAddr offs : Z) (chunk : list Z) : M unit :=
  sector ← get sectorSz;
  let sectorOfs := offs - currAddr in
  other ← get (fun c => negb (currAddr =? sectorBufAddr c));
  _ ← (if other : bool then
         if (sectorOfs =? 0) && (zlen chunk =? sector) then _ ← flash_directSectorWrite offs chunk; mret tt
         else _ ← flash_sync; load currAddr
       else mret tt);
  modify (fun c => if currAddr =? sectorBufAddr c then set_dirty true (set_buf (patch (sectorBuf c) sectorOfs chunk) c) else c).

Fixpoint write_chunks (fuel : nat) (offs : Z) (src : list Z) : M unit :=
  match fuel, src with
  | S fuel, _ :: _ =>
      currAddr ← get (fun c => flash_getSectorAddress c offs);
      sector ← get sectorSz;
      let chunk := Z.min (sector - (offs - currAddr)) (zlen src) in
      _ ← put_chunk currAddr offs (take (Z.to_nat chunk) src);
      write_chunks fuel (u32 (offs + chunk)) (drop (Z.to_nat chunk) src)
  | _, _ => mret tt
  end.
Definition flash_bufferedWrite (offs : Z) (xs : list Z) : M Z :=
  ok ← get (fun c => flash_isValidAddress (totalSz c) offs (zlen xs));
  if negb ok then fail EINVAL
  else if zlen xs =? 0 then mret 0
  else _ ← write_chunks (length xs) offs xs; mret (zlen xs).

Definition flash_sectorErase (offs : Z) : M Z :=
  ok ← get (fun c => flash_isValidAddress (totalSz c) offs (sectorSz c));
  if negb ok then fail EINVAL
  else
    offs ← get (fun c => flash_getSectorAddress c offs);
    _ ← modify (fun c => if offs =? sectorBufAddr c then set_addr NONE c else c);
    spi_erase offs.
Definition flash_chipErase : M Z := _ ← modify (set_addr NONE); spi_eraseChip.

(** [flash_init], from the probe on: the chip found (total, page and sector size) and whether the buffer was allocated. *)
Definition flash_init (probe : cres (Z * Z * Z)) (allocated : bool) (d : chip) : cres flash_context :=
  match probe with
  | Err e => Err e
  | Ok (total, page, sector) => if allocated then Ok (mk_ctx total page sector NONE false (erased sector) d) else Err ENOMEM
  end.

Definition flash_contextDestroy (c : flash_context) : chip := spimctrl (flash_sync c).1.
End driver.
End FlashGr.
