(* ===== verification/FlashGrCorrect.v ===== *)
(** * GR716 flash driver: what the buffered flash stores and what reads see

    On a chip that works, buffered writes and syncs are those of an array of bytes, and so
    are reads within a sector. A read that runs into the buffered sector from another one
    sees the chip; the dirty mark is never taken back; a direct write discards the buffer. *)

From S2P Require Import Prelude Slices ErrState ByteArray Nor Sectors FlashGr.

Module FlashGrCorrect.
Import Slices ErrState ByteArray Nor Sectors FlashGr.

Section driver.
Context {N : Nor} {sz pg sc : Z} {L : NorLaws N sz pg sc sz}.
Implicit Types c : flash_context.
Local Notation base := (base (sc := sc)).
Local Notation base_range := (base_range (L := L)).
Local Notation geo := (geo (L := L)).

Definition fits c : Prop := totalSz c = sz /\ pageSz c = pg /\ sectorSz c = sc.

Record inv c : Prop := {
  i_fits : fits c;
  i_chip : healthy (spimctrl c);
  i_len : zlen (sectorBuf c) = sc;
  i_byte : Forall is_byte (sectorBuf c);
  i_addr : sectorBufAddr c <> NONE -> 0 <= sectorBufAddr c /\ sectorBufAddr c mod sc = 0 /\ sectorBufAddr c + sc <= sz;
  i_clean : sectorBufAddr c <> NONE -> sectorBufDirty c = false -> sectorBuf c = slice (bytes (spimctrl c)) (sectorBufAddr c) sc;
}.

(** The bytes that are stored: the chip's, under the buffer's. *)
Definition logical c : list Z := if sectorBufAddr c =? NONE then bytes (spimctrl c) else patch (bytes (spimctrl c)) (sectorBufAddr c) (sectorBuf c).

Lemma set_spi_id c : set_spi (spimctrl c) c = c.
Proof. by destruct c. Qed.

Lemma gr_sector_addr c a : fits c -> 0 <= a < 2 ^ 32 -> flash_getSectorAddress c a = base a.
Proof. intros (_ & _ & E) Ha. unfold flash_getSectorAddress. rewrite E. by apply sector_mask. Qed.

Lemma gr_none_sector a : 0 <= a < sz -> base a <> NONE.
Proof. intros Ha. destruct (base_range a Ha) as (? & ? & ? & _). destruct geo as (_ & _ & _ & ? & _). unfold NONE. lia. Qed.

Lemma logical_held c : sectorBufAddr c <> NONE -> logical c = patch (bytes (spimctrl c)) (sectorBufAddr c) (sectorBuf c).
Proof. intros H. unfold logical. by rewrite (proj2 (Z.eqb_neq _ _)). Qed.

Lemma gr_logical_size c : inv c -> zlen (logical c) = sz.
Proof.
  intros [_ Hd Hl _ Ha _]. unfold logical. pose proof (bytes_size _ Hd). destruct (Z.eqb_spec (sectorBufAddr c) NONE) as [|Hn]; [done|]. destruct (Ha Hn) as (? & _ & ?). rewrite zlen_patch; lia.
Qed.

(** ** Whole sectors *)

Lemma gr_pages_ok n : forall c sa pos src, fits c -> healthy (spimctrl c) -> zlen src = sc -> Forall is_byte src -> 0 <= sa -> sa mod sc = 0 -> sa + sc <= sz ->
  0 <= pos -> (pg | pos) -> pos + Z.of_nat n * pg <= sc -> slice (bytes (spimctrl c)) (sa + pos) (Z.of_nat n * pg) = erased (Z.of_nat n * pg) ->
  exists d, program_pages n sa pos src c = (set_spi d c, Ok tt) /\ healthy d /\ bytes d = patch (bytes (spimctrl c)) (sa + pos) (slice src pos (Z.of_nat n * pg)).
Proof.
  destruct geo as (Hpg & Hsc & Hle & Hsz & (q & Hq & Eq) & _). induction n as [|n IH]; intros c sa pos src Hf Hd Hl Hb Hsa Hm Hend Ho Hdv Hn He.
  { exists (spimctrl c). rewrite set_spi_id, slice_0, patch_nil. done. }
  pose proof (bytes_size _ Hd) as Hz. pose proof Hf as (Es & Ep & Ec). set (xs := slice src pos pg). replace (Z.of_nat (S n) * pg) with (pg + Z.of_nat n * pg) in * by lia.
  assert (Hx : zlen xs = pg) by (apply zlen_slice; lia). assert (Hxb : Forall is_byte xs) by (by apply slice_byte).
  assert (Hmod : (sa + pos) mod pg = 0).
  { destruct Hdv as [w ->]. apply Z.mod_divide in Hm as [u ->]; [|lia]. rewrite Eq. replace (u * (q * pg) + w * pg) with ((u * q + w) * pg) by lia. apply Z_mod_mult. }
  assert (Hpage : slice (bytes (spimctrl c)) (sa + pos) pg = erased pg).
  { rewrite <- (slice_erased (pg + Z.of_nat n * pg) 0 pg) by lia. rewrite <- He, slice_slice by lia. by rewrite Z.add_0_r. }
  assert (Hrest : slice (bytes (spimctrl c)) (sa + (pos + pg)) (Z.of_nat n * pg) = erased (Z.of_nat n * pg)).
  { rewrite <- (slice_erased (pg + Z.of_nat n * pg) pg (Z.of_nat n * pg)) by lia. rewrite <- He, slice_slice by lia. f_equal. lia. }
  destruct (program_law (spimctrl c) (sa + pos) xs Hd) as (d & r & E & Hd' & Eb); [lia|lia|lia|done|].
  assert (Ex : programmed (erased pg) xs = xs) by (rewrite <- Hx; by apply programmed_erased). rewrite Hx, Hpage, Ex in Eb.
  destruct (IH (set_spi d c) sa (pos + pg) src) as (d2 & E2 & Hd2 & Eb2); try done; [lia|destruct Hdv as [w ->]; exists (w + 1); lia|lia| |].
  { cbn. rewrite Eb, slice_patch_out; [done|lia|lia|lia|lia|lia]. }
  exists d2. split.
  { cbn [program_pages]. unfold mbind, M_bind, get, spi_program. rewrite Ep. fold xs. rewrite u32_small, E by lia. exact E2. }
  split; [done|]. rewrite Eb2. cbn [spimctrl set_spi]. rewrite Eb.
  replace (sa + (pos + pg)) with (sa + pos + zlen xs) by lia. rewrite patch_app by (rewrite ?zlen_slice by lia; lia). f_equal. unfold xs. rewrite <- slice_app by lia. done.
Qed.

Lemma sector_write_ok c a src : fits c -> healthy (spimctrl c) -> zlen src = sc -> Forall is_byte src -> 0 <= a -> a mod sc = 0 -> a + sc <= sz ->
  exists d, flash_directSectorWrite a src c = (set_spi d c, Ok sc) /\ healthy d /\ bytes d = patch (bytes (spimctrl c)) a src.
Proof.
  intros Hf Hd Hl Hb Ha Hm Hend. destruct geo as (Hpg & Hsc & Hle & Hsz & (q & Hq & Eq) & _). pose proof Hf as (Es & Ep & Ec). pose proof (bytes_size _ Hd) as Hz. pose proof (zlen_erased sc ltac:(lia)) as Hze.
  destruct (erase_law (spimctrl c) a Hd ltac:(lia) Hm) as (d & r & E & Hd' & Eb).
  assert (En : (sc + pg - 1) / pg = q). { rewrite Eq. replace (q * pg + pg - 1) with (q * pg + (pg - 1)) by lia. rewrite Z.div_add_l, Z.div_small by lia. lia. }
  assert (Enat : Z.of_nat (Z.to_nat q) * pg = sc) by (rewrite Z2Nat.id by lia; lia).
  destruct (gr_pages_ok (Z.to_nat q) (set_spi d c) a 0 src) as (d2 & E2 & Hd2 & Eb2); try done; [by apply Z.divide_0_r|lia| |].
  { cbn. rewrite Enat, Z.add_0_r, Eb. by apply slice_patch_whole; lia. }
  exists d2. split.
  { unfold flash_directSectorWrite, spi_erase. unfold mbind, M_bind, get. rewrite E. cbn [sectorSz pageSz set_spi]. rewrite Ec, Ep, En, E2. cbn. by rewrite Ec. }
  split; [done|]. rewrite Eb2, Enat, Z.add_0_r. cbn. rewrite Eb, slice_whole by done. apply patch_over; lia.
Qed.

(** ** The buffer *)

Lemma gr_moved_inv c d : inv c -> healthy d -> bytes d = logical c -> inv (set_spi d c) /\ logical (set_spi d c) = logical c.
Proof.
  intros Hc Hd Eb. pose proof Hc as [Hf Hh Hl Hb Ha Hcl]. pose proof (bytes_size _ Hh) as Hz. unfold logical in *. cbn [spimctrl set_spi sectorBufAddr sectorBuf]. destruct (Z.eqb_spec (sectorBufAddr c) NONE) as [En|Hn]; cbn.
  - split; [constructor; done|done].
  - destruct (Ha Hn) as (Ha1 & Ha2 & Ha3). split; [constructor; try done; cbn; intros _ _; rewrite Eb; symmetry; by apply slice_patch_whole; lia|]. rewrite Eb. apply patch_over; lia.
Qed.

Lemma gr_sync_ok c : inv c -> exists d, flash_sync c = (set_spi d c, Ok 0) /\ healthy d /\ bytes d = logical c.
Proof.
  intros Hc. pose proof Hc as [Hf Hh Hl Hb Ha Hcl]. destruct geo as (_ & Hsc & _). pose proof (bytes_size _ Hh) as Hz. unfold flash_sync. unfold mbind, M_bind, get. destruct (Z.eqb_spec (sectorBufAddr c) NONE) as [En|Hn]; cbn [orb].
  { exists (spimctrl c). rewrite set_spi_id. split; [done|]. split; [done|]. unfold logical. by rewrite En. }
  rewrite logical_held by done. destruct (Ha Hn) as (Ha1 & Ha2 & Ha3). destruct (sectorBufDirty c) eqn:Ed; cbn [negb].
  - destruct (sector_write_ok c (sectorBufAddr c) (sectorBuf c) Hf Hh Hl Hb Ha1 Ha2 Ha3) as (d & -> & Hd & Eb). exists d. unfold modify. rewrite (proj2 (Z.eqb_neq _ _)), (proj2 (Z.ltb_ge _ _)) by lia. done.
  - exists (spimctrl c). rewrite set_spi_id. split; [done|]. split; [done|]. rewrite (Hcl Hn eq_refl). symmetry. apply patch_slice; lia.
Qed.

Lemma load_ok c a : inv c -> 0 <= a < sz -> bytes (spimctrl c) = logical c ->
  exists c', load (base a) c = (c', Ok tt) /\ inv c' /\ sectorBufAddr c' = base a /\ logical c' = logical c.
Proof.
  intros Hc Ha El. pose proof Hc as [Hf Hh Hl Hb _ _]. destruct (base_range a Ha) as (B1 & B2 & B3 & B4). destruct geo as (_ & Hsc & _). pose proof (bytes_size _ Hh) as Hz. pose proof Hf as (Es & Ep & Ec).
  destruct (read_law (spimctrl c) (base a) sc Hh B1 ltac:(pose proof sector_lim; lia) B3) as (d & E & Hd & Eb). unfold load. cbn [sectorSz set_addr spimctrl sectorBuf]. rewrite Ec, E.
  assert (Hx : zlen (slice (bytes (spimctrl c)) (base a) sc) = sc) by (apply zlen_slice; lia).
  assert (Ebuf : patch (sectorBuf c) 0 (slice (bytes (spimctrl c)) (base a) sc) = slice (bytes (spimctrl c)) (base a) sc).
  { rewrite <- (slice_whole (patch _ _ _) sc) by (rewrite zlen_patch; lia). by apply slice_patch_whole; lia. }
  rewrite Ebuf. eexists. split; [reflexivity|]. split; [|split; [done|]].
  - constructor; cbn; try done; [by apply slice_byte, bytes_byte|by rewrite Eb].
  - rewrite logical_held by (cbn; by apply gr_none_sector). cbn. rewrite Eb, <- El. apply patch_slice; lia.
Qed.

(** A chunk put in the buffer. *)
Lemma buffer_ok c a xs : inv c -> 0 <= a < sz -> sectorBufAddr c = base a -> a + zlen xs <= base a + sc -> Forall is_byte xs ->
  let c' := set_dirty true (set_buf (patch (sectorBuf c) (a - base a) xs) c) in inv c' /\ logical c' = patch (logical c) a xs.
Proof.
  intros Hc Ha Es Hend Hx c'. pose proof Hc as [Hf Hh Hl Hb Hadd Hcl]. destruct (base_range a Ha) as (B1 & B2 & B3 & B4). pose proof (gr_none_sector a Ha) as Hn. pose proof (bytes_size _ Hh) as Hz. pose proof (zlen_nonneg xs).
  assert (Hlen : zlen (patch (sectorBuf c) (a - base a) xs) = sc) by (rewrite zlen_patch; lia). split; [constructor; cbn; try done; by apply patch_byte|].
  rewrite !logical_held by (cbn; by rewrite Es). cbn [c' set_dirty set_buf spimctrl sectorBufAddr sectorBuf]. rewrite Es.
  set (P := patch (bytes (spimctrl c)) (base a) (sectorBuf c)). assert (E : slice P (base a) sc = sectorBuf c) by (apply slice_patch_whole; lia). assert (HP : zlen P = sz) by (unfold P; rewrite zlen_patch; lia).
  replace (patch P a xs) with (patch P (base a + (a - base a)) xs) by (f_equal; lia). rewrite <- (patch_in P (base a) sc) by lia. rewrite E. unfold P. symmetry. apply patch_over; lia.
Qed.

Lemma put_ok c a xs : inv c -> 0 <= a < sz -> a + zlen xs <= base a + sc -> Forall is_byte xs ->
  exists c', put_chunk (base a) a xs c = (c', Ok tt) /\ inv c' /\ logical c' = patch (logical c) a xs.
Proof.
  intros Hc Ha Hend Hx. pose proof Hc as [Hf Hh Hl Hb Hadd Hcl]. pose proof Hf as (Es & Ep & Ec). destruct (base_range a Ha) as (B1 & B2 & B3 & B4). pose proof (gr_none_sector a Ha) as Hn. pose proof (bytes_size _ Hh) as Hz. pose proof (zlen_nonneg xs) as Hx0.
  unfold put_chunk. unfold mbind, M_bind, get, modify. rewrite Ec. destruct (Z.eqb_spec (base a) (sectorBufAddr c)) as [Eb|Hne]; cbn [negb].
  { unfold mret, M_ret. rewrite Eb, Z.eqb_refl, <- Eb. eexists. split; [reflexivity|]. by apply buffer_ok. }
  destruct ((a - base a =? 0) && (zlen xs =? sc)) eqn:Ew.
  - apply andb_true_iff in Ew as [Ew0%Z.eqb_eq Hfull%Z.eqb_eq]. destruct (sector_write_ok c a xs Hf Hh Hfull Hx ltac:(lia)) as (d & -> & Hd & Ebd); [rewrite <- B4; f_equal; lia|lia|]. unfold mret, M_ret. cbn [sectorBufAddr set_spi].
    rewrite (proj2 (Z.eqb_neq _ _)) by done. eexists. split; [reflexivity|]. unfold logical. cbn [sectorBufAddr set_spi spimctrl sectorBuf]. destruct (Z.eqb_spec (sectorBufAddr c) NONE) as [En|Hs].
    + split; [constructor; done|done].
    + destruct (Hadd Hs) as (A1 & A2 & A3). assert (Hdis : a + zlen xs <= sectorBufAddr c \/ sectorBufAddr c + sc <= a). { destruct (sectors_apart (L := L) (base a) (sectorBufAddr c)); [done|done|done|lia|lia]. }
      split; [constructor; try done; cbn; intros _ Hd'; rewrite Ebd, slice_patch_out by lia; by apply Hcl|]. rewrite Ebd. apply patch_comm; lia.
  - destruct (gr_sync_ok c Hc) as (d & -> & Hd & Ebd). destruct (gr_moved_inv c d Hc Hd Ebd) as [Hi Hlg]. destruct (load_ok (set_spi d c) a Hi Ha) as (c1 & -> & Hc1 & Ead & Hl1); [cbn; congruence|].
    rewrite Ead, Z.eqb_refl. eexists. split; [reflexivity|]. rewrite <- Hlg, <- Hl1. by apply buffer_ok.
Qed.

Lemma gr_write_chunks_ok fuel : forall xs a c, (length xs <= fuel)%nat -> inv c -> 0 <= a -> a + zlen xs <= sz -> Forall is_byte xs ->
  exists c', write_chunks fuel a xs c = (c', Ok tt) /\ inv c' /\ logical c' = patch (logical c) a xs.
Proof.
  destruct geo as (_ & Hsc & _ & Hsz & _). induction fuel as [|fuel IH]; intros xs a c Hf Hc Ha Hend Hb.
  { destruct xs; [|cbn in Hf; lia]. exists c. by rewrite patch_nil. }
  destruct xs as [|x0 xs0] eqn:Exs; [exists c; by rewrite patch_nil|]. rewrite <- Exs in *. assert (Hpos : 0 < zlen xs) by (subst xs; unfold zlen; cbn; lia).
  destruct (base_range a ltac:(lia)) as (B1 & B2 & B3 & B4). pose proof (gr_logical_size c Hc) as Hls. set (n := Z.min (sc - (a - base a)) (zlen xs)). assert (Hn : 0 < n <= zlen xs) by lia.
  pose proof (zlen_take xs n ltac:(lia)) as Ht. pose proof (zlen_drop xs n ltac:(lia)) as Hdr.
  destruct (put_ok c a (take (Z.to_nat n) xs) Hc ltac:(lia) ltac:(lia) (Forall_take _ _ _ Hb)) as (c1 & E1 & Hc1 & Hl1).
  destruct (IH (drop (Z.to_nat n) xs) (a + n) c1) as (c2 & E2 & Hc2 & Hl2); [rewrite length_drop; lia|done|lia|lia|by apply Forall_drop|].
  exists c2. split; [|split; [done|]].
  - rewrite Exs. cbn [write_chunks]. rewrite <- Exs. unfold mbind, M_bind, get. destruct (i_fits c Hc) as (Es & Ep & Ec). rewrite (gr_sector_addr c a (i_fits c Hc)), Ec by lia. fold n. rewrite E1, u32_small by lia. exact E2.
  - rewrite Hl2, Hl1. rewrite <- Ht at 2. rewrite patch_app by lia. by rewrite take_drop.
Qed.

Lemma valid_ok a n : 0 <= a < sz -> 0 <= n -> a + n <= sz -> flash_isValidAddress sz a n = true.
Proof. intros. destruct geo as (_ & _ & _ & ? & _). unfold flash_isValidAddress. rewrite u32_small by lia. apply andb_true_iff. lia. Qed.

Lemma gr_bufferedWrite_ok c a xs : inv c -> 0 <= a < sz -> a + zlen xs <= sz -> Forall is_byte xs ->
  exists c', flash_bufferedWrite a xs c = (c', Ok (zlen xs)) /\ inv c' /\ logical c' = patch (logical c) a xs.
Proof.
  intros Hc Ha Hend Hb. pose proof (zlen_nonneg xs). destruct (i_fits c Hc) as (Es & _). unfold flash_bufferedWrite. unfold mbind, M_bind, get. rewrite Es, valid_ok by done. cbn [negb]. destruct (Z.eqb_spec (zlen xs) 0) as [E|].
  { exists c. rewrite (zlen_nil xs E). rewrite patch_nil. done. }
  destruct (gr_write_chunks_ok (length xs) xs a c (le_n _) Hc ltac:(lia) Hend Hb) as (c' & -> & Hc' & Hl'). by exists c'.
Qed.

(** ** Reads *)

(** What a read returns: the buffer's bytes up to the end of the first sector if that is the buffered one, then the chip's. *)
Definition seen c (a n : Z) : list Z :=
  if base a =? sectorBufAddr c then let k := Z.min (base a + sc - a) n in slice (logical c) a k ++ slice (bytes (spimctrl c)) (a + k) (n - k) else slice (bytes (spimctrl c)) a n.

Lemma spi_read_ok c a n : inv c -> 0 <= a -> 0 <= n -> a + n <= sz -> exists d, spi_read a n c = (set_spi d c, Ok (slice (bytes (spimctrl c)) a n)) /\ healthy d /\ bytes d = bytes (spimctrl c).
Proof. intros Hc Ha Hn Hend. destruct (read_law (spimctrl c) a n (i_chip c Hc) Ha ltac:(lia) Hend) as (d & E & Hd & Eb). exists d. unfold spi_read. by rewrite E. Qed.

Lemma readData_ok c a n : inv c -> 0 <= a < sz -> 0 <= n -> a + n <= sz -> exists d, flash_readData a n c = (set_spi d c, Ok (seen c a n)) /\ healthy d /\ bytes d = bytes (spimctrl c).
Proof.
  intros Hc Ha Hn Hend. pose proof Hc as [Hf Hh Hl Hb Hadd Hcl]. pose proof Hf as (Es & Ep & Ec). destruct (base_range a Ha) as (B1 & B2 & B3 & B4). destruct geo as (_ & Hsc & _ & Hsz & _). pose proof (bytes_size _ Hh) as Hz.
  assert (Hsame : exists d, (set_spi d c : flash_context) = c /\ healthy d /\ bytes d = bytes (spimctrl c)) by (exists (spimctrl c); by rewrite set_spi_id).
  unfold flash_readData, seen. unfold mbind, M_bind, get. rewrite Es, valid_ok by done. cbn [negb]. destruct (Z.eqb_spec n 0) as [->|Hn0].
  { destruct Hsame as (d & Ed & Hd). exists d. rewrite Ed. split; [|done]. rewrite Z.min_r, Z.sub_0_r, !slice_0 by lia. by destruct (base a =? _). }
  rewrite (gr_sector_addr c a Hf) by lia. destruct (Z.eqb_spec (base a) (sectorBufAddr c)) as [Eb|Hne]; [|by apply spi_read_ok; lia || done].
  rewrite Ec, <- Eb, u32_small by lia. set (k := Z.min (base a + sc - a) n).
  assert (Efront : slice (sectorBuf c) (a - base a) k = slice (logical c) a k). { rewrite logical_held by (rewrite <- Eb; by apply gr_none_sector). rewrite <- Eb. symmetry. apply slice_patch; lia. } rewrite Efront.
  destruct (Z.eqb_spec k n) as [Ek|].
  - destruct Hsame as (d & Ed & Hd). exists d. rewrite Ed, Ek, Z.sub_diag, slice_0, app_nil_r. done.
  - rewrite u32_small by lia. destruct (spi_read_ok c (a + k) (n - k) Hc ltac:(lia) ltac:(lia) ltac:(lia)) as (d & -> & Hd). by exists d.
Qed.

Lemma seen_sector c a n : inv c -> 0 <= a < sz -> 0 <= n -> a + n <= base a + sc -> seen c a n = slice (logical c) a n.
Proof.
  intros Hc Ha Hn Hend. pose proof Hc as [Hf Hh Hl Hb Hadd Hcl]. destruct (base_range a Ha) as (B1 & B2 & B3 & B4). destruct geo as (_ & Hsc & _). pose proof (bytes_size _ Hh) as Hz. unfold seen. destruct (Z.eqb_spec (base a) (sectorBufAddr c)) as [Eb|Hne].
  - rewrite Z.min_r, Z.sub_diag, slice_0, app_nil_r by lia. done.
  - unfold logical. destruct (Z.eqb_spec (sectorBufAddr c) NONE) as [|Hs]; [done|]. destruct (Hadd Hs) as (A1 & A2 & A3). symmetry. apply slice_patch_out; try lia.
    destruct (sectors_apart (L := L) (base a) (sectorBufAddr c)); [done|done|done|lia|lia].
Qed.

Lemma read_moved c d : inv c -> healthy d -> bytes d = bytes (spimctrl c) -> inv (set_spi d c) /\ logical (set_spi d c) = logical c.
Proof. intros [] Hd Eb. split; [constructor; try done; cbn; by rewrite Eb|]. unfold logical. cbn. by rewrite Eb. Qed.

(** ** Sessions *)

Definition perform (o : op) c : flash_context * answer :=
  match o with
  | Write a xs => result Count (flash_bufferedWrite a xs c)
  | Read a n => result Data (flash_readData a n c)
  | Sync => result Count (flash_sync c)
  end.

(** Operations within the chip; reads within a sector. *)
Definition sound (o : op) (l : list Z) : Prop :=
  match o with
  | Write a xs => 0 <= a < sz /\ a + zlen xs <= sz /\ Forall is_byte xs
  | Read a n => 0 <= a < sz /\ 0 <= n /\ a + n <= base a + sc
  | Sync => True
  end.

Lemma gr_perform_ok o c : inv c -> sound o (logical c) -> exists c', perform o c = (c', (on_bytes o (logical c)).2) /\ inv c' /\ logical c' = (on_bytes o (logical c)).1.
Proof.
  intros Hc Ho. destruct o as [a xs|a n|]; cbn [perform on_bytes sound fst snd] in *.
  - destruct Ho as (Ha & Hend & Hb). destruct (gr_bufferedWrite_ok c a xs Hc Ha Hend Hb) as (c' & -> & Hc'). by exists c'.
  - destruct Ho as (Ha & Hn & Hend). destruct (base_range a Ha) as (_ & _ & ? & _). destruct (readData_ok c a n Hc Ha Hn ltac:(lia)) as (d & -> & Hd & Eb). exists (set_spi d c). rewrite seen_sector by done. split; [done|]. by apply read_moved.
  - destruct (gr_sync_ok c Hc) as (d & -> & Hd & Eb). exists (set_spi d c). split; [done|]. by apply gr_moved_inv.
Qed.

(** A direct write within a page of the buffered sector. *)
Lemma directWrite_page c a xs : inv c -> 0 <= a < sz -> 0 < zlen xs -> a mod pg + zlen xs <= pg -> a + zlen xs <= sz -> Forall is_byte xs -> sectorBufAddr c = base a ->
  exists c', flash_directWrite a xs c = (c', Ok (zlen xs)) /\ sectorBufAddr c' = NONE /\ bytes (spimctrl c') = patch (bytes (spimctrl c)) a (programmed (slice (bytes (spimctrl c)) a (zlen xs)) xs).
Proof.
  intros Hc Ha Hx Hpg Hend Hb Es. pose proof Hc as [(Et & Ep & Ec) Hh _ _ _ _]. destruct geo as (Hpp & _ & _ & Hsz & _). pose proof (Z.mod_pos_bound a pg Hpp). destruct (program_law (spimctrl c) a xs Hh (proj1 Ha) Hend Hpg Hb) as (d & r & E & Hd & Eb).
  unfold flash_directWrite. unfold mbind, M_bind, get. rewrite Et, valid_ok by (done || lia). cbn [negb]. destruct xs as [|x0 xs0] eqn:Exs; [unfold zlen in Hx; cbn in Hx; lia|]. cbn [length direct_chunks]. rewrite <- Exs in *. unfold mbind, M_bind, get, modify, spi_program.
  rewrite Ep, (gr_sector_addr c a (i_fits c Hc)), Es, Z.eqb_refl by lia. cbn [spimctrl set_addr]. rewrite Z.min_l by lia. unfold zlen at 1 2 3. rewrite !Nat2Z.id, firstn_all, skipn_all, E.
  assert (En : forall b, direct_chunks (length xs0) b [] = (mret tt : ErrState.M flash_context unit)) by (by destruct (length xs0)). rewrite En. eexists. split; [reflexivity|]. split; [done|]. exact Eb.
Qed.
End driver.

(** C29: the buffered flash of the GR716 is an array of bytes for writes, syncs and reads within a sector. From every state with
    the driver's invariant, on a chip that works, a sequence of them has the results it has on the array, and destroying the
    driver leaves the array on the chip. *)
Theorem gr_flash_refines {N : Nor} {sz pg sc} {L : NorLaws N sz pg sc sz} os (c : flash_context) : inv c -> all_sound (sound (sz := sz) (sc := sc)) os (logical c) ->
  exists c', session perform os c = (c', (bytes_session os (logical c)).2) /\ inv c' /\ logical c' = (bytes_session os (logical c)).1 /\ bytes (flash_contextDestroy c') = (bytes_session os (logical c)).1.
Proof.
  intros Hc Hs. destruct (session_refines perform sound inv logical gr_perform_ok os c Hc Hs) as (c' & E & Hc' & Hl). exists c'. split; [done|]. split; [done|]. split; [done|].
  destruct (gr_sync_ok c' Hc') as (d & Ed & _ & Eb). unfold flash_contextDestroy. rewrite Ed. cbn. congruence.
Qed.

(** where the GR716 driver departs from the array. A read that starts in another sector than the buffered one returns the bytes of
    the chip, also for the part that is buffered and not yet written back; a sync does not take the dirty mark back, so that every
    sync erases and programs the sector again; a direct write to the buffered sector discards what the buffer holds. *)
Theorem gr_flash_exceptions {N : Nor} {sz pg sc} {L : NorLaws N sz pg sc sz} (c : flash_context) : inv c ->
  (forall a n, 0 <= a < sz -> 0 <= n -> a + n <= sz -> base (sc := sc) a <> sectorBufAddr c -> exists c', flash_readData a n c = (c', Ok (slice (bytes (spimctrl c)) a n))) /\
  (sectorBufDirty c = true -> exists c', flash_sync c = (c', Ok 0) /\ sectorBufDirty c' = true) /\
  (forall a xs, 0 <= a < sz -> 0 < zlen xs -> a mod pg + zlen xs <= pg -> a + zlen xs <= sz -> Forall is_byte xs -> sectorBufAddr c = base (sc := sc) a ->
     exists c', flash_directWrite a xs c = (c', Ok (zlen xs)) /\ logical c' = patch (bytes (spimctrl c)) a (programmed (slice (bytes (spimctrl c)) a (zlen xs)) xs)).
Proof.
  intros Hc. split; [|split].
  - intros a n Ha Hn Hend Hne. destruct (readData_ok c a n Hc Ha Hn Hend) as (d & E & _). exists (set_spi d c). rewrite E. unfold seen. by rewrite (proj2 (Z.eqb_neq _ _)).
  - intros Hd. destruct (gr_sync_ok c Hc) as (d & -> & _). by exists (set_spi d c).
  - intros a xs Ha Hx Hpg Hend Hb Es. destruct (directWrite_page c a xs Hc Ha Hx Hpg Hend Hb Es) as (c' & E & En & Eb). exists c'. split; [done|]. unfold logical. by rewrite En.
Qed.
End FlashGrCorrect.
