(* ===== verification/FlashGrWitness.v ===== *)
(** * GR716 flash: witnesses

    The chip of 16 bytes of [FlashWitness.v] below the driver of the GR716. *)

From S2P Require Import Prelude Slices ErrState ByteArray Nor Sectors FlashGr FlashGrCorrect FlashWitness.

Module FlashGrWitness.
Import Slices ErrState ByteArray Nor Sectors FlashGr FlashGrCorrect.

#[local] Instance gr_N16 : Nor := ideal 16 4.
Lemma gr_small : 4 <= 16.
Proof. lia. Qed.
#[local] Instance gr_L16 : NorLaws gr_N16 16 2 4 16 := ideal_laws 16 2 4 16 FlashWitness.small gr_small.

Definition started : @flash_context gr_N16 := mk_ctx 16 2 4 NONE false (erased 4) (FlashWitness.image : @chip gr_N16).
(** The sector from 4 on is buffered, its first byte changed. *)
Definition written : @flash_context gr_N16 := mk_ctx 16 2 4 4 true [77; 5; 6; 7] (FlashWitness.image : @chip gr_N16).

Lemma gr_init_started : flash_init (Ok (16, 2, 4)) true (FlashWitness.image : @chip gr_N16) = Ok started.
Proof. reflexivity. Qed.

Lemma write_written : flash_bufferedWrite 4 [77] started = (written, Ok 1).
Proof. reflexivity. Qed.

Lemma image_healthy : healthy (NorLaws := gr_L16) (FlashWitness.image : @chip gr_N16).
Proof. split; [reflexivity|apply FlashWitness.bytes_list; reflexivity]. Qed.

Lemma gr_started_inv : inv (L := gr_L16) started.
Proof. constructor; try done; [exact image_healthy|apply erased_byte]. Qed.
Lemma written_inv : inv (L := gr_L16) written.
Proof. constructor; try done; [exact image_healthy|apply FlashWitness.bytes_list; reflexivity]. Qed.

(** A write over three sectors, the middle one written around the buffer; reads in the first and in the last. *)
Definition demo : list op := [Write 3 [70; 71; 72; 73; 74; 75]; Read 2 2; Read 8 3; Sync].

Lemma gr_demo_sound : all_sound (sound (sz := 16) (sc := 4)) demo (logical (L := gr_L16) started).
Proof.
  cbn [all_sound demo sound]. change (logical (L := gr_L16) started) with FlashWitness.image. repeat split; try (unfold zlen, Sectors.base; cbn; lia). all: try (vm_compute; discriminate). apply FlashWitness.bytes_list. reflexivity.
Qed.

Lemma gr_flash_refines_witness : exists c, session perform demo started = (c, [Count 6; Data [2; 70]; Data [75; 9; 10]; Count 0]) /\
  bytes (NorLaws := gr_L16) (flash_contextDestroy c) = [0; 1; 2; 70; 71; 72; 73; 74; 75; 9; 10; 11; 12; 13; 14; 15].
Proof.
  destruct (gr_flash_refines (L := gr_L16) demo started gr_started_inv gr_demo_sound) as (c & E & _ & _ & Ed). exists c. split; [rewrite E|rewrite Ed]; reflexivity.
Defined.

Lemma gr_flash_exceptions_witness :
  (exists c, flash_readData 3 2 written = (c, Ok [3; 4])) /\ (exists c, flash_sync written = (c, Ok 0) /\ sectorBufDirty c = true) /\
  (exists c, flash_directWrite 6 [0] written = (c, Ok 1) /\ slice (logical (L := gr_L16) c) 4 4 = [4; 5; 0; 7]).
Proof.
  destruct (gr_flash_exceptions (L := gr_L16) written written_inv) as (H1 & H2 & H3). split; [|split].
  - apply H1; [lia|lia|lia|discriminate].
  - apply H2. reflexivity.
  - destruct (H3 6 [0]) as (c & E & El); [lia|reflexivity|vm_compute; discriminate|vm_compute; discriminate|apply FlashWitness.bytes_list; reflexivity|reflexivity|]. exists c. split; [exact E|rewrite El; reflexivity].
Defined.
End FlashGrWitness.
