(* ===== verification/EventQueue.v ===== *)
(** * Event queues of the PC console ([src/tty/pc-tty/event_queue.c])

    The raw bytes of the keyboard and the mouse wait in a ring of 256 bytes for readers of
    [/dev/kbd] and [/dev/mouse]. A mouse packet has three bytes, of which the first has bit
    3 set. A read that has to wait ends the model's call there ([Waits]). *)

From S2P Require Import Prelude Fifo Slices.

Module EventQueue.
Import Slices.

Definition TTYPC_EQBUF_SIZE : Z := 256.

Record event_queue := mk_eq { buf : list Z; cnt : Z; r : Z; w : Z }.

(** [memset] of [event_queue_init]. *)
Definition event_queue_init : event_queue := mk_eq (replicate 256 0) 0 0 0.

(** The bytes stored (0 or 1), and whether a reader is signalled. *)
Definition event_queue_put (q : event_queue) (event notify_cnt : Z) : event_queue * Z * bool :=
  if cnt q <? TTYPC_EQBUF_SIZE then
    (mk_eq (arr_set (buf q) (w q) event) (u32 (cnt q + 1)) (r q) (u32 (w q + 1) mod TTYPC_EQBUF_SIZE), 1, notify_cnt <=? u32 (cnt q + 1))
  else (q, 0, false).

Inductive outcome := Got (l : list Z) | Fails (e : errno) | Waits.

Definition _event_queue_get (q : event_queue) (size minsize : Z) (nonblock : bool) : event_queue * outcome :=
  if cnt q <? minsize then (q, if nonblock then Fails EWOULDBLOCK else Waits)
  else
    let size := if cnt q <? size then cnt q else size in
    let bytes := if r q <? w q then size else Z.min size (TTYPC_EQBUF_SIZE - r q) in
    let front := slice (buf q) (r q) bytes in
    let back := if bytes <? size then slice (buf q) 0 (size - bytes) else [] in
    (mk_eq (buf q) (u32 (cnt q - size)) (u32 (r q + size) mod TTYPC_EQBUF_SIZE) (w q), Got (front ++ back)).

Definition event_queue_get (q : event_queue) (size minsize : Z) (nonblock : bool) : event_queue * outcome :=
  if size <? minsize then (q, Fails EINVAL)
  else if size =? 0 then (q, Got [])
  else _event_queue_get q size minsize nonblock.

(** The inner loop of [event_queue_get_mouse]: a byte is read behind the [dest] read so far; the byte that is looked at is
    [dest[0]]. Each round but the last takes a byte from the queue. *)
Fixpoint find_first (fuel : nat) (dest : list Z) (q : event_queue) (nonblock : bool) : event_queue * outcome :=
  match fuel with
  | O => (q, Waits)
  | S fuel =>
      match _event_queue_get q 1 1 nonblock with
      | (q, Got l) => if has (arr_get (dest ++ l) 0) 8 then (q, Got l) else find_first fuel dest q nonblock
      | (q, o) => (q, o)
      end
  end.

(** [n] packets; [dest] are the bytes read. *)
Fixpoint get_packets (n : nat) (dest : list Z) (q : event_queue) (nonblock : bool) : event_queue * outcome :=
  match n with
  | O => (q, Got dest)
  | S n =>
      match find_first (S (Z.to_nat (cnt q))) dest q nonblock with
      | (q, Got l) =>
          match _event_queue_get q 2 2 nonblock with
          | (q, Got m) => if zlen m =? 2 then get_packets n (dest ++ l ++ m) q nonblock else (q, Got dest)
          | (q, Fails _) => (q, Got dest)
          | (q, Waits) => (q, Waits)
          end
      | (q, o) => (q, o)
      end
  end.

Definition event_queue_get_mouse (q : event_queue) (size : Z) (nonblock : bool) : event_queue * outcome :=
  if size <? 3 then (q, Got [])
  else
    let size := if cnt q <? size then cnt q else size in
    get_packets (Z.to_nat (size / 3)) [] q nonblock.

Definition event_queue_count (q : event_queue) : Z := cnt q.

(** ** Requests to [/dev/kbd] and [/dev/mouse] *)

Inductive request := mtOpen | mtClose | mtRead (size : Z) (nonblock : bool) | mtGetAttr (poll : bool) | mtOther.
(** [msg.o.err] or the data; the poll status is whether [POLLIN] is set. *)
Inductive reply := EOK | Data (o : outcome) | Poll (pollin : bool) | Error (e : errno).

(** [ttypc_kbd_poolthr] and [ttypc_mouse_poolthr] (writes to the mouse are writes to the controller). *)
Definition kbd_request (m : request) (q : event_queue) : event_queue * reply :=
  match m with
  | mtOpen | mtClose => (q, EOK)
  | mtRead size nb => let '(q, o) := event_queue_get q size 1 nb in (q, Data o)
  | mtGetAttr poll => (q, if poll then Poll (1 <=? event_queue_count q) else Error EINVAL)
  | mtOther => (q, Error ENOSYS)
  end.
Definition mouse_request (m : request) (q : event_queue) : event_queue * reply :=
  match m with
  | mtOpen | mtClose => (q, EOK)
  | mtRead size nb => let '(q, o) := event_queue_get_mouse q size nb in (q, Data o)
  | mtGetAttr poll => (q, if poll then Poll (3 <=? event_queue_count q) else Error EINVAL)
  | mtOther => (q, Error ENOSYS)
  end.

(** ** The queue *)

Record wf (q : event_queue) : Prop := {
  w_buf : zlen (buf q) = 256;
  w_cnt : 0 <= cnt q <= 256;
  w_r : 0 <= r q < 256;
  w_w : w q = (r q + cnt q) mod 256;
}.

Definition contents (q : event_queue) : list Z := Fifo.ring_slice 255 (buf q) (r q) (Z.to_nat (cnt q)).

Lemma zlen_contents q : wf q -> zlen (contents q) = cnt q.
Proof. intros []. unfold zlen, contents, Fifo.ring_slice. rewrite length_map, length_seq. lia. Qed.

Lemma init_wf : wf event_queue_init /\ contents event_queue_init = [].
Proof. split; [by constructor|done]. Qed.

(** A ring slice that does not wrap, and one cut in two. *)
Lemma ring_slice_flat d n : forall i, 0 <= i -> i + Z.of_nat n <= 256 -> zlen d = 256 -> Fifo.ring_slice 255 d i n = slice d i (Z.of_nat n).
Proof.
  induction n as [|n IH]; intros i Hi Hend Hl; [by rewrite slice_0|]. rewrite Fifo.ring_slice_S by lia. replace (Z.of_nat (S n)) with (1 + Z.of_nat n) by lia. rewrite slice_app by lia.
  assert (E1 : slice d i 1 = [arr_get d i]).
  { unfold slice, span, arr_get. destruct (lookup_lt_is_Some_2 d (Z.to_nat i)) as [x Hx]; [unfold zlen in Hl; lia|]. rewrite (drop_S _ _ _ Hx), (list_lookup_total_correct _ _ _ Hx). done. }
  rewrite E1. cbn. f_equal. destruct n as [|n]; [by rewrite slice_0|]. rewrite Z.mod_small by lia. apply IH; lia.
Qed.

Lemma ring_slice_app d n m : forall i, 0 <= i < 256 -> Fifo.ring_slice 255 d i (n + m) = Fifo.ring_slice 255 d i n ++ Fifo.ring_slice 255 d ((i + Z.of_nat n) mod 256) m.
Proof.
  induction n as [|n IH]; intros i Hi; [rewrite Z.add_0_r, Z.mod_small by lia; done|]. cbn [Nat.add]. rewrite !Fifo.ring_slice_S by lia. change (255 + 1) with 256. rewrite IH by (apply Z.mod_pos_bound; lia). cbn. do 2 f_equal. rewrite Zplus_mod_idemp_l. do 2 f_equal. lia.
Qed.

Lemma put_spec q x n : wf q -> exists q', event_queue_put q x n = (q', if cnt q <? 256 then 1 else 0, (cnt q <? 256) && (n <=? cnt q + 1)) /\ wf q' /\ contents q' = (if cnt q <? 256 then contents q ++ [x] else contents q).
Proof.
  intros Hq. pose proof Hq as [Hb Hc Hr Hw]. unfold event_queue_put, TTYPC_EQBUF_SIZE. destruct (Z.ltb_spec (cnt q) 256) as [Hlt|]; [|by exists q]. rewrite (u32_small (cnt q + 1)) by lia. pose proof (Z.mod_pos_bound (r q + cnt q) 256 ltac:(lia)) as Hm. rewrite <- Hw in Hm. rewrite u32_small by lia. cbn [andb].
  eexists. split; [reflexivity|]. split.
  - constructor; cbn; [unfold zlen; by rewrite length_arr_set|lia|lia|]. rewrite Hw, Zplus_mod_idemp_l. f_equal. lia.
  - unfold contents. cbn. rewrite Z2Nat.inj_add, Nat.add_1_r, Fifo.ring_slice_snoc by lia. change (255 + 1) with 256. rewrite Z2Nat.id, <- Hw by lia. f_equal.
    + apply Fifo.ring_slice_set; [lia|lia|]. rewrite Z2Nat.id, Hw by lia. change (255 + 1) with 256. rewrite Zminus_mod_idemp_l. replace (r q + cnt q - r q) with (cnt q) by lia. rewrite Z.mod_small; lia.
    + rewrite arr_get_set_eq; [done|lia].
Qed.

Lemma get_spec q n m nb : wf q -> 0 <= n -> exists q', _event_queue_get q n m nb = (if cnt q <? m then (q, if nb then Fails EWOULDBLOCK else Waits) else (q', Got (take (Z.to_nat n) (contents q)))) /\
  wf q' /\ contents q' = drop (Z.to_nat n) (contents q).
Proof.
  intros Hq Hn. pose proof Hq as [Hb Hc Hr Hw]. unfold _event_queue_get, TTYPC_EQBUF_SIZE. set (k := if cnt q <? n then cnt q else n). assert (Hk : 0 <= k <= cnt q /\ k = Z.min n (cnt q)) by (unfold k; case_if; bsimp; lia). destruct Hk as [Hk Emin].
  set (bytes := if r q <? w q then k else Z.min k (256 - r q)). assert (Hwr : r q < w q -> r q + cnt q < 256). { intros Hlt. rewrite Hw in Hlt. destruct (decide (r q + cnt q < 256)); [done|]. rewrite <- (Z_mod_plus _ (-1)), Z.mod_small in Hlt by lia. lia. }
  assert (Hby : 0 <= bytes <= k /\ r q + bytes <= 256 /\ (bytes < k -> r q + bytes = 256)) by (unfold bytes; case_if; bsimp; lia). destruct Hby as (Hb1 & Hb2 & Hb3).
  assert (Esplit : contents q = Fifo.ring_slice 255 (buf q) (r q) (Z.to_nat k) ++ Fifo.ring_slice 255 (buf q) ((r q + k) mod 256) (Z.to_nat (cnt q - k))).
  { unfold contents. replace (Z.to_nat (cnt q)) with (Z.to_nat k + Z.to_nat (cnt q - k))%nat by lia. rewrite ring_slice_app, Z2Nat.id by lia. done. }
  assert (Elen : length (Fifo.ring_slice 255 (buf q) (r q) (Z.to_nat k)) = Z.to_nat k) by (unfold Fifo.ring_slice; rewrite length_map, length_seq; done).
  assert (Erest : length (Fifo.ring_slice 255 (buf q) ((r q + k) mod 256) (Z.to_nat (cnt q - k))) = Z.to_nat (cnt q - k)) by (unfold Fifo.ring_slice; rewrite length_map, length_seq; done).
  assert (Edata : slice (buf q) (r q) bytes ++ (if bytes <? k then slice (buf q) 0 (k - bytes) else []) = Fifo.ring_slice 255 (buf q) (r q) (Z.to_nat k)).
  { replace (Z.to_nat k) with (Z.to_nat bytes + Z.to_nat (k - bytes))%nat by lia. rewrite ring_slice_app, ring_slice_flat, !Z2Nat.id by lia. f_equal. destruct (Z.ltb_spec bytes k) as [Hlt|]; [|by replace (k - bytes) with 0 by lia].
    rewrite (Hb3 Hlt), Z_mod_same_full, ring_slice_flat, Z2Nat.id by lia. done. }
  assert (Etake : take (Z.to_nat n) (contents q) = Fifo.ring_slice 255 (buf q) (r q) (Z.to_nat k) /\ drop (Z.to_nat n) (contents q) = Fifo.ring_slice 255 (buf q) ((r q + k) mod 256) (Z.to_nat (cnt q - k))).
  { rewrite Esplit. destruct (decide (n <= cnt q)).
    - replace (Z.to_nat n) with (length (Fifo.ring_slice 255 (buf q) (r q) (Z.to_nat k))) by lia. by rewrite take_app_length, drop_app_length.
    - replace (cnt q - k) with 0 in * by lia. cbn [Z.to_nat] in *. change (Fifo.ring_slice 255 (buf q) ((r q + k) mod 256) 0) with (@nil Z). rewrite app_nil_r. split; [apply firstn_all2|apply skipn_all2]; lia. }
  destruct Etake as [-> ->]. exists (mk_eq (buf q) (cnt q - k) ((r q + k) mod 256) (w q)). rewrite Edata, (u32_small (cnt q - k)), (u32_small (r q + k)) by lia. split; [done|]. split; [|done].
  constructor; cbn; [done|lia|apply Z.mod_pos_bound; lia|]. rewrite Hw, Zplus_mod_idemp_l. f_equal. lia.
Qed.

(** ** Sessions *)

Inductive op := Put (x notify : Z) | Get (size minsize : Z) (nonblock : bool) | CountEvents.
Inductive answer := Stored (n : Z) (signal : bool) | Read (o : outcome) | Number (n : Z).

Definition perform (o : op) (q : event_queue) : event_queue * answer :=
  match o with
  | Put x n => let '(q, b, s) := event_queue_put q x n in (q, Stored b s)
  | Get n m nb => let '(q, a) := event_queue_get q n m nb in (q, Read a)
  | CountEvents => (q, Number (event_queue_count q))
  end.

(** A queue of at most 256 events. *)
Definition on_list (o : op) (l : list Z) : list Z * answer :=
  match o with
  | Put x n => if zlen l <? 256 then (l ++ [x], Stored 1 (n <=? zlen l + 1)) else (l, Stored 0 false)
  | Get n m nb =>
      if n <? m then (l, Read (Fails EINVAL)) else if n =? 0 then (l, Read (Got []))
      else if zlen l <? m then (l, Read (if nb then Fails EWOULDBLOCK else Waits)) else (drop (Z.to_nat n) l, Read (Got (take (Z.to_nat n) l)))
  | CountEvents => (l, Number (zlen l))
  end.

Definition sound (o : op) : Prop := match o with Get n _ _ => 0 <= n | _ => True end.

Lemma eq_perform_ok o q : wf q -> sound o -> exists q', perform o q = (q', (on_list o (contents q)).2) /\ wf q' /\ contents q' = (on_list o (contents q)).1.
Proof.
  intros Hq Ho. destruct o as [x n|n m nb|]; cbn [perform on_list]; rewrite ?(zlen_contents q Hq).
  - destruct (put_spec q x n Hq) as (q' & -> & Hq' & E). exists q'. destruct (cnt q <? 256); done.
  - unfold event_queue_get. destruct (n <? m); [by exists q|]. destruct (n =? 0); [by exists q|]. destruct (get_spec q n m nb Hq Ho) as (q' & -> & Hq' & E). destruct (cnt q <? m); [by exists q|by exists q'].
  - by exists q.
Qed.

Definition run {S} (f : op -> S -> S * answer) (os : list op) (s : S) : S * list answer :=
  foldl (fun '(s, rs) o => let '(s, a) := f o s in (s, rs ++ [a])) (s, []) os.

Lemma run_ok os : forall q rs, wf q -> Forall sound os ->
  exists q', foldl (fun '(s, rs) o => let '(s, a) := perform o s in (s, rs ++ [a])) (q, rs) os = (q', (foldl (fun '(s, rs) o => let '(s, a) := on_list o s in (s, rs ++ [a])) (contents q, rs) os).2) /\
    wf q' /\ contents q' = (foldl (fun '(s, rs) o => let '(s, a) := on_list o s in (s, rs ++ [a])) (contents q, rs) os).1.
Proof.
  induction os as [|o os IH]; intros q rs Hq Hs; [by exists q|]. apply Forall_cons in Hs as [Ho Hs]. cbn [foldl]. destruct (eq_perform_ok o q Hq Ho) as (q1 & -> & Hq1 & E1). destruct (on_list o (contents q)) as [l a]. cbn [fst snd] in E1. subst l.
  apply IH; done.
Qed.

(** ** Mouse packets *)

Definition packet (p : list Z) : Prop := zlen p = 3 /\ has (arr_get p 0) 8 = true.

(** Bytes that have been read begin with a packet, if there are any. *)
Definition begun (dest : list Z) : Prop := dest = [] \/ has (arr_get dest 0) 8 = true.

Lemma arr_get_app (l k : list Z) : l <> [] -> arr_get (l ++ k) 0 = arr_get l 0.
Proof. by destruct l. Qed.

Lemma eq_find_ok fuel dest q nb x l : wf q -> contents q = x :: l -> has (arr_get (dest ++ [x]) 0) 8 = true ->
  exists q', find_first (S fuel) dest q nb = (q', Got [x]) /\ wf q' /\ contents q' = l.
Proof.
  intros Hq E Hx. destruct (get_spec q 1 1 nb Hq ltac:(lia)) as (q' & Eg & Hq' & Ec). pose proof (zlen_contents q Hq) as Hz. rewrite E in Hz, Eg, Ec. unfold zlen in Hz. cbn in Hz. rewrite (proj2 (Z.ltb_ge _ _)) in Eg by lia.
  exists q'. cbn [find_first]. rewrite Eg. change (take (Z.to_nat 1) (x :: l)) with [x]. rewrite Hx. done.
Qed.

Lemma two_ok q nb y z l : wf q -> contents q = y :: z :: l -> exists q', _event_queue_get q 2 2 nb = (q', Got [y; z]) /\ wf q' /\ contents q' = l.
Proof.
  intros Hq E. destruct (get_spec q 2 2 nb Hq ltac:(lia)) as (q' & Eg & Hq' & Ec). pose proof (zlen_contents q Hq) as Hz. rewrite E in Hz, Eg, Ec. unfold zlen in Hz. cbn in Hz. rewrite (proj2 (Z.ltb_ge _ _)) in Eg by lia. by exists q'.
Qed.

(** A round that finds its first byte at once, whatever its value if packets were read before. *)
Lemma round_ok n dest q nb x y z l : wf q -> contents q = x :: y :: z :: l -> has (arr_get (dest ++ [x]) 0) 8 = true ->
  exists q', get_packets (S n) dest q nb = get_packets n (dest ++ [x; y; z]) q' nb /\ wf q' /\ contents q' = l.
Proof.
  intros Hq E Hx. cbn [get_packets]. destruct (eq_find_ok (Z.to_nat (cnt q)) dest q nb x (y :: z :: l) Hq E Hx) as (q1 & -> & Hq1 & E1). destruct (two_ok q1 nb y z l Hq1 E1) as (q2 & -> & Hq2 & E2). by exists q2.
Qed.

Lemma packets_ok n nb : forall ps dest q rest, wf q -> (n <= length ps)%nat -> Forall packet ps -> begun dest -> contents q = concat ps ++ rest ->
  exists q', get_packets n dest q nb = (q', Got (dest ++ concat (take n ps))) /\ wf q' /\ contents q' = concat (drop n ps) ++ rest.
Proof.
  induction n as [|n IH]; intros ps dest q rest Hq Hn Hps Hd E; [exists q; by rewrite app_nil_r|]. destruct ps as [|p ps]; [cbn in Hn; lia|]. apply Forall_cons in Hps as [[Hp Hx] Hps]. destruct p as [|x [|y [|z [|]]]]; try (unfold zlen in Hp; cbn in Hp; lia).
  assert (Hx' : has (arr_get (dest ++ [x]) 0) 8 = true) by (destruct Hd as [->|Hd]; [exact Hx|destruct dest; [exact Hx|exact Hd]]).
  destruct (round_ok n dest q nb x y z (concat ps ++ rest) Hq E Hx') as (q1 & -> & Hq1 & E1).
  destruct (IH ps (dest ++ [x; y; z]) q1 rest Hq1 ltac:(cbn in Hn; lia) Hps) as (q2 & -> & Hq2 & E2); [|done|].
  { right. destruct Hd as [->|Hd]; [exact Hx|destruct dest; [exact Hx|exact Hd]]. }
  exists q2. cbn [take concat]. rewrite <- app_assoc. done.
Qed.

Lemma concat_packets ps : Forall packet ps -> zlen (concat ps) = 3 * zlen ps.
Proof. induction 1 as [|p ps [Hp _] _ IH]; [done|]. cbn [concat]. rewrite zlen_app, IH, Hp. unfold zlen. cbn [length]. lia. Qed.

(** C30: the queue of events. From every well-formed queue, each sequence of stores, reads and counts has the answers of a queue of at
    most 256 events that drops what does not fit, and leaves its contents; an initialised queue is well-formed and empty. *)
Theorem event_queue_refines q os : wf q -> Forall sound os ->
  (exists q', run perform os q = (q', (run on_list os (contents q)).2) /\ wf q' /\ contents q' = (run on_list os (contents q)).1) /\
  wf event_queue_init /\ contents event_queue_init = [].
Proof. intros Hq Hs. split; [apply (run_ok os q [] Hq Hs)|apply init_wf]. Qed.

(** mouse packets. When the queue holds whole packets, and at most the beginning of another, a read of at least three bytes
    returns as many whole packets as fit in it and are there, in order, and leaves the rest; it neither fails nor waits. The poll
    status tells whether there is a packet. *)
Theorem mouse_reads_packets q size nb ps rest : wf q -> contents q = concat ps ++ rest -> Forall packet ps -> zlen rest < 3 -> 3 <= size ->
  let n := Z.to_nat (size / 3) in
  (exists q', mouse_request (mtRead size nb) q = (q', Data (Got (concat (take n ps)))) /\ wf q' /\ contents q' = concat (drop n ps) ++ rest) /\
  mouse_request (mtGetAttr true) q = (q, Poll (negb (bool_decide (ps = [])))).
Proof.
  intros Hq E Hps Hr Hs n. pose proof (zlen_contents q Hq) as Hz. pose proof (zlen_nonneg rest). pose proof (concat_packets ps Hps) as Hlen.
  rewrite E, zlen_app, Hlen in Hz. split.
  2:{ cbn [mouse_request]. unfold event_queue_count. do 2 f_equal. destruct ps; case_bool_decide; try done; unfold zlen in *; cbn [length] in *; lia. }
  unfold mouse_request, event_queue_get_mouse. rewrite (proj2 (Z.ltb_ge size 3)) by lia. set (k := Z.to_nat ((if cnt q <? size then cnt q else size) / 3)).
  assert (Hk : k = Nat.min n (length ps)).
  { unfold k, n. unfold zlen in Hz at 1. destruct (Z.ltb_spec (cnt q) size); divlia. }
  destruct (packets_ok k nb ps [] q rest Hq) as (q' & E' & Hq' & Ec); [lia|done|by left|done|]. exists q'. rewrite E'. rewrite Hk in *. split; [|split; [done|]].
  - cbn [app]. do 4 f_equal. destruct (decide (n <= length ps)%nat); [by rewrite Nat.min_l by lia|]. rewrite Nat.min_r, !firstn_all2 by lia. done.
  - rewrite Ec. do 2 f_equal. destruct (decide (n <= length ps)%nat); [by rewrite Nat.min_l by lia|]. rewrite Nat.min_r, !skipn_all2 by lia. done.
Qed.

(** lost step. Only the first packet of a read is searched for its mark, the bytes after it are taken as they are: a packet
    that is out of step comes out as one. When a stray byte precedes a packet whose last byte has not arrived, a read that may not
    wait returns nothing and drops the first byte of the packet, so that the reader stays out of step. *)
Theorem mouse_out_of_step q size :
  (forall nb a b c x y z rest, wf q -> contents q = a :: b :: c :: x :: y :: z :: rest -> has a 8 = true -> 6 <= size < 9 -> exists q', event_queue_get_mouse q size nb = (q', Got [a; b; c; x; y; z])) /\
  (forall x a b, wf q -> contents q = [x; a; b] -> has x 8 = false -> has a 8 = true -> 3 <= size -> exists q', event_queue_get_mouse q size true = (q', Got []) /\ contents q' = [b]).
Proof.
  split.
  - intros nb a b c x y z rest Hq E Ha Hs. unfold event_queue_get_mouse. rewrite (proj2 (Z.ltb_ge _ _)) by lia. pose proof (zlen_contents q Hq) as Hz. rewrite E in Hz. unfold zlen in Hz. cbn [length] in Hz.
    assert (En : Z.to_nat ((if cnt q <? size then cnt q else size) / 3) = 2%nat) by (destruct (Z.ltb_spec (cnt q) size); divlia). rewrite En.
    destruct (round_ok 1 [] q nb a b c (x :: y :: z :: rest) Hq E Ha) as (q1 & -> & Hq1 & E1). destruct (round_ok 0 ([] ++ [a; b; c]) q1 nb x y z rest Hq1 E1 Ha) as (q2 & -> & _). by exists q2.
  - intros x a b Hq E Hx Ha Hs. unfold event_queue_get_mouse. rewrite (proj2 (Z.ltb_ge _ _)) by lia. pose proof (zlen_contents q Hq) as Hz. rewrite E in Hz. change (zlen [x; a; b]) with 3 in Hz.
    assert (En : Z.to_nat ((if cnt q <? size then cnt q else size) / 3) = 1%nat) by (destruct (Z.ltb_spec (cnt q) size); divlia). rewrite En. cbn [get_packets]. rewrite <- Hz. change (S (Z.to_nat 3)) with 4%nat.
    destruct (get_spec q 1 1 true Hq ltac:(lia)) as (q1 & Eg & Hq1 & Ec). rewrite E in Eg, Ec. rewrite (proj2 (Z.ltb_ge _ _)) in Eg by lia. cbn [find_first]. rewrite Eg. change (arr_get ([] ++ take (Z.to_nat 1) [x; a; b]) 0) with x. rewrite Hx.
    destruct (eq_find_ok 2 [] q1 true a [b] Hq1 Ec Ha) as (q2 & Ef & Hq2 & E2). cbn [find_first] in Ef. rewrite Ef. destruct (get_spec q2 2 2 true Hq2 ltac:(lia)) as (q3 & Eg3 & _). pose proof (zlen_contents q2 Hq2) as Hz2. rewrite E2 in Hz2. change (zlen [b]) with 1 in Hz2. rewrite (proj2 (Z.ltb_lt _ _)) in Eg3 by lia.
    rewrite Eg3. by exists q2.
Qed.

(** Witnesses: the queue after some events. *)
Definition filled (xs : list Z) : event_queue := foldl (fun q x => (event_queue_put q x 3).1.1) event_queue_init xs.

Lemma filled_ok xs : zlen xs <= 256 -> wf (filled xs) /\ contents (filled xs) = xs.
Proof.
  induction xs as [|x xs IH] using rev_ind; intros Hl; [apply init_wf|]. rewrite zlen_app in Hl. change (zlen [x]) with 1 in Hl. destruct (IH ltac:(lia)) as [Hq E]. unfold filled. rewrite foldl_app. fold (filled xs). cbn [foldl].
  destruct (put_spec (filled xs) x 3 Hq) as (q' & -> & Hq' & E'). cbn [fst]. split; [done|]. pose proof (zlen_contents _ Hq) as Hz. rewrite E in Hz. rewrite (proj2 (Z.ltb_lt _ _)) in E' by lia. by rewrite E', E.
Qed.

Lemma event_queue_refines_witness : exists q, run perform [Put 1 1; Put 2 1; Get 8 1 true; CountEvents] event_queue_init = (q, [Stored 1 true; Stored 1 true; Read (Got [1; 2]); Number 0]).
Proof.
  destruct (event_queue_refines event_queue_init [Put 1 1; Put 2 1; Get 8 1 true; CountEvents] (proj1 init_wf)) as [(q & E & _) _]; [repeat constructor; cbn; lia|]. exists q. exact E.
Defined.

Lemma mouse_reads_packets_witness : exists q, mouse_request (mtRead 100 true) (filled [8; 1; 2; 9; 3; 4; 8]) = (q, Data (Got [8; 1; 2; 9; 3; 4])) /\ contents q = [8].
Proof.
  destruct (filled_ok [8; 1; 2; 9; 3; 4; 8]) as [Hq E]; [unfold zlen; cbn; lia|]. destruct (mouse_reads_packets (filled [8; 1; 2; 9; 3; 4; 8]) 100 true [[8; 1; 2]; [9; 3; 4]] [8] Hq E) as [(q & Eg & _ & Ec) _]; [repeat constructor|reflexivity|lia|]. exists q. split; [exact Eg|exact Ec].
Defined.

Lemma mouse_out_of_step_witness :
  (exists q, event_queue_get_mouse (filled [8; 1; 2; 3; 8; 4]) 6 true = (q, Got [8; 1; 2; 3; 8; 4])) /\ (exists q, event_queue_get_mouse (filled [3; 8; 4]) 6 true = (q, Got []) /\ contents q = [4]).
Proof.
  split.
  - destruct (filled_ok [8; 1; 2; 3; 8; 4]) as [Hq E]; [unfold zlen; cbn; lia|]. exact (proj1 (mouse_out_of_step (filled [8; 1; 2; 3; 8; 4]) 6) true 8 1 2 3 8 4 [] Hq E eq_refl ltac:(lia)).
  - destruct (filled_ok [3; 8; 4]) as [Hq E]; [unfold zlen; cbn; lia|]. exact (proj2 (mouse_out_of_step (filled [3; 8; 4]) 6) 3 8 4 Hq E eq_refl eq_refl ltac:(lia)).
Defined.
End EventQueue.
