(* ===== verification/Kbd.v ===== *)
(** * Keyboard of the PC console ([src/tty/pc-tty/ttypc_kbd.c])

    Scan codes of a PS/2 keyboard become input of the line discipline of the active virtual
    terminal, scroll its view, or switch terminals. [_ttypc_kbd_get] keeps the modifier keys and
    the last key; [ttypc_kbd_handle_event] acts on the string a key stands for.

    The lock keys ([lockst]) are those of the active terminal ([Vt.v]) and go with a switch. A
    character that is echoed is output of the discipline, and the emulator runs on it: as in
    [VtTty.v], after the step of the discipline. *)

From S2P Require Import Prelude Fifo Termios Tty Vt VtTty EventQueue.

Module Kbd.
Import Termios Tty Vt VtTty.

Definition KB_NONE : Z := 0x0000.
Definition KB_CTL : Z := 0x0001.
Definition KB_SHIFT : Z := 0x0002.
Definition KB_ALT : Z := 0x0004.
Definition KB_ALTGR : Z := 0x0008.
Definition KB_SCROLL : Z := 0x0010.
Definition KB_CAPS : Z := 0x0040.
Definition KB_FUNC : Z := 0x0080.
Definition KB_ASCII : Z := 0x0100.
Definition KB_KP : Z := 0x0200.
Definition KB_EXT : Z := 0x0400.
Definition NVTS : Z := 4.

(** ** Keys *)

Record keymap := mk_key { type : Z; unshift : list Z; shift : list Z; ctl : list Z; altgr : list Z; shift_altgr : list Z }.

Definition str (s : string) : list Z := bytes_of s.
Definition esc (s : string) : list Z := 27 :: bytes_of s.
(** The columns of the right alt key are empty throughout; a string that begins with a null character is empty. *)
Definition row (type : Z) (unshift shift ctl : list Z) : keymap := mk_key type unshift shift ctl [] [].

Definition scodes : list keymap := [
  row KB_NONE [] [] []; row KB_ASCII [27] [27] [27]; row KB_ASCII (str "1") (str "!") (esc "[m");
  row KB_ASCII (str "2") (str "@") (esc "[n"); row KB_ASCII (str "3") (str "#") (esc "[o"); row KB_ASCII (str "4") (str "$") (esc "[p");
  row KB_ASCII (str "5") (str "%") [29]; row KB_ASCII (str "6") (str "^") [30]; row KB_ASCII (str "7") (str "&") [31];
  row KB_ASCII (str "8") (str "*") [8]; row KB_ASCII (str "9") (str "(") (str "9"); row KB_ASCII (str "0") (str ")") (str "0");
  row KB_ASCII (str "-") (str "_") (str "-"); row KB_ASCII (str "=") (str "+") (str "="); row KB_ASCII [8; 32; 8] [127] [8];
  row KB_ASCII [9] [9] [9]; row KB_ASCII (str "q") (str "Q") [17]; row KB_ASCII (str "w") (str "W") [23];
  row KB_ASCII (str "e") (str "E") [5]; row KB_ASCII (str "r") (str "R") [18]; row KB_ASCII (str "t") (str "T") [20];
  row KB_ASCII (str "y") (str "Y") [25]; row KB_ASCII (str "u") (str "U") [21]; row KB_ASCII (str "i") (str "I") [9];
  row KB_ASCII (str "o") (str "O") [15]; row KB_ASCII (str "p") (str "P") [16]; row KB_ASCII (str "[") (str "{") [27];
  row KB_ASCII (str "]") (str "}") [29]; row KB_ASCII [10] [10] [13]; row KB_CTL [] [] [];
  row KB_ASCII (str "a") (str "A") [1]; row KB_ASCII (str "s") (str "S") [19]; row KB_ASCII (str "d") (str "D") [4];
  row KB_ASCII (str "f") (str "F") [6]; row KB_ASCII (str "g") (str "G") [7]; row KB_ASCII (str "h") (str "H") [8];
  row KB_ASCII (str "j") (str "J") [10]; row KB_ASCII (str "k") (str "K") [11]; row KB_ASCII (str "l") (str "L") [12];
  row KB_ASCII (str ";") (str ":") (str ";"); row KB_ASCII (str "'") [34] (str "'"); row KB_ASCII (str "`") (str "~") [];
  row KB_SHIFT [1] [] []; row KB_ASCII (str "\") (str "|") [28]; row KB_ASCII (str "z") (str "Z") [26];
  row KB_ASCII (str "x") (str "X") [24]; row KB_ASCII (str "c") (str "C") [3]; row KB_ASCII (str "v") (str "V") [22];
  row KB_ASCII (str "b") (str "B") [2]; row KB_ASCII (str "n") (str "N") [14]; row KB_ASCII (str "m") (str "M") [13];
  row KB_ASCII (str ",") (str "<") (str ","); row KB_ASCII (str ".") (str ">") (str "."); row KB_ASCII (str "/") (str "?") [31];
  row KB_SHIFT [2] [] []; row KB_KP (str "*") (str "*") (str "*"); row KB_ALT [] [] [];
  row KB_ASCII [32] [32] []; row KB_CAPS [] [] []; row KB_FUNC (esc "[OP") (esc "[a") (esc "[m");
  row KB_FUNC (esc "[OQ") (esc "[b") (esc "[n"); row KB_FUNC (esc "[OR") (esc "[c") (esc "[o"); row KB_FUNC (esc "[OS") (esc "[d") (esc "[p");
  row KB_FUNC (esc "[15~") (esc "[e") (esc "[q"); row KB_FUNC (esc "[17~") (esc "[f") (esc "[r"); row KB_FUNC (esc "[18~") (esc "[g") (esc "[s");
  row KB_FUNC (esc "[19~") (esc "[h") (esc "[t"); row KB_FUNC (esc "[20~") (esc "[i") (esc "[u"); row KB_FUNC (esc "[21~") (esc "[j") (esc "[v");
  row KB_NUM [] [] []; row KB_SCROLL [] [] []; row KB_KP (str "7") (esc "[H") (str "7");
  row KB_KP (str "8") (esc "[A") (str "8"); row KB_KP (str "9") (esc "[5~") (str "9"); row KB_KP (str "-") (str "-") (str "-");
  row KB_KP (str "4") (esc "[D") (str "4"); row KB_KP (str "5") (esc "[E") (str "5"); row KB_KP (str "6") (esc "[C") (str "6");
  row KB_KP (str "+") (str "+") (str "+"); row KB_KP (str "1") (esc "[F") (str "1"); row KB_KP (str "2") (esc "[B") (str "2");
  row KB_KP (str "3") (esc "[6~") (str "3"); row KB_KP (str "0") (esc "[2~") (str "0"); row KB_KP (str ",") (esc "[3~") (str ",");
  row KB_NONE [] [] []; row KB_NONE [] [] []; row KB_NONE [] [] [];
  row KB_FUNC (esc "[23~") (esc "[k") (esc "[w"); row KB_FUNC (esc "[24~") (esc "[l") (esc "[x"); row KB_NONE [] [] [];
  row KB_NONE [] [] []; row KB_NONE [] [] []; row KB_NONE [] [] [];
  row KB_NONE [] [] []; row KB_NONE [] [] []; row KB_NONE [] [] [];
  row KB_EXT [] [] []] ++ replicate 31 (row KB_NONE [] [] []).

Definition kpmod : list Z := [0; 5; 2; 6; 3; 7; 4; 8; 0; 5; 2; 6; 3; 7; 4; 8].

Definition key (dt : Z) : keymap := default (row KB_NONE [] [] []) (scodes !! Z.to_nat dt).

(** The static variables of [_ttypc_kbd_get], and [shiftst]. *)
Record kbd := mk_kbd { ext : bool; lkey : Z; lkeyup : bool; lext : bool; shiftst : Z }.
Definition kbd0 : kbd := mk_kbd false 0 false false 0.

Definition set_ext (x : bool) (k : kbd) : kbd := mk_kbd x (lkey k) (lkeyup k) (lext k) (shiftst k).
Definition set_shiftst (x : Z) (k : kbd) : kbd := mk_kbd (ext k) (lkey k) (lkeyup k) (lext k) x.
Definition set_last (key : Z) (e : bool) (k : kbd) : kbd := mk_kbd (ext k) key (lkeyup k) e (shiftst k).
Definition set_lkeyup (x : bool) (k : kbd) : kbd := mk_kbd (ext k) (lkey k) x (lext k) (shiftst k).

Definition hold (b : Z) (k : kbd) : kbd := set_shiftst (shiftst k ||| b) k.
Definition drop_mod (b : Z) (k : kbd) : kbd := set_shiftst (shiftst k &&& lnot_w 8 b) k.

(** A key is released. *)
Definition release (dt : Z) (k : kbd) : kbd :=
  let ty := type (key dt) in
  let k :=
    if ty =? KB_SCROLL then (if ext k then k else drop_mod KB_SCROLL k)
    else if ty =? KB_NUM then (if ext k then k else drop_mod KB_NUM k)
    else if ty =? KB_CAPS then (if ext k then k else drop_mod KB_CAPS k)
    else if ty =? KB_CTL then drop_mod KB_CTL k
    else if ty =? KB_SHIFT then (if ext k then k else drop_mod KB_SHIFT k)
    else if ty =? KB_ALT then (if ext k then drop_mod KB_ALTGR k else drop_mod KB_ALT k)
    else k in
  if (dt =? lkey k) && eqb (ext k) (lext k) then set_lkeyup true (set_last 0 false k) else k.

(** A lock key is pressed: the lock changes, unless the key repeats. *)
Definition lock (b : Z) (k : kbd) (v : vt) : kbd * vt :=
  if has (shiftst k) b then (k, v) else (hold b k, update_leds (Z.lxor (lockst v) b) v).

(** The column of a function or character key, and of a key of the keypad. The code compares the pointers of columns; columns of
    a row that hold the same string may be the same pointer, which makes no difference to the string that is taken. *)
Definition ascii_key (dt : Z) (k : kbd) (v : vt) : list Z :=
  let c := key dt in
  if ext k then unshift c
  else if has (shiftst k) KB_CTL then ctl c
  else
    let caps := has (lockst v) KB_CAPS && ((97 <=? arr_get (unshift c) 0) && (arr_get (unshift c) 0 <=? 122)) in
    if has (shiftst k) KB_ALTGR then (if eqb (has (shiftst k) KB_SHIFT) caps then altgr c else shift_altgr c)
    else if eqb (has (shiftst k) KB_SHIFT) caps then unshift c else shift c.

Definition kp_key (dt : Z) (k : kbd) (v : vt) : list Z :=
  let c := key dt in
  if ext k then shift c
  else if has (shiftst k) KB_SHIFT then (if has (lockst v) KB_NUM then unshift c else shift c)
  else if has (lockst v) KB_NUM then shift c
  else if has (shiftst k) KB_CTL then ctl c else unshift c.

(** A key is pressed; the string it stands for. *)
Definition press (dt : Z) (k : kbd) (v : vt) : kbd * vt * option (list Z) :=
  let ty := type (key dt) in
  if ty =? KB_SCROLL then (lock KB_SCROLL k v, None)
  else if ty =? KB_NUM then (lock KB_NUM k v, None)
  else if ty =? KB_CAPS then (lock KB_CAPS k v, None)
  else if ty =? KB_CTL then (hold KB_CTL k, v, None)
  else if ty =? KB_SHIFT then (hold KB_SHIFT k, v, None)
  else if ty =? KB_ALT then (hold (if ext k then KB_ALTGR else KB_ALT) k, v, None)
  else if (ty =? KB_FUNC) || (ty =? KB_ASCII) then (k, v, Some (ascii_key dt k v))
  else if ty =? KB_KP then (k, v, Some (kp_key dt k v))
  else (k, v, None).

(** What [_ttypc_kbd_get] returns; [Reboot] is [NULL], after a call of [reboot]. *)
Inductive got := NoKey | Key (s : list Z) | Reboot.

Definition _ttypc_kbd_get (dt : Z) (k : kbd) (v : vt) : kbd * vt * got :=
  if type (key (dt &&& 0x7f)) =? KB_EXT then (set_ext true k, v, NoKey)
  else
    let '(k, v, s) := (if has dt 0x80 then (release (dt &&& 0x7f) k, v, None) else press dt k v) in
    let dt := dt &&& 0x7f in
    let s := if negb (arm v) && ((dt =? lkey k) && eqb (ext k) (lext k)) then None else s in
    let res := match s with
               | Some s => if ext k && bool_decide (s = esc "[3~") && (shiftst k =? KB_CTL ||| KB_ALT) then Reboot else Key s
               | None => NoKey
               end in
    let ty := type (key dt) in
    let k := if lkeyup k then set_lkeyup false k
             else if (ty =? KB_FUNC) || (ty =? KB_ASCII) || (ty =? KB_KP) then set_last dt (ext k) k else k in
    (set_ext false k, v, res).

(** ** What a key does *)

Inductive action := Scroll (n : Z) | Switch (i : Z) | Send (s : list Z).

(** [snprintf("%u")] of a modifier, one digit. *)
Definition digit (m : Z) : Z := 48 + m.

(** The modifiers and modes in the sequences of the keypad and function keys. *)
Definition with_modifiers (k : kbd) (v : vt) (s : list Z) : list Z :=
  let m := arr_get kpmod (shiftst k &&& 0x0f) in
  match s with
  | [27; 91; c] => if ((65 <=? c) && (c <=? 70)) || (c =? 72) then
                     if negb (m =? 0) then [27; 91; 49; 59; digit m; c] else if ckm v then [27; 79; c] else s
                   else s
  | [27; 91; c; 126] => if ((50 <=? c) && (c <=? 54)) && negb (c =? 52) then if negb (m =? 0) then [27; 91; c; 59; digit m; 126] else s else s
  | [13] | [10] => if lnm v then [13; 10] else s
  | _ => s
  end.

Definition key_action (k : kbd) (v : vt) (s : list Z) : action :=
  let scrolls b := has (lockst v) KB_SCROLL || (shiftst k =? b) in
  if bool_decide (s = esc "[A") && scrolls (KB_CTL ||| KB_SHIFT) then Scroll 1
  else if bool_decide (s = esc "[B") && scrolls (KB_CTL ||| KB_SHIFT) then Scroll (-1)
  else if bool_decide (s = esc "[5~") && scrolls KB_SHIFT then Scroll (rows v)
  else if bool_decide (s = esc "[6~") && scrolls KB_SHIFT then Scroll (- rows v)
  else if bool_decide (s = esc "[H") && scrolls KB_SHIFT then Scroll (scrbsz v - scrbpos v)
  else if bool_decide (s = esc "[F") && scrolls KB_SHIFT then Scroll (- scrbpos v)
  else match s with
  | [27; 91; c] => if (109 <=? c) && (c <=? 120) then Switch (c - 109) else Send (with_modifiers k v s)
  | _ => Send (with_modifiers k v s)
  end.

Section console.
Context `{Abi} {CS : CharSign}.

(** A character of input, and its echo. *)
Definition input_char (s : tty * vt) (c : Z) : option (tty * vt) :=
  let t := (_libtty_putchar s.1 (u8 c) false).1 in
  if _libtty_txready t then callback t s.2 else Some (t, s.2).
Fixpoint input (bytes : list Z) (s : tty * vt) : option (tty * vt) :=
  match bytes with [] => Some s | c :: bytes => s ← input_char s c; input bytes s end.

(** The console: the terminals, the active one, and what is queued for [/dev/kbd]. *)
Record ttypc := mk_pc { keyboard : kbd; keq : EventQueue.event_queue; terminals : list (tty * vt); active_vt : Z }.

Definition set_terminal (s : tty * vt) (p : ttypc) : ttypc := mk_pc (keyboard p) (keq p) (<[Z.to_nat (active_vt p) := s]> (terminals p)) (active_vt p).

(** [_ttypc_vga_switch(ttypc->vts + i)] from terminal [s]; the sizes are the frame buffer's. *)
Definition switch_to (maxcols maxrows i : Z) (s : tty * vt) (p : ttypc) : option ttypc :=
  if i =? active_vt p then Some (set_terminal s p)
  else
    s' ← terminals p !! Z.to_nat i;
    r ← _ttypc_vga_switch maxcols maxrows s.2 (set_lockst (lockst s.2) s'.2);
    Some (mk_pc (keyboard p) (keq p) (<[Z.to_nat i := (s'.1, r.2)]> (<[Z.to_nat (active_vt p) := (s.1, r.1)]> (terminals p))) i).

(** After an event: the console runs on, restarts the machine, or waits in a write of the message that it cannot. *)
Inductive after := Runs (p : ttypc) | Restarts | Stuck (p : ttypc).

Definition erreboot : list Z := bytes_of "Failed to reboot" ++ [10; 0].

Definition ttypc_kbd_handle_event (maxcols maxrows : Z) (reboots : bool) (b : Z) (p : ttypc) : option after :=
  s ← terminals p !! Z.to_nat (active_vt p);
  let '(t, v) := s in
  let '(k, v, g) := _ttypc_kbd_get b (keyboard p) v in
  let p := mk_pc k (EventQueue.event_queue_put (keq p) b 1).1.1 (terminals p) (active_vt p) in
  match g with
  | NoKey => Some (Runs (set_terminal (t, v) p))
  | Reboot =>
      if reboots then Some Restarts
      else r ← ttypc_vt_write t v erreboot 0; Some (match r with (t, v, Ret _) => Runs (set_terminal (t, v) p) | (t, v, Blocked) => Stuck (set_terminal (t, v) p) end)
  | Key s =>
      match key_action k v s with
      | Scroll n => v ← _ttypc_vga_scroll v n; Some (Runs (set_terminal (t, v) p))
      | Switch i => if i <? NVTS then p ← switch_to maxcols maxrows i (t, v) p; Some (Runs p) else Some (Runs (set_terminal (t, v) p))
      | Send s => s ← input s (t, v); Some (Runs (set_terminal s p))
      end
  end.

(** A stream of scan codes. *)
Fixpoint events (maxcols maxrows : Z) (bs : list Z) (p : ttypc) : option ttypc :=
  match bs with
  | [] => Some p
  | b :: bs => r ← ttypc_kbd_handle_event maxcols maxrows false b p; match r with Runs p => events maxcols maxrows bs p | _ => None end
  end.
End console.
End Kbd.
