(* ===== verification/KbdCorrect.v ===== *)
(** * Keyboard of the PC console: modifiers, typing, lost keys *)

From S2P Require Import Prelude Fifo Termios Tty Vt VtTty EventQueue Kbd.

Module KbdCorrect.
Import Termios Tty Vt VtTty Kbd.

(** ** Bits *)

Lemma has_bit x i : 0 <= i -> has x (2 ^ i) = Z.testbit x i.
Proof.
  intros Hi. unfold has. destruct (Z.testbit x i) eqn:E.
  - apply negb_true_iff, Z.eqb_neq. intros Hz. apply (f_equal (fun z => Z.testbit z i)) in Hz. rewrite Z.land_spec, E, Z.pow2_bits_true in Hz by done. rewrite Z.bits_0 in Hz. discriminate.
  - apply negb_false_iff, Z.eqb_eq, Z.bits_inj'. intros j Hj. rewrite Z.land_spec, Z.bits_0, Z.pow2_bits_eqb by done. destruct (Z.eqb_spec i j) as [->|]; [by rewrite E|by rewrite andb_false_r].
Qed.

Lemma bit_hold x i j : 0 <= i -> 0 <= j -> Z.testbit (x ||| 2 ^ j) i = Z.testbit x i || (j =? i).
Proof. intros. rewrite Z.lor_spec, Z.pow2_bits_eqb by done. done. Qed.

Lemma bit_drop x i j : 0 <= i < 8 -> 0 <= j < 8 -> Z.testbit (x &&& lnot_w 8 (2 ^ j)) i = Z.testbit x i && negb (j =? i).
Proof.
  intros Hi Hj. unfold lnot_w. rewrite Z.land_spec, Z.lxor_spec, Z.pow2_bits_eqb by lia. change (2 ^ 8 - 1) with (Z.ones 8). rewrite Z.testbit_ones_nonneg by lia. rewrite (proj2 (Z.ltb_lt _ _)) by lia. by destruct (j =? i).
Qed.

(** What holds of every scan code of 7 bits. *)
Lemma code_ind (P : Z -> bool) dt : forallb P (seqZ 0 128) = true -> 0 <= dt < 128 -> P dt = true.
Proof. intros H Hd. rewrite forallb_forall in H. apply H, list_elem_of_In, elem_of_seqZ. lia. Qed.

Lemma code_low dt : 0 <= dt < 128 -> has dt 0x80 = false /\ dt &&& 0x7f = dt /\ has (dt + 128) 0x80 = true /\ (dt + 128) &&& 0x7f = dt.
Proof.
  intros Hd. pose proof (code_ind (fun dt => negb (has dt 0x80) && (dt &&& 0x7f =? dt) && has (dt + 128) 0x80 && ((dt + 128) &&& 0x7f =? dt)) dt eq_refl Hd) as H. rewrite !andb_true_iff, negb_true_iff, !Z.eqb_eq in H. tauto.
Qed.

(** ** Modifiers *)

(** Keys, once the prefix of extended codes is taken off. *)
Record stroke := mk_stroke { code : Z; extended : bool; down : bool }.
Fixpoint decode (e : bool) (bs : list Z) : list stroke :=
  match bs with
  | [] => []
  | b :: bs => if b &&& 0x7f =? 0x60 then decode true bs else mk_stroke (b &&& 0x7f) e (negb (has b 0x80)) :: decode false bs
  end.

(** The bits of [shiftst] and [lockst]. *)
Inductive modifier := Ctl | Shift | Alt | AltGr.
Inductive lock_key := ScrollLock | NumLock | CapsLock.
Definition mod_bit (m : modifier) : Z := match m with Ctl => 0 | Shift => 1 | Alt => 2 | AltGr => 3 end.
Definition lock_bit (l : lock_key) : Z := match l with ScrollLock => 4 | NumLock => 5 | CapsLock => 6 end.

(** The strokes that set and clear a modifier. *)
Definition sets (m : modifier) (s : stroke) : bool :=
  down s && match m with
            | Ctl => code s =? 29
            | Shift => (code s =? 42) || (code s =? 54)
            | Alt => (code s =? 56) && negb (extended s)
            | AltGr => (code s =? 56) && extended s
            end.
Definition clears (m : modifier) (s : stroke) : bool :=
  negb (down s) && match m with
            | Ctl => code s =? 29
            | Shift => ((code s =? 42) || (code s =? 54)) && negb (extended s)
            | Alt => (code s =? 56) && negb (extended s)
            | AltGr => (code s =? 56) && extended s
            end.
Definition mod_step (m : modifier) (b : bool) (s : stroke) : bool := if sets m s then true else if clears m s then false else b.

(** Whether a lock key is held, and its lock: it changes when the key goes down. *)
Definition lock_code (l : lock_key) : Z := match l with ScrollLock => 70 | NumLock => 69 | CapsLock => 58 end.
Definition lock_step (l : lock_key) (b : bool * bool) (s : stroke) : bool * bool :=
  if code s =? lock_code l then if down s then (true, if b.1 then b.2 else negb b.2) else if extended s then b else (false, b.2) else b.

(** A stream of bytes through [_ttypc_kbd_get]. *)
Definition gets (bs : list Z) (s : kbd * vt) : kbd * vt := foldl (fun '(k, v) b => (_ttypc_kbd_get b k v).1) s bs.

(** The part of the state that modifiers are. *)
Definition after_stroke (s : stroke) (k : kbd) (v : vt) : kbd * vt :=
  if down s then (press (code s) k v).1 else (release (code s) k, v).

Lemma ext_code dt : 0 <= dt < 128 -> (type (key dt) =? KB_EXT) = (dt =? 0x60).
Proof. intros Hd. apply eqb_prop. by apply (code_ind (fun dt => eqb (type (key dt) =? KB_EXT) (dt =? 0x60))). Qed.

Lemma low_range b : 0 <= b -> 0 <= b &&& 0x7f < 128.
Proof. intros. change 0x7f with (2 ^ 7 - 1). rewrite land_mask by lia. apply Z.mod_pos_bound. lia. Qed.

Lemma key_types dt : 0 <= dt < 128 ->
  (type (key dt) =? KB_SCROLL) = (dt =? 70) /\ (type (key dt) =? KB_NUM) = (dt =? 69) /\ (type (key dt) =? KB_CAPS) = (dt =? 58) /\
  (type (key dt) =? KB_CTL) = (dt =? 29) /\ (type (key dt) =? KB_SHIFT) = ((dt =? 42) || (dt =? 54)) /\ (type (key dt) =? KB_ALT) = (dt =? 56).
Proof.
  intros Hd. pose proof (code_ind (fun dt => let ty := type (key dt) in eqb (ty =? KB_SCROLL) (dt =? 70) && eqb (ty =? KB_NUM) (dt =? 69) && eqb (ty =? KB_CAPS) (dt =? 58) &&
    eqb (ty =? KB_CTL) (dt =? 29) && eqb (ty =? KB_SHIFT) ((dt =? 42) || (dt =? 54)) && eqb (ty =? KB_ALT) (dt =? 56)) dt eq_refl Hd) as H. cbv zeta in H. rewrite !andb_true_iff, !eqb_true_iff in H. tauto.
Qed.

Lemma byte_code b : 0 <= b < 256 -> has b 0x80 = false -> b &&& 0x7f = b.
Proof.
  intros Hb H. destruct (decide (b < 128)); [apply code_low; lia|]. destruct (code_low (b - 128) ltac:(lia)) as (_ & _ & H1 & _). replace (b - 128 + 128) with b in H1 by lia. congruence.
Qed.

(** The modifiers and locks after a byte are those after its stroke. *)
Lemma get_stroke b k v : 0 <= b < 256 -> b &&& 0x7f <> 0x60 -> let s := mk_stroke (b &&& 0x7f) (ext k) (negb (has b 0x80)) in let r := (_ttypc_kbd_get b k v).1 in
  shiftst r.1 = shiftst (after_stroke s k v).1 /\ lockst r.2 = lockst (after_stroke s k v).2 /\ ext r.1 = false.
Proof.
  intros Hb Hne s r. subst r s. unfold _ttypc_kbd_get, after_stroke. pose proof (low_range b ltac:(lia)) as Hl. rewrite ext_code, (proj2 (Z.eqb_neq _ _)) by done. cbn [code down]. destruct (has b 0x80) eqn:Eb; cbn [negb].
  - cbn. repeat case_match; done.
  - rewrite (byte_code b) by done. destruct (press b k v) as [[k1 v1] o]. cbn. repeat case_match; done.
Qed.

Lemma get_prefix b k v : 0 <= b -> b &&& 0x7f = 0x60 -> (_ttypc_kbd_get b k v).1 = (set_ext true k, v).
Proof. intros Hb E. unfold _ttypc_kbd_get. rewrite E. done. Qed.

(** Bits of a modifier after another one is set or cleared. *)
Lemma hold_bit k i j : 0 <= i -> 0 <= j -> Z.testbit (shiftst (hold (2 ^ j) k)) i = Z.testbit (shiftst k) i || (j =? i).
Proof. apply bit_hold. Qed.
Lemma drop_bit k i j : 0 <= i < 8 -> 0 <= j < 8 -> Z.testbit (shiftst (drop_mod (2 ^ j) k)) i = Z.testbit (shiftst k) i && negb (j =? i).
Proof. apply bit_drop. Qed.

Ltac bits := change KB_CTL with (2 ^ 0); change KB_SHIFT with (2 ^ 1); change KB_ALT with (2 ^ 2); change KB_ALTGR with (2 ^ 3);
  change KB_SCROLL with (2 ^ 4); change KB_NUM with (2 ^ 5); change KB_CAPS with (2 ^ 6).

(** The release of a key, as far as modifiers go. *)
Definition lift (dt : Z) (k : kbd) : kbd :=
  if dt =? 70 then (if ext k then k else drop_mod KB_SCROLL k)
  else if dt =? 69 then (if ext k then k else drop_mod KB_NUM k)
  else if dt =? 58 then (if ext k then k else drop_mod KB_CAPS k)
  else if dt =? 29 then drop_mod KB_CTL k
  else if (dt =? 42) || (dt =? 54) then (if ext k then k else drop_mod KB_SHIFT k)
  else if dt =? 56 then (if ext k then drop_mod KB_ALTGR k else drop_mod KB_ALT k)
  else k.

Lemma release_lift dt k : 0 <= dt < 128 -> shiftst (release dt k) = shiftst (lift dt k).
Proof.
  intros Hd. destruct (key_types dt Hd) as (E1 & E2 & E3 & E4 & E5 & E6). unfold release, lift. rewrite E1, E2, E3, E4, E5, E6. by case_match.
Qed.

Lemma press_held dt k v : 0 <= dt < 128 -> (press dt k v).1 =
  if dt =? 70 then lock KB_SCROLL k v else if dt =? 69 then lock KB_NUM k v else if dt =? 58 then lock KB_CAPS k v
  else if dt =? 29 then (hold KB_CTL k, v) else if (dt =? 42) || (dt =? 54) then (hold KB_SHIFT k, v)
  else if dt =? 56 then (hold (if ext k then KB_ALTGR else KB_ALT) k, v) else (k, v).
Proof.
  intros Hd. destruct (key_types dt Hd) as (E1 & E2 & E3 & E4 & E5 & E6). unfold press. rewrite E1, E2, E3, E4, E5, E6. repeat case_match; done.
Qed.

(** The codes of modifiers, or another one. *)
Lemma code_cases dt : dt = 70 \/ dt = 69 \/ dt = 58 \/ dt = 29 \/ dt = 42 \/ dt = 54 \/ dt = 56 \/
  (dt =? 70) = false /\ (dt =? 69) = false /\ (dt =? 58) = false /\ (dt =? 29) = false /\ (dt =? 42) = false /\ (dt =? 54) = false /\ (dt =? 56) = false.
Proof. lia. Qed.

Lemma stroke_mod m s k v : 0 <= code s < 128 -> extended s = ext k -> Z.testbit (shiftst (after_stroke s k v).1) (mod_bit m) = mod_step m (Z.testbit (shiftst k) (mod_bit m)) s.
Proof.
  intros Hc He. unfold after_stroke, mod_step, sets, clears. destruct s as [dt e d]. cbn [code extended down] in *. subst e. destruct d; cbn [fst andb negb]; rewrite ?release_lift, ?press_held by done; unfold lift, lock.
  all: destruct (code_cases dt) as [->|[->|[->|[->|[->|[->|[->|(E1 & E2 & E3 & E4 & E5 & E6 & E7)]]]]]]]; rewrite ?E1, ?E2, ?E3, ?E4, ?E5, ?E6, ?E7.
  all: destruct m; cbn [Z.eqb Pos.eqb orb andb mod_bit fst]; bits; try (destruct (ext k)); try (destruct (has (shiftst k) _)); cbn [negb andb fst]; rewrite ?hold_bit, ?drop_bit by lia; cbn [Z.eqb Pos.eqb negb]; rewrite ?orb_false_r, ?orb_true_r, ?andb_true_r, ?andb_false_r; reflexivity.
Qed.

Lemma stroke_lock l s k v : 0 <= code s < 128 -> extended s = ext k ->
  (Z.testbit (shiftst (after_stroke s k v).1) (lock_bit l), Z.testbit (lockst (after_stroke s k v).2) (lock_bit l)) = lock_step l (Z.testbit (shiftst k) (lock_bit l), Z.testbit (lockst v) (lock_bit l)) s.
Proof.
  intros Hc He. unfold after_stroke, lock_step. destruct s as [dt e d]. cbn [code extended down] in *. subst e. destruct d; cbn [fst snd]; rewrite ?release_lift, ?press_held by done; unfold lift, lock; bits; rewrite ?has_bit by lia.
  all: destruct (code_cases dt) as [->|[->|[->|[->|[->|[->|[->|(E1 & E2 & E3 & E4 & E5 & E6 & E7)]]]]]]]; rewrite ?E1, ?E2, ?E3, ?E4, ?E5, ?E6, ?E7.
  all: destruct l; cbn [Z.eqb Pos.eqb orb andb lock_bit lock_code fst snd]; try (destruct (ext k)).
  all: repeat match goal with |- context [if Z.testbit ?x ?i then _ else _] => destruct (Z.testbit x i) eqn:? end; cbn [fst snd]; rewrite ?hold_bit, ?drop_bit by lia; cbn [update_leds emit set_lockst set_host lockst vt_host];
    rewrite ?Z.lxor_spec, ?Z.pow2_bits_eqb by lia; cbn [Z.eqb Pos.eqb negb]; rewrite ?E1, ?E2, ?E3, ?orb_false_r, ?orb_true_r, ?andb_true_r, ?andb_false_r, ?xorb_false_r, ?xorb_true_r; try congruence.
Qed.

Lemma gets_step b bs k v : is_byte b -> exists k1 v1, gets (b :: bs) (k, v) = gets bs (k1, v1) /\
  if b &&& 0x7f =? 0x60 then k1 = set_ext true k /\ v1 = v
  else ext k1 = false /\ shiftst k1 = shiftst (after_stroke (mk_stroke (b &&& 0x7f) (ext k) (negb (has b 0x80))) k v).1 /\ lockst v1 = lockst (after_stroke (mk_stroke (b &&& 0x7f) (ext k) (negb (has b 0x80))) k v).2.
Proof.
  intros Hb. exists (_ttypc_kbd_get b k v).1.1, (_ttypc_kbd_get b k v).1.2. split; [unfold gets; cbn [foldl]; by destruct (_ttypc_kbd_get b k v) as [[]]|]. destruct (Z.eqb_spec (b &&& 0x7f) 0x60) as [E|Hne].
  - rewrite get_prefix by (unfold is_byte in *; lia || done). done.
  - destruct (get_stroke b k v Hb Hne) as (H1 & H2 & H3). done.
Qed.

(** ** Typing *)

(** The key of a character, and whether it needs shift. *)
Definition types (c : Z) : option (Z * bool) :=
  match list_find (fun r => type r = KB_ASCII /\ unshift r = [c]) scodes with
  | Some (i, _) => Some (Z.of_nat i, false)
  | None => match list_find (fun r => type r = KB_ASCII /\ shift r = [c]) scodes with Some (i, _) => Some (Z.of_nat i, true) | None => None end
  end.
Definition strokes (c : Z) : list Z := match types c with Some (i, false) => [i; i + 128] | Some (i, true) => [42; i; i + 128; 42 + 128] | None => [] end.

Lemma types_spec c i sh : types c = Some (i, sh) -> 0 < i < 128 /\ type (key i) = KB_ASCII /\ (if sh then shift (key i) else unshift (key i)) = [c].
Proof.
  assert (H : forall j r, scodes !! j = Some r -> type r = KB_ASCII -> 0 < Z.of_nat j < 128 /\ key (Z.of_nat j) = r).
  { intros j r Hj Ht. pose proof (lookup_lt_Some _ _ _ Hj) as Hlt. change (length scodes) with 128%nat in Hlt. unfold key. rewrite Nat2Z.id, Hj. split; [|done]. destruct j; [|lia]. injection Hj as <-. discriminate. }
  unfold types. destruct (list_find _ scodes) as [[j r]|] eqn:E1.
  - intros [= <- <-]. apply list_find_Some in E1 as (Hj & [Ht Hu] & _). destruct (H j r Hj Ht) as [? ->]. done.
  - destruct (list_find (fun r => type r = KB_ASCII /\ shift r = [c]) scodes) as [[j r]|] eqn:E2; [|done]. intros [= <- <-]. apply list_find_Some in E2 as (Hj & [Ht Hu] & _). destruct (H j r Hj Ht) as [? ->]. done.
Qed.

(** All printable characters, tabs and newlines have keys. *)
Lemma printable_types c : 32 <= c <= 126 \/ c = 9 \/ c = 10 -> is_Some (types c).
Proof.
  intros Hc. assert (H : forallb (fun c => bool_decide (is_Some (types c))) ([9; 10] ++ seqZ 32 95) = true) by (vm_compute; reflexivity).
  rewrite forallb_forall in H. apply (bool_decide_eq_true_1 (is_Some (types c))), (H c), list_elem_of_In. rewrite elem_of_app, elem_of_seqZ, !elem_of_cons. lia.
Qed.

(** Caps lock is off, and return sends one character. *)
Definition calm (v : vt) : Prop := has (lockst v) KB_CAPS = false /\ lnm v = false.

Ltac key_type := cbn [Z.eqb Pos.eqb KB_ASCII KB_EXT KB_SCROLL KB_NUM KB_CAPS KB_CTL KB_SHIFT KB_ALT KB_FUNC orb].

Lemma get_ascii i j e s v : 0 < i < 128 -> type (key i) = KB_ASCII -> _ttypc_kbd_get i (mk_kbd false j false e s) v =
  (mk_kbd false i false false s, v, if negb (arm v) && ((i =? j) && eqb false e) then NoKey else Key (ascii_key i (mk_kbd false j false e s) v)).
Proof.
  intros Hi Ht. destruct (code_low i ltac:(lia)) as (E1 & E2 & _). unfold _ttypc_kbd_get, press. rewrite E2, E1, Ht. key_type. cbn [lkey ext lext shiftst lkeyup andb]. by destruct (negb (arm v) && _).
Qed.

Lemma get_press i k v (sh : bool) : 0 < i < 128 -> type (key i) = KB_ASCII -> k = mk_kbd false 0 false false (if sh then KB_SHIFT else 0) -> calm v ->
  _ttypc_kbd_get i k v = (mk_kbd false i false false (shiftst k), v, Key (if sh then shift (key i) else unshift (key i))).
Proof.
  intros Hi Ht -> [Hc _]. rewrite get_ascii by done. rewrite (proj2 (Z.eqb_neq i 0)), andb_false_r by lia. unfold ascii_key. cbn [ext shiftst]. rewrite Hc. destruct sh; reflexivity.
Qed.

(** The release of a key makes it the last key, unless it was. *)
Lemma get_release_other i j s v : 0 < i < 128 -> type (key i) = KB_ASCII -> i <> j -> _ttypc_kbd_get (i + 128) (mk_kbd false j false false s) v = (mk_kbd false i false false s, v, NoKey).
Proof.
  intros Hi Ht Hij. destruct (code_low i ltac:(lia)) as (_ & _ & E1 & E2). unfold _ttypc_kbd_get, release. rewrite E2, E1, Ht. key_type. cbn [lkey ext lext]. rewrite (proj2 (Z.eqb_neq i j)) by done. cbn. by destruct (negb (arm v) && _).
Qed.

Lemma get_release i s v : 0 < i < 128 -> type (key i) = KB_ASCII -> _ttypc_kbd_get (i + 128) (mk_kbd false i false false s) v = (mk_kbd false 0 false false s, v, NoKey).
Proof.
  intros Hi Ht. destruct (code_low i ltac:(lia)) as (_ & _ & E1 & E2). unfold _ttypc_kbd_get, release. rewrite E2, E1, Ht. cbn [Z.eqb Pos.eqb KB_ASCII KB_EXT KB_SCROLL KB_NUM KB_CAPS KB_CTL KB_SHIFT KB_ALT]. cbn [lkey ext lext]. rewrite Z.eqb_refl. cbn. by destruct (negb (arm v) && _).
Qed.

Lemma get_shift v : _ttypc_kbd_get 42 kbd0 v = (mk_kbd false 0 false false KB_SHIFT, v, NoKey) /\ _ttypc_kbd_get (42 + 128) (mk_kbd false 0 false false KB_SHIFT) v = (kbd0, v, NoKey).
Proof. split; cbv -[arm]; repeat case_match; done. Qed.

Section console.
Context `{Abi} {CS : CharSign} (maxcols maxrows : Z).

Definition queued (q : EventQueue.event_queue) (bs : list Z) : EventQueue.event_queue := foldl (fun q b => (EventQueue.event_queue_put q b 1).1.1) q bs.

Lemma handle_quiet p t v b k : terminals p !! Z.to_nat (active_vt p) = Some (t, v) -> _ttypc_kbd_get b (keyboard p) v = (k, v, NoKey) ->
  ttypc_kbd_handle_event maxcols maxrows false b p = Some (Runs (mk_pc k (queued (keq p) [b]) (terminals p) (active_vt p))).
Proof.
  intros Ht Eg. unfold ttypc_kbd_handle_event. rewrite Ht. cbn [mbind option_bind]. rewrite Eg. unfold set_terminal. cbn. rewrite list_insert_id by done. done.
Qed.

Lemma handle_char p t v b k c s : terminals p !! Z.to_nat (active_vt p) = Some (t, v) -> _ttypc_kbd_get b (keyboard p) v = (k, v, Key [c]) -> calm v -> input_char (t, v) c = Some s ->
  ttypc_kbd_handle_event maxcols maxrows false b p = Some (Runs (mk_pc k (queued (keq p) [b]) (<[Z.to_nat (active_vt p) := s]> (terminals p)) (active_vt p))).
Proof.
  intros Ht Eg [_ Hl] Ei. unfold ttypc_kbd_handle_event. rewrite Ht. cbn [mbind option_bind]. rewrite Eg.
  assert (Ea : key_action k v [c] = Send [c]).
  { unfold key_action. rewrite !bool_decide_eq_false_2 by discriminate. cbn [andb]. unfold with_modifiers. rewrite Hl. repeat case_match; simplify_eq; done. }
  rewrite Ea. cbn [input mbind option_bind]. rewrite Ei. done.
Qed.

Lemma strokes_ok c p t v s : terminals p !! Z.to_nat (active_vt p) = Some (t, v) -> keyboard p = kbd0 -> is_Some (types c) -> calm v -> input_char (t, v) c = Some s ->
  events maxcols maxrows (strokes c) p = Some (mk_pc kbd0 (queued (keq p) (strokes c)) (<[Z.to_nat (active_vt p) := s]> (terminals p)) (active_vt p)).
Proof.
  intros Ht Hk [[i sh] E] Hv Ei. unfold strokes. rewrite E. destruct (types_spec c i sh E) as (Hi & Hty & Hc). pose proof (lookup_lt_Some _ _ _ Ht) as Hlt.
  assert (Hs : (<[Z.to_nat (active_vt p) := s]> (terminals p)) !! Z.to_nat (active_vt p) = Some (s.1, s.2)) by (rewrite list_lookup_insert_eq by done; by destruct s).
  destruct sh; cbn [events].
  - destruct (get_shift v) as [G1 _]. destruct (get_shift s.2) as [_ G4]. rewrite (handle_quiet p t v 42 _ Ht) by (rewrite Hk; exact G1). cbn [mbind option_bind].
    erewrite (handle_char (mk_pc _ _ (terminals p) (active_vt p)) t v i _ c s) by (try done; cbn [keyboard]; rewrite (get_press i _ v true), Hc by done; reflexivity). cbn [mbind option_bind keq].
    erewrite (handle_quiet (mk_pc _ _ _ (active_vt p)) s.1 s.2 (i + 128)) by (try exact Hs; cbn [keyboard]; by apply get_release). cbn [mbind option_bind].
    erewrite (handle_quiet (mk_pc _ _ _ (active_vt p)) s.1 s.2 (42 + 128)) by (try exact Hs; cbn [keyboard]; exact G4). done.
  - erewrite (handle_char p t v i _ c s) by (try done; rewrite Hk, (get_press i _ v false), Hc by done; reflexivity). cbn [mbind option_bind].
    erewrite (handle_quiet (mk_pc _ _ _ (active_vt p)) s.1 s.2 (i + 128)) by (try exact Hs; cbn [keyboard]; by apply get_release). done.
Qed.

Lemma events_app bs cs p q : events maxcols maxrows bs p = Some q -> events maxcols maxrows (bs ++ cs) p = events maxcols maxrows cs q.
Proof.
  revert p. induction bs as [|b bs IH]; intros p E; [by injection E as ->|]. cbn [app events] in *. destruct (ttypc_kbd_handle_event _ _ _ _ _) as [[p1| |]|]; try discriminate. cbn [mbind option_bind] in *. by apply IH.
Qed.
End console.

Lemma modifiers_ok bs : forall k v, Forall is_byte bs -> let '(k', v') := gets bs (k, v) in
  (forall m, Z.testbit (shiftst k') (mod_bit m) = foldl (mod_step m) (Z.testbit (shiftst k) (mod_bit m)) (decode (ext k) bs)) /\
  (forall l, (Z.testbit (shiftst k') (lock_bit l), Z.testbit (lockst v') (lock_bit l)) = foldl (lock_step l) (Z.testbit (shiftst k) (lock_bit l), Z.testbit (lockst v) (lock_bit l)) (decode (ext k) bs)).
Proof.
  induction bs as [|b bs IH]; intros k v Hbs; [done|]. apply Forall_cons in Hbs as [Hb Hbs]. destruct (gets_step b bs k v Hb) as (k1 & v1 & -> & Hs). specialize (IH k1 v1 Hbs). destruct (gets bs (k1, v1)) as [k' v']. cbn [decode].
  destruct (b &&& 0x7f =? 0x60).
  - destruct Hs as [-> ->]. exact IH.
  - destruct Hs as (He & Hs1 & Hs2). pose proof (low_range b ltac:(unfold is_byte in Hb; lia)) as Hl. rewrite He, Hs1, Hs2 in IH. destruct IH as [IH1 IH2]. cbn [foldl]. split.
    + intros m. by rewrite IH1, stroke_mod.
    + intros l. by rewrite IH2, stroke_lock.
Qed.

(** modifier and lock keys. After any stream of scan codes, ctl, shift, alt and right alt are on if and only if the last stroke that
    concerns them set them, and scroll, num and caps lock have changed with each stroke of their key that was not a repetition:
    the state is the fold of the strokes of the stream, the extended ones told apart by their prefix. *)
Theorem kbd_modifiers bs k v : Forall is_byte bs -> let '(k', v') := gets bs (k, v) in
  (forall m, has (shiftst k') (2 ^ mod_bit m) = foldl (mod_step m) (has (shiftst k) (2 ^ mod_bit m)) (decode (ext k) bs)) /\
  (forall l, (has (shiftst k') (2 ^ lock_bit l), has (lockst v') (2 ^ lock_bit l)) = foldl (lock_step l) (has (shiftst k) (2 ^ lock_bit l), has (lockst v) (2 ^ lock_bit l)) (decode (ext k) bs)).
Proof.
  intros Hbs. pose proof (modifiers_ok bs k v Hbs) as H. destruct (gets bs (k, v)) as [k' v']. destruct H as [H1 H2]. split; [intros m|intros l]; rewrite !has_bit by (by destruct m || by destruct l); auto.
Qed.

(** C28: typing. From a keyboard at rest, the strokes of a text of printable characters, tabs and newlines put exactly the text in the
    line discipline of the active terminal, character by character, as long as caps lock and new line mode stay off; the other
    terminals are left alone, the keyboard is at rest again, and every scan code was offered to [/dev/kbd]. *)
Theorem kbd_types_text `{Abi} {CS : CharSign} maxcols maxrows text p t v s :
  terminals p !! Z.to_nat (active_vt p) = Some (t, v) -> keyboard p = kbd0 -> Forall (fun c => 32 <= c <= 126 \/ c = 9 \/ c = 10) text ->
  (forall n s', input (take n text) (t, v) = Some s' -> calm s'.2) -> input text (t, v) = Some s ->
  events maxcols maxrows (concat (map strokes text)) p =
    Some (mk_pc kbd0 (queued (keq p) (concat (map strokes text))) (<[Z.to_nat (active_vt p) := s]> (terminals p)) (active_vt p)).
Proof.
  revert p t v. induction text as [|c text IH]; intros p t v Ht Hk Hc Hcalm Hin.
  - injection Hin as <-. cbn. rewrite list_insert_id by done. destruct p. cbn in *. by subst.
  - apply Forall_cons in Hc as [Hc Hcs]. cbn [input] in Hin. destruct (input_char (t, v) c) as [[t1 v1]|] eqn:E1; [|discriminate]. cbn [mbind option_bind] in Hin. cbn [map concat].
    erewrite events_app by (apply (strokes_ok _ _ c p t v (t1, v1)); [done|done|by apply printable_types|exact (Hcalm 0%nat (t, v) eq_refl)|done]).
    pose proof (lookup_lt_Some _ _ _ Ht) as Hlt. rewrite (IH (mk_pc kbd0 _ _ _) t1 v1); cbn [terminals active_vt keyboard keq].
    + unfold queued. by rewrite foldl_app, list_insert_insert_eq.
    + by apply list_lookup_insert_eq.
    + done.
    + done.
    + intros n s' Hn. apply (Hcalm (S n)). cbn [take input]. rewrite E1. exact Hn.
    + done.
Qed.

(** strokes that are lost or stay. The shift that keyboards simulate around extended keys (print screen) is set by its press and not
    cleared by its release: shift stays on. With auto-repeat off, a key that is pressed anew after it was released while another key
    was held is taken for a repetition and ignored. *)
Theorem kbd_lost_strokes k v :
  (ext k = false -> has (shiftst (gets [0xe0; 0x2a; 0xe0; 0xaa] (k, v)).1) KB_SHIFT = true) /\
  (forall i j, 0 < i < 128 -> 0 < j < 128 -> i <> j -> type (key i) = KB_ASCII -> type (key j) = KB_ASCII -> arm v = false ->
     (_ttypc_kbd_get i kbd0 v).2 = Key (ascii_key i kbd0 v) /\ let '(k', v') := gets [i; j; i + 128] (kbd0, v) in (_ttypc_kbd_get i k' v').2 = NoKey).
Proof.
  split.
  - intros He. assert (Hb : Forall is_byte [0xe0; 0x2a; 0xe0; 0xaa]) by (repeat constructor; lia). pose proof (modifiers_ok _ k v Hb) as H. destruct (gets _ (k, v)) as [k' v']. destruct H as [H _]. specialize (H Shift). rewrite He in H. change KB_SHIFT with (2 ^ mod_bit Shift). rewrite has_bit by done. exact H.
  - intros i j Hi Hj Hij Ti Tj Ha. unfold gets, kbd0. split.
    + rewrite get_ascii by done. cbn [snd]. by rewrite (proj2 (Z.eqb_neq i 0)), andb_false_r by lia.
    + cbn [foldl]. rewrite get_ascii by done. cbn [fst]. rewrite get_ascii by done. cbn [fst]. rewrite get_release_other by done. cbn [fst]. rewrite get_ascii by done. cbn [snd]. by rewrite Ha, Z.eqb_refl.
Qed.
End KbdCorrect.
