(* ===== verification/KbdWitness.v ===== *)
(** * Keyboard of the PC console: witnesses

    A console with two terminals of the size of [VtWitness.display], which do not echo. *)

From S2P Require Import Prelude Fifo Termios Tty TtyInput Vt VtTty VtWitness EventQueue Kbd KbdCorrect.

Module KbdWitness.
Import Termios Tty Vt VtTty Kbd KbdCorrect.

#[local] Instance signed : CharSign := true.

Definition silent : tty := let t := TtyInput.demo_tty 8 in set_term t (let m := term t in mk_termios (c_iflag m) (c_oflag m) (c_cflag m) (lmask ICANON) (c_cc m) (c_ispeed m) (c_ospeed m)).
Definition console : ttypc := mk_pc kbd0 EventQueue.event_queue_init [(silent, VtWitness.display); (silent, VtWitness.display)] 1.

(** The text [Hi!] and a newline, as it is typed. *)
Definition hi : list Z := [72; 105; 33; 10].

Lemma hi_strokes : concat (map strokes hi) = [42; 35; 163; 170; 23; 151; 42; 2; 130; 170; 28; 156].
Proof. vm_compute. reflexivity. Qed.

Definition typed (cs : list Z) : tty := foldl (fun t c => (_libtty_putchar t (u8 c) false).1) silent cs.

Lemma hi_input n v : (n <= 4)%nat -> input (take n hi) (silent, v) = Some (typed (take n hi), v).
Proof. intros Hn. do 5 (destruct n as [|n]; [vm_compute; reflexivity|]). lia. Qed.

Lemma hi_calm n s : input (take n hi) (silent, VtWitness.display) = Some s -> calm s.2.
Proof.
  intros E. assert (H : take n hi = take (n `min` 4) hi) by (rewrite <- (firstn_all hi) at 1; by rewrite take_take). rewrite H, hi_input in E by lia. injection E as <-. cbn [snd]. split; reflexivity.
Qed.

(** What was typed is read back. *)
Lemma kbd_types_text_witness : exists t p, events 0 0 [42; 35; 163; 170; 23; 151; 42; 2; 130; 170; 28; 156] console = Some p /\ terminals p !! 1%nat = Some (t, VtWitness.display) /\
  (_libtty_read_nonblock t 80 0 None []).2 = Ret (mk_rr (Ok 4) hi None).
Proof.
  exists (typed hi). eexists. split; [|split].
  - rewrite <- hi_strokes. apply (kbd_types_text 0 0 hi console silent VtWitness.display (typed hi, VtWitness.display)); [reflexivity|reflexivity|repeat constructor; lia|exact hi_calm|exact (hi_input 4 VtWitness.display ltac:(lia))].
  - reflexivity.
  - vm_compute. reflexivity.
Defined.

Lemma kbd_modifiers_witness : has (shiftst (gets [29; 0xe0; 56; 58; 58; 186] (kbd0, VtWitness.display)).1) KB_ALTGR = true /\ has (lockst (gets [29; 0xe0; 56; 58; 58; 186] (kbd0, VtWitness.display)).2) KB_CAPS = true.
Proof.
  assert (Hb : Forall is_byte [29; 0xe0; 56; 58; 58; 186]) by (repeat constructor; lia). pose proof (kbd_modifiers [29; 0xe0; 56; 58; 58; 186] kbd0 VtWitness.display Hb) as H. destruct (gets _ _) as [k v]. destruct H as [Hm Hl]. split; [exact (Hm AltGr)|exact (f_equal snd (Hl CapsLock))].
Defined.

Lemma kbd_lost_strokes_witness : let v := set_arm false VtWitness.display in
  has (shiftst (gets [0xe0; 0x2a; 0xe0; 0xaa] (kbd0, v)).1) KB_SHIFT = true /\ let '(k', v') := gets [30; 31; 158] (kbd0, v) in (_ttypc_kbd_get 30 k' v').2 = NoKey.
Proof.
  destruct (kbd_lost_strokes kbd0 (set_arm false VtWitness.display)) as [H1 H2]. split; [apply H1; reflexivity|]. apply (H2 30 31); try reflexivity; lia.
Defined.
End KbdWitness.
