(* ===== verification/V3daGpu.v ===== *)
(** * The GPU as the V3D render server sees it ([src/gpu/rpi4-v3d-async/v3da_hw.c], [v3da.h])

    The state of the server with its jobs and queues, on top of the fences of [V3daSched.v] and
    the buffers of [V3daBo.v]; the interrupt handler and the register sequences. A job is
    a heap node, 0 is [NULL], a released node is no longer in the heap; following a pointer to
    none, or a loop that does not end, is [None]. The GPU is the class [Device]: registers
    that answer reads and take writes as they like. Before any access to the registers or to the words
    shared with it, the interrupt handler may run: how often is the list [irqs]. Barriers are
    not modelled. *)

From S2P Require Import Prelude V3daSched V3daPool V3daBo.

Module V3daGpu.
Import V3da V3daPool V3daBo.

(** ** The device *)

Inductive block := CORE | HUB.

(** Reads may change the device; [dev_power_cycle] is [v3da_hw_reset_power] (bridges, reset
    line and clock, through the firmware), [dev_prop] a call of the firmware's property
    interface with its two answers. *)
Class Device := {
  device : Type;
  dev_read : device -> block -> Z -> Z * device;
  dev_write : device -> block -> Z -> Z -> device;
  dev_power_cycle : device -> device;
  dev_prop : device -> Z -> Z -> Z -> cres (Z * Z) * device
}.

(** Registers ([v3da_regs.h]). *)
Definition HUB_AXICFG : Z := 0x0000.
Definition HUB_INT_STS : Z := 0x0050.
Definition HUB_INT_CLR : Z := 0x0058.
Definition HUB_INT_MSK_SET : Z := 0x0060.
Definition HUB_INT_MSK_CLR : Z := 0x0064.
Definition HUB_INT_TFUF : Z := 1.
Definition HUB_INT_TFUC : Z := 2.
Definition HUB_INT_MMU_ANY : Z := 0x38.
Definition HUB_IRQS : Z := 0x3a.
Definition TFU_CS : Z := 0x0400.
Definition TFU_CS_BUSY : Z := 1.
Definition TFU_ICFG : Z := 0x0408.
Definition TFU_ICFG_IOC : Z := 1.
Definition TFU_IIA : Z := 0x040c.
Definition TFU_ICA : Z := 0x0410.
Definition TFU_IIS : Z := 0x0414.
Definition TFU_IUA : Z := 0x0418.
Definition TFU_IOA : Z := 0x041c.
Definition TFU_IOS : Z := 0x0420.
Definition TFU_COEF0 : Z := 0x0424.
Definition TFU_COEF0_USECOEF : Z := 1 <<< 31.
Definition TFU_COEF1 : Z := 0x0428.
Definition TFU_COEF2 : Z := 0x042c.
Definition TFU_COEF3 : Z := 0x0430.
Definition MMUC_CONTROL : Z := 0x1000.
Definition MMU_CTL : Z := 0x1200.
Definition MMU_CTL_VALUE : Z := 0x060d0c01.   (* ENABLE and the PTI, WRITEVIO and CAPEXC bits *)
Definition MMU_PT_PA_BASE : Z := 0x1204.
Definition MMU_ILLEGAL_ADDR : Z := 0x1230.
Definition CTL_MISCCFG : Z := 0x0018.
Definition CTL_L2CACTL : Z := 0x0020.
Definition CTL_SLCACTL : Z := 0x0024.
Definition SLCACTL_INVAL_ALL : Z := 0x0f0f0f0f.
Definition CTL_L2TCACTL : Z := 0x0030.
Definition L2TCACTL_L2TFLS : Z := 1.
Definition L2TCACTL_FLM_CLEAN : Z := 4.
Definition L2TCACTL_TMUWCF : Z := 256.
Definition CTL_L2TFLSTA : Z := 0x0034.
Definition CTL_L2TFLEND : Z := 0x0038.
Definition CTL_INT_STS : Z := 0x0050.
Definition CTL_INT_CLR : Z := 0x0058.
Definition CTL_INT_MSK_SET : Z := 0x0060.
Definition CTL_INT_MSK_CLR : Z := 0x0064.
Definition INT_FRDONE : Z := 1.
Definition INT_FLDONE : Z := 2.
Definition INT_OUTOMEM : Z := 4.
Definition INT_CSDDONE : Z := 128.
Definition INT_QPU_MASK : Z := 0xfff0000.
Definition CORE_IRQS : Z := 0xa7.
Definition CLE_CT0CA : Z := 0x0110.
Definition CLE_CT1CA : Z := 0x0114.
Definition CLE_CT0RA : Z := 0x0118.
Definition CLE_CT1RA : Z := 0x011c.
Definition CLE_CT0QTS : Z := 0x015c.
Definition CT0QTS_ENABLE : Z := 2.
Definition CLE_CT0QBA : Z := 0x0160.
Definition CLE_CT1QBA : Z := 0x0164.
Definition CLE_CT0QEA : Z := 0x0168.
Definition CLE_CT1QEA : Z := 0x016c.
Definition CLE_CT0QMA : Z := 0x0170.
Definition CLE_CT0QMS : Z := 0x0174.
Definition PTB_BPOA : Z := 0x0308.
Definition PTB_BPOS : Z := 0x030c.
Definition GMP_STATUS : Z := 0x0800.
Definition GMP_CFG : Z := 0x0804.
Definition CSD_STATUS : Z := 0x0900.
Definition CSD_STATUS_HAVE_CURRENT : Z := 2.
Definition CSD_QUEUED_CFG0 : Z := 0x0904.
Definition CSD_CURRENT_CFG4 : Z := 0x0930.

(** Queues, modes, knobs, limits. *)
Definition Q_BIN : Z := 0.
Definition Q_RENDER : Z := 1.
Definition Q_TFU : Z := 2.
Definition Q_CSD : Z := 3.
Definition Q_CPU : Z := 5.
Definition V3DA_MODE_SERIAL : Z := 0.
Definition V3DA_MODE_PIPELINE : Z := 1.
Definition KNOB_TLB_ON_CHANGE : Z := 1.
Definition KNOB_NO_L2T_WAIT_NEW : Z := 2.
Definition KNOB_NO_FIXA : Z := 4.
Definition KNOB_NO_HANDOFF_WAIT : Z := 8.
Definition KNOB_CL_CACHE_CLEAN : Z := 16.
Definition KNOB_NO_POST_CLEAN : Z := 32.
Definition KNOB_NO_HANDOFF_FLUSH : Z := 64.
Definition KNOB_LINUX_ORDER : Z := 128.
Definition V3DA_KNOB_ALL : Z := 0x1ff.
Definition V3DA_SET_MODE : Z := 1.
Definition V3DA_SET_KNOBS : Z := 2.
Definition V3DA_CL_FLUSH_CACHE : Z := 1.
Definition V3DA_SEM_RENDER : Z := 1.
Definition V3DA_SUBMIT_MAX_BOS : Z := 4096.
Definition V3DA_SUBMIT_MAX_SEMS : Z := 16.
Definition V3DA_MAX_CHUNKS : Z := 512.
Definition V3DA_MAX_FLIPS : Z := 4.
Definition V3DA_FLIP_AFTER_FENCE : Z := 1.
Definition VC_PROP_SET_VIRTUAL_OFFSET : Z := 0x00048009.
Definition V3DA_FP_IRQ : Z := 1.
Definition V3DA_FP_STORM : Z := 2.
Definition WD_TICK_US : Z := 125000.
Definition WD_HARD_CAP_US : Z := 10000000.
Definition OVF_POOL_BYTES : Z := 32 * 1024 * 1024.
Definition IRQ_SPURIOUS_LIMIT : Z := 1000.
Definition IRQ_BURST_LIMIT : Z := 200000.
Definition SPINS : nat := Z.to_nat 1000000.
Definition CSD_SPINS : nat := Z.to_nat 8000000.

(** ** Data *)

(** The words of [v3da_hw_t] that the handler shares with the threads. *)
Record words := mk_words {
  ev_core : Z; ev_hub : Z; mmu_ctl_seen : Z; ovf_stage_va : Z; ovf_stage_size : Z; ovf_consumed : Z; ovf_missed : Z;
  irq_on : bool; irq_count : Z; irq_spurious : Z; irq_count_snap : Z; storm : Z
}.
(** [v3da_job_t]; [v_dep] are the first [ndep] dependencies, [v_bos] the handles (none: [NULL]),
    [v_desc] the words of the descriptor union. *)
Record vjob := mk_vjob {
  v_next : Z; v_queue : Z; v_client : Z; v_fence : fence; v_gseq : Z; v_submit : Z; v_kick : Z; v_error : bool; v_dep :
  list fence; v_render : Z; v_bin : Z; v_dep_error : bool; v_bos : list Z; v_ovf : Z; v_check : Z; v_progress : Z; v_ca
  : Z; v_ra : Z; v_acks : Z; v_desc : list Z; v_delay : Z; v_done_at : Z; v_join : bool
}.
Record queue := mk_queue {
  head : list Z; tail : list Z; q_active : Z; rr : Z; pending : Z; st_jobs : Z; st_errors : Z; st_max_us : Z; st_oom :
  Z; st_busy_us : Z; st_wait_us : Z
}.
Record ovf_t := mk_ovf {
  o_gpuva : Z; chunk_bytes : Z; nchunks : Z; free_head : Z; nfree : Z; staged : Z; o_next : list Z; starved : Z;
  bin_waiting : Z
}.
(** Counters of [v3da_srv_t]. The ghost [ever_reset], which no operation reads, records a reset. *)
Record counters := mk_ct {
  gseq : Z; nbusy : Z; acct_t_us : Z; acct_t0_us : Z; any_busy_us : Z; overlap_us : Z; wedges : Z; resets : Z; reset_gen
  : Z; stat_jobs_seen : Z; stat_next_us : Z; submit_rejects : Z; cl_bcl_wrap : Z; cl_render_only : Z; g6_attach : Z;
  g6_attach_busy : Z; g6_implicit : Z; g6_implicit_deps : Z; g6_dropped : Z; nops_done : Z; stray_fldone : Z; stray_tfuc
  : Z; loops : Z; ever_reset : bool
}.
Record config := mk_cf {
  mode : Z; knobs : Z; wedge_ms : Z; stat_ms : Z; ovf_chunk_kib : Z; pt_pa : Z; scratch_pa : Z; fp_flags : Z
}.
Record flip := mk_flip { fl_buf : Z; fl_gated : bool; fl_fence : fence }.
(** The queued flips and the part of [v3da_scanout_t] that goes with them. *)
Record present := mk_present {
  fq : list flip; height : Z; flips : Z; flips_deferred : Z; shown : Z; pan_err : Z
}.

(** Field updates. *)
Definition put_ev_core (x : Z) (r : words) : words :=
  mk_words x (ev_hub r) (mmu_ctl_seen r) (ovf_stage_va r) (ovf_stage_size r) (ovf_consumed r) (ovf_missed r) (irq_on r) (irq_count r) (irq_spurious r) (irq_count_snap r) (storm r).
Definition put_ev_hub (x : Z) (r : words) : words :=
  mk_words (ev_core r) x (mmu_ctl_seen r) (ovf_stage_va r) (ovf_stage_size r) (ovf_consumed r) (ovf_missed r) (irq_on r) (irq_count r) (irq_spurious r) (irq_count_snap r) (storm r).
Definition put_mmu_ctl_seen (x : Z) (r : words) : words :=
  mk_words (ev_core r) (ev_hub r) x (ovf_stage_va r) (ovf_stage_size r) (ovf_consumed r) (ovf_missed r) (irq_on r) (irq_count r) (irq_spurious r) (irq_count_snap r) (storm r).
Definition put_ovf_stage_va (x : Z) (r : words) : words :=
  mk_words (ev_core r) (ev_hub r) (mmu_ctl_seen r) x (ovf_stage_size r) (ovf_consumed r) (ovf_missed r) (irq_on r) (irq_count r) (irq_spurious r) (irq_count_snap r) (storm r).
Definition put_ovf_stage_size (x : Z) (r : words) : words :=
  mk_words (ev_core r) (ev_hub r) (mmu_ctl_seen r) (ovf_stage_va r) x (ovf_consumed r) (ovf_missed r) (irq_on r) (irq_count r) (irq_spurious r) (irq_count_snap r) (storm r).
Definition put_ovf_consumed (x : Z) (r : words) : words :=
  mk_words (ev_core r) (ev_hub r) (mmu_ctl_seen r) (ovf_stage_va r) (ovf_stage_size r) x (ovf_missed r) (irq_on r) (irq_count r) (irq_spurious r) (irq_count_snap r) (storm r).
Definition put_ovf_missed (x : Z) (r : words) : words :=
  mk_words (ev_core r) (ev_hub r) (mmu_ctl_seen r) (ovf_stage_va r) (ovf_stage_size r) (ovf_consumed r) x (irq_on r) (irq_count r) (irq_spurious r) (irq_count_snap r) (storm r).
Definition put_irq_on (x : bool) (r : words) : words :=
  mk_words (ev_core r) (ev_hub r) (mmu_ctl_seen r) (ovf_stage_va r) (ovf_stage_size r) (ovf_consumed r) (ovf_missed r) x (irq_count r) (irq_spurious r) (irq_count_snap r) (storm r).
Definition put_irq_count (x : Z) (r : words) : words :=
  mk_words (ev_core r) (ev_hub r) (mmu_ctl_seen r) (ovf_stage_va r) (ovf_stage_size r) (ovf_consumed r) (ovf_missed r) (irq_on r) x (irq_spurious r) (irq_count_snap r) (storm r).
Definition put_irq_spurious (x : Z) (r : words) : words :=
  mk_words (ev_core r) (ev_hub r) (mmu_ctl_seen r) (ovf_stage_va r) (ovf_stage_size r) (ovf_consumed r) (ovf_missed r) (irq_on r) (irq_count r) x (irq_count_snap r) (storm r).
Definition put_irq_count_snap (x : Z) (r : words) : words :=
  mk_words (ev_core r) (ev_hub r) (mmu_ctl_seen r) (ovf_stage_va r) (ovf_stage_size r) (ovf_consumed r) (ovf_missed r) (irq_on r) (irq_count r) (irq_spurious r) x (storm r).
Definition put_storm (x : Z) (r : words) : words :=
  mk_words (ev_core r) (ev_hub r) (mmu_ctl_seen r) (ovf_stage_va r) (ovf_stage_size r) (ovf_consumed r) (ovf_missed r) (irq_on r) (irq_count r) (irq_spurious r) (irq_count_snap r) x.
Definition put_v_next (x : Z) (r : vjob) : vjob :=
  mk_vjob x (v_queue r) (v_client r) (v_fence r) (v_gseq r) (v_submit r) (v_kick r) (v_error r) (v_dep r) (v_render r) (v_bin r) (v_dep_error r) (v_bos r) (v_ovf r) (v_check r) (v_progress r) (v_ca r) (v_ra r) (v_acks r) (v_desc r) (v_delay r) (v_done_at r) (v_join r).
Definition put_v_fence (x : fence) (r : vjob) : vjob :=
  mk_vjob (v_next r) (v_queue r) (v_client r) x (v_gseq r) (v_submit r) (v_kick r) (v_error r) (v_dep r) (v_render r) (v_bin r) (v_dep_error r) (v_bos r) (v_ovf r) (v_check r) (v_progress r) (v_ca r) (v_ra r) (v_acks r) (v_desc r) (v_delay r) (v_done_at r) (v_join r).
Definition put_v_kick (x : Z) (r : vjob) : vjob :=
  mk_vjob (v_next r) (v_queue r) (v_client r) (v_fence r) (v_gseq r) (v_submit r) x (v_error r) (v_dep r) (v_render r) (v_bin r) (v_dep_error r) (v_bos r) (v_ovf r) (v_check r) (v_progress r) (v_ca r) (v_ra r) (v_acks r) (v_desc r) (v_delay r) (v_done_at r) (v_join r).
Definition put_v_error (x : bool) (r : vjob) : vjob :=
  mk_vjob (v_next r) (v_queue r) (v_client r) (v_fence r) (v_gseq r) (v_submit r) (v_kick r) x (v_dep r) (v_render r) (v_bin r) (v_dep_error r) (v_bos r) (v_ovf r) (v_check r) (v_progress r) (v_ca r) (v_ra r) (v_acks r) (v_desc r) (v_delay r) (v_done_at r) (v_join r).
Definition put_v_dep (x : list fence) (r : vjob) : vjob :=
  mk_vjob (v_next r) (v_queue r) (v_client r) (v_fence r) (v_gseq r) (v_submit r) (v_kick r) (v_error r) x (v_render r) (v_bin r) (v_dep_error r) (v_bos r) (v_ovf r) (v_check r) (v_progress r) (v_ca r) (v_ra r) (v_acks r) (v_desc r) (v_delay r) (v_done_at r) (v_join r).
Definition put_v_render (x : Z) (r : vjob) : vjob :=
  mk_vjob (v_next r) (v_queue r) (v_client r) (v_fence r) (v_gseq r) (v_submit r) (v_kick r) (v_error r) (v_dep r) x (v_bin r) (v_dep_error r) (v_bos r) (v_ovf r) (v_check r) (v_progress r) (v_ca r) (v_ra r) (v_acks r) (v_desc r) (v_delay r) (v_done_at r) (v_join r).
Definition put_v_bin (x : Z) (r : vjob) : vjob :=
  mk_vjob (v_next r) (v_queue r) (v_client r) (v_fence r) (v_gseq r) (v_submit r) (v_kick r) (v_error r) (v_dep r) (v_render r) x (v_dep_error r) (v_bos r) (v_ovf r) (v_check r) (v_progress r) (v_ca r) (v_ra r) (v_acks r) (v_desc r) (v_delay r) (v_done_at r) (v_join r).
Definition put_v_dep_error (x : bool) (r : vjob) : vjob :=
  mk_vjob (v_next r) (v_queue r) (v_client r) (v_fence r) (v_gseq r) (v_submit r) (v_kick r) (v_error r) (v_dep r) (v_render r) (v_bin r) x (v_bos r) (v_ovf r) (v_check r) (v_progress r) (v_ca r) (v_ra r) (v_acks r) (v_desc r) (v_delay r) (v_done_at r) (v_join r).
Definition put_v_bos (x : list Z) (r : vjob) : vjob :=
  mk_vjob (v_next r) (v_queue r) (v_client r) (v_fence r) (v_gseq r) (v_submit r) (v_kick r) (v_error r) (v_dep r) (v_render r) (v_bin r) (v_dep_error r) x (v_ovf r) (v_check r) (v_progress r) (v_ca r) (v_ra r) (v_acks r) (v_desc r) (v_delay r) (v_done_at r) (v_join r).
Definition put_v_ovf (x : Z) (r : vjob) : vjob :=
  mk_vjob (v_next r) (v_queue r) (v_client r) (v_fence r) (v_gseq r) (v_submit r) (v_kick r) (v_error r) (v_dep r) (v_render r) (v_bin r) (v_dep_error r) (v_bos r) x (v_check r) (v_progress r) (v_ca r) (v_ra r) (v_acks r) (v_desc r) (v_delay r) (v_done_at r) (v_join r).
Definition put_v_check (x : Z) (r : vjob) : vjob :=
  mk_vjob (v_next r) (v_queue r) (v_client r) (v_fence r) (v_gseq r) (v_submit r) (v_kick r) (v_error r) (v_dep r) (v_render r) (v_bin r) (v_dep_error r) (v_bos r) (v_ovf r) x (v_progress r) (v_ca r) (v_ra r) (v_acks r) (v_desc r) (v_delay r) (v_done_at r) (v_join r).
Definition put_v_progress (x : Z) (r : vjob) : vjob :=
  mk_vjob (v_next r) (v_queue r) (v_client r) (v_fence r) (v_gseq r) (v_submit r) (v_kick r) (v_error r) (v_dep r) (v_render r) (v_bin r) (v_dep_error r) (v_bos r) (v_ovf r) (v_check r) x (v_ca r) (v_ra r) (v_acks r) (v_desc r) (v_delay r) (v_done_at r) (v_join r).
Definition put_v_ca (x : Z) (r : vjob) : vjob :=
  mk_vjob (v_next r) (v_queue r) (v_client r) (v_fence r) (v_gseq r) (v_submit r) (v_kick r) (v_error r) (v_dep r) (v_render r) (v_bin r) (v_dep_error r) (v_bos r) (v_ovf r) (v_check r) (v_progress r) x (v_ra r) (v_acks r) (v_desc r) (v_delay r) (v_done_at r) (v_join r).
Definition put_v_ra (x : Z) (r : vjob) : vjob :=
  mk_vjob (v_next r) (v_queue r) (v_client r) (v_fence r) (v_gseq r) (v_submit r) (v_kick r) (v_error r) (v_dep r) (v_render r) (v_bin r) (v_dep_error r) (v_bos r) (v_ovf r) (v_check r) (v_progress r) (v_ca r) x (v_acks r) (v_desc r) (v_delay r) (v_done_at r) (v_join r).
Definition put_v_acks (x : Z) (r : vjob) : vjob :=
  mk_vjob (v_next r) (v_queue r) (v_client r) (v_fence r) (v_gseq r) (v_submit r) (v_kick r) (v_error r) (v_dep r) (v_render r) (v_bin r) (v_dep_error r) (v_bos r) (v_ovf r) (v_check r) (v_progress r) (v_ca r) (v_ra r) x (v_desc r) (v_delay r) (v_done_at r) (v_join r).
Definition put_v_desc (x : list Z) (r : vjob) : vjob :=
  mk_vjob (v_next r) (v_queue r) (v_client r) (v_fence r) (v_gseq r) (v_submit r) (v_kick r) (v_error r) (v_dep r) (v_render r) (v_bin r) (v_dep_error r) (v_bos r) (v_ovf r) (v_check r) (v_progress r) (v_ca r) (v_ra r) (v_acks r) x (v_delay r) (v_done_at r) (v_join r).
Definition put_v_delay (x : Z) (r : vjob) : vjob :=
  mk_vjob (v_next r) (v_queue r) (v_client r) (v_fence r) (v_gseq r) (v_submit r) (v_kick r) (v_error r) (v_dep r) (v_render r) (v_bin r) (v_dep_error r) (v_bos r) (v_ovf r) (v_check r) (v_progress r) (v_ca r) (v_ra r) (v_acks r) (v_desc r) x (v_done_at r) (v_join r).
Definition put_v_done_at (x : Z) (r : vjob) : vjob :=
  mk_vjob (v_next r) (v_queue r) (v_client r) (v_fence r) (v_gseq r) (v_submit r) (v_kick r) (v_error r) (v_dep r) (v_render r) (v_bin r) (v_dep_error r) (v_bos r) (v_ovf r) (v_check r) (v_progress r) (v_ca r) (v_ra r) (v_acks r) (v_desc r) (v_delay r) x (v_join r).
Definition put_v_join (x : bool) (r : vjob) : vjob :=
  mk_vjob (v_next r) (v_queue r) (v_client r) (v_fence r) (v_gseq r) (v_submit r) (v_kick r) (v_error r) (v_dep r) (v_render r) (v_bin r) (v_dep_error r) (v_bos r) (v_ovf r) (v_check r) (v_progress r) (v_ca r) (v_ra r) (v_acks r) (v_desc r) (v_delay r) (v_done_at r) x.
Definition put_head (x : list Z) (r : queue) : queue :=
  mk_queue x (tail r) (q_active r) (rr r) (pending r) (st_jobs r) (st_errors r) (st_max_us r) (st_oom r) (st_busy_us r) (st_wait_us r).
Definition put_tail (x : list Z) (r : queue) : queue :=
  mk_queue (head r) x (q_active r) (rr r) (pending r) (st_jobs r) (st_errors r) (st_max_us r) (st_oom r) (st_busy_us r) (st_wait_us r).
Definition put_q_active (x : Z) (r : queue) : queue :=
  mk_queue (head r) (tail r) x (rr r) (pending r) (st_jobs r) (st_errors r) (st_max_us r) (st_oom r) (st_busy_us r) (st_wait_us r).
Definition put_rr (x : Z) (r : queue) : queue :=
  mk_queue (head r) (tail r) (q_active r) x (pending r) (st_jobs r) (st_errors r) (st_max_us r) (st_oom r) (st_busy_us r) (st_wait_us r).
Definition put_pending (x : Z) (r : queue) : queue :=
  mk_queue (head r) (tail r) (q_active r) (rr r) x (st_jobs r) (st_errors r) (st_max_us r) (st_oom r) (st_busy_us r) (st_wait_us r).
Definition put_st_jobs (x : Z) (r : queue) : queue :=
  mk_queue (head r) (tail r) (q_active r) (rr r) (pending r) x (st_errors r) (st_max_us r) (st_oom r) (st_busy_us r) (st_wait_us r).
Definition put_st_errors (x : Z) (r : queue) : queue :=
  mk_queue (head r) (tail r) (q_active r) (rr r) (pending r) (st_jobs r) x (st_max_us r) (st_oom r) (st_busy_us r) (st_wait_us r).
Definition put_st_max_us (x : Z) (r : queue) : queue :=
  mk_queue (head r) (tail r) (q_active r) (rr r) (pending r) (st_jobs r) (st_errors r) x (st_oom r) (st_busy_us r) (st_wait_us r).
Definition put_st_oom (x : Z) (r : queue) : queue :=
  mk_queue (head r) (tail r) (q_active r) (rr r) (pending r) (st_jobs r) (st_errors r) (st_max_us r) x (st_busy_us r) (st_wait_us r).
Definition put_st_busy_us (x : Z) (r : queue) : queue :=
  mk_queue (head r) (tail r) (q_active r) (rr r) (pending r) (st_jobs r) (st_errors r) (st_max_us r) (st_oom r) x (st_wait_us r).
Definition put_st_wait_us (x : Z) (r : queue) : queue :=
  mk_queue (head r) (tail r) (q_active r) (rr r) (pending r) (st_jobs r) (st_errors r) (st_max_us r) (st_oom r) (st_busy_us r) x.
Definition put_o_gpuva (x : Z) (r : ovf_t) : ovf_t :=
  mk_ovf x (chunk_bytes r) (nchunks r) (free_head r) (nfree r) (staged r) (o_next r) (starved r) (bin_waiting r).
Definition put_chunk_bytes (x : Z) (r : ovf_t) : ovf_t :=
  mk_ovf (o_gpuva r) x (nchunks r) (free_head r) (nfree r) (staged r) (o_next r) (starved r) (bin_waiting r).
Definition put_nchunks (x : Z) (r : ovf_t) : ovf_t :=
  mk_ovf (o_gpuva r) (chunk_bytes r) x (free_head r) (nfree r) (staged r) (o_next r) (starved r) (bin_waiting r).
Definition put_free_head (x : Z) (r : ovf_t) : ovf_t :=
  mk_ovf (o_gpuva r) (chunk_bytes r) (nchunks r) x (nfree r) (staged r) (o_next r) (starved r) (bin_waiting r).
Definition put_nfree (x : Z) (r : ovf_t) : ovf_t :=
  mk_ovf (o_gpuva r) (chunk_bytes r) (nchunks r) (free_head r) x (staged r) (o_next r) (starved r) (bin_waiting r).
Definition put_staged (x : Z) (r : ovf_t) : ovf_t :=
  mk_ovf (o_gpuva r) (chunk_bytes r) (nchunks r) (free_head r) (nfree r) x (o_next r) (starved r) (bin_waiting r).
Definition put_o_next (x : list Z) (r : ovf_t) : ovf_t :=
  mk_ovf (o_gpuva r) (chunk_bytes r) (nchunks r) (free_head r) (nfree r) (staged r) x (starved r) (bin_waiting r).
Definition put_starved (x : Z) (r : ovf_t) : ovf_t :=
  mk_ovf (o_gpuva r) (chunk_bytes r) (nchunks r) (free_head r) (nfree r) (staged r) (o_next r) x (bin_waiting r).
Definition put_bin_waiting (x : Z) (r : ovf_t) : ovf_t :=
  mk_ovf (o_gpuva r) (chunk_bytes r) (nchunks r) (free_head r) (nfree r) (staged r) (o_next r) (starved r) x.
Definition put_gseq (x : Z) (r : counters) : counters :=
  mk_ct x (nbusy r) (acct_t_us r) (acct_t0_us r) (any_busy_us r) (overlap_us r) (wedges r) (resets r) (reset_gen r) (stat_jobs_seen r) (stat_next_us r) (submit_rejects r) (cl_bcl_wrap r) (cl_render_only r) (g6_attach r) (g6_attach_busy r) (g6_implicit r) (g6_implicit_deps r) (g6_dropped r) (nops_done r) (stray_fldone r) (stray_tfuc r) (loops r) (ever_reset r).
Definition put_nbusy (x : Z) (r : counters) : counters :=
  mk_ct (gseq r) x (acct_t_us r) (acct_t0_us r) (any_busy_us r) (overlap_us r) (wedges r) (resets r) (reset_gen r) (stat_jobs_seen r) (stat_next_us r) (submit_rejects r) (cl_bcl_wrap r) (cl_render_only r) (g6_attach r) (g6_attach_busy r) (g6_implicit r) (g6_implicit_deps r) (g6_dropped r) (nops_done r) (stray_fldone r) (stray_tfuc r) (loops r) (ever_reset r).
Definition put_acct_t_us (x : Z) (r : counters) : counters :=
  mk_ct (gseq r) (nbusy r) x (acct_t0_us r) (any_busy_us r) (overlap_us r) (wedges r) (resets r) (reset_gen r) (stat_jobs_seen r) (stat_next_us r) (submit_rejects r) (cl_bcl_wrap r) (cl_render_only r) (g6_attach r) (g6_attach_busy r) (g6_implicit r) (g6_implicit_deps r) (g6_dropped r) (nops_done r) (stray_fldone r) (stray_tfuc r) (loops r) (ever_reset r).
Definition put_acct_t0_us (x : Z) (r : counters) : counters :=
  mk_ct (gseq r) (nbusy r) (acct_t_us r) x (any_busy_us r) (overlap_us r) (wedges r) (resets r) (reset_gen r) (stat_jobs_seen r) (stat_next_us r) (submit_rejects r) (cl_bcl_wrap r) (cl_render_only r) (g6_attach r) (g6_attach_busy r) (g6_implicit r) (g6_implicit_deps r) (g6_dropped r) (nops_done r) (stray_fldone r) (stray_tfuc r) (loops r) (ever_reset r).
Definition put_any_busy_us (x : Z) (r : counters) : counters :=
  mk_ct (gseq r) (nbusy r) (acct_t_us r) (acct_t0_us r) x (overlap_us r) (wedges r) (resets r) (reset_gen r) (stat_jobs_seen r) (stat_next_us r) (submit_rejects r) (cl_bcl_wrap r) (cl_render_only r) (g6_attach r) (g6_attach_busy r) (g6_implicit r) (g6_implicit_deps r) (g6_dropped r) (nops_done r) (stray_fldone r) (stray_tfuc r) (loops r) (ever_reset r).
Definition put_overlap_us (x : Z) (r : counters) : counters :=
  mk_ct (gseq r) (nbusy r) (acct_t_us r) (acct_t0_us r) (any_busy_us r) x (wedges r) (resets r) (reset_gen r) (stat_jobs_seen r) (stat_next_us r) (submit_rejects r) (cl_bcl_wrap r) (cl_render_only r) (g6_attach r) (g6_attach_busy r) (g6_implicit r) (g6_implicit_deps r) (g6_dropped r) (nops_done r) (stray_fldone r) (stray_tfuc r) (loops r) (ever_reset r).
Definition put_wedges (x : Z) (r : counters) : counters :=
  mk_ct (gseq r) (nbusy r) (acct_t_us r) (acct_t0_us r) (any_busy_us r) (overlap_us r) x (resets r) (reset_gen r) (stat_jobs_seen r) (stat_next_us r) (submit_rejects r) (cl_bcl_wrap r) (cl_render_only r) (g6_attach r) (g6_attach_busy r) (g6_implicit r) (g6_implicit_deps r) (g6_dropped r) (nops_done r) (stray_fldone r) (stray_tfuc r) (loops r) (ever_reset r).
Definition put_resets (x : Z) (r : counters) : counters :=
  mk_ct (gseq r) (nbusy r) (acct_t_us r) (acct_t0_us r) (any_busy_us r) (overlap_us r) (wedges r) x (reset_gen r) (stat_jobs_seen r) (stat_next_us r) (submit_rejects r) (cl_bcl_wrap r) (cl_render_only r) (g6_attach r) (g6_attach_busy r) (g6_implicit r) (g6_implicit_deps r) (g6_dropped r) (nops_done r) (stray_fldone r) (stray_tfuc r) (loops r) (ever_reset r).
Definition put_reset_gen (x : Z) (r : counters) : counters :=
  mk_ct (gseq r) (nbusy r) (acct_t_us r) (acct_t0_us r) (any_busy_us r) (overlap_us r) (wedges r) (resets r) x (stat_jobs_seen r) (stat_next_us r) (submit_rejects r) (cl_bcl_wrap r) (cl_render_only r) (g6_attach r) (g6_attach_busy r) (g6_implicit r) (g6_implicit_deps r) (g6_dropped r) (nops_done r) (stray_fldone r) (stray_tfuc r) (loops r) (ever_reset r).
Definition put_stat_jobs_seen (x : Z) (r : counters) : counters :=
  mk_ct (gseq r) (nbusy r) (acct_t_us r) (acct_t0_us r) (any_busy_us r) (overlap_us r) (wedges r) (resets r) (reset_gen r) x (stat_next_us r) (submit_rejects r) (cl_bcl_wrap r) (cl_render_only r) (g6_attach r) (g6_attach_busy r) (g6_implicit r) (g6_implicit_deps r) (g6_dropped r) (nops_done r) (stray_fldone r) (stray_tfuc r) (loops r) (ever_reset r).
Definition put_stat_next_us (x : Z) (r : counters) : counters :=
  mk_ct (gseq r) (nbusy r) (acct_t_us r) (acct_t0_us r) (any_busy_us r) (overlap_us r) (wedges r) (resets r) (reset_gen r) (stat_jobs_seen r) x (submit_rejects r) (cl_bcl_wrap r) (cl_render_only r) (g6_attach r) (g6_attach_busy r) (g6_implicit r) (g6_implicit_deps r) (g6_dropped r) (nops_done r) (stray_fldone r) (stray_tfuc r) (loops r) (ever_reset r).
Definition put_submit_rejects (x : Z) (r : counters) : counters :=
  mk_ct (gseq r) (nbusy r) (acct_t_us r) (acct_t0_us r) (any_busy_us r) (overlap_us r) (wedges r) (resets r) (reset_gen r) (stat_jobs_seen r) (stat_next_us r) x (cl_bcl_wrap r) (cl_render_only r) (g6_attach r) (g6_attach_busy r) (g6_implicit r) (g6_implicit_deps r) (g6_dropped r) (nops_done r) (stray_fldone r) (stray_tfuc r) (loops r) (ever_reset r).
Definition put_cl_bcl_wrap (x : Z) (r : counters) : counters :=
  mk_ct (gseq r) (nbusy r) (acct_t_us r) (acct_t0_us r) (any_busy_us r) (overlap_us r) (wedges r) (resets r) (reset_gen r) (stat_jobs_seen r) (stat_next_us r) (submit_rejects r) x (cl_render_only r) (g6_attach r) (g6_attach_busy r) (g6_implicit r) (g6_implicit_deps r) (g6_dropped r) (nops_done r) (stray_fldone r) (stray_tfuc r) (loops r) (ever_reset r).
Definition put_cl_render_only (x : Z) (r : counters) : counters :=
  mk_ct (gseq r) (nbusy r) (acct_t_us r) (acct_t0_us r) (any_busy_us r) (overlap_us r) (wedges r) (resets r) (reset_gen r) (stat_jobs_seen r) (stat_next_us r) (submit_rejects r) (cl_bcl_wrap r) x (g6_attach r) (g6_attach_busy r) (g6_implicit r) (g6_implicit_deps r) (g6_dropped r) (nops_done r) (stray_fldone r) (stray_tfuc r) (loops r) (ever_reset r).
Definition put_g6_attach (x : Z) (r : counters) : counters :=
  mk_ct (gseq r) (nbusy r) (acct_t_us r) (acct_t0_us r) (any_busy_us r) (overlap_us r) (wedges r) (resets r) (reset_gen r) (stat_jobs_seen r) (stat_next_us r) (submit_rejects r) (cl_bcl_wrap r) (cl_render_only r) x (g6_attach_busy r) (g6_implicit r) (g6_implicit_deps r) (g6_dropped r) (nops_done r) (stray_fldone r) (stray_tfuc r) (loops r) (ever_reset r).
Definition put_g6_attach_busy (x : Z) (r : counters) : counters :=
  mk_ct (gseq r) (nbusy r) (acct_t_us r) (acct_t0_us r) (any_busy_us r) (overlap_us r) (wedges r) (resets r) (reset_gen r) (stat_jobs_seen r) (stat_next_us r) (submit_rejects r) (cl_bcl_wrap r) (cl_render_only r) (g6_attach r) x (g6_implicit r) (g6_implicit_deps r) (g6_dropped r) (nops_done r) (stray_fldone r) (stray_tfuc r) (loops r) (ever_reset r).
Definition put_g6_implicit (x : Z) (r : counters) : counters :=
  mk_ct (gseq r) (nbusy r) (acct_t_us r) (acct_t0_us r) (any_busy_us r) (overlap_us r) (wedges r) (resets r) (reset_gen r) (stat_jobs_seen r) (stat_next_us r) (submit_rejects r) (cl_bcl_wrap r) (cl_render_only r) (g6_attach r) (g6_attach_busy r) x (g6_implicit_deps r) (g6_dropped r) (nops_done r) (stray_fldone r) (stray_tfuc r) (loops r) (ever_reset r).
Definition put_g6_implicit_deps (x : Z) (r : counters) : counters :=
  mk_ct (gseq r) (nbusy r) (acct_t_us r) (acct_t0_us r) (any_busy_us r) (overlap_us r) (wedges r) (resets r) (reset_gen r) (stat_jobs_seen r) (stat_next_us r) (submit_rejects r) (cl_bcl_wrap r) (cl_render_only r) (g6_attach r) (g6_attach_busy r) (g6_implicit r) x (g6_dropped r) (nops_done r) (stray_fldone r) (stray_tfuc r) (loops r) (ever_reset r).
Definition put_g6_dropped (x : Z) (r : counters) : counters :=
  mk_ct (gseq r) (nbusy r) (acct_t_us r) (acct_t0_us r) (any_busy_us r) (overlap_us r) (wedges r) (resets r) (reset_gen r) (stat_jobs_seen r) (stat_next_us r) (submit_rejects r) (cl_bcl_wrap r) (cl_render_only r) (g6_attach r) (g6_attach_busy r) (g6_implicit r) (g6_implicit_deps r) x (nops_done r) (stray_fldone r) (stray_tfuc r) (loops r) (ever_reset r).
Definition put_nops_done (x : Z) (r : counters) : counters :=
  mk_ct (gseq r) (nbusy r) (acct_t_us r) (acct_t0_us r) (any_busy_us r) (overlap_us r) (wedges r) (resets r) (reset_gen r) (stat_jobs_seen r) (stat_next_us r) (submit_rejects r) (cl_bcl_wrap r) (cl_render_only r) (g6_attach r) (g6_attach_busy r) (g6_implicit r) (g6_implicit_deps r) (g6_dropped r) x (stray_fldone r) (stray_tfuc r) (loops r) (ever_reset r).
Definition put_stray_fldone (x : Z) (r : counters) : counters :=
  mk_ct (gseq r) (nbusy r) (acct_t_us r) (acct_t0_us r) (any_busy_us r) (overlap_us r) (wedges r) (resets r) (reset_gen r) (stat_jobs_seen r) (stat_next_us r) (submit_rejects r) (cl_bcl_wrap r) (cl_render_only r) (g6_attach r) (g6_attach_busy r) (g6_implicit r) (g6_implicit_deps r) (g6_dropped r) (nops_done r) x (stray_tfuc r) (loops r) (ever_reset r).
Definition put_stray_tfuc (x : Z) (r : counters) : counters :=
  mk_ct (gseq r) (nbusy r) (acct_t_us r) (acct_t0_us r) (any_busy_us r) (overlap_us r) (wedges r) (resets r) (reset_gen r) (stat_jobs_seen r) (stat_next_us r) (submit_rejects r) (cl_bcl_wrap r) (cl_render_only r) (g6_attach r) (g6_attach_busy r) (g6_implicit r) (g6_implicit_deps r) (g6_dropped r) (nops_done r) (stray_fldone r) x (loops r) (ever_reset r).
Definition put_loops (x : Z) (r : counters) : counters :=
  mk_ct (gseq r) (nbusy r) (acct_t_us r) (acct_t0_us r) (any_busy_us r) (overlap_us r) (wedges r) (resets r) (reset_gen r) (stat_jobs_seen r) (stat_next_us r) (submit_rejects r) (cl_bcl_wrap r) (cl_render_only r) (g6_attach r) (g6_attach_busy r) (g6_implicit r) (g6_implicit_deps r) (g6_dropped r) (nops_done r) (stray_fldone r) (stray_tfuc r) x (ever_reset r).
Definition put_ever_reset (x : bool) (r : counters) : counters :=
  mk_ct (gseq r) (nbusy r) (acct_t_us r) (acct_t0_us r) (any_busy_us r) (overlap_us r) (wedges r) (resets r) (reset_gen r) (stat_jobs_seen r) (stat_next_us r) (submit_rejects r) (cl_bcl_wrap r) (cl_render_only r) (g6_attach r) (g6_attach_busy r) (g6_implicit r) (g6_implicit_deps r) (g6_dropped r) (nops_done r) (stray_fldone r) (stray_tfuc r) (loops r) x.
Definition put_mode (x : Z) (r : config) : config :=
  mk_cf x (knobs r) (wedge_ms r) (stat_ms r) (ovf_chunk_kib r) (pt_pa r) (scratch_pa r) (fp_flags r).
Definition put_knobs (x : Z) (r : config) : config :=
  mk_cf (mode r) x (wedge_ms r) (stat_ms r) (ovf_chunk_kib r) (pt_pa r) (scratch_pa r) (fp_flags r).
Definition put_fp_flags (x : Z) (r : config) : config :=
  mk_cf (mode r) (knobs r) (wedge_ms r) (stat_ms r) (ovf_chunk_kib r) (pt_pa r) (scratch_pa r) x.
Definition put_fq (x : list flip) (r : present) : present :=
  mk_present x (height r) (flips r) (flips_deferred r) (shown r) (pan_err r).
Definition put_flips (x : Z) (r : present) : present :=
  mk_present (fq r) (height r) x (flips_deferred r) (shown r) (pan_err r).
Definition put_flips_deferred (x : Z) (r : present) : present :=
  mk_present (fq r) (height r) (flips r) x (shown r) (pan_err r).
Definition put_shown (x : Z) (r : present) : present :=
  mk_present (fq r) (height r) (flips r) (flips_deferred r) x (pan_err r).
Definition put_pan_err (x : Z) (r : present) : present :=
  mk_present (fq r) (height r) (flips r) (flips_deferred r) (shown r) x.

#[export] Instance queue_inhabited : Inhabited queue := populate (mk_queue [] [] 0 0 0 0 0 0 0 0 0).

Section Gpu.
Context `{K : Kernel} `{D : Device}.

(** [srv]: fences, clients and buffers, the device and the shared words, jobs and queues. *)
Record jsrv := mk_js {
  bo : bsrv; dev : device; wd : words; irqs : list nat; jobs : gmap Z vjob; qs : list queue; ov : ovf_t; ct : counters; cf : config; pr : present
}.
Definition on_bo (f : bsrv -> bsrv) (s : jsrv) : jsrv := mk_js (f (bo s)) (dev s) (wd s) (irqs s) (jobs s) (qs s) (ov s) (ct s) (cf s) (pr s).
Definition on_dev (f : device -> device) (s : jsrv) : jsrv := mk_js (bo s) (f (dev s)) (wd s) (irqs s) (jobs s) (qs s) (ov s) (ct s) (cf s) (pr s).
Definition on_wd (f : words -> words) (s : jsrv) : jsrv := mk_js (bo s) (dev s) (f (wd s)) (irqs s) (jobs s) (qs s) (ov s) (ct s) (cf s) (pr s).
Definition on_irqs (f : list nat -> list nat) (s : jsrv) : jsrv := mk_js (bo s) (dev s) (wd s) (f (irqs s)) (jobs s) (qs s) (ov s) (ct s) (cf s) (pr s).
Definition on_jobs (f : gmap Z vjob -> gmap Z vjob) (s : jsrv) : jsrv := mk_js (bo s) (dev s) (wd s) (irqs s) (f (jobs s)) (qs s) (ov s) (ct s) (cf s) (pr s).
Definition on_qs (f : list queue -> list queue) (s : jsrv) : jsrv := mk_js (bo s) (dev s) (wd s) (irqs s) (jobs s) (f (qs s)) (ov s) (ct s) (cf s) (pr s).
Definition on_ov (f : ovf_t -> ovf_t) (s : jsrv) : jsrv := mk_js (bo s) (dev s) (wd s) (irqs s) (jobs s) (qs s) (f (ov s)) (ct s) (cf s) (pr s).
Definition on_ct (f : counters -> counters) (s : jsrv) : jsrv := mk_js (bo s) (dev s) (wd s) (irqs s) (jobs s) (qs s) (ov s) (f (ct s)) (cf s) (pr s).
Definition on_cf (f : config -> config) (s : jsrv) : jsrv := mk_js (bo s) (dev s) (wd s) (irqs s) (jobs s) (qs s) (ov s) (ct s) (f (cf s)) (pr s).
Definition on_pr (f : present -> present) (s : jsrv) : jsrv := mk_js (bo s) (dev s) (wd s) (irqs s) (jobs s) (qs s) (ov s) (ct s) (cf s) (f (pr s)).

(** ** Sequences of steps *)

Definition M (A : Type) : Type := jsrv -> option (jsrv * A).
#[export] Instance M_ret : MRet M := fun A a s => Some (s, a).
#[export] Instance M_bind : MBind M := fun A B k m s => match m s with Some (s, a) => k a s | None => None end.

Definition crash {A} : M A := fun _ => None.
Definition get {A} (f : jsrv -> A) : M A := fun s => Some (s, f s).
Definition lift {A} (f : jsrv -> option (jsrv * A)) : M A := f.
Definition modify (f : jsrv -> jsrv) : M unit := fun s => Some (f s, tt).
Definition when (b : bool) (m : M unit) : M unit := if b then m else mret tt.
Fixpoint each {A} (f : A -> M unit) (l : list A) : M unit :=
  match l with [] => mret tt | x :: l => _ ← f x; each f l end.

Definition job_at (p : Z) : M vjob := fun s => j ← jobs s !! p; Some (s, j).
Definition upd_job (p : Z) (f : vjob -> vjob) : M unit := fun s =>
  j ← jobs s !! p; Some (on_jobs (fun _ => <[p := f j]> (jobs s)) s, tt).
Definition queue_at (s : jsrv) (q : Z) : queue := qs s !!! Z.to_nat q.
Definition upd_queue (q : Z) (f : queue -> queue) : M unit := modify (on_qs (alter f (Z.to_nat q))).

Definition on_base (f : srv -> srv) (s : bsrv) : bsrv :=
  mk_bsrv (f (base s)) (hw_submitted s) (hwst s) (bos s) (bo_gen s) (pool s) (low s) (scan s) (ovf s) (imports s) (exports s)
    (buf_port s) (verbose s) (bo_quarantine_passed s) (pages_to_kernel s) (kern s).
Definition on_submitted (f : list Z -> list Z) (s : bsrv) : bsrv :=
  mk_bsrv (base s) (f (hw_submitted s)) (hwst s) (bos s) (bo_gen s) (pool s) (low s) (scan s) (ovf s) (imports s) (exports s)
    (buf_port s) (verbose s) (bo_quarantine_passed s) (pages_to_kernel s) (kern s).
Definition set_actives (s : srv) (a : list (option job)) : srv := mk_srv (slots s) (hw_completed s) (slot_gen s) (dead_flush s) a
  (clients s) (nclients s) (heap s) (waits s) (nparked s) (parked_max s) (timeouts s) (kick_pending s) (port s) (rx_port s).

Definition set_next_seq (c : client) (l : list Z) : client := mk_client (c_used c) (c_id c) (c_pid c) (c_hello c) (c_slot c) l (c_nparked c) (sync c).

Definition fences (s : jsrv) : srv := base (bo s).
Definition upd_fences (f : srv -> srv) : M unit := modify (on_bo (on_base f)).

(** [srv.q[q].active = p]; the fence code sees the queue and the fence of the active job. *)
Definition set_active (q p : Z) (j : option vjob) : M unit :=
  _ ← upd_queue q (put_q_active p);
  upd_fences (fun b => set_actives b (<[Z.to_nat q := (fun j => mk_job (v_queue j) (v_fence j)) <$> j]> (active b))).

Definition v3da_now_us : M Z := fun s => let '(t, k) := k_now (kern (bo s)) in Some (on_bo (fun b => set_kern b k) s, t).

Definition is_hw_queue (q : Z) : bool := (q =? Q_BIN) || (q =? Q_RENDER) || (q =? Q_TFU) || (q =? Q_CSD).
Definition v3da_jobs_hw_busy (s : jsrv) : bool := negb (nbusy (ct s) =? 0).
Definition queues : list Z := seqZ 0 V3DA_Q_COUNT.
Definition client_slots : list Z := seqZ 0 V3DA_MAX_CLIENTS.

Definition acct (now : Z) : M unit := modify (on_ct (fun c =>
  let dt := if acct_t_us c <? now then now - acct_t_us c else 0 in
  let c := if 1 <=? nbusy c then put_any_busy_us (u64 (any_busy_us c + dt)) c else c in
  let c := if 2 <=? nbusy c then put_overlap_us (u64 (overlap_us c + dt)) c else c in
  put_acct_t_us now c)).

(** ** The interrupt handler ([v3da_hw.c]) *)

Definition hw_service (d : device) (w : words) : device * words * Z * Z :=
  let '(core, d) := dev_read d CORE CTL_INT_STS in
  let '(hub, d) := dev_read d HUB HUB_INT_STS in
  let d := if negb (core =? 0) then dev_write d CORE CTL_INT_CLR core else d in
  let '(d, w) :=
    if negb (hub =? 0) then
      let '(d, w) :=
        if has hub HUB_INT_MMU_ANY then
          let '(ctl, d) := dev_read d HUB MMU_CTL in (dev_write d HUB MMU_CTL ctl, put_mmu_ctl_seen ctl w)
        else (d, w) in
      (dev_write d HUB HUB_INT_CLR hub, w)
    else (d, w) in
  let '(d, w) :=
    if has core INT_OUTOMEM then
      let va := ovf_stage_va w in
      let w := put_ovf_stage_va 0 w in
      if negb (va =? 0) then
        (dev_write (dev_write d CORE PTB_BPOA va) CORE PTB_BPOS (ovf_stage_size w), put_ovf_consumed va w)
      else (d, put_ovf_missed (u32 (ovf_missed w + 1)) w)
    else (d, w) in
  let w := if negb (core =? 0) then put_ev_core (ev_core w ||| core) w else w in
  let w := if negb (hub =? 0) then put_ev_hub (ev_hub w ||| hub) w else w in
  (d, w, core, hub).

Definition mask_all (d : device) : device := dev_write (dev_write d CORE CTL_INT_MSK_SET 0xffffffff) HUB HUB_INT_MSK_SET 0xffffffff.

Definition v3da_irq_handler (dw : device * words) : device * words :=
  let '(d, w) := dw in
  let w := put_irq_count (u32 (irq_count w + 1)) w in
  let cnt := irq_count w in
  let '(d, w, core, hub) := hw_service d w in
  let nothing := (core ||| hub) =? 0 in
  let w := if nothing then put_irq_spurious (u32 (irq_spurious w + 1)) w else w in
  if nothing && (IRQ_SPURIOUS_LIMIT <? irq_spurious w) then (mask_all d, put_storm 1 w)
  else if IRQ_BURST_LIMIT <? u32 (cnt - irq_count_snap w) then (mask_all d, put_storm 2 w)
  else (d, w).

(** The interrupts that arrive here. *)
Definition interrupts : M unit := modify (fun s =>
  match irqs s with
  | [] => s
  | n :: l =>
      let s := on_irqs (fun _ => l) s in
      if irq_on (wd s) then
        let '(d, w) := Nat.iter n v3da_irq_handler (dev s, wd s) in on_wd (fun _ => w) (on_dev (fun _ => d) s)
      else s
  end).

Definition rd (b : block) (r : Z) : M Z :=
  _ ← interrupts; lift (fun s => let '(x, d) := dev_read (dev s) b r in Some (on_dev (fun _ => d) s, x)).
Definition wr (b : block) (r x : Z) : M unit := _ ← interrupts; modify (on_dev (fun d => dev_write d b r x)).
(** An atomic access to the shared words. *)
Definition atomic {A} (f : words -> A * words) : M A := 
  _ ← interrupts; lift (fun s => let '(a, w) := f (wd s) in Some (on_wd (fun _ => w) s, a)).
Definition store (f : words -> words) : M unit := atomic (fun w => (tt, f w)).

(** [for (spins = n; spins != 0 && (reg & mask) != 0; spins--)]: whether [spins] is left. *)
Fixpoint spin (n : nat) (b : block) (r mask : Z) : M bool :=
  match n with
  | O => mret false
  | S n => x ← rd b r; if has x mask then spin n b r mask else mret true
  end.

Definition v3da_hw_drain : M unit :=
  core ← rd CORE CTL_INT_STS;
  let core := core &&& lnot_w 32 INT_OUTOMEM in
  hub ← rd HUB HUB_INT_STS;
  _ ← when (negb (core =? 0)) (_ ← wr CORE CTL_INT_CLR core; store (fun w => put_ev_core (ev_core w ||| core) w));
  when (negb (hub =? 0)) (
    _ ← when (has hub HUB_INT_MMU_ANY) (ctl ← rd HUB MMU_CTL; _ ← store (put_mmu_ctl_seen ctl); wr HUB MMU_CTL ctl);
    _ ← wr HUB HUB_INT_CLR hub;
    store (fun w => put_ev_hub (ev_hub w ||| hub) w)).

(** With interrupts off. *)
Definition v3da_hw_poll_status : M unit := modify (fun s =>
  let '(d, w, _, _) := hw_service (dev s) (wd s) in on_wd (fun _ => w) (on_dev (fun _ => d) s)).

Definition v3da_hw_l2t_flush_wait : M unit := _ ← spin SPINS CORE CTL_L2TCACTL L2TCACTL_L2TFLS; mret tt.

Definition hw_mmu_flush : M unit :=
  _ ← wr HUB MMUC_CONTROL 3;                      (* MMUC_FLUSH | MMUC_ENABLE *)
  flushed ← spin SPINS HUB MMUC_CONTROL 4;        (* MMUC_FLUSHING *)
  ctl ← rd HUB MMU_CTL; _ ← wr HUB MMU_CTL (ctl ||| 4);   (* MMU_CTL_TLB_CLEAR *)
  cleared ← spin SPINS HUB MMU_CTL 128;           (* MMU_CTL_TLB_CLEARING *)
  modify (on_bo (fun b => set_hw b (mmu_flush (flushed && cleared) (hwst b)))).

Definition idle_axi : M unit :=
  _ ← wr CORE GMP_CFG 2;                          (* GMP_CFG_STOP_REQ *)
  _ ← spin SPINS CORE GMP_STATUS 0x7f7f0008;      (* GMP_STATUS_RD_WR_CNT | GMP_STATUS_CFG_BUSY *)
  mret tt.

Definition apply_core_regs : M unit :=
  c ← get cf;
  _ ← wr HUB MMU_PT_PA_BASE (u32 (pt_pa c >>> 12));
  _ ← wr HUB MMU_CTL MMU_CTL_VALUE;
  _ ← when (negb (scratch_pa c =? 0)) (wr HUB MMU_ILLEGAL_ADDR (u32 (scratch_pa c >>> 12) ||| (1 <<< 31)));
  _ ← wr HUB MMUC_CONTROL 1;
  _ ← wr CORE CTL_L2CACTL 5;
  _ ← wr CORE CTL_L2TFLSTA 0;
  _ ← wr CORE CTL_L2TFLEND 0xffffffff;
  _ ← wr HUB HUB_AXICFG 0xf;
  wr CORE CTL_MISCCFG 5.

Definition v3da_hw_reset : M unit :=
  _ ← wr CORE CTL_INT_MSK_SET 0xffffffff;
  _ ← wr HUB HUB_INT_MSK_SET 0xffffffff;
  _ ← idle_axi;
  _ ← interrupts; _ ← modify (on_dev dev_power_cycle);
  _ ← apply_core_regs;
  _ ← wr CORE CTL_INT_MSK_SET 0xffffffff;         (* irq_mask_all *)
  _ ← wr HUB HUB_INT_MSK_SET 0xffffffff;
  _ ← wr CORE CTL_INT_CLR 0xffffffff;
  _ ← wr HUB HUB_INT_CLR 0xffffffff;
  _ ← store (put_ovf_stage_va 0);
  _ ← store (put_ovf_stage_size 0);
  _ ← store (put_ovf_consumed 0);
  _ ← store (put_ovf_missed 0);
  _ ← store (put_ev_core 0);
  _ ← store (put_ev_hub 0);
  _ ← modify (on_bo (fun b => set_hw b (bump_pt_gen (hwst b))));
  _ ← hw_mmu_flush;
  on ← get (fun s => irq_on (wd s));
  when on (_ ← wr CORE CTL_INT_MSK_CLR CORE_IRQS; wr HUB HUB_INT_MSK_CLR HUB_IRQS).

Definition v3da_hw_irq_disable : M unit :=
  _ ← wr CORE CTL_INT_MSK_SET 0xffffffff;
  _ ← wr HUB HUB_INT_MSK_SET 0xffffffff;
  store (put_irq_on false).

End Gpu.
End V3daGpu.
