(* ===== verification/V3daJobs.v ===== *)
(** * Jobs of the V3D render server ([src/gpu/rpi4-v3d-async/v3da_jobs.c])

    Submission, the queues, the scheduler, the kicks of the hardware queues, completion, the
    binner's overflow memory, the watchdog and the reset, clients that go, flips, and the rounds of the
    event thread ([v3da_sched.c]). Printing, with the registers that are read only to be printed, and the
    pixel samples of the present family are not modelled. *)

From S2P Require Import Prelude V3daSched V3daPool V3daBo V3daGpu.

Module V3daJobs.
Import V3da V3daPool V3daBo V3daGpu.

Section Jobs.
Context `{K : Kernel} `{D : Device}.

(** ** Overflow chunks *)

Definition v3da_ovf_init : M (cres unit) :=
  kib ← get (fun s => ovf_chunk_kib (cf s));
  let chunk := u32 (kib * 1024) in
  let chunk := if chunk <? 64 * 1024 then 64 * 1024 else chunk in
  let chunk := if OVF_POOL_BYTES <? chunk then OVF_POOL_BYTES else chunk in
  let chunk := chunk &&& lnot_w 32 (PAGE_SIZE - 1) in
  let n := Z.min (OVF_POOL_BYTES / chunk) V3DA_MAX_CHUNKS in
  _ ← modify (on_ov (fun o => put_nchunks n (put_chunk_bytes chunk o)));
  rc ← lift (fun s => let '(rc, b) := v3da_bo_map_ovf_pool (bo s) (u32 (n * chunk)) in Some (on_bo (fun _ => b) s, rc));
  match rc with
  | Err e => _ ← modify (on_ov (put_nchunks 0)); mret (Err e)
  | Ok va =>
      _ ← modify (on_ov (fun o => put_free_head (-1) (put_o_gpuva va o)));
      _ ← each (fun i => modify (on_ov (fun o => put_free_head i (put_o_next (arr_set (o_next o) i (free_head o)) o)))) (reverse (seqZ 0 n));
      _ ← modify (on_ov (fun o => put_staged (-1) (put_nfree n o)));
      mret (Ok tt)
  end.

Definition next_of (idx : Z) : M Z := get (fun s => arr_get (o_next (ov s)) idx).

Definition chunk_alloc : M Z :=
  i ← get (fun s => free_head (ov s));
  _ ← when (0 <=? i) (modify (on_ov (fun o =>
         put_nfree (u32 (nfree o - 1)) (put_o_next (arr_set (o_next o) i (-1)) (put_free_head (arr_get (o_next o) i) o)))));
  mret i.

Fixpoint free_loop (fuel : nat) (head : Z) : M unit :=
  if head <? 0 then mret tt
  else match fuel with
  | O => crash
  | S fuel =>
      next ← next_of head;
      _ ← modify (on_ov (fun o => put_nfree (u32 (nfree o + 1)) (put_free_head head (put_o_next (arr_set (o_next o) head (free_head o)) o))));
      free_loop fuel next
  end.
(** The chunks are fewer than the fuel. *)
Definition chunk_fuel : nat := S (Z.to_nat V3DA_MAX_CHUNKS).
Definition chunk_free_list (head : Z) : M unit := free_loop chunk_fuel head.

Definition chunk_attach (p idx : Z) : M unit :=
  j ← job_at p;
  _ ← modify (on_ov (fun o => put_o_next (arr_set (o_next o) idx (v_ovf j)) o));
  upd_job p (put_v_ovf idx).

Definition chunk_va (o : ovf_t) (idx : Z) : Z := u32 (o_gpuva o + u32 (u32 idx * chunk_bytes o)).

Definition ovf_stage : M unit :=
  o ← get ov;
  if (0 <=? staged o) || (nchunks o =? 0) then mret tt
  else
    i ← chunk_alloc;
    _ ← modify (on_ov (put_staged i));
    if i <? 0 then mret tt
    else
      _ ← store (put_ovf_stage_size (chunk_bytes o));
      store (put_ovf_stage_va (chunk_va o i)).

Definition ovf_grant_direct (bin : Z) : M bool :=
  idx ← chunk_alloc;
  if idx <? 0 then mret false
  else
    o ← get ov;
    _ ← wr CORE PTB_BPOA (chunk_va o idx);
    _ ← wr CORE PTB_BPOS (chunk_bytes o);
    _ ← chunk_attach bin idx;
    _ ← upd_queue Q_BIN (fun q => put_st_oom (u32 (st_oom q + 1)) q);
    mret true.

(** Each round but the last takes a chunk. *)
Fixpoint grant_loop (fuel : nat) (bin : Z) : M unit :=
  waiting ← get (fun s => bin_waiting (ov s));
  if (0 <? waiting) && negb (bin =? 0) then
    match fuel with
    | O => crash
    | S fuel =>
        ok ← ovf_grant_direct bin;
        if ok : bool then _ ← modify (on_ov (fun o => put_bin_waiting (bin_waiting o - 1) o)); grant_loop fuel bin else mret tt
    end
  else mret tt.

Definition ovf_service : M unit :=
  bin ← get (fun s => q_active (queue_at s Q_BIN));
  va ← atomic (fun w => (ovf_consumed w, put_ovf_consumed 0 w));
  o ← get ov;
  _ ← when (negb (va =? 0) && negb (chunk_bytes o =? 0)) (
        let idx := u32 (va - o_gpuva o) / chunk_bytes o in
        _ ← when (idx =? staged o) (modify (on_ov (put_staged (-1))));
        if negb (bin =? 0) then _ ← chunk_attach bin idx; upd_queue Q_BIN (fun q => put_st_oom (u32 (st_oom q + 1)) q)
        else chunk_free_list idx);
  missed ← atomic (fun w => (ovf_missed w, put_ovf_missed 0 w));
  _ ← when (negb (missed =? 0) && negb (bin =? 0)) (modify (on_ov (fun o =>
        put_bin_waiting (s32 (bin_waiting o + missed)) (put_starved (u32 (starved o + missed)) o))));
  _ ← grant_loop chunk_fuel bin;
  _ ← when (bin =? 0) (modify (on_ov (put_bin_waiting 0)));
  ovf_stage.

(** ** Completion *)

Definition bump_submitted (q : Z) : M unit := modify (on_bo (on_submitted (fun l => arr_set l q (u64 (arr_get l q + 1))))).

(** [while (j->ovf_head >= 0)]: the chunks of [p] go to [r]. *)
Fixpoint move_chunks (fuel : nat) (p r : Z) : M unit :=
  j ← job_at p;
  if v_ovf j <? 0 then mret tt
  else match fuel with
  | O => crash
  | S fuel =>
      let idx := v_ovf j in
      next ← next_of idx;
      _ ← upd_job p (put_v_ovf next);
      _ ← chunk_attach r idx;
      move_chunks fuel p r
  end.

Definition note_busy (dt : Z) (q : queue) : queue :=
  let q := put_st_busy_us (u64 (st_busy_us q + dt)) q in
  if st_max_us q <? dt then put_st_max_us (Z.min dt 0xffffffff) q else q.

(** [free(p)], of [NULL] or of a job. *)
Definition free_job (p : Z) : M unit := when (negb (p =? 0)) (_ ← job_at p; modify (on_jobs (delete p))).

(** The links and the chunks of a job that ends: its render job, if any, takes the chunks. *)
Definition fail_bin (error : bool) (r : vjob) : vjob := put_v_dep_error (v_dep_error r || error) (put_v_bin 0 r).
Definition unlink (q p : Z) (error : bool) (j : vjob) : M unit :=
  _ ← (if q =? Q_BIN then
         _ ← when (negb (v_render j =? 0)) (
               _ ← upd_job (v_render j) (fail_bin error);
               move_chunks chunk_fuel p (v_render j));
         j ← job_at p;
         _ ← chunk_free_list (v_ovf j);
         upd_job p (put_v_ovf (-1))
       else when (0 <=? v_ovf j) (_ ← chunk_free_list (v_ovf j); upd_job p (put_v_ovf (-1))));
  when (negb (v_bin j =? 0)) (upd_job (v_bin j) (put_v_render 0)).

Definition job_done (p : Z) (error : bool) (now : Z) : M unit :=
  j ← job_at p;
  let q := v_queue j in
  a ← get (fun s => q_active (queue_at s q));
  _ ← (if a =? p then
         _ ← when (is_hw_queue q) (_ ← acct now; modify (on_ct (fun c => put_nbusy (u32 (nbusy c - 1)) c)));
         _ ← set_active q 0 None;
         upd_queue q (note_busy (if v_kick j <? now then now - v_kick j else 0))
       else when (v_kick j =? 0) (bump_submitted q));
  let error := error || v_error j in
  _ ← upd_queue q (fun u => put_st_errors (u32 (st_errors u + of_bool error)) (put_st_jobs (u32 (st_jobs u + 1)) u));
  _ ← unlink q p error j;
  _ ← modify (on_bo (fun b => v3da_bo_unpin b (v_bos j)));
  _ ← upd_fences (fun b => v3da_fence_complete b (mk_job q (v_fence j)) error);
  _ ← modify (on_ct (fun c => put_stat_jobs_seen (u32 (stat_jobs_seen c + 1)) c));
  free_job p.

Definition job_discard (p : Z) : M unit :=
  j ← job_at p;
  _ ← when (negb (v_bin j =? 0)) (upd_job (v_bin j) (put_v_render 0));
  _ ← when (negb (v_render j =? 0)) (upd_job (v_render j) (put_v_bin 0));
  _ ← when (0 <=? v_ovf j) (chunk_free_list (v_ovf j));
  _ ← modify (on_bo (fun b => v3da_bo_unpin b (v_bos j)));
  free_job p.

(** ** Kicks *)

Definition knob (k : Z) (s : jsrv) : bool := has (knobs (cf s)) k.

Definition tlb_step : M unit :=
  flush ← get (fun s => negb (knob KNOB_TLB_ON_CHANGE s) || negb (tlb_gen (hwst (bo s)) =? pt_gen (hwst (bo s))));
  when flush hw_mmu_flush.

Definition l2t_flush (wait_new : bool) : M unit :=
  _ ← v3da_hw_l2t_flush_wait;
  _ ← wr CORE CTL_L2TCACTL L2TCACTL_L2TFLS;
  when wait_new v3da_hw_l2t_flush_wait.

Definition clean_caches : M unit :=
  _ ← v3da_hw_l2t_flush_wait;
  _ ← wr CORE CTL_L2TCACTL L2TCACTL_TMUWCF;
  _ ← spin SPINS CORE CTL_L2TCACTL L2TCACTL_TMUWCF;
  _ ← wr CORE CTL_L2TCACTL (L2TCACTL_L2TFLS ||| L2TCACTL_FLM_CLEAN);
  v3da_hw_l2t_flush_wait.

Definition drain_for_kick (own_core own_hub : Z) : M unit :=
  _ ← v3da_hw_drain;
  _ ← when (negb (own_core =? 0)) (store (fun w => put_ev_core (ev_core w &&& lnot_w 32 own_core) w));
  when (negb (own_hub =? 0)) (store (fun w => put_ev_hub (ev_hub w &&& lnot_w 32 own_hub) w)).

(** Fields of the descriptors. *)
Definition bcl_start (d : list Z) : Z := arr_get d 0.
Definition bcl_end (d : list Z) : Z := arr_get d 1.
Definition rcl_start (d : list Z) : Z := arr_get d 2.
Definition rcl_end (d : list Z) : Z := arr_get d 3.
Definition cl_qma (d : list Z) : Z := arr_get d 4.
Definition cl_qms (d : list Z) : Z := arr_get d 5.
Definition cl_qts (d : list Z) : Z := arr_get d 6.
Definition cl_flags (d : list Z) : Z := arr_get d 7.
Definition tfu_icfg (d : list Z) : Z := arr_get d 0.
Definition tfu_iia (d : list Z) : Z := arr_get d 1.
Definition tfu_iis (d : list Z) : Z := arr_get d 2.
Definition tfu_ica (d : list Z) : Z := arr_get d 3.
Definition tfu_iua (d : list Z) : Z := arr_get d 4.
Definition tfu_ioa (d : list Z) : Z := arr_get d 5.
Definition tfu_ios (d : list Z) : Z := arr_get d 6.
Definition tfu_coef (d : list Z) (i : Z) : Z := arr_get d (7 + i).
Definition csd_cfg (d : list Z) (i : Z) : Z := arr_get d i.

Definition kick_bin (d : list Z) : M unit :=
  linux ← get (knob KNOB_LINUX_ORDER);
  _ ← when (negb linux) (wr CORE CTL_SLCACTL SLCACTL_INVAL_ALL);
  _ ← tlb_step;
  no_wait ← get (knob KNOB_NO_L2T_WAIT_NEW);
  _ ← l2t_flush (negb no_wait);
  no_fixa ← get (knob KNOB_NO_FIXA);
  _ ← when (negb no_fixa) (l2t_flush true);
  _ ← when linux (wr CORE CTL_SLCACTL SLCACTL_INVAL_ALL);
  _ ← drain_for_kick INT_FLDONE 0;
  _ ← wr CORE PTB_BPOS 0;
  _ ← modify (on_ov (put_bin_waiting 0));
  _ ← ovf_stage;
  _ ← when (negb (cl_qma d =? 0)) (_ ← wr CORE CLE_CT0QMA (cl_qma d); wr CORE CLE_CT0QMS (cl_qms d));
  _ ← when (negb (cl_qts d =? 0)) (wr CORE CLE_CT0QTS (CT0QTS_ENABLE ||| cl_qts d));
  _ ← wr CORE CLE_CT0QBA (bcl_start d);
  wr CORE CLE_CT0QEA (bcl_end d).

Definition kick_render (d : list Z) : M unit :=
  no_flush ← get (knob KNOB_NO_HANDOFF_FLUSH);
  no_wait ← get (knob KNOB_NO_HANDOFF_WAIT);
  _ ← when (negb no_flush) (l2t_flush (negb no_wait));
  _ ← wr CORE CTL_SLCACTL SLCACTL_INVAL_ALL;
  _ ← drain_for_kick INT_FRDONE 0;
  _ ← wr CORE CLE_CT1QBA (rcl_start d);
  wr CORE CLE_CT1QEA (rcl_end d).

Definition kick_tfu (d : list Z) : M unit :=
  _ ← tlb_step;
  _ ← wr CORE CTL_SLCACTL SLCACTL_INVAL_ALL;
  _ ← l2t_flush true;
  _ ← drain_for_kick 0 (HUB_INT_TFUC ||| HUB_INT_TFUF);
  _ ← wr HUB TFU_IIA (tfu_iia d); _ ← wr HUB TFU_IIS (tfu_iis d); _ ← wr HUB TFU_ICA (tfu_ica d);
  _ ← wr HUB TFU_IUA (tfu_iua d); _ ← wr HUB TFU_IOA (tfu_ioa d); _ ← wr HUB TFU_IOS (tfu_ios d);
  _ ← wr HUB TFU_COEF0 (tfu_coef d 0);
  _ ← when (has (tfu_coef d 0) TFU_COEF0_USECOEF) (
        _ ← wr HUB TFU_COEF1 (tfu_coef d 1); _ ← wr HUB TFU_COEF2 (tfu_coef d 2); wr HUB TFU_COEF3 (tfu_coef d 3));
  wr HUB TFU_ICFG (tfu_icfg d ||| TFU_ICFG_IOC).

(** Whether the dispatch was started. *)
Definition kick_csd (d : list Z) : M bool :=
  _ ← wr CORE CTL_SLCACTL SLCACTL_INVAL_ALL;
  _ ← tlb_step;
  _ ← l2t_flush true;
  idle ← spin CSD_SPINS CORE CSD_STATUS CSD_STATUS_HAVE_CURRENT;
  if idle : bool then
    _ ← drain_for_kick INT_CSDDONE 0;
    _ ← each (fun i => wr CORE (CSD_QUEUED_CFG0 + 4 * i) (csd_cfg d i)) (seqZ 1 6);
    _ ← wr CORE CSD_QUEUED_CFG0 (csd_cfg d 0);
    mret true
  else mret false.

Definition progress_sample (q : Z) : M (Z * Z) :=
  if q =? Q_BIN then ca ← rd CORE CLE_CT0CA; ra ← rd CORE CLE_CT0RA; mret (ca, ra)
  else if q =? Q_RENDER then ca ← rd CORE CLE_CT1CA; ra ← rd CORE CLE_CT1RA; mret (ca, ra)
  else if q =? Q_CSD then ca ← rd CORE CSD_CURRENT_CFG4; ra ← rd CORE CSD_STATUS; mret (ca, ra)
  else ca ← rd HUB TFU_CS; mret (ca, 0).

(** The reset after a wedge: the jobs on the hardware fail. *)
Definition wedge (now : Z) : M unit :=
  _ ← modify (on_ct (fun c => put_ever_reset true (put_wedges (u32 (wedges c + 1)) c)));
  _ ← v3da_hw_reset;
  _ ← modify (on_ct (fun c => put_reset_gen (u32 (reset_gen c + 1)) (put_resets (u32 (resets c + 1)) c)));
  st ← get (fun s => staged (ov s));
  _ ← when (0 <=? st) (_ ← chunk_free_list st; modify (on_ov (put_staged (-1))));
  _ ← modify (on_ov (put_bin_waiting 0));
  each (fun q =>
    a ← get (fun s => q_active (queue_at s q));
    when (is_hw_queue q && negb (a =? 0)) (job_done a true now)) queues.

Definition job_kick (p now : Z) : M unit :=
  j ← job_at p;
  let q := v_queue j in
  _ ← set_active q p (Some j);
  _ ← upd_queue q (fun u => put_st_wait_us (u64 (st_wait_us u + (if v_submit j <? now then now - v_submit j else 0)))
                              (put_pending (u32 (pending u - 1)) u));
  _ ← upd_job p (put_v_kick now);
  _ ← bump_submitted q;
  _ ← when (is_hw_queue q) (
        _ ← acct now;
        _ ← modify (on_ct (fun c => put_nbusy (u32 (nbusy c + 1)) c));
        upd_job p (fun j => put_v_progress now (put_v_check (u64 (now + WD_TICK_US)) j)));
  started ← (if q =? Q_CPU then _ ← upd_job p (put_v_done_at (u64 (now + v_delay j))); mret true
             else if q =? Q_BIN then _ ← kick_bin (v_desc j); mret true
             else if q =? Q_RENDER then _ ← kick_render (v_desc j); mret true
             else if q =? Q_TFU then _ ← kick_tfu (v_desc j); mret true
             else if q =? Q_CSD then kick_csd (v_desc j)
             else mret true);
  if started : bool then
    when (is_hw_queue q) (cr ← progress_sample q; upd_job p (fun j => put_v_ra cr.2 (put_v_ca cr.1 j)))
  else _ ← upd_job p (put_v_error true); wedge now.

(** ** The scheduler *)

Definition fifo_push (q slot p : Z) : M unit :=
  _ ← upd_job p (put_v_next 0);
  t ← get (fun s => arr_get (tail (queue_at s q)) slot);
  _ ← (if negb (t =? 0) then upd_job t (put_v_next p) else upd_queue q (fun u => put_head (arr_set (head u) slot p) u));
  upd_queue q (fun u => put_pending (u32 (pending u + 1)) (put_tail (arr_set (tail u) slot p) u)).

Definition fifo_pop (q slot : Z) : M Z :=
  h ← get (fun s => arr_get (head (queue_at s q)) slot);
  _ ← when (negb (h =? 0)) (
        j ← job_at h;
        _ ← upd_queue q (fun u => put_head (arr_set (head u) slot (v_next j)) u);
        _ ← when (v_next j =? 0) (upd_queue q (fun u => put_tail (arr_set (tail u) slot 0) u));
        upd_job h (put_v_next 0));
  mret h.

Definition job_ready (s : jsrv) (j : vjob) : bool :=
  if (v_queue j =? Q_RENDER) && negb (v_bin j =? 0) then false
  else forallb (fun f => (v3da_fence_signaled (fences s) f).1) (v_dep j).

(** [head != NULL && test(head)] *)
Definition head_is (test : jsrv -> vjob -> bool) (q slot : Z) : M bool := fun s =>
  let h := arr_get (head (queue_at s q)) slot in
  if h =? 0 then Some (s, false) else j ← jobs s !! h; Some (s, test s j).

Definition drop_pending (q : Z) : M unit := upd_queue q (fun u => put_pending (u32 (pending u - 1)) u).

(** A round over all heads: whether a job was reaped. *)
Fixpoint reap_round (now : Z) (l : list (Z * Z)) : M bool :=
  match l with
  | [] => mret false
  | (q, slot) :: l =>
      failed ← head_is (fun s j => v_dep_error j && job_ready s j) q slot;
      if failed : bool then
        p ← fifo_pop q slot; _ ← drop_pending q; _ ← job_done p true now; _ ← reap_round now l; mret true
      else reap_round now l
  end.
Definition all_heads : list (Z * Z) := q ← queues; slot ← client_slots; [(q, slot)].
Fixpoint reap_loop (fuel : nat) (now : Z) : M unit :=
  match fuel with
  | O => crash
  | S fuel => again ← reap_round now all_heads; if again : bool then reap_loop fuel now else mret tt
  end.
(** Each round but the last takes a job. *)
Definition reap_failed_heads (now : Z) : M unit := n ← get (fun s => size (jobs s)); reap_loop (S n) now.

(** The first ready head from the cursor on is kicked. *)
Fixpoint round_robin (q now : Z) (l : list Z) : M unit :=
  match l with
  | [] => mret tt
  | idx :: l =>
      ready ← head_is job_ready q idx;
      if ready : bool then p ← fifo_pop q idx; _ ← upd_queue q (put_rr (u32 (idx + 1))); job_kick p now
      else round_robin q now l
  end.
Definition from_cursor (rr : Z) : list Z := map (fun i => u32 (rr + i) mod V3DA_MAX_CLIENTS) client_slots.
Definition run_queue (q now : Z) : M unit :=
  u ← get (fun s => queue_at s q);
  when (q_active u =? 0) (round_robin q now (from_cursor (rr u))).

(** The oldest ready head of the hardware queues: queue, slot, job and its [gseq]. *)
Fixpoint oldest (l : list (Z * Z)) (best : option (Z * Z * Z * Z)) : M (option (Z * Z * Z * Z)) :=
  match l with
  | [] => mret best
  | (q, slot) :: l =>
      ready ← head_is job_ready q slot;
      if ready : bool then
        p ← get (fun s => arr_get (head (queue_at s q)) slot);
        j ← job_at p;
        oldest l (match best with
                  | Some (_, _, _, g) => if v_gseq j <? g then Some (q, slot, p, v_gseq j) else best
                  | None => Some (q, slot, p, v_gseq j)
                  end)
      else oldest l best
  end.
Definition hw_heads : list (Z * Z) := filter (fun qs => is_hw_queue qs.1 = true) all_heads.

Definition v3da_sched_run : M unit :=
  now ← v3da_now_us;
  _ ← reap_failed_heads now;
  _ ← run_queue Q_CPU now;
  m ← get (fun s => mode (cf s));
  if m =? V3DA_MODE_SERIAL then
    busy ← get v3da_jobs_hw_busy;
    if busy : bool then mret tt
    else
      best ← oldest hw_heads None;
      match best with
      | None => mret tt
      | Some (q, slot, p, _) => _ ← fifo_pop q slot; job_kick p now
      end
  else each (fun q => when (is_hw_queue q) (run_queue q now)) queues.

(** ** Submission

    [c] is the client's index; [p] is what [calloc] returns. *)

Definition job_new (c q now p : Z) : M Z :=
  if p =? 0 then mret 0
  else
    _ ← modify (on_ct (fun k => put_gseq (u64 (gseq k + 1)) k));
    _ ← modify (fun s =>
          let cl := client_at (fences s) c in
          let f := mk_fence (u16 (c_slot cl)) (u16 q) (u32 (slot_gen (fences s) !!! Z.to_nat (c_slot cl))) 0 in
          on_jobs (<[p := mk_vjob 0 q (c_id cl) f (gseq (ct s)) now 0 false [] 0 0 false [] (-1) 0 0 0 0 0 (replicate 11 0) 0 0 false]>) s);
    mret p.

Definition add_dep (p : Z) (o : syncobj) : M unit :=
  b ← get fences;
  match so_state o with
  | V3DA_SYNC_FENCE =>
      j ← job_at p;
      when (negb (v3da_fence_signaled b (so_fence o)).1 && (zlen (v_dep j) <? V3DA_SUBMIT_MAX_SEMS)) (
        upd_job p (put_v_dep (v_dep j ++ [so_fence o])))
  | _ => mret tt
  end.

(** [j->fence.seqno = ++c->next_seq[j->queue]] *)
Definition take_seqno (c p : Z) : M unit :=
  j ← job_at p;
  let q := v_queue j in
  _ ← upd_fences (fun b => upd_client b c (fun cl => set_next_seq cl (arr_set (next_seq cl) q (u64 (arr_get (next_seq cl) q + 1)))));
  n ← get (fun s => arr_get (next_seq (client_at (fences s) c)) q);
  upd_job p (fun j => put_v_fence (mk_fence (f_slot (v_fence j)) (f_queue (v_fence j)) (f_gen (v_fence j)) n) j).

Inductive submit_op := V3DA_OP_SUBMIT_CL | V3DA_OP_SUBMIT_TFU | V3DA_OP_SUBMIT_CSD | V3DA_OP_OTHER.
Record submit_hdr := mk_hdr { h_desc_size : Z; h_nbo : Z; h_nin : Z; h_nout : Z }.
Record sem := mk_sem { sem_handle : Z; sem_flags : Z }.

Definition want_desc (op : submit_op) : option Z :=
  match op with V3DA_OP_SUBMIT_CL => Some 32 | V3DA_OP_SUBMIT_TFU | V3DA_OP_SUBMIT_CSD => Some 44 | V3DA_OP_OTHER => None end.

(** The [uint32_t] at the word [i] of the data, and [n] of them. *)
Definition word_at (data : list Z) (i : Z) : Z :=
  arr_get data (4 * i) ||| (arr_get data (4 * i + 1) <<< 8) ||| (arr_get data (4 * i + 2) <<< 16) ||| (arr_get data (4 * i + 3) <<< 24).
Definition words_at (data : list Z) (i n : Z) : list Z := map (word_at data) (seqZ i n).
Definition sems_at (data : list Z) (i n : Z) : list sem := map (fun k => mk_sem (word_at data (i + 2 * k)) (word_at data (i + 2 * k + 1))) (seqZ 0 n).

Definition submit_reject {A} (e : errno) : M (cres A) :=
  _ ← modify (on_ct (fun c => put_submit_rejects (u32 (submit_rejects c + 1)) c)); mret (Err e).

Definition has_sync (cl : client) (x : sem) : bool := bool_decide (is_Some (v3da_syncobj_get cl (sem_handle x))).

(** What a submission carries, or why it is refused. *)
Record submission := mk_submission { sb_desc : list Z; sb_bos : list Z; sb_in : list sem; sb_out : list sem; sb_bin : bool }.
Definition check_submit (cl : client) (op : submit_op) (h : submit_hdr) (data : option (list Z)) : cres submission :=
  match want_desc op with
  | None => Err EINVAL
  | Some want =>
      if negb (h_desc_size h =? want) then Err EINVAL
      else if V3DA_SUBMIT_MAX_BOS <? h_nbo h then Err EINVAL
      else if (V3DA_SUBMIT_MAX_SEMS <? h_nin h) || (V3DA_SUBMIT_MAX_SEMS <? h_nout h) then Err EINVAL
      else
        match data with
        | None => Err EINVAL
        | Some d =>
            if zlen d <? want + h_nbo h * 4 + (h_nin h + h_nout h) * 8 then Err EINVAL
            else
              let at_ := want / 4 + h_nbo h in
              let ins := sems_at d at_ (h_nin h) in
              let outs := sems_at d (at_ + 2 * h_nin h) (h_nout h) in
              let ds := words_at d 0 (want / 4) in
              let cl_job := match op with V3DA_OP_SUBMIT_CL => true | _ => false end in
              if negb (forallb (has_sync cl) ins) then Err ENOENT
              else if negb (forallb (has_sync cl) outs) then Err ENOENT
              else if cl_job && (rcl_start ds =? rcl_end ds) then Err EINVAL
              else Ok (mk_submission ds (words_at d (want / 4) (h_nbo h)) ins outs (cl_job && negb (bcl_start ds =? bcl_end ds)))
        end
  end.

Definition unpin (l : list Z) : M unit := modify (on_bo (fun b => v3da_bo_unpin b l)).

(** [memcpy] of the descriptor over the zeroed union. *)
Definition copy_desc (d : list Z) (j : vjob) : vjob := put_v_desc (d ++ drop (length d) (v_desc j)) j.

(** The first and the last job of a submission, linked and with their descriptors; [None]: [ENOMEM]. *)
Definition make_jobs (c : Z) (op : submit_op) (sb : submission) (now p1 p2 : Z) : M (option (Z * Z)) :=
  if sb_bin sb then
    first ← job_new c Q_BIN now p1;
    last ← job_new c Q_RENDER now p2;
    if (first =? 0) || (last =? 0) then _ ← free_job first; _ ← free_job last; mret None
    else
      _ ← upd_job first (fun j => put_v_render last (copy_desc (sb_desc sb) j));
      _ ← upd_job last (fun j => put_v_bin first (copy_desc (sb_desc sb) j));
      mret (Some (first, last))
  else
    first ← job_new c (match op with V3DA_OP_SUBMIT_CL => Q_RENDER | V3DA_OP_SUBMIT_TFU => Q_TFU | _ => Q_CSD end) now p1;
    if first =? 0 then mret None
    else _ ← upd_job first (copy_desc (sb_desc sb)); mret (Some (first, first)).

(** The counters of chained and render-only control lists. *)
Definition note_cl (op : submit_op) (sb : submission) (c : counters) : counters :=
  match op with
  | V3DA_OP_SUBMIT_CL =>
      let c := if bcl_end (sb_desc sb) <? bcl_start (sb_desc sb) then put_cl_bcl_wrap (u32 (cl_bcl_wrap c + 1)) c else c in
      if sb_bin sb then c else put_cl_render_only (u32 (cl_render_only c + 1)) c
  | _ => c
  end.

(** Implicit synchronisation with the other users of the buffers. *)
Definition add_implicit (c first : Z) (handles : list Z) : M unit :=
  when (bool_decide (handles <> [])) (
    j ← job_at first;
    b ← get bo;
    let '(dropped, dep) := v3da_bo_implicit_deps b (c_slot (client_at (base b) c)) handles (v_dep j) V3DA_SUBMIT_MAX_SEMS in
    _ ← upd_job first (put_v_dep dep);
    let added := zlen dep - zlen (v_dep j) in
    modify (on_ct (fun k =>
      let k := if 0 <? added then put_g6_implicit_deps (u32 (g6_implicit_deps k + added)) (put_g6_implicit (u32 (g6_implicit k + 1)) k) else k in
      if negb (dropped =? 0) then put_g6_dropped (u32 (g6_dropped k + dropped)) k else k))).

Definition set_out (c : Z) (f : fence) (x : sem) : M unit :=
  upd_fences (fun b => upd_sync b c (sem_handle x) (fun o => mk_sync (so_used o) V3DA_SYNC_FENCE f)).

Definition dep_of (c first last : Z) (x : sem) : M unit :=
  cl ← get (fun s => client_at (fences s) c);
  match v3da_syncobj_get cl (sem_handle x) with
  | Some o => add_dep (if has (sem_flags x) V3DA_SEM_RENDER then last else first) o
  | None => crash
  end.

Definition v3da_submit (c : Z) (op : submit_op) (h : submit_hdr) (data : option (list Z)) (p1 p2 : Z) (malloc : bool)
  : M (cres (fence * fence)) :=
  now ← v3da_now_us;
  cl ← get (fun s => client_at (fences s) c);
  match check_submit cl op h data with
  | Err e => submit_reject e
  | Ok sb =>
      pinned ← lift (fun s => let '(r, b) := v3da_bo_pin_for_job (bo s) (sb_bos sb) in Some (on_bo (fun _ => b) s, r));
      match pinned with
      | Err e => submit_reject e
      | Ok _ =>
          _ ← modify (on_ct (note_cl op sb));
          made ← make_jobs c op sb now p1 p2;
          match made with
          | None => _ ← unpin (sb_bos sb); mret (Err ENOMEM)
          | Some (first, last) =>
              if negb malloc && bool_decide (sb_bos sb <> []) then
                _ ← when (negb (first =? last)) (free_job first); _ ← free_job last; _ ← unpin (sb_bos sb); mret (Err ENOMEM)
              else
                _ ← upd_job last (put_v_bos (sb_bos sb));
                _ ← each (dep_of c first last) (sb_in sb);
                _ ← add_implicit c first (sb_bos sb);
                _ ← take_seqno c first;
                _ ← when (negb (last =? first)) (take_seqno c last);
                l ← job_at last;
                _ ← modify (on_bo (fun b => v3da_bo_mark_use b (sb_bos sb) (v_fence l) (v_gseq l)));
                _ ← each (set_out c (v_fence l)) (sb_out sb);
                f ← job_at first;
                slot ← get (fun s => c_slot (client_at (fences s) c));
                _ ← fifo_push (v_queue f) slot first;
                _ ← when (negb (last =? first)) (fifo_push (v_queue l) slot last);
                _ ← v3da_sched_run;
                _ ← upd_fences v3da_kick_event_thread;
                mret (Ok (v_fence f, v_fence l))
          end
      end
  end.

(** A job of the CPU queue is queued. *)
Definition push_cpu (c p : Z) : M fence :=
  j ← job_at p;
  slot ← get (fun s => c_slot (client_at (fences s) c));
  _ ← fifo_push Q_CPU slot p;
  _ ← v3da_sched_run;
  _ ← upd_fences v3da_kick_event_thread;
  mret (v_fence j).

Definition v3da_submit_nop (c delay_us p : Z) : M (cres fence) :=
  if 10000000 <? delay_us then mret (Err EINVAL)
  else
    now ← v3da_now_us;
    p ← job_new c Q_CPU now p;
    if p =? 0 then mret (Err ENOMEM)
    else
      _ ← upd_job p (put_v_delay delay_us);
      _ ← take_seqno c p;
      f ← push_cpu c p;
      mret (Ok f).

(** The dependencies of an attached fence: it and the pending last uses of the buffers; whether the set is full. *)
Definition pending_use (s : bsrv) (f : fence) : bool := negb (f_seqno f =? 0) && negb (v3da_fence_signaled (base s) f).1.
Definition attach_deps (s : bsrv) (f : fence) (targets : list nat) : Z * list fence :=
  foldl (fun acc g => let '(full, dep) := acc in let '(r, dep) := v3da_fence_set_add dep V3DA_SUBMIT_MAX_SEMS g in (Z.lor full r, dep))
    (0, []) (f :: filter (fun g => pending_use s g = true) (t ← targets; map fst (b_last (bo_at s t)))).

(** The answer is [no_fence] when there is nothing to wait for. *)
Definition v3da_bo_attach_fence (c : Z) (rq : sync_req) (f : fence) (p : Z) : M (cres fence) :=
  b ← get bo;
  if negb (f_seqno f =? 0) && negb (v3da_fence_valid (base b) f) then mret (Err EINVAL)
  else
    match v3da_bo_sync_targets b (c_id (client_at (base b) c)) rq V3DA_MAX_CLIENTS with
    | Err e => mret (Err e)
    | Ok [] => mret (Err ENOENT)
    | Ok targets =>
        if (f_seqno f =? 0) || (v3da_fence_signaled (base b) f).1 then mret (Ok no_fence)
        else
          let '(full, dep) := attach_deps b f targets in
          if negb (full =? 0) then
            _ ← modify (on_ct (fun k => put_g6_attach_busy (u32 (g6_attach_busy k + 1)) k)); mret (Err (EOTHER 16))
          else
            now ← v3da_now_us;
            p ← job_new c Q_CPU now p;
            if p =? 0 then mret (Err ENOMEM)
            else
              _ ← upd_job p (fun j => put_v_dep dep (put_v_join true j));
              _ ← take_seqno c p;
              j ← job_at p;
              _ ← modify (on_bo (fun b => v3da_bo_mark_use b (map (fun t => b_handle (bo_at b t)) targets) (v_fence j) (v_gseq j)));
              _ ← modify (on_ct (fun k => put_g6_attach (u32 (g6_attach k + 1)) k));
              f ← push_cpu c p;
              mret (Ok f)
    end.

Fixpoint count_list (s : jsrv) (fuel : nat) (p n : Z) : option Z :=
  if p =? 0 then Some n
  else match fuel with O => None | S fuel => j ← jobs s !! p; count_list s fuel (v_next j) (u32 (n + 1)) end.
Definition v3da_jobs_inflight (s : jsrv) : option Z :=
  foldl (fun n q =>
    n ← n;
    let n := if q_active (queue_at s q) =? 0 then n else u32 (n + 1) in
    foldl (fun n slot => n ← n; count_list s (S (size (jobs s))) (arr_get (head (queue_at s q)) slot) n) (Some n) client_slots)
    (Some 0) queues.

(** ** A client goes *)

Fixpoint discard_loop (fuel : nat) (q slot : Z) : M unit :=
  match fuel with
  | O => crash
  | S fuel =>
      p ← fifo_pop q slot;
      if p =? 0 then mret tt else _ ← drop_pending q; _ ← job_discard p; discard_loop fuel q slot
  end.

Definition flush_row (slot q : Z) (b : srv) : srv :=
  let last := arr_get (next_seq (client_at b slot)) q in
  let b := set_slot_gen b (slot_gen b) (alter (fun l => arr_set l q last) (Z.to_nat slot) (dead_flush b)) in
  let in_flight := match active b !!! Z.to_nat q with Some j => f_slot (j_fence j) =? slot | None => false end in
  let r := slot_at b slot in
  if negb in_flight && (arr_get (completed r) q <? last) then
    set_fp b (<[Z.to_nat slot := mk_slot (arr_set (completed r) q last) (ERR_SEQ q last) (gen r)]> (slots b)) (hw_completed b)
  else b.

Definition v3da_jobs_client_gone (client : Z) : M unit :=
  let slot := client - 1 in
  n ← get (fun s => size (jobs s));
  _ ← each (fun q => discard_loop (S n) q slot) queues;
  _ ← each (fun q => upd_fences (flush_row slot q)) queues;
  v3da_sched_run.

(** [client_close] of [v3da_main.c]: the waits to answer. *)
Definition wait_fuel (s : jsrv) : nat := S (size (heap (fences s))).
Definition client_close (id : Z) : M Z :=
  cl ← get (fun s => client_get (fences s) id);
  match cl with
  | None => mret 0
  | Some c =>
      answer ← lift (fun s => '(b, a) ← v3da_waits_client_gone (wait_fuel s) (fences s) (c_id c) 0; Some (on_bo (on_base (fun _ => b)) s, a));
      _ ← v3da_jobs_client_gone (c_id c);
      _ ← modify (on_bo (fun b => v3da_bo_client_gone b (c_id c)));
      _ ← upd_fences (fun b => upd_client b (id - 1) (fun cl => mk_client false (c_id cl) (c_pid cl) (c_hello cl) (c_slot cl) (next_seq cl) (c_nparked cl) (sync cl)));
      _ ← upd_fences (fun b => set_clients b (clients b) (u32 (nclients b - 1)));
      mret answer
  end.

(** ** Events and the watchdog *)

Definition done_if_active (q : Z) (before : M unit) (error : bool) (now : Z) (stray : counters -> counters) : M unit :=
  a ← get (fun s => q_active (queue_at s q));
  if negb (a =? 0) then _ ← before; job_done a error now else modify (on_ct stray).

Definition post_render : M unit :=
  no_clean ← get (knob KNOB_NO_POST_CLEAN);
  _ ← when (negb no_clean) (_ ← v3da_hw_l2t_flush_wait; wr CORE CTL_L2TCACTL (L2TCACTL_L2TFLS ||| L2TCACTL_FLM_CLEAN));
  a ← get (fun s => q_active (queue_at s Q_RENDER));
  j ← job_at a;
  clean ← get (knob KNOB_CL_CACHE_CLEAN);
  when (has (cl_flags (v_desc j)) V3DA_CL_FLUSH_CACHE && clean) clean_caches.

Definition v3da_jobs_events (core hub now : Z) : M unit :=
  bin ← get (fun s => q_active (queue_at s Q_BIN));
  _ ← when (has core INT_OUTOMEM || negb (bin =? 0)) ovf_service;
  _ ← when (has core INT_FLDONE) (done_if_active Q_BIN (mret tt) false now (fun c => put_stray_fldone (u32 (stray_fldone c + 1)) c));
  _ ← when (has core INT_FRDONE) (done_if_active Q_RENDER post_render false now id);
  _ ← when (has core INT_CSDDONE) (done_if_active Q_CSD clean_caches false now id);
  when (has hub (HUB_INT_TFUC ||| HUB_INT_TFUF)) (
    done_if_active Q_TFU (_ ← clean_caches; wr CORE CTL_SLCACTL SLCACTL_INVAL_ALL) (has hub HUB_INT_TFUF) now
      (fun c => if has hub HUB_INT_TFUC then put_stray_tfuc (u32 (stray_tfuc c + 1)) c else c)).

(** The check of a job on the hardware. *)
Definition ack_qpu (p : Z) : M unit :=
  sts ← rd CORE CTL_INT_STS;
  when (has sts INT_QPU_MASK) (
    _ ← wr CORE CTL_INT_CLR (sts &&& INT_QPU_MASK); upd_job p (fun j => put_v_acks (u32 (v_acks j + 1)) j)).

Definition overdue (now : Z) (limit_ms : Z) (j : vjob) : bool :=
  (limit_ms * 1000 <=? u64 (now - v_progress j)) || (WD_HARD_CAP_US <=? u64 (now - v_kick j)).

Definition watch (q now : Z) : M unit :=
  p ← get (fun s => q_active (queue_at s q));
  if negb (is_hw_queue q) || (p =? 0) then mret tt
  else
    j ← job_at p;
    if now <? v_check j then mret tt
    else
      _ ← upd_job p (put_v_check (u64 (now + WD_TICK_US)));
      cr ← progress_sample q;
      let '(ca, ra) := cr in
      _ ← when (negb (ca =? v_ca j) || negb (ra =? v_ra j)) (upd_job p (fun j => put_v_ra ra (put_v_ca ca (put_v_progress now j))));
      _ ← when (q =? Q_RENDER) (ack_qpu p);
      starved ← get (fun s => (q =? Q_BIN) && (0 <? bin_waiting (ov s)));
      rendering ← get (fun s => negb (q_active (queue_at s Q_RENDER) =? 0));
      empty ← get (fun s => nfree (ov s) =? 0);
      if starved && negb rendering && empty then _ ← upd_job p (put_v_error true); wedge now
      else
        _ ← when (starved && rendering) (upd_job p (put_v_progress now));
        if (q =? Q_TFU) && negb (has ca TFU_CS_BUSY) && (2 * WD_TICK_US <=? u64 (now - v_kick j)) then
          _ ← clean_caches; _ ← wr CORE CTL_SLCACTL SLCACTL_INVAL_ALL; job_done p false now
        else
          j ← job_at p;
          ms ← get (fun s => wedge_ms (cf s));
          when (overdue now ms j) (_ ← upd_job p (put_v_error true); wedge now).

(** *** Flips *)

Definition pan (buf : Z) : M unit :=
  h ← get (fun s => height (pr s));
  rc ← lift (fun s => let '(rc, d) := dev_prop (dev s) VC_PROP_SET_VIRTUAL_OFFSET 0 (u32 (buf * h)) in Some (on_dev (fun _ => d) s, rc));
  _ ← when (negb (is_ok rc)) (modify (on_pr (fun p => put_pan_err (u32 (pan_err p + 1)) p)));
  modify (on_pr (fun p => put_flips (u32 (flips p + 1)) (put_shown buf p))).

Definition due (b : srv) (x : flip) : bool := negb (fl_gated x) || (v3da_fence_signaled b (fl_fence x)).1.

Fixpoint present_loop (l : list flip) : M unit :=
  match l with
  | [] => mret tt
  | x :: l => b ← get fences; if due b x then _ ← pan (fl_buf x); _ ← modify (on_pr (put_fq l)); present_loop l else mret tt
  end.
Definition present_run : M unit := l ← get (fun s => fq (pr s)); present_loop l.

(** Whether it is deferred, the number of queued flips and of flips. *)
Definition v3da_flip (buf flags : Z) (f : fence) : M (cres (bool * Z * Z)) :=
  n ← get (fun s => scan_nbuf (scan (bo s)));
  let gated := has flags V3DA_FLIP_AFTER_FENCE in
  if n =? 0 then mret (Err ENODEV)
  else
    let buf := if n <=? buf then n - 1 else buf in
    b ← get fences;
    if gated && negb (v3da_fence_valid b f) then mret (Err EINVAL)
    else
      q ← get (fun s => fq (pr s));
      if bool_decide (q = []) && due b (mk_flip buf gated f) then
        _ ← pan buf; p ← get pr; mret (Ok (false, zlen (fq p), flips p))
      else if V3DA_MAX_FLIPS <=? zlen q then mret (Err (EOTHER 16))
      else
        _ ← modify (on_pr (fun p => put_flips_deferred (u32 (flips_deferred p + 1)) (put_fq (q ++ [mk_flip buf gated f]) p)));
        _ ← upd_fences v3da_kick_event_thread;
        p ← get pr; mret (Ok (true, zlen (fq p), flips p)).

Definition stat_print (now : Z) : M unit :=
  s ← get id;
  if (stat_ms (cf s) =? 0) || (now <? stat_next_us (ct s)) then mret tt
  else
    _ ← modify (on_ct (put_stat_next_us (u64 (now + stat_ms (cf s) * 1000))));
    when (negb (stat_jobs_seen (ct s) =? 0)) (_ ← modify (on_ct (put_stat_jobs_seen 0)); acct now).

Definition v3da_jobs_tick (now : Z) : M unit :=
  p ← get (fun s => q_active (queue_at s Q_CPU));
  _ ← when (negb (p =? 0)) (
        j ← job_at p;
        when (v_done_at j <=? now) (
          _ ← job_done p false now;
          when (negb (v_join j)) (modify (on_ct (fun c => put_nops_done (u32 (nops_done c + 1)) c)))));
  _ ← each (fun q => watch q now) queues;
  again ← get (fun s => (0 <? bin_waiting (ov s)) && negb (q_active (queue_at s Q_BIN) =? 0));
  _ ← when again ovf_service;
  _ ← present_run;
  stat_print now.

Definition v3da_jobs_next_deadline (s : jsrv) (now : Z) : option Z :=
  let p := q_active (queue_at s Q_CPU) in
  if p =? 0 then Some UINT64_MAX
  else j ← jobs s !! p; Some (if now <? v_done_at j then v_done_at j - now else 1).

(** ** Modes and statistics *)

Record mode_req := mk_mode { mq_set : Z; mq_mode : Z; mq_knobs : Z }.
(** The mode and the knobs in force. *)
Definition v3da_set_mode (rq : mode_req) : M (cres (Z * Z)) :=
  if has (mq_set rq) V3DA_SET_MODE && negb (mq_mode rq =? V3DA_MODE_SERIAL) && negb (mq_mode rq =? V3DA_MODE_PIPELINE)
  then mret (Err EINVAL)
  else
    _ ← when (has (mq_set rq) V3DA_SET_MODE) (modify (on_cf (put_mode (mq_mode rq))));
    if has (mq_set rq) V3DA_SET_KNOBS && has (mq_knobs rq) (lnot_w 32 V3DA_KNOB_ALL) then mret (Err EINVAL)
    else
      _ ← when (has (mq_set rq) V3DA_SET_KNOBS) (modify (on_cf (put_knobs (mq_knobs rq))));
      _ ← when (negb (mq_set rq =? 0)) v3da_sched_run;
      c ← get cf;
      mret (Ok (mode c, knobs c)).

Definition clear_stats (q : queue) : queue := mk_queue (head q) (tail q) (q_active q) (rr q) (pending q) 0 0 0 0 0 0.
Definition qstats_reset (now : Z) : M unit :=
  _ ← each (fun q => upd_queue q clear_stats) queues;
  _ ← acct now;
  modify (on_ct (fun c => put_acct_t0_us now (put_overlap_us 0 (put_any_busy_us 0 c)))).

(** The answer is what [clear_stats] would clear, read from the state. *)
Definition V3DA_QSTATS_GLOBAL : Z := 0xff.
Definition v3da_qstats (which reset : Z) : M (cres jsrv) :=
  now ← v3da_now_us;
  _ ← acct now;
  s ← get id;
  if negb (which =? V3DA_QSTATS_GLOBAL) && (V3DA_Q_COUNT <=? which) then mret (Err EINVAL)
  else _ ← when (negb (reset =? 0)) (qstats_reset now); mret (Ok s).

(** ** The event thread ([v3da_sched.c]) *)

(** A round of [v3da_event_thread] after its wait: the waits to answer. *)
Definition event_round : M Z :=
  _ ← upd_fences (fun b => mk_srv (slots b) (hw_completed b) (slot_gen b) (dead_flush b) (active b) (clients b) (nclients b) (heap b)
                              (waits b) (nparked b) (parked_max b) (timeouts b) false (port b) (rx_port b));
  now ← v3da_now_us;
  _ ← modify (on_ct (fun c => put_loops (u32 (loops c + 1)) c));
  _ ← store (fun w => put_irq_count_snap (irq_count w) w);
  _ ← store (put_irq_spurious 0);
  w ← atomic (fun w => (w, w));
  _ ← when (negb (storm w =? 0) && irq_on w) (
        _ ← v3da_hw_irq_disable; modify (on_cf (fun c => put_fp_flags ((fp_flags c &&& lnot_w 32 V3DA_FP_IRQ) ||| V3DA_FP_STORM) c)));
  poll ← get (fun s => negb (irq_on (wd s)) && v3da_jobs_hw_busy s);
  _ ← when poll v3da_hw_poll_status;
  core ← atomic (fun w => (ev_core w, put_ev_core 0 w));
  hub ← atomic (fun w => (ev_hub w, put_ev_hub 0 w));
  _ ← v3da_jobs_events core hub now;
  _ ← v3da_jobs_tick now;
  _ ← modify (on_bo v3da_bo_quarantine_poll);
  _ ← modify (on_bo (fun b => v3da_bo_pool_tick b now false));
  _ ← v3da_sched_run;
  lift (fun s => '(b, a) ← waits_scan (wait_fuel s) (fences s) now 0; Some (on_bo (on_base (fun _ => b)) s, a)).

End Jobs.
End V3daJobs.
