(* ===== verification/V3daGpuFrame.v ===== *)
(** * Sequences of the V3D server, and what register sequences leave alone

    [wp] is the weakest precondition of a sequence of steps: it is defined, and its result
    satisfies the postcondition. A register sequence ([HwOnly]), whatever the device answers and
    however often the handler runs within it, changes the device and its words only, and keeps
    track of the overflow chunk that is armed for the handler. *)

From S2P Require Import Prelude V3daSched V3daPool V3daBo V3daGpu.

Module V3daGpuFrame.
Import V3da V3daPool V3daBo V3daGpu.

(** The sequences are known to the search for instances by their names. *)
#[global] Typeclasses Opaque get modify lift when each job_at upd_job upd_queue upd_fences set_active interrupts rd wr atomic store
  spin v3da_hw_drain v3da_hw_poll_status v3da_hw_l2t_flush_wait hw_mmu_flush idle_axi apply_core_regs v3da_hw_reset v3da_hw_irq_disable.

Section frame.
Context `{K : Kernel} `{D : Device}.
Implicit Types s : jsrv.

Definition wp {A} (m : M A) (s : jsrv) (Q : jsrv -> A -> Prop) : Prop := exists s' a, m s = Some (s', a) /\ Q s' a.

Lemma wp_ret {A} (a : A) s (Q : jsrv -> A -> Prop) : Q s a -> wp (mret a) s Q.
Proof. intros H. by exists s, a. Qed.

Lemma wp_bind {A B} (m : M A) (k : A -> M B) s Q : wp m s (fun s' a => wp (k a) s' Q) -> wp (mbind k m) s Q.
Proof. intros (s1 & a & E & s2 & b & E2 & HQ). exists s2, b. split; [|done]. unfold mbind, M_bind. by rewrite E. Qed.

(** The first two steps together. *)
Lemma wp_bind2 {A B C} (m : M A) (k : A -> M B) (h : B -> M C) s Q : wp (mbind k m) s (fun s' b => wp (h b) s' Q) -> wp (mbind (fun a => mbind h (k a)) m) s Q.
Proof. intros H. apply wp_bind in H as (s' & c & E & HQ). exists s', c. split; [|done]. revert E. unfold mbind, M_bind. by destruct (m s) as [[s1 a]|]. Qed.

Lemma wp_bind3 {A B C E} (m : M A) (k : A -> M B) (g : A -> B -> M C) (h : C -> M E) s Q :
  wp (mbind (fun a => mbind (g a) (k a)) m) s (fun s' c => wp (h c) s' Q) -> wp (mbind (fun a => mbind (fun b => mbind h (g a b)) (k a)) m) s Q.
Proof.
  intros H. apply wp_bind in H as (s' & e & Ee & HQ). exists s', e. split; [|done]. revert Ee. unfold mbind, M_bind. destruct (m s) as [[s1 a]|]; [|done]. by destruct (k a s1) as [[s2 b]|].
Qed.

Lemma wp_mono {A} (m : M A) s (Q Q' : jsrv -> A -> Prop) : wp m s Q -> (forall s' a, Q s' a -> Q' s' a) -> wp m s Q'.
Proof. intros (s' & a & E & HQ) H. exists s', a. auto. Qed.

Lemma wp_get {A} (f : jsrv -> A) s (Q : jsrv -> A -> Prop) : Q s (f s) -> wp (get f) s Q.
Proof. intros H. by exists s, (f s). Qed.

Lemma wp_modify (f : jsrv -> jsrv) s (Q : jsrv -> unit -> Prop) : Q (f s) tt -> wp (modify f) s Q.
Proof. intros H. by exists (f s), tt. Qed.

Lemma wp_when b (m : M unit) s Q : (b = true -> wp m s Q) -> (b = false -> Q s tt) -> wp (when b m) s Q.
Proof. destruct b; cbn; intros H1 H2; [auto|by apply wp_ret, H2]. Qed.

Lemma wp_job_at p j s (Q : jsrv -> vjob -> Prop) : jobs s !! p = Some j -> Q s j -> wp (job_at p) s Q.
Proof. intros E H. exists s, j. unfold job_at. by rewrite E. Qed.

Lemma wp_upd_job p f j s (Q : jsrv -> unit -> Prop) : jobs s !! p = Some j -> Q (on_jobs (fun _ => <[p := f j]> (jobs s)) s) tt -> wp (upd_job p f) s Q.
Proof. intros E H. eexists _, tt. unfold upd_job. by rewrite E. Qed.

Lemma wp_each {A} (f : A -> M unit) (I : jsrv -> Prop) l s : I s -> (forall x s, x ∈ l -> I s -> wp (f x) s (fun s' _ => I s')) -> wp (each f l) s (fun s' _ => I s').
Proof.
  revert s. induction l as [|x l IH]; intros s Hs Hf; cbn [each]; [by apply wp_ret|]. apply wp_bind.
  eapply wp_mono; [apply Hf; [by left|done]|]. intros s' [] Hs'. apply IH; [done|]. intros y s'' Hy. apply Hf. by right.
Qed.

Lemma wp_inv {A} (m : M A) s s' a (Q : jsrv -> A -> Prop) : wp m s Q -> m s = Some (s', a) -> Q s' a.
Proof. intros (s1 & a1 & E & H) E'. rewrite E in E'. by injection E' as <- <-. Qed.

(** ** The armed chunk *)

(** At most one of the two words names a chunk. *)
Definition one_chunk (w : words) : Prop := ovf_stage_va w = 0 \/ ovf_consumed w = 0.
(** The chunk that is armed, or handed out and not yet accounted for. *)
Definition token (w : words) : Z := if ovf_consumed w =? 0 then ovf_stage_va w else ovf_consumed w.
(** The handler hands the armed chunk out and arms none. *)
Definition same_token (w w' : words) : Prop :=
  (one_chunk w -> one_chunk w' /\ token w' = token w) /\ (ovf_stage_va w = 0 -> ovf_stage_va w' = 0).

#[local] Instance same_token_refl : Reflexive same_token.
Proof. by intros w. Qed.
#[local] Instance same_token_trans : Transitive same_token.
Proof. intros a b c [H1 Z1] [H2 Z2]. split; [|by auto]. intros Ha. destruct (H1 Ha) as [Hb <-]. by apply H2. Qed.

Lemma service_token d w : same_token w (hw_service d w).1.1.2.
Proof.
  unfold hw_service. destruct (dev_read d CORE CTL_INT_STS) as [core d1], (dev_read d1 HUB HUB_INT_STS) as [hub d2].
  set (d3 := if negb (core =? 0) then _ else _).
  destruct (if negb (hub =? 0) then _ else _) as [d4 w1] eqn:E1.
  assert (H1 : ovf_stage_va w1 = ovf_stage_va w /\ ovf_consumed w1 = ovf_consumed w).
  { destruct (hub =? 0); cbn in E1; [by injection E1 as <- <-|]. destruct (has hub HUB_INT_MMU_ANY); [destruct (dev_read d3 HUB MMU_CTL) as [ctl d5]|]; injection E1 as <- <-; done. }
  destruct (if has core INT_OUTOMEM then _ else _) as [d5 w2] eqn:E2.
  assert (H2 : same_token w w2).
  { destruct H1 as [Hs Hc]. unfold same_token, one_chunk, token. rewrite <- Hs, <- Hc. destruct (has core INT_OUTOMEM); [|by injection E2 as <- <-].
    destruct (ovf_stage_va w1 =? 0) eqn:Ez; cbn in E2; injection E2 as <- <-; cbn; apply Z.eqb_eq in Ez || apply Z.eqb_neq in Ez; (split; [|done]); intros [?|E]; try done.
    - by rewrite Ez in *; split; [left|].
    - rewrite Ez. split; [by left|done].
    - rewrite E. cbn. rewrite (proj2 (Z.eqb_neq _ _) Ez). split; [by left|done]. }
  cbn. destruct (core =? 0), (hub =? 0); cbn; apply H2.
Qed.

Lemma handler_token dw : same_token dw.2 (v3da_irq_handler dw).2.
Proof.
  destruct dw as [d w]. unfold v3da_irq_handler. set (w0 := put_irq_count _ w).
  pose proof (service_token d w0) as H. destruct (hw_service d w0) as [[[d1 w1] core] hub]. cbn in H.
  assert (H0 : same_token w w1) by exact H. cbn. clearbody w0. clear H.
  destruct ((core ||| hub) =? 0); cbn; repeat case_if; cbn; apply H0.
Qed.

Lemma iter_token n dw : same_token dw.2 (Nat.iter n v3da_irq_handler dw).2.
Proof. induction n as [|n IH]; [done|]. cbn [Nat.iter nat_rect]. etransitivity; [apply IH|apply handler_token]. Qed.

(** ** Frames *)

Definition frame s s' : Prop := exists d w i h, s' = mk_js (set_hw (bo s) h) d w i (jobs s) (qs s) (ov s) (ct s) (cf s) (pr s).
Definition quiet s s' : Prop := frame s s' /\ same_token (wd s) (wd s').

#[global] Instance frame_refl : Reflexive frame.
Proof. intros s. exists (dev s), (wd s), (irqs s), (hwst (bo s)). destruct s as [b]. by destruct b. Qed.
#[global] Instance frame_trans : Transitive frame.
Proof. intros a b c (d & w & i & h & ->) (d' & w' & i' & h' & ->). by exists d', w', i', h'. Qed.
#[global] Instance quiet_refl : Reflexive quiet.
Proof. by intros s. Qed.
#[global] Instance quiet_trans : Transitive quiet.
Proof. intros a b c [H1 T1] [H2 T2]. split; [by etransitivity|by etransitivity]. Qed.

Class HwOnly {A} (m : M A) : Prop := hw_only s : wp m s (fun s' _ => quiet s s').

Lemma wp_hw {A} (m : M A) s (Q : jsrv -> A -> Prop) : HwOnly m -> (forall s' a, quiet s s' -> Q s' a) -> wp m s Q.
Proof. intros H HQ. eapply wp_mono; [apply H|]. auto. Qed.

#[global] Instance hw_ret {A} (a : A) : HwOnly (mret a).
Proof. intros s. by apply wp_ret. Qed.
#[global] Instance hw_get {A} (f : jsrv -> A) : HwOnly (get f).
Proof. intros s. by apply wp_get. Qed.
#[global] Instance hw_bind {A B} (m : M A) (k : A -> M B) : HwOnly m -> (forall a, HwOnly (k a)) -> HwOnly (mbind k m).
Proof.
  intros Hm Hk s. apply wp_bind. apply wp_hw; [done|]. intros s1 a H1. apply wp_hw; [apply Hk|]. intros s2 b H2. by etransitivity.
Qed.
#[global] Instance hw_when b (m : M unit) : HwOnly m -> HwOnly (when b m).
Proof. intros H. destruct b; [done|apply hw_ret]. Qed.
#[global] Instance hw_if {A} (b : bool) (m n : M A) : HwOnly m -> HwOnly n -> HwOnly (if b then m else n).
Proof. by destruct b. Qed.
#[global] Instance hw_each {A} (f : A -> M unit) l : (forall x, HwOnly (f x)) -> HwOnly (each f l).
Proof. intros H. induction l; cbn [each]; apply _. Qed.

#[global] Instance hw_interrupts : HwOnly interrupts.
Proof.
  intros s. apply wp_modify. destruct (irqs s) as [|n l] eqn:Ei; [done|]. cbn [wd on_irqs irqs].
  destruct (irq_on (wd s)); [|by split; [exists (dev s), (wd s), l, (hwst (bo s)); destruct s as [b]; by destruct b|]].
  pose proof (iter_token n (dev s, wd s)) as H. cbn [dev on_irqs]. destruct (Nat.iter n v3da_irq_handler (dev s, wd s)) as [d w]. cbn in H.
  split; [exists d, w, l, (hwst (bo s)); destruct s as [b]; by destruct b|done].
Qed.

#[global] Instance hw_rd b r : HwOnly (rd b r).
Proof.
  apply hw_bind; [apply _|]. intros _ s. unfold lift, wp. destruct (dev_read (dev s) b r) as [x d]. eexists _, x. split; [done|].
  split; [|done]. exists d, (wd s), (irqs s), (hwst (bo s)). destruct s as [e]. by destruct e.
Qed.
#[global] Instance hw_wr b r x : HwOnly (wr b r x).
Proof.
  apply hw_bind; [apply _|]. intros _ s. apply wp_modify. split; [|done]. exists (dev_write (dev s) b r x), (wd s), (irqs s), (hwst (bo s)). destruct s as [e]. by destruct e.
Qed.

(** An access to the shared words. *)
Lemma wp_atomic {A} (f : words -> A * words) s (Q : jsrv -> A -> Prop) :
  (forall s', quiet s s' -> Q (on_wd (fun _ => (f (wd s')).2) s') (f (wd s')).1) -> wp (atomic f) s Q.
Proof.
  intros H. apply wp_bind. apply wp_hw; [apply _|]. intros s' [] Hs. specialize (H s' Hs). unfold lift, wp.
  destruct (f (wd s')) as [a w]. by eexists _, _.
Qed.

Lemma frame_words s w : frame s (on_wd (fun _ => w) s).
Proof. exists (dev s), w, (irqs s), (hwst (bo s)). destruct s as [e]. by destruct e. Qed.

Lemma hw_atomic {A} (f : words -> A * words) : (forall w, same_token w (f w).2) -> HwOnly (atomic f).
Proof. intros H s. apply wp_atomic. intros s' [Hf Ht]. split; [etransitivity; [exact Hf|apply frame_words]|]. etransitivity; [exact Ht|apply H]. Qed.
Lemma hw_store f : (forall w, same_token w (f w)) -> HwOnly (store f).
Proof. intros H. by apply hw_atomic. Qed.

#[global] Instance hw_spin n b r m : HwOnly (spin n b r m).
Proof. induction n as [|n IH]; cbn [spin]; apply _. Qed.
End frame.

#[global] Arguments spin : simpl never.
#[global] Opaque SPINS CSD_SPINS.
#[global] Hint Extern 2 (HwOnly (store _)) => (apply hw_store; intros w; exact (conj (fun H => conj H eq_refl) (fun H => H))) : typeclass_instances.
#[global] Hint Extern 2 (HwOnly (atomic _)) => (apply hw_atomic; intros w; exact (conj (fun H => conj H eq_refl) (fun H => H))) : typeclass_instances.

Section sequences.
Context `{K : Kernel} `{D : Device}.

#[global] Instance hw_drain : HwOnly v3da_hw_drain.
Proof. unfold v3da_hw_drain. apply _. Qed.
#[global] Instance hw_poll : HwOnly v3da_hw_poll_status.
Proof.
  intros s. apply wp_modify. pose proof (service_token (dev s) (wd s)) as H. destruct (hw_service (dev s) (wd s)) as [[[d w] core] hub].
  split; [|done]. exists d, w, (irqs s), (hwst (bo s)). destruct s as [e]. by destruct e.
Qed.
#[global] Instance hw_flush_wait : HwOnly v3da_hw_l2t_flush_wait.
Proof. unfold v3da_hw_l2t_flush_wait. apply _. Qed.

#[global] Instance hw_on_hw f : HwOnly (modify (on_bo (fun b => set_hw b (f b)))).
Proof. intros s. apply wp_modify. split; [|done]. exists (dev s), (wd s), (irqs s), (f (bo s)). by destruct s. Qed.
#[global] Instance hw_on_dev f : HwOnly (modify (on_dev f)).
Proof. intros s. apply wp_modify. split; [|done]. exists (f (dev s)), (wd s), (irqs s), (hwst (bo s)). destruct s as [e]. by destruct e. Qed.

#[global] Instance hw_flush : HwOnly hw_mmu_flush.
Proof. unfold hw_mmu_flush. apply _. Qed.
#[global] Instance hw_idle : HwOnly idle_axi.
Proof. unfold idle_axi. apply _. Qed.
#[global] Instance hw_core_regs : HwOnly apply_core_regs.
Proof. unfold apply_core_regs. apply _. Qed.
#[global] Instance hw_irq_disable : HwOnly v3da_hw_irq_disable.
Proof. unfold v3da_hw_irq_disable. apply _. Qed.

(** Steps of a register sequence, one after the other. *)
Lemma wp_frame {A B} (m : M A) (k : A -> M B) t s Q : frame t s -> HwOnly m ->
  (forall s' a, frame t s' -> same_token (wd s) (wd s') -> wp (k a) s' Q) -> wp (mbind k m) s Q.
Proof. intros F H HQ. apply wp_bind, wp_hw; [done|]. intros s' a [F' T]. apply HQ; [by etransitivity|done]. Qed.
Lemma wp_frame_store {B} f (k : () -> M B) t s Q : frame t s ->
  (forall s', frame t s' -> same_token (wd s) (wd s') -> wp (k ()) (on_wd (fun _ => f (wd s')) s') Q) -> wp (mbind k (store f)) s Q.
Proof. intros F HQ. apply wp_bind, wp_atomic. intros s' [F' T]. apply HQ; [by etransitivity|done]. Qed.

(** The reset disarms the handler. *)
Lemma reset_spec s : wp v3da_hw_reset s (fun s' _ => frame s s' /\ one_chunk (wd s') /\ token (wd s') = 0).
Proof.
  unfold v3da_hw_reset. enough (H : forall t, frame s t -> wp v3da_hw_reset t (fun s' _ => frame s s' /\ one_chunk (wd s') /\ token (wd s') = 0)) by by apply H.
  intros t F. unfold v3da_hw_reset. do 10 (eapply wp_frame; [exact F|apply _|]; intros t' [] F' _; clear t F; rename t' into t, F' into F).
  eapply wp_frame_store; [exact F|]. intros t' F' _. clear t F. rename t' into t, F' into F. set (t1 := on_wd _ t).
  assert (F1 : frame s t1) by (etransitivity; [exact F|apply frame_words]). assert (Z1 : ovf_stage_va (wd t1) = 0) by done. clearbody t1. clear t F.
  eapply wp_frame; [exact F1|apply _|]. intros t2 [] F2 [_ Z2]. specialize (Z2 Z1). clear t1 F1 Z1.
  eapply wp_frame_store; [exact F2|]. intros t3 F3 [_ Z3]. specialize (Z3 Z2). clear t2 F2 Z2. set (t4 := on_wd _ t3).
  assert (F4 : frame s t4) by (etransitivity; [exact F3|apply frame_words]). assert (O4 : one_chunk (wd t4) /\ token (wd t4) = 0) by (split; [by right|done]). clearbody t4. clear t3 F3 Z3.
  apply wp_hw; [apply _|]. intros s' a [F' [T _]]. destruct O4 as [O4 E4]. destruct (T O4) as [? ->]. split; [by etransitivity|done].
Qed.
End sequences.
End V3daGpuFrame.
