(* ===== verification/V3daChunks.v ===== *)
(** * Overflow chunks of the V3D render server

    Every chunk of the pool has exactly one owner: the free list, the handler for which it
    is armed, or a job; the lists are threaded through one array. Each operation moves the first
    chunk of an owner to another one. *)

From S2P Require Import Prelude V3daSched V3daPool V3daBo V3daGpu V3daGpuFrame V3daJobs.

Module V3daChunks.
Import V3da V3daPool V3daBo V3daGpu V3daGpuFrame V3daJobs.

(** ** Lists in an array *)

Inductive owner := Free | Staged | Hand | Of (p : Z).
#[global] Instance owner_eq_dec : EqDecision owner.
Proof. solve_decision. Defined.

Fixpoint chain (nx : list Z) (h : Z) (l : list Z) : Prop :=
  match l with [] => h = -1 | i :: l => h = i /\ 0 <= i < zlen nx /\ chain nx (arr_get nx i) l end.

Record owned (nx : list Z) (n : Z) (hd : owner -> Z) (L : owner -> list Z) : Prop := {
  ow_chain o : chain nx (hd o) (L o);
  ow_nodup o : NoDup (L o);
  ow_disj o o' i : i ∈ L o -> i ∈ L o' -> o = o';
  ow_all i : 0 <= i < n <-> exists o, i ∈ L o
}.

Definition upd {A} (f : owner -> A) (o : owner) (x : A) : owner -> A := fun o' => if decide (o' = o) then x else f o'.

Lemma upd_eq {A} (f : owner -> A) o x : upd f o x o = x.
Proof. unfold upd. by rewrite decide_True. Qed.
Lemma upd_ne {A} (f : owner -> A) o o' x : o' <> o -> upd f o x o' = f o'.
Proof. intros. unfold upd. by rewrite decide_False. Qed.

Lemma chain_set nx h l i x : i ∉ l -> 0 <= i -> chain nx h l -> chain (arr_set nx i x) h l.
Proof.
  revert h. induction l as [|k l IH]; intros h Hi Hp; cbn [chain]; [done|]. intros (-> & Hk & Hc). apply not_elem_of_cons in Hi as [Hne Hi].
  split_and!; [done|lia|unfold zlen; rewrite length_arr_set; unfold zlen in Hk; lia|]. rewrite arr_get_set_ne by lia. by apply IH.
Qed.

Lemma chain_head nx h l : chain nx h l -> (h = -1 /\ l = []) \/ (0 <= h < zlen nx /\ exists l', l = h :: l' /\ chain nx (arr_get nx h) l').
Proof. destruct l as [|i l]; cbn; [by left|]. intros (-> & Hi & Hc). right. split; [done|]. by exists l. Qed.

(** The first chunk of [a] becomes the first chunk of [b]. *)
Lemma owned_move nx n hd L a b i l : owned nx n hd L -> a <> b -> L a = i :: l ->
  owned (arr_set nx i (hd b)) n (upd (upd hd a (arr_get nx i)) b i) (upd (upd L a l) b (i :: L b)).
Proof.
  intros [H1 H2 H3 H4] Hab Ha. pose proof (H1 a) as Ca. rewrite Ha in Ca. destruct Ca as (_ & Hi & Ca).
  pose proof (H2 a) as Na. rewrite Ha in Na. apply NoDup_cons in Na as [Nil Nl].
  assert (Hia : i ∈ L a) by (rewrite Ha; by left).
  assert (Hno : forall o, o <> a -> i ∉ L o) by (intros o Ho Hin; apply Ho; by eapply H3).
  assert (Hmem : forall o k, k ∈ upd (upd L a l) b (i :: L b) o -> if decide (k = i) then o = b else k ∈ L o).
  { intros o k Hk. destruct (decide (o = b)) as [->|Hob]; [rewrite upd_eq in Hk|rewrite upd_ne in Hk by done].
    - apply elem_of_cons in Hk as [->|Hk]; [by rewrite decide_True|]. case_decide; [done|done].
    - destruct (decide (o = a)) as [->|Hoa]; [rewrite upd_eq in Hk|rewrite upd_ne in Hk by done].
      + case_decide as E; [by subst|]. rewrite Ha. by right.
      + case_decide as E; [|done]. subst. by destruct (Hno o). }
  split.
  - intros o. destruct (decide (o = b)) as [->|Hob]; [rewrite !upd_eq|rewrite !(upd_ne _ b) by done].
    + cbn. split_and!; [done|lia|unfold zlen; rewrite length_arr_set; unfold zlen in Hi; lia|]. rewrite arr_get_set_eq by lia. apply chain_set; [by apply Hno|lia|done].
    + destruct (decide (o = a)) as [->|Hoa]; [rewrite !upd_eq|rewrite !upd_ne by done]; (apply chain_set; [|lia|done]); [done|by apply Hno].
  - intros o. destruct (decide (o = b)) as [->|Hob]; [rewrite !upd_eq|rewrite !(upd_ne _ b) by done].
    + apply NoDup_cons. split; [by apply Hno|done].
    + destruct (decide (o = a)) as [->|Hoa]; [by rewrite !upd_eq|by rewrite !upd_ne].
  - intros o o' k Hk Hk'. specialize (Hmem o k Hk) as M1. specialize (Hmem o' k Hk') as M2. case_decide; [congruence|by eapply H3].
  - intros k. rewrite H4. split.
    + intros [o Ho]. destruct (decide (k = i)) as [->|Hk]; [exists b; rewrite upd_eq; by left|]. exists o.
      destruct (decide (o = b)) as [->|Hob]; [rewrite upd_eq; by right|rewrite upd_ne by done].
      destruct (decide (o = a)) as [->|Hoa]; [|by rewrite upd_ne]. rewrite upd_eq. rewrite Ha in Ho. by apply elem_of_cons in Ho as [|].
    + intros [o Ho]. specialize (Hmem o k Ho). case_decide as E; [subst k; by exists a|by exists o].
Qed.

(** Another representation of the same lists. *)
Lemma owned_eq nx n hd L hd' L' : owned nx n hd L -> (forall o, hd' o = hd o) -> (forall o, L' o = L o) -> owned nx n hd' L'.
Proof.
  intros [H1 H2 H3 H4] Hh HL. split.
  - intros o. by rewrite Hh, HL.
  - intros o. by rewrite HL.
  - intros o o' i. rewrite !HL. apply H3.
  - intros i. rewrite H4. split; intros [o Ho]; exists o; [by rewrite HL|by rewrite <- HL].
Qed.
Lemma owned_length nx n hd L o : owned nx n hd L -> 0 <= n -> zlen (L o) <= n.
Proof.
  intros [_ H2 _ H4] Hn. unfold zlen. rewrite <- (Z2Nat.id n) by done. apply inj_le. rewrite <- (length_seqZ 0 n).
  apply submseteq_length, NoDup_submseteq; [apply H2|]. intros i Hi. apply elem_of_seqZ. assert (0 <= i < n) by (apply H4; by exists o). lia.
Qed.

Section chunks.
Context `{K : Kernel} `{D : Device}.
Implicit Types s : jsrv.

(** ** What the operations on chunks leave alone *)

Definition strip (j : vjob) : vjob := put_v_ovf 0 j.
Definition qview (u : queue) : list Z * list Z * Z * bool := (head u, tail u, q_active u, bool_decide (0 <= rr u <= 60)).
Definition same_pool (o o' : ovf_t) : Prop := o_gpuva o' = o_gpuva o /\ chunk_bytes o' = chunk_bytes o /\ nchunks o' = nchunks o.

Definition calm s s' : Prop :=
  (exists h, bo s' = set_hw (bo s) h) /\ strip <$> jobs s' = strip <$> jobs s /\ qview <$> qs s' = qview <$> qs s /\ same_pool (ov s) (ov s') /\
  ct s' = ct s /\ cf s' = cf s /\ pr s' = pr s.

#[global] Instance calm_refl : Reflexive calm.
Proof. intros s. split_and!; try done. exists (hwst (bo s)). by destruct (bo s). Qed.
#[global] Instance calm_trans : Transitive calm.
Proof.
  intros a b c ((h & E1) & E2 & E3 & (E4 & E5 & E6) & E7 & E8 & E9) ((h' & F1) & F2 & F3 & (F4 & F5 & F6) & F7 & F8 & F9).
  split_and!; try congruence. exists h'. by rewrite F1, E1. split_and!; congruence.
Qed.
Lemma frame_calm s s' : frame s s' -> calm s s'.
Proof. intros (d & w & i & h & ->). split_and!; try done. by exists h. Qed.

(** ** The invariant *)

Definition ovfs s : gmap Z Z := v_ovf <$> jobs s.
Definition heads s (hand : Z) (o : owner) : Z :=
  match o with Free => free_head (ov s) | Staged => staged (ov s) | Hand => hand | Of p => default (-1) (ovfs s !! p) end.

Record chunks s (hand : Z) (L : owner -> list Z) : Prop := {
  ck_own : owned (o_next (ov s)) (nchunks (ov s)) (heads s hand) L;
  ck_len : zlen (o_next (ov s)) = 512;
  ck_n : 0 < nchunks (ov s) <= 512;
  ck_free : nfree (ov s) = zlen (L Free);
  ck_one : (length (L Staged) <= 1)%nat;
  ck_va : 0 < o_gpuva (ov s) /\ 0 < chunk_bytes (ov s) /\ o_gpuva (ov s) + nchunks (ov s) * chunk_bytes (ov s) <= 2 ^ 32
}.

(** What is armed is the staged chunk. *)
Definition armed s : Prop :=
  one_chunk (wd s) /\ token (wd s) = if 0 <=? staged (ov s) then chunk_va (ov s) (staged (ov s)) else 0.

Lemma chunks_eq s s' hand L : chunks s hand L -> ov s' = ov s -> ovfs s' = ovfs s -> chunks s' hand L.
Proof.
  intros [] Eo Ej. split; rewrite ?Eo; try done. eapply owned_eq; [done| |done]. intros [| | |p]; cbn; rewrite ?Eo, ?Ej; done.
Qed.
Lemma frame_ov s s' : frame s s' -> ov s' = ov s /\ jobs s' = jobs s /\ qs s' = qs s.
Proof. by intros (d & w & i & h & ->). Qed.
Lemma frame_chunks s s' hand L : frame s s' -> chunks s hand L -> chunks s' hand L.
Proof. intros (d & w & i & h & ->) H. by apply (chunks_eq s). Qed.
Lemma quiet_armed s s' : quiet s s' -> armed s -> armed s'.
Proof. intros [F [T _]] [O E]. destruct (frame_ov _ _ F) as (Ho & _). destruct (T O) as [? Et]. split; [done|]. by rewrite Et, E, Ho. Qed.

Lemma va_of s hand L i : chunks s hand L -> 0 <= i < nchunks (ov s) ->
  chunk_va (ov s) i = o_gpuva (ov s) + i * chunk_bytes (ov s) /\ chunk_va (ov s) i <> 0 /\ u32 (chunk_va (ov s) i - o_gpuva (ov s)) / chunk_bytes (ov s) = i.
Proof.
  intros [_ _ Hn _ _ (Hg & Hc & Hv)] Hi. unfold chunk_va.
  assert (i * chunk_bytes (ov s) < nchunks (ov s) * chunk_bytes (ov s)) by nia. assert (0 <= i * chunk_bytes (ov s)) by nia.
  unfold u32. rewrite (Z.mod_small i) by lia. rewrite (Z.mod_small (i * _)) by lia. rewrite Z.mod_small by lia. split; [done|]. split; [lia|].
  rewrite Z.mod_small by lia. replace (_ - _) with (i * chunk_bytes (ov s)) by lia. apply Z.div_mul. lia.
Qed.

(** ** The operations *)

(** A state that differs in the free list and the links only. *)
Definition relinked s (n h : Z) (nx : list Z) : jsrv := on_ov (fun o => put_nfree n (put_free_head h (put_o_next nx o))) s.

(** The list that starts at [h], that of [a], goes to the free list. *)
Lemma free_loop_spec l : forall fuel h s hd L a n, owned (o_next (ov s)) n hd L -> a <> Free -> hd a = h -> L a = l -> hd Free = free_head (ov s) ->
  0 <= nfree (ov s) -> nfree (ov s) + zlen l < 2 ^ 32 -> (length l < fuel)%nat ->
  wp (free_loop fuel h) s (fun s' _ => exists f nx, s' = relinked s (nfree (ov s) + zlen l) f nx /\ length nx = length (o_next (ov s)) /\
    owned nx n (upd (upd hd a (-1)) Free f) (upd (upd L a []) Free (reverse l ++ L Free))).
Proof.
  induction l as [|i l IH]; intros fuel h s hd L a n Ho Ha Hh HL Hf Hn0 Hn Hfu.
  - pose proof (ow_chain _ _ _ _ Ho a) as C. rewrite HL, Hh in C. cbn in C. destruct fuel; [cbn in Hfu; lia|]. cbn [free_loop]. subst h. rewrite C.
    apply wp_ret. exists (free_head (ov s)), (o_next (ov s)). split_and!; [|done|].
    + unfold relinked. change (zlen []) with 0. rewrite Z.add_0_r. destruct s as [? ? ? ? ? ? []]. done.
    + eapply owned_eq; [done|..]; intros o; unfold upd; repeat case_decide; subst; done.
  - pose proof (ow_chain _ _ _ _ Ho a) as C. rewrite HL, Hh in C. cbn in C. destruct C as (-> & Hi & C). destruct fuel as [|fuel]; [cbn in Hfu; lia|]. cbn [free_loop].
    rewrite (proj2 (Z.ltb_ge _ _)) by lia. apply wp_bind. unfold next_of. apply wp_get. apply wp_bind, wp_modify.
    pose proof (owned_move _ _ _ _ a Free i l Ho Ha HL) as Hm. rewrite Hf in Hm.
    set (s1 := on_ov _ s). assert (Hz : zlen (i :: l) = 1 + zlen l) by (unfold zlen; cbn [length]; lia). pose proof (Zle_0_nat (length l)) as Hz0. fold (zlen l) in Hz0.
    eapply wp_mono; [eapply (IH fuel _ s1 _ _ a n Hm)|]; [done| | | | | | |].
    + by rewrite upd_ne, upd_eq.
    + by rewrite upd_ne, upd_eq.
    + by rewrite upd_eq.
    + unfold s1; cbn. unfold u32. rewrite Z.mod_small by lia. lia.
    + unfold s1; cbn. unfold u32. rewrite Z.mod_small by lia. lia.
    + cbn in Hfu. lia.
    + intros s' [] (f & nx & -> & Hl & Ho'). exists f, nx. split_and!.
      * unfold relinked, s1. cbn. unfold u32. rewrite Z.mod_small by lia. destruct s as [? ? ? ? ? ? []]; cbn. unfold on_ov, put_nfree, put_free_head, put_o_next; cbn. f_equal. f_equal. lia.
      * rewrite Hl. unfold s1; cbn. apply length_arr_set.
      * eapply owned_eq; [exact Ho'|..]; intros o; unfold upd; repeat case_decide; subst; try done. by rewrite reverse_cons, <- app_assoc.
Qed.

Lemma chunk_list_length s hand L o : chunks s hand L -> (length (L o) < chunk_fuel)%nat.
Proof. intros [H _ Hn _ _ _]. pose proof (owned_length _ _ _ _ o H ltac:(lia)) as Hl. unfold zlen in Hl. change chunk_fuel with 513%nat. lia. Qed.

Lemma no_hand s L : chunks s (-1) L -> L Hand = [].
Proof. intros [H _ _ _ _ _]. destruct (chain_head _ _ _ (ow_chain _ _ _ _ H Hand)) as [[_ ->]|[? _]]; [done|cbn in *; lia]. Qed.

Lemma alloc_spec s L : chunks s (-1) L -> wp chunk_alloc s (fun s' i => (i = -1 /\ s' = s) \/
  (exists l, 0 <= i < nchunks (ov s) /\ L Free = i :: l /\
     s' = relinked s (zlen l) (arr_get (o_next (ov s)) i) (arr_set (o_next (ov s)) i (-1)) /\ chunks s' i (upd (upd L Free l) Hand [i]))).
Proof.
  intros H. pose proof (no_hand s L H) as HH. destruct H as [H1 H2 H3 H4 H7 H8]. unfold chunk_alloc. apply wp_bind, wp_get. apply wp_bind.
  destruct (chain_head _ _ _ (ow_chain _ _ _ _ H1 Free)) as [[Hneg HL]|[Hi (l & HL & Hc)]]; cbn [heads] in *.
  - apply wp_when; [intros E; bsimp; lia|]. intros _. apply wp_ret. by left.
  - apply wp_when; [|intros E; bsimp; lia]. intros _. apply wp_modify, wp_ret. right. exists l.
    assert (Hn : 0 <= free_head (ov s) < nchunks (ov s)) by (apply (ow_all _ _ _ _ H1); exists Free; rewrite HL; by left).
    pose proof (owned_length _ _ _ _ Free H1 ltac:(lia)) as Hlen. rewrite HL in Hlen, H4. assert (Hz : zlen (free_head (ov s) :: l) = 1 + zlen l) by (unfold zlen; cbn [length]; lia).
    pose proof (Zle_0_nat (length l)) as Hz0. fold (zlen l) in Hz0.
    set (i := free_head (ov s)) in *. split_and!; [lia|lia|done| |].
    { unfold relinked, on_ov. f_equal. unfold put_nfree; cbn. f_equal. unfold u32. rewrite Z.mod_small by lia. lia. }
    pose proof (owned_move _ _ _ _ Free Hand i l H1 ltac:(done) HL) as Hm. rewrite HH in Hm. split; cbn [ov on_ov relinked put_nfree put_free_head put_o_next o_next nchunks nfree staged o_gpuva chunk_bytes]; try done.
    + eapply owned_eq; [exact Hm| |done]. intros [| | |p]; cbn; by rewrite ?upd_eq, ?upd_ne, ?upd_eq by done.
    + unfold zlen. by rewrite length_arr_set.
    + rewrite upd_ne, upd_eq by done. unfold u32. rewrite Z.mod_small by lia. lia.
Qed.
(** The first chunk of [a] has gone to [b] in the state [s']. *)
Lemma chunks_move s hand L a b i l s' hand' : chunks s hand L -> a <> b -> a <> Free -> b <> Free -> b <> Staged -> L a = i :: l ->
  o_next (ov s') = arr_set (o_next (ov s)) i (heads s hand b) -> same_pool (ov s) (ov s') -> nfree (ov s') = nfree (ov s) ->
  (forall o, heads s' hand' o = upd (upd (heads s hand) a (arr_get (o_next (ov s)) i)) b i o) -> chunks s' hand' (upd (upd L a l) b (i :: L b)).
Proof.
  intros [H1 H2 H3 H4 H7 H8] Hab Haf Hbf Hbs HL En (Eg & Ec & Ek) Ef Hhd. pose proof (owned_move _ _ _ _ a b i l H1 Hab HL) as Hm.
  split; rewrite ?En, ?Eg, ?Ec, ?Ek; try done.
  - by eapply owned_eq.
  - unfold zlen. by rewrite length_arr_set.
  - by rewrite Ef, H4, !upd_ne.
  - destruct (decide (a = Staged)) as [->|]; [|by rewrite !upd_ne]. rewrite upd_ne, upd_eq by done. rewrite HL in H7. cbn in H7. lia.
Qed.

Definition attached s p i j : jsrv := on_jobs (fun _ => <[p := put_v_ovf i j]> (jobs s)) (on_ov (fun o => put_o_next (arr_set (o_next o) i (v_ovf j)) o) s).

Lemma attach_spec s p i j (Q : jsrv -> () -> Prop) : jobs s !! p = Some j -> Q (attached s p i j) tt -> wp (chunk_attach p i) s Q.
Proof. intros E H. unfold chunk_attach. apply wp_bind. eapply wp_job_at; [done|]. apply wp_bind, wp_modify. eapply wp_upd_job; [done|]. exact H. Qed.

Lemma strip_insert (m : gmap Z vjob) p j j' : m !! p = Some j -> strip j' = strip j -> strip <$> <[p := j']> m = strip <$> m.
Proof. intros E Hs. rewrite fmap_insert, Hs. apply insert_id. by rewrite lookup_fmap, E. Qed.
Lemma attached_calm s p i j : jobs s !! p = Some j -> calm s (attached s p i j).
Proof.
  intros E. split_and!; try done; [exists (hwst (bo s)); cbn; by destruct (bo s)|]. cbn. by eapply strip_insert.
Qed.

(** The staged chunk, or one in hand, goes to a job. *)
Lemma attached_chunks s hand L a p i j s' : chunks s hand L -> (a = Hand \/ a = Staged) -> L a = [i] -> jobs s !! p = Some j ->
  s' = attached (if decide (a = Staged) then on_ov (put_staged (-1)) s else s) p i j ->
  chunks s' (if decide (a = Hand) then -1 else hand) (upd (upd L a []) (Of p) (i :: L (Of p))).
Proof.
  intros H Ha HL Ej ->. assert (Ho : heads s hand (Of p) = v_ovf j) by (cbn; unfold ovfs; by rewrite lookup_fmap, Ej).
  assert (Hend : arr_get (o_next (ov s)) i = -1). { destruct H as [H _ _ _ _ _]. pose proof (ow_chain _ _ _ _ H a) as C. rewrite HL in C. by destruct C as (_ & _ & C). }
  eapply (chunks_move s hand L a (Of p) i []); try done; [by destruct Ha as [->| ->]..| | | |]; rewrite ?Ho, ?Hend.
  1-3: by destruct Ha as [->| ->].
  intros o. destruct Ha as [->| ->]; cbn [decide]; destruct o as [| | |r]; cbn; try by rewrite ?upd_ne, ?upd_eq by done.
  all: destruct (decide (r = p)) as [->|Hr]; unfold ovfs; cbn; [by rewrite fmap_insert, lookup_insert_eq, upd_eq|].
  all: rewrite fmap_insert, lookup_insert_ne by done; rewrite !upd_ne by congruence; done.
Qed.
Definition mem_ok s : Prop := (exists L, chunks s (-1) L) /\ armed s.

Lemma arr_set_same l i v : 0 <= i < zlen l -> arr_get l i = v -> arr_set l i v = l.
Proof.
  intros Hi E. unfold arr_set. apply list_insert_id. unfold arr_get in E. rewrite <- E. apply list_lookup_lookup_total_lt. unfold zlen in Hi. lia.
Qed.

Lemma staged_spec s L i : chunks s i L -> 0 <= i -> L Hand = [i] -> L Staged = [] -> chunks (on_ov (put_staged i) s) (-1) (upd (upd L Hand []) Staged [i]).
Proof.
  intros [H1 H2 H3 H4 H7 H8] Hi HL HS. pose proof (owned_move _ _ _ _ Hand Staged i [] H1 ltac:(done) HL) as Hm. rewrite HS in Hm.
  pose proof (ow_chain _ _ _ _ H1 Hand) as C. rewrite HL in C. destruct C as (_ & Hi' & C). cbn in C.
  pose proof (ow_chain _ _ _ _ H1 Staged) as C'. rewrite HS in C'. cbn in C'. cbn [heads] in Hm. rewrite C', C in Hm. rewrite (arr_set_same _ _ _ Hi' C) in Hm.
  split; cbn; try done. eapply owned_eq; [exact Hm| |done]. intros [| | |p]; cbn; by rewrite ?upd_eq, ?upd_ne, ?upd_eq by done.
Qed.

Lemma token_none w : one_chunk w -> token w = 0 -> ovf_stage_va w = 0 /\ ovf_consumed w = 0.
Proof. unfold one_chunk, token. intros [?|?] E; destruct (ovf_consumed w =? 0) eqn:Ec; bsimp; auto; congruence. Qed.

Lemma staged_none s hand L : chunks s hand L -> staged (ov s) < 0 -> staged (ov s) = -1 /\ L Staged = [].
Proof. intros [H _ _ _ _ _] Hn. destruct (chain_head _ _ _ (ow_chain _ _ _ _ H Staged)) as [[? ?]|[? _]]; cbn in *; [done|lia]. Qed.

Lemma ov_calm s o : same_pool (ov s) o -> calm s (on_ov (fun _ => o) s).
Proof. intros H. split_and!; try done; [|apply H..]. exists (hwst (bo s)). cbn. by destruct (bo s). Qed.

Lemma stage_spec s : mem_ok s -> wp ovf_stage s (fun s' _ => calm s s' /\ mem_ok s').
Proof.
  intros [[L HL] Ha]. unfold ovf_stage. apply wp_bind, wp_get. destruct ((0 <=? staged (ov s)) || (nchunks (ov s) =? 0)) eqn:Eb.
  { apply wp_ret. split; [done|]. split; [by exists L|done]. }
  bsimp. destruct (staged_none s _ L HL ltac:(lia)) as [Es HS]. destruct Ha as [O T]. rewrite Es in T. cbn in T.
  apply wp_bind. eapply wp_mono; [by apply alloc_spec|]. intros s1 i [[-> ->]|(l & Hi & HF & -> & H1)].
  { apply wp_bind, wp_modify. cbn [Z.ltb Z.compare]. apply wp_ret. split; [by apply ov_calm|]. split; [|by split].
    exists L. eapply chunks_eq; [exact HL| |done]. cbn. destruct (ov s); cbn in *. by subst. }
  apply wp_bind, wp_modify. rewrite (proj2 (Z.ltb_ge _ _)) by lia. set (s1 := relinked _ _ _ _) in *. set (s2 := on_ov _ s1).
  assert (H2 : chunks s2 (-1) (upd (upd (upd (upd L Free l) Hand [i]) Hand []) Staged [i])) by (apply staged_spec; [done|lia|by rewrite upd_eq|by rewrite !upd_ne]).
  assert (C2 : calm s s2) by by apply (ov_calm s).
  assert (W2 : one_chunk (wd s2) /\ token (wd s2) = 0) by done. clearbody s2. pose proof C2 as (_ & _ & _ & (Eg & Ec & _) & _).
  assert (Est : staged (ov s2) = i). { pose proof (ck_own _ _ _ H2) as Hown. pose proof (ow_chain _ _ _ _ Hown Staged) as C. rewrite upd_eq in C. by destruct C as [C _]. }
  assert (Eva : chunk_va (ov s) i = chunk_va (ov s2) i) by (unfold chunk_va; by rewrite Eg, Ec). destruct (va_of s _ L i HL Hi) as (_ & Hnz & _). rewrite Eva in *. clear s1 H1.
  apply wp_bind, wp_hw; [apply _|]. intros s3 [] [F3 [T3 _]]. destruct W2 as [O2 Z2]. destruct (T3 O2) as [O3 E3]. rewrite Z2 in E3.
  apply wp_atomic. intros s4 [F4 [T4 _]]. destruct (T4 O3) as [O4 E4]. rewrite E3 in E4. destruct (token_none _ O4 E4) as [Es4 Ec4]. cbn [fst snd].
  assert (F : frame s2 s4) by by etransitivity. destruct (frame_ov _ _ F) as (Eo & _).
  split; [etransitivity; [exact C2|]; etransitivity; [by apply frame_calm|]; apply frame_calm, frame_words|]. split.
  - eexists. eapply frame_chunks; [|exact H2]. etransitivity; [exact F|apply frame_words].
  - unfold armed. cbn [ov wd on_wd]. rewrite Eo, Est, (proj2 (Z.leb_le _ _)) by lia. split; [by right|]. unfold token; cbn. by rewrite Ec4.
Qed.
Lemma calm_job s s' p j : calm s s' -> jobs s !! p = Some j -> exists j', jobs s' !! p = Some j' /\ strip j' = strip j.
Proof.
  intros (_ & E & _) H. assert (E' : (strip <$> jobs s') !! p = Some (strip j)) by (rewrite E, lookup_fmap, H; done).
  rewrite lookup_fmap in E'. destruct (jobs s' !! p) as [j'|]; [|done]. cbn in E'. exists j'. split; [done|congruence].
Qed.
Lemma armed_eq s s' : wd s' = wd s -> staged (ov s') = staged (ov s) -> same_pool (ov s) (ov s') -> armed s -> armed s'.
Proof. intros Ew Es (Eg & Ec & _) [O T]. unfold armed, chunk_va. rewrite Ew, Es, Eg, Ec. by split. Qed.

Lemma oom_calm s f : (forall u, qview (f u) = qview u) -> calm s (on_qs (alter f (Z.to_nat Q_BIN)) s).
Proof.
  intros H. split_and!; try done; [exists (hwst (bo s)); cbn; by destruct (bo s)|]. cbn. change (Z.to_nat Q_BIN) with 0%nat. apply list_eq. intros k. rewrite !list_lookup_fmap.
  destruct (decide (k = 0%nat)) as [->|Hk]; [|by rewrite list_lookup_alter_ne]. rewrite list_lookup_alter_eq. destruct (qs s !! 0%nat) as [u|]; [exact (f_equal Some (H u))|done].
Qed.

Lemma grant_spec s bin j : mem_ok s -> jobs s !! bin = Some j ->
  wp (ovf_grant_direct bin) s (fun s' b => calm s s' /\ mem_ok s' /\ (b = true -> nfree (ov s') < nfree (ov s))).
Proof.
  intros [[L HL] Ha] Ej. unfold ovf_grant_direct. apply wp_bind. eapply wp_mono; [by apply alloc_spec|]. intros s1 i [[-> ->]|(l & Hi & HF & -> & H1)].
  { cbn. apply wp_ret. split; [done|]. split; [|done]. split; [by exists L|done]. }
  rewrite (proj2 (Z.ltb_ge _ _)) by lia. apply wp_bind, wp_get. set (s1 := relinked _ _ _ _) in *.
  assert (C1 : calm s s1) by by apply (ov_calm s). assert (A1 : armed s1) by by apply (armed_eq s).
  assert (N1 : nfree (ov s1) < nfree (ov s)). { rewrite (ck_free _ _ _ HL), HF. unfold s1, zlen; cbn. lia. }
  assert (J1 : jobs s1 !! bin = Some j) by done. clearbody s1.
  apply wp_bind, wp_hw; [apply _|]. intros s2 [] Q2. apply wp_bind, wp_hw; [apply _|]. intros s3 [] Q3.
  assert (Q13 : quiet s1 s3) by by etransitivity. clear Q2 Q3 s2. pose proof (quiet_armed _ _ Q13 A1) as A3. destruct Q13 as [F3 _]. pose proof (frame_chunks _ _ _ _ F3 H1) as H3.
  destruct (frame_ov _ _ F3) as (Eo & Ejj & _). assert (J3 : jobs s3 !! bin = Some j) by by rewrite Ejj.
  apply wp_bind. eapply attach_spec; [done|]. set (s4 := attached _ _ _ _).
  assert (H4 := attached_chunks s3 i _ Hand bin i j s4 H3 ltac:(by left) ltac:(by rewrite upd_eq) J3 eq_refl). rewrite decide_True in H4 by done.
  assert (C4 : calm s3 s4) by by apply attached_calm. assert (A4 : armed s4) by by apply (armed_eq s3).
  assert (N4 : nfree (ov s4) = nfree (ov s1)) by (rewrite <- Eo; done). clearbody s4.
  apply wp_bind, wp_modify. apply wp_ret. split; [|split; [split; [|exact A4]|by intros _; cbn; lia]].
  - etransitivity; [exact C1|]. etransitivity; [by apply frame_calm|]. etransitivity; [exact C4|]. by apply oom_calm.
  - eexists. eapply chunks_eq; [exact H4|done|done].
Qed.

Lemma grant_loop_spec fuel : forall s bin, mem_ok s -> (bin <> 0 -> is_Some (jobs s !! bin)) -> nfree (ov s) < Z.of_nat fuel ->
  wp (grant_loop fuel bin) s (fun s' _ => calm s s' /\ mem_ok s').
Proof.
  induction fuel as [|fuel IH]; intros s bin Hm Hb Hf.
  { destruct Hm as [[L HL] _]. rewrite (ck_free _ _ _ HL) in Hf. unfold zlen in Hf. lia. }
  cbn [grant_loop]. apply wp_bind, wp_get. destruct ((0 <? bin_waiting (ov s)) && negb (bin =? 0)) eqn:Eb; [|by apply wp_ret]. bsimp. destruct (Hb ltac:(done)) as [j Ej].
  apply wp_bind. eapply wp_mono; [by eapply grant_spec|]. intros s1 [] (C1 & M1 & N1); [|by apply wp_ret]. specialize (N1 eq_refl).
  apply wp_bind, wp_modify. eapply wp_mono; [apply IH|].
  - destruct M1 as [[L H1] A1]. split; [exists L; destruct H1; by split|done].
  - intros _. destruct (calm_job _ _ _ _ C1 Ej) as (j' & E & _). by exists j'.
  - cbn. lia.
  - intros s2 [] [C2 M2]. split; [|done]. etransitivity; [exact C1|]. etransitivity; [|exact C2]. by apply ov_calm.
Qed.

(** The list that [a] has in the state [s] is released; [t] has the same links. *)
Definition same_links s t : Prop := o_next (ov t) = o_next (ov s) /\ free_head (ov t) = free_head (ov s) /\ nfree (ov t) = nfree (ov s).
Lemma free_owner s t L a : chunks s (-1) L -> same_links s t -> (a = Staged \/ exists p, a = Of p) ->
  wp (chunk_free_list (heads s (-1) a)) t (fun s' _ => exists n f nx, s' = relinked t n f nx /\
    forall s'', o_next (ov s'') = nx -> free_head (ov s'') = f -> nfree (ov s'') = n -> same_pool (ov s) (ov s'') ->
      (forall o, o <> Free -> heads s'' (-1) o = if decide (o = a) then -1 else heads s (-1) o) -> exists L', chunks s'' (-1) L' /\ forall o, o <> Free -> L' o = if decide (o = a) then [] else L o).
Proof.
  intros H (Tn & Tf & Tc) Ha. pose proof (chunk_list_length s _ L a H) as Hl. destruct H as [H1 H2 H3 H4 H7 H8]. unfold chunk_free_list. rewrite <- Tn in H1, H2. rewrite <- Tc in H4.
  assert (Haf : a <> Free) by (destruct Ha as [->|[p ->]]; done).
  assert (Hlen : forall o, zlen (L o) <= 512) by (intros o; pose proof (owned_length _ _ _ _ o H1 ltac:(lia)); lia).
  eapply wp_mono; [eapply (free_loop_spec (L a) _ _ t _ L a _ H1); try done|].
  { rewrite H4. unfold zlen. lia. }
  { rewrite H4. pose proof (Hlen a). pose proof (Hlen Free). lia. }
  intros s' [] (f & nx & -> & Hnx & Ho). eexists _, _, _. split; [done|]. intros s'' En Ef Enf (Eg & Ec & Ek) Hh.
  exists (upd (upd L a []) Free (reverse (L a) ++ L Free)). split; [|intros o Hof; rewrite upd_ne by done; unfold upd; by case_decide].
  split; rewrite ?En, ?Eg, ?Ec, ?Ek; try done.
  - eapply owned_eq; [exact Ho| |done]. intros o. destruct (decide (o = Free)) as [->|Hof]; [by rewrite upd_eq|]. rewrite upd_ne, Hh by done. unfold upd. by case_decide.
  - unfold zlen. rewrite Hnx. exact H2.
  - rewrite Enf, H4, upd_eq. unfold zlen. rewrite length_app, length_reverse. lia.
  - rewrite upd_ne by done. unfold upd. case_decide; [cbn; lia|done].
Qed.

(** A chunk that the handler has handed out goes to the job of the binner. *)
Lemma consumed_spec s bin L : chunks s (-1) L -> 0 <= staged (ov s) -> (bin <> 0 -> is_Some (jobs s !! bin)) -> one_chunk (wd s) -> token (wd s) = 0 ->
  wp (_ ← when (staged (ov s) =? staged (ov s)) (modify (on_ov (put_staged (-1))));
      if negb (bin =? 0) then _ ← chunk_attach bin (staged (ov s)); upd_queue Q_BIN (fun q => put_st_oom (u32 (st_oom q + 1)) q)
      else chunk_free_list (staged (ov s))) s (fun s' _ => calm s s' /\ mem_ok s').
Proof.
  intros H Hst Hb O T. set (i := staged (ov s)) in *. rewrite Z.eqb_refl. apply wp_bind. cbn [when]. apply wp_modify.
  assert (HL : L Staged = [i]).
  { pose proof (ck_own _ _ _ H) as H1. pose proof (ck_one _ _ _ H) as H7. destruct (chain_head _ _ _ (ow_chain _ _ _ _ H1 Staged)) as [[E _]|[_ (l & E & _)]]; cbn in E; [lia|].
    rewrite E in H7 |- *. destruct l; [done|cbn in H7; lia]. }
  assert (Hend : forall t, wd t = wd s -> staged (ov t) = -1 -> armed t) by (intros t Ew Es; split; [by rewrite Ew|by rewrite Ew, Es]).
  destruct (bin =? 0) eqn:Eb; cbn [negb]; bsimp.
  - change i with (heads s (-1) Staged). eapply wp_mono; [eapply (free_owner s _ L Staged H); [done|by left]|]. intros s' [] (n & f & nx & -> & Hs).
    split; [by apply (ov_calm s)|]. split; [|by apply Hend].
    destruct (Hs (relinked (on_ov (put_staged (-1)) s) n f nx) eq_refl eq_refl eq_refl ltac:(done)) as (L' & H' & _); [|by exists L'].
    intros [| | |p] Ho; done.
  - destruct (Hb ltac:(done)) as [j Ej]. apply wp_bind. eapply attach_spec; [exact Ej|]. set (s1 := attached _ _ _ _).
    pose proof (attached_chunks s (-1) L Staged bin i j s1 H ltac:(by right) HL Ej eq_refl) as H1. rewrite decide_False in H1 by done.
    assert (C1 : calm s s1) by (etransitivity; [by apply (ov_calm s (put_staged (-1) (ov s)))|by apply attached_calm]).
    apply wp_modify. split; [etransitivity; [exact C1|]; by apply oom_calm|]. split; [|by apply Hend]. eexists. by eapply chunks_eq.
Qed.

Lemma calm_active s s' q : calm s s' -> q_active (queue_at s' q) = q_active (queue_at s q).
Proof.
  intros (_ & _ & E & _). unfold queue_at. rewrite !list_lookup_total_alt.
  assert (E' := f_equal (fun l => l !! Z.to_nat q) E). cbn in E'. rewrite !list_lookup_fmap in E'.
  destruct (qs s' !! Z.to_nat q) as [u|], (qs s !! Z.to_nat q) as [v|]; cbn in *; try done. unfold qview in E'. congruence.
Qed.

Lemma mem_ok_ov s o : same_links s (on_ov (fun _ => o) s) -> same_pool (ov s) o -> staged o = staged (ov s) -> mem_ok s -> mem_ok (on_ov (fun _ => o) s).
Proof.
  intros (En & Ef & Ec) (Eg & Eb & Ek) Es [[L [H1 H2 H3 H4 H7 H8]] A]. cbn in En, Ef, Ec. split; [|by apply (armed_eq s)].
  exists L. split; cbn; rewrite ?En, ?Eg, ?Eb, ?Ek, ?Ec; try done. eapply owned_eq; [exact H1| |done]. by intros [| | |p]; cbn.
Qed.

Lemma service_spec s : mem_ok s -> (q_active (queue_at s Q_BIN) <> 0 -> is_Some (jobs s !! q_active (queue_at s Q_BIN))) ->
  wp ovf_service s (fun s' _ => calm s s' /\ mem_ok s').
Proof.
  intros [[L HL] A] Hb. unfold ovf_service. apply wp_bind, wp_get. set (bin := q_active _) in *. clearbody bin.
  apply wp_bind, wp_atomic. intros s1 Q1. cbn [fst snd]. pose proof (quiet_armed _ _ Q1 A) as A1. destruct Q1 as [F1 _]. pose proof (frame_chunks _ _ _ _ F1 HL) as H1.
  assert (Hb1 : bin <> 0 -> is_Some (jobs s1 !! bin)) by (intros Hz; destruct (frame_ov _ _ F1) as (_ & -> & _); auto).
  set (va := ovf_consumed (wd s1)). set (s2 := on_wd _ s1). apply wp_bind, wp_get. apply wp_bind.
  eapply (wp_mono _ _ (fun s' _ => calm s s' /\ mem_ok s')).
  { assert (C2 : calm s s2) by (etransitivity; [by apply frame_calm|apply frame_calm, frame_words]).
    assert (H2 : chunks s2 (-1) L) by by apply (chunks_eq s1). pose proof (ck_va _ _ _ H2) as (_ & Hcb & _). destruct A1 as [O1 T1].
    apply wp_when; intros Eb; bsimp.
    - assert (Ez : ovf_stage_va (wd s1) = 0) by (destruct O1; [done|unfold va in *; congruence]).
      assert (Ev : token (wd s1) = va) by (unfold token; fold va; destruct (va =? 0) eqn:E; bsimp; [congruence|done]).
      rewrite T1 in Ev. destruct (0 <=? staged (ov s1)) eqn:Es; bsimp; [|congruence].
      destruct (va_of s1 _ L (staged (ov s1)) H1) as (_ & _ & Ei). { apply (ow_all _ _ _ _ (ck_own _ _ _ H1)). exists Staged. destruct (chain_head _ _ _ (ow_chain _ _ _ _ (ck_own _ _ _ H1) Staged)) as [[E _]|[_ (l & E & _)]]; cbn in E; [lia|]. rewrite E. by left. }
      rewrite Ev in Ei. change (ov s2) with (ov s1). rewrite Ei.
      eapply wp_mono; [apply (consumed_spec s2 bin L H2); [done|done|by right|unfold token, s2; cbn; done]|]. intros s' [] [C M]. split; [by etransitivity|done].
    - split; [done|]. split; [by exists L|]. assert (E0 : va = 0) by (destruct (va =? 0) eqn:E; bsimp; [done|cbn in *; lia]).
      unfold armed, s2; cbn. unfold token in *; cbn. fold va in T1. rewrite E0 in T1. cbn in T1. split; [by right|]. exact T1. }
  intros s3 [] [C3 M3]. assert (Hb3 : bin <> 0 -> is_Some (jobs s3 !! bin)). { intros Hz. destruct (Hb Hz) as [j Ej]. destruct (calm_job _ _ _ _ C3 Ej) as (j' & ? & _). by exists j'. }
  clear L HL A s1 A1 F1 H1 Hb1 va s2. apply wp_bind, wp_hw; [apply _|]. intros s4 missed Q4.
  assert (M4 : mem_ok s4) by (destruct M3 as [[L HL] A]; split; [exists L; eapply frame_chunks; [apply Q4|done]|by eapply quiet_armed]).
  assert (C4 : calm s s4) by (etransitivity; [exact C3|apply frame_calm, Q4]). assert (Hb4 : bin <> 0 -> is_Some (jobs s4 !! bin)) by (destruct (frame_ov _ _ (proj1 Q4)) as (_ & -> & _); done).
  clear s3 C3 M3 Hb3 Q4. apply wp_bind. eapply (wp_mono _ _ (fun s' _ => calm s s' /\ mem_ok s')).
  { apply wp_when; [intros _|done]. apply wp_modify. split; [etransitivity; [exact C4|by apply (ov_calm s4)]|]. by apply (mem_ok_ov s4). }
  intros s5 [] [C5 M5]. assert (Hb5 : bin <> 0 -> is_Some (jobs s5 !! bin)). { intros Hz. destruct (Hb Hz) as [j Ej]. destruct (calm_job _ _ _ _ C5 Ej) as (j' & ? & _). by exists j'. }
  apply wp_bind. eapply wp_mono; [apply grant_loop_spec; [done|done|]|].
  { destruct M5 as [[L HL] _]. rewrite (ck_free _ _ _ HL). pose proof (chunk_list_length _ _ _ Free HL). unfold zlen. lia. }
  intros s6 [] [C6 M6]. apply wp_bind. eapply (wp_mono _ _ (fun s' _ => calm s6 s' /\ mem_ok s')).
  { apply wp_when; [intros _|done]. apply wp_modify. split; [by apply (ov_calm s6)|]. by apply (mem_ok_ov s6). }
  intros s7 [] [C7 M7]. eapply wp_mono; [by apply stage_spec|]. intros s8 [] [C8 M8]. split; [|done].
  etransitivity; [exact C5|]. etransitivity; [exact C6|]. by etransitivity.
Qed.

(** ** The chunks of a job *)

(** Only the chunks of jobs have changed. *)
Definition rechunked s s' : Prop := exists J o, s' = on_jobs (fun _ => J) (on_ov (fun _ => o) s) /\ strip <$> J = strip <$> jobs s /\ same_pool (ov s) o /\ staged o = staged (ov s) /\ bin_waiting o = bin_waiting (ov s).

Lemma rechunked_trans s1 s2 s3 : rechunked s1 s2 -> rechunked s2 s3 -> rechunked s1 s3.
Proof.
  intros (J & o & -> & E1 & (E2 & E3 & E4) & E5 & E6) (J' & o' & -> & F1 & (F2 & F3 & F4) & F5 & F6). exists J', o'. cbn in *. split_and!; try done; [congruence| |congruence..].
  split_and!; congruence.
Qed.
Lemma rechunked_armed s s' : rechunked s s' -> armed s -> armed s'.
Proof. intros (J & o & -> & _ & E & E' & _). by apply armed_eq. Qed.
Lemma rechunked_job s s' p j : rechunked s s' -> jobs s !! p = Some j -> exists j', jobs s' !! p = Some j' /\ strip j' = strip j.
Proof.
  intros (J & o & -> & E & _) H. assert (E' : (strip <$> J) !! p = (strip <$> jobs s) !! p) by by rewrite E. rewrite !lookup_fmap, H in E'. cbn.
  destruct (J !! p) as [j'|]; [|done]. exists j'. split; [done|]. change (Some (strip j') = Some (strip j)) in E'. congruence.
Qed.

Lemma move_spec fuel : forall s L p r j k, chunks s (-1) L -> p <> r -> jobs s !! p = Some j -> jobs s !! r = Some k -> (length (L (Of p)) < fuel)%nat ->
  wp (move_chunks fuel p r) s (fun s' _ => rechunked s s' /\ exists L', chunks s' (-1) L').
Proof.
  induction fuel as [|fuel IH]; intros s L p r j k H Hpr Ej Ek Hf; [lia|]. cbn [move_chunks]. apply wp_bind. eapply wp_job_at; [exact Ej|].
  assert (Hh : heads s (-1) (Of p) = v_ovf j) by (cbn; unfold ovfs; by rewrite lookup_fmap, Ej).
  assert (Hr : heads s (-1) (Of r) = v_ovf k) by (cbn; unfold ovfs; by rewrite lookup_fmap, Ek).
  destruct (chain_head _ _ _ (ow_chain _ _ _ _ (ck_own _ _ _ H) (Of p))) as [[E _]|[Hi (l & HL & Hc)]]; rewrite Hh in *.
  { rewrite E. cbn. apply wp_ret. split; [|by exists L]. exists (jobs s), (ov s). split_and!; try done. by destruct s. }
  rewrite (proj2 (Z.ltb_ge _ _)) by lia. apply wp_bind. unfold next_of. apply wp_get. set (i := v_ovf j) in *.
  apply wp_bind. eapply wp_upd_job; [exact Ej|]. set (s1 := on_jobs _ s). apply wp_bind. eapply attach_spec; [unfold s1; cbn; by rewrite lookup_insert_ne|].
  set (s2 := attached _ _ _ _). assert (Hr12 : rechunked s s2).
  { eexists _, _. split_and!; [unfold s2, attached, s1; cbn; reflexivity|..|done|done|done].
    rewrite (strip_insert _ r k); [|by rewrite lookup_insert_ne|done]. by eapply strip_insert. }
  assert (H2 : chunks s2 (-1) (upd (upd L (Of p) l) (Of r) (i :: L (Of r)))).
  { eapply (chunks_move s (-1) L (Of p) (Of r) i l); try done; [congruence|by rewrite Hr|].
    intros [| | |x]; cbn; try by rewrite !upd_ne. unfold ovfs, s2, attached, s1; cbn.
    destruct (decide (x = r)) as [->|Hxr]; [by rewrite fmap_insert, lookup_insert_eq, upd_eq|]. rewrite fmap_insert, lookup_insert_ne by done. rewrite (upd_ne _ (Of r)) by congruence.
    destruct (decide (x = p)) as [->|Hxp]; [by rewrite fmap_insert, lookup_insert_eq, upd_eq|]. rewrite fmap_insert, lookup_insert_ne by done. by rewrite upd_ne by congruence. }
  destruct (rechunked_job _ _ _ _ Hr12 Ej) as (j2 & Ej2 & _). destruct (rechunked_job _ _ _ _ Hr12 Ek) as (k2 & Ek2 & _).
  eapply wp_mono; [apply (IH s2 _ p r j2 k2 H2 Hpr Ej2 Ek2)|].
  - rewrite upd_ne, upd_eq by congruence. rewrite HL in Hf. cbn in Hf. lia.
  - intros s' [] [R HL']. split; [by eapply rechunked_trans|done].
Qed.

(** The chunks of [p] are released. *)
Lemma release_spec s p j : mem_ok s -> jobs s !! p = Some j ->
  wp (_ ← chunk_free_list (v_ovf j); upd_job p (put_v_ovf (-1))) s (fun s' _ => rechunked s s' /\ mem_ok s' /\ ovfs s' !! p = Some (-1)).
Proof.
  intros [[L H] A] Ej. assert (Hh : heads s (-1) (Of p) = v_ovf j) by (cbn; unfold ovfs; by rewrite lookup_fmap, Ej). rewrite <- Hh.
  apply wp_bind. eapply wp_mono; [apply (free_owner s s L (Of p) H); [done|right; by exists p]|]. intros s1 [] (n & f & nx & -> & Hs).
  eapply wp_upd_job; [exact Ej|]. set (s2 := on_jobs _ _).
  assert (R : rechunked s s2). { eexists _, _. split_and!; [unfold s2, relinked; reflexivity|by eapply strip_insert|done|done|done]. }
  split; [exact R|]. split; [split; [|by eapply rechunked_armed]|unfold ovfs, s2; cbn; by rewrite fmap_insert, lookup_insert_eq].
  destruct (Hs s2 eq_refl eq_refl eq_refl ltac:(done)) as (L' & H' & _); [|by exists L']. intros [| | |x] Ho; cbn; try done.
  unfold ovfs, s2; cbn. destruct (decide (x = p)) as [->|Hx]; [by rewrite fmap_insert, lookup_insert_eq, decide_True|]. by rewrite fmap_insert, lookup_insert_ne, decide_False by congruence.
Qed.

(** A job without chunks goes. *)
Lemma mem_ok_delete s p : mem_ok s -> ovfs s !! p = Some (-1) -> mem_ok (on_jobs (delete p) s).
Proof.
  intros [[L H] A] Hp. split; [|done]. exists L. destruct H as [H1 H2 H3 H4 H7 H8]. split; cbn; try done. eapply owned_eq; [exact H1| |done].
  intros [| | |x]; cbn; try done. unfold ovfs in *; cbn. rewrite fmap_delete. destruct (decide (x = p)) as [->|Hx]; [by rewrite lookup_delete_eq, Hp|by rewrite lookup_delete_ne].
Qed.
Lemma mem_ok_eq s s' : ov s' = ov s -> wd s' = wd s -> ovfs s' = ovfs s -> mem_ok s -> mem_ok s'.
Proof. intros Eo Ew Ej [[L H] [O T]]. split; [exists L; by eapply chunks_eq|]. split; [by rewrite Ew|]. by rewrite Ew, Eo. Qed.
End chunks.
End V3daChunks.
