(* ===== verification/V3daQueues.v ===== *)
(** * The job queues of the V3D render server

    The invariant of the queues: every job is in one FIFO, on the hardware, or in the hands of the
    code that runs; the FIFOs are the linked lists of the code; a bin and its render job know
    each other; the counters agree. [F] gives the FIFO of a queue and a client slot, [X] the jobs in
    the hands of the code. *)

From S2P Require Import Prelude V3daSched V3daPool V3daBo V3daGpu V3daGpuFrame V3daJobs V3daChunks.

Module V3daQueues.
Import V3da V3daPool V3daBo V3daGpu V3daGpuFrame V3daJobs V3daChunks.

(** ** Linked lists *)

Fixpoint seg (J : gmap Z vjob) (p : Z) (l : list Z) : Prop :=
  match l with [] => p = 0 | x :: l => p = x /\ x <> 0 /\ exists j, J !! x = Some j /\ seg J (v_next j) l end.
Definition last0 (l : list Z) : Z := default 0 (last l).

(** The links of the jobs in [l] are the same. *)
Definition same_next (J J' : gmap Z vjob) (l : list Z) : Prop := forall x j, x ∈ l -> J !! x = Some j -> exists j', J' !! x = Some j' /\ v_next j' = v_next j.

Lemma seg_next J J' p l : same_next J J' l -> seg J p l -> seg J' p l.
Proof.
  revert p. induction l as [|x l IH]; intros p Hn; cbn [seg]; [done|]. intros (-> & Hx & j & Ej & Hl). destruct (Hn x j ltac:(by left) Ej) as (j' & Ej' & En).
  split_and!; [done|done|]. exists j'. split; [done|]. rewrite En. apply IH; [|done]. intros y k Hy. apply Hn. by right.
Qed.

Lemma seg_nonzero J p l x : seg J p l -> x ∈ l -> x <> 0.
Proof.
  revert p. induction l as [|y l IH]; intros p; cbn [seg]; [by intros _ ?%elem_of_nil|]. intros (_ & Hy & j & _ & Hl) [->|Hx]%elem_of_cons; [done|by eapply IH].
Qed.
Lemma seg_in J p l x : seg J p l -> x ∈ l -> is_Some (J !! x).
Proof.
  revert p. induction l as [|y l IH]; intros p; cbn [seg]; [by intros _ ?%elem_of_nil|]. intros (_ & _ & j & Ej & Hl) [->|Hx]%elem_of_cons; [by exists j|by eapply IH].
Qed.

(** A job is linked behind the last one. *)
Lemma seg_snoc J p l x k t : seg J p l -> NoDup l -> x ∉ l -> x <> 0 -> J !! x = Some k -> v_next k = 0 -> last l = Some t ->
  forall j, J !! t = Some j -> seg (<[t := put_v_next x j]> J) p (l ++ [x]).
Proof.
  revert p. induction l as [|y l IH]; intros p; [done|]. cbn [seg app]. intros (-> & Hy & jy & Ejy & Hl) [Hyl Hnd]%NoDup_cons [Hxy Hxl]%not_elem_of_cons Hx Ek En Hla j Ej.
  split_and!; [done|done|]. destruct l as [|z l].
  - cbn in Hla. injection Hla as ->. rewrite Ejy in Ej. injection Ej as ->. exists (put_v_next x j). rewrite lookup_insert_eq. split; [done|]. cbn. split_and!; [done|done|].
    exists k. by rewrite lookup_insert_ne.
  - assert (t ∈ z :: l) by (apply last_Some_elem_of; exact Hla). exists jy. rewrite lookup_insert_ne by (intros ->; done). split; [done|]. by apply IH.
Qed.

Section queues.
Context `{K : Kernel} `{D : Device}.
Implicit Types s : jsrv.

Definition head_of s q i : Z := arr_get (head (queue_at s q)) i.
Definition tail_of s q i : Z := arr_get (tail (queue_at s q)) i.
Definition act s q : Z := q_active (queue_at s q).
Definition is_queue (q : Z) : Prop := 0 <= q < 6.
Definition is_slot (i : Z) : Prop := 0 <= i < 60.
(** Whether the queue has a job on the hardware. *)
Definition busy s q : Z := if act s q =? 0 then 0 else 1.

(** The part of the fence state the queues go with. *)
Definition cview (c : client) : bool * Z * Z * list Z := (c_used c, c_id c, c_slot c, next_seq c).
Definition fview (b : srv) := (slots b, hw_completed b, slot_gen b, dead_flush b, active b, cview <$> clients b).

Record shape s : Prop := {
  sh_queues : length (qs s) = 6%nat;
  sh_arrays u : u ∈ qs s -> zlen (head u) = 60 /\ zlen (tail u) = 60;
  sh_rr u : u ∈ qs s -> 0 <= rr u <= 60;
  sh_slots : length (slots (fences s)) = 60%nat;
  sh_rows r : r ∈ slots (fences s) -> zlen (completed r) = 6;
  sh_gens : length (slot_gen (fences s)) = 60%nat;
  sh_flush : length (dead_flush (fences s)) = 60%nat;
  sh_flushes l : l ∈ dead_flush (fences s) -> zlen l = 6;
  sh_active : length (active (fences s)) = 6%nat;
  sh_clients : length (clients (fences s)) = 60%nat;
  sh_seqs c : c ∈ clients (fences s) -> zlen (next_seq c) = 6;
  sh_sub : 6 <= zlen (hw_submitted (bo s));
  sh_comp : 6 <= zlen (hw_completed (fences s))
}.

Record inv (F : Z -> Z -> list Z) (X : list Z) s : Prop := {
  in_shape : shape s;
  in_fifo q i : is_queue q -> is_slot i -> seg (jobs s) (head_of s q i) (F q i) /\ tail_of s q i = last0 (F q i);
  in_F q i p : p ∈ F q i -> is_queue q /\ is_slot i /\ exists j, jobs s !! p = Some j /\ v_queue j = q /\ f_slot (v_fence j) = i;
  in_nodup q i : NoDup (F q i);
  in_act q : is_queue q -> (act s q = 0 /\ active (fences s) !! Z.to_nat q = Some None) \/
    (act s q <> 0 /\ exists j, jobs s !! act s q = Some j /\ v_queue j = q /\ (act s q ∉ F q (f_slot (v_fence j))) /\
       active (fences s) !! Z.to_nat q = Some (Some (mk_job q (v_fence j))));
  in_X : NoDup X /\ (forall p, p ∈ X -> is_Some (jobs s !! p) /\ (forall q i, p ∉ F q i) /\ (forall q, is_queue q -> act s q <> p));
  in_all p : is_Some (jobs s !! p) -> p <> 0 /\ (p ∈ X \/ (exists q i, p ∈ F q i) \/ exists q, is_queue q /\ act s q = p);
  in_job p j : jobs s !! p = Some j -> is_queue (v_queue j) /\ f_queue (v_fence j) = v_queue j /\ is_slot (f_slot (v_fence j)) /\
    f_gen (v_fence j) = u32 (slot_gen (fences s) !!! Z.to_nat (f_slot (v_fence j)));
  in_render p j : jobs s !! p = Some j -> v_render j <> 0 -> v_queue j = Q_BIN /\ exists r, jobs s !! v_render j = Some r /\ v_queue r = Q_RENDER /\ v_bin r = p;
  in_bin p j : jobs s !! p = Some j -> v_bin j <> 0 -> v_queue j = Q_RENDER /\ exists b, jobs s !! v_bin j = Some b /\ v_queue b = Q_BIN /\ v_render b = p;
  in_kick p j : jobs s !! p = Some j -> (forall q, is_queue q -> act s q <> p) -> v_kick j = 0;
  in_busy : nbusy (ct s) = busy s 0 + busy s 1 + busy s 2 + busy s 3;
  in_hw q : is_queue q -> arr_get (hw_submitted (bo s)) q = u64 (arr_get (hw_completed (fences s)) q + busy s q)
}.

(** ** What keeps it *)

(** The invariant looks at these parts of the state only. *)
Definition core (j : vjob) : Z * Z * fence * Z * Z * Z * bool := (v_next j, v_queue j, v_fence j, v_render j, v_bin j, v_kick j, v_dep_error j).
Definition same_view s s' : Prop :=
  core <$> jobs s' = core <$> jobs s /\ qview <$> qs s' = qview <$> qs s /\ fview (fences s') = fview (fences s) /\
  hw_submitted (bo s') = hw_submitted (bo s) /\ nbusy (ct s') = nbusy (ct s) /\ ever_reset (ct s') = ever_reset (ct s).

#[global] Instance same_view_refl : Reflexive same_view.
Proof. by intros s. Qed.
#[global] Instance same_view_trans : Transitive same_view.
Proof. intros a b c (E1 & E2 & E3 & E4 & E5 & E6) (F1 & F2 & F3 & F4 & F5 & F6). split_and!; congruence. Qed.
Lemma view_sym s s' : same_view s s' -> same_view s' s.
Proof. intros (E1 & E2 & E3 & E4 & E5 & E6). by split_and!. Qed.

Lemma strip_core (J J' : gmap Z vjob) : strip <$> J' = strip <$> J -> core <$> J' = core <$> J.
Proof.
  intros E. apply map_eq. intros p. assert (E' : (strip <$> J') !! p = (strip <$> J) !! p) by by rewrite E. rewrite !lookup_fmap in E'. rewrite !lookup_fmap.
  destruct (J' !! p) as [j'|], (J !! p) as [j|]; try done. injection E'; intros. change (Some (core j') = Some (core j)). unfold core. congruence.
Qed.
Lemma calm_view s s' : calm s s' -> same_view s s'.
Proof.
  intros ((h & E1) & E2 & E3 & _ & E5 & _). unfold same_view, fences. split_and!; [by apply strip_core|done|by rewrite E1|by rewrite E1|by rewrite E5..].
Qed.

Lemma view_job s s' p j : same_view s s' -> jobs s !! p = Some j -> exists j', jobs s' !! p = Some j' /\ v_next j' = v_next j /\ v_queue j' = v_queue j /\
  v_fence j' = v_fence j /\ v_render j' = v_render j /\ v_bin j' = v_bin j /\ v_kick j' = v_kick j /\ v_dep_error j' = v_dep_error j.
Proof.
  intros (E & _) H. assert (E' : (core <$> jobs s') !! p = (core <$> jobs s) !! p) by by rewrite E. rewrite !lookup_fmap, H in E'.
  destruct (jobs s' !! p) as [j'|]; [|done]. cbn in E'. injection E' as ? ? ? ? ? ? ?. by exists j'.
Qed.

Lemma view_queue s s' q : same_view s s' -> qview (queue_at s' q) = qview (queue_at s q).
Proof.
  intros (_ & E & _). unfold queue_at. rewrite !list_lookup_total_alt. assert (E' := f_equal (fun l => l !! Z.to_nat q) E). cbn in E'. rewrite !list_lookup_fmap in E'.
  destruct (qs s' !! Z.to_nat q) as [u|], (qs s !! Z.to_nat q) as [v|]; try done. change (Some (qview u) = Some (qview v)) in E'. change (qview u = qview v). congruence.
Qed.
Lemma view_parts s s' q i : same_view s s' -> head_of s' q i = head_of s q i /\ tail_of s' q i = tail_of s q i /\ act s' q = act s q.
Proof. intros H. assert (E := view_queue s s' q H). unfold qview in E. unfold head_of, tail_of, act. injection E as -> -> -> _. done. Qed.
Lemma view_busy s s' q : same_view s s' -> busy s' q = busy s q.
Proof. intros H. unfold busy. destruct (view_parts s s' q 0 H) as (_ & _ & ->). done. Qed.

Lemma fmap_in {A B} (f : A -> B) (l l' : list A) x : f <$> l' = f <$> l -> x ∈ l' -> exists y, y ∈ l /\ f x = f y.
Proof. intros E H. assert (H' : f x ∈ f <$> l') by (apply list_elem_of_fmap; by exists x). clear H. rename H' into H. rewrite E in H. apply list_elem_of_fmap in H as (y & ? & ?). by exists y. Qed.

Lemma shape_view s s' : same_view s s' -> shape s -> shape s'.
Proof.
  intros (_ & Eq & Ef & Es & _ & _) []. injection Ef as E1 E2 E3 E4 E5 E6.
  assert (Lq := f_equal length Eq). rewrite !length_fmap in Lq. assert (Lc := f_equal length E6). rewrite !length_fmap in Lc.
  split; rewrite ?E1, ?E2, ?E3, ?E4, ?E5, ?Es, ?Lq, ?Lc; try done.
  - intros u Hu. destruct (fmap_in _ _ _ u Eq Hu) as (v & Hv & E). unfold qview in E. injection E as -> -> _ _. by apply sh_arrays0.
  - intros u Hu. destruct (fmap_in _ _ _ u Eq Hu) as (v & Hv & E). unfold qview in E. injection E as _ _ _ E. specialize (sh_rr0 v Hv). rewrite (bool_decide_eq_true_2 (0 <= rr v <= 60)) in E by done. by apply bool_decide_eq_true in E.
  - intros c Hc. destruct (fmap_in _ _ _ c E6 Hc) as (c' & Hc' & E). unfold cview in E. injection E as _ _ _ ->. by apply sh_seqs0.
Qed.

Lemma inv_view F X s s' : same_view s s' -> inv F X s -> inv F X s'.
Proof.
  intros V [H1 H2 H3 H4 H5 H6 H7 H8 H9 H10 HK H11 H12]. pose proof (view_sym _ _ V) as V'.
  pose proof V as (_ & _ & Ef & Esub & Enb & _). injection Ef as E1 E2 E3 E4 E5 E6.
  assert (Hsome : forall p, is_Some (jobs s' !! p) <-> is_Some (jobs s !! p)).
  { intros p. split; intros [j Hj]; [destruct (view_job _ _ _ _ V' Hj) as (j' & ? & _)|destruct (view_job _ _ _ _ V Hj) as (j' & ? & _)]; by exists j'. }
  assert (Ha : forall q, act s' q = act s q) by (intros q; apply (view_parts s s' q 0 V)).
  split.
  - by eapply shape_view.
  - intros q i Hq Hi. destruct (H2 q i Hq Hi) as [Hs Ht]. destruct (view_parts s s' q i V) as (-> & -> & _). split; [|done].
    eapply seg_next; [|exact Hs]. intros x j _ Hj. destruct (view_job _ _ _ _ V Hj) as (j' & ? & ? & _). by exists j'.
  - intros q i p Hp. destruct (H3 q i p Hp) as (? & ? & j & Hj & ? & ?). split_and!; [done|done|]. destruct (view_job _ _ _ _ V Hj) as (j' & ? & _ & Eq & Efe & _). exists j'. rewrite Eq, Efe. done.
  - done.
  - intros q Hq. rewrite Ha, E5. destruct (H5 q Hq) as [?|(? & j & Hj & ? & ? & ?)]; [by left|right; split; [done|]].
    destruct (view_job _ _ _ _ V Hj) as (j' & ? & _ & Eq & Efe & _). exists j'. rewrite Eq, Efe. done.
  - destruct H6 as [? H6]. split; [done|]. intros p Hp. destruct (H6 p Hp) as (? & ? & ?). split_and!; [by apply Hsome|done|]. intros q. rewrite Ha. auto.
  - intros p Hp. apply Hsome, H7 in Hp as (? & [?|[?|(q & ? & ?)]]); (split; [done|]); auto. right; right. exists q. by rewrite Ha.
  - intros p j' Hj'. destruct (view_job _ _ _ _ V' Hj') as (j & Hj & _ & Eq & Efe & _). destruct (H8 p j Hj) as (? & ? & ? & ?). rewrite <- Eq, <- Efe, E3. done.
  - intros p j' Hj'. destruct (view_job _ _ _ _ V' Hj') as (j & Hj & _ & Eq & _ & Er & _ & _). rewrite <- Er. intros Hr. destruct (H9 p j Hj Hr) as (? & r & Hrj & ? & ?). split; [congruence|].
    destruct (view_job _ _ _ _ V Hrj) as (r' & ? & _ & Eq' & _ & _ & Eb & _). exists r'. split_and!; congruence.
  - intros p j' Hj'. destruct (view_job _ _ _ _ V' Hj') as (j & Hj & _ & Eq & _ & _ & Eb & _). rewrite <- Eb. intros Hb. destruct (H10 p j Hj Hb) as (? & r & Hrj & ? & ?). split; [congruence|].
    destruct (view_job _ _ _ _ V Hrj) as (r' & ? & _ & Eq' & _ & Er & _). exists r'. split_and!; congruence.
  - intros p j' Hj' Hn. destruct (view_job _ _ _ _ V' Hj') as (j & Hj & _ & _ & _ & _ & _ & <- & _). apply (HK p j Hj). intros q Hq. rewrite <- Ha. auto.
  - rewrite Enb, H11. by rewrite !(view_busy s s').
  - intros q Hq. rewrite Esub, E2, (view_busy s s') by done. auto.
Qed.

(** ** Single queues and lists *)

Definition upd_fifo (F : Z -> Z -> list Z) (q i : Z) (l : list Z) : Z -> Z -> list Z := fun q' i' => if decide (q' = q /\ i' = i) then l else F q' i'.

Lemma queue_upd_eq s f q : length (qs s) = 6%nat -> is_queue q -> queue_at (on_qs (alter f (Z.to_nat q)) s) q = f (queue_at s q).
Proof.
  intros Hl Hq. unfold queue_at. cbn. unfold is_queue in Hq. rewrite !list_lookup_total_alt, list_lookup_alter_eq.
  destruct (lookup_lt_is_Some_2 (qs s) (Z.to_nat q)) as [u ->]; [lia|done].
Qed.
Lemma queue_upd_ne s f q q' : 0 <= q -> 0 <= q' -> q' <> q -> queue_at (on_qs (alter f (Z.to_nat q)) s) q' = queue_at s q'.
Proof. intros. unfold queue_at. cbn. rewrite !list_lookup_total_alt, list_lookup_alter_ne by lia. done. Qed.
Lemma queue_in s q : length (qs s) = 6%nat -> is_queue q -> queue_at s q ∈ qs s.
Proof. intros Hl Hq. unfold is_queue in Hq. unfold queue_at. rewrite list_lookup_total_alt. destruct (lookup_lt_is_Some_2 (qs s) (Z.to_nat q)) as [u E]; [lia|]. rewrite E. by eapply list_elem_of_lookup_2. Qed.

(** The arrays keep their lengths. *)
Lemma shape_upd s f q : (forall u, zlen (head (f u)) = zlen (head u) /\ zlen (tail (f u)) = zlen (tail u) /\ rr (f u) = rr u) -> shape s -> shape (on_qs (alter f (Z.to_nat q)) s).
Proof.
  intros Hf Sh. assert (Hu : forall u, u ∈ alter f (Z.to_nat q) (qs s) -> exists v, v ∈ qs s /\ (u = v \/ u = f v)).
  { intros u [k Hk]%list_elem_of_lookup. destruct (decide (k = Z.to_nat q)) as [->|]; [|rewrite list_lookup_alter_ne in Hk by done; exists u; split; [by eapply list_elem_of_lookup_2|by left]].
    rewrite list_lookup_alter_eq in Hk. destruct (qs s !! Z.to_nat q) as [v|] eqn:E; [|done]. cbn in Hk. injection Hk as <-. exists v. split; [by eapply list_elem_of_lookup_2|by right]. }
  destruct Sh. split; cbn; try done; [by rewrite length_alter|..]; intros u (v & Hv & [->| ->])%Hu; auto; destruct (Hf v) as (E1 & E2 & E3); rewrite ?E1, ?E2, ?E3; auto.
Qed.
Lemma shape_jobs s J : shape s -> shape (on_jobs (fun _ => J) s).
Proof. by intros []. Qed.

(** A job is found in one place. *)
Lemma place_unique F X s q i q' i' p : inv F X s -> p ∈ F q i -> p ∈ F q' i' -> q' = q /\ i' = i.
Proof. intros H H1 H2. destruct (in_F _ _ _ H _ _ _ H1) as (_ & _ & j & E & ? & ?), (in_F _ _ _ H _ _ _ H2) as (_ & _ & j' & E' & ? & ?). rewrite E in E'. injection E' as <-. split; congruence. Qed.
Lemma queued_idle F X s q i p q' : inv F X s -> p ∈ F q i -> is_queue q' -> act s q' <> p.
Proof.
  intros H H1 Hq E. destruct (in_F _ _ _ H _ _ _ H1) as (_ & _ & j & Ej & Eq & Ei). destruct (in_act _ _ _ H q' Hq) as [[E0 _]|(_ & j' & Ej' & Eq' & Hn & _)].
  - assert (p <> 0) by (apply (in_all _ _ _ H); by exists j). congruence.
  - rewrite E, Ej in Ej'. injection Ej' as <-. rewrite E in Hn. subst. done.
Qed.

Lemma core_insert (J : gmap Z vjob) p j j' : J !! p = Some j -> core j' = core j -> core <$> <[p := j']> J = core <$> J.
Proof. intros E Hs. rewrite fmap_insert, Hs. apply insert_id. by rewrite lookup_fmap, E. Qed.

(** The state in which other fields of a job have changed. *)
Lemma inv_upd F X s p j j' : inv F X s -> jobs s !! p = Some j -> core j' = core j -> inv F X (on_jobs (fun _ => <[p := j']> (jobs s)) s).
Proof. intros H E Hc. eapply inv_view; [|exact H]. split_and!; try done. cbn. by eapply core_insert. Qed.

(** What pushing and popping leaves. *)
Definition no_link (j : vjob) : vjob := put_v_next 0 j.
Definition moved s s' : Prop :=
  bo s' = bo s /\ wd s' = wd s /\ ov s' = ov s /\ ct s' = ct s /\ cf s' = cf s /\ pr s' = pr s /\ no_link <$> jobs s' = no_link <$> jobs s /\
  (forall q, is_queue q -> act s' q = act s q /\ rr (queue_at s' q) = rr (queue_at s q)).

Lemma moved_job s s' p j : moved s s' -> jobs s !! p = Some j -> exists j', jobs s' !! p = Some j' /\ no_link j' = no_link j.
Proof.
  intros (_ & _ & _ & _ & _ & _ & E & _) H. assert (E' : (no_link <$> jobs s') !! p = (no_link <$> jobs s) !! p) by by rewrite E.
  rewrite !lookup_fmap, H in E'. destruct (jobs s' !! p) as [j'|]; [|done]. exists j'. split; [done|]. change (Some (no_link j') = Some (no_link j)) in E'. congruence.
Qed.

(** The lists have changed, and the jobs in the hands of the code; all else is as it was. *)
Lemma inv_relink F X s F' X' s' : inv F X s -> shape s' -> fview (fences s') = fview (fences s) -> hw_submitted (bo s') = hw_submitted (bo s) -> nbusy (ct s') = nbusy (ct s) ->
  no_link <$> jobs s' = no_link <$> jobs s -> (forall q, is_queue q -> act s' q = act s q) ->
  (forall q i, is_queue q -> is_slot i -> seg (jobs s') (head_of s' q i) (F' q i) /\ tail_of s' q i = last0 (F' q i)) ->
  (forall q i p, p ∈ F' q i -> is_queue q /\ is_slot i /\ exists j, jobs s !! p = Some j /\ v_queue j = q /\ f_slot (v_fence j) = i) ->
  (forall q i, NoDup (F' q i)) -> NoDup X' -> (forall q q' i, is_queue q -> act s q <> 0 -> act s q ∉ F' q' i) ->
  (forall p, p ∈ X' -> is_Some (jobs s !! p) /\ (forall q i, p ∉ F' q i) /\ (forall q, is_queue q -> act s q <> p)) ->
  (forall p, p ∈ X \/ (exists q i, p ∈ F q i) -> p ∈ X' \/ (exists q i, p ∈ F' q i)) -> inv F' X' s'.
Proof.
  intros [H1 H2 H3 H4 H5 H6 H7 H8 H9 H10 HK H11 H12] Sh Ef Esub Enb Ej Ea G1 G2 G3 G4 G5 G6 G7. injection Ef as E1 E2 E3 E4 E5 E6.
  assert (V : forall p j', jobs s' !! p = Some j' -> exists j, jobs s !! p = Some j /\ v_queue j' = v_queue j /\ v_fence j' = v_fence j /\ v_render j' = v_render j /\ v_bin j' = v_bin j /\ v_kick j' = v_kick j).
  { intros p j' Hj. assert (E' : (no_link <$> jobs s') !! p = (no_link <$> jobs s) !! p) by by rewrite Ej. rewrite !lookup_fmap, Hj in E'.
    destruct (jobs s !! p) as [j|]; [|done]. exists j. unfold no_link, put_v_next in E'. injection E'; intros. split_and!; congruence. }
  assert (V' : forall p j, jobs s !! p = Some j -> exists j', jobs s' !! p = Some j' /\ v_queue j' = v_queue j /\ v_fence j' = v_fence j /\ v_render j' = v_render j /\ v_bin j' = v_bin j /\ v_kick j' = v_kick j).
  { intros p j Hj. assert (E' : (no_link <$> jobs s') !! p = (no_link <$> jobs s) !! p) by by rewrite Ej. rewrite !lookup_fmap, Hj in E'.
    destruct (jobs s' !! p) as [j'|]; [|done]. exists j'. unfold no_link, put_v_next in E'. injection E'; intros. split_and!; congruence. }
  assert (B : forall q, is_queue q -> busy s' q = busy s q) by (intros q Hq; unfold busy; by rewrite Ea).
  split; try done.
  - intros q i p Hp. destruct (G2 q i p Hp) as (? & ? & j & Hj & ? & ?). split_and!; [done|done|]. destruct (V' p j Hj) as (j' & ? & ? & Efe & _). exists j'. rewrite Efe. split_and!; congruence.
  - intros q Hq. rewrite (Ea q Hq), E5. destruct (H5 q Hq) as [?|(Hz & j & Hj & ? & ? & ?)]; [by left|right; split; [done|]].
    destruct (V' _ j Hj) as (j' & ? & ? & Efe & _). exists j'. rewrite Efe. split_and!; [done|congruence|by apply G5|done].
  - split; [done|]. intros p Hp. destruct (G6 p Hp) as ([j Hj] & ? & ?). split_and!; [destruct (V' p j Hj) as (j' & ? & _); by exists j'|done|]. intros q Hq. rewrite (Ea q Hq). auto.
  - intros p [j' Hj']. destruct (V p j' Hj') as (j & Hj & _). destruct (H7 p ltac:(by exists j)) as (? & Hp). split; [done|].
    assert (Hp' : (p ∈ X \/ (exists q i, p ∈ F q i)) \/ exists q, is_queue q /\ act s q = p) by tauto. destruct Hp' as [Hp'|(q & Hq & Hp')]; [apply G7 in Hp'; tauto|].
    right; right. exists q. by rewrite (Ea q Hq).
  - intros p j' Hj'. destruct (V p j' Hj') as (j & Hj & -> & -> & _). rewrite E3. by apply (H8 p j).
  - intros p j' Hj'. destruct (V p j' Hj') as (j & Hj & -> & _ & -> & _). intros Hr. destruct (H9 p j Hj Hr) as (? & r & Hrj & ? & ?). split; [done|].
    destruct (V' _ r Hrj) as (r' & ? & ? & _ & _ & ? & _). exists r'. split_and!; congruence.
  - intros p j' Hj'. destruct (V p j' Hj') as (j & Hj & -> & _ & _ & -> & _). intros Hr. destruct (H10 p j Hj Hr) as (? & r & Hrj & ? & ?). split; [done|].
    destruct (V' _ r Hrj) as (r' & ? & ? & _ & ? & _). exists r'. split_and!; congruence.
  - intros p j' Hj' Hn. destruct (V p j' Hj') as (j & Hj & _ & _ & _ & _ & ->). apply (HK p j Hj). intros q Hq. rewrite <- (Ea q Hq). auto.
  - rewrite Enb, H11, !B by done. done.
  - intros q Hq. rewrite Esub, E2, B by done. auto.
Qed.

Lemma pop_none F X s q i (Q : jsrv -> Z -> Prop) : inv F X s -> is_queue q -> is_slot i -> F q i = [] -> Q s 0 -> wp (fifo_pop q i) s Q.
Proof.
  intros H Hq Hi HF HQ. destruct (in_fifo _ _ _ H q i Hq Hi) as [Hs _]. rewrite HF in Hs. cbn in Hs. unfold head_of in Hs.
  unfold fifo_pop. apply wp_bind, wp_get. rewrite Hs. apply wp_bind. cbn [negb Z.eqb when]. apply wp_ret, wp_ret. done.
Qed.

Lemma last0_cons x y l : last0 (x :: y :: l) = last0 (y :: l).
Proof. done. Qed.

Lemma pop_spec F X s q i p l (Q : jsrv -> Z -> Prop) : inv F X s -> is_queue q -> is_slot i -> F q i = p :: l ->
  (forall s', moved s s' -> inv (upd_fifo F q i l) (p :: X) s' -> Q s' p) -> wp (fifo_pop q i) s Q.
Proof.
  intros H Hq Hi HF HQ. destruct (in_fifo _ _ _ H q i Hq Hi) as [Hs Ht]. rewrite HF in Hs, Ht. destruct Hs as (Hh & Hp & j & Ej & Hl).
  pose proof (in_shape _ _ _ H) as Hsh. pose proof (sh_queues _ Hsh) as L6. destruct (sh_arrays _ Hsh _ (queue_in s q L6 Hq)) as [Lh Lt].
  unfold fifo_pop. apply wp_bind, wp_get. unfold head_of in Hh. rewrite Hh. apply wp_bind. rewrite (proj2 (Z.eqb_neq _ _) Hp). cbn [negb when].
  apply wp_bind. eapply wp_job_at; [done|]. apply wp_bind, wp_modify. set (s1 := on_qs _ s). apply wp_bind.
  set (f := fun u : queue => if v_next j =? 0 then put_tail (arr_set (tail u) i 0) u else u).
  eapply (wp_mono _ _ (fun s' _ => s' = on_qs (alter f (Z.to_nat q)) s1)).
  { apply wp_when; intros E; unfold f; rewrite E; [by apply wp_modify|]. unfold on_qs. rewrite list_alter_id by done. by destruct s1. }
  intros s2 [] ->. set (s2 := on_qs _ s1). eapply wp_upd_job; [exact Ej|]. apply wp_ret. set (s3 := on_jobs _ s2).
  assert (Q2 : forall q', is_queue q' -> queue_at s3 q' = if decide (q' = q) then f (put_head (arr_set (head (queue_at s q)) i (v_next j)) (queue_at s q)) else queue_at s q').
  { intros q' Hq'. unfold is_queue in Hq, Hq'. change (queue_at s3 q') with (queue_at s2 q'). case_decide as E.
    - subst q'. unfold s2. rewrite queue_upd_eq by (done || (unfold s1; cbn; by rewrite length_alter)). unfold s1. by rewrite queue_upd_eq.
    - unfold s2, s1. by rewrite !queue_upd_ne by lia. }
  assert (Ha : forall q', is_queue q' -> act s3 q' = act s q' /\ rr (queue_at s3 q') = rr (queue_at s q')).
  { intros q' Hq'. unfold act. rewrite Q2 by done. case_decide; [subst q'|done]. unfold f. by destruct (v_next j =? 0). }
  assert (Ejobs : no_link <$> jobs s3 = no_link <$> jobs s).
  { unfold s3; cbn. rewrite fmap_insert. apply insert_id. rewrite lookup_fmap, Ej. done. }
  apply HQ; [by split_and!|]. eapply (inv_relink F X s); try done.
  - apply shape_jobs, shape_upd; [|apply shape_upd; [|done]]; intros u; unfold f; [destruct (v_next j =? 0); cbn|cbn]; unfold zlen; rewrite ?length_arr_set; done.
  - intros q' Hq'. by apply Ha.
  - intros q' i' Hq' Hi'. unfold head_of, tail_of. rewrite Q2 by done. unfold is_slot in Hi, Hi'.
    assert (Hin : forall l' p', p ∉ l' -> seg (jobs s) p' l' -> seg (jobs s3) p' l').
    { intros l' p' Hn Hs. eapply seg_next; [|exact Hs]. intros x k Hx Ek. exists k. split; [|done]. unfold s3; cbn. rewrite lookup_insert_ne; [done|]. intros <-. done. }
    pose proof (in_nodup _ _ _ H q i) as Hnd. rewrite HF in Hnd. apply NoDup_cons in Hnd as [Hpl _].
    assert (Hother : forall q'' i'', ~ (q'' = q /\ i'' = i) -> p ∉ F q'' i'') by (intros q'' i'' Hne Hp'; apply Hne; eapply (place_unique F X s q i q'' i'' p H); [rewrite HF; by left|done]).
    destruct (decide (q' = q)) as [->|Nq]; [destruct (decide (i' = i)) as [->|Ni]|].
    + unfold upd_fifo. rewrite decide_True by done. unfold f.
      destruct (v_next j =? 0) eqn:En; bsimp; cbn [head tail put_tail put_head]; rewrite arr_get_set_eq by lia; (split; [by apply Hin|]).
      * rewrite arr_get_set_eq by lia. destruct l as [|y l]; [done|]. cbn in Hl. destruct Hl as (? & ? & _). congruence.
      * unfold tail_of in Ht. rewrite Ht. destruct l as [|y l]; [cbn in Hl; congruence|done].
    + unfold upd_fifo. rewrite decide_False by tauto. destruct (in_fifo _ _ _ H q i' Hq Hi') as [Hs' Ht']. unfold f.
      destruct (v_next j =? 0); cbn [head tail put_tail put_head]; rewrite ?(arr_get_set_ne _ i i') by lia; (split; [apply Hin; [apply Hother; tauto|done]|done]).
    + unfold upd_fifo. rewrite decide_False by tauto. destruct (in_fifo _ _ _ H q' i' Hq' Hi') as [Hs' Ht']. split; [apply Hin; [apply Hother; tauto|done]|done].
  - intros q' i' p'. unfold upd_fifo. case_decide as E; [|apply (in_F _ _ _ H)]. destruct E as [-> ->]. intros Hp'. apply (in_F _ _ _ H). rewrite HF. by right.
  - intros q' i'. unfold upd_fifo. case_decide; [|apply (in_nodup _ _ _ H)]. pose proof (in_nodup _ _ _ H q i) as Hnd. rewrite HF in Hnd. by apply NoDup_cons in Hnd as [_ ?].
  - apply NoDup_cons. split; [|apply (in_X _ _ _ H)]. intros Hp'. destruct (proj2 (in_X _ _ _ H) p Hp') as (_ & Hn & _). apply (Hn q i). rewrite HF. by left.
  - intros q' q'' i' Hq' Hz. unfold upd_fifo. intros Hin. assert (Hin' : act s q' ∈ F q'' i'). { revert Hin. case_decide as E; [|done]. destruct E as [-> ->]. rewrite HF. by right. }
    by eapply (queued_idle F X s q'' i' _ q' H Hin').
  - intros p' [->|Hp']%elem_of_cons.
    + split_and!; [by exists j| |].
      * intros q' i'. unfold upd_fifo. case_decide as E.
        -- pose proof (in_nodup _ _ _ H q i) as Hnd. rewrite HF in Hnd. by apply NoDup_cons in Hnd as [? _].
        -- intros Hp'. apply E. eapply (place_unique F X s q i q' i' p H); [rewrite HF; by left|done].
      * intros q' Hq'. eapply (queued_idle F X s q i p q' H); [rewrite HF; by left|done].
    + destruct (proj2 (in_X _ _ _ H) p' Hp') as (? & Hn & ?). split_and!; [done| |done]. intros q' i'. unfold upd_fifo. case_decide as E; [|done]. destruct E as [-> ->]. intros Hin. apply (Hn q i). rewrite HF. by right.
  - intros p' [Hp'|(q' & i' & Hp')]; [left; by right|]. destruct (decide (q' = q /\ i' = i)) as [[-> ->]|Hne].
    + rewrite HF in Hp'. apply elem_of_cons in Hp' as [->|Hp']; [left; by left|]. right. exists q, i. unfold upd_fifo. by rewrite decide_True.
    + right. exists q', i'. unfold upd_fifo. by rewrite decide_False.
Qed.

(** The set of queued jobs after a push. *)
Lemma upd_fifo_in F q i l q' i' x : x ∈ upd_fifo F q i l q' i' -> (q' = q /\ i' = i /\ x ∈ l) \/ (~ (q' = q /\ i' = i) /\ x ∈ F q' i').
Proof. unfold upd_fifo. case_decide as E; [destruct E as [-> ->]; by left|by right]. Qed.

Lemma push_spec F X s q i p j (Q : jsrv -> () -> Prop) : inv F (p :: X) s -> is_queue q -> is_slot i -> jobs s !! p = Some j -> v_queue j = q -> f_slot (v_fence j) = i ->
  (forall s', moved s s' -> inv (upd_fifo F q i (F q i ++ [p])) X s' -> Q s' tt) -> wp (fifo_push q i p) s Q.
Proof.
  intros H Hq Hi Ej Eq Ei HQ. destruct (in_fifo _ _ _ H q i Hq Hi) as [Hs Ht].
  pose proof (in_shape _ _ _ H) as Hsh. pose proof (sh_queues _ Hsh) as L6. destruct (sh_arrays _ Hsh _ (queue_in s q L6 Hq)) as [Lh Lt].
  destruct (proj2 (in_X _ _ _ H) p ltac:(by left)) as (_ & Hout & Hidle). destruct (in_all _ _ _ H p ltac:(by exists j)) as [Hp0 _].
  unfold fifo_push. apply wp_bind. eapply wp_upd_job; [exact Ej|]. set (s1 := on_jobs _ s). apply wp_bind, wp_get.
  change (arr_get (tail (queue_at s1 q)) i) with (tail_of s q i). rewrite Ht. apply wp_bind.
  set (J := match last (F q i) with Some t => match jobs s1 !! t with Some k => <[t := put_v_next p k]> (jobs s1) | None => jobs s1 end | None => jobs s1 end).
  set (g := fun u : queue => if bool_decide (F q i = []) then put_head (arr_set (head u) i p) u else u).
  eapply (wp_mono _ _ (fun s' _ => s' = on_jobs (fun _ => J) (on_qs (alter g (Z.to_nat q)) s1))).
  { unfold J, g. destruct (decide (F q i = [])) as [EF|NF].
    - rewrite EF, bool_decide_eq_true_2 by done. cbn. by apply wp_modify.
    - rewrite bool_decide_eq_false_2 by done. apply last_is_Some in NF as [t Et]. unfold last0. rewrite Et. change (default 0 (Some t)) with t.
      assert (Hin : t ∈ F q i) by by apply last_Some_elem_of. rewrite (proj2 (Z.eqb_neq _ _) (seg_nonzero _ _ _ _ Hs Hin)). cbn [negb].
      destruct (seg_in _ _ _ _ Hs Hin) as [k Ek]. assert (Ek1 : jobs s1 !! t = Some k). { unfold s1; cbn. rewrite lookup_insert_ne; [done|]. intros <-. by apply (Hout q i). }
      eapply wp_upd_job; [exact Ek1|]. rewrite Ek1. unfold on_jobs, on_qs; cbn. rewrite list_alter_id by done. done. }
  intros s2 [] ->. set (s2 := on_jobs _ _). apply wp_modify. set (s3 := on_qs _ s2).
  assert (Hseg : seg J (if bool_decide (F q i = []) then p else head_of s q i) (F q i ++ [p]) /\ no_link <$> J = no_link <$> jobs s /\
     forall x k, x ∉ F q i -> x <> p -> jobs s !! x = Some k -> J !! x = Some k).
  { assert (E1 : no_link <$> jobs s1 = no_link <$> jobs s) by (unfold s1; cbn; rewrite fmap_insert; apply insert_id; by rewrite lookup_fmap, Ej).
    assert (Jp : jobs s1 !! p = Some (put_v_next 0 j)) by (unfold s1; cbn; by rewrite lookup_insert_eq).
    assert (Hs1 : seg (jobs s1) (head_of s q i) (F q i)).
    { eapply seg_next; [|exact Hs]. intros x k Hx Ek. exists k. split; [|done]. unfold s1; cbn. rewrite lookup_insert_ne; [done|]. intros <-. by apply (Hout q i). }
    assert (Hn1 : forall x k, x <> p -> jobs s !! x = Some k -> jobs s1 !! x = Some k) by (intros x k Hx Ek; unfold s1; cbn; by rewrite lookup_insert_ne).
    unfold J. destruct (decide (F q i = [])) as [EF|NF].
    - rewrite EF, bool_decide_eq_true_2 by done. cbn. split_and!; [done|done|by exists (put_v_next 0 j)|done|]. intros x k _. by apply Hn1.
    - rewrite bool_decide_eq_false_2 by done. apply last_is_Some in NF as [t Et]. rewrite Et. assert (Hin : t ∈ F q i) by by apply last_Some_elem_of.
      destruct (seg_in _ _ _ _ Hs1 Hin) as [k Ek]. rewrite Ek. split_and!.
      + eapply (seg_snoc (jobs s1) _ (F q i) p _ t); [done|apply (in_nodup _ _ _ H)|apply Hout|done|exact Jp|done|done|done].
      + rewrite <- E1. rewrite fmap_insert. apply insert_id. by rewrite lookup_fmap, Ek.
      + intros x k' Hx Hxp Ek'. rewrite lookup_insert_ne by (intros ->; done). by apply Hn1. }
  destruct Hseg as (Hseg & Enl & Hkeep).
  assert (Q3 : forall q', is_queue q' -> queue_at s3 q' = if decide (q' = q) then (fun u => put_pending (u32 (pending u + 1)) (put_tail (arr_set (tail u) i p) u)) (g (queue_at s q)) else queue_at s q').
  { intros q' Hq'. unfold is_queue in Hq, Hq'. unfold s3. case_decide as E.
    - subst q'. rewrite queue_upd_eq by (done || (unfold s2; cbn; by rewrite length_alter)). unfold s2. change (queue_at (on_jobs ?f ?x) q) with (queue_at x q). by rewrite queue_upd_eq.
    - rewrite queue_upd_ne by lia. unfold s2. change (queue_at (on_jobs ?f ?x) q') with (queue_at x q'). by rewrite queue_upd_ne by lia. }
  assert (Ha : forall q', is_queue q' -> act s3 q' = act s q' /\ rr (queue_at s3 q') = rr (queue_at s q')).
  { intros q' Hq'. unfold act. rewrite Q3 by done. case_decide; [subst q'|done]. unfold g. by destruct (bool_decide (F q i = [])). }
  apply HQ; [by split_and!|]. eapply (inv_relink F (p :: X) s); try done.
  - apply shape_upd; [intros u; cbn; unfold zlen; by rewrite length_arr_set|]. apply shape_jobs, shape_upd; [|by apply shape_jobs]. intros u. unfold g. destruct (bool_decide (F q i = [])); [|done]. cbn. unfold zlen. by rewrite length_arr_set.
  - intros q' Hq'. by apply Ha.
  - intros q' i' Hq' Hi'. unfold head_of, tail_of. rewrite Q3 by done. unfold is_slot in Hi, Hi'. change (jobs s3) with J.
    assert (Hother : forall q'' i'', is_queue q'' -> is_slot i'' -> ~ (q'' = q /\ i'' = i) -> seg J (head_of s q'' i'') (F q'' i'')).
    { intros q'' i'' Hq'' Hi'' Hne. eapply seg_next; [|apply (in_fifo _ _ _ H); done]. intros x k Hx Ek. exists k. split; [|done]. apply Hkeep; [|intros ->; by apply (Hout q'' i'')|done].
      intros Hx'. apply Hne. by eapply (place_unique F _ s q i q'' i'' x H). }
    unfold upd_fifo. destruct (decide (q' = q)) as [->|Nq]; [destruct (decide (i' = i)) as [->|Ni]|].
    + rewrite decide_True by done. unfold g. unfold last0. rewrite last_snoc. unfold head_of in Hseg.
      destruct (bool_decide (F q i = [])); cbn [head tail put_tail put_head put_pending]; rewrite !arr_get_set_eq by lia; done.
    + rewrite decide_False by tauto. destruct (in_fifo _ _ _ H q i' Hq Hi') as [_ Ht']. assert (Hh := Hother q i' Hq Hi' ltac:(tauto)). unfold g.
      destruct (bool_decide (F q i = [])); cbn [head tail put_tail put_head put_pending]; rewrite !(arr_get_set_ne _ i i') by lia; done.
    + rewrite decide_False by tauto. destruct (in_fifo _ _ _ H q' i' Hq' Hi') as [_ Ht']. split; [apply Hother; [done|done|tauto]|done].
  - intros q' i' p' [(-> & -> & [Hp'|Hp'%list_elem_of_singleton]%elem_of_app)|[_ Hp']]%upd_fifo_in; [by apply (in_F _ _ _ H)| |by apply (in_F _ _ _ H)].
    subst p'. split_and!; [done..|]. by exists j.
  - intros q' i'. unfold upd_fifo. case_decide; [|apply (in_nodup _ _ _ H)]. apply NoDup_app. split_and!; [apply (in_nodup _ _ _ H)|intros x Hx ->%list_elem_of_singleton; by apply (Hout q i)|apply NoDup_singleton].
  - pose proof (proj1 (in_X _ _ _ H)) as Hnd. by apply NoDup_cons in Hnd as [_ ?].
  - intros q' q'' i' Hq' Hz [(-> & -> & [Hp'|Hp'%list_elem_of_singleton]%elem_of_app)|[_ Hp']]%upd_fifo_in; [by eapply (queued_idle F _ s q i _ q' H)|by apply (Hidle q')|by eapply (queued_idle F _ s q'' i' _ q' H)].
  - pose proof (proj1 (in_X _ _ _ H)) as Hnd. apply NoDup_cons in Hnd as [Hpx _].
    intros p' Hp'. destruct (proj2 (in_X _ _ _ H) p' ltac:(by right)) as (? & Hn & ?). split_and!; [done| |done].
    intros q' i' [(-> & -> & [Hi2|Hi2%list_elem_of_singleton]%elem_of_app)|[_ Hi2]]%upd_fifo_in; [by apply (Hn q i)|subst; done|by apply (Hn q' i')].
  - intros p' [[->|Hp']%elem_of_cons|(q' & i' & Hp')].
    + right. exists q, i. unfold upd_fifo. rewrite decide_True by done. apply elem_of_app. right. by left.
    + by left.
    + right. exists q', i'. unfold upd_fifo. case_decide as E; [|done]. destruct E as [-> ->]. apply elem_of_app. by left.
Qed.
End queues.
End V3daQueues.
