(* ===== verification/V3daDone.v ===== *)
(** * Jobs of the V3D render server start and end

    The invariants of queues and chunks under the start of a job, its completion, and its
    removal with a client. *)

From S2P Require Import Prelude V3daSched V3daPool V3daBo V3daGpu V3daGpuFrame V3daJobs V3daChunks V3daQueues.

Module V3daDone.
Import V3da V3daPool V3daBo V3daGpu V3daGpuFrame V3daJobs V3daChunks V3daQueues.

Section done.
Context `{K : Kernel} `{D : Device}.
Implicit Types s : jsrv.

(** ** A job leaves *)

Definition unlinked (p : Z) (k k' : vjob) : Prop :=
  v_next k' = v_next k /\ v_queue k' = v_queue k /\ v_fence k' = v_fence k /\ v_kick k' = v_kick k /\
  v_render k' = (if v_render k =? p then 0 else v_render k) /\ v_bin k' = (if v_bin k =? p then 0 else v_bin k) /\ v_check k' = v_check k.
(** The heap without [p]. *)
Definition without (p : Z) (J J' : gmap Z vjob) : Prop :=
  J' !! p = None /\ (forall r k, r <> p -> J !! r = Some k -> exists k', J' !! r = Some k' /\ unlinked p k k') /\
  (forall r k', J' !! r = Some k' -> r <> p /\ exists k, J !! r = Some k).

Lemma inv_remove F X Xp s s' p j : inv F Xp s -> jobs s !! p = Some j -> without p (jobs s) (jobs s') ->
  ((Xp = X /\ act s (v_queue j) = p /\ (forall q, is_queue q -> act s' q = if decide (q = v_queue j) then 0 else act s q) /\
      active (fences s') = <[Z.to_nat (v_queue j) := None]> (active (fences s))) \/
   (Xp = p :: X /\ (forall q, is_queue q -> act s' q = act s q) /\ active (fences s') = active (fences s))) ->
  shape s' -> (forall q i, is_queue q -> is_slot i -> head_of s' q i = head_of s q i /\ tail_of s' q i = tail_of s q i) ->
  slot_gen (fences s') = slot_gen (fences s) -> nbusy (ct s') = busy s' 0 + busy s' 1 + busy s' 2 + busy s' 3 ->
  (forall q, is_queue q -> arr_get (hw_submitted (bo s')) q = u64 (arr_get (hw_completed (fences s')) q + busy s' q)) -> inv F X s'.
Proof.
  intros H Ej (Jp & Jr & Jb) Hcase Sh Hht Eg Enb Ehw. destruct (in_all _ _ _ H p ltac:(by exists j)) as [Hp0 _]. pose proof (in_job _ _ _ H p j Ej) as (Hqj & _).
  assert (HpF : forall q i, p ∉ F q i).
  { intros q i Hp. destruct Hcase as [(_ & Ha & _)|(-> & _)]; [by eapply (queued_idle F Xp s q i p (v_queue j) H)|].
    destruct (proj2 (in_X _ _ _ H) p ltac:(by left)) as (_ & Hn & _). by apply (Hn q i). }
  assert (Hact : forall q, is_queue q -> act s' q <> 0 -> act s' q = act s q /\ act s' q <> p /\ active (fences s') !! Z.to_nat q = active (fences s) !! Z.to_nat q).
  { intros q Hq. destruct Hcase as [(_ & Ha & Hs & Hl)|(-> & Hs & Hl)]; rewrite (Hs q Hq), Hl.
    - case_decide as E; [done|]. intros Hz. split_and!; [done| |unfold is_queue in *; rewrite list_lookup_insert_ne by lia; done]. intros Hap.
      destruct (in_act _ _ _ H q Hq) as [[E0 _]|(_ & j' & Ej' & Eq' & _)]; [congruence|]. rewrite Hap, Ej in Ej'. congruence.
    - intros Hz. split_and!; [done| |done]. destruct (proj2 (in_X _ _ _ H) p ltac:(by left)) as (_ & _ & Hn). by apply Hn. }
  assert (HX : forall x, x ∈ X -> x ∈ Xp /\ x <> p).
  { intros x Hx. destruct Hcase as [(-> & Ha & _)|(-> & _)].
    - split; [done|]. intros ->. destruct (proj2 (in_X _ _ _ H) p Hx) as (_ & _ & Hn). by apply (Hn (v_queue j)).
    - split; [by right|]. intros ->. pose proof (proj1 (in_X _ _ _ H)) as Hnd. by apply NoDup_cons in Hnd as [? _]. }
  split; try done.
  - intros q i Hq Hi. destruct (Hht q i Hq Hi) as [-> ->]. destruct (in_fifo _ _ _ H q i Hq Hi) as [Hs Ht]. split; [|done]. eapply seg_next; [|exact Hs].
    intros x k Hx Ek. destruct (Jr x k ltac:(intros ->; by eapply HpF) Ek) as (k' & ? & ? & _). by exists k'.
  - intros q i x Hx. destruct (in_F _ _ _ H q i x Hx) as (? & ? & k & Ek & ? & ?). split_and!; [done..|]. destruct (Jr x k ltac:(intros ->; by eapply HpF) Ek) as (k' & ? & _ & ? & Ef & _). exists k'. rewrite Ef. split_and!; congruence.
  - apply (in_nodup _ _ _ H).
  - intros q Hq. destruct (decide (act s' q = 0)) as [E0|Hz].
    + left. split; [done|]. destruct Hcase as [(_ & Ha & Hs & Hl)|(-> & Hs & Hl)]; rewrite Hl; specialize (Hs q Hq).
      * destruct (decide (q = v_queue j)) as [->|Hne]. { apply list_lookup_insert_eq. rewrite (sh_active _ (in_shape _ _ _ H)). unfold is_queue in Hqj. lia. }
        unfold is_queue in *. rewrite list_lookup_insert_ne by lia. destruct (in_act _ _ _ H q Hq) as [[_ E]|[Hz _]]; [done|congruence].
      * destruct (in_act _ _ _ H q Hq) as [[_ E]|[Hz _]]; [done|congruence].
    + right. split; [done|]. destruct (Hact q Hq Hz) as (-> & Hap & ->). destruct (in_act _ _ _ H q Hq) as [[E0 _]|(_ & k & Ek & ? & ? & ?)]; [destruct (Hact q Hq Hz); congruence|].
      assert (act s q <> p) by (destruct (Hact q Hq Hz) as (<- & ? & _); done). destruct (Jr _ k ltac:(done) Ek) as (k' & ? & _ & ? & Ef & _). exists k'. rewrite Ef. split_and!; [done|congruence|done|done].
  - split. { pose proof (proj1 (in_X _ _ _ H)) as Hnd. destruct Hcase as [(-> & _)|(-> & _)]; [done|]. by apply NoDup_cons in Hnd as [_ ?]. }
    intros x Hx. destruct (HX x Hx) as [Hx' Hxp]. destruct (proj2 (in_X _ _ _ H) x Hx') as ([k Ek] & ? & Hn). split_and!; [destruct (Jr x k Hxp Ek) as (k' & ? & _); by exists k'|done|].
    intros q Hq Hax. destruct (Hact q Hq) as (E & _); [rewrite Hax; apply (in_all _ _ _ H); by exists k|]. apply (Hn q Hq). congruence.
  - intros x [k' Ek']. destruct (Jb x k' Ek') as (Hxp & k & Ek). destruct (in_all _ _ _ H x ltac:(by exists k)) as (? & Hx). split; [done|].
    destruct Hx as [Hx|[Hx|(q & Hq & Hx)]]; [|by right; left|].
    + destruct Hcase as [(-> & _)|(-> & _)]; [by left|]. apply elem_of_cons in Hx as [->|Hx]; [done|by left].
    + right; right. exists q. split; [done|]. destruct Hcase as [(_ & Ha & Hs & _)|(_ & Hs & _)]; rewrite (Hs q Hq); [|done]. case_decide; [subst; congruence|done].
  - intros x k' Ek'. destruct (Jb x k' Ek') as (Hxp & k & Ek). destruct (Jr x k Hxp Ek) as (k2 & Ek2 & _ & Eq & Ef & _). rewrite Ek' in Ek2. injection Ek2 as <-. rewrite Eq, Ef, Eg. by apply (in_job _ _ _ H x k).
  - intros x k' Ek'. destruct (Jb x k' Ek') as (Hxp & k & Ek). destruct (Jr x k Hxp Ek) as (k2 & Ek2 & _ & Eq & Ef & _ & Er & _). rewrite Ek' in Ek2. injection Ek2 as <-. rewrite Er, Eq.
    destruct (v_render k =? p) eqn:E; [done|]. bsimp. intros Hr. destruct (in_render _ _ _ H x k Ek Hr) as (? & y & Ey & ? & ?). split; [done|].
    destruct (Jr _ y ltac:(done) Ey) as (y' & ? & _ & ? & _ & _ & _ & Eb & _). exists y'. rewrite Eb. split_and!; [done|congruence|]. destruct (v_bin y =? p) eqn:E'; bsimp; congruence.
  - intros x k' Ek'. destruct (Jb x k' Ek') as (Hxp & k & Ek). destruct (Jr x k Hxp Ek) as (k2 & Ek2 & _ & Eq & Ef & _ & _ & Er & _). rewrite Ek' in Ek2. injection Ek2 as <-. rewrite Er, Eq.
    destruct (v_bin k =? p) eqn:E; [done|]. bsimp. intros Hr. destruct (in_bin _ _ _ H x k Ek Hr) as (? & y & Ey & ? & ?). split; [done|].
    destruct (Jr _ y ltac:(done) Ey) as (y' & ? & _ & ? & _ & _ & Eb & _). exists y'. rewrite Eb. split_and!; [done|congruence|]. destruct (v_render y =? p) eqn:E'; bsimp; congruence.
  - intros x k' Ek' Hn. destruct (Jb x k' Ek') as (Hxp & k & Ek). destruct (Jr x k Hxp Ek) as (k2 & Ek2 & _ & _ & _ & Ekk & _). rewrite Ek' in Ek2. injection Ek2 as <-. rewrite Ekk.
    apply (in_kick _ _ _ H x k Ek). intros q Hq Hax. destruct Hcase as [(_ & Ha & Hs & _)|(_ & Hs & _)].
    + destruct (decide (q = v_queue j)) as [->|Hne]; [congruence|]. apply (Hn q Hq). rewrite (Hs q Hq), decide_False by done. done.
    + apply (Hn q Hq). by rewrite (Hs q Hq).
Qed.

(** ** The links and chunks of a job that ends *)

Lemma wp_free s p j (Q : jsrv -> () -> Prop) : jobs s !! p = Some j -> p <> 0 -> Q (on_jobs (delete p) s) tt -> wp (free_job p) s Q.
Proof. intros Ej Hp HQ. unfold free_job. rewrite (proj2 (Z.eqb_neq _ _) Hp). apply wp_bind. eapply wp_job_at; [exact Ej|]. by apply wp_modify. Qed.

(** A bin and its render job know each other. *)
Definition links (J : gmap Z vjob) : Prop := J !! 0 = None /\
  (forall p j, J !! p = Some j -> v_render j <> 0 -> v_queue j = Q_BIN /\ exists r, J !! v_render j = Some r /\ v_queue r = Q_RENDER /\ v_bin r = p) /\
  (forall p j, J !! p = Some j -> v_bin j <> 0 -> v_queue j = Q_RENDER /\ exists b, J !! v_bin j = Some b /\ v_queue b = Q_BIN /\ v_render b = p).
Lemma inv_links F X s : inv F X s -> links (jobs s).
Proof.
  intros H. split_and!; [|apply (in_render _ _ _ H)|apply (in_bin _ _ _ H)]. destruct (jobs s !! 0) eqn:E; [|done]. destruct (in_all _ _ _ H 0 ltac:(by eexists)). done.
Qed.

(** The jobs linked to [j] forget it. *)
Definition cut (g : vjob -> vjob) (j : vjob) (m : gmap Z vjob) : gmap Z vjob := alter (put_v_render 0) (v_bin j) (alter g (v_render j) m).

(** The state differs in jobs and chunks only. *)
Definition only_jobs s s' : Prop := exists J o, s' = on_jobs (fun _ => J) (on_ov (fun _ => o) s) /\ same_pool (ov s) o /\ staged o = staged (ov s) /\ bin_waiting o = bin_waiting (ov s).

Lemma rechunked_only s s' : rechunked s s' -> only_jobs s s'.
Proof. intros (J & o & -> & _ & ? & ? & ?). by exists J, o. Qed.
Lemma only_trans s1 s2 s3 : only_jobs s1 s2 -> only_jobs s2 s3 -> only_jobs s1 s3.
Proof. intros (J & o & -> & (? & ? & ?) & ? & ?) (J' & o' & -> & (? & ? & ?) & ? & ?). exists J', o'. cbn in *. split_and!; try done; try congruence. split_and!; congruence. Qed.
Lemma only_upd s r k : only_jobs s (on_jobs (fun _ => <[r := k]> (jobs s)) s).
Proof. exists (<[r := k]> (jobs s)), (ov s). split_and!; done. Qed.

Lemma strip_alter (J : gmap Z vjob) r k f : J !! r = Some k -> (forall j, strip (f j) = f (strip j)) -> strip <$> <[r := f k]> J = alter f r (strip <$> J).
Proof.
  intros E Hf. apply map_eq. intros x. rewrite lookup_fmap. destruct (decide (x = r)) as [->|Hx].
  - rewrite lookup_insert_eq, lookup_alter_eq, lookup_fmap, E. cbn. by rewrite Hf.
  - by rewrite lookup_insert_ne, lookup_alter_ne, lookup_fmap by done.
Qed.
Lemma alter_none {A} (m : gmap Z A) r f : m !! r = None -> alter f r m = m.
Proof. intros E. apply map_eq. intros x. destruct (decide (x = r)) as [->|Hx]; [by rewrite lookup_alter_eq, E|by rewrite lookup_alter_ne]. Qed.

Lemma ovfs_upd s r k f : jobs s !! r = Some k -> v_ovf (f k) = v_ovf k -> ovfs (on_jobs (fun _ => <[r := f k]> (jobs s)) s) = ovfs s.
Proof. intros E Hf. unfold ovfs; cbn. rewrite fmap_insert, Hf. apply insert_id. by rewrite lookup_fmap, E. Qed.
Lemma mem_job_upd s r k f : jobs s !! r = Some k -> v_ovf (f k) = v_ovf k -> mem_ok s -> mem_ok (on_jobs (fun _ => <[r := f k]> (jobs s)) s).
Proof. intros E Hf. apply mem_ok_eq; [done|done|]. by apply ovfs_upd. Qed.

Lemma unlink_spec s p j e : links (jobs s) -> mem_ok s -> jobs s !! p = Some j ->
  wp (unlink (v_queue j) p e j) s (fun s' _ => only_jobs s s' /\ mem_ok s' /\ ovfs s' !! p = Some (-1) /\ strip <$> jobs s' = cut (fail_bin e) j (strip <$> jobs s)).
Proof.
  intros (Hz & HR & HB) Hm Ej.
  unfold unlink. apply wp_bind. eapply (wp_mono _ _ (fun s' _ => only_jobs s s' /\ mem_ok s' /\ ovfs s' !! p = Some (-1) /\ strip <$> jobs s' = alter (fail_bin e) (v_render j) (strip <$> jobs s))).
  { destruct (v_queue j =? Q_BIN) eqn:Eq; bsimp.
    - apply wp_bind. eapply (wp_mono _ _ (fun s' _ => only_jobs s s' /\ mem_ok s' /\ strip <$> jobs s' = alter (fail_bin e) (v_render j) (strip <$> jobs s))).
      { apply wp_when; intros Er; bsimp.
        - destruct (HR p j Ej ltac:(done)) as (_ & r & Erj & Erq & _). assert (Hpr : p <> v_render j) by (intros E; rewrite <- E, Ej in Erj; injection Erj as <-; rewrite Eq in Erq; done).
          apply wp_bind. eapply wp_upd_job; [exact Erj|]. set (s1 := on_jobs _ s). assert (M1 : mem_ok s1) by by apply mem_job_upd. destruct M1 as [[L H1] A1].
          eapply wp_mono; [eapply (move_spec chunk_fuel s1 L p (v_render j) j (fail_bin e r) H1 Hpr)|].
          + unfold s1; cbn. by rewrite lookup_insert_ne.
          + unfold s1; cbn. by rewrite lookup_insert_eq.
          + by eapply chunk_list_length.
          + intros s2 [] [R HL]. split_and!; [eapply only_trans; [apply only_upd|by apply rechunked_only]|split; [done|by eapply rechunked_armed]|].
            destruct R as (J & o & -> & E & _). cbn. rewrite E. unfold s1; cbn. by apply strip_alter.
        - rewrite Er, alter_none by (by rewrite lookup_fmap, Hz). split_and!; [|done|done]. exists (jobs s), (ov s). split_and!; try done. by destruct s. }
      intros s1 [] (O1 & M1 & E1).
      assert (Ej1 : exists j1, jobs s1 !! p = Some j1). { assert (E : (strip <$> jobs s1) !! p <> None). { rewrite E1. destruct (decide (p = v_render j)) as [Hp|Hp]; [rewrite <- Hp, lookup_alter_eq|rewrite lookup_alter_ne by done]; by rewrite lookup_fmap, Ej. }
        rewrite lookup_fmap in E. destruct (jobs s1 !! p) as [j1|]; [by exists j1|done]. }
      destruct Ej1 as [j1 Ej1]. apply wp_bind. eapply wp_job_at; [exact Ej1|]. eapply wp_mono; [by apply release_spec|]. intros s2 [] (R & M2 & O2). split_and!; [eapply only_trans; [exact O1|by apply rechunked_only]|done|done|].
      destruct R as (J & o & -> & E & _). cbn. by rewrite E.
    - assert (Er : v_render j = 0). { destruct (decide (v_render j = 0)); [done|]. by destruct (HR p j Ej). }
      rewrite Er, alter_none by (by rewrite lookup_fmap, Hz). apply wp_when; intros Eo; bsimp.
      + eapply wp_mono; [by apply release_spec|]. intros s2 [] (R & M2 & O2). split_and!; [by apply rechunked_only|done|done|]. by destruct R as (J & o & -> & E & _).
      + split_and!; [exists (jobs s), (ov s); split_and!; try done; by destruct s|done| |done]. unfold ovfs. rewrite lookup_fmap, Ej. cbn. f_equal.
        destruct Hm as [[L [H1 _ _ _ _ _]] _]. destruct (chain_head _ _ _ (ow_chain _ _ _ _ H1 (Of p))) as [[E _]|[E _]]; cbn in E; unfold ovfs in E; rewrite lookup_fmap, Ej in E; cbn in E; [done|lia]. }
  intros s1 [] (O1 & M1 & P1 & E1). unfold cut. apply wp_when; intros Eb; bsimp.
  - destruct (HB p j Ej ltac:(done)) as (Eq & b & Ebj & Ebq & _).
    assert (Er : v_render j = 0). { destruct (decide (v_render j = 0)); [done|]. destruct (HR p j Ej ltac:(done)) as (E & _). rewrite E in Eq. done. }
    rewrite Er, (alter_none _ 0) in * by (by rewrite lookup_fmap, Hz).
    assert (Eb1 : exists b1, jobs s1 !! v_bin j = Some b1). { assert (E : (strip <$> jobs s1) !! v_bin j = (strip <$> jobs s) !! v_bin j) by by rewrite E1. rewrite !lookup_fmap, Ebj in E. destruct (jobs s1 !! v_bin j) as [b1|]; [by exists b1|done]. }
    destruct Eb1 as [b1 Eb1]. eapply wp_upd_job; [exact Eb1|]. split_and!; [eapply only_trans; [exact O1|apply only_upd]|by apply mem_job_upd|by rewrite ovfs_upd|].
    cbn. rewrite (strip_alter _ _ b1) by done. by rewrite E1.
  - split_and!; [done..|]. rewrite E1, Eb. symmetry. apply alter_none. destruct (decide (v_render j = 0)) as [->|Hr]; [rewrite lookup_alter_eq|rewrite lookup_alter_ne by done]; by rewrite lookup_fmap, Hz.
Qed.
End done.
End V3daDone.
