(* ===== verification/V3daOrder.v ===== *)
(** * The invariant of the V3D render server's jobs

    [fine] joins the invariants of the queues, the overflow chunks, the clients and the parked
    waits; [lines] says that as long as the GPU was not reset the jobs of a client on a queue carry the
    sequence numbers after the last completed one, in order. A job that ends keeps both. *)

From S2P Require Import Prelude V3daSched V3daSchedCorrect V3daFences V3daPool V3daBo V3daGpu V3daGpuFrame V3daJobs V3daChunks V3daQueues V3daDone.

Module V3daOrder.
Import V3da V3daPool V3daBo V3daGpu V3daGpuFrame V3daJobs V3daChunks V3daQueues V3daDone.

(** ** Buffers do not touch fences *)

Section buffers.
Context `{K : Kernel}.
Implicit Types b : bsrv.

Definition bkeep b b' : Prop := base b' = base b /\ hw_submitted b' = hw_submitted b.
#[global] Instance bkeep_refl : Reflexive bkeep.
Proof. by intros b. Qed.
#[global] Instance bkeep_trans : Transitive bkeep.
Proof. intros a b c [] []. split; congruence. Qed.

Lemma bkeep_fold {A} (f : bsrv -> A -> bsrv) l b : (forall b x, bkeep b (f b x)) -> bkeep b (fold_left f l b).
Proof. intros H. revert b. induction l as [|x l IH]; intros b; cbn; [done|]. etransitivity; [apply H|apply IH]. Qed.

Ltac keep := first [eassumption | split; reflexivity].
Lemma bkeep_withdraw b i : bkeep b (export_withdraw b i).
Proof. unfold export_withdraw. case_if; keep. Qed.
Lemma bkeep_quarantine b i : bkeep b (quarantine_begin b i).
Proof.
  unfold quarantine_begin. etransitivity; [apply (bkeep_withdraw _ i)|]. generalize (export_withdraw b i). intros c.
  unfold unclaim. repeat case_if; keep.
Qed.
Lemma bkeep_unref b i : bkeep b (bo_unref b i).
Proof.
  unfold bo_unref. set (c := if 0 <? _ then _ else b). assert (bkeep b c) by (unfold c; case_if; keep). case_if; [|keep]. case_if.
  - etransitivity; [keep|]. etransitivity; [apply (bkeep_withdraw _ i)|apply bkeep_quarantine].
  - etransitivity; [keep|apply bkeep_withdraw].
Qed.
Lemma bkeep_unpin b l : bkeep b (v3da_bo_unpin b l).
Proof.
  apply bkeep_fold. intros c h. unfold unpin_one. destruct (bo_lookup c h) as [i|]; [|keep]. set (d := if 0 <? _ then _ else c).
  assert (bkeep c d) by (unfold d; case_if; keep). cbn. case_if; [|keep]. etransitivity; [keep|apply bkeep_quarantine].
Qed.
Lemma bkeep_pin b l : bkeep b (v3da_bo_pin_for_job b l).2.
Proof. unfold v3da_bo_pin_for_job. case_if; [|keep]. apply bkeep_fold. intros c h. unfold pin_one. destruct (v3da_bo_find c h); keep. Qed.
Lemma bkeep_mark b l f g : bkeep b (v3da_bo_mark_use b l f g).
Proof. apply bkeep_fold. intros c h. unfold mark_one. destruct (bo_lookup c h); [|keep]. case_if; keep. Qed.
Lemma bkeep_trim b now us : bkeep b (pool_trim b now us).
Proof. unfold pool_trim. case_if; keep. Qed.
Lemma bkeep_put b cpu pa n c : bkeep b (block_put b cpu pa n c).
Proof. unfold block_put. case_if; [|keep]. destruct (k_now (kern b)) as [now k]. case_if; [|keep]. etransitivity; [|apply bkeep_trim]. keep. Qed.
Lemma bkeep_poll b : bkeep b (v3da_bo_quarantine_poll b).
Proof.
  apply bkeep_fold. intros c i. unfold poll_one. case_if; [|keep]. transitivity (release_block c (bo_at c i)); [|keep]. unfold release_block. case_if; [keep|].
  set (d := if m_low _ then _ else c). assert (bkeep c d) by (unfold d; case_if; keep). etransitivity; [keep|apply bkeep_put].
Qed.
Lemma bkeep_tick b now soon : bkeep b (v3da_bo_pool_tick b now soon).
Proof. unfold v3da_bo_pool_tick. set (c := if soon || _ then _ else b). assert (bkeep b c); [|keep]. unfold c. case_if; [|keep]. etransitivity; [|apply bkeep_trim]. keep. Qed.
Lemma bkeep_gone b c : bkeep b (v3da_bo_client_gone b c).
Proof.
  unfold v3da_bo_client_gone. etransitivity; [apply (bkeep_fold (gone_one c) (seq 0 (length (bos b))))|].
  - intros d i. unfold gone_one. case_if; [keep|]. set (e := if V3daBo.owner _ =? c then _ else d). assert (bkeep d e).
    { unfold e. case_if; [|keep]. etransitivity; [|apply bkeep_unref]. keep. }
    case_if; [|keep]. etransitivity; [keep|]. etransitivity; [|apply bkeep_unref]. keep.
  - generalize (fold_left (gone_one c) (seq 0 (length (bos b))) b). intros d. etransitivity; [apply bkeep_poll|].
    destruct (k_now _) as [now k]. etransitivity; [|apply bkeep_tick]. keep.
Qed.
End buffers.

Section order.
Context `{K : Kernel} `{D : Device}.
Implicit Types s : jsrv.

(** ** The invariants *)

(** The parked requests, and the lists of claimed ones. *)
Definition parked_lists : Type := list (Z * request) * list (Z * list (Z * request)).
Definition wview (b : srv) := (heap b, waits b, nparked b).

Record fine (F : Z -> Z -> list Z) (X : list Z) (W : parked_lists) s : Prop := {
  fn_inv : inv F X s;
  fn_mem : mem_ok s;
  fn_clients i c : clients (fences s) !! i = Some c -> if c_used c then c_id c = Z.of_nat i + 1 /\ c_slot c = Z.of_nat i else forall q, F q (Z.of_nat i) = [];
  fn_gens i : is_slot i -> gen (slot_at (fences s) i) = slot_gen (fences s) !!! Z.to_nat i;
  fn_waits : V3daCorrect.rep (fences s) W.1 W.2;
  fn_reqs : Forall (fun n => V3daCorrect.req_ok n.2) W.1
}.

Definition done_of s q i : Z := arr_get (completed (slot_at (fences s) i)) q.
Definition seq_of s (p : Z) : Z := from_option (fun j => f_seqno (v_fence j)) 0 (jobs s !! p).

(** The sequence numbers of the jobs in [l], of slot [i] on queue [q]: of an open client they are all that
    are not completed, of a client that has gone only the job on the hardware is left. *)
Inductive phase := Open | Closing | Closed.
Definition line_ok (ph : phase) s q i (l : list Z) : Prop :=
  0 <= done_of s q i /\ seq_of s <$> l = seqZ (done_of s q i + 1) (zlen l) /\
  match ph with
  | Open => done_of s q i + zlen l = arr_get (next_seq (client_at (fences s) i)) q
  | Closing => done_of s q i + zlen l <= arr_get (next_seq (client_at (fences s) i)) q
  | Closed =>
      match l with
      | [] => done_of s q i = arr_get (dead_flush (fences s) !!! Z.to_nat i) q
      | _ => zlen l = 1 /\ done_of s q i + 1 <= arr_get (dead_flush (fences s) !!! Z.to_nat i) q
      end
  end.
Definition no_errors s : Prop := forall p j, jobs s !! p = Some j -> v_error j = false /\ v_dep_error j = false.
Definition lines (op : Z -> Z -> phase) (L : Z -> Z -> list Z) s : Prop :=
  ever_reset (ct s) = false -> no_errors s /\ forall q i, is_queue q -> is_slot i -> line_ok (op q i) s q i (L q i).

(** The phases between the operations. *)
Definition phase_of s (q i : Z) : phase := if c_used (client_at (fences s) i) then Open else Closed.

(** The job on the hardware comes first. *)
Definition actl s q i : list Z :=
  if act s q =? 0 then [] else if from_option (fun j => f_slot (v_fence j) =? i) false (jobs s !! act s q) then [act s q] else [].
Definition rest (F : Z -> Z -> list Z) s q i : list Z := actl s q i ++ F q i.

(** ** Frames *)

Lemma client_row s i : shape s -> is_slot i -> clients (fences s) !! Z.to_nat i = Some (client_at (fences s) i).
Proof. intros H Hi. unfold is_slot in Hi. unfold client_at. apply list_lookup_lookup_total_lt. rewrite (sh_clients _ H). lia. Qed.
Lemma rep_eq (b b' : srv) ws outs : wview b' = wview b -> V3daCorrect.rep b ws outs -> V3daCorrect.rep b' ws outs.
Proof. intros E. injection E as E1 E2 E3. unfold V3daCorrect.rep. by rewrite E1, E2, E3. Qed.
Lemma fview_client (b b' : srv) i c : fview b' = fview b -> clients b' !! i = Some c -> exists c0, clients b !! i = Some c0 /\ cview c0 = cview c.
Proof.
  intros E H. injection E as _ _ _ _ _ E. assert (E' : (cview <$> clients b') !! i = (cview <$> clients b) !! i) by by rewrite E. rewrite !list_lookup_fmap, H in E'.
  destruct (clients b !! i) as [c0|]; [|done]. exists c0. split; [done|]. change (Some (cview c) = Some (cview c0)) in E'. congruence.
Qed.
Lemma fview_at (b b' : srv) i : fview b' = fview b -> cview (client_at b' i) = cview (client_at b i).
Proof.
  intros E. injection E as _ _ _ _ _ E. unfold client_at. rewrite !list_lookup_total_alt. assert (E' := f_equal (fun l => l !! Z.to_nat i) E). cbn in E'. rewrite !list_lookup_fmap in E'.
  destruct (clients b' !! Z.to_nat i) as [u|], (clients b !! Z.to_nat i) as [v|]; try done. change (Some (cview u) = Some (cview v)) in E'. change (cview u = cview v). congruence.
Qed.

Lemma fine_view F X W s s' : same_view s s' -> wview (fences s') = wview (fences s) -> mem_ok s' -> fine F X W s -> fine F X W s'.
Proof.
  intros V Ew M [H1 H2 H3 H4 H5 H6]. pose proof V as (_ & _ & Ef & _ & _ & _). split; [by eapply inv_view|done| | |by eapply rep_eq|done].
  - intros i c Hc. destruct (fview_client _ _ _ _ Ef Hc) as (c0 & Hc0 & E). injection E as E1 E2 E3 _. rewrite <- E1, <- E2, <- E3. by apply H3.
  - injection Ef as E1 _ E3 _ _ _. unfold slot_at. rewrite E1, E3. exact H4.
Qed.

Definition errs s : gmap Z bool := v_error <$> jobs s.
Lemma seq_view s s' p : same_view s s' -> seq_of s' p = seq_of s p.
Proof.
  intros V. unfold seq_of. destruct (jobs s !! p) as [j|] eqn:E; [destruct (view_job _ _ _ _ V E) as (j' & -> & _ & _ & Ef & _); cbn; by rewrite Ef|].
  destruct (jobs s' !! p) as [j'|] eqn:E'; [|done]. destruct (view_job _ _ _ _ (view_sym _ _ V) E') as (j & Ej & _). congruence.
Qed.
Lemma line_view o s s' q i l : same_view s s' -> line_ok o s q i l -> line_ok o s' q i l.
Proof.
  intros V. pose proof V as (_ & _ & Ef & _). pose proof (fview_at _ _ i Ef) as Ec. injection Ec as _ _ _ En. injection Ef as E1 _ _ E4 _ _.
  unfold line_ok, done_of, slot_at. rewrite E1, E4, En. rewrite (list_fmap_ext (seq_of s') (seq_of s) l); [done|]. intros k x _. by apply seq_view.
Qed.
Lemma lines_view op L s s' : same_view s s' -> errs s' = errs s -> lines op L s -> lines op L s'.
Proof.
  intros V Ee H. pose proof V as (_ & _ & _ & _ & _ & Er). intros Hr. rewrite Er in Hr. destruct (H Hr) as [Hn Hl]. split; [|intros q i Hq Hi; eapply line_view; [exact V|by apply Hl]].
  intros p j' Ej'. destruct (view_job _ _ _ _ (view_sym _ _ V) Ej') as (j & Ej & _ & _ & _ & _ & _ & _ & Ed). destruct (Hn p j Ej) as [En Edd]. split; [|congruence].
  assert (E : errs s' !! p = errs s !! p) by by rewrite Ee. unfold errs in E. rewrite !lookup_fmap, Ej, Ej' in E. cbn in E. congruence.
Qed.

Lemma actl_view s s' q i : same_view s s' -> actl s' q i = actl s q i.
Proof.
  intros V. unfold actl. destruct (view_parts s s' q 0 V) as (_ & _ & ->). destruct (jobs s !! act s q) as [j|] eqn:E; [destruct (view_job _ _ _ _ V E) as (j' & -> & _ & _ & Ef & _); cbn; by rewrite Ef|].
  destruct (jobs s' !! act s q) as [j'|] eqn:E'; [|done]. destruct (view_job _ _ _ _ (view_sym _ _ V) E') as (j & Ej & _). congruence.
Qed.

(** What leaves the queues, the fences and the jobs as they are. *)
Definition still s s' : Prop := same_view s s' /\ wview (fences s') = wview (fences s) /\ errs s' = errs s.
#[global] Instance still_refl : Reflexive still.
Proof. by intros s. Qed.
#[global] Instance still_trans : Transitive still.
Proof. intros a b c (V1 & W1 & E1) (V2 & W2 & E2). split_and!; [by etransitivity|congruence..]. Qed.
Lemma calm_still s s' : calm s s' -> still s s'.
Proof.
  intros C. split_and!; [by apply calm_view| |].
  - destruct C as ((h & E) & _). unfold fences. by rewrite E.
  - destruct C as (_ & E & _). unfold errs. apply map_eq. intros p. assert (E' : (strip <$> jobs s') !! p = (strip <$> jobs s) !! p) by by rewrite E. rewrite !lookup_fmap in *.
    destruct (jobs s' !! p), (jobs s !! p); try done. injection E'; intros. cbn. congruence.
Qed.
Lemma quiet_still s s' : quiet s s' -> still s s'.
Proof. intros [F _]. by apply calm_still, frame_calm. Qed.
Lemma quiet_mem s s' : quiet s s' -> mem_ok s -> mem_ok s'.
Proof. intros Q [[L H] A]. split; [exists L; eapply frame_chunks; [apply Q|done]|by eapply quiet_armed]. Qed.
Lemma fine_still F X W s s' : still s s' -> mem_ok s' -> fine F X W s -> fine F X W s'.
Proof. intros (V & E & _). by apply fine_view. Qed.
Lemma lines_still op F L s s' : still s s' -> lines op L s -> L = rest F s -> lines op (rest F s') s'.
Proof. intros (V & _ & E) H ->. intros Hr. destruct (lines_view _ _ _ _ V E H Hr) as [Hn Hl]. split; [done|]. intros q i Hq Hi. unfold rest. rewrite (actl_view _ _ _ _ V). by apply Hl. Qed.

(** ** A job leaves *)

(** What becomes of the render job of [j]. *)
Definition cutter (g : vjob -> vjob) : Prop := forall k, v_next (g k) = v_next k /\ v_queue (g k) = v_queue k /\ v_fence (g k) = v_fence k /\
  v_kick (g k) = v_kick k /\ v_render (g k) = v_render k /\ v_bin (g k) = 0 /\ v_error (g k) = v_error k /\ v_check (g k) = v_check k.

Lemma cut_lookup (J J3 : gmap Z vjob) j g r : strip <$> J3 = cut g j (strip <$> J) ->
  strip <$> J3 !! r = (if decide (r = v_bin j) then put_v_render 0 else id) <$> ((if decide (r = v_render j) then g else id) <$> (strip <$> J !! r)).
Proof.
  intros E. assert (E' : (strip <$> J3) !! r = cut g j (strip <$> J) !! r) by by rewrite E. rewrite lookup_fmap in E'. rewrite E'. unfold cut.
  destruct (decide (r = v_bin j)) as [->|Hb]; [rewrite lookup_alter_eq|rewrite lookup_alter_ne by done; rewrite option_fmap_id];
    (case_decide as Hr; [rewrite Hr, lookup_alter_eq|rewrite lookup_alter_ne by done; rewrite ?option_fmap_id]; by rewrite lookup_fmap).
Qed.

Lemma without_cut (J J3 : gmap Z vjob) p j g : links J -> J !! p = Some j -> cutter g -> strip <$> J3 = cut g j (strip <$> J) -> without p J (delete p J3).
Proof.
  intros (H0 & HR & HB) Ej Hg E. assert (Hp : p <> 0) by (intros ->; congruence). split_and!; [apply lookup_delete_eq| |].
  - intros r k Hr Ek. rewrite lookup_delete_ne by done. pose proof (cut_lookup J J3 j g r E) as C. rewrite Ek in C. cbn in C.
    destruct (J3 !! r) as [k'|]; [|done]. exists k'. split; [done|]. injection C as C. destruct (Hg (strip k)) as (G1 & G2 & G3 & G4 & G5 & G6 & _ & G8).
    assert (Nr : r <> 0) by (intros ->; congruence).
    assert (Xr : v_render k = p <-> r = v_bin j).
    { split; [intros Er; destruct (HR r k Ek ltac:(congruence)) as (_ & y & Ey & _ & <-); rewrite Er, Ej in Ey; congruence|].
      intros ->. destruct (HB p j Ej ltac:(congruence)) as (_ & y & Ey & _ & <-). congruence. }
    assert (Xb : v_bin k = p <-> r = v_render j).
    { split; [intros Er; destruct (HB r k Ek ltac:(congruence)) as (_ & y & Ey & _ & <-); rewrite Er, Ej in Ey; congruence|].
      intros ->. destruct (HR p j Ej ltac:(congruence)) as (_ & y & Ey & _ & <-). congruence. }
    assert (Vs : forall f : vjob -> Z, (forall x, f (strip x) = f x) -> f k' = f ((if decide (r = v_bin j) then put_v_render 0 else id) ((if decide (r = v_render j) then g else id) (strip k)))) by (intros f Hf; rewrite <- C; by rewrite Hf).
    assert (Vf : v_fence k' = v_fence ((if decide (r = v_bin j) then put_v_render 0 else id) ((if decide (r = v_render j) then g else id) (strip k)))) by (by rewrite <- C).
    unfold unlinked. rewrite Vf, !Vs by done. unfold id. destruct (decide (r = v_bin j)) as [Eb|Nb], (decide (r = v_render j)) as [Er|Nre]; cbn; rewrite ?G1, ?G2, ?G3, ?G4, ?G5, ?G6, ?G8; cbn;
      split_and!; try done; repeat case_if; bsimp; try tauto; try congruence.
  - intros r k' [Hr Ek']%lookup_delete_Some. split; [done|]. pose proof (cut_lookup J J3 j g r E) as C. rewrite Ek' in C. destruct (J !! r) as [k|]; [by exists k|done].
Qed.

Lemma cut_errors (J J3 : gmap Z vjob) j g r k' : cutter g -> strip <$> J3 = cut g j (strip <$> J) -> J3 !! r = Some k' ->
  exists k, J !! r = Some k /\ v_error k' = v_error k /\ (v_dep_error k' = v_dep_error k \/ (r = v_render j /\ v_dep_error k' = v_dep_error (g (strip k)))).
Proof.
  intros Hg E Ek'. pose proof (cut_lookup J J3 j g r E) as C. rewrite Ek' in C. destruct (J !! r) as [k|]; [|done]. exists k. split; [done|]. cbn in C. injection C as C.
  destruct (Hg (strip k)) as (_ & _ & _ & _ & _ & _ & G7 & _).
  assert (V1 : v_error k' = v_error (strip k')) by done. assert (V2 : v_dep_error k' = v_dep_error (strip k')) by done. rewrite V1, V2, C. unfold id.
  destruct (decide (r = v_bin j)), (decide (r = v_render j)); cbn; rewrite ?G7; cbn; auto.
Qed.

(** *** The queue of a job that ends is released *)

(** The state when the links of the job are cut: [on], its queue [q] was active with it. *)
Record released s s1 (q : Z) (on : bool) : Prop := {
  rl_jobs : jobs s1 = jobs s;
  rl_ov : ov s1 = ov s;
  rl_wd : wd s1 = wd s;
  rl_cf : cf s1 = cf s /\ pr s1 = pr s;
  rl_fences : fences s1 = if on then set_actives (fences s) (<[Z.to_nat q := None]> (active (fences s))) else fences s;
  rl_sub : hw_submitted (bo s1) = if on then hw_submitted (bo s) else arr_set (hw_submitted (bo s)) q (u64 (arr_get (hw_submitted (bo s)) q + 1));
  rl_reset : ever_reset (ct s1) = ever_reset (ct s);
  rl_busy : nbusy (ct s1) = if on && is_hw_queue q then u32 (nbusy (ct s) - 1) else nbusy (ct s);
  rl_queue q' i : is_queue q' -> head_of s1 q' i = head_of s q' i /\ tail_of s1 q' i = tail_of s q' i /\ act s1 q' = if on then if decide (q' = q) then 0 else act s q' else act s q';
  rl_shape : shape s1
}.

(** Statistics of a queue. *)
Definition stats_only (f : queue -> queue) : Prop := forall u, qview (f u) = qview u.
Lemma stats_view s f q : stats_only f -> qview <$> qs (on_qs (alter f (Z.to_nat q)) s) = qview <$> qs s.
Proof.
  intros H. cbn. apply list_eq. intros k. rewrite !list_lookup_fmap. destruct (decide (k = Z.to_nat q)) as [->|Hk]; [|by rewrite list_lookup_alter_ne].
  rewrite list_lookup_alter_eq. destruct (qs s !! Z.to_nat q) as [u|]; [exact (f_equal Some (H u))|done].
Qed.
Lemma stats_still s f q : stats_only f -> still s (on_qs (alter f (Z.to_nat q)) s).
Proof. intros H. split_and!; [split_and!; [done|by apply stats_view|done..]|done..]. Qed.
Lemma released_stats s s1 q on f : stats_only f -> released s s1 q on -> released s (on_qs (alter f (Z.to_nat q)) s1) q on.
Proof.
  intros Hf []. split; try done.
  - intros q' i Hq'. destruct (view_parts s1 (on_qs (alter f (Z.to_nat q)) s1) q' i (proj1 (stats_still s1 f q Hf))) as (-> & -> & ->). auto.
  - eapply shape_view; [apply (stats_still s1 f q Hf)|done].
Qed.

Lemma note_busy_stats dt : stats_only (note_busy dt).
Proof. intros u. unfold note_busy. by case_if. Qed.

Lemma wp_acct now s (Q : jsrv -> () -> Prop) : (forall c, nbusy c = nbusy (ct s) -> ever_reset c = ever_reset (ct s) -> Q (on_ct (fun _ => c) s) tt) -> wp (acct now) s Q.
Proof. intros H. apply wp_modify. apply (H _); cbn; by repeat case_if. Qed.

Lemma shape_acts s q b : shape s -> shape (on_bo (on_base (fun b' => set_actives b' (<[Z.to_nat q := b]> (active b')))) (on_qs (alter (put_q_active 0) (Z.to_nat q)) s)).
Proof. intros H. apply (shape_upd s (put_q_active 0) q) in H; [|done]. destruct H. split; cbn in *; try done. by rewrite length_insert. Qed.

Lemma release_active s q dt now : shape s -> is_queue q ->
  wp (_ ← when (is_hw_queue q) (_ ← acct now; modify (on_ct (fun c => put_nbusy (u32 (nbusy c - 1)) c))); _ ← set_active q 0 None; upd_queue q (note_busy dt)) s
    (fun s1 _ => released s s1 q true).
Proof.
  intros Sh Hq. apply wp_bind. eapply (wp_mono _ _ (fun s1 _ => exists c, s1 = on_ct (fun _ => c) s /\ ever_reset c = ever_reset (ct s) /\ nbusy c = if is_hw_queue q then u32 (nbusy (ct s) - 1) else nbusy (ct s))).
  { destruct (is_hw_queue q); cbn [when].
    - apply wp_bind, wp_acct. intros c E1 E2. apply wp_modify. exists (put_nbusy (u32 (nbusy c - 1)) c). split_and!; [done|done|cbn; by rewrite E1].
    - apply wp_ret. exists (ct s). split_and!; [by destruct s|done..]. }
  intros s0 [] (c & -> & Er & Eb). unfold set_active. apply wp_bind, wp_bind, wp_modify, wp_modify, wp_modify. apply released_stats; [apply note_busy_stats|].
  assert (Sh' : shape (on_ct (fun _ => c) s)) by by destruct Sh. pose proof (sh_queues _ Sh') as L6. split; try done.
  - intros q' i Hq'. unfold is_queue in *. set (s1 := on_bo _ _). assert (Eq : queue_at s1 q' = if decide (q' = q) then put_q_active 0 (queue_at s q) else queue_at s q').
    { unfold s1. change (queue_at (on_bo ?f ?x) q') with (queue_at x q'). case_decide as E; [subst; by rewrite queue_upd_eq|by rewrite queue_upd_ne by lia]. }
    unfold head_of, tail_of, act. rewrite Eq. case_decide; [by subst|done].
  - by apply shape_acts.
Qed.

Lemma release_limbo s q (k : Z) : shape s -> k = 0 -> wp (when (k =? 0) (bump_submitted q)) s (fun s1 _ => released s s1 q false).
Proof.
  intros Sh ->. cbn. apply wp_modify. split; try done. destruct Sh. split; try done. cbn. unfold zlen in *. by rewrite length_arr_set.
Qed.

(** *** The rest of the completion *)

Definition finish (p : Z) (e : bool) (j : vjob) : M unit :=
  _ ← unlink (v_queue j) p e j;
  _ ← modify (on_bo (fun b => v3da_bo_unpin b (v_bos j)));
  _ ← upd_fences (fun b => v3da_fence_complete b (mk_job (v_queue j) (v_fence j)) e);
  _ ← modify (on_ct (fun c => put_stat_jobs_seen (u32 (stat_jobs_seen c + 1)) c));
  free_job p.

(** The state when [p] is gone. *)
Record ended s s1 s' (p : Z) (j : vjob) (e : bool) : Prop := {
  ed_cut : exists J3, jobs s' = delete p J3 /\ strip <$> J3 = cut (fail_bin e) j (strip <$> jobs s);
  ed_fences : fences s' = v3da_fence_complete (fences s1) (mk_job (v_queue j) (v_fence j)) e;
  ed_sub : hw_submitted (bo s') = hw_submitted (bo s1);
  ed_ct : ever_reset (ct s') = ever_reset (ct s1) /\ nbusy (ct s') = nbusy (ct s1);
  ed_qs : qs s' = qs s1;
  ed_cf : cf s' = cf s1 /\ pr s' = pr s1;
  ed_mem : mem_ok s'
}.

Lemma finish_spec s s1 p j e on : links (jobs s) -> mem_ok s -> jobs s !! p = Some j -> released s s1 (v_queue j) on ->
  wp (finish p e j) s1 (fun s' _ => ended s s1 s' p j e).
Proof.
  intros Hl Hm Ej R. unfold finish. apply wp_bind. eapply wp_mono; [apply unlink_spec|].
  - rewrite (rl_jobs _ _ _ _ R). exact Hl.
  - eapply mem_ok_eq; [apply (rl_ov _ _ _ _ R)|apply (rl_wd _ _ _ _ R)|unfold ovfs; by rewrite (rl_jobs _ _ _ _ R)|done].
  - by rewrite (rl_jobs _ _ _ _ R).
  - intros s2 [] ((J & o & -> & _) & M2 & O2 & E2). rewrite (rl_jobs _ _ _ _ R) in E2. cbn in E2. apply wp_bind, wp_modify, wp_bind, wp_modify, wp_bind, wp_modify.
    assert (Hp3 : exists j3, J !! p = Some j3). { unfold ovfs in O2. cbn in O2. rewrite lookup_fmap in O2. destruct (J !! p) as [j3|]; [by exists j3|done]. } destruct Hp3 as [j3 Ej3].
    eapply (wp_free _ p j3); [exact Ej3|intros ->; by rewrite (proj1 Hl) in Ej|]. set (s2 := on_jobs _ (on_ov _ s1)) in *. destruct (bkeep_unpin (bo s1) (v_bos j)) as [B1 B2]. split; try done.
    + by exists J.
    + cbn. unfold fences. cbn. by rewrite B1.
    + apply (mem_ok_delete s2 p) in M2; [|done]. by apply (mem_ok_eq (on_jobs (delete p) s2)).
Qed.

Lemma complete_shape s s' j e : shape s -> qs s' = qs s -> fences s' = v3da_fence_complete (fences s) j e -> hw_submitted (bo s') = hw_submitted (bo s) -> shape s'.
Proof.
  intros [] Eq Ef Eb. split; rewrite ?Eq, ?Eb, ?Ef; try done; cbn; try done.
  - by rewrite length_insert.
  - intros r [k Hk]%list_elem_of_lookup. destruct (decide (k = Z.to_nat (f_slot (j_fence j)))) as [->|Hne]; [|rewrite list_lookup_insert_ne in Hk by done; eapply sh_rows0, list_elem_of_lookup_2, Hk].
    apply list_lookup_insert_Some in Hk as [(_ & <- & Hlt)|[? _]]; [|done]. cbn. unfold zlen. rewrite length_arr_set.
    assert (Hr : slot_at (fences s) (f_slot (j_fence j)) ∈ slots (fences s)) by (eapply list_elem_of_lookup_2, list_lookup_lookup_total_lt, Hlt).
    apply sh_rows0 in Hr. unfold zlen in Hr. destruct (_ || e); exact Hr.
  - unfold zlen in *. by rewrite length_arr_set.
Qed.
Lemma hw_queue_cases q : is_queue q -> q = 0 \/ q = 1 \/ q = 2 \/ q = 3 \/ q = 4 \/ q = 5.
Proof. unfold is_queue. lia. Qed.
Lemma u64_bump x y b : x = u64 (y + b) -> u64 (x + 1) = u64 (u64 (y + 1) + b).
Proof. intros ->. unfold u64. rewrite Zplus_mod_idemp_l, Zplus_mod_idemp_l. f_equal. lia. Qed.

Lemma ended_inv F X Xp s s1 s' p j e on : inv F Xp s -> jobs s !! p = Some j -> released s s1 (v_queue j) on -> ended s s1 s' p j e ->
  (if on then Xp = X /\ act s (v_queue j) = p else Xp = p :: X) -> inv F X s'.
Proof.
  intros H Ej R E Hon. destruct (ed_cut _ _ _ _ _ _ E) as (J3 & EJ & EC). pose proof (in_job _ _ _ H p j Ej) as (Hq & _). destruct (in_all _ _ _ H p ltac:(by exists j)) as [Hp0 _].
  assert (Hparts : forall q i, is_queue q -> head_of s' q i = head_of s q i /\ tail_of s' q i = tail_of s q i /\ act s' q = if on then if decide (q = v_queue j) then 0 else act s q else act s q).
  { intros q i Hq'. destruct (rl_queue _ _ _ _ R q i Hq') as (A & B & C). unfold head_of, tail_of, act, queue_at in *. rewrite (ed_qs _ _ _ _ _ _ E). done. }
  assert (Hact : forall q, is_queue q -> act s' q = if on then if decide (q = v_queue j) then 0 else act s q else act s q) by (intros q Hq'; apply (Hparts q 0 Hq')).
  assert (Hb : forall q, is_queue q -> busy s' q = if on then if decide (q = v_queue j) then 0 else busy s q else busy s q).
  { intros q Hq'. unfold busy. rewrite Hact by done. destruct on; [|done]. by case_decide. }
  assert (Efen : slot_gen (fences s') = slot_gen (fences s)). { rewrite (ed_fences _ _ _ _ _ _ E), (rl_fences _ _ _ _ R). by destruct on. }
  pose proof (in_shape _ _ _ H) as Sh. pose proof (sh_comp _ Sh) as Lc. pose proof (sh_sub _ Sh) as Ls.
  eapply (inv_remove F X Xp s s' p j H Ej).
  - rewrite EJ. eapply without_cut; [by eapply inv_links|done| |exact EC]. done.
  - destruct on; [left; destruct Hon as [-> Ha]|right; subst Xp]; split_and!; try done; rewrite (ed_fences _ _ _ _ _ _ E), (rl_fences _ _ _ _ R); done.
  - eapply complete_shape; [apply (rl_shape _ _ _ _ R)|apply (ed_qs _ _ _ _ _ _ E)|apply (ed_fences _ _ _ _ _ _ E)|apply (ed_sub _ _ _ _ _ _ E)].
  - intros q i Hq' _. destruct (Hparts q i Hq') as (? & ? & _). done.
  - done.
  - rewrite (proj2 (ed_ct _ _ _ _ _ _ E)), (rl_busy _ _ _ _ R), !Hb by done. pose proof (in_busy _ _ _ H) as Eb. destruct on; [|done]. destruct Hon as [_ Ha].
    assert (B1 : busy s (v_queue j) = 1) by (unfold busy; rewrite Ha, (proj2 (Z.eqb_neq _ _) Hp0); done).
    assert (Bn : forall q, 0 <= busy s q <= 1) by (intros q; unfold busy; case_if; lia). pose proof (Bn 0). pose proof (Bn 1). pose proof (Bn 2). pose proof (Bn 3).
    destruct (hw_queue_cases _ Hq) as [Q|[Q|[Q|[Q|[Q|Q]]]]]; rewrite Q in B1 |- *; cbn; unfold u32; try rewrite Z.mod_small by lia. all: repeat case_decide; lia.
  - intros q Hq'. rewrite (ed_sub _ _ _ _ _ _ E), (rl_sub _ _ _ _ R), (ed_fences _ _ _ _ _ _ E), (rl_fences _ _ _ _ R), Hb by done. pose proof (in_hw _ _ _ H q Hq') as Eh. cbn.
    unfold is_queue in *. assert (Ec : hw_completed (if on then set_actives (fences s) (<[Z.to_nat (v_queue j) := None]> (active (fences s))) else fences s) = hw_completed (fences s)) by by destruct on. rewrite Ec.
    destruct on; (destruct (decide (q = v_queue j)) as [->|Hne]; [rewrite !arr_get_set_eq by (unfold zlen in *; lia)|rewrite !arr_get_set_ne by lia; done]).
    + destruct Hon as [_ Ha]. unfold busy in Eh. rewrite Ha, (proj2 (Z.eqb_neq _ _) Hp0) in Eh. rewrite Eh, Z.add_0_r. unfold u64. by rewrite Z.mod_mod.
    + by apply u64_bump.
Qed.

Lemma job_fence_in F X s p j : inv F X s -> jobs s !! p = Some j -> V3daFences.fence_in (v_fence j).
Proof. intros H Ej. destruct (in_job _ _ _ H p j Ej) as (Hq & Ef & Hs & _). unfold V3daFences.fence_in. rewrite Ef. done. Qed.

Lemma ended_fine F X Xp W s s1 s' p j e on : fine F Xp W s -> jobs s !! p = Some j -> released s s1 (v_queue j) on -> ended s s1 s' p j e ->
  (if on then Xp = X /\ act s (v_queue j) = p else Xp = p :: X) -> fine F X W s'.
Proof.
  intros [H1 H2 H3 H4 H5 H6] Ej R E Hon.
  assert (Ef : clients (fences s') = clients (fences s) /\ wview (fences s') = wview (fences s) /\ slot_gen (fences s') = slot_gen (fences s)).
  { rewrite (ed_fences _ _ _ _ _ _ E), (rl_fences _ _ _ _ R). by destruct on. }
  destruct Ef as (Ec & Ew & Eg). split; [by eapply ended_inv|apply (ed_mem _ _ _ _ _ _ E)|by rewrite Ec| |by eapply rep_eq|done].
  intros i Hi. rewrite Eg, <- (H4 i Hi), (ed_fences _ _ _ _ _ _ E). unfold is_slot in Hi. rewrite V3daFences.complete_row; [|rewrite (sh_slots _ (rl_shape _ _ _ _ R)); done|by eapply job_fence_in|lia].
  rewrite (rl_fences _ _ _ _ R). destruct on; cbn; by case_if.
Qed.

(** The sequence numbers of the other jobs. *)
Lemma ended_seq F X s s1 s' p j e x : inv F X s -> jobs s !! p = Some j -> ended s s1 s' p j e -> x <> p -> seq_of s' x = seq_of s x /\ (forall i, from_option (fun j => f_slot (v_fence j) =? i) false (jobs s' !! x) = from_option (fun j => f_slot (v_fence j) =? i) false (jobs s !! x)).
Proof.
  intros H Ej E Hx. destruct (ed_cut _ _ _ _ _ _ E) as (J3 & EJ & EC). destruct (without_cut (jobs s) J3 p j (fail_bin e) (inv_links _ _ _ H) Ej ltac:(done) EC) as (_ & Hf & Hb). rewrite <- EJ in *.
  unfold seq_of. destruct (jobs s !! x) as [k|] eqn:Ek; [destruct (Hf x k Hx Ek) as (k' & -> & _ & _ & Efe & _); cbn; by rewrite Efe|].
  destruct (jobs s' !! x) as [k'|] eqn:Ek'; [|done]. destruct (Hb x k' Ek') as (_ & k & ?). congruence.
Qed.

Lemma act_place F X s q i : inv F X s -> is_queue q -> actl s q i = [] \/ (exists j, act s q <> 0 /\ jobs s !! act s q = Some j /\ f_slot (v_fence j) = i /\ v_queue j = q /\ actl s q i = [act s q]).
Proof.
  intros H Hq. unfold actl. destruct (act s q =? 0) eqn:E0; [by left|]. bsimp. destruct (in_act _ _ _ H q Hq) as [[? _]|(_ & j & Ej & Eq & _)]; [done|]. rewrite Ej. cbn.
  destruct (f_slot (v_fence j) =? i) eqn:Ei; [|by left]. bsimp. right. by exists j.
Qed.

Lemma ended_lines F X s s1 s' p j e op : inv F X s -> jobs s !! p = Some j -> released s s1 (v_queue j) true -> ended s s1 s' p j e -> act s (v_queue j) = p ->
  (e = false \/ v_render j = 0) -> (ever_reset (ct s) = false -> op (v_queue j) (f_slot (v_fence j)) = phase_of s (v_queue j) (f_slot (v_fence j))) ->
  lines op (rest F s) s -> lines op (rest F s') s'.
Proof.
  intros H Ej R E Ha He Hop HL Hr. rewrite (proj1 (ed_ct _ _ _ _ _ _ E)), (rl_reset _ _ _ _ R) in Hr. specialize (Hop Hr). destruct (HL Hr) as [Hn Hl].
  destruct (ed_cut _ _ _ _ _ _ E) as (J3 & EJ & EC). pose proof (in_job _ _ _ H p j Ej) as (Hqj & Hfq & Hsj & _). destruct (in_all _ _ _ H p ltac:(by exists j)) as [Hp0 _].
  assert (Efen : fences s1 = set_actives (fences s) (<[Z.to_nat (v_queue j) := None]> (active (fences s)))) by apply (rl_fences _ _ _ _ R).
  assert (Hseq := fun x => ended_seq F X s s1 s' p j e x H Ej E). split.
  { intros r k' Ek'. rewrite EJ in Ek'. apply lookup_delete_Some in Ek' as [Hrp Ek']. destruct (cut_errors (jobs s) J3 j (fail_bin e) r k' ltac:(done) EC Ek') as (k & Ek & -> & Hd).
    destruct (Hn r k Ek) as [? Hdk]. split; [done|]. destruct Hd as [->|[-> ->]]; [done|]. cbn. rewrite Hdk. destruct He as [->|Hz]; [done|]. rewrite Hz in Ek. by rewrite (proj1 (inv_links _ _ _ H)) in Ek. }
  intros q i Hq Hi. specialize (Hl q i Hq Hi). destruct (act_place F X s (v_queue j) (f_slot (v_fence j)) H Hqj) as [E0|(j' & _ & Ej' & _ & _ & EA)].
  { unfold actl in E0. rewrite Ha, Ej, (proj2 (Z.eqb_neq _ _) Hp0) in E0. cbn in E0. by rewrite Z.eqb_refl in E0. }
  rewrite Ha in EA. unfold is_slot in *. unfold is_queue in Hq, Hqj.
  assert (Hrow : slot_at (fences s') i = if f_slot (v_fence j) =? i then mk_slot (arr_set (completed (slot_at (fences s) i)) (v_queue j) (V3daFences.published (fences s) (mk_job (v_queue j) (v_fence j)))) (error_seq (slot_at (fences s') i)) (gen (slot_at (fences s) i)) else slot_at (fences s) i).
  { rewrite (ed_fences _ _ _ _ _ _ E). rewrite !V3daFences.complete_row by (try (by eapply job_fence_in); try lia; rewrite (sh_slots _ (rl_shape _ _ _ _ R)); done). rewrite Efen. cbn. by case_if. }
  assert (Hcl : client_at (fences s') i = client_at (fences s) i /\ dead_flush (fences s') = dead_flush (fences s)) by (rewrite (ed_fences _ _ _ _ _ _ E), Efen; done). destruct Hcl as [Hcl Hdf].
  assert (Hlen : zlen (completed (slot_at (fences s) i)) = 6). { apply (sh_rows _ (in_shape _ _ _ H)). unfold slot_at. eapply list_elem_of_lookup_2, list_lookup_lookup_total_lt. rewrite (sh_slots _ (in_shape _ _ _ H)). lia. }
  assert (Hact : act s' q = if decide (q = v_queue j) then 0 else act s q). { destruct (rl_queue _ _ _ _ R q 0 Hq) as (_ & _ & <-). unfold act, queue_at. by rewrite (ed_qs _ _ _ _ _ _ E). }
  assert (HpF : p ∉ F q i). { rewrite <- Ha. intros Hin. by eapply (queued_idle F X s q i _ (v_queue j) H Hin). }
  assert (Hout : forall l : list Z, p ∉ l -> seq_of s' <$> l = seq_of s <$> l). { intros l Hpl. apply list_fmap_ext. intros k x Hx. apply Hseq. intros ->. by eapply Hpl, list_elem_of_lookup_2. }
  unfold line_ok, rest. rewrite Hcl, Hdf. destruct (decide (q = v_queue j /\ i = f_slot (v_fence j))) as [[-> ->]|Hne].
  - assert (EA' : actl s' (v_queue j) (f_slot (v_fence j)) = []) by (unfold actl; rewrite Hact, decide_True by done; done). rewrite EA'. unfold rest in Hl. rewrite EA in Hl. cbn [app] in Hl |- *.
    destruct Hl as (H0 & Hs & Hc). assert (Hz : zlen (p :: F (v_queue j) (f_slot (v_fence j))) = 1 + zlen (F (v_queue j) (f_slot (v_fence j)))) by (unfold zlen; cbn [length]; lia).
    pose proof (Zle_0_nat (length (F (v_queue j) (f_slot (v_fence j))))) as Hz0. fold (zlen (F (v_queue j) (f_slot (v_fence j)))) in Hz0. rewrite Hz in Hs, Hc. rewrite seqZ_cons in Hs by lia. injection Hs as Hs1 Hs2.
    assert (Hpseq : f_seqno (v_fence j) = done_of s (v_queue j) (f_slot (v_fence j)) + 1) by (unfold seq_of in Hs1; by rewrite Ej in Hs1).
    assert (Hd : done_of s' (v_queue j) (f_slot (v_fence j)) = V3daFences.published (fences s) (mk_job (v_queue j) (v_fence j))). { unfold done_of. rewrite Hrow, Z.eqb_refl. cbn. by rewrite arr_get_set_eq by lia. }
    rewrite Hop in Hc |- *. unfold phase_of in *. rewrite Hd. unfold V3daFences.published. cbn [j_fence j_queue]. destruct (c_used (client_at (fences s) (f_slot (v_fence j)))); cbn [negb andb].
    + rewrite Hpseq. split_and!; [lia| |lia]. rewrite (Hout _ HpF). etransitivity; [exact Hs2|f_equal; lia].
    + destruct (F (v_queue j) (f_slot (v_fence j))) as [|y l]; [|exfalso; destruct Hc as [Hc _]; unfold zlen in Hc; cbn in Hc; lia]. destruct Hc as [_ Hc].
      split_and!; [repeat case_if; bsimp; lia|done|repeat case_if; bsimp; lia].
  - assert (EA' : actl s' q i = actl s q i).
    { unfold actl. rewrite Hact. destruct (decide (q = v_queue j)) as [->|Hnq].
      - rewrite Ha, Ej, (proj2 (Z.eqb_neq _ _) Hp0). cbn. destruct (f_slot (v_fence j) =? i) eqn:Ei; [bsimp; subst; tauto|done].
      - destruct (act s q =? 0) eqn:Ez; [done|]. bsimp. rewrite (proj2 (Hseq (act s q) ltac:(intros Hx; destruct (in_act _ _ _ H q Hq) as [[? _]|(_ & k & Ek & Eqk & _)]; [done|rewrite Hx, Ej in Ek; congruence]))). done. }
    assert (Hpa : p ∉ actl s q i). { unfold actl. destruct (act s q =? 0) eqn:Ez; [set_solver|]. bsimp. destruct (from_option _ false _) eqn:Ef; [|set_solver]. intros Hx%list_elem_of_singleton.
      rewrite <- Hx, Ej in Ef. cbn in Ef. bsimp. destruct (in_act _ _ _ H q Hq) as [[? _]|(_ & k & Ek & Eqk & _)]; [done|]. rewrite <- Hx, Ej in Ek. injection Ek as <-. apply Hne. done. }
    assert (Hd : done_of s' q i = done_of s q i). { unfold done_of. rewrite Hrow. destruct (f_slot (v_fence j) =? i) eqn:Ei; [|done]. bsimp. cbn. assert (q <> v_queue j) by (intros ->; by apply Hne). by rewrite arr_get_set_ne by lia. }
    rewrite EA', Hd, Hout by (apply not_elem_of_app; done). exact Hl.
Qed.

(** ** Completion *)

Definition clock (j : vjob) : Z * Z := (v_check j, v_kick j).
Definition same_clocks s s' (p : Z) : Prop := forall r j, r <> p -> jobs s !! r = Some j -> exists j', jobs s' !! r = Some j' /\ clock j' = clock j.
Definition gone s s' (p : Z) : Prop := ever_reset (ct s') = ever_reset (ct s) /\ cf s' = cf s /\ pr s' = pr s /\ dom (jobs s') = dom (jobs s) ∖ {[p]} /\ clients (fences s') = clients (fences s).

Lemma ended_gone F X s s1 s' p j e on : inv F X s -> jobs s !! p = Some j -> released s s1 (v_queue j) on -> ended s s1 s' p j e ->
  gone s s' p /\ same_clocks s s' p /\ forall q, is_queue q -> act s' q = if on then if decide (q = v_queue j) then 0 else act s q else act s q.
Proof.
  intros H Ej R E. destruct (ed_cut _ _ _ _ _ _ E) as (J3 & EJ & EC). destruct (without_cut (jobs s) J3 p j (fail_bin e) (inv_links _ _ _ H) Ej ltac:(done) EC) as (Hp & Hf & Hb). rewrite <- EJ in *.
  split; [split_and!|split].
  - by rewrite (proj1 (ed_ct _ _ _ _ _ _ E)), (rl_reset _ _ _ _ R).
  - by rewrite (proj1 (ed_cf _ _ _ _ _ _ E)), (proj1 (rl_cf _ _ _ _ R)).
  - by rewrite (proj2 (ed_cf _ _ _ _ _ _ E)), (proj2 (rl_cf _ _ _ _ R)).
  - apply set_eq. intros x. rewrite elem_of_difference, !elem_of_dom, elem_of_singleton. split.
    + intros [k' Ek']. destruct (Hb x k' Ek') as (? & k & ?). split; [by exists k|done].
    + intros [[k Ek] Hx]. destruct (Hf x k Hx Ek) as (k' & ? & _). by exists k'.
  - rewrite (ed_fences _ _ _ _ _ _ E), (rl_fences _ _ _ _ R). by destruct on.
  - intros r k Hr Ek. destruct (Hf r k Hr Ek) as (k' & ? & _ & _ & _ & Ekk & _ & _ & Ec). exists k'. split; [done|]. unfold clock. congruence.
  - intros q Hq. destruct (rl_queue _ _ _ _ R q 0 Hq) as (_ & _ & <-). unfold act, queue_at. by rewrite (ed_qs _ _ _ _ _ _ E).
Qed.

Lemma done_active F X W s p j e now : fine F X W s -> jobs s !! p = Some j -> act s (v_queue j) = p ->
  wp (job_done p e now) s (fun s' _ => fine F X W s' /\ gone s s' p /\ same_clocks s s' p /\ (forall q, is_queue q -> act s' q = if decide (q = v_queue j) then 0 else act s q) /\
    forall op, lines op (rest F s) s -> (e = false \/ v_render j = 0) -> (ever_reset (ct s) = false -> op (v_queue j) (f_slot (v_fence j)) = phase_of s (v_queue j) (f_slot (v_fence j))) -> lines op (rest F s') s').
Proof.
  intros H Ej Ha. pose proof (fn_inv _ _ _ _ H) as HI. pose proof (in_job _ _ _ HI p j Ej) as (Hq & _). unfold job_done. apply wp_bind. eapply wp_job_at; [exact Ej|]. apply wp_bind, wp_get.
  unfold act in Ha. rewrite Ha, Z.eqb_refl. apply wp_bind. eapply wp_mono; [by apply release_active, Hq; apply (in_shape _ _ _ HI)|]. intros s1 [] R. apply wp_bind, wp_modify.
  eapply released_stats in R; [|shelve]. eapply wp_mono; [eapply (finish_spec s _ p j (e || v_error j) true); [by eapply inv_links|apply H|done|exact R]|].
  intros s' [] E. destruct (ended_gone F X s _ s' p j _ true HI Ej R E) as (G & Ck & A). split_and!; [by eapply ended_fine|done|done|done|].
  intros op HL He Hop. intros Hr. assert (Hr0 : ever_reset (ct s) = false) by (destruct G as (<- & _); done). eapply (ended_lines F X s _ s' p j _ op HI Ej R E Ha); [|done|done|done].
  destruct (HL Hr0) as [Hn _]. destruct (Hn p j Ej) as [-> _]. rewrite orb_false_r. done.
  Unshelve. done.
Qed.

(** A job that was never started. *)
Lemma done_limbo F X W s p j e now : fine F (p :: X) W s -> jobs s !! p = Some j ->
  wp (job_done p e now) s (fun s' _ => fine F X W s' /\ gone s s' p /\ forall q, is_queue q -> act s' q = act s q).
Proof.
  intros H Ej. pose proof (fn_inv _ _ _ _ H) as HI. pose proof (in_job _ _ _ HI p j Ej) as (Hq & _). unfold job_done. apply wp_bind. eapply wp_job_at; [exact Ej|]. apply wp_bind, wp_get.
  destruct (proj2 (in_X _ _ _ HI) p ltac:(by left)) as (_ & _ & Hna). pose proof (Hna (v_queue j) Hq) as Ha. unfold act in Ha. rewrite (proj2 (Z.eqb_neq _ _) Ha).
  apply wp_bind. eapply wp_mono; [apply (release_limbo s (v_queue j)); [apply HI|by eapply (in_kick _ _ _ HI)]|]. intros s1 [] R. apply wp_bind, wp_modify.
  eapply released_stats in R; [|shelve]. eapply wp_mono; [eapply (finish_spec s _ p j (e || v_error j) false); [by eapply inv_links|apply H|done|exact R]|].
  intros s' [] E. destruct (ended_gone F _ s _ s' p j _ false HI Ej R E) as (G & _ & A). split_and!; [by eapply ended_fine|done|done].
  Unshelve. done.
Qed.

(** ** A queued job of a client that goes *)

Lemma links_cut s p j (Q : jsrv -> () -> Prop) : links (jobs s) -> jobs s !! p = Some j ->
  (forall J, strip <$> J = cut (put_v_bin 0) j (strip <$> jobs s) -> v_ovf <$> J = v_ovf <$> jobs s -> Q (on_jobs (fun _ => J) s) tt) ->
  wp (_ ← when (negb (v_bin j =? 0)) (upd_job (v_bin j) (put_v_render 0)); when (negb (v_render j =? 0)) (upd_job (v_render j) (put_v_bin 0))) s Q.
Proof.
  intros (H0 & HR & HB) Ej HQ.
  assert (Hsame : forall r k f, jobs s !! r = Some k -> v_ovf (f k) = v_ovf k -> v_ovf <$> <[r := f k]> (jobs s) = v_ovf <$> jobs s) by (intros r k f Ek Hf; rewrite fmap_insert, Hf; apply insert_id; by rewrite lookup_fmap, Ek).
  assert (Hs0 : (strip <$> jobs s) !! 0 = None) by by rewrite lookup_fmap, H0.
  apply wp_bind, wp_when; intros Eb; bsimp.
  - destruct (HB p j Ej ltac:(done)) as (Eq & b & Ebj & _). assert (Er : v_render j = 0). { destruct (decide (v_render j = 0)); [done|]. destruct (HR p j Ej ltac:(done)) as [E _]. rewrite E in Eq. done. }
    eapply wp_upd_job; [exact Ebj|]. rewrite Er. cbn [Z.eqb negb]. apply wp_ret. apply (HQ (<[v_bin j := put_v_render 0 b]> (jobs s))); [|by apply (Hsame _ _ (put_v_render 0))].
    rewrite (strip_alter _ _ b) by done. unfold cut. rewrite Er. by rewrite (alter_none (strip <$> jobs s) 0) by done.
  - assert (Hc : forall m : gmap Z vjob, m !! 0 = None -> alter (put_v_render 0) (v_bin j) m = m) by (intros m Hm; rewrite Eb; by apply alter_none). unfold cut in HQ. apply wp_when; intros Er; bsimp.
    + destruct (HR p j Ej ltac:(done)) as (Eq & r & Erj & _). eapply wp_upd_job; [exact Erj|]. apply HQ; [|by apply Hsame].
      rewrite Hc by (by rewrite lookup_alter_ne). by rewrite (strip_alter _ _ r) by done.
    + replace s with (on_jobs (fun _ => jobs s) s) at 1 by by destruct s. apply HQ; [|done]. rewrite Hc by (rewrite Er, lookup_alter_eq; by rewrite Hs0). rewrite Er. by rewrite alter_none.
Qed.

Lemma discard_mem s p j : mem_ok s -> jobs s !! p = Some j ->
  wp (when (0 <=? v_ovf j) (chunk_free_list (v_ovf j))) s (fun s' _ => exists o, s' = on_ov (fun _ => o) s /\ mem_ok (on_jobs (delete p) s')).
Proof.
  intros [[L H] A] Ej. assert (Hh : heads s (-1) (Of p) = v_ovf j) by (cbn; unfold ovfs; by rewrite lookup_fmap, Ej). apply wp_when; intros Eo; bsimp.
  - rewrite <- Hh. eapply wp_mono; [apply (free_owner s s L (Of p) H); [done|right; by exists p]|]. intros s1 [] (n & f & nx & -> & Hs). eexists. split; [done|].
    split; [|by apply (armed_eq s)]. destruct (Hs (on_jobs (delete p) (relinked s n f nx)) eq_refl eq_refl eq_refl ltac:(done)) as (L' & H' & _); [|by exists L'].
    intros [| | |x] Ho; cbn; try done. unfold ovfs; cbn. rewrite fmap_delete. destruct (decide (x = p)) as [->|Hx]; [by rewrite lookup_delete_eq, decide_True|]. by rewrite lookup_delete_ne, decide_False by congruence.
  - exists (ov s). split; [by destruct s|]. apply (mem_ok_delete s p); [by split; [exists L|]|]. unfold ovfs. rewrite lookup_fmap, Ej. cbn. f_equal.
    destruct (chain_head _ _ _ (ow_chain _ _ _ _ (ck_own _ _ _ H) (Of p))) as [[E _]|[E _]]; rewrite Hh in E; [done|lia].
Qed.

Lemma discard_spec F X W s p j : fine F (p :: X) W s -> jobs s !! p = Some j ->
  wp (job_discard p) s (fun s' _ => fine F X W s' /\ gone s s' p /\ fences s' = fences s /\ (forall q, is_queue q -> act s' q = act s q) /\
    (forall x, x <> p -> seq_of s' x = seq_of s x /\ forall i, from_option (fun j => f_slot (v_fence j) =? i) false (jobs s' !! x) = from_option (fun j => f_slot (v_fence j) =? i) false (jobs s !! x)) /\ (no_errors s -> no_errors s')).
Proof.
  intros H Ej. pose proof (fn_inv _ _ _ _ H) as HI. pose proof (inv_links _ _ _ HI) as Hl. unfold job_discard. apply wp_bind. eapply wp_job_at; [exact Ej|].
  apply wp_bind2. apply (links_cut s p j _ Hl Ej). intros J EJ EO. set (s1 := on_jobs _ s).
  assert (Hp1 : exists j1, J !! p = Some j1 /\ v_ovf j1 = v_ovf j). { assert (E : (v_ovf <$> J) !! p = (v_ovf <$> jobs s) !! p) by by rewrite EO. rewrite !lookup_fmap, Ej in E. destruct (J !! p) as [j1|]; [|done]. exists j1. cbn in E. split; [done|congruence]. }
  destruct Hp1 as (j1 & Ej1 & Eo). rewrite <- Eo. apply wp_bind. eapply wp_mono; [apply (discard_mem s1 p j1); [|done]|].
  { apply (mem_ok_eq s); [done|done|exact EO|apply H]. }
  intros s2 [] (o & -> & M2). apply wp_bind, wp_modify. eapply (wp_free _ p j1); [exact Ej1|intros ->; by rewrite (proj1 Hl) in Ej|]. destruct (bkeep_unpin (bo s) (v_bos j)) as [B1 B2]. set (s3 := on_jobs _ _).
  assert (Ef : fences s3 = fences s) by (unfold s3, fences; cbn; by rewrite B1).
  pose proof (without_cut (jobs s) J p j (put_v_bin 0) Hl Ej ltac:(done) EJ) as Hw. change (delete p J) with (jobs s3) in Hw.
  assert (Hx : forall x, x <> p -> (jobs s !! x = None /\ jobs s3 !! x = None) \/ exists k k', jobs s !! x = Some k /\ jobs s3 !! x = Some k' /\ v_fence k' = v_fence k).
  { destruct Hw as (_ & Hf & Hb). intros x Hx. destruct (jobs s !! x) as [k|] eqn:Ek; [destruct (Hf x k Hx Ek) as (k' & ? & _ & _ & ? & _); right; by exists k, k'|].
    left. split; [done|]. destruct (jobs s3 !! x) as [k'|] eqn:Ek'; [|done]. destruct (Hb x k' Ek') as (_ & k & ?). congruence. }
  split_and!; [|split_and!; [done..| |by rewrite Ef]|done|done| |].
  - split; rewrite ?Ef; try apply H.
    + eapply (inv_remove F X (p :: X) s s3 p j HI Ej Hw); [right; by rewrite Ef|..|done|by rewrite Ef| |].
      * pose proof (in_shape _ _ _ HI) as []. split; rewrite ?Ef; try done. cbn. by rewrite B2.
      * apply (in_busy _ _ _ HI).
      * intros q Hq. rewrite Ef. cbn. rewrite B2. by apply (in_hw _ _ _ HI).
    + by apply (mem_ok_eq (on_jobs (delete p) (on_ov (fun _ => o) s1))).
  - apply set_eq. intros x. rewrite elem_of_difference, !elem_of_dom, elem_of_singleton. destruct (decide (x = p)) as [->|Hxp]; [destruct Hw as (-> & _)|destruct (Hx x Hxp) as [[-> ->]|(k & k' & -> & -> & _)]].
    + split; [by intros []|tauto].
    + split; [by intros []|by intros [[] _]].
    + split; [by intros _; split; [by exists k|]|by intros _; exists k'].
  - intros x Hxp. unfold seq_of. destruct (Hx x Hxp) as [[-> ->]|(k & k' & -> & -> & E)]; [done|]. cbn. by rewrite E.
  - intros Hn r k' Ek'. change (jobs s3) with (delete p J) in Ek'. apply lookup_delete_Some in Ek' as [_ Ek']. destruct (cut_errors (jobs s) J j (put_v_bin 0) r k' ltac:(done) EJ Ek') as (k & Ek & -> & Hd).
    destruct (Hn r k Ek) as [? Hdk]. split; [done|]. by destruct Hd as [->|[_ ->]].
Qed.
End order.
End V3daOrder.
