(* ===== verification/V3daRun.v ===== *)
(** * The scheduler of the V3D render server

    A job starts, the GPU is reset, failed jobs are reaped and queues run: each step keeps the
    invariants of [V3daOrder.v]; and what the scheduler starts. *)

From S2P Require Import Prelude V3daSched V3daSchedCorrect V3daPool V3daBo V3daGpu V3daGpuFrame V3daJobs V3daChunks V3daQueues V3daDone V3daOrder.

Module V3daRun.
Import V3da V3daPool V3daBo V3daGpu V3daGpuFrame V3daJobs V3daChunks V3daQueues V3daDone V3daOrder.

Section run.
Context `{K : Kernel} `{D : Device}.
Implicit Types s : jsrv.

(** ** The counters do not matter *)

Lemma inv_ct F X s c : inv F X s -> nbusy c = nbusy (ct s) -> inv F X (on_ct (fun _ => c) s).
Proof.
  intros [H1 H2 H3 H4 H5 H6 H7 H8 H9 H10 HK H11 H12] E. split; try done; [by destruct H1|]. cbn. by rewrite E.
Qed.
Lemma mem_ct s c : mem_ok s -> mem_ok (on_ct (fun _ => c) s).
Proof. by apply mem_ok_eq. Qed.
Lemma fine_ct F X W s c : fine F X W s -> nbusy c = nbusy (ct s) -> fine F X W (on_ct (fun _ => c) s).
Proof. intros [H1 H2 H3 H4 H5 H6] E. split; [by apply inv_ct|by apply mem_ct|done..]. Qed.
Lemma ct_still s c : nbusy c = nbusy (ct s) -> ever_reset c = ever_reset (ct s) -> still s (on_ct (fun _ => c) s).
Proof. intros. split_and!; try done. Qed.

(** What a job is waiting for. *)
Definition waits_on (j : vjob) : Z * Z * list fence * Z := (v_queue j, v_bin j, v_dep j, v_gseq j).
Definition rview s := (waits_on <$> jobs s, slots (fences s)).
Lemma calm_rview s s' : calm s s' -> rview s' = rview s.
Proof.
  intros ((h & Eb) & E & _). unfold rview, fences. rewrite Eb. f_equal. apply map_eq. intros p. assert (E' : (strip <$> jobs s') !! p = (strip <$> jobs s) !! p) by by rewrite E.
  rewrite !lookup_fmap in *. destruct (jobs s' !! p) as [j'|], (jobs s !! p) as [j|]; try done. injection E'; intros. cbn. unfold waits_on. congruence.
Qed.

(** ** A job starts *)

Lemma inv_start F X s s' p j j' : inv F (p :: X) s -> jobs s !! p = Some j -> act s (v_queue j) = 0 ->
  jobs s' = <[p := j']> (jobs s) -> core (put_v_kick (v_kick j) j') = core j ->
  (forall q, is_queue q -> act s' q = if decide (q = v_queue j) then p else act s q) ->
  (forall q i, is_queue q -> head_of s' q i = head_of s q i /\ tail_of s' q i = tail_of s q i) ->
  active (fences s') = <[Z.to_nat (v_queue j) := Some (mk_job (v_queue j) (v_fence j))]> (active (fences s)) ->
  slot_gen (fences s') = slot_gen (fences s) -> hw_completed (fences s') = hw_completed (fences s) ->
  hw_submitted (bo s') = arr_set (hw_submitted (bo s)) (v_queue j) (u64 (arr_get (hw_submitted (bo s)) (v_queue j) + 1)) ->
  nbusy (ct s') = (if is_hw_queue (v_queue j) then u32 (nbusy (ct s) + 1) else nbusy (ct s)) -> shape s' -> inv F X s'.
Proof.
  intros H Ej Ha EJ Ec Hact Hht Eact Egen Ecomp Esub Enb Sh. pose proof (in_job _ _ _ H p j Ej) as (Hqj & Hfq & Hsj & Hgj). destruct (in_all _ _ _ H p ltac:(by exists j)) as [Hp0 _].
  destruct (proj2 (in_X _ _ _ H) p ltac:(by left)) as (_ & HpF & Hpa). pose proof (proj1 (in_X _ _ _ H)) as Hnd. apply NoDup_cons in Hnd as [HpX HndX].
  unfold core in Ec. cbn in Ec. injection Ec as C1 C2 C3 C4 C5 C6.
  assert (V : forall r k', jobs s' !! r = Some k' -> exists k, jobs s !! r = Some k /\ v_queue k' = v_queue k /\ v_fence k' = v_fence k /\ v_render k' = v_render k /\ v_bin k' = v_bin k /\ (r <> p -> v_kick k' = v_kick k)).
  { intros r k' Ek'. rewrite EJ in Ek'. destruct (decide (r = p)) as [->|Hr]; [rewrite lookup_insert_eq in Ek'; injection Ek' as <-; by exists j|rewrite lookup_insert_ne in Ek' by done; by exists k']. }
  assert (V' : forall r k, jobs s !! r = Some k -> exists k', jobs s' !! r = Some k' /\ v_next k' = v_next k /\ v_queue k' = v_queue k /\ v_fence k' = v_fence k /\ v_render k' = v_render k /\ v_bin k' = v_bin k).
  { intros r k Ek. rewrite EJ. destruct (decide (r = p)) as [->|Hr]; [rewrite lookup_insert_eq; rewrite Ej in Ek; injection Ek as <-; by exists j'|rewrite lookup_insert_ne by done; by exists k]. }
  assert (Hb : forall q, is_queue q -> busy s' q = if decide (q = v_queue j) then 1 else busy s q).
  { intros q Hq. unfold busy. rewrite Hact by done. case_decide; [|done]. by rewrite (proj2 (Z.eqb_neq _ _) Hp0). }
  assert (B0 : busy s (v_queue j) = 0) by (unfold busy; by rewrite Ha).
  split; try done.
  - intros q i Hq Hi. destruct (Hht q i Hq) as [-> ->]. destruct (in_fifo _ _ _ H q i Hq Hi) as [Hs Ht]. split; [|done]. eapply seg_next; [|exact Hs].
    intros x k _ Ek. destruct (V' x k Ek) as (k' & ? & ? & _). by exists k'.
  - intros q i x Hx. destruct (in_F _ _ _ H q i x Hx) as (? & ? & k & Ek & ? & ?). split_and!; [done..|]. destruct (V' x k Ek) as (k' & ? & _ & ? & Ef & _). exists k'. rewrite Ef. split_and!; congruence.
  - apply (in_nodup _ _ _ H).
  - intros q Hq. rewrite Hact, Eact by done. unfold is_queue in *. destruct (decide (q = v_queue j)) as [->|Hne].
    + right. split; [done|]. exists j'. rewrite EJ, lookup_insert_eq. split_and!; [done|done|apply HpF|]. rewrite list_lookup_insert_eq by (rewrite (sh_active _ (in_shape _ _ _ H)); lia). congruence.
    + rewrite list_lookup_insert_ne by lia. destruct (in_act _ _ _ H q Hq) as [?|(Hz & k & Ek & ? & ? & ?)]; [by left|right]. split; [done|].
      destruct (V' _ k Ek) as (k' & ? & _ & ? & Ef & _). exists k'. rewrite Ef. split_and!; [done|congruence|done|done].
  - split; [done|]. intros x Hx. destruct (proj2 (in_X _ _ _ H) x ltac:(by right)) as ([k Ek] & ? & Hn). split_and!; [destruct (V' x k Ek) as (k' & ? & _); by exists k'|done|].
    intros q Hq. rewrite Hact by done. case_decide; [intros ->; done|by apply Hn].
  - intros x [k' Ek']. destruct (V x k' Ek') as (k & Ek & _). destruct (in_all _ _ _ H x ltac:(by exists k)) as (? & Hx). split; [done|].
    destruct Hx as [[->|Hx]%elem_of_cons|[Hx|(q & Hq & Hx)]]; [right; right; exists (v_queue j); split; [done|by rewrite Hact, decide_True by done]|by left|by right; left|].
    right; right. exists q. split; [done|]. rewrite Hact by done. case_decide; [subst q; congruence|done].
  - intros x k' Ek'. destruct (V x k' Ek') as (k & Ek & -> & -> & _). rewrite Egen. by apply (in_job _ _ _ H x k).
  - intros x k' Ek'. destruct (V x k' Ek') as (k & Ek & -> & _ & -> & _). intros Hr. destruct (in_render _ _ _ H x k Ek Hr) as (? & y & Ey & ? & ?). split; [done|].
    destruct (V' _ y Ey) as (y' & ? & _ & ? & _ & _ & ?). exists y'. split_and!; congruence.
  - intros x k' Ek'. destruct (V x k' Ek') as (k & Ek & -> & _ & _ & -> & _). intros Hr. destruct (in_bin _ _ _ H x k Ek Hr) as (? & y & Ey & ? & ?). split; [done|].
    destruct (V' _ y Ey) as (y' & ? & _ & ? & _ & ? & _). exists y'. split_and!; congruence.
  - intros x k' Ek' Hn. destruct (decide (x = p)) as [->|Hxp]; [by destruct (Hn (v_queue j) Hqj); rewrite Hact, decide_True by done|].
    destruct (V x k' Ek') as (k & Ek & _ & _ & _ & _ & Ekk). rewrite Ekk by done. apply (in_kick _ _ _ H x k Ek). intros q Hq Hax. apply (Hn q Hq). rewrite Hact by done. case_decide; [|done]. subst q. rewrite Ha in Hax. subst x.
    destruct (in_all _ _ _ H 0 ltac:(by exists k)). done.
  - rewrite Enb, !Hb by done. pose proof (in_busy _ _ _ H) as Eb. assert (Bn : forall q, 0 <= busy s q <= 1) by (intros q; unfold busy; case_if; lia). pose proof (Bn 0). pose proof (Bn 1). pose proof (Bn 2). pose proof (Bn 3).
    destruct (hw_queue_cases _ Hqj) as [Q|[Q|[Q|[Q|[Q|Q]]]]]; rewrite Q in B0 |- *; cbn; unfold u32; try rewrite Z.mod_small by lia. all: repeat case_decide; lia.
  - intros q Hq. rewrite Esub, Ecomp, Hb by done. pose proof (in_hw _ _ _ H q Hq) as Eh. pose proof (sh_sub _ (in_shape _ _ _ H)) as Ls. unfold is_queue in *.
    destruct (decide (q = v_queue j)) as [->|Hne]; [rewrite arr_get_set_eq by (unfold zlen in *; lia)|by rewrite arr_get_set_ne by lia].
    rewrite B0, Z.add_0_r in Eh. rewrite Eh. unfold u64. by rewrite Zplus_mod_idemp_l.
Qed.

(** The state with [p] on its queue, before the hardware is told. *)
Definition untimed (j : vjob) : vjob := put_v_check 0 (put_v_progress 0 (put_v_kick 0 j)).
Record started s s' (p : Z) (j : vjob) : Prop := {
  st_jobs : exists j', jobs s' = <[p := j']> (jobs s) /\ untimed j' = untimed j;
  st_act q : is_queue q -> act s' q = if decide (q = v_queue j) then p else act s q;
  st_fences : fences s' = set_actives (fences s) (<[Z.to_nat (v_queue j) := Some (mk_job (v_queue j) (v_fence j))]> (active (fences s)));
  st_ct : ever_reset (ct s') = ever_reset (ct s);
  st_cf : cf s' = cf s /\ pr s' = pr s
}.

Lemma start_spec F X W s p j now (k : () -> M unit) Q : fine F (p :: X) W s -> jobs s !! p = Some j -> act s (v_queue j) = 0 ->
  (forall s', fine F X W s' -> started s s' p j -> wp (k tt) s' Q) ->
  wp (_ ← set_active (v_queue j) p (Some j);
      _ ← upd_queue (v_queue j) (fun u => put_st_wait_us (u64 (st_wait_us u + (if v_submit j <? now then now - v_submit j else 0))) (put_pending (u32 (pending u - 1)) u));
      _ ← upd_job p (put_v_kick now);
      _ ← bump_submitted (v_queue j);
      u ← when (is_hw_queue (v_queue j)) (
            _ ← acct now;
            _ ← modify (on_ct (fun c => put_nbusy (u32 (nbusy c + 1)) c));
            upd_job p (fun j => put_v_progress now (put_v_check (u64 (now + WD_TICK_US)) j)));
      k u) s Q.
Proof.
  intros H Ej Ha HQ. pose proof (fn_inv _ _ _ _ H) as HI. pose proof (in_shape _ _ _ HI) as Sh. pose proof (in_job _ _ _ HI p j Ej) as (Hq & _). pose proof (sh_queues _ Sh) as L6.
  unfold set_active. apply wp_bind, wp_bind, wp_modify, wp_modify. apply wp_bind, wp_modify. apply wp_bind. eapply wp_upd_job; [exact Ej|]. apply wp_bind, wp_modify. set (s1 := on_bo _ _).
  assert (J1 : jobs s1 !! p = Some (put_v_kick now j)) by apply lookup_insert_eq.
  assert (Eq1 : forall q, is_queue q -> queue_at s1 q = if decide (q = v_queue j) then put_st_wait_us (u64 (st_wait_us (queue_at s q) + (if v_submit j <? now then now - v_submit j else 0))) (put_pending (u32 (pending (queue_at s q) - 1)) (put_q_active p (queue_at s q))) else queue_at s q).
  { intros q Hq'. unfold is_queue in *. unfold queue_at, s1; cbn. rewrite !list_lookup_total_alt. case_decide as E; [subst q; rewrite !list_lookup_alter_eq|by rewrite !list_lookup_alter_ne by lia].
    destruct (lookup_lt_is_Some_2 (qs s) (Z.to_nat (v_queue j))) as [u ->]; [lia|done]. }
  assert (Sh1 : shape s1).
  { apply (shape_upd s (put_q_active p) (v_queue j)) in Sh; [|done].
    apply (shape_upd _ (fun u => put_st_wait_us (u64 (st_wait_us u + (if v_submit j <? now then now - v_submit j else 0))) (put_pending (u32 (pending u - 1)) u)) (v_queue j)) in Sh; [|done].
    destruct Sh. split; try done; cbn; [by rewrite length_insert|unfold zlen in *; by rewrite length_arr_set]. }
  apply wp_bind. eapply (wp_mono _ _ (fun s2 _ => exists j' c, s2 = on_jobs (fun _ => <[p := j']> (jobs s)) (on_ct (fun _ => c) s1) /\ untimed j' = untimed j /\ core (put_v_kick (v_kick j) j') = core j /\
     nbusy c = (if is_hw_queue (v_queue j) then u32 (nbusy (ct s) + 1) else nbusy (ct s)) /\ ever_reset c = ever_reset (ct s))).
  { destruct (is_hw_queue (v_queue j)); cbn [when].
    - apply wp_bind, wp_acct. intros c E1 E2. apply wp_bind, wp_modify. eapply wp_upd_job; [exact J1|]. eexists _, _. split_and!; [unfold on_jobs; cbn; rewrite insert_insert_eq; reflexivity|done|done|cbn; by rewrite E1|done].
    - apply wp_ret. exists (put_v_kick now j), (ct s). split_and!; try done. }
  intros s2 [] (j' & c & -> & Hu & Hc & En & Er). set (s2 := on_jobs _ _). apply HQ.
  - assert (Sh2 : shape s2) by by destruct Sh1. split; try apply H; [|apply (mem_ok_eq s); [done..| |apply H]].
    + eapply (inv_start F X s s2 p j j'); try done.
      * intros q Hq'. unfold act. change (queue_at s2 q) with (queue_at s1 q). rewrite Eq1 by done. by case_decide.
      * intros q i Hq'. unfold head_of, tail_of. change (queue_at s2 q) with (queue_at s1 q). rewrite Eq1 by done. case_decide; [by subst|done].
    + unfold ovfs, s2; cbn. rewrite fmap_insert. apply insert_id. rewrite lookup_fmap, Ej. cbn. f_equal. change (v_ovf (untimed j) = v_ovf (untimed j')). by rewrite Hu.
  - split; try done; [by exists j'|]. intros q Hq'. unfold act. change (queue_at s2 q) with (queue_at s1 q). rewrite Eq1 by done. by case_decide.
Qed.

Lemma started_rview s s' p j : started s s' p j -> jobs s !! p = Some j -> rview s' = rview s.
Proof.
  intros [(j' & EJ & Hu) _ Ef _ _] Ej. unfold rview. rewrite Ef, EJ. f_equal. rewrite fmap_insert. apply insert_id. rewrite lookup_fmap, Ej. cbn. f_equal.
  change (waits_on (untimed j) = waits_on (untimed j')). by rewrite Hu.
Qed.
Lemma started_lines F X s s' p j op L : inv F (p :: X) s -> jobs s !! p = Some j -> act s (v_queue j) = 0 -> started s s' p j -> lines op L s ->
  (forall q i, is_queue q -> is_slot i -> L q i = if decide (q = v_queue j /\ i = f_slot (v_fence j)) then p :: F q i else rest F s q i) -> lines op (rest F s') s'.
Proof.
  intros H Ej Ha [(j' & EJ & Hu) Hact Ef Ec _] HL HE Hr. rewrite Ec in Hr. destruct (HL Hr) as [Hn Hl]. destruct (in_all _ _ _ H p ltac:(by exists j)) as [Hp0 _].
  assert (Ff : forall A (f : vjob -> A), (forall x, f (untimed x) = f x) -> f j' = f j) by (intros A f Hf; by rewrite <- Hf, Hu, Hf). split.
  { intros r k Ek. rewrite EJ in Ek. destruct (decide (r = p)) as [->|]; [rewrite lookup_insert_eq in Ek; injection Ek as <-; rewrite !Ff by done; by apply (Hn p)|rewrite lookup_insert_ne in Ek by done; by apply (Hn r)]. }
  assert (Hs : forall x, seq_of s' x = seq_of s x). { intros x. unfold seq_of. rewrite EJ. destruct (decide (x = p)) as [->|]; [rewrite lookup_insert_eq, Ej; cbn; by rewrite Ff|by rewrite lookup_insert_ne]. }
  intros q i Hq Hi. specialize (Hl q i Hq Hi). rewrite HE in Hl by done.
  assert (EL : rest F s' q i = if decide (q = v_queue j /\ i = f_slot (v_fence j)) then p :: F q i else rest F s q i).
  { unfold rest, actl. rewrite Hact by done. destruct (decide (q = v_queue j)) as [->|Hne].
    - rewrite (proj2 (Z.eqb_neq _ _) Hp0), EJ, lookup_insert_eq. cbn. rewrite (Ff _ v_fence) by done. rewrite Ha. destruct (f_slot (v_fence j) =? i) eqn:Ei; bsimp; [rewrite decide_True by done; done|rewrite decide_False by (intros [_ ->]; done); done].
    - rewrite decide_False by tauto. f_equal. destruct (act s q =? 0) eqn:Ez; [done|]. bsimp. rewrite EJ, lookup_insert_ne; [done|]. intros E. by destruct (proj2 (proj2 (proj2 (in_X _ _ _ H) p ltac:(by left))) q Hq). }
  rewrite EL. unfold line_ok, done_of in *. rewrite Ef. cbn [slots clients dead_flush set_actives]. rewrite (list_fmap_ext (seq_of s') (seq_of s)); [exact Hl|]. intros k x _. apply Hs.
Qed.

(** ** Register sequences of the kicks *)

#[global] Instance hw_tlb_step : HwOnly tlb_step.
Proof. unfold tlb_step. apply _. Qed.
#[global] Instance hw_l2t_flush b : HwOnly (l2t_flush b).
Proof. unfold l2t_flush. apply _. Qed.
#[global] Instance hw_clean_caches : HwOnly clean_caches.
Proof. unfold clean_caches. apply _. Qed.
#[global] Instance hw_drain_for_kick a b : HwOnly (drain_for_kick a b).
Proof. unfold drain_for_kick. apply _. Qed.
#[global] Instance hw_kick_render d : HwOnly (kick_render d).
Proof. unfold kick_render. apply _. Qed.
#[global] Instance hw_kick_tfu d : HwOnly (kick_tfu d).
Proof. unfold kick_tfu. apply _. Qed.
#[global] Instance hw_kick_csd d : HwOnly (kick_csd d).
Proof. unfold kick_csd. apply _. Qed.
#[global] Instance hw_progress_sample q : HwOnly (progress_sample q).
Proof. unfold progress_sample. apply _. Qed.

(** A register sequence in the midst of other steps. *)
Lemma wp_calm_hw {A B} (m : M A) (k : A -> M B) t s Q : HwOnly m -> calm t s -> mem_ok s -> (forall s' a, calm t s' -> mem_ok s' -> wp (k a) s' Q) -> wp (mbind k m) s Q.
Proof. intros Hm C M HQ. apply wp_bind, wp_hw; [done|]. intros s' a Q'. apply HQ; [etransitivity; [exact C|apply frame_calm, Q']|by eapply quiet_mem]. Qed.

Lemma kick_bin_spec d s : mem_ok s -> wp (kick_bin d) s (fun s' _ => calm s s' /\ mem_ok s').
Proof.
  intros M0. unfold kick_bin. assert (C0 : calm s s) by done.
  do 10 (eapply wp_calm_hw; [apply _|exact C0|exact M0|]; clear M0 C0; intros ? ? C0 M0).
  apply wp_bind, wp_modify. set (s1 := on_ov _ _). assert (C1 : calm s s1) by (etransitivity; [exact C0|]; by apply ov_calm). assert (M1 : mem_ok s1) by (apply (mem_ok_ov _ (put_bin_waiting 0 (ov _))); done). clearbody s1.
  apply wp_bind. eapply wp_mono; [by apply stage_spec|]. intros s2 [] [C2 M2]. assert (C3 : calm s s2) by by etransitivity. clear C1 M1 C2.
  do 3 (eapply wp_calm_hw; [apply _|exact C3|exact M2|]; clear M2 C3; intros ? ? C3 M2).
  apply wp_hw; [apply _|]. intros t [] Q'. split; [etransitivity; [exact C3|apply frame_calm, Q']|by eapply quiet_mem].
Qed.

(** ** The reset *)

Lemma fine_act F X W s q : fine F X W s -> is_queue q -> act s q <> 0 -> exists j, jobs s !! act s q = Some j /\ v_queue j = q.
Proof. intros H Hq Hz. destruct (in_act _ _ _ (fn_inv _ _ _ _ H) q Hq) as [[? _]|(_ & j & ? & ? & _)]; [done|by exists j]. Qed.
Lemma queues_in q : q ∈ queues -> is_queue q.
Proof. unfold queues. intros H%elem_of_seqZ. unfold is_queue. change V3DA_Q_COUNT with 6 in H. lia. Qed.

(** Configuration and clients stay, and no job appears. *)
Definition settled s s' : Prop := mode (cf s') = mode (cf s) /\ dom (jobs s') ⊆ dom (jobs s) /\ clients (fences s') = clients (fences s).
#[global] Instance settled_refl : Reflexive settled.
Proof. by intros s. Qed.
#[global] Instance settled_trans : Transitive settled.
Proof. intros a b c (E1 & E2 & E3) (F1 & F2 & F3). split_and!; [congruence|by etransitivity|congruence]. Qed.
Lemma gone_settled s s' p : gone s s' p -> settled s s'.
Proof. intros (_ & Ec & _ & E & ?). split_and!; [by rewrite Ec| |done]. rewrite E. apply subseteq_difference_l. done. Qed.
Lemma strip_dom (J J' : gmap Z vjob) : strip <$> J' = strip <$> J -> dom J' = dom J.
Proof. intros E. by rewrite <- (dom_fmap_L strip J'), E, dom_fmap_L. Qed.
Lemma calm_settled s s' : calm s s' -> settled s s'.
Proof. intros ((h & Eb) & E & _ & _ & _ & Ec & ?). split_and!; [by rewrite Ec|by rewrite (strip_dom _ _ E)|]. unfold fences. by rewrite Eb. Qed.

(** The armed chunk comes back. *)
Lemma unstage_spec s L : chunks s (-1) L -> one_chunk (wd s) -> token (wd s) = 0 ->
  wp (_ ← when (0 <=? staged (ov s)) (_ ← chunk_free_list (staged (ov s)); modify (on_ov (put_staged (-1)))); modify (on_ov (put_bin_waiting 0))) s (fun s' _ => calm s s' /\ mem_ok s').
Proof.
  intros H O T. apply wp_bind. eapply (wp_mono _ _ (fun s' _ => calm s s' /\ mem_ok s')).
  - apply wp_when; intros E; bsimp.
    + apply wp_bind. change (staged (ov s)) with (heads s (-1) Staged). eapply wp_mono; [apply (free_owner s s L Staged H); [done|by left]|]. intros s1 [] (n & f & nx & -> & Hs). apply wp_modify. set (s2 := on_ov _ _).
      split; [by apply (ov_calm s)|]. split; [|by split]. destruct (Hs s2 eq_refl eq_refl eq_refl ltac:(done)) as (L' & H' & _); [|by exists L']. by intros [| | |x] Ho.
    + split; [done|]. split; [by exists L|]. split; [done|]. by rewrite T, (proj2 (Z.leb_gt _ _)) by lia.
  - intros s1 [] [C1 M1]. apply wp_modify. split; [etransitivity; [exact C1|]; by apply ov_calm|]. by apply (mem_ok_ov s1).
Qed.

Lemma wedge_jobs F X W now l : forall s, fine F X W s -> Forall is_queue l ->
  wp (each (fun q => a ← get (fun s => q_active (queue_at s q)); when (is_hw_queue q && negb (a =? 0)) (job_done a true now)) l) s
    (fun s' _ => fine F X W s' /\ ever_reset (ct s') = ever_reset (ct s) /\ settled s s' /\ forall q, is_queue q -> act s' q = if decide (q ∈ l /\ is_hw_queue q = true) then 0 else act s q).
Proof.
  induction l as [|q l IH]; intros s H Hl; cbn [each]. { apply wp_ret. split_and!; [done|done|done|]. intros q Hq. rewrite decide_False; [done|]. intros [Hn _]. by apply elem_of_nil in Hn. }
  apply Forall_cons in Hl as [Hq Hl]. apply wp_bind.
  eapply (wp_mono _ _ (fun s1 _ => fine F X W s1 /\ ever_reset (ct s1) = ever_reset (ct s) /\ settled s s1 /\ forall q', is_queue q' -> act s1 q' = if decide (q' = q /\ is_hw_queue q' = true) then 0 else act s q')).
  { apply wp_bind, wp_get. apply wp_when; intros E; bsimp.
    - destruct (fine_act _ _ _ _ q H Hq ltac:(done)) as (j & Ej & Eq). eapply wp_mono; [eapply (done_active F X W s _ j); [done|exact Ej|by rewrite Eq]|].
      intros s4 [] (H4 & G & _ & A & _). split_and!; [done|by destruct G as (-> & _)|by eapply gone_settled|]. intros q' Hq'. rewrite A, Eq by done. destruct (decide (q' = q)) as [->|Hne]; [by rewrite decide_True|by rewrite decide_False by tauto].
    - split_and!; try done. intros q' Hq'. case_decide as Ed; [|done]. destruct Ed as [-> Eh]. unfold act. destruct (is_hw_queue q); [|done]. cbn in E. by bsimp. }
  intros s1 [] (H1 & R1 & S1 & A1). eapply wp_mono; [by apply IH|]. intros s2 [] (H2 & R2 & S2 & A2). split_and!; [done|congruence|by etransitivity|]. intros q' Hq'. rewrite A2, A1 by done.
  destruct (decide (q' ∈ l /\ is_hw_queue q' = true)) as [[]|N]; [rewrite decide_True by (split; [by right|done]); done|]. destruct (decide (q' = q /\ is_hw_queue q' = true)) as [[-> ?]|N']; [by rewrite decide_True by (split; [by left|done])|].
  rewrite decide_False; [done|]. intros [[->|?]%elem_of_cons ?]; tauto.
Qed.

Lemma wedge_spec F X W s now : fine F X W s -> wp (wedge now) s (fun s' _ => fine F X W s' /\ ever_reset (ct s') = true /\ settled s s' /\ forall q, is_queue q -> act s' q = if is_hw_queue q then 0 else act s q).
Proof.
  intros H. unfold wedge. apply wp_bind, wp_modify. set (s0 := on_ct _ s). assert (H0 : fine F X W s0) by by apply (fine_ct F X W s). assert (R0 : ever_reset (ct s0) = true) by done. assert (S0 : settled s s0) by done. assert (A0 : forall q, act s0 q = act s q) by done. clearbody s0. clear H.
  apply wp_bind. eapply wp_mono; [apply reset_spec|]. intros s1 [] (F1 & O1 & T1). apply wp_bind, wp_modify. set (s2 := on_ct _ s1). apply wp_bind, wp_get. apply wp_bind2.
  destruct (fn_mem _ _ _ _ H0) as [[L HL] _]. assert (HL2 : chunks s2 (-1) L) by (apply (chunks_eq s1); [|done..]; by eapply frame_chunks).
  assert (V2 : still s0 s2) by (etransitivity; [apply calm_still, frame_calm, F1|by apply ct_still]). assert (S2 : settled s s2) by (etransitivity; [exact S0|]; apply (calm_settled _ _ (frame_calm _ _ F1))).
  eapply wp_mono; [apply (unstage_spec s2 L HL2 O1 T1)|]. intros s3 [] [C3 M3]. assert (V3 : still s0 s3) by (etransitivity; [exact V2|by apply calm_still]).
  assert (H3 : fine F X W s3) by by eapply fine_still. assert (R3 : ever_reset (ct s3) = true) by (destruct V3 as ((_ & _ & _ & _ & _ & E) & _); congruence).
  assert (S3 : settled s s3) by (etransitivity; [exact S2|by apply calm_settled]). eapply wp_mono; [apply (wedge_jobs F X W now queues s3 H3), Forall_forall, queues_in|].
  intros s4 [] (H4 & R4 & S4 & A4). split_and!; [done|congruence|by etransitivity|]. intros q Hq. rewrite A4 by done. destruct V3 as (V3 & _). destruct (view_parts s0 s3 q 0 V3) as (_ & _ & ->). rewrite A0.
  destruct (is_hw_queue q); [rewrite decide_True|by rewrite decide_False by (by intros [_ ?])]; [done|]. split; [|done]. unfold is_queue in Hq. apply elem_of_seqZ. change V3DA_Q_COUNT with 6. lia.
Qed.

(** ** A job is put on the hardware *)

Lemma upd_untouched s p j f : jobs s !! p = Some j -> core (f j) = core j -> v_error (f j) = v_error j -> v_ovf (f j) = v_ovf j ->
  still s (on_jobs (fun _ => <[p := f j]> (jobs s)) s) /\ (mem_ok s -> mem_ok (on_jobs (fun _ => <[p := f j]> (jobs s)) s)).
Proof.
  intros Ej Hc He Ho. split; [|by apply mem_job_upd]. split_and!; [|done|].
  - split_and!; try done. cbn. by eapply core_insert.
  - unfold errs; cbn. rewrite fmap_insert, He. apply insert_id. by rewrite lookup_fmap, Ej.
Qed.
Lemma upd_rview s p j f : jobs s !! p = Some j -> waits_on (f j) = waits_on j -> rview (on_jobs (fun _ => <[p := f j]> (jobs s)) s) = rview s.
Proof. intros Ej Hw. unfold rview. f_equal. cbn. rewrite fmap_insert, Hw. apply insert_id. by rewrite lookup_fmap, Ej. Qed.
Lemma upd_settled s p j f : jobs s !! p = Some j -> settled s (on_jobs (fun _ => <[p := f j]> (jobs s)) s).
Proof. intros Ej. split_and!; [done| |done]. cbn. by rewrite dom_insert_lookup_L by (by eexists). Qed.

(** Other fields of jobs change, and the hardware. *)
Definition tuned s s' : Prop := still s s' /\ settled s s' /\ rview s' = rview s.
#[global] Instance tuned_refl : Reflexive tuned.
Proof. by intros s. Qed.
#[global] Instance tuned_trans : Transitive tuned.
Proof. intros a b c (S1 & T1 & R1) (S2 & T2 & R2). split_and!; [by etransitivity..|congruence]. Qed.
Lemma calm_tuned s s' : calm s s' -> tuned s s'.
Proof. intros C. split_and!; [by apply calm_still|by apply calm_settled|by apply calm_rview]. Qed.
Lemma upd_tuned s p j f : jobs s !! p = Some j -> core (f j) = core j -> v_error (f j) = v_error j -> waits_on (f j) = waits_on j -> tuned s (on_jobs (fun _ => <[p := f j]> (jobs s)) s).
Proof. intros Ej Hc He Hw. split_and!; [|by eapply upd_settled|by apply upd_rview]. split_and!; [split_and!; try done; cbn; by eapply core_insert|done|]. unfold errs; cbn. rewrite fmap_insert, He. apply insert_id. by rewrite lookup_fmap, Ej. Qed.
Lemma tuned_job s s' p j : tuned s s' -> jobs s !! p = Some j -> is_Some (jobs s' !! p).
Proof. intros ((V & _) & _) E. destruct (view_job _ _ _ _ V E) as (j' & ? & _). by exists j'. Qed.

Definition kick_hw (p now : Z) (j : vjob) : M bool :=
  let q := v_queue j in
  if q =? Q_CPU then _ ← upd_job p (put_v_done_at (u64 (now + v_delay j))); mret true
  else if q =? Q_BIN then _ ← kick_bin (v_desc j); mret true
  else if q =? Q_RENDER then _ ← kick_render (v_desc j); mret true
  else if q =? Q_TFU then _ ← kick_tfu (v_desc j); mret true
  else if q =? Q_CSD then kick_csd (v_desc j)
  else mret true.

Lemma kick_hw_spec s p now j : mem_ok s -> is_Some (jobs s !! p) -> wp (kick_hw p now j) s (fun s' _ => tuned s s' /\ mem_ok s').
Proof.
  intros Hm [k Ek]. unfold kick_hw. assert (HH : forall A (m : M A), HwOnly m -> wp m s (fun s' _ => tuned s s' /\ mem_ok s')).
  { intros A m Hw. apply wp_hw; [done|]. intros s' a Q. split; [apply calm_tuned, frame_calm, Q|by eapply quiet_mem]. }
  repeat case_if; try (apply HH; apply _).
  - apply wp_bind. eapply wp_upd_job; [exact Ek|]. apply wp_ret. split; [by apply upd_tuned|by apply mem_job_upd].
  - apply wp_bind. eapply wp_mono; [by apply kick_bin_spec|]. intros s1 [] [C M]. apply wp_ret. split; [by apply calm_tuned|done].
Qed.

Lemma tuned_lines op F s s' : tuned s s' -> lines op (rest F s) s -> lines op (rest F s') s'.
Proof. intros (S & _) H. by eapply lines_still. Qed.
Lemma tuned_fine F X W s s' : tuned s s' -> mem_ok s' -> fine F X W s -> fine F X W s'.
Proof. intros (S & _). by apply fine_still. Qed.
Lemma started_settled s s' p j : started s s' p j -> jobs s !! p = Some j -> settled s s'.
Proof. intros [(j' & EJ & _) _ Ef _ (Ec & ?)] Ej. split_and!; [by rewrite Ec| |by rewrite Ef]. by rewrite EJ, dom_insert_lookup_L by (by eexists). Qed.

Lemma kick_spec F X W s p j now : fine F (p :: X) W s -> jobs s !! p = Some j -> act s (v_queue j) = 0 ->
  wp (job_kick p now) s (fun s' _ => fine F X W s' /\ settled s s' /\ (ever_reset (ct s') = false -> exists s1, started s s1 p j /\ fine F X W s1 /\ tuned s1 s')).
Proof.
  intros H Ej Ha. unfold job_kick. apply wp_bind. eapply wp_job_at; [exact Ej|]. apply (start_spec F X W s p j now _ _ H Ej Ha). intros s1 H1 S1.
  assert (Hp1 : is_Some (jobs s1 !! p)) by (destruct S1 as [(j' & -> & _) _ _ _ _]; rewrite lookup_insert_eq; by eexists). pose proof (started_settled _ _ _ _ S1 Ej) as T1.
  apply wp_bind. eapply wp_mono; [apply (kick_hw_spec s1 p now j); [apply H1|done]|]. intros s2 ok [T2 M2]. pose proof (tuned_fine _ _ _ _ _ T2 M2 H1) as H2. destruct Hp1 as [j1 Ej1]. destruct (tuned_job _ _ _ _ T2 Ej1) as [j2 Ej2].
  destruct ok.
  - apply wp_when; intros _; [|split_and!; [done|etransitivity; [done|apply T2]|by exists s1]]. apply wp_bind, wp_hw; [apply _|]. intros s3 [ca ra] Q3.
    assert (T3 : tuned s1 s3) by (etransitivity; [exact T2|apply calm_tuned, frame_calm, Q3]). assert (M3 : mem_ok s3) by by eapply quiet_mem.
    destruct (tuned_job _ _ _ _ T3 Ej1) as [j3 Ej3]. eapply wp_upd_job; [exact Ej3|].
    pose proof (upd_tuned s3 p j3 (fun j => put_v_ra ra (put_v_ca ca j)) Ej3 ltac:(done) ltac:(done) ltac:(done)) as T4. pose proof (mem_job_upd s3 p j3 (fun j => put_v_ra ra (put_v_ca ca j)) Ej3 ltac:(done) M3) as M4.
    assert (T5 : tuned s1 (on_jobs (fun _ => <[p := put_v_ra ra (put_v_ca ca j3)]> (jobs s3)) s3)) by by etransitivity.
    split_and!; [by eapply tuned_fine|etransitivity; [done|apply T5]|by exists s1].
  - apply wp_bind. eapply wp_upd_job; [exact Ej2|]. set (s3 := on_jobs _ s2). assert (H3 : fine F X W s3).
    { apply (fine_view F X W s2); [|done|by apply (mem_job_upd s2 p j2 (put_v_error true))|exact H2]. split_and!; try done. cbn. by eapply core_insert. }
    eapply wp_mono; [by apply wedge_spec|]. intros s4 [] (H4 & R4 & S4 & _). split_and!; [done| |by rewrite R4].
    etransitivity; [exact T1|]. etransitivity; [apply T2|]. etransitivity; [|exact S4]. by apply (upd_settled s2 p j2 (put_v_error true)).
Qed.

(** ** Heads of the queues *)

Lemma head_is_spec F X s test q i (Q : jsrv -> bool -> Prop) : inv F X s -> is_queue q -> is_slot i ->
  match F q i with [] => Q s false | p :: _ => forall j, jobs s !! p = Some j -> Q s (test s j) end -> wp (head_is test q i) s Q.
Proof.
  intros H Hq Hi HQ. destruct (in_fifo _ _ _ H q i Hq Hi) as [Hs _]. unfold head_of in Hs. unfold head_is, wp. destruct (F q i) as [|p l]; cbn in Hs.
  - rewrite Hs. by exists s, false.
  - destruct Hs as (-> & Hp & j & Ej & _). rewrite (proj2 (Z.eqb_neq _ _) Hp), Ej. eexists _, _. split; [done|]. by apply HQ.
Qed.

Definition ready s (p : Z) : Prop := exists j, jobs s !! p = Some j /\ job_ready s j = true.
Lemma ready_rview s s' p : rview s' = rview s -> ready s p -> ready s' p.
Proof.
  intros E (j & Ej & R). injection E as E1 E2. assert (E' : (waits_on <$> jobs s') !! p = (waits_on <$> jobs s) !! p) by by rewrite E1. rewrite !lookup_fmap, Ej in E'.
  destruct (jobs s' !! p) as [j'|] eqn:Ej'; [|done]. exists j'. split; [done|]. cbn in E'. injection E' as Q1 Q2 Q3 _. rewrite <- R. unfold job_ready. rewrite Q1, Q2, Q3.
  case_if; [done|]. generalize (v_dep j). intros d. induction d as [|f d IH]; [done|]. cbn. by rewrite (V3daCorrect.signaled_env (fences s) (fences s') f E2), IH.
Qed.

(** The first job of a FIFO has been taken. *)
Record popped (op : Z -> Z -> phase) F W s s1 q i p l : Prop := {
  pp_fine : fine (upd_fifo F q i l) [p] W s1;
  pp_lines : lines op (rest F s) s1;
  pp_act q' : is_queue q' -> act s1 q' = act s q';
  pp_actl q' i' : is_queue q' -> actl s1 q' i' = actl s q' i';
  pp_tuned : settled s s1 /\ rview s1 = rview s /\ ever_reset (ct s1) = ever_reset (ct s);
  pp_job : exists j, jobs s1 !! p = Some j /\ v_queue j = q /\ f_slot (v_fence j) = i
}.

Lemma no_link_fmap {A} (f : vjob -> A) (J J' : gmap Z vjob) : (forall j, f (no_link j) = f j) -> no_link <$> J' = no_link <$> J -> f <$> J' = f <$> J.
Proof.
  intros Hf E. assert (E' : (f ∘ no_link) <$> J' = (f ∘ no_link) <$> J) by by rewrite !map_fmap_compose, E.
  rewrite (map_fmap_ext (f ∘ no_link) f J'), (map_fmap_ext (f ∘ no_link) f J) in E' by (intros; apply Hf). done.
Qed.
Lemma moved_seq s s' x : moved s s' -> seq_of s' x = seq_of s x.
Proof.
  intros (_ & _ & _ & _ & _ & _ & E & _). pose proof (f_equal (fun m : gmap Z Z => default 0 (m !! x)) (no_link_fmap (fun j => f_seqno (v_fence j)) _ _ ltac:(done) E)) as E'. cbn in E'. rewrite !lookup_fmap in E'. unfold seq_of.
  by destruct (jobs s' !! x), (jobs s !! x).
Qed.
Lemma moved_errors s s' : moved s s' -> no_errors s -> no_errors s'.
Proof.
  intros M H p j' Ej'. destruct M as (_ & _ & _ & _ & _ & _ & E & _). assert (E' := f_equal (fun m : gmap Z vjob => m !! p) E). cbn in E'. rewrite !lookup_fmap, Ej' in E'. destruct (jobs s !! p) as [j|] eqn:Ej; [|done].
  destruct (H p j Ej) as [E1 E2]. injection E'; intros. split; congruence.
Qed.
Lemma moved_lines op L s s' : moved s s' -> lines op L s -> lines op L s'.
Proof.
  intros M H Hr. pose proof M as (Eb & _ & _ & Ec & _). rewrite Ec in Hr. destruct (H Hr) as [Hn Hl]. split; [by eapply moved_errors|]. intros q i Hq Hi. specialize (Hl q i Hq Hi).
  unfold line_ok, done_of, fences in *. rewrite Eb. rewrite (list_fmap_ext (seq_of s') (seq_of s)); [done|]. intros k x _. by apply moved_seq.
Qed.
Lemma moved_actl s s' q i : moved s s' -> is_queue q -> actl s' q i = actl s q i.
Proof.
  intros (_ & _ & _ & _ & _ & _ & E & Ha) Hq. unfold actl. rewrite (proj1 (Ha q Hq)). assert (E' := f_equal (fun m : gmap Z bool => default false (m !! act s q)) (no_link_fmap (fun j => f_slot (v_fence j) =? i) _ _ ltac:(done) E)).
  cbn in E'. rewrite !lookup_fmap in E'. destruct (jobs s' !! act s q), (jobs s !! act s q); cbn in *; first [done | by rewrite E' | by rewrite <- E'].
Qed.
Lemma moved_dom s s' : moved s s' -> dom (jobs s') = dom (jobs s).
Proof. intros (_ & _ & _ & _ & _ & _ & E & _). apply (f_equal dom) in E. by rewrite !dom_fmap_L in E. Qed.
Lemma moved_mem s s' : moved s s' -> mem_ok s -> mem_ok s'.
Proof. intros (_ & Ew & Eo & _ & _ & _ & E & _). apply mem_ok_eq; [done|done|]. by apply (no_link_fmap v_ovf). Qed.
Lemma moved_rview s s' : moved s s' -> rview s' = rview s.
Proof. intros (Eb & _ & _ & _ & _ & _ & E & _). unfold rview, fences. rewrite Eb. f_equal. by apply (no_link_fmap waits_on). Qed.

Lemma pop_fine0 F W s q i p l : fine F [] W s -> is_queue q -> is_slot i -> F q i = p :: l ->
  wp (fifo_pop q i) s (fun s1 x => x = p /\ fine (upd_fifo F q i l) [p] W s1 /\ moved s s1 /\ exists j, jobs s1 !! p = Some j /\ v_queue j = q /\ f_slot (v_fence j) = i).
Proof.
  intros H Hq Hi HF. pose proof (fn_inv _ _ _ _ H) as HI. apply (pop_spec F [] s q i p l _ HI Hq Hi HF). intros s1 M1 H1. pose proof M1 as (Eb & _). split_and!; [done| |done|].
  - destruct H as [_ Hm Hc Hg Hw Hr]. split; unfold fences; rewrite ?Eb; try done; [by eapply moved_mem|]. intros k c Hk. specialize (Hc k c Hk). destruct (c_used c); [done|]. intros q'. unfold upd_fifo. case_decide as E; [|done].
    destruct E as [-> E]. rewrite <- E in HF. by rewrite Hc in HF.
  - destruct (in_F _ _ _ HI q i p ltac:(rewrite HF; by left)) as (_ & _ & j & Ej & Eq & Ei). destruct (moved_job _ _ _ _ M1 Ej) as (j' & Ej' & E). exists j'. split; [done|].
    split; [change (v_queue (no_link j') = q)|change (f_slot (v_fence (no_link j')) = i)]; by rewrite E.
Qed.

Lemma pop_fine op F W s q i p l : fine F [] W s -> lines op (rest F s) s -> is_queue q -> is_slot i -> F q i = p :: l ->
  wp (fifo_pop q i) s (fun s1 x => x = p /\ popped op F W s s1 q i p l).
Proof.
  intros H HL Hq Hi HF. eapply wp_mono; [by apply (pop_fine0 F W s q i p l)|]. intros s1 x (-> & H1 & M1 & Hj). split; [done|]. pose proof M1 as (Eb & _ & _ & Ec & Ecf & _ & _ & Ha). split; try done.
  - by eapply moved_lines.
  - intros q' Hq'. by apply Ha.
  - intros q' i' Hq'. by apply moved_actl.
  - split_and!; [split_and!; [by rewrite Ecf|by rewrite (moved_dom _ _ M1)|unfold fences; by rewrite Eb]|by apply moved_rview|by rewrite Ec].
Qed.

Lemma popped_still op F W s s1 s2 q i p l : popped op F W s s1 q i p l -> tuned s1 s2 -> mem_ok s2 -> popped op F W s s2 q i p l.
Proof.
  intros [H1 H2 H3 H4 (H5 & H6 & H6') (j & Ej & Eq & Ei)] T M. pose proof T as ((V & Ew & Ee) & T2 & T3). split.
  - by eapply tuned_fine.
  - by eapply lines_view.
  - intros q' Hq'. destruct (view_parts s1 s2 q' 0 V) as (_ & _ & ->). auto.
  - intros q' i' Hq'. rewrite (actl_view _ _ _ _ V). auto.
  - split_and!; [by etransitivity|congruence|]. destruct V as (_ & _ & _ & _ & _ & ->). done.
  - destruct (view_job _ _ _ _ V Ej) as (j' & ? & _ & ? & Ef & _). exists j'. rewrite Ef. split_and!; congruence.
Qed.

(** What a step of the scheduler gives. *)
Definition shrunk (F F' : Z -> Z -> list Z) : Prop := forall q i, exists l, F q i = l ++ F' q i.
#[global] Instance shrunk_refl : Reflexive shrunk.
Proof. intros F q i. by exists []. Qed.
#[global] Instance shrunk_trans : Transitive shrunk.
Proof. intros F G H A B q i. destruct (A q i) as [l ->], (B q i) as [l' ->]. exists (l ++ l'). by rewrite app_assoc. Qed.
Lemma shrunk_pop F q i p l : F q i = p :: l -> shrunk F (upd_fifo F q i l).
Proof. intros E q' i'. unfold upd_fifo. case_decide as H; [destruct H as [-> ->]; exists [p]; by rewrite E|by exists []]. Qed.

Definition good op F W s : Prop := fine F [] W s /\ lines op (rest F s) s.
Definition stepped op F W s s' F' : Prop := good op F' W s' /\ shrunk F F' /\ settled s s' /\ (ever_reset (ct s) = true -> ever_reset (ct s') = true).

Lemma stepped_refl op F W s : good op F W s -> stepped op F W s s F.
Proof. intros H. by split_and!. Qed.
Lemma stepped_trans op F W s1 s2 s3 F2 F3 : stepped op F W s1 s2 F2 -> stepped op F2 W s2 s3 F3 -> stepped op F W s1 s3 F3.
Proof. intros (G1 & A1 & B1 & C1) (G2 & A2 & B2 & C2). split_and!; [done|by etransitivity|by etransitivity|auto]. Qed.

Lemma kick_popped op F W s s1 q i p l now : is_queue q -> is_slot i -> F q i = p :: l -> act s q = 0 -> popped op F W s s1 q i p l ->
  wp (job_kick p now) s1 (fun s' _ => stepped op F W s s' (upd_fifo F q i l) /\
    (ever_reset (ct s') = false -> rview s' = rview s /\ forall q', is_queue q' -> act s' q' = if decide (q' = q) then p else act s q')).
Proof.
  intros Hq Hi HF Ha [H1 HL Hact Hactl (T1 & R1 & E1) (j & Ej & Eq & Ei)]. eapply wp_mono; [eapply (kick_spec _ [] W s1 p j now H1 Ej); by rewrite Eq, Hact|]. intros s' [] (H' & S' & Hs).
  assert (Hyes : ever_reset (ct s') = false -> lines op (rest (upd_fifo F q i l) s') s' /\ rview s' = rview s /\ (ever_reset (ct s) = false) /\ forall q', is_queue q' -> act s' q' = if decide (q' = q) then p else act s q').
  { intros Hr. destruct (Hs Hr) as (s2 & S2 & _ & T2). pose proof T2 as ((V & _) & _ & R2). split_and!.
    - eapply tuned_lines; [exact T2|]. eapply (started_lines _ [] s1 s2 p j op (rest F s)); [apply H1|done|by rewrite Eq, Hact|done|done|].
      intros q' i' Hq' Hi'. rewrite Eq, Ei. unfold rest, upd_fifo. case_decide as E; [destruct E as [-> ->]; rewrite HF; unfold actl; rewrite Ha; done|by rewrite Hactl].
    - rewrite R2, <- R1. by eapply started_rview.
    - rewrite <- E1. destruct V as (_ & _ & _ & _ & _ & V). rewrite Hr in V. by rewrite <- (st_ct _ _ _ _ S2).
    - intros q' Hq'. destruct (view_parts s2 s' q' 0 V) as (_ & _ & ->). rewrite (st_act _ _ _ _ S2 q' Hq'), Eq, Hact by done. done. }
  split; [|intros Hr; by destruct (Hyes Hr) as (_ & ? & _ & ?)]. split_and!.
  - split; [done|]. intros Hr. by apply (proj1 (Hyes Hr)).
  - by apply (shrunk_pop F q i p).
  - by etransitivity.
  - intros Hr. destruct (ever_reset (ct s')) eqn:E; [done|]. destruct (Hyes eq_refl) as (_ & _ & ? & _). congruence.
Qed.

(** ** Running a queue *)

Lemma rr_tuned s q x : shape s -> is_queue q -> 0 <= x <= 60 -> tuned s (on_qs (alter (put_rr x) (Z.to_nat q)) s) /\ (mem_ok s -> mem_ok (on_qs (alter (put_rr x) (Z.to_nat q)) s)).
Proof.
  intros Sh Hq Hx. split; [|by apply mem_ok_eq]. split_and!; try done. split_and!; try done. split_and!; try done. cbn. apply list_eq. intros k. rewrite !list_lookup_fmap.
  destruct (decide (k = Z.to_nat q)) as [->|Hk]; [|by rewrite list_lookup_alter_ne]. rewrite list_lookup_alter_eq. destruct (qs s !! Z.to_nat q) as [u|] eqn:E; [|done]. cbn. f_equal. unfold qview; cbn.
  f_equal. pose proof (sh_rr _ Sh u ltac:(by eapply list_elem_of_lookup_2)). rewrite !bool_decide_eq_true_2 by done. done.
Qed.

(** The part of the state that decides what runs. *)
Definition started_by op F W s s' F' q : Prop :=
  stepped op F W s s' F' /\ (ever_reset (ct s') = false -> rview s' = rview s /\
    (forall q' i, is_queue q' -> q' <> q -> act s' q' = act s q' /\ F' q' i = F q' i) /\
    ((act s' q = act s q /\ (forall i, F' q i = F q i) /\ (act s q = 0 -> forall i p l, is_slot i -> F q i = p :: l -> ~ ready s p)) \/
     (exists i l, is_slot i /\ act s q = 0 /\ F q i = act s' q :: l /\ ready s (act s' q) /\ F' = upd_fifo F q i l))).

Lemma round_robin_spec op F W q now l : forall s, good op F W s -> is_queue q -> act s q = 0 -> Forall is_slot l -> (forall i p l', is_slot i -> i ∉ l -> F q i = p :: l' -> ~ ready s p) ->
  wp (round_robin q now l) s (fun s' _ => exists F', started_by op F W s s' F' q).
Proof.
  induction l as [|i l IH]; intros s G Hq Ha Hl Hout; cbn [round_robin].
  - apply wp_ret. exists F. split; [by apply stepped_refl|]. intros _. split_and!; [done|done|]. left. split_and!; [done|done|]. intros _ i p l Hi HF. apply (Hout i p l Hi); [by apply not_elem_of_nil|done].
  - apply Forall_cons in Hl as [Hi Hl]. apply wp_bind. destruct G as [H HL]. pose proof (fn_inv _ _ _ _ H) as HI. apply (head_is_spec F [] s _ q i _ HI Hq Hi).
    assert (Hskip : (forall p l', F q i = p :: l' -> ~ ready s p) -> wp (round_robin q now l) s (fun s' _ => exists F', started_by op F W s s' F' q)).
    { intros Hn. apply IH; [done|done|done|done|]. intros i' p l' Hi' Hi'' HF. destruct (decide (i' = i)) as [->|Hne]; [by eapply Hn|]. apply (Hout i' p l' Hi'); [|done]. by apply not_elem_of_cons. }
    destruct (F q i) as [|p l'] eqn:HF; [by apply Hskip|]. intros j Ej. destruct (job_ready s j) eqn:Er.
    2: { apply Hskip. intros ? ? [= <- <-] (j' & Ej' & Er'). congruence. }
    apply wp_bind. eapply wp_mono; [by eapply (pop_fine op F W s q i p l')|]. intros s1 x [-> P1]. apply wp_bind, wp_modify.
    destruct (rr_tuned s1 q (u32 (i + 1)) (in_shape _ _ _ (fn_inv _ _ _ _ (pp_fine _ _ _ _ _ _ _ _ _ P1))) Hq) as [T2 M2]. { unfold is_slot in Hi. unfold u32. rewrite Z.mod_small by lia. lia. }
    pose proof (popped_still _ _ _ _ _ _ _ _ _ _ P1 T2 (M2 (fn_mem _ _ _ _ (pp_fine _ _ _ _ _ _ _ _ _ P1)))) as P2. eapply wp_mono; [by eapply (kick_popped op F W s)|]. intros s' [] [S' Hs].
    exists (upd_fifo F q i l'). split; [done|]. intros Hr. destruct (Hs Hr) as [Rv A]. split_and!; [done| |].
    + intros q' i' Hq' Hne. rewrite A, decide_False by done. split; [done|]. unfold upd_fifo. by rewrite decide_False by tauto.
    + right. exists i, l'. rewrite A, decide_True by done. split_and!; try done. by exists j.
Qed.

Lemma from_cursor_in rr i : 0 <= rr <= 60 -> is_slot i -> i ∈ from_cursor rr.
Proof.
  unfold is_slot. intros Hr Hi. unfold from_cursor. apply list_elem_of_fmap. exists ((i - rr) mod 60). change V3DA_MAX_CLIENTS with 60. pose proof (Z.mod_pos_bound (i - rr) 60 ltac:(lia)) as Hb. split.
  - unfold u32. rewrite (Z.mod_small _ (2 ^ 32)) by lia. rewrite Zplus_mod_idemp_r. replace (rr + (i - rr)) with i by lia. by rewrite Z.mod_small.
  - apply elem_of_seqZ. change V3DA_MAX_CLIENTS with 60. lia.
Qed.
Lemma from_cursor_slots rr : Forall is_slot (from_cursor rr).
Proof. apply Forall_forall. intros x (i & -> & _)%list_elem_of_fmap. apply Z.mod_pos_bound. done. Qed.

Lemma run_queue_spec op F W q now s : good op F W s -> is_queue q -> wp (run_queue q now) s (fun s' _ => exists F', started_by op F W s s' F' q).
Proof.
  intros G Hq. unfold run_queue. apply wp_bind, wp_get. apply wp_when; intros E; bsimp.
  - pose proof (in_shape _ _ _ (fn_inv _ _ _ _ (proj1 G))) as Sh. apply round_robin_spec; [done|done|done|apply from_cursor_slots|]. intros i p l Hi Hn. destruct Hn. apply from_cursor_in; [|done]. apply (sh_rr _ Sh), queue_in, Hq. apply Sh.
  - exists F. split; [by apply stepped_refl|]. intros _. split_and!; [done|done|]. left. split_and!; [done|done|]. done.
Qed.

(** ** Jobs whose bin failed *)

Lemma stats_tuned s f q : stats_only f -> tuned s (on_qs (alter f (Z.to_nat q)) s) /\ (mem_ok s -> mem_ok (on_qs (alter f (Z.to_nat q)) s)).
Proof. intros H. split; [|by apply mem_ok_eq]. split_and!; try done. by apply stats_still. Qed.

Lemma reap_one op F W s q i p l now : good op F W s -> is_queue q -> is_slot i -> F q i = p :: l -> ever_reset (ct s) = true ->
  wp (p ← fifo_pop q i; _ ← drop_pending q; job_done p true now) s (fun s' _ => stepped op F W s s' (upd_fifo F q i l) /\ (size (jobs s') < size (jobs s))%nat).
Proof.
  intros [H HL] Hq Hi HF Hr. apply wp_bind. eapply wp_mono; [by eapply (pop_fine op F W s q i p l)|]. intros s1 x [-> P1]. apply wp_bind, wp_modify.
  destruct (stats_tuned s1 (fun u => put_pending (u32 (pending u - 1)) u) q ltac:(done)) as [T2 M2]. pose proof (popped_still _ _ _ _ _ _ _ _ _ _ P1 T2 (M2 (fn_mem _ _ _ _ (pp_fine _ _ _ _ _ _ _ _ _ P1)))) as P2.
  destruct P2 as [H2 _ _ _ (T3 & _ & R2) (j & Ej & _)]. rewrite Hr in R2. eapply wp_mono; [by eapply (done_limbo _ [] W _ p j)|]. intros s' [] (H' & G & _). pose proof G as (R' & _ & _ & D' & _).
  rewrite R2 in R'. split.
  - split_and!; [split; [done|intros E; congruence]|by apply (shrunk_pop F q i p)|etransitivity; [exact T3|by eapply gone_settled]|done].
  - rewrite <- !size_dom. apply subset_size. rewrite D'. apply elem_of_dom_2 in Ej. destruct T3 as (_ & T3 & _). clear - Ej T3. set_solver.
Qed.

Lemma reap_round_spec op W now l : forall F s, good op F W s -> Forall (fun x => is_queue x.1 /\ is_slot x.2) l ->
  wp (reap_round now l) s (fun s' b => exists F', stepped op F W s s' F' /\ (b = true -> (size (jobs s') < size (jobs s))%nat) /\ (ever_reset (ct s) = false -> s' = s /\ F' = F /\ b = false)).
Proof.
  induction l as [|[q i] l IH]; intros F s G Hl; cbn [reap_round]; [apply wp_ret; exists F; split_and!; [by apply stepped_refl|done|done]|].
  apply Forall_cons in Hl as [[Hq Hi] Hl]. cbn in Hq, Hi. apply wp_bind. destruct G as [H HL]. apply (head_is_spec F [] s _ q i _ (fn_inv _ _ _ _ H) Hq Hi).
  destruct (F q i) as [|p l'] eqn:HF; [by apply IH|]. intros j Ej. destruct (v_dep_error j && job_ready s j) eqn:Ef; [|by apply IH]. bsimp.
  assert (Hr : ever_reset (ct s) = true). { destruct (ever_reset (ct s)) eqn:E; [done|]. destruct (HL E) as [Hn _]. destruct (Hn p j Ej). congruence. }
  apply wp_bind3. eapply wp_mono; [by apply (reap_one op F W s q i p l' now (conj H HL))|]. intros s1 [] [S1 Z1]. pose proof S1 as (G1 & _). apply wp_bind. eapply wp_mono; [by apply (IH _ s1 G1)|].
  intros s2 b (F2 & S2 & Z2 & _). apply wp_ret. exists F2. split_and!; [by eapply stepped_trans| |congruence]. intros _. destruct S2 as (_ & _ & (_ & D2 & _) & _). apply subseteq_size in D2. rewrite !size_dom in D2. lia.
Qed.

Lemma all_heads_ok : Forall (fun x => is_queue x.1 /\ is_slot x.2) all_heads.
Proof.
  apply Forall_forall. intros x Hx. unfold all_heads in Hx. apply list_elem_of_bind in Hx as (q & Hx & Hq). apply list_elem_of_bind in Hx as (i & Hx%list_elem_of_singleton & Hi). subst x. cbn.
  split; [by apply queues_in|]. unfold client_slots in Hi. apply elem_of_seqZ in Hi. change V3DA_MAX_CLIENTS with 60 in Hi. unfold is_slot. lia.
Qed.
Lemma reap_loop_spec op W now fuel : forall F s, good op F W s -> (size (jobs s) < fuel)%nat ->
  wp (reap_loop fuel now) s (fun s' _ => exists F', stepped op F W s s' F' /\ (ever_reset (ct s) = false -> s' = s /\ F' = F)).
Proof.
  induction fuel as [|fuel IH]; intros F s G Hf; [lia|]. cbn [reap_loop]. apply wp_bind. eapply wp_mono; [apply reap_round_spec; [done|apply all_heads_ok]|]. intros s1 b (F1 & S1 & Z1 & E1). destruct b.
  - pose proof S1 as (G1 & _). eapply wp_mono; [apply (IH F1 s1 G1); specialize (Z1 eq_refl); lia|]. intros s2 [] (F2 & S2 & _). exists F2. split; [by eapply stepped_trans|]. intros Hr. by destruct (E1 Hr) as (_ & _ & ?).
  - apply wp_ret. exists F1. split; [done|]. intros Hr. by destruct (E1 Hr) as (-> & -> & _).
Qed.

(** ** The whole scheduler *)

Lemma wp_now s (Q : jsrv -> Z -> Prop) : (forall s' t, tuned s s' -> (mem_ok s -> mem_ok s') -> cf s' = cf s -> ct s' = ct s -> jobs s' = jobs s -> Q s' t) -> wp v3da_now_us s Q.
Proof.
  intros H. unfold v3da_now_us, wp. destruct (k_now (kern (bo s))) as [t k]. eexists _, _. split; [done|]. apply H; try done. by apply mem_ok_eq.
Qed.

Definition ran (F : Z -> Z -> list Z) s (F' : Z -> Z -> list Z) s' q : Prop :=
  (act s' q = act s q /\ (forall i, F' q i = F q i) /\ (act s q = 0 -> forall i p l, is_slot i -> F q i = p :: l -> ~ ready s p)) \/
  (exists i l, is_slot i /\ act s q = 0 /\ F q i = act s' q :: l /\ ready s (act s' q) /\ forall i', F' q i' = upd_fifo F q i l q i').
Definition left_alone (F : Z -> Z -> list Z) s (F' : Z -> Z -> list Z) s' q : Prop := act s' q = act s q /\ forall i, F' q i = F q i.

Lemma ran_before F s F1 s1 F' s' q : rview s1 = rview s -> left_alone F s F1 s1 q -> ran F1 s1 F' s' q -> ran F s F' s' q.
Proof.
  intros Rv [Ea EF] [(A1 & A2 & A3)|(i & l & Hi & A1 & A2 & A3 & A4)].
  - left. split_and!; [congruence|intros i; by rewrite A2, EF|]. intros H0 i p l Hi HF Hp. eapply (A3 ltac:(congruence) i p l Hi); [by rewrite EF|by eapply ready_rview].
  - right. exists i, l. split_and!; [done|congruence|by rewrite <- EF|by eapply ready_rview|]. intros i'. rewrite A4. unfold upd_fifo. case_decide; [done|apply EF].
Qed.
Lemma ran_after F s F1 s1 F' s' q : left_alone F1 s1 F' s' q -> ran F s F1 s1 q -> ran F s F' s' q.
Proof.
  intros [Ea EF] [(A1 & A2 & A3)|(i & l & Hi & A1 & A2 & A3 & A4)].
  - left. split_and!; [congruence|intros i; by rewrite EF|done].
  - right. exists i, l. rewrite Ea. split_and!; try done. intros i'. by rewrite EF.
Qed.
Lemma started_ran op F W s s' F' q : started_by op F W s s' F' q -> ever_reset (ct s') = false -> rview s' = rview s /\ ran F s F' s' q /\ forall q', is_queue q' -> q' <> q -> left_alone F s F' s' q'.
Proof.
  intros [_ H] Hr. destruct (H Hr) as (Rv & Ho & Hd). split_and!; [done| |].
  - destruct Hd as [?|(i & l & ? & ? & ? & ? & ->)]; [by left|right]. by exists i, l.
  - intros q' Hq' Hne. split; [by apply (Ho q' 0)|]. intros i. by apply (Ho q' i).
Qed.

Lemma run_queues_spec op W now l : forall F s, good op F W s -> NoDup l -> Forall is_queue l ->
  wp (each (fun q => when (is_hw_queue q) (run_queue q now)) l) s (fun s' _ => exists F', stepped op F W s s' F' /\ (ever_reset (ct s') = false -> rview s' = rview s /\
    forall q, is_queue q -> if decide (q ∈ l /\ is_hw_queue q = true) then ran F s F' s' q else left_alone F s F' s' q)).
Proof.
  induction l as [|q l IH]; intros F s G Hnd Hl; cbn [each].
  { apply wp_ret. exists F. split; [by apply stepped_refl|]. intros _. split; [done|]. intros q Hq. rewrite decide_False by (intros [?%elem_of_nil _]; done). done. }
  apply NoDup_cons in Hnd as [Hql Hnd]. apply Forall_cons in Hl as [Hq Hl]. apply wp_bind.
  eapply (wp_mono _ _ (fun s1 _ => exists F1, stepped op F W s s1 F1 /\ (ever_reset (ct s1) = false -> rview s1 = rview s /\ (if is_hw_queue q then ran F s F1 s1 q else left_alone F s F1 s1 q) /\ forall q', is_queue q' -> q' <> q -> left_alone F s F1 s1 q'))).
  { apply wp_when; intros E; rewrite E.
    - eapply wp_mono; [by apply run_queue_spec|]. intros s1 [] (F1 & S1). exists F1. split; [apply S1|]. intros Hr. by eapply started_ran.
    - exists F. split; [by apply stepped_refl|done]. }
  intros s1 [] (F1 & S1 & E1). pose proof S1 as (G1 & _). eapply wp_mono; [by apply (IH F1 s1)|]. intros s2 [] (F2 & S2 & E2). exists F2. split; [by eapply stepped_trans|]. intros Hr.
  assert (Hr1 : ever_reset (ct s1) = false). { destruct (ever_reset (ct s1)) eqn:E; [|done]. destruct S2 as (_ & _ & _ & S2). rewrite (S2 E) in Hr. done. }
  destruct (E1 Hr1) as (Rv1 & Eq1 & Eo1). destruct (E2 Hr) as (Rv2 & E2'). split; [congruence|]. intros q' Hq'. specialize (E2' q' Hq'). destruct (decide (q' = q)) as [->|Hne].
  - rewrite decide_False in E2' by tauto. destruct (is_hw_queue q); [rewrite decide_True by (split; [by left|done]); by eapply ran_after|rewrite decide_False by (by intros [_ ?])]. destruct E2' as [A B], Eq1 as [C D']. split; [congruence|intros i; by rewrite B].
  - specialize (Eo1 q' Hq' Hne). destruct (decide (q' ∈ l /\ is_hw_queue q' = true)) as [[A B]|N].
    + rewrite decide_True by (split; [by right|done]). by eapply ran_before.
    + rewrite decide_False by (intros [[->|?]%elem_of_cons ?]; tauto). destruct E2' as [A B], Eo1 as [C D']. split; [congruence|intros i; by rewrite B].
Qed.

(** A ready head, and its place in the order of submission. *)
Definition head_ready (F : Z -> Z -> list Z) s q i p g : Prop :=
  is_queue q /\ is_slot i /\ (exists l, F q i = p :: l) /\ exists j, jobs s !! p = Some j /\ job_ready s j = true /\ v_gseq j = g.

Lemma oldest_spec F X s l : forall best, inv F X s -> Forall (fun x => is_queue x.1 /\ is_slot x.2) l ->
  (forall q i p g, best = Some (q, i, p, g) -> head_ready F s q i p g) ->
  wp (oldest l best) s (fun s' r => s' = s /\ match r with
    | None => best = None /\ forall q i p g, (q, i) ∈ l -> ~ head_ready F s q i p g
    | Some (q, i, p, g) => head_ready F s q i p g /\ ((q, i) ∈ l \/ best = r) /\
        forall q' i' p' g', (q', i') ∈ l \/ best = Some (q', i', p', g') -> head_ready F s q' i' p' g' -> g <= g'
    end).
Proof.
  induction l as [|[q i] l IH]; intros best H Hl Hb; cbn [oldest].
  { apply wp_ret. split; [done|]. destruct best as [[[[q i] p] g]|]; [|split; [done|by intros ? ? ? ? ?%elem_of_nil]]. split_and!; [by apply Hb|by right|]. intros ? ? ? ? [?%elem_of_nil|[= <- <- <- <-]]; [done|lia]. }
  apply Forall_cons in Hl as [[Hq Hi] Hl]. cbn in Hq, Hi. apply wp_bind. apply (head_is_spec F X s _ q i _ H Hq Hi).
  assert (Hskip : (forall p g, ~ head_ready F s q i p g) -> wp (oldest l best) s (fun s' r => s' = s /\ match r with
    | None => best = None /\ forall q' i' p g, (q', i') ∈ (q, i) :: l -> ~ head_ready F s q' i' p g
    | Some (q', i', p, g) => head_ready F s q' i' p g /\ ((q', i') ∈ (q, i) :: l \/ best = r) /\
        forall q2 i2 p2 g2, (q2, i2) ∈ (q, i) :: l \/ best = Some (q2, i2, p2, g2) -> head_ready F s q2 i2 p2 g2 -> g <= g2
    end)).
  { intros Hn. eapply wp_mono; [by apply (IH best)|]. intros s' r [-> Hr]. split; [done|]. destruct r as [[[[q' i'] p'] g']|].
    - destruct Hr as (A & B & C). split_and!; [done|destruct B; [left; by right|by right]|]. intros q2 i2 p2 g2 [[[= -> ->]|?]%elem_of_cons|?] Hh; [by destruct (Hn p2 g2)|eapply C; [by left|done]|eapply C; [by right|done]].
    - destruct Hr as [A B]. split; [done|]. intros q' i' p g [[= -> ->]|?]%elem_of_cons; [apply Hn|by apply B]. }
  destruct (F q i) as [|p l'] eqn:HF; [apply Hskip; intros p g (_ & _ & [? E] & _); congruence|]. intros j Ej. destruct (job_ready s j) eqn:Er.
  2: { apply Hskip. intros p' g (_ & _ & [? E] & j' & Ej' & Er' & _). rewrite HF in E. injection E as <- <-. congruence. }
  apply wp_bind, wp_get. assert (Eh : arr_get (head (queue_at s q)) i = p). { destruct (in_fifo _ _ _ H q i Hq Hi) as [Hs _]. rewrite HF in Hs. by destruct Hs. }
  rewrite Eh. apply wp_bind. eapply wp_job_at; [exact Ej|]. assert (Hme : head_ready F s q i p (v_gseq j)) by (split_and!; [done|done|by exists l'|by exists j]).
  assert (Hun : forall p' g', head_ready F s q i p' g' -> g' = v_gseq j). { intros p' g' (_ & _ & [? E] & j' & Ej' & _ & <-). rewrite HF in E. injection E as <- <-. rewrite Ej in Ej'. by injection Ej' as <-. }
  set (best' := match best with Some (_, _, _, g) => if v_gseq j <? g then Some (q, i, p, v_gseq j) else best | None => Some (q, i, p, v_gseq j) end).
  assert (Hb' : exists q' i' p' g', best' = Some (q', i', p', g') /\ head_ready F s q' i' p' g' /\ g' <= v_gseq j /\ (forall q2 i2 p2 g2, best = Some (q2, i2, p2, g2) -> g' <= g2) /\ (best' = Some (q, i, p, v_gseq j) \/ best' = best)).
  { unfold best'. destruct best as [[[[q' i'] p'] g']|]; [|exists q, i, p, (v_gseq j); split_and!; [done|done|lia|done|by left]].
    destruct (v_gseq j <? g') eqn:E; bsimp; [exists q, i, p, (v_gseq j)|exists q', i', p', g']; split_and!; try done; try lia; try (by left); try (by right); try (by apply Hb); intros ? ? ? ? [= <- <- <- <-]; lia. }
  destruct Hb' as (qb & ib & pb & gb & Eb & Hhb & Hle & Hbb & Hwh). clearbody best'. eapply wp_mono; [apply (IH best' H Hl)|].
  { intros ? ? ? ? E. rewrite Eb in E. by injection E as <- <- <- <-. }
  intros s' r [-> Hr]. split; [done|]. destruct r as [[[[q' i'] p'] g']|]; [|destruct Hr; congruence]. destruct Hr as (A & B & C). split_and!; [done| |].
  - destruct B as [B|B]; [left; by right|]. destruct Hwh as [Hwh|Hwh]; [|right; congruence]. rewrite Hwh in B. injection B as <- <- <- <-. left. by left.
  - intros q2 i2 p2 g2 Hin Hh. pose proof (C qb ib pb gb ltac:(by right) Hhb) as Hg. destruct Hin as [[[= -> ->]|Hin]%elem_of_cons|Hin]; [rewrite (Hun _ _ Hh); lia|eapply C; [by left|done]|]. specialize (Hbb _ _ _ _ Hin). lia.
Qed.

(** What a run of the scheduler does when the GPU is not reset: each queue that is idle and has a ready
    head starts one, on the hardware queues in SERIAL mode only the oldest, and only when none is busy. *)
Definition sched_ok (F : Z -> Z -> list Z) s (F' : Z -> Z -> list Z) s' : Prop :=
  rview s' = rview s /\ ran F s F' s' Q_CPU /\
  if mode (cf s) =? V3DA_MODE_SERIAL then
    (forall q, is_queue q -> is_hw_queue q = true -> left_alone F s F' s' q) /\ (nbusy (ct s) <> 0 \/ forall q i p g, is_hw_queue q = true -> ~ head_ready F s q i p g) \/
    nbusy (ct s) = 0 /\ exists q i p g, is_hw_queue q = true /\ head_ready F s q i p g /\ act s' q = p /\ (forall i', F' q i' = upd_fifo F q i (List.tl (F q i)) q i') /\
      (forall q', is_queue q' -> is_hw_queue q' = true -> q' <> q -> left_alone F s F' s' q') /\
      forall q' i' p' g', is_hw_queue q' = true -> head_ready F s q' i' p' g' -> g <= g'
  else forall q, is_queue q -> is_hw_queue q = true -> ran F s F' s' q.

Lemma all_heads_in q i : is_queue q -> is_slot i -> is_hw_queue q = true -> (q, i) ∈ hw_heads.
Proof.
  intros Hq Hi Hh. unfold hw_heads. apply list_elem_of_filter. split; [done|]. unfold all_heads. apply list_elem_of_bind. exists q. unfold is_queue, is_slot in *. split; [|apply elem_of_seqZ; change V3DA_Q_COUNT with 6; lia].
  apply list_elem_of_bind. exists i. split; [by left|apply elem_of_seqZ; change V3DA_MAX_CLIENTS with 60; lia].
Qed.
Lemma hw_heads_ok : Forall (fun x => is_queue x.1 /\ is_slot x.2) hw_heads.
Proof. apply Forall_forall. intros x Hx. apply list_elem_of_filter in Hx as [_ Hx]. exact (proj1 (Forall_forall _ _) all_heads_ok x Hx). Qed.

Lemma head_ready_rview F F1 s s1 q i p g : rview s1 = rview s -> F1 q i = F q i -> head_ready F s q i p g -> head_ready F1 s1 q i p g.
Proof.
  intros Rv EF (Hq & Hi & Hl & j & Ej & Er & Eg). split_and!; [done|done|by rewrite EF|]. destruct (ready_rview s s1 p Rv ltac:(by exists j)) as (j1 & Ej1 & Er1). exists j1. split_and!; [done|done|].
  injection Rv as Rv _. assert (E' : (waits_on <$> jobs s1) !! p = (waits_on <$> jobs s) !! p) by by rewrite Rv. rewrite !lookup_fmap, Ej, Ej1 in E'. injection E' as _ _ _ E'. congruence.
Qed.
Lemma nbusy_acts F X W s F' X' s' : fine F X W s -> fine F' X' W s' -> (forall q, is_queue q -> is_hw_queue q = true -> act s' q = act s q) -> nbusy (ct s') = nbusy (ct s).
Proof. intros H H' Ha. rewrite (in_busy _ _ _ (fn_inv _ _ _ _ H)), (in_busy _ _ _ (fn_inv _ _ _ _ H')). unfold busy. by rewrite !Ha. Qed.
Lemma idle_queues F X s q : inv F X s -> nbusy (ct s) = 0 -> is_queue q -> is_hw_queue q = true -> act s q = 0.
Proof.
  intros H E Hq Hh. rewrite (in_busy _ _ _ H) in E. assert (Bn : forall q, 0 <= busy s q <= 1) by (intros q'; unfold busy; case_if; lia). pose proof (Bn 0). pose proof (Bn 1). pose proof (Bn 2). pose proof (Bn 3).
  assert (B : busy s q = 0) by (destruct (hw_queue_cases q Hq) as [->|[->|[->|[->|[->| ->]]]]]; done || lia). unfold busy in B. destruct (act s q =? 0) eqn:Ez; [by bsimp|done].
Qed.

Lemma serial_spec op F W s now : good op F W s ->
  wp (busy ← get v3da_jobs_hw_busy;
      if busy : bool then mret tt
      else
        best ← oldest hw_heads None;
        match best with
        | None => mret tt
        | Some (q, slot, p, _) => _ ← fifo_pop q slot; job_kick p now
        end) s (fun s' _ => exists F', stepped op F W s s' F' /\ (ever_reset (ct s') = false -> rview s' = rview s /\ left_alone F s F' s' Q_CPU /\
    ((forall q, is_queue q -> is_hw_queue q = true -> left_alone F s F' s' q) /\ (nbusy (ct s) <> 0 \/ forall q i p g, is_hw_queue q = true -> ~ head_ready F s q i p g) \/
     nbusy (ct s) = 0 /\ exists q i p g, is_hw_queue q = true /\ head_ready F s q i p g /\ act s' q = p /\ (forall i', F' q i' = upd_fifo F q i (List.tl (F q i)) q i') /\
      (forall q', is_queue q' -> is_hw_queue q' = true -> q' <> q -> left_alone F s F' s' q') /\
      forall q' i' p' g', is_hw_queue q' = true -> head_ready F s q' i' p' g' -> g <= g'))).
Proof.
  intros G. pose proof (fn_inv _ _ _ _ (proj1 G)) as HI. apply wp_bind, wp_get. unfold v3da_jobs_hw_busy. destruct (nbusy (ct s) =? 0) eqn:Eb; cbn [negb]; bsimp.
  2: { apply wp_ret. exists F. split; [by apply stepped_refl|]. intros _. split_and!; [done|done|]. left. split; [done|by left]. }
  apply wp_bind. eapply wp_mono; [apply (oldest_spec F [] s hw_heads None HI hw_heads_ok); done|]. intros s0 r [-> Hr]. destruct r as [[[[q i] p] g]|].
  2: { apply wp_ret. exists F. split; [by apply stepped_refl|]. intros _. split_and!; [done|done|]. left. split; [done|right]. intros q i p g Hh Hr'. pose proof Hr' as (Hq & Hi & _). eapply (proj2 Hr q i p g); [by apply all_heads_in|done]. }
  destruct Hr as (Hh & [Hin|?] & Hmin); [|done]. pose proof Hh as (Hq & Hi & (l & HF) & _). unfold hw_heads in Hin. apply list_elem_of_filter in Hin as [Hhw _]. cbn in Hhw. pose proof (idle_queues F [] s q HI Eb Hq Hhw) as Ha.
  apply wp_bind. destruct G as [H HL]. eapply wp_mono; [by eapply (pop_fine op F W s q i p l)|]. intros s1 x [-> P1]. eapply wp_mono; [by eapply (kick_popped op F W s)|]. intros s' [] [S' Hs].
  exists (upd_fifo F q i l). split; [done|]. intros Hr. destruct (Hs Hr) as [Rv A].
  assert (Hl : forall q', is_queue q' -> q' <> q -> left_alone F s (upd_fifo F q i l) s' q'). { intros q' Hq' Hne. split; [by rewrite A, decide_False|]. intros i'. unfold upd_fifo. by rewrite decide_False by tauto. }
  split_and!; [done|apply Hl; [done|intros <-; done]|]. right. split; [done|]. exists q, i, p, g. split_and!; [done|done|by rewrite A, decide_True|by rewrite HF|intros q' Hq' _; by apply Hl|].
  intros q' i' p' g' Hq' Hr'. eapply Hmin; [left; pose proof Hr' as (? & ? & _); by apply all_heads_in|done].
Qed.

Lemma sched_run_spec op F W s : good op F W s ->
  wp v3da_sched_run s (fun s' _ => exists F', stepped op F W s s' F' /\ (ever_reset (ct s') = false -> sched_ok F s F' s')).
Proof.
  intros G. unfold v3da_sched_run. apply wp_bind, wp_now. intros s1 now T1 M1 Ecf Ect Ejobs. assert (G1 : good op F W s1). { destruct G as [H HL]. split; [eapply tuned_fine; [done|by apply M1, H|done]|by eapply tuned_lines]. }
  assert (S1 : stepped op F W s s1 F) by (split_and!; [done|done|apply T1|by rewrite Ect]). assert (L1 : forall q, left_alone F s F s1 q). { intros q. split; [|done]. destruct T1 as ((V & _) & _). by destruct (view_parts s s1 q 0 V) as (_ & _ & ->). }
  assert (R1 : rview s1 = rview s) by apply T1. clear T1 M1.
  apply wp_bind. unfold reap_failed_heads. apply wp_bind, wp_get. eapply wp_mono; [apply (reap_loop_spec op W now _ F s1 G1); lia|]. intros s2 [] (F2 & S2 & E2). pose proof S2 as (G2 & _).
  apply wp_bind. eapply wp_mono; [by apply (run_queue_spec op F2 W Q_CPU now s2)|]. intros s3 [] (F3 & S3). pose proof (proj1 S3) as S3'. pose proof S3' as (G3 & _).
  assert (S03 : stepped op F W s s3 F3) by (eapply stepped_trans; [exact S1|]; by eapply stepped_trans).
  assert (C3 : ever_reset (ct s3) = false -> rview s3 = rview s /\ ran F s F3 s3 Q_CPU /\ forall q, is_queue q -> is_hw_queue q = true -> left_alone F s F3 s3 q).
  { intros Hr. assert (Hr2 : ever_reset (ct s2) = false). { destruct (ever_reset (ct s2)) eqn:E; [|done]. destruct S3' as (_ & _ & _ & S3'). by rewrite (S3' E) in Hr. }
    assert (Hr1 : ever_reset (ct s1) = false). { destruct (ever_reset (ct s1)) eqn:E; [|done]. destruct S2 as (_ & _ & _ & S2). by rewrite (S2 E) in Hr2. }
    destruct (E2 Hr1) as [-> ->]. destruct (started_ran _ _ _ _ _ _ _ S3 Hr) as (Rv & A & B). split_and!; [congruence|by eapply ran_before|]. intros q Hq Hh. destruct (B q Hq ltac:(intros ->; done)) as [B1 B2], (L1 q) as [B3 B4]. split; [congruence|done]. }
  assert (Ecf3 : mode (cf s3) = mode (cf s)) by apply S03. apply wp_bind, wp_get. rewrite Ecf3. unfold sched_ok. destruct (mode (cf s) =? V3DA_MODE_SERIAL).
  - eapply wp_mono; [by apply serial_spec|]. intros s4 [] (F4 & S4 & E4). exists F4. split; [by eapply stepped_trans|]. intros Hr.
    assert (Hr3 : ever_reset (ct s3) = false). { destruct (ever_reset (ct s3)) eqn:E; [|done]. destruct S4 as (_ & _ & _ & S4). by rewrite (S4 E) in Hr. }
    destruct (C3 Hr3) as (Rv3 & Ac & Lh). destruct (E4 Hr) as (Rv4 & Lc & Hd). assert (En : nbusy (ct s3) = nbusy (ct s)) by (eapply (nbusy_acts F [] W s F3 [] s3); [apply G|apply G3|]; intros q Hq Hh; by apply Lh). rewrite En in Hd.
    assert (HR : forall q i p g, is_hw_queue q = true -> head_ready F s q i p g <-> head_ready F3 s3 q i p g). { intros q i p g Hh. split; intros Hr'; pose proof Hr' as (Hq & _); (eapply head_ready_rview; [|by destruct (Lh q Hq Hh) as [_ ->]|exact Hr']); done. }
    assert (Lt : forall q, is_queue q -> is_hw_queue q = true -> left_alone F3 s3 F4 s4 q -> left_alone F s F4 s4 q). { intros q Hq Hh [B1 B2]. destruct (Lh q Hq Hh) as [B3 B4]. split; [congruence|intros i; by rewrite B2]. }
    split_and!; [congruence|by eapply ran_after|]. destruct Hd as [[Hall Hwhy]|(Hz & q & i & p & g & Hh & Hr' & Ea & EF & Ho & Hmin)].
    + left. split; [intros q Hq Hh; apply Lt; auto|]. destruct Hwhy as [?|Hno]; [by left|right]. intros q i p g Hh Hr'. apply (Hno q i p g Hh), HR; done.
    + right. split; [done|]. pose proof Hr' as (Hq & _). destruct (Lh q Hq Hh) as [_ EF3]. exists q, i, p, g. split_and!; [done|by apply HR|done|intros i'; rewrite EF; unfold upd_fifo; by rewrite !EF3|intros q' Hq' Hh' Hne; by apply Lt; auto|].
      intros q' i' p' g' Hh' Hr2. eapply Hmin; [done|by apply HR].
  - eapply wp_mono; [apply (run_queues_spec op W now queues F3 s3 G3); [apply NoDup_seqZ|apply Forall_forall, queues_in]|]. intros s4 [] (F4 & S4 & E4). exists F4. split; [by eapply stepped_trans|]. intros Hr.
    assert (Hr3 : ever_reset (ct s3) = false). { destruct (ever_reset (ct s3)) eqn:E; [|done]. destruct S4 as (_ & _ & _ & S4). by rewrite (S4 E) in Hr. }
    destruct (C3 Hr3) as (Rv3 & Ac & Lh). destruct (E4 Hr) as (Rv4 & Hq4). split_and!; [congruence| |].
    + specialize (Hq4 Q_CPU ltac:(done)). rewrite decide_False in Hq4 by (by intros [_ ?]). by eapply ran_after.
    + intros q Hq Hh. specialize (Hq4 q Hq). rewrite decide_True in Hq4. 2: { split; [|done]. unfold is_queue in Hq. apply elem_of_seqZ. change V3DA_Q_COUNT with 6. lia. }
      eapply ran_before; [exact Rv3|by apply Lh|done].
Qed.
End run.
End V3daRun.
