(* ===== verification/V3daTick.v ===== *)
(** * Events and the watchdog of the V3D render server

    The completion events, the overflow memory and the watchdog keep the invariants; and the
    watchdog ends every job that is on the hardware for too long. *)

From S2P Require Import Prelude V3daSched V3daSchedCorrect V3daPool V3daBo V3daGpu V3daGpuFrame V3daJobs V3daChunks V3daQueues V3daDone V3daOrder V3daRun.

Module V3daTick.
Import V3da V3daPool V3daBo V3daGpu V3daGpuFrame V3daJobs V3daChunks V3daQueues V3daDone V3daOrder V3daRun.

Section tick.
Context `{K : Kernel} `{D : Device}.
Implicit Types s : jsrv.

(** ** Steps that only tune a job *)

Definition tok (p : Z) t s : Prop := tuned t s /\ mem_ok s /\ same_clocks t s p.

Lemma tok_refl p s : mem_ok s -> tok p s s.
Proof. intros M. split_and!; [done|done|]. intros r j _ E. by exists j. Qed.
Lemma tok_calm p t s s' : tok p t s -> calm s s' -> mem_ok s' -> tok p t s'.
Proof.
  intros (T & _ & C) Hc M. split_and!; [etransitivity; [exact T|by apply calm_tuned]|done|]. intros r j Hr Ej. destruct (C r j Hr Ej) as (j1 & Ej1 & E1). destruct (calm_job _ _ _ _ Hc Ej1) as (j2 & Ej2 & E2).
  exists j2. split; [done|]. rewrite <- E1. change (clock (strip j2) = clock (strip j1)). by rewrite E2.
Qed.
Lemma wp_tok_hw {A B} (m : M A) (k : A -> M B) p t s Q : HwOnly m -> tok p t s -> (forall s' a, tok p t s' -> wp (k a) s' Q) -> wp (mbind k m) s Q.
Proof. intros Hm T HQ. apply wp_bind, wp_hw; [done|]. intros s' a Q'. apply HQ. eapply tok_calm; [exact T|apply frame_calm, Q'|eapply quiet_mem; [exact Q'|apply T]]. Qed.
Lemma tok_job p t s j : tok p t s -> jobs t !! p = Some j -> exists k, jobs s !! p = Some k /\ v_queue k = v_queue j /\ v_kick k = v_kick j /\ v_fence k = v_fence j /\ v_render k = v_render j.
Proof. intros (((V & _) & _) & _) Ej. destruct (view_job _ _ _ _ V Ej) as (k & ? & ?). exists k. tauto. Qed.

(** Fields the invariants do not speak of. *)
Definition tunes (f : vjob -> vjob) : Prop := forall j, core (f j) = core j /\ v_error (f j) = v_error j /\ waits_on (f j) = waits_on j /\ v_ovf (f j) = v_ovf j.
Lemma tok_upd p t s j f : tok p t s -> tunes f -> jobs s !! p = Some j -> tok p t (on_jobs (fun _ => <[p := f j]> (jobs s)) s).
Proof.
  intros (T & M & C) Hf Ej. destruct (Hf j) as (F1 & F2 & F3 & F4). split_and!; [etransitivity; [exact T|by apply upd_tuned]|by apply mem_job_upd|]. intros r k Hr Ek. destruct (C r k Hr Ek) as (k' & ? & ?). exists k'. cbn. by rewrite lookup_insert_ne.
Qed.
Lemma wp_tok_upd {B} (k : () -> M B) p t s f Q : tok p t s -> is_Some (jobs t !! p) -> tunes f -> (forall s', tok p t s' -> wp (k tt) s' Q) -> wp (mbind k (upd_job p f)) s Q.
Proof. intros T [j Ej] Hf HQ. destruct (tok_job _ _ _ _ T Ej) as (j1 & Ej1 & _). apply wp_bind. eapply wp_upd_job; [exact Ej1|]. apply HQ. by apply tok_upd. Qed.

Lemma tok_good op F W p t s : tok p t s -> good op F W t -> good op F W s.
Proof. intros (T & M & _) [H HL]. split; [by eapply tuned_fine|by eapply tuned_lines]. Qed.
Lemma tuned_stepped op F W t s : tuned t s -> mem_ok s -> good op F W t -> stepped op F W t s F.
Proof. intros T M G. pose proof T as ((V & _) & S & _). split_and!; [destruct G; split; [by eapply tuned_fine|by eapply tuned_lines]|done|done|]. by destruct V as (_ & _ & _ & _ & _ & ->). Qed.
Lemma tok_stepped op F W p t s : tok p t s -> good op F W t -> stepped op F W t s F.
Proof. intros (T & M & _). by apply tuned_stepped. Qed.
Lemma tok_act p t s q : tok p t s -> act s q = act t q.
Proof. intros (((V & _) & _) & _). by destruct (view_parts t s q 0 V) as (_ & _ & ->). Qed.

(** ** A job ends with an event *)

Lemma phase_settled s s' : settled s s' -> forall q i, phase_of s' q i = phase_of s q i.
Proof. intros (_ & _ & E) q i. unfold phase_of, client_at. by rewrite E. Qed.

Lemma end_active op F W s q e now : good op F W s -> (forall q i, op q i = phase_of s q i) -> is_queue q -> act s q <> 0 -> (e = false \/ q <> Q_BIN) ->
  wp (job_done (act s q) e now) s (fun s' _ => stepped op F W s s' F /\ same_clocks s s' (act s q) /\ forall q', is_queue q' -> act s' q' = if decide (q' = q) then 0 else act s q').
Proof.
  intros [H HL] Hop Hq Ha He. destruct (fine_act _ _ _ _ q H Hq Ha) as (j & Ej & Eq). eapply wp_mono; [eapply (done_active F [] W s _ j); [done|exact Ej|by rewrite Eq]|].
  intros s' [] (H' & G & Ck & A & HL'). split_and!; [|done|by intros q' Hq'; rewrite A, Eq by done]. split_and!; [split; [done|]|done|by eapply gone_settled|by destruct G as (-> & _)].
  apply HL'; [done| |intros _; apply Hop]. destruct He as [?|He]; [by left|right]. destruct (decide (v_render j = 0)); [done|]. destruct (in_render _ _ _ (fn_inv _ _ _ _ H) _ j Ej ltac:(done)) as [E _]. congruence.
Qed.

Lemma done_if_active_spec op F W s q before e now stray : good op F W s -> (forall q i, op q i = phase_of s q i) -> is_queue q -> (e = false \/ q <> Q_BIN) ->
  (act s q <> 0 -> wp before s (fun s' _ => calm s s' /\ mem_ok s')) -> (forall c, nbusy (stray c) = nbusy c /\ ever_reset (stray c) = ever_reset c) ->
  wp (done_if_active q before e now stray) s (fun s' _ => stepped op F W s s' F).
Proof.
  intros G Hop Hq He Hb Hs. unfold done_if_active. apply wp_bind, wp_get. fold (act s q). destruct (act s q =? 0) eqn:E; cbn [negb]; bsimp.
  - apply wp_modify. destruct (Hs (ct s)) as [E1 E2]. apply (tuned_stepped op F W s); [split_and!; [by apply (ct_still s (stray (ct s)))|done|done]|apply (mem_ct s (stray (ct s))), G|done].
  - apply wp_bind. eapply wp_mono; [by apply Hb|]. intros s1 [] [C1 M1]. pose proof (calm_tuned _ _ C1) as T1. pose proof (tuned_stepped op F W s s1 T1 M1 G) as S1. pose proof S1 as (G1 & _ & St1 & _).
    assert (Ea : act s1 q = act s q) by (destruct T1 as ((V & _) & _); by destruct (view_parts s s1 q 0 V) as (_ & _ & ->)). rewrite <- Ea. eapply wp_mono; [apply (end_active op F W s1 q e now); try done|].
    + intros q' i'. rewrite Hop. symmetry. by apply phase_settled.
    + by rewrite Ea.
    + intros s' [] (S2 & _). by eapply stepped_trans.
Qed.

Lemma hw_calm {A} (m : M A) s : HwOnly m -> mem_ok s -> wp m s (fun s' _ => calm s s' /\ mem_ok s').
Proof. intros Hm M. apply wp_hw; [done|]. intros s' a Q. split; [apply frame_calm, Q|by eapply quiet_mem]. Qed.
Lemma post_render_spec F W s : fine F [] W s -> act s Q_RENDER <> 0 -> wp post_render s (fun s' _ => calm s s' /\ mem_ok s').
Proof.
  intros H Ha. unfold post_render. pose proof (fn_mem _ _ _ _ H) as M. apply wp_bind, wp_get. apply wp_bind. eapply wp_mono; [apply hw_calm; [apply _|done]|]. intros s1 [] [C1 M1]. apply wp_bind, wp_get.
  destruct (fine_act _ _ _ _ Q_RENDER H ltac:(done) Ha) as (j & Ej & _). destruct (calm_job _ _ _ _ C1 Ej) as (j1 & Ej1 & _). assert (Ea : q_active (queue_at s1 Q_RENDER) = act s Q_RENDER) by by apply calm_active.
  rewrite Ea. apply wp_bind. eapply wp_job_at; [exact Ej1|]. apply wp_bind, wp_get. eapply wp_mono; [apply hw_calm; [apply _|done]|]. intros s2 [] [C2 M2]. split; [by etransitivity|done].
Qed.

Lemma service_good op F W s : good op F W s -> wp ovf_service s (fun s' _ => stepped op F W s s' F /\ forall q, act s' q = act s q).
Proof.
  intros G. pose proof (proj1 G) as H. eapply wp_mono; [apply service_spec; [apply H|]|].
  - intros Ha. destruct (fine_act _ _ _ _ Q_BIN H ltac:(done) Ha) as (j & Ej & _). by exists j.
  - intros s' [] [C M]. split; [apply (tuned_stepped op F W s); [by apply calm_tuned|done|done]|]. intros q. by apply calm_active.
Qed.

Lemma chain_op op F W s s' F' : (forall q i, op q i = phase_of s q i) -> stepped op F W s s' F' -> forall q i, op q i = phase_of s' q i.
Proof. intros H (_ & _ & S & _) q i. rewrite H. symmetry. by apply phase_settled. Qed.

Lemma events_spec op F W s core hub now : good op F W s -> (forall q i, op q i = phase_of s q i) -> wp (v3da_jobs_events core hub now) s (fun s' _ => stepped op F W s s' F).
Proof.
  intros G Hop. unfold v3da_jobs_events. apply wp_bind, wp_get.
  assert (Hchain : forall A (m : M A) s1 (k : A -> M unit), stepped op F W s s1 F -> wp m s1 (fun s2 _ => stepped op F W s1 s2 F) -> (forall a s2, stepped op F W s s2 F -> wp (k a) s2 (fun s' _ => stepped op F W s s' F)) -> wp (mbind k m) s1 (fun s' _ => stepped op F W s s' F)).
  { intros A m s1 k S1 Hm Hk. apply wp_bind. eapply wp_mono; [exact Hm|]. intros s2 a S2. apply Hk. by eapply stepped_trans. }
  assert (Hwhen : forall b (m : M unit) s1, stepped op F W s s1 F -> (good op F W s1 -> (forall q i, op q i = phase_of s1 q i) -> wp m s1 (fun s2 _ => stepped op F W s1 s2 F)) -> wp (when b m) s1 (fun s2 _ => stepped op F W s1 s2 F)).
  { intros b m s1 S1 Hm. apply wp_when; intros _; [apply Hm; [apply S1|by eapply chain_op]|]. by apply stepped_refl, S1. }
  eapply Hchain; [by apply stepped_refl|apply Hwhen; [by apply stepped_refl|]|].
  { intros G1 _. eapply wp_mono; [by apply service_good|]. by intros s' [] [? _]. }
  intros _ s1 S1. eapply Hchain; [done|apply Hwhen; [done|]|].
  { intros G1 O1. apply done_if_active_spec; try done; [by left|]. intros _. apply hw_calm; [apply _|apply G1]. }
  intros _ s2 S2. eapply Hchain; [done|apply Hwhen; [done|]|].
  { intros G2 O2. apply done_if_active_spec; try done; [by left|]. intros Ha. eapply post_render_spec; [apply G2|done]. }
  intros _ s3 S3. eapply Hchain; [done|apply Hwhen; [done|]|].
  { intros G3 O3. apply done_if_active_spec; try done; [by left|]. intros _. apply hw_calm; [apply _|apply G3]. }
  intros _ s4 S4. eapply wp_mono; [apply Hwhen; [done|]|].
  { intros G4 O4. apply done_if_active_spec; try done; [by right| |]. { intros _. apply hw_calm; [apply _|apply G4]. } intros c. by case_if. }
  intros s5 [] S5. by eapply stepped_trans.
Qed.

(** ** The watchdog *)

Lemma wp_tok_when b p t s f : tok p t s -> is_Some (jobs t !! p) -> tunes f -> wp (when b (upd_job p f)) s (fun s' _ => tok p t s').
Proof. intros T [j Ej] Hf. apply wp_when; [|done]. intros _. destruct (tok_job _ _ _ _ T Ej) as (j1 & Ej1 & _). eapply wp_upd_job; [exact Ej1|]. by apply tok_upd. Qed.
Lemma wp_tok_hw_end {A} (m : M A) p t s : HwOnly m -> tok p t s -> wp m s (fun s' _ => tok p t s').
Proof. intros Hm T. apply wp_hw; [done|]. intros s' a Q'. eapply tok_calm; [exact T|apply frame_calm, Q'|eapply quiet_mem; [exact Q'|apply T]]. Qed.
Lemma ack_spec b p t s : tok p t s -> is_Some (jobs t !! p) -> wp (when b (ack_qpu p)) s (fun s' _ => tok p t s').
Proof.
  intros T Hp. apply wp_when; [intros _|done]. unfold ack_qpu. eapply wp_tok_hw; [apply _|exact T|]. intros s1 sts T1. apply wp_when; [intros _|done]. eapply wp_tok_hw; [apply _|exact T1|]. intros s2 [] T2.
  destruct Hp as [j Ej]. destruct (tok_job _ _ _ _ T2 Ej) as (j2 & Ej2 & _). eapply wp_upd_job; [exact Ej2|]. by apply (tok_upd p t s2 j2 (fun j => put_v_acks (u32 (v_acks j + 1)) j)).
Qed.

Lemma fail_wedge op F W p t s now : good op F W t -> tok p t s -> is_Some (jobs t !! p) ->
  wp (_ ← upd_job p (put_v_error true); wedge now) s (fun s' _ => stepped op F W t s' F /\ forall q, is_queue q -> is_hw_queue q = true -> act s' q = 0).
Proof.
  intros G T [j Ej]. pose proof (tok_good _ _ _ _ _ _ T G) as [H HL]. destruct (tok_job _ _ _ _ T Ej) as (j1 & Ej1 & _). apply wp_bind. eapply wp_upd_job; [exact Ej1|]. set (s1 := on_jobs _ s).
  assert (H1 : fine F [] W s1). { apply (fine_view F [] W s); [|done|by apply (mem_job_upd s p j1 (put_v_error true)); [..|apply H]|done]. split_and!; try done. cbn. by eapply core_insert. }
  eapply wp_mono; [by apply wedge_spec|]. intros s' [] (H' & R' & S' & A'). split; [|intros q Hq Hh; by rewrite A', Hh]. split_and!; [split; [done|intros E; congruence]|done| |done].
  etransitivity; [apply T|]. etransitivity; [|exact S']. by apply (upd_settled s p j1 (put_v_error true)).
Qed.

(** The other jobs on the hardware stay there, with the same times, or end. *)
Definition watched s s' q : Prop := forall q', is_queue q' -> is_hw_queue q' = true -> act s' q' = 0 \/
  (act s' q' = act s q' /\ (q' <> q -> forall j, jobs s !! act s q' = Some j -> exists j', jobs s' !! act s q' = Some j' /\ clock j' = clock j)).
Lemma watched_zero s s' q : (forall q, is_queue q -> is_hw_queue q = true -> act s' q = 0) -> watched s s' q.
Proof. intros H q' Hq' Hh. left. auto. Qed.
Lemma act_inj F X W s q q' : fine F X W s -> is_queue q -> is_queue q' -> act s q <> 0 -> act s q' = act s q -> q' = q.
Proof. intros H Hq Hq' Hz E. destruct (fine_act _ _ _ _ q H Hq Hz) as (j & Ej & Eq), (fine_act _ _ _ _ q' H Hq' ltac:(congruence)) as (j' & Ej' & Eq'). rewrite E in Ej'. congruence. Qed.
Lemma watched_tok F W s s' q : fine F [] W s -> is_queue q -> act s q <> 0 -> tok (act s q) s s' -> watched s s' q.
Proof.
  intros H Hq Ha T q' Hq' Hh. destruct (decide (act s q' = 0)) as [E|Hz]; [left; by rewrite (tok_act _ _ _ q' T)|right]. split; [by apply (tok_act _ _ _ q' T)|]. intros Hne j Ej. destruct T as (_ & _ & C). apply C; [|done].
  intros E. apply Hne. by eapply act_inj.
Qed.

Definition expired (j : vjob) (now : Z) : Prop := v_check j <= now /\ WD_HARD_CAP_US <= u64 (now - v_kick j).

Lemma watch_spec op F W s q now : good op F W s -> (forall q i, op q i = phase_of s q i) -> is_queue q ->
  wp (watch q now) s (fun s' _ => stepped op F W s s' F /\ watched s s' q /\ (is_hw_queue q = true -> forall j, jobs s !! act s q = Some j -> expired j now -> act s' q = 0)).
Proof.
  intros G Hop Hq. pose proof (proj1 G) as H. assert (Href : watched s s q) by (intros q' _ _; right; split; [done|]; intros _ j Ej; by exists j). unfold watch. apply wp_bind, wp_get. fold (act s q).
  destruct (negb (is_hw_queue q) || (act s q =? 0)) eqn:E0.
  { apply wp_ret. split_and!; [by apply stepped_refl|done|]. intros Hh j Ej _. rewrite Hh in E0. cbn in E0. by bsimp. }
  apply orb_false_elim in E0 as [Hh%negb_false_iff Ha%Z.eqb_neq]. destruct (fine_act _ _ _ _ q H Hq Ha) as (j & Ej & Eq). set (p := act s q) in *. apply wp_bind. eapply wp_job_at; [exact Ej|].
  destruct (now <? v_check j) eqn:Ec; bsimp.
  { apply wp_ret. split_and!; [by apply stepped_refl|done|]. intros _ j' Ej' [Hc _]. rewrite Ej in Ej'. injection Ej' as <-. lia. }
  assert (Hp : is_Some (jobs s !! p)) by by exists j. eapply wp_tok_upd; [by apply tok_refl, H|done|done|]. intros s1 T1. eapply wp_tok_hw; [apply _|exact T1|]. intros s2 [ca ra] T2.
  apply wp_bind. eapply wp_mono; [by apply (wp_tok_when _ p s s2 (fun j => put_v_ra ra (put_v_ca ca (put_v_progress now j))))|]. intros s3 [] T3. apply wp_bind. eapply wp_mono; [by apply ack_spec|]. intros s4 [] T4.
  apply wp_bind, wp_get, wp_bind, wp_get, wp_bind, wp_get.
  assert (Hwedge : forall s5, tok p s s5 -> wp (_ ← upd_job p (put_v_error true); wedge now) s5 (fun s' _ => stepped op F W s s' F /\ watched s s' q /\ (is_hw_queue q = true -> forall j, jobs s !! p = Some j -> expired j now -> act s' q = 0))).
  { intros s5 T5. eapply wp_mono; [by apply (fail_wedge op F W p s s5)|]. intros s' [] [S' A']. split_and!; [done|by apply watched_zero|]. intros _ _ _ _. by apply A'. }
  match goal with |- wp (if ?b then _ else _) _ _ => destruct b end; [by apply Hwedge|]. apply wp_bind. eapply wp_mono; [by apply (wp_tok_when _ p s s4 (put_v_progress now))|]. intros s5 [] T5. clear s1 s2 s3 s4 T1 T2 T3 T4.
  destruct ((q =? Q_TFU) && negb (has ca TFU_CS_BUSY) && (2 * WD_TICK_US <=? u64 (now - v_kick j))) eqn:Et.
  - bsimp. eapply wp_tok_hw; [apply _|exact T5|]. intros s6 [] T6. eapply wp_tok_hw; [apply _|exact T6|]. intros s7 [] T7. pose proof (tok_good _ _ _ _ _ _ T7 G) as G7. pose proof (tok_stepped _ _ _ _ _ _ T7 G) as S7.
    assert (Ea : act s7 q = p) by by rewrite (tok_act _ _ _ q T7). rewrite <- Ea. eapply wp_mono; [apply (end_active op F W s7 q false now G7); [by eapply chain_op|done|by rewrite Ea|by left]|].
    intros s' [] (S' & C' & A'). split_and!; [by eapply stepped_trans| |intros _ _ _ _; by rewrite A', decide_True]. intros q' Hq' Hh'. rewrite A' by done. case_decide as E; [by left|right]. split; [by apply (tok_act _ _ _ q' T7)|]. intros _ j' Ej'.
    assert (Hne : act s q' <> p). { intros E'. apply E. by eapply (act_inj F [] W s). }
    destruct T7 as (_ & _ & C7). destruct (C7 _ j' Hne Ej') as (j7 & Ej7 & E7). destruct (C' _ j7 ltac:(by rewrite Ea) Ej7) as (j8 & ? & ?). exists j8. split; [done|congruence].
  - destruct (tok_job _ _ _ _ T5 Ej) as (j5 & Ej5 & _ & Ek5 & _). apply wp_bind. eapply wp_job_at; [exact Ej5|]. apply wp_bind, wp_get. apply wp_when; intros Eo; [by apply Hwedge|].
    split_and!; [by eapply tok_stepped|by eapply watched_tok|]. intros _ j' Ej' [_ Hx]. rewrite Ej in Ej'. injection Ej' as <-. unfold overdue in Eo. rewrite Ek5 in Eo. bsimp. lia.
Qed.

Lemma watches_spec op F W now l : forall s, good op F W s -> (forall q i, op q i = phase_of s q i) -> Forall is_queue l ->
  wp (each (fun q => watch q now) l) s (fun s' _ => stepped op F W s s' F /\ forall q, is_queue q -> is_hw_queue q = true ->
    (act s' q = 0 \/ act s' q = act s q) /\ (q ∈ l -> forall j, jobs s !! act s q = Some j -> expired j now -> act s' q = 0)).
Proof.
  induction l as [|q0 l IH]; intros s G Hop Hl; cbn [each]; [apply wp_ret; split; [by apply stepped_refl|]; intros q _ _; split; [by right|by intros ?%elem_of_nil]|].
  apply Forall_cons in Hl as [Hq0 Hl]. apply wp_bind. eapply wp_mono; [by apply (watch_spec op F W s q0 now)|]. intros s1 [] (S1 & W1 & X1). eapply wp_mono; [apply (IH s1); [apply S1|by eapply chain_op|done]|].
  intros s' [] (S' & A'). split; [by eapply stepped_trans|]. intros q Hq Hh. destruct (A' q Hq Hh) as [B1 B2]. destruct (W1 q Hq Hh) as [Z1|[E1 C1]].
  - split; [left; destruct B1; congruence|]. intros _ j Ej Hx. destruct B1; congruence.
  - split; [destruct B1; [by left|right; congruence]|]. intros Hin j Ej Hx. destruct (decide (q = q0)) as [->|Hne].
    + rewrite (X1 Hh j Ej Hx) in B1. by destruct B1.
    + apply elem_of_cons in Hin as [|Hin]; [done|]. destruct (C1 Hne j Ej) as (j1 & Ej1 & Ec). apply (B2 Hin j1); [by rewrite E1|]. unfold clock in Ec. injection Ec as Ec1 Ec2. unfold expired. rewrite Ec1, Ec2. exact Hx.
Qed.

(** ** Flips and statistics *)

Definition shows s s' : Prop := exists d p, s' = on_dev (fun _ => d) (on_pr (fun _ => p) s).
Lemma shows_refl s : shows s s.
Proof. exists (dev s), (pr s). by destruct s. Qed.
Lemma pan_spec buf s : wp (pan buf) s (fun s' _ => shows s s').
Proof.
  unfold pan. apply wp_bind, wp_get. apply wp_bind. unfold lift, wp at 1. destruct (dev_prop _ _ _ _) as [rc d]. eexists _, _. split; [done|]. apply wp_bind, wp_when; intros _; [apply wp_modify|]; apply wp_modify.
  - by eexists d, _.
  - by eexists d, _.
Qed.
Lemma present_loop_spec l : forall s, wp (present_loop l) s (fun s' _ => shows s s').
Proof.
  induction l as [|x l IH]; intros s; cbn [present_loop]; [apply wp_ret, shows_refl|]. apply wp_bind, wp_get. destruct (due (fences s) x); [|apply wp_ret, shows_refl].
  apply wp_bind. eapply wp_mono; [apply pan_spec|]. intros s1 [] (d & p & ->). apply wp_bind, wp_modify. eapply wp_mono; [apply IH|]. intros s2 [] (d' & p' & ->). by exists d', p'.
Qed.
Lemma shows_tuned s s' : shows s s' -> tuned s s' /\ (mem_ok s -> mem_ok s').
Proof. intros (d & p & ->). split; [done|]. by apply mem_ok_eq. Qed.
Lemma stat_print_spec now s : wp (stat_print now) s (fun s' _ => exists c, s' = on_ct (fun _ => c) s /\ nbusy c = nbusy (ct s) /\ ever_reset c = ever_reset (ct s)).
Proof.
  unfold stat_print. apply wp_bind, wp_get. case_if; [apply wp_ret; exists (ct s); by destruct s|]. apply wp_bind, wp_modify. apply wp_when; intros _; [|by eexists]. apply wp_bind, wp_modify. apply wp_acct. intros c E1 E2. exists c. by rewrite E1, E2.
Qed.
Lemma ct_tuned s c : nbusy c = nbusy (ct s) -> ever_reset c = ever_reset (ct s) -> tuned s (on_ct (fun _ => c) s).
Proof. intros. split_and!; [by apply ct_still|done|done]. Qed.

Lemma cpu_tick_spec op F W s now : good op F W s -> (forall q i, op q i = phase_of s q i) ->
  wp (p ← get (fun s => q_active (queue_at s Q_CPU));
      when (negb (p =? 0)) (j ← job_at p; when (v_done_at j <=? now) (_ ← job_done p false now; when (negb (v_join j)) (modify (on_ct (fun c => put_nops_done (u32 (nops_done c + 1)) c)))))) s
    (fun s' _ => stepped op F W s s' F /\ forall q, is_queue q -> is_hw_queue q = true -> act s' q = act s q /\ forall j, jobs s !! act s q = Some j -> exists j', jobs s' !! act s q = Some j' /\ clock j' = clock j).
Proof.
  intros G Hop. pose proof (proj1 G) as H. apply wp_bind, wp_get. fold (act s Q_CPU). assert (Href : stepped op F W s s F /\ forall q, is_queue q -> is_hw_queue q = true -> act s q = act s q /\ forall j, jobs s !! act s q = Some j -> exists j', jobs s !! act s q = Some j' /\ clock j' = clock j).
  { split; [by apply stepped_refl|]. intros q _ _. split; [done|]. intros j Ej. by exists j. }
  apply wp_when; intros E; [|done]. bsimp. destruct (fine_act _ _ _ _ Q_CPU H ltac:(done) E) as (j & Ej & Eq). apply wp_bind. eapply wp_job_at; [exact Ej|]. apply wp_when; intros _; [|done].
  apply wp_bind. eapply wp_mono; [by apply (end_active op F W s Q_CPU false now); [..|left]|]. intros s1 [] (S1 & C1 & A1).
  assert (P1 : forall q, is_queue q -> is_hw_queue q = true -> act s1 q = act s q /\ forall j, jobs s !! act s q = Some j -> exists j', jobs s1 !! act s q = Some j' /\ clock j' = clock j).
  { intros q Hq Hh. rewrite A1 by done. rewrite decide_False by (by intros ->). split; [done|]. intros k Ek. apply C1; [|done]. intros E'. assert (q = Q_CPU); [|by subst q]. by eapply (act_inj F [] W s). }
  apply wp_when; intros _; [|done]. apply wp_modify. split; [|done]. eapply stepped_trans; [exact S1|]. apply (tuned_stepped op F W s1); [by apply (ct_tuned s1 (put_nops_done _ (ct s1)))|apply (mem_ct s1), S1|apply S1].
Qed.

Lemma tick_spec op F W s now : good op F W s -> (forall q i, op q i = phase_of s q i) ->
  wp (v3da_jobs_tick now) s (fun s' _ => stepped op F W s s' F /\ forall q j, is_queue q -> is_hw_queue q = true -> jobs s !! act s q = Some j -> expired j now -> act s' q = 0).
Proof.
  intros G Hop. unfold v3da_jobs_tick. apply wp_bind2. eapply wp_mono; [by apply (cpu_tick_spec op F W s now)|]. intros s1 [] [S1 P1].
  apply wp_bind. eapply wp_mono; [apply (watches_spec op F W now queues s1); [apply S1|by eapply chain_op|apply Forall_forall, queues_in]|]. intros s2 [] [S2 P2].
  apply wp_bind, wp_get. apply wp_bind. eapply (wp_mono _ _ (fun s3 _ => stepped op F W s2 s3 F /\ forall q, act s3 q = act s2 q)).
  { apply wp_when; intros _; [apply service_good, S2|]. split; [by apply stepped_refl, S2|done]. }
  intros s3 [] [S3 P3]. apply wp_bind. unfold present_run. apply wp_bind, wp_get. eapply wp_mono; [apply present_loop_spec|]. intros s4 [] Sh. destruct (shows_tuned _ _ Sh) as [T4 M4].
  assert (G3 : good op F W s3) by apply S3. pose proof (tuned_stepped op F W s3 s4 T4 (M4 (fn_mem _ _ _ _ (proj1 G3))) G3) as S4. eapply wp_mono; [apply stat_print_spec|]. intros s5 [] (c & -> & E1 & E2).
  assert (G4 : good op F W s4) by apply S4. pose proof (tuned_stepped op F W s4 _ (ct_tuned s4 c E1 E2) (mem_ct s4 c (fn_mem _ _ _ _ (proj1 G4))) G4) as S5.
  split; [eapply stepped_trans; [exact S1|]; eapply stepped_trans; [exact S2|]; eapply stepped_trans; [exact S3|]; by eapply stepped_trans|].
  intros q j Hq Hh Ej Hx. change (act s4 q = 0). assert (E4 : act s4 q = act s2 q) by (rewrite <- P3; destruct T4 as ((V & _) & _); by destruct (view_parts s3 s4 q 0 V) as (_ & _ & ->)). rewrite E4.
  destruct (P1 q Hq Hh) as [Ea Ck]. destruct (Ck j Ej) as (j1 & Ej1 & Ec). rewrite <- Ea in Ej1. apply (proj2 (P2 q Hq Hh) ltac:(unfold is_queue in Hq; apply elem_of_seqZ; change V3DA_Q_COUNT with 6; lia) j1 Ej1).
  unfold clock in Ec. injection Ec as Ec1 Ec2. unfold expired. by rewrite Ec1, Ec2.
Qed.
End tick.
End V3daTick.
