(* ===== verification/V3daClose.v ===== *)
(** * A client of the V3D render server goes, and a slot is assigned again

    Its queued jobs are dropped, its fences complete, its parked requests are claimed; the invariants
    hold all along. *)

From S2P Require Import Prelude V3daSched V3daSchedCorrect V3daPool V3daBo V3daGpu V3daGpuFrame V3daJobs V3daChunks V3daQueues V3daDone V3daOrder V3daRun V3daTick.

Module V3daClose.
Import V3da V3daPool V3daBo V3daGpu V3daGpuFrame V3daJobs V3daChunks V3daQueues V3daDone V3daOrder V3daRun V3daTick.

(** ** Passes over the parked requests *)

Lemma cview_alter (cs : list client) i f : (forall c, cview (f c) = cview c) -> cview <$> alter f i cs = cview <$> cs.
Proof.
  intros H. apply list_eq. intros k. rewrite !list_lookup_fmap. destruct (decide (k = i)) as [->|Hk]; [|by rewrite list_lookup_alter_ne]. rewrite list_lookup_alter_eq. destruct (cs !! i) as [c|]; [|done]. cbn. by rewrite H.
Qed.
Lemma fview_upd b p f b' : V3da.upd b p f = Some b' -> fview b' = fview b.
Proof. unfold V3da.upd. destruct (heap b !! p); [|done]. by intros [= <-]. Qed.
Lemma fview_unlink b p b' : wait_unlink b p = Some b' -> fview b' = fview b.
Proof.
  unfold wait_unlink. destruct (heap b !! p) as [w|]; [|done]. cbn [mbind option_bind]. intros H.
  destruct (if negb (w_prev w =? 0) then _ else _) as [b1|] eqn:E1; [|done]. cbn [mbind option_bind] in H. assert (F1 : fview b1 = fview b) by (destruct (negb (w_prev w =? 0)); [by eapply fview_upd|by injection E1 as <-]).
  destruct (if negb (w_next w =? 0) then _ else _) as [b2|] eqn:E2; [|done]. cbn [mbind option_bind] in H. assert (F2 : fview b2 = fview b1) by (destruct (negb (w_next w =? 0)); [by eapply fview_upd|by injection E2 as <-]).
  destruct (V3da.upd b2 p _) as [b3|] eqn:E3; [|done]. cbn [mbind option_bind] in H. apply fview_upd in E3. injection H as <-. case_if; [|unfold fview in *; cbn; congruence].
  unfold fview in *. cbn. rewrite cview_alter by done. congruence.
Qed.
Lemma fview_claim b p e a r : wait_claim b p e a = Some r -> fview r.1 = fview b.
Proof.
  unfold wait_claim. destruct (wait_unlink b p) as [b1|] eqn:E1; [|done]. cbn [mbind option_bind]. destruct (V3da.upd b1 p _) as [b2|] eqn:E2; [|done]. cbn. intros [= <-]. cbn. apply fview_unlink in E1. apply fview_upd in E2. congruence.
Qed.
Lemma fview_scan fuel : forall b w now a r, scan_loop fuel b w now a = Some r -> fview r.1 = fview b.
Proof.
  induction fuel as [|fuel IH]; intros b w now a r; cbn [scan_loop]; [case_if; [by intros [= <-]|done]|]. case_if; [by intros [= <-]|]. intros H.
  destruct (heap b !! w) as [n|]; [|done]. cbn [mbind option_bind] in H. destruct (wait_eval b (w_req n)) as [[ev x]|]; [|done]. cbn [mbind option_bind fst snd] in H. destruct (V3da.upd b w _) as [b1|] eqn:E1; [|done]. cbn [mbind option_bind] in H. apply fview_upd in E1.
  assert (Hc : forall b2 e, fview b2 = fview b -> ('(s, answer) ← wait_claim b2 w e a; scan_loop fuel s (w_next n) now answer) = Some r -> fview r.1 = fview b).
  { intros b2 e E2 Hr. destruct (wait_claim b2 w e a) as [[b3 a3]|] eqn:E3; [|done]. cbn in Hr. apply fview_claim in E3. cbn in E3. rewrite (IH _ _ _ _ _ Hr). congruence. }
  destruct ev as [[]|e]; [by eapply Hc| |by eapply Hc]. case_if; [|rewrite (IH _ _ _ _ _ H); congruence]. eapply Hc; [|exact H]. exact E1.
Qed.
Lemma fview_gone fuel : forall b w c a r, gone_loop fuel b w c a = Some r -> fview r.1 = fview b.
Proof.
  induction fuel as [|fuel IH]; intros b w c a r; cbn [gone_loop]; [case_if; [by intros [= <-]|done]|]. case_if; [by intros [= <-]|]. intros H. destruct (heap b !! w) as [n|]; [|done]. cbn [mbind option_bind] in H.
  case_if; [|by eapply IH]. destruct (wait_claim b w _ a) as [[b1 a1]|] eqn:E1; [|done]. cbn in H. apply fview_claim in E1. cbn in E1. rewrite (IH _ _ _ _ _ H). done.
Qed.

Section close.
Context `{K : Kernel} `{D : Device}.
Implicit Types s : jsrv.

Lemma fine_tables F X W s : fine F X W s -> V3daCorrect.tables_ok (fences s).
Proof.
  intros H. pose proof (in_shape _ _ _ (fn_inv _ _ _ _ H)) as Sh. split_and!; [apply Sh| |apply Sh|].
  - apply Forall_forall. intros r Hr. pose proof (sh_rows _ Sh r Hr) as Hl. unfold zlen in Hl. lia.
  - intros i c Hc Hu. pose proof (fn_clients _ _ _ _ H i c Hc) as E. rewrite Hu in E. apply E.
Qed.

(** The fences after such a pass. *)
Lemma fine_pass F X W W' s b : fine F X W s -> fview b = fview (fences s) -> V3daCorrect.rep b W'.1 W'.2 -> Forall (fun n => V3daCorrect.req_ok n.2) W'.1 ->
  let s' := on_bo (on_base (fun _ => b)) s in fine F X W' s' /\ same_view s s'.
Proof.
  intros H Ef Hr Hq s'. assert (V : same_view s s') by by split_and!. split; [|done]. destruct H as [H1 H2 H3 H4 H5 H6]. split; [by eapply inv_view|by apply (mem_ok_eq s)| | |done|done].
  - intros i c Hc. destruct (fview_client _ _ _ _ Ef Hc) as (c0 & Hc0 & E). injection E as E1 E2 E3 _. rewrite <- E1, <- E2, <- E3. by apply H3.
  - change (fences s') with b. injection Ef as E1 _ E3 _ _ _. unfold slot_at. rewrite E1, E3. exact H4.
Qed.
Lemma phase_view s s' : same_view s s' -> forall q i, phase_of s' q i = phase_of s q i.
Proof. intros (_ & _ & Ef & _) q i. pose proof (fview_at _ _ i Ef) as E. injection E as E _ _ _. unfold phase_of. by rewrite E. Qed.
Lemma lines_op op op' L s : (forall q i, op' q i = op q i) -> lines op L s -> lines op' L s.
Proof. intros E H Hr. destruct (H Hr) as [Hn Hl]. split; [done|]. intros q i Hq Hi. rewrite E. auto. Qed.
Lemma lines_ext op L L' s : (forall q i, is_queue q -> is_slot i -> L' q i = L q i) -> lines op L s -> lines op L' s.
Proof. intros E H Hr. destruct (H Hr) as [Hn Hl]. split; [done|]. intros q i Hq Hi. rewrite E by done. auto. Qed.

(** The server between two operations. *)
Definition okay (F : Z -> Z -> list Z) W s : Prop := good (phase_of s) F W s.

Lemma okay_pass F W W' s b : okay F W s -> fview b = fview (fences s) -> V3daCorrect.rep b W'.1 W'.2 -> Forall (fun n => V3daCorrect.req_ok n.2) W'.1 -> okay F W' (on_bo (on_base (fun _ => b)) s).
Proof.
  intros [H HL] Ef Hr Hq. destruct (fine_pass F [] W W' s b H Ef Hr Hq) as [H' V]. split; [done|]. eapply lines_op; [by apply phase_view|]. eapply lines_ext; [|eapply lines_view; [exact V|done|exact HL]].
  intros q i _ _. unfold rest. by rewrite (actl_view _ _ _ _ V).
Qed.
Lemma okay_stepped op F W s s' F' : okay F W s -> (forall q i, op q i = phase_of s q i) -> stepped op F W s s' F' -> okay F' W s'.
Proof. intros G Hop S. pose proof S as ([H HL] & _). split; [done|]. eapply lines_op; [|exact HL]. intros q i. symmetry. by eapply chain_op. Qed.

Lemma scan_spec F W s now : okay F W s ->
  wp (lift (fun s => '(b, a) ← waits_scan (wait_fuel s) (fences s) now 0; Some (on_bo (on_base (fun _ => b)) s, a))) s
    (fun s' a => exists ws la, okay F (ws, (a, la) :: W.2) s').
Proof.
  intros G. pose proof (proj1 G) as H. destruct (V3daCorrect.waits_scan_rep (fences s) now W.1 W.2 (fn_waits _ _ _ _ H) (fine_tables _ _ _ _ H) (fn_reqs _ _ _ _ H)) as (b & a & E & Hr & _).
  unfold lift, wp. change (wait_fuel s) with (V3daCorrect.fuel_of (fences s)). rewrite E. cbn. eexists _, _. split; [done|]. eexists _, _. eapply (okay_pass F W (_, (a, _) :: W.2)); [done|by apply fview_scan in E|exact Hr|].
  cbn. apply Forall_forall. intros n Hn%V3daCorrect.kept_sub. exact (proj1 (Forall_forall _ _) (fn_reqs _ _ _ _ H) n Hn).
Qed.
Lemma claim_client_spec F W s id : okay F W s ->
  wp (lift (fun s => '(b, a) ← v3da_waits_client_gone (wait_fuel s) (fences s) id 0; Some (on_bo (on_base (fun _ => b)) s, a))) s
    (fun s' a => exists ws la, okay F (ws, (a, la) :: W.2) s' /\ fview (fences s') = fview (fences s)).
Proof.
  intros G. pose proof (proj1 G) as H. pose proof (fn_waits _ _ _ _ H) as Hr0. destruct (V3daCorrect.gone_loop_rep id W.1 (V3daCorrect.fuel_of (fences s)) (fences s) [] 0 [] W.2) as (b & a & E & Hr & _).
  { by apply V3daCorrect.rep_claim_start. } { unfold V3daCorrect.fuel_of. pose proof (V3daCorrect.rep_fuel _ _ _ Hr0). lia. }
  unfold lift, wp, v3da_waits_client_gone. change (wait_fuel s) with (V3daCorrect.fuel_of (fences s)). rewrite (V3daCorrect.rep_hd _ _ _ Hr0), E. cbn. eexists _, _. split; [done|]. pose proof (fview_gone _ _ _ _ _ _ E) as Ef. eexists _, _. split; [|exact Ef].
  eapply (okay_pass F W (_, (a, _) :: W.2)); [done|exact Ef|exact Hr|]. cbn. apply Forall_forall. intros n Hn%V3daCorrect.kept_sub. exact (proj1 (Forall_forall _ _) (fn_reqs _ _ _ _ H) n Hn).
Qed.

(** ** The queued jobs of the client *)

(** Of the client that goes only the jobs on the hardware count. *)
Definition going (slot : Z) (F : Z -> Z -> list Z) s q i : list Z := if decide (i = slot) then actl s q i else rest F s q i.

Lemma discard_one op F W s q slot p l (k : M unit) Q : fine F [] W s -> is_queue q -> is_slot slot -> F q slot = p :: l -> lines op (going slot F s) s ->
  (forall s', fine (upd_fifo F q slot l) [] W s' -> lines op (going slot (upd_fifo F q slot l) s') s' -> settled s s' -> fences s' = fences s -> ever_reset (ct s') = ever_reset (ct s) -> wp k s' Q) ->
  wp (p ← fifo_pop q slot; if p =? 0 then mret tt else _ ← drop_pending q; _ ← job_discard p; k) s Q.
Proof.
  intros H Hq Hi HF HL HQ. pose proof (fn_inv _ _ _ _ H) as HI. apply wp_bind. eapply wp_mono; [by apply (pop_fine0 F W s q slot p l)|]. intros s1 x (-> & H1 & M1 & j1 & Ej1 & _).
  destruct (in_F _ _ _ HI q slot p ltac:(rewrite HF; by left)) as (_ & _ & j0 & Ej0 & _). destruct (in_all _ _ _ HI p ltac:(by exists j0)) as [Hp0 _]. rewrite (proj2 (Z.eqb_neq _ _) Hp0).
  apply wp_bind, wp_modify. set (s2 := on_qs _ s1). destruct (stats_tuned s1 (fun u => put_pending (u32 (pending u - 1)) u) q ltac:(done)) as [T2 M2]. fold s2 in T2, M2. pose proof T2 as ((V2 & _ & Ee2) & _ & _).
  assert (H2 : fine (upd_fifo F q slot l) [p] W s2) by (eapply tuned_fine; [exact T2|apply M2, H1|exact H1]). assert (L2 : lines op (going slot F s) s2) by (eapply lines_view; [exact V2|done|by eapply moved_lines]).
  destruct (tuned_job _ _ _ _ T2 Ej1) as [j2 Ej2]. apply wp_bind. eapply wp_mono; [by eapply (discard_spec _ [] W s2 p j2)|]. intros s3 [] (H3 & G3 & Ef3 & A3 & Sq & Ne).
  pose proof M1 as (Eb & _ & _ & Ec & Ecf & _). pose proof (proj2 (proj2 (proj2 (in_X _ _ _ (fn_inv _ _ _ _ H2)) p ltac:(by left)))) as Hna.
  assert (Eact : forall q' i', is_queue q' -> actl s3 q' i' = actl s q' i').
  { intros q' i' Hq'. transitivity (actl s2 q' i'); [|rewrite (actl_view _ _ _ _ V2); by apply moved_actl]. unfold actl. rewrite A3 by done. destruct (act s2 q' =? 0) eqn:Ez; [done|]. by rewrite (proj2 (Sq (act s2 q') (Hna q' Hq')) i'). }
  apply HQ; [done| | | |].
  - intros Hr. destruct G3 as (Er & _). rewrite Er in Hr. destruct (L2 Hr) as [Hn Hl]. split; [by apply Ne|]. intros q' i' Hq' Hi'. specialize (Hl q' i' Hq' Hi').
    assert (EL : going slot (upd_fifo F q slot l) s3 q' i' = going slot F s q' i'). { unfold going, rest. rewrite Eact by done. case_decide; [done|]. unfold upd_fifo. by rewrite decide_False by (by intros [_ ->]). }
    assert (Hp : p ∉ going slot F s q' i').
    { assert (Hpa : p ∉ actl s q' i'). { unfold actl. destruct (act s q' =? 0); [apply not_elem_of_nil|]. destruct (from_option _ false _); [|apply not_elem_of_nil]. intros Hx%list_elem_of_singleton.
        eapply (queued_idle F [] s q slot p q' HI); [rewrite HF; by left|done|done]. }
      unfold going, rest. case_decide as E; [done|]. apply not_elem_of_app. split; [done|]. intros Hx. apply E. eapply (place_unique F [] s q slot q' i' p HI); [rewrite HF; by left|done]. }
    rewrite EL. unfold line_ok, done_of in *. rewrite Ef3. rewrite (list_fmap_ext (seq_of s3) (seq_of s2)); [exact Hl|]. intros n x Hx. apply Sq. intros ->. by eapply Hp, list_elem_of_lookup_2.
  - etransitivity; [|by eapply gone_settled]. etransitivity; [|apply T2]. split_and!; [by rewrite Ecf|by rewrite (moved_dom _ _ M1)|unfold fences; by rewrite Eb].
  - rewrite Ef3. change (fences s1 = fences s). unfold fences. by rewrite Eb.
  - destruct G3 as (-> & _). change (ever_reset (ct s1) = ever_reset (ct s)). by rewrite Ec.
Qed.

Lemma fine_ext F F' X W s : (forall q i, F q i = F' q i) -> fine F X W s -> fine F' X W s.
Proof.
  intros EF [HI H2 H3 H4 H5 H6]. split; try done.
  - destruct HI as [I1 I2 I3 I4 I5 I6 I7 I8 I9 I10 IK I11 I12]. split; try done.
    + intros q' i'. rewrite <- EF. apply I2.
    + intros q' i' x. rewrite <- EF. apply I3.
    + intros q' i'. rewrite <- EF. apply I4.
    + intros q' Hq'. destruct (I5 q' Hq') as [?|(? & j & ? & ? & ? & ?)]; [by left|right]. split; [done|]. exists j. by rewrite <- EF.
    + destruct I6 as [? I6]. split; [done|]. intros x Hx. destruct (I6 x Hx) as (? & Hn & ?). split_and!; [done| |done]. intros q' i'. by rewrite <- EF.
    + intros x Hx. destruct (I7 x Hx) as (? & [?|[(q' & i' & Hx')|?]]); (split; [done|]); [by left| |by right; right]. right; left. exists q', i'. by rewrite <- EF.
  - intros i c Hc. specialize (H3 i c Hc). destruct (c_used c); [done|]. intros q'. by rewrite <- EF.
Qed.

Lemma discard_loop_spec op W q slot fuel : forall F s, fine F [] W s -> is_queue q -> is_slot slot -> lines op (going slot F s) s -> (length (F q slot) < fuel)%nat ->
  wp (discard_loop fuel q slot) s (fun s' _ => fine (upd_fifo F q slot []) [] W s' /\ lines op (going slot (upd_fifo F q slot []) s') s' /\ settled s s' /\ fences s' = fences s /\ ever_reset (ct s') = ever_reset (ct s)).
Proof.
  induction fuel as [|fuel IH]; intros F s H Hq Hi HL Hf; [lia|]. cbn [discard_loop]. destruct (F q slot) as [|p l] eqn:HF.
  - apply wp_bind. apply (pop_none F [] s q slot); [apply H|done|done|done|]. cbn. apply wp_ret.
    assert (EF : forall q' i', F q' i' = upd_fifo F q slot [] q' i') by (intros q' i'; unfold upd_fifo; case_decide as E; [destruct E as [-> ->]; by rewrite HF|done]).
    split_and!; try done; [by eapply fine_ext|eapply lines_ext; [|exact HL]; intros q' i' _ _; unfold going, rest; by rewrite EF].
  - apply (discard_one op F W s q slot p l _ _ H Hq Hi HF HL). intros s1 H1 L1 S1 E1 R1. eapply wp_mono; [apply (IH _ s1 H1 Hq Hi L1)|].
    { unfold upd_fifo. rewrite decide_True by done. cbn in Hf. lia. }
    assert (EF : forall q' i', upd_fifo (upd_fifo F q slot l) q slot [] q' i' = upd_fifo F q slot [] q' i') by (intros q' i'; unfold upd_fifo; by repeat case_decide).
    intros s2 [] (H2 & L2 & S2 & E2 & R2). split_and!; [eapply fine_ext; [exact EF|exact H2]|eapply lines_ext; [|exact L2]; intros q' i' _ _; unfold going, rest; by rewrite EF|by etransitivity|congruence..].
Qed.

Lemma fifo_length F X s q i : inv F X s -> (length (F q i) <= size (jobs s))%nat.
Proof.
  intros H. rewrite <- size_dom, <- (size_list_to_set (C := gset Z) (F q i)) by apply (in_nodup _ _ _ H). apply subseteq_size. intros x Hx%elem_of_list_to_set.
  destruct (in_F _ _ _ H q i x Hx) as (_ & _ & j & Ej & _). by apply elem_of_dom_2 in Ej.
Qed.

Lemma discards_spec op W slot n l : forall F s, fine F [] W s -> is_slot slot -> lines op (going slot F s) s -> Forall is_queue l -> (size (jobs s) <= n)%nat ->
  wp (each (fun q => discard_loop (S n) q slot) l) s (fun s' _ => exists F', fine F' [] W s' /\ lines op (going slot F' s') s' /\ settled s s' /\ fences s' = fences s /\ ever_reset (ct s') = ever_reset (ct s) /\
    forall q i, F' q i = if decide (i = slot /\ q ∈ l) then [] else F q i).
Proof.
  induction l as [|q l IH]; intros F s H Hi HL Hl Hn; cbn [each]. { apply wp_ret. exists F. split_and!; try done. intros q i. rewrite decide_False; [done|]. intros [_ Hx]. by apply elem_of_nil in Hx. }
  apply Forall_cons in Hl as [Hq Hl]. apply wp_bind. eapply wp_mono; [apply (discard_loop_spec op W q slot (S n) F s H Hq Hi HL); pose proof (fifo_length F [] s q slot (fn_inv _ _ _ _ H)); lia|].
  intros s1 [] (H1 & L1 & S1 & E1 & R1). eapply wp_mono; [apply (IH _ s1 H1 Hi L1 Hl)|].
  { destruct S1 as (_ & D1 & _). apply subseteq_size in D1. rewrite !size_dom in D1. lia. }
  intros s2 [] (F2 & H2 & L2 & S2 & E2 & R2 & EF). exists F2. split_and!; [done|done|by etransitivity|congruence|congruence|]. intros q' i'. rewrite EF. unfold upd_fifo.
  destruct (decide (i' = slot /\ q' ∈ l)) as [[]|N]; [rewrite decide_True by (split; [done|by right]); done|]. destruct (decide (q' = q /\ i' = slot)) as [[-> ->]|N']; [by rewrite decide_True by (split; [done|by left])|].
  rewrite decide_False; [done|]. intros [-> [->|?]%elem_of_cons]; tauto.
Qed.

(** ** The fences of the client *)

Lemma inv_fences F X s b : inv F X s -> hw_completed b = hw_completed (fences s) -> slot_gen b = slot_gen (fences s) -> active b = active (fences s) ->
  shape (on_bo (on_base (fun _ => b)) s) -> inv F X (on_bo (on_base (fun _ => b)) s).
Proof.
  intros [I1 I2 I3 I4 I5 I6 I7 I8 I9 I10 IK I11 I12] E1 E2 E3 Sh. split; try done; unfold fences; cbn.
  - intros q Hq. rewrite E3. by apply I5.
  - intros p j. rewrite E2. by apply I8.
  - intros q Hq. rewrite E1. by apply I12.
Qed.

Lemma flight_actl F X s q i : inv F X s -> is_queue q -> is_slot i ->
  match active (fences s) !!! Z.to_nat q with Some j => f_slot (j_fence j) =? i | None => false end = negb (bool_decide (actl s q i = [])).
Proof.
  intros H Hq Hi. unfold actl. destruct (in_act _ _ _ H q Hq) as [[Ea El]|(Ha & j & Ej & _ & _ & El)]; rewrite list_lookup_total_alt, El; cbn.
  - by rewrite Ea.
  - rewrite (proj2 (Z.eqb_neq _ _) Ha), Ej. cbn. by destruct (f_slot (v_fence j) =? i).
Qed.

Definition last_seq (b : srv) slot q : Z := arr_get (next_seq (client_at b slot)) q.
Definition flushes (b : srv) slot q : bool :=
  negb (match active b !!! Z.to_nat q with Some j => f_slot (j_fence j) =? slot | None => false end) && (arr_get (completed (slot_at b slot)) q <? last_seq b slot q).
Lemma flush_row_eq b slot q : flush_row slot q b =
  let b1 := set_slot_gen b (slot_gen b) (alter (fun l => arr_set l q (last_seq b slot q)) (Z.to_nat slot) (dead_flush b)) in
  if flushes b slot q then set_fp b1 (<[Z.to_nat slot := mk_slot (arr_set (completed (slot_at b slot)) q (last_seq b slot q)) (ERR_SEQ q (last_seq b slot q)) (gen (slot_at b slot))]> (slots b)) (hw_completed b) else b1.
Proof. done. Qed.

Lemma flush_fields b slot q (b' := flush_row slot q b) : clients b' = clients b /\ active b' = active b /\ slot_gen b' = slot_gen b /\ hw_completed b' = hw_completed b /\ wview b' = wview b /\
  dead_flush b' = alter (fun l => arr_set l q (last_seq b slot q)) (Z.to_nat slot) (dead_flush b) /\
  slots b' = if flushes b slot q then <[Z.to_nat slot := mk_slot (arr_set (completed (slot_at b slot)) q (last_seq b slot q)) (ERR_SEQ q (last_seq b slot q)) (gen (slot_at b slot))]> (slots b) else slots b.
Proof. unfold b'. rewrite flush_row_eq. cbn zeta. by destruct (flushes b slot q). Qed.

Lemma row_in s i : shape s -> is_slot i -> slot_at (fences s) i ∈ slots (fences s).
Proof. intros Sh Hi. unfold is_slot in Hi. unfold slot_at. eapply list_elem_of_lookup_2, list_lookup_lookup_total_lt. rewrite (sh_slots _ Sh). lia. Qed.
Lemma slot_at_eq (b b' : srv) i r : slots b' = <[Z.to_nat i := r]> (slots b) -> length (slots b) = 60%nat -> is_slot i -> slot_at b' i = r /\ forall i', is_slot i' -> i' <> i -> slot_at b' i' = slot_at b i'.
Proof.
  intros E Hl Hi. unfold is_slot in *. unfold slot_at. rewrite E. split; [apply list_lookup_total_insert_eq; lia|]. intros i' Hi' Hne. apply list_lookup_total_insert_ne. lia.
Qed.
Lemma flush_at b slot q i : length (dead_flush b) = 60%nat -> is_slot slot -> is_slot i -> dead_flush (flush_row slot q b) !!! Z.to_nat i = if decide (i = slot) then arr_set (dead_flush b !!! Z.to_nat slot) q (last_seq b slot q) else dead_flush b !!! Z.to_nat i.
Proof.
  intros Hl Hs Hi. unfold is_slot in *. destruct (flush_fields b slot q) as (_ & _ & _ & _ & _ & -> & _). rewrite !list_lookup_total_alt. case_decide as E; [subst i; rewrite list_lookup_alter_eq|by rewrite list_lookup_alter_ne by lia].
  by destruct (lookup_lt_is_Some_2 (dead_flush b) (Z.to_nat slot)) as [x ->]; [lia|].
Qed.

Lemma flush_shape slot q s : is_slot slot -> shape s -> shape (on_bo (on_base (flush_row slot q)) s).
Proof.
  intros Hi Sh. destruct (flush_fields (fences s) slot q) as (E1 & E2 & E3 & E4 & _ & E6 & E7). pose proof (row_in s slot Sh Hi) as Hr. destruct Sh. split; try done; unfold fences in *; cbn; rewrite ?E1, ?E2, ?E3, ?E4; try done.
  - rewrite E7. destruct (flushes _ slot q); [by rewrite length_insert|done].
  - intros r. rewrite E7. destruct (flushes _ slot q); [|apply sh_rows0]. intros [k Hk]%list_elem_of_lookup. apply list_lookup_insert_Some in Hk as [(_ & <- & _)|[_ Hk]]; [|by eapply sh_rows0, list_elem_of_lookup_2].
    cbn. unfold zlen. rewrite length_arr_set. by apply sh_rows0.
  - rewrite E6. by rewrite length_alter.
  - intros l. rewrite E6. intros [k Hk]%list_elem_of_lookup. destruct (decide (k = Z.to_nat slot)) as [->|Hne]; [|rewrite list_lookup_alter_ne in Hk by done; by eapply sh_flushes0, list_elem_of_lookup_2].
    rewrite list_lookup_alter_eq in Hk. destruct (dead_flush (base (bo s)) !! Z.to_nat slot) as [l0|] eqn:E; [|done]. cbn in Hk. injection Hk as <-. unfold zlen. rewrite length_arr_set. apply (sh_flushes0 l0). by eapply list_elem_of_lookup_2.
Qed.

Definition closed_at (slot q0 : Z) (op : Z -> Z -> phase) (q i : Z) : phase := if decide (q = q0 /\ i = slot) then Closed else op q i.

Lemma flush_row_spec op F W s q slot : fine F [] W s -> lines op (going slot F s) s -> op q slot = Closing -> is_queue q -> is_slot slot ->
  let s' := on_bo (on_base (flush_row slot q)) s in fine F [] W s' /\ lines (closed_at slot q op) (going slot F s') s'.
Proof.
  intros H HL Hop Hq Hi s'. pose proof (fn_inv _ _ _ _ H) as HI. pose proof (in_shape _ _ _ HI) as Sh. pose proof (flush_shape slot q s Hi Sh) as Sh'. destruct (flush_fields (fences s) slot q) as (E1 & E2 & E3 & E4 & E5 & _ & E7).
  assert (Hrow : forall i, is_slot i -> slot_at (fences s') i = if decide (i = slot /\ flushes (fences s) slot q = true) then mk_slot (arr_set (completed (slot_at (fences s) slot)) q (last_seq (fences s) slot q)) (ERR_SEQ q (last_seq (fences s) slot q)) (gen (slot_at (fences s) slot)) else slot_at (fences s) i).
  { intros i Hi'. destruct (flushes (fences s) slot q) eqn:Ef.
    - destruct (slot_at_eq (fences s) (fences s') slot _ E7 (sh_slots _ Sh) Hi) as [A B]. destruct (decide (i = slot)) as [->|Hne]; [by rewrite decide_True|]. rewrite decide_False by tauto. by apply B.
    - rewrite decide_False by (by intros [_ ?]). unfold slot_at. change (slots (fences s')) with (slots (flush_row slot q (fences s))). by rewrite E7. }
  split.
  - destruct H as [_ H2 H3 H4 H5 H6]. split; [by apply inv_fences|by apply (mem_ok_eq s)| | |by eapply rep_eq|done].
    + intros k c Hk. change (clients (fences s')) with (clients (flush_row slot q (fences s))) in Hk. rewrite E1 in Hk. by apply H3.
    + intros i Hi'. rewrite Hrow by done. change (slot_gen (fences s')) with (slot_gen (flush_row slot q (fences s))). rewrite E3. destruct (decide (i = slot /\ flushes (fences s) slot q = true)) as [[-> _]|_]; by apply H4.
  - intros Hr. destruct (HL Hr) as [Hn Hl]. split; [done|]. intros q' i' Hq' Hi'. specialize (Hl q' i' Hq' Hi').
    change (going slot F s' q' i') with (going slot F s q' i'). unfold line_ok, done_of in *. rewrite Hrow by done. change (dead_flush (fences s')) with (dead_flush (flush_row slot q (fences s))). rewrite flush_at by (try done; apply Sh).
    assert (Ecl : client_at (fences s') i' = client_at (fences s) i') by (unfold client_at; change (clients (fences s')) with (clients (flush_row slot q (fences s))); by rewrite E1). rewrite Ecl. clear Ecl.
    change (seq_of s') with (seq_of s). pose proof (sh_rows _ Sh _ (row_in s slot Sh Hi)) as L6. unfold closed_at. unfold is_queue in *.
    destruct (decide (q' = q /\ i' = slot)) as [[-> ->]|Hne].
    + rewrite Hop in Hl. destruct Hl as (Hd & Hs & Hc). rewrite (decide_True (P := slot = slot)) by done.
      assert (L6' : zlen (dead_flush (fences s) !!! Z.to_nat slot) = 6). { apply (sh_flushes _ Sh). unfold is_slot in Hi. eapply list_elem_of_lookup_2, list_lookup_lookup_total_lt. rewrite (sh_flush _ Sh). lia. }
      rewrite (arr_get_set_eq (dead_flush _ !!! _)) by lia. assert (Eg : going slot F s q slot = actl s q slot) by (unfold going; by rewrite decide_True). rewrite Eg in *.
      unfold flushes in *. rewrite (flight_actl F [] s q slot HI Hq Hi) in *. fold (last_seq (fences s) slot q) in Hc.
      destruct (actl s q slot) as [|x l] eqn:EA.
      * rewrite bool_decide_eq_true_2 by done. cbn [negb andb]. change (zlen []) with 0 in *. destruct (arr_get (completed (slot_at (fences s) slot)) q <? last_seq (fences s) slot q) eqn:El; bsimp.
        -- rewrite decide_True by done. cbn. rewrite arr_get_set_eq by lia. split_and!; [lia|done|done].
        -- rewrite decide_False by (by intros [_ ?]). split_and!; [done|done|lia].
      * rewrite bool_decide_eq_false_2 by done. cbn [negb andb]. rewrite decide_False by (by intros [_ ?]). assert (Hlen : zlen (x :: l) = 1). { revert EA. unfold actl. case_if; [done|]. case_if; [|done]. by intros [= <- <-]. }
        split_and!; [done|done|done|lia].
    + assert (Hdone : arr_get (completed (if decide (i' = slot /\ flushes (fences s) slot q = true) then mk_slot (arr_set (completed (slot_at (fences s) slot)) q (last_seq (fences s) slot q)) (ERR_SEQ q (last_seq (fences s) slot q)) (gen (slot_at (fences s) slot)) else slot_at (fences s) i')) q' = arr_get (completed (slot_at (fences s) i')) q').
      { destruct (decide (i' = slot /\ flushes (fences s) slot q = true)) as [[-> _]|_]; [|done]. cbn. assert (q' <> q) by tauto. by rewrite arr_get_set_ne by lia. }
      rewrite Hdone. assert (Hdead : arr_get (if decide (i' = slot) then arr_set (dead_flush (fences s) !!! Z.to_nat slot) q (last_seq (fences s) slot q) else dead_flush (fences s) !!! Z.to_nat i') q' = arr_get (dead_flush (fences s) !!! Z.to_nat i') q').
      { destruct (decide (i' = slot)) as [->|]; [|done]. assert (q' <> q) by tauto. by rewrite arr_get_set_ne by lia. }
      rewrite Hdead. exact Hl.
Qed.

Lemma flushes_spec F W slot l : forall op s, fine F [] W s -> lines op (going slot F s) s -> is_slot slot -> NoDup l -> Forall is_queue l -> (forall q, q ∈ l -> op q slot = Closing) ->
  wp (each (fun q => upd_fences (flush_row slot q)) l) s (fun s' _ => fine F [] W s' /\ lines (fun q i => if decide (q ∈ l /\ i = slot) then Closed else op q i) (going slot F s') s' /\ settled s s' /\ ever_reset (ct s') = ever_reset (ct s)).
Proof.
  induction l as [|q l IH]; intros op s H HL Hi Hnd Hl Hop; cbn [each].
  { apply wp_ret. split_and!; [done| |done|done]. eapply lines_op; [|exact HL]. intros q i. rewrite decide_False; [done|]. intros [Hx _]. by apply elem_of_nil in Hx. }
  apply NoDup_cons in Hnd as [Hql Hnd]. apply Forall_cons in Hl as [Hq Hl]. apply wp_bind, wp_modify. destruct (flush_row_spec op F W s q slot H HL (Hop q ltac:(by left)) Hq Hi) as [H1 L1]. set (s1 := on_bo _ s) in *.
  assert (S1 : settled s s1). { split_and!; try done. destruct (flush_fields (fences s) slot q) as (E & _). exact E. }
  eapply wp_mono; [apply (IH _ s1 H1 L1 Hi Hnd Hl)|]. { intros q' Hq'. unfold closed_at. rewrite decide_False; [|by intros [-> _]]. apply Hop. by right. }
  intros s2 [] (H2 & L2 & S2 & R2). split_and!; [done| |by etransitivity|done]. eapply lines_op; [|exact L2]. intros q' i'. unfold closed_at.
  destruct (decide (q' ∈ l /\ i' = slot)) as [[]|N]; [by rewrite decide_True by (split; [by right|done])|]. destruct (decide (q' = q /\ i' = slot)) as [[-> ->]|N']; [by rewrite decide_True by (split; [by left|done])|].
  rewrite decide_False; [done|]. intros [[->|?]%elem_of_cons ->]; tauto.
Qed.

(** ** The client goes *)

Lemma line_prefix op s q i a l : line_ok op s q i (a ++ l) -> op = Open -> line_ok Closing s q i a.
Proof.
  intros (H0 & Hs & Hc) ->. assert (Hz : zlen (a ++ l) = zlen a + zlen l) by (unfold zlen; rewrite length_app; lia). pose proof (Zle_0_nat (length a)) as Za. pose proof (Zle_0_nat (length l)) as Zl. fold (zlen a) in Za. fold (zlen l) in Zl.
  rewrite Hz in Hs, Hc. split_and!; [done| |lia]. rewrite seqZ_app in Hs by lia. rewrite fmap_app in Hs. apply app_inj_1 in Hs as [Hs _]; [done|]. rewrite length_fmap, length_seqZ. unfold zlen. lia.
Qed.

Definition leaving (slot : Z) (op : Z -> Z -> phase) (q i : Z) : phase := if decide (i = slot) then Closed else op q i.

Lemma jobs_client_gone_spec F W s slot : okay F W s -> is_slot slot -> c_used (client_at (fences s) slot) = true ->
  wp (v3da_jobs_client_gone (slot + 1)) s (fun s' _ => exists F', good (leaving slot (phase_of s)) F' W s' /\ settled s s' /\ (forall q, F' q slot = []) /\ (ever_reset (ct s) = true -> ever_reset (ct s') = true)).
Proof.
  intros [H HL] Hi Hu. unfold v3da_jobs_client_gone. replace (slot + 1 - 1) with slot by lia. apply wp_bind, wp_get.
  set (op0 := fun q i => if decide (i = slot) then Closing else phase_of s q i).
  assert (L0 : lines op0 (going slot F s) s).
  { intros Hr. destruct (HL Hr) as [Hn Hl]. split; [done|]. intros q i Hq Hi'. specialize (Hl q i Hq Hi'). unfold op0, going. case_decide as E; [|done]. subst i. eapply line_prefix; [exact Hl|]. unfold phase_of. by rewrite Hu. }
  apply wp_bind. eapply wp_mono; [apply (discards_spec op0 W slot (size (jobs s)) queues F s H Hi L0); [apply Forall_forall, queues_in|done]|]. intros s1 [] (F1 & H1 & L1 & S1 & E1 & R1 & EF).
  apply wp_bind. eapply wp_mono; [apply (flushes_spec F1 W slot queues op0 s1 H1 L1 Hi); [apply NoDup_seqZ|apply Forall_forall, queues_in|]|]. { intros q _. unfold op0. by rewrite decide_True. }
  intros s2 [] (H2 & L2 & S2 & R2). assert (HF1 : forall q, F1 q slot = []).
  { intros q. rewrite EF. case_decide as E; [done|]. destruct (F q slot) as [|x l] eqn:HF; [done|]. destruct (in_F _ _ _ (fn_inv _ _ _ _ H) q slot x ltac:(rewrite HF; by left)) as (Hq & _). destruct E. split; [done|]. unfold is_queue in Hq. apply elem_of_seqZ. change V3DA_Q_COUNT with 6. lia. }
  assert (G2 : good (leaving slot (phase_of s)) F1 W s2).
  { split; [done|]. intros Hr. destruct (L2 Hr) as [Hn Hl]. split; [done|]. intros q i Hq Hi'. specialize (Hl q i Hq Hi'). unfold leaving, op0, going in *. destruct (decide (i = slot)) as [->|Hne].
    - rewrite decide_True in Hl. 2: { split; [|done]. unfold is_queue in Hq. apply elem_of_seqZ. change V3DA_Q_COUNT with 6. lia. } unfold rest. by rewrite HF1, app_nil_r.
    - rewrite decide_False in Hl by (by intros [_ ?]). done. }
  eapply wp_mono; [by apply sched_run_spec|]. intros s3 [] (F3 & S3 & _). pose proof S3 as (G3 & Sh & St & Rm). exists F3. split_and!; [done|etransitivity; [exact S1|]; by etransitivity| |].
  - intros q. destruct (Sh q slot) as [l E]. rewrite HF1 in E. destruct l; [by destruct (F3 q slot)|done].
  - intros Hr. apply Rm. congruence.
Qed.

Lemma unuse_spec op F W s slot n : good op F W s -> is_slot slot -> (forall q, F q slot = []) -> (forall q i, op q i = leaving slot (phase_of s) q i) ->
  okay F W (on_bo (on_base (fun b => set_clients b (clients b) n)) (on_bo (on_base (fun b => upd_client b slot (fun cl => mk_client false (c_id cl) (c_pid cl) (c_hello cl) (c_slot cl) (next_seq cl) (c_nparked cl) (sync cl)))) s)).
Proof.
  intros [H HL] Hi HF Hop. pose proof (fn_inv _ _ _ _ H) as HI. pose proof (in_shape _ _ _ HI) as Sh. set (g := fun cl : client => mk_client false _ _ _ _ _ _ _). set (s' := on_bo _ _).
  assert (Ecl : clients (fences s') = alter g (Z.to_nat slot) (clients (fences s))) by done.
  assert (Hat : forall i, is_slot i -> client_at (fences s') i = if decide (i = slot) then g (client_at (fences s) slot) else client_at (fences s) i).
  { intros i Hi'. unfold is_slot in *. unfold client_at. rewrite Ecl, !list_lookup_total_alt. case_decide as E; [subst i; rewrite list_lookup_alter_eq|by rewrite list_lookup_alter_ne by lia].
    by destruct (lookup_lt_is_Some_2 (clients (fences s)) (Z.to_nat slot)) as [x ->]; [rewrite (sh_clients _ Sh); lia|]. }
  assert (Sh' : shape s'). { destruct Sh. split; try done; rewrite Ecl; [by rewrite length_alter|]. intros c [k Hk]%list_elem_of_lookup. destruct (decide (k = Z.to_nat slot)) as [->|Hne]; [|rewrite list_lookup_alter_ne in Hk by done; by eapply sh_seqs0, list_elem_of_lookup_2].
    rewrite list_lookup_alter_eq in Hk. destruct (clients (fences s) !! Z.to_nat slot) as [c0|] eqn:E; [|done]. cbn in Hk. injection Hk as <-. apply (sh_seqs0 c0). by eapply list_elem_of_lookup_2. }
  split.
  - destruct H as [_ H2 H3 H4 H5 H6]. split; try done; [by apply (inv_fences F [] s (fences s'))|by apply (mem_ok_eq s)|]. intros k c Hk. rewrite Ecl in Hk. destruct (decide (k = Z.to_nat slot)) as [->|Hne].
    + rewrite list_lookup_alter_eq in Hk. destruct (clients (fences s) !! Z.to_nat slot) as [c0|] eqn:E; [|done]. cbn in Hk. injection Hk as <-. cbn. intros q. unfold is_slot in Hi. rewrite Z2Nat.id by lia. apply HF.
    + rewrite list_lookup_alter_ne in Hk by done. by apply H3.
  - intros Hr. destruct (HL Hr) as [Hn Hl]. split; [done|]. intros q i Hq Hi'. specialize (Hl q i Hq Hi'). rewrite Hop in Hl. unfold leaving, phase_of in *. rewrite Hat by done. change (rest F s' q i) with (rest F s q i).
    unfold line_ok in *. rewrite Hat by done. change (seq_of s') with (seq_of s). change (done_of s' q i) with (done_of s q i). change (dead_flush (fences s')) with (dead_flush (fences s)).
    destruct (decide (i = slot)) as [->|Hne]; [exact Hl|]. exact Hl.
Qed.

Lemma client_close_spec F W s id : okay F W s ->
  wp (client_close id) s (fun s' a => (a = 0 /\ s' = s) \/ exists F' ws la, okay F' (ws, (a, la) :: W.2) s').
Proof.
  intros G. pose proof (proj1 G) as H. unfold client_close. apply wp_bind, wp_get. destruct (client_get (fences s) id) as [c|] eqn:Ec; [|apply wp_ret; by left].
  destruct (V3daCorrect.client_get_inv (fences s) (id - 1) c (fine_tables _ _ _ _ H)) as (Hi & Hat & Hid); [by replace (id - 1 + 1) with id by lia|]. replace (id - 1 + 1) with id in Hid by lia. rewrite Hid.
  assert (Hu : c_used (client_at (fences s) (id - 1)) = true). { rewrite Hat. unfold client_get in Ec. case_if; [done|]. case_if; [|done]. congruence. }
  apply wp_bind. eapply wp_mono; [by apply claim_client_spec|]. intros s1 a (ws & la & G1 & Ef). pose proof (fview_at _ _ (id - 1) Ef) as Ev. injection Ev as Eu _ _ _.
  apply wp_bind. replace id with (id - 1 + 1) at 1 by lia. eapply wp_mono; [apply (jobs_client_gone_spec F _ s1 (id - 1) G1 Hi); congruence|]. intros s2 [] (F2 & G2 & S2 & HF2 & _).
  apply wp_bind, wp_modify. set (s3 := on_bo _ s2). destruct (bkeep_gone (bo s2) id) as [B1 B2].
  assert (T3 : tuned s2 s3). { assert (Ef3 : fences s3 = fences s2) by (unfold fences, s3; cbn; by rewrite B1). split_and!; [split_and!; [split_and!; [done|done|by rewrite Ef3|cbn; by rewrite B2|done|done]|by rewrite Ef3|done]|split_and!; [done|done|by rewrite Ef3]|unfold rview; by rewrite Ef3]. }
  pose proof (tuned_stepped _ F2 _ s2 s3 T3 ltac:(apply (mem_ok_eq s2); [done..|apply G2]) G2) as (G3 & _ & S3 & _).
  apply wp_bind, wp_modify, wp_bind, wp_modify, wp_ret. right. exists F2, ws, la. eapply (unuse_spec _ F2 _ s3 (id - 1)); [exact G3|exact Hi|done|].
  intros q i. unfold leaving. case_decide; [done|]. symmetry. apply phase_settled. by etransitivity.
Qed.

(** ** A slot is assigned *)

Definition opened (b : srv) (pid i n : Z) : srv :=
  let b := set_clients b (<[Z.to_nat i := mk_client true (i + 1) pid false i (replicate 6 0) 0 (replicate 256 no_sync)]> (clients b)) n in
  v3da_slot_assign b i.

Lemma client_open_cases (b : srv) pid fuel : forall i, 0 <= i -> i + Z.of_nat fuel <= 60 ->
  match client_open_from b pid i fuel with
  | None => True
  | Some (b', id) => exists i' n, is_slot i' /\ c_used (client_at b i') = false /\ v3da_slot_busy b i' = false /\ fview b' = fview (opened b pid i' n) /\ wview b' = wview b
  end.
Proof.
  induction fuel as [|fuel IH]; intros i Hi Hf; cbn [client_open_from]; [done|]. destruct (negb (c_used (client_at b i)) && negb (v3da_slot_busy b i)) eqn:E; [|apply IH; lia].
  apply andb_true_iff in E as [E1%negb_true_iff E2%negb_true_iff]. exists i, (nclients b). unfold is_slot. split_and!; try done; lia.
Qed.

Lemma no_job_of F s i p j : inv F [] s -> is_slot i -> (forall q, F q i = []) -> v3da_slot_busy (fences s) i = false -> jobs s !! p = Some j -> f_slot (v_fence j) <> i.
Proof.
  intros H Hi HF Hb Ej E. destruct (in_all _ _ _ H p ltac:(by exists j)) as (_ & [Hx|[(q & i' & Hx)|(q & Hq & Hx)]]); [by apply elem_of_nil in Hx| |].
  - destruct (in_F _ _ _ H q i' p Hx) as (_ & _ & j' & Ej' & _ & <-). rewrite Ej in Ej'. injection Ej' as <-. rewrite E, HF in Hx. by apply elem_of_nil in Hx.
  - destruct (in_all _ _ _ H p ltac:(by exists j)) as (Hp & _). destruct (in_act _ _ _ H q Hq) as [[? _]|(_ & j' & Ej' & _ & _ & El)]; [congruence|]. rewrite Hx, Ej in Ej'. injection Ej' as <-.
    assert (Ht : v3da_slot_busy (fences s) i = true); [|congruence]. unfold v3da_slot_busy. apply existsb_exists. eexists. split; [apply list_elem_of_In; by eapply list_elem_of_lookup_2|]. cbn. by apply Z.eqb_eq.
Qed.

Lemma shape_view2 s b b' : fview b' = fview b -> shape (on_bo (on_base (fun _ => b)) s) -> shape (on_bo (on_base (fun _ => b')) s).
Proof. intros E. by apply shape_view. Qed.

Lemma opened_spec F W s pid i n : okay F W s -> is_slot i -> c_used (client_at (fences s) i) = false -> v3da_slot_busy (fences s) i = false -> okay F W (on_bo (on_base (fun b => opened b pid i n)) s).
Proof.
  intros [H HL] Hi Hu Hb. pose proof (fn_inv _ _ _ _ H) as HI. pose proof (in_shape _ _ _ HI) as Sh. set (s' := on_bo _ s). assert (Hn : (Z.to_nat i < 60)%nat) by (unfold is_slot in Hi; lia).
  assert (HF : forall q, F q i = []). { pose proof (fn_clients _ _ _ _ H _ _ (client_row s i Sh Hi)) as E. rewrite Hu in E. unfold is_slot in Hi. rewrite Z2Nat.id in E by lia. exact E. }
  set (g := u64 (slot_gen (fences s) !!! Z.to_nat i + 1)). assert (Esl : slots (fences s') = <[Z.to_nat i := mk_slot (replicate 6 0) 0 g]> (slots (fences s))) by done.
  assert (Egn : slot_gen (fences s') = <[Z.to_nat i := g]> (slot_gen (fences s))) by done. assert (Edf : dead_flush (fences s') = <[Z.to_nat i := replicate 6 0]> (dead_flush (fences s))) by done.
  set (c := mk_client true (i + 1) pid false i (replicate 6 0) 0 (replicate 256 no_sync)). assert (Ecl : clients (fences s') = <[Z.to_nat i := c]> (clients (fences s))) by done.
  assert (Sh' : shape s').
  { destruct Sh. split; try done; rewrite ?Esl, ?Egn, ?Edf, ?Ecl, ?length_insert; try done.
    - intros r [k Hk]%list_elem_of_lookup. apply list_lookup_insert_Some in Hk as [(_ & <- & _)|[_ Hk]]; [done|by eapply sh_rows0, list_elem_of_lookup_2].
    - intros l [k Hk]%list_elem_of_lookup. apply list_lookup_insert_Some in Hk as [(_ & <- & _)|[_ Hk]]; [done|by eapply sh_flushes0, list_elem_of_lookup_2].
    - intros x [k Hk]%list_elem_of_lookup. apply list_lookup_insert_Some in Hk as [(_ & <- & _)|[_ Hk]]; [done|by eapply sh_seqs0, list_elem_of_lookup_2]. }
  assert (Hne : forall i', is_slot i' -> i' <> i -> Z.to_nat i <> Z.to_nat i') by (unfold is_slot in *; lia).
  destruct (slot_at_eq (fences s) (fences s') i _ Esl (sh_slots _ Sh) Hi) as [Row Rows]. split.
  - destruct H as [_ H2 H3 H4 H5 H6]. split; try done; [|by apply (mem_ok_eq s)| |].
    + destruct HI as [I1 I2 I3 I4 I5 I6 I7 I8 I9 I10 IK I11 I12]. split; try done. intros p j Ej. destruct (I8 p j Ej) as (A & B & C & E). split_and!; try done. rewrite Egn. rewrite list_lookup_total_insert_ne; [done|]. apply Hne; [done|].
      by eapply (no_job_of F s i p j).
    + intros k x Hk. rewrite Ecl in Hk. apply list_lookup_insert_Some in Hk as [(<- & <- & _)|[_ Hk]]; [cbn; unfold is_slot in Hi; lia|by apply H3].
    + intros i' Hi'. rewrite Egn. destruct (decide (i' = i)) as [->|Hx]; [rewrite Row, list_lookup_total_insert_eq by (rewrite (sh_gens _ Sh); lia); done|]. rewrite Rows by done. rewrite list_lookup_total_insert_ne by (by apply Hne). by apply H4.
  - intros Hr. destruct (HL Hr) as [Hne' Hl]. split; [done|]. intros q i' Hq Hi'. specialize (Hl q i' Hq Hi'). change (rest F s' q i') with (rest F s q i'). unfold line_ok, done_of, phase_of in *. change (seq_of s') with (seq_of s). destruct (decide (i' = i)) as [->|Hx].
    + assert (Ec : client_at (fences s') i = c) by (unfold client_at; rewrite Ecl; apply list_lookup_total_insert_eq; rewrite (sh_clients _ Sh); lia). rewrite Ec, Row. cbn [c_used c completed next_seq].
      assert (E0 : rest F s q i = []). { unfold rest. rewrite HF, app_nil_r. destruct (act_place F [] s q i HI Hq) as [?|(j & _ & Ej & Es & _)]; [done|]. exfalso. by eapply (no_job_of F s i _ j). }
      rewrite E0. change (zlen []) with 0. assert (E00 : arr_get (replicate 6 0) q = 0) by (unfold is_queue in Hq; destruct (hw_queue_cases q Hq) as [->|[->|[->|[->|[->| ->]]]]]; done). rewrite E00. done.
    + assert (Ec : client_at (fences s') i' = client_at (fences s) i') by (unfold client_at; rewrite Ecl; apply list_lookup_total_insert_ne; by apply Hne). assert (Ed : dead_flush (fences s') !!! Z.to_nat i' = dead_flush (fences s) !!! Z.to_nat i') by (rewrite Edf; apply list_lookup_total_insert_ne; by apply Hne).
      rewrite Ec, Ed, Rows by done. exact Hl.
Qed.

Lemma client_open_spec F W s pid : okay F W s -> okay F W (on_bo (on_base (fun b => (client_open b pid).1)) s).
Proof.
  intros G. assert (Eb : forall f, on_bo (on_base f) s = on_bo (on_base (fun _ => f (fences s))) s) by (intros f; by destruct s as [[]]). rewrite Eb. clear Eb.
  pose proof (client_open_cases (fences s) pid (Z.to_nat V3DA_MAX_CLIENTS) 0 ltac:(lia) ltac:(by vm_compute)) as Hc. unfold client_open. revert Hc. generalize (client_open_from (fences s) pid 0 (Z.to_nat V3DA_MAX_CLIENTS)). intros [[b' id]|] Hc.
  - destruct Hc as (i & n & Hi & Hu & Hb & Ef & Ew). pose proof (opened_spec F W s pid i n G Hi Hu Hb) as G1. eapply (okay_pass F W W _ b' G1 Ef); [|apply (proj1 G)]. eapply rep_eq; [exact Ew|apply (proj1 G)].
  - assert (Es : on_bo (on_base (fun _ => fences s)) s = s) by (by destruct s as [[]]). cbn [fst]. by rewrite Es.
Qed.
End close.
End V3daClose.
