(* ===== verification/V3daSubmit.v ===== *)
(** * Submission to the V3D render server

    A submission makes its jobs aside, takes sequence numbers, queues them and runs the scheduler.
    [making] relates the state in which it began with the one in which its jobs are made. *)

From S2P Require Import Prelude V3daSched V3daSchedCorrect V3daPool V3daBo V3daGpu V3daGpuFrame V3daJobs V3daChunks V3daQueues V3daDone V3daOrder V3daRun V3daTick V3daClose.

Module V3daSubmit.
Import V3da V3daPool V3daBo V3daGpu V3daGpuFrame V3daJobs V3daChunks V3daQueues V3daDone V3daOrder V3daRun V3daTick V3daClose.

Section submit.
Context `{K : Kernel} `{D : Device}.
Implicit Types s t : jsrv.

(** ** Jobs in the making *)

(** The client [c] makes the jobs [N]; its sequence numbers are [ns]. *)
Record making t s (c : Z) (N : gmap Z vjob) (ns : list Z) : Prop := {
  mg_jobs : jobs s = N ∪ jobs t;
  mg_disj : N ##ₘ jobs t;
  mg_rest : qs s = qs t /\ ov s = ov t /\ wd s = wd t /\ cf s = cf t;
  mg_ct : nbusy (ct s) = nbusy (ct t) /\ ever_reset (ct s) = ever_reset (ct t);
  mg_sub : hw_submitted (bo s) = hw_submitted (bo t);
  mg_fences : (slots (fences s), hw_completed (fences s), slot_gen (fences s), dead_flush (fences s), active (fences s)) =
    (slots (fences t), hw_completed (fences t), slot_gen (fences t), dead_flush (fences t), active (fences t));
  mg_waits : wview (fences s) = wview (fences t);
  mg_clients : cview <$> clients (fences s) = cview <$> alter (fun cl => set_next_seq cl ns) (Z.to_nat c) (clients (fences t))
}.

Lemma making_refl t c : making t t c ∅ (next_seq (client_at (fences t) c)).
Proof.
  split; try done; [by rewrite map_empty_union|apply map_disjoint_empty_l|]. f_equal. apply list_eq. intros k. destruct (decide (k = Z.to_nat c)) as [->|Hk]; [|by rewrite list_lookup_alter_ne].
  rewrite list_lookup_alter_eq. unfold client_at. rewrite list_lookup_total_alt. destruct (clients (fences t) !! Z.to_nat c) as [cl|]; [|done]. cbn. by destruct cl.
Qed.

Lemma making_job t s c N ns p j : making t s c N ns -> N !! p = Some j -> jobs s !! p = Some j.
Proof. intros H Hp. rewrite (mg_jobs _ _ _ _ _ H). by apply lookup_union_Some_l. Qed.
Lemma making_upd t s c N ns p j : making t s c N ns -> is_Some (N !! p) -> making t (on_jobs (fun _ => <[p := j]> (jobs s)) s) c (<[p := j]> N) ns.
Proof.
  intros [H1 H2 H3 H4 H5 H6 H7 H8] Hp. split; try done; [cbn; by rewrite H1, insert_union_l|]. apply map_disjoint_insert_l. split; [|done].
  destruct Hp as [k Hk]. by eapply map_disjoint_Some_l.
Qed.
Lemma making_free t s c N ns p : making t s c N ns -> is_Some (N !! p) -> making t (on_jobs (delete p) s) c (delete p N) ns.
Proof.
  intros [H1 H2 H3 H4 H5 H6 H7 H8] [k Hk]. split; try done; [|by apply map_disjoint_delete_l]. cbn. rewrite H1, delete_union. f_equal. apply delete_id. by eapply map_disjoint_Some_l.
Qed.
Lemma making_bo t s c N ns b : making t s c N ns -> bkeep (bo s) b -> making t (on_bo (fun _ => b) s) c N ns.
Proof. intros [H1 H2 H3 H4 H5 H6 H7 H8] [B1 B2]. assert (E : fences (on_bo (fun _ => b) s) = fences s) by exact B1. split; rewrite ?E; try done. cbn. congruence. Qed.
Lemma making_ct t s c N ns k : making t s c N ns -> nbusy k = nbusy (ct s) -> ever_reset k = ever_reset (ct s) -> making t (on_ct (fun _ => k) s) c N ns.
Proof. intros [H1 H2 H3 [H4 H4'] H5 H6 H7 H8] E1 E2. split; try done. cbn. split; congruence. Qed.
Lemma making_fences t s c N ns ns' b : making t s c N ns ->
  (slots b, hw_completed b, slot_gen b, dead_flush b, active b) = (slots (fences s), hw_completed (fences s), slot_gen (fences s), dead_flush (fences s), active (fences s)) ->
  wview b = wview (fences s) -> cview <$> clients b = cview <$> alter (fun cl => set_next_seq cl ns') (Z.to_nat c) (clients (fences s)) -> making t (on_bo (on_base (fun _ => b)) s) c N ns'.
Proof.
  intros [H1 H2 H3 H4 H5 H6 H7 H8] E1 E2 E3. split; try done; change (fences (on_bo (on_base (fun _ => b)) s)) with b; [congruence..|]. rewrite E3. apply list_eq. intros k.
  assert (E8 : (cview <$> clients (fences s)) !! k = (cview <$> alter (fun cl => set_next_seq cl ns) (Z.to_nat c) (clients (fences t))) !! k) by by rewrite H8. rewrite !list_lookup_fmap in *.
  destruct (decide (k = Z.to_nat c)) as [->|Hk]; [|by rewrite !list_lookup_alter_ne in * by done]. rewrite !list_lookup_alter_eq in *.
  destruct (clients (fences s) !! Z.to_nat c) as [x|], (clients (fences t) !! Z.to_nat c) as [y|]; try done. cbn in *. injection E8 as ? ? ? ?. unfold cview; cbn. congruence.
Qed.
Lemma making_new t s c N ns p j : making t s c N ns -> jobs s !! p = None -> making t (on_jobs (<[p := j]>) s) c (<[p := j]> N) ns.
Proof.
  intros [H1 H2 H3 H4 H5 H6 H7 H8] Hp. rewrite H1 in Hp. apply lookup_union_None in Hp as [Hp1 Hp2]. split; try done; [cbn; by rewrite H1, insert_union_l|]. by apply map_disjoint_insert_l.
Qed.

(** ** The jobs are made *)

Definition newborn t c (N : gmap Z vjob) : Prop := forall p j, N !! p = Some j -> is_queue (v_queue j) /\
  v_fence j = mk_fence c (v_queue j) (u32 (slot_gen (fences t) !!! Z.to_nat c)) (f_seqno (v_fence j)) /\ v_kick j = 0 /\ v_ovf j = -1 /\ v_error j = false /\ v_dep_error j = false.

Lemma making_at t s c N ns i : making t s c N ns -> shape t -> is_slot c -> is_slot i ->
  cview (client_at (fences s) i) = if decide (i = c) then cview (set_next_seq (client_at (fences t) c) ns) else cview (client_at (fences t) i).
Proof.
  intros H Sh Hc Hi. pose proof (f_equal (fun l => l !! Z.to_nat i) (mg_clients _ _ _ _ _ H)) as E. cbn beta in E. rewrite !list_lookup_fmap in E. pose proof (client_row t i Sh Hi) as Ei. unfold is_slot in *. case_decide as D0.
  - subst i. rewrite list_lookup_alter_eq, Ei in E. unfold client_at at 1. rewrite list_lookup_total_alt. destruct (clients (fences s) !! Z.to_nat c) as [x|]; [|done]. cbn in *. unfold cview in *. cbn in *. congruence.
  - rewrite list_lookup_alter_ne, Ei in E by lia. unfold client_at at 1. rewrite list_lookup_total_alt. destruct (clients (fences s) !! Z.to_nat i) as [x|]; [|done]. cbn in *. unfold cview in *. cbn in *. congruence.
Qed.

Lemma making_parts t s c N ns q i : making t s c N ns -> head_of s q i = head_of t q i /\ tail_of s q i = tail_of t q i /\ act s q = act t q.
Proof. intros H. destruct (mg_rest _ _ _ _ _ H) as (E & _). unfold head_of, tail_of, act, queue_at. by rewrite E. Qed.

Lemma making_shape t s c N ns : making t s c N ns -> zlen ns = 6 -> shape t -> shape s.
Proof.
  intros H Hn Sh. pose proof (mg_fences _ _ _ _ _ H) as E. injection E as E1 E2 E3 E4 E5. destruct (mg_rest _ _ _ _ _ H) as (Eq & _). pose proof (mg_clients _ _ _ _ _ H) as Ec. pose proof (mg_sub _ _ _ _ _ H) as Es.
  destruct Sh. split; rewrite ?Eq, ?E1, ?E2, ?E3, ?E4, ?E5, ?Es; try done.
  - assert (L := f_equal length Ec). rewrite !length_fmap, length_alter in L. lia.
  - intros x Hx. destruct (fmap_in _ _ _ x Ec Hx) as (y & [k Hk]%list_elem_of_lookup & E). injection E as _ _ _ ->. destruct (decide (k = Z.to_nat c)) as [->|Hne].
    + rewrite list_lookup_alter_eq in Hk. destruct (clients (fences t) !! Z.to_nat c) as [z|]; [|done]. cbn in Hk. by injection Hk as <-.
    + rewrite list_lookup_alter_ne in Hk by done. by eapply sh_seqs, list_elem_of_lookup_2.
Qed.

Lemma made_inv F t s c N ns X : inv F [] t -> is_slot c -> making t s c N ns -> zlen ns = 6 -> links N -> newborn t c N -> NoDup X -> (forall p, p ∈ X <-> is_Some (N !! p)) -> inv F X s.
Proof.
  intros H Hc Mk Hn (L0 & LR & LB) Nb Hnd HX. destruct H as [H1 H2 H3 H4 H5 H6 H7 H8 H9 H10 HK H11 H12]. pose proof (mg_fences _ _ _ _ _ Mk) as E. injection E as E1 E2 E3 E4 E5.
  assert (Ho : forall p j, jobs t !! p = Some j -> jobs s !! p = Some j) by (intros p j Ej; rewrite (mg_jobs _ _ _ _ _ Mk); apply lookup_union_Some_r; [apply Mk|done]).
  assert (Hx : forall p, p ∈ X -> jobs t !! p = None) by (intros p [j Hj]%HX; eapply map_disjoint_Some_l; [apply Mk|done]).
  assert (Hb : forall p j, jobs s !! p = Some j -> N !! p = Some j \/ jobs t !! p = Some j) by (intros p j; rewrite (mg_jobs _ _ _ _ _ Mk); rewrite lookup_union_Some by apply Mk; done).
  assert (Hp : forall q i, head_of s q i = head_of t q i /\ tail_of s q i = tail_of t q i /\ act s q = act t q) by (intros q i; by eapply making_parts). assert (Ha : forall q, act s q = act t q) by (intros q; apply (Hp q 0)).
  assert (Hin : forall q, is_queue q -> act t q <> 0 -> is_Some (jobs t !! act t q)) by (intros q Hq Hz; destruct (H5 q Hq) as [[? _]|(_ & j & Ej & _)]; [done|by exists j]).
  assert (B : forall q, busy s q = busy t q) by (intros q; unfold busy; by rewrite Ha).
  split.
  - by eapply making_shape.
  - intros q i Hq Hi. destruct (Hp q i) as (-> & -> & _), (H2 q i Hq Hi) as [Hs Ht]. split; [|done]. eapply seg_next; [|exact Hs]. intros x j _ Ej. exists j. by split; [apply Ho|].
  - intros q i p Hpq. destruct (H3 q i p Hpq) as (? & ? & j & Ej & ? & ?). split_and!; [done..|]. exists j. by split_and!; [apply Ho|..].
  - done.
  - intros q Hq. rewrite Ha, E5. destruct (H5 q Hq) as [?|(? & j & Ej & ? & ? & ?)]; [by left|right]. split; [done|]. exists j. by split_and!; [apply Ho|..].
  - split; [done|]. intros p Hpx. split_and!.
    + apply HX in Hpx as [j Hj]. exists j. by eapply making_job.
    + intros q i Hpq. destruct (H3 q i p Hpq) as (_ & _ & j & Ej & _). rewrite (Hx p Hpx) in Ej. done.
    + intros q Hq. rewrite Ha. intros Hap. assert (p <> 0) by (intros ->; apply HX in Hpx as [j Hj]; congruence). destruct (Hin q Hq ltac:(congruence)) as [j Ej]. rewrite Hap, (Hx p Hpx) in Ej. done.
  - intros p [j Hj]. destruct (Hb p j Hj) as [Hj'|Hj'].
    + split; [intros ->; congruence|]. left. apply HX. by exists j.
    + destruct (H7 p ltac:(by exists j)) as (? & [Hpx|[Hpx|(q & Hq & Hpx)]]); (split; [done|]); [by apply elem_of_nil in Hpx|by right; left|right; right]. exists q. by rewrite Ha.
  - intros p j Hj. rewrite E3. destruct (Hb p j Hj) as [Hj'|Hj']; [|by apply (H8 p)]. destruct (Nb p j Hj') as (? & Ef & _). rewrite Ef. cbn. split_and!; done.
  - intros p j Hj Hr. destruct (Hb p j Hj) as [Hj'|Hj']; [destruct (LR p j Hj' Hr) as (? & r & ? & ? & ?)|destruct (H9 p j Hj' Hr) as (? & r & ? & ? & ?)]; (split; [done|]); exists r; split_and!; try done; [by eapply making_job|by apply Ho].
  - intros p j Hj Hr. destruct (Hb p j Hj) as [Hj'|Hj']; [destruct (LB p j Hj' Hr) as (? & r & ? & ? & ?)|destruct (H10 p j Hj' Hr) as (? & r & ? & ? & ?)]; (split; [done|]); exists r; split_and!; try done; [by eapply making_job|by apply Ho].
  - intros p j Hj Hna. destruct (Hb p j Hj) as [Hj'|Hj']; [apply (Nb p j Hj')|]. apply (HK p j Hj'). intros q Hq. rewrite <- Ha. auto.
  - rewrite (proj1 (mg_ct _ _ _ _ _ Mk)), H11. by rewrite !B.
  - intros q Hq. rewrite (mg_sub _ _ _ _ _ Mk), E2, B. auto.
Qed.

Lemma made_mem t s c N ns : mem_ok t -> making t s c N ns -> newborn t c N -> mem_ok s.
Proof.
  intros [[L H] A] Mk Nb. destruct (mg_rest _ _ _ _ _ Mk) as (_ & Eo & Ew & _). split.
  - exists L. destruct H as [H1 H2 H3 H4 H7 H8]. split; rewrite ?Eo; try done. eapply owned_eq; [exact H1| |done]. intros [| | |p]; cbn; rewrite ?Eo; try done.
    unfold ovfs. rewrite (mg_jobs _ _ _ _ _ Mk), !lookup_fmap. destruct (N !! p) as [j|] eqn:Ej.
    + rewrite (lookup_union_Some_l N _ p j Ej). assert (jobs t !! p = None) as -> by (eapply map_disjoint_Some_l; [apply Mk|done]). cbn. by destruct (Nb p j Ej) as (_ & _ & _ & -> & _).
    + by rewrite lookup_union_r.
  - destruct A as [A1 A2]. split; [by rewrite Ew|]. by rewrite Ew, Eo.
Qed.

Lemma made_fine F W t s c N ns X : fine F [] W t -> is_slot c -> c_used (client_at (fences t) c) = true -> making t s c N ns -> zlen ns = 6 -> links N -> newborn t c N -> NoDup X -> (forall p, p ∈ X <-> is_Some (N !! p)) -> fine F X W s.
Proof.
  intros H Hc Hu Mk Hn Hl Nb Hnd HX. pose proof (mg_fences _ _ _ _ _ Mk) as E. injection E as E1 E2 E3 E4 E5. destruct H as [H1 H2 H3 H4 H5 H6]. split; try done.
  - by eapply made_inv.
  - by eapply made_mem.
  - intros i x Hx. pose proof (making_shape _ _ _ _ _ Mk Hn (in_shape _ _ _ H1)) as Sh; assert (Hi : is_slot (Z.of_nat i)) by (apply lookup_lt_Some in Hx; rewrite (sh_clients _ Sh) in Hx; unfold is_slot; lia).
    pose proof (making_at _ _ _ _ _ (Z.of_nat i) Mk (in_shape _ _ _ H1) Hc Hi) as Ev; unfold client_at at 1 in Ev; rewrite Nat2Z.id, list_lookup_total_alt, Hx in Ev; cbn in Ev.
    pose proof (H3 i _ ltac:(rewrite <- (Nat2Z.id i) at 1; by apply client_row, Hi; apply H1)) as Hold; destruct (decide (Z.of_nat i = c)) as [<-|Hne]; injection Ev as -> -> -> _; exact Hold.
  - intros i Hi. unfold slot_at. rewrite E1, E3. by apply H4.
  - eapply rep_eq; [apply Mk|done].
Qed.

Lemma made_actl F t s c N ns q i : inv F [] t -> making t s c N ns -> is_queue q -> actl s q i = actl t q i.
Proof.
  intros H Mk Hq. unfold actl. destruct (making_parts t s c N ns q i Mk) as (_ & _ & ->). destruct (act t q =? 0) eqn:Ez; [done|]. bsimp. destruct (in_act _ _ _ H q Hq) as [[? _]|(_ & j & Ej & _)]; [done|].
  assert (jobs s !! act t q = Some j) as -> by (rewrite (mg_jobs _ _ _ _ _ Mk); apply lookup_union_Some_r; [apply Mk|done]). by rewrite Ej.
Qed.

(** The new jobs of each queue carry the next sequence numbers of the client. *)
Lemma made_lines F W t s c N ns (new : Z -> list Z) : okay F W t -> is_slot c -> c_used (client_at (fences t) c) = true -> making t s c N ns -> newborn t c N ->
  (forall q, is_queue q -> seq_of s <$> new q = seqZ (arr_get (next_seq (client_at (fences t) c)) q + 1) (zlen (new q)) /\ arr_get ns q = arr_get (next_seq (client_at (fences t) c)) q + zlen (new q)) ->
  lines (phase_of s) (fun q i => rest F t q i ++ if decide (i = c) then new q else []) s.
Proof.
  intros [H HL] Hc Hu Mk Nb Hnew Hr. pose proof (fn_inv _ _ _ _ H) as HI. rewrite (proj2 (mg_ct _ _ _ _ _ Mk)) in Hr. destruct (HL Hr) as [He Hl]. pose proof (mg_fences _ _ _ _ _ Mk) as E. injection E as E1 E2 E3 E4 E5.
  assert (Ho : forall p, is_Some (jobs t !! p) -> seq_of s p = seq_of t p).
  { intros p [j Ej]. unfold seq_of. assert (jobs s !! p = Some j) as -> by (rewrite (mg_jobs _ _ _ _ _ Mk); apply lookup_union_Some_r; [apply Mk|done]). by rewrite Ej. }
  split.
  - intros p j Ej. rewrite (mg_jobs _ _ _ _ _ Mk), lookup_union_Some in Ej by apply Mk. destruct Ej as [Ej|Ej]; [by destruct (Nb p j Ej) as (_ & _ & _ & _ & ? & ?)|by apply (He p)].
  - intros q i Hq Hi. specialize (Hl q i Hq Hi). pose proof (making_at t s c N ns i Mk (in_shape _ _ _ HI) Hc Hi) as Ev.
    assert (Ed : done_of s q i = done_of t q i) by (unfold done_of, slot_at; by rewrite E1).
    assert (Es : seq_of s <$> rest F t q i = seq_of t <$> rest F t q i).
    { apply list_fmap_ext. intros k p Hp. apply Ho. apply list_elem_of_lookup_2 in Hp. unfold rest in Hp. apply elem_of_app in Hp as [Hp|Hp]; [|destruct (in_F _ _ _ HI q i p Hp) as (_ & _ & j & Ej & _); by exists j].
      unfold actl in Hp. destruct (act t q =? 0) eqn:Ez; [by apply elem_of_nil in Hp|]. bsimp. destruct (in_act _ _ _ HI q Hq) as [[? _]|(_ & j & Ej & _)]; [done|]. rewrite Ej in Hp. cbn in Hp. case_if; [apply list_elem_of_singleton in Hp as ->; by exists j|by apply elem_of_nil in Hp]. }
    unfold line_ok, phase_of in *. rewrite Ed, E4. destruct (decide (i = c)) as [->|Hne]; injection Ev as Ev1 _ _ Ev4; rewrite Ev1.
    + rewrite Hu in Hl |- *. destruct Hl as (H0 & Hs & Hn), (Hnew q Hq) as [Hs2 Hn2]. rewrite Ev4. cbn [next_seq set_next_seq]. assert (Hz : forall l l' : list Z, zlen (l ++ l') = zlen l + zlen l') by (intros; unfold zlen; rewrite length_app; lia). rewrite Hz.
      split_and!; [done| |lia]. rewrite fmap_app, Es, Hs, Hs2. rewrite seqZ_app by (unfold zlen; lia). f_equal. f_equal. lia.
    + rewrite app_nil_r, Es, Ev4. exact Hl.
Qed.

(** ** The jobs are queued *)

Lemma push_fine F X W s p j c : fine F (p :: X) W s -> jobs s !! p = Some j -> f_slot (v_fence j) = c -> c_used (client_at (fences s) c) = true ->
  wp (fifo_push (v_queue j) c p) s (fun s' _ => moved s s' /\ fine (upd_fifo F (v_queue j) c (F (v_queue j) c ++ [p])) X W s').
Proof.
  intros H Ej Es Hu. pose proof (fn_inv _ _ _ _ H) as HI. destruct (in_job _ _ _ HI p j Ej) as (Hq & _ & Hi & _). rewrite Es in Hi. eapply (push_spec F X s _ c p j); try done. intros s' Mv HI'. split; [done|].
  assert (Ef : fences s' = fences s) by (destruct Mv as (E & _); unfold fences; by rewrite E). destruct H as [_ H2 H3 H4 H5 H6]. split; rewrite ?Ef; try done; [by eapply moved_mem|].
  intros i x Hx. specialize (H3 i x Hx). destruct (c_used x) eqn:Eu; [done|]. intros q. unfold upd_fifo. rewrite decide_False; [done|]. intros [_ Ei]. unfold client_at in Hu. rewrite <- Ei, Nat2Z.id, list_lookup_total_alt, Hx in Hu. cbn in Hu. congruence.
Qed.
Lemma moved_phase s s' q i : moved s s' -> phase_of s' q i = phase_of s q i.
Proof. intros (E & _). unfold phase_of, fences. by rewrite E. Qed.
Lemma pushed_lines F' s s' (L : Z -> Z -> list Z) : moved s s' -> lines (phase_of s) L s -> (forall q i, is_queue q -> is_slot i -> L q i = actl s q i ++ F' q i) -> lines (phase_of s') (rest F' s') s'.
Proof.
  intros Mv HL E. eapply lines_op; [intros q i; by eapply moved_phase|]. eapply lines_ext; [|by eapply moved_lines]. intros q i Hq Hi. rewrite E by done. unfold rest. by rewrite (moved_actl s s').
Qed.

(** The scheduler runs, and the event thread is woken. *)
Lemma kicked_tuned s : tuned s (on_bo (on_base v3da_kick_event_thread) s).
Proof. split_and!; [split_and!; [by split_and!|done..]|by split_and!|done]. Qed.
Lemma run_spec {A} F W s (r : A) : okay F W s ->
  wp (_ ← v3da_sched_run; _ ← upd_fences v3da_kick_event_thread; mret r) s (fun s' r' => r' = r /\ exists F', okay F' W s' /\ shrunk F F' /\ settled s s').
Proof.
  intros G. apply wp_bind. eapply wp_mono; [by apply (sched_run_spec (phase_of s))|]. intros s1 [] (F1 & S1 & _). apply wp_bind, wp_modify, wp_ret. split; [done|]. exists F1. pose proof (kicked_tuned s1) as T. pose proof S1 as (G1 & Sh & St & _).
  pose proof (tuned_stepped _ F1 W s1 _ T ltac:(apply (mem_ok_eq s1); [done..|apply G1]) G1) as S2. split_and!; [|done|etransitivity; [exact St|apply T]]. eapply (okay_stepped (phase_of s)); [exact G|done|]. eapply stepped_trans; [exact S1|exact S2].
Qed.

(** ** Sequence numbers *)

Definition numbered (n : Z) (j : vjob) : vjob := put_v_fence (mk_fence (f_slot (v_fence j)) (f_queue (v_fence j)) (f_gen (v_fence j)) n) j.

Lemma making_seq t s c N ns : making t s c N ns -> shape t -> is_slot c -> next_seq (client_at (fences s) c) = ns.
Proof. intros H Sh Hc. pose proof (making_at t s c N ns c H Sh Hc Hc) as E. rewrite decide_True in E by done. by injection E. Qed.

Lemma take_spec t s c N ns p j (n := u64 (arr_get ns (v_queue j) + 1)) : making t s c N ns -> shape t -> is_slot c -> zlen ns = 6 -> is_queue (v_queue j) -> N !! p = Some j ->
  wp (take_seqno c p) s (fun s' _ => making t s' c (<[p := numbered n j]> N) (arr_set ns (v_queue j) n)).
Proof.
  intros H Sh Hc Hn Hq Ep. pose proof (making_job _ _ _ _ _ _ _ H Ep) as Ej. unfold take_seqno. apply wp_bind. eapply wp_job_at; [exact Ej|]. apply wp_bind, wp_modify. set (s1 := on_bo _ s).
  assert (H1 : making t s1 c N (arr_set ns (v_queue j) n)).
  { eapply (making_fences t s c N ns _ (upd_client (fences s) c _)); [exact H|done|done|]. cbn. f_equal. apply list_eq. intros k. destruct (decide (k = Z.to_nat c)) as [->|Hk]; [|by rewrite !list_lookup_alter_ne].
    rewrite !list_lookup_alter_eq. pose proof (making_seq _ _ _ _ _ H Sh Hc) as E. unfold client_at in E. rewrite list_lookup_total_alt in E. destruct (clients (fences s) !! Z.to_nat c) as [cl|]; [|done]. cbn in E |- *. unfold n. by rewrite E. }
  apply wp_bind, wp_get. rewrite (making_seq _ _ _ _ _ H1 Sh Hc). unfold is_queue in Hq. rewrite arr_get_set_eq by lia. eapply wp_upd_job; [by eapply making_job|]. eapply making_upd; [exact H1|by exists j].
Qed.

(** ** New jobs *)

Definition new_job t c q now g : vjob :=
  mk_vjob 0 q (c + 1) (mk_fence c q (u32 (slot_gen (fences t) !!! Z.to_nat c)) 0) g now 0 false [] 0 0 false [] (-1) 0 0 0 0 0 (replicate 11 0) 0 0 false.

(** [calloc] gives memory no job is in. *)
Lemma job_new_spec F W t s c N ns q now p : fine F [] W t -> is_slot c -> c_used (client_at (fences t) c) = true -> making t s c N ns -> is_queue q -> p <> 0 -> jobs s !! p = None ->
  wp (job_new c q now p) s (fun s' a => a = p /\ making t s' c (<[p := new_job t c q now (gseq (ct s'))]> N) ns /\ fences s' = fences s).
Proof.
  intros H Hc Hu Mk Hq Hp Ep. unfold job_new. rewrite (proj2 (Z.eqb_neq _ _) Hp). apply wp_bind, wp_modify. set (s1 := on_ct _ s). assert (M1 : making t s1 c N ns) by by apply (making_ct t s c N ns).
  apply wp_bind, wp_modify, wp_ret. split; [done|]. split; [|done]. pose proof (in_shape _ _ _ (fn_inv _ _ _ _ H)) as Sh. pose proof (making_at _ _ _ _ _ c M1 Sh Hc Hc) as Ev. rewrite decide_True in Ev by done. injection Ev as _ E2 E3 _.
  pose proof (fn_clients _ _ _ _ H _ _ (client_row t c Sh Hc)) as Ec. rewrite Hu in Ec. unfold is_slot in Hc. rewrite Z2Nat.id in Ec by lia. destruct Ec as [Ec1 Ec2]. pose proof (mg_fences _ _ _ _ _ M1) as E. injection E as _ _ E _ _.
  set (s2 := on_jobs _ s1). change (gseq (ct s2)) with (gseq (ct s1)). replace s2 with (on_jobs (<[p := new_job t c q now (gseq (ct s1))]>) s1); [by apply making_new|]. unfold s2, new_job.
  cbn [c_id c_slot set_next_seq] in E2, E3. rewrite E2, E3, Ec1, Ec2, E. unfold u16. unfold is_queue in Hq. rewrite !Z.mod_small by lia. done.
Qed.

(** ** A single job is queued *)

Definition next_of_client s c q : Z := arr_get (next_seq (client_at (fences s) c)) q.
(** No counter of sequence numbers wraps around. *)
Definition room s c : Prop := forall q, is_queue q -> 0 <= next_of_client s c q + 1 < 2 ^ 64.
Definition used_client s c : Prop := is_slot c /\ c_used (client_at (fences s) c) = true.

(** What the client gets: the next fence of the queue. *)
Definition issued s s' c q (f : fence) : Prop :=
  f = mk_fence c q (u32 (slot_gen (fences s) !!! Z.to_nat c)) (next_of_client s c q + 1) /\ next_of_client s' c q = next_of_client s c q + 1.

Lemma seqs_len F W t c : fine F [] W t -> is_slot c -> zlen (next_seq (client_at (fences t) c)) = 6.
Proof. intros H Hc. pose proof (in_shape _ _ _ (fn_inv _ _ _ _ H)) as Sh. apply (sh_seqs _ Sh). by eapply list_elem_of_lookup_2, client_row. Qed.

Lemma push_one F W t s c p j ns : okay F W t -> used_client t c -> p <> 0 -> newborn t c {[p := j]} -> v_render j = 0 -> v_bin j = 0 ->
  f_seqno (v_fence j) = next_of_client t c (v_queue j) + 1 -> ns = arr_set (next_seq (client_at (fences t) c)) (v_queue j) (next_of_client t c (v_queue j) + 1) -> making t s c {[p := j]} ns ->
  wp (fifo_push (v_queue j) c p) s (fun s' _ => moved s s' /\ okay (upd_fifo F (v_queue j) c (F (v_queue j) c ++ [p])) W s').
Proof.
  intros G [Hc Hu] Hp Nb Er Eb Es Ens Mk. pose proof (proj1 G) as H. pose proof (in_shape _ _ _ (fn_inv _ _ _ _ H)) as Sh. pose proof (seqs_len F W t c H Hc) as Hl. destruct (Nb p j ltac:(apply lookup_singleton_eq)) as (Hq & Ef & _).
  assert (Ln : links {[p := j]}) by (split_and!; [by rewrite lookup_singleton_ne|intros x k [<- <-]%lookup_singleton_Some; congruence..]).
  assert (Hz : zlen ns = 6) by (rewrite Ens; unfold zlen; rewrite length_arr_set; exact Hl).
  assert (Hf : fine F [p] W s). { eapply (made_fine F W t s c); try done; [apply NoDup_singleton|]. intros x. rewrite list_elem_of_singleton. split; [intros ->; rewrite lookup_singleton_eq; by eexists|intros [k [-> _]%lookup_singleton_Some]; done]. }
  assert (Ej : jobs s !! p = Some j) by (eapply making_job; [exact Mk|apply lookup_singleton_eq]).
  assert (HL := made_lines F W t s c _ ns (fun q => if decide (q = v_queue j) then [p] else []) G Hc Hu Mk Nb). pose proof (making_at t s c _ ns c Mk Sh Hc Hc) as Ev. rewrite decide_True in Ev by done. injection Ev as Eu _ _ _.
  eapply wp_mono; [apply (push_fine F [] W s p j c Hf Ej); [by rewrite Ef|by rewrite Eu]|]. intros s' [] [Mv Hf']. split; [done|]. split; [done|]. eapply (pushed_lines _ s s' _ Mv).
  - apply HL. intros q Hq'. unfold is_queue in *. rewrite Ens. case_decide as Eq.
    + subst q. change (zlen [p]) with 1. rewrite arr_get_set_eq by lia. split; [|done]. cbn. unfold seq_of. rewrite Ej. cbn. by rewrite Es.
    + rewrite arr_get_set_ne by lia. change (zlen []) with 0. split; [done|]. lia.
  - intros q i Hq' Hi. cbn beta. rewrite (made_actl F t s c _ ns q i (fn_inv _ _ _ _ H) Mk Hq'). unfold rest, upd_fifo. rewrite <- app_assoc. f_equal. destruct (decide (i = c)) as [->|Hne]; [destruct (decide (q = v_queue j)) as [->|Hne]|].
    + by rewrite decide_True.
    + rewrite decide_False by tauto. apply app_nil_r.
    + rewrite decide_False by tauto. apply app_nil_r.
Qed.

(** A CPU job that is made and numbered is queued. *)
Lemma cpu_spec F W t s c p j ns (n := next_of_client t c Q_CPU + 1) : okay F W t -> used_client t c -> p <> 0 -> newborn t c {[p := j]} -> v_queue j = Q_CPU -> v_render j = 0 -> v_bin j = 0 ->
  f_seqno (v_fence j) = n -> ns = arr_set (next_seq (client_at (fences t) c)) Q_CPU n -> making t s c {[p := j]} ns ->
  wp (push_cpu c p) s (fun s' f => (exists F', okay F' W s') /\ issued t s' c Q_CPU f).
Proof.
  intros G Uc Hp Nb Eq Er Eb Es Ens Mk. assert (Ej : jobs s !! p = Some j) by (eapply making_job; [exact Mk|apply lookup_singleton_eq]). pose proof Uc as [Hc Hu]. pose proof (proj1 G) as H. pose proof (in_shape _ _ _ (fn_inv _ _ _ _ H)) as Sh.
  unfold push_cpu. apply wp_bind. eapply wp_job_at; [exact Ej|]. apply wp_bind, wp_get. pose proof (making_at t s c _ ns c Mk Sh Hc Hc) as Ev. rewrite decide_True in Ev by done. injection Ev as _ _ Esl Ese. rewrite Esl. cbn [c_slot set_next_seq].
  pose proof (fn_clients _ _ _ _ H _ _ (client_row t c Sh Hc)) as Ec. rewrite Hu in Ec. rewrite (proj2 Ec), Z2Nat.id by (unfold is_slot in Hc; lia). rewrite <- Eq at 1. apply wp_bind. eapply wp_mono; [by apply (push_one F W t s c p j ns); try done; rewrite Eq|].
  intros s1 [] [Mv G1]. eapply wp_mono; [by apply run_spec|]. intros s2 f (-> & F2 & G2 & _ & (_ & _ & Ecl)). split; [by exists F2|]. destruct (Nb p j ltac:(apply lookup_singleton_eq)) as (_ & Ef & _). split; [by rewrite Ef, Eq, Es|].
  unfold next_of_client at 1, client_at. rewrite Ecl. destruct Mv as (Eb1 & _). unfold fences. rewrite Eb1. change (clients (base (bo s)) !!! Z.to_nat c) with (client_at (fences s) c). rewrite Ese. cbn [next_seq set_next_seq]. rewrite Ens. pose proof (seqs_len F W t c H Hc).
  by rewrite arr_get_set_eq by (unfold Q_CPU; lia).
Qed.

(** ** Operations with a single job *)

Lemma wp_clock F W s (Q : jsrv -> Z -> Prop) : okay F W s -> (forall t now, okay F W t -> fences t = fences s -> jobs t = jobs s -> bo t = set_kern (bo s) (kern (bo t)) /\ qs t = qs s -> Q t now) -> wp v3da_now_us s Q.
Proof.
  intros G HQ. unfold v3da_now_us, wp. destruct (k_now (kern (bo s))) as [now k]. eexists _, _. split; [done|]. set (t := on_bo _ s). assert (T : tuned s t) by (split_and!; [split_and!; [by split_and!|done..]|by split_and!|done]).
  apply HQ; try done. eapply (okay_stepped (phase_of s)); [exact G|done|]. eapply tuned_stepped; [exact T|apply (mem_ok_eq s); [done..|apply G]|exact G].
Qed.

Lemma next_numbered F W t c q : fine F [] W t -> used_client t c -> room t c -> is_queue q -> u64 (arr_get (next_seq (client_at (fences t) c)) q + 1) = next_of_client t c q + 1.
Proof. intros _ _ Hr Hq. specialize (Hr q Hq). unfold u64, next_of_client in *. by rewrite Z.mod_small. Qed.

(** A new CPU job gets its data and its number. *)
Lemma make_cpu F W t s c p now x g {B} (k : M B) Q : okay F W t -> used_client t c -> room t c -> making t s c {[p := new_job t c Q_CPU now x]} (next_seq (client_at (fences t) c)) ->
  (forall j, core (g j) = core j /\ v_ovf (g j) = v_ovf j /\ v_error (g j) = v_error j) ->
  (forall s j, newborn t c {[p := j]} -> v_queue j = Q_CPU -> v_render j = 0 -> v_bin j = 0 -> f_seqno (v_fence j) = next_of_client t c Q_CPU + 1 -> jobs s !! p = Some j ->
    making t s c {[p := j]} (arr_set (next_seq (client_at (fences t) c)) Q_CPU (next_of_client t c Q_CPU + 1)) -> wp k s Q) ->
  wp (_ ← upd_job p g; _ ← take_seqno c p; k) s Q.
Proof.
  intros G Uc Hr M1 Hg HQ. pose proof Uc as [Hc Hu]. pose proof (proj1 G) as H. set (j := new_job _ _ _ _ _) in M1.
  assert (HS : forall y : vjob, is_Some (({[p := y]} : gmap Z vjob) !! p)) by (intros y; rewrite lookup_singleton_eq; by eexists).
  apply wp_bind. eapply wp_upd_job; [eapply making_job; [exact M1|apply lookup_singleton_eq]|]. set (s2 := on_jobs _ s). assert (M2 := making_upd _ _ _ _ _ p (g j) M1 (HS j)). fold s2 in M2. rewrite insert_singleton_eq in M2.
  destruct (Hg j) as (Hcore & Ho & He). injection Hcore as C1 C2 C3 C4 C5 C6 C7. apply wp_bind. eapply wp_mono; [eapply (take_spec t s2 c _ _ p (g j) M2); [apply H|done|by eapply seqs_len|by rewrite C2|apply lookup_singleton_eq]|]. intros s3 [] M3. rewrite C2, insert_singleton_eq in M3. cbn [v_queue j new_job] in M3.
  rewrite (next_numbered F W t c Q_CPU H Uc Hr) in M3 by done. eapply (HQ s3 _); [..|exact M3].
  - intros x' k' [<- <-]%lookup_singleton_Some. cbn [numbered put_v_fence v_queue v_fence v_kick v_ovf v_error v_dep_error f_seqno]. rewrite C2, C3, C6, C7, Ho, He. done.
  - exact C2.
  - exact C4.
  - exact C5.
  - done.
  - eapply making_job; [exact M3|apply lookup_singleton_eq].
Qed.

Lemma issued_from t s s' c q f : fences t = fences s -> issued t s' c q f -> issued s s' c q f.
Proof. intros E. unfold issued, next_of_client. by rewrite E. Qed.

Lemma submit_nop_spec F W s c delay p : okay F W s -> used_client s c -> room s c -> (p <> 0 -> jobs s !! p = None) ->
  wp (v3da_submit_nop c delay p) s (fun s' r =>
    match r with
    | Err e => okay F W s' /\ (if 10000000 <? delay then e = EINVAL else e = ENOMEM /\ p = 0)
    | Ok f => delay <= 10000000 /\ (exists F', okay F' W s') /\ issued s s' c Q_CPU f
    end).
Proof.
  intros G Uc Hr Hp. unfold v3da_submit_nop. destruct (10000000 <? delay) eqn:Ed; [by apply wp_ret|]. bsimp. apply wp_bind. apply (wp_clock F W s _ G). intros t now Gt Ef Ej _. destruct (p =? 0) eqn:Ez; bsimp.
  { subst p. apply wp_bind. unfold job_new. cbn. apply wp_ret. cbn. by apply wp_ret. }
  assert (Uct : used_client t c) by (unfold used_client; by rewrite Ef). assert (Hrt : room t c) by (unfold room, next_of_client; by rewrite Ef).
  apply wp_bind. eapply wp_mono; [apply (job_new_spec F W t t c ∅ _ Q_CPU now p (proj1 Gt) (proj1 Uct) (proj2 Uct) (making_refl t c)); [done|done|rewrite Ej; by apply Hp]|]. intros s1 a (-> & M1 & _). rewrite (proj2 (Z.eqb_neq _ _) Ez). rewrite insert_empty in M1.
  eapply (make_cpu F W t s1 c p); [done..|exact M1|done|]. intros s2 j Nb E1 E2 E3 E4 E5 Mk. apply wp_bind. eapply wp_mono; [by eapply (cpu_spec F W t s2 c p j)|]. intros s3 f [G2 If]. apply wp_ret. split_and!; [done|done|by eapply issued_from].
Qed.

Lemma attach_fence_spec F W s c rq f p : okay F W s -> used_client s c -> room s c -> (p <> 0 -> jobs s !! p = None) ->
  wp (v3da_bo_attach_fence c rq f p) s (fun s' r =>
    match r with
    | Err _ => okay F W s'
    | Ok g => (g = no_fence /\ s' = s) \/ ((exists F', okay F' W s') /\ issued s s' c Q_CPU g)
    end).
Proof.
  intros G Uc Hr Hp. unfold v3da_bo_attach_fence. apply wp_bind, wp_get. case_if; [by apply wp_ret|]. destruct (v3da_bo_sync_targets _ _ _ _) as [[|x targets]|e]; [by apply wp_ret| |by apply wp_ret].
  case_if; [apply wp_ret; by left|]. destruct (attach_deps _ _ _) as [full dep]. case_if.
  { apply wp_bind, wp_modify, wp_ret. pose proof (ct_tuned s (put_g6_attach_busy (u32 (g6_attach_busy (ct s) + 1)) (ct s)) eq_refl eq_refl) as T. eapply (okay_stepped (phase_of s)); [exact G|done|]. eapply tuned_stepped; [exact T|apply (mem_ok_eq s); [done..|apply G]|exact G]. }
  apply wp_bind. apply (wp_clock F W s _ G). intros t now Gt Ef Ej _. destruct (p =? 0) eqn:Ez; bsimp. { subst p. apply wp_bind. unfold job_new. cbn. apply wp_ret. cbn. by apply wp_ret. }
  assert (Uct : used_client t c) by (unfold used_client; by rewrite Ef). assert (Hrt : room t c) by (unfold room, next_of_client; by rewrite Ef).
  apply wp_bind. eapply wp_mono; [apply (job_new_spec F W t t c ∅ _ Q_CPU now p (proj1 Gt) (proj1 Uct) (proj2 Uct) (making_refl t c)); [done|done|rewrite Ej; by apply Hp]|]. intros s1 a (-> & M1 & _). rewrite (proj2 (Z.eqb_neq _ _) Ez). rewrite insert_empty in M1.
  eapply (make_cpu F W t s1 c p); [done..|exact M1|done|]. intros s2 j Nb E1 E2 E3 E4 E5 Mk. apply wp_bind. eapply wp_job_at; [exact E5|]. apply wp_bind, wp_modify, wp_bind, wp_modify, wp_bind.
  eapply wp_mono; [eapply (cpu_spec F W t _ c p j); try done|].
  - eapply (making_ct t (on_bo (fun b => v3da_bo_mark_use b _ _ _) s2)); [|done..]. eapply (making_bo t s2 c _ _ (v3da_bo_mark_use (bo s2) _ _ _)); [exact Mk|apply bkeep_mark].
  - intros s3 g [G2 If]. apply wp_ret. right. split; [done|by eapply issued_from].
Qed.

(** ** The jobs of a submission *)

(** The first and the last job, which may be the same; of two, a bin and its render job. *)
Record batch t c (first last : Z) (N : gmap Z vjob) : Prop := {
  bt_dom : dom N = {[first; last]};
  bt_links : links N;
  bt_born : newborn t c N;
  bt_two j k : first <> last -> N !! first = Some j -> N !! last = Some k -> v_queue j = Q_BIN /\ v_queue k = Q_RENDER
}.
Definition seen (j : vjob) : Z * Z * Z * (Z * Z * Z) * Z * Z * bool * bool :=
  (v_queue j, v_render j, v_bin j, (f_slot (v_fence j), f_queue (v_fence j), f_gen (v_fence j)), v_kick j, v_ovf j, v_error j, v_dep_error j).

Lemma seen_job (N N' : gmap Z vjob) p j : seen <$> N' = seen <$> N -> N' !! p = Some j -> exists k, N !! p = Some k /\ seen j = seen k.
Proof. intros E Ej. assert (E' : (seen <$> N') !! p = (seen <$> N) !! p) by by rewrite E. rewrite !lookup_fmap, Ej in E'. destruct (N !! p) as [k|]; [|done]. exists k. split; [done|]. change (Some (seen j) = Some (seen k)) in E'. congruence. Qed.

Lemma batch_seen t c first last N N' : seen <$> N' = seen <$> N -> batch t c first last N -> batch t c first last N'.
Proof.
  intros E [H1 (L0 & LR & LB) H3 H4]. pose proof (eq_sym E) as E'. split.
  - rewrite <- H1, <- (dom_fmap_L seen N'), E. apply dom_fmap_L.
  - split_and!.
    + destruct (N' !! 0) as [j|] eqn:Ej; [|done]. destruct (seen_job _ _ _ _ E Ej) as (k & Ek & _). congruence.
    + intros p j Ej Hr. destruct (seen_job _ _ _ _ E Ej) as (k & Ek & S). injection S as S1 S2 _ _ _ _ _ _ _ _. destruct (LR p k Ek ltac:(congruence)) as (? & r & Er & ? & ?). split; [congruence|]. destruct (seen_job _ _ _ _ E' Er) as (r' & Er' & S').
      injection S' as S1' _ S3' _ _ _ _ _ _ _. exists r'. split_and!; congruence.
    + intros p j Ej Hr. destruct (seen_job _ _ _ _ E Ej) as (k & Ek & S). injection S as S1 _ S2 _ _ _ _ _ _ _. destruct (LB p k Ek ltac:(congruence)) as (? & r & Er & ? & ?). split; [congruence|]. destruct (seen_job _ _ _ _ E' Er) as (r' & Er' & S').
      injection S' as S1' S3' _ _ _ _ _ _ _ _. exists r'. split_and!; congruence.
  - intros p j Ej. destruct (seen_job _ _ _ _ E Ej) as (k & Ek & S). injection S as S1 S2 S3 S4 S5 S6 S7 S8 S9 S10. destruct (H3 p k Ek) as (? & Ef & ? & ? & ? & ?). rewrite Ef in S4, S5, S6. cbn in S4, S5, S6. destruct (v_fence j) as [a b d n]. cbn in *. split_and!; congruence.
  - intros j k Hne Ej Ek. destruct (seen_job _ _ _ _ E Ej) as (j' & Ej' & S), (seen_job _ _ _ _ E Ek) as (k' & Ek' & S'). injection S as S _ _ _ _ _ _ _ _ _. injection S' as S' _ _ _ _ _ _ _ _ _. destruct (H4 j' k' Hne Ej' Ek'). split; congruence.
Qed.
Lemma seen_insert (N : gmap Z vjob) p j j' : N !! p = Some j -> seen j' = seen j -> seen <$> <[p := j']> N = seen <$> N.
Proof. intros E Hs. rewrite fmap_insert, Hs. apply insert_id. by rewrite lookup_fmap, E. Qed.
Lemma batch_upd t c first last N p j j' : N !! p = Some j -> seen j' = seen j -> batch t c first last N -> batch t c first last (<[p := j']> N).
Proof. intros E Hs. apply batch_seen. by eapply seen_insert. Qed.
Lemma batch_in t c first last N p : batch t c first last N -> p = first \/ p = last -> is_Some (N !! p).
Proof. intros H Hp. apply elem_of_dom. by rewrite (bt_dom _ _ _ _ _ H), elem_of_union, !elem_of_singleton. Qed.

(** The state with such jobs in the making. *)
Definition batched t s c first last ns N : Prop := making t s c N ns /\ batch t c first last N.

Lemma wp_batch_upd {B} (k : () -> M B) t s c first last ns N p f Q : batched t s c first last ns N -> p = first \/ p = last -> (forall j, seen (f j) = seen j) ->
  (forall s' N', batched t s' c first last ns N' -> seen <$> N' = seen <$> N -> fences s' = fences s -> wp (k tt) s' Q) -> wp (mbind k (upd_job p f)) s Q.
Proof.
  intros [M1 B1] Hp Hf HQ. destruct (batch_in _ _ _ _ _ p B1 Hp) as [j Ej]. apply wp_bind. eapply wp_upd_job; [by eapply making_job|]. eapply (HQ _ (<[p := f j]> N)); [|by eapply seen_insert|done].
  split; [eapply making_upd; [exact M1|by exists j]|by eapply batch_upd].
Qed.

(** What the allocator may return. *)
Definition fresh_pair s (p1 p2 : Z) : Prop := (p1 <> 0 -> jobs s !! p1 = None) /\ (p2 <> 0 -> jobs s !! p2 = None /\ p2 <> p1).

Lemma free_nil s (Q : jsrv -> () -> Prop) : Q s tt -> wp (free_job 0) s Q.
Proof. intros H. unfold free_job. cbn. by apply wp_ret. Qed.
Lemma free_made t s c N ns p j (Q : jsrv -> () -> Prop) : making t s c N ns -> p <> 0 -> N !! p = Some j -> (forall s', making t s' c (delete p N) ns -> fences s' = fences s -> Q s' tt) -> wp (free_job p) s Q.
Proof. intros H Hp Ej HQ. eapply wp_free; [by eapply making_job|done|]. apply HQ; [|done]. eapply making_free; [exact H|by exists j]. Qed.

Lemma single_batch t c p j : p <> 0 -> newborn t c {[p := j]} -> v_render j = 0 -> v_bin j = 0 -> batch t c p p {[p := j]}.
Proof.
  intros Hp Nb Er Eb. split; [by rewrite dom_singleton_L, union_idemp_L| |done|done]. split_and!; [by rewrite lookup_singleton_ne|intros x k [<- <-]%lookup_singleton_Some; congruence..].
Qed.
Lemma new_born t c q now x : is_queue q -> forall p, newborn t c {[p := new_job t c q now x]}.
Proof. intros Hq p y k [<- <-]%lookup_singleton_Some. by split_and!. Qed.

Definition pair_ok (op : submit_op) (sb : submission) s (first last : Z) (N : gmap Z vjob) : Prop :=
  sb_bin sb = true /\ first <> last \/ sb_bin sb = false /\ first = last /\
    exists j, N !! first = Some j /\ v_queue j = match op with V3DA_OP_SUBMIT_CL => Q_RENDER | V3DA_OP_SUBMIT_TFU => Q_TFU | _ => Q_CSD end.

Lemma make_jobs_spec F W t s c op sb now p1 p2 ns : fine F [] W t -> used_client t c -> making t s c ∅ ns -> fences s = fences t -> fresh_pair t p1 p2 ->
  wp (make_jobs c op sb now p1 p2) s (fun s' r => fences s' = fences t /\
    match r with
    | None => making t s' c ∅ ns /\ (p1 = 0 \/ sb_bin sb = true /\ p2 = 0)
    | Some (first, last) => first = p1 /\ exists N, batched t s' c first last ns N /\ pair_ok op sb s' first last N
    end).
Proof.
  intros H [Hc Hu] M0 Ef [F1 F2]. unfold make_jobs. assert (Hj : forall p, jobs t !! p = None -> jobs s !! p = None) by (intros p Hp; rewrite (mg_jobs _ _ _ _ _ M0), map_empty_union; done). destruct (sb_bin sb) eqn:Eb.
  - destruct (decide (p1 = 0)) as [->|N1].
    { apply wp_bind. unfold job_new at 1. cbn. apply wp_ret. cbn. destruct (decide (p2 = 0)) as [->|N2].
      - apply wp_bind. unfold job_new. cbn. apply wp_ret. cbn. apply wp_bind, free_nil, wp_bind, free_nil, wp_ret. split; [done|]. split; [done|by left].
      - apply wp_bind. eapply wp_mono; [apply (job_new_spec F W t s c ∅ ns Q_RENDER now p2 H Hc Hu M0); [done|done|by apply Hj, F2]|]. intros s1 a (-> & M1 & E1). cbn [Z.eqb orb]. apply wp_bind, free_nil, wp_bind. eapply (free_made t s1 c); [exact M1|done|apply lookup_insert_eq|].
        intros s2 M2 E2. apply wp_ret. rewrite delete_insert_eq, delete_empty in M2. split; [congruence|]. split; [done|by left]. }
    apply wp_bind. eapply wp_mono; [apply (job_new_spec F W t s c ∅ ns Q_BIN now p1 H Hc Hu M0); [done|done|by apply Hj, F1]|]. intros s1 a (-> & M1 & E1). rewrite insert_empty in M1. destruct (decide (p2 = 0)) as [->|N2].
    { apply wp_bind. unfold job_new. cbn. apply wp_ret. rewrite (proj2 (Z.eqb_neq _ _) N1). cbn [orb Z.eqb]. apply wp_bind. eapply (free_made t s1 c); [exact M1|done|apply lookup_singleton_eq|]. intros s2 M2 E2. apply wp_bind, free_nil, wp_ret.
      rewrite delete_singleton_eq in M2. split; [congruence|]. split; [done|by right]. }
    destruct (F2 N2) as [F2' Hne]. apply wp_bind. eapply wp_mono; [apply (job_new_spec F W t s1 c _ ns Q_RENDER now p2 H Hc Hu M1); [done|done|]|].
    { rewrite (mg_jobs _ _ _ _ _ M1). apply lookup_union_None. by rewrite lookup_singleton_ne. }
    intros s2 a (-> & M2 & E2). rewrite (proj2 (Z.eqb_neq _ _) N1), (proj2 (Z.eqb_neq _ _) N2). cbn [orb]. set (j1 := new_job _ _ Q_BIN _ _) in M2. set (j2 := new_job _ _ Q_RENDER _ _) in M2.
    apply wp_bind. eapply (wp_upd_job p1 _ j1); [eapply making_job; [exact M2|by rewrite lookup_insert_ne, lookup_singleton_eq]|]. set (k1 := put_v_render p2 _).
    assert (M3 := making_upd _ _ _ _ _ p1 k1 M2 ltac:(rewrite lookup_insert_ne, lookup_singleton_eq by done; by eexists)). set (s3 := on_jobs _ s2) in *.
    apply wp_bind. eapply (wp_upd_job p2 _ j2); [eapply making_job; [exact M3|by rewrite lookup_insert_ne, lookup_insert_eq]|]. set (k2 := put_v_bin p1 _).
    assert (M4 := making_upd _ _ _ _ _ p2 k2 M3 ltac:(rewrite lookup_insert_ne, lookup_insert_eq by done; by eexists)). set (s4 := on_jobs _ s3) in *. apply wp_ret. split; [change (fences s4) with (fences s2); congruence|]. split; [done|].
    assert (EN : <[p2 := k2]> (<[p1 := k1]> (<[p2 := j2]> {[p1 := j1]})) = (<[p2 := k2]> {[p1 := k1]} : gmap Z vjob)).
    { apply map_eq. intros x. destruct (decide (x = p2)) as [->|Hx]; [by rewrite !lookup_insert_eq|]. rewrite !(lookup_insert_ne _ p2) by done. destruct (decide (x = p1)) as [->|Hx']; [by rewrite lookup_insert_eq, lookup_singleton_eq|]. rewrite lookup_insert_ne by done. rewrite lookup_insert_ne by done. by rewrite !lookup_singleton_ne. }
    rewrite EN in M4. eexists. split; [split; [exact M4|]|left; by split]. split.
    + rewrite dom_insert_L, dom_singleton_L. apply union_comm_L.
    + split_and!; [by rewrite lookup_insert_ne, lookup_singleton_ne|..]; intros x k [[<- <-]|[_ [<- <-]%lookup_singleton_Some]]%lookup_insert_Some; cbn; try done; intros _; (split; [done|]).
      * exists k2. by rewrite lookup_insert_eq.
      * exists k1. by rewrite lookup_insert_ne, lookup_singleton_eq.
    + intros x k [[<- <-]|[_ [<- <-]%lookup_singleton_Some]]%lookup_insert_Some; by split_and!.
    + intros j k _ Ej Ek. rewrite lookup_insert_ne, lookup_singleton_eq in Ej by done. rewrite lookup_insert_eq in Ek. injection Ej as <-. by injection Ek as <-.
  - set (q := match op with V3DA_OP_SUBMIT_CL => _ | _ => _ end). assert (Hq : is_queue q) by (unfold q; by destruct op). destruct (decide (p1 = 0)) as [->|N1].
    { apply wp_bind. unfold job_new. cbn. apply wp_ret. cbn. apply wp_ret. split; [done|]. split; [done|by left]. }
    apply wp_bind. eapply wp_mono; [apply (job_new_spec F W t s c ∅ ns q now p1 H Hc Hu M0); [done|done|by apply Hj, F1]|]. intros s1 a (-> & M1 & E1). rewrite insert_empty in M1. rewrite (proj2 (Z.eqb_neq _ _) N1).
    assert (B1 : batched t s1 c p1 p1 ns {[p1 := new_job t c q now (gseq (ct s1))]}) by (split; [done|]; by apply single_batch; [|apply new_born|..]).
    eapply (wp_batch_upd _ t s1 c p1 p1 ns _ p1 _ _ B1); [by left|done|]. intros s2 N2 B2 S2 E2. apply wp_ret. split; [congruence|]. split; [done|]. exists N2. split; [done|]. right. split_and!; [done..|].
    destruct (batch_in _ _ _ _ _ p1 (proj2 B2) ltac:(by left)) as [j Ej]. exists j. split; [done|]. destruct (seen_job _ _ _ _ S2 Ej) as (k & [_ <-]%lookup_singleton_Some & S). by injection S as ->.
Qed.

(** ** Dependencies *)

(** Only what the other jobs do not see has changed. *)
Definition rebatched t s c first last ns N : Prop := exists N', batched t s c first last ns N' /\ seen <$> N' = seen <$> N /\ fences s = fences t.

Lemma rebatched_upd t s c first last ns N p f : rebatched t s c first last ns N -> p = first \/ p = last -> (forall j, seen (f j) = seen j) -> wp (upd_job p f) s (fun s' _ => rebatched t s' c first last ns N).
Proof.
  intros (N1 & [M1 B1] & S1 & E1) Hp Hf. destruct (batch_in _ _ _ _ _ p B1 Hp) as [j Ej]. eapply wp_upd_job; [by eapply making_job|]. exists (<[p := f j]> N1). split_and!; [split; [eapply making_upd; [exact M1|by exists j]|by eapply batch_upd]|etransitivity; [by eapply seen_insert|done]|done].
Qed.
Lemma rebatched_job t s c first last ns N p : rebatched t s c first last ns N -> p = first \/ p = last -> exists j, jobs s !! p = Some j.
Proof. intros (N1 & [M1 B1] & _) Hp. destruct (batch_in _ _ _ _ _ p B1 Hp) as [j Ej]. exists j. by eapply making_job. Qed.

Lemma dep_of_spec t s c first last ns N x : rebatched t s c first last ns N -> has_sync (client_at (fences t) c) x = true -> wp (dep_of c first last x) s (fun s' _ => rebatched t s' c first last ns N).
Proof.
  intros R Hx. pose proof R as (_ & _ & _ & Ef). unfold dep_of. apply wp_bind, wp_get. rewrite Ef. unfold has_sync in Hx. apply bool_decide_eq_true in Hx as [o ->]. set (p := if has _ _ then last else first). assert (Hp : p = first \/ p = last) by (unfold p; case_if; auto).
  unfold add_dep. apply wp_bind, wp_get. destruct (so_state o); [by apply wp_ret| |by apply wp_ret]. destruct (rebatched_job _ _ _ _ _ _ _ p R Hp) as [j Ej]. apply wp_bind. eapply wp_job_at; [exact Ej|]. apply wp_when; intros _; [|done]. by apply rebatched_upd.
Qed.
Lemma deps_spec t s c first last ns N l : rebatched t s c first last ns N -> forallb (has_sync (client_at (fences t) c)) l = true -> wp (each (dep_of c first last) l) s (fun s' _ => rebatched t s' c first last ns N).
Proof.
  intros R Hl. apply (wp_each _ (fun s => rebatched t s c first last ns N)); [done|]. intros x s' Hx R'. apply dep_of_spec; [done|]. rewrite forallb_forall in Hl. apply Hl. by apply list_elem_of_In.
Qed.
Lemma implicit_spec t s c first last ns N l : rebatched t s c first last ns N -> wp (add_implicit c first l) s (fun s' _ => rebatched t s' c first last ns N).
Proof.
  intros R. unfold add_implicit. apply wp_when; intros _; [|done]. destruct (rebatched_job _ _ _ _ _ _ _ first R ltac:(by left)) as [j Ej]. apply wp_bind. eapply wp_job_at; [exact Ej|]. apply wp_bind, wp_get. destruct (v3da_bo_implicit_deps _ _ _ _ _) as [dropped dep].
  apply wp_bind. eapply wp_mono; [apply (rebatched_upd _ _ _ _ _ _ _ first (put_v_dep dep) R); [by left|done]|]. intros s1 [] (N1 & [M1 B1] & S1 & E1). apply wp_modify. exists N1. split_and!; [split; [|done]|done|done]. eapply (making_ct t s1); [exact M1|repeat case_if; done..].
Qed.

(** ** The numbers of a submission *)

Definition members (first last : Z) : list Z := if decide (first = last) then [first] else [first; last].
Definition news (N : gmap Z vjob) (first last q : Z) : list Z := filter (fun p => v_queue <$> N !! p = Some q) (members first last).
Record counted t c first last (N : gmap Z vjob) (ns : list Z) : Prop := {
  cn_len : zlen ns = 6;
  cn_seq p j : N !! p = Some j -> f_seqno (v_fence j) = next_of_client t c (v_queue j) + 1;
  cn_next q : is_queue q -> arr_get ns q = next_of_client t c q + zlen (news N first last q)
}.

Lemma seen_numbered n j : seen (numbered n j) = seen j.
Proof. done. Qed.

Lemma take_both F W t s c first last N : fine F [] W t -> used_client t c -> room t c -> rebatched t s c first last (next_seq (client_at (fences t) c)) N ->
  wp (_ ← take_seqno c first; when (negb (last =? first)) (take_seqno c last)) s (fun s' _ => exists N' ns, batched t s' c first last ns N' /\ counted t c first last N' ns /\ seen <$> N' = seen <$> N).
Proof.
  intros H Uc Hr (N1 & [M1 B1] & S1 & Ef). pose proof Uc as [Hc Hu]. pose proof (in_shape _ _ _ (fn_inv _ _ _ _ H)) as Sh. pose proof (seqs_len F W t c H Hc) as Hl. set (ns := next_seq _) in *.
  destruct (batch_in _ _ _ _ _ first B1 ltac:(by left)) as [j Ej]. destruct (bt_born _ _ _ _ _ B1 first j Ej) as (Hq & _). pose proof (next_numbered F W t c (v_queue j) H Uc Hr Hq) as En. fold ns in En.
  apply wp_bind. eapply wp_mono; [by eapply (take_spec t s c N1 ns first j M1 Sh Hc Hl Hq)|]. intros s1 [] M2. rewrite En in M2. set (n := next_of_client t c (v_queue j) + 1) in *. assert (B2 : batch t c first last (<[first := numbered n j]> N1)) by (by eapply batch_upd).
  assert (S2 : seen <$> <[first := numbered n j]> N1 = seen <$> N) by (etransitivity; [by eapply seen_insert|done]).
  apply wp_when; intros El; bsimp.
  - destruct (batch_in _ _ _ _ _ last B2 ltac:(by right)) as [k Ek]. rewrite lookup_insert_ne in Ek by done. destruct (bt_two _ _ _ _ _ B1 j k ltac:(done) Ej Ek) as [Qj Qk]. set (ns1 := arr_set ns (v_queue j) n) in *.
    assert (Hl1 : zlen ns1 = 6) by (unfold ns1, zlen; rewrite length_arr_set; exact Hl). assert (Hqk : is_queue (v_queue k)) by by rewrite Qk.
    assert (En1 : u64 (arr_get ns1 (v_queue k) + 1) = next_of_client t c (v_queue k) + 1) by (unfold ns1; rewrite arr_get_set_ne by (rewrite ?Qj, ?Qk; done); by apply (next_numbered F W t c (v_queue k))).
    eapply wp_mono; [eapply (take_spec t s1 c _ ns1 last k M2 Sh Hc Hl1 Hqk); by rewrite lookup_insert_ne|]. intros s2 [] M3. rewrite En1 in M3. eexists _, _. split_and!; [split; [exact M3|]| |].
    + eapply batch_upd; [by rewrite lookup_insert_ne|done|exact B2].
    + split.
      * unfold zlen. rewrite length_arr_set. exact Hl1.
      * intros p i [[<- <-]|[Hp [[<- <-]|[Hp' Ei]]%lookup_insert_Some]]%lookup_insert_Some; [done..|]. assert (Hd : p ∈ dom N1) by (apply elem_of_dom; by exists i). rewrite (bt_dom _ _ _ _ _ B1), elem_of_union, !elem_of_singleton in Hd. by destruct Hd.
      * intros q Hq'. unfold news, members. rewrite decide_False by done. rewrite !filter_cons, !lookup_insert_ne, lookup_insert_eq by done. rewrite filter_nil, lookup_insert_eq. cbn [fmap option_fmap option_map v_queue numbered put_v_fence].
        unfold ns1. rewrite Qj, Qk. unfold is_queue, Q_BIN, Q_RENDER in *. destruct (decide (Some 0 = Some q)) as [E0|N0]; [|destruct (decide (Some 1 = Some q)) as [E1|N1']].
        -- injection E0 as <-. rewrite decide_False by done. rewrite arr_get_set_ne, arr_get_set_eq by lia. unfold n. by rewrite Qj.
        -- injection E1 as <-. rewrite arr_get_set_eq by (unfold zlen in *; rewrite length_arr_set; lia). done.
        -- rewrite !arr_get_set_ne by (try lia; congruence). change (zlen []) with 0. unfold next_of_client, ns. lia.
    + etransitivity; [eapply seen_insert; [by rewrite lookup_insert_ne|done]|done].
  - subst last. eexists _, _. split_and!; [split; [exact M2|done]| |done]. split.
    + unfold zlen. rewrite length_arr_set. exact Hl.
    + intros p i [[<- <-]|[Hp Ei]]%lookup_insert_Some; [done|]. assert (Hd : p ∈ dom N1) by (apply elem_of_dom; by exists i). rewrite (bt_dom _ _ _ _ _ B1), elem_of_union, !elem_of_singleton in Hd. by destruct Hd.
    + intros q Hq'. unfold news, members. rewrite decide_True by done. rewrite filter_cons, filter_nil, lookup_insert_eq. cbn [fmap option_fmap option_map v_queue numbered put_v_fence]. unfold is_queue in *. destruct (decide (Some (v_queue j) = Some q)) as [[= <-]|N0].
      * rewrite arr_get_set_eq by lia. done.
      * rewrite arr_get_set_ne by (try lia; congruence). change (zlen []) with 0. unfold next_of_client, ns. lia.
Qed.
End submit.
End V3daSubmit.
