(* ===== verification/V3daRequest.v ===== *)
(** * The layout of a submission, and why one is refused

    An independent description of the data of a submit request ([v3da_submit] of [v3da_jobs.c]): a descriptor of 32-bit
    words, the handles of the buffers, then pairs of handle and flags for the syncobjs to wait for and the ones to
    signal; the conditions under which the request is refused, and with which error. [check_submit], which walks the
    data by offsets, implements it. *)

From S2P Require Import Prelude V3daSched V3daPool V3daBo V3daGpu V3daJobs.

Module V3daRequest.
Import V3da V3daPool V3daBo V3daGpu V3daJobs.

Fixpoint le_words (d : list Z) : list Z :=
  match d with
  | a :: b :: c :: e :: d => (a ||| (b <<< 8) ||| (c <<< 16) ||| (e <<< 24)) :: le_words d
  | _ => []
  end.
Fixpoint le_sems (ws : list Z) : list sem :=
  match ws with h :: f :: ws => mk_sem h f :: le_sems ws | _ => [] end.

(** The words of the descriptor of a control list, a texture job and a compute job. *)
Definition desc_words (op : submit_op) : option Z :=
  match op with V3DA_OP_SUBMIT_CL => Some 8 | V3DA_OP_SUBMIT_TFU => Some 11 | V3DA_OP_SUBMIT_CSD => Some 11 | V3DA_OP_OTHER => None end.

Definition part {A} (i n : Z) (l : list A) : list A := take (Z.to_nat n) (drop (Z.to_nat i) l).

(** The operation has a descriptor of [w] words, as the header says; the counts are within the limits, and the data is as
    long as they need. *)
Record sized (op : submit_op) (h : submit_hdr) (d : list Z) (w : Z) : Prop := {
  sz_desc : desc_words op = Some w;
  sz_size : h_desc_size h = 4 * w;
  sz_bos : h_nbo h <= 4096;
  sz_in : h_nin h <= 16;
  sz_out : h_nout h <= 16;
  sz_len : 4 * (w + h_nbo h + 2 * h_nin h + 2 * h_nout h) <= zlen d
}.

(** What a request of that size carries. A control list has a bin job unless its bin list (words 0 and 1) is empty. *)
Definition layout (op : submit_op) (h : submit_hdr) (d : list Z) (w : Z) : submission :=
  let ws := le_words d in
  mk_submission (part 0 w ws) (part w (h_nbo h) ws)
    (le_sems (part (w + h_nbo h) (2 * h_nin h) ws)) (le_sems (part (w + h_nbo h + 2 * h_nin h) (2 * h_nout h) ws))
    (match op with V3DA_OP_SUBMIT_CL => bool_decide (ws !! 0%nat <> ws !! 1%nat) | _ => false end).

Definition syncs (sb : submission) : list sem := sb_in sb ++ sb_out sb.

(** Why a request is refused: its sizes, a syncobj the client does not have, an empty render list (words 2 and 3). *)
Inductive fault (cl : client) (op : submit_op) (h : submit_hdr) : option (list Z) -> errno -> Prop :=
  | bad_size data : (forall d w, data = Some d -> ~ sized op h d w) -> fault cl op h data EINVAL
  | bad_sync d w x : sized op h d w -> x ∈ syncs (layout op h d w) -> v3da_syncobj_get cl (sem_handle x) = None -> fault cl op h (Some d) ENOENT
  | bad_render d w : sized op h d w -> (forall x, x ∈ syncs (layout op h d w) -> is_Some (v3da_syncobj_get cl (sem_handle x))) ->
      op = V3DA_OP_SUBMIT_CL -> le_words d !! 2%nat = le_words d !! 3%nat -> fault cl op h (Some d) EINVAL.

(** The counts are unsigned. *)
Definition hdr_ok (h : submit_hdr) : Prop := 0 <= h_nbo h /\ 0 <= h_nin h /\ 0 <= h_nout h.

(** ** The walk by offsets finds the same *)

Lemma le_words_lookup (i : nat) : forall d, (4 * i + 4 <= length d)%nat -> le_words d !! i = Some (word_at d (Z.of_nat i)).
Proof.
  induction i as [|i IH]; intros d Hd; (destruct d as [|a [|b [|c [|e d]]]]; [cbn in Hd; lia..|]); [done|]. cbn [le_words lookup list_lookup]. rewrite IH by (cbn in Hd; lia).
  f_equal. unfold word_at, arr_get. replace (Z.to_nat (4 * Z.of_nat (S i))) with (4 + Z.to_nat (4 * Z.of_nat i))%nat by lia.
  replace (Z.to_nat (4 * Z.of_nat (S i) + 1)) with (4 + Z.to_nat (4 * Z.of_nat i + 1))%nat by lia. replace (Z.to_nat (4 * Z.of_nat (S i) + 2)) with (4 + Z.to_nat (4 * Z.of_nat i + 2))%nat by lia.
  by replace (Z.to_nat (4 * Z.of_nat (S i) + 3)) with (4 + Z.to_nat (4 * Z.of_nat i + 3))%nat by lia.
Qed.

Lemma lookup_part {A} (i n : Z) (l : list A) (k : nat) : part i n l !! k = if decide (Z.of_nat k < n) then l !! (Z.to_nat i + k)%nat else None.
Proof. unfold part. case_decide; [by rewrite lookup_take_lt, lookup_drop by lia|]. apply lookup_take_ge. lia. Qed.

Lemma part_word d i n (k : nat) : 0 <= i -> 4 * (i + n) <= zlen d -> Z.of_nat k < n -> part i n (le_words d) !! k = Some (word_at d (i + Z.of_nat k)).
Proof.
  intros Hi Hd Hk. rewrite lookup_part, decide_True by done. rewrite le_words_lookup by (unfold zlen in Hd; lia). do 2 f_equal. lia.
Qed.

Lemma words_part d i n : 0 <= i -> 0 <= n -> 4 * (i + n) <= zlen d -> words_at d i n = part i n (le_words d).
Proof.
  intros Hi Hn Hd. unfold words_at. apply list_eq. intros k. rewrite list_lookup_fmap. destruct (decide (Z.of_nat k < n)) as [Hk|Hk].
  - by rewrite part_word, lookup_seqZ_lt by done.
  - rewrite lookup_part, decide_False, lookup_seqZ_ge by lia. done.
Qed.

Lemma le_sems_lookup (k : nat) : forall ws, le_sems ws !! k = (h ← ws !! (2 * k)%nat; f ← ws !! (2 * k + 1)%nat; Some (mk_sem h f)).
Proof.
  induction k as [|k IH]; intros ws; destruct ws as [|h [|f ws]]; try done. cbn [le_sems lookup list_lookup]. rewrite IH.
  by replace (2 * S k)%nat with (S (S (2 * k))) by lia.
Qed.

Lemma sems_part d i n : 0 <= i -> 0 <= n -> 4 * (i + 2 * n) <= zlen d -> sems_at d i n = le_sems (part i (2 * n) (le_words d)).
Proof.
  intros Hi Hn Hd. unfold sems_at. apply list_eq. intros k. rewrite list_lookup_fmap, le_sems_lookup. destruct (decide (Z.of_nat k < n)) as [Hk|Hk].
  - rewrite lookup_seqZ_lt by done. rewrite !part_word by lia. cbn. do 2 f_equal; f_equal; lia.
  - rewrite lookup_seqZ_ge by lia. by rewrite !lookup_part, !decide_False by lia.
Qed.

Lemma word_eq d (i j : nat) : (4 * i + 4 <= length d)%nat -> (4 * j + 4 <= length d)%nat -> le_words d !! i = le_words d !! j <-> word_at d (Z.of_nat i) = word_at d (Z.of_nat j).
Proof. intros Hi Hj. rewrite !le_words_lookup by done. split; [by intros [=]|by intros ->]. Qed.

Lemma want_words op w : want_desc op = Some w <-> exists w', desc_words op = Some w' /\ w = 4 * w'.
Proof. destruct op; cbn; (split; [intros H; simplify_eq; by eexists|intros (w' & H & ->); by simplify_eq]). Qed.

(** A request of the right size is what its layout says. *)
Lemma check_sized cl op h d w : hdr_ok h -> sized op h d w -> check_submit cl op h (Some d) =
  if negb (forallb (has_sync cl) (sb_in (layout op h d w))) then Err ENOENT else if negb (forallb (has_sync cl) (sb_out (layout op h d w))) then Err ENOENT
  else if match op with V3DA_OP_SUBMIT_CL => true | _ => false end && (word_at d 2 =? word_at d 3) then Err EINVAL else Ok (layout op h d w).
Proof.
  intros (H1 & H2 & H3) [Hw Hs Hb Hi Ho Hl]. assert (Hw0 : 8 <= w) by (destruct op; cbn in Hw; simplify_eq; lia). unfold check_submit. rewrite (proj2 (want_words op (4 * w))) by eauto.
  rewrite (proj2 (Z.eqb_eq _ _) Hs). cbn [negb]. unfold V3DA_SUBMIT_MAX_BOS, V3DA_SUBMIT_MAX_SEMS. rewrite !(proj2 (Z.ltb_ge _ _)) by lia. cbn [orb].
  replace (4 * w / 4) with w by divlia. cbv zeta. unfold layout. cbn [sb_in sb_out]. rewrite !sems_part, !words_part by lia. do 2 (case_if; [done|]).
  assert (Hd : forall i, 0 <= i < 4 -> arr_get (part 0 w (le_words d)) i = word_at d i).
  { intros i Hi'. unfold arr_get. erewrite list_lookup_total_correct; [done|]. rewrite part_word by lia. do 2 f_equal. lia. }
  unfold rcl_start, rcl_end, bcl_start, bcl_end. rewrite !Hd by lia. case_if; [done|]. do 2 f_equal. destruct op; try done. cbn [andb].
  assert (Hz : (16 <= length d)%nat) by (unfold zlen in Hl; lia). destruct (Z.eqb_spec (word_at d 0) (word_at d 1)) as [E|E]; cbn [negb]; symmetry.
  - apply bool_decide_eq_false. intros Hn. apply Hn. by apply word_eq; [lia..|].
  - apply bool_decide_eq_true. intros Hn. apply E. by apply word_eq in Hn; [|lia..].
Qed.

Lemma has_sync_spec cl x : has_sync cl x = true <-> is_Some (v3da_syncobj_get cl (sem_handle x)).
Proof. unfold has_sync. by rewrite bool_decide_eq_true. Qed.

Lemma syncs_known cl sb : forallb (has_sync cl) (sb_in sb) = true -> forallb (has_sync cl) (sb_out sb) = true <-> forall x, x ∈ syncs sb -> is_Some (v3da_syncobj_get cl (sem_handle x)).
Proof.
  intros Hi. rewrite forallb_forall in *. unfold syncs. split.
  - intros Ho x. rewrite elem_of_app, !list_elem_of_In. intros [Hx|Hx]; apply has_sync_spec; auto.
  - intros Ha x Hx. apply has_sync_spec, Ha. apply elem_of_app. right. by apply list_elem_of_In.
Qed.

Lemma sync_missing cl l : forallb (has_sync cl) l = false -> exists x, x ∈ l /\ v3da_syncobj_get cl (sem_handle x) = None.
Proof.
  intros E. induction l as [|y l IH]; [done|]. cbn in E. destruct (has_sync cl y) eqn:Ey; cbn in E.
  - destruct (IH E) as (x & Hx & Hn). exists x. split; [by right|done].
  - exists y. split; [by left|]. destruct (v3da_syncobj_get cl (sem_handle y)) eqn:En; [|done]. unfold has_sync in Ey. by rewrite En in Ey.
Qed.

Lemma sized_dec cl op h data : (exists d w, data = Some d /\ sized op h d w) \/ check_submit cl op h data = Err EINVAL /\ forall d w, data = Some d -> ~ sized op h d w.
Proof.
  unfold check_submit. destruct (want_desc op) as [want|] eqn:E.
  2: { right. split; [done|]. intros d w _ [Hw _ _ _ _ _]. assert (want_desc op = Some (4 * w)) by (apply want_words; eauto). congruence. }
  apply want_words in E as (w & Hw & ->). assert (Hu : forall d w', sized op h d w' -> w' = w) by (intros d w' [Hw' _ _ _ _ _]; congruence).
  destruct (h_desc_size h =? 4 * w) eqn:E1; cbn [negb]; bsimp; [|right; split; [done|]; intros d w' _ Hs; pose proof (Hu _ _ Hs); destruct Hs; by subst].
  unfold V3DA_SUBMIT_MAX_BOS, V3DA_SUBMIT_MAX_SEMS. destruct (4096 <? h_nbo h) eqn:E2; bsimp; [right; split; [done|]; intros d w' _ []; lia|].
  destruct ((16 <? h_nin h) || (16 <? h_nout h)) eqn:E3; [right; split; [done|]; intros d w' _ []; bsimp; lia|]. apply orb_false_iff in E3 as [E3 E4]. bsimp.
  destruct data as [d|]; [|right; by split]. destruct (zlen d <? 4 * w + h_nbo h * 4 + (h_nin h + h_nout h) * 8) eqn:E5; bsimp.
  - right. split; [done|]. intros d' w' [= <-] Hs. pose proof (Hu _ _ Hs). destruct Hs. subst. lia.
  - left. exists d, w. split; [done|]. split; try done. lia.
Qed.

(** The faults of a request of the right size. *)
Lemma sized_faults cl op h d w e : hdr_ok h -> sized op h d w -> fault cl op h (Some d) e ->
  e = ENOENT /\ (exists x, x ∈ syncs (layout op h d w) /\ v3da_syncobj_get cl (sem_handle x) = None) \/
  e = EINVAL /\ (forall x, x ∈ syncs (layout op h d w) -> is_Some (v3da_syncobj_get cl (sem_handle x))) /\ op = V3DA_OP_SUBMIT_CL /\ word_at d 2 = word_at d 3.
Proof.
  intros (H1 & H2 & H3) Hs Hf. assert (Hu : forall w', sized op h d w' -> w' = w) by (intros w' [Hw' _ _ _ _ _]; destruct Hs; congruence).
  inversion Hf as [? Hb|? w' x Hs' Hx Hn|? w' Hs' Ha Hop Hw]; subst; [by destruct (Hb d w)|left|right]; pose proof (Hu _ Hs'); subst w'; [eauto|].
  split_and!; auto. apply (word_eq d 2 3) in Hw; [done|destruct Hs as [? ? ? ? ? Hl]; injection sz_desc0 as <-; unfold zlen in Hl; lia..].
Qed.

(** The checks fail exactly when the request has a fault, and with its error; else it carries what its layout says. *)
Lemma check_submit_refused cl op h data : hdr_ok h ->
  match check_submit cl op h data with
  | Err e => fault cl op h data e /\ forall e', fault cl op h data e' -> e' = e
  | Ok sb => (exists d w, data = Some d /\ sized op h d w /\ sb = layout op h d w) /\ forall e, ~ fault cl op h data e
  end.
Proof.
  intros Hh. destruct (sized_dec cl op h data) as [(d & w & -> & Hs)|[-> Hn]].
  2: { split; [by constructor|]. intros e' Hf. inversion Hf; subst; [done|by edestruct Hn|done]. }
  rewrite (check_sized cl op h d w Hh Hs). destruct (forallb (has_sync cl) (sb_in (layout op h d w))) eqn:Ei; cbn [negb].
  2: { destruct (sync_missing _ _ Ei) as (x & Hx & Hg). split; [eapply bad_sync; [done|apply elem_of_app; by left|done]|]. intros e' [[-> _]|(_ & Ha & _)]%(sized_faults cl op h d w _ Hh Hs); [done|].
       destruct (Ha x) as [? ?]; [apply elem_of_app; by left|congruence]. }
  destruct (forallb (has_sync cl) (sb_out (layout op h d w))) eqn:Eo; cbn [negb].
  2: { destruct (sync_missing _ _ Eo) as (x & Hx & Hg). split; [eapply bad_sync; [done|apply elem_of_app; by right|done]|]. intros e' [[-> _]|(_ & Ha & _)]%(sized_faults cl op h d w _ Hh Hs); [done|].
       destruct (Ha x) as [? ?]; [apply elem_of_app; by right|congruence]. }
  pose proof (proj1 (syncs_known cl _ Ei) Eo) as Ha. destruct (match op with V3DA_OP_SUBMIT_CL => true | _ => false end && (word_at d 2 =? word_at d 3)) eqn:Er.
  - apply andb_true_iff in Er as [Eop Er]. bsimp. assert (op = V3DA_OP_SUBMIT_CL) as -> by (by destruct op). split.
    + eapply bad_render; [done..|]. apply (word_eq d 2 3); [destruct Hs as [Hw ? ? ? ? Hl]; injection Hw as <-; destruct Hh as (? & ? & ?); unfold zlen in Hl; lia..|done].
    + intros e' [(_ & x & Hx & Hg)|(-> & _)]%(sized_faults cl _ h d w _ Hh Hs); [|done]. destruct (Ha x Hx). congruence.
  - split; [by exists d, w|]. intros e' [(_ & x & Hx & Hg)|(_ & _ & -> & Hw)]%(sized_faults cl _ h d w _ Hh Hs); [destruct (Ha x Hx); congruence|]. cbn in Er. bsimp. done.
Qed.
End V3daRequest.
