(* ===== verification/V3daSubmitCl.v ===== *)
(** * Control lists, texture and compute jobs are submitted to the V3D render server

    [v3da_submit] from its checks to the run of the scheduler. *)

From S2P Require Import Prelude V3daSched V3daSchedCorrect V3daPool V3daBo V3daGpu V3daGpuFrame V3daJobs V3daChunks V3daQueues V3daDone V3daOrder V3daRun V3daTick V3daClose V3daSubmit.

Module V3daSubmitCl.
Import V3da V3daPool V3daBo V3daGpu V3daGpuFrame V3daJobs V3daChunks V3daQueues V3daDone V3daOrder V3daRun V3daTick V3daClose V3daSubmit.

Section submit.
Context `{K : Kernel} `{D : Device}.
Implicit Types s t : jsrv.

(** ** The jobs are queued *)

Lemma moved_trans s1 s2 s3 : moved s1 s2 -> moved s2 s3 -> moved s1 s3.
Proof.
  intros (A1 & A2 & A3 & A4 & A5 & A6 & A7 & A8) (B1 & B2 & B3 & B4 & B5 & B6 & B7 & B8). split_and!; try congruence. intros q Hq. destruct (A8 q Hq), (B8 q Hq). split; congruence.
Qed.

Lemma members_in first last p : p ∈ members first last <-> p = first \/ p = last.
Proof. unfold members. case_decide as E; rewrite !elem_of_cons, elem_of_nil; subst; tauto. Qed.
Lemma members_nodup first last : NoDup (members first last).
Proof. unfold members. case_decide as E; [apply NoDup_singleton|]. apply NoDup_cons. split; [by rewrite list_elem_of_singleton|apply NoDup_singleton]. Qed.

Lemma news_seqs t s c first last ns N q : batched t s c first last ns N -> counted t c first last N ns -> is_queue q ->
  seq_of s <$> news N first last q = seqZ (next_of_client t c q + 1) (zlen (news N first last q)).
Proof.
  intros [Mk B] [_ Hs _] Hq. unfold news, members. assert (Hone : forall a x : Z, seqZ a (zlen [x]) = [a]) by (intros a x; change (zlen [x]) with 1; by rewrite seqZ_cons). assert (Hseq : forall p j, N !! p = Some j -> seq_of s p = next_of_client t c (v_queue j) + 1) by (intros p j Ej; unfold seq_of; rewrite (making_job _ _ _ _ _ _ _ Mk Ej); by apply (Hs p)).
  destruct (batch_in _ _ _ _ _ first B ltac:(by left)) as [j Ej], (batch_in _ _ _ _ _ last B ltac:(by right)) as [k Ek]. case_decide as E.
  - rewrite filter_cons, filter_nil, Ej. cbn [fmap option_fmap option_map]. case_decide as Eq; [|done]. injection Eq as <-. rewrite Hone. exact (f_equal (fun x => [x]) (Hseq first j Ej)).
  - destruct (bt_two _ _ _ _ _ B j k E Ej Ek) as [Qj Qk]. rewrite !filter_cons, filter_nil, Ej, Ek. cbn [fmap option_fmap option_map]. rewrite Qj, Qk. unfold Q_BIN, Q_RENDER in *. destruct (decide (Some 0 = Some q)) as [E0|N0], (decide (Some 1 = Some q)) as [E1|N1]; [congruence|rewrite Hone|rewrite Hone|done].
    + refine (f_equal (fun x => [x]) (eq_trans (Hseq first j Ej) _)). congruence.
    + refine (f_equal (fun x => [x]) (eq_trans (Hseq last k Ek) _)). congruence.
Qed.

Lemma news_upd (F : Z -> Z -> list Z) N first last c j k q i : N !! first = Some j -> N !! last = Some k -> (first <> last -> v_queue j <> v_queue k) ->
  F q i ++ (if decide (i = c) then news N first last q else []) =
  (if decide (first = last) then upd_fifo F (v_queue j) c (F (v_queue j) c ++ [first]) q i
   else let F1 := upd_fifo F (v_queue j) c (F (v_queue j) c ++ [first]) in upd_fifo F1 (v_queue k) c (F1 (v_queue k) c ++ [last]) q i).
Proof.
  intros Ej Ek Hne. unfold news, members. destruct (decide (i = c)) as [->|Hc].
  - destruct (decide (first = last)) as [E|E].
    + rewrite filter_cons, filter_nil, Ej. cbn [fmap option_fmap option_map]. unfold upd_fifo. destruct (decide (q = v_queue j)) as [->|Hq]; [by rewrite !decide_True|]. rewrite !decide_False by (try tauto; congruence). apply app_nil_r.
    + specialize (Hne E). rewrite !filter_cons, filter_nil, Ej, Ek. cbn [fmap option_fmap option_map]. unfold upd_fifo. cbv zeta. destruct (decide (q = v_queue j)) as [->|Hq]; [|destruct (decide (q = v_queue k)) as [->|Hq']].
      * rewrite (decide_True (P := Some _ = Some _)) by done. rewrite (decide_False (P := Some (v_queue k) = _)) by congruence. rewrite (decide_False (P := v_queue j = v_queue k /\ _)) by tauto. by rewrite decide_True.
      * rewrite (decide_False (P := Some (v_queue j) = _)) by congruence. rewrite !(decide_True (P := _)) by done. rewrite decide_False by (intros [? _]; congruence). done.
      * rewrite !decide_False by (try tauto; congruence). apply app_nil_r.
  - rewrite app_nil_r. cbv zeta. unfold upd_fifo. case_decide; rewrite !decide_False by tauto; done.
Qed.

Lemma push_batch F W t s c first last ns N j k : okay F W t -> used_client t c -> batched t s c first last ns N -> counted t c first last N ns -> N !! first = Some j -> N !! last = Some k ->
  wp (_ ← fifo_push (v_queue j) c first; when (negb (last =? first)) (fifo_push (v_queue k) c last)) s (fun s' _ => moved s s' /\ exists F', okay F' W s').
Proof.
  intros G [Hc Hu] [Mk B] Cn Ej Ek. pose proof (proj1 G) as H. pose proof (fn_inv _ _ _ _ H) as HI. pose proof (in_shape _ _ _ HI) as Sh.
  assert (Hf : fine F (members first last) W s). { eapply (made_fine F W t s c N ns); try done; [apply Cn|apply B|apply B|apply members_nodup|]. intros x. by rewrite members_in, <- elem_of_dom, (bt_dom _ _ _ _ _ B), elem_of_union, !elem_of_singleton. }
  assert (HL := made_lines F W t s c N ns (news N first last) G Hc Hu Mk (bt_born _ _ _ _ _ B) ltac:(intros q Hq; split; [by eapply news_seqs|by apply Cn])).
  pose proof (making_at t s c _ ns c Mk Sh Hc Hc) as Ev. rewrite decide_True in Ev by done. injection Ev as Eu _ _ _. cbn [c_used set_next_seq] in Eu. rewrite Hu in Eu.
  assert (Hs : forall p x, N !! p = Some x -> jobs s !! p = Some x /\ f_slot (v_fence x) = c) by (intros p x Ex; split; [by eapply making_job|destruct (bt_born _ _ _ _ _ B p x Ex) as (_ & -> & _); done]).
  destruct (Hs first j Ej) as [Jf Sf], (Hs last k Ek) as [Jl Sl].
  assert (Hq : first <> last -> v_queue j <> v_queue k) by (intros Hne; destruct (bt_two _ _ _ _ _ B j k Hne Ej Ek) as [-> ->]; done).
  assert (EL : forall q i, is_queue q -> rest F t q i ++ (if decide (i = c) then news N first last q else []) = actl s q i ++ F q i ++ (if decide (i = c) then news N first last q else [])).
  { intros q i Hq'. rewrite (made_actl F t s c N ns q i HI Mk Hq'). unfold rest. by rewrite app_assoc. }
  unfold members in Hf. destruct (decide (first = last)) as [<-|Hne].
  - apply wp_bind. eapply wp_mono; [by apply (push_fine F [] W s first j c)|]. intros s1 [] [Mv H1]. rewrite Z.eqb_refl. apply wp_ret. split; [done|]. eexists. split; [exact H1|]. eapply (pushed_lines _ s s1 _ Mv HL).
    intros q i Hq' Hi. cbn beta. rewrite EL by done. f_equal. rewrite (news_upd F N first first c j j q i Ej Ej) by done. by rewrite decide_True.
  - apply wp_bind. eapply wp_mono; [by apply (push_fine F [last] W s first j c)|]. intros s1 [] [Mv H1]. rewrite (proj2 (Z.eqb_neq _ _)) by done. destruct (moved_job _ _ _ _ Mv Jl) as (k1 & Jl1 & Ek1).
    assert (Ek2 : v_queue k1 = v_queue k /\ v_fence k1 = v_fence k) by (unfold no_link, put_v_next in Ek1; injection Ek1; done). destruct Ek2 as [Ekq Ekf]. assert (Ef : fences s1 = fences s) by (destruct Mv as (E & _); unfold fences; by rewrite E).
    rewrite <- Ekq. cbn [negb]. eapply wp_mono; [apply (push_fine _ [] W s1 last k1 c H1 Jl1); [by rewrite Ekf|by rewrite Ef]|]. intros s2 [] [Mv2 H2]. pose proof (moved_trans _ _ _ Mv Mv2) as Mv3. split; [done|]. eexists. split; [exact H2|]. eapply (pushed_lines _ s s2 _ Mv3 HL).
    intros q i Hq' Hi. cbn beta. rewrite EL by done. f_equal. rewrite (news_upd F N first last c j k q i Ej Ek) by done. rewrite decide_False by done. by rewrite Ekq.
Qed.

(** ** The whole submission *)

Lemma making_sets t s c first last ns N f l : batched t s c first last ns N -> shape t -> is_slot c -> wp (each (set_out c f) l) s (fun s' _ => batched t s' c first last ns N).
Proof.
  intros Bt Sh Hc. apply (wp_each _ (fun s => batched t s c first last ns N)); [done|]. intros x s' _ [M1 B1]. apply wp_modify. split; [|done].
  eapply (making_fences t s' c N ns ns (upd_sync (fences s') c (sem_handle x) _) M1); [done|done|]. cbn. apply list_eq. intros k. rewrite !list_lookup_fmap. destruct (decide (k = Z.to_nat c)) as [->|Hk]; [|by rewrite !list_lookup_alter_ne].
  rewrite !list_lookup_alter_eq. pose proof (making_seq _ _ _ _ _ M1 Sh Hc) as E. unfold client_at in E. rewrite list_lookup_total_alt in E. destruct (clients (fences s') !! Z.to_nat c) as [cl|]; [|done]. cbn in E |- *. unfold cview; cbn. by rewrite E.
Qed.

(** The submission was refused: nothing was made. *)
Lemma undone F W t s c ns : okay F W t -> is_slot c -> c_used (client_at (fences t) c) = true -> fences s = fences t -> making t s c ∅ ns -> okay F W s.
Proof.
  intros G Hc Hu Ef Mk. pose proof (proj1 G) as H. assert (M' : making t s c ∅ (next_seq (client_at (fences t) c))) by (pose proof (making_refl t c) as []; destruct Mk; split; rewrite ?Ef; done).
  assert (Nb : newborn t c ∅) by (intros p j; by rewrite lookup_empty). assert (Ln : links ∅) by (split_and!; [done|intros p j; by rewrite lookup_empty..]).
  split.
  - eapply (made_fine F W t s c ∅); try done; [by eapply seqs_len|apply NoDup_nil_2|]. intros p. rewrite lookup_empty, elem_of_nil. split; [done|by intros []].
  - assert (HL := made_lines F W t s c ∅ _ (fun _ => []) G Hc Hu M' Nb ltac:(intros q Hq; split; [done|change (zlen []) with 0; lia])). eapply lines_ext; [|exact HL]. intros q i Hq Hi. cbn beta. unfold rest. rewrite (made_actl F t s c ∅ _ q i (fn_inv _ _ _ _ H) M' Hq).
    case_decide; by rewrite app_nil_r.
Qed.

Lemma news_one t c first last N p j : batch t c first last N -> p = first \/ p = last -> N !! p = Some j -> zlen (news N first last (v_queue j)) = 1.
Proof.
  intros B Hp Ej. unfold news, members. case_decide as E.
  - assert (p = first) as -> by (destruct Hp; congruence). rewrite filter_cons, filter_nil, Ej. cbn [fmap option_fmap option_map]. by rewrite decide_True.
  - destruct (batch_in _ _ _ _ _ first B ltac:(by left)) as [a Ea], (batch_in _ _ _ _ _ last B ltac:(by right)) as [b Eb]. destruct (bt_two _ _ _ _ _ B a b E Ea Eb) as [Qa Qb]. unfold Q_BIN, Q_RENDER in *.
    rewrite !filter_cons, filter_nil, Ea, Eb. cbn [fmap option_fmap option_map]. rewrite Qa, Qb. destruct Hp as [-> | ->]; [rewrite Ej in Ea; injection Ea as <-; rewrite Qa|rewrite Ej in Eb; injection Eb as <-; rewrite Qb]; reflexivity.
Qed.

(** The queues of the two fences that are answered. *)
Definition first_queue (op : submit_op) (sb : submission) : Z :=
  if sb_bin sb then Q_BIN else match op with V3DA_OP_SUBMIT_CL => Q_RENDER | V3DA_OP_SUBMIT_TFU => Q_TFU | _ => Q_CSD end.
Definition last_queue (op : submit_op) (sb : submission) : Z := if sb_bin sb then Q_RENDER else first_queue op sb.

(** The numbered jobs get their buffers and are queued. *)
Lemma queue_spec F W t s c op sb first last ns N0 N ff : okay F W t -> used_client t c -> batched t s c first last ns N -> counted t c first last N ns -> seen <$> N = seen <$> N0 -> pair_ok op sb ff first last N0 -> (forall j, N0 !! last = Some j -> sb_bin sb = true -> v_queue j = Q_RENDER) -> (forall j, N0 !! first = Some j -> sb_bin sb = true -> v_queue j = Q_BIN) ->
  wp (l ← job_at last;
      _ ← modify (on_bo (fun b => v3da_bo_mark_use b (sb_bos sb) (v_fence l) (v_gseq l)));
      _ ← each (set_out c (v_fence l)) (sb_out sb);
      f ← job_at first;
      slot ← get (fun s => c_slot (client_at (fences s) c));
      _ ← fifo_push (v_queue f) slot first;
      _ ← when (negb (last =? first)) (fifo_push (v_queue l) slot last);
      _ ← v3da_sched_run;
      _ ← upd_fences v3da_kick_event_thread;
      mret (Ok (v_fence f, v_fence l) : cres (fence * fence))) s
    (fun s' r => exists f l, r = Ok (f, l) /\ (exists F', okay F' W s') /\ issued t s' c (first_queue op sb) f /\ issued t s' c (last_queue op sb) l).
Proof.
  intros G Uc [Mk B] Cn S0 P0 Hl0 Hf0. pose proof Uc as [Hc Hu]. pose proof (proj1 G) as H. pose proof (in_shape _ _ _ (fn_inv _ _ _ _ H)) as Sh. destruct (batch_in _ _ _ _ _ first B ltac:(by left)) as [j Ej], (batch_in _ _ _ _ _ last B ltac:(by right)) as [k Ek].
  apply wp_bind. eapply wp_job_at; [by eapply making_job|]. apply wp_bind, wp_modify. set (s1 := on_bo _ s). assert (B1 : batched t s1 c first last ns N) by (split; [|done]; apply (making_bo t s c N ns _ Mk), bkeep_mark).
  apply wp_bind. eapply wp_mono; [by apply (making_sets t s1 c first last ns N _ _ B1)|]. intros s2 [] B2. apply wp_bind. eapply wp_job_at; [eapply making_job; [apply B2|exact Ej]|]. apply wp_bind, wp_get.
  pose proof (making_at t s2 c _ ns c (proj1 B2) Sh Hc Hc) as Ev. rewrite decide_True in Ev by done. injection Ev as _ _ Esl Ese. rewrite Esl. cbn [c_slot set_next_seq].
  pose proof (fn_clients _ _ _ _ H _ _ (client_row t c Sh Hc)) as Ec. rewrite Hu in Ec. rewrite (proj2 Ec), Z2Nat.id by (unfold is_slot in Hc; lia).
  apply wp_bind2. eapply wp_mono; [by apply (push_batch F W t s2 c first last ns N j k)|]. intros s3 [] (Mv & F3 & G3). eapply wp_mono; [by apply run_spec|]. intros s4 r (-> & F4 & G4 & _ & (_ & _ & Ecl)).
  assert (Hi : forall p x, p = first \/ p = last -> N !! p = Some x -> issued t s4 c (v_queue x) (v_fence x)).
  { intros p x Hp Ex. destruct (bt_born _ _ _ _ _ B p x Ex) as (Hq & Ef & _). split; [rewrite Ef; cbn; by rewrite (cn_seq _ _ _ _ _ _ Cn p x Ex)|].
    unfold next_of_client at 1, client_at. rewrite Ecl. destruct Mv as (Eb1 & _). unfold fences. rewrite Eb1. change (clients (base (bo s2)) !!! Z.to_nat c) with (client_at (fences s2) c). rewrite Ese. cbn [next_seq set_next_seq]. rewrite (cn_next _ _ _ _ _ _ Cn _ Hq). by rewrite (news_one t c first last N p x). }
  exists (v_fence j), (v_fence k). split_and!; [done|by exists F4|..].
  - replace (first_queue op sb) with (v_queue j); [apply (Hi first j); [by left|done]|]. destruct (seen_job _ _ _ _ S0 Ej) as (j0 & Ej0 & Sj). injection Sj as -> _ _ _ _ _ _ _ _ _. unfold first_queue. destruct P0 as [[Eb _]|(Eb & _ & y & Ey & Eq)]; rewrite Eb; [by apply Hf0|]. congruence.
  - replace (last_queue op sb) with (v_queue k); [apply (Hi last k); [by right|done]|]. destruct (seen_job _ _ _ _ S0 Ek) as (k0 & Ek0 & Sk). injection Sk as -> _ _ _ _ _ _ _ _ _. unfold last_queue, first_queue. destruct P0 as [[Eb _]|(Eb & <- & y & Ey & Eq)]; rewrite Eb; [by apply Hl0|]. congruence.
Qed.

Lemma check_ins cl op h data sb : check_submit cl op h data = Ok sb -> forallb (has_sync cl) (sb_in sb) = true.
Proof.
  unfold check_submit. destruct (want_desc op); [|done]. repeat (case_if; [done|]). destruct data as [d|]; [|done]. case_if; [done|]. destruct (negb (forallb _ (sems_at d _ (h_nin h)))) eqn:E; [done|]. repeat (case_if; [done|]). intros [= <-]. cbn. by apply negb_false_iff in E.
Qed.

Lemma making_none t s c ns : making t s c ∅ ns -> jobs s = jobs t.
Proof. intros H. by rewrite (mg_jobs _ _ _ _ _ H), map_empty_union. Qed.

(** The submission is refused: only counters and pins differ. *)
Lemma reject_spec {A} F W t s c e : okay F W t -> used_client t c -> fences s = fences t -> making t s c ∅ (next_seq (client_at (fences t) c)) ->
  wp (submit_reject e : M (cres A)) s (fun s' r => r = Err e /\ okay F W s' /\ fences s' = fences t /\ jobs s' = jobs t /\ qs s' = qs t).
Proof.
  intros G [Hc Hu] Ef Mk. unfold submit_reject. apply wp_bind, wp_modify, wp_ret. split_and!; [done| |done|exact (making_none t s c _ Mk)|exact (proj1 (mg_rest _ _ _ _ _ Mk))]. eapply (undone F W t _ c _ G Hc Hu); [done|]. by eapply (making_ct t s).
Qed.

Lemma note_cl_same op sb k : nbusy (note_cl op sb k) = nbusy k /\ ever_reset (note_cl op sb k) = ever_reset k.
Proof. unfold note_cl. destruct op; try done. destruct (bcl_end _ <? bcl_start _), (sb_bin sb); done. Qed.

Lemma pin_making t s c ns l : making t s c ∅ ns -> fences s = fences t ->
  wp (lift (fun s => let '(r, b) := v3da_bo_pin_for_job (bo s) l in Some (on_bo (fun _ => b) s, r))) s (fun s' _ => making t s' c ∅ ns /\ fences s' = fences t).
Proof.
  intros Mk Ef. unfold lift, wp. pose proof (bkeep_pin (bo s) l) as B. destruct (v3da_bo_pin_for_job (bo s) l) as [r b]. eexists _, _. split; [done|]. cbn in B. split; [by apply making_bo|]. rewrite <- Ef. apply B.
Qed.
Lemma unpin_making t s c N ns l : making t s c N ns -> making t (on_bo (fun b => v3da_bo_unpin b l) s) c N ns /\ fences (on_bo (fun b => v3da_bo_unpin b l) s) = fences s.
Proof. intros Mk. split; [apply (making_bo t s c N ns _ Mk), bkeep_unpin|apply (bkeep_unpin (bo s) l)]. Qed.

(** No memory for the handles: the jobs are freed. *)
Lemma free_batch t s c first last ns N : batched t s c first last ns N ->
  wp (_ ← when (negb (first =? last)) (free_job first); free_job last) s (fun s' _ => making t s' c ∅ ns /\ fences s' = fences s).
Proof.
  intros [Mk B]. destruct (batch_in _ _ _ _ _ first B ltac:(by left)) as [j Ej], (batch_in _ _ _ _ _ last B ltac:(by right)) as [k Ek]. destruct (bt_links _ _ _ _ _ B) as (N0 & _).
  assert (Hf : first <> 0) by (intros ->; congruence). assert (Hl : last <> 0) by (intros ->; congruence). pose proof (bt_dom _ _ _ _ _ B) as Hd. apply wp_bind, wp_when; intros E; bsimp.
  - eapply (free_made t s c N ns first j); [done..|]. intros s1 M1 E1. eapply (free_made t s1 c _ ns last k); [done|done|by rewrite lookup_delete_ne|]. intros s2 M2 E2.
    assert (EN : delete last (delete first N) = ∅) by (apply dom_empty_inv_L; rewrite !dom_delete_L, Hd; clear; set_solver). rewrite EN in M2. split; [done|congruence].
  - subst last. eapply (free_made t s c N ns first j); [done..|]. intros s1 M1 E1. assert (EN : delete first N = ∅) by (apply dom_empty_inv_L; rewrite !dom_delete_L, Hd; clear; set_solver). by rewrite EN in M1.
Qed.

Lemma pin_kern b k l : (v3da_bo_pin_for_job (set_kern b k) l).1 = (v3da_bo_pin_for_job b l).1.
Proof. unfold v3da_bo_pin_for_job. change (fun h => bool_decide (is_Some (v3da_bo_find (set_kern b k) h))) with (fun h => bool_decide (is_Some (v3da_bo_find b h))). by destruct (forallb _ l). Qed.

(** The pins of a submission are refused when it names a buffer that does not exist. *)
Lemma pinned_found b l : (v3da_bo_pin_for_job b l).1 = Ok tt -> forall h, h ∈ l -> is_Some (v3da_bo_find b h).
Proof.
  unfold v3da_bo_pin_for_job. case_if; [|done]. intros _ h Hh. rewrite forallb_forall in Heqb0. apply list_elem_of_In in Hh. by apply Heqb0, bool_decide_eq_true in Hh.
Qed.
Lemma unpinned_missing b l e : (v3da_bo_pin_for_job b l).1 = Err e -> e = ENOENT /\ exists h, h ∈ l /\ v3da_bo_find b h = None.
Proof.
  unfold v3da_bo_pin_for_job. case_if; [done|]. intros [= <-]. split; [done|]. rename Heqb0 into E. induction l as [|h l IH]; [done|]. cbn in E. destruct (v3da_bo_find b h) eqn:Eh.
  - rewrite bool_decide_true in E by eauto. destruct (IH E) as (x & Hx & Hn). exists x. split; [by right|done].
  - exists h. split; [by left|done].
Qed.

(** Refused, a submission leaves the jobs, the queues and the fences as they were; accepted, its fences are the next
    ones of their queues. *)
Definition submit_ok F W s c op h data p1 p2 malloc s' (r : cres (fence * fence)) : Prop :=
  match r with
  | Err e => okay F W s' /\ fences s' = fences s /\ jobs s' = jobs s /\ qs s' = qs s /\
      (check_submit (client_at (fences s) c) op h data = Err e \/
       exists sb, check_submit (client_at (fences s) c) op h data = Ok sb /\
         ((v3da_bo_pin_for_job (bo s) (sb_bos sb)).1 = Err e \/
          e = ENOMEM /\ (p1 = 0 \/ sb_bin sb = true /\ p2 = 0 \/ malloc = false /\ sb_bos sb <> [])))
  | Ok (f, l) => (exists F', okay F' W s') /\ exists sb, check_submit (client_at (fences s) c) op h data = Ok sb /\ (v3da_bo_pin_for_job (bo s) (sb_bos sb)).1 = Ok tt /\ issued s s' c (first_queue op sb) f /\ issued s s' c (last_queue op sb) l
  end.

Lemma submit_spec F W s c op h data p1 p2 malloc : okay F W s -> used_client s c -> room s c -> fresh_pair s p1 p2 ->
  wp (v3da_submit c op h data p1 p2 malloc) s (submit_ok F W s c op h data p1 p2 malloc).
Proof.
  intros G0 Uc0 Hr0 Fp0. unfold v3da_submit. apply wp_bind. apply (wp_clock F W s _ G0). intros t now G Ef Ej [Eb Eq]. assert (Uc : used_client t c) by (unfold used_client; by rewrite Ef). assert (Hr : room t c) by (unfold room, next_of_client; by rewrite Ef).
  assert (Fp : fresh_pair t p1 p2) by (unfold fresh_pair; by rewrite Ej). pose proof Uc as [Hc Hu]. pose proof (proj1 G) as H. apply wp_bind, wp_get. rewrite Ef. pose proof (making_refl t c) as Mk0.
  destruct (check_submit _ _ _ _) as [sb|e] eqn:Ec; [|eapply wp_mono; [by apply (reject_spec F W t t c)|]; intros s1 r (-> & G1 & E1 & J1 & Q1); split_and!; [done|congruence..|by left]].
  assert (Epin : (v3da_bo_pin_for_job (bo t) (sb_bos sb)).1 = (v3da_bo_pin_for_job (bo s) (sb_bos sb)).1) by (rewrite Eb; apply pin_kern).
  apply wp_bind. destruct (pin_making t t c _ (sb_bos sb) Mk0 eq_refl) as (s1 & r & Er & M1 & E1). exists s1, r. split; [done|]. assert (Er' : r = (v3da_bo_pin_for_job (bo t) (sb_bos sb)).1) by (unfold lift in Er; destruct (v3da_bo_pin_for_job (bo t) (sb_bos sb)); by injection Er). rewrite Epin in Er'.
  destruct r as [u|e]; [|eapply wp_mono; [by apply (reject_spec F W t s1 c)|]; intros s2 r (-> & G2 & E2 & J2 & Q2); split_and!; [done|congruence..|right; exists sb; split; [done|by left]]].
  apply wp_bind, wp_modify. destruct (note_cl_same op sb (ct s1)) as [C1 C2]. pose proof (making_ct t s1 c _ _ (note_cl op sb (ct s1)) M1 C1 C2) as M2. change (on_ct (fun _ => note_cl op sb (ct s1)) s1) with (on_ct (note_cl op sb) s1) in M2. set (s2 := on_ct _ s1) in *.
  apply wp_bind. eapply wp_mono; [by apply (make_jobs_spec F W t s2 c op sb now p1 p2 _ H Uc M2)|]. intros s3 [[first last]|] [E3 Hm].
  2: { destruct Hm as [M3 Hwhy]. apply wp_bind, wp_modify, wp_ret. destruct (unpin_making t s3 c _ _ (sb_bos sb) M3) as [M4 E4]. split_and!; [by eapply (undone F W t); [..|congruence|exact M4]|congruence|pose proof (making_none _ _ _ _ M4); congruence|pose proof (proj1 (mg_rest _ _ _ _ _ M4)); congruence|right]. exists sb. split; [done|]. right. split; [done|]. destruct Hwhy; auto. }
  destruct Hm as (-> & N & Bt & Pk). destruct (negb malloc && _) eqn:Em.
  { apply andb_true_iff in Em as [Em1 Em2]. apply negb_true_iff in Em1. apply bool_decide_eq_true in Em2. apply wp_bind2. eapply wp_mono; [by eapply (free_batch t s3 c p1 last _ N)|]. intros s4 [] [M4 E4]. apply wp_bind, wp_modify, wp_ret. destruct (unpin_making t s4 c _ _ (sb_bos sb) M4) as [M5 E5].
    split_and!; [by eapply (undone F W t); [..|congruence|exact M5]|congruence|pose proof (making_none _ _ _ _ M5); congruence|pose proof (proj1 (mg_rest _ _ _ _ _ M5)); congruence|right]. exists sb. split; [done|]. right. split; [done|]. auto. }
  assert (Hk : (forall j, N !! last = Some j -> sb_bin sb = true -> v_queue j = Q_RENDER) /\ (forall j, N !! p1 = Some j -> sb_bin sb = true -> v_queue j = Q_BIN)).
  { destruct (batch_in _ _ _ _ _ p1 (proj2 Bt) ltac:(by left)) as [j Ejf], (batch_in _ _ _ _ _ last (proj2 Bt) ltac:(by right)) as [k Ekl]. destruct Pk as [[_ Hne]|[? _]]; [|split; congruence]. destruct (bt_two _ _ _ _ _ (proj2 Bt) j k Hne Ejf Ekl). split; intros; congruence. }
  assert (R3 : rebatched t s3 c p1 last (next_seq (client_at (fences t) c)) N) by (exists N; by split_and!).
  apply wp_bind. eapply wp_mono; [apply (rebatched_upd t s3 c p1 last _ N last (put_v_bos (sb_bos sb)) R3); [by right|done]|]. intros s4 [] R4.
  apply wp_bind. eapply wp_mono; [apply (deps_spec t s4 c p1 last _ N (sb_in sb) R4); rewrite Ef; by eapply check_ins|]. intros s5 [] R5. apply wp_bind. eapply wp_mono; [by apply (implicit_spec t s5 c p1 last _ N (sb_bos sb) R5)|]. intros s6 [] R6.
  apply wp_bind2. eapply wp_mono; [apply (take_both F W t s6 c p1 last N H Uc Hr R6)|]. intros s7 [] (N7 & ns & B7 & Cn & S7). eapply wp_mono; [eapply (queue_spec F W t s7 c op sb p1 last ns N N7 s3 G Uc B7 Cn S7 Pk); apply Hk|].
  intros s8 r (f & l & -> & G8 & I1 & I2). split; [done|]. exists sb. split_and!; [done|by destruct u|by eapply issued_from..].
Qed.
End submit.
End V3daSubmitCl.
