(* ===== verification/V3daServe.v ===== *)
(** * Mode, flips, statistics and the event thread of the V3D render server

    The requests that submit nothing, and a round of the event thread, keep the invariants. *)

From S2P Require Import Prelude V3daSched V3daSchedCorrect V3daPool V3daBo V3daGpu V3daGpuFrame V3daJobs V3daChunks V3daQueues V3daDone V3daOrder V3daRun V3daTick V3daClose V3daSubmit V3daSubmitCl.

Module V3daServe.
Import V3da V3daPool V3daBo V3daGpu V3daGpuFrame V3daJobs V3daChunks V3daQueues V3daDone V3daOrder V3daRun V3daTick V3daClose V3daSubmit V3daSubmitCl.

(** ** Parking and answering *)

Lemma fview_answer fuel : forall b a r, v3da_waits_answer fuel b a = Some r -> fview r.1 = fview b.
Proof.
  induction fuel as [|fuel IH]; intros b a r; cbn [v3da_waits_answer]; [case_if; [by intros [= <-]|done]|]. case_if; [by intros [= <-]|]. intros H. destruct (heap b !! a) as [n|]; [|done]. cbn [mbind option_bind] in H.
  destruct (v3da_waits_answer fuel _ _) as [[b1 l]|] eqn:E; [|done]. cbn in H. injection H as <-. by apply IH in E.
Qed.
Lemma fview_park b c k m rid fs hs n al fsub tm p now r : v3da_wait_park b c k m rid fs hs n al fsub tm p now = Some r -> fview r.2 = fview b.
Proof.
  unfold v3da_wait_park. repeat (case_if; [by intros [= <-]|]). destruct (wait_eval b _) as [[[[]|e] x]|]; cbn [mbind option_bind]; [by intros [= <-]| |by intros [= <-]|done]. case_if; [by intros [= <-]|]. intros H.
  destruct (if negb (waits b =? 0) then _ else _) as [b2|] eqn:E; [|done]. cbn [mbind option_bind] in H. injection H as <-. cbn [snd]. assert (E2 : fview b2 = fview b) by (revert E; case_if; [intros E; apply fview_upd in E; exact E|by intros [= <-]]).
  unfold fview in *. cbn. rewrite cview_alter by done. congruence.
Qed.
Lemma fview_op b c m rid o t p now r : V3daCorrect.do_op b c m rid o t p now = Some r -> fview r.2 = fview b.
Proof.
  assert (Hraw : forall x r, raw_answer x = Some r -> exists y, x = Some y /\ r.2 = y.2) by (intros [[[rc m'] b']|] r' H; [|done]; cbn in H; injection H as <-; by eexists).
  destruct o as [f|last|n flags hs]; cbn [V3daCorrect.do_op].
  - unfold op_fence_wait. case_if; [by intros [= <-]|]. intros (y & E & ->)%Hraw. by apply fview_park in E.
  - unfold op_bo_wait. destruct last; [|by intros [= <-]]. intros (y & E & ->)%Hraw. by apply fview_park in E.
  - unfold op_syncobj_wait. repeat (case_if; [by intros [= <-]|]). intros (y & E & ->)%Hraw. by apply fview_park in E.
Qed.

Section serve.
Context `{K : Kernel} `{D : Device}.
Implicit Types s t : jsrv.

Lemma okay_tuned F W s s' : okay F W s -> tuned s s' -> mem_ok s' -> okay F W s'.
Proof. intros G T M. eapply (okay_stepped (phase_of s)); [exact G|done|]. by apply tuned_stepped. Qed.
Lemma okay_quiet F W s s' : okay F W s -> quiet s s' -> okay F W s'.
Proof. intros G Q. eapply okay_tuned; [exact G|apply calm_tuned, frame_calm, Q|]. eapply quiet_mem; [exact Q|apply G]. Qed.
Lemma okay_ct F W s c : okay F W s -> nbusy c = nbusy (ct s) -> ever_reset c = ever_reset (ct s) -> okay F W (on_ct (fun _ => c) s).
Proof. intros G E1 E2. eapply okay_tuned; [exact G|by apply ct_tuned|apply mem_ct, G]. Qed.
Lemma okay_shows F W s s' : okay F W s -> shows s s' -> okay F W s'.
Proof. intros G S. destruct (shows_tuned _ _ S) as [T M]. eapply okay_tuned; [exact G|done|apply M, G]. Qed.
Lemma okay_bo F W s b : okay F W s -> bkeep (bo s) b -> okay F W (on_bo (fun _ => b) s).
Proof.
  intros G [B1 B2]. set (s' := on_bo _ s). assert (Ef : fences s' = fences s) by exact B1. eapply okay_tuned; [exact G| |apply (mem_ok_eq s); [done..|apply G]].
  split_and!; [split_and!; [split_and!; [done|done|by rewrite Ef|exact B2|done|done]|by rewrite Ef|done]|split_and!; [done|done|by rewrite Ef]|unfold rview; by rewrite Ef].
Qed.
Lemma okay_cf F W s c : okay F W s -> okay F W (on_cf (fun _ => c) s).
Proof.
  intros [H HL]. set (s' := on_cf _ s). assert (V : same_view s s') by by split_and!. split; [eapply fine_view; [exact V|done|apply (mem_ok_eq s); [done..|apply H]|exact H]|].
  eapply lines_op; [by apply phase_view|]. eapply lines_ext; [|eapply lines_view; [exact V|done|exact HL]]. intros q i _ _. unfold rest. by rewrite (actl_view _ _ _ _ V).
Qed.
Lemma okay_run F W s : okay F W s -> wp v3da_sched_run s (fun s' _ => exists F', okay F' W s' /\ settled s s' /\ (ever_reset (ct s') = false -> sched_ok F s F' s')).
Proof.
  intros G. eapply wp_mono; [by apply (sched_run_spec (phase_of s))|]. intros s' [] (F' & S & C). exists F'. split_and!; [by eapply okay_stepped|apply S|done].
Qed.

(** ** The other requests *)

(** A request with an unknown knob is refused with the mode already changed. *)
Definition new_mode (rq : mode_req) (m : Z) : Z := if has (mq_set rq) V3DA_SET_MODE then mq_mode rq else m.
Lemma set_mode_spec F W s rq : okay F W s ->
  wp (v3da_set_mode rq) s (fun s' r =>
    match r with
    | Ok (m, _) => (exists F', okay F' W s') /\ m = new_mode rq (mode (cf s)) /\ mode (cf s') = m
    | Err e => e = EINVAL /\ okay F W s' /\ mode (cf s') =
        if has (mq_set rq) V3DA_SET_MODE && negb (mq_mode rq =? V3DA_MODE_SERIAL) && negb (mq_mode rq =? V3DA_MODE_PIPELINE) then mode (cf s) else new_mode rq (mode (cf s))
    end).
Proof.
  intros G. unfold v3da_set_mode. case_if; [by apply wp_ret|]. apply wp_bind. set (s1 := if has (mq_set rq) V3DA_SET_MODE then on_cf (put_mode (mq_mode rq)) s else s).
  assert (G1 : okay F W s1) by (unfold s1; case_if; [by apply (okay_cf F W s)|done]). eapply (wp_mono _ _ (fun s' _ => s' = s1)); [apply wp_when; intros E; unfold s1; rewrite E; [by apply wp_modify|done]|]. intros ? [] ->.
  assert (E1 : mode (cf s1) = new_mode rq (mode (cf s))) by (unfold s1, new_mode; by case_if). case_if; [apply wp_ret; by split_and!|]. apply wp_bind. set (s2 := if has (mq_set rq) V3DA_SET_KNOBS then on_cf (put_knobs (mq_knobs rq)) s1 else s1).
  assert (G2 : okay F W s2) by (unfold s2; case_if; [by apply (okay_cf F W s1)|done]). assert (E2 : mode (cf s2) = mode (cf s1)) by (unfold s2; by case_if).
  eapply (wp_mono _ _ (fun s' _ => s' = s2)); [apply wp_when; intros E; unfold s2; rewrite E; [by apply wp_modify|done]|]. intros ? [] ->.
  apply wp_bind. eapply (wp_mono _ _ (fun s' _ => (exists F', okay F' W s') /\ mode (cf s') = mode (cf s2))).
  { apply wp_when; intros _; [|split; [by exists F|done]]. eapply wp_mono; [by apply okay_run|]. intros s3 [] (F3 & G3 & (E3 & _) & _). split; [by exists F3|done]. }
  intros s3 [] [G3 E3]. apply wp_bind, wp_get, wp_ret. split_and!; [done|congruence|done].
Qed.

Lemma flip_spec F W s buf flags f : okay F W s ->
  wp (v3da_flip buf flags f) s (fun s' r => okay F W s' /\ match r with Ok (true, n, _) => 0 < n <= V3DA_MAX_FLIPS | Ok (false, n, _) => n = 0 | Err _ => s' = s end).
Proof.
  intros G. unfold v3da_flip. apply wp_bind, wp_get. case_if; [by apply wp_ret|]. apply wp_bind, wp_get. case_if; [by apply wp_ret|]. apply wp_bind, wp_get. set (x := mk_flip _ _ _).
  destruct (bool_decide (fq (pr s) = []) && due (fences s) x) eqn:E.
  - apply andb_true_iff in E as [E%bool_decide_eq_true _]. apply wp_bind. destruct (pan_spec (fl_buf x) s) as (s1 & [] & E1 & S1). exists s1, tt. split; [exact E1|]. apply wp_bind, wp_get, wp_ret. split; [by eapply okay_shows|].
    assert (Efq : fq (pr s1) = fq (pr s)). { revert E1. unfold pan, mbind, M_bind, get, lift. destruct (dev_prop _ _ _ _) as [rc d]. unfold when. destruct (negb (is_ok rc)); cbn; by intros [= <-]. } by rewrite Efq, E.
  - case_if; [by apply wp_ret|]. bsimp. apply wp_bind, wp_modify, wp_bind, wp_modify, wp_bind, wp_get, wp_ret. set (s1 := on_pr _ s). set (s2 := on_bo _ s1). assert (G1 : okay F W s1) by (eapply okay_shows; [exact G|]; exists (dev s); by eexists).
    split; [eapply okay_tuned; [exact G1|apply kicked_tuned|apply (mem_ok_eq s1); [done..|apply G1]]|]. cbn. unfold zlen in *. rewrite length_app. cbn. lia.
Qed.

Lemma qstats_spec F W s which reset : okay F W s -> wp (v3da_qstats which reset) s (fun s' _ => okay F W s').
Proof.
  intros G. unfold v3da_qstats. apply wp_bind. apply (wp_clock F W s _ G). intros t now Gt _ _ _. apply wp_bind, wp_acct. intros c E1 E2. assert (G1 : okay F W (on_ct (fun _ => c) t)) by by apply okay_ct.
  apply wp_bind, wp_get. case_if; [by apply wp_ret|]. apply wp_bind. apply wp_when; intros _; [|by apply wp_ret]. unfold qstats_reset. apply wp_bind. eapply (wp_mono _ _ (fun s' _ => okay F W s')).
  { apply (wp_each _ (fun s => okay F W s)); [done|]. intros q s2 _ G2. apply wp_modify. destruct (stats_tuned s2 clear_stats q ltac:(done)) as [T M]. eapply okay_tuned; [exact G2|done|apply M, G2]. }
  intros s2 [] G2. apply wp_bind, wp_acct. intros c2 E3 E4. apply wp_modify, wp_ret. by eapply (okay_ct F W s2).
Qed.

(** ** A round of the event thread *)

Lemma event_spec F W s : okay F W s -> wp event_round s (fun s' a => exists F' ws la, okay F' (ws, (a, la) :: W.2) s').
Proof.
  intros G. unfold event_round. apply wp_bind, wp_modify. set (s1 := on_bo _ s). assert (G1 : okay F W s1). { eapply okay_tuned; [exact G| |apply (mem_ok_eq s); [done..|apply G]]. split_and!; [split_and!; [by split_and!|done..]|by split_and!|done]. }
  apply wp_bind. apply (wp_clock F W s1 _ G1). intros s2 now G2 _ _ _. apply wp_bind, wp_modify. set (s3 := on_ct _ s2). assert (G3 : okay F W s3) by by apply (okay_ct F W s2).
  assert (Hhw : forall A B (m : M A) (k : A -> M B) s Q, HwOnly m -> okay F W s -> (forall s' a, okay F W s' -> wp (k a) s' Q) -> wp (mbind k m) s Q) by (intros A B m k s' Q Hm G' HQ; apply wp_bind, wp_hw; [done|]; intros s'' a Q'; apply HQ; by eapply okay_quiet).
  apply Hhw; [apply _|exact G3|]. intros s4 [] G4. apply Hhw; [apply _|exact G4|]. intros s5 [] G5. apply Hhw; [apply _|exact G5|]. intros s6 w0 G6. apply wp_bind. eapply (wp_mono _ _ (fun s' _ => okay F W s')).
  { apply wp_when; intros _; [|done]. apply Hhw; [apply _|exact G6|]. intros s7 [] G7. apply wp_modify. by apply (okay_cf F W s7). }
  intros s7 [] G7. apply wp_bind, wp_get. apply Hhw; [apply _|exact G7|]. intros s8 [] G8. apply Hhw; [apply _|exact G8|]. intros s9 core G9. apply Hhw; [apply _|exact G9|]. intros s10 hub G10.
  apply wp_bind. eapply wp_mono; [by apply (events_spec (phase_of s10) F W)|]. intros s11 [] S11. assert (G11 : okay F W s11) by by eapply okay_stepped.
  apply wp_bind. eapply wp_mono; [by apply (tick_spec (phase_of s11) F W)|]. intros s12 [] [S12 _]. assert (G12 : okay F W s12) by by eapply okay_stepped.
  apply wp_bind, wp_modify. set (s13 := on_bo _ s12). assert (G13 : okay F W s13) by (apply (okay_bo F W s12); [done|apply bkeep_poll]). apply wp_bind, wp_modify. set (s14 := on_bo _ s13). assert (G14 : okay F W s14) by (apply (okay_bo F W s13); [done|apply bkeep_tick]).
  apply wp_bind. eapply wp_mono; [by apply okay_run|]. intros s15 [] (F15 & G15 & _). eapply wp_mono; [by apply (scan_spec F15 W s15)|]. intros s16 a (ws & la & G16). by exists F15, ws, la.
Qed.
End serve.
End V3daServe.
