(* ===== verification/V3daBoot.v ===== *)
(** * The V3D render server starts

    The server serves only when the overflow pool could be mapped ([v3da_sched_init]): from then on the
    invariants hold. *)

From S2P Require Import Prelude Sectors V3daSched V3daSchedCorrect V3daPool V3daBo V3daGpu V3daGpuFrame V3daJobs V3daChunks V3daQueues V3daDone V3daOrder V3daRun V3daTick V3daClose.

Module V3daBoot.
Import V3da V3daPool V3daBo V3daGpu V3daGpuFrame V3daJobs V3daChunks V3daQueues V3daDone V3daOrder V3daRun V3daTick V3daClose.

Section boot.
Context `{K : Kernel} `{D : Device}.
Implicit Types s : jsrv.

(** The memory of the server before: static data, so zeroes, and the fence page. *)
Definition idle_queue : queue := mk_queue (replicate 60 0) (replicate 60 0) 0 0 0 0 0 0 0 0 0.
Record before s : Prop := {
  bf_jobs : jobs s = ∅;
  bf_queues : qs s = replicate 6 idle_queue;
  bf_words : ovf_stage_va (wd s) = 0 /\ ovf_consumed (wd s) = 0;
  bf_next : zlen (o_next (ov s)) = 512;
  bf_kib : 0 <= ovf_chunk_kib (cf s);
  bf_ct : nbusy (ct s) = 0;
  bf_hw : exists l, hwst (bo s) = hw_start l;
  bf_submitted : hw_submitted (bo s) = replicate 6 0;
  bf_slots : slots (fences s) = replicate 60 (mk_slot (replicate 6 0) 0 0);
  bf_completed : hw_completed (fences s) = replicate 6 0;
  bf_gens : slot_gen (fences s) = replicate 60 0;
  bf_flush : dead_flush (fences s) = replicate 60 (replicate 6 0);
  bf_active : active (fences s) = replicate 6 None;
  bf_clients : clients (fences s) = replicate 60 no_client;
  bf_waits : heap (fences s) = ∅ /\ waits (fences s) = 0 /\ nparked (fences s) = 0
}.

(** ** The chunks *)

Lemma chunk_size kib (chunk := let c := u32 (kib * 1024) in let c := if c <? 64 * 1024 then 64 * 1024 else c in let c := if OVF_POOL_BYTES <? c then OVF_POOL_BYTES else c in c &&& lnot_w 32 (PAGE_SIZE - 1)) :
  0 <= kib -> 64 * 1024 <= chunk <= OVF_POOL_BYTES /\ chunk mod 4096 = 0.
Proof.
  intros Hk. unfold chunk. cbv zeta. set (c := u32 (kib * 1024)). assert (0 <= c < 2 ^ 32) by (unfold c, u32; apply Z.mod_pos_bound; lia). set (c1 := if c <? _ then _ else c). assert (64 * 1024 <= c1 < 2 ^ 32) by (unfold c1; case_if; bsimp; lia).
  set (c2 := if OVF_POOL_BYTES <? c1 then _ else c1). assert (H2 : 64 * 1024 <= c2 <= OVF_POOL_BYTES) by (unfold c2; unfold OVF_POOL_BYTES in *; case_if; bsimp; lia). change (PAGE_SIZE - 1) with (2 ^ 12 - 1).
  rewrite Sectors.land_high by (unfold OVF_POOL_BYTES in *; lia). change (2 ^ 12) with 4096. pose proof (Z.div_mod c2 4096 ltac:(lia)) as Hd. pose proof (Z.mod_pos_bound c2 4096 ltac:(lia)). unfold OVF_POOL_BYTES in *.
  split; [|by rewrite Z.mod_mul]. split; [|lia]. assert (16 <= c2 / 4096) by (apply Z.div_le_lower_bound; lia). lia.
Qed.

Lemma build_chain l : forall s L, chain (o_next (ov s)) (free_head (ov s)) L -> NoDup (l ++ L) -> Forall (fun i => 0 <= i < zlen (o_next (ov s))) l ->
  wp (each (fun i => modify (on_ov (fun o => put_free_head i (put_o_next (arr_set (o_next o) i (free_head o)) o)))) l) s
    (fun s' _ => exists nx h, s' = on_ov (fun o => put_free_head h (put_o_next nx o)) s /\ chain nx h (reverse l ++ L) /\ zlen nx = zlen (o_next (ov s))).
Proof.
  induction l as [|i l IH]; intros s L Hc Hnd Hl; cbn [each].
  - apply wp_ret. exists (o_next (ov s)), (free_head (ov s)). split_and!; [by destruct s as [b ? ? ? ? ? []]|done|done].
  - apply wp_bind, wp_modify. set (s1 := on_ov _ s). apply Forall_cons in Hl as [Hi Hl]. apply NoDup_cons in Hnd as [Hil Hnd]. apply not_elem_of_app in Hil as [Hil HiL].
    assert (Z1 : zlen (o_next (ov s1)) = zlen (o_next (ov s))) by (cbn; unfold zlen; by rewrite length_arr_set).
    eapply wp_mono; [apply (IH s1 (i :: L))|].
    + cbn. split_and!; [done|lia|unfold zlen in *; rewrite length_arr_set; lia|]. rewrite arr_get_set_eq by lia. apply chain_set; [done|lia|done].
    + rewrite Permutation_app_comm. cbn. apply NoDup_cons. split; [by apply not_elem_of_app|]. by rewrite Permutation_app_comm.
    + by rewrite Z1.
    + intros s' [] (nx & h & -> & Hch & Hz). exists nx, h. split_and!; [done| |congruence]. by rewrite reverse_cons, <- app_assoc.
Qed.

Lemma pool_mapped (b : bsrv) m r b' l : hwst b = hw_start l -> 0 < m <= 8192 -> v3da_bo_map_ovf_pool b (m * 4096) = (r, b') -> bkeep b b' /\ forall va, r = Ok va -> va = GPUVA_BASE.
Proof.
  intros Eh Hm. unfold v3da_bo_map_ovf_pool. change PAGE_SIZE with 4096. rewrite Z.div_mul by lia. rewrite Eh. unfold v3da_hw_va_alloc. change (holes (hw_start l)) with (@nil (Z * Z)). cbn [find_hole].
  change (next_gpuva (hw_start l)) with GPUVA_BASE. case_if; [intros [= <- <-]; split; [done|done]|]. cbn [Z.eqb GPUVA_BASE]. destruct (k_mmap _ _ _) as [[cpu k]|]; intros [= <- <-]; (split; [done|]); intros va [= <-]; done.
Qed.

(** ** The whole state *)

Lemma replicate_get {A} `{!Inhabited A} n (x : A) (i : Z) : 0 <= i < Z.of_nat n -> replicate n x !!! Z.to_nat i = x.
Proof. intros Hi. apply lookup_total_replicate_2. lia. Qed.

Definition no_jobs : Z -> Z -> list Z := fun _ _ => [].

Lemma idle_okay s s' : before s -> fences s' = fences s -> hw_submitted (bo s') = hw_submitted (bo s) -> jobs s' = jobs s -> qs s' = qs s -> ct s' = ct s -> mem_ok s' -> okay no_jobs ([], []) s'.
Proof.
  intros B Ef Es Ej Eq Ec M. destruct B. assert (Sh : shape s').
  { split; rewrite ?Ef, ?Es, ?Eq, ?bf_queues0, ?bf_slots0, ?bf_completed0, ?bf_gens0, ?bf_flush0, ?bf_active0, ?bf_clients0, ?bf_submitted0; try done; intros x [-> _]%elem_of_replicate; done. }
  assert (Hq : forall q, is_queue q -> queue_at s' q = idle_queue) by (intros q Hq; unfold queue_at, is_queue in *; rewrite Eq, bf_queues0; by apply (replicate_get 6)).
  assert (Ha : forall q, is_queue q -> act s' q = 0) by (intros q Hq'; unfold act; by rewrite Hq).
  assert (Hget : forall i, is_slot i -> arr_get (replicate 60 0) i = 0) by (intros i Hi; unfold arr_get, is_slot in *; by apply (replicate_get 60)).
  assert (Hget6 : forall q, is_queue q -> arr_get (replicate 6 0) q = 0) by (intros q Hq'; unfold arr_get, is_queue in *; by apply (replicate_get 6)).
  assert (Hj : forall p j, jobs s' !! p = Some j -> False) by (intros p j; by rewrite Ej, bf_jobs0, lookup_empty).
  assert (Hrow : forall i, is_slot i -> slot_at (fences s') i = mk_slot (replicate 6 0) 0 0) by (intros i Hi; unfold slot_at, is_slot in *; rewrite Ef, bf_slots0; by apply (replicate_get 60)).
  assert (Hcl : forall i, is_slot i -> client_at (fences s') i = no_client) by (intros i Hi; unfold client_at, is_slot in *; rewrite Ef, bf_clients0; by apply (replicate_get 60)).
  split; [split|].
  - split; try done.
    + intros q i Hq' Hi. unfold head_of, tail_of. rewrite (Hq q Hq'). cbn [head tail idle_queue seg]. split; [by apply Hget|]. by apply Hget.
    + by intros q i p ?%elem_of_nil.
    + intros q i. apply NoDup_nil_2.
    + intros q Hq'. left. split; [by apply Ha|]. rewrite Ef, bf_active0. apply lookup_replicate_2. unfold is_queue in Hq'. lia.
    + split; [apply NoDup_nil_2|by intros p ?%elem_of_nil].
    + intros p [j Hp]. destruct (Hj p j Hp).
    + intros p j Hp. destruct (Hj p j Hp).
    + intros p j Hp. destruct (Hj p j Hp).
    + intros p j Hp. destruct (Hj p j Hp).
    + intros p j Hp. destruct (Hj p j Hp).
    + unfold busy. rewrite Ec, bf_ct0, !Ha by done. done.
    + intros q Hq'. unfold busy. rewrite Es, bf_submitted0, Ef, bf_completed0, Ha by done. rewrite Hget6 by done. done.
  - done.
  - intros i c Hc. rewrite Ef, bf_clients0 in Hc. by apply lookup_replicate in Hc as [-> _].
  - intros i Hi. rewrite Hrow by done. cbn [gen]. rewrite Ef, bf_gens0. unfold is_slot in Hi. by rewrite (replicate_get 60) by lia.
  - rewrite Ef. destruct bf_waits0 as (E1 & E2 & E3). unfold V3daCorrect.rep. rewrite E1, E2, E3. split_and!; [by exists 0|by constructor|apply NoDup_nil_2|apply dom_empty_L|done].
  - by constructor.
  - intros _. split; [intros p j Hp; destruct (Hj p j Hp)|]. intros q i Hq' Hi. unfold rest, actl. rewrite Ha by done. cbn [Z.eqb app no_jobs]. unfold line_ok, phase_of, done_of. rewrite Hrow, Hcl by done. cbn [c_used no_client completed]. rewrite Hget6 by done. rewrite Ef, bf_flush0. unfold is_slot in Hi. rewrite (replicate_get 60) by lia. by rewrite Hget6.
Qed.

Lemma init_spec s : before s -> wp v3da_ovf_init s (fun s' r => r = Ok tt -> okay no_jobs ([], []) s').
Proof.
  intros B. unfold v3da_ovf_init. apply wp_bind, wp_get. pose proof (chunk_size (ovf_chunk_kib (cf s)) (bf_kib _ B)) as Hsz. cbv zeta in Hsz. set (chunk := _ &&& _) in *. destruct Hsz as [Hsz Hal]. set (n := Z.min (OVF_POOL_BYTES / chunk) V3DA_MAX_CHUNKS).
  assert (Hn : 1 <= n <= 512 /\ n * chunk <= OVF_POOL_BYTES).
  { unfold n, V3DA_MAX_CHUNKS. assert (1 <= OVF_POOL_BYTES / chunk) by (apply Z.div_le_lower_bound; lia). pose proof (Z.mul_div_le OVF_POOL_BYTES chunk ltac:(lia)). split; [lia|]. nia. }
  apply wp_bind, wp_modify. set (s1 := on_ov _ s). apply wp_bind. unfold lift, wp at 1. assert (Hb : exists m, u32 (n * chunk) = m * 4096 /\ 0 < m <= 8192). { exists (n * (chunk / 4096)). unfold OVF_POOL_BYTES in *. pose proof (Z.div_mod chunk 4096 ltac:(lia)) as E. rewrite Hal in E. unfold u32. rewrite Z.mod_small by nia. split; nia. }
  destruct Hb as (m & -> & Hm). destruct (v3da_bo_map_ovf_pool (bo s1) (m * 4096)) as [r b'] eqn:Ep. destruct (bf_hw _ B) as [l El]. destruct (pool_mapped (bo s1) m r b' l El Hm Ep) as [[B1 B2] Hva]. eexists _, _. split; [done|].
  destruct r as [va|e]; [|apply wp_bind, wp_modify, wp_ret; done]. specialize (Hva va eq_refl) as ->. apply wp_bind, wp_modify. set (s2 := on_ov _ _). apply wp_bind. eapply wp_mono; [apply (build_chain _ s2 []); [done| |]|].
  - rewrite app_nil_r. rewrite reverse_Permutation. apply NoDup_seqZ.
  - apply Forall_forall. intros i Hi. apply elem_of_reverse, elem_of_seqZ in Hi. change (zlen (o_next (ov s2))) with (zlen (o_next (ov s))). rewrite (bf_next _ B). lia.
  - intros s3 [] (nx & h & -> & Hch & Hz). rewrite reverse_involutive, app_nil_r in Hch. apply wp_bind, wp_modify, wp_ret. intros _. set (s4 := on_ov _ _). assert (Ej : jobs s4 = ∅) by apply (bf_jobs _ B). eapply (idle_okay s); [done|exact B1|exact B2|done|done|done|].
    split; [exists (fun o => match o with Free => seqZ 0 n | _ => [] end)|].
    + split; cbn.
      * split.
        -- intros [| | |p]; [exact Hch|done|done|]. change (default (-1) (ovfs s4 !! p) = -1). unfold ovfs. by rewrite Ej, fmap_empty, lookup_empty.
        -- intros [| | |p]; try apply NoDup_nil_2. apply NoDup_seqZ.
        -- intros [| | |p] [| | |p'] i Hi Hi'; try done; try by apply elem_of_nil in Hi. all: by apply elem_of_nil in Hi'.
        -- intros i. rewrite <- (Z.add_0_l n) at 1. rewrite <- elem_of_seqZ. split; [intros Hi; by exists Free|]. intros [[| | |p] Hi]; [done|by apply elem_of_nil in Hi..].
      * rewrite Hz. change (zlen (o_next (ov s2))) with (zlen (o_next (ov s))). apply B.
      * lia.
      * unfold zlen. rewrite length_seqZ. lia.
      * lia.
      * unfold GPUVA_BASE, OVF_POOL_BYTES in *. split_and!; lia.
    + destruct (bf_words _ B) as [W1 W2]. split; [by left|]. cbn. unfold token. by rewrite W1, W2.
Qed.
End boot.
End V3daBoot.
