(* ===== verification/V3daSystem.v ===== *)
(** * Interleavings of the V3D render server

    Requests, rounds of the event thread, answers to parked waits, interrupts and the rest of the
    machine follow each other in any order. [V3daSystem.perform] gives the state after an operation;
    it is defined in every reachable state. *)

From S2P Require Import Prelude V3daSched V3daSchedCorrect V3daFences V3daPool V3daBo V3daGpu V3daGpuFrame V3daJobs V3daChunks V3daQueues V3daDone V3daOrder V3daRun V3daTick V3daClose V3daSubmit V3daRequest V3daSubmitCl V3daServe V3daBoot.

Module V3daSystem.
Import V3da V3daPool V3daBo V3daGpu V3daGpuFrame V3daJobs V3daChunks V3daQueues V3daDone V3daOrder V3daRun V3daTick V3daClose V3daSubmit V3daRequest V3daSubmitCl V3daServe V3daBoot.

Section system.
Context `{K : Kernel} `{D : Device}.
Implicit Types s : jsrv.

(** The server, and the lists of claimed waits whose answers are not sent yet. *)
Definition sys : Type := jsrv * list Z.

(** A request on a sync object. *)
Inductive sync_op := Create (flags : Z) | Destroy (h : Z) | Reset (h : Z) | Signal (h : Z) | Import (h : Z) (f : fence).
Definition sync_do (b : srv) (c : Z) (r : sync_op) : srv * cres Z :=
  match r with
  | Create flags => v3da_syncobj_create b c flags
  | Destroy h => v3da_syncobj_destroy b c h
  | Reset h => v3da_syncobj_reset b c h
  | Signal h => v3da_syncobj_signal b c h
  | Import h f => v3da_syncobj_import b c h f
  end.

Inductive op :=
  | Submit (c : Z) (o : submit_op) (h : submit_hdr) (data : option (list Z)) (p1 p2 : Z) (malloc : bool)
  | SubmitNop (c delay p : Z)
  | AttachFence (c : Z) (rq : sync_req) (f : fence) (p : Z)
  | Close (id : Z)
  | OpenClient (pid : Z)
  | Wait (c : Z) (m : msg) (rid : Z) (w : V3daCorrect.wait_op) (timeout_ms p now : Z)
  | Answer (k : nat)
  | Flip (buf flags : Z) (f : fence)
  | SetMode (rq : mode_req)
  | QStats (which reset : Z)
  | EventRound
  | Interrupts
  | Buffers (b : bsrv)                             (* a buffer request *)
  | SyncObject (c : Z) (r : sync_op)
  | World (d : device) (l : list nat) (k : kstate) (* the GPU, the interrupts to come, the kernel *).

Definition run {A} (m : M A) (x : sys) : option sys := '(s, _) ← m x.1; Some (s, x.2).
Definition hold (m : M Z) (x : sys) : option sys := '(s, a) ← m x.1; Some (s, a :: x.2).
Definition set_fences (b : srv) s : jsrv := on_bo (on_base (fun _ => b)) s.

Definition perform (o : op) (x : sys) : option sys :=
  match o with
  | Submit c o h data p1 p2 malloc => run (v3da_submit c o h data p1 p2 malloc) x
  | SubmitNop c delay p => run (v3da_submit_nop c delay p) x
  | AttachFence c rq f p => run (v3da_bo_attach_fence c rq f p) x
  | Close id => hold (client_close id) x
  | OpenClient pid => run (upd_fences (fun b => (client_open b pid).1)) x
  | Wait c m rid w t p now => '(_, _, b) ← V3daCorrect.do_op (fences x.1) c m rid w t p now; Some (set_fences b x.1, x.2)
  | Answer k => a ← x.2 !! k; '(b, _) ← v3da_waits_answer (wait_fuel x.1) (fences x.1) a; Some (set_fences b x.1, delete k x.2)
  | Flip buf flags f => run (v3da_flip buf flags f) x
  | SetMode rq => run (v3da_set_mode rq) x
  | QStats which reset => run (v3da_qstats which reset) x
  | EventRound => hold event_round x
  | Interrupts => run interrupts x
  | Buffers b => run (modify (on_bo (fun _ => b))) x
  | SyncObject c r => run (upd_fences (fun b => (sync_do b c r).1)) x
  | World d l k => Some (on_dev (fun _ => d) (on_irqs (fun _ => l) (on_bo (fun b => set_kern b k) x.1)), x.2)
  end.

(** What the callers of an operation provide: requests come from a connected client, the
    allocator returns no block in use, sequence numbers do not wrap, the rest of the server keeps
    off the state of the jobs. *)
Definition allowed (x : sys) (o : op) : Prop :=
  match o with
  | Submit c _ _ _ p1 p2 _ => used_client x.1 c /\ room x.1 c /\ fresh_pair x.1 p1 p2
  | SubmitNop c _ p | AttachFence c _ _ p => used_client x.1 c /\ room x.1 c /\ (p <> 0 -> jobs x.1 !! p = None)
  | Wait c _ _ w _ p _ => V3daCorrect.op_typed w /\ is_Some (client_get (fences x.1) (c + 1)) /\ (p = 0 \/ heap (fences x.1) !! p = None)
  | Answer k => (k < length x.2)%nat
  | Buffers b => bkeep (bo x.1) b
  | _ => True
  end.

Inductive reachable : sys -> Prop :=
  | reach_start s s' : before s -> v3da_ovf_init s = Some (s', Ok tt) -> reachable (s', [])
  | reach_step x o y : reachable x -> allowed x o -> perform o x = Some y -> reachable y.

(** ** The invariant *)

Definition sys_ok (x : sys) : Prop := exists F ws outs, okay F (ws, outs) x.1 /\ x.2 = outs.*1.

Lemma sys_run_ok {A} (m : M A) x (Q : jsrv -> A -> Prop) : wp m x.1 Q -> exists y a, run m x = Some y /\ m x.1 = Some (y.1, a) /\ Q y.1 a /\ y.2 = x.2.
Proof. intros (s & a & E & HQ). exists (s, x.2), a. unfold run. by rewrite E. Qed.
Lemma hold_ok (m : M Z) x (Q : jsrv -> Z -> Prop) : wp m x.1 Q -> exists y a, hold m x = Some y /\ Q y.1 a /\ y.2 = a :: x.2.
Proof. intros (s & a & E & HQ). exists (s, a :: x.2), a. unfold hold. by rewrite E. Qed.

Lemma perm_pop {A} (l : list A) k a : l !! k = Some a -> a :: delete k l ≡ₚ l.
Proof. intros H. symmetry. by apply delete_Permutation. Qed.

Lemma answer_spec F ws outs s k a : okay F (ws, outs) s -> outs.*1 !! k = Some a ->
  exists b l, v3da_waits_answer (wait_fuel s) (fences s) a = Some (b, l) /\ okay F (ws, delete k outs) (set_fences b s).
Proof.
  intros G Hk. pose proof (proj1 G) as H. rewrite list_lookup_fmap in Hk. destruct (outs !! k) as [[a' la]|] eqn:Ek; [|done]. cbn in Hk. injection Hk as ->.
  pose proof (V3daCorrect.rep_perm _ _ _ _ (Permutation_sym (perm_pop _ _ _ Ek)) (fn_waits _ _ _ _ H)) as Hr. destruct (V3daCorrect.waits_answer_rep ws la (wait_fuel s) (fences s) a (delete k outs) Hr) as (b & E & Hr' & _).
  { unfold wait_fuel. pose proof (V3daCorrect.rep_fuel_out _ _ _ _ _ Hr). lia. }
  eexists b, _. split; [exact E|]. apply (okay_pass F (ws, outs) (ws, delete k outs) s b G); [by apply fview_answer in E|exact Hr'|apply (fn_reqs _ _ _ _ H)].
Qed.

Lemma wait_op_spec F ws outs s c m rid w t p now : okay F (ws, outs) s -> V3daCorrect.op_typed w -> is_Some (client_get (fences s) (c + 1)) -> p = 0 \/ heap (fences s) !! p = None ->
  exists res m' b ws', V3daCorrect.do_op (fences s) c m rid w t p now = Some (res, m', b) /\ okay F (ws', outs) (set_fences b s).
Proof.
  intros G Ht [cl Hcl] Hp. pose proof (proj1 G) as H. destruct (V3daCorrect.do_op_spec (fences s) c cl m rid w t p now ws outs (fine_tables _ _ _ _ H) Ht Hcl (fn_waits _ _ _ _ H) Hp) as (res & m' & b & E & _ & Hres).
  pose proof (fview_op _ _ _ _ _ _ _ _ _ E) as Ef. cbn in Ef. destruct res as [r|].
  - exists (Some r), m', b, ws. split; [done|]. subst b. apply (okay_pass F (ws, outs) (ws, outs) s); [done..|apply (fn_waits _ _ _ _ H)|apply (fn_reqs _ _ _ _ H)].
  - destruct Hres as (r & Hr & Hq & _). exists None, m', b, ((p, r) :: ws). split; [done|]. apply (okay_pass F (ws, outs) ((p, r) :: ws, outs) s); [done|done|exact Hr|]. constructor; [done|apply (fn_reqs _ _ _ _ H)].
Qed.

Lemma ok_run {A} (m : M A) x ws outs : x.2 = outs.*1 -> wp m x.1 (fun s' _ => exists F', okay F' (ws, outs) s') -> exists y, run m x = Some y /\ sys_ok y.
Proof.
  intros Hh Hw. apply sys_run_ok in Hw as (y & a & E & _ & (F' & G') & Ey). exists y. split; [done|]. exists F', ws, outs. split; [done|congruence].
Qed.
Lemma ok_hold (m : M Z) x outs : x.2 = outs.*1 -> wp m x.1 (fun s' a => exists F' ws la, okay F' (ws, (a, la) :: outs) s') -> exists y, hold m x = Some y /\ sys_ok y.
Proof.
  intros Hh Hw. apply hold_ok in Hw as (y & a & E & (F' & ws & la & G') & Ey). exists y. split; [done|]. exists F', ws, ((a, la) :: outs). split; [done|]. cbn. congruence.
Qed.

Lemma nothing_held F ws outs s : okay F (ws, outs) s -> okay F (ws, (0, []) :: outs) s.
Proof.
  intros G. pose proof (proj1 G) as H. assert (Es : on_bo (on_base (fun _ => fences s)) s = s) by (by destruct s as [[]]). rewrite <- Es. apply (okay_pass F (ws, outs) (ws, (0, []) :: outs) s); [done|done|apply V3daCorrect.rep_claim_start, (fn_waits _ _ _ _ H)|apply (fn_reqs _ _ _ _ H)].
Qed.

Lemma sync_views b c r : fview (sync_do b c r).1 = fview b /\ wview (sync_do b c r).1 = wview b.
Proof.
  assert (Hu : forall b f, (forall cl, cview (f cl) = cview cl) -> fview (upd_client b c f) = fview b /\ wview (upd_client b c f) = wview b) by (intros b' f Hf; split; [unfold fview; cbn; by rewrite cview_alter|done]).
  destruct r; cbn [sync_do]; unfold v3da_syncobj_create, v3da_syncobj_destroy, v3da_syncobj_reset, v3da_syncobj_signal, v3da_syncobj_import; repeat case_match; try done; unfold upd_sync; by apply Hu.
Qed.

Lemma sys_perform_ok x o : sys_ok x -> allowed x o -> exists y, perform o x = Some y /\ sys_ok y.
Proof.
  intros (F & ws & outs & G & Hh) Ha. destruct o; cbn [perform allowed] in *.
  - destruct Ha as (Uc & Hr & Fp). apply (ok_run _ x ws outs Hh). eapply wp_mono; [by apply (submit_spec F (ws, outs))|]. intros s' [[f l]|e]; [by intros [? _]|]. intros [? _]. by exists F.
  - destruct Ha as (Uc & Hr & Hp). apply (ok_run _ x ws outs Hh). eapply wp_mono; [by apply (submit_nop_spec F (ws, outs))|]. intros s' [f|e]; [by intros (_ & ? & _)|]. intros [? _]. by exists F.
  - destruct Ha as (Uc & Hr & Hp). apply (ok_run _ x ws outs Hh). eapply wp_mono; [by apply (attach_fence_spec F (ws, outs))|]. intros s' [g|e]; [|by exists F]. intros [[_ ->]|[? _]]; [by exists F|done].
  - apply (ok_hold _ x outs Hh). eapply wp_mono; [by apply (client_close_spec F (ws, outs))|]. intros s' a [[-> ->]|(F' & ws' & la & G')]; [exists F, ws, []; by apply nothing_held|by exists F', ws', la].
  - apply (ok_run _ x ws outs Hh). apply wp_modify. exists F. by apply client_open_spec.
  - destruct Ha as (Ht & Hc & Hp). destruct (wait_op_spec F ws outs x.1 c m rid w timeout_ms p now G Ht Hc Hp) as (res & m' & b & ws' & E & G'). rewrite E. cbn. eexists. split; [done|]. by exists F, ws', outs.
  - destruct (lookup_lt_is_Some_2 x.2 k Ha) as [a Ea]. rewrite Ea. cbn [mbind option_bind]. rewrite Hh in Ea. destruct (answer_spec F ws outs x.1 k a G Ea) as (b & l & E & G'). rewrite E. cbn. eexists. split; [done|]. exists F, ws, (delete k outs). split; [done|]. cbn. rewrite Hh. symmetry. apply list_fmap_delete.
  - apply (ok_run _ x ws outs Hh). eapply wp_mono; [by apply (flip_spec F (ws, outs))|]. intros s' r [G' _]. by exists F.
  - apply (ok_run _ x ws outs Hh). eapply wp_mono; [by apply (set_mode_spec F (ws, outs))|]. intros s' [[m k]|e]; [by intros [? _]|]. intros (_ & ? & _). by exists F.
  - apply (ok_run _ x ws outs Hh). eapply wp_mono; [by apply (qstats_spec F (ws, outs))|]. intros s' r G'. by exists F.
  - apply (ok_hold _ x outs Hh). eapply wp_mono; [by apply (event_spec F (ws, outs))|]. intros s' a (F' & ws' & la & G'). by exists F', ws', la.
  - apply (ok_run _ x ws outs Hh). apply wp_hw; [apply _|]. intros s' [] Q. exists F. by eapply okay_quiet.
  - apply (ok_run _ x ws outs Hh). apply wp_modify. exists F. by apply okay_bo.
  - apply (ok_run _ x ws outs Hh). apply wp_modify. exists F. destruct (sync_views (fences x.1) c r) as [E1 E2]. apply (okay_pass F (ws, outs) (ws, outs) x.1 _ G E1); [eapply rep_eq; [exact E2|apply (fn_waits _ _ _ _ (proj1 G))]|apply (fn_reqs _ _ _ _ (proj1 G))].
  - eexists. split; [done|]. exists F, ws, outs. split; [|done]. cbn [fst]. eapply okay_tuned; [exact G| |apply (mem_ok_eq x.1); [done..|apply G]]. split_and!; [split_and!; [by split_and!|done..]|by split_and!|done].
Qed.

Lemma sys_reachable_ok x : reachable x -> sys_ok x.
Proof.
  induction 1 as [s s' Hb E|x o y _ IH Ha E].
  - pose proof (init_spec s Hb) as Hw. pose proof (wp_inv _ _ _ _ _ Hw E eq_refl) as G. by exists no_jobs, [], [].
  - destruct (sys_perform_ok x o IH Ha) as (y' & E' & G'). rewrite E in E'. by injection E' as <-.
Qed.

(** ** Fences *)

(** The current fence [n] of queue [q] of the client in slot [c]. *)
Definition fence_of s c q n : fence := mk_fence c q (u32 (slot_gen (fences s) !!! Z.to_nat c)) n.
Definition in_flight s (f : fence) : Prop := exists p j, jobs s !! p = Some j /\ v_fence j = f.

Lemma live_rest F W s p j : okay F W s -> jobs s !! p = Some j -> p ∈ rest F s (v_queue j) (f_slot (v_fence j)).
Proof.
  intros [H _] Ej. pose proof (fn_inv _ _ _ _ H) as HI. destruct (in_all _ _ _ HI p ltac:(by exists j)) as (Hp & [Hx|[(q & i & Hx)|(q & Hq & Hx)]]); [by apply elem_of_nil in Hx| |]; unfold rest; apply elem_of_app.
  - right. destruct (in_F _ _ _ HI q i p Hx) as (_ & _ & j' & Ej' & Eq & Ei). rewrite Ej in Ej'. injection Ej' as <-. by rewrite Eq, Ei.
  - left. destruct (in_act _ _ _ HI q Hq) as [[? _]|(_ & j' & Ej' & Eq & _)]; [congruence|]. rewrite Hx, Ej in Ej'. injection Ej' as <-. rewrite Eq. unfold actl. rewrite Hx, (proj2 (Z.eqb_neq _ _) Hp), Ej. cbn. rewrite Z.eqb_refl. by left.
Qed.
Lemma rest_live F W s q i p : okay F W s -> is_queue q -> p ∈ rest F s q i -> exists j, jobs s !! p = Some j /\ v_queue j = q /\ f_slot (v_fence j) = i.
Proof.
  intros [H _] Hq Hp. pose proof (fn_inv _ _ _ _ H) as HI. unfold rest in Hp. apply elem_of_app in Hp as [Hp|Hp]; [|by destruct (in_F _ _ _ HI q i p Hp) as (_ & _ & ?)].
  unfold actl in Hp. destruct (act s q =? 0) eqn:Ez; [by apply elem_of_nil in Hp|]. bsimp. destruct (in_act _ _ _ HI q Hq) as [[? _]|(_ & j & Ej & Eq & _)]; [done|]. rewrite Ej in Hp. cbn in Hp. destruct (f_slot (v_fence j) =? i) eqn:E; [|by apply elem_of_nil in Hp]. bsimp. apply list_elem_of_singleton in Hp as ->. by exists j.
Qed.

Lemma signaled_iff F W s c q n : okay F W s -> ever_reset (ct s) = false -> used_client s c -> is_queue q -> 1 <= n <= next_of_client s c q ->
  (v3da_fence_signaled (fences s) (fence_of s c q n)).1 = true <-> ~ in_flight s (fence_of s c q n).
Proof.
  intros G Hr [Hc Hu] Hq Hn. pose proof (proj1 G) as H. pose proof (fn_inv _ _ _ _ H) as HI. rewrite V3daFences.signaled_row by (unfold is_slot, is_queue in *; split; cbn; lia). unfold V3daFences.row_signaled. cbn [f_slot f_gen f_seqno f_queue fence_of].
  rewrite (fn_gens _ _ _ _ H c Hc), Z.eqb_refl. cbn [negb orb]. fold (done_of s q c). destruct (proj2 G Hr) as [_ Hl]. specialize (Hl q c Hq Hc). unfold phase_of in Hl. rewrite Hu in Hl. destruct Hl as (H0 & Hs & Hd). fold (next_of_client s c q) in Hd. rewrite Z.leb_le. split.
  - intros Hle (p & j & Ej & Ef). pose proof (live_rest F W s p j G Ej) as Hp. destruct (in_job _ _ _ HI p j Ej) as (_ & Efq & _). rewrite <- Efq, Ef in Hp. cbn in Hp.
    assert (Hm : seq_of s p ∈ seq_of s <$> rest F s q c) by (apply list_elem_of_fmap; by exists p). rewrite Hs in Hm. apply elem_of_seqZ in Hm. unfold seq_of in Hm. rewrite Ej in Hm. cbn in Hm. rewrite Ef in Hm. cbn in Hm. lia.
  - intros Hno. destruct (decide (n <= done_of s q c)) as [?|Hgt]; [done|]. exfalso. apply Hno. assert (Hm : n ∈ seq_of s <$> rest F s q c) by (rewrite Hs; apply elem_of_seqZ; lia). apply list_elem_of_fmap in Hm as (p & En & Hp).
    destruct (rest_live F W s q c p G Hq Hp) as (j & Ej & Eq & Ei). exists p, j. split; [done|]. destruct (in_job _ _ _ HI p j Ej) as (_ & Efq & _ & Eg). unfold seq_of in En. rewrite Ej in En. cbn in En. unfold fence_of. rewrite Ei in Eg. destruct (v_fence j) as [a b d e]. cbn in *. congruence.
Qed.

(** * Claims *)

(** The FIFOs of the queues. *)
Definition fifos (F : Z -> Z -> list Z) s : Prop := forall q i, is_queue q -> is_slot i -> seg (jobs s) (head_of s q i) (F q i) /\ tail_of s q i = last0 (F q i).

(** C2: whatever requests, rounds of the event thread, answers, closed connections and interrupts came
    before, and whatever the GPU answers, every operation of the server is defined: it follows no pointer to a freed job or
    wait, frees nothing twice, and its walks over queues, chunks and waits end. *)
Theorem v3d_server_defined (x : sys) (o : op) : reachable x -> allowed x o -> is_Some (perform o x).
Proof. intros Hx Ha. destruct (sys_perform_ok x o (sys_reachable_ok x Hx) Ha) as (y & E & _). by exists y. Qed.

(** C4: as long as the GPU was not reset, a fence handed out to a connected client is signaled exactly when
    no job that carries it is queued or on the hardware. *)
Theorem v3d_fence_signaled_iff (s : jsrv) (held : list Z) (c q n : Z) :
  reachable (s, held) -> ever_reset (ct s) = false -> used_client s c -> is_queue q -> 1 <= n <= next_of_client s c q ->
  (v3da_fence_signaled (fences s) (fence_of s c q n)).1 = true <-> ~ in_flight s (fence_of s c q n).
Proof. intros Hx. destruct (sys_reachable_ok _ Hx) as (F & ws & outs & G & _). by eapply signaled_iff. Qed.

(** C10: every overflow chunk of the binner has exactly one owner in every reachable state: the free
    list, the interrupt handler (or the word it handed it out through), or one job, whatever interrupts came. *)
Theorem v3d_chunk_owner (s : jsrv) (held : list Z) : reachable (s, held) ->
  exists L, (forall o, chain (o_next (ov s)) (heads s (-1) o) (L o)) /\ nfree (ov s) = zlen (L Free) /\ armed s /\
    forall i, 0 <= i < nchunks (ov s) -> exists o, i ∈ L o /\ forall o', i ∈ L o' -> o' = o.
Proof.
  intros Hx. destruct (sys_reachable_ok _ Hx) as (F & ws & outs & G & _). destruct (fn_mem _ _ _ _ (proj1 G)) as [[L [H _ _ Hn _ _]] A]. exists L. split_and!; [apply H|done|done|].
  intros i Hi. apply (ow_all _ _ _ _ H) in Hi as [o Ho]. exists o. split; [done|]. intros o' Ho'. by eapply (ow_disj _ _ _ _ H).
Qed.

(** C11: the scheduler, when it does not have to reset the GPU, starts on every idle queue the head of a
    FIFO that is ready, if there is one; in SERIAL mode it starts at most one job on the hardware, only when none is busy, and the oldest ready one; it starts
    nothing else. *)
Theorem v3d_sched_run_spec (s : jsrv) (held : list Z) : reachable (s, held) ->
  exists s' F F', v3da_sched_run s = Some (s', tt) /\ fifos F s /\ fifos F' s' /\ (ever_reset (ct s') = false -> sched_ok F s F' s').
Proof.
  intros Hx. destruct (sys_reachable_ok _ Hx) as (F & ws & outs & G & _). destruct (okay_run F _ s G) as (s' & [] & E & F' & G' & _ & C). exists s', F, F'. split_and!; [done|..|done]; intros q i; [apply (in_fifo _ _ _ (fn_inv _ _ _ _ (proj1 G)))|apply (in_fifo _ _ _ (fn_inv _ _ _ _ (proj1 G')))].
Qed.

(** C22: a tick of the watchdog takes a job off its hardware queue once its check is due and it was
    started ten seconds ago or more, whatever the GPU reports: no client can hold a queue. *)
Theorem v3d_watchdog (s : jsrv) (held : list Z) (now : Z) : reachable (s, held) ->
  exists s', v3da_jobs_tick now s = Some (s', tt) /\
    forall q j, is_queue q -> is_hw_queue q = true -> jobs s !! act s q = Some j -> expired j now -> act s' q = 0.
Proof.
  intros Hx. destruct (sys_reachable_ok _ Hx) as (F & ws & outs & G & _). destruct (tick_spec (phase_of s) F _ s now G ltac:(done)) as (s' & [] & E & _ & Hq). by exists s'.
Qed.

(** C21: a submission is answered. A request with a [fault] (sizes, a syncobj that the client does not have, an empty render
    list) is answered with that fault's error, one that names an unknown buffer with [ENOENT], one for which memory runs
    out with [ENOMEM]; and no job, fence or queue has changed. Any other is answered with the next fences of the queues
    its jobs are for. *)
Theorem v3d_submit_spec (s : jsrv) (held : list Z) c o h data p1 p2 malloc : reachable (s, held) -> used_client s c -> room s c -> fresh_pair s p1 p2 -> hdr_ok h ->
  exists s' r, v3da_submit c o h data p1 p2 malloc s = Some (s', r) /\
    (forall e, fault (client_at (fences s) c) o h data e -> r = Err e) /\
    match r with
    | Err e => jobs s' = jobs s /\ fences s' = fences s /\ qs s' = qs s /\
        (fault (client_at (fences s) c) o h data e \/ exists d w, data = Some d /\ sized o h d w /\
           (e = ENOENT /\ (exists b, b ∈ sb_bos (layout o h d w) /\ v3da_bo_find (bo s) b = None) \/
            e = ENOMEM /\ (p1 = 0 \/ sb_bin (layout o h d w) = true /\ p2 = 0 \/ malloc = false /\ sb_bos (layout o h d w) <> [])))
    | Ok (f, l) => exists d w, data = Some d /\ sized o h d w /\ (forall b, b ∈ sb_bos (layout o h d w) -> is_Some (v3da_bo_find (bo s) b)) /\
        issued s s' c (first_queue o (layout o h d w)) f /\ issued s s' c (last_queue o (layout o h d w)) l
    end.
Proof.
  intros Hx Uc Hr Fp Hh. destruct (sys_reachable_ok _ Hx) as (F & ws & outs & G & _). destruct (submit_spec F _ s c o h data p1 p2 malloc G Uc Hr Fp) as (s' & r & E & Hs). exists s', r. split; [done|].
  pose proof (check_submit_refused (client_at (fences s) c) o h data Hh) as Hc. unfold submit_ok in Hs. destruct r as [[f l]|e].
  - destruct Hs as (_ & sb & Ec & Ep & I1 & I2). rewrite Ec in Hc. destruct Hc as [(d & w & -> & Hw & ->) Hn]. split; [intros e Hf; by destruct (Hn e)|]. exists d, w. split_and!; try done. by apply pinned_found.
  - destruct Hs as (_ & Ef & Ej & Eq & [Ec|(sb & Ec & Hw)]); rewrite Ec in Hc; destruct Hc as [Hc1 Hc2]; (split; [intros e' Hf|]).
    + f_equal. symmetry. auto.
    + split_and!; auto.
    + by destruct (Hc2 e').
    + split_and!; auto. right. destruct Hc1 as (d & w & -> & Hz & ->). exists d, w. split_and!; try done. destruct Hw as [Hw|Hw]; [left; by apply unpinned_missing|by right].
Qed.
End system.
End V3daSystem.
