(* ===== verification/V3daJobsWitness.v ===== *)
(** * Runs of the V3D render server

    The claims on the server are applied to concrete runs: a client connects, submits a control list with a
    bin and a render job, and the event thread runs. *)

From S2P Require Import Prelude V3daSched V3daSchedCorrect V3daPool V3daBo V3daGpu V3daGpuFrame V3daJobs V3daChunks V3daQueues V3daDone V3daOrder V3daRun V3daTick V3daClose V3daSubmit V3daRequest V3daSubmitCl V3daServe V3daBoot V3daSystem.

Module V3daJobsWitness.
Import V3da V3daPool V3daBo V3daGpu V3daGpuFrame V3daJobs V3daChunks V3daQueues V3daDone V3daOrder V3daRun V3daTick V3daClose V3daSubmit V3daRequest V3daSubmitCl V3daServe V3daBoot V3daSystem.

(** ** A machine *)

(** A kernel whose state is the time. *)
#[local] Instance demo_kernel : Kernel := {
  kstate := Z;
  k_mmap k bytes _ := Some (0x1000000, k);
  k_mmap_fd k _ bytes _ := None;
  k_munmap k cpu _ := k;
  k_va2pa _ va := va;
  k_zero k cpu _ := k;
  k_export k _ _ _ := (0, k);
  k_unexport k _ := k;
  k_now k := (k, k)
}.
(** A GPU whose state is its pending interrupts and the status of the compute unit. *)
#[local] Instance demo_gpu : Device := {
  device := Z * Z;
  dev_read d b r := match b with CORE => if r =? CTL_INT_STS then (d.1, d) else if r =? CSD_STATUS then (d.2, d) else (0, d) | HUB => (0, d) end;
  dev_write d b r x := match b with CORE => if r =? CTL_INT_CLR then (d.1 &&& lnot_w 32 x, d.2) else d | HUB => d end;
  dev_power_cycle d := (0, 0);
  dev_prop d _ _ _ := (Ok (0, 0), d)
}.

Definition fences0 : srv :=
  mk_srv (replicate 60 (mk_slot (replicate 6 0) 0 0)) (replicate 6 0) (replicate 60 0) (replicate 60 (replicate 6 0)) (replicate 6 None)
    (replicate 60 no_client) 0 ∅ 0 0 0 0 false 7 7.
Definition buffers0 : bsrv :=
  mk_bsrv fences0 (replicate 6 0) (hw_start []) [] [] (mk_pool [] 0 0 0 0 0 0 0 (mk_notes 0 0 0 0 0)) (mk_low 0 0 0 0 0 0 0 0 0) (mk_scan 0 0 0 [0; 0; 0]) [] 0 0 0 false 0 0 1000.
Definition server0 : jsrv :=
  mk_js buffers0 (0, 0) (mk_words 0 0 0 0 0 0 0 false 0 0 0 0) [] ∅ (replicate 6 idle_queue) (mk_ovf 0 0 0 0 0 0 (replicate 512 0) 0 0)
    (mk_ct 0 0 0 0 0 0 0 0 0 0 0 0 0 0 0 0 0 0 0 0 0 0 0 false) (mk_cf V3DA_MODE_PIPELINE 0 500 0 4096 0 0 0) (mk_present [] 0 0 0 0 0).

Lemma server0_before : before server0.
Proof. split; try done. by exists []. Qed.

(** ** Runs *)

Definition after {A} (m : option (jsrv * A)) : sys := (from_option fst server0 m, []).
Definition next (o : op) (x : sys) : sys := default x (perform o x).
Definition booted : sys := after (v3da_ovf_init server0).

Lemma some_default {A} (m : option A) d : bool_decide (is_Some m) = true -> m = Some (default d m).
Proof. intros H. apply bool_decide_eq_true in H as [x ->]. done. Qed.
Lemma some_ok (m : option (jsrv * cres unit)) s0 : match m with Some (_, Ok _) => true | _ => false end = true -> m = Some (from_option fst s0 m, Ok tt).
Proof. by destruct m as [[s [[]|e]]|]. Qed.
Lemma reach_next x o : reachable x -> allowed x o -> bool_decide (is_Some (perform o x)) = true -> reachable (next o x).
Proof. intros H1 H2 H3. eapply reach_step; [exact H1|exact H2|]. by apply some_default. Qed.
Definition room_check (s : jsrv) (c : Z) : bool := forallb (fun q => (0 <=? next_of_client s c q + 1) && (next_of_client s c q + 1 <? 2 ^ 64)) (seqZ 0 6).
Lemma room_checked s c : room_check s c = true -> room s c.
Proof.
  unfold room_check. rewrite forallb_forall. intros H q Hq. specialize (H q). rewrite <- list_elem_of_In, elem_of_seqZ in H. unfold is_queue in Hq. specialize (H ltac:(lia)). bsimp. lia.
Qed.

Lemma reach_booted : reachable booted.
Proof. apply (reach_start server0 booted.1); [apply server0_before|]. apply (some_ok _ server0). by vm_compute. Qed.

(** Client 0 connects and submits. *)
Definition word (x : Z) : list Z := [x; 0; 0; 0].
Definition control_list (b1 b2 r1 r2 : Z) : option (list Z) := Some (word b1 ++ word b2 ++ word r1 ++ word r2 ++ replicate 16 0).
Definition submit1 : op := Submit 0 V3DA_OP_SUBMIT_CL (mk_hdr 32 0 0 0) (control_list 1 2 3 4) 100 104 true.
Definition connected : sys := next (OpenClient 42) booted.
Definition submitted : sys := next submit1 connected.

Lemma reach_connected : reachable connected.
Proof. apply reach_next; [apply reach_booted|done|by vm_compute]. Qed.
Lemma submit1_allowed : used_client connected.1 0 /\ room connected.1 0 /\ fresh_pair connected.1 100 104.
Proof. split_and!; [split; [done|by vm_compute]|by apply room_checked; vm_compute|]. split; [intros _; by vm_compute|intros _; split; [by vm_compute|done]]. Qed.
Lemma reach_submitted : reachable submitted.
Proof. apply reach_next; [apply reach_connected|apply submit1_allowed|by vm_compute]. Qed.
Lemma reach_pair x : reachable x -> reachable (x.1, x.2).
Proof. by destruct x. Qed.

(** ** The claims apply *)

Lemma v3d_server_defined_witness : is_Some (perform submit1 connected).
Proof. apply (v3d_server_defined connected submit1); [apply reach_connected|apply submit1_allowed]. Defined.

(** The bin job is on the hardware. *)
Lemma v3d_fence_signaled_iff_witness : act submitted.1 Q_BIN = 100 /\
  ((v3da_fence_signaled (fences submitted.1) (fence_of submitted.1 0 Q_BIN 1)).1 = true <-> ~ in_flight submitted.1 (fence_of submitted.1 0 Q_BIN 1)).
Proof.
  split; [by vm_compute|]. apply (v3d_fence_signaled_iff submitted.1 submitted.2 0 Q_BIN 1); [apply reach_pair, reach_submitted|by vm_compute|split; [done|by vm_compute]|done|by vm_compute].
Defined.

Lemma v3d_chunk_owner_witness : nchunks (ov submitted.1) = 8 /\
  exists L, (forall o, chain (o_next (ov submitted.1)) (heads submitted.1 (-1) o) (L o)) /\ nfree (ov submitted.1) = zlen (L Free) /\ armed submitted.1 /\
    forall i, 0 <= i < nchunks (ov submitted.1) -> exists o, i ∈ L o /\ forall o', i ∈ L o' -> o' = o.
Proof. split; [by vm_compute|]. apply (v3d_chunk_owner submitted.1 submitted.2). apply reach_pair, reach_submitted. Defined.

Lemma v3d_sched_run_spec_witness :
  exists s' F F', v3da_sched_run submitted.1 = Some (s', tt) /\ fifos F submitted.1 /\ fifos F' s' /\ (ever_reset (ct s') = false -> sched_ok F submitted.1 F' s').
Proof. apply (v3d_sched_run_spec submitted.1 submitted.2). apply reach_pair, reach_submitted. Defined.

Definition bin_job : vjob := default (new_job submitted.1 0 0 0 0) (jobs submitted.1 !! act submitted.1 Q_BIN).
Lemma bin_job_active : jobs submitted.1 !! act submitted.1 Q_BIN = Some bin_job.
Proof. apply some_default. by vm_compute. Qed.
Lemma expired_checked j now : (v_check j <=? now) && (WD_HARD_CAP_US <=? u64 (now - v_kick j)) = true -> expired j now.
Proof. intros H. bsimp. by split. Qed.
Lemma bin_job_expired : expired bin_job 20000000.
Proof. apply expired_checked. by vm_compute. Qed.

(** After twenty seconds the bin job is off its queue. *)
Lemma v3d_watchdog_witness : exists s', v3da_jobs_tick 20000000 submitted.1 = Some (s', tt) /\ act s' Q_BIN = 0.
Proof.
  destruct (v3d_watchdog submitted.1 submitted.2 20000000 (reach_pair _ reach_submitted)) as (s' & E & H). exists s'. split; [exact E|].
  exact (H Q_BIN bin_job (conj (Z.le_refl 0) eq_refl) eq_refl bin_job_active bin_job_expired).
Defined.

(** A control list is answered; without its data it is refused. *)
Lemma v3d_submit_spec_witness :
  (exists s' r, v3da_submit 0 V3DA_OP_SUBMIT_CL (mk_hdr 32 0 0 0) (control_list 1 2 3 4) 100 104 true connected.1 = Some (s', r)) /\
  exists s', v3da_submit 0 V3DA_OP_SUBMIT_CL (mk_hdr 32 0 0 0) None 100 104 true connected.1 = Some (s', Err EINVAL) /\ qs s' = qs connected.1.
Proof.
  destruct submit1_allowed as (Uc & Hr & Fp). assert (Hh : hdr_ok (mk_hdr 32 0 0 0)) by (split_and!; apply Z.le_refl). split.
  - destruct (v3d_submit_spec connected.1 connected.2 0 V3DA_OP_SUBMIT_CL (mk_hdr 32 0 0 0) (control_list 1 2 3 4) 100 104 true (reach_pair _ reach_connected) Uc Hr Fp Hh) as (s' & r & E & _). by exists s', r.
  - destruct (v3d_submit_spec connected.1 connected.2 0 V3DA_OP_SUBMIT_CL (mk_hdr 32 0 0 0) None 100 104 true (reach_pair _ reach_connected) Uc Hr Fp Hh) as (s' & r & E & Hf & Hs).
    assert (r = Err EINVAL) as -> by (by apply Hf, bad_size). exists s'. split; [exact E|apply Hs].
Defined.

(** ** What the server does not promise *)

Definition free_at (s : jsrv) (p : Z) : bool := match jobs s !! p with None => true | Some _ => false end.
Definition may (x : sys) (o : op) : bool :=
  match o with
  | Submit c _ _ _ p1 p2 _ => (0 <=? c) && (c <? 60) && c_used (client_at (fences x.1) c) && room_check x.1 c && free_at x.1 p1 && free_at x.1 p2 && negb (p2 =? p1)
  | World _ _ _ | EventRound | OpenClient _ | Close _ | SyncObject _ _ => true
  | _ => false
  end.
Lemma may_allowed x o : may x o = true -> allowed x o.
Proof.
  assert (Hf : forall p, free_at x.1 p = true -> jobs x.1 !! p = None) by (intros p; unfold free_at; by destruct (jobs x.1 !! p)).
  destruct o; cbn; try done. intros H. repeat (apply andb_true_iff in H as [H ?]). bsimp. split_and!; [split; [by split|done]|by apply room_checked|]. split; [intros _; by apply Hf|intros _; split; [by apply Hf|done]].
Qed.

(** The state after a run, if each of its operations is allowed. *)
Fixpoint go (ops : list op) (x : sys) : option sys :=
  match ops with [] => Some x | o :: ops => if may x o then y ← perform o x; go ops y else None end.
Lemma reach_go ops : forall x y, reachable x -> go ops x = Some y -> reachable y.
Proof.
  induction ops as [|o ops IH]; intros x y Hx; cbn [go]; [by intros [= <-]|]. destruct (may x o) eqn:E; [|done]. destruct (perform o x) as [z|] eqn:Ez; [|done]. apply IH. eapply reach_step; [exact Hx|by apply may_allowed|exact Ez].
Qed.
Lemma run_shows ops x (test : sys -> bool) : reachable x -> match go ops x with Some y => test y | None => false end = true -> exists y, reachable y /\ test y = true.
Proof. intros Hx H. destruct (go ops x) as [y|] eqn:E; [|done]. exists y. split; [by eapply reach_go|done]. Qed.

Definition at_ (us sts csd : Z) : op := World (sts, csd) [] us.
Definition cl_job (c p : Z) (d : option (list Z)) : op := Submit c V3DA_OP_SUBMIT_CL (mk_hdr 32 0 0 0) d p (p + 4) true.
Definition done_upto (x : sys) (slot q : Z) : Z := arr_get (completed (slot_at (fences x.1) slot)) q.

(** Client 0 has a render job on the hardware; client 1 has two bins with their renders queued behind it. The first bin ends, the
    second is reset by the watchdog. *)
Definition hung : list op :=
  [OpenClient 1; OpenClient 2; cl_job 0 100 (control_list 1 1 3 4); cl_job 1 200 (control_list 1 2 3 4); cl_job 1 300 (control_list 1 2 3 4);
   at_ 2000 INT_FLDONE 0; EventRound; at_ 600000 0 0; EventRound; at_ 600100 0 0; EventRound].

(** A render job whose bin failed is completed while an earlier render job of the client is on the hardware: the
    client reads that fence 2 is done, and, when the earlier job ends, that only fence 1 is. *)
Definition ended_late : list op := [at_ 600200 INT_FRDONE 0; EventRound].
Definition goes_back (x : sys) : bool :=
  (done_upto x 1 Q_RENDER =? 2) && negb (act x.1 Q_RENDER =? 0) && match go ended_late x with Some y => done_upto y 1 Q_RENDER =? 1 | None => false end.
Example completed_goes_back : exists x, reachable x /\ done_upto x 1 Q_RENDER = 2 /\ act x.1 Q_RENDER <> 0 /\ exists y, go ended_late x = Some y /\ done_upto y 1 Q_RENDER = 1.
Proof.
  destruct (run_shows hung booted goes_back reach_booted) as (x & Hx & Ht); [by vm_compute|]. exists x. split; [done|]. unfold goes_back in Ht. destruct (go ended_late x) as [y|]; bsimp; [|done]. split_and!; [done|done|]. by exists y.
Qed.

(** A request that is refused for a knob has changed the mode. *)
Example mode_changed_on_error : exists s', v3da_set_mode (mk_mode 3 V3DA_MODE_SERIAL (2 ^ 31)) booted.1 = Some (s', Err EINVAL) /\ mode (cf booted.1) = V3DA_MODE_PIPELINE /\ mode (cf s') = V3DA_MODE_SERIAL.
Proof. eexists. split; [reflexivity|]. by split; vm_compute. Qed.
End V3daJobsWitness.
